(* ===== verification/_CoqProject ===== *)
-Q . S2P
Prelude.v
PyStr.v
PyDatetime.v
PyDatetimeFacts.v
PyDecimal.v
PyJson.v
AcquisitionContracts.v
AcquisitionStateMachine.v
AcquisitionStateFacts.v
AcquisitionEquiv.v
Database.v
AcquisitionStore.v
AcquisitionStoreFacts.v
AcquisitionTheorems.v
PolicyContracts.v
PolicyEvaluator.v
PolicyFacts.v
PolicyTheorems.v
PolicyStore.v
PolicyGateway.v
PolicyGatewayTheorems.v
OperationsContracts.v
OperationsStore.v
CircuitBreakers.v
OperationsFacts.v
SafetyController.v
OperationsTheorems.v
SafetyTheorems.v
Recency.v
RecencyTheorems.v
BillingCatalogue.v
BillingStore.v
BillingService.v
BillingCheckout.v
BillingWebhooks.v
BillingPlanChange.v
BillingGrants.v
BillingFacts.v
BillingSpecs.v
BillingTheorems.v
PyText.v
PyFloat.v
Understanding.v
Needs.v
PyTextFacts.v
NeedsFacts.v
NeedsTheorems.v
MatchingModel.v
MatchingEngine.v
MatchingFacts.v
MatchingTheorems.v
RuntimeContracts.v
RuntimeStore.v
RuntimeAttempts.v
RuntimeLease.v
RuntimeLedger.v
RuntimeHistory.v
RuntimeRunner.v
RuntimeRuns.v
RuntimeTheorems.v
ComplianceContracts.v
ComplianceRules.v
ContactContracts.v
ContactStore.v
Suppression.v
ProspectRecords.v
ComplianceStore.v
ComplianceService.v
ComplianceFacts.v
ComplianceCalls.v
ComplianceTheorems.v
ContactTheorems.v
PyZoneInfo.v
CampaignContracts.v
CampaignFactory.v
CampaignStore.v
CampaignFacts.v
CampaignWebhooks.v
CampaignTheorems.v
WebhookTheorems.v
