(* ===== verification/Prelude.v ===== *)
(** A verification development of Kivou's decision core (the Python package
    [signals] under [src/src/signals]).

    * The program, and what is modelled

    Kivou turns public procurement notices into signals for its customers and
    prospects new ones.  The parts modelled here are those that decide and
    that keep durable state:

    - Acquisition ([acquisition/]): an append-only stream of events per
      opportunity, a pure state machine that reduces it, and the projection
      kept beside it in the same transaction.
      AcquisitionContracts (data, validation), AcquisitionStateMachine (the
      reducers and [replay]), AcquisitionStore (the tables and operations).
    - Policy ([policy/]): every command is evaluated against the control in
      force, its evidence, budgets and envelope; each evaluation is recorded
      together with an event of the stream it concerns.
      PolicyContracts, PolicyEvaluator, PolicyStore, PolicyGateway.  The gateway sees the acquisition store through the
      class [AuditJournal], which PolicyGatewayTheorems implements with it.
    - Operations ([operations/]): incidents and dead letters, the breakers
      that open them and block execution, the controller that lowers autonomy
      through the policy's control history, and the guarded requeue.
      OperationsContracts, OperationsStore, CircuitBreakers,
      SafetyController (with the requeue).
    - Recency and feed ([recency/], [feed/policy.py], part of
      [feed/query.py]): what the dates of an award allow to say and which
      signals a feed admits.  Recency.
    - Billing ([billing/]): plans and rights, the synchronisation with
      Stripe, webhooks, checkout attempts, plan changes and the signals given
      for free.  BillingCatalogue, BillingStore, BillingService,
      BillingCheckout, BillingWebhooks, BillingPlanChange, BillingGrants.
      Access to a signal reads the feed's date of it.
    - Needs and matching ([needs/], [matching/], the data of
      [understanding/]): from the facts of an award the needs its winner will
      have, with the claims that found them, then the filters, the score and
      the decision of a target profile.  Understanding (the data both read),
      Needs (features, rules, derivation), MatchingModel
      (profiles, results, their validation) and MatchingEngine.
    - Acquisition runtime ([acquisition_runtime/]): one bounded cycle of
      stages per opportunity, under a lease with a fencing token, each
      attempt of a stage reserving its cost and binding its proposal before
      it executes.  RuntimeContracts (the records), RuntimeStore (tables,
      lease, cycles, beginning of a stage), RuntimeAttempts (reservations,
      proposals, results, observations), RuntimeRunner (the registry and
      [run_once]).  The end of RuntimeAttempts makes one transition system of
      the operations; the supervisor, the handlers of the stages, the clocks and
      the operations of other processes between two transactions of a run are
      arguments.
    - Contacts ([contact_discovery/] and the records of [supplier_discovery/]
      and [company_research/]): verified contacts and the runs that discover
      them.  ContactContracts, ContactStore, ProspectRecords.
    - Compliance ([compliance/]): whether a prospect may be contacted - the
      jurisdiction and the rules, the suppressions under keyed identities,
      and an assessment from its reading to the policy and its commits.
      ComplianceContracts, ComplianceRules, Suppression, ComplianceStore,
      ComplianceService (with what it asks of the policy).
      It reads the contacts, calls the policy gateway and writes to the
      acquisition stream.
    - Campaigns ([campaigns/]): the planning of a batch and its two-step
      calendar, batches with their members, pacing and the ledger of
      the provider's operations, and the events the provider sends.
      CampaignContracts, CampaignFactory, CampaignStore, CampaignWebhooks.
      An event writes to the batches, the suppressions and the acquisition
      stream in one transaction.

    Under them: this file (exceptions, the error monad, inversion tactics,
    string enumerations), PyStr, PyDatetime, PyDecimal, PyJson, PyText,
    PyFloat and PyZoneInfo (what the code uses of Python's strings,
    datetimes, decimals, [json], published text with its regular expressions,
    floats and time zones), and Database (what the stores rely on from the
    tables).  The end of Suppression gives functions for the interfaces of the
    libraries, on which witnesses evaluate.

    * How the model corresponds to the code

    A definition carries in brackets the file, lines and name it translates.
    Names are the source's where Rocq allows; a field has a prefix for its
    record.  A function that raises returns [result]; one that runs in a
    transaction takes the tables and returns the tables after it, and a
    [Raise] carries none, being rolled back.  Functions that call Stripe are
    transactions [tx] over the tables and a state of Stripe's own, which a
    rollback leaves.  Where transactions interleave, what the others commit
    between two statements is an argument ([others], or the two halves
    [append_read] and [append_write]), so a theorem for every argument is one
    for every interleaving.

    Values the code draws (identifiers, the clock) are arguments.  Strings
    are bytes: Latin-1 where the code classifies characters, UTF-8 in the
    French texts of Recency and Billing and in all of needs and matching,
    where PyText counts and classifies the encoded characters; which
    characters outside ASCII are alphanumeric is an argument, the class
    [UnicodeData], and how they fold to one case the class [CaseData].  A float is a [spec_float] at precision 53, and [float(s)]
    reads ASCII digits.  Pydantic's stripping, bounds and
    patterns are written out where the models declare them.  SHA-256 is any
    function to sixty-four hexadecimal digits (the class [HashLib]), and so is a keyed digest
    ([HmacLib]); theorems speak of equal and different digests.  The offsets of
    Zurich and Paris are the class [ZoneInfo], with what is documented of
    their clocks since 2000; an hour ahead of UTC all year satisfies it
    ([FixedZones]).  A [DateTime(timezone=True)] column gives back an
    equal instant and a [Numeric(p, s)] column a value it stores unchanged
    again, an amount at its scale as it is: the laws of the class [Database], which [ExactDatabase] and
    [ScaledDatabase] satisfy.

    * The theorems

    - AcquisitionTheorems: the projection always equals the replay of its
      stream; appends serialise; a retried append is answered from the stream
      and a reused key refused; no contact without a recorded send; streams
      are gapless; outcomes never regress.  Beside the listed properties:
      references are written once, a hold is documented, decisions have the
      shape of their policy.
    - PolicyTheorems: a command is allowed exactly within its envelope; hard
      stops; evaluation is total; also budgets and validity.
      PolicyGatewayTheorems: every evaluation is audited once and replayed
      after; the control used is the one in force; a conditional append is
      exclusive, and control revisions only increase.
    - OperationsTheorems: an open breaker holds until it is resolved;
      lifecycles only move forward; one incident per trigger; the exact
      conditions of the bounce breaker, of retries, of the requeue and of
      readiness.  SafetyTheorems: a downgrade never raises autonomy; a
      critical stop ends stopped, and terminates unless others keep writing.
    - RecencyTheorems: what each status says of the dates; the sentence
      claims a victory exactly for a recent decision; the preselection by
      date of the feed drops nothing a freshness mode admits.
    - BillingTheorems: events are applied once; an open subscription is never
      replaced and its clock never goes back, over every run of the billing
      transactions; rights follow what is paid; one payment at a time; plan
      changes are numbered; three signals are given.
    - NeedsTheorems: a need names a mechanism and a pressure that hold, cites
      claims of the contract and is worded without certainty; the categories
      announced are the first three of a ranking, and every other candidate
      is recorded with its reason; the derivation raises exactly when it
      quotes a text it refuses.
    - MatchingTheorems: a match is always produced; it is shown exactly
      within the profile and from sixty points on; a failed filter is never
      compensated; the floating-point score is the exact percentage.
    - RuntimeTheorems: an overtaken token changes nothing; the cost of a cycle
      is the exact sum of the charges of its attempts, and reservations stay
      within its budget; results are never rewritten; an interrupted attempt
      goes on as the same one; a run follows the protocol of the store, from
      the acquisition of its lease to its release, executes only what was
      reserved and bound, in order, and does not keep its lease.  RuntimeRuns
      is a program logic for runs, with that protocol as a machine over the
      operations; RuntimeLease, RuntimeLedger and RuntimeHistory hold what
      every operation keeps.
    - ComplianceTheorems: a suppressed contact is never allowed, whatever
      other processes commit meanwhile; the rules allow exactly what they
      say; an assessment is recorded together with its event; only French
      prospects with verified facts are allowed.
    - ContactTheorems: an observation never goes back; what is stored reads
      back as a built record; a discovery has one owner.
    - CampaignTheorems: batches count their members, hold ten at most and
      close for good; no run of reservations exceeds the caps of a day or
      meets a company twice in thirty days; an opportunity has one member,
      for good; an attempt at the provider has one worker; the second message
      falls in its authorised window.  WebhookTheorems: an event has its
      effects once; a second message needs a first one sent in its window;
      and the pauses that events ask for are refused by the ledger.
    - The files named Facts, Specs and Calls hold the lemmas these
      share.  Some theorems stay beside the listed properties: hard stops,
      budgets, retries, readiness, the order of control revisions, plan
      changes, the first free signals and the like.

    The claims about single operations are stated on their success or for
    each outcome; what they need of the tables is an invariant every
    operation is proved to keep.

    * Recursion

    Almost every function is structural, on the stream, the list or the
    string; a regular expression is matched by derivatives along the text.
    The loops the code bounds ([MAX_CONTROL_APPEND_ATTEMPTS], three) recurse
    on that bound.  The loop to the next weekday is defined with Equations on
    the days left of the week-end.  The only fuel is in PyDecimal, where the digits of a
    coefficient are counted with its number of bits, which is enough.

    * Not modelled

    HTTP routes, command lines, connectors to public registers, document
    extraction, language models, views and quality-assurance tools are input
    and output around this core.  The engine that understands
    an award, the decision engine, the service and the worker of the
    campaigns with the client of their provider, the stages of the
    acquisition runtime and its programmes and the conversion milestones are
    decisions of the same kind that are left out: they orchestrate the
    modelled stores over external services.  An event of the provider is one
    atomic transaction; the parsing of its body by Pydantic, the ingress of
    responses and that of assisted prospects are not modelled.  Of modelled parts: the joins, display identity
    and scan loop of [feed/query.py], the preview of the initial backfill in
    [billing/discovery.py] and the adapter over the Stripe SDK in
    [billing/gateway.py].  Foreign keys to tables outside the model are
    arguments or are left out. *)

From stdpp Require Export base list option strings gmap.
From Stdlib Require Export ZArith Lia.

#[global] Set Default Goal Selector "!".

(** * Exceptions and the error monad *)

(** The exceptions the modelled code raises, each with the argument it is
    raised with.  [ValidationError] is what building a pydantic model with
    a field outside its declared constraints raises; [IntegrityError] is
    what a violated table constraint raises and [DataError] what a value too
    long or too large for its column raises; [OverflowError] is what
    [datetime + timedelta] raises outside the years 1 to 9999 and
    [InvalidOperation] what [decimal] raises on a result too long. *)
Inductive exn : Type :=
| InvalidTransition (message : string)
| IdempotencyConflict (key : string)
| AcquisitionIdentityConflict (key : string)
| OpportunityConcurrencyConflict (message : string)
| UnsupportedStateMachineVersion (version : string)
| ProjectionNotFound (opportunity_id : string)
| PolicyControlUnavailable (message : string)
| PolicyEvaluationIdempotencyConflict (evaluation_id : string)
| OperationsConflict (message : string)
| SafetyControlConflict (message : string)
| AcquisitionCircuitOpen (message : string)
| DeadLetterRequeueBlocked (message : string)
| AcquisitionRuntimeConflict (message : string)
| CampaignIdempotencyConflict (message : string)
| CampaignInputChanged (message : string)
| CampaignPacingExceeded (message : string)
| SequenceTimingInvariantViolation (message : string)
| WebhookBindingError (message : string)
| SuppressionIdentityUnavailable (message : string)
| SuppressionIdempotencyConflict (suppression_id : string)
| ComplianceAssessmentIdempotencyConflict (evaluation_id : string)
| ComplianceRulesetMismatch (message : string)
| ComplianceNotActionable (opportunity_id : string)
| ComplianceBindingConflict (opportunity_id : string)
| CompliancePersonalizationNotReady (opportunity_id : string)
| ComplianceEvaluationRequiresFreshAttempt (evaluation_id : string)
| ComplianceInputChanged (opportunity_id : string)
| ContactObservationConflict (message : string)
| ContactRunIdentityConflict (run_id : string)
| ContactRunAlreadyStarted (run_id : string)
| InterruptedError
| AssertionError
| BillingError (code message : string)
| UnknownPlan (plan_code : string)
| UnknownCurrency (currency : string)
| LookupError (message : string)
| ValueError (message : string)
| ValidationError (field : string)
| IntegrityError (constraint : string)
| DataError (column : string)
| OverflowError
| InvalidOperation
| TypeError
| KeyError (key : string)
| RuntimeError (message : string)
| NoResultFound.

Inductive result (A : Type) : Type :=
| Ok (value : A)
| Raise (error : exn).
Arguments Ok {A} value.
Arguments Raise {A} error.

Definition result_bind {A B} (r : result A) (k : A -> result B) : result B :=
  match r with Ok v => k v | Raise e => Raise e end.

Definition is_ok {A} (r : result A) : bool :=
  match r with Ok _ => true | Raise _ => false end.

Definition option_to_result {A} (e : exn) (o : option A) : result A :=
  match o with Some v => Ok v | None => Raise e end.

Declare Scope py_scope.
Delimit Scope py_scope with py.
Notation "'let!' x ':=' c 'in' k" := (result_bind c (fun x => k))
  (at level 10, x pattern, c at level 100, k at level 200) : py_scope.
(** [require! b else e in k]: the [if not b: raise e] guard of the source. *)
Notation "'require!' b 'else' e 'in' k" := (if b then k else Raise e)
  (at level 10, b at level 100, e at level 100, k at level 200) : py_scope.
#[global] Open Scope py_scope.

Fixpoint mapM_result {A B} (f : A -> result B) (l : list A) : result (list B) :=
  match l with
  | [] => Ok []
  | x :: l' => let! y := f x in let! l'' := mapM_result f l' in Ok (y :: l'')
  end.

Definition opt_mapM {A B} (f : A -> result B) (o : option A) : result (option B) :=
  match o with None => Ok None | Some x => let! y := f x in Ok (Some y) end.

Definition default_opt {A} (o d : option A) : option A :=
  match o with Some _ => o | None => d end.

(** * Proof automation *)

Lemma result_bind_Ok {A B} (r : result A) (k : A -> result B) (b : B) :
  result_bind r k = Ok b -> exists a, r = Ok a /\ k a = Ok b.
Proof. destruct r; simpl; [eauto | discriminate]. Qed.

Lemma option_to_result_Ok {A} (e : exn) (o : option A) a :
  option_to_result e o = Ok a -> o = Some a.
Proof. destruct o; simpl; congruence. Qed.

(** One inversion step on a hypothesis [_ = Ok _] of monadic shape. *)
Ltac inv_result_step :=
  match goal with
  | H : Ok _ = Ok _ |- _ => injection H as H; try subst
  | H : Raise _ = Ok _ |- _ => discriminate H
  | H : Ok _ = Raise _ |- _ => discriminate H
  | H : Raise _ = Raise _ |- _ => injection H as H; try subst
  | H : result_bind _ _ = Ok _ |- _ =>
      let a := fresh "v" in let Ha := fresh "Hv" in
      apply result_bind_Ok in H as (a & Ha & H)
  | H : option_to_result _ _ = Ok _ |- _ => apply option_to_result_Ok in H
  | H : (if ?b then _ else Raise _) = Ok _ |- _ =>
      let E := fresh "Hc" in destruct b eqn:E; [|discriminate H]
  | H : (if ?b then Raise _ else _) = Ok _ |- _ =>
      let E := fresh "Hc" in destruct b eqn:E; [discriminate H|]
  | H : (match ?m with Some _ => _ | None => Raise _ end) = Ok _ |- _ =>
      let E := fresh "Ho" in destruct m eqn:E; [|discriminate H]
  | H : (match ?m with Some _ => Raise _ | None => _ end) = Ok _ |- _ =>
      let E := fresh "Ho" in destruct m eqn:E; [discriminate H|]
  | H : _ && _ = true |- _ => apply andb_true_iff in H as [? ?]
  | H : negb _ = true |- _ => apply negb_true_iff in H
  | H : negb _ = false |- _ => apply negb_false_iff in H
  | H : _ || _ = false |- _ => apply orb_false_iff in H as [? ?]
  | H : bool_decide _ = true |- _ => apply bool_decide_eq_true in H
  | H : bool_decide _ = false |- _ => apply bool_decide_eq_false in H
  end.
Ltac inv_result := repeat inv_result_step.

(** Case analysis on the innermost match or if of the goal. *)
Ltac case_goal :=
  match goal with
  | |- context [match ?e with _ => _ end] =>
      lazymatch e with context [match _ with _ => _ end] => fail | _ => idtac end;
      let E := fresh "E" in destruct e eqn:E
  end.

Create HintDb kivou discriminated.
Create Rewrite HintDb kivou.

Lemma mapM_result_Ok {A B} (f : A -> result B) l l' :
  mapM_result f l = Ok l' <-> Forall2 (fun x y => f x = Ok y) l l'.
Proof.
  revert l'; induction l as [|x l IH]; intros l'; simpl.
  - split; [intros [= <-]; constructor | intros H; inversion H; done].
  - split.
    + intros H. inv_result. constructor; [done|]. by apply IH.
    + intros H. inversion H as [|? y ? l'' Hy Hl]; subst.
      rewrite Hy; simpl. by rewrite (proj2 (IH _) Hl).
Qed.

Lemma mapM_result_id {A} (f : A -> result A) l :
  Forall (fun x => f x = Ok x) l -> mapM_result f l = Ok l.
Proof. intros H. apply mapM_result_Ok. induction H; by constructor. Qed.

Lemma mapM_result_idem {A} (f : A -> result A) :
  (forall a b, f a = Ok b -> f b = Ok b) ->
  forall l l', mapM_result f l = Ok l' -> mapM_result f l' = Ok l'.
Proof.
  intros Hf l l' H. apply mapM_result_id. apply mapM_result_Ok in H.
  induction H; constructor; eauto.
Qed.

Lemma opt_mapM_idem {A} (f : A -> result A) :
  (forall a b, f a = Ok b -> f b = Ok b) ->
  forall o o', opt_mapM f o = Ok o' -> opt_mapM f o' = Ok o'.
Proof.
  intros Hf [a|] o' H; simpl in H; inv_result; simpl; [|done].
  erewrite Hf by done. done.
Qed.

Lemma opt_mapM_Ok {A B} (f : A -> result B) o o' :
  opt_mapM f o = Ok o' ->
  match o, o' with Some a, Some b => f a = Ok b | None, None => True | _, _ => False end.
Proof. destruct o; simpl; intros H; inv_result; done. Qed.

(** A field that is kept as it is, or refused. *)
Definition checked {A} (field : string) (b : A -> bool) (v : A) : result A :=
  if b v then Ok v else Raise (ValidationError field).

Lemma checked_Ok {A} field (b : A -> bool) v v' :
  checked field b v = Ok v' <-> b v = true /\ v' = v.
Proof. unfold checked. destruct (b v); split; [intros [= <-] | intros [_ ->] | | intros [? _]]; done. Qed.

Lemma checked_idem {A} field (b : A -> bool) v v' :
  checked field b v = Ok v' -> checked field b v' = Ok v'.
Proof. intros H. apply checked_Ok in H as [H ->]. by apply checked_Ok. Qed.

Lemma checked_id {A} field (b : A -> bool) v : b v = true -> checked field b v = Ok v.
Proof. intros H. by apply checked_Ok. Qed.

#[export] Hint Resolve mapM_result_idem opt_mapM_idem checked_idem : kivou.

(** * String enumerations (Python's StrEnum) *)

(** A [StrEnum] class of the source: its members in declaration order with
    the string each one is equal to, no two members sharing a string.  The
    call [E(value)] is [se_parse], which raises ValueError on [None]. *)
Class StrEnum (A : Type) := {
  se_value : A -> string;
  se_all : list A;
  se_all_complete : forall a, a ∈ se_all;
  se_value_inj : forall a b, se_value a = se_value b -> a = b;
}.

Definition se_parse {A} `{StrEnum A} (s : string) : option A :=
  list_find (fun a => se_value a = s) se_all ≫= fun p => Some p.2.

Lemma se_parse_Some {A} `{StrEnum A} s a : se_parse s = Some a <-> se_value a = s.
Proof.
  unfold se_parse. split.
  - destruct (list_find _ _) as [[i b]|] eqn:E; simpl; [|done].
    intros [= <-]. apply list_find_Some in E. tauto.
  - intros <-.
    destruct (list_find_elem_of (fun b => se_value b = se_value a) se_all a)
      as [[i b] Hb]; [apply se_all_complete | done |].
    rewrite Hb; simpl. apply list_find_Some in Hb as (_ & Hb & _).
    f_equal. by apply se_value_inj.
Qed.

Lemma se_parse_value {A} `{StrEnum A} (a : A) : se_parse (se_value a) = Some a.
Proof. by apply se_parse_Some. Qed.

#[export] Hint Rewrite @se_parse_value : kivou.

Ltac solve_se_complete := let a := fresh in intros a; destruct a; repeat (first [left | right]).
Ltac solve_se_inj :=
  let a := fresh in let b := fresh in
  intros a b; destruct a, b; intros H; first [reflexivity | discriminate H].

(** * Lists *)

Section lists.
Context {A : Type}.

(** [next((x for x in l if f(x)), None)]. *)
Definition first_match (f : A -> bool) (l : list A) : option A := List.find f l.

Lemma first_match_Some (f : A -> bool) (l : list A) x :
  first_match f l = Some x -> x ∈ l /\ f x = true.
Proof. intros H. apply List.find_some in H as [? ?]. by rewrite list_elem_of_In. Qed.

Lemma first_match_None (f : A -> bool) (l : list A) x :
  first_match f l = None -> x ∈ l -> f x = false.
Proof. intros H Hx. eapply List.find_none; [done|]. by apply list_elem_of_In. Qed.

Lemma first_match_app (f : A -> bool) (l l' : list A) :
  first_match f (l ++ l')
  = match first_match f l with Some x => Some x | None => first_match f l' end.
Proof.
  unfold first_match. induction l as [|x l IH]; simpl; [done|]. by destruct (f x).
Qed.

Context `{EqDecision A}.

(** [tuple(dict.fromkeys(values))]: the values in order of first
    occurrence. *)
Fixpoint dict_fromkeys_acc (seen l : list A) : list A :=
  match l with
  | [] => []
  | x :: l' =>
      if decide (x ∈ seen) then dict_fromkeys_acc seen l'
      else x :: dict_fromkeys_acc (x :: seen) l'
  end.
Definition dict_fromkeys (l : list A) : list A := dict_fromkeys_acc [] l.

Lemma elem_of_dict_fromkeys_acc seen l x :
  x ∈ dict_fromkeys_acc seen l <-> x ∈ l /\ x ∉ seen.
Proof.
  revert seen; induction l as [|y l IH]; intros seen; simpl.
  - set_solver.
  - case_decide as Hy.
    + rewrite IH. set_solver.
    + rewrite elem_of_cons, IH. destruct (decide (x = y)); set_solver.
Qed.

Lemma elem_of_dict_fromkeys l x : x ∈ dict_fromkeys l <-> x ∈ l.
Proof. unfold dict_fromkeys. rewrite elem_of_dict_fromkeys_acc. set_solver. Qed.

Lemma NoDup_dict_fromkeys_acc seen l : NoDup (dict_fromkeys_acc seen l).
Proof.
  revert seen; induction l as [|y l IH]; intros seen; simpl; [constructor|].
  case_decide; [done|]. constructor; [|done].
  rewrite elem_of_dict_fromkeys_acc. set_solver.
Qed.

Lemma NoDup_dict_fromkeys l : NoDup (dict_fromkeys l).
Proof. apply NoDup_dict_fromkeys_acc. Qed.

Lemma dict_fromkeys_nil l : dict_fromkeys l = [] <-> l = [].
Proof.
  split; [|by intros ->]. destruct l as [|x l]; [done|].
  intros H. exfalso. assert (Hx : x ∈ dict_fromkeys (x :: l)).
  { apply elem_of_dict_fromkeys. set_solver. }
  rewrite H in Hx. set_solver.
Qed.

(** [x in l] as a boolean. *)
Definition in_list (x : A) (l : list A) : bool := bool_decide (x ∈ l).

Lemma in_list_true x l : in_list x l = true <-> x ∈ l.
Proof. apply bool_decide_eq_true. Qed.
Lemma in_list_false x l : in_list x l = false <-> x ∉ l.
Proof. apply bool_decide_eq_false. Qed.
End lists.

(** [len(l)] *)
Definition zlength {A} (l : list A) : Z := Z.of_nat (length l).

(** Python truth value of an optional non-empty value: [None] is false. *)
Definition truthy {A} (o : option A) : bool :=
  match o with Some _ => true | None => false end.

Definition list_truthy {A} (l : list A) : bool :=
  match l with [] => false | _ => true end.

Lemma list_truthy_true {A} (l : list A) : list_truthy l = true <-> l <> [].
Proof. by destruct l. Qed.
Lemma list_truthy_false {A} (l : list A) : list_truthy l = false <-> l = [].
Proof. by destruct l. Qed.

Lemma truthy_None {A} (o : option A) : truthy o = false <-> o = None.
Proof. by destruct o. Qed.
Lemma truthy_Some {A} (o : option A) : truthy o = true <-> is_Some o.
Proof. destruct o; simpl; [split; eauto | split; [done | intros [? ?]; done]]. Qed.
