(* ===== verification/PyStr.v ===== *)
(** PyStr: the string operations of Python the modelled code uses.

    A Python [str] is modelled by a [string] whose characters are its code
    points; the model covers the code points below 256 (Latin-1), which is
    every character the identifiers, codes, dates and payload keys of the
    modelled components are made of.  [len], [strip], slicing, prefix and
    digit conversions are the ones of the language. *)

From S2P Require Import Prelude.
From Stdlib Require Import Ascii String.
From stdpp Require Import pretty.

Local Open Scope Z_scope.

(** * Code points *)

Definition code (c : ascii) : Z := Z.of_N (N_of_ascii c).

(** [str.isspace] on a code point below 256. *)
Definition py_isspace (c : ascii) : bool :=
  let n := code c in
  ((9 <=? n) && (n <=? 13)) || ((28 <=? n) && (n <=? 32)) || (n =? 133) || (n =? 160).

Definition is_digit (c : ascii) : bool := (48 <=? code c) && (code c <=? 57).
Definition is_upper (c : ascii) : bool := (65 <=? code c) && (code c <=? 90).
Definition is_lower (c : ascii) : bool := (97 <=? code c) && (code c <=? 122).
Definition is_hex_lower (c : ascii) : bool :=
  is_digit c || ((97 <=? code c) && (code c <=? 102)).

Definition chr (n : Z) : ascii := ascii_of_N (Z.to_N n).

Definition eqc (a b : ascii) : bool := bool_decide (a = b).

Lemma code_chr n : 0 <= n < 256 -> code (chr n) = n.
Proof. intros H. unfold code, chr. rewrite N_ascii_embedding; lia. Qed.

(** * strip, len, prefixes *)

Fixpoint lstrip (s : string) : string :=
  match s with
  | EmptyString => EmptyString
  | String c s' => if py_isspace c then lstrip s' else s
  end.

Fixpoint rstrip (s : string) : string :=
  match s with
  | EmptyString => EmptyString
  | String c s' =>
      match rstrip s' with
      | EmptyString => if py_isspace c then EmptyString else String c EmptyString
      | t => String c t
      end
  end.

Definition strip (s : string) : string := rstrip (lstrip s).

Definition len (s : string) : Z := Z.of_nat (String.length s).

Definition nonempty (s : string) : bool :=
  match s with EmptyString => false | _ => true end.

Fixpoint all_chars (f : ascii -> bool) (s : string) : bool :=
  match s with EmptyString => true | String c s' => f c && all_chars f s' end.

Definition startswith (s prefix : string) : bool := String.prefix prefix s.

Lemma rstrip_nonspace_head c s :
  py_isspace c = false -> exists t, rstrip (String c s) = String c t.
Proof. intros H; simpl. destruct (rstrip s); [rewrite H|]; eauto. Qed.

Lemma lstrip_head s :
  lstrip s = EmptyString \/ exists c t, lstrip s = String c t /\ py_isspace c = false.
Proof.
  induction s as [|c s IH]; simpl; [by left|].
  destruct (py_isspace c) eqn:E; [done|]. right; eauto.
Qed.

Lemma rstrip_idemp s : rstrip (rstrip s) = rstrip s.
Proof.
  induction s as [|c s IH]; simpl; [done|].
  destruct (rstrip s) as [|d t] eqn:E.
  - destruct (py_isspace c) eqn:Ec; [done|]. simpl. by rewrite Ec.
  - change (rstrip (String c (String d t)) = String c (String d t)).
    simpl in IH |- *. rewrite IH. done.
Qed.

Lemma strip_idemp s : strip (strip s) = strip s.
Proof.
  unfold strip. destruct (lstrip_head s) as [-> | (c & t & -> & Hc)]; [done|].
  destruct (rstrip_nonspace_head c t Hc) as [u Hu].
  rewrite Hu. simpl lstrip. rewrite Hc. rewrite <- Hu. apply rstrip_idemp.
Qed.

Lemma len_nonneg s : 0 <= len s.
Proof. unfold len. lia. Qed.

Lemma len_cons c s : len (String c s) = 1 + len s.
Proof. unfold len. change (String.length (String c s)) with (S (String.length s)). lia. Qed.

Lemma nonempty_len s : nonempty s = true -> 1 <= len s.
Proof. destruct s; [done|]. rewrite len_cons. pose proof (len_nonneg s). lia. Qed.

(** * Constrained strings *)

(** What a field typed [StringConstraints(strip_whitespace=True,
    min_length=m, max_length=n)] does to the value it is given. *)
Definition constr (field : string) (m n : Z) (s : string) : result string :=
  let t := strip s in
  if (m <=? len t) && (len t <=? n) then Ok t else Raise (ValidationError field).

(** The same with a pattern instead of the length bounds (the model
    configuration strips every string field). *)
Definition matching (field : string) (p : string -> bool) (s : string) : result string :=
  let t := strip s in if p t then Ok t else Raise (ValidationError field).

Lemma constr_Ok f m n s t :
  constr f m n s = Ok t -> t = strip s /\ m <= len t <= n.
Proof.
  unfold constr. destruct (_ && _) eqn:E; [|discriminate].
  intros [= <-]. split; [done|]. lia.
Qed.

Lemma constr_idemp f m n s t : constr f m n s = Ok t -> constr f m n t = Ok t.
Proof.
  intros H. apply constr_Ok in H as [-> [H1 H2]]. unfold constr.
  rewrite strip_idemp. destruct (_ && _) eqn:E; [done|].
  apply andb_false_iff in E. lia.
Qed.

Lemma constr_stripped f m n s :
  strip s = s -> m <= len s <= n -> constr f m n s = Ok s.
Proof.
  intros Hs [H1 H2]. unfold constr. rewrite Hs.
  destruct (_ && _) eqn:E; [done|]. apply andb_false_iff in E. lia.
Qed.

Lemma constr_id_inv f m n s : constr f m n s = Ok s -> strip s = s /\ m <= len s <= n.
Proof. intros H. apply constr_Ok in H as [Hs H]. by rewrite <- Hs. Qed.

Lemma matching_idemp f p s t : matching f p s = Ok t -> matching f p t = Ok t.
Proof.
  unfold matching. destruct (p (strip s)) eqn:E; [|discriminate].
  intros [= <-]. by rewrite strip_idemp, E.
Qed.

#[export] Hint Resolve constr_idemp matching_idemp constr_stripped : kivou.

(** [^[0-9a-f]{64}$] *)
Definition is_fingerprint (s : string) : bool := (len s =? 64) && all_chars is_hex_lower s.
(** [^[A-Z]{3}$], [^[A-Z]{2}$], [^[a-z]{2}$] *)
Definition is_currency (s : string) : bool := (len s =? 3) && all_chars is_upper s.
Definition is_country (s : string) : bool := (len s =? 2) && all_chars is_upper s.
Definition is_language (s : string) : bool := (len s =? 2) && all_chars is_lower s.
(** [^[a-z][a-z0-9_]{0,63}$] *)
Definition is_command_name (s : string) : bool :=
  match s with
  | EmptyString => false
  | String c t =>
      is_lower c && (len t <=? 63)
      && all_chars (fun d => is_lower d || is_digit d || eqc d "_") t
  end.
(** [^[A-Z0-9][A-Z0-9_:-]{0,99}$] *)
Definition is_safe_code (s : string) : bool :=
  match s with
  | EmptyString => false
  | String c t =>
      (is_upper c || is_digit c) && (len t <=? 99)
      && all_chars (fun d => is_upper d || is_digit d || eqc d "_" || eqc d ":" || eqc d "-") t
  end.

(** [^[a-z][a-z0-9_-]{0,63}$] *)
Definition is_component (s : string) : bool :=
  match s with
  | EmptyString => false
  | String c t =>
      is_lower c && (len t <=? 63)
      && all_chars (fun d => is_lower d || is_digit d || eqc d "_" || eqc d "-") t
  end.

(** * Ordering (code point order, as Python compares strings) *)

Definition string_leb (a b : string) : bool :=
  match String.compare a b with Gt => false | _ => true end.

Fixpoint insert_sorted {A} (leb : A -> A -> bool) (x : A) (l : list A) : list A :=
  match l with
  | [] => [x]
  | y :: l' => if leb x y then x :: l else y :: insert_sorted leb x l'
  end.

(** [sorted(l, key=...)] for the total preorder [leb]: stable. *)
Definition sorted_by {A} (leb : A -> A -> bool) (l : list A) : list A :=
  foldr (insert_sorted leb) [] l.

(** [sorted(set(l))] *)
Definition sorted_set (l : list string) : list string :=
  sorted_by string_leb (dict_fromkeys l).

Lemma insert_sorted_Permutation {A} leb (x : A) l : insert_sorted leb x l ≡ₚ x :: l.
Proof.
  induction l as [|y l IH]; simpl; [done|].
  destruct (leb x y); [done|]. rewrite IH. by constructor.
Qed.

Lemma sorted_by_Permutation {A} leb (l : list A) : sorted_by leb l ≡ₚ l.
Proof.
  induction l as [|x l IH]; simpl; [done|].
  by rewrite insert_sorted_Permutation, IH.
Qed.

Lemma elem_of_sorted_by {A} leb (l : list A) x : x ∈ sorted_by leb l <-> x ∈ l.
Proof. by rewrite sorted_by_Permutation. Qed.

Lemma length_sorted_by {A} leb (l : list A) : length (sorted_by leb l) = length l.
Proof. by rewrite sorted_by_Permutation. Qed.

Lemma elem_of_sorted_set l x : x ∈ sorted_set l <-> x ∈ l.
Proof. unfold sorted_set. by rewrite elem_of_sorted_by, elem_of_dict_fromkeys. Qed.

Lemma NoDup_sorted_set l : NoDup (sorted_set l).
Proof. unfold sorted_set. rewrite sorted_by_Permutation. apply NoDup_dict_fromkeys. Qed.

(** * Decimal digits *)

Definition digit_char (n : Z) : ascii := chr (48 + n).

(** ["%0wd" % z] for [0 <= z < 10^w]. *)
Fixpoint pad_digits (w : nat) (z : Z) : string :=
  match w with
  | O => EmptyString
  | S w' => pad_digits w' (z / 10) +:+ String (digit_char (z mod 10)) EmptyString
  end.

(** The value of a digit string, [None] if a character is not a digit. *)
Fixpoint digits_value_acc (acc : Z) (s : string) : option Z :=
  match s with
  | EmptyString => Some acc
  | String c s' => if is_digit c then digits_value_acc (10 * acc + (code c - 48)) s' else None
  end.
Definition digits_value (s : string) : option Z := digits_value_acc 0 s.

Lemma digits_value_acc_app acc s t :
  digits_value_acc acc (s +:+ t) = digits_value_acc acc s ≫= fun a => digits_value_acc a t.
Proof.
  revert acc; induction s as [|c s IH]; intros acc; simpl; [done|].
  by destruct (is_digit c).
Qed.

Lemma is_digit_digit_char n : 0 <= n <= 9 -> is_digit (digit_char n) = true.
Proof. intros H. unfold is_digit, digit_char. rewrite code_chr; lia. Qed.

Lemma code_digit_char n : 0 <= n <= 9 -> code (digit_char n) = 48 + n.
Proof. intros H. unfold digit_char. rewrite code_chr; lia. Qed.

Lemma digits_value_pad w z : 0 <= z < 10 ^ Z.of_nat w -> digits_value (pad_digits w z) = Some z.
Proof.
  unfold digits_value. revert z. induction w as [|w IH]; intros z Hz.
  - simpl. change (10 ^ Z.of_nat 0) with 1 in Hz. f_equal; lia.
  - rewrite Nat2Z.inj_succ, Z.pow_succ_r in Hz by lia. simpl.
    rewrite digits_value_acc_app, IH.
    + simpl. rewrite is_digit_digit_char by (pose proof (Z.mod_pos_bound z 10); lia).
      rewrite code_digit_char by (pose proof (Z.mod_pos_bound z 10); lia).
      f_equal. pose proof (Z.div_mod z 10). lia.
    + split; [apply Z.div_pos; lia | apply Z.div_lt_upper_bound; lia].
Qed.

Lemma length_string_app s t :
  String.length (s +:+ t) = (String.length s + String.length t)%nat.
Proof. induction s as [|c s IH]; simpl; [done|]. by rewrite IH. Qed.

Lemma pad_digits_length w z : String.length (pad_digits w z) = w.
Proof.
  revert z. induction w as [|w IH]; intros z; simpl; [done|].
  rewrite length_string_app, IH. simpl. lia.
Qed.

Lemma sapp_assoc s t u : (s +:+ t) +:+ u = s +:+ (t +:+ u).
Proof.
  induction s as [|c s IH]; [done|].
  change (String c ((s +:+ t) +:+ u) = String c (s +:+ (t +:+ u))). by rewrite IH.
Qed.

Lemma sapp_nil_r s : s +:+ EmptyString = s.
Proof.
  induction s as [|c s IH]; [done|].
  change (String c (s +:+ EmptyString) = String c s). by rewrite IH.
Qed.

Lemma all_chars_app f s t : all_chars f (s +:+ t) = all_chars f s && all_chars f t.
Proof.
  induction s as [|c s IH]; [done|].
  change (f c && all_chars f (s +:+ t) = (f c && all_chars f s) && all_chars f t).
  by rewrite IH, andb_assoc.
Qed.

(** [str(n)] for an int. *)
Definition str_int (z : Z) : string := pretty z.

(** [", ".join(l)] *)
Fixpoint join (sep : string) (l : list string) : string :=
  match l with
  | [] => EmptyString
  | [x] => x
  | x :: l' => x +:+ sep +:+ join sep l'
  end.

(** Slices [s[i:]], [s[:i]] and [s[i]]. *)
Fixpoint sdrop (n : nat) (s : string) : string :=
  match n, s with
  | O, _ => s
  | S n', String _ s' => sdrop n' s'
  | S _, EmptyString => EmptyString
  end.

Fixpoint stake (n : nat) (s : string) : string :=
  match n, s with
  | O, _ => EmptyString
  | S n', String c s' => String c (stake n' s')
  | S _, EmptyString => EmptyString
  end.

Definition sget (n : nat) (s : string) : option ascii := String.get n s.

(** The characters before and after the first one satisfying [f]. *)
Fixpoint split_at_first (f : ascii -> bool) (s : string) : option (string * ascii * string) :=
  match s with
  | EmptyString => None
  | String c s' =>
      if f c then Some (EmptyString, c, s')
      else match split_at_first f s' with
           | Some (a, d, b) => Some (String c a, d, b)
           | None => None
           end
  end.

(** * Strings without white space *)

Lemma rstrip_no_space s : all_chars (fun c => negb (py_isspace c)) s = true -> rstrip s = s.
Proof.
  induction s as [|c s IH]; [done|]. intros H. simpl in H. apply andb_true_iff in H as [Hc Hs].
  simpl. rewrite (IH Hs). apply negb_true_iff in Hc. rewrite Hc. by destruct s.
Qed.

Lemma strip_no_space s : all_chars (fun c => negb (py_isspace c)) s = true -> strip s = s.
Proof.
  intros H. unfold strip.
  assert (lstrip s = s) as ->; [|by apply rstrip_no_space].
  destruct s as [|c s]; [done|]. simpl in *. apply andb_true_iff in H as [Hc _].
  apply negb_true_iff in Hc. by rewrite Hc.
Qed.

Lemma all_chars_impl f g s :
  (forall c, f c = true -> g c = true) -> all_chars f s = true -> all_chars g s = true.
Proof.
  intros H. induction s as [|c s IH]; [done|]. simpl. rewrite !andb_true_iff.
  intros [? ?]. auto.
Qed.

Lemma is_fingerprint_strip s : is_fingerprint s = true -> strip s = s.
Proof.
  unfold is_fingerprint. intros H. apply andb_true_iff in H as [_ H].
  apply strip_no_space. revert H. apply all_chars_impl. intros c.
  unfold is_hex_lower, is_digit, py_isspace. intros Hc.
  apply negb_true_iff. repeat rewrite ?andb_true_iff, ?orb_true_iff, ?orb_false_iff, ?Z.leb_le in Hc.
  rewrite !orb_false_iff, !andb_false_iff, !Z.leb_gt, !Z.eqb_neq. lia.
Qed.

(** * strip and concatenation *)

Lemma strip_id_rstrip s : strip s = s -> rstrip s = s.
Proof. unfold strip. intros H. rewrite <- H at 1. rewrite rstrip_idemp. exact H. Qed.

Lemma rstrip_app p s : rstrip s = s -> s <> EmptyString -> rstrip (p +:+ s) = p +:+ s.
Proof.
  intros Hs Hne. induction p as [|c p IH]; [exact Hs|].
  change (rstrip (String c (p +:+ s)) = String c (p +:+ s)). simpl. rewrite IH.
  destruct (p +:+ s) eqn:E; [|done]. destruct p; [done | discriminate].
Qed.

(** A stripped, non-empty string stays stripped behind a prefix that starts
    with a visible character. *)
Lemma strip_prefixed c p s :
  py_isspace c = false -> strip s = s -> s <> EmptyString ->
  strip (String c p +:+ s) = String c p +:+ s.
Proof.
  intros Hc Hs Hne. unfold strip.
  change (String c p +:+ s) with (String c (p +:+ s)). simpl lstrip. rewrite Hc.
  apply (rstrip_app (String c p)); [by apply strip_id_rstrip | done].
Qed.

Lemma sapp_inj p s s' : p +:+ s = p +:+ s' -> s = s'.
Proof.
  induction p as [|c p IH]; [done|].
  change (String c (p +:+ s) = String c (p +:+ s') -> s = s'). intros [= H]. auto.
Qed.
