(* ===== verification/PyDatetime.v ===== *)
(** PyDatetime: the dates and datetimes of Python's [datetime] module, as
    far as the modelled code uses them: construction, comparison of aware
    values, [isoformat], [fromisoformat], [replace] at midnight and the
    addition of a [timedelta].

    A datetime carries its fields and, when aware, its UTC offset in
    microseconds; comparisons go through the instant it denotes. *)

From S2P Require Import Prelude PyStr.
From Stdlib Require Import Ascii String.

Local Open Scope Z_scope.

(** * Calendar *)

Definition is_leap (y : Z) : bool :=
  (y mod 4 =? 0) && (negb (y mod 100 =? 0) || (y mod 400 =? 0)).

Definition days_in_month (y m : Z) : Z :=
  if m =? 2 then (if is_leap y then 29 else 28)
  else if (m =? 4) || (m =? 6) || (m =? 9) || (m =? 11) then 30 else 31.

(** Days before the first of the month in a common year. *)
Definition days_before_month_common (m : Z) : Z :=
  nth (Z.to_nat m) [0; 0; 31; 59; 90; 120; 151; 181; 212; 243; 273; 304; 334] 0.

Definition days_before_month (y m : Z) : Z :=
  days_before_month_common m + (if (2 <? m) && is_leap y then 1 else 0).

Definition days_before_year (y : Z) : Z :=
  let z := y - 1 in z * 365 + z / 4 - z / 100 + z / 400.

(** The proleptic Gregorian ordinal; 0001-01-01 is day 1. *)
Definition ymd2ord (y m d : Z) : Z := days_before_year y + days_before_month y m + d.

(** Month and day of the day number [n] (from 0) of a year. *)
Definition month_day (leap : bool) (n : Z) : Z * Z :=
  let m := (n + 50) / 32 in
  let preceding := days_before_month_common m + (if (2 <? m) && leap then 1 else 0) in
  if n <? preceding then
    let m := m - 1 in
    let preceding := preceding - (if (m =? 2) && leap then 29 else days_in_month 1 m) in
    (m, n - preceding + 1)
  else (m, n - preceding + 1).

Definition ord2ymd (n : Z) : Z * Z * Z :=
  let n := n - 1 in
  let n400 := n / 146097 in let n := n mod 146097 in
  let n100 := n / 36524 in let n := n mod 36524 in
  let n4 := n / 1461 in let n := n mod 1461 in
  let n1 := n / 365 in let n := n mod 365 in
  let y := n400 * 400 + 1 + n100 * 100 + n4 * 4 + n1 in
  if (n1 =? 4) || (n100 =? 4) then (y - 1, 12, 31)
  else
    let leap := (n1 =? 3) && (negb (n4 =? 24) || (n100 =? 3)) in
    let '(m, d) := month_day leap n in (y, m, d).

Definition MAXORDINAL : Z := 3652059.

(** * Dates *)

Record date := mkdate { d_year : Z; d_month : Z; d_day : Z }.

#[export] Instance date_eq_dec : EqDecision date.
Proof. solve_decision. Defined.

Definition ymd_ok (y m d : Z) : bool :=
  (1 <=? y) && (y <=? 9999) && (1 <=? m) && (m <=? 12)
  && (1 <=? d) && (d <=? days_in_month y m).

Definition date_ok (x : date) : bool := ymd_ok (d_year x) (d_month x) (d_day x).
Definition toordinal (x : date) : Z := ymd2ord (d_year x) (d_month x) (d_day x).

(** [(a - b).days] *)
Definition days_between (a b : date) : Z := toordinal a - toordinal b.

Definition date_isoformat (x : date) : string :=
  pad_digits 4 (d_year x) +:+ "-" +:+ pad_digits 2 (d_month x) +:+ "-"
  +:+ pad_digits 2 (d_day x).

(** * Datetimes *)

Record datetime := mkdt {
  year : Z; month : Z; day : Z;
  hour : Z; minute : Z; second : Z; microsecond : Z;
  utcoffset : option Z;
}.

#[export] Instance datetime_eq_dec : EqDecision datetime.
Proof. solve_decision. Defined.

Definition US_SECOND : Z := 1000000.
Definition US_DAY : Z := 86400 * 1000000.

(** What the constructors of [datetime] and [timezone] accept. *)
Definition datetime_ok (x : datetime) : bool :=
  ymd_ok (year x) (month x) (day x)
  && (0 <=? hour x) && (hour x <=? 23) && (0 <=? minute x) && (minute x <=? 59)
  && (0 <=? second x) && (second x <=? 59)
  && (0 <=? microsecond x) && (microsecond x <=? 999999)
  && match utcoffset x with
     | None => true
     | Some o => (- US_DAY <? o) && (o <? US_DAY)
     end.

(** [value.tzinfo is not None and value.utcoffset() is not None] *)
Definition aware (x : datetime) : bool := truthy (utcoffset x).

Definition time_us (x : datetime) : Z :=
  ((hour x * 60 + minute x) * 60 + second x) * US_SECOND + microsecond x.

Definition local_us (x : datetime) : Z :=
  ymd2ord (year x) (month x) (day x) * US_DAY + time_us x.

(** The instant of an aware datetime, in microseconds. *)
Definition instant (x : datetime) : Z := local_us x - default 0 (utcoffset x).

Definition dt_leb (a b : datetime) : bool := instant a <=? instant b.
Definition dt_ltb (a b : datetime) : bool := instant a <? instant b.
(** [a == b] for aware datetimes: the same instant. *)
Definition dt_eqb (a b : datetime) : bool := instant a =? instant b.

Definition opt_eqb {A} (f : A -> A -> bool) (a b : option A) : bool :=
  match a, b with
  | Some x, Some y => f x y
  | None, None => true
  | _, _ => false
  end.

(** The datetime at a local microsecond count, OverflowError outside the
    years 1 to 9999. *)
Definition of_local_us (n : Z) (tz : option Z) : result datetime :=
  let days := n / US_DAY in
  if (1 <=? days) && (days <=? MAXORDINAL) then
    let '(y, m, d) := ord2ymd days in
    let t := n mod US_DAY in
    Ok (mkdt y m d (t / (3600 * US_SECOND)) (t / (60 * US_SECOND) mod 60)
          (t / US_SECOND mod 60) (t mod US_SECOND) tz)
  else Raise OverflowError.

(** [x + timedelta(microseconds=delta)] *)
Definition dt_add (x : datetime) (delta : Z) : result datetime :=
  of_local_us (local_us x + delta) (utcoffset x).

(** [x.replace(hour=0, minute=0, second=0, microsecond=0)] *)
Definition replace_midnight (x : datetime) : datetime :=
  mkdt (year x) (month x) (day x) 0 0 0 0 (utcoffset x).

(** [x.replace(tzinfo=dt.UTC)] when naive. *)
Definition assume_utc (x : datetime) : datetime :=
  match utcoffset x with
  | Some _ => x
  | None => mkdt (year x) (month x) (day x) (hour x) (minute x) (second x)
              (microsecond x) (Some 0)
  end.

(** [x.astimezone(dt.UTC)] of an aware datetime. *)
Definition astimezone_utc (x : datetime) : result datetime := of_local_us (instant x) (Some 0).

(** * isoformat *)

Definition format_offset (o : Z) : string :=
  let sign := if o <? 0 then "-"%string else "+"%string in
  let o := Z.abs o in
  let us := o mod US_SECOND in
  let s := o / US_SECOND in
  sign +:+ pad_digits 2 (s / 3600) +:+ ":" +:+ pad_digits 2 (s / 60 mod 60)
  +:+ (if (s mod 60 =? 0) && (us =? 0) then EmptyString
       else ":" +:+ pad_digits 2 (s mod 60)
            +:+ (if us =? 0 then EmptyString else "." +:+ pad_digits 6 us)).

Definition isoformat (x : datetime) : string :=
  pad_digits 4 (year x) +:+ "-" +:+ pad_digits 2 (month x) +:+ "-" +:+ pad_digits 2 (day x)
  +:+ "T" +:+ pad_digits 2 (hour x) +:+ ":" +:+ pad_digits 2 (minute x)
  +:+ ":" +:+ pad_digits 2 (second x)
  +:+ (if microsecond x =? 0 then EmptyString else "." +:+ pad_digits 6 (microsecond x))
  +:+ match utcoffset x with None => EmptyString | Some o => format_offset o end.

(** What [model_dump(mode="json")] writes of a datetime: [Z] for UTC, the
    offset in hours and minutes otherwise. *)
Definition json_datetime (x : datetime) : string :=
  pad_digits 4 (year x) +:+ "-" +:+ pad_digits 2 (month x) +:+ "-" +:+ pad_digits 2 (day x)
  +:+ "T" +:+ pad_digits 2 (hour x) +:+ ":" +:+ pad_digits 2 (minute x)
  +:+ ":" +:+ pad_digits 2 (second x)
  +:+ (if microsecond x =? 0 then EmptyString else "." +:+ pad_digits 6 (microsecond x))
  +:+ match utcoffset x with
      | None => EmptyString
      | Some o =>
          if o =? 0 then "Z"%string
          else (if o <? 0 then "-"%string else "+"%string)
               +:+ pad_digits 2 (Z.abs o / (3600 * US_SECOND)) +:+ ":"
               +:+ pad_digits 2 (Z.abs o / (60 * US_SECOND) mod 60)
      end.

(** [str(x)]: the ISO format with a space. *)
Definition dt_str (x : datetime) : string :=
  stake 10 (isoformat x) +:+ " " +:+ sdrop 11 (isoformat x).

(** * fromisoformat *)

(** [int(s[i:i+n])] on exactly [n] digits. *)
Definition int_at (i n : nat) (s : string) : option Z :=
  let t := stake n (sdrop i s) in
  if (String.length t =? n)%nat then digits_value t else None.

(** Length of the run of digits starting at [i]. *)
Fixpoint digit_run (s : string) : nat :=
  match s with
  | String c s' => if is_digit c then S (digit_run s') else O
  | EmptyString => O
  end.

Definition char_is (i : nat) (c : ascii) (s : string) : bool :=
  match sget i s with Some d => eqc d c | None => false end.

Definition digit_is (i : nat) (s : string) : bool :=
  match sget i s with Some d => is_digit d | None => false end.

(** Where the date part of a datetime string ends. *)
Definition find_datetime_separator (s : string) : option nat :=
  let n := String.length s in
  if (n =? 7)%nat then Some 7%nat
  else if char_is 4 "-" s then
    if char_is 5 "W" s then
      if (8 <? n)%nat && char_is 8 "-" s then
        if (n =? 9)%nat then None
        else if (10 <? n)%nat && digit_is 10 s then Some 8%nat
        else Some 10%nat
      else Some 8%nat
    else Some 10%nat
  else if char_is 4 "W" s then
    let idx := (7 + digit_run (sdrop 7 s))%nat in
    if (idx <? 9)%nat then Some idx
    else if Nat.even idx then Some 7%nat else Some 8%nat
  else Some 8%nat.

(** Ordinal of the Monday of ISO week 1 of a year. *)
Definition isoweek1monday (y : Z) : Z :=
  let firstday := ymd2ord y 1 1 in
  let firstweekday := (firstday + 6) mod 7 in
  let week1monday := firstday - firstweekday in
  if 3 <? firstweekday then week1monday + 7 else week1monday.

Definition isoweek_to_gregorian (y w d : Z) : option (Z * Z * Z) :=
  if negb ((1 <=? y) && (y <=? 9999)) then None else
  let week_ok :=
    ((0 <? w) && (w <? 53))
    || ((w =? 53) &&
        (let first_weekday := ymd2ord y 1 1 mod 7 in
         (first_weekday =? 4) || ((first_weekday =? 3) && is_leap y))) in
  if negb week_ok then None else
  if negb ((0 <? d) && (d <? 8)) then None else
  let n := isoweek1monday y + (w - 1) * 7 + (d - 1) in
  if (1 <=? n) && (n <=? MAXORDINAL) then Some (ord2ymd n) else None.

Definition parse_date (s : string) : option (Z * Z * Z) :=
  let n := String.length s in
  y ← int_at 0 4 s;
  let has_sep := char_is 4 "-" s in
  let pos := (if has_sep then 5 else 4)%nat in
  if char_is pos "W" s then
    w ← int_at (pos + 1) 2 s;
    let pos := (pos + 3)%nat in
    if (pos <? n)%nat then
      if Bool.eqb (char_is pos "-" s) has_sep then
        let pos := (if has_sep then pos + 1 else pos)%nat in
        if (n =? pos + 1)%nat then d ← int_at pos 1 s; isoweek_to_gregorian y w d else None
      else None
    else isoweek_to_gregorian y w 1
  else
    m ← int_at pos 2 s;
    let pos := (pos + 2)%nat in
    if Bool.eqb (char_is pos "-" s) has_sep then
      let pos := (if has_sep then pos + 1 else pos)%nat in
      if (n =? pos + 2)%nat then d ← int_at pos 2 s; Some (y, m, d) else None
    else None.

(** The fraction: up to six significant digits, then more digits; the flag
    says that something else is left after them. *)
Definition parse_fraction (s : string) : option (Z * bool) :=
  let k := Nat.min 6 (String.length s) in
  v ← int_at 0 k s;
  Some (v * 10 ^ (6 - Z.of_nat k),
        negb (String.length s =? k + digit_run (sdrop k s))%nat).

(** What the parser does after two digits of a component of [s], [has_sep]
    telling whether the components are separated by a colon: stop (the flag
    marks one character left over), go on with the next component, or read
    the fraction. *)
Inductive hms_next := HmsStop (junk : bool) | HmsComp (s : string) | HmsFrac (s : string).

Definition after_component (has_sep : bool) (s : string) : option hms_next :=
  match s with
  | EmptyString => Some (HmsStop false)
  | String c EmptyString => Some (HmsStop true)
  | String c t =>
      if has_sep && eqc c ":" then Some (HmsComp t)
      else if eqc c "." || eqc c "," then Some (HmsFrac t)
      else if negb has_sep then Some (HmsComp s)
      else None
  end.

(** [HH[:?MM[:?SS]]] and a fraction; the flag says that characters are left
    over, which is an error unless an offset follows. *)
Definition parse_hms (s : string) : option (Z * Z * Z * Z * bool) :=
  let fraction h m sec t := '(us, junk) ← parse_fraction t; Some (h, m, sec, us, junk) in
  let has_sep := char_is 2 ":" s in
  h ← int_at 0 2 s;
  n ← after_component has_sep (sdrop 2 s);
  match n with
  | HmsStop junk => Some (h, 0, 0, 0, junk)
  | HmsFrac t => fraction h 0 0 t
  | HmsComp s =>
      m ← int_at 0 2 s;
      n ← after_component has_sep (sdrop 2 s);
      match n with
      | HmsStop junk => Some (h, m, 0, 0, junk)
      | HmsFrac t => fraction h m 0 t
      | HmsComp s =>
          sec ← int_at 0 2 s;
          n ← after_component has_sep (sdrop 2 s);
          match n with
          | HmsStop junk => Some (h, m, sec, 0, junk)
          | HmsFrac t | HmsComp t => fraction h m sec t
          end
      end
  end.

Definition parse_offset (sign : ascii) (s : string) : option Z :=
  '(h, m, sec, us, junk) ← parse_hms s;
  let o := ((h * 60 + m) * 60 + sec) * US_SECOND + us in
  if (junk : bool) then None else Some (if eqc sign "-" then - o else o).

Definition is_tz_char (c : ascii) : bool := eqc c "+" || eqc c "-" || eqc c "Z".

(** The time part: hours to microseconds and the offset, if any. *)
Definition parse_time (s : string) : option (Z * Z * Z * Z * option Z) :=
  match split_at_first is_tz_char s with
  | None =>
      '(h, m, sec, us, junk) ← parse_hms s;
      if (junk : bool) then None else Some (h, m, sec, us, None)
  | Some (t, c, z) =>
      '(h, m, sec, us, _) ← parse_hms t;
      if eqc c "Z" then
        match z with EmptyString => Some (h, m, sec, us, Some 0) | _ => None end
      else o ← parse_offset c z; Some (h, m, sec, us, Some o)
  end.

(** [dt.datetime.fromisoformat(s)], [None] for ValueError. *)
Definition fromisoformat (s : string) : option datetime :=
  if (String.length s <? 7)%nat then None else
  sep ← find_datetime_separator s;
  '(y, m, d) ← parse_date (stake sep s);
  '(h, mi, sec, us, tz) ←
    (if (String.length s <=? sep)%nat then Some (0, 0, 0, 0, None)
     else parse_time (sdrop (S sep) s));
  let x := mkdt y m d h mi sec us tz in
  if datetime_ok x then Some x else None.
