(* ===== verification/PyDatetimeFacts.v ===== *)
(** PyDatetimeFacts: the ordinal of a day and the day of an ordinal are
    inverse, [datetime + timedelta] moves the instant by the delta, and
    [fromisoformat] inverts [isoformat] on every valid datetime. *)

From S2P Require Import Prelude PyStr PyDatetime.
From Stdlib Require Import Ascii String.

Local Open Scope Z_scope.

(** * Ordinals *)

(** [forallb f [n; n+1; ...; n+k-1]] *)
Fixpoint check_range (f : Z -> bool) (k : nat) (n : Z) : bool :=
  match k with O => true | S k' => f n && check_range f k' (n + 1) end.

Lemma check_range_spec f k n i :
  check_range f k n = true -> n <= i < n + Z.of_nat k -> f i = true.
Proof.
  revert n; induction k as [|k IH]; intros n Hc Hi; [lia|].
  simpl in Hc. apply andb_true_iff in Hc as [H1 H2].
  destruct (decide (i = n)) as [->|]; [done|].
  apply (IH (n + 1)); [done | lia].
Qed.

Definition month_day_ok (leap : bool) (n : Z) : bool :=
  let '(m, d) := month_day leap n in
  (days_before_month_common m + (if (2 <? m) && leap then 1 else 0) + d =? n + 1)
  && (1 <=? m) && (m <=? 12) && (1 <=? d)
  && (d <=? (if (m =? 2) && leap then 29 else days_in_month 1 m)).

Lemma month_day_checked :
  check_range (month_day_ok true) 365 0 && check_range (month_day_ok false) 365 0 = true.
Proof. vm_compute. reflexivity. Qed.

Lemma month_day_spec leap n :
  0 <= n < 365 -> month_day_ok leap n = true.
Proof.
  intros Hn. pose proof month_day_checked as H. apply andb_true_iff in H as [H1 H2].
  destruct leap; eapply check_range_spec; [exact H1 | lia | exact H2 | lia].
Qed.

(** The [n]th year of a 400-year cycle: days before it, and whether it is
    a leap year. *)
Definition year_ok (n : Z) : bool :=
  let b := n / 100 in let c := n mod 100 / 4 in let e := n mod 4 in
  (days_before_year (n + 1) =? 36524 * b + 1461 * c + 365 * e)
  && Bool.eqb (is_leap (n + 1)) ((e =? 3) && (negb (c =? 24) || (b =? 3))).

Lemma year_checked : check_range year_ok 400 0 = true.
Proof. vm_compute. reflexivity. Qed.

Lemma year_spec b c e :
  0 <= b <= 3 -> 0 <= c <= 24 -> 0 <= e <= 3 ->
  days_before_year (100 * b + 4 * c + e + 1) = 36524 * b + 1461 * c + 365 * e
  /\ is_leap (100 * b + 4 * c + e + 1) = (e =? 3) && (negb (c =? 24) || (b =? 3)).
Proof.
  intros Hb Hc He.
  pose proof (check_range_spec _ _ _ (100 * b + 4 * c + e) year_checked) as H.
  specialize (H ltac:(lia)). unfold year_ok in H.
  replace ((100 * b + 4 * c + e) / 100) with b in H
    by (replace (100 * b + 4 * c + e) with (b * 100 + (4 * c + e)) by lia;
        rewrite Z.div_add_l, (Z.div_small (4 * c + e)); lia).
  replace ((100 * b + 4 * c + e) mod 100) with (4 * c + e) in H
    by (replace (100 * b + 4 * c + e) with (4 * c + e + b * 100) by lia;
        rewrite Z.mod_add, Z.mod_small; lia).
  replace ((4 * c + e) / 4) with c in H
    by (replace (4 * c + e) with (c * 4 + e) by lia; rewrite Z.div_add_l, (Z.div_small e); lia).
  replace ((100 * b + 4 * c + e) mod 4) with e in H
    by (replace (100 * b + 4 * c + e) with (e + (25 * b + c) * 4) by lia;
        rewrite Z.mod_add, Z.mod_small; lia).
  apply andb_true_iff in H as [H1 H2]. apply Bool.eqb_prop in H2. split; [lia | done].
Qed.

Lemma is_leap_period y k : is_leap (y + 400 * k) = is_leap y.
Proof.
  unfold is_leap.
  replace ((y + 400 * k) mod 4) with (y mod 4)
    by (replace (y + 400 * k) with (y + (100 * k) * 4) by lia; by rewrite Z.mod_add).
  replace ((y + 400 * k) mod 100) with (y mod 100)
    by (replace (y + 400 * k) with (y + (4 * k) * 100) by lia; by rewrite Z.mod_add).
  replace ((y + 400 * k) mod 400) with (y mod 400)
    by (replace (y + 400 * k) with (y + k * 400) by lia; by rewrite Z.mod_add).
  done.
Qed.

Lemma ymd2ord_period y m d k : ymd2ord (y + 400 * k) m d = ymd2ord y m d + 146097 * k.
Proof.
  unfold ymd2ord, days_before_year, days_before_month. rewrite is_leap_period.
  replace (y + 400 * k - 1) with ((y - 1) + 400 * k) by lia.
  replace ((y - 1 + 400 * k) / 4) with ((y - 1) / 4 + 100 * k)
    by (replace (y - 1 + 400 * k) with (y - 1 + (100 * k) * 4) by lia;
        rewrite Z.div_add; lia).
  replace ((y - 1 + 400 * k) / 100) with ((y - 1) / 100 + 4 * k)
    by (replace (y - 1 + 400 * k) with (y - 1 + (4 * k) * 100) by lia;
        rewrite Z.div_add; lia).
  replace ((y - 1 + 400 * k) / 400) with ((y - 1) / 400 + k)
    by (replace (y - 1 + 400 * k) with (y - 1 + k * 400) by lia;
        rewrite Z.div_add; lia).
  lia.
Qed.

Lemma month_day_ymd2ord y n :
  0 <= n < 365 ->
  let '(m, d) := month_day (is_leap y) n in
  ymd2ord y m d = days_before_year y + n + 1
  /\ 1 <= m <= 12 /\ 1 <= d <= days_in_month y m.
Proof.
  intros Hn. pose proof (month_day_spec (is_leap y) n Hn) as H.
  unfold month_day_ok in H. destruct (month_day (is_leap y) n) as [m d].
  inv_result. unfold ymd2ord, days_before_month.
  split; [lia|]. split; [lia|]. split; [lia|].
  unfold days_in_month in *. change (is_leap 1) with false in *.
  destruct (m =? 2), (is_leap y); simpl in *; lia.
Qed.

Lemma ord2ymd_spec n :
  1 <= n -> exists y m d, ord2ymd n = (y, m, d) /\ ymd2ord y m d = n
    /\ 1 <= y /\ 1 <= m <= 12 /\ 1 <= d <= days_in_month y m.
Proof.
  intros Hn. unfold ord2ymd.
  pose proof (Z.div_mod (n - 1) 146097 ltac:(done)) as Ha.
  pose proof (Z.mod_pos_bound (n - 1) 146097 ltac:(done)) as Ha'.
  assert (0 <= (n - 1) / 146097) by (apply Z.div_pos; lia).
  set (a := (n - 1) / 146097) in *. set (r0 := (n - 1) mod 146097) in *.
  pose proof (Z.div_mod r0 36524 ltac:(done)) as Hb.
  pose proof (Z.mod_pos_bound r0 36524 ltac:(done)) as Hb'.
  set (b := r0 / 36524) in *. set (r1 := r0 mod 36524) in *.
  pose proof (Z.div_mod r1 1461 ltac:(done)) as Hc.
  pose proof (Z.mod_pos_bound r1 1461 ltac:(done)) as Hc'.
  set (c := r1 / 1461) in *. set (r2 := r1 mod 1461) in *.
  pose proof (Z.div_mod r2 365 ltac:(done)) as He.
  pose proof (Z.mod_pos_bound r2 365 ltac:(done)) as He'.
  set (e := r2 / 365) in *. set (r := r2 mod 365) in *.
  assert (Hy : forall b c e, a * 400 + 1 + b * 100 + c * 4 + e
                     = 100 * b + 4 * c + e + 1 + 400 * a) by (intros; lia).
  destruct ((e =? 4) || (b =? 4)) eqn:Elast.
  - (* the last day of a leap year *)
    assert (exists b' c', 0 <= b' <= 3 /\ 0 <= c' <= 24 /\ (negb (c' =? 24) || (b' =? 3)) = true
              /\ a * 400 + 1 + b * 100 + c * 4 + e - 1 = 100 * b' + 4 * c' + 3 + 1 + 400 * a
              /\ n - 1 = 146097 * a + (36524 * b' + 1461 * c' + 365 * 3) + 365)
      as (b' & c' & Hb1 & Hc1 & Hl & -> & Hn1).
    { apply orb_true_iff in Elast as [E|E].
      - exists b, c. repeat split; try lia.
      - exists 3, 24. repeat split; try lia. }
    destruct (year_spec b' c' 3) as [Hd Hleap]; [lia..|].
    exists (100 * b' + 4 * c' + 3 + 1 + 400 * a), 12, 31.
    rewrite ymd2ord_period. unfold ymd2ord, days_before_month. rewrite Hd, Hleap, Hl.
    change (days_before_month_common 12) with 334.
    change (days_in_month _ 12) with 31. simpl. repeat split; lia.
  - apply orb_false_iff in Elast as [E1 E2].
    destruct (year_spec b c e) as [Hd Hleap]; [lia..|].
    pose proof (month_day_ymd2ord (100 * b + 4 * c + e + 1) r ltac:(lia)) as Hmd.
    rewrite Hleap in Hmd.
    destruct (month_day _ r) as [m d]. destruct Hmd as (Ho & Hm & Hday).
    exists (a * 400 + 1 + b * 100 + c * 4 + e), m, d.
    rewrite Hy, ymd2ord_period.
    unfold days_in_month in *. rewrite is_leap_period.
    repeat split; lia.
Qed.

Lemma of_local_us_spec n tz x :
  of_local_us n tz = Ok x -> local_us x = n /\ utcoffset x = tz.
Proof.
  unfold of_local_us. destruct (_ && _) eqn:E; [|discriminate].
  inv_result. destruct (ord2ymd_spec (n / US_DAY)) as (y & m & d & -> & Ho & _); [lia|].
  intros [= <-]. split; [|done].
  unfold local_us, time_us; simpl. rewrite Ho.
  pose proof (Z.div_mod n US_DAY ltac:(done)) as Hd.
  pose proof (Z.mod_pos_bound n US_DAY ltac:(done)) as Ht.
  set (t := n mod US_DAY) in *.
  enough (((t / (3600 * US_SECOND) * 60 + t / (60 * US_SECOND) mod 60) * 60
           + t / US_SECOND mod 60) * US_SECOND + t mod US_SECOND = t) by lia.
  unfold US_SECOND.
  replace (t / (60 * 1000000)) with (t / 1000000 / 60)
    by (rewrite Z.div_div by lia; f_equal; lia).
  replace (t / (3600 * 1000000)) with (t / 1000000 / 60 / 60)
    by (rewrite !Z.div_div by lia; f_equal; lia).
  pose proof (Z.div_mod t 1000000 ltac:(done)).
  pose proof (Z.div_mod (t / 1000000) 60 ltac:(done)).
  pose proof (Z.div_mod (t / 1000000 / 60) 60 ltac:(done)).
  lia.
Qed.

Lemma of_local_us_ok n tz x :
  of_local_us n tz = Ok x ->
  match tz with None => True | Some o => - US_DAY < o < US_DAY end ->
  datetime_ok x = true.
Proof.
  unfold of_local_us. destruct (_ && _) eqn:E; [|discriminate].
  inv_result. destruct (ord2ymd_spec (n / US_DAY)) as (y & m & d & -> & Ho & Hy & Hm & Hd); [lia|].
  intros [= <-] Htz.
  pose proof (Z.mod_pos_bound n US_DAY ltac:(done)) as Ht.
  set (t := n mod US_DAY) in *.
  assert (Hh : 0 <= t / (3600 * US_SECOND) <= 23).
  { split; [apply Z.div_pos; unfold US_SECOND; lia|].
    apply Z.lt_succ_r. apply Z.div_lt_upper_bound; unfold US_SECOND, US_DAY in *; lia. }
  pose proof (Z.mod_pos_bound (t / (60 * US_SECOND)) 60 ltac:(done)).
  pose proof (Z.mod_pos_bound (t / US_SECOND) 60 ltac:(done)).
  pose proof (Z.mod_pos_bound t US_SECOND ltac:(done)).
  assert (Hy9 : y <= 9999).
  { destruct (decide (y <= 9999)); [done|]. exfalso.
    unfold MAXORDINAL, ymd2ord, days_before_year, days_before_month in *.
    assert (0 <= days_before_month_common m) by (
      unfold days_before_month_common;
      assert (m = 1 \/ m = 2 \/ m = 3 \/ m = 4 \/ m = 5 \/ m = 6 \/ m = 7 \/ m = 8
              \/ m = 9 \/ m = 10 \/ m = 11 \/ m = 12) as Hcases by lia;
      repeat (destruct Hcases as [->|Hcases]; [simpl; lia|]); subst; simpl; lia).
    assert (9999 * 365 + 9999 / 4 - 9999 / 100 + 9999 / 400
            <= (y - 1) * 365 + (y - 1) / 4 - (y - 1) / 100 + (y - 1) / 400).
    { pose proof (Z.div_mod (y - 1) 4 ltac:(done)). pose proof (Z.mod_pos_bound (y - 1) 4 ltac:(done)).
      pose proof (Z.div_mod (y - 1) 100 ltac:(done)). pose proof (Z.mod_pos_bound (y - 1) 100 ltac:(done)).
      pose proof (Z.div_mod (y - 1) 400 ltac:(done)). pose proof (Z.mod_pos_bound (y - 1) 400 ltac:(done)).
      change (9999 / 4) with 2499. change (9999 / 100) with 99. change (9999 / 400) with 24. lia. }
    change (9999 / 4) with 2499 in *. change (9999 / 100) with 99 in *.
    change (9999 / 400) with 24 in *.
    destruct ((2 <? m) && is_leap y); lia. }
  unfold datetime_ok, ymd_ok, US_SECOND in *; simpl.
  repeat (apply andb_true_iff; split); try lia.
  destruct tz; lia.
Qed.

Lemma of_local_us_Raise n tz e : of_local_us n tz = Raise e -> e = OverflowError.
Proof.
  unfold of_local_us. destruct (_ && _); [|congruence].
  destruct (ord2ymd (n / US_DAY)) as [[y m] d]. discriminate.
Qed.

Lemma dt_add_instant x delta y :
  dt_add x delta = Ok y -> instant y = instant x + delta /\ utcoffset y = utcoffset x.
Proof.
  intros H. apply of_local_us_spec in H as [H1 H2].
  unfold instant. rewrite H1, H2. split; [lia | done].
Qed.

Lemma astimezone_utc_instant x y :
  astimezone_utc x = Ok y -> instant y = instant x /\ utcoffset y = Some 0.
Proof.
  intros H. apply of_local_us_spec in H as [H1 H2].
  split; [|done]. unfold instant at 1. rewrite H1, H2; simpl. lia.
Qed.

Lemma replace_midnight_instant x :
  0 <= time_us x -> instant (replace_midnight x) <= instant x.
Proof. unfold instant, local_us, replace_midnight, time_us; simpl. lia. Qed.

Lemma datetime_ok_time x : datetime_ok x = true -> 0 <= time_us x < US_DAY.
Proof. unfold datetime_ok, time_us, US_DAY, US_SECOND. intros H. inv_result. lia. Qed.

(** * fromisoformat inverts isoformat *)

Lemma digit_not_char c x : is_digit c = true -> is_digit x = false -> eqc c x = false.
Proof. intros Hc Hx. apply bool_decide_eq_false. congruence. Qed.

Lemma pad_digits_all w z : 0 <= z -> all_chars is_digit (pad_digits w z) = true.
Proof.
  revert z; induction w as [|w IH]; intros z Hz; simpl; [done|].
  rewrite all_chars_app, IH by (apply Z.div_pos; lia). simpl.
  rewrite is_digit_digit_char; [done|]. pose proof (Z.mod_pos_bound z 10). lia.
Qed.

(** The [w]-digit string of [z], as an opaque string of digits with its
    value. *)
Lemma pad_digits_string w z :
  0 <= z < 10 ^ Z.of_nat w ->
  exists s, pad_digits w z = s /\ String.length s = w /\ all_chars is_digit s = true
    /\ digits_value s = Some z.
Proof.
  intros Hz. exists (pad_digits w z). split; [done|].
  rewrite pad_digits_length, digits_value_pad by done.
  split; [done|]. split; [|done]. apply pad_digits_all; lia.
Qed.

Ltac explode_string s :=
  repeat match goal with
  | H : String.length s = O |- _ => destruct s; [clear H | discriminate H]
  | H : String.length s = S _ |- _ =>
      let c := fresh "c" in let s' := fresh "s" in
      destruct s as [|c s']; [discriminate H|]; simpl in H; injection H as H;
      explode_string s'
  end.

(** Replaces [pad_digits w z] by its digits. *)
Ltac explode_pad w z :=
  let s := fresh "s" in let E := fresh "Hpad" in let Hl := fresh "Hl" in
  let Hd := fresh "Hd" in let Hv := fresh "Hv" in
  destruct (pad_digits_string w z) as (s & E & Hl & Hd & Hv); [simpl; lia|];
  rewrite E; clear E; explode_string s; simpl in Hd; inv_result.

Ltac digit_chars :=
  repeat match goal with
  | H : is_digit ?c = true |- context [eqc ?c ?x] =>
      rewrite (digit_not_char c x H eq_refl)
  | H : is_digit ?c = true |- context [is_digit ?c] => rewrite H
  end.

Ltac digit_values :=
  repeat match goal with
  | H : digits_value ?s = Some _ |- context [digits_value ?s] => rewrite H
  end; simpl.

Section roundtrip.
Variable x : datetime.
Hypothesis Hok : datetime_ok x = true.

Let date_string : string :=
  pad_digits 4 (year x) +:+ "-" +:+ pad_digits 2 (month x) +:+ "-" +:+ pad_digits 2 (day x).
Let hms_string (h m s us : Z) : string :=
  pad_digits 2 h +:+ ":" +:+ pad_digits 2 m +:+ ":" +:+ pad_digits 2 s
  +:+ (if us =? 0 then EmptyString else "." +:+ pad_digits 6 us).

Lemma ymd_bounds : 0 <= year x < 10000 /\ 0 <= month x < 100 /\ 0 <= day x < 100.
Proof.
  unfold datetime_ok, ymd_ok in Hok. inv_result.
  assert (days_in_month (year x) (month x) <= 31)
    by (unfold days_in_month; repeat case_match; lia).
  lia.
Qed.

Lemma parse_date_string : parse_date date_string = Some (year x, month x, day x).
Proof.
  destruct ymd_bounds as (Hy & Hm & Hd). unfold date_string.
  explode_pad 4%nat (year x). explode_pad 2%nat (month x). explode_pad 2%nat (day x).
  unfold parse_date, int_at, char_is, sget. simpl. digit_chars.
  change (eqc "-" "-") with true. simpl.
  digit_values. done.
Qed.

Lemma parse_hms_string h m s us :
  0 <= h < 100 -> 0 <= m < 100 -> 0 <= s < 100 -> 0 <= us < 1000000 ->
  parse_hms (hms_string h m s us) = Some (h, m, s, us, false).
Proof.
  intros Hh Hm Hs Hus. unfold hms_string.
  explode_pad 2%nat h. explode_pad 2%nat m. explode_pad 2%nat s.
  destruct (us =? 0) eqn:E.
  - assert (us = 0) as -> by lia.
    unfold parse_hms, int_at, char_is, sget. simpl. digit_chars. digit_values.
    unfold after_component. simpl. digit_values. done.
  - explode_pad 6%nat us.
    unfold parse_hms, int_at, char_is, sget. simpl. digit_chars. digit_values.
    unfold after_component. simpl. digit_values.
    unfold parse_fraction, int_at. simpl. digit_values.
    change (10 ^ (6 - Z.of_nat 6)) with 1. by rewrite Z.mul_1_r.
Qed.

Lemma split_hms h m s us t :
  0 <= h < 100 -> 0 <= m < 100 -> 0 <= s < 100 -> 0 <= us < 1000000 ->
  split_at_first is_tz_char (hms_string h m s us +:+ t)
  = match split_at_first is_tz_char t with
    | Some (a, c, b) => Some (hms_string h m s us +:+ a, c, b)
    | None => None
    end.
Proof.
  intros Hh Hm Hs Hus. unfold hms_string.
  assert (Hskip : forall s t, all_chars (fun c => is_digit c || eqc c ":" || eqc c ".") s = true ->
    split_at_first is_tz_char (s +:+ t)
    = match split_at_first is_tz_char t with
      | Some (a, c, b) => Some (s +:+ a, c, b) | None => None end).
  { clear. intros s t. induction s as [|c s IH]; intros Hs.
    - change ("" +:+ t) with t. by destruct (split_at_first _ t) as [[[? ?] ?]|].
    - simpl in Hs. apply andb_true_iff in Hs as [Hc Hs].
      change (String c s +:+ t) with (String c (s +:+ t)). simpl.
      assert (is_tz_char c = false) as ->.
      { unfold is_tz_char, eqc. apply orb_true_iff in Hc as [Hc|Hc];
          [apply orb_true_iff in Hc as [Hc|Hc]|].
        - rewrite !bool_decide_eq_false_2; [done|..]; by intros ->.
        - unfold eqc in Hc. apply bool_decide_eq_true in Hc as ->. done.
        - unfold eqc in Hc. apply bool_decide_eq_true in Hc as ->. done. }
      rewrite IH by done. by destruct (split_at_first _ t) as [[[? ?] ?]|]. }
  apply Hskip.
  explode_pad 2%nat h. explode_pad 2%nat m. explode_pad 2%nat s.
  destruct (us =? 0); [|explode_pad 6%nat us]; rewrite ?all_chars_app; cbn -[eqc is_digit]; digit_chars; done.
Qed.

Lemma parse_offset_string o :
  0 < Z.abs o < US_DAY ->
  exists sign s, format_offset o = String sign s /\ is_tz_char sign = true
    /\ eqc sign "Z" = false /\ parse_offset sign s = Some o.
Proof.
  intros Ho. unfold format_offset, US_DAY in *.
  pose proof (Z.div_mod (Z.abs o) US_SECOND ltac:(done)) as Hs.
  pose proof (Z.mod_pos_bound (Z.abs o) US_SECOND ltac:(done)) as Hus.
  set (us := Z.abs o mod US_SECOND) in *. set (s := Z.abs o / US_SECOND) in *.
  pose proof (Z.div_mod s 60 ltac:(done)) as Hm.
  pose proof (Z.mod_pos_bound s 60 ltac:(done)) as Hsec.
  pose proof (Z.div_mod (s / 60) 60 ltac:(done)) as Hh.
  pose proof (Z.mod_pos_bound (s / 60) 60 ltac:(done)) as Hmin.
  replace (s / 3600) with (s / 60 / 60) by (by rewrite Z.div_div by lia).
  set (sec := s mod 60) in *. set (mi := s / 60 mod 60) in *. set (h := s / 60 / 60) in *.
  unfold US_SECOND in *.
  assert (Hhb : 0 <= h < 24) by lia.
  exists (if o <? 0 then "-"%char else "+"%char).
  assert (Hsign : forall t, (if (o <? 0)%Z then "-" else "+")%string +:+ t
                    = String (if o <? 0 then "-"%char else "+"%char) t) by (by destruct (o <? 0)).
  eexists. split; [apply Hsign|].
  split; [by destruct (o <? 0)|]. split; [by destruct (o <? 0)|].
  unfold parse_offset.
  assert (Hp : parse_hms (pad_digits 2 h +:+ ":" +:+ pad_digits 2 mi +:+
     (if (sec =? 0) && (us =? 0) then EmptyString
      else ":" +:+ pad_digits 2 sec +:+
           (if us =? 0 then EmptyString else "." +:+ pad_digits 6 us)))
     = Some (h, mi, sec, us, false)).
  { destruct ((sec =? 0) && (us =? 0)) eqn:E.
    - assert (sec = 0 /\ us = 0) as [-> ->] by lia.
      explode_pad 2%nat h. explode_pad 2%nat mi.
      unfold parse_hms, int_at, char_is, sget, after_component. simpl. digit_chars.
      digit_values. digit_values. done.
    - apply (parse_hms_string h mi sec us); lia. }
  rewrite Hp. simpl. f_equal.
  destruct (o <? 0) eqn:E; simpl; unfold US_SECOND; lia.
Qed.

Lemma fromisoformat_isoformat : fromisoformat (isoformat x) = Some x.
Proof.
  set (off := match utcoffset x with None => EmptyString | Some o => format_offset o end).
  assert (Hiso : isoformat x = date_string +:+ String "T"
            (hms_string (hour x) (minute x) (second x) (microsecond x) +:+ off)).
  { unfold isoformat, date_string, hms_string. rewrite !sapp_assoc. done. }
  rewrite Hiso. clear Hiso.
  assert (Hb : 0 <= hour x < 100 /\ 0 <= minute x < 100 /\ 0 <= second x < 100
               /\ 0 <= microsecond x < 1000000)
    by (unfold datetime_ok in Hok; inv_result; lia).
  destruct Hb as (Hh & Hm & Hs & Hus).
  set (t := hms_string _ _ _ _ +:+ off).
  assert (Hsep : find_datetime_separator (date_string +:+ String "T" t) = Some 10%nat
                 /\ stake 10 (date_string +:+ String "T" t) = date_string
                 /\ sdrop 11 (date_string +:+ String "T" t) = t
                 /\ String.length (date_string +:+ String "T" t) = (11 + String.length t)%nat).
  { destruct ymd_bounds as (Hy & Hmo & Hd). unfold date_string.
    explode_pad 4%nat (year x). explode_pad 2%nat (month x). explode_pad 2%nat (day x).
    split; [|split; [reflexivity|split; reflexivity]].
    unfold find_datetime_separator, char_is, sget.
    cbv [String.append]. cbn -[eqc]. digit_chars. done. }
  destruct Hsep as (H1 & H2 & H3 & H4).
  unfold fromisoformat. rewrite H4, H1. cbn -[sdrop stake parse_date parse_time].
  rewrite H2, parse_date_string, H3. cbn -[parse_time].
  assert (Ht : parse_time t = Some (hour x, minute x, second x, microsecond x, utcoffset x)).
  { unfold parse_time, t. rewrite split_hms by done. subst off t.
    destruct (utcoffset x) as [o|] eqn:Eo.
    - destruct (decide (o = 0)) as [->|Hne].
      + change (format_offset 0) with (String "+" "00:00"). simpl.
        rewrite sapp_nil_r, parse_hms_string by done. done.
      + destruct (parse_offset_string o) as (sg & z & -> & Hsg & HZ & Hp).
        { unfold datetime_ok in Hok. rewrite Eo in Hok. inv_result. lia. }
        simpl. rewrite Hsg. simpl. rewrite sapp_nil_r, parse_hms_string by done.
        simpl. rewrite HZ, Hp. done.
    - simpl. rewrite sapp_nil_r, parse_hms_string by done. done. }
  rewrite Ht. cbn -[datetime_ok].
  replace (mkdt _ _ _ _ _ _ _ _) with x by (by destruct x).
  by rewrite Hok.
Qed.
End roundtrip.
