(* ===== verification/PyDecimal.v ===== *)
(** PyDecimal: finite [decimal.Decimal] numbers under the default context
    (28 significant digits, half-even rounding).

    A decimal is a signed coefficient and an exponent; the coefficient and
    exponent a computation yields are the ones Python yields, so that
    [str] agrees.  Negative zero is identified with zero, and exponents are
    far from the context's limits of a million. *)

From S2P Require Import Prelude PyStr.
From Stdlib Require Import Ascii String QArith Qpower.

Local Open Scope Z_scope.

Record decimal := mkdec { d_coef : Z; d_exp : Z }.

#[export] Instance decimal_eq_dec : EqDecision decimal.
Proof. solve_decision. Defined.

Definition PREC : Z := 28.

Definition dec_of_Z (n : Z) : decimal := mkdec n 0.

(** Number of decimal digits of [n >= 0]. *)
Fixpoint ndigits_fuel (fuel : nat) (n : Z) : Z :=
  match fuel with
  | O => 1
  | S f => if n <? 10 then 1 else 1 + ndigits_fuel f (n / 10)
  end.
Definition ndigits (n : Z) : Z := ndigits_fuel (Z.to_nat (Z.log2 n + 1)) n.

(** [n / p] rounded half to even, for [n >= 0]. *)
Definition div_half_even (n p : Z) : Z :=
  let q := n / p in
  let r := 2 * (n mod p) in
  if r <? p then q else if p <? r then q + 1 else if Z.even q then q else q + 1.

(** [_fix]: round to the context precision. *)
Definition dec_fix (d : decimal) : decimal :=
  let c := Z.abs (d_coef d) in
  let k := ndigits c - PREC in
  if k <=? 0 then d
  else
    let q := div_half_even c (10 ^ k) in
    let '(q, e) := if ndigits q <=? PREC then (q, d_exp d + k) else (q / 10, d_exp d + k + 1) in
    mkdec (Z.sgn (d_coef d) * q) e.

(** The coefficient of [d] at an exponent [e <= d_exp d]. *)
Definition coef_at (e : Z) (d : decimal) : Z := d_coef d * 10 ^ (d_exp d - e).

Definition dec_add (a b : decimal) : decimal :=
  let e := Z.min (d_exp a) (d_exp b) in
  if (d_coef a =? 0) && (d_coef b =? 0) then mkdec 0 e
  else if d_coef a =? 0 then
    let e := Z.max e (d_exp b - PREC - 1) in dec_fix (mkdec (coef_at e b) e)
  else if d_coef b =? 0 then
    let e := Z.max e (d_exp a - PREC - 1) in dec_fix (mkdec (coef_at e a) e)
  else if coef_at e a + coef_at e b =? 0 then mkdec 0 e
  else dec_fix (mkdec (coef_at e a + coef_at e b) e).

Definition dec_neg (a : decimal) : decimal := mkdec (- d_coef a) (d_exp a).
Definition dec_sub (a b : decimal) : decimal := dec_add a (dec_neg b).

(** Strip the trailing zeros of an exact quotient down to the ideal
    exponent. *)
Fixpoint strip_zeros (fuel : nat) (c e ideal : Z) : decimal :=
  match fuel with
  | O => mkdec c e
  | S f => if (e <? ideal) && (c mod 10 =? 0) then strip_zeros f (c / 10) (e + 1) ideal
           else mkdec c e
  end.

(** [a / b] for [a >= 0] and [b > 0]. *)
Definition dec_div (a b : decimal) : decimal :=
  let ideal := d_exp a - d_exp b in
  if d_coef a =? 0 then mkdec 0 ideal
  else
    let shift := ndigits (d_coef b) - ndigits (d_coef a) + PREC + 1 in
    let n := if 0 <=? shift then d_coef a * 10 ^ shift else d_coef a in
    let d := if 0 <=? shift then d_coef b else d_coef b * 10 ^ (- shift) in
    let c := n / d in
    let e := ideal - shift in
    if n mod d =? 0 then dec_fix (strip_zeros (Z.to_nat (ideal - e)) c e ideal)
    else dec_fix (mkdec (if c mod 5 =? 0 then c + 1 else c) e).

(** * Comparison *)

Definition dec_compare (a b : decimal) : comparison :=
  let e := Z.min (d_exp a) (d_exp b) in coef_at e a ?= coef_at e b.

Definition dec_leb (a b : decimal) : bool :=
  match dec_compare a b with Gt => false | _ => true end.
Definition dec_ltb (a b : decimal) : bool :=
  match dec_compare a b with Lt => true | _ => false end.
Definition dec_eqb (a b : decimal) : bool :=
  match dec_compare a b with Eq => true | _ => false end.

Definition dec_zero : decimal := mkdec 0 0.
Definition dec_one : decimal := mkdec 1 0.
Definition dec_is_zero (d : decimal) : bool := d_coef d =? 0.

(** * Strings *)

Fixpoint zeros (n : nat) : string :=
  match n with O => EmptyString | S n' => String "0" (zeros n') end.

Definition sign_str (c : Z) : string := if c <? 0 then "-" else "".

(** [str(d)] *)
Definition dec_str (d : decimal) : string :=
  let digits := str_int (Z.abs (d_coef d)) in
  let n := len digits in
  let leftdigits := d_exp d + n in
  let dotplace := if (d_exp d <=? 0) && (-6 <? leftdigits) then leftdigits else 1 in
  let body :=
    if dotplace <=? 0 then "0." +:+ zeros (Z.to_nat (- dotplace)) +:+ digits
    else if n <=? dotplace then digits +:+ zeros (Z.to_nat (dotplace - n))
    else stake (Z.to_nat dotplace) digits +:+ "." +:+ sdrop (Z.to_nat dotplace) digits in
  let x := leftdigits - dotplace in
  sign_str (d_coef d) +:+ body
  +:+ (if x =? 0 then EmptyString
       else "E" +:+ (if (0 <? x)%Z then "+" else "-")%string +:+ str_int (Z.abs x)).

(** [d.normalize()] *)
Fixpoint drop_zeros (fuel : nat) (c e : Z) : decimal :=
  match fuel with
  | O => mkdec c e
  | S f => if c mod 10 =? 0 then drop_zeros f (c / 10) (e + 1) else mkdec c e
  end.

Definition dec_normalize (d : decimal) : decimal :=
  let d := dec_fix d in
  if d_coef d =? 0 then mkdec 0 0
  else
    let n := drop_zeros (Z.to_nat (ndigits (Z.abs (d_coef d)))) (Z.abs (d_coef d)) (d_exp d) in
    mkdec (Z.sgn (d_coef d) * d_coef n) (d_exp n).

(** [format(d, "f")] *)
Definition dec_format_f (d : decimal) : string :=
  let digits := str_int (Z.abs (d_coef d)) in
  let n := len digits in
  let leftdigits := d_exp d + n in
  sign_str (d_coef d) +:+
  (if 0 <=? d_exp d then digits +:+ zeros (Z.to_nat (d_exp d))
   else if leftdigits <=? 0 then "0." +:+ zeros (Z.to_nat (- leftdigits)) +:+ digits
   else stake (Z.to_nat leftdigits) digits +:+ "." +:+ sdrop (Z.to_nat leftdigits) digits).

(** * Exactness *)

Lemma ndigits_fuel_bound fuel n k :
  0 <= n < 10 ^ k -> 1 <= k -> ndigits_fuel fuel n <= k.
Proof.
  revert n k; induction fuel as [|fuel IH]; intros n k Hn Hk; simpl; [lia|].
  destruct (Z.ltb_spec n 10); [lia|].
  assert (1 < k) by (destruct (decide (k = 1)); [subst; lia | lia]).
  assert (ndigits_fuel fuel (n / 10) <= k - 1); [|lia].
  apply IH; [|lia]. split; [apply Z.div_pos; lia|].
  apply Z.div_lt_upper_bound; [lia|]. rewrite <- Z.pow_succ_r by lia.
  replace (Z.succ (k - 1)) with k by lia. lia.
Qed.

Lemma ndigits_bound n k : 0 <= n < 10 ^ k -> 1 <= k -> ndigits n <= k.
Proof. apply ndigits_fuel_bound. Qed.

Lemma dec_fix_exact d : Z.abs (d_coef d) < 10 ^ PREC -> dec_fix d = d.
Proof.
  intros H. unfold dec_fix. pose proof (ndigits_bound (Z.abs (d_coef d)) PREC) as Hb.
  destruct (Z.leb_spec (ndigits (Z.abs (d_coef d)) - PREC) 0) as [_|Hlt]; [done|].
  unfold PREC in *. lia.
Qed.

(** The coefficients of one number at two exponents. *)
Lemma coef_at_shift e e' d : e <= e' <= d_exp d -> coef_at e d = coef_at e' d * 10 ^ (e' - e).
Proof.
  intros H. unfold coef_at. rewrite <- Z.mul_assoc, <- Z.pow_add_r by lia.
  do 2 f_equal. lia.
Qed.

(** An amount in millionths: the value times a million, when the exponent is
    at least -6. *)
Definition micros (d : decimal) : Z := coef_at (-6) d.

(** A non-negative amount that a [Numeric(18, 6)] column holds exactly. *)
Definition money (d : decimal) : Prop := -6 <= d_exp d /\ 0 <= micros d < 10 ^ 18.

Lemma micros_mkdec c e d :
  -6 <= e <= d_exp d -> c = coef_at e d -> micros (mkdec c e) = micros d.
Proof.
  intros He ->. unfold micros. rewrite (coef_at_shift (-6) e d) by lia.
  unfold coef_at at 1. simpl. done.
Qed.

Lemma coef_bound e d : -6 <= e <= d_exp d -> 0 <= micros d < 10 ^ 18 -> 0 <= coef_at e d < 10 ^ 18.
Proof.
  intros He Hm. unfold micros in Hm. rewrite (coef_at_shift (-6) e d) in Hm by lia.
  assert (1 <= 10 ^ (e - -6)) by (pose proof (Z.pow_pos_nonneg 10 (e - -6)); lia). nia.
Qed.

Lemma dec_neg_coef e d : coef_at e (dec_neg d) = - coef_at e d.
Proof. unfold coef_at, dec_neg. simpl. lia. Qed.

Lemma coef_bound_abs e d :
  -6 <= e <= d_exp d -> Z.abs (micros d) < 10 ^ 18 -> Z.abs (coef_at e d) < 10 ^ 18.
Proof.
  intros He Hm. unfold micros in Hm. rewrite (coef_at_shift (-6) e d) in Hm by lia.
  assert (1 <= 10 ^ (e - -6)) by (pose proof (Z.pow_pos_nonneg 10 (e - -6)); lia). nia.
Qed.

(** Adding two amounts with at most six digits after the point is exact. *)
Lemma dec_add_micros a b :
  -6 <= d_exp a -> -6 <= d_exp b -> Z.abs (micros a) < 10 ^ 18 -> Z.abs (micros b) < 10 ^ 18 ->
  micros (dec_add a b) = micros a + micros b /\ -6 <= d_exp (dec_add a b).
Proof.
  intros Ha Hb Hma Hmb. unfold dec_add.
  set (e := Z.min (d_exp a) (d_exp b)).
  assert (He : -6 <= e <= d_exp a /\ e <= d_exp b) by (unfold e; lia).
  assert (Hz : forall d, d_coef d = 0 -> micros d = 0) by (intros d Hd; unfold micros, coef_at; lia).
  assert (Hfix : forall d e', -6 <= e' <= d_exp d -> Z.abs (micros d) < 10 ^ 18 ->
     dec_fix (mkdec (coef_at e' d) e') = mkdec (coef_at e' d) e').
  { intros d e' He' Hd. apply dec_fix_exact. simpl. unfold PREC.
    pose proof (coef_bound_abs e' d He' Hd). lia. }
  destruct (Z.eqb_spec (d_coef a) 0) as [Ha0|Ha0], (Z.eqb_spec (d_coef b) 0) as [Hb0|Hb0]; cbn [andb].
  - rewrite (Hz a Ha0), (Hz b Hb0). split; [unfold micros, coef_at; simpl; lia | simpl; lia].
  - assert (He' : -6 <= Z.max e (d_exp b - PREC - 1) <= d_exp b) by (unfold PREC; lia).
    rewrite (Hfix b) by done. split; [|simpl; lia].
    by rewrite (Hz a Ha0), (micros_mkdec _ _ b).
  - assert (He' : -6 <= Z.max e (d_exp a - PREC - 1) <= d_exp a) by (unfold PREC; lia).
    rewrite (Hfix a) by done. split; [|simpl; lia].
    by rewrite (Hz b Hb0), (micros_mkdec _ _ a), Z.add_0_r.
  - pose proof (coef_bound_abs e a ltac:(lia) Hma). pose proof (coef_bound_abs e b ltac:(lia) Hmb).
    assert (Hsum : micros (mkdec (coef_at e a + coef_at e b) e) = micros a + micros b).
    { unfold micros at 1. unfold coef_at at 1. cbn [d_coef d_exp].
      unfold micros. rewrite (coef_at_shift (-6) e a), (coef_at_shift (-6) e b) by lia. lia. }
    destruct (Z.eqb_spec (coef_at e a + coef_at e b) 0) as [Hs|Hs].
    + rewrite Hs in Hsum. split; [exact Hsum | simpl; lia].
    + rewrite dec_fix_exact by (simpl; unfold PREC; lia). split; [exact Hsum | simpl; lia].
Qed.

(** Subtracting two amounts of money is exact. *)
Lemma dec_sub_micros a b :
  money a -> money b ->
  micros (dec_sub a b) = micros a - micros b /\ -6 <= d_exp (dec_sub a b).
Proof.
  intros [Ha Hma] [Hb Hmb].
  assert (Hn : micros (dec_neg b) = - micros b) by apply dec_neg_coef.
  destruct (dec_add_micros a (dec_neg b)) as [E He]; [done|done|lia|lia|].
  rewrite Hn in E. split; [unfold dec_sub; lia | done].
Qed.

(** Comparing amounts compares their millionths. *)
Lemma dec_ltb_micros a b :
  -6 <= d_exp a -> -6 <= d_exp b -> dec_ltb a b = true <-> micros a < micros b.
Proof.
  intros Ha Hb. unfold dec_ltb, dec_compare. set (e := Z.min (d_exp a) (d_exp b)).
  unfold micros. rewrite (coef_at_shift (-6) e a), (coef_at_shift (-6) e b) by lia.
  assert (0 < 10 ^ (e - -6)) by (apply Z.pow_pos_nonneg; lia).
  destruct (Z.compare_spec (coef_at e a) (coef_at e b)); split; intros; try done; nia.
Qed.

(** ** A quotient of two counts against a threshold *)

Lemma ndigits_fuel_spec fuel n :
  1 <= n < 2 ^ Z.of_nat fuel ->
  1 <= ndigits_fuel fuel n /\ 10 ^ (ndigits_fuel fuel n - 1) <= n < 10 ^ ndigits_fuel fuel n.
Proof.
  revert n; induction fuel as [|fuel IH]; intros n Hn; [simpl in Hn; lia|]. simpl ndigits_fuel.
  destruct (Z.ltb_spec n 10) as [Hlt|Hge]; [simpl; lia|].
  rewrite Nat2Z.inj_succ, Z.pow_succ_r in Hn by lia.
  pose proof (Z.div_mod n 10 ltac:(done)). pose proof (Z.mod_pos_bound n 10 ltac:(done)).
  destruct (IH (n / 10)) as [H1 H2]; [lia|].
  set (k := ndigits_fuel fuel (n / 10)) in *. split; [lia|].
  replace (1 + k - 1) with (Z.succ (k - 1)) by lia. replace (1 + k) with (Z.succ k) by lia.
  rewrite !Z.pow_succ_r by lia. lia.
Qed.

Lemma ndigits_spec n : 1 <= n -> 1 <= ndigits n /\ 10 ^ (ndigits n - 1) <= n < 10 ^ ndigits n.
Proof.
  intros Hn. apply ndigits_fuel_spec. split; [lia|].
  rewrite Z2Nat.id by (pose proof (Z.log2_nonneg n); lia).
  pose proof (Z.log2_spec n ltac:(lia)) as [_ H]. replace (Z.log2 n + 1) with (Z.succ (Z.log2 n)) by lia.
  exact H.
Qed.

Lemma div_half_even_close n p :
  0 <= n -> 1 <= p -> 2 * Z.abs (div_half_even n p * p - n) <= p.
Proof.
  intros Hn Hp. unfold div_half_even.
  pose proof (Z.div_mod n p ltac:(lia)). pose proof (Z.mod_pos_bound n p ltac:(lia)).
  destruct (Z.ltb_spec (2 * (n mod p)) p); [nia|].
  destruct (Z.ltb_spec p (2 * (n mod p))); [nia|]. destruct (Z.even _); nia.
Qed.

(** Rounding a coefficient of at most 30 digits moves it by at most 50 units
    of its own exponent. *)
Lemma dec_fix_close c e :
  1 <= c < 10 ^ 30 ->
  exists c' k, dec_fix (mkdec c e) = mkdec c' (e + k) /\ 0 <= k <= 3
  /\ Z.abs (c' * 10 ^ k - c) <= 50.
Proof.
  intros Hc. unfold dec_fix. cbn [d_coef d_exp]. rewrite (Z.abs_eq c), (Z.sgn_pos c) by lia.
  destruct (ndigits_spec c) as [Hd1 [Hd2 Hd3]]; [lia|].
  assert (Hd : ndigits c <= 30).
  { destruct (Z.le_gt_cases (ndigits c) 30) as [|Hgt]; [done|].
    pose proof (Z.pow_le_mono_r 10 30 (ndigits c - 1) ltac:(lia) ltac:(lia)). lia. }
  unfold PREC. destruct (Z.leb_spec (ndigits c - 28) 0) as [Hle|Hgt].
  { exists c, 0. rewrite Z.add_0_r. split_and!; [done | lia | lia | ]. change (10 ^ 0) with 1. lia. }
  set (k := ndigits c - 28) in *.
  assert (Hk : k = 1 \/ k = 2) by lia.
  pose proof (div_half_even_close c (10 ^ k) ltac:(lia) ltac:(destruct Hk as [-> | ->]; simpl; lia)) as Hq.
  set (q := div_half_even c (10 ^ k)) in *.
  destruct (Z.leb_spec (ndigits q) 28) as [Hqd|Hqd].
  { exists (1 * q), k. split_and!; [done | lia | lia |].
    destruct Hk as [Hk|Hk]; rewrite Hk in *; change (10 ^ 1) with 10 in *; change (10 ^ 2) with 100 in *; lia. }
  assert (Hq28 : q = 10 ^ 28).
  { assert (Hc' : c < 10 ^ 28 * 10 ^ k).
    { rewrite <- Z.pow_add_r by lia. replace (28 + k) with (ndigits c) by lia. done. }
    assert (1 <= q) by (destruct (Z.le_gt_cases 1 q); [done|];
      assert (10 ^ (ndigits c - 1) >= 10 ^ 28) by (apply Z.le_ge, Z.pow_le_mono_r; lia);
      destruct Hk as [Hk|Hk]; rewrite Hk in *; change (10 ^ 1) with 10 in *;
      change (10 ^ 2) with 100 in *; lia).
    assert (10 ^ 28 <= q).
    { destruct (ndigits_spec q) as [_ [Hq2 _]]; [done|].
      pose proof (Z.pow_le_mono_r 10 28 (ndigits q - 1) ltac:(lia) ltac:(lia)). lia. }
    destruct Hk as [Hk|Hk]; rewrite Hk in *; change (10 ^ 1) with 10 in *;
      change (10 ^ 2) with 100 in *; lia. }
  exists (1 * (q / 10)), (k + 1). split_and!; [f_equal; lia | lia | lia |].
  rewrite Hq28 in *. change (10 ^ 28 / 10) with (10 ^ 27).
  destruct Hk as [Hk|Hk]; rewrite Hk in *; simpl in *; lia.
Qed.

Lemma strip_zeros_value fuel c e ideal :
  exists c' m, strip_zeros fuel c e ideal = mkdec c' (e + m) /\ 0 <= m /\ c = c' * 10 ^ m.
Proof.
  revert c e; induction fuel as [|fuel IH]; intros c e; simpl.
  { exists c, 0. split_and!; [f_equal; lia | lia | lia]. }
  destruct ((e <? ideal) && (c mod 10 =? 0)) eqn:E.
  - apply andb_true_iff in E as [_ E]. apply Z.eqb_eq in E.
    destruct (IH (c / 10) (e + 1)) as (c' & m & -> & Hm & Hc).
    exists c', (m + 1). split_and!; [f_equal; lia | lia |].
    rewrite Z.pow_add_r by lia. change (10 ^ 1) with 10.
    pose proof (Z.div_mod c 10 ltac:(done)). nia.
  - exists c, 0. split_and!; [f_equal; lia | lia | lia].
Qed.

Lemma strip_zeros_full (m f : nat) c e ideal :
  c mod 10 <> 0 -> e + Z.of_nat m <= ideal ->
  strip_zeros (m + f) (c * 10 ^ Z.of_nat m) e ideal = mkdec c (e + Z.of_nat m).
Proof.
  intros Hc. revert e; induction m as [|m IH]; intros e He.
  - simpl. rewrite Z.mul_1_r, Z.add_0_r. destruct f; simpl; [done|].
    destruct (Z.eqb_spec (c mod 10) 0); [done|]. by rewrite andb_false_r.
  - rewrite Nat2Z.inj_succ, Z.pow_succ_r in * by lia. simpl.
    replace (c * (10 * 10 ^ Z.of_nat m)) with (c * 10 ^ Z.of_nat m * 10) by lia.
    rewrite Z.mod_mul, Z.div_mul by done.
    destruct (Z.ltb_spec e ideal); [|lia]. simpl. rewrite IH by lia. f_equal. lia.
Qed.

Lemma dec_compare_at e a b :
  e <= d_exp a -> e <= d_exp b -> dec_compare a b = (coef_at e a ?= coef_at e b).
Proof.
  intros Ha Hb. unfold dec_compare. set (m := Z.min (d_exp a) (d_exp b)).
  rewrite (coef_at_shift e m a), (coef_at_shift e m b) by lia.
  assert (0 < 10 ^ (m - e)) by (apply Z.pow_pos_nonneg; lia).
  destruct (Z.compare_spec (coef_at m a) (coef_at m b)) as [E|E|E]; symmetry;
    [rewrite E; apply Z.compare_refl | apply Z.compare_lt_iff | apply Z.compare_gt_iff]; nia.
Qed.

(** The sticky digit of an inexact quotient. *)
Lemma sticky_digit c :
  1 <= c < 10 ^ 30 ->
  let c1 := if c mod 5 =? 0 then c + 1 else c in c <= c1 <= c + 1 /\ c1 < 10 ^ 30.
Proof.
  intros Hc c1. subst c1. destruct (Z.eqb_spec (c mod 5) 0) as [H5|]; [|lia].
  apply Z.div_exact in H5; [|done]. split; [lia|]. revert Hc H5.
  assert (10 ^ 30 = 5 * (2 * 10 ^ 29)) as -> by (vm_compute; reflexivity).
  generalize (c / 5) (10 ^ 29). lia.
Qed.

(** The quotient of two counts, up to its rounding: [q] is within 501 units
    of the integer quotient at 29 digits or more after the point. *)
Lemma dec_div_counts b n :
  1 <= b <= n -> n <= 100000 ->
  exists shift q j, dec_div (dec_of_Z b) (dec_of_Z n) = mkdec q (j - shift)
  /\ 29 <= shift /\ 0 <= j /\ Z.abs (q * 10 ^ j - b * 10 ^ shift / n) <= 501.
Proof.
  intros Hb Hn. unfold dec_div, dec_of_Z. cbn [d_coef d_exp].
  destruct (Z.eqb_spec b 0); [lia|].
  destruct (ndigits_spec b) as [Hb1 [Hb2 Hb3]]; [lia|].
  destruct (ndigits_spec n) as [Hn1 [Hn2 Hn3]]; [lia|].
  assert (Hle : ndigits b <= ndigits n).
  { destruct (Z.le_gt_cases (ndigits b) (ndigits n)) as [|Hgt]; [done|].
    pose proof (Z.pow_le_mono_r 10 (ndigits n) (ndigits b - 1) ltac:(lia) ltac:(lia)). lia. }
  set (shift := ndigits n - ndigits b + PREC + 1). unfold PREC in shift.
  destruct (Z.leb_spec 0 shift); [|lia]. set (c := b * 10 ^ shift / n).
  assert (Hc : 1 <= c < 10 ^ 30).
  { split.
    - apply Z.div_le_lower_bound; [lia|].
      pose proof (Z.pow_le_mono_r 10 29 shift ltac:(lia) ltac:(lia)). lia.
    - apply Z.div_lt_upper_bound; [lia|].
      assert (10 ^ ndigits b * 10 ^ shift = 10 ^ (ndigits n - 1) * 10 ^ 30)
        by (rewrite <- !Z.pow_add_r by lia; f_equal; lia).
      assert (0 < 10 ^ shift) by (apply Z.pow_pos_nonneg; lia). nia. }
  exists shift. change (0 - 0) with 0.
  destruct (Z.eqb_spec (b * 10 ^ shift mod n) 0) as [Hmod|Hmod].
  - destruct (strip_zeros_value (Z.to_nat (0 - (0 - shift))) c (0 - shift) 0)
      as (c' & m & -> & Hm & Hcm).
    assert (0 < 10 ^ m) by (apply Z.pow_pos_nonneg; lia).
    destruct (Z.lt_ge_cases c' (10 ^ 28)) as [Hsmall|Hbig].
    + rewrite dec_fix_exact by (simpl; unfold PREC; nia). exists c', m.
      split_and!; [f_equal; lia | lia | lia | lia].
    + destruct (dec_fix_close c' (0 - shift + m)) as (q & k & -> & Hk & Hq); [nia|].
      exists q, (m + k). split_and!; [f_equal; lia | lia | lia |].
      assert (m <= 1).
      { destruct (Z.le_gt_cases m 1) as [|Hgt]; [done|].
        pose proof (Z.pow_le_mono_r 10 2 m ltac:(lia) ltac:(lia)). nia. }
      rewrite Z.add_comm, Z.pow_add_r, Z.mul_assoc by lia.
      assert (m = 0 \/ m = 1) as [-> | ->] by lia; [change (10 ^ 0) with 1 in *|change (10 ^ 1) with 10 in *]; lia.
  - set (c1 := if c mod 5 =? 0 then c + 1 else c).
    assert (Hc1 : c <= c1 <= c + 1 /\ c1 < 10 ^ 30).
    { apply sticky_digit. lia. }
    destruct (dec_fix_close c1 (0 - shift)) as (q & k & -> & Hk & Hq); [lia|].
    exists q, k. split_and!; [f_equal; lia | lia | lia | lia].
Qed.

(** The rate of [b] in [n] is at most five percent exactly when it is as a
    fraction. *)
Lemma rate_at_most_five_percent b n :
  0 <= b <= n -> 1 <= n <= 100000 ->
  dec_leb (dec_div (dec_of_Z b) (dec_of_Z n)) (mkdec 5 (-2)) = (20 * b <=? n).
Proof.
  intros Hb Hn. destruct (decide (b = 0)) as [->|Hb0].
  { vm_compute (dec_leb _ _). symmetry. apply Z.leb_le. lia. }
  destruct (decide (20 * b = n)) as [E|Hne].
  - unfold dec_div, dec_of_Z. cbn [d_coef d_exp].
    destruct (Z.eqb_spec b 0); [done|].
    destruct (ndigits_spec b) as [Hb1 [Hb2 Hb3]]; [lia|].
    destruct (ndigits_spec n) as [Hn1 [Hn2 Hn3]]; [lia|].
    assert (Hle : ndigits b <= ndigits n).
    { destruct (Z.le_gt_cases (ndigits b) (ndigits n)) as [|Hgt]; [done|].
      pose proof (Z.pow_le_mono_r 10 (ndigits n) (ndigits b - 1) ltac:(lia) ltac:(lia)). lia. }
    set (shift := ndigits n - ndigits b + PREC + 1). unfold PREC in shift.
    destruct (Z.leb_spec 0 shift); [|lia].
    assert (Hp : b * 10 ^ shift = 5 * 10 ^ (shift - 2) * n).
    { replace shift with (2 + (shift - 2)) at 1 by lia. rewrite Z.pow_add_r by lia.
      change (10 ^ 2) with 100. lia. }
    rewrite Hp, Z.mod_mul, Z.div_mul by lia. simpl (0 =? 0). cbn match.
    replace (Z.to_nat (0 - 0 - (0 - 0 - shift))) with (Z.to_nat (shift - 2) + 2)%nat by lia.
    replace (10 ^ (shift - 2)) with (10 ^ Z.of_nat (Z.to_nat (shift - 2))) by (f_equal; lia).
    rewrite strip_zeros_full by (done || lia).
    replace (0 - 0 - shift + Z.of_nat (Z.to_nat (shift - 2))) with (-2) by lia.
    rewrite dec_fix_exact by done. vm_compute (dec_leb _ _). symmetry. apply Z.leb_le. lia.
  - destruct (dec_div_counts b n) as (shift & q & j & -> & Hs & Hj & Hq); [lia..|].
    unfold dec_leb. rewrite (dec_compare_at (- shift)) by (simpl; lia).
    unfold coef_at. cbn [d_coef d_exp].
    replace (j - shift - - shift) with j by lia. replace (-2 - - shift) with (shift - 2) by lia.
    set (v := q * 10 ^ j) in *. set (c := b * 10 ^ shift / n) in *.
    assert (HS : 20 * (5 * 10 ^ (shift - 2)) = 10 ^ shift).
    { replace shift with (2 + (shift - 2)) at 2 by lia. rewrite Z.pow_add_r by lia.
      change (10 ^ 2) with 100. lia. }
    assert (Hbig : 10 ^ 29 <= 10 ^ shift) by (apply Z.pow_le_mono_r; lia).
    pose proof (Z.div_mod (b * 10 ^ shift) n ltac:(lia)) as Hdm.
    pose proof (Z.mod_pos_bound (b * 10 ^ shift) n ltac:(lia)) as Hmb. fold c in Hdm.
    set (S := 10 ^ shift) in *. set (T := 5 * 10 ^ (shift - 2)) in *.
    destruct (Z.leb_spec (20 * b) n) as [Hle|Hgt].
    + assert (v <= T) as Hv; [|apply Z.compare_le_iff in Hv; by destruct (v ?= T)].
      assert (Hn1 : 20 * (b * S) <= (n - 1) * S) by nia.
      assert (Hc : 20 * (n * c) <= (n - 1) * S) by lia.
      assert (20 * (c + 501) * n <= S * n) by nia. nia.
    + assert (T < v) as Hv; [|apply Z.compare_gt_iff in Hv; by rewrite Hv].
      assert (Hn1 : (n + 1) * S <= 20 * (b * S)) by nia.
      assert (Hc : (n + 1) * S < 20 * (n * c) + 20 * n) by lia.
      assert (S * n < 20 * (c - 501) * n) by nia. nia.
Qed.

Lemma dec_leb_coef e a b :
  e <= d_exp a -> e <= d_exp b -> dec_leb a b = true <-> coef_at e a <= coef_at e b.
Proof.
  intros Ha Hb. unfold dec_leb. rewrite (dec_compare_at e) by done. rewrite <- Z.compare_le_iff.
  by destruct (_ ?= _).
Qed.

(** ** Rounding to a scale *)

(** [n / p] rounded half away from zero. *)
Definition half_away (n p : Z) : Z := Z.sgn n * ((2 * Z.abs n + p) / (2 * p)).

(** [d] at exactly [s] digits after the point. *)
Definition to_scale (s : Z) (d : decimal) : decimal :=
  if - s <=? d_exp d then mkdec (d_coef d * 10 ^ (d_exp d + s)) (- s)
  else mkdec (half_away (d_coef d) (10 ^ (- s - d_exp d))) (- s).

Lemma to_scale_idem s d : to_scale s (to_scale s d) = to_scale s d.
Proof.
  assert (H : forall c, to_scale s (mkdec c (- s)) = mkdec c (- s)).
  { intros c. unfold to_scale. cbn [d_coef d_exp]. destruct (Z.leb_spec (- s) (- s)); [|lia].
    replace (- s + s) with 0 by lia. f_equal. lia. }
  unfold to_scale at 2 3. destruct (_ <=? _); apply H.
Qed.

Lemma to_scale_ge0 s d : dec_leb dec_zero d = true -> dec_leb dec_zero (to_scale s d) = true.
Proof.
  assert (Hc : forall c e, dec_leb dec_zero (mkdec c e) = true <-> 0 <= c).
  { intros c e. rewrite (dec_leb_coef (Z.min 0 e)) by (simpl; lia). unfold coef_at, dec_zero.
    cbn [d_coef d_exp]. assert (0 < 10 ^ (e - Z.min 0 e)) by (apply Z.pow_pos_nonneg; lia). nia. }
  destruct d as [c e]. rewrite Hc. intros H. unfold to_scale. cbn [d_coef d_exp].
  destruct (Z.leb_spec (- s) e); rewrite Hc.
  - assert (0 < 10 ^ (e + s)) by (apply Z.pow_pos_nonneg; lia). nia.
  - unfold half_away. assert (0 < 10 ^ (- s - e)) by (apply Z.pow_pos_nonneg; lia).
    assert (0 <= (2 * Z.abs c + 10 ^ (- s - e)) / (2 * 10 ^ (- s - e))) by (apply Z.div_pos; lia).
    pose proof (Z.sgn_nonneg c). lia.
Qed.

Lemma to_scale_le1 s d :
  dec_leb dec_zero d = true -> dec_leb d dec_one = true -> dec_leb (to_scale s d) dec_one = true.
Proof.
  destruct d as [c e]. intros H0 H1.
  rewrite (dec_leb_coef (Z.min 0 e)) in H0, H1 by (simpl; lia).
  unfold coef_at, dec_zero, dec_one in H0, H1. cbn [d_coef d_exp] in H0, H1.
  assert (He : 0 < 10 ^ (e - Z.min 0 e)) by (apply Z.pow_pos_nonneg; lia).
  assert (Hc : 0 <= c) by nia.
  unfold to_scale. cbn [d_coef d_exp]. destruct (Z.leb_spec (- s) e).
  - rewrite (dec_leb_coef (Z.min 0 (Z.min e (- s)))) by (simpl; lia). unfold coef_at, dec_one.
    cbn [d_coef d_exp]. set (m := Z.min 0 (Z.min e (- s))).
    rewrite <- Z.mul_assoc, <- Z.pow_add_r by lia. replace (e + s + (- s - m)) with (e - m) by lia.
    replace (e - m) with (e - Z.min 0 e + (Z.min 0 e - m)) by lia.
    replace (0 - m) with (0 - Z.min 0 e + (Z.min 0 e - m)) by lia.
    rewrite !Z.pow_add_r by lia. assert (0 < 10 ^ (Z.min 0 e - m)) by (apply Z.pow_pos_nonneg; lia). nia.
  - rewrite (dec_leb_coef (Z.min 0 (- s))) by (simpl; lia). unfold coef_at, dec_one, half_away.
    cbn [d_coef d_exp]. set (p := 10 ^ (- s - e)) in *.
    assert (Hp : 0 < p) by (apply Z.pow_pos_nonneg; lia).
    destruct (Z.eq_dec c 0) as [->|Hc0].
    { simpl (Z.sgn 0). rewrite !Z.mul_0_l. assert (0 < 10 ^ (0 - Z.min 0 (- s)))
        by (apply Z.pow_pos_nonneg; lia). lia. }
    rewrite Z.sgn_pos, Z.abs_eq by lia. rewrite !Z.mul_1_l.
    destruct (Z.le_gt_cases 0 s) as [Hs|Hs].
    + rewrite Z.min_r by lia. replace (- s - - s) with 0 by lia. rewrite Z.mul_1_r.
      replace (0 - - s) with s by lia.
      assert (He0 : e < 0) by lia. rewrite Z.min_r in H1 by lia.
      replace (e - e) with 0 in H1 by lia. rewrite Z.mul_1_r, Z.mul_1_l in H1.
      assert (10 ^ (0 - e) = 10 ^ s * p)
        by (unfold p; rewrite <- Z.pow_add_r by lia; f_equal; lia).
      apply Z.lt_succ_r, Z.div_lt_upper_bound; nia.
    + assert (Hsmall : (2 * c + p) / (2 * p) = 0).
      { apply Z.div_small. split; [lia|]. destruct (Z.le_gt_cases e 0) as [He0|He0].
        - rewrite Z.min_r in H1 by lia. replace (e - e) with 0 in H1 by lia.
          rewrite Z.mul_1_r, Z.mul_1_l in H1.
          assert (p = 10 ^ (- s) * 10 ^ (0 - e))
            by (unfold p; rewrite <- Z.pow_add_r by lia; f_equal; lia).
          pose proof (Z.pow_le_mono_r 10 1 (- s) ltac:(lia) ltac:(lia)). simpl in *. nia.
        - rewrite Z.min_l in * by lia. replace (e - 0) with (1 + (e - 1)) in H1 by lia.
          rewrite Z.pow_add_r in H1 by lia. assert (0 < 10 ^ (e - 1)) by (apply Z.pow_pos_nonneg; lia).
          simpl in H1. nia. }
      rewrite Hsmall, Z.mul_0_l. assert (0 < 10 ^ (0 - Z.min 0 (- s)))
        by (apply Z.pow_pos_nonneg; lia). lia.
Qed.
