(* ===== verification/PyJson.v ===== *)
(** PyJson: JSON values as Python holds them, the dictionary operations used
    on payloads, and [json.dumps] in the canonical form the code hashes
    ([sort_keys=True, separators=(",", ":"), allow_nan=False], ASCII
    escapes), with the SHA-256 digest as an interface. *)

From S2P Require Import Prelude PyStr.
From Stdlib Require Import Ascii String.

Local Open Scope Z_scope.

(** A JSON value.  A finite float is carried by its [repr]; [JNonFinite] is
    a NaN or an infinity, which [allow_nan=False] rejects.  An object keeps
    its items in insertion order, like a dict with string keys. *)
Inductive json : Type :=
| JNull
| JBool (b : bool)
| JInt (n : Z)
| JFloat (repr : string)
| JNonFinite
| JStr (s : string)
| JList (l : list json)
| JObj (l : list (string * json)).

Abbreviation dict := (list (string * json)).

(** Induction over the nested lists. *)
Section json_ind.
Variable P : json -> Prop.
Hypothesis Hnull : P JNull.
Hypothesis Hbool : forall b, P (JBool b).
Hypothesis Hint : forall n, P (JInt n).
Hypothesis Hfloat : forall r, P (JFloat r).
Hypothesis Hnonfinite : P JNonFinite.
Hypothesis Hstr : forall s, P (JStr s).
Hypothesis Hlist : forall l, Forall P l -> P (JList l).
Hypothesis Hobj : forall l, Forall (fun p => P p.2) l -> P (JObj l).

Fixpoint json_ind' (j : json) : P j :=
  match j with
  | JNull => Hnull
  | JBool b => Hbool b
  | JInt n => Hint n
  | JFloat r => Hfloat r
  | JNonFinite => Hnonfinite
  | JStr s => Hstr s
  | JList l =>
      Hlist l ((fix go l : Forall P l :=
                  match l with
                  | [] => Forall_nil_2 _
                  | x :: l' => Forall_cons_2 _ _ _ (json_ind' x) (go l')
                  end) l)
  | JObj l =>
      Hobj l ((fix go l : Forall (fun p => P p.2) l :=
                 match l with
                 | [] => Forall_nil_2 _
                 | x :: l' => Forall_cons_2 _ _ _ (json_ind' x.2) (go l')
                 end) l)
  end.
End json_ind.

Definition json_eq_dec : forall a b : json, {a = b} + {a <> b}.
Proof.
  fix IH 1. intros a b.
  assert (Hl : forall l1 l2 : list json, {l1 = l2} + {l1 <> l2}).
  { fix IHl 1. intros [|x l1] [|y l2]; [left; done | right; done | right; done |].
    destruct (IH x y) as [->|Hn]; [|right; congruence].
    destruct (IHl l1 l2) as [->|Hn]; [left; done | right; congruence]. }
  assert (Ho : forall l1 l2 : dict, {l1 = l2} + {l1 <> l2}).
  { fix IHl 1. intros [|[k x] l1] [|[k' y] l2]; [left; done | right; done | right; done |].
    destruct (decide (k = k')) as [->|Hn]; [|right; congruence].
    destruct (IH x y) as [->|Hn]; [|right; congruence].
    destruct (IHl l1 l2) as [->|Hn]; [left; done | right; congruence]. }
  destruct a, b; try (right; discriminate); try (left; reflexivity).
  - destruct (Bool.bool_dec b0 b) as [->|Hn]; [left; done | right; congruence].
  - destruct (Z.eq_dec n n0) as [->|Hn]; [left; done | right; congruence].
  - destruct (string_dec repr repr0) as [->|Hn]; [left; done | right; congruence].
  - destruct (string_dec s s0) as [->|Hn]; [left; done | right; congruence].
  - destruct (Hl l l0) as [->|Hn]; [left; done | right; congruence].
  - destruct (Ho l l0) as [->|Hn]; [left; done | right; congruence].
Defined.

#[export] Instance json_EqDecision : EqDecision json := json_eq_dec.

(** * Dictionaries *)

(** [d.get(k)]: [None] when the key is absent. *)
Fixpoint dict_find (k : string) (d : dict) : option json :=
  match d with
  | [] => None
  | (k', v) :: d' => if bool_decide (k' = k) then Some v else dict_find k d'
  end.

(** [d.get(k)] with Python's [None] default. *)
Definition dict_get (k : string) (d : dict) : json := default JNull (dict_find k d).
Definition dict_has (k : string) (d : dict) : bool := truthy (dict_find k d).
Definition dict_keys (d : dict) : list string := map fst d.

(** [d[k] = v] *)
Fixpoint dict_set (k : string) (v : json) (d : dict) : dict :=
  match d with
  | [] => [(k, v)]
  | (k', v') :: d' => if bool_decide (k' = k) then (k, v) :: d' else (k', v') :: dict_set k v d'
  end.

(** [set(d) <= allowed] and [set(d) == wanted] *)
Definition keys_subset (d : dict) (allowed : list string) : bool :=
  forallb (fun k => in_list k allowed) (dict_keys d).
Definition keys_equal (d : dict) (wanted : list string) : bool :=
  keys_subset d wanted && forallb (fun k => dict_has k d) wanted.

(** * json.dumps *)

Definition hex_digit (n : Z) : ascii := if n <? 10 then chr (48 + n) else chr (87 + n).

Definition escape_char (c : ascii) : string :=
  let n := code c in
  if n =? 34 then "\" +:+ String c EmptyString
  else if n =? 92 then "\\"
  else if n =? 10 then "\n" else if n =? 13 then "\r" else if n =? 9 then "\t"
  else if n =? 12 then "\f" else if n =? 8 then "\b"
  else if (32 <=? n) && (n <=? 126) then String c EmptyString
  else "\u00" +:+ String (hex_digit (n / 16)) (String (hex_digit (n mod 16)) EmptyString).

Fixpoint escape (s : string) : string :=
  match s with EmptyString => EmptyString | String c s' => escape_char c +:+ escape s' end.

Definition QUOTE : string := String (chr 34) EmptyString.
Definition dumps_str (s : string) : string := QUOTE +:+ escape s +:+ QUOTE.

Definition key_leb (a b : string * string) : bool := string_leb a.1 b.1.

Fixpoint dumps (j : json) : result string :=
  match j with
  | JNull => Ok "null"%string
  | JBool true => Ok "true"%string
  | JBool false => Ok "false"%string
  | JInt n => Ok (str_int n)
  | JFloat r => Ok r
  | JNonFinite => Raise (ValueError "Out of range float values are not JSON compliant")
  | JStr s => Ok (dumps_str s)
  | JList l =>
      let! l' := (fix go l := match l with
                  | [] => Ok []
                  | x :: l' => let! s := dumps x in let! r := go l' in Ok (s :: r)
                  end) l in
      Ok ("[" +:+ join "," l' +:+ "]")
  | JObj l =>
      let! l' := (fix go (l : dict) := match l with
                  | [] => Ok []
                  | (k, x) :: l' => let! s := dumps x in let! r := go l' in Ok ((k, s) :: r)
                  end) l in
      Ok ("{" +:+ join "," (map (fun p => dumps_str p.1 +:+ ":" +:+ p.2)
                              (sorted_by key_leb l')) +:+ "}")
  end.

(** * hashlib.sha256 *)

(** [hashlib.sha256(s.encode()).hexdigest()]: sixty-four lower-case
    hexadecimal digits. *)
Class HashLib := {
  sha256_hexdigest : string -> string;
  sha256_is_fingerprint : forall s, is_fingerprint (sha256_hexdigest s) = true;
}.

(** The digest of a canonical JSON encoding. *)
Definition json_sha256 `{HashLib} (j : json) : result string :=
  let! s := dumps j in Ok (sha256_hexdigest s).

Definition opt_json {A} (f : A -> json) (o : option A) : json :=
  match o with Some x => f x | None => JNull end.
Definition JStrs (l : list string) : json := JList (map JStr l).
Definition JOptStr (o : option string) : json := opt_json JStr o.

Lemma dict_find_set k v d k' :
  dict_find k' (dict_set k v d) = if decide (k = k') then Some v else dict_find k' d.
Proof.
  induction d as [|[k1 v1] d IH]; simpl.
  - case_decide as E; [by rewrite bool_decide_eq_true_2 | by rewrite bool_decide_eq_false_2].
  - case_bool_decide as E1; simpl.
    + subst. case_bool_decide as E2; case_decide; congruence.
    + rewrite IH. case_bool_decide as E2; case_decide; congruence.
Qed.

Lemma dict_get_absent k d : dict_has k d = false -> dict_get k d = JNull.
Proof. unfold dict_has, dict_get. by destruct (dict_find k d). Qed.

(** The interface can be satisfied: the digits of the length. *)
Lemma all_hex_pad_digits w z : all_chars is_hex_lower (pad_digits w z) = true.
Proof.
  revert z; induction w as [|w IH]; intros z; [done|].
  change (all_chars is_hex_lower
            (pad_digits w (z / 10) +:+ String (digit_char (z mod 10)) EmptyString) = true).
  rewrite all_chars_app, IH. simpl. unfold is_hex_lower.
  pose proof (Z.mod_pos_bound z 10).
  by rewrite is_digit_digit_char by lia.
Qed.

Program Definition LengthHash : HashLib := {| sha256_hexdigest s := pad_digits 64 (len s) |}.
Next Obligation.
  intros s. unfold is_fingerprint, len. rewrite pad_digits_length, all_hex_pad_digits. done.
Qed.

(** * Values without a NaN *)

Fixpoint finite_json (j : json) : bool :=
  match j with
  | JNonFinite => false
  | JList l =>
      (fix go (l : list json) := match l with [] => true | x :: l' => finite_json x && go l' end) l
  | JObj l =>
      (fix go (l : dict) := match l with [] => true | (_, x) :: l' => finite_json x && go l' end) l
  | _ => true
  end.

(** [json.dumps] raises only on a NaN or an infinity. *)
Lemma dumps_finite j : finite_json j = true -> exists s, dumps j = Ok s.
Proof.
  induction j as [|[]| | | | |l IH|l IH] using json_ind'; simpl; intros H; eauto; [done|..].
  - match goal with |- context [result_bind ?c _] => enough (exists l', c = Ok l') as [l' ->] end;
      [simpl; eauto|].
    induction IH as [|x l Hx _ IHl]; [eauto|]. apply andb_true_iff in H as [H1 H2].
    destruct (Hx H1) as [s ->], (IHl H2) as [l' ->]. simpl. eauto.
  - match goal with |- context [result_bind ?c _] => enough (exists l', c = Ok l') as [l' ->] end;
      [simpl; eauto|].
    induction IH as [|[k x] l Hx _ IHl]; [eauto|]. apply andb_true_iff in H as [H1 H2].
    simpl in Hx.
    destruct (Hx H1) as [s ->], (IHl H2) as [l' ->]. simpl. eauto.
Qed.

(** The digest of the encoding of a value that holds no NaN. *)
Definition finite_sha256 `{HashLib} (j : json) : string :=
  match json_sha256 j with Ok s => s | Raise _ => EmptyString end.

Lemma finite_sha256_spec `{HashLib} j :
  finite_json j = true -> json_sha256 j = Ok (finite_sha256 j).
Proof.
  intros Hj. unfold finite_sha256, json_sha256. destruct (dumps_finite j Hj) as [s ->]. done.
Qed.

Lemma finite_sha256_fingerprint `{HashLib} j :
  finite_json j = true -> is_fingerprint (finite_sha256 j) = true.
Proof.
  intros Hj. unfold finite_sha256, json_sha256. destruct (dumps_finite j Hj) as [s ->]. simpl.
  apply sha256_is_fingerprint.
Qed.
