(* ===== verification/AcquisitionContracts.v ===== *)
(** AcquisitionContracts: the data model of the acquisition engine.

    Models [acquisition/contracts.py] (enumerations, the event and the
    opportunity with the validation their pydantic declarations ask for, the
    payload guard) and the command vocabulary of [supervisor/registry.py].
    Building a contract object is a [*_validate] function: it strips the
    string fields, checks every declared bound, and raises
    [ValidationError] on the first field that does not satisfy its bounds
    (pydantic collects them all; the exception is the same). *)

From S2P Require Import Prelude PyStr PyDatetime PyDecimal PyJson.
From Stdlib Require Import Ascii String.

Local Open Scope string_scope.
Local Open Scope Z_scope.

(** [acquisition/contracts.py:14-14 STATE_MACHINE_VERSION] *)
Definition STATE_MACHINE_VERSION : string := "acquisition-state-v1".
(** [acquisition/contracts.py:15-15 EVENT_SCHEMA_VERSION] *)
Definition EVENT_SCHEMA_VERSION : Z := 1.
(** [acquisition/contracts.py:16-16 MAX_EVENT_PAYLOAD_BYTES] *)
Definition MAX_EVENT_PAYLOAD_BYTES : Z := 65536.
(** [acquisition/contracts.py:17-17 MAX_REASON_CODES] *)
Definition MAX_REASON_CODES : Z := 50.
(** [acquisition/contracts.py:18-18 MAX_EVIDENCE_REFS] *)
Definition MAX_EVIDENCE_REFS : Z := 100.

(** [acquisition/contracts.py:20-22 ShortCode] *)
Definition ShortCode (field s : string) : result string := constr field 1 100 s.
(** [acquisition/contracts.py:23-25 StableRef] *)
Definition StableRef (field s : string) : result string := constr field 1 256 s.
(** [acquisition/contracts.py:26-28 Identifier] *)
Definition Identifier (field s : string) : result string := constr field 1 64 s.
(** [acquisition/contracts.py:29-29 Fingerprint] *)
Definition Fingerprint (field s : string) : result string := matching field is_fingerprint s.

(** [acquisition/contracts.py:32-46 AcquisitionState] *)
Inductive AcquisitionState : Type :=
| DISCOVERED | ENRICHING | READY_FOR_DECISION | HOLD | NO_SEND | REVIEW | SEND
| QUEUED | SENT | REPLIED | ACTIVATED | PAID | RETAINED | CHURNED.

#[export] Instance AcquisitionState_eq_dec : EqDecision AcquisitionState.
Proof. solve_decision. Defined.

(** [acquisition/contracts.py:32-46 AcquisitionState] *)
Definition state_value (s : AcquisitionState) : string :=
  match s with
  | DISCOVERED => "DISCOVERED" | ENRICHING => "ENRICHING"
  | READY_FOR_DECISION => "READY_FOR_DECISION" | HOLD => "HOLD" | NO_SEND => "NO_SEND"
  | REVIEW => "REVIEW" | SEND => "SEND" | QUEUED => "QUEUED" | SENT => "SENT"
  | REPLIED => "REPLIED" | ACTIVATED => "ACTIVATED" | PAID => "PAID"
  | RETAINED => "RETAINED" | CHURNED => "CHURNED"
  end.

#[export] Program Instance AcquisitionState_StrEnum : StrEnum AcquisitionState := {|
  se_value := state_value;
  se_all := [DISCOVERED; ENRICHING; READY_FOR_DECISION; HOLD; NO_SEND; REVIEW; SEND;
             QUEUED; SENT; REPLIED; ACTIVATED; PAID; RETAINED; CHURNED];
|}.
Next Obligation. solve_se_complete. Qed.
Next Obligation. solve_se_inj. Qed.

(** [acquisition/contracts.py:49-54 Decision] *)
Inductive Decision : Type := D_SEND | D_HOLD | D_ENRICH | D_NO_SEND | D_REVIEW.

#[export] Instance Decision_eq_dec : EqDecision Decision.
Proof. solve_decision. Defined.

(** [acquisition/contracts.py:49-54 Decision] *)
Definition decision_value (d : Decision) : string :=
  match d with
  | D_SEND => "SEND" | D_HOLD => "HOLD" | D_ENRICH => "ENRICH"
  | D_NO_SEND => "NO_SEND" | D_REVIEW => "REVIEW"
  end.

#[export] Program Instance Decision_StrEnum : StrEnum Decision := {|
  se_value := decision_value;
  se_all := [D_SEND; D_HOLD; D_ENRICH; D_NO_SEND; D_REVIEW];
|}.
Next Obligation. solve_se_complete. Qed.
Next Obligation. solve_se_inj. Qed.

(** [acquisition/contracts.py:57-61 ActorType] *)
Inductive ActorType : Type := SYSTEM | HERMES | HUMAN | EXTERNAL.

#[export] Instance ActorType_eq_dec : EqDecision ActorType.
Proof. solve_decision. Defined.

(** [acquisition/contracts.py:57-61 ActorType] *)
Definition actor_value (a : ActorType) : string :=
  match a with
  | SYSTEM => "SYSTEM" | HERMES => "HERMES" | HUMAN => "HUMAN" | EXTERNAL => "EXTERNAL"
  end.

#[export] Program Instance ActorType_StrEnum : StrEnum ActorType := {|
  se_value := actor_value; se_all := [SYSTEM; HERMES; HUMAN; EXTERNAL];
|}.
Next Obligation. solve_se_complete. Qed.
Next Obligation. solve_se_inj. Qed.

(** [acquisition/contracts.py:64-73 EventType] *)
Inductive EventType : Type :=
| OPPORTUNITY_CREATED | STATE_TRANSITIONED | DECISION_RECORDED | NEXT_ACTION_SET
| RETRY_SCHEDULED | SUPERVISOR_PLAN_OBSERVED | POLICY_EVALUATED | CONTACT_SELECTED
| OUTCOME_RECORDED.

#[export] Instance EventType_eq_dec : EqDecision EventType.
Proof. solve_decision. Defined.

(** [acquisition/contracts.py:64-73 EventType] *)
Definition event_type_value (e : EventType) : string :=
  match e with
  | OPPORTUNITY_CREATED => "OPPORTUNITY_CREATED"
  | STATE_TRANSITIONED => "STATE_TRANSITIONED"
  | DECISION_RECORDED => "DECISION_RECORDED"
  | NEXT_ACTION_SET => "NEXT_ACTION_SET"
  | RETRY_SCHEDULED => "RETRY_SCHEDULED"
  | SUPERVISOR_PLAN_OBSERVED => "SUPERVISOR_PLAN_OBSERVED"
  | POLICY_EVALUATED => "POLICY_EVALUATED"
  | CONTACT_SELECTED => "CONTACT_SELECTED"
  | OUTCOME_RECORDED => "OUTCOME_RECORDED"
  end.

#[export] Program Instance EventType_StrEnum : StrEnum EventType := {|
  se_value := event_type_value;
  se_all := [OPPORTUNITY_CREATED; STATE_TRANSITIONED; DECISION_RECORDED; NEXT_ACTION_SET;
             RETRY_SCHEDULED; SUPERVISOR_PLAN_OBSERVED; POLICY_EVALUATED; CONTACT_SELECTED;
             OUTCOME_RECORDED];
|}.
Next Obligation. solve_se_complete. Qed.
Next Obligation. solve_se_inj. Qed.

(** [acquisition/contracts.py:76-78 ProjectionVerification] *)
Inductive ProjectionVerification : Type := MATCH | MISMATCH.

(** [supervisor/registry.py:5-23 ALLOWED_COMMANDS] *)
Definition ALLOWED_COMMANDS : list string :=
  ["discover_suppliers"; "find_decision_makers"; "enrich_company"; "evaluate_opportunity";
   "prepare_campaign"; "assess_campaign_compliance"; "schedule_campaign"; "pause_campaign";
   "classify_response"; "reallocate_volume"; "request_human_review";
   "generate_weekly_report"; "resolve_signal_seed"; "execute_provider_operations";
   "reconcile_conversion"].
(** [supervisor/registry.py:25-25 ALLOWED_NEXT_ACTIONS] *)
Definition ALLOWED_NEXT_ACTIONS : list string := ALLOWED_COMMANDS.

(** * The payload guard *)

(** [re.sub(r"(?<!^)(?=[A-Z])", "_", value)]: an underscore before every
    upper-case letter but the first character. *)
Fixpoint snake_tail (s : string) : string :=
  match s with
  | EmptyString => EmptyString
  | String c t =>
      if is_upper c then String "_" (String c (snake_tail t)) else String c (snake_tail t)
  end.
Definition snake (s : string) : string :=
  match s with EmptyString => EmptyString | String c t => String c (snake_tail t) end.

Definition lower_char (c : ascii) : ascii := if is_upper c then chr (code c + 32) else c.

(** [re.sub(r"[^a-z0-9]+", "_", s)]; [in_run] tells that the previous
    character was replaced too.  [str.lower] maps a letter outside ASCII
    to one outside ASCII, which the expression replaces. *)
Fixpoint collapse (in_run : bool) (s : string) : string :=
  match s with
  | EmptyString => EmptyString
  | String c t =>
      let d := lower_char c in
      if is_lower d || is_digit d then String d (collapse false t)
      else if in_run then collapse true t else String "_" (collapse true t)
  end.

Fixpoint lstrip_char (c : ascii) (s : string) : string :=
  match s with
  | String d t => if eqc d c then lstrip_char c t else s
  | EmptyString => EmptyString
  end.
Fixpoint rstrip_char (c : ascii) (s : string) : string :=
  match s with
  | EmptyString => EmptyString
  | String d t =>
      match rstrip_char c t with
      | EmptyString => if eqc d c then EmptyString else String d EmptyString
      | u => String d u
      end
  end.
Definition strip_char (c : ascii) (s : string) : string := rstrip_char c (lstrip_char c s).

(** [acquisition/contracts.py:123-125 _normalized_key] *)
Definition _normalized_key (value : string) : string :=
  strip_char "_" (collapse false (snake value)).

(** [acquisition/contracts.py:128-141 _SECRET_KEYS] *)
Definition _SECRET_KEYS : list string :=
  ["password"; "secret"; "api_key"; "authorization"; "access_token"; "refresh_token";
   "session_token"; "private_key"; "client_secret"; "bearer_token"].
(** [acquisition/contracts.py:142-150 _HIDDEN_REASONING_KEYS] *)
Definition _HIDDEN_REASONING_KEYS : list string :=
  ["chain_of_thought"; "reasoning_trace"; "scratchpad"; "internal_reasoning";
   "hidden_reasoning"].

(** [acquisition/contracts.py:153-164 _guard_payload]: [true] when the walk
    raises no ValueError. *)
Fixpoint _guard_payload (value : json) : bool :=
  match value with
  | JObj l =>
      (fix go (l : dict) : bool :=
         match l with
         | [] => true
         | (raw_key, nested) :: l' =>
             let key := _normalized_key raw_key in
             negb (in_list key _SECRET_KEYS) && negb (in_list key _HIDDEN_REASONING_KEYS)
             && _guard_payload nested && go l'
         end) l
  | JList l =>
      (fix go (l : list json) : bool :=
         match l with [] => true | nested :: l' => _guard_payload nested && go l' end) l
  | _ => true
  end.

(** [acquisition/contracts.py:167-182 _validate_payload] *)
Definition _validate_payload (value : dict) : bool :=
  _guard_payload (JObj value)
  && match dumps (JObj value) with
     | Ok encoded => len encoded <=? MAX_EVENT_PAYLOAD_BYTES
     | Raise _ => false
     end.

(** * Field validators *)

(** [acquisition/contracts.py:117-120 _aware] *)
Definition _aware (value : option datetime) : bool :=
  match value with Some d => aware d | None => true end.

Definition decimal_ge0 (v : option decimal) : bool :=
  match v with Some d => dec_leb dec_zero d | None => true end.
Definition decimal_unit (v : option decimal) : bool :=
  match v with Some d => dec_leb dec_zero d && dec_leb d dec_one | None => true end.

(** [Field(default=(), max_length=n)] over [ShortCode] items. *)
Definition short_codes (field : string) (n : Z) (l : list string) : result (list string) :=
  let! l' := mapM_result (ShortCode field) l in
  checked field (fun l' => zlength l' <=? n) l'.

(** * Events *)

(** [acquisition/contracts.py:185-213 AcquisitionEvent] *)
Record AcquisitionEvent : Type := mkEvent {
  ev_event_id : string;
  ev_acquisition_opportunity_id : string;
  ev_stream_sequence : Z;
  ev_event_type : EventType;
  ev_schema_version : Z;
  ev_state_machine_version : string;
  ev_occurred_at : datetime;
  ev_recorded_at : datetime;
  ev_actor_type : ActorType;
  ev_actor_ref : option string;
  ev_idempotency_key : string;
  ev_semantic_fingerprint : string;
  ev_correlation_id : option string;
  ev_causation_id : option string;
  ev_reason_codes : list string;
  ev_evidence_refs : list string;
  ev_policy_version : option string;
  ev_skill_version : option string;
  ev_supervisor_version : option string;
  ev_confidence : option decimal;
  ev_estimated_cost : option decimal;
  ev_payload : dict;
}.

(** [acquisition/contracts.py:185-213 AcquisitionEvent] *)
Definition event_validate (e : AcquisitionEvent) : result AcquisitionEvent :=
  let! event_id := Identifier "event_id" (ev_event_id e) in
  let! opportunity_id := Identifier "acquisition_opportunity_id" (ev_acquisition_opportunity_id e) in
  let! stream_sequence := checked "stream_sequence" (Z.leb 1) (ev_stream_sequence e) in
  let! schema_version := checked "schema_version" (Z.leb 1) (ev_schema_version e) in
  let! state_machine_version := ShortCode "state_machine_version" (ev_state_machine_version e) in
  let! occurred_at := checked "occurred_at" aware (ev_occurred_at e) in
  let! recorded_at := checked "recorded_at" aware (ev_recorded_at e) in
  let! actor_ref := opt_mapM (StableRef "actor_ref") (ev_actor_ref e) in
  let! idempotency_key := constr "idempotency_key" 1 128 (ev_idempotency_key e) in
  let! semantic_fingerprint := Fingerprint "semantic_fingerprint" (ev_semantic_fingerprint e) in
  let! correlation_id := opt_mapM (Identifier "correlation_id") (ev_correlation_id e) in
  let! causation_id := opt_mapM (Identifier "causation_id") (ev_causation_id e) in
  let! reason_codes := short_codes "reason_codes" MAX_REASON_CODES (ev_reason_codes e) in
  let! evidence_refs := short_codes "evidence_refs" MAX_EVIDENCE_REFS (ev_evidence_refs e) in
  let! policy_version := opt_mapM (ShortCode "policy_version") (ev_policy_version e) in
  let! skill_version := opt_mapM (ShortCode "skill_version") (ev_skill_version e) in
  let! supervisor_version := opt_mapM (ShortCode "supervisor_version") (ev_supervisor_version e) in
  let! confidence := checked "confidence" decimal_unit (ev_confidence e) in
  let! estimated_cost := checked "estimated_cost" decimal_ge0 (ev_estimated_cost e) in
  let! payload := checked "payload" _validate_payload (ev_payload e) in
  Ok (mkEvent event_id opportunity_id stream_sequence (ev_event_type e) schema_version
        state_machine_version occurred_at recorded_at (ev_actor_type e) actor_ref
        idempotency_key semantic_fingerprint correlation_id causation_id reason_codes
        evidence_refs policy_version skill_version supervisor_version confidence
        estimated_cost payload).

(** * Opportunities *)

(** [acquisition/contracts.py:216-246 AcquisitionOpportunity] *)
Record AcquisitionOpportunity : Type := mkOpp {
  op_acquisition_opportunity_id : string;
  op_identity_key : string;
  op_state : AcquisitionState;
  op_stream_version : Z;
  op_state_machine_version : string;
  op_signal_ref : string;
  op_supplier_ref : option string;
  op_contact_ref : option string;
  op_campaign_ref : option string;
  op_decision : option Decision;
  op_reason_codes : list string;
  op_confidence : option decimal;
  op_evidence_refs : list string;
  op_next_action : option string;
  op_next_review_at : option datetime;
  op_retry_count : Z;
  op_retry_at : option datetime;
  op_last_error_category : option string;
  op_policy_version : option string;
  op_skill_version : option string;
  op_supervisor_version : option string;
  op_estimated_cost : option decimal;
  op_last_event_id : string;
  op_created_at : datetime;
  op_updated_at : datetime;
}.

(** [acquisition/contracts.py:216-246 AcquisitionOpportunity] *)
Definition opportunity_validate (o : AcquisitionOpportunity) : result AcquisitionOpportunity :=
  let! opportunity_id := Identifier "acquisition_opportunity_id" (op_acquisition_opportunity_id o) in
  let! identity_key := StableRef "identity_key" (op_identity_key o) in
  let! stream_version := checked "stream_version" (Z.leb 1) (op_stream_version o) in
  let! state_machine_version := ShortCode "state_machine_version" (op_state_machine_version o) in
  let! signal_ref := StableRef "signal_ref" (op_signal_ref o) in
  let! supplier_ref := opt_mapM (StableRef "supplier_ref") (op_supplier_ref o) in
  let! contact_ref := opt_mapM (StableRef "contact_ref") (op_contact_ref o) in
  let! campaign_ref := opt_mapM (StableRef "campaign_ref") (op_campaign_ref o) in
  let! reason_codes := short_codes "reason_codes" MAX_REASON_CODES (op_reason_codes o) in
  let! confidence := checked "confidence" decimal_unit (op_confidence o) in
  let! evidence_refs := short_codes "evidence_refs" MAX_EVIDENCE_REFS (op_evidence_refs o) in
  let! next_action := opt_mapM (ShortCode "next_action") (op_next_action o) in
  let! next_review_at := checked "next_review_at" _aware (op_next_review_at o) in
  let! retry_count := checked "retry_count" (Z.leb 0) (op_retry_count o) in
  let! retry_at := checked "retry_at" _aware (op_retry_at o) in
  let! last_error_category := opt_mapM (ShortCode "last_error_category") (op_last_error_category o) in
  let! policy_version := opt_mapM (ShortCode "policy_version") (op_policy_version o) in
  let! skill_version := opt_mapM (ShortCode "skill_version") (op_skill_version o) in
  let! supervisor_version := opt_mapM (ShortCode "supervisor_version") (op_supervisor_version o) in
  let! estimated_cost := checked "estimated_cost" decimal_ge0 (op_estimated_cost o) in
  let! last_event_id := Identifier "last_event_id" (op_last_event_id o) in
  let! created_at := checked "created_at" aware (op_created_at o) in
  let! updated_at := checked "updated_at" aware (op_updated_at o) in
  Ok (mkOpp opportunity_id identity_key (op_state o) stream_version state_machine_version
        signal_ref supplier_ref contact_ref campaign_ref (op_decision o) reason_codes
        confidence evidence_refs next_action next_review_at retry_count retry_at
        last_error_category policy_version skill_version supervisor_version estimated_cost
        last_event_id created_at updated_at).

(** The assignments of the [updates] dict that [model_copy(update=...)]
    applies, one field at a time. *)
Definition upd_state (v : AcquisitionState) (o : AcquisitionOpportunity) : AcquisitionOpportunity :=
  mkOpp (op_acquisition_opportunity_id o) (op_identity_key o) v (op_stream_version o)
    (op_state_machine_version o) (op_signal_ref o) (op_supplier_ref o)
    (op_contact_ref o) (op_campaign_ref o) (op_decision o) (op_reason_codes o)
    (op_confidence o) (op_evidence_refs o) (op_next_action o) (op_next_review_at o)
    (op_retry_count o) (op_retry_at o) (op_last_error_category o) (op_policy_version o)
    (op_skill_version o) (op_supervisor_version o) (op_estimated_cost o)
    (op_last_event_id o) (op_created_at o) (op_updated_at o).
Definition upd_decision (v : option Decision) (o : AcquisitionOpportunity) : AcquisitionOpportunity :=
  mkOpp (op_acquisition_opportunity_id o) (op_identity_key o) (op_state o)
    (op_stream_version o) (op_state_machine_version o) (op_signal_ref o)
    (op_supplier_ref o) (op_contact_ref o) (op_campaign_ref o) v (op_reason_codes o)
    (op_confidence o) (op_evidence_refs o) (op_next_action o) (op_next_review_at o)
    (op_retry_count o) (op_retry_at o) (op_last_error_category o) (op_policy_version o)
    (op_skill_version o) (op_supervisor_version o) (op_estimated_cost o)
    (op_last_event_id o) (op_created_at o) (op_updated_at o).
Definition upd_reason_codes (v : list string) (o : AcquisitionOpportunity) : AcquisitionOpportunity :=
  mkOpp (op_acquisition_opportunity_id o) (op_identity_key o) (op_state o)
    (op_stream_version o) (op_state_machine_version o) (op_signal_ref o)
    (op_supplier_ref o) (op_contact_ref o) (op_campaign_ref o) (op_decision o) v
    (op_confidence o) (op_evidence_refs o) (op_next_action o) (op_next_review_at o)
    (op_retry_count o) (op_retry_at o) (op_last_error_category o) (op_policy_version o)
    (op_skill_version o) (op_supervisor_version o) (op_estimated_cost o)
    (op_last_event_id o) (op_created_at o) (op_updated_at o).
Definition upd_evidence_refs (v : list string) (o : AcquisitionOpportunity) : AcquisitionOpportunity :=
  mkOpp (op_acquisition_opportunity_id o) (op_identity_key o) (op_state o)
    (op_stream_version o) (op_state_machine_version o) (op_signal_ref o)
    (op_supplier_ref o) (op_contact_ref o) (op_campaign_ref o) (op_decision o)
    (op_reason_codes o) (op_confidence o) v (op_next_action o) (op_next_review_at o)
    (op_retry_count o) (op_retry_at o) (op_last_error_category o) (op_policy_version o)
    (op_skill_version o) (op_supervisor_version o) (op_estimated_cost o)
    (op_last_event_id o) (op_created_at o) (op_updated_at o).
Definition upd_confidence (v : option decimal) (o : AcquisitionOpportunity) : AcquisitionOpportunity :=
  mkOpp (op_acquisition_opportunity_id o) (op_identity_key o) (op_state o)
    (op_stream_version o) (op_state_machine_version o) (op_signal_ref o)
    (op_supplier_ref o) (op_contact_ref o) (op_campaign_ref o) (op_decision o)
    (op_reason_codes o) v (op_evidence_refs o) (op_next_action o) (op_next_review_at o)
    (op_retry_count o) (op_retry_at o) (op_last_error_category o) (op_policy_version o)
    (op_skill_version o) (op_supervisor_version o) (op_estimated_cost o)
    (op_last_event_id o) (op_created_at o) (op_updated_at o).
Definition upd_next_action (v : option string) (o : AcquisitionOpportunity) : AcquisitionOpportunity :=
  mkOpp (op_acquisition_opportunity_id o) (op_identity_key o) (op_state o)
    (op_stream_version o) (op_state_machine_version o) (op_signal_ref o)
    (op_supplier_ref o) (op_contact_ref o) (op_campaign_ref o) (op_decision o)
    (op_reason_codes o) (op_confidence o) (op_evidence_refs o) v (op_next_review_at o)
    (op_retry_count o) (op_retry_at o) (op_last_error_category o) (op_policy_version o)
    (op_skill_version o) (op_supervisor_version o) (op_estimated_cost o)
    (op_last_event_id o) (op_created_at o) (op_updated_at o).
Definition upd_next_review_at (v : option datetime) (o : AcquisitionOpportunity) : AcquisitionOpportunity :=
  mkOpp (op_acquisition_opportunity_id o) (op_identity_key o) (op_state o)
    (op_stream_version o) (op_state_machine_version o) (op_signal_ref o)
    (op_supplier_ref o) (op_contact_ref o) (op_campaign_ref o) (op_decision o)
    (op_reason_codes o) (op_confidence o) (op_evidence_refs o) (op_next_action o) v
    (op_retry_count o) (op_retry_at o) (op_last_error_category o) (op_policy_version o)
    (op_skill_version o) (op_supervisor_version o) (op_estimated_cost o)
    (op_last_event_id o) (op_created_at o) (op_updated_at o).
Definition upd_campaign_ref (v : option string) (o : AcquisitionOpportunity) : AcquisitionOpportunity :=
  mkOpp (op_acquisition_opportunity_id o) (op_identity_key o) (op_state o)
    (op_stream_version o) (op_state_machine_version o) (op_signal_ref o)
    (op_supplier_ref o) (op_contact_ref o) v (op_decision o) (op_reason_codes o)
    (op_confidence o) (op_evidence_refs o) (op_next_action o) (op_next_review_at o)
    (op_retry_count o) (op_retry_at o) (op_last_error_category o) (op_policy_version o)
    (op_skill_version o) (op_supervisor_version o) (op_estimated_cost o)
    (op_last_event_id o) (op_created_at o) (op_updated_at o).
Definition upd_contact_ref (v : option string) (o : AcquisitionOpportunity) : AcquisitionOpportunity :=
  mkOpp (op_acquisition_opportunity_id o) (op_identity_key o) (op_state o)
    (op_stream_version o) (op_state_machine_version o) (op_signal_ref o)
    (op_supplier_ref o) v (op_campaign_ref o) (op_decision o) (op_reason_codes o)
    (op_confidence o) (op_evidence_refs o) (op_next_action o) (op_next_review_at o)
    (op_retry_count o) (op_retry_at o) (op_last_error_category o) (op_policy_version o)
    (op_skill_version o) (op_supervisor_version o) (op_estimated_cost o)
    (op_last_event_id o) (op_created_at o) (op_updated_at o).
Definition upd_retry (count : Z) (at_ : option datetime) (category : option string) (o : AcquisitionOpportunity) : AcquisitionOpportunity :=
  mkOpp (op_acquisition_opportunity_id o) (op_identity_key o) (op_state o)
    (op_stream_version o) (op_state_machine_version o) (op_signal_ref o)
    (op_supplier_ref o) (op_contact_ref o) (op_campaign_ref o) (op_decision o)
    (op_reason_codes o) (op_confidence o) (op_evidence_refs o) (op_next_action o)
    (op_next_review_at o) count at_ category (op_policy_version o) (op_skill_version o)
    (op_supervisor_version o) (op_estimated_cost o) (op_last_event_id o)
    (op_created_at o) (op_updated_at o).

(** * Facts *)

Lemma short_codes_idem field n l l' :
  short_codes field n l = Ok l' -> short_codes field n l' = Ok l'.
Proof.
  unfold short_codes. intros H. inv_result.
  pose proof H as H'. apply checked_Ok in H' as [? ->].
  unfold ShortCode in *. erewrite (mapM_result_idem _) by eauto with kivou. done.
Qed.

Lemma short_codes_nil field n : 0 <= n -> short_codes field n [] = Ok [].
Proof.
  intros H. unfold short_codes, mapM_result, result_bind.
  apply checked_Ok. split; [|done]. apply Z.leb_le. done.
Qed.

Lemma ShortCode_idem field a b : ShortCode field a = Ok b -> ShortCode field b = Ok b.
Proof. apply constr_idemp. Qed.
Lemma StableRef_idem field a b : StableRef field a = Ok b -> StableRef field b = Ok b.
Proof. apply constr_idemp. Qed.
Lemma Identifier_idem field a b : Identifier field a = Ok b -> Identifier field b = Ok b.
Proof. apply constr_idemp. Qed.
Lemma Fingerprint_idem field a b : Fingerprint field a = Ok b -> Fingerprint field b = Ok b.
Proof. apply matching_idemp. Qed.

#[export] Hint Resolve ShortCode_idem StableRef_idem Identifier_idem Fingerprint_idem
  short_codes_idem : kivou.

(** Rewrites every validator of the goal applied to the value another run
    of it returned. *)
Ltac rewrite_idem :=
  repeat match goal with
  | H : ?f ?a = Ok ?b |- context [?f ?b] =>
      let E := fresh "E" in
      assert (E : f b = Ok b) by eauto 3 with kivou; rewrite E; clear E H;
      cbn [result_bind]
  end.

Lemma event_validate_idem e e' : event_validate e = Ok e' -> event_validate e' = Ok e'.
Proof.
  unfold event_validate. intros H. inv_result.
  cbn -[Identifier ShortCode StableRef Fingerprint constr checked short_codes opt_mapM].
  rewrite_idem. done.
Qed.

Lemma opportunity_validate_idem o o' :
  opportunity_validate o = Ok o' -> opportunity_validate o' = Ok o'.
Proof.
  unfold opportunity_validate. intros H. inv_result.
  cbn -[Identifier ShortCode StableRef Fingerprint constr checked short_codes opt_mapM].
  rewrite_idem. done.
Qed.

#[export] Hint Resolve event_validate_idem opportunity_validate_idem : kivou.

(** * Objects that validation leaves alone *)

Lemma constr_field f g m n s : constr f m n s = Ok s -> constr g m n s = Ok s.
Proof. intros H. apply constr_id_inv in H as [? ?]. by apply constr_stripped. Qed.

(** An opportunity every field of which is inside its declared bounds and
    already stripped. *)
Record opp_ok (o : AcquisitionOpportunity) : Prop := {
  ok_id : Identifier "acquisition_opportunity_id" (op_acquisition_opportunity_id o)
          = Ok (op_acquisition_opportunity_id o);
  ok_identity : StableRef "identity_key" (op_identity_key o) = Ok (op_identity_key o);
  ok_version : 1 <= op_stream_version o;
  ok_machine : ShortCode "state_machine_version" (op_state_machine_version o)
               = Ok (op_state_machine_version o);
  ok_signal : StableRef "signal_ref" (op_signal_ref o) = Ok (op_signal_ref o);
  ok_supplier : opt_mapM (StableRef "supplier_ref") (op_supplier_ref o) = Ok (op_supplier_ref o);
  ok_contact : opt_mapM (StableRef "contact_ref") (op_contact_ref o) = Ok (op_contact_ref o);
  ok_campaign : opt_mapM (StableRef "campaign_ref") (op_campaign_ref o) = Ok (op_campaign_ref o);
  ok_reasons : short_codes "reason_codes" MAX_REASON_CODES (op_reason_codes o)
               = Ok (op_reason_codes o);
  ok_confidence : decimal_unit (op_confidence o) = true;
  ok_evidence : short_codes "evidence_refs" MAX_EVIDENCE_REFS (op_evidence_refs o)
                = Ok (op_evidence_refs o);
  ok_action : opt_mapM (ShortCode "next_action") (op_next_action o) = Ok (op_next_action o);
  ok_review : _aware (op_next_review_at o) = true;
  ok_retry_count : 0 <= op_retry_count o;
  ok_retry_at : _aware (op_retry_at o) = true;
  ok_error : opt_mapM (ShortCode "last_error_category") (op_last_error_category o)
             = Ok (op_last_error_category o);
  ok_policy : opt_mapM (ShortCode "policy_version") (op_policy_version o) = Ok (op_policy_version o);
  ok_skill : opt_mapM (ShortCode "skill_version") (op_skill_version o) = Ok (op_skill_version o);
  ok_supervisor : opt_mapM (ShortCode "supervisor_version") (op_supervisor_version o)
                  = Ok (op_supervisor_version o);
  ok_cost : decimal_ge0 (op_estimated_cost o) = true;
  ok_last : Identifier "last_event_id" (op_last_event_id o) = Ok (op_last_event_id o);
  ok_created : aware (op_created_at o) = true;
  ok_updated : aware (op_updated_at o) = true;
}.

Ltac checked_facts :=
  repeat match goal with
  | H : checked _ _ _ = Ok _ |- _ => apply checked_Ok in H as [? _]
  | H : Z.leb _ _ = true |- _ => apply Z.leb_le in H
  end.

Ltac checked_goal :=
  match goal with
  | |- context [checked ?f ?b ?v] =>
      let E := fresh "E" in
      assert (E : checked f b v = Ok v) by (apply checked_Ok; split; [|done]; try apply Z.leb_le; done);
      rewrite E; clear E; cbn [result_bind]
  end.

Lemma opportunity_validate_id o : opportunity_validate o = Ok o <-> opp_ok o.
Proof.
  split.
  - unfold opportunity_validate. destruct o. intros H. inv_result.
    cbn -[Identifier ShortCode StableRef checked short_codes opt_mapM] in *.
    simplify_eq. checked_facts. constructor; done.
  - intros []. unfold opportunity_validate.
    repeat first [checked_goal
                 | match goal with E : _ = Ok _ |- _ => rewrite E; cbn [result_bind] end].
    by destruct o.
Qed.

(** An event every field of which is inside its declared bounds and already
    stripped. *)
Record event_ok (e : AcquisitionEvent) : Prop := {
  eok_id : Identifier "event_id" (ev_event_id e) = Ok (ev_event_id e);
  eok_opportunity : Identifier "acquisition_opportunity_id" (ev_acquisition_opportunity_id e)
                    = Ok (ev_acquisition_opportunity_id e);
  eok_sequence : 1 <= ev_stream_sequence e;
  eok_schema : 1 <= ev_schema_version e;
  eok_machine : ShortCode "state_machine_version" (ev_state_machine_version e)
                = Ok (ev_state_machine_version e);
  eok_occurred : aware (ev_occurred_at e) = true;
  eok_recorded : aware (ev_recorded_at e) = true;
  eok_actor : opt_mapM (StableRef "actor_ref") (ev_actor_ref e) = Ok (ev_actor_ref e);
  eok_key : constr "idempotency_key" 1 128 (ev_idempotency_key e) = Ok (ev_idempotency_key e);
  eok_fingerprint : Fingerprint "semantic_fingerprint" (ev_semantic_fingerprint e)
                    = Ok (ev_semantic_fingerprint e);
  eok_correlation : opt_mapM (Identifier "correlation_id") (ev_correlation_id e)
                    = Ok (ev_correlation_id e);
  eok_causation : opt_mapM (Identifier "causation_id") (ev_causation_id e) = Ok (ev_causation_id e);
  eok_reasons : short_codes "reason_codes" MAX_REASON_CODES (ev_reason_codes e)
                = Ok (ev_reason_codes e);
  eok_evidence : short_codes "evidence_refs" MAX_EVIDENCE_REFS (ev_evidence_refs e)
                 = Ok (ev_evidence_refs e);
  eok_policy : opt_mapM (ShortCode "policy_version") (ev_policy_version e) = Ok (ev_policy_version e);
  eok_skill : opt_mapM (ShortCode "skill_version") (ev_skill_version e) = Ok (ev_skill_version e);
  eok_supervisor : opt_mapM (ShortCode "supervisor_version") (ev_supervisor_version e)
                   = Ok (ev_supervisor_version e);
  eok_confidence : decimal_unit (ev_confidence e) = true;
  eok_cost : decimal_ge0 (ev_estimated_cost e) = true;
  eok_payload : _validate_payload (ev_payload e) = true;
}.

Lemma event_validate_id e : event_validate e = Ok e <-> event_ok e.
Proof.
  split.
  - unfold event_validate. destruct e. intros H. inv_result.
    cbn -[Identifier ShortCode StableRef Fingerprint constr checked short_codes opt_mapM] in *.
    simplify_eq. checked_facts. constructor; done.
  - intros []. unfold event_validate.
    repeat first [checked_goal
                 | match goal with E : _ = Ok _ |- _ => rewrite E; cbn [result_bind] end].
    by destruct e.
Qed.

#[export] Hint Resolve ok_id ok_identity ok_version ok_machine ok_signal ok_supplier ok_contact
  ok_campaign ok_reasons ok_confidence ok_evidence ok_action ok_review ok_retry_count
  ok_retry_at ok_error ok_policy ok_skill ok_supervisor ok_cost ok_last ok_created
  ok_updated : kivou.
#[export] Hint Resolve eok_id eok_opportunity eok_sequence eok_schema eok_machine eok_occurred
  eok_recorded eok_actor eok_key eok_fingerprint eok_correlation eok_causation eok_reasons
  eok_evidence eok_policy eok_skill eok_supervisor eok_confidence eok_cost eok_payload : kivou.

(** * The keys of a payload *)

(** Every key of every object nested in a value. *)
Fixpoint payload_keys (value : json) : list string :=
  match value with
  | JObj l =>
      (fix go (l : dict) : list string :=
         match l with
         | [] => []
         | (key, nested) :: l' => key :: payload_keys nested ++ go l'
         end)%list l
  | JList l =>
      (fix go (l : list json) : list string :=
         match l with [] => [] | nested :: l' => payload_keys nested ++ go l' end)%list l
  | _ => []
  end.

Definition prohibited_key (key : string) : bool :=
  in_list (_normalized_key key) (_SECRET_KEYS ++ _HIDDEN_REASONING_KEYS)%list.

Lemma prohibited_key_split key :
  prohibited_key key
  = in_list (_normalized_key key) _SECRET_KEYS || in_list (_normalized_key key) _HIDDEN_REASONING_KEYS.
Proof.
  unfold prohibited_key, in_list. rewrite <- bool_decide_or. apply bool_decide_ext.
  apply elem_of_app.
Qed.

Lemma forallb_app {A} (f : A -> bool) (l l' : list A) :
  forallb f (l ++ l')%list = forallb f l && forallb f l'.
Proof. induction l as [|x l IH]; simpl; [done|]. by rewrite IH, andb_assoc. Qed.

(** The walk accepts exactly the values with no prohibited key at any
    depth. *)
Lemma guard_payload_keys value :
  _guard_payload value = forallb (fun k => negb (prohibited_key k)) (payload_keys value).
Proof.
  induction value as [| | | | | | l IH | l IH] using json_ind'; try done.
  - induction IH as [|j l Hj _ IHl]; [done|]. cbn in *. by rewrite Hj, IHl, forallb_app.
  - induction IH as [|[k j] l Hj _ IHl]; [done|].
    cbn -[in_list _SECRET_KEYS _HIDDEN_REASONING_KEYS prohibited_key] in *.
    rewrite Hj, IHl, forallb_app, prohibited_key_split, negb_orb. by rewrite !andb_assoc.
Qed.

Lemma guard_payload_spec value :
  _guard_payload value = true <->
  forall k, k ∈ payload_keys value ->
    _normalized_key k ∉ _SECRET_KEYS /\ _normalized_key k ∉ _HIDDEN_REASONING_KEYS.
Proof.
  rewrite guard_payload_keys, forallb_forall. split; intros H k Hk.
  - specialize (H k). rewrite <- list_elem_of_In in H. specialize (H Hk).
    rewrite prohibited_key_split, negb_orb in H. apply andb_true_iff in H as [H1 H2].
    apply negb_true_iff, in_list_false in H1, H2. done.
  - apply list_elem_of_In in Hk. destruct (H k Hk) as [H1 H2].
    rewrite prohibited_key_split, negb_orb. apply andb_true_iff.
    split; by apply negb_true_iff, in_list_false.
Qed.
