(* ===== verification/AcquisitionStateMachine.v ===== *)
(** AcquisitionStateMachine: the pure reducers of [acquisition/state.py].

    [reduce_event] folds one event into the projection of an acquisition
    opportunity and [replay] folds a stream; each reducer is the function of
    the same name, its guards in the order of the code. *)

From S2P Require Import Prelude PyStr PyDatetime PyDatetimeFacts PyDecimal PyJson.
From S2P Require Import AcquisitionContracts.

Local Open Scope string_scope.
Local Open Scope Z_scope.

(** [acquisition/state.py:21-52 TRANSITIONS]: the targets of a source state,
    none when the state is not a key of the table. *)
Definition TRANSITIONS (source : AcquisitionState) : list AcquisitionState :=
  match source with
  | DISCOVERED => [ENRICHING]
  | ENRICHING => [READY_FOR_DECISION]
  | READY_FOR_DECISION => [ENRICHING; HOLD; NO_SEND; REVIEW; SEND]
  | HOLD => [ENRICHING; READY_FOR_DECISION; REVIEW; NO_SEND]
  | REVIEW => [ENRICHING; HOLD; READY_FOR_DECISION; NO_SEND; SEND]
  | SEND => [QUEUED]
  | QUEUED => [SENT]
  | _ => []
  end.

(** [acquisition/state.py:54-60 DECISION_STATES] *)
Definition DECISION_STATES (d : Decision) : AcquisitionState :=
  match d with
  | D_ENRICH => ENRICHING | D_HOLD => HOLD | D_NO_SEND => NO_SEND
  | D_REVIEW => REVIEW | D_SEND => SEND
  end.

(** [acquisition/state.py:62-71 _OUTCOME_RANK] *)
Definition _OUTCOME_RANK (s : AcquisitionState) : option Z :=
  match s with
  | SEND => Some 0 | QUEUED => Some 1 | SENT => Some 2 | REPLIED => Some 3
  | ACTIVATED => Some 4 | PAID => Some 5 | RETAINED => Some 6 | CHURNED => Some 7
  | _ => None
  end.

(** [acquisition/state.py:74-86 _datetime_payload] *)
Definition _datetime_payload (payload : dict) (key : string) : result (option datetime) :=
  match dict_get key payload with
  | JNull => Ok None
  | JStr value =>
      match fromisoformat value with
      | None => Raise (InvalidTransition (key +:+ " must be an ISO-8601 datetime"))
      | Some parsed =>
          if aware parsed then Ok (Some parsed)
          else Raise (InvalidTransition (key +:+ " must be timezone-aware"))
      end
  | _ => Raise (InvalidTransition (key +:+ " must be an ISO-8601 datetime"))
  end.

(** [acquisition/state.py:89-105 _common_updates] and the [model_copy] that
    applies them. *)
Definition _common_updates (event : AcquisitionEvent) (o : AcquisitionOpportunity)
  : AcquisitionOpportunity :=
  mkOpp (op_acquisition_opportunity_id o) (op_identity_key o) (op_state o)
    (ev_stream_sequence event) (ev_state_machine_version event) (op_signal_ref o)
    (op_supplier_ref o) (op_contact_ref o) (op_campaign_ref o) (op_decision o)
    (op_reason_codes o) (op_confidence o) (op_evidence_refs o) (op_next_action o)
    (op_next_review_at o) (op_retry_count o) (op_retry_at o) (op_last_error_category o)
    (default_opt (ev_policy_version event) (op_policy_version o))
    (default_opt (ev_skill_version event) (op_skill_version o))
    (default_opt (ev_supervisor_version event) (op_supervisor_version o))
    (default_opt (ev_estimated_cost event) (op_estimated_cost o))
    (ev_event_id event) (op_created_at o) (ev_recorded_at event).

(** [if b: updates[...] = ...] *)
Definition when (b : bool) (f : AcquisitionOpportunity -> AcquisitionOpportunity)
    (o : AcquisitionOpportunity) : AcquisitionOpportunity := if b then f o else o.

(** [acquisition/state.py:108-110 _require_transition] *)
Definition _require_transition (source target : AcquisitionState) : result unit :=
  require! in_list target (TRANSITIONS source)
  else InvalidTransition ("invalid transition: " +:+ state_value source +:+ " -> "
                          +:+ state_value target) in
  Ok tt.

(** [acquisition/state.py:113-115 _require_hold_metadata] *)
Definition _require_hold_metadata (event : AcquisitionEvent) (next_review_at : option datetime)
  : result unit :=
  require! list_truthy (ev_reason_codes event) && truthy next_review_at
  else InvalidTransition "HOLD requires reason codes and next_review_at" in
  Ok tt.

(** A payload value handed to a field declared [str | None]. *)
Definition opt_str_field (field : string) (v : json) : result (option string) :=
  match v with
  | JNull => Ok None
  | JStr s => Ok (Some s)
  | _ => Raise (ValidationError field)
  end.

(** [acquisition/state.py:118-145 _created] *)
Definition _created (event : AcquisitionEvent) : result AcquisitionOpportunity :=
  require! ev_stream_sequence event =? 1
  else InvalidTransition "OPPORTUNITY_CREATED must have sequence 1" in
  match dict_get "identity_key" (ev_payload event), dict_get "signal_ref" (ev_payload event) with
  | JStr identity_key, JStr signal_ref =>
      let! supplier_ref := opt_str_field "supplier_ref" (dict_get "supplier_ref" (ev_payload event)) in
      let! contact_ref := opt_str_field "contact_ref" (dict_get "contact_ref" (ev_payload event)) in
      let! campaign_ref := opt_str_field "campaign_ref" (dict_get "campaign_ref" (ev_payload event)) in
      opportunity_validate
        (mkOpp (ev_acquisition_opportunity_id event) identity_key DISCOVERED 1
           (ev_state_machine_version event) signal_ref supplier_ref contact_ref campaign_ref
           None (ev_reason_codes event) (ev_confidence event) (ev_evidence_refs event)
           None None 0 None None
           (ev_policy_version event) (ev_skill_version event) (ev_supervisor_version event)
           (ev_estimated_cost event) (ev_event_id event) (ev_recorded_at event)
           (ev_recorded_at event))
  | _, _ => Raise (InvalidTransition "OPPORTUNITY_CREATED requires identity_key and signal_ref")
  end.

(** [E(value)] on a payload value: ValueError unless it is a member's string. *)
Definition parse_enum {A} `{StrEnum A} (v : json) : option A :=
  match v with JStr s => se_parse s | _ => None end.

(** [not isinstance(v, str) or not 1 <= len(v) <= 256 or v.strip() != v],
    negated: the reference the value is. *)
Definition exact_ref (v : json) : option string :=
  match v with
  | JStr s => if (1 <=? len s) && (len s <=? 256) && bool_decide (strip s = s) then Some s else None
  | _ => None
  end.

(** [acquisition/state.py:148-185 _transitioned] *)
Definition _transitioned (current : AcquisitionOpportunity) (event : AcquisitionEvent)
  : result AcquisitionOpportunity :=
  let payload := ev_payload event in
  let! target := option_to_result
    (InvalidTransition "STATE_TRANSITIONED requires a known target_state")
    (parse_enum (dict_get "target_state" payload)) in
  let! _ := _require_transition (op_state current) target in
  let! next_review_at := _datetime_payload payload "next_review_at" in
  let! _ := (if bool_decide (target = HOLD) then _require_hold_metadata event next_review_at
             else Ok tt) in
  let! campaign_ref :=
    (if dict_has "campaign_ref" payload then
       match exact_ref (dict_get "campaign_ref" payload) with
       | Some campaign_ref =>
           require! bool_decide (op_state current = SEND) && bool_decide (target = QUEUED)
                    && negb (truthy (op_campaign_ref current))
                    && list_truthy (ev_reason_codes event)
           else InvalidTransition
                  "campaign_ref may bind once on a reasoned SEND -> QUEUED transition" in
           Ok (Some campaign_ref)
       | None => Raise (InvalidTransition
                          "campaign_ref may bind once on a reasoned SEND -> QUEUED transition")
       end
     else Ok None) in
  Ok (when (truthy campaign_ref) (upd_campaign_ref campaign_ref)
     (when (truthy next_review_at) (upd_next_review_at next_review_at)
     (when (truthy (ev_confidence event)) (upd_confidence (ev_confidence event))
     (when (list_truthy (ev_evidence_refs event)) (upd_evidence_refs (ev_evidence_refs event))
     (when (list_truthy (ev_reason_codes event)) (upd_reason_codes (ev_reason_codes event))
     (upd_state target (_common_updates event current))))))).

(** The action [expected_actions] gives a decision, [None] outside its keys:
    [acquisition/state.py:202-206 _decision_recorded]. *)
Definition expected_action (d : Decision) : option json :=
  match d with
  | D_SEND => Some (JStr "prepare_campaign")
  | D_REVIEW => Some (JStr "request_human_review")
  | D_NO_SEND => Some JNull
  | _ => None
  end.

(** [acquisition/state.py:197-216 _decision_recorded]: the additional rules
    for a decision that names its next action. *)
Definition spec023_checks (event : AcquisitionEvent) (decision : Decision) : result unit :=
  let payload := ev_payload event in
  require! keys_subset payload ["decision"; "next_action"; "next_review_at"]
  else InvalidTransition "SPEC-023 DECISION_RECORDED has unexpected payload keys" in
  let! expected := option_to_result
    (InvalidTransition "decision-policy-v1 cannot emit HOLD or ENRICH")
    (expected_action decision) in
  require! bool_decide (dict_get "next_action" payload = expected)
  else InvalidTransition "decision-policy-v1 next_action does not match decision" in
  require! bool_decide (dict_get "next_review_at" payload = JNull)
  else InvalidTransition "decision-policy-v1 cannot schedule a review" in
  require! list_truthy (ev_reason_codes event) && list_truthy (ev_evidence_refs event)
  else InvalidTransition "SPEC-023 decision requires reasons and evidence" in
  require! negb (truthy (ev_confidence event))
  else InvalidTransition "decision-policy-v1 has no numeric confidence" in
  Ok tt.

(** The [next_action] a checked payload holds: a string or [None]. *)
Definition json_opt_str (v : json) : option string :=
  match v with JStr s => Some s | _ => None end.

(** [acquisition/state.py:188-233 _decision_recorded] *)
Definition _decision_recorded (current : AcquisitionOpportunity) (event : AcquisitionEvent)
  : result AcquisitionOpportunity :=
  let payload := ev_payload event in
  let! decision := option_to_result
    (InvalidTransition "DECISION_RECORDED requires a known decision")
    (parse_enum (dict_get "decision" payload)) in
  let target := DECISION_STATES decision in
  let! _ := _require_transition (op_state current) target in
  let is_spec023 := dict_has "next_action" payload in
  let! _ := (if is_spec023 then spec023_checks event decision else Ok tt) in
  let! next_review_at := _datetime_payload payload "next_review_at" in
  let! _ := (if bool_decide (decision = D_HOLD) then _require_hold_metadata event next_review_at
             else Ok tt) in
  Ok (when is_spec023 (upd_next_action (json_opt_str (dict_get "next_action" payload)))
     (upd_next_review_at next_review_at
     (upd_confidence (ev_confidence event)
     (upd_evidence_refs (ev_evidence_refs event)
     (upd_reason_codes (ev_reason_codes event)
     (upd_state target
     (upd_decision (Some decision)
     (_common_updates event current)))))))).

(** [acquisition/state.py:236-254 _outcome_recorded] *)
Definition _outcome_recorded (current : AcquisitionOpportunity) (event : AcquisitionEvent)
  : result AcquisitionOpportunity :=
  let! target := option_to_result
    (InvalidTransition "OUTCOME_RECORDED requires a known outcome_state")
    (parse_enum (dict_get "outcome_state" (ev_payload event))) in
  match _OUTCOME_RANK (op_state current), _OUTCOME_RANK target with
  | Some rank_current, Some rank_target =>
      Ok (when (list_truthy (ev_evidence_refs event)) (upd_evidence_refs (ev_evidence_refs event))
         (when (list_truthy (ev_reason_codes event)) (upd_reason_codes (ev_reason_codes event))
         (when (rank_current <? rank_target) (upd_state target)
         (_common_updates event current))))
  | _, _ => Raise (InvalidTransition ("invalid outcome transition: "
              +:+ state_value (op_state current) +:+ " -> " +:+ state_value target))
  end.

(** [acquisition/state.py:257-272 _next_action_set] *)
Definition _next_action_set (current : AcquisitionOpportunity) (event : AcquisitionEvent)
  : result AcquisitionOpportunity :=
  require! dict_has "next_action" (ev_payload event)
  else InvalidTransition "next_action is required" in
  match dict_get "next_action" (ev_payload event) with
  | JNull =>
      require! list_truthy (ev_reason_codes event)
      else InvalidTransition "clearing next_action requires a reason" in
      Ok (upd_reason_codes (ev_reason_codes event)
         (upd_next_action None (_common_updates event current)))
  | JStr next_action =>
      require! in_list next_action ALLOWED_NEXT_ACTIONS
      else InvalidTransition "unknown next_action" in
      Ok (upd_next_action (Some next_action) (_common_updates event current))
  | _ => Raise (InvalidTransition "unknown next_action")
  end.

(** [acquisition/state.py:275-292 _retry_scheduled] *)
Definition _retry_scheduled (current : AcquisitionOpportunity) (event : AcquisitionEvent)
  : result AcquisitionOpportunity :=
  let! retry_at := _datetime_payload (ev_payload event) "retry_at" in
  match retry_at, dict_get "error_category" (ev_payload event) with
  | Some retry_at, JStr error_category =>
      require! nonempty (strip error_category)
      else InvalidTransition "RETRY_SCHEDULED requires retry_at and error_category" in
      Ok (when (list_truthy (ev_reason_codes event)) (upd_reason_codes (ev_reason_codes event))
         (upd_retry (op_retry_count current + 1) (Some retry_at) (Some error_category)
         (_common_updates event current)))
  | _, _ => Raise (InvalidTransition "RETRY_SCHEDULED requires retry_at and error_category")
  end.

(** [acquisition/state.py:295-323 _contact_selected] *)
Definition _contact_selected (current : AcquisitionOpportunity) (event : AcquisitionEvent)
  : result AcquisitionOpportunity :=
  let payload := ev_payload event in
  require! keys_equal payload ["contact_ref"; "supplier_ref"]
  else InvalidTransition "CONTACT_SELECTED accepts only reference fields" in
  require! bool_decide (op_state current = DISCOVERED)
  else InvalidTransition "CONTACT_SELECTED requires DISCOVERED state" in
  match op_supplier_ref current, exact_ref (dict_get "supplier_ref" payload) with
  | Some current_supplier, Some supplier_ref =>
      require! nonempty current_supplier
      else InvalidTransition "CONTACT_SELECTED requires supplier_ref" in
      require! bool_decide (supplier_ref = current_supplier)
      else InvalidTransition "CONTACT_SELECTED supplier_ref mismatch" in
      require! negb (truthy (op_contact_ref current))
      else InvalidTransition "CONTACT_SELECTED cannot replace contact_ref" in
      let! contact_ref := option_to_result
        (InvalidTransition "CONTACT_SELECTED requires contact_ref")
        (exact_ref (dict_get "contact_ref" payload)) in
      Ok (upd_contact_ref (Some contact_ref) (_common_updates event current))
  | _, _ => Raise (InvalidTransition "CONTACT_SELECTED requires supplier_ref")
  end.

(** [acquisition/state.py:326-356 _reduce_v1] *)
Definition _reduce_v1 (current : option AcquisitionOpportunity) (event : AcquisitionEvent)
  : result AcquisitionOpportunity :=
  match current with
  | None =>
      require! bool_decide (ev_event_type event = OPPORTUNITY_CREATED)
      else InvalidTransition "the first event must be OPPORTUNITY_CREATED" in
      _created event
  | Some current =>
      require! bool_decide (ev_acquisition_opportunity_id event
                            = op_acquisition_opportunity_id current)
      else InvalidTransition "event belongs to a different acquisition opportunity" in
      require! ev_stream_sequence event =? op_stream_version current + 1
      else InvalidTransition ("event sequence " +:+ str_int (ev_stream_sequence event)
             +:+ " does not follow " +:+ str_int (op_stream_version current)) in
      match ev_event_type event with
      | STATE_TRANSITIONED => _transitioned current event
      | DECISION_RECORDED => _decision_recorded current event
      | OUTCOME_RECORDED => _outcome_recorded current event
      | NEXT_ACTION_SET => _next_action_set current event
      | RETRY_SCHEDULED => _retry_scheduled current event
      | CONTACT_SELECTED => _contact_selected current event
      | SUPERVISOR_PLAN_OBSERVED | POLICY_EVALUATED => Ok (_common_updates event current)
      | OPPORTUNITY_CREATED =>
          Raise (InvalidTransition ("unsupported event type: "
                                    +:+ event_type_value (ev_event_type event)))
      end
  end.

(** [acquisition/state.py:360-369 reduce_event]: [REDUCERS] has one entry. *)
Definition reduce_event (current : option AcquisitionOpportunity) (event : AcquisitionEvent)
  : result AcquisitionOpportunity :=
  if bool_decide (ev_state_machine_version event = STATE_MACHINE_VERSION) then
    _reduce_v1 current event
  else Raise (UnsupportedStateMachineVersion (ev_state_machine_version event)).

Fixpoint replay_from (current : option AcquisitionOpportunity) (events : list AcquisitionEvent)
  : result (option AcquisitionOpportunity) :=
  match events with
  | [] => Ok current
  | event :: events' =>
      let! next := reduce_event current event in replay_from (Some next) events'
  end.

(** [acquisition/state.py:372-378 replay] *)
Definition replay (events : list AcquisitionEvent) : result AcquisitionOpportunity :=
  let! current := replay_from None events in
  option_to_result (InvalidTransition "cannot replay an empty acquisition event stream") current.
