(* ===== verification/AcquisitionStateFacts.v ===== *)
(** AcquisitionStateFacts: the lemmas and theorems about the reducers of
    [AcquisitionStateMachine]. *)

From S2P Require Import Prelude PyStr PyDatetime PyDatetimeFacts PyDecimal PyJson.
From S2P Require Import AcquisitionContracts AcquisitionStateMachine.

Local Open Scope string_scope.
Local Open Scope Z_scope.
Local Open Scope list_scope.

(** * Inversion of an accepted event *)

(** The reducer [_reduce_v1] dispatches to. *)
Definition reducer_of (t : EventType) (o : AcquisitionOpportunity) (e : AcquisitionEvent)
  : result AcquisitionOpportunity :=
  match t with
  | STATE_TRANSITIONED => _transitioned o e
  | DECISION_RECORDED => _decision_recorded o e
  | OUTCOME_RECORDED => _outcome_recorded o e
  | NEXT_ACTION_SET => _next_action_set o e
  | RETRY_SCHEDULED => _retry_scheduled o e
  | CONTACT_SELECTED => _contact_selected o e
  | SUPERVISOR_PLAN_OBSERVED | POLICY_EVALUATED => Ok (_common_updates e o)
  | OPPORTUNITY_CREATED =>
      Raise (InvalidTransition ("unsupported event type: " +:+ event_type_value t))
  end.

Lemma reduce_event_Some o e o' :
  reduce_event (Some o) e = Ok o' <->
  ev_state_machine_version e = STATE_MACHINE_VERSION
  /\ ev_acquisition_opportunity_id e = op_acquisition_opportunity_id o
  /\ ev_stream_sequence e = op_stream_version o + 1
  /\ reducer_of (ev_event_type e) o e = Ok o'.
Proof.
  unfold reduce_event, _reduce_v1, reducer_of.
  split.
  - intros H. inv_result.
    repeat split; solve [done | lia].
  - intros (Hv & Hid & Hseq & H). rewrite Hid, Hseq.
    rewrite !bool_decide_eq_true_2 by done. rewrite Z.eqb_refl.
    destruct (ev_event_type e); done.
Qed.

Lemma reduce_event_None e o' :
  reduce_event None e = Ok o' <->
  ev_state_machine_version e = STATE_MACHINE_VERSION
  /\ ev_event_type e = OPPORTUNITY_CREATED /\ _created e = Ok o'.
Proof.
  unfold reduce_event, _reduce_v1. split.
  - intros H. inv_result. by split_and!.
  - intros (Hv & Ht & H). by rewrite !bool_decide_eq_true_2 by done.
Qed.

(** Opens an accepted reducer into its guards and its result. *)
Ltac inv_match :=
  match goal with
  | H : match ?x with _ => _ end = Ok _ |- _ =>
      let E := fresh "E" in destruct x eqn:E; try discriminate H
  end.
Ltac inv_all := repeat first [progress inv_result | inv_match].
Ltac inv_reducer H :=
  unfold _transitioned, _decision_recorded, _outcome_recorded, _next_action_set,
    _retry_scheduled, _contact_selected, _require_transition, _require_hold_metadata,
    spec023_checks in H; inv_all.

(** Case analysis on every [when] guard of the goal. *)
Ltac case_when :=
  repeat match goal with |- context [when ?b _ _] =>
    let E := fresh "W" in destruct b eqn:E; try discriminate E; cbn [when] end.

Ltac case_reducer H :=
  match type of H with
  | reducer_of (ev_event_type ?e) _ _ = _ =>
      let E := fresh "T" in destruct (ev_event_type e) eqn:E; cbn [reducer_of] in H
  end; [discriminate H | ..]; inv_reducer H.

(** * What an event never touches *)

(** What every accepted event does, whatever its type. *)
Record common_step (o : AcquisitionOpportunity) (e : AcquisitionEvent)
    (o' : AcquisitionOpportunity) : Prop := {
  cs_id : op_acquisition_opportunity_id o' = op_acquisition_opportunity_id o;
  cs_identity : op_identity_key o' = op_identity_key o;
  cs_signal : op_signal_ref o' = op_signal_ref o;
  cs_supplier : op_supplier_ref o' = op_supplier_ref o;
  cs_created : op_created_at o' = op_created_at o;
  cs_version : op_stream_version o' = op_stream_version o + 1;
  cs_last : op_last_event_id o' = ev_event_id e;
  cs_updated : op_updated_at o' = ev_recorded_at e;
  cs_retry : op_retry_count o'
             = op_retry_count o + (if bool_decide (ev_event_type e = RETRY_SCHEDULED) then 1 else 0);
  cs_contact : truthy (op_contact_ref o) = true -> op_contact_ref o' = op_contact_ref o;
  cs_campaign : truthy (op_campaign_ref o) = true -> op_campaign_ref o' = op_campaign_ref o;
}.

Lemma reduce_event_common o e o' :
  reduce_event (Some o) e = Ok o' -> common_step o e o'.
Proof.
  intros H. apply reduce_event_Some in H as (Hv & Hid & Hseq & H).
  case_reducer H; constructor; case_when; simpl;
    try solve [congruence | lia | case_bool_decide; first [congruence | lia]
              | intros Htr; match goal with
                            | E : truthy (_ o) = false |- _ => by rewrite E in Htr end].
Qed.

(** * The state graph *)

(** The moves of the state field: the table for a transition or a decision,
    an increase of the outcome rank for an outcome, and staying put. *)
Inductive state_step (t : EventType) (s : AcquisitionState) : AcquisitionState -> Prop :=
| step_stay : t ∉ [STATE_TRANSITIONED; DECISION_RECORDED] -> state_step t s s
| step_table s' : t ∈ [STATE_TRANSITIONED; DECISION_RECORDED] -> s' ∈ TRANSITIONS s ->
    state_step t s s'
| step_outcome s' r r' : t = OUTCOME_RECORDED -> _OUTCOME_RANK s = Some r ->
    _OUTCOME_RANK s' = Some r' -> r < r' -> state_step t s s'.

Lemma reduce_event_state o e o' :
  reduce_event (Some o) e = Ok o' -> state_step (ev_event_type e) (op_state o) (op_state o').
Proof.
  intros H. apply reduce_event_Some in H as (Hv & Hid & Hseq & H).
  case_reducer H; case_when; simpl;
    try (apply step_stay; set_solver);
    try (apply step_table; [set_solver | by apply in_list_true]).
  all: eapply step_outcome; [done..|]; apply Z.ltb_lt; done.
Qed.

(** * Well-formed projections *)

Lemma exact_ref_Some v s :
  exact_ref v = Some s -> v = JStr s /\ strip s = s /\ 1 <= len s <= 256.
Proof.
  destruct v; simpl; try discriminate. destruct (_ && _) eqn:E; [|discriminate].
  intros [= <-]. inv_result. split_and!; [done | done | lia | lia].
Qed.

Lemma exact_ref_StableRef field v s : exact_ref v = Some s -> StableRef field s = Ok s.
Proof. intros H. apply exact_ref_Some in H as (_ & ? & ?). by apply constr_stripped. Qed.

Lemma datetime_payload_aware p k r : _datetime_payload p k = Ok r -> _aware r = true.
Proof. unfold _datetime_payload. intros H. inv_all; done. Qed.

Lemma allowed_action_ShortCode a :
  a ∈ ALLOWED_NEXT_ACTIONS -> ShortCode "next_action" a = Ok a.
Proof.
  assert (Hall : Forall (fun a => ShortCode "next_action" a = Ok a) ALLOWED_NEXT_ACTIONS)
    by (repeat constructor).
  rewrite Forall_forall in Hall. auto.
Qed.

Lemma expected_action_json d j :
  expected_action d = Some j ->
  opt_mapM (ShortCode "next_action") (json_opt_str j) = Ok (json_opt_str j).
Proof. destruct d; simpl; intros [= <-]; done. Qed.

(** The error category of a retry payload is within the bounds of the
    [last_error_category] field of the projection. *)
Definition canonical_error_category (payload : dict) : bool :=
  match dict_get "error_category" payload with
  | JStr s => bool_decide (strip s = s) && (len s <=? 100)
  | _ => true
  end.

Lemma default_opt_ok {A} (f : A -> result A) a b :
  opt_mapM f a = Ok a -> opt_mapM f b = Ok b -> opt_mapM f (default_opt a b) = Ok (default_opt a b).
Proof. by destruct a. Qed.

Lemma default_opt_cost a b :
  decimal_ge0 a = true -> decimal_ge0 b = true -> decimal_ge0 (default_opt a b) = true.
Proof. by destruct a. Qed.

#[local] Hint Resolve default_opt_ok default_opt_cost datetime_payload_aware : kivou.

Lemma common_updates_ok o e : opp_ok o -> event_ok e -> opp_ok (_common_updates e o).
Proof.
  intros [] []. constructor;
    first [assumption | by apply default_opt_ok | by apply default_opt_cost
          | by apply (constr_field "event_id")].
Qed.

(** Each assignment of the [updates] dict keeps the projection well formed
    when the value it writes is. *)
Section set_ok.
Context (o : AcquisitionOpportunity) (Ho : opp_ok o).

Lemma upd_state_ok s : opp_ok (upd_state s o).
Proof. destruct Ho; by constructor. Qed.
Lemma upd_decision_ok d : opp_ok (upd_decision d o).
Proof. destruct Ho; by constructor. Qed.
Lemma upd_reason_codes_ok l :
  short_codes "reason_codes" MAX_REASON_CODES l = Ok l -> opp_ok (upd_reason_codes l o).
Proof. destruct Ho; by constructor. Qed.
Lemma upd_evidence_refs_ok l :
  short_codes "evidence_refs" MAX_EVIDENCE_REFS l = Ok l -> opp_ok (upd_evidence_refs l o).
Proof. destruct Ho; by constructor. Qed.
Lemma upd_confidence_ok c : decimal_unit c = true -> opp_ok (upd_confidence c o).
Proof. destruct Ho; by constructor. Qed.
Lemma upd_next_action_ok a :
  opt_mapM (ShortCode "next_action") a = Ok a -> opp_ok (upd_next_action a o).
Proof. destruct Ho; by constructor. Qed.
Lemma upd_next_review_at_ok d : _aware d = true -> opp_ok (upd_next_review_at d o).
Proof. destruct Ho; by constructor. Qed.
Lemma upd_campaign_ref_ok c :
  opt_mapM (StableRef "campaign_ref") c = Ok c -> opp_ok (upd_campaign_ref c o).
Proof. destruct Ho; by constructor. Qed.
Lemma upd_contact_ref_ok c :
  opt_mapM (StableRef "contact_ref") c = Ok c -> opp_ok (upd_contact_ref c o).
Proof. destruct Ho; by constructor. Qed.
Lemma upd_retry_ok n d c :
  0 <= n -> _aware d = true -> opt_mapM (ShortCode "last_error_category") c = Ok c ->
  opp_ok (upd_retry n d c o).
Proof. destruct Ho; by constructor. Qed.
Lemma when_ok b f : (opp_ok (f o)) -> opp_ok (when b f o).
Proof. by destruct b. Qed.
End set_ok.

(** Peels the assignments off a goal [opp_ok]. *)
Ltac peel_ok :=
  repeat match goal with
  | |- opp_ok (_common_updates _ _) => apply common_updates_ok
  | |- opp_ok (when _ _ _) => apply when_ok
  | |- opp_ok (upd_state _ _) => apply upd_state_ok
  | |- opp_ok (upd_decision _ _) => apply upd_decision_ok
  | |- opp_ok (upd_reason_codes _ _) => apply upd_reason_codes_ok
  | |- opp_ok (upd_evidence_refs _ _) => apply upd_evidence_refs_ok
  | |- opp_ok (upd_confidence _ _) => apply upd_confidence_ok
  | |- opp_ok (upd_next_action _ _) => apply upd_next_action_ok
  | |- opp_ok (upd_next_review_at _ _) => apply upd_next_review_at_ok
  | |- opp_ok (upd_campaign_ref _ _) => apply upd_campaign_ref_ok
  | |- opp_ok (upd_contact_ref _ _) => apply upd_contact_ref_ok
  | |- opp_ok (upd_retry _ _ _ _) => apply upd_retry_ok
  end.

Lemma opt_ref_ok field v s : exact_ref v = Some s -> opt_mapM (StableRef field) (Some s) = Ok (Some s).
Proof. intros H. simpl. by rewrite (exact_ref_StableRef field v s H). Qed.

#[local] Hint Resolve opt_ref_ok : kivou.

Lemma retry_category_ok payload s :
  canonical_error_category payload = true -> dict_get "error_category" payload = JStr s ->
  nonempty (strip s) = true ->
  opt_mapM (ShortCode "last_error_category") (Some s) = Ok (Some s).
Proof.
  unfold canonical_error_category. intros H E Hs. rewrite E in H. inv_result. simpl.
  unfold ShortCode. rewrite constr_stripped; [done | done |].
  match goal with E' : strip s = s |- _ => rewrite E' in Hs end.
  apply nonempty_len in Hs. lia.
Qed.

Lemma reducer_of_ok t o e o' :
  opp_ok o -> event_ok e ->
  (t = RETRY_SCHEDULED -> canonical_error_category (ev_payload e) = true) ->
  reducer_of t o e = Ok o' -> opp_ok o'.
Proof.
  intros Ho He Hcat H. destruct t; cbn [reducer_of] in H; [discriminate H | ..];
    inv_reducer H; peel_ok; try solve [done | eauto 3 with kivou];
    try solve
      [ rewrite dict_get_absent by done; done
      | match goal with E : dict_get _ _ = _ |- _ => rewrite E; by eapply expected_action_json end
      | pose proof (ok_retry_count o Ho); lia
      | eapply retry_category_ok; by eauto ].
  all: simpl; rewrite allowed_action_ShortCode; [done | by apply in_list_true].
Qed.

(** Every accepted event leaves the projection inside the bounds of its
    contract. *)
Lemma reduce_event_ok current e o' :
  (forall o, current = Some o -> opp_ok o) -> event_ok e ->
  (ev_event_type e = RETRY_SCHEDULED -> canonical_error_category (ev_payload e) = true) ->
  reduce_event current e = Ok o' -> opp_ok o'.
Proof.
  intros Ho He Hcat H. destruct current as [o|].
  - apply reduce_event_Some in H as (_ & _ & _ & H). eapply reducer_of_ok; eauto.
  - apply reduce_event_None in H as (_ & _ & H). unfold _created in H. inv_all.
    apply opportunity_validate_id. eauto with kivou.
Qed.

(** * Streams *)

Lemma replay_from_app c l1 l2 :
  replay_from c (l1 ++ l2) = let! c' := replay_from c l1 in replay_from c' l2.
Proof.
  revert c; induction l1 as [|e l1 IH]; intros c; simpl; [done|].
  destruct (reduce_event c e); simpl; auto.
Qed.

Lemma replay_from_Ok_Some o l o' : replay_from (Some o) l = Ok o' -> exists p, o' = Some p.
Proof.
  revert o; induction l as [|e l IH]; intros o; simpl; intros H; inv_result; eauto.
Qed.

Lemma replay_snoc l p e :
  replay l = Ok p -> replay (l ++ [e]) = reduce_event (Some p) e.
Proof.
  unfold replay. intros H. inv_result. subst. rewrite replay_from_app, Hv. simpl.
  destruct (reduce_event (Some p) e); done.
Qed.

Lemma replay_singleton e : replay [e] = reduce_event None e.
Proof. unfold replay. simpl. by destruct (reduce_event None e). Qed.

Lemma replay_snoc_inv l e p :
  replay (l ++ [e]) = Ok p ->
  (l = [] /\ reduce_event None e = Ok p)
  \/ exists o, replay l = Ok o /\ reduce_event (Some o) e = Ok p.
Proof.
  unfold replay. intros H. inv_result. subst. rewrite replay_from_app in Hv. inv_result.
  destruct v as [o|]; simpl in Hv; inv_result; simplify_eq.
  - right. exists o. by rewrite Hv0.
  - left. split; [|done]. destruct l as [|x l]; [done|]. simpl in Hv0. inv_result.
    by apply replay_from_Ok_Some in Hv0 as [? ?].
Qed.

(** Induction over the prefixes of an accepted stream. *)
Lemma replay_rev_ind (P : list AcquisitionEvent -> AcquisitionOpportunity -> Prop) :
  (forall e o, reduce_event None e = Ok o -> P [e] o) ->
  (forall l e o p, replay l = Ok o -> P l o -> reduce_event (Some o) e = Ok p -> P (l ++ [e]) p) ->
  forall l p, replay l = Ok p -> P l p.
Proof.
  intros H0 Hstep l. induction l as [|e l IH] using rev_ind; intros p H; [done|].
  apply replay_snoc_inv in H as [[-> H]|(o & Ho & H)]; [by apply H0 | by eapply Hstep; eauto].
Qed.

(** What the creation event makes. *)
Record created_step (e : AcquisitionEvent) (o : AcquisitionOpportunity) : Prop := {
  cr_state : op_state o = DISCOVERED;
  cr_version : op_stream_version o = 1;
  cr_retry : op_retry_count o = 0;
  cr_review : op_next_review_at o = None;
  cr_decision : op_decision o = None;
  cr_type : ev_event_type e = OPPORTUNITY_CREATED;
  cr_sequence : ev_stream_sequence e = 1;
}.

Lemma created_spec e o : reduce_event None e = Ok o -> created_step e o.
Proof.
  intros H. apply reduce_event_None in H as (_ & Ht & H). unfold _created in H. inv_all.
  unfold opportunity_validate in H. inv_result.
  cbn -[Identifier ShortCode StableRef checked short_codes opt_mapM] in *.
  repeat match goal with E : checked _ _ _ = Ok _ |- _ => apply checked_Ok in E as [? ->] end.
  constructor; try done. cbn. lia.
Qed.

(** * HOLD is always reasoned and scheduled *)

Definition hold_documented (o : AcquisitionOpportunity) : Prop :=
  op_state o = HOLD -> op_reason_codes o <> [] /\ op_next_review_at o <> None.

Lemma reducer_hold o e o' :
  reduce_event (Some o) e = Ok o' -> hold_documented o -> hold_documented o'.
Proof.
  intros H Ho. apply reduce_event_Some in H as (_ & _ & _ & H). unfold hold_documented in *.
  case_reducer H; case_when; cbn; intros Hs; try (by apply Ho);
    repeat match goal with
    | E : list_truthy _ = true |- _ => apply list_truthy_true in E
    | d : Decision |- _ => destruct d; try discriminate
    end; try congruence; try (destruct (Ho Hs) as [? ?]; split; congruence);
    try (split; [done|]; match goal with E : truthy ?v = true |- ?v <> None => by destruct v end).
  all: by subst.
Qed.
