(* ===== verification/AcquisitionEquiv.v ===== *)
(** AcquisitionEquiv: projections and events up to the representation of
    their datetimes and amounts.

    Python compares aware datetimes by their instant, and a database gives
    back a timestamp in a time zone of its own and an amount at the scale of
    its column.  [opp_rel] relates two projections that agree on everything
    else; the reducers respect it ([reduce_event_rel]), which is what makes a
    projection rebuilt from stored events equal, for Python's [==], to the
    stored projection. *)

From S2P Require Import Prelude PyStr PyDatetime PyDatetimeFacts PyDecimal PyJson.
From S2P Require Import AcquisitionContracts AcquisitionStateMachine AcquisitionStateFacts.

Local Open Scope string_scope.
Local Open Scope Z_scope.

(** The same instant, both aware or both naive. *)
Definition dt_equiv (a b : datetime) : Prop := aware a = aware b /\ instant a = instant b.

#[export] Instance dt_equiv_Equivalence : Equivalence dt_equiv.
Proof.
  split.
  - intros x. by split.
  - intros x y [? ?]. by split.
  - intros x y z [? ?] [? ?]. split; congruence.
Qed.

(** How a confidence and a cost of the left are represented on the right. *)
Record amount_rel := {
  ar_confidence : decimal -> decimal -> Prop;
  ar_cost : decimal -> decimal -> Prop;
  ar_confidence_unit : forall a b, ar_confidence a b -> decimal_unit (Some a) = true ->
    decimal_unit (Some b) = true;
  ar_cost_ge0 : forall a b, ar_cost a b -> decimal_ge0 (Some a) = true ->
    decimal_ge0 (Some b) = true;
}.

Program Definition amount_eq : amount_rel := {| ar_confidence := eq; ar_cost := eq |}.
Solve All Obligations with naive_solver.

Section rel.
Context (R : amount_rel).

Record event_rel (e f : AcquisitionEvent) : Prop := {
  er_event_id : ev_event_id f = ev_event_id e;
  er_opportunity : ev_acquisition_opportunity_id f = ev_acquisition_opportunity_id e;
  er_sequence : ev_stream_sequence f = ev_stream_sequence e;
  er_type : ev_event_type f = ev_event_type e;
  er_machine : ev_state_machine_version f = ev_state_machine_version e;
  er_occurred : dt_equiv (ev_occurred_at e) (ev_occurred_at f);
  er_recorded : dt_equiv (ev_recorded_at e) (ev_recorded_at f);
  er_reasons : ev_reason_codes f = ev_reason_codes e;
  er_evidence : ev_evidence_refs f = ev_evidence_refs e;
  er_policy : ev_policy_version f = ev_policy_version e;
  er_skill : ev_skill_version f = ev_skill_version e;
  er_supervisor : ev_supervisor_version f = ev_supervisor_version e;
  er_confidence : option_Forall2 (ar_confidence R) (ev_confidence e) (ev_confidence f);
  er_cost : option_Forall2 (ar_cost R) (ev_estimated_cost e) (ev_estimated_cost f);
  er_payload : ev_payload f = ev_payload e;
}.

Record opp_rel (o p : AcquisitionOpportunity) : Prop := {
  or_id : op_acquisition_opportunity_id p = op_acquisition_opportunity_id o;
  or_identity : op_identity_key p = op_identity_key o;
  or_state : op_state p = op_state o;
  or_version : op_stream_version p = op_stream_version o;
  or_machine : op_state_machine_version p = op_state_machine_version o;
  or_signal : op_signal_ref p = op_signal_ref o;
  or_supplier : op_supplier_ref p = op_supplier_ref o;
  or_contact : op_contact_ref p = op_contact_ref o;
  or_campaign : op_campaign_ref p = op_campaign_ref o;
  or_decision : op_decision p = op_decision o;
  or_reasons : op_reason_codes p = op_reason_codes o;
  or_confidence : option_Forall2 (ar_confidence R) (op_confidence o) (op_confidence p);
  or_evidence : op_evidence_refs p = op_evidence_refs o;
  or_action : op_next_action p = op_next_action o;
  or_review : option_Forall2 dt_equiv (op_next_review_at o) (op_next_review_at p);
  or_retry_count : op_retry_count p = op_retry_count o;
  or_retry_at : option_Forall2 dt_equiv (op_retry_at o) (op_retry_at p);
  or_error : op_last_error_category p = op_last_error_category o;
  or_policy : op_policy_version p = op_policy_version o;
  or_skill : op_skill_version p = op_skill_version o;
  or_supervisor : op_supervisor_version p = op_supervisor_version o;
  or_cost : option_Forall2 (ar_cost R) (op_estimated_cost o) (op_estimated_cost p);
  or_last : op_last_event_id p = op_last_event_id o;
  or_created : dt_equiv (op_created_at o) (op_created_at p);
  or_updated : dt_equiv (op_updated_at o) (op_updated_at p);
}.

(** ** The reducers respect the relation *)

Lemma truthy_rel {A} (S : A -> A -> Prop) a b : option_Forall2 S a b -> truthy b = truthy a.
Proof. by intros []. Qed.

Lemma default_opt_rel {A} (S : A -> A -> Prop) a b c d :
  option_Forall2 S a b -> option_Forall2 S c d ->
  option_Forall2 S (default_opt a c) (default_opt b d).
Proof. intros [] ?; [by constructor | done]. Qed.

Lemma common_updates_rel o p e f :
  opp_rel o p -> event_rel e f -> opp_rel (_common_updates e o) (_common_updates f p).
Proof.
  intros [] []. constructor; cbn [_common_updates op_acquisition_opportunity_id];
    first [assumption | by apply default_opt_rel | cbn; congruence].
Qed.

Section set_rel.
Context (o p : AcquisitionOpportunity) (Hop : opp_rel o p).

Lemma upd_state_rel s : opp_rel (upd_state s o) (upd_state s p).
Proof. destruct Hop; by constructor. Qed.
Lemma upd_decision_rel d : opp_rel (upd_decision d o) (upd_decision d p).
Proof. destruct Hop; by constructor. Qed.
Lemma upd_reason_codes_rel l : opp_rel (upd_reason_codes l o) (upd_reason_codes l p).
Proof. destruct Hop; by constructor. Qed.
Lemma upd_evidence_refs_rel l : opp_rel (upd_evidence_refs l o) (upd_evidence_refs l p).
Proof. destruct Hop; by constructor. Qed.
Lemma upd_confidence_rel c d :
  option_Forall2 (ar_confidence R) c d -> opp_rel (upd_confidence c o) (upd_confidence d p).
Proof. destruct Hop; by constructor. Qed.
Lemma upd_next_action_rel a : opp_rel (upd_next_action a o) (upd_next_action a p).
Proof. destruct Hop; by constructor. Qed.
Lemma upd_next_review_at_rel d : opp_rel (upd_next_review_at d o) (upd_next_review_at d p).
Proof. destruct Hop; constructor; try done; by destruct d; constructor. Qed.
Lemma upd_campaign_ref_rel c : opp_rel (upd_campaign_ref c o) (upd_campaign_ref c p).
Proof. destruct Hop; by constructor. Qed.
Lemma upd_contact_ref_rel c : opp_rel (upd_contact_ref c o) (upd_contact_ref c p).
Proof. destruct Hop; by constructor. Qed.
Lemma upd_retry_rel n d c : opp_rel (upd_retry n d c o) (upd_retry n d c p).
Proof. destruct Hop; constructor; try done; by destruct d; constructor. Qed.
Lemma when_rel b g h : opp_rel (g o) (h p) -> opp_rel (when b g o) (when b h p).
Proof. by destruct b. Qed.
End set_rel.

Ltac peel_rel :=
  repeat first
    [ apply common_updates_rel | apply when_rel | apply upd_state_rel | apply upd_decision_rel
    | apply upd_reason_codes_rel | apply upd_evidence_refs_rel | apply upd_confidence_rel
    | apply upd_next_action_rel | apply upd_next_review_at_rel | apply upd_campaign_ref_rel
    | apply upd_contact_ref_rel | apply upd_retry_rel ]; try assumption.

(** Replaces the fields of the right-hand event and projection by the
    equal fields of the left. *)
Ltac same_fields He Hop :=
  rewrite ?(er_payload _ _ He), ?(er_reasons _ _ He), ?(er_evidence _ _ He),
    ?(truthy_rel _ _ _ (er_confidence _ _ He)), ?(or_state _ _ Hop), ?(or_campaign _ _ Hop),
    ?(or_contact _ _ Hop), ?(or_supplier _ _ Hop), ?(or_retry_count _ _ Hop).

(** Two computations that raise the same exception or return related
    values. *)
Definition result_rel {A B} (S : A -> B -> Prop) (r : result A) (s : result B) : Prop :=
  match r, s with
  | Ok a, Ok b => S a b
  | Raise x, Raise y => x = y
  | _, _ => False
  end.

Lemma result_rel_bind {A B C} (S : B -> C -> Prop) (c : result A) k k' :
  (forall x, result_rel S (k x) (k' x)) ->
  result_rel S (result_bind c k) (result_bind c k').
Proof. intros H. destruct c; simpl; auto. Qed.

Lemma reducer_of_rel t o p e f :
  opp_rel o p -> event_rel e f -> result_rel opp_rel (reducer_of t o e) (reducer_of t p f).
Proof.
  intros Hop He.
  destruct t; cbn [reducer_of];
    unfold _transitioned, _decision_recorded, _outcome_recorded, _next_action_set,
      _retry_scheduled, _contact_selected, spec023_checks, _require_hold_metadata;
    same_fields He Hop; cbv zeta;
    repeat first [ apply result_rel_bind; intros ? | case_goal | reflexivity ];
    try (simpl; peel_rel; apply He).
Qed.

Lemma reduce_event_rel o p e f :
  opp_rel o p -> event_rel e f ->
  result_rel opp_rel (reduce_event (Some o) e) (reduce_event (Some p) f).
Proof.
  intros Hop He. pose proof (reducer_of_rel (ev_event_type e) o p e f Hop He) as H.
  unfold reduce_event, _reduce_v1.
  rewrite (er_machine _ _ He), (er_opportunity _ _ He), (er_sequence _ _ He), (er_type _ _ He),
    (or_id _ _ Hop), (or_version _ _ Hop).
  repeat (case_bool_decide; [|done]).
  destruct (_ =? _); [|done]. by destruct (ev_event_type e).
Qed.

(** ** Building a projection respects it too *)

Lemma aware_rel d d' : dt_equiv d d' -> aware d = true -> aware d' = true.
Proof. intros [<- _]. done. Qed.

Lemma opt_aware_rel d d' : option_Forall2 dt_equiv d d' -> _aware d = true -> _aware d' = true.
Proof. intros []; [by apply aware_rel | done]. Qed.

Lemma unit_rel c d :
  option_Forall2 (ar_confidence R) c d -> decimal_unit c = true -> decimal_unit d = true.
Proof. intros []; [by eapply ar_confidence_unit | done]. Qed.

Lemma ge0_rel c d :
  option_Forall2 (ar_cost R) c d -> decimal_ge0 c = true -> decimal_ge0 d = true.
Proof. intros []; [by eapply ar_cost_ge0 | done]. Qed.

Lemma opp_ok_rel o p : opp_rel o p -> opp_ok o -> opp_ok p.
Proof.
  intros [] []. constructor;
    try (match goal with E : _ p = _ o |- _ => rewrite E; done end);
    eauto using aware_rel, opt_aware_rel, unit_rel, ge0_rel.
Qed.

Lemma opportunity_validate_rel o p o' :
  opp_rel o p -> opportunity_validate o = Ok o' ->
  exists p', opportunity_validate p = Ok p' /\ opp_rel o' p'.
Proof.
  intros Hop H. destruct Hop, p; simpl in *; subst.
  unfold opportunity_validate in *. inv_result.
  cbn -[Identifier ShortCode StableRef checked short_codes opt_mapM] in *.
  repeat match goal with E : checked _ _ _ = Ok _ |- _ => apply checked_Ok in E as [? ->] end.
  repeat match goal with E : ?f = Ok _ |- context [?f] => rewrite E; cbn [result_bind] end.
  repeat match goal with
    | |- context [checked ?n ?b ?v] =>
        let E := fresh in
        assert (E : checked n b v = Ok v)
          by (apply checked_Ok; eauto using aware_rel, opt_aware_rel, unit_rel, ge0_rel);
        rewrite E; clear E; cbn [result_bind]
    | E : ?f = Ok _ |- context [?f] => rewrite E; cbn [result_bind]
    end.
  eexists; split; [reflexivity|]. by constructor.
Qed.

Lemma created_rel e f o :
  event_rel e f -> reduce_event None e = Ok o ->
  exists p, reduce_event None f = Ok p /\ opp_rel o p.
Proof.
  intros He H. apply reduce_event_None in H as (Hv & Ht & H).
  unfold _created in H. inv_all.
  eapply opportunity_validate_rel in H as (p & Hp & Hop).
  - exists p. split; [|exact Hop]. apply reduce_event_None.
    rewrite (er_machine _ _ He), (er_type _ _ He). split_and!; [done..|].
    unfold _created. rewrite (er_sequence _ _ He), (er_payload _ _ He).
    rewrite Hc, E, E0. rewrite Hv0, Hv1, Hv2. exact Hp.
  - destruct He. constructor; cbn; try congruence; try done; by constructor.
Qed.
End rel.

(** * Python's equality *)

(** [a == b] of two opportunities: pydantic compares field by field, an
    aware datetime by its instant and a [Decimal] by its value. *)
Definition opportunity_eqb (a b : AcquisitionOpportunity) : bool :=
  bool_decide (op_acquisition_opportunity_id a = op_acquisition_opportunity_id b)
  && bool_decide (op_identity_key a = op_identity_key b)
  && bool_decide (op_state a = op_state b)
  && bool_decide (op_stream_version a = op_stream_version b)
  && bool_decide (op_state_machine_version a = op_state_machine_version b)
  && bool_decide (op_signal_ref a = op_signal_ref b)
  && bool_decide (op_supplier_ref a = op_supplier_ref b)
  && bool_decide (op_contact_ref a = op_contact_ref b)
  && bool_decide (op_campaign_ref a = op_campaign_ref b)
  && bool_decide (op_decision a = op_decision b)
  && bool_decide (op_reason_codes a = op_reason_codes b)
  && opt_eqb dec_eqb (op_confidence a) (op_confidence b)
  && bool_decide (op_evidence_refs a = op_evidence_refs b)
  && bool_decide (op_next_action a = op_next_action b)
  && opt_eqb dt_eqb (op_next_review_at a) (op_next_review_at b)
  && bool_decide (op_retry_count a = op_retry_count b)
  && opt_eqb dt_eqb (op_retry_at a) (op_retry_at b)
  && bool_decide (op_last_error_category a = op_last_error_category b)
  && bool_decide (op_policy_version a = op_policy_version b)
  && bool_decide (op_skill_version a = op_skill_version b)
  && bool_decide (op_supervisor_version a = op_supervisor_version b)
  && opt_eqb dec_eqb (op_estimated_cost a) (op_estimated_cost b)
  && bool_decide (op_last_event_id a = op_last_event_id b)
  && dt_eqb (op_created_at a) (op_created_at b)
  && dt_eqb (op_updated_at a) (op_updated_at b).

(** Equality of projections up to the zone their datetimes are given in. *)
#[export] Instance opp_equiv : Equiv AcquisitionOpportunity := opp_rel amount_eq.
#[export] Instance event_equiv : Equiv AcquisitionEvent := event_rel amount_eq.

Lemma option_Forall2_refl {A} (S : A -> A -> Prop) `{!Reflexive S} o : option_Forall2 S o o.
Proof. destruct o; by constructor. Qed.
Lemma option_Forall2_sym {A} (S : A -> A -> Prop) `{!Symmetric S} o p :
  option_Forall2 S o p -> option_Forall2 S p o.
Proof. intros []; by constructor. Qed.
Lemma option_Forall2_trans {A} (S : A -> A -> Prop) `{!Transitive S} o p q :
  option_Forall2 S o p -> option_Forall2 S p q -> option_Forall2 S o q.
Proof. intros [x y Hxy|] Hq; inversion Hq; constructor. by etrans. Qed.

#[export] Instance opp_equiv_Equivalence : Equivalence (≡@{AcquisitionOpportunity}).
Proof.
  split.
  - intros o. constructor; simpl; try done; by apply option_Forall2_refl.
  - intros o p []. constructor; simpl in *; try done; by apply option_Forall2_sym.
  - intros o p q [] []. constructor; simpl in *; try congruence;
      solve [by eapply option_Forall2_trans | by etrans].
Qed.

#[export] Instance reduce_event_Proper :
  Proper ((≡) ==> (≡) ==> result_rel (≡)) (fun o e => reduce_event (Some o) e).
Proof. intros o p Hop e f He. by apply reduce_event_rel. Qed.

Lemma dec_eqb_refl d : dec_eqb d d = true.
Proof. unfold dec_eqb, dec_compare. by rewrite Z.compare_refl. Qed.

Lemma opt_eqb_rel {A} (S : A -> A -> Prop) f a b :
  (forall x y, S x y -> f x y = true) -> option_Forall2 S a b -> opt_eqb f a b = true.
Proof. intros H []; simpl; auto. Qed.

Lemma opportunity_eqb_equiv a b : a ≡ b -> opportunity_eqb a b = true.
Proof.
  intros []. unfold opportunity_eqb.
  repeat match goal with E : _ b = _ a |- _ => rewrite E; clear E end.
  rewrite !bool_decide_eq_true_2 by done. simpl.
  rewrite !(opt_eqb_rel dt_equiv dt_eqb) by (try done; intros ?? [_ ?]; by apply Z.eqb_eq).
  rewrite !(opt_eqb_rel eq dec_eqb) by (try done; intros ?? ->; apply dec_eqb_refl).
  simpl. apply andb_true_iff. split; apply Z.eqb_eq; [apply or_created0 | apply or_updated0].
Qed.
