(* ===== verification/Database.v ===== *)
(** Database: what the stores rely on from the PostgreSQL tables of
    [persistence/schema.py].

    A column gives back a value of its own representation of what was
    written: a [DateTime(timezone=True)] column the same instant in a zone
    of the server's choice, a [Numeric(p, s)] column the amount at scale
    [s].  These two are an interface with the documented laws; [String(n)]
    refuses longer values.  A transaction that raises leaves the tables as
    they were, which the [result] of every store operation says: a [Raise]
    carries no new state. *)

From S2P Require Import Prelude PyStr PyDatetime PyDecimal PyJson.
From S2P Require Import AcquisitionContracts AcquisitionEquiv.

Local Open Scope string_scope.
Local Open Scope Z_scope.

Class Database := {
  (** What is read back of an aware datetime. *)
  timestamptz : datetime -> datetime;
  timestamptz_equiv : forall d, aware d = true -> dt_equiv d (timestamptz d);
  (** What is read back of an amount, an error when it has too many digits
      before the point. *)
  numeric : Z -> Z -> decimal -> result decimal;
  numeric_stored : forall p s d d', numeric p s d = Ok d' -> numeric p s d' = Ok d';
  numeric_unit : forall p s d d', numeric p s d = Ok d' ->
    decimal_unit (Some d) = true -> decimal_unit (Some d') = true;
  numeric_ge0 : forall p s d d', numeric p s d = Ok d' ->
    decimal_ge0 (Some d) = true -> decimal_ge0 (Some d') = true;
  (** What is read back has at most [s] digits after the point. *)
  numeric_exp : forall p s d d', numeric p s d = Ok d' -> - s <= d_exp d';
  (** An amount with at most [s] digits after the point is kept, and has at
      most [p] digits in all. *)
  numeric_scaled : forall p s d d', - s <= d_exp d -> numeric p s d = Ok d' ->
    - s <= d_exp d' /\ coef_at (- s) d' = coef_at (- s) d /\ Z.abs (coef_at (- s) d) < 10 ^ p;
}.

(** A [String(n)] column. *)
Definition varchar (column : string) (n : Z) (s : string) : result string :=
  if len s <=? n then Ok s else Raise (DataError column).

Lemma varchar_Ok column n s t : varchar column n s = Ok t <-> t = s /\ len s <= n.
Proof.
  unfold varchar. destruct (Z.leb_spec (len s) n); split; intros; simplify_eq; naive_solver lia.
Qed.

Lemma opt_varchar_Ok column n o o' : opt_mapM (varchar column n) o = Ok o' -> o' = o.
Proof.
  destruct o; simpl; intros H; inv_result; [|done].
  apply varchar_Ok in Hv as [-> _]. done.
Qed.

(** A check constraint of a table. *)
Definition check_constraint (name : string) (b : bool) : result unit :=
  if b then Ok tt else Raise (IntegrityError name).

(** A database that keeps datetimes as they are and takes only amounts that
    its columns hold: the interface can be satisfied. *)
Definition exact_numeric (p s : Z) (d : decimal) : result decimal :=
  if (- s <=? d_exp d) && (Z.abs (coef_at (- s) d) <? 10 ^ p) then Ok d
  else Raise (DataError "numeric field overflow").

Lemma exact_numeric_Ok p s d d' :
  exact_numeric p s d = Ok d' ->
  d' = d /\ - s <= d_exp d /\ Z.abs (coef_at (- s) d) < 10 ^ p.
Proof. unfold exact_numeric. destruct (_ && _) eqn:E; intros H; simplify_eq. split; [done | lia]. Qed.

Program Definition ExactDatabase : Database := {|
  timestamptz d := d;
  numeric := exact_numeric;
|}.
Next Obligation. intros; reflexivity. Qed.
Next Obligation. intros p s d d' H. by destruct (exact_numeric_Ok _ _ _ _ H) as [-> _]. Qed.
Next Obligation. intros p s d d' H. by destruct (exact_numeric_Ok _ _ _ _ H) as [-> _]. Qed.
Next Obligation. intros p s d d' H. by destruct (exact_numeric_Ok _ _ _ _ H) as [-> _]. Qed.
Next Obligation. intros p s d d' H. by destruct (exact_numeric_Ok _ _ _ _ H) as (-> & ? & _). Qed.
Next Obligation. intros p s d d' Hs H. by destruct (exact_numeric_Ok _ _ _ _ H) as (-> & _ & ?). Qed.

(** A database whose [Numeric(p, s)] columns round half away from zero to
    the scale, as PostgreSQL's do. *)
Definition scaled_numeric (p s : Z) (d : decimal) : result decimal :=
  let q := to_scale s d in
  if Z.abs (d_coef q) <? 10 ^ p then Ok q else Raise (DataError "numeric field overflow").

Lemma scaled_numeric_Ok p s d q :
  scaled_numeric p s d = Ok q -> q = to_scale s d /\ Z.abs (d_coef q) < 10 ^ p.
Proof.
  unfold scaled_numeric. destruct (Z.ltb_spec (Z.abs (d_coef (to_scale s d))) (10 ^ p)); intros E;
    simplify_eq. done.
Qed.

Program Definition ScaledDatabase : Database := {|
  timestamptz d := d;
  numeric := scaled_numeric;
|}.
Next Obligation. intros; reflexivity. Qed.
Next Obligation.
  intros p s d q H. apply scaled_numeric_Ok in H as [-> H]. unfold scaled_numeric.
  rewrite to_scale_idem. by apply Z.ltb_lt in H as ->.
Qed.
Next Obligation.
  intros p s d q H Hd. apply scaled_numeric_Ok in H as [-> _]. unfold decimal_unit in *. inv_result.
  by rewrite to_scale_ge0, to_scale_le1.
Qed.
Next Obligation.
  intros p s d q H Hd. apply scaled_numeric_Ok in H as [-> _]. by apply to_scale_ge0.
Qed.
Next Obligation.
  intros p s d q H. apply scaled_numeric_Ok in H as [-> _]. unfold to_scale. case_match eqn:E; simpl; lia.
Qed.
Next Obligation.
  intros p s d q Hs H. apply scaled_numeric_Ok in H as [-> H]. unfold to_scale in *.
  rewrite (proj2 (Z.leb_le _ _) Hs) in *. cbn [d_coef d_exp] in *.
  unfold coef_at. cbn [d_coef d_exp]. replace (d_exp d - - s) with (d_exp d + s) by lia.
  rewrite Z.sub_diag, Z.mul_1_r. done.
Qed.

(** An [Integer] column. *)
Definition int4 (column : string) (n : Z) : result Z :=
  if (- 2 ^ 31 <=? n) && (n <? 2 ^ 31) then Ok n else Raise (DataError column).
