(* ===== verification/AcquisitionStore.v ===== *)
(** AcquisitionStore: the event store of [acquisition/store.py] over the
    tables [acquisition_opportunity] and [acquisition_event].

    The tables are [acq_db].  An operation takes them and the values the
    clock and the identifier factories give, and returns the
    [MutationResult] with the new tables, or raises, in which case its
    transaction is rolled back.  [append_read] and [append_write] are the two
    halves of [_append], the statements before and from the guarded UPDATE
    on, so that another transaction can be put between them. *)

From S2P Require Import Prelude PyStr PyDatetime PyDecimal PyJson Database.
From S2P Require Import AcquisitionContracts AcquisitionStateMachine AcquisitionEquiv.

Local Open Scope string_scope.
Local Open Scope Z_scope.

(** * Tables *)

Record acq_db : Type := mkdb {
  db_opportunities : gmap string AcquisitionOpportunity;
  db_events : list AcquisitionEvent;
}.

Definition empty_db : acq_db := mkdb ∅ [].

(** [acquisition/store.py:39-42 MutationResult] *)
Record MutationResult : Type := mkMutation {
  mr_projection : AcquisitionOpportunity;
  mr_event : AcquisitionEvent;
  mr_replayed : bool;
}.

(** What the injected clock and identifier factories return during a call. *)
Record store_env : Type := mkenv {
  env_clock : datetime;
  env_event_id : string;
  env_opportunity_id : string;
}.

Section store.
Context `{Hash : HashLib} `{DB : Database}.

(** [acquisition/store.py:146-152 _projection_values] and the columns and
    constraints of [acquisition_opportunity] in [persistence/schema.py]:
    the row that is stored. *)
Definition _projection_values (o : AcquisitionOpportunity) : result AcquisitionOpportunity :=
  let! id := varchar "acquisition_opportunity_id" 64 (op_acquisition_opportunity_id o) in
  let! identity_key := varchar "identity_key" 256 (op_identity_key o) in
  let! machine := varchar "state_machine_version" 64 (op_state_machine_version o) in
  let! signal_ref := varchar "signal_ref" 256 (op_signal_ref o) in
  let! supplier_ref := opt_mapM (varchar "supplier_ref" 256) (op_supplier_ref o) in
  let! contact_ref := opt_mapM (varchar "contact_ref" 256) (op_contact_ref o) in
  let! campaign_ref := opt_mapM (varchar "campaign_ref" 256) (op_campaign_ref o) in
  let! confidence := opt_mapM (numeric 5 4) (op_confidence o) in
  let! next_action := opt_mapM (varchar "next_action" 100) (op_next_action o) in
  let! error := opt_mapM (varchar "last_error_category" 100) (op_last_error_category o) in
  let! policy := opt_mapM (varchar "policy_version" 100) (op_policy_version o) in
  let! skill := opt_mapM (varchar "skill_version" 100) (op_skill_version o) in
  let! supervisor := opt_mapM (varchar "supervisor_version" 100) (op_supervisor_version o) in
  let! cost := opt_mapM (numeric 18 6) (op_estimated_cost o) in
  let! last := varchar "last_event_id" 64 (op_last_event_id o) in
  let! _ := check_constraint "ck_acquisition_opportunity_stream_version"
              (1 <=? op_stream_version o) in
  let! _ := check_constraint "ck_acquisition_opportunity_retry_count" (0 <=? op_retry_count o) in
  let! _ := check_constraint "ck_acquisition_opportunity_confidence" (decimal_unit confidence) in
  let! _ := check_constraint "ck_acquisition_opportunity_estimated_cost" (decimal_ge0 cost) in
  Ok (mkOpp id identity_key (op_state o) (op_stream_version o) machine signal_ref supplier_ref
        contact_ref campaign_ref (op_decision o) (op_reason_codes o) confidence
        (op_evidence_refs o) next_action (timestamptz <$> op_next_review_at o)
        (op_retry_count o) (timestamptz <$> op_retry_at o) error policy skill supervisor cost
        last (timestamptz (op_created_at o)) (timestamptz (op_updated_at o))).

(** [acquisition/store.py:137-143 _event_values] and the columns and check
    constraints of [acquisition_event] in [persistence/schema.py]. *)
Definition _event_values (e : AcquisitionEvent) : result AcquisitionEvent :=
  let! event_id := varchar "event_id" 64 (ev_event_id e) in
  let! id := varchar "acquisition_opportunity_id" 64 (ev_acquisition_opportunity_id e) in
  let! machine := varchar "state_machine_version" 64 (ev_state_machine_version e) in
  let! actor := opt_mapM (varchar "actor_ref" 256) (ev_actor_ref e) in
  let! key := varchar "idempotency_key" 128 (ev_idempotency_key e) in
  let! fingerprint := varchar "semantic_fingerprint" 64 (ev_semantic_fingerprint e) in
  let! correlation := opt_mapM (varchar "correlation_id" 64) (ev_correlation_id e) in
  let! causation := opt_mapM (varchar "causation_id" 64) (ev_causation_id e) in
  let! policy := opt_mapM (varchar "policy_version" 100) (ev_policy_version e) in
  let! skill := opt_mapM (varchar "skill_version" 100) (ev_skill_version e) in
  let! supervisor := opt_mapM (varchar "supervisor_version" 100) (ev_supervisor_version e) in
  let! confidence := opt_mapM (numeric 5 4) (ev_confidence e) in
  let! cost := opt_mapM (numeric 18 6) (ev_estimated_cost e) in
  let! _ := check_constraint "ck_acquisition_event_stream_sequence" (1 <=? ev_stream_sequence e) in
  let! _ := check_constraint "ck_acquisition_event_schema_version" (1 <=? ev_schema_version e) in
  let! _ := check_constraint "ck_acquisition_event_confidence" (decimal_unit confidence) in
  let! _ := check_constraint "ck_acquisition_event_estimated_cost" (decimal_ge0 cost) in
  Ok (mkEvent event_id id (ev_stream_sequence e) (ev_event_type e) (ev_schema_version e) machine
        (timestamptz (ev_occurred_at e)) (timestamptz (ev_recorded_at e)) (ev_actor_type e)
        actor key fingerprint correlation causation (ev_reason_codes e) (ev_evidence_refs e)
        policy skill supervisor confidence cost (ev_payload e)).

(** [acquisition/store.py:53-56 _aware] *)
Definition _aware_utc (value : datetime) : datetime := assume_utc value.

(** [acquisition/store.py:119-125 _event_from_row] *)
Definition _event_from_row (e : AcquisitionEvent) : result AcquisitionEvent :=
  event_validate
    (mkEvent (ev_event_id e) (ev_acquisition_opportunity_id e) (ev_stream_sequence e)
       (ev_event_type e) (ev_schema_version e) (ev_state_machine_version e)
       (_aware_utc (ev_occurred_at e)) (_aware_utc (ev_recorded_at e)) (ev_actor_type e)
       (ev_actor_ref e) (ev_idempotency_key e) (ev_semantic_fingerprint e)
       (ev_correlation_id e) (ev_causation_id e) (ev_reason_codes e) (ev_evidence_refs e)
       (ev_policy_version e) (ev_skill_version e) (ev_supervisor_version e)
       (ev_confidence e) (ev_estimated_cost e) (ev_payload e)).

(** [acquisition/store.py:128-134 _projection_from_row] *)
Definition _projection_from_row (o : AcquisitionOpportunity) : result AcquisitionOpportunity :=
  opportunity_validate
    (mkOpp (op_acquisition_opportunity_id o) (op_identity_key o) (op_state o)
       (op_stream_version o) (op_state_machine_version o) (op_signal_ref o)
       (op_supplier_ref o) (op_contact_ref o) (op_campaign_ref o) (op_decision o)
       (op_reason_codes o) (op_confidence o) (op_evidence_refs o) (op_next_action o)
       (_aware_utc <$> op_next_review_at o) (op_retry_count o) (_aware_utc <$> op_retry_at o)
       (op_last_error_category o) (op_policy_version o) (op_skill_version o)
       (op_supervisor_version o) (op_estimated_cost o) (op_last_event_id o)
       (_aware_utc (op_created_at o)) (_aware_utc (op_updated_at o))).

(** ** Statements *)

(** [SELECT ... WHERE identity_key = k], [.one_or_none()]. *)
Definition select_identity (db : acq_db) (k : string) : result (option AcquisitionOpportunity) :=
  match filter (fun r => op_identity_key r = k) (map snd (map_to_list (db_opportunities db))) with
  | [] => Ok None
  | [row] => Ok (Some row)
  | _ => Raise (RuntimeError "MultipleResultsFound")
  end.

(** [SELECT ... WHERE acquisition_opportunity_id = id AND stream_sequence
    = 1], [.one()], and the same by idempotency key, [.one_or_none()]. *)
Definition select_first_event (db : acq_db) (id : string) : result AcquisitionEvent :=
  option_to_result NoResultFound
    (first_match (fun e => bool_decide (ev_acquisition_opportunity_id e = id)
                           && (ev_stream_sequence e =? 1)) (db_events db)).
Definition select_by_key (db : acq_db) (id key : string) : option AcquisitionEvent :=
  first_match (fun e => bool_decide (ev_acquisition_opportunity_id e = id)
                        && bool_decide (ev_idempotency_key e = key)) (db_events db).

(** [INSERT INTO acquisition_event]: the primary key, the two unique
    constraints and the foreign key of the table. *)
Definition insert_event (db : acq_db) (e : AcquisitionEvent) : result acq_db :=
  let! row := _event_values e in
  let! _ := check_constraint "acquisition_event_pkey"
    (negb (existsb (fun f => bool_decide (ev_event_id f = ev_event_id row)) (db_events db))) in
  let! _ := check_constraint "uq_acquisition_event_stream_sequence"
    (negb (existsb (fun f =>
        bool_decide (ev_acquisition_opportunity_id f = ev_acquisition_opportunity_id row)
        && (ev_stream_sequence f =? ev_stream_sequence row)) (db_events db))) in
  let! _ := check_constraint "uq_acquisition_event_idempotency"
    (negb (existsb (fun f =>
        bool_decide (ev_acquisition_opportunity_id f = ev_acquisition_opportunity_id row)
        && bool_decide (ev_idempotency_key f = ev_idempotency_key row)) (db_events db))) in
  let! _ := check_constraint "acquisition_event_acquisition_opportunity_id_fkey"
    (truthy (db_opportunities db !! ev_acquisition_opportunity_id row)) in
  Ok (mkdb (db_opportunities db) (db_events db ++ [row])).

(** [UPDATE acquisition_opportunity SET ... WHERE id = ... AND
    stream_version = ...] with its row count; the primary key is not
    among the values. *)
Definition update_opportunity (db : acq_db) (id : string) (expected : option Z)
    (o : AcquisitionOpportunity) : result (Z * acq_db) :=
  match db_opportunities db !! id with
  | Some row =>
      if match expected with Some v => op_stream_version row =? v | None => true end then
        let! new := _projection_values o in
        let! _ := check_constraint "acquisition_opportunity_identity_key_key"
          (negb (existsb (fun p => bool_decide (p.1 <> id)
                                   && bool_decide (op_identity_key p.2 = op_identity_key new))
                   (map_to_list (db_opportunities db)))) in
        Ok (1, mkdb (<[id := new]> (db_opportunities db)) (db_events db))
      else Ok (0, db)
  | None => Ok (0, db)
  end.

(** [acquisition/store.py:457-469 _insert_opportunity_if_absent] on a
    supported dialect, with [persistence/conflicts.py:47-76
    insert_if_absent]: [INSERT ... ON CONFLICT (identity_key) DO NOTHING
    RETURNING 1]. *)
Definition _insert_opportunity_if_absent (db : acq_db) (o : AcquisitionOpportunity)
  : result (bool * acq_db) :=
  let! row := _projection_values o in
  if existsb (fun r => bool_decide (op_identity_key r = op_identity_key row))
       (map snd (map_to_list (db_opportunities db))) then Ok (false, db)
  else
    let id := op_acquisition_opportunity_id row in
    let! _ := check_constraint "acquisition_opportunity_pkey"
      (negb (truthy (db_opportunities db !! id))) in
    Ok (true, mkdb (<[id := row]> (db_opportunities db)) (db_events db)).

(** ** Reads *)

(** [acquisition/store.py:188-202 _get_opportunity] *)
Definition _get_opportunity (db : acq_db) (opportunity_id : string)
  : result AcquisitionOpportunity :=
  let! row := option_to_result (ProjectionNotFound opportunity_id)
                (db_opportunities db !! opportunity_id) in
  _projection_from_row row.

(** [acquisition/store.py:171-173 get_opportunity] *)
Definition get_opportunity (db : acq_db) (opportunity_id : string)
  : result AcquisitionOpportunity := _get_opportunity db opportunity_id.

(** [acquisition/store.py:175-186 get_opportunity_in_transaction] *)
Definition get_opportunity_in_transaction (db : acq_db) (opportunity_id : string)
  : result AcquisitionOpportunity := _get_opportunity db opportunity_id.

(** [acquisition/store.py:204-215 resolve_target_ref] *)
Definition resolve_target_ref (db : acq_db) (target_ref : string) : list string :=
  map fst (filter (fun p => p.1 = target_ref \/ op_identity_key p.2 = target_ref)
             (map_to_list (db_opportunities db))).

Definition event_leb (a b : AcquisitionEvent) : bool :=
  ev_stream_sequence a <=? ev_stream_sequence b.
Definition stream (db : acq_db) (opportunity_id : string) : list AcquisitionEvent :=
  filter (fun e => ev_acquisition_opportunity_id e = opportunity_id) (db_events db).

(** [acquisition/store.py:236-242 _list_events] *)
Definition _list_events (db : acq_db) (opportunity_id : string)
  : result (list AcquisitionEvent) :=
  mapM_result _event_from_row (sorted_by event_leb (stream db opportunity_id)).

(** [acquisition/store.py:217-219 list_events] *)
Definition list_events (db : acq_db) (opportunity_id : string)
  : result (list AcquisitionEvent) := _list_events db opportunity_id.

(** [acquisition/store.py:221-234 get_last_event_in_transaction] *)
Definition get_last_event_in_transaction (db : acq_db) (opportunity_id : string)
  : result AcquisitionEvent :=
  let! row := option_to_result NoResultFound
                (head (reverse (sorted_by event_leb (stream db opportunity_id)))) in
  _event_from_row row.

(** [acquisition/store.py:244-250 verify_projection] *)
Definition verify_projection (db : acq_db) (opportunity_id : string)
  : result ProjectionVerification :=
  let! current := _get_opportunity db opportunity_id in
  let! events := _list_events db opportunity_id in
  let! rebuilt := replay events in
  Ok (if opportunity_eqb current rebuilt then MATCH else MISMATCH).

(** [acquisition/store.py:252-274 rebuild_projection] *)
Definition rebuild_projection (db : acq_db) (opportunity_id : string)
  : result (AcquisitionOpportunity * acq_db) :=
  let! _ := option_to_result (ProjectionNotFound opportunity_id)
              (db_opportunities db !! opportunity_id) in
  let! events := _list_events db opportunity_id in
  let! rebuilt := replay events in
  let! (_, db') := update_opportunity db opportunity_id None rebuilt in
  Ok (rebuilt, db').

(** ** The semantic fingerprint *)

(** The keyword arguments of [_append] and [append_in_transaction]. *)
Record append_request : Type := mkRequest {
  rq_event_type : EventType;
  rq_expected_version : Z;
  rq_idempotency_key : string;
  rq_payload : dict;
  rq_actor_type : ActorType;
  rq_actor_ref : option string;
  rq_reason_codes : list string;
  rq_evidence_refs : list string;
  rq_policy_version : option string;
  rq_skill_version : option string;
  rq_supervisor_version : option string;
  rq_confidence : option decimal;
  rq_estimated_cost : option decimal;
  rq_correlation_id : option string;
  rq_causation_id : option string;
  rq_occurred_at : option datetime;
}.

(** [acquisition/store.py:83-116 _semantic_input], after
    [acquisition/store.py:59-70 _canonical]: a [Decimal] is its string, a
    datetime its ISO form, an enumeration member its value. *)
Definition _semantic_input (r : append_request) : json :=
  JObj [("event_type", JStr (event_type_value (rq_event_type r)));
        ("state_machine_version", JStr STATE_MACHINE_VERSION);
        ("actor_type", JStr (actor_value (rq_actor_type r)));
        ("actor_ref", JOptStr (rq_actor_ref r));
        ("reason_codes", JStrs (rq_reason_codes r));
        ("evidence_refs", JStrs (rq_evidence_refs r));
        ("policy_version", JOptStr (rq_policy_version r));
        ("skill_version", JOptStr (rq_skill_version r));
        ("supervisor_version", JOptStr (rq_supervisor_version r));
        ("confidence", opt_json (fun d => JStr (dec_str d)) (rq_confidence r));
        ("estimated_cost", opt_json (fun d => JStr (dec_str d)) (rq_estimated_cost r));
        ("payload", JObj (rq_payload r));
        ("correlation_id", JOptStr (rq_correlation_id r));
        ("causation_id", JOptStr (rq_causation_id r));
        ("occurred_at", opt_json (fun d => JStr (isoformat d)) (rq_occurred_at r))].

(** [acquisition/store.py:73-80 _fingerprint] *)
Definition _fingerprint (value : json) : result string := json_sha256 value.

(** ** Creation *)

Record create_request : Type := mkCreate {
  cr_identity_key : string;
  cr_signal_ref : string;
  cr_supplier_ref : option string;
  cr_contact_ref : option string;
  cr_campaign_ref : option string;
  (** The arguments shared with an append; the event type, the expected
      version and the payload of this record are not used. *)
  cr_common : append_request;
}.

(** [acquisition/store.py:321-455 create_opportunity_in_transaction] *)
Definition creation_request (c : create_request) : append_request :=
  let r := cr_common c in
  mkRequest OPPORTUNITY_CREATED 0 (rq_idempotency_key r)
    [("identity_key", JStr (cr_identity_key c)); ("signal_ref", JStr (cr_signal_ref c));
     ("supplier_ref", JOptStr (cr_supplier_ref c)); ("contact_ref", JOptStr (cr_contact_ref c));
     ("campaign_ref", JOptStr (cr_campaign_ref c))]
    (rq_actor_type r) (rq_actor_ref r) (rq_reason_codes r) (rq_evidence_refs r)
    (rq_policy_version r) (rq_skill_version r) (rq_supervisor_version r)
    (rq_confidence r) (rq_estimated_cost r) (rq_correlation_id r) (rq_causation_id r)
    (rq_occurred_at r).

(** The [AcquisitionEvent(...)] call of the store for a request, at a
    sequence number: [acquisition/store.py:819-841 append_in_transaction]
    and [acquisition/store.py:400-423 create_opportunity_in_transaction]. *)
Definition build_event (env : store_env) (opportunity_id : string) (sequence : Z)
    (fingerprint : string) (r : append_request) : result AcquisitionEvent :=
  event_validate
    (mkEvent (env_event_id env) opportunity_id sequence (rq_event_type r)
       EVENT_SCHEMA_VERSION STATE_MACHINE_VERSION
       (default (env_clock env) (rq_occurred_at r)) (env_clock env)
       (rq_actor_type r) (rq_actor_ref r) (rq_idempotency_key r) fingerprint
       (rq_correlation_id r) (rq_causation_id r) (rq_reason_codes r) (rq_evidence_refs r)
       (rq_policy_version r) (rq_skill_version r) (rq_supervisor_version r)
       (rq_confidence r) (rq_estimated_cost r) (rq_payload r)).

(** [acquisition/store.py:380-398 create_opportunity_in_transaction]: the
    answer when a row with the identity key exists. *)
Definition replay_creation (db : acq_db) (identity_key idempotency_key fingerprint : string)
    (existing_row : AcquisitionOpportunity) : result MutationResult :=
  let! existing := _projection_from_row existing_row in
  let! creation_row := select_first_event db (op_acquisition_opportunity_id existing) in
  let! creation := _event_from_row creation_row in
  require! bool_decide (ev_idempotency_key creation = idempotency_key)
  else AcquisitionIdentityConflict identity_key in
  require! bool_decide (ev_semantic_fingerprint creation = fingerprint)
  else IdempotencyConflict idempotency_key in
  Ok (mkMutation existing creation true).

(** [acquisition/store.py:321-455 create_opportunity_in_transaction] *)
Definition create_opportunity_in_transaction (env : store_env) (db : acq_db) (c : create_request)
  : result (MutationResult * acq_db) :=
  let r := creation_request c in
  let! fingerprint := _fingerprint (_semantic_input r) in
  let! existing_row := select_identity db (cr_identity_key c) in
  match existing_row with
  | Some existing_row =>
      let! m := replay_creation db (cr_identity_key c) (rq_idempotency_key r) fingerprint
                  existing_row in
      Ok (m, db)
  | None =>
      let! event := build_event env (env_opportunity_id env) 1 fingerprint r in
      let! projection := reduce_event None event in
      let! (inserted, db1) := _insert_opportunity_if_absent db projection in
      if (inserted : bool) then
        let! db2 := insert_event db1 event in
        Ok (mkMutation projection event false, db2)
      else
        let! existing_row := select_identity db1 (cr_identity_key c) in
        let! existing_row := option_to_result NoResultFound existing_row in
        let! m := replay_creation db1 (cr_identity_key c) (rq_idempotency_key r) fingerprint
                    existing_row in
        Ok (m, db1)
  end.

(** [acquisition/store.py:276-319 create_opportunity] *)
Definition create_opportunity (env : store_env) (db : acq_db) (c : create_request)
  : result (MutationResult * acq_db) := create_opportunity_in_transaction env db c.

(** ** Appending *)

(** What the first half of an append found: an event already recorded
    under the key, or the event and projection to write. *)
Inductive append_plan : Type :=
| PlanReplay (m : MutationResult)
| PlanWrite (next_projection : AcquisitionOpportunity) (event : AcquisitionEvent).

(** [acquisition/store.py:757-856 append_in_transaction] *)
Definition append_read (env : store_env) (db : acq_db) (opportunity_id : string)
    (r : append_request) : result append_plan :=
  let! fingerprint := _fingerprint (_semantic_input r) in
  let! current := _get_opportunity db opportunity_id in
  match select_by_key db opportunity_id (rq_idempotency_key r) with
  | Some existing_row =>
      let! existing := _event_from_row existing_row in
      require! bool_decide (ev_semantic_fingerprint existing = fingerprint)
      else IdempotencyConflict (rq_idempotency_key r) in
      Ok (PlanReplay (mkMutation current existing true))
  | None =>
      require! op_stream_version current =? rq_expected_version r
      else OpportunityConcurrencyConflict
             ("expected " +:+ str_int (rq_expected_version r) +:+ ", found "
              +:+ str_int (op_stream_version current)) in
      let! event := build_event env opportunity_id (rq_expected_version r + 1) fingerprint r in
      let! next_projection := reduce_event (Some current) event in
      Ok (PlanWrite next_projection event)
  end.

(** [acquisition/store.py:757-856 append_in_transaction] *)
Definition append_write (db : acq_db) (opportunity_id : string) (expected_version : Z)
    (plan : append_plan) : result (MutationResult * acq_db) :=
  match plan with
  | PlanReplay m => Ok (m, db)
  | PlanWrite next_projection event =>
      let! (rowcount, db1) :=
        update_opportunity db opportunity_id (Some expected_version) next_projection in
      require! rowcount =? 1 else OpportunityConcurrencyConflict opportunity_id in
      let! db2 := insert_event db1 event in
      Ok (mkMutation next_projection event false, db2)
  end.

(** [acquisition/store.py:757-856 append_in_transaction] *)
Definition append_in_transaction (env : store_env) (db : acq_db) (opportunity_id : string)
    (r : append_request) : result (MutationResult * acq_db) :=
  let! plan := append_read env db opportunity_id r in
  append_write db opportunity_id (rq_expected_version r) plan.

(** [acquisition/store.py:657-755 _append]: the same statements in a
    transaction of its own. *)
Definition _append (env : store_env) (db : acq_db) (opportunity_id : string)
    (r : append_request) : result (MutationResult * acq_db) :=
  append_in_transaction env db opportunity_id r.

(** ** The public operations *)

Definition review_payload (base : dict) (next_review_at : option datetime) : dict :=
  base ++ match next_review_at with
          | Some d => [("next_review_at", JStr (isoformat d))]
          | None => []
          end.

(** [acquisition/store.py:471-503 transition_state] *)
Definition transition_state (env : store_env) (db : acq_db) (opportunity_id : string)
    (target_state : AcquisitionState) (expected_version : Z) (idempotency_key : string)
    (reason_codes evidence_refs : list string) (next_review_at : option datetime)
    (actor_type : ActorType) (actor_ref correlation_id causation_id : option string)
    (occurred_at : option datetime) : result (MutationResult * acq_db) :=
  _append env db opportunity_id
    (mkRequest STATE_TRANSITIONED expected_version idempotency_key
       (review_payload [("target_state", JStr (state_value target_state))] next_review_at)
       actor_type actor_ref reason_codes evidence_refs None None None None None
       correlation_id causation_id occurred_at).

(** [acquisition/store.py:505-547 record_decision] *)
Definition record_decision (env : store_env) (db : acq_db) (opportunity_id : string)
    (decision : Decision) (reason_codes evidence_refs : list string) (confidence : decimal)
    (policy_version skill_version : string) (estimated_cost : decimal)
    (expected_version : Z) (idempotency_key : string) (next_review_at : option datetime)
    (supervisor_version : option string) (actor_type : ActorType)
    (actor_ref correlation_id causation_id : option string) (occurred_at : option datetime)
  : result (MutationResult * acq_db) :=
  _append env db opportunity_id
    (mkRequest DECISION_RECORDED expected_version idempotency_key
       (review_payload [("decision", JStr (decision_value decision))] next_review_at)
       actor_type actor_ref reason_codes evidence_refs (Some policy_version)
       (Some skill_version) supervisor_version (Some confidence) (Some estimated_cost)
       correlation_id causation_id occurred_at).

(** [acquisition/store.py:549-569 set_next_action] *)
Definition set_next_action (env : store_env) (db : acq_db) (opportunity_id : string)
    (next_action : string) (expected_version : Z) (idempotency_key : string)
    (actor_type : ActorType) (actor_ref : option string) (occurred_at : option datetime)
  : result (MutationResult * acq_db) :=
  _append env db opportunity_id
    (mkRequest NEXT_ACTION_SET expected_version idempotency_key
       [("next_action", JStr next_action)]
       actor_type actor_ref [] [] None None None None None None None occurred_at).

(** [acquisition/store.py:571-597 schedule_retry] *)
Definition schedule_retry (env : store_env) (db : acq_db) (opportunity_id : string)
    (retry_at : datetime) (error_category : string) (reason_codes : list string)
    (expected_version : Z) (idempotency_key : string)
    (actor_type : ActorType) (actor_ref : option string) (occurred_at : option datetime)
  : result (MutationResult * acq_db) :=
  _append env db opportunity_id
    (mkRequest RETRY_SCHEDULED expected_version idempotency_key
       [("retry_at", JStr (isoformat retry_at)); ("error_category", JStr error_category)]
       actor_type actor_ref reason_codes [] None None None None None None None occurred_at).

(** [acquisition/store.py:599-623 record_outcome] *)
Definition record_outcome (env : store_env) (db : acq_db) (opportunity_id : string)
    (outcome_state : AcquisitionState) (expected_version : Z) (idempotency_key : string)
    (reason_codes evidence_refs : list string)
    (actor_type : ActorType) (actor_ref : option string) (occurred_at : option datetime)
  : result (MutationResult * acq_db) :=
  _append env db opportunity_id
    (mkRequest OUTCOME_RECORDED expected_version idempotency_key
       [("outcome_state", JStr (state_value outcome_state))]
       actor_type actor_ref reason_codes evidence_refs None None None None None None None
       occurred_at).

(** [acquisition/store.py:625-655 record_supervisor_plan_observed] *)
Definition record_supervisor_plan_observed (env : store_env) (db : acq_db)
    (opportunity_id : string) (payload : dict) (reason_codes evidence_refs : list string)
    (confidence estimated_cost : decimal) (supervisor_version skill_version : string)
    (expected_version : Z) (idempotency_key : string) (occurred_at : datetime)
  : result (MutationResult * acq_db) :=
  _append env db opportunity_id
    (mkRequest SUPERVISOR_PLAN_OBSERVED expected_version idempotency_key payload
       HERMES (Some "kivou-acquisition-supervisor") reason_codes evidence_refs
       None (Some skill_version) (Some supervisor_version) (Some confidence)
       (Some estimated_cost) None None (Some occurred_at)).
End store.
