(* ===== verification/AcquisitionStoreFacts.v ===== *)
(** AcquisitionStoreFacts: the invariant of the acquisition tables and the
    theorems about the operations of [AcquisitionStore]. *)

From S2P Require Import Prelude PyStr PyDatetime PyDatetimeFacts PyDecimal PyJson Database.
From S2P Require Import AcquisitionContracts AcquisitionStateMachine AcquisitionStateFacts.
From S2P Require Import AcquisitionEquiv AcquisitionStore.

Local Open Scope string_scope.
Local Open Scope Z_scope.
Local Open Scope list_scope.

(** * Rows *)

Section rows.
Context `{DB : Database}.

(** An amount and what its column gives back. *)
Program Definition stored_amount : amount_rel := {|
  ar_confidence a b := numeric 5 4 a = Ok b;
  ar_cost a b := numeric 18 6 a = Ok b;
|}.
Next Obligation. intros a b H Hu. exact (numeric_unit _ _ a b H Hu). Qed.
Next Obligation. intros a b H Hu. exact (numeric_ge0 _ _ a b H Hu). Qed.

(** A row whose amounts are at the scale of their columns. *)
Definition at_scale (o : AcquisitionOpportunity) : Prop :=
  opt_mapM (numeric 5 4) (op_confidence o) = Ok (op_confidence o)
  /\ opt_mapM (numeric 18 6) (op_estimated_cost o) = Ok (op_estimated_cost o).

Lemma opt_mapM_Forall2 {A B} (f : A -> result B) o o' :
  opt_mapM f o = Ok o' <-> option_Forall2 (fun a b => f a = Ok b) o o'.
Proof.
  split.
  - destruct o; simpl; intros H; inv_result; by constructor.
  - intros [a b H|]; simpl; [by rewrite H | done].
Qed.

Lemma opt_timestamptz (o : option datetime) :
  _aware o = true -> option_Forall2 dt_equiv o (timestamptz <$> o).
Proof. destruct o; simpl; intros; constructor. by apply timestamptz_equiv. Qed.

Ltac varchar_facts :=
  repeat match goal with
  | H : varchar _ _ _ = Ok _ |- _ => apply varchar_Ok in H as [-> _]
  | H : opt_mapM (varchar _ _) _ = Ok _ |- _ => apply opt_varchar_Ok in H as ->
  end.

Lemma projection_values_rel o r :
  opp_ok o -> _projection_values o = Ok r -> opp_rel stored_amount o r /\ at_scale r.
Proof.
  unfold _projection_values. intros [] H. inv_result. varchar_facts. split.
  - constructor; cbn; try done; try by apply opt_timestamptz.
    + by apply opt_mapM_Forall2.
    + by apply opt_mapM_Forall2.
    + by apply timestamptz_equiv.
    + by apply timestamptz_equiv.
  - split; cbn; eapply opt_mapM_idem; try done; intros ??; apply numeric_stored.
Qed.

Lemma event_values_rel e f :
  event_ok e -> _event_values e = Ok f ->
  event_rel stored_amount e f /\ event_ok f
  /\ ev_idempotency_key f = ev_idempotency_key e
  /\ ev_semantic_fingerprint f = ev_semantic_fingerprint e.
Proof.
  unfold _event_values. intros [] H. inv_result. varchar_facts.
  pose proof (timestamptz_equiv _ eok_occurred) as [Ho _].
  pose proof (timestamptz_equiv _ eok_recorded) as [Hr _].
  split_and!; cbn; try done.
  - constructor; cbn; try done; try by apply opt_mapM_Forall2.
    all: by apply timestamptz_equiv.
  - constructor; cbn; try done; try congruence.
    + eapply unit_rel with (R := stored_amount); [by apply opt_mapM_Forall2 | done].
    + eapply ge0_rel with (R := stored_amount); [by apply opt_mapM_Forall2 | done].
Qed.

Lemma assume_utc_aware d : aware d = true -> assume_utc d = d.
Proof. unfold assume_utc, aware. by destruct (utcoffset d). Qed.

Lemma opt_assume_utc d : _aware d = true -> assume_utc <$> d = d.
Proof. destruct d; simpl; intros; [by rewrite assume_utc_aware | done]. Qed.

Lemma projection_from_row_ok r : opp_ok r -> _projection_from_row r = Ok r.
Proof.
  intros Hr. unfold _projection_from_row, _aware_utc.
  rewrite !opt_assume_utc, !assume_utc_aware by (by eauto with kivou).
  rewrite <- (proj2 (opportunity_validate_id r) Hr) at 1. by destruct r.
Qed.

Lemma event_from_row_ok e : event_ok e -> _event_from_row e = Ok e.
Proof.
  intros He. unfold _event_from_row, _aware_utc.
  rewrite !assume_utc_aware by (by eauto with kivou).
  rewrite <- (proj2 (event_validate_id e) He) at 1. by destruct e.
Qed.

(** A projection at scale, and one equal to it up to time zones, are related
    as an amount to what its column gives back. *)
Lemma at_scale_rel r p : at_scale r -> r ≡ p -> opp_rel stored_amount r p.
Proof.
  intros [Hc Hk] H.
  pose proof (or_confidence _ _ _ H) as Hc'. pose proof (or_cost _ _ _ H) as Hk'.
  destruct H; constructor; try done.
  - apply opt_mapM_Forall2. simpl in *. destruct Hc'; [by subst | done].
  - apply opt_mapM_Forall2. simpl in *. destruct Hk'; [by subst | done].
Qed.

Lemma rel_stored_equiv n r p :
  opp_rel stored_amount n r -> opp_rel stored_amount n p -> r ≡ p.
Proof.
  intros Hr Hp.
  pose proof (or_confidence _ _ _ Hr) as Hc. pose proof (or_confidence _ _ _ Hp) as Hc'.
  pose proof (or_cost _ _ _ Hr) as Hk. pose proof (or_cost _ _ _ Hp) as Hk'.
  destruct Hr, Hp; constructor; try congruence; simpl in *;
    try (by (etrans; [symmetry; eassumption | eassumption]));
    try (eapply option_Forall2_trans;
         [apply _ | apply option_Forall2_sym; [apply _|]; eassumption | eassumption]).
  - destruct Hc; inversion Hc'; constructor; congruence.
  - destruct Hk; inversion Hk'; constructor; congruence.
Qed.

Lemma opp_ok_equiv r p : r ≡ p -> opp_ok r -> opp_ok p.
Proof. apply opp_ok_rel. Qed.
End rows.

(** * The invariant *)

Section invariant.
Context `{Hash : HashLib} `{DB : Database}.

(** The row of an opportunity is well formed, is the replay of its stream up
    to time zones, and the stream is numbered 1, 2, ... up to the row's
    version. *)
Record row_inv (db : acq_db) (id : string) (row : AcquisitionOpportunity) : Prop := {
  ri_id : op_acquisition_opportunity_id row = id;
  ri_ok : opp_ok row;
  ri_scale : at_scale row;
  ri_sequence : map ev_stream_sequence (stream db id) = seqZ 1 (op_stream_version row);
  ri_replay : exists p, replay (stream db id) = Ok p /\ row ≡ p;
}.

Record db_inv (db : acq_db) : Prop := {
  inv_rows : forall id row, db_opportunities db !! id = Some row -> row_inv db id row;
  inv_events : Forall event_ok (db_events db);
  inv_owned : forall e, e ∈ db_events db ->
    is_Some (db_opportunities db !! ev_acquisition_opportunity_id e);
  inv_identity : forall id1 r1 id2 r2,
    db_opportunities db !! id1 = Some r1 -> db_opportunities db !! id2 = Some r2 ->
    op_identity_key r1 = op_identity_key r2 -> id1 = id2;
  inv_event_ids : NoDup (map ev_event_id (db_events db));
  inv_keys : NoDup (map (fun e => (ev_acquisition_opportunity_id e, ev_idempotency_key e))
                      (db_events db));
}.

Lemma db_inv_empty : db_inv empty_db.
Proof. split; simpl; try (constructor || set_solver). all: intros *; by rewrite ?lookup_empty. Qed.

(** ** Streams of the event table *)

Lemma stream_app db e id :
  stream (mkdb (db_opportunities db) (db_events db ++ [e])) id
  = stream db id ++ (if decide (ev_acquisition_opportunity_id e = id) then [e] else []).
Proof.
  unfold stream. simpl. by rewrite filter_app.
Qed.

Lemma sorted_by_numbered (f : AcquisitionEvent -> Z) l m n :
  map f l = seqZ m n -> sorted_by (fun a b => f a <=? f b) l = l.
Proof.
  revert m n; induction l as [|e l IH]; intros m n H; [done|].
  destruct (decide (0 < n)) as [Hn|Hn].
  - rewrite (seqZ_cons m n) in H by done. simpl in H. injection H as He Hl.
    simpl. rewrite (IH _ _ Hl). destruct l as [|e' l]; [done|]. simpl.
    destruct (Z.leb_spec (f e) (f e')); [done|].
    destruct (decide (0 < Z.pred n)) as [Hn'|Hn'].
    + rewrite (seqZ_cons _ _ Hn') in Hl. simpl in Hl. injection Hl as He' _. lia.
    + rewrite (seqZ_nil _ (Z.pred n)) in Hl by lia. discriminate.
  - rewrite (seqZ_nil m n) in H by lia. discriminate.
Qed.

Lemma stream_event_ok db id e : db_inv db -> e ∈ stream db id -> event_ok e.
Proof.
  intros Hdb He. unfold stream in He. apply list_elem_of_filter in He as [_ He].
  pose proof (inv_events db Hdb) as Hall. rewrite Forall_forall in Hall. auto.
Qed.

Lemma list_events_stream db id row :
  db_inv db -> row_inv db id row -> _list_events db id = Ok (stream db id).
Proof.
  intros Hdb Hrow. unfold _list_events, event_leb.
  rewrite (sorted_by_numbered ev_stream_sequence _ _ _ (ri_sequence _ _ _ Hrow)).
  apply mapM_result_id, Forall_forall. intros e He.
  apply event_from_row_ok. by eapply stream_event_ok.
Qed.

Lemma get_opportunity_row db id row :
  db_inv db -> db_opportunities db !! id = Some row -> _get_opportunity db id = Ok row.
Proof.
  intros Hdb Hrow. unfold _get_opportunity. rewrite Hrow. simpl.
  apply projection_from_row_ok. by apply (inv_rows db Hdb id row).
Qed.

(** ** Statements *)

Lemma existsb_false_Forall {A} (f : A -> bool) l :
  existsb f l = false <-> Forall (fun x => f x = false) l.
Proof.
  induction l as [|x l IH]; simpl; [split; constructor|].
  rewrite orb_false_iff, IH. split; [intros []; by constructor | intros H; by inversion H].
Qed.

Lemma check_constraint_Ok name b u : check_constraint name b = Ok u <-> b = true.
Proof. unfold check_constraint. destruct u. by destruct b. Qed.

Lemma insert_event_Ok db e db' :
  insert_event db e = Ok db' ->
  exists row, _event_values e = Ok row
  /\ db' = mkdb (db_opportunities db) (db_events db ++ [row])
  /\ (ev_event_id row) ∉ map ev_event_id (db_events db)
  /\ (ev_acquisition_opportunity_id row, ev_idempotency_key row)
     ∉ map (fun f => (ev_acquisition_opportunity_id f, ev_idempotency_key f)) (db_events db)
  /\ is_Some (db_opportunities db !! ev_acquisition_opportunity_id row).
Proof.
  unfold insert_event. intros H. inv_result.
  repeat match goal with
  | E : check_constraint _ _ = Ok _ |- _ => apply check_constraint_Ok in E
  | E : negb _ = true |- _ => apply negb_true_iff, existsb_false_Forall in E
  end.
  rewrite !Forall_forall in *. exists v. split_and!; try done.
  - intros (f & Hf & Hin)%list_elem_of_fmap. specialize (Hv0 f Hin). simpl in Hv0.
    by rewrite bool_decide_eq_false in Hv0.
  - intros (f & [= Hid Hkey] & Hin)%list_elem_of_fmap. specialize (Hv2 f Hin). simpl in Hv2.
    by rewrite !bool_decide_eq_true_2 in Hv2 by done.
  - by destruct (db_opportunities db !! ev_acquisition_opportunity_id v).
Qed.

Lemma update_opportunity_Ok db id v o n db' :
  update_opportunity db id v o = Ok (n, db') -> n =? 1 = true ->
  exists row new, db_opportunities db !! id = Some row
  /\ match v with Some v => op_stream_version row = v | None => True end
  /\ _projection_values o = Ok new
  /\ (forall id' r, id' <> id -> db_opportunities db !! id' = Some r ->
      op_identity_key r <> op_identity_key new)
  /\ db' = mkdb (<[id := new]> (db_opportunities db)) (db_events db).
Proof.
  unfold update_opportunity. intros H Hn.
  destruct (db_opportunities db !! id) as [row|] eqn:Hrow; [|inv_result; done].
  destruct (match v with Some _ => _ | None => _ end) eqn:Hv; [|inv_result; done].
  inv_result. exists row, v0. split_and!; try done.
  - destruct v; [|done]. by apply Z.eqb_eq.
  - apply check_constraint_Ok, negb_true_iff, existsb_false_Forall in Hv1.
    rewrite Forall_forall in Hv1. intros id' r Hne Hr Heq.
    specialize (Hv1 (id', r)). rewrite elem_of_map_to_list in Hv1. specialize (Hv1 Hr).
    simpl in Hv1. by rewrite !bool_decide_eq_true_2 in Hv1 by done.
Qed.

Lemma seqZ_snoc m n : 0 <= n -> seqZ m (n + 1) = seqZ m n ++ [m + n].
Proof. intros Hn. rewrite seqZ_app by lia. done. Qed.

(** The stream of another opportunity does not change with a row or an
    event of this one. *)
Lemma row_inv_other db db' id row :
  stream db' id = stream db id -> row_inv db id row -> row_inv db' id row.
Proof. intros Hs []. constructor; rewrite ?Hs; done. Qed.

Lemma NoDup_snoc {A} (l : list A) x : NoDup l -> x ∉ l -> NoDup (l ++ [x]).
Proof.
  intros Hl Hx. apply NoDup_app. split_and!; [done | | apply NoDup_singleton].
  intros y Hy Hyx. apply list_elem_of_singleton in Hyx. by subst.
Qed.

Lemma stream_insert db id new f id' :
  stream (mkdb (<[id := new]> (db_opportunities db)) (db_events db ++ [f])) id'
  = stream db id' ++ (if decide (ev_acquisition_opportunity_id f = id') then [f] else []).
Proof. apply (stream_app db f id'). Qed.

(** The write of an event and of the projection that follows it: what
    [reduce_event] made of the row, and what the columns keep of both. *)
Record accepted (row : AcquisitionOpportunity) (e : AcquisitionEvent)
    (next new : AcquisitionOpportunity) (f : AcquisitionEvent) : Prop := {
  ac_event : event_ok e;
  ac_category : ev_event_type e = RETRY_SCHEDULED ->
    canonical_error_category (ev_payload e) = true;
  ac_reduce : reduce_event (Some row) e = Ok next;
  ac_projection : _projection_values next = Ok new;
  ac_row : _event_values e = Ok f;
}.

Lemma accepted_row_inv db row e next new f :
  let id := op_acquisition_opportunity_id row in
  row_inv db id row -> accepted row e next new f ->
  row_inv (mkdb (<[id := new]> (db_opportunities db)) (db_events db ++ [f])) id new.
Proof.
  intros id [Hrid Hrok Hscale Hseq (p & Hp & Hrp)] [He Hcat Hred Hnew Hf].
  assert (Hnext : opp_ok next)
    by (eapply reduce_event_ok; [|done..]; intros ? [= ->]; done).
  pose proof (projection_values_rel next new Hnext Hnew) as [Hrel Hnscale].
  pose proof (event_values_rel e f He Hf) as (Her & Hfok & _).
  pose proof (reduce_event_common _ _ _ Hred) as Hc.
  pose proof (reduce_event_rel stored_amount row p e f (at_scale_rel row p Hscale Hrp) Her) as Hstep.
  rewrite Hred in Hstep. destruct (reduce_event (Some p) f) as [p'|] eqn:Hp'; [|done].
  apply reduce_event_Some in Hred as (_ & Hid & Hnum & _).
  assert (Hfid : ev_acquisition_opportunity_id f = id) by (rewrite (er_opportunity _ _ _ Her); done).
  constructor; try done.
  - rewrite (or_id _ _ _ Hrel). apply (cs_id _ _ _ Hc).
  - by apply (opp_ok_rel stored_amount next).
  - rewrite stream_insert, decide_True by done. rewrite map_app, Hseq. simpl.
    rewrite (or_version _ _ _ Hrel), (cs_version _ _ _ Hc), seqZ_snoc
      by (pose proof (ok_version _ Hrok); lia).
    do 2 f_equal. rewrite (er_sequence _ _ _ Her). lia.
  - exists p'. rewrite stream_insert, decide_True by done. split.
    + by rewrite (replay_snoc _ p).
    + by eapply rel_stored_equiv.
Qed.

(** Writing the successor of a row with its event keeps the invariant. *)
Lemma write_inv db id row e next new f :
  db_inv db -> db_opportunities db !! id = Some row -> accepted row e next new f ->
  (ev_event_id f) ∉ map ev_event_id (db_events db) ->
  (ev_acquisition_opportunity_id f, ev_idempotency_key f)
    ∉ map (fun f => (ev_acquisition_opportunity_id f, ev_idempotency_key f)) (db_events db) ->
  (forall id' r, id' <> id -> db_opportunities db !! id' = Some r ->
      op_identity_key r <> op_identity_key new) ->
  db_inv (mkdb (<[id := new]> (db_opportunities db)) (db_events db ++ [f])).
Proof.
  intros Hdb Hrow Hacc Hpk Hkey Hident.
  pose proof (inv_rows db Hdb id row Hrow) as Hri. pose proof (ri_id _ _ _ Hri) as <-.
  pose proof (accepted_row_inv db row e next new f Hri Hacc) as Hnew.
  destruct Hacc as [He _ Hred _ Hf].
  pose proof (event_values_rel e f He Hf) as (Her & Hfok & _).
  apply reduce_event_Some in Hred as (_ & Hid & _).
  rewrite <- (er_opportunity _ _ _ Her) in Hid.
  constructor; simpl.
  - intros id' row' Hrow'. apply lookup_insert_Some in Hrow' as [[<- <-]|[Hne Hrow']]; [done|].
    apply (row_inv_other db); [|by apply (inv_rows db Hdb)].
    rewrite stream_insert, decide_False by congruence. by rewrite app_nil_r.
  - apply Forall_app. split; [apply (inv_events db Hdb) | by constructor].
  - intros e' He'. apply lookup_insert_is_Some'.
    apply elem_of_app in He' as [He'|He'].
    + right. by apply (inv_owned db Hdb).
    + apply list_elem_of_singleton in He' as ->. by left.
  - intros id1 r1 id2 r2 H1 H2 Heq.
    apply lookup_insert_Some in H1 as [[<- <-]|[? H1]], H2 as [[<- <-]|[? H2]]; try done.
    + by destruct (Hident id2 r2 ltac:(done) H2).
    + by destruct (Hident id1 r1 ltac:(done) H1).
    + by eapply (inv_identity db Hdb).
  - rewrite map_app. apply NoDup_snoc; [apply (inv_event_ids db Hdb) | done].
  - rewrite map_app. apply NoDup_snoc; [apply (inv_keys db Hdb) | done].
Qed.

(** ** The operations *)

(** A retry names an error category that fits its column as it is. *)
Definition canonical_request (r : append_request) : Prop :=
  rq_event_type r = RETRY_SCHEDULED -> canonical_error_category (rq_payload r) = true.

Lemma build_event_Ok env id n fp r e :
  build_event env id n fp r = Ok e ->
  event_ok e /\ ev_event_type e = rq_event_type r /\ ev_payload e = rq_payload r
  /\ ev_stream_sequence e = n
  /\ ev_idempotency_key e = strip (rq_idempotency_key r)
  /\ ev_semantic_fingerprint e = strip fp
  /\ ev_state_machine_version e = STATE_MACHINE_VERSION
  /\ ev_acquisition_opportunity_id e = strip id.
Proof.
  unfold build_event. intros H. split.
  { apply event_validate_id. by eapply event_validate_idem. }
  unfold event_validate in H. inv_result.
  cbn -[Identifier ShortCode StableRef Fingerprint constr checked short_codes opt_mapM] in *.
  repeat match goal with E : checked _ _ _ = Ok _ |- _ => apply checked_Ok in E as [? ->] end.
  unfold Fingerprint, matching, Identifier in *. inv_result.
  repeat match goal with E : constr _ _ _ _ = Ok _ |- _ => apply constr_Ok in E as [-> _] end.
  split_and!; try done.
  match goal with E : ShortCode _ _ = Ok _ |- _ => apply constr_Ok in E as [-> _] end. done.
Qed.

Lemma append_read_write_Ok env db id r next e :
  db_inv db -> append_read env db id r = Ok (PlanWrite next e) ->
  exists row fp, db_opportunities db !! id = Some row
  /\ op_stream_version row = rq_expected_version r
  /\ _fingerprint (_semantic_input r) = Ok fp
  /\ build_event env id (rq_expected_version r + 1) fp r = Ok e
  /\ reduce_event (Some row) e = Ok next
  /\ select_by_key db id (rq_idempotency_key r) = None.
Proof.
  intros Hdb H. unfold append_read in H. inv_result.
  assert (exists row, db_opportunities db !! id = Some row) as [row Hrow].
  { unfold _get_opportunity in *. inv_result. eauto. }
  rewrite (get_opportunity_row _ _ _ Hdb Hrow) in Hv0. injection Hv0 as <-.
  destruct (select_by_key _ _ _) eqn:Hk; inv_result; try discriminate.
  exists row, v. split_and!; try done. by apply Z.eqb_eq.
Qed.

Lemma append_write_Ok db id v next e m db' :
  append_write db id v (PlanWrite next e) = Ok (m, db') ->
  exists row new f, db_opportunities db !! id = Some row /\ op_stream_version row = v
  /\ _projection_values next = Ok new /\ _event_values e = Ok f
  /\ (forall id' r, id' <> id -> db_opportunities db !! id' = Some r ->
      op_identity_key r <> op_identity_key new)
  /\ (ev_event_id f) ∉ map ev_event_id (db_events db)
  /\ (ev_acquisition_opportunity_id f, ev_idempotency_key f)
     ∉ map (fun f => (ev_acquisition_opportunity_id f, ev_idempotency_key f)) (db_events db)
  /\ m = mkMutation next e false
  /\ db' = mkdb (<[id := new]> (db_opportunities db)) (db_events db ++ [f]).
Proof.
  unfold append_write. intros H. apply result_bind_Ok in H as ([n db1] & Hu & H). inv_result.
  apply update_opportunity_Ok in Hu as (row & new & Hrow & Hver & Hnew & Hident & ->); [|done].
  apply insert_event_Ok in Hv as (f & Hf & -> & Hpk & Hkey & _).
  exists row, new, f. done.
Qed.

Lemma accepted_build env row v fp r e next new f :
  canonical_request r -> build_event env (op_acquisition_opportunity_id row) v fp r = Ok e ->
  reduce_event (Some row) e = Ok next -> _projection_values next = Ok new ->
  _event_values e = Ok f -> accepted row e next new f.
Proof.
  intros Hcan Hb Hred Hnew Hf. apply build_event_Ok in Hb as (He & Ht & Hp & _).
  constructor; try done. rewrite Ht, Hp. exact Hcan.
Qed.

Lemma append_inv env db id r m db' :
  db_inv db -> canonical_request r ->
  append_in_transaction env db id r = Ok (m, db') -> db_inv db'.
Proof.
  intros Hdb Hcan H. unfold append_in_transaction in H. inv_result.
  destruct v as [m0|next e]; simpl in H; [inv_result; by simplify_eq|].
  apply append_read_write_Ok in Hv as (row & fp & Hrow & Hver & _ & Hb & Hred & _); [|done].
  apply append_write_Ok in H as (row' & new & f & Hrow' & _ & Hnew & Hf & Hident & Hpk & Hkey & _ & ->).
  rewrite Hrow in Hrow'. injection Hrow' as <-.
  pose proof (ri_id _ _ _ (inv_rows _ Hdb _ _ Hrow)) as Hid.
  eapply write_inv; try done. rewrite <- Hid in Hb. by eapply accepted_build.
Qed.

Lemma created_id e o :
  event_ok e -> reduce_event None e = Ok o ->
  op_acquisition_opportunity_id o = ev_acquisition_opportunity_id e
  /\ op_stream_version o = 1 /\ ev_stream_sequence e = 1 /\ opp_ok o.
Proof.
  intros He H. assert (Hok : opp_ok o).
  { eapply reduce_event_ok; [| done | | done]; [done|].
    apply reduce_event_None in H as (_ & -> & _). done. }
  apply reduce_event_None in H as (_ & Ht & H). unfold _created in H. inv_all.
  unfold opportunity_validate in H. inv_result.
  cbn -[Identifier ShortCode StableRef checked short_codes opt_mapM] in *.
  repeat match goal with E : checked _ _ _ = Ok _ |- _ => apply checked_Ok in E as [? ->] end.
  pose proof (eok_opportunity e He). split_and!; [congruence | done | lia | done].
Qed.

(** Inserting a new opportunity with its creation event keeps the
    invariant. *)
Lemma create_write_inv db e o row f :
  let id := op_acquisition_opportunity_id row in
  db_inv db -> event_ok e -> reduce_event None e = Ok o ->
  _projection_values o = Ok row -> _event_values e = Ok f ->
  db_opportunities db !! id = None ->
  (forall id' r, db_opportunities db !! id' = Some r -> op_identity_key r <> op_identity_key row) ->
  (ev_event_id f) ∉ map ev_event_id (db_events db) ->
  (ev_acquisition_opportunity_id f, ev_idempotency_key f)
    ∉ map (fun f => (ev_acquisition_opportunity_id f, ev_idempotency_key f)) (db_events db) ->
  db_inv (mkdb (<[id := row]> (db_opportunities db)) (db_events db ++ [f])).
Proof.
  intros id Hdb He Hred Hrow Hf Hnone Hident Hpk Hkey.
  pose proof (created_id e o He Hred) as (Hid & Hver & Hseq & Hok).
  pose proof (projection_values_rel o row Hok Hrow) as [Hrel Hscale].
  pose proof (event_values_rel e f He Hf) as (Her & Hfok & _).
  assert (Hfid : ev_acquisition_opportunity_id f = id).
  { unfold id. rewrite (er_opportunity _ _ _ Her), (or_id _ _ _ Hrel). congruence. }
  assert (Hempty : stream db id = []).
  { apply elem_of_nil_inv. intros x Hx. apply list_elem_of_filter in Hx as [Heq Hx].
    pose proof (inv_owned db Hdb x Hx) as [r Hr]. by rewrite Heq, Hnone in Hr. }
  constructor; simpl.
  - intros id' row' Hrow'. apply lookup_insert_Some in Hrow' as [[<- <-]|[Hne Hrow']].
    + constructor; try done; [by apply (opp_ok_rel stored_amount o) | ..];
        rewrite stream_insert, decide_True, Hempty by done.
      * simpl. by rewrite (er_sequence _ _ _ Her), Hseq, (or_version _ _ _ Hrel), Hver.
      * apply (created_rel stored_amount e f) in Hred as (p & Hp & Hop); [|done].
        exists p. rewrite app_nil_l, replay_singleton. split; [done | by eapply rel_stored_equiv].
    + apply (row_inv_other db); [|by apply (inv_rows db Hdb)].
      rewrite stream_insert, decide_False by congruence. by rewrite app_nil_r.
  - apply Forall_app. split; [apply (inv_events db Hdb) | by constructor].
  - intros e' He'. apply lookup_insert_is_Some'. apply elem_of_app in He' as [He'|He'].
    + right. by apply (inv_owned db Hdb).
    + apply list_elem_of_singleton in He' as ->. by left.
  - intros id1 r1 id2 r2 H1 H2 Heq.
    apply lookup_insert_Some in H1 as [[<- <-]|[? H1]], H2 as [[<- <-]|[? H2]]; try done.
    + by destruct (Hident id2 r2 H2).
    + by destruct (Hident id1 r1 H1).
    + by eapply (inv_identity db Hdb).
  - rewrite map_app. apply NoDup_snoc; [apply (inv_event_ids db Hdb) | done].
  - rewrite map_app. apply NoDup_snoc; [apply (inv_keys db Hdb) | done].
Qed.

Lemma insert_if_absent_true db o db' :
  _insert_opportunity_if_absent db o = Ok (true, db') ->
  exists row, _projection_values o = Ok row
  /\ db_opportunities db !! op_acquisition_opportunity_id row = None
  /\ (forall id' r, db_opportunities db !! id' = Some r -> op_identity_key r <> op_identity_key row)
  /\ db' = mkdb (<[op_acquisition_opportunity_id row := row]> (db_opportunities db)) (db_events db).
Proof.
  unfold _insert_opportunity_if_absent. intros H. inv_result.
  destruct (existsb _ _) eqn:E; inv_result; [discriminate|]. simplify_eq.
  exists v. split_and!; try done.
  - apply check_constraint_Ok, negb_true_iff in Hv0.
    by destruct (db_opportunities db !! op_acquisition_opportunity_id v).
  - apply existsb_false_Forall in E. rewrite Forall_forall in E.
    intros id' r Hr Heq. specialize (E r). rewrite bool_decide_eq_true_2 in E by done.
    enough (true = false) by done. apply E, list_elem_of_fmap.
    exists (id', r). by rewrite elem_of_map_to_list.
Qed.

Lemma create_inv env db c m db' :
  db_inv db -> create_opportunity_in_transaction env db c = Ok (m, db') -> db_inv db'.
Proof.
  intros Hdb H. unfold create_opportunity_in_transaction in H. inv_result.
  destruct v0 as [existing|]; [inv_result; by simplify_eq|].
  apply result_bind_Ok in H as (e & Hb & H). apply result_bind_Ok in H as (o & Ho & H).
  apply result_bind_Ok in H as ([[] db1] & Hi & H).
  - inv_result. simplify_eq. apply build_event_Ok in Hb as (He & _).
    apply insert_if_absent_true in Hi as (row & Hrow & Hnone & Hident & ->).
    match goal with E : insert_event _ _ = Ok _ |- _ =>
      apply insert_event_Ok in E as (f & Hf & -> & Hpk & Hkey & _) end.
    by apply (create_write_inv db e o row f).
  - inv_result. simplify_eq. unfold _insert_opportunity_if_absent in Hi. inv_result.
    destruct (existsb _ _); inv_result; by simplify_eq.
Qed.

(** A rebuilt projection is written back equal to the row up to time
    zones. *)
Lemma rebuild_row_inv db id row p new :
  row_inv db id row -> replay (stream db id) = Ok p -> _projection_values p = Ok new ->
  row_inv (mkdb (<[id := new]> (db_opportunities db)) (db_events db)) id new
  /\ op_identity_key new = op_identity_key row.
Proof.
  intros [Hid Hok Hscale Hseq (p' & Hp' & Hrp)] Hp Hnew.
  rewrite Hp in Hp'. injection Hp' as <-.
  assert (Hpok : opp_ok p) by (by eapply opp_ok_equiv).
  pose proof (projection_values_rel p new Hpok Hnew) as [Hrel Hnscale].
  assert (Hnp : new ≡ p).
  { eapply rel_stored_equiv; [exact Hrel|]. apply at_scale_rel; [|done].
    destruct Hscale as [Hc Hk].
    pose proof (or_confidence _ _ _ Hrp) as Hc'. pose proof (or_cost _ _ _ Hrp) as Hk'.
    simpl in *. split.
    - destruct Hc'; [by subst | done].
    - destruct Hk'; [by subst | done]. }
  split; [constructor; try done|].
  - rewrite (or_id _ _ _ Hrel), (or_id _ _ _ Hrp). done.
  - by apply (opp_ok_rel stored_amount p).
  - unfold stream in *. simpl. rewrite Hseq, (or_version _ _ _ Hrel), (or_version _ _ _ Hrp). done.
  - exists p. split; done.
  - rewrite (or_identity _ _ _ Hrel), (or_identity _ _ _ Hrp). done.
Qed.

Lemma rebuild_inv db id p db' :
  db_inv db -> rebuild_projection db id = Ok (p, db') ->
  db_inv db' /\ db_events db' = db_events db.
Proof.
  intros Hdb H. unfold rebuild_projection in H.
  apply result_bind_Ok in H as (row & Hrow & H). apply option_to_result_Ok in Hrow.
  pose proof (inv_rows db Hdb id row Hrow) as Hri.
  rewrite (list_events_stream db id row Hdb Hri) in H. simpl in H.
  apply result_bind_Ok in H as (p0 & Hp & H). apply result_bind_Ok in H as ([n db1] & Hu & H).
  inv_result. simplify_eq.
  assert (Hn : n =? 1 = true).
  { unfold update_opportunity in Hu. rewrite Hrow in Hu. inv_result. by simplify_eq. }
  apply update_opportunity_Ok in Hu as (row' & new & Hrow' & _ & Hnew & Hident & ->); [|done].
  pose proof (rebuild_row_inv db id row p new Hri Hp Hnew) as [Hnri Hkey].
  split; [|done]. constructor; simpl; try apply Hdb.
  - intros id' r Hr. apply lookup_insert_Some in Hr as [[<- <-]|[Hne Hr]]; [done|].
    apply (row_inv_other db); [done | by apply (inv_rows db Hdb)].
  - intros e He. apply lookup_insert_is_Some'. right. by apply (inv_owned db Hdb).
  - intros id1 r1 id2 r2 H1 H2 Heq.
    apply lookup_insert_Some in H1 as [[<- <-]|[? H1]], H2 as [[<- <-]|[? H2]]; try done.
    + by destruct (Hident id2 r2 ltac:(done) H2).
    + by destruct (Hident id1 r1 ltac:(done) H1).
    + by eapply (inv_identity db Hdb).
Qed.

(** The projection read equals the one rebuilt from the stream. *)
Lemma verify_projection_inv db id row :
  db_inv db -> db_opportunities db !! id = Some row -> verify_projection db id = Ok MATCH.
Proof.
  intros Hdb Hrow. pose proof (inv_rows db Hdb id row Hrow) as Hri.
  unfold verify_projection. rewrite (get_opportunity_row _ _ _ Hdb Hrow). cbn [result_bind].
  rewrite (list_events_stream db id row Hdb Hri). cbn [result_bind].
  destruct (ri_replay _ _ _ Hri) as (p & Hp & Hrp). rewrite Hp. cbn [result_bind].
  by rewrite opportunity_eqb_equiv.
Qed.

(** ** Sequences of calls *)

(** A call of the store's interface; every public operation that records an
    event is an append. *)
Inductive store_call : Type :=
| CallCreate (c : create_request)
| CallAppend (opportunity_id : string) (r : append_request)
| CallRebuild (opportunity_id : string).

Definition call_canonical (c : store_call) : Prop :=
  match c with CallAppend _ r => canonical_request r | _ => True end.

(** The tables after a call, unchanged when it raises. *)
Definition exec (db : acq_db) (call : store_env * store_call) : acq_db :=
  let keep {A} (r : result (A * acq_db)) := match r with Ok (_, db') => db' | Raise _ => db end in
  match call.2 with
  | CallCreate c => keep (create_opportunity call.1 db c)
  | CallAppend id r => keep (_append call.1 db id r)
  | CallRebuild id => keep (rebuild_projection db id)
  end.

Definition run (db : acq_db) (calls : list (store_env * store_call)) : acq_db :=
  foldl exec db calls.

Lemma exec_inv db call : db_inv db -> call_canonical call.2 -> db_inv (exec db call).
Proof.
  destruct call as [env [c|id r|id]]; intros Hdb Hcan; unfold exec; simpl in *.
  - destruct (create_opportunity env db c) as [[m db']|] eqn:E; [|done]. by eapply create_inv.
  - destruct (_append env db id r) as [[m db']|] eqn:E; [|done]. by eapply append_inv.
  - destruct (rebuild_projection db id) as [[m db']|] eqn:E; [|done].
    by apply rebuild_inv in E as [? _].
Qed.

Lemma run_inv db calls :
  db_inv db -> Forall (fun c => call_canonical c.2) calls -> db_inv (run db calls).
Proof.
  intros Hdb Hall. revert db Hdb. induction Hall as [|c calls Hc _ IH]; intros db Hdb; [done|].
  apply IH. by apply exec_inv.
Qed.
End invariant.

(** * The event table only grows *)

Section growth.
Context `{Hash : HashLib} `{DB : Database}.

Lemma fingerprint_strip j fp : _fingerprint j = Ok fp -> strip fp = fp.
Proof.
  unfold _fingerprint, json_sha256. intros H. inv_result.
  apply is_fingerprint_strip, sha256_is_fingerprint.
Qed.

Definition rebuilds (c : store_call) : bool :=
  match c with CallRebuild _ => true | _ => false end.

(** What a call does to the tables: nothing, an event of one stream appended
    with the next version of its row, a new row with its first event, or a
    rebuilt row. *)
Inductive db_change (db : acq_db) : acq_db -> Prop :=
| change_none : db_change db db
| change_append id row new f :
    db_opportunities db !! id = Some row -> op_stream_version row < op_stream_version new ->
    ev_acquisition_opportunity_id f = id ->
    db_change db (mkdb (<[id := new]> (db_opportunities db)) (db_events db ++ [f]))
| change_create id new f :
    db_opportunities db !! id = None -> ev_acquisition_opportunity_id f = id ->
    db_change db (mkdb (<[id := new]> (db_opportunities db)) (db_events db ++ [f])).

Lemma append_change env db id r m db' :
  db_inv db -> canonical_request r -> _append env db id r = Ok (m, db') -> db_change db db'.
Proof.
  intros Hdb Hcan H. unfold _append, append_in_transaction in H. inv_result.
  destruct v as [m0|next e]; simpl in H; [inv_result; simplify_eq; constructor|].
  apply append_read_write_Ok in Hv as (row & fp & Hrow & _ & _ & Hb & Hred & _); [|done].
  apply append_write_Ok in H as (row' & new & f & Hrow' & _ & Hnew & Hf & _ & _ & _ & _ & ->).
  rewrite Hrow in Hrow'. injection Hrow' as <-.
  pose proof (inv_rows db Hdb id row Hrow) as Hri. pose proof (ri_id _ _ _ Hri) as Hid.
  rewrite <- Hid in Hb.
  pose proof (accepted_build env row _ fp r e next new f Hcan Hb Hred Hnew Hf) as Hacc.
  rewrite <- Hid in *.
  destruct Hacc as [He Hcat _ _ _].
  pose proof (event_values_rel e f He Hf) as (Her & _).
  assert (Hnext : opp_ok next)
    by (eapply reduce_event_ok; [|done..]; intros ? [= ->]; apply Hri).
  pose proof (projection_values_rel next new Hnext Hnew) as [Hrel _].
  eapply change_append; [done | |].
  - rewrite (or_version _ _ _ Hrel), (cs_version _ _ _ (reduce_event_common _ _ _ Hred)). lia.
  - rewrite (er_opportunity _ _ _ Her). by apply reduce_event_Some in Hred as (_ & -> & _).
Qed.

Lemma create_change env db c m db' :
  create_opportunity env db c = Ok (m, db') -> db_change db db'.
Proof.
  intros H. unfold create_opportunity, create_opportunity_in_transaction in H. inv_result.
  destruct v0 as [existing|]; [inv_result; simplify_eq; constructor|].
  apply result_bind_Ok in H as (e & Hb & H). apply result_bind_Ok in H as (o & Ho & H).
  apply result_bind_Ok in H as ([[] db1] & Hi & H).
  - inv_result. simplify_eq. apply build_event_Ok in Hb as (He & _).
    apply insert_if_absent_true in Hi as (row & Hrow & Hnone & _ & ->).
    match goal with E : insert_event _ _ = Ok _ |- _ =>
      apply insert_event_Ok in E as (f & Hf & -> & _) end.
    pose proof (created_id e o He Ho) as (Hid & _ & _ & Hok).
    pose proof (projection_values_rel o row Hok Hrow) as [Hrel _].
    pose proof (event_values_rel e f He Hf) as (Her & _).
    apply (change_create db (op_acquisition_opportunity_id row) row f); [done|].
    rewrite (er_opportunity _ _ _ Her), (or_id _ _ _ Hrel). done.
  - inv_result. simplify_eq. unfold _insert_opportunity_if_absent in Hi. inv_result.
    destruct (existsb _ _); inv_result; simplify_eq. constructor.
Qed.

Lemma exec_change db call :
  db_inv db -> call_canonical call.2 -> rebuilds call.2 = false -> db_change db (exec db call).
Proof.
  destruct call as [env [c|id r|id]]; intros Hdb Hcan Hre; unfold exec; simpl in *.
  - destruct (create_opportunity env db c) as [[m db']|] eqn:E; [|constructor].
    by eapply create_change.
  - destruct (_append env db id r) as [[m db']|] eqn:E; [|constructor]. by eapply append_change.
  - done.
Qed.

Lemma exec_events db call :
  db_inv db -> call_canonical call.2 ->
  exists l, db_events (exec db call) = db_events db ++ l.
Proof.
  intros Hdb Hcan. destruct (rebuilds call.2) eqn:Hre.
  - exists []. rewrite app_nil_r. destruct call as [env [c|id r|id]]; try done.
    unfold exec. simpl. destruct (rebuild_projection db id) as [[p db']|] eqn:E; [|done].
    by apply rebuild_inv in E as [_ ?].
  - destruct (exec_change db call Hdb Hcan Hre); simpl;
      [exists []; by rewrite app_nil_r | eauto | eauto].
Qed.

Lemma run_events db calls :
  db_inv db -> Forall (fun c => call_canonical c.2) calls ->
  exists l, db_events (run db calls) = db_events db ++ l.
Proof.
  intros Hdb Hall. revert db Hdb. induction Hall as [|c calls Hc _ IH]; intros db Hdb.
  - exists []. by rewrite app_nil_r.
  - destruct (IH (exec db c)) as [l Hl]; [by apply exec_inv|].
    destruct (exec_events db c Hdb Hc) as [l' Hl']. exists (l' ++ l).
    simpl. rewrite Hl, Hl'. by rewrite app_assoc.
Qed.

(** A stream is either left alone with its row or moves to a later
    version. *)
Definition frozen_or_later (db db' : acq_db) (id : string) : Prop :=
  forall row, db_opportunities db !! id = Some row ->
  exists row', db_opportunities db' !! id = Some row'
  /\ ((row' = row /\ stream db' id = stream db id)
      \/ op_stream_version row < op_stream_version row').

Lemma change_frozen db db' id : db_change db db' -> frozen_or_later db db' id.
Proof.
  intros [|id' row' new f Hrow' Hlt Hid|id' new f Hnone Hid] row Hrow.
  - eauto.
  - destruct (decide (id' = id)) as [->|Hne]; simpl.
    + exists new. rewrite lookup_insert_eq. split; [done|]. right. by simplify_eq.
    + exists row. rewrite lookup_insert_ne by done. split; [done|]. left. split; [done|].
      rewrite stream_insert, decide_False by congruence. by rewrite app_nil_r.
  - destruct (decide (id' = id)) as [->|Hne]; simpl; [congruence|].
    exists row. rewrite lookup_insert_ne by done. split; [done|]. left. split; [done|].
    rewrite stream_insert, decide_False by congruence. by rewrite app_nil_r.
Qed.

Lemma run_frozen db calls id :
  db_inv db -> Forall (fun c => call_canonical c.2 /\ rebuilds c.2 = false) calls ->
  frozen_or_later db (run db calls) id.
Proof.
  intros Hdb Hall. revert db Hdb.
  induction Hall as [|c calls [Hc Hre] _ IH]; intros db Hdb row Hrow; [eauto|].
  pose proof (change_frozen _ _ id (exec_change db c Hdb Hc Hre) row Hrow)
    as (row1 & Hrow1 & Hcase1).
  destruct (IH (exec db c) (exec_inv _ _ Hdb Hc) row1 Hrow1) as (row2 & Hrow2 & Hcase2).
  exists row2. split; [done|].
  destruct Hcase1 as [[-> Hs1]|Hlt1], Hcase2 as [[-> Hs2]|Hlt2];
    [left; split; [done | by etrans] | right; lia..].
Qed.

(** The lookup by idempotency key sees only the stream. *)
Lemma select_by_key_stream db id key :
  select_by_key db id key
  = first_match (fun e => bool_decide (ev_idempotency_key e = key)) (stream db id).
Proof.
  unfold select_by_key, stream, first_match. induction (db_events db) as [|e l IH]; [done|].
  simpl. rewrite filter_cons. destruct (decide (ev_acquisition_opportunity_id e = id)) as [He|He].
  - rewrite bool_decide_eq_true_2 by done. simpl. by rewrite IH.
  - rewrite bool_decide_eq_false_2 by done. simpl. done.
Qed.

Lemma append_read_frozen env db db' id r row :
  db_inv db -> db_inv db' -> db_opportunities db !! id = Some row ->
  db_opportunities db' !! id = Some row -> stream db' id = stream db id ->
  append_read env db' id r = append_read env db id r.
Proof.
  intros Hdb Hdb' Hrow Hrow' Hs. unfold append_read.
  rewrite !(get_opportunity_row _ id row) by done.
  by rewrite !select_by_key_stream, Hs.
Qed.

(** A call that was not a replay, opened. *)
Lemma append_fresh env db id r m db' :
  db_inv db -> _append env db id r = Ok (m, db') -> mr_replayed m = false ->
  exists row fp next e new f,
    db_opportunities db !! id = Some row
    /\ build_event env id (rq_expected_version r + 1) fp r = Ok e
    /\ reduce_event (Some row) e = Ok next
    /\ _projection_values next = Ok new /\ _event_values e = Ok f
    /\ m = mkMutation next e false
    /\ db' = mkdb (<[id := new]> (db_opportunities db)) (db_events db ++ [f]).
Proof.
  intros Hdb H Hm. unfold _append, append_in_transaction in H. inv_result.
  destruct v as [m0|next e].
  - simpl in H. injection H as -> ->. unfold append_read in Hv. inv_result.
    destruct (select_by_key db' id (rq_idempotency_key r)); inv_result; [|discriminate].
    by simplify_eq.
  - apply append_read_write_Ok in Hv as (row & fp & Hrow & _ & _ & Hb & Hred & _); [|done].
    apply append_write_Ok in H as (row' & new & f & Hrow' & _ & Hnew & Hf & _ & _ & _ & -> & ->).
    rewrite Hrow in Hrow'. injection Hrow' as <-. eauto 15.
Qed.
End growth.
