(* ===== verification/AcquisitionTheorems.v ===== *)
(** AcquisitionTheorems: the correctness properties of the acquisition
    engine, over arbitrary streams of events and arbitrary sequences of
    store calls, with the concrete runs that show their hypotheses hold. *)

From S2P Require Import Prelude PyStr PyDatetime PyDatetimeFacts PyDecimal PyJson Database.
From S2P Require Import AcquisitionContracts AcquisitionStateMachine AcquisitionStateFacts.
From S2P Require Import AcquisitionEquiv AcquisitionStore AcquisitionStoreFacts.

Local Open Scope string_scope.
Local Open Scope Z_scope.
Local Open Scope list_scope.

(** * A concrete run *)

Module Sample.
Definition t0 : datetime := mkdt 2026 3 1 9 0 0 0 (Some 0).
Definition t1 : datetime := mkdt 2026 3 2 18 30 0 250000 (Some (2 * 3600 * 1000000)).

Definition env (n : Z) : store_env := mkenv t0 ("evt-" +:+ str_int n) "opp-1".

Definition request (t : EventType) (version : Z) (key : string) (payload : dict)
    (reasons evidence : list string) : append_request :=
  mkRequest t version key payload SYSTEM None reasons evidence None None None None None None
    None None.

Definition create : create_request :=
  mkCreate "identity-1" "signal-1" (Some "supplier-1") None None
    (request OPPORTUNITY_CREATED 0 "create-1" [] [] []).

Definition enrich : append_request :=
  request STATE_TRANSITIONED 1 "k-enrich" [("target_state", JStr "ENRICHING")] [] [].
Definition ready : append_request :=
  request STATE_TRANSITIONED 2 "k-ready" [("target_state", JStr "READY_FOR_DECISION")] [] [].
Definition hold : append_request :=
  request DECISION_RECORDED 3 "k-hold"
    [("decision", JStr "HOLD"); ("next_review_at", JStr (isoformat t1))] ["TOO_EARLY"] ["ev-1"].
Definition retry : append_request :=
  request RETRY_SCHEDULED 4 "k-retry"
    [("retry_at", JStr (isoformat t1)); ("error_category", JStr "provider_timeout")] [] [].

Definition calls : list (store_env * store_call) :=
  [(env 1, CallCreate create); (env 2, CallAppend "opp-1" enrich);
   (env 3, CallAppend "opp-1" ready); (env 4, CallAppend "opp-1" hold);
   (env 5, CallAppend "opp-1" retry); (env 6, CallRebuild "opp-1")].

#[export] Existing Instance LengthHash.
#[export] Existing Instance ExactDatabase.

Definition final : acq_db := run empty_db calls.

Lemma calls_canonical : Forall (fun c => call_canonical c.2) calls.
Proof. repeat constructor; try done. Qed.

Definition row : AcquisitionOpportunity :=
  mkOpp "opp-1" "identity-1" HOLD 5 STATE_MACHINE_VERSION "signal-1" (Some "supplier-1") None None
    (Some D_HOLD) ["TOO_EARLY"] None ["ev-1"] None (Some t1) 1 (Some t1) (Some "provider_timeout")
    None None None None "evt-5" t0 t0.

Lemma final_row : db_opportunities final !! "opp-1" = Some row.
Proof. vm_compute. reflexivity. Qed.

Lemma final_inv : db_inv final.
Proof. apply run_inv; [apply db_inv_empty | apply calls_canonical]. Qed.
End Sample.

(** * The store *)

Section store.
Context `{Hash : HashLib} `{DB : Database}.

(** C1 (refinement).  After any sequence of creations, appends and rebuilds
    whose retries name a stripped error category of at most a hundred
    characters, the projection stored for an opportunity equals, for
    Python's [==], the fold of its stored events: [verify_projection]
    answers MATCH. *)
Theorem projection_always_matches (calls : list (store_env * store_call)) (id : string) :
  Forall (fun c => call_canonical c.2) calls ->
  is_Some (db_opportunities (run empty_db calls) !! id) ->
  verify_projection (run empty_db calls) id = Ok MATCH.
Proof.
  intros Hall [row Hrow]. eapply verify_projection_inv; [|done].
  apply run_inv; [apply db_inv_empty | done].
Qed.

(** C33 (invariant).  After any such sequence of calls, the events listed for
    an opportunity are numbered 1, 2, 3, ... without gap or repetition, up
    to the version of its projection, and the projection read back satisfies
    every bound of its contract. *)
Theorem stream_is_gapless (calls : list (store_env * store_call)) (id : string)
    (row : AcquisitionOpportunity) :
  Forall (fun c => call_canonical c.2) calls ->
  get_opportunity (run empty_db calls) id = Ok row ->
  opp_ok row /\
  exists events, list_events (run empty_db calls) id = Ok events
  /\ map ev_stream_sequence events = seqZ 1 (op_stream_version row).
Proof.
  intros Hall Hget. assert (Hdb : db_inv (run empty_db calls))
    by (apply run_inv; [apply db_inv_empty | done]).
  unfold get_opportunity in Hget. destruct (db_opportunities (run empty_db calls) !! id) as [r|] eqn:Hr.
  - rewrite (get_opportunity_row _ _ _ Hdb Hr) in Hget. injection Hget as ->.
    pose proof (inv_rows _ Hdb _ _ Hr) as Hri. split; [apply Hri|].
    exists (stream (run empty_db calls) id). split; [by eapply list_events_stream | apply Hri].
  - unfold _get_opportunity in Hget. by rewrite Hr in Hget.
Qed.

(** What an append leaves in the tables under its key. *)
Lemma append_recorded env db id r m db1 :
  db_inv db -> strip (rq_idempotency_key r) = rq_idempotency_key r ->
  _append env db id r = Ok (m, db1) ->
  exists fp f, _fingerprint (_semantic_input r) = Ok fp
  /\ select_by_key db1 id (rq_idempotency_key r) = Some f
  /\ ev_semantic_fingerprint f = fp /\ ev_event_id f = ev_event_id (mr_event m).
Proof.
  intros Hdb Hkey H. unfold _append, append_in_transaction in H. inv_result.
  destruct v as [m0|next e].
  - simpl in H. inv_result. simplify_eq. unfold append_read in Hv. inv_result.
    destruct (select_by_key db1 id (rq_idempotency_key r)) as [f|] eqn:Hsel; inv_result; [|discriminate].
    assert (Hf : event_ok f).
    { rewrite select_by_key_stream in Hsel. apply first_match_Some in Hsel as [Hin _].
      by eapply stream_event_ok. }
    match goal with E : _event_from_row f = Ok _ |- _ =>
      rewrite (event_from_row_ok f Hf) in E; injection E as <- end.
    simplify_eq. eauto 10.
  - apply append_read_write_Ok in Hv as (row & fp & Hrow & _ & Hfp & Hb & Hred & Hnone); [|done].
    apply append_write_Ok in H as (row' & new & f & _ & _ & _ & Hf & _ & _ & _ & -> & ->).
    apply build_event_Ok in Hb as (He & _ & _ & _ & Hk & Hfe & _).
    pose proof (event_values_rel e f He Hf) as (Her & _ & Hkf & Hff).
    exists fp, f. split; [done|]. split_and!.
    + rewrite select_by_key_stream in Hnone |- *. rewrite stream_insert.
      apply reduce_event_Some in Hred as (_ & Hid & _).
      rewrite decide_True
        by (rewrite (er_opportunity _ _ _ Her), Hid; apply (inv_rows _ Hdb _ _ Hrow)).
      rewrite first_match_app, Hnone. simpl.
      by rewrite bool_decide_eq_true_2 by congruence.
    + rewrite Hff, Hfe. by eapply fingerprint_strip.
    + apply (er_event_id _ _ _ Her).
Qed.

Lemma select_by_key_run db calls id key f :
  db_inv db -> Forall (fun c => call_canonical c.2) calls ->
  select_by_key db id key = Some f -> select_by_key (run db calls) id key = Some f.
Proof.
  intros Hdb Hall H. destruct (run_events db calls Hdb Hall) as [l Hl].
  unfold select_by_key in *. rewrite Hl, first_match_app. by rewrite H.
Qed.

(** What a request finds under a key already used. *)
Lemma append_found env db id r f fp :
  db_inv db -> select_by_key db id (rq_idempotency_key r) = Some f ->
  _fingerprint (_semantic_input r) = Ok fp ->
  exists current, _append env db id r =
    if bool_decide (ev_semantic_fingerprint f = fp) then Ok (mkMutation current f true, db)
    else Raise (IdempotencyConflict (rq_idempotency_key r)).
Proof.
  intros Hdb Hsel Hfp. pose proof Hsel as Hin. rewrite select_by_key_stream in Hin.
  apply first_match_Some in Hin as [Hin _]. pose proof (stream_event_ok db id f Hdb Hin) as Hf.
  apply list_elem_of_filter in Hin as [Hid Hin].
  destruct (inv_owned db Hdb f Hin) as [row Hrow]. rewrite Hid in Hrow.
  exists row. unfold _append, append_in_transaction, append_read.
  rewrite Hfp. cbn [result_bind]. rewrite (get_opportunity_row db id row Hdb Hrow).
  cbn [result_bind]. rewrite Hsel, (event_from_row_ok f Hf). cbn [result_bind].
  by case_bool_decide.
Qed.

(** C3 (functional).  An append is idempotent: once a request with a
    stripped key, its retry categories in their canonical order, has been
    recorded, repeating it - at any time later,
    whatever other calls came between and whatever the version has become -
    writes nothing and returns the event recorded the first time, flagged as
    replayed. *)
Theorem append_replays_recorded (env env' : store_env) (db db1 : acq_db) (id : string)
    (r : append_request) (m : MutationResult) (calls : list (store_env * store_call)) :
  db_inv db -> canonical_request r -> strip (rq_idempotency_key r) = rq_idempotency_key r ->
  _append env db id r = Ok (m, db1) ->
  Forall (fun c => call_canonical c.2) calls ->
  exists current e,
    _append env' (run db1 calls) id r = Ok (mkMutation current e true, run db1 calls)
    /\ ev_event_id e = ev_event_id (mr_event m).
Proof.
  intros Hdb Hcan Hkey H Hall. assert (Hdb1 : db_inv db1) by (by eapply append_inv).
  apply append_recorded in H as (fp & f & Hfp & Hsel & Hff & Hid); [|done..].
  assert (Hdb2 : db_inv (run db1 calls)) by (by apply run_inv).
  destruct (append_found env' (run db1 calls) id r f fp Hdb2) as [current Hc];
    [by apply select_by_key_run | done |].
  exists current, f. rewrite Hc, bool_decide_eq_true_2 by done. done.
Qed.

(** C26 (error).  A key is bound to the meaning of the request that first used
    it: reusing it later for a request with another semantic fingerprint
    raises IdempotencyConflict and writes nothing. *)
Theorem append_key_reuse_conflicts (env env' : store_env) (db db1 : acq_db) (id : string)
    (r r' : append_request) (m : MutationResult) (calls : list (store_env * store_call))
    (fp fp' : string) :
  db_inv db -> canonical_request r -> strip (rq_idempotency_key r) = rq_idempotency_key r ->
  _append env db id r = Ok (m, db1) ->
  Forall (fun c => call_canonical c.2) calls ->
  rq_idempotency_key r' = rq_idempotency_key r ->
  _fingerprint (_semantic_input r) = Ok fp -> _fingerprint (_semantic_input r') = Ok fp' ->
  fp <> fp' ->
  _append env' (run db1 calls) id r' = Raise (IdempotencyConflict (rq_idempotency_key r)).
Proof.
  intros Hdb Hcan Hkey H Hall Hsame Hfp Hfp' Hne.
  assert (Hdb1 : db_inv db1) by (by eapply append_inv).
  apply append_recorded in H as (fp0 & f & Hfp0 & Hsel & Hff & Hid); [|done..].
  assert (Hdb2 : db_inv (run db1 calls)) by (by apply run_inv).
  rewrite <- Hsame in Hsel |- *.
  destruct (append_found env' (run db1 calls) id r' f fp' Hdb2) as [current Hc];
    [by apply select_by_key_run | done |].
  rewrite Hc, bool_decide_eq_false_2; [done | congruence].
Qed.

(** C2 (safety).  Optimistic concurrency: let other calls of the service
    commit between the reads of an append and its guarded UPDATE (the
    explicit rebuilds of a projection excepted, and appends whose retry
    categories are in their canonical order).  Either the append still does
    exactly what it would have done if it had run entirely after them, or one
    of them moved the stream and it raises OpportunityConcurrencyConflict;
    no update is lost. *)
Theorem append_serializable (env : store_env) (db : acq_db) (id : string) (r : append_request)
    (next : AcquisitionOpportunity) (e : AcquisitionEvent)
    (calls : list (store_env * store_call)) :
  db_inv db -> append_read env db id r = Ok (PlanWrite next e) ->
  Forall (fun c => call_canonical c.2 /\ rebuilds c.2 = false) calls ->
  append_write (run db calls) id (rq_expected_version r) (PlanWrite next e)
    = append_in_transaction env (run db calls) id r
  \/ (append_write (run db calls) id (rq_expected_version r) (PlanWrite next e)
        = Raise (OpportunityConcurrencyConflict id)
      /\ exists row', db_opportunities (run db calls) !! id = Some row'
         /\ rq_expected_version r < op_stream_version row').
Proof.
  intros Hdb Hread Hall.
  assert (Hdb' : db_inv (run db calls)).
  { apply run_inv; [done|]. eapply Forall_impl; [done|]. by intros ? [? ?]. }
  pose proof (append_read_write_Ok env db id r next e Hdb Hread)
    as (row & _ & Hrow & Hver & _).
  destruct (run_frozen db calls id Hdb Hall row Hrow) as (row' & Hrow' & [[-> Hs]|Hlt]).
  - left. unfold append_in_transaction.
    by rewrite (append_read_frozen env db (run db calls) id r row), Hread by done.
  - right. split; [|exists row'; by rewrite <- Hver]. simpl. unfold update_opportunity.
    rewrite Hrow'. destruct (Z.eqb_spec (op_stream_version row') (rq_expected_version r)); [lia | done].
Qed.
End store.

(** * Runs that satisfy the hypotheses *)

Section store_witnesses.
Import Sample.

Lemma projection_always_matches_witness : verify_projection final "opp-1" = Ok MATCH.
Proof.
  apply (projection_always_matches calls "opp-1" calls_canonical).
  exists row. exact final_row.
Defined.

Lemma stream_is_gapless_witness :
  opp_ok row /\ exists events, list_events final "opp-1" = Ok events
  /\ map ev_stream_sequence events = seqZ 1 5.
Proof.
  apply (stream_is_gapless calls "opp-1" row calls_canonical).
  vm_compute. reflexivity.
Defined.

(** The tables after the creation, and the first append. *)
Definition db1 : acq_db := run empty_db [(env 1, CallCreate create)].

Lemma db1_inv : db_inv db1.
Proof. apply run_inv; [apply db_inv_empty | by repeat constructor]. Qed.

Definition appended : MutationResult * acq_db :=
  match _append (env 2) db1 "opp-1" enrich with
  | Ok x => x
  | Raise _ => (mkMutation row (mkEvent "" "" 0 OPPORTUNITY_CREATED 0 "" t0 t0 SYSTEM None "" ""
      None None [] [] None None None None None []) false, db1)
  end.

Lemma appended_Ok : _append (env 2) db1 "opp-1" enrich = Ok (appended.1, appended.2).
Proof. vm_compute. reflexivity. Qed.

Lemma append_replays_recorded_witness :
  exists current e,
    _append (env 9) (run appended.2 [(env 3, CallAppend "opp-1" ready)]) "opp-1" enrich
    = Ok (mkMutation current e true, run appended.2 [(env 3, CallAppend "opp-1" ready)])
    /\ ev_event_id e = ev_event_id (mr_event appended.1).
Proof.
  apply (append_replays_recorded (env 2) (env 9) db1 appended.2 "opp-1" enrich appended.1);
    [apply db1_inv | done | reflexivity | apply appended_Ok | by repeat constructor].
Defined.

Definition other : append_request :=
  request STATE_TRANSITIONED 1 "k-enrich" [("target_state", JStr "QUEUED")] [] [].

Lemma append_key_reuse_conflicts_witness :
  _append (env 9) (run appended.2 []) "opp-1" other = Raise (IdempotencyConflict "k-enrich").
Proof.
  apply (append_key_reuse_conflicts (env 2) (env 9) db1 appended.2 "opp-1" enrich other appended.1 []
           (pad_digits 64 367) (pad_digits 64 364));
    [apply db1_inv | done | reflexivity | apply appended_Ok | apply Forall_nil_2 | reflexivity
     | vm_compute; reflexivity | vm_compute; reflexivity | discriminate].
Defined.

Definition planned : AcquisitionOpportunity * AcquisitionEvent :=
  match append_read (env 2) db1 "opp-1" enrich with
  | Ok (PlanWrite next e) => (next, e)
  | _ => (row, mr_event appended.1)
  end.

(** A competing append of the same version commits first: the conflict
    branch. *)
Definition rival : append_request :=
  request STATE_TRANSITIONED 1 "k-rival" [("target_state", JStr "ENRICHING")] [] [].

Lemma append_serializable_witness :
  let db' := run db1 [(env 7, CallAppend "opp-1" rival)] in
  append_write db' "opp-1" 1 (PlanWrite planned.1 planned.2)
    = append_in_transaction (env 2) db' "opp-1" enrich
  \/ (append_write db' "opp-1" 1 (PlanWrite planned.1 planned.2)
        = Raise (OpportunityConcurrencyConflict "opp-1")
      /\ exists row', db_opportunities db' !! "opp-1" = Some row' /\ 1 < op_stream_version row').
Proof.
  apply (append_serializable (env 2) db1 "opp-1" enrich);
    [apply db1_inv | vm_compute; reflexivity | by repeat constructor].
Defined.
End store_witnesses.

(** * The state machine *)

(** C4 (safety).  Whenever a stream replays to a state of the contact phase
    (SEND, QUEUED, SENT or any commercial outcome), one of its events moved
    the opportunity from READY_FOR_DECISION or REVIEW into SEND: nothing is
    queued, sent or credited with an outcome without that transition. *)
Theorem contact_requires_send (events : list AcquisitionEvent) (p : AcquisitionOpportunity) (rank : Z) :
  replay events = Ok p -> _OUTCOME_RANK (op_state p) = Some rank ->
  exists before e after o o', events = before ++ e :: after
    /\ replay before = Ok o /\ reduce_event (Some o) e = Ok o'
    /\ op_state o ∈ [READY_FOR_DECISION; REVIEW] /\ op_state o' = SEND.
Proof.
  intros H. revert rank. pattern events, p. revert events p H. apply replay_rev_ind.
  - intros e o Ho rank. by rewrite (cr_state _ _ (created_spec e o Ho)).
  - intros l e o p Hl IH He rank Hr.
    destruct (_OUTCOME_RANK (op_state o)) as [r|] eqn:Hro.
    + destruct (IH r eq_refl) as (b & x & a & o1 & o2 & -> & H).
      exists b, x, (a ++ [e]), o1, o2. by rewrite <- app_assoc.
    + exists l, e, [], o, p. split_and!; try done.
      all: destruct (reduce_event_state _ _ _ He) as [?|s' ? Hs'|s' r r' ? Hr0 ? ?]; try congruence.
      all: destruct (op_state o); simpl in Hro; try discriminate; set_solver.
Qed.

(** The outcome rank never decreases, and the states without an outgoing
    edge are kept, along any accepted continuation of a stream. *)
Lemma replay_from_state o events p :
  replay_from (Some o) events = Ok (Some p) ->
  (forall r, _OUTCOME_RANK (op_state o) = Some r ->
     exists r', _OUTCOME_RANK (op_state p) = Some r' /\ r <= r')
  /\ (op_state o = NO_SEND -> op_state p = NO_SEND).
Proof.
  revert o; induction events as [|e events IH]; intros o H; simpl in H.
  - injection H as ->. split; [intros r Hr; exists r; split; [done | lia] | done].
  - inv_result. destruct (IH _ H) as [IH1 IH2].
    destruct (reduce_event_state _ _ _ Hv) as [?|s' ? Hs'|s' r r' ? Hr0 Hr1 ?]; [done | |].
    + split.
      * intros r Hr. destruct (op_state o); try discriminate; simpl in Hs', Hr; simplify_eq;
          try (exfalso; set_solver).
        all: apply list_elem_of_singleton in Hs'; rewrite Hs' in IH1;
          destruct (IH1 _ eq_refl) as (r' & ? & ?); exists r'; split; [done | lia].
      * intros Hns. rewrite Hns in Hs'. exfalso. set_solver.
    + split; [|intros Hns; by rewrite Hns in Hr0].
      intros r0 Hr0'. destruct (IH1 _ Hr1) as (r2 & ? & ?). exists r2. split; [done|].
      rewrite Hr0 in Hr0'. simplify_eq. lia.
Qed.

(** Once an opportunity has entered the contact phase, no
    later event brings it back: the outcome rank (SEND, QUEUED, SENT,
    REPLIED, ACTIVATED, PAID, RETAINED, CHURNED) is non-decreasing along any
    continuation of its stream, so CHURNED is final; and an opportunity
    closed as NO_SEND stays closed. *)
Theorem outcome_never_regresses (o p : AcquisitionOpportunity) (events : list AcquisitionEvent) :
  replay_from (Some o) events = Ok (Some p) ->
  (forall r, _OUTCOME_RANK (op_state o) = Some r ->
     exists r', _OUTCOME_RANK (op_state p) = Some r' /\ r <= r')
  /\ (op_state o = CHURNED -> op_state p = CHURNED)
  /\ (op_state o = NO_SEND -> op_state p = NO_SEND).
Proof.
  intros H. destruct (replay_from_state o events p H) as [Hrank Hno]. split_and!; try done.
  intros Hc. destruct (Hrank 7) as (r' & Hr' & Hle); [by rewrite Hc|].
  destruct (op_state p); simpl in Hr'; simplify_eq; lia || done.
Qed.

(** A projection in HOLD always says why and until when: in
    every state a stream can replay to, HOLD comes with at least one reason
    code and a review date. *)
Theorem hold_is_documented (events : list AcquisitionEvent) (p : AcquisitionOpportunity) :
  replay events = Ok p -> op_state p = HOLD ->
  op_reason_codes p <> [] /\ op_next_review_at p <> None.
Proof.
  intros H. change (hold_documented p). pattern events, p. revert events p H.
  apply replay_rev_ind.
  - intros e o Ho Hs. by rewrite (cr_state _ _ (created_spec e o Ho)) in Hs.
  - intros l e o p _ IH He. by eapply reducer_hold.
Qed.

(** How many events of a stream schedule a retry. *)
Definition retries (events : list AcquisitionEvent) : Z :=
  zlength (filter (fun e => ev_event_type e = RETRY_SCHEDULED) events).

Lemma retries_snoc l e :
  retries (l ++ [e])
  = retries l + (if bool_decide (ev_event_type e = RETRY_SCHEDULED) then 1 else 0).
Proof.
  unfold retries, zlength. rewrite filter_app, length_app, Nat2Z.inj_add. f_equal.
  rewrite filter_cons. case_bool_decide; [by rewrite decide_True | by rewrite decide_False].
Qed.

(** The counters of a projection count its stream: the
    version is the number of events and the retry count the number of
    scheduled retries, whatever happened in between. *)
Theorem replay_counts (events : list AcquisitionEvent) (p : AcquisitionOpportunity) :
  replay events = Ok p ->
  op_stream_version p = zlength events /\ op_retry_count p = retries events.
Proof.
  intros H. pattern events, p. revert events p H. apply replay_rev_ind.
  - intros e o Ho. destruct (created_spec e o Ho) as [_ Hv Hr _ _ Ht _]. split; [done|].
    rewrite Hr. unfold retries. rewrite filter_cons, decide_False by congruence. done.
  - intros l e o p _ [IH1 IH2] He. destruct (reduce_event_common _ _ _ He).
    rewrite retries_snoc. unfold zlength in *. rewrite length_app, Nat2Z.inj_add. simpl. lia.
Qed.

(** The references that identify an opportunity are written
    once: its identifier, identity key, signal, supplier and creation date
    never change after creation, and a contact or a campaign, once bound, is
    never replaced. *)
Theorem references_write_once (o p : AcquisitionOpportunity) (events : list AcquisitionEvent) :
  replay_from (Some o) events = Ok (Some p) ->
  op_acquisition_opportunity_id p = op_acquisition_opportunity_id o
  /\ op_identity_key p = op_identity_key o /\ op_signal_ref p = op_signal_ref o
  /\ op_supplier_ref p = op_supplier_ref o /\ op_created_at p = op_created_at o
  /\ (op_contact_ref o <> None -> op_contact_ref p = op_contact_ref o)
  /\ (op_campaign_ref o <> None -> op_campaign_ref p = op_campaign_ref o).
Proof.
  revert o; induction events as [|e events IH]; intros o H; simpl in H.
  - by injection H as ->.
  - inv_result. destruct (IH _ H) as (-> & -> & -> & -> & -> & Hc & Hk).
    destruct (reduce_event_common _ _ _ Hv). split_and!; try done; intros Hn.
    + destruct (op_contact_ref o) eqn:E; [|done]. specialize (cs_contact eq_refl).
      rewrite <- cs_contact. apply Hc. congruence.
    + destruct (op_campaign_ref o) eqn:E; [|done]. specialize (cs_campaign eq_refl).
      rewrite <- cs_campaign. apply Hk. congruence.
Qed.

(** A decision that names its next action (decision policy v1)
    is accepted only in the shape the policy can emit: SEND with
    prepare_campaign, REVIEW with request_human_review or NO_SEND with no
    action, reasoned and evidenced, without a numeric confidence or a review
    date, and from a state that allows the target. *)
Theorem policy_decision_shape (o o' : AcquisitionOpportunity) (e : AcquisitionEvent) :
  reduce_event (Some o) e = Ok o' -> ev_event_type e = DECISION_RECORDED ->
  dict_has "next_action" (ev_payload e) = true ->
  (op_decision o', op_next_action o') ∈
    [(Some D_SEND, Some "prepare_campaign"); (Some D_REVIEW, Some "request_human_review");
     (Some D_NO_SEND, None)]
  /\ op_state o' ∈ TRANSITIONS (op_state o)
  /\ op_reason_codes o' <> [] /\ op_evidence_refs o' <> []
  /\ op_confidence o' = None /\ op_next_review_at o' = None.
Proof.
  intros H Ht Hna. apply reduce_event_Some in H as (_ & _ & _ & H). rewrite Ht in H.
  cbn [reducer_of] in H. unfold _decision_recorded in H. rewrite Hna in H.
  unfold _require_transition, spec023_checks, _datetime_payload in H. cbn [when] in H. inv_all.
  all: repeat match goal with
    | E : list_truthy _ = true |- _ => apply list_truthy_true in E
    | E : in_list _ _ = true |- _ => apply in_list_true in E
    | E : truthy _ = false |- _ => apply truthy_None in E
    end.
  all: cbn; split_and!; try done; try congruence.
  all: match goal with E : expected_action ?d = Some _ |- _ => destruct d; try discriminate E end.
  all: simpl in *; simplify_eq;
    match goal with E : _ = dict_get "next_action" _ |- _ => rewrite <- E; set_solver end.
Qed.

(** C27 (safety).  No event object carries a secret or a hidden reasoning
    trace under its plain name: in an event that was accepted, no key at any
    depth of the payload normalises to one of the prohibited names, and the
    canonical encoding of the payload is at most 65,536 bytes long. *)
Theorem accepted_payload_is_clean (e e' : AcquisitionEvent) :
  event_validate e = Ok e' ->
  (forall k, k ∈ payload_keys (JObj (ev_payload e')) ->
     _normalized_key k ∉ _SECRET_KEYS /\ _normalized_key k ∉ _HIDDEN_REASONING_KEYS)
  /\ exists encoded, dumps (JObj (ev_payload e')) = Ok encoded
     /\ len encoded <= MAX_EVENT_PAYLOAD_BYTES.
Proof.
  intros H. apply event_validate_idem, event_validate_id, eok_payload in H.
  unfold _validate_payload in H. apply andb_true_iff in H as [Hg Hd].
  split; [by apply guard_payload_spec|].
  destruct (dumps (JObj (ev_payload e'))) as [enc|]; [|done]. exists enc. split; [done | lia].
Qed.

(** A decision keeps the review date of its payload. *)
Lemma decision_review_date o e o' :
  reduce_event (Some o) e = Ok o' -> ev_event_type e = DECISION_RECORDED ->
  _datetime_payload (ev_payload e) "next_review_at" = Ok (op_next_review_at o').
Proof.
  intros H Ht. apply reduce_event_Some in H as (_ & _ & _ & H). rewrite Ht in H.
  cbn [reducer_of] in H. unfold _decision_recorded in H. inv_result.
  match goal with E : _datetime_payload _ _ = Ok _ |- _ => rewrite E end.
  by case_when.
Qed.

Section review.
Context `{Hash : HashLib} `{DB : Database}.

(** C27 (roundtrip).  The review date of a recorded decision survives its
    whole journey: written as an ISO string in the payload, parsed back by
    the reducer, stored in a timestamp column and read again, it is the same
    instant, and the projection returned by the call holds the very datetime
    that was given. *)
Theorem decision_review_round_trip (env : store_env) (db db' : acq_db) (id : string)
    (decision : Decision) (reasons evidence : list string) (confidence cost : decimal)
    (policy skill key : string) (version : Z) (d : datetime)
    (supervisor : option string) (actor : ActorType) (actor_ref correlation causation : option string)
    (occurred : option datetime) (m : MutationResult) :
  db_inv db -> datetime_ok d = true -> aware d = true ->
  record_decision env db id decision reasons evidence confidence policy skill cost version key
    (Some d) supervisor actor actor_ref correlation causation occurred = Ok (m, db') ->
  mr_replayed m = false ->
  op_next_review_at (mr_projection m) = Some d
  /\ exists row d', get_opportunity db' id = Ok row
     /\ op_next_review_at row = Some d' /\ instant d' = instant d.
Proof.
  intros Hdb Hd Ha H Hm.
  unfold record_decision in H. remember (mkRequest _ _ _ _ _ _ _ _ _ _ _ _ _ _ _ _) as r eqn:Er.
  assert (Hcan : canonical_request r) by (subst r; intros [=]).
  assert (Hdb' : db_inv db') by (by eapply append_inv).
  apply append_fresh in H as (row & fp & next & e & new & f & Hrow & Hb & Hred & Hnew & Hf & -> & ->);
    [|done..].
  pose proof (inv_rows _ Hdb _ _ Hrow) as Hri. pose proof (ri_id _ _ _ Hri) as Hid.
  apply build_event_Ok in Hb as (He & Ht & Hp & _).
  assert (Hnext : op_next_review_at next = Some d).
  { pose proof (decision_review_date row e next Hred ltac:(by rewrite Ht, Er)) as Hrev.
    rewrite Hp, Er in Hrev. unfold _datetime_payload in Hrev.
    change (dict_get _ _) with (JStr (isoformat d)) in Hrev. cbv iota in Hrev.
    rewrite (fromisoformat_isoformat d Hd), Ha in Hrev. by injection Hrev. }
  split; [done|].
  assert (Hok : opp_ok next).
  { eapply reduce_event_ok; [| exact He | | exact Hred]; [by intros ? [= <-]; apply Hri|].
    rewrite Ht, Er. intros [=]. }
  pose proof (projection_values_rel next new Hok Hnew) as [Hrel _].
  exists new. pose proof (or_review _ _ _ Hrel) as Hr. rewrite Hnext in Hr.
  inversion Hr as [? d' [_ Hi] Hd1 Hd2|]; subst. exists d'. split_and!; [|done..].
  apply get_opportunity_row; [done|]. simpl. apply lookup_insert_eq.
Qed.
End review.

(** * Streams that satisfy the hypotheses *)

Section machine_witnesses.
Import Sample.

Definition event (n : Z) (t : EventType) (payload : dict) (reasons evidence : list string)
  : AcquisitionEvent :=
  mkEvent ("evt-" +:+ str_int n) "opp-1" n t 1 STATE_MACHINE_VERSION t0 t0 SYSTEM None
    ("key-" +:+ str_int n) (pad_digits 64 n) None None reasons evidence None None None None None
    payload.

Definition created : AcquisitionEvent :=
  event 1 OPPORTUNITY_CREATED [("identity_key", JStr "identity-1"); ("signal_ref", JStr "signal-1")]
    [] [].
Definition to_state (n : Z) (s : string) : AcquisitionEvent :=
  event n STATE_TRANSITIONED [("target_state", JStr s)] [] [].
Definition decided : AcquisitionEvent :=
  event 4 DECISION_RECORDED [("decision", JStr "SEND"); ("next_action", JStr "prepare_campaign")]
    ["FIT"] ["ev-1"].
Definition queued : AcquisitionEvent :=
  event 5 STATE_TRANSITIONED [("target_state", JStr "QUEUED"); ("campaign_ref", JStr "camp-1")]
    ["READY"] [].
Definition paid : AcquisitionEvent :=
  event 6 OUTCOME_RECORDED [("outcome_state", JStr "PAID")] [] [].

Definition ready_stream : list AcquisitionEvent :=
  [created; to_state 2 "ENRICHING"; to_state 3 "READY_FOR_DECISION"].
Definition queued_stream : list AcquisitionEvent := ready_stream ++ [decided; queued].

(** The projection of a stream of the examples. *)
Definition projection (l : list AcquisitionEvent) : AcquisitionOpportunity :=
  match replay l with Ok p => p | Raise _ => row end.

Lemma queued_replay : replay queued_stream = Ok (projection queued_stream).
Proof. vm_compute. reflexivity. Qed.

Lemma contact_requires_send_witness :
  exists before e after o o', queued_stream = before ++ e :: after
    /\ replay before = Ok o /\ reduce_event (Some o) e = Ok o'
    /\ op_state o ∈ [READY_FOR_DECISION; REVIEW] /\ op_state o' = SEND.
Proof.
  apply (contact_requires_send queued_stream (projection queued_stream) 1 queued_replay).
  vm_compute. reflexivity.
Defined.

Lemma outcome_never_regresses_witness :
  exists r', _OUTCOME_RANK (op_state (projection (queued_stream ++ [paid]))) = Some r' /\ 1 <= r'.
Proof.
  apply (proj1 (outcome_never_regresses (projection queued_stream)
           (projection (queued_stream ++ [paid])) [paid] ltac:(vm_compute; reflexivity)) 1).
  vm_compute. reflexivity.
Defined.

Definition held : AcquisitionEvent :=
  event 4 DECISION_RECORDED [("decision", JStr "HOLD"); ("next_review_at", JStr (isoformat t1))]
    ["TOO_EARLY"] [].

Lemma hold_is_documented_witness :
  op_reason_codes (projection (ready_stream ++ [held])) <> []
  /\ op_next_review_at (projection (ready_stream ++ [held])) <> None.
Proof.
  apply (hold_is_documented (ready_stream ++ [held])); vm_compute; reflexivity.
Defined.

Lemma replay_counts_witness :
  op_stream_version (projection queued_stream) = zlength queued_stream
  /\ op_retry_count (projection queued_stream) = retries queued_stream.
Proof. apply (replay_counts queued_stream). exact queued_replay. Defined.

Lemma references_write_once_witness :
  op_campaign_ref (projection (queued_stream ++ [paid])) = Some "camp-1".
Proof.
  pose proof (references_write_once (projection queued_stream)
    (projection (queued_stream ++ [paid])) [paid] ltac:(vm_compute; reflexivity))
    as (_ & _ & _ & _ & _ & _ & H).
  apply H. vm_compute. discriminate.
Defined.

Lemma policy_decision_shape_witness :
  op_confidence (projection (ready_stream ++ [decided])) = None.
Proof.
  apply (policy_decision_shape (projection ready_stream)
           (projection (ready_stream ++ [decided])) decided);
    [vm_compute; reflexivity | reflexivity | vm_compute; reflexivity].
Defined.

Lemma accepted_payload_is_clean_witness :
  exists encoded, dumps (JObj (ev_payload decided)) = Ok encoded
     /\ len encoded <= MAX_EVENT_PAYLOAD_BYTES.
Proof.
  apply (accepted_payload_is_clean decided decided). vm_compute. reflexivity.
Defined.

Definition ready_db : acq_db :=
  run empty_db [(env 1, CallCreate create); (env 2, CallAppend "opp-1" enrich);
                (env 3, CallAppend "opp-1" ready)].

Lemma ready_db_inv : db_inv ready_db.
Proof. apply run_inv; [apply db_inv_empty | by repeat constructor]. Qed.

Definition held_call : result (MutationResult * acq_db) :=
  record_decision (env 4) ready_db "opp-1" D_HOLD ["TOO_EARLY"] ["ev-1"] (mkdec 5 (-1))
    "policy-v1" "skill-v1" dec_zero 3 "k-hold" (Some t1) None SYSTEM None None None None.

Definition held_result : MutationResult * acq_db :=
  match held_call with Ok x => x | Raise _ => (mkMutation row decided false, ready_db) end.

Lemma decision_review_round_trip_witness :
  op_next_review_at (mr_projection held_result.1) = Some t1
  /\ exists row d', get_opportunity held_result.2 "opp-1" = Ok row
     /\ op_next_review_at row = Some d' /\ instant d' = instant t1.
Proof.
  apply (decision_review_round_trip (env 4) ready_db held_result.2 "opp-1" D_HOLD ["TOO_EARLY"]
           ["ev-1"] (mkdec 5 (-1)) dec_zero "policy-v1" "skill-v1" "k-hold" 3 t1 None SYSTEM None
           None None None held_result.1);
    [apply ready_db_inv | reflexivity | reflexivity | vm_compute; reflexivity
     | vm_compute; reflexivity].
Defined.

(** * Behaviour at the edges *)

(** A retry whose error category is padded is stored unstripped by the
    reducer and stripped by the next read: the projection no longer equals
    the fold of its events. *)
Definition padded_retry : append_request :=
  request RETRY_SCHEDULED 1 "k-retry"
    [("retry_at", JStr (isoformat t1)); ("error_category", JStr " timeout")] [] [].

Theorem padded_category_diverges :
  verify_projection (run db1 [(env 2, CallAppend "opp-1" padded_retry)]) "opp-1" = Ok MISMATCH.
Proof. vm_compute. reflexivity. Qed.

(** An upper-case secret name is not recognised: [_normalized_key] splits it
    at every letter. *)
Theorem upper_case_secret_accepted :
  _normalized_key "API_KEY" = "a_p_i_k_e_y"
  /\ _guard_payload (JObj [("API_KEY", JStr "sk-1"); ("PASSWORD", JStr "x")]) = true
  /\ _guard_payload (JObj [("api_key", JStr "sk-1")]) = false
  /\ _guard_payload (JObj [("apiKey", JStr "sk-1")]) = false.
Proof. vm_compute. done. Qed.

(** A padded idempotency key is stored stripped but looked up as given: the
    same request repeated is not recognised as a replay. *)
Definition padded_key : append_request :=
  request STATE_TRANSITIONED 1 " k-enrich" [("target_state", JStr "ENRICHING")] [] [].

Theorem padded_key_not_replayed :
  is_ok (_append (env 2) db1 "opp-1" padded_key) = true
  /\ _append (env 3) (run db1 [(env 2, CallAppend "opp-1" padded_key)]) "opp-1" padded_key
     = Raise (OpportunityConcurrencyConflict "expected 1, found 2").
Proof. vm_compute. done. Qed.
End machine_witnesses.
