(* ===== verification/PolicyContracts.v ===== *)
(** PolicyContracts: the immutable contracts of the policy gateway
    ([policy/contracts.py]): enumerations, control snapshots, requests and
    decisions, with the validation the modelled code runs when it builds one
    of them, and the fingerprint that binds an approval grant; and the
    command policies of [policy/registry.py]. *)

From S2P Require Import Prelude PyStr PyDatetime PyDecimal PyJson.
From S2P Require AcquisitionContracts.

Local Open Scope string_scope.
Local Open Scope Z_scope.

(** [policy/contracts.py:22-22 POLICY_VERSION] *)
Definition POLICY_VERSION : string := "acquisition-policy-v1".
(** [policy/contracts.py:23-23 MAX_APPROVAL_GRANTS] *)
Definition MAX_APPROVAL_GRANTS : Z := 4.
(** [policy/contracts.py:24-24 MAX_REASON_CODES] *)
Definition MAX_POLICY_REASON_CODES : Z := 32.
(** [policy/contracts.py:25-25 MAX_EVIDENCE_REFS] *)
Definition MAX_POLICY_EVIDENCE_REFS : Z := 100.

(** [policy/contracts.py:28-28 Identifier] *)
Definition PIdentifier (field s : string) : result string := constr field 1 128 s.
(** [policy/contracts.py:29-31 EvaluationIdentifier] *)
Definition EvaluationIdentifier (field s : string) : result string := constr field 1 64 s.
(** [policy/contracts.py:32-32 StableRef] *)
Definition PStableRef (field s : string) : result string := constr field 1 256 s.
(** [policy/contracts.py:33-33 ShortCode] *)
Definition PShortCode (field s : string) : result string := constr field 1 100 s.
(** [policy/contracts.py:34-34 Fingerprint] *)
Definition PFingerprint (field s : string) : result string := matching field is_fingerprint s.
(** [policy/contracts.py:35-35 CommandName] *)
Definition CommandName (field s : string) : result string := matching field is_command_name s.
(** [policy/contracts.py:36-36 Currency] *)
Definition Currency (field s : string) : result string := matching field is_currency s.

(** * Enumerations *)

(** [policy/contracts.py:39-46 PolicyStatus] *)
Inductive PolicyStatus : Type :=
| APPROVED | DENIED | APPROVAL_REQUIRED | BUDGET_EXCEEDED | COMPLIANCE_BLOCKED
| INSUFFICIENT_EVIDENCE | RATE_LIMITED.

#[export] Instance PolicyStatus_eq_dec : EqDecision PolicyStatus.
Proof. solve_decision. Defined.

(** [policy/contracts.py:39-46 PolicyStatus] *)
Definition status_value (s : PolicyStatus) : string :=
  match s with
  | APPROVED => "APPROVED" | DENIED => "DENIED" | APPROVAL_REQUIRED => "APPROVAL_REQUIRED"
  | BUDGET_EXCEEDED => "BUDGET_EXCEEDED" | COMPLIANCE_BLOCKED => "COMPLIANCE_BLOCKED"
  | INSUFFICIENT_EVIDENCE => "INSUFFICIENT_EVIDENCE" | RATE_LIMITED => "RATE_LIMITED"
  end.

(** [policy/contracts.py:49-53 AutonomyMode] *)
Inductive AutonomyMode : Type := SHADOW | ASSISTED | AUTONOMOUS_CAPPED | ADAPTIVE_VOLUME.

#[export] Instance AutonomyMode_eq_dec : EqDecision AutonomyMode.
Proof. solve_decision. Defined.

(** [policy/contracts.py:49-53 AutonomyMode] *)
Definition mode_value (m : AutonomyMode) : string :=
  match m with
  | SHADOW => "SHADOW" | ASSISTED => "ASSISTED" | AUTONOMOUS_CAPPED => "AUTONOMOUS_CAPPED"
  | ADAPTIVE_VOLUME => "ADAPTIVE_VOLUME"
  end.

(** [policy/contracts.py:56-58 ApprovalPurpose] *)
Inductive ApprovalPurpose : Type := ACTION | COMPLIANCE_REVIEW.

#[export] Instance ApprovalPurpose_eq_dec : EqDecision ApprovalPurpose.
Proof. solve_decision. Defined.

(** [policy/contracts.py:56-58 ApprovalPurpose] *)
Definition purpose_value (p : ApprovalPurpose) : string :=
  match p with ACTION => "ACTION" | COMPLIANCE_REVIEW => "COMPLIANCE_REVIEW" end.

(** [policy/contracts.py:61-65 ComplianceState] *)
Inductive ComplianceState : Type :=
| ComplianceALLOWED | ComplianceBLOCKED | ComplianceREVIEW_REQUIRED | ComplianceUNKNOWN.

#[export] Instance ComplianceState_eq_dec : EqDecision ComplianceState.
Proof. solve_decision. Defined.

(** [policy/contracts.py:61-65 ComplianceState] *)
Definition compliance_value (s : ComplianceState) : string :=
  match s with
  | ComplianceALLOWED => "ALLOWED" | ComplianceBLOCKED => "BLOCKED"
  | ComplianceREVIEW_REQUIRED => "REVIEW_REQUIRED" | ComplianceUNKNOWN => "UNKNOWN"
  end.

(** [policy/contracts.py:68-72 EvidenceStatus] *)
Inductive EvidenceStatus : Type :=
| EvidenceREADY | EvidenceINSUFFICIENT | EvidenceSTALE | EvidenceUNKNOWN.

#[export] Instance EvidenceStatus_eq_dec : EqDecision EvidenceStatus.
Proof. solve_decision. Defined.

(** [policy/contracts.py:68-72 EvidenceStatus] *)
Definition evidence_value (s : EvidenceStatus) : string :=
  match s with
  | EvidenceREADY => "READY" | EvidenceINSUFFICIENT => "INSUFFICIENT"
  | EvidenceSTALE => "STALE" | EvidenceUNKNOWN => "UNKNOWN"
  end.

(** [policy/contracts.py:75-78 ReadinessState] *)
Inductive ReadinessState : Type := QuotaREADY | QuotaEXHAUSTED | QuotaUNKNOWN.

#[export] Instance ReadinessState_eq_dec : EqDecision ReadinessState.
Proof. solve_decision. Defined.

(** [policy/contracts.py:75-78 ReadinessState] *)
Definition readiness_value (s : ReadinessState) : string :=
  match s with QuotaREADY => "READY" | QuotaEXHAUSTED => "EXHAUSTED" | QuotaUNKNOWN => "UNKNOWN" end.

(** [policy/contracts.py:81-84 AvailabilityState] *)
Inductive AvailabilityState : Type := AVAILABLE | UNAVAILABLE | AvailabilityUNKNOWN.

#[export] Instance AvailabilityState_eq_dec : EqDecision AvailabilityState.
Proof. solve_decision. Defined.

(** [policy/contracts.py:81-84 AvailabilityState] *)
Definition availability_value (s : AvailabilityState) : string :=
  match s with
  | AVAILABLE => "AVAILABLE" | UNAVAILABLE => "UNAVAILABLE" | AvailabilityUNKNOWN => "UNKNOWN"
  end.

(** [policy/contracts.py:87-90 WindowState] *)
Inductive WindowState : Type := WindowOPEN | WindowCLOSED | WindowUNKNOWN.

#[export] Instance WindowState_eq_dec : EqDecision WindowState.
Proof. solve_decision. Defined.

(** [policy/contracts.py:87-90 WindowState] *)
Definition window_value (s : WindowState) : string :=
  match s with WindowOPEN => "OPEN" | WindowCLOSED => "CLOSED" | WindowUNKNOWN => "UNKNOWN" end.

(** * Requests *)

(** [policy/contracts.py:153-156 Scope] *)
Record Scope : Type := mkScope {
  sc_country : option string;
  sc_language : option string;
  sc_wedge : option string;
}.

(** [policy/contracts.py:163-182 ApprovalGrant] *)
Record ApprovalGrant : Type := mkGrant {
  gr_approval_id : string;
  gr_purpose : ApprovalPurpose;
  gr_command : string;
  gr_target_ref : string;
  gr_acquisition_opportunity_id : option string;
  gr_action_fingerprint : string;
  gr_policy_version : string;
  gr_policy_snapshot_id : string;
  gr_control_revision : Z;
  gr_scope_fingerprint : string;
  gr_issued_at : datetime;
  gr_expires_at : datetime;
  gr_one_shot : bool;
  gr_consumed_at : option datetime;
  gr_approved_by_actor_ref : string;
}.

(** [policy/contracts.py:184-188 valid_interval] *)
Definition grant_interval_ok (g : ApprovalGrant) : bool :=
  dt_ltb (gr_issued_at g) (gr_expires_at g).

(** [policy/contracts.py:191-196 ApprovalRef] *)
Record ApprovalRef : Type := mkRef {
  ap_approval_id : string;
  ap_purpose : ApprovalPurpose;
  ap_binding_fingerprint : string;
}.

#[export] Instance ApprovalRef_eq_dec : EqDecision ApprovalRef.
Proof. solve_decision. Defined.

(** [policy/contracts.py:220-227 EvidenceReadiness] *)
Record EvidenceReadiness : Type := mkEvidence {
  ei_status : EvidenceStatus;
  ei_claims : list string;
  ei_assessment_version : string;
  ei_observed_at : datetime;
  ei_valid_until : option datetime;
}.

(** [policy/contracts.py:230-236 ComplianceAssessment] *)
Record ComplianceAssessment : Type := mkCompliance {
  ca_state : ComplianceState;
  ca_assessment_version : string;
  ca_observed_at : datetime;
  ca_valid_until : option datetime;
}.

(** [policy/contracts.py:239-248 OperationalReadiness] *)
Record OperationalReadiness : Type := mkOperational {
  on_runtime_revision : string;
  on_provider_quota : ReadinessState;
  on_mailbox_quota : ReadinessState;
  on_send_window : WindowState;
  on_provider_control_plane : AvailabilityState;
  on_retry_after : option datetime;
  on_valid_until : option datetime;
}.

(** [policy/contracts.py:251-261 BudgetEnvelope] *)
Record BudgetEnvelope : Type := mkBudget {
  bd_period_start : datetime;
  bd_period_end : option datetime;
  bd_currency : string;
  bd_cost_cap : decimal;
  bd_cost_used : decimal;
  bd_volume_cap : Z;
  bd_volume_used : Z;
}.

(** [policy/contracts.py:270-273 BudgetUsage] *)
Record BudgetUsage : Type := mkUsage { us_cost_used : decimal; us_volume_used : Z }.

(** [policy/contracts.py:354-382 PolicyRequest] *)
Record PolicyRequest : Type := mkPolicyRequest {
  pr_evaluation_id : string;
  pr_request_id : string;
  pr_command : string;
  pr_target_ref : string;
  pr_acquisition_opportunity_id : option string;
  pr_qa_signal_ref : option string;
  pr_expected_opportunity_version : option Z;
  pr_actor_type : string;
  pr_actor_ref : option string;
  pr_canonical_arguments : string;
  pr_action_fingerprint : string;
  pr_scope : Scope;
  pr_proposed_cost : decimal;
  pr_currency : string;
  pr_proposed_volume : Z;
  pr_reason_codes : list string;
  pr_evidence_refs : list string;
  pr_evidence : EvidenceReadiness;
  pr_compliance : ComplianceAssessment;
  pr_operational : OperationalReadiness;
  pr_expected_policy_version : string;
  pr_approval_grants : list ApprovalGrant;
  pr_supervisor_plan_id : option string;
  pr_supervisor_action_index : option Z;
  pr_supervisor_version : option string;
  pr_skill_version : option string;
}.

(** * Snapshots *)

(** [policy/contracts.py:119-122 _finite_nonnegative] *)
Definition _finite_nonnegative (value : decimal) : bool := dec_leb dec_zero value.

(** [policy/contracts.py:304-317 validity] and
    [policy/contracts.py:340-351 shadow_contract]: the shadow target of a
    mode. *)
Definition shadow_contract (mode : AutonomyMode) (target : option AutonomyMode) : bool :=
  match mode, target with
  | SHADOW, Some SHADOW => false
  | SHADOW, Some _ => true
  | SHADOW, None => false
  | _, None => true
  | _, Some _ => false
  end.

(** [policy/contracts.py:276-302 PolicyControlSnapshot] *)
Record PolicyControlSnapshot : Type := mkControl {
  pc_policy_snapshot_id : string;
  pc_control_revision : Z;
  pc_policy_version : string;
  pc_autonomy_mode : AutonomyMode;
  pc_shadow_target_mode : option AutonomyMode;
  pc_read_only : bool;
  pc_kill_switch : bool;
  pc_qa_signal_ref : option string;
  pc_allowed_commands : list string;
  pc_allowed_countries : list string;
  pc_allowed_languages : list string;
  pc_allowed_wedges : list string;
  pc_currency : string;
  pc_daily_cost_cap : decimal;
  pc_daily_volume_cap : Z;
  pc_effective_at : datetime;
  pc_expires_at : option datetime;
  pc_snapshot_fingerprint : string;
  pc_created_at : datetime;
  pc_created_by_actor_type : string;
  pc_created_by_actor_ref : string;
  pc_reason_codes : list string;
}.

(** A tuple field: each item validated, then the maximal length. *)
Definition items (field : string) (f : string -> string -> result string) (n : Z)
    (l : list string) : result (list string) :=
  let! l' := mapM_result (f field) l in
  checked field (fun l' => zlength l' <=? n) l'.

(** [policy/contracts.py:304-317 validity] *)
Definition interval_ok (effective : datetime) (expires : option datetime) : bool :=
  match expires with Some e => dt_ltb effective e | None => true end.

(** [policy/contracts.py:276-317 PolicyControlSnapshot] *)
Definition control_validate (c : PolicyControlSnapshot) : result PolicyControlSnapshot :=
  let! id := PIdentifier "policy_snapshot_id" (pc_policy_snapshot_id c) in
  let! revision := checked "control_revision" (Z.leb 1) (pc_control_revision c) in
  let! version := PShortCode "policy_version" (pc_policy_version c) in
  let! qa := opt_mapM (PStableRef "qa_signal_ref") (pc_qa_signal_ref c) in
  let! commands := items "allowed_commands" CommandName 32 (pc_allowed_commands c) in
  let! countries := items "allowed_countries" PShortCode 64 (pc_allowed_countries c) in
  let! languages := items "allowed_languages" PShortCode 64 (pc_allowed_languages c) in
  let! wedges := items "allowed_wedges" PShortCode 64 (pc_allowed_wedges c) in
  let! currency := Currency "currency" (pc_currency c) in
  let! cost := checked "daily_cost_cap" _finite_nonnegative (pc_daily_cost_cap c) in
  let! volume := checked "daily_volume_cap" (Z.leb 0) (pc_daily_volume_cap c) in
  let! effective := checked "effective_at" aware (pc_effective_at c) in
  let! expires := checked "expires_at" AcquisitionContracts._aware (pc_expires_at c) in
  let! fingerprint := PFingerprint "snapshot_fingerprint" (pc_snapshot_fingerprint c) in
  let! created := checked "created_at" aware (pc_created_at c) in
  let! actor := matching "created_by_actor_type" (fun s => in_list s ["SYSTEM"; "HUMAN"])
                  (pc_created_by_actor_type c) in
  let! actor_ref := PStableRef "created_by_actor_ref" (pc_created_by_actor_ref c) in
  let! reasons := items "reason_codes" PShortCode MAX_POLICY_REASON_CODES (pc_reason_codes c) in
  require! interval_ok effective expires else ValidationError "expires_at must follow effective_at" in
  require! shadow_contract (pc_autonomy_mode c) (pc_shadow_target_mode c)
  else ValidationError "shadow_target_mode" in
  Ok (mkControl id revision version (pc_autonomy_mode c) (pc_shadow_target_mode c)
        (pc_read_only c) (pc_kill_switch c) qa commands countries languages wedges currency cost
        volume effective expires fingerprint created actor actor_ref reasons).

(** [policy/contracts.py:320-338 PolicySnapshot] *)
Record PolicySnapshot : Type := mkSnapshot {
  ps_policy_snapshot_id : string;
  ps_control_revision : Z;
  ps_policy_version : string;
  ps_captured_at : datetime;
  ps_expires_at : option datetime;
  ps_autonomy_mode : AutonomyMode;
  ps_shadow_target_mode : option AutonomyMode;
  ps_read_only : bool;
  ps_kill_switch : bool;
  ps_qa_signal_ref : option string;
  ps_allowed_commands : list string;
  ps_allowed_countries : list string;
  ps_allowed_languages : list string;
  ps_allowed_wedges : list string;
  ps_budget : BudgetEnvelope;
  ps_runtime_revision : string;
}.

(** * Decisions *)

(** [policy/contracts.py:385-413 PolicyDecision] *)
Record PolicyDecision : Type := mkDecision {
  pd_evaluation_id : string;
  pd_request_id : string;
  pd_status : PolicyStatus;
  pd_counterfactual_status : option PolicyStatus;
  pd_executable : bool;
  pd_command : string;
  pd_target_ref : string;
  pd_acquisition_opportunity_id : option string;
  pd_action_fingerprint : string;
  pd_reason_codes : list string;
  pd_policy_version : string;
  pd_policy_snapshot_id : string;
  pd_control_revision : Z;
  pd_runtime_revision : string;
  pd_evaluated_at : datetime;
  pd_valid_until : option datetime;
  pd_requires_revalidation : bool;
  pd_currency : string;
  pd_estimated_cost : decimal;
  pd_proposed_volume : Z;
  pd_cost_remaining : decimal;
  pd_volume_remaining : Z;
  pd_retry_after : option datetime;
  pd_approval_refs : list ApprovalRef;
  pd_evidence_refs : list string;
}.

(** [policy/contracts.py:415-417 allowed] *)
Definition allowed (d : PolicyDecision) : bool :=
  bool_decide (pd_status d = APPROVED) && pd_executable d.

(** * Fingerprints *)

Section fingerprints.
Context `{Hash : HashLib}.

(** [policy/contracts.py:158-160 fingerprint] *)
Definition scope_fingerprint (s : Scope) : string :=
  finite_sha256 (JObj [("country", JOptStr (sc_country s)); ("language", JOptStr (sc_language s));
                       ("wedge", JOptStr (sc_wedge s))]).

(** [policy/contracts.py:199-217 approval_binding_fingerprint] *)
Definition approval_binding_fingerprint (g : ApprovalGrant) : string :=
  finite_sha256
    (JObj [("purpose", JStr (purpose_value (gr_purpose g)));
           ("command", JStr (gr_command g));
           ("target_ref", JStr (gr_target_ref g));
           ("acquisition_opportunity_id", JOptStr (gr_acquisition_opportunity_id g));
           ("action_fingerprint", JStr (gr_action_fingerprint g));
           ("policy_version", JStr (gr_policy_version g));
           ("policy_snapshot_id", JStr (gr_policy_snapshot_id g));
           ("control_revision", JInt (gr_control_revision g));
           ("scope_fingerprint", JStr (gr_scope_fingerprint g));
           ("issued_at", JStr (isoformat (gr_issued_at g)));
           ("expires_at", JStr (isoformat (gr_expires_at g)));
           ("one_shot", JBool (gr_one_shot g));
           ("consumed_at", opt_json (fun d => JStr (isoformat d)) (gr_consumed_at g))]).
End fingerprints.

(** * The registry *)

(** [policy/registry.py:7-12 RiskClass] *)
Inductive RiskClass : Type :=
| READ_ONLY | PREPARATORY | COMMERCIAL_MUTATION | RISK_REDUCTION | HUMAN_REVIEW.

#[export] Instance RiskClass_eq_dec : EqDecision RiskClass.
Proof. solve_decision. Defined.

(** [policy/registry.py:15-19 TargetScope] *)
Inductive TargetScope : Type := OPPORTUNITY | SIGNAL | GLOBAL | EITHER.

#[export] Instance TargetScope_eq_dec : EqDecision TargetScope.
Proof. solve_decision. Defined.

(** [policy/registry.py:23-33 CommandPolicy] *)
Record CommandPolicy : Type := mkPolicy {
  cp_risk_class : RiskClass;
  cp_target_scope : TargetScope;
  cp_required_evidence : list string;
  cp_uses_budget : bool;
  cp_uses_volume : bool;
  cp_uses_provider_quota : bool;
  cp_uses_send_controls : bool;
  cp_requires_control_plane : bool;
  cp_requires_compliance : bool;
  cp_target_ref_prefix : option string;
}.

(** [policy/registry.py:22-33 CommandPolicy]: the defaults of the fields. *)
Definition plain_policy (risk : RiskClass) (scope : TargetScope) (evidence : list string)
  : CommandPolicy := mkPolicy risk scope evidence false false false false false false None.

(** A preparatory command that calls a provider on the daily budget. *)
Definition provider_policy (evidence : list string) : CommandPolicy :=
  mkPolicy PREPARATORY OPPORTUNITY evidence true false true false true false None.

(** [policy/registry.py:108-149 COMMAND_POLICIES]: the two commands that
    send. *)
Definition sending_policy : CommandPolicy :=
  mkPolicy COMMERCIAL_MUTATION OPPORTUNITY
    ["ACQUISITION_DECISION"; "PUBLIC_EVIDENCE"; "VERIFIED_CONTACT"; "ACQUISITION_PROSPECT_PREBUILD";
     "PERSONALIZATION_ARTIFACT"; "COMPLIANCE_ASSESSMENT"; "CAMPAIGN_PLAN"; "MAILBOX_READINESS";
     "SEND_WINDOW"]
    true true true true true true None.

(** [policy/registry.py:36-177 COMMAND_POLICIES] *)
Definition COMMAND_POLICIES : list (string * CommandPolicy) :=
  [("resolve_signal_seed", plain_policy READ_ONLY EITHER []);
   ("discover_suppliers",
      mkPolicy PREPARATORY SIGNAL
        ["PUBLIC_OPPORTUNITY"; "PUBLIC_EVIDENCE"; "SUPPLIER_SEARCH_PROFILE"]
        true false true false true false (Some "procurement-opportunity:"));
   ("find_decision_makers", provider_policy ["SUPPLIER"; "CONTACT_SEARCH_PROFILE"]);
   ("enrich_company", provider_policy ["SUPPLIER"; "VERIFIED_CONTACT"; "COMPANY_RESEARCH_PROFILE"]);
   ("evaluate_opportunity",
      plain_policy PREPARATORY OPPORTUNITY
        ["PUBLIC_OPPORTUNITY"; "PUBLIC_EVIDENCE"; "ACQUISITION_PROSPECT_PREBUILD";
         "VERIFIED_CONTACT"; "DECISION_INPUT"]);
   ("prepare_campaign",
      plain_policy COMMERCIAL_MUTATION OPPORTUNITY
        ["ACQUISITION_DECISION"; "PUBLIC_EVIDENCE"; "VERIFIED_CONTACT";
         "ACQUISITION_PROSPECT_PREBUILD"; "PERSONALIZATION_INPUT"]);
   ("assess_campaign_compliance",
      plain_policy PREPARATORY OPPORTUNITY
        ["ACQUISITION_DECISION"; "PUBLIC_EVIDENCE"; "VERIFIED_CONTACT";
         "ACQUISITION_PROSPECT_PREBUILD"; "PERSONALIZATION_ARTIFACT"; "COMPLIANCE_INPUT"]);
   ("schedule_campaign", sending_policy);
   ("execute_provider_operations", sending_policy);
   ("pause_campaign", mkPolicy RISK_REDUCTION EITHER [] false false false false true false None);
   ("classify_response", provider_policy ["RESPONSE"]);
   ("reconcile_conversion", plain_policy PREPARATORY OPPORTUNITY []);
   ("reallocate_volume",
      mkPolicy COMMERCIAL_MUTATION GLOBAL
        ["LEARNING_SNAPSHOT"; "ALLOCATION_ENVELOPE"; "CONVERSION_RETENTION"]
        false false false false true false None);
   ("request_human_review", plain_policy HUMAN_REVIEW EITHER []);
   ("generate_weekly_report", plain_policy READ_ONLY GLOBAL [])].

(** [COMMAND_POLICIES.get(command)] *)
Definition command_policy (command : string) : option CommandPolicy :=
  snd <$> first_match (fun p => bool_decide (p.1 = command)) COMMAND_POLICIES.
