(* ===== verification/PolicyEvaluator.v ===== *)
(** PolicyEvaluator: the pure policy evaluation of [policy/evaluator.py].

    The code walks through its checks with two accumulators: the first
    status a failed check asks for ([primary = primary or STATUS]) and the
    list of reasons.  A check is modelled by the findings it adds, a finding
    being the pair of those two statements; [evaluate_policy] concatenates
    them in the order of the code. *)

From S2P Require Import Prelude PyStr PyDatetime PyDecimal PyJson PolicyContracts.
From S2P Require AcquisitionContracts.

Local Open Scope string_scope.
Local Open Scope Z_scope.
Local Open Scope list_scope.

(** [primary = primary or status; reasons.append(reason)], and a reason
    alone. *)
Abbreviation finding := (option PolicyStatus * string)%type.
Definition when_finding (b : bool) (status : PolicyStatus) (reason : string) : list finding :=
  if b then [(Some status, reason)] else [].

(** [policy/evaluator.py:24-25 _dedupe] *)
Definition _dedupe (values : list string) : list string := dict_fromkeys values.

Section evaluator.
Context `{Hash : HashLib}.

Section decision.
Variables (request : PolicyRequest) (snapshot : PolicySnapshot) (evaluated_at : datetime).

(** [policy/evaluator.py:28-48 _grant_matches] *)
Definition _grant_matches (purpose : ApprovalPurpose) (grant : ApprovalGrant) : bool :=
  bool_decide (gr_purpose grant = purpose)
  && bool_decide (gr_command grant = pr_command request)
  && bool_decide (gr_target_ref grant = pr_target_ref request)
  && bool_decide (gr_acquisition_opportunity_id grant = pr_acquisition_opportunity_id request)
  && bool_decide (gr_action_fingerprint grant = pr_action_fingerprint request)
  && bool_decide (gr_scope_fingerprint grant = scope_fingerprint (pr_scope request))
  && bool_decide (gr_policy_version grant = ps_policy_version snapshot)
  && bool_decide (gr_policy_snapshot_id grant = ps_policy_snapshot_id snapshot)
  && (gr_control_revision grant =? ps_control_revision snapshot)
  && dt_leb (gr_issued_at grant) evaluated_at && dt_ltb evaluated_at (gr_expires_at grant)
  && negb (truthy (gr_consumed_at grant))
  && gr_one_shot grant.

(** [policy/evaluator.py:51-64 _find_grant] *)
Definition _find_grant (purpose : ApprovalPurpose) : option ApprovalGrant :=
  first_match (_grant_matches purpose) (pr_approval_grants request).

(** [policy/evaluator.py:105-109 evaluate_policy]: [None] when a SHADOW
    snapshot names no target. *)
Definition effective_mode : option AutonomyMode :=
  if bool_decide (ps_autonomy_mode snapshot = SHADOW) then ps_shadow_target_mode snapshot
  else Some (ps_autonomy_mode snapshot).

Definition profile : option CommandPolicy := command_policy (pr_command request).

(** [policy/evaluator.py:92-347 evaluate_policy] *)
Definition safe_under_hard_stop : bool :=
  match profile with
  | Some p => in_list (cp_risk_class p) [READ_ONLY; PREPARATORY; RISK_REDUCTION; HUMAN_REVIEW]
  | None => false
  end.

(** [policy/evaluator.py:92-347 evaluate_policy] *)
Definition positive_mutation : bool :=
  match profile with
  | Some p => bool_decide (cp_risk_class p = COMMERCIAL_MUTATION)
  | None => false
  end.

(** [policy/evaluator.py:92-347 evaluate_policy] *)
Definition control_findings : list finding :=
  when_finding (truthy (ps_qa_signal_ref snapshot)
                && negb (bool_decide (pr_qa_signal_ref request = ps_qa_signal_ref snapshot)))
    DENIED "qa_signal_scope_mismatch"
  ++ (if ps_kill_switch snapshot && negb safe_under_hard_stop
      then [(Some DENIED, "kill_switch_active")]
      else if ps_kill_switch snapshot then [(None, "kill_switch_active_safe_exception")]
      else [])
  ++ when_finding (ps_read_only snapshot && positive_mutation) DENIED "read_only_mutation_blocked"
  ++ when_finding (negb (bool_decide (ps_policy_version snapshot = POLICY_VERSION))
                   || negb (bool_decide (pr_expected_policy_version request
                                         = ps_policy_version snapshot)))
       DENIED "unsupported_policy_version"
  ++ when_finding (negb (truthy profile)) DENIED "unknown_command".

(** [scope.x and scope.x not in allowed]: a [None] or empty scope value is
    not checked. *)
Definition out_of_scope (value : option string) (allowed : list string) : bool :=
  match value with Some v => nonempty v && negb (in_list v allowed) | None => false end.

(** [policy/evaluator.py:92-347 evaluate_policy] *)
Definition scope_findings (p : CommandPolicy) : list finding :=
  when_finding (negb (in_list (pr_command request) (ps_allowed_commands snapshot)))
    DENIED "command_not_allowed"
  ++ when_finding (bool_decide (cp_target_scope p = OPPORTUNITY)
                   && negb (truthy (pr_acquisition_opportunity_id request)))
       DENIED "opportunity_required"
  ++ when_finding (bool_decide (cp_target_scope p = GLOBAL)
                   && truthy (pr_acquisition_opportunity_id request))
       DENIED "global_command_scope_mismatch"
  ++ when_finding (bool_decide (cp_target_scope p = SIGNAL)
                   && truthy (pr_acquisition_opportunity_id request))
       DENIED "signal_command_scope_mismatch"
  ++ when_finding (match cp_target_ref_prefix p with
                   | Some prefix => nonempty prefix && negb (startswith (pr_target_ref request) prefix)
                   | None => false
                   end)
       DENIED "signal_target_invalid"
  ++ when_finding (out_of_scope (sc_country (pr_scope request)) (ps_allowed_countries snapshot))
       DENIED "country_not_allowed"
  ++ when_finding (out_of_scope (sc_language (pr_scope request)) (ps_allowed_languages snapshot))
       DENIED "language_not_allowed"
  ++ when_finding (out_of_scope (sc_wedge (pr_scope request)) (ps_allowed_wedges snapshot))
       DENIED "wedge_not_allowed"
  ++ when_finding (bool_decide (pr_command request = "reallocate_volume")
                   && negb (bool_decide (effective_mode = Some ADAPTIVE_VOLUME)))
       DENIED "adaptive_volume_required".

(** [value is not None and evaluated_at >= value] *)
Definition expired (value : option datetime) : bool :=
  match value with Some v => dt_leb v evaluated_at | None => false end.

(** [policy/evaluator.py:92-347 evaluate_policy] *)
Definition compliance_findings (p : CommandPolicy) : list finding * list ApprovalGrant :=
  let c := pr_compliance request in
  if negb (cp_requires_compliance p) then ([], [])
  else if dt_ltb evaluated_at (ca_observed_at c)
  then ([(Some COMPLIANCE_BLOCKED, "compliance_assessment_future_dated")], [])
  else if expired (ca_valid_until c)
  then ([(Some COMPLIANCE_BLOCKED, "compliance_assessment_expired")], [])
  else match ca_state c with
       | ComplianceBLOCKED => ([(Some COMPLIANCE_BLOCKED, "compliance_blocked")], [])
       | ComplianceUNKNOWN => ([(Some COMPLIANCE_BLOCKED, "compliance_state_unknown")], [])
       | ComplianceREVIEW_REQUIRED =>
           match _find_grant COMPLIANCE_REVIEW with
           | None => ([(Some APPROVAL_REQUIRED, "compliance_review_approval_required")], [])
           | Some grant => ([], [grant])
           end
       | ComplianceALLOWED => ([], [])
       end.

(** [policy/evaluator.py:92-347 evaluate_policy] *)
Definition evidence_findings (p : CommandPolicy) : list finding :=
  let e := pr_evidence request in
  if negb (list_truthy (cp_required_evidence p)) then []
  else if dt_ltb evaluated_at (ei_observed_at e)
  then [(Some INSUFFICIENT_EVIDENCE, "evidence_future_dated")]
  else if expired (ei_valid_until e)
  then [(Some INSUFFICIENT_EVIDENCE, "evidence_expired")]
  else when_finding (negb (bool_decide (ei_status e = EvidenceREADY))
                     || existsb (fun item => negb (in_list item (ei_claims e)))
                          (cp_required_evidence p))
         INSUFFICIENT_EVIDENCE "insufficient_evidence".

(** [policy/evaluator.py:92-347 evaluate_policy] and
    [policy/evaluator.py:284-285 evaluate_policy] *)
Definition cost_remaining : decimal :=
  dec_sub (bd_cost_cap (ps_budget snapshot)) (bd_cost_used (ps_budget snapshot)).
Definition volume_remaining : Z :=
  bd_volume_cap (ps_budget snapshot) - bd_volume_used (ps_budget snapshot).

(** [policy/evaluator.py:92-347 evaluate_policy] *)
Definition budget_findings (p : CommandPolicy) : list finding :=
  when_finding (cp_uses_budget p
                && negb (bool_decide (pr_currency request = bd_currency (ps_budget snapshot))))
    BUDGET_EXCEEDED "currency_mismatch"
  ++ when_finding (cp_uses_budget p && dec_ltb cost_remaining (pr_proposed_cost request))
       BUDGET_EXCEEDED "daily_cost_cap_exceeded"
  ++ when_finding (cp_uses_volume p && (volume_remaining <? pr_proposed_volume request))
       BUDGET_EXCEEDED "daily_volume_cap_exceeded".

(** [policy/evaluator.py:92-347 evaluate_policy] *)
Definition uses_operational (p : CommandPolicy) : bool :=
  cp_uses_provider_quota p || cp_uses_send_controls p || cp_requires_control_plane p.

(** [policy/evaluator.py:92-347 evaluate_policy] *)
Definition operational_findings (p : CommandPolicy) : list finding :=
  let op := pr_operational request in
  if uses_operational p && expired (on_valid_until op)
  then [(Some RATE_LIMITED, "operational_readiness_expired")]
  else
    when_finding ((cp_uses_provider_quota p || cp_uses_send_controls p)
                  && negb (bool_decide (on_provider_quota op = QuotaREADY)))
      RATE_LIMITED "provider_quota_unavailable"
    ++ when_finding (cp_uses_send_controls p
                     && negb (bool_decide (on_mailbox_quota op = QuotaREADY)))
         RATE_LIMITED "mailbox_quota_unavailable"
    ++ when_finding (cp_uses_send_controls p
                     && negb (bool_decide (on_send_window op = WindowOPEN)))
         RATE_LIMITED "send_window_unavailable"
    ++ when_finding (cp_requires_control_plane p
                     && negb (bool_decide (on_provider_control_plane op = AVAILABLE)))
         RATE_LIMITED "provider_control_plane_unavailable".

(** [policy/evaluator.py:92-347 evaluate_policy] *)
Definition action_required (p : CommandPolicy) : bool :=
  bool_decide (cp_risk_class p = COMMERCIAL_MUTATION)
  && bool_decide (effective_mode = Some ASSISTED).

(** [policy/evaluator.py:92-347 evaluate_policy] *)
Definition action_findings (p : CommandPolicy) : list finding * list ApprovalGrant :=
  if action_required p then
    match _find_grant ACTION with
    | None => ([(Some APPROVAL_REQUIRED, "action_approval_required")], [])
    | Some grant => ([], [grant])
    end
  else ([], []).

(** [policy/evaluator.py:122-286 evaluate_policy]: every finding, in order,
    and the grants used. *)
Definition findings : list finding :=
  control_findings
  ++ match profile with
     | Some p =>
         scope_findings p ++ (compliance_findings p).1 ++ evidence_findings p
         ++ budget_findings p ++ operational_findings p ++ (action_findings p).1
     | None => []
     end.

Definition used_grants : list ApprovalGrant :=
  match profile with
  | Some p => (compliance_findings p).2 ++ (action_findings p).2
  | None => []
  end.

(** [primary or PolicyStatus.APPROVED] *)
Definition unshadowed_status : PolicyStatus :=
  default APPROVED (first_match (fun _ => true) (omap fst findings)).

(** [policy/evaluator.py:92-347 evaluate_policy] *)
Definition final_status : PolicyStatus :=
  if bool_decide (ps_autonomy_mode snapshot = SHADOW)
     && bool_decide (unshadowed_status = APPROVED)
  then DENIED else unshadowed_status.

Definition counterfactual : option PolicyStatus :=
  if bool_decide (ps_autonomy_mode snapshot = SHADOW) then Some unshadowed_status else None.

(** [policy/evaluator.py:288-309 evaluate_policy]: the reasons, the shadow
    block included. *)
Definition final_reasons : list string :=
  let reasons := map snd findings
    ++ (if bool_decide (ps_autonomy_mode snapshot = SHADOW)
           && bool_decide (unshadowed_status = APPROVED)
        then ["shadow_mode_execution_blocked"] else []) in
  _dedupe (if list_truthy reasons then reasons else ["policy_envelope_satisfied"]).

(** [min(values) if values else None]: the first least value. *)
Definition dt_min (values : list datetime) : option datetime :=
  match values with
  | [] => None
  | v :: values' => Some (foldl (fun m x => if dt_ltb x m then x else m) v values')
  end.

Definition flag (f : CommandPolicy -> bool) : bool :=
  match profile with Some p => f p | None => false end.

(** [policy/evaluator.py:77-88 _known_boundaries]: the dates the decision
    depends on. *)
Definition boundaries : list datetime :=
  omap id
    ([ps_expires_at snapshot;
      (if flag (fun p => cp_uses_budget p || cp_uses_volume p)
       then bd_period_end (ps_budget snapshot) else None);
      (if flag (fun p => list_truthy (cp_required_evidence p))
       then ei_valid_until (pr_evidence request) else None);
      (if flag cp_requires_compliance then ca_valid_until (pr_compliance request) else None);
      (if flag uses_operational then on_valid_until (pr_operational request) else None)]
     ++ map (fun g => Some (gr_expires_at g)) used_grants).

(** [policy/evaluator.py:67-89 _known_boundaries] *)
Definition _known_boundaries : option datetime := dt_min boundaries.

(** [policy/evaluator.py:92-347 evaluate_policy] *)
Definition approval_ref (g : ApprovalGrant) : ApprovalRef :=
  mkRef (gr_approval_id g) (gr_purpose g) (approval_binding_fingerprint g).
Definition ref_leb (a b : ApprovalRef) : bool :=
  match String.compare (purpose_value (ap_purpose a)) (purpose_value (ap_purpose b)) with
  | Lt => true
  | Gt => false
  | Eq =>
      match String.compare (ap_approval_id a) (ap_approval_id b) with
      | Lt => true
      | Gt => false
      | Eq => string_leb (ap_binding_fingerprint a) (ap_binding_fingerprint b)
      end
  end.

(** [policy/evaluator.py:288-347 evaluate_policy]: the decision. *)
Definition decision : PolicyDecision :=
  mkDecision (pr_evaluation_id request) (pr_request_id request) final_status counterfactual
    (bool_decide (final_status = APPROVED)
     && negb (bool_decide (ps_autonomy_mode snapshot = SHADOW)))
    (pr_command request) (pr_target_ref request) (pr_acquisition_opportunity_id request)
    (pr_action_fingerprint request) final_reasons (ps_policy_version snapshot)
    (ps_policy_snapshot_id snapshot) (ps_control_revision snapshot)
    (on_runtime_revision (pr_operational request)) evaluated_at _known_boundaries true
    (pr_currency request) (pr_proposed_cost request) (pr_proposed_volume request)
    cost_remaining volume_remaining
    (if bool_decide (final_status = RATE_LIMITED) then on_retry_after (pr_operational request)
     else None)
    (sorted_by ref_leb (map approval_ref used_grants))
    (pr_evidence_refs request).
End decision.

(** [policy/contracts.py:191-196 ApprovalRef] *)
Definition ref_validate (r : ApprovalRef) : result ApprovalRef :=
  let! id := PIdentifier "approval_id" (ap_approval_id r) in
  let! fp := PFingerprint "binding_fingerprint" (ap_binding_fingerprint r) in
  Ok (mkRef id (ap_purpose r) fp).

(** [policy/contracts.py:385-417 PolicyDecision] *)
Definition decision_validate (d : PolicyDecision) : result PolicyDecision :=
  let! evaluation_id := EvaluationIdentifier "evaluation_id" (pd_evaluation_id d) in
  let! request_id := PIdentifier "request_id" (pd_request_id d) in
  let! command := CommandName "command" (pd_command d) in
  let! target := PStableRef "target_ref" (pd_target_ref d) in
  let! opportunity := opt_mapM (PIdentifier "acquisition_opportunity_id")
                        (pd_acquisition_opportunity_id d) in
  let! action := PFingerprint "action_fingerprint" (pd_action_fingerprint d) in
  let! reasons := mapM_result (PShortCode "reason_codes") (pd_reason_codes d) in
  let! version := PShortCode "policy_version" (pd_policy_version d) in
  let! snapshot := PIdentifier "policy_snapshot_id" (pd_policy_snapshot_id d) in
  let! runtime := PShortCode "runtime_revision" (pd_runtime_revision d) in
  let! evaluated := checked "evaluated_at" aware (pd_evaluated_at d) in
  let! valid := checked "valid_until" AcquisitionContracts._aware (pd_valid_until d) in
  let! currency := Currency "currency" (pd_currency d) in
  let! retry := checked "retry_after" AcquisitionContracts._aware (pd_retry_after d) in
  let! refs := mapM_result ref_validate (pd_approval_refs d) in
  let! refs := checked "approval_refs" (fun l => zlength l <=? MAX_APPROVAL_GRANTS) refs in
  let! evidence := items "evidence_refs" PStableRef MAX_POLICY_EVIDENCE_REFS (pd_evidence_refs d) in
  Ok (mkDecision evaluation_id request_id (pd_status d) (pd_counterfactual_status d)
        (pd_executable d) command target opportunity action reasons version snapshot
        (pd_control_revision d) runtime evaluated valid (pd_requires_revalidation d) currency
        (pd_estimated_cost d) (pd_proposed_volume d) (pd_cost_remaining d)
        (pd_volume_remaining d) retry refs evidence).

(** [policy/evaluator.py:92-347 evaluate_policy] *)
Definition evaluate_policy (request : PolicyRequest) (snapshot : PolicySnapshot)
    (evaluated_at : datetime) : result PolicyDecision :=
  require! aware evaluated_at else ValueError "evaluated_at must be timezone-aware" in
  decision_validate (decision request snapshot evaluated_at).
End evaluator.

(** * Validation leaves a validated decision alone *)

Lemma PIdentifier_idem f a b : PIdentifier f a = Ok b -> PIdentifier f b = Ok b.
Proof. apply constr_idemp. Qed.
Lemma EvaluationIdentifier_idem f a b :
  EvaluationIdentifier f a = Ok b -> EvaluationIdentifier f b = Ok b.
Proof. apply constr_idemp. Qed.
Lemma PStableRef_idem f a b : PStableRef f a = Ok b -> PStableRef f b = Ok b.
Proof. apply constr_idemp. Qed.
Lemma PShortCode_idem f a b : PShortCode f a = Ok b -> PShortCode f b = Ok b.
Proof. apply constr_idemp. Qed.
Lemma PFingerprint_idem f a b : PFingerprint f a = Ok b -> PFingerprint f b = Ok b.
Proof. apply matching_idemp. Qed.
Lemma CommandName_idem f a b : CommandName f a = Ok b -> CommandName f b = Ok b.
Proof. apply matching_idemp. Qed.
Lemma Currency_idem f a b : Currency f a = Ok b -> Currency f b = Ok b.
Proof. apply matching_idemp. Qed.

#[export] Hint Resolve PIdentifier_idem EvaluationIdentifier_idem PStableRef_idem PShortCode_idem
  PFingerprint_idem CommandName_idem Currency_idem : kivou.

Lemma items_idem field f n l l' :
  (forall a b, f field a = Ok b -> f field b = Ok b) ->
  items field f n l = Ok l' -> items field f n l' = Ok l'.
Proof.
  intros Hf. unfold items. intros H. inv_result.
  pose proof H as H'. apply checked_Ok in H' as [_ ->].
  by erewrite (mapM_result_idem _ Hf) by done.
Qed.

Lemma ref_validate_idem a b : ref_validate a = Ok b -> ref_validate b = Ok b.
Proof.
  unfold ref_validate. intros H. inv_result. cbn -[PIdentifier PFingerprint].
  erewrite PIdentifier_idem by done. cbn [result_bind]. by erewrite PFingerprint_idem by done.
Qed.

#[export] Hint Resolve items_idem ref_validate_idem : kivou.

(** Rewrites every validator of the goal applied to a value another run
    returned. *)
Ltac rewrite_validated :=
  repeat match goal with
  | H : ?f ?a = Ok ?b |- context [?f ?b] =>
      let E := fresh "E" in
      assert (E : f b = Ok b) by (eauto 4 with kivou); rewrite E; clear E H; cbn [result_bind]
  end.

Lemma decision_validate_idem d d' : decision_validate d = Ok d' -> decision_validate d' = Ok d'.
Proof.
  unfold decision_validate. intros H. inv_result.
  cbn -[EvaluationIdentifier PIdentifier CommandName PStableRef PFingerprint PShortCode Currency
        checked items opt_mapM mapM_result ref_validate].
  repeat match goal with E : checked "approval_refs" _ _ = Ok _ |- _ =>
    let H := fresh in pose proof E as H; apply checked_Ok in H as [_ ->] end.
  rewrite_validated. done.
Qed.
