(* ===== verification/PolicyFacts.v ===== *)
(** PolicyFacts: the declarative envelope of the policy, and the lemmas that
    relate it to the checks of [PolicyEvaluator]. *)

From S2P Require Import Prelude PyStr PyDatetime PyDecimal PyJson PolicyContracts.
From S2P Require Import PolicyEvaluator.

Local Open Scope string_scope.
Local Open Scope Z_scope.
Local Open Scope list_scope.

(** * Findings *)

(** No finding asks for a status. *)
Definition clear (l : list finding) : Prop := Forall (fun f => f.1 = None) l.

Lemma clear_app l l' : clear (l ++ l') <-> clear l /\ clear l'.
Proof. apply Forall_app. Qed.

Lemma clear_nil : clear [] <-> True.
Proof. split; [done | constructor]. Qed.

Lemma clear_when b s r : clear (when_finding b s r) <-> b = false.
Proof.
  destruct b; simpl; split; try done; [intros H; by inversion H | intros; constructor].
Qed.

Lemma clear_one s r : clear [(Some s, r)] <-> False.
Proof. split; [intros H; by inversion H | done]. Qed.

(** A finding never asks for APPROVED. *)
Definition unapproving (l : list finding) : Prop := Forall (fun f => f.1 <> Some APPROVED) l.

Lemma unapproving_app l l' : unapproving (l ++ l') <-> unapproving l /\ unapproving l'.
Proof. apply Forall_app. Qed.

Lemma unapproving_when b s r : s <> APPROVED -> unapproving (when_finding b s r).
Proof. intros Hs. destruct b; repeat constructor. simpl. congruence. Qed.

Lemma unapproving_one s r : s <> Some APPROVED -> unapproving [(s, r)].
Proof. intros Hs. by repeat constructor. Qed.

(** The first status asked for. *)
Lemma primary_approved (l : list finding) :
  unapproving l ->
  default APPROVED (first_match (fun _ => true) (omap fst l)) = APPROVED <-> clear l.
Proof.
  intros Hu. induction Hu as [|[[s|] r] l Hs Hl IH]; simpl in *.
  - split; [intros; constructor | done].
  - split; [congruence | intros H; by inversion H].
  - rewrite IH. unfold clear. rewrite Forall_cons. simpl. tauto.
Qed.

Lemma bool_decide_negb (P : Prop) `{Decision P} : negb (bool_decide P) = false <-> P.
Proof. rewrite negb_false_iff. apply bool_decide_eq_true. Qed.

Lemma or_guard (b : bool) (P : Prop) : (b = false \/ P) <-> (b = true -> P).
Proof. destruct b; naive_solver. Qed.

Section facts.
Context `{Hash : HashLib}.
Variables (request : PolicyRequest) (snapshot : PolicySnapshot) (evaluated_at : datetime).

#[local] Ltac unapprove :=
  repeat first
    [ apply unapproving_app; split | apply unapproving_when; done | apply Forall_nil_2
    | apply unapproving_one; done | case_goal; cbn [fst] ].

Lemma findings_unapproving : unapproving (findings request snapshot evaluated_at).
Proof.
  unfold findings, control_findings, scope_findings, evidence_findings, budget_findings,
    operational_findings, compliance_findings, action_findings. unapprove.
Qed.

Lemma unshadowed_approved :
  unshadowed_status request snapshot evaluated_at = APPROVED
  <-> clear (findings request snapshot evaluated_at).
Proof. apply primary_approved, findings_unapproving. Qed.

(** * The envelope *)

(** The assessment is in force: observed, not in the future, not expired. *)
Definition in_force (observed : datetime) (valid_until : option datetime) : Prop :=
  instant observed <= instant evaluated_at
  /\ match valid_until with Some v => instant evaluated_at < instant v | None => True end.

(** An unconsumed grant of the request for this purpose is bound to exactly
    this command, target, action, scope and control, and is current. *)
Definition granted (purpose : ApprovalPurpose) : Prop :=
  exists g, g ∈ pr_approval_grants request
  /\ gr_purpose g = purpose
  /\ gr_command g = pr_command request
  /\ gr_target_ref g = pr_target_ref request
  /\ gr_acquisition_opportunity_id g = pr_acquisition_opportunity_id request
  /\ gr_action_fingerprint g = pr_action_fingerprint request
  /\ gr_scope_fingerprint g = scope_fingerprint (pr_scope request)
  /\ gr_policy_version g = ps_policy_version snapshot
  /\ gr_policy_snapshot_id g = ps_policy_snapshot_id snapshot
  /\ gr_control_revision g = ps_control_revision snapshot
  /\ in_force (gr_issued_at g) (Some (gr_expires_at g))
  /\ gr_consumed_at g = None /\ gr_one_shot g = true.

Definition in_scope (value : option string) (allowed : list string) : Prop :=
  match value with Some v => v <> "" -> v ∈ allowed | None => True end.

(** What the policy allows a command of profile [p] to do, stated from the
    policy and not from the order of the checks. *)
Record permitted (p : CommandPolicy) : Prop := {
  pm_kill : ps_kill_switch snapshot = true -> cp_risk_class p <> COMMERCIAL_MUTATION;
  pm_read_only : ps_read_only snapshot = true -> cp_risk_class p <> COMMERCIAL_MUTATION;
  pm_command : pr_command request ∈ ps_allowed_commands snapshot;
  pm_target : match cp_target_scope p with
              | OPPORTUNITY => pr_acquisition_opportunity_id request <> None
              | GLOBAL | SIGNAL => pr_acquisition_opportunity_id request = None
              | EITHER => True
              end;
  pm_prefix : match cp_target_ref_prefix p with
              | Some prefix => prefix <> "" -> startswith (pr_target_ref request) prefix = true
              | None => True
              end;
  pm_country : in_scope (sc_country (pr_scope request)) (ps_allowed_countries snapshot);
  pm_language : in_scope (sc_language (pr_scope request)) (ps_allowed_languages snapshot);
  pm_wedge : in_scope (sc_wedge (pr_scope request)) (ps_allowed_wedges snapshot);
  pm_adaptive : pr_command request = "reallocate_volume" ->
    effective_mode snapshot = Some ADAPTIVE_VOLUME;
  pm_compliance : cp_requires_compliance p = true ->
    in_force (ca_observed_at (pr_compliance request)) (ca_valid_until (pr_compliance request))
    /\ (ca_state (pr_compliance request) = ComplianceALLOWED
        \/ (ca_state (pr_compliance request) = ComplianceREVIEW_REQUIRED
            /\ granted COMPLIANCE_REVIEW));
  pm_evidence : cp_required_evidence p <> [] ->
    in_force (ei_observed_at (pr_evidence request)) (ei_valid_until (pr_evidence request))
    /\ ei_status (pr_evidence request) = EvidenceREADY
    /\ Forall (fun item => item ∈ ei_claims (pr_evidence request)) (cp_required_evidence p);
  pm_budget : cp_uses_budget p = true ->
    pr_currency request = bd_currency (ps_budget snapshot)
    /\ dec_ltb (cost_remaining snapshot) (pr_proposed_cost request) = false;
  pm_volume : cp_uses_volume p = true ->
    pr_proposed_volume request <= volume_remaining snapshot;
  pm_operational : uses_operational p = true ->
    match on_valid_until (pr_operational request) with
    | Some v => instant evaluated_at < instant v
    | None => True
    end;
  pm_quota : cp_uses_provider_quota p || cp_uses_send_controls p = true ->
    on_provider_quota (pr_operational request) = QuotaREADY;
  pm_send : cp_uses_send_controls p = true ->
    on_mailbox_quota (pr_operational request) = QuotaREADY
    /\ on_send_window (pr_operational request) = WindowOPEN;
  pm_plane : cp_requires_control_plane p = true ->
    on_provider_control_plane (pr_operational request) = AVAILABLE;
  pm_action : cp_risk_class p = COMMERCIAL_MUTATION -> effective_mode snapshot = Some ASSISTED ->
    granted ACTION;
}.

Record envelope : Prop := {
  en_qa : ps_qa_signal_ref snapshot = None \/ pr_qa_signal_ref request = ps_qa_signal_ref snapshot;
  en_version : ps_policy_version snapshot = POLICY_VERSION
               /\ pr_expected_policy_version request = POLICY_VERSION;
  en_profile : exists p, command_policy (pr_command request) = Some p /\ permitted p;
}.

(** ** Checks and envelope *)

Lemma not_expired v :
  expired evaluated_at v = false <->
  match v with Some v => instant evaluated_at < instant v | None => True end.
Proof. destruct v; simpl; [apply Z.leb_gt | tauto]. Qed.

Lemma find_grant_Some purpose :
  is_Some (_find_grant request snapshot evaluated_at purpose) <-> granted purpose.
Proof.
  unfold _find_grant, granted. split.
  - intros [g Hg]. apply first_match_Some in Hg as [Hin H]. exists g. split; [done|].
    unfold _grant_matches in H. inv_result. unfold in_force, dt_leb, dt_ltb in *.
    repeat match goal with E : truthy _ = false |- _ => apply truthy_None in E end.
    split_and!; try done; lia.
  - intros (g & Hin & H). destruct (first_match _ _) eqn:E; [eauto|].
    exfalso. pose proof (first_match_None _ _ g E Hin) as Hm. revert Hm.
    destruct H as (H1 & H2 & H3 & H4 & H5 & H6 & H7 & H8 & H9 & [H10 H11] & H12 & H13).
    unfold _grant_matches. rewrite H1, H2, H3, H4, H5, H6, H7, H8, H9, H12, H13.
    rewrite !bool_decide_eq_true_2 by done. unfold dt_leb, dt_ltb. simpl in H11.
    rewrite Z.eqb_refl. rewrite (proj2 (Z.leb_le _ _)), (proj2 (Z.ltb_lt _ _)) by done. done.
Qed.

Lemma find_grant_None purpose :
  _find_grant request snapshot evaluated_at purpose = None <-> ~ granted purpose.
Proof.
  rewrite <- find_grant_Some. destruct (_find_grant _ _ _ _); split; eauto; try done.
  intros H. destruct H; eauto.
Qed.

Lemma out_of_scope_false v l : out_of_scope v l = false <-> in_scope v l.
Proof.
  destruct v as [v|]; simpl; [|tauto].
  rewrite andb_false_iff, negb_false_iff, in_list_true. destruct v; simpl; [|naive_solver].
  split; [done | intros; by left].
Qed.

Lemma existsb_missing (l claims : list string) :
  existsb (fun item => negb (in_list item claims)) l = false
  <-> Forall (fun item => item ∈ claims) l.
Proof.
  induction l as [|x l IH]; simpl; [split; [constructor | done]|].
  rewrite orb_false_iff, IH, negb_false_iff, in_list_true, Forall_cons. done.
Qed.

Lemma clear_control :
  clear (control_findings request snapshot) <->
  (ps_qa_signal_ref snapshot = None \/ pr_qa_signal_ref request = ps_qa_signal_ref snapshot)
  /\ (ps_policy_version snapshot = POLICY_VERSION
      /\ pr_expected_policy_version request = POLICY_VERSION)
  /\ exists p, command_policy (pr_command request) = Some p
     /\ (ps_kill_switch snapshot = true -> cp_risk_class p <> COMMERCIAL_MUTATION)
     /\ (ps_read_only snapshot = true -> cp_risk_class p <> COMMERCIAL_MUTATION).
Proof.
  unfold control_findings, safe_under_hard_stop, positive_mutation, profile.
  rewrite !clear_app, !clear_when, andb_false_iff, orb_false_iff, !bool_decide_negb, truthy_None.
  destruct (command_policy (pr_command request)) as [p|]; simpl.
  - rewrite andb_false_iff, bool_decide_eq_false.
    assert (Hkill : clear (if ps_kill_switch snapshot
        && negb (in_list (cp_risk_class p) [READ_ONLY; PREPARATORY; RISK_REDUCTION; HUMAN_REVIEW])
        then [(Some DENIED, "kill_switch_active")]
        else if ps_kill_switch snapshot then [(None, "kill_switch_active_safe_exception")] else [])
      <-> (ps_kill_switch snapshot = true -> cp_risk_class p <> COMMERCIAL_MUTATION)).
    { destruct (ps_kill_switch snapshot); simpl; [|by rewrite clear_nil].
      destruct (cp_risk_class p); simpl; rewrite ?clear_one; split; try done;
        try (intros _; by repeat constructor). intros H. by destruct H. }
    rewrite Hkill. destruct (ps_read_only snapshot); naive_solver congruence.
  - rewrite andb_true_r. split; [intros (_ & _ & _ & _ & ?); done | intros (_ & _ & ? & ? & _); done].
Qed.

Lemma clear_scope p :
  clear (scope_findings request snapshot p) <->
  pr_command request ∈ ps_allowed_commands snapshot
  /\ match cp_target_scope p with
     | OPPORTUNITY => pr_acquisition_opportunity_id request <> None
     | GLOBAL | SIGNAL => pr_acquisition_opportunity_id request = None
     | EITHER => True
     end
  /\ match cp_target_ref_prefix p with
     | Some prefix => prefix <> "" -> startswith (pr_target_ref request) prefix = true
     | None => True
     end
  /\ in_scope (sc_country (pr_scope request)) (ps_allowed_countries snapshot)
  /\ in_scope (sc_language (pr_scope request)) (ps_allowed_languages snapshot)
  /\ in_scope (sc_wedge (pr_scope request)) (ps_allowed_wedges snapshot)
  /\ (pr_command request = "reallocate_volume" -> effective_mode snapshot = Some ADAPTIVE_VOLUME).
Proof.
  unfold scope_findings.
  rewrite !clear_app, !clear_when, !out_of_scope_false, negb_false_iff, in_list_true.
  rewrite !andb_false_iff, bool_decide_negb, !bool_decide_eq_false.
  assert (Hp : match cp_target_ref_prefix p with
      | Some prefix => nonempty prefix && negb (startswith (pr_target_ref request) prefix)
      | None => false end = false <->
      match cp_target_ref_prefix p with
      | Some prefix => prefix <> "" -> startswith (pr_target_ref request) prefix = true
      | None => True end).
  { destruct (cp_target_ref_prefix p) as [prefix|]; [|tauto].
    rewrite andb_false_iff, negb_false_iff. destruct prefix; simpl; naive_solver. }
  rewrite Hp.
  assert (Ha : pr_command request <> "reallocate_volume"
               \/ effective_mode snapshot = Some ADAPTIVE_VOLUME <->
               (pr_command request = "reallocate_volume" ->
                effective_mode snapshot = Some ADAPTIVE_VOLUME)).
  { destruct (decide (pr_command request = "reallocate_volume")); naive_solver. }
  rewrite Ha. rewrite negb_false_iff, truthy_None, truthy_Some, <- not_eq_None_Some.
  destruct (cp_target_scope p); naive_solver.
Qed.

Lemma clear_compliance p :
  clear (compliance_findings request snapshot evaluated_at p).1 <->
  (cp_requires_compliance p = true ->
   in_force (ca_observed_at (pr_compliance request)) (ca_valid_until (pr_compliance request))
   /\ (ca_state (pr_compliance request) = ComplianceALLOWED
       \/ (ca_state (pr_compliance request) = ComplianceREVIEW_REQUIRED
           /\ granted COMPLIANCE_REVIEW))).
Proof.
  unfold compliance_findings, in_force. rewrite <- not_expired, <- Z.ltb_ge.
  destruct (cp_requires_compliance p); simpl; [|rewrite clear_nil; naive_solver].
  unfold dt_ltb. destruct (_ <? _); simpl; [rewrite clear_one; naive_solver|].
  destruct (expired _ _); simpl; [rewrite clear_one; naive_solver|].
  destruct (ca_state _); simpl; rewrite ?clear_one, ?clear_nil; try naive_solver.
  destruct (_find_grant _ _ _ COMPLIANCE_REVIEW) eqn:E; simpl; rewrite ?clear_one, ?clear_nil.
  - assert (granted COMPLIANCE_REVIEW) by (apply find_grant_Some; eauto). naive_solver.
  - apply find_grant_None in E. naive_solver.
Qed.

Lemma clear_evidence p :
  clear (evidence_findings request evaluated_at p) <->
  (cp_required_evidence p <> [] ->
   in_force (ei_observed_at (pr_evidence request)) (ei_valid_until (pr_evidence request))
   /\ ei_status (pr_evidence request) = EvidenceREADY
   /\ Forall (fun item => item ∈ ei_claims (pr_evidence request)) (cp_required_evidence p)).
Proof.
  unfold evidence_findings, in_force.
  rewrite <- not_expired, <- Z.ltb_ge, <- list_truthy_true, <- existsb_missing.
  destruct (list_truthy (cp_required_evidence p)); simpl; [|rewrite clear_nil; naive_solver].
  unfold dt_ltb. destruct (_ <? _); simpl; [rewrite clear_one; naive_solver|].
  destruct (expired _ _); simpl; [rewrite clear_one; naive_solver|].
  rewrite clear_when, orb_false_iff, bool_decide_negb. naive_solver.
Qed.

Lemma clear_budget p :
  clear (budget_findings request snapshot p) <->
  (cp_uses_budget p = true ->
     pr_currency request = bd_currency (ps_budget snapshot)
     /\ dec_ltb (cost_remaining snapshot) (pr_proposed_cost request) = false)
  /\ (cp_uses_volume p = true -> pr_proposed_volume request <= volume_remaining snapshot).
Proof.
  unfold budget_findings. rewrite !clear_app, !clear_when, !andb_false_iff, bool_decide_negb, Z.ltb_ge.
  rewrite !or_guard. tauto.
Qed.

Lemma clear_operational p :
  clear (operational_findings request evaluated_at p) <->
  (uses_operational p = true ->
     match on_valid_until (pr_operational request) with
     | Some v => instant evaluated_at < instant v
     | None => True
     end)
  /\ (cp_uses_provider_quota p || cp_uses_send_controls p = true ->
      on_provider_quota (pr_operational request) = QuotaREADY)
  /\ (cp_uses_send_controls p = true ->
      on_mailbox_quota (pr_operational request) = QuotaREADY
      /\ on_send_window (pr_operational request) = WindowOPEN)
  /\ (cp_requires_control_plane p = true ->
      on_provider_control_plane (pr_operational request) = AVAILABLE).
Proof.
  unfold operational_findings. rewrite <- not_expired.
  destruct (uses_operational p) eqn:Hu; [destruct (expired _ _)|]; simpl;
    rewrite ?clear_one, ?clear_app, ?clear_when, ?andb_false_iff, ?bool_decide_negb, ?or_guard.
  - split; [done|]. intros [H _]. by specialize (H eq_refl).
  - tauto.
  - split; [|tauto]. intros; split; [done | tauto].
Qed.

Lemma clear_action p :
  clear (action_findings request snapshot evaluated_at p).1 <->
  (cp_risk_class p = COMMERCIAL_MUTATION -> effective_mode snapshot = Some ASSISTED ->
   granted ACTION).
Proof.
  unfold action_findings, action_required.
  destruct (bool_decide (cp_risk_class p = COMMERCIAL_MUTATION)) eqn:E1;
    [apply bool_decide_eq_true in E1 | apply bool_decide_eq_false in E1; simpl; rewrite clear_nil; naive_solver].
  destruct (bool_decide (effective_mode snapshot = Some ASSISTED)) eqn:E2;
    [apply bool_decide_eq_true in E2 | apply bool_decide_eq_false in E2; simpl; rewrite clear_nil; naive_solver].
  simpl. destruct (_find_grant _ _ _ ACTION) eqn:E; simpl; rewrite ?clear_one, ?clear_nil.
  - assert (granted ACTION) by (apply find_grant_Some; eauto). naive_solver.
  - apply find_grant_None in E. naive_solver.
Qed.

(** The checks find nothing exactly when the envelope is satisfied. *)
Lemma clear_findings : clear (findings request snapshot evaluated_at) <-> envelope.
Proof.
  unfold findings. rewrite clear_app, clear_control. unfold profile. split.
  - intros ((Hqa & Hv & p & Hp & Hk & Hr) & H). rewrite Hp in H.
    rewrite !clear_app, clear_scope, clear_compliance, clear_evidence, clear_budget,
      clear_operational, clear_action in H.
    destruct H as ((? & ? & ? & ? & ? & ? & ?) & ? & ? & (? & ?) & (? & ? & ? & ?) & ?).
    constructor; try done. exists p. split; [done|]. by constructor.
  - intros [Hqa [Hv1 Hv2] (p & Hp & H)]. rewrite Hp. destruct H.
    split; [split_and!; try done; exists p; by split_and!|].
    rewrite !clear_app, clear_scope, clear_compliance, clear_evidence, clear_budget,
      clear_operational, clear_action. by split_and!.
Qed.

Lemma allowed_spec :
  allowed (decision request snapshot evaluated_at) = true
  <-> ps_autonomy_mode snapshot <> SHADOW /\ envelope.
Proof.
  unfold allowed, decision, final_status. cbn [pd_status pd_executable].
  destruct (bool_decide (ps_autonomy_mode snapshot = SHADOW)) eqn:Hs;
    [apply bool_decide_eq_true in Hs | apply bool_decide_eq_false in Hs]; simpl.
  - rewrite !andb_false_r. naive_solver.
  - rewrite andb_true_r, andb_diag, bool_decide_eq_true, unshadowed_approved, clear_findings.
    naive_solver.
Qed.
End facts.
