(* ===== verification/PolicyTheorems.v ===== *)
(** PolicyTheorems: the correctness properties of the policy evaluator. *)

From S2P Require Import Prelude PyStr PyDatetime PyDatetimeFacts PyDecimal PyJson.
From S2P Require Import PolicyContracts PolicyEvaluator PolicyFacts.
From S2P Require AcquisitionContracts.

Local Open Scope string_scope.
Local Open Scope Z_scope.
Local Open Scope list_scope.

(** * Totality *)

(** A request whose fields are inside their declared bounds. *)
Record request_ok (r : PolicyRequest) : Prop := {
  rk_evaluation : EvaluationIdentifier "evaluation_id" (pr_evaluation_id r) = Ok (pr_evaluation_id r);
  rk_request : PIdentifier "request_id" (pr_request_id r) = Ok (pr_request_id r);
  rk_command : CommandName "command" (pr_command r) = Ok (pr_command r);
  rk_target : PStableRef "target_ref" (pr_target_ref r) = Ok (pr_target_ref r);
  rk_opportunity : opt_mapM (PIdentifier "acquisition_opportunity_id")
    (pr_acquisition_opportunity_id r) = Ok (pr_acquisition_opportunity_id r);
  rk_action : PFingerprint "action_fingerprint" (pr_action_fingerprint r)
              = Ok (pr_action_fingerprint r);
  rk_currency : Currency "currency" (pr_currency r) = Ok (pr_currency r);
  rk_evidence_refs : items "evidence_refs" PStableRef MAX_POLICY_EVIDENCE_REFS (pr_evidence_refs r)
                     = Ok (pr_evidence_refs r);
  rk_runtime : PShortCode "runtime_revision" (on_runtime_revision (pr_operational r))
               = Ok (on_runtime_revision (pr_operational r));
  rk_retry : AcquisitionContracts._aware (on_retry_after (pr_operational r)) = true;
  rk_dates : Forall (fun d => AcquisitionContracts._aware d = true)
    [ei_valid_until (pr_evidence r); ca_valid_until (pr_compliance r);
     on_valid_until (pr_operational r)];
  rk_grants : Forall (fun g => PIdentifier "approval_id" (gr_approval_id g) = Ok (gr_approval_id g)
                               /\ aware (gr_expires_at g) = true) (pr_approval_grants r);
}.

Record snapshot_ok (s : PolicySnapshot) : Prop := {
  sk_version : PShortCode "policy_version" (ps_policy_version s) = Ok (ps_policy_version s);
  sk_id : PIdentifier "policy_snapshot_id" (ps_policy_snapshot_id s) = Ok (ps_policy_snapshot_id s);
  sk_dates : Forall (fun d => AcquisitionContracts._aware d = true)
    [ps_expires_at s; bd_period_end (ps_budget s)];
}.

(** Every reason the evaluator can give. *)
Definition reason_vocabulary : list string :=
  ["qa_signal_scope_mismatch"; "kill_switch_active"; "kill_switch_active_safe_exception";
   "read_only_mutation_blocked"; "unsupported_policy_version"; "unknown_command";
   "command_not_allowed"; "opportunity_required"; "global_command_scope_mismatch";
   "signal_command_scope_mismatch"; "signal_target_invalid"; "country_not_allowed";
   "language_not_allowed"; "wedge_not_allowed"; "adaptive_volume_required";
   "compliance_assessment_future_dated"; "compliance_assessment_expired"; "compliance_blocked";
   "compliance_state_unknown"; "compliance_review_approval_required"; "evidence_future_dated";
   "evidence_expired"; "insufficient_evidence"; "currency_mismatch"; "daily_cost_cap_exceeded";
   "daily_volume_cap_exceeded"; "operational_readiness_expired"; "provider_quota_unavailable";
   "mailbox_quota_unavailable"; "send_window_unavailable"; "provider_control_plane_unavailable";
   "action_approval_required"; "shadow_mode_execution_blocked"; "policy_envelope_satisfied"].

Lemma vocabulary_ok : Forall (fun r => PShortCode "reason_codes" r = Ok r) reason_vocabulary.
Proof. by repeat constructor. Qed.

Section theorems.
Context `{Hash : HashLib}.
Variables (r : PolicyRequest) (s : PolicySnapshot) (t : datetime).

Definition spoken (l : list finding) : Prop := Forall (fun f => f.2 ∈ reason_vocabulary) l.

Lemma spoken_app l l' : spoken (l ++ l') <-> spoken l /\ spoken l'.
Proof. apply Forall_app. Qed.

Lemma spoken_when b st reason : reason ∈ reason_vocabulary -> spoken (when_finding b st reason).
Proof. intros H. destruct b; [by apply Forall_singleton | apply Forall_nil_2]. Qed.

Lemma spoken_one st reason : reason ∈ reason_vocabulary -> spoken [(st, reason)].
Proof. intros H. by apply Forall_singleton. Qed.

#[local] Ltac speak := apply in_list_true; vm_compute; reflexivity.

Lemma findings_spoken : spoken (findings r s t).
Proof.
  unfold findings, control_findings, scope_findings, evidence_findings, budget_findings,
    operational_findings, compliance_findings, action_findings.
  repeat first
    [ apply spoken_app; split | apply spoken_when; speak | apply Forall_nil_2
    | apply spoken_one; speak | case_goal; cbn [fst] ].
Qed.

Lemma final_reasons_spoken : Forall (fun x => x ∈ reason_vocabulary) (final_reasons r s t).
Proof.
  apply Forall_forall. intros x Hx. unfold final_reasons, _dedupe in Hx.
  rewrite elem_of_dict_fromkeys in Hx. destruct (list_truthy _).
  - apply elem_of_app in Hx as [Hx|Hx].
    + apply list_elem_of_fmap in Hx as (f & -> & Hf).
      pose proof findings_spoken as Hs. unfold spoken in Hs. rewrite Forall_forall in Hs. auto.
    + destruct (_ && _); [|by apply not_elem_of_nil in Hx].
      apply list_elem_of_singleton in Hx as ->. speak.
  - apply list_elem_of_singleton in Hx as ->. speak.
Qed.

Lemma find_grant_In purpose g : _find_grant r s t purpose = Some g -> g ∈ pr_approval_grants r.
Proof. intros H. by apply first_match_Some in H as [? _]. Qed.

Lemma used_grants_In g : g ∈ used_grants r s t -> g ∈ pr_approval_grants r.
Proof.
  unfold used_grants, compliance_findings, action_findings.
  repeat case_goal; cbn [fst snd app]; rewrite ?elem_of_cons, ?elem_of_nil;
    intros H; decompose [or] H; subst; try done; by eapply find_grant_In.
Qed.

Lemma used_grants_length : (length (used_grants r s t) <= 2)%nat.
Proof.
  unfold used_grants, compliance_findings, action_findings.
  repeat case_goal; cbn; lia.
Qed.

(** ** The end of validity *)

Lemma dt_min_spec l :
  match dt_min l with
  | None => l = []
  | Some v => v ∈ l /\ forall x, x ∈ l -> instant v <= instant x
  end.
Proof.
  destruct l as [|v l]; [done|]. simpl.
  enough (forall l m, (foldl (fun m x => if dt_ltb x m then x else m) m l) ∈ m :: l
    /\ forall x, x ∈ m :: l ->
       instant (foldl (fun m x => if dt_ltb x m then x else m) m l) <= instant x) as H by apply H.
  clear. induction l as [|y l IH]; intros m; simpl.
  - split; [set_solver|]. intros x Hx. apply list_elem_of_singleton in Hx as ->. lia.
  - unfold dt_ltb at 2 4. destruct (Z.ltb_spec (instant y) (instant m)) as [Hlt|Hge].
    + destruct (IH y) as [Hin Hmin]. split; [set_solver|].
      intros x Hx. apply elem_of_cons in Hx as [->|Hx]; [|by apply Hmin].
      pose proof (Hmin y ltac:(set_solver)). lia.
    + destruct (IH m) as [Hin Hmin]. split; [set_solver|].
      intros x Hx. apply elem_of_cons in Hx as [->|Hx]; [by apply Hmin; set_solver|].
      apply elem_of_cons in Hx as [->|Hx]; [|by apply Hmin; set_solver].
      pose proof (Hmin m ltac:(set_solver)). lia.
Qed.

Lemma elem_of_omap_id {A} (l : list (option A)) (x : A) : x ∈ omap id l <-> Some x ∈ l.
Proof.
  rewrite list_elem_of_omap. unfold id. split; [intros (o & Ho & ->) | intros Hx; exists (Some x)]; done.
Qed.

Lemma guard_Some {A} (b : bool) (o : option A) (d : A) :
  Some d = (if b then o else None) <-> b = true /\ o = Some d.
Proof. destruct b; naive_solver. Qed.

Lemma elem_of_boundaries d :
  d ∈ boundaries r s t <->
  ps_expires_at s = Some d
  \/ (flag r (fun p => cp_uses_budget p || cp_uses_volume p) = true
      /\ bd_period_end (ps_budget s) = Some d)
  \/ (flag r (fun p => list_truthy (cp_required_evidence p)) = true
      /\ ei_valid_until (pr_evidence r) = Some d)
  \/ (flag r cp_requires_compliance = true /\ ca_valid_until (pr_compliance r) = Some d)
  \/ (flag r uses_operational = true /\ on_valid_until (pr_operational r) = Some d)
  \/ exists g, g ∈ used_grants r s t /\ d = gr_expires_at g.
Proof.
  unfold boundaries. rewrite elem_of_omap_id, elem_of_app, !elem_of_cons, elem_of_nil, !guard_Some.
  assert (Hg : Some d ∈ map (fun g => Some (gr_expires_at g)) (used_grants r s t)
    <-> exists g, g ∈ used_grants r s t /\ d = gr_expires_at g).
  { rewrite list_elem_of_fmap. split.
    - intros (g & [= ->] & Hg). eauto.
    - intros (g & Hg & ->). eauto. }
  rewrite Hg. assert (Hs : Some d = ps_expires_at s <-> ps_expires_at s = Some d) by done.
  tauto.
Qed.

Lemma boundaries_aware :
  request_ok r -> snapshot_ok s -> Forall (fun d => aware d = true) (boundaries r s t).
Proof.
  intros Hr Hs. apply Forall_forall. intros d Hd. rewrite elem_of_boundaries in Hd.
  pose proof (rk_dates r Hr) as H1. pose proof (sk_dates s Hs) as H2.
  pose proof (rk_grants r Hr) as H3.
  rewrite !Forall_cons in H1. rewrite !Forall_cons in H2. rewrite Forall_forall in H3.
  destruct H1 as (He & Hc & Ho & _), H2 as (Hx & Hp & _).
  destruct Hd as [Hd|[[_ Hd]|[[_ Hd]|[[_ Hd]|[[_ Hd]|(g & Hg & ->)]]]]];
    try (by rewrite Hd in *).
  by apply H3, used_grants_In.
Qed.

(** ** Building the decision object *)

(** The fields validation never changes. *)
Lemma decision_validate_fields d d' :
  decision_validate d = Ok d' ->
  pd_status d' = pd_status d /\ pd_executable d' = pd_executable d
  /\ pd_counterfactual_status d' = pd_counterfactual_status d
  /\ pd_valid_until d' = pd_valid_until d.
Proof.
  unfold decision_validate. intros H. inv_result.
  repeat match goal with E : checked _ _ _ = Ok _ |- _ => apply checked_Ok in E as [? ->] end.
  done.
Qed.

Lemma refs_ok :
  request_ok r ->
  mapM_result ref_validate (sorted_by ref_leb (map approval_ref (used_grants r s t)))
  = Ok (sorted_by ref_leb (map approval_ref (used_grants r s t))).
Proof.
  intros Hr. apply mapM_result_id, Forall_forall. intros a Ha.
  rewrite elem_of_sorted_by in Ha. apply list_elem_of_fmap in Ha as (g & -> & Hg).
  pose proof (rk_grants r Hr) as Hgs. rewrite Forall_forall in Hgs.
  destruct (Hgs g (used_grants_In g Hg)) as [Hid _].
  unfold ref_validate, approval_ref. cbn [ap_approval_id ap_binding_fingerprint].
  rewrite Hid. cbn [result_bind]. unfold PFingerprint, matching.
  assert (Hf : is_fingerprint (approval_binding_fingerprint g) = true).
  { apply finite_sha256_fingerprint. cbn. by destruct (gr_acquisition_opportunity_id g), (gr_consumed_at g). }
  by rewrite (is_fingerprint_strip _ Hf), Hf.
Qed.

Lemma evaluate_policy_decision :
  request_ok r -> snapshot_ok s -> aware t = true ->
  evaluate_policy r s t = Ok (decision r s t).
Proof.
  intros Hr Hs Ht. unfold evaluate_policy. rewrite Ht. unfold decision_validate, decision.
  cbn -[EvaluationIdentifier PIdentifier CommandName PStableRef PFingerprint PShortCode Currency
        checked items opt_mapM mapM_result].
  rewrite (rk_evaluation r Hr), (rk_request r Hr), (rk_command r Hr), (rk_target r Hr),
    (rk_opportunity r Hr), (rk_action r Hr). cbn [result_bind].
  rewrite mapM_result_id.
  2: { eapply Forall_impl; [apply final_reasons_spoken|]. intros x Hx.
       pose proof vocabulary_ok as Hv. rewrite Forall_forall in Hv. auto. }
  rewrite (sk_version s Hs), (sk_id s Hs), (rk_runtime r Hr), (rk_currency r Hr). cbn [result_bind].
  rewrite (checked_id "evaluated_at") by done. cbn [result_bind].
  rewrite (checked_id "valid_until"); [cbn [result_bind]|].
  2: { unfold _known_boundaries. pose proof (dt_min_spec (boundaries r s t)) as Hm.
       destruct (dt_min _) as [v|]; [|done]. pose proof (boundaries_aware Hr Hs) as Ha.
       rewrite Forall_forall in Ha. apply Ha, Hm. }
  rewrite (checked_id "retry_after"); [cbn [result_bind]|].
  2: { case_bool_decide; [apply (rk_retry r Hr) | done]. }
  rewrite (refs_ok Hr). cbn [result_bind].
  rewrite (checked_id "approval_refs"); [cbn [result_bind]|].
  2: { apply Z.leb_le. unfold zlength. rewrite length_sorted_by, length_map.
       pose proof used_grants_length. unfold MAX_APPROVAL_GRANTS. lia. }
  by rewrite (rk_evidence_refs r Hr).
Qed.

Lemma evaluated d :
  evaluate_policy r s t = Ok d ->
  aware t = true /\ pd_status d = pd_status (decision r s t)
  /\ allowed d = allowed (decision r s t)
  /\ pd_executable d = pd_executable (decision r s t)
  /\ pd_counterfactual_status d = pd_counterfactual_status (decision r s t)
  /\ pd_valid_until d = pd_valid_until (decision r s t).
Proof.
  unfold evaluate_policy. intros H. inv_result.
  apply decision_validate_fields in H as (H1 & H2 & H3 & H4).
  unfold allowed. rewrite H1, H2, H3, H4. done.
Qed.
End theorems.

Section claims.
Context `{Hash : HashLib}.

(** C29 (termination).  The evaluator always answers: for a request and a
    snapshot within their declared bounds and an aware evaluation time it
    returns a decision, never an error, and that decision carries at least
    one reason, each reason once, all of them from the closed vocabulary. *)
Theorem evaluate_policy_total (r : PolicyRequest) (s : PolicySnapshot) (t : datetime) :
  request_ok r -> snapshot_ok s -> aware t = true ->
  exists d, evaluate_policy r s t = Ok d
  /\ pd_reason_codes d <> [] /\ NoDup (pd_reason_codes d)
  /\ Forall (fun x => x ∈ reason_vocabulary) (pd_reason_codes d).
Proof.
  intros Hr Hs Ht. exists (decision r s t). split; [by apply evaluate_policy_decision|].
  cbn [pd_reason_codes decision]. split_and!.
  - unfold final_reasons, _dedupe. rewrite dict_fromkeys_nil.
    destruct (list_truthy _) eqn:E; [by apply list_truthy_true | done].
  - apply NoDup_dict_fromkeys.
  - apply final_reasons_spoken.
Qed.

(** C5 (refinement).  The checks of the evaluator implement the
    declarative policy envelope: a decision is allowed exactly when the
    control is not in SHADOW and every rule of the envelope holds - kill
    switch and read-only respected, command and scope allowed, compliance
    and evidence in force, cost and volume within the daily remainder,
    providers ready, and a matching unconsumed grant where an approval is
    asked for. *)
Theorem allowed_iff_envelope (r : PolicyRequest) (s : PolicySnapshot) (t : datetime)
    (d : PolicyDecision) :
  evaluate_policy r s t = Ok d ->
  allowed d = true <-> ps_autonomy_mode s <> SHADOW /\ envelope r s t.
Proof. intros H. apply evaluated in H as (_ & _ & -> & _). apply allowed_spec. Qed.

(** The same control out of SHADOW, in its target mode. *)
Definition unshadow (s : PolicySnapshot) (m : AutonomyMode) : PolicySnapshot :=
  mkSnapshot (ps_policy_snapshot_id s) (ps_control_revision s) (ps_policy_version s)
    (ps_captured_at s) (ps_expires_at s) m None (ps_read_only s) (ps_kill_switch s)
    (ps_qa_signal_ref s) (ps_allowed_commands s) (ps_allowed_countries s)
    (ps_allowed_languages s) (ps_allowed_wedges s) (ps_budget s) (ps_runtime_revision s).

Lemma effective_mode_unshadow s m :
  ps_autonomy_mode s = SHADOW -> ps_shadow_target_mode s = Some m -> m <> SHADOW ->
  effective_mode (unshadow s m) = effective_mode s.
Proof.
  intros Hm Hs Hne. unfold effective_mode. rewrite Hm, Hs. cbn [unshadow ps_autonomy_mode].
  rewrite (bool_decide_eq_false_2 (m = SHADOW)) by done.
  by rewrite bool_decide_eq_true_2 by done.
Qed.

Lemma findings_unshadow r s m t :
  ps_autonomy_mode s = SHADOW -> ps_shadow_target_mode s = Some m -> m <> SHADOW ->
  findings r (unshadow s m) t = findings r s t.
Proof.
  intros Hm Hs Hne. unfold findings, scope_findings, action_findings, action_required.
  rewrite (effective_mode_unshadow s m Hm Hs Hne). done.
Qed.

(** SHADOW is a faithful rehearsal that can never act: a
    decision taken in SHADOW is not executable and not APPROVED, and its
    counterfactual status is exactly the status the same request would get
    from the same control in its target mode. *)
Theorem shadow_rehearses (r : PolicyRequest) (s : PolicySnapshot) (m : AutonomyMode)
    (t : datetime) (d d' : PolicyDecision) :
  ps_autonomy_mode s = SHADOW -> ps_shadow_target_mode s = Some m -> m <> SHADOW ->
  evaluate_policy r s t = Ok d -> evaluate_policy r (unshadow s m) t = Ok d' ->
  allowed d = false /\ pd_executable d = false /\ pd_status d <> APPROVED
  /\ pd_counterfactual_status d = Some (pd_status d').
Proof.
  intros Hm Hs Hne H H'. apply evaluated in H as (_ & Hst & Hal & Hex & Hcf & _).
  apply evaluated in H' as (_ & Hst' & _).
  rewrite Hst, Hal, Hex, Hcf, Hst'. unfold allowed, decision, final_status, counterfactual.
  cbn [pd_status pd_executable pd_counterfactual_status].
  rewrite Hm. cbn [unshadow ps_autonomy_mode]. rewrite (bool_decide_eq_true_2 (SHADOW = SHADOW)) by done.
  rewrite (bool_decide_eq_false_2 (m = SHADOW)) by done. simpl. rewrite !andb_false_r.
  split_and!; try done.
  - case_bool_decide; [done | done].
  - unfold unshadowed_status. by rewrite findings_unshadow.
Qed.

(** The commands whose risk class is a commercial mutation. *)
Definition mutating_commands : list string :=
  ["prepare_campaign"; "schedule_campaign"; "execute_provider_operations"; "reallocate_volume"].

Lemma mutating_profile c :
  c ∈ mutating_commands ->
  exists p, command_policy c = Some p /\ cp_risk_class p = COMMERCIAL_MUTATION.
Proof.
  unfold mutating_commands. rewrite !elem_of_cons, elem_of_nil.
  intros [->|[->|[->|[->|[]]]]]; eexists; split; reflexivity.
Qed.

(** C29 (safety).  The hard stops hold: with the kill switch on, or the
    control read-only, no request to prepare or schedule a campaign, to
    execute provider operations or to reallocate volume is ever allowed,
    whatever grants it carries. *)
Theorem hard_stop_blocks_mutations (r : PolicyRequest) (s : PolicySnapshot) (t : datetime)
    (d : PolicyDecision) :
  evaluate_policy r s t = Ok d -> ps_kill_switch s || ps_read_only s = true ->
  pr_command r ∈ mutating_commands -> allowed d = false.
Proof.
  intros H Hstop Hc. apply evaluated in H as (_ & _ & -> & _).
  destruct (allowed (decision r s t)) eqn:E; [|done].
  apply allowed_spec in E as [_ [_ _ (p & Hp & Hperm)]].
  apply mutating_profile in Hc as (p' & Hp' & Hrisk). rewrite Hp in Hp'. injection Hp' as <-.
  apply orb_true_iff in Hstop as [Hk|Hk];
    [by destruct (pm_kill _ _ _ _ Hperm Hk) | by destruct (pm_read_only _ _ _ _ Hperm Hk)].
Qed.

(** An allowed command never overdraws the day: when it uses
    the budget, what was spent plus its proposed cost is at most the daily
    cap, exactly, in millionths of the currency, and in the currency of the
    cap; when it uses volume, the same holds of the volume.  The amounts are
    the ones the Numeric(18, 6) columns hold. *)
Theorem allowed_within_budget (r : PolicyRequest) (s : PolicySnapshot) (t : datetime)
    (d : PolicyDecision) (p : CommandPolicy) :
  evaluate_policy r s t = Ok d -> allowed d = true -> command_policy (pr_command r) = Some p ->
  money (bd_cost_cap (ps_budget s)) -> money (bd_cost_used (ps_budget s)) ->
  money (pr_proposed_cost r) ->
  (cp_uses_budget p = true ->
     pr_currency r = bd_currency (ps_budget s)
     /\ micros (bd_cost_used (ps_budget s)) + micros (pr_proposed_cost r)
        <= micros (bd_cost_cap (ps_budget s)))
  /\ (cp_uses_volume p = true ->
      bd_volume_used (ps_budget s) + pr_proposed_volume r <= bd_volume_cap (ps_budget s)).
Proof.
  intros H Ha Hp Hcap Hused Hcost. apply evaluated in H as (_ & _ & Hal & _). rewrite Hal in Ha.
  apply allowed_spec in Ha as [_ [_ _ (p' & Hp' & Hperm)]].
  rewrite Hp in Hp'. injection Hp' as <-. split; intros Hu.
  - destruct (pm_budget _ _ _ _ Hperm Hu) as [Hcur Hlt]. split; [done|].
    unfold cost_remaining in Hlt. destruct (dec_sub_micros _ _ Hcap Hused) as [Hm He].
    destruct Hcost as [Hce _].
    destruct (Z.le_gt_cases (micros (bd_cost_used (ps_budget s)) + micros (pr_proposed_cost r))
                (micros (bd_cost_cap (ps_budget s)))) as [|Hgt]; [done|].
    exfalso. apply not_true_iff_false in Hlt. apply Hlt.
    apply (dec_ltb_micros _ _ He Hce). lia.
  - pose proof (pm_volume _ _ _ _ Hperm Hu). unfold volume_remaining in *. lia.
Qed.

(** The boundaries an allowed decision was checked against are ahead. *)
Lemma permitted_boundaries r s t p d :
  command_policy (pr_command r) = Some p -> permitted r s t p ->
  (forall e, ps_expires_at s = Some e -> instant t < instant e) ->
  (forall e, bd_period_end (ps_budget s) = Some e -> instant t < instant e) ->
  d ∈ boundaries r s t -> instant t < instant d.
Proof.
  intros Hp Hperm Hexp Hend Hd. rewrite elem_of_boundaries in Hd.
  unfold flag, profile in Hd. rewrite Hp in Hd.
  destruct Hd as [Hd|[[_ Hd]|[[Hf Hd]|[[Hf Hd]|[[Hf Hd]|(g & Hg & ->)]]]]]; auto.
  - apply list_truthy_true in Hf. pose proof (pm_evidence _ _ _ _ Hperm Hf) as [[_ He] _].
    by rewrite Hd in He.
  - pose proof (pm_compliance _ _ _ _ Hperm Hf) as [[_ Hc] _]. by rewrite Hd in Hc.
  - pose proof (pm_operational _ _ _ _ Hperm Hf) as Ho. by rewrite Hd in Ho.
  - unfold used_grants, profile in Hg. rewrite Hp in Hg.
    assert (Hmatch : exists purpose, _grant_matches r s t purpose g = true).
    { apply elem_of_app in Hg as [Hg|Hg]; [exists COMPLIANCE_REVIEW | exists ACTION];
        unfold compliance_findings, action_findings in Hg; revert Hg;
        repeat case_goal; cbn [snd]; rewrite ?elem_of_nil, ?list_elem_of_singleton; try done;
        intros ->; match goal with E : _find_grant _ _ _ _ = Some _ |- _ =>
          by apply first_match_Some in E as [_ ?] end. }
    destruct Hmatch as [purpose Hm]. unfold _grant_matches in Hm. inv_result.
    match goal with E : dt_ltb t _ = true |- _ => unfold dt_ltb in E end. lia.
Qed.

(** A decision is never born stale and never outlives what it
    rests on: when the control and the budget period are still running at
    the evaluation time, an allowed decision is valid strictly beyond that
    time, and in every case its end of validity is at most every date it
    depends on - the control's expiry, the budget day, the evidence, the
    compliance assessment, the operational readiness and each grant used. *)
Theorem valid_until_sound (r : PolicyRequest) (s : PolicySnapshot) (t : datetime)
    (d : PolicyDecision) (v : datetime) :
  evaluate_policy r s t = Ok d -> pd_valid_until d = Some v ->
  (forall e, e ∈ boundaries r s t -> instant v <= instant e)
  /\ (allowed d = true ->
      (forall e, ps_expires_at s = Some e -> instant t < instant e) ->
      (forall e, bd_period_end (ps_budget s) = Some e -> instant t < instant e) ->
      instant t < instant v).
Proof.
  intros H Hv. apply evaluated in H as (_ & _ & Hal & _ & _ & Hvu). rewrite Hvu in Hv.
  cbn [decision pd_valid_until] in Hv. unfold _known_boundaries in Hv.
  pose proof (dt_min_spec (boundaries r s t)) as Hm. rewrite Hv in Hm. destruct Hm as [Hin Hmin].
  split; [exact Hmin|]. intros Ha Hexp Hend. rewrite Hal in Ha.
  apply allowed_spec in Ha as [_ [_ _ (p & Hp & Hperm)]].
  by eapply permitted_boundaries.
Qed.
End claims.

(** * A request that satisfies the hypotheses *)

Module PolicySample.
#[export] Existing Instance LengthHash.

Definition now : datetime := mkdt 2026 3 1 9 0 0 0 (Some 0).
Definition earlier : datetime := mkdt 2026 3 1 8 0 0 0 (Some 0).
Definition later : datetime := mkdt 2026 3 1 18 0 0 0 (Some 0).
Definition tomorrow : datetime := mkdt 2026 3 2 0 0 0 0 (Some 0).

Definition scope : Scope := mkScope (Some "FR") (Some "fr") None.
Definition fp : string := pad_digits 64 7.

Definition grant : ApprovalGrant :=
  mkGrant "grant-1" ACTION "schedule_campaign" "camp-1" (Some "opp-1") fp POLICY_VERSION "snap-1" 3
    (scope_fingerprint scope) earlier later true None "human:alice".

Definition request : PolicyRequest :=
  mkPolicyRequest "eval-1" "req-1" "schedule_campaign" "camp-1" (Some "opp-1") None (Some 4) "HERMES"
    None "{}" fp scope (mkdec 250 (-2)) "EUR" 20 [] ["ev-1"]
    (mkEvidence EvidenceREADY (cp_required_evidence sending_policy) "v1" earlier (Some later))
    (mkCompliance ComplianceALLOWED "v1" earlier None)
    (mkOperational "rt-1" QuotaREADY QuotaREADY WindowOPEN AVAILABLE None None)
    POLICY_VERSION [grant] None None None None.

Definition snapshot_in (mode : AutonomyMode) (target : option AutonomyMode) (kill : bool)
  : PolicySnapshot :=
  mkSnapshot "snap-1" 3 POLICY_VERSION now (Some later) mode target false kill None
    ["schedule_campaign"; "pause_campaign"] ["FR"] ["fr"] []
    (mkBudget (mkdt 2026 3 1 0 0 0 0 (Some 0)) (Some tomorrow) "EUR" (mkdec 100 0) (mkdec 4000 (-2))
       50 10) "rt-1".

Definition snapshot : PolicySnapshot := snapshot_in ASSISTED None false.

Lemma request_is_ok : request_ok request.
Proof. constructor; try (vm_compute; reflexivity); by repeat constructor. Qed.

Lemma snapshot_is_ok mode target kill : snapshot_ok (snapshot_in mode target kill).
Proof. constructor; try (vm_compute; reflexivity); by repeat constructor. Qed.

Definition decided : PolicyDecision := decision request snapshot now.

Lemma evaluated_in mode target kill :
  evaluate_policy request (snapshot_in mode target kill) now
  = Ok (decision request (snapshot_in mode target kill) now).
Proof. apply evaluate_policy_decision; [apply request_is_ok | apply snapshot_is_ok | done]. Qed.

Lemma allowed_decided : allowed decided = true.
Proof. vm_compute. reflexivity. Qed.
End PolicySample.

Section witnesses.
Import PolicySample.

Lemma evaluate_policy_total_witness :
  exists d, evaluate_policy request snapshot now = Ok d /\ pd_reason_codes d <> []
  /\ NoDup (pd_reason_codes d) /\ Forall (fun x => x ∈ reason_vocabulary) (pd_reason_codes d).
Proof.
  apply (evaluate_policy_total request snapshot now request_is_ok); [apply snapshot_is_ok | done].
Defined.

Lemma allowed_iff_envelope_witness :
  ps_autonomy_mode snapshot <> SHADOW /\ envelope request snapshot now.
Proof.
  apply (allowed_iff_envelope request snapshot now decided); [apply evaluated_in|].
  apply allowed_decided.
Defined.

Lemma shadow_rehearses_witness :
  pd_counterfactual_status (decision request (snapshot_in SHADOW (Some ASSISTED) false) now)
  = Some APPROVED.
Proof.
  rewrite (proj2 (proj2 (proj2 (shadow_rehearses request (snapshot_in SHADOW (Some ASSISTED) false)
    ASSISTED now _ decided eq_refl eq_refl ltac:(discriminate) (evaluated_in _ _ _)
    (evaluated_in _ _ _))))).
  vm_compute. reflexivity.
Defined.

Lemma hard_stop_blocks_mutations_witness :
  allowed (decision request (snapshot_in ASSISTED None true) now) = false.
Proof.
  apply (hard_stop_blocks_mutations request (snapshot_in ASSISTED None true) now);
    [apply evaluated_in | reflexivity | apply in_list_true; vm_compute; reflexivity].
Defined.

Lemma allowed_within_budget_witness :
  pr_currency request = "EUR"
  /\ micros (mkdec 4000 (-2)) + micros (mkdec 250 (-2)) <= micros (mkdec 100 0).
Proof.
  apply (proj1 (allowed_within_budget request snapshot now decided sending_policy
    (evaluated_in _ _ _) allowed_decided ltac:(reflexivity)
    ltac:(vm_compute; split; [discriminate | split; [discriminate | reflexivity]])
    ltac:(vm_compute; split; [discriminate | split; [discriminate | reflexivity]])
    ltac:(vm_compute; split; [discriminate | split; [discriminate | reflexivity]]))).
  reflexivity.
Defined.

Lemma valid_until_sound_witness : instant now < instant later.
Proof.
  apply (proj2 (valid_until_sound request snapshot now decided later (evaluated_in _ _ _)
    ltac:(vm_compute; reflexivity)) allowed_decided);
    intros e [= <-]; vm_compute; reflexivity.
Defined.
End witnesses.
