(* ===== verification/PolicyStore.v ===== *)
(** PolicyStore: the append-only control history and the evaluation journal
    of [policy/store.py], over the tables [acquisition_policy_snapshot] and
    [policy_evaluation] of [persistence/schema.py]. *)

From S2P Require Import Prelude PyStr PyDatetime PyDecimal PyJson Database.
From S2P Require Import PolicyContracts PolicyEvaluator.
From Stdlib Require Import Sorting.Sorted.

Local Open Scope string_scope.
Local Open Scope Z_scope.
Local Open Scope list_scope.

(** A row of [policy_evaluation]: the columns of the decision and its
    semantic fingerprint. *)
Record evaluation_row : Type := mkRow { er_decision : PolicyDecision; er_fingerprint : string }.

Record policy_db : Type := mkpdb {
  pdb_controls : list PolicyControlSnapshot;
  pdb_evaluations : gmap string evaluation_row;
}.

Definition empty_policy_db : policy_db := mkpdb [] ∅.

Section store.
Context `{DB : Database}.

(** [policy/store.py:29-43 _control_values] with the columns and check
    constraints of the table. *)
Definition _control_values (c : PolicyControlSnapshot) : result PolicyControlSnapshot :=
  let! id := varchar "policy_snapshot_id" 64 (pc_policy_snapshot_id c) in
  let! version := varchar "policy_version" 64 (pc_policy_version c) in
  let! qa := opt_mapM (varchar "qa_signal_ref" 256) (pc_qa_signal_ref c) in
  let! currency := varchar "currency" 3 (pc_currency c) in
  let! cap := numeric 18 6 (pc_daily_cost_cap c) in
  let! fingerprint := varchar "snapshot_fingerprint" 64 (pc_snapshot_fingerprint c) in
  let! actor := varchar "created_by_actor_type" 16 (pc_created_by_actor_type c) in
  let! actor_ref := varchar "created_by_actor_ref" 256 (pc_created_by_actor_ref c) in
  let! _ := check_constraint "ck_policy_snapshot_revision" (1 <=? pc_control_revision c) in
  let! _ := check_constraint "ck_policy_snapshot_cost" (dec_leb dec_zero cap) in
  let! _ := check_constraint "ck_policy_snapshot_volume" (0 <=? pc_daily_volume_cap c) in
  let! _ := check_constraint "ck_policy_snapshot_interval"
              (interval_ok (pc_effective_at c) (pc_expires_at c)) in
  Ok (mkControl id (pc_control_revision c) version (pc_autonomy_mode c) (pc_shadow_target_mode c)
        (pc_read_only c) (pc_kill_switch c) qa (pc_allowed_commands c) (pc_allowed_countries c)
        (pc_allowed_languages c) (pc_allowed_wedges c) currency cap (pc_daily_volume_cap c)
        (timestamptz (pc_effective_at c)) (timestamptz <$> pc_expires_at c) fingerprint
        (timestamptz (pc_created_at c)) actor actor_ref (pc_reason_codes c)).

(** [policy/store.py:46-58 _control_from_row] *)
Definition _control_from_row (c : PolicyControlSnapshot) : result PolicyControlSnapshot :=
  control_validate
    (mkControl (pc_policy_snapshot_id c) (pc_control_revision c) (pc_policy_version c)
       (pc_autonomy_mode c) (pc_shadow_target_mode c) (pc_read_only c) (pc_kill_switch c)
       (pc_qa_signal_ref c) (pc_allowed_commands c) (pc_allowed_countries c)
       (pc_allowed_languages c) (pc_allowed_wedges c) (pc_currency c) (pc_daily_cost_cap c)
       (pc_daily_volume_cap c) (assume_utc (pc_effective_at c)) (assume_utc <$> pc_expires_at c)
       (pc_snapshot_fingerprint c) (assume_utc (pc_created_at c)) (pc_created_by_actor_type c)
       (pc_created_by_actor_ref c) (pc_reason_codes c)).

(** [INSERT INTO acquisition_policy_snapshot]: the primary key and the two
    unique columns. *)
Definition insert_control (db : policy_db) (c : PolicyControlSnapshot) : result policy_db :=
  let! row := _control_values c in
  let! _ := check_constraint "acquisition_policy_snapshot_pkey"
    (forallb (fun r => negb (bool_decide (pc_policy_snapshot_id r = pc_policy_snapshot_id row)))
       (pdb_controls db)) in
  let! _ := check_constraint "acquisition_policy_snapshot_control_revision_key"
    (forallb (fun r => negb (pc_control_revision r =? pc_control_revision row)) (pdb_controls db)) in
  let! _ := check_constraint "acquisition_policy_snapshot_snapshot_fingerprint_key"
    (forallb (fun r => negb (bool_decide (pc_snapshot_fingerprint r = pc_snapshot_fingerprint row)))
       (pdb_controls db)) in
  Ok (mkpdb (pdb_controls db ++ [row]) (pdb_evaluations db)).

(** [SELECT max(control_revision)] *)
Definition max_revision (db : policy_db) : option Z :=
  match pdb_controls db with
  | [] => None
  | c :: l => Some (foldl (fun m r => Z.max m (pc_control_revision r)) (pc_control_revision c) l)
  end.

(** [policy/store.py:108-117 append_control] *)
Definition append_control (db : policy_db) (control : PolicyControlSnapshot) : result policy_db :=
  match max_revision db with
  | Some maximum =>
      require! maximum <? pc_control_revision control
      else ValueError "control_revision must be greater than current maximum" in
      insert_control db control
  | None => insert_control db control
  end.

(** [policy/store.py:119-145 append_control_if_latest] *)
Definition append_control_if_latest (db : policy_db) (control : PolicyControlSnapshot)
    (expected_latest_revision : option Z) : result (bool * policy_db) :=
  let maximum := max_revision db in
  let next_revision := match maximum with None => 1 | Some m => m + 1 end in
  if negb (bool_decide (maximum = expected_latest_revision))
     || negb (pc_control_revision control =? next_revision)
  then Ok (false, db)
  else match insert_control db control with
       | Ok db' => Ok (true, db')
       | Raise (IntegrityError _) => Ok (false, db)
       | Raise e => Raise e
       end.

(** [ORDER BY control_revision DESC LIMIT 1] over the rows that satisfy a
    condition. *)
Definition newest (f : PolicyControlSnapshot -> bool) (db : policy_db)
  : option PolicyControlSnapshot :=
  head (sorted_by (fun a b => pc_control_revision b <=? pc_control_revision a)
          (List.filter f (pdb_controls db))).

(** [policy/store.py:147-162 get_latest_control] *)
Definition get_latest_control (db : policy_db) : result PolicyControlSnapshot :=
  let! row := option_to_result (PolicyControlUnavailable "no persisted policy control snapshot")
                (newest (fun _ => true) db) in
  _control_from_row row.

(** [policy/store.py:164-180 get_previous_control] *)
Definition get_previous_control (db : policy_db) (control_revision : Z)
  : result PolicyControlSnapshot :=
  let! row := option_to_result (PolicyControlUnavailable "no previous policy control snapshot")
                (newest (fun c => pc_control_revision c <? control_revision) db) in
  _control_from_row row.

Definition in_effect (at_ : datetime) (c : PolicyControlSnapshot) : bool :=
  dt_leb (pc_effective_at c) at_
  && match pc_expires_at c with Some e => dt_ltb at_ e | None => true end.

(** [policy/store.py:182-204 get_effective_control] *)
Definition get_effective_control (db : policy_db) (at_ : datetime)
  : result PolicyControlSnapshot :=
  require! aware at_ else ValueError "selection timestamp must be timezone-aware" in
  let! row := option_to_result (PolicyControlUnavailable "no effective policy control snapshot")
                (newest (in_effect at_) db) in
  _control_from_row row.

(** [policy/store.py:206-222 get_control] *)
Definition get_control (db : policy_db) (policy_snapshot_id : string)
  : result PolicyControlSnapshot :=
  let! row := option_to_result
    (PolicyControlUnavailable ("policy control snapshot not found: " +:+ policy_snapshot_id))
    (first_match (fun c => bool_decide (pc_policy_snapshot_id c = policy_snapshot_id))
       (pdb_controls db)) in
  _control_from_row row.

(** [policy/store.py:61-91 decision_values] with the columns of
    [policy_evaluation]. *)
Definition decision_values (d : PolicyDecision) : result PolicyDecision :=
  let! evaluation_id := varchar "evaluation_id" 64 (pd_evaluation_id d) in
  let! request_id := varchar "request_id" 128 (pd_request_id d) in
  let! opportunity := opt_mapM (varchar "acquisition_opportunity_id" 64)
                        (pd_acquisition_opportunity_id d) in
  let! command := varchar "command" 64 (pd_command d) in
  let! target := varchar "target_ref" 256 (pd_target_ref d) in
  let! action := varchar "action_fingerprint" 64 (pd_action_fingerprint d) in
  let! version := varchar "policy_version" 64 (pd_policy_version d) in
  let! snapshot := varchar "policy_snapshot_id" 64 (pd_policy_snapshot_id d) in
  let! runtime := varchar "runtime_revision" 100 (pd_runtime_revision d) in
  let! currency := varchar "currency" 3 (pd_currency d) in
  let! cost := numeric 18 6 (pd_estimated_cost d) in
  let! remaining := numeric 18 6 (pd_cost_remaining d) in
  let! _ := check_constraint "ck_policy_evaluation_cost" (dec_leb dec_zero cost) in
  let! _ := check_constraint "ck_policy_evaluation_volume" (0 <=? pd_proposed_volume d) in
  Ok (mkDecision evaluation_id request_id (pd_status d) (pd_counterfactual_status d)
        (pd_executable d) command target opportunity action (pd_reason_codes d) version snapshot
        (pd_control_revision d) runtime (timestamptz (pd_evaluated_at d))
        (timestamptz <$> pd_valid_until d) (pd_requires_revalidation d) currency cost
        (pd_proposed_volume d) remaining (pd_volume_remaining d)
        (timestamptz <$> pd_retry_after d) (pd_approval_refs d) (pd_evidence_refs d)).

(** [policy/store.py:94-101 decision_from_row] *)
Definition decision_from_row (row : evaluation_row) : result PolicyDecision :=
  let d := er_decision row in
  decision_validate
    (mkDecision (pd_evaluation_id d) (pd_request_id d) (pd_status d)
       (pd_counterfactual_status d) (pd_executable d) (pd_command d) (pd_target_ref d)
       (pd_acquisition_opportunity_id d) (pd_action_fingerprint d) (pd_reason_codes d)
       (pd_policy_version d) (pd_policy_snapshot_id d) (pd_control_revision d)
       (pd_runtime_revision d) (assume_utc (pd_evaluated_at d)) (assume_utc <$> pd_valid_until d)
       (pd_requires_revalidation d) (pd_currency d) (pd_estimated_cost d) (pd_proposed_volume d)
       (pd_cost_remaining d) (pd_volume_remaining d) (assume_utc <$> pd_retry_after d)
       (pd_approval_refs d) (pd_evidence_refs d)).

(** [policy/store.py:224-234 evaluation_row] *)
Definition find_evaluation (db : policy_db) (evaluation_id : string) : option evaluation_row :=
  pdb_evaluations db !! evaluation_id.

(** [policy/store.py:236-256 insert_evaluation_if_absent]: [INSERT ... ON
    CONFLICT (evaluation_id) DO NOTHING RETURNING evaluation_id], with the
    foreign keys to the control and to the opportunity (the second given by
    [opportunity_exists]). *)
Definition insert_evaluation_if_absent (db : policy_db) (opportunity_exists : string -> bool)
    (d : PolicyDecision) (semantic_fingerprint : string) : result (bool * policy_db) :=
  let! row := decision_values d in
  let! fingerprint := varchar "semantic_fingerprint" 64 semantic_fingerprint in
  match pdb_evaluations db !! pd_evaluation_id row with
  | Some _ => Ok (false, db)
  | None =>
      let! _ := check_constraint "policy_evaluation_policy_snapshot_id_fkey"
        (existsb (fun c => bool_decide (pc_policy_snapshot_id c = pd_policy_snapshot_id row))
           (pdb_controls db)) in
      let! _ := check_constraint "policy_evaluation_acquisition_opportunity_id_fkey"
        (match pd_acquisition_opportunity_id row with
         | Some id => opportunity_exists id
         | None => true
         end) in
      Ok (true, mkpdb (pdb_controls db)
                  (<[pd_evaluation_id row := mkRow row fingerprint]> (pdb_evaluations db)))
  end.

(** * The control history *)

(** The revisions of the table, in the order of the inserts. *)
Definition revisions (db : policy_db) : list Z := map pc_control_revision (pdb_controls db).

(** Controls are appended with ever greater revisions. *)
Definition history_ok (db : policy_db) : Prop := StronglySorted Z.lt (revisions db).

Lemma foldl_max_spec l m :
  let x := foldl (fun m r => Z.max m (pc_control_revision r)) m l in
  m <= x /\ Forall (fun r => pc_control_revision r <= x) l
  /\ (x = m \/ x ∈ map pc_control_revision l).
Proof.
  revert m; induction l as [|c l IH]; intros m; simpl.
  - split_and!; [lia | constructor | by left].
  - destruct (IH (Z.max m (pc_control_revision c))) as (H1 & H2 & H3). split_and!.
    + lia.
    + constructor; [lia | done].
    + destruct H3 as [->|H3]; [|right; set_solver].
      destruct (Z.max_spec m (pc_control_revision c)) as [[_ ->]|[_ ->]]; [right; set_solver | by left].
Qed.

Lemma max_revision_spec db :
  match max_revision db with
  | None => pdb_controls db = []
  | Some m => m ∈ revisions db /\ Forall (fun x => x <= m) (revisions db)
  end.
Proof.
  unfold max_revision, revisions. destruct (pdb_controls db) as [|c l]; [done|]. simpl.
  destruct (foldl_max_spec l (pc_control_revision c)) as (H1 & H2 & H3). split.
  - destruct H3 as [->|H3]; [set_solver | right; done].
  - constructor; [lia|]. by apply Forall_map.
Qed.

Lemma insert_control_Ok db c db' :
  insert_control db c = Ok db' ->
  exists row, _control_values c = Ok row
  /\ db' = mkpdb (pdb_controls db ++ [row]) (pdb_evaluations db)
  /\ pc_control_revision row = pc_control_revision c
  /\ pc_policy_snapshot_id row = pc_policy_snapshot_id c.
Proof.
  unfold insert_control. intros H. inv_result. exists v. split_and!; try done.
  all: unfold _control_values in Hv; inv_result; cbn; try done.
  match goal with E : varchar "policy_snapshot_id" _ _ = Ok _ |- _ => by apply varchar_Ok in E as [-> _] end.
Qed.

Lemma StronglySorted_snoc l x :
  StronglySorted Z.lt l -> Forall (fun y => y < x) l -> StronglySorted Z.lt (l ++ [x]).
Proof.
  intros Hl Hx. induction Hl as [|y l Hl IH Hy]; simpl; [by repeat constructor|].
  inversion Hx; subst. constructor; [auto|]. apply Forall_app. split; [done | by constructor].
Qed.

Lemma insert_control_history db c db' :
  history_ok db -> Forall (fun x => x < pc_control_revision c) (revisions db) ->
  insert_control db c = Ok db' -> history_ok db' /\ max_revision db' = Some (pc_control_revision c).
Proof.
  intros Hh Hlt H. apply insert_control_Ok in H as (row & _ & -> & Hrev & _).
  assert (Hs : revisions (mkpdb (pdb_controls db ++ [row]) (pdb_evaluations db))
               = revisions db ++ [pc_control_revision c]).
  { unfold revisions. simpl. rewrite map_app. simpl. by rewrite Hrev. }
  split.
  - unfold history_ok. rewrite Hs. by apply StronglySorted_snoc.
  - pose proof (max_revision_spec (mkpdb (pdb_controls db ++ [row]) (pdb_evaluations db))) as Hm.
    destruct (max_revision _) as [m|]; [|by destruct (pdb_controls db)].
    rewrite Hs in Hm. destruct Hm as [Hin Hall]. f_equal.
    apply Forall_app in Hall as [_ Hlast]. rewrite Forall_singleton in Hlast.
    apply elem_of_app in Hin as [Hin|Hin]; [|by apply list_elem_of_singleton in Hin].
    rewrite Forall_forall in Hlt. specialize (Hlt m Hin). lia.
Qed.
End store.

Lemma aware_assume_utc x : aware (assume_utc x) = true.
Proof. unfold aware, assume_utc. destruct (utcoffset x) eqn:E; simpl; by rewrite ?E. Qed.

Lemma aware_assume_utc_opt (o : option datetime) :
  AcquisitionContracts._aware (assume_utc <$> o) = true.
Proof. destruct o as [x|]; simpl; [apply aware_assume_utc | done]. Qed.

Lemma instant_assume_utc x : instant (assume_utc x) = instant x.
Proof. unfold instant, assume_utc, local_us, time_us. destruct (utcoffset x) eqn:E; simpl; by rewrite ?E. Qed.

(** The row [newest] picks satisfies the condition and has the greatest
    revision of those that do. *)
Lemma sorted_by_head {A} (key : A -> Z) l x :
  head (sorted_by (fun a b => key b <=? key a) l) = Some x ->
  x ∈ l /\ Forall (fun y => key y <= key x) l.
Proof.
  revert x. induction l as [|y l IH]; intros x H; [done|]. simpl in H.
  destruct (sorted_by _ l) as [|z m] eqn:E; simpl in H.
  - injection H as <-. assert (l = []) as ->.
    { apply (f_equal length) in E. rewrite length_sorted_by in E. by destruct l. }
    split; [set_solver | constructor; [lia | constructor]].
  - destruct (IH z eq_refl) as [Hin Hall].
    destruct (Z.leb_spec (key z) (key y)); simpl in H; injection H as <-.
    + split; [set_solver|]. constructor; [lia|].
      eapply Forall_impl; [exact Hall|]. simpl. intros; lia.
    + split; [set_solver|]. constructor; [lia | done].
Qed.

Lemma newest_Some f db c :
  newest f db = Some c ->
  c ∈ pdb_controls db /\ f c = true
  /\ Forall (fun c' => f c' = true -> pc_control_revision c' <= pc_control_revision c)
       (pdb_controls db).
Proof.
  unfold newest. intros H. apply sorted_by_head in H as [Hin Hall].
  rewrite list_elem_of_In, filter_In in Hin. destruct Hin as [Hin Hf].
  split_and!; [by apply list_elem_of_In | done|]. rewrite Forall_forall in Hall |- *.
  intros c' Hc' Hfc'. apply Hall. apply list_elem_of_In, filter_In. by rewrite <- list_elem_of_In.
Qed.

Lemma newest_None f db : newest f db = None <-> Forall (fun c => f c = false) (pdb_controls db).
Proof.
  unfold newest. split.
  - intros H. assert (Hnil : List.filter f (pdb_controls db) = []).
    { destruct (sorted_by _ (List.filter f (pdb_controls db))) as [|? ?] eqn:E; [|done].
      apply (f_equal length) in E. rewrite length_sorted_by in E.
      by destruct (List.filter f (pdb_controls db)). }
    rewrite Forall_forall. intros c Hc. destruct (f c) eqn:E; [|done].
    assert (Hin : In c (List.filter f (pdb_controls db)))
      by (apply filter_In; by rewrite <- list_elem_of_In).
    by rewrite Hnil in Hin.
  - intros H. assert (List.filter f (pdb_controls db) = []) as ->; [|done].
    induction H as [|c l Hc _ IH]; simpl; [done|]. by rewrite Hc.
Qed.

(** * The control in force and the compare-and-append *)

Section laws.
Context `{DB : Database}.

(** What [_control_from_row] keeps of a row. *)
Lemma control_from_row_kept row c :
  _control_from_row row = Ok c ->
  pc_control_revision c = pc_control_revision row
  /\ pc_autonomy_mode c = pc_autonomy_mode row /\ pc_kill_switch c = pc_kill_switch row
  /\ pc_read_only c = pc_read_only row
  /\ (forall e, pc_expires_at c = Some e ->
      exists e', pc_expires_at row = Some e' /\ instant e = instant e').
Proof.
  unfold _control_from_row, control_validate. intros H. inv_result.
  repeat match goal with E : checked _ _ _ = Ok _ |- _ => apply checked_Ok in E as [_ ->] end.
  cbn. split_and!; try done. intros e He. destruct (pc_expires_at row) as [e'|]; [|done].
  injection He as <-. exists e'. split; [done | apply instant_assume_utc].
Qed.

Lemma effective_control_spec p t c :
  get_effective_control p t = Ok c ->
  exists row, row ∈ pdb_controls p /\ in_effect t row = true
  /\ (forall row', row' ∈ pdb_controls p -> in_effect t row' = true ->
      pc_control_revision row' <= pc_control_revision row)
  /\ _control_from_row row = Ok c.
Proof.
  unfold get_effective_control. intros H. inv_result.
  apply newest_Some in Hv as (Hin & Hf & Hall). rewrite Forall_forall in Hall. eauto 10.
Qed.

Lemma max_revision_history p m : max_revision p = Some m -> Forall (fun x => x <= m) (revisions p).
Proof. intros H. pose proof (max_revision_spec p) as Hs. rewrite H in Hs. apply Hs. Qed.

Lemma append_control_history p c p' :
  history_ok p -> append_control p c = Ok p' -> history_ok p'.
Proof.
  intros Hh. unfold append_control. destruct (max_revision p) as [m|] eqn:Hm; intros H; inv_result.
  - eapply insert_control_history; [done | | done]. eapply Forall_impl; [by apply max_revision_history|].
    simpl. intros; lia.
  - eapply insert_control_history; [done | | done]. pose proof (max_revision_spec p) as Hs.
    rewrite Hm in Hs. unfold revisions. by rewrite Hs.
Qed.

Lemma append_if_latest_spec p c expected b p' :
  history_ok p -> append_control_if_latest p c expected = Ok (b, p') ->
  history_ok p'
  /\ (if b then expected = max_revision p /\ max_revision p' = Some (pc_control_revision c)
                /\ pc_control_revision c = default 0 (max_revision p) + 1
      else p' = p).
Proof.
  intros Hh. unfold append_control_if_latest.
  destruct (negb (bool_decide (max_revision p = expected)) || _) eqn:E; intros H; [by simplify_eq|].
  inv_result. apply Z.eqb_eq in H1.
  destruct (insert_control p c) as [p1|e] eqn:Ei.
  - simplify_eq. apply insert_control_history in Ei; [|done|].
    + destruct Ei as [? ?]. split_and!; try done. rewrite H1. by destruct (max_revision p).
    + rewrite H1. destruct (max_revision p) as [m|] eqn:Hm.
      * eapply Forall_impl; [by apply max_revision_history|]. simpl. intros; lia.
      * pose proof (max_revision_spec p) as Hs. rewrite Hm in Hs. unfold revisions. by rewrite Hs.
  - destruct e; by simplify_eq.
Qed.
End laws.
