(* ===== verification/PolicyGateway.v ===== *)
(** PolicyGateway: the orchestration of [policy/gateway.py] - select the
    control, evaluate purely, and write the evaluation together with the
    event of the acquisition stream it concerns.

    The gateway asks one thing of the acquisition store, the interface
    [AuditJournal]: append an event under a key, atomically with the
    evaluation, and count the events under a key.  Its theorems are proved
    against that interface; [AcquisitionJournal] (in PolicyGatewayTheorems)
    shows the store of [AcquisitionStore] implements it. *)

From S2P Require Import Prelude PyStr PyDatetime PyDatetimeFacts PyDecimal PyJson Database.
From S2P Require Import PolicyContracts PolicyEvaluator PolicyStore.
From S2P Require AcquisitionContracts AcquisitionStore.

Local Open Scope string_scope.
Local Open Scope Z_scope.
Local Open Scope list_scope.

(** * The audit journal *)

Class AuditJournal (J : Type) := {
  journal_ok : J -> Prop;
  journal_has : J -> string -> bool;
  journal_count : J -> string -> string -> Z;
  journal_append : AcquisitionStore.store_env -> J -> string ->
    AcquisitionStore.append_request -> result J;
  (** Appending a policy event keeps the journal well formed and leaves
      exactly one event under its key. *)
  journal_append_ok : forall env j id r j',
    journal_ok j ->
    AcquisitionStore.rq_event_type r = AcquisitionContracts.POLICY_EVALUATED ->
    strip (AcquisitionStore.rq_idempotency_key r) = AcquisitionStore.rq_idempotency_key r ->
    journal_append env j id r = Ok j' ->
    journal_ok j' /\ journal_count j' id (AcquisitionStore.rq_idempotency_key r) = 1;
  (** It leaves the other keys alone. *)
  journal_append_other : forall env j id r j' id' key,
    journal_ok j ->
    AcquisitionStore.rq_event_type r = AcquisitionContracts.POLICY_EVALUATED ->
    strip (AcquisitionStore.rq_idempotency_key r) = AcquisitionStore.rq_idempotency_key r ->
    journal_append env j id r = Ok j' ->
    (id', key) <> (id, AcquisitionStore.rq_idempotency_key r) ->
    journal_count j' id' key = journal_count j id' key;
}.

(** * Fingerprints *)

(** [policy/gateway.py:31-42 _canonical] on a Decimal. *)
Definition canonical_decimal (d : decimal) : string :=
  if dec_is_zero d then "0" else dec_format_f (dec_normalize d).
(** [policy/gateway.py:45-57 _legacy_canonical] on a Decimal. *)
Definition legacy_decimal (d : decimal) : string := dec_str d.

Section gateway.
Context `{Hash : HashLib} `{DB : Database}.

Definition JDate (d : datetime) : json := JStr (isoformat d).
Definition JOptDate (o : option datetime) : json := opt_json JDate o.

(** The order of tuples of strings. *)
Definition binding_leb (a b : string * string * string) : bool :=
  match String.compare a.1.1 b.1.1 with
  | Lt => true
  | Gt => false
  | Eq =>
      match String.compare a.1.2 b.1.2 with
      | Lt => true
      | Gt => false
      | Eq => string_leb a.2 b.2
      end
  end.

(** [policy/gateway.py:68-77 _fingerprint]: [sorted({...})]. *)
Definition approval_bindings (r : PolicyRequest) : list (string * string * string) :=
  sorted_by binding_leb
    (dict_fromkeys
       (map (fun g => (gr_approval_id g, purpose_value (gr_purpose g), approval_binding_fingerprint g))
          (pr_approval_grants r))).

Definition budget_json (enc : decimal -> string) (b : BudgetEnvelope) : json :=
  JObj [("period_start", JDate (bd_period_start b)); ("period_end", JOptDate (bd_period_end b));
        ("currency", JStr (bd_currency b)); ("cost_cap", JStr (enc (bd_cost_cap b)));
        ("cost_used", JStr (enc (bd_cost_used b))); ("volume_cap", JInt (bd_volume_cap b));
        ("volume_used", JInt (bd_volume_used b))].

Definition snapshot_json (enc : decimal -> string) (s : PolicySnapshot) : json :=
  JObj [("policy_snapshot_id", JStr (ps_policy_snapshot_id s));
        ("control_revision", JInt (ps_control_revision s));
        ("policy_version", JStr (ps_policy_version s));
        ("captured_at", JDate (ps_captured_at s)); ("expires_at", JOptDate (ps_expires_at s));
        ("autonomy_mode", JStr (mode_value (ps_autonomy_mode s)));
        ("shadow_target_mode", opt_json (fun m => JStr (mode_value m)) (ps_shadow_target_mode s));
        ("read_only", JBool (ps_read_only s)); ("kill_switch", JBool (ps_kill_switch s));
        ("qa_signal_ref", JOptStr (ps_qa_signal_ref s));
        ("allowed_commands", JStrs (ps_allowed_commands s));
        ("allowed_countries", JStrs (ps_allowed_countries s));
        ("allowed_languages", JStrs (ps_allowed_languages s));
        ("allowed_wedges", JStrs (ps_allowed_wedges s));
        ("budget", budget_json enc (ps_budget s));
        ("runtime_revision", JStr (ps_runtime_revision s))].

(** [policy/gateway.py:80-105 _fingerprint]: the ["request"] entry. *)
Definition request_json (enc : decimal -> string) (r : PolicyRequest) : json :=
  let e := pr_evidence r in
  let c := pr_compliance r in
  let o := pr_operational r in
  JObj [("request_id", JStr (pr_request_id r)); ("command", JStr (pr_command r));
        ("target_ref", JStr (pr_target_ref r));
        ("acquisition_opportunity_id", JOptStr (pr_acquisition_opportunity_id r));
        ("qa_signal_ref", JOptStr (pr_qa_signal_ref r));
        ("expected_opportunity_version", opt_json JInt (pr_expected_opportunity_version r));
        ("actor_type", JStr (pr_actor_type r)); ("actor_ref", JOptStr (pr_actor_ref r));
        ("action_fingerprint", JStr (pr_action_fingerprint r));
        ("scope", JObj [("country", JOptStr (sc_country (pr_scope r)));
                        ("language", JOptStr (sc_language (pr_scope r)));
                        ("wedge", JOptStr (sc_wedge (pr_scope r)))]);
        ("proposed_cost", JStr (enc (pr_proposed_cost r))); ("currency", JStr (pr_currency r));
        ("proposed_volume", JInt (pr_proposed_volume r));
        ("reason_codes", JStrs (pr_reason_codes r)); ("evidence_refs", JStrs (pr_evidence_refs r));
        ("evidence", JObj [("status", JStr (evidence_value (ei_status e)));
                           ("claims", JStrs (ei_claims e));
                           ("assessment_version", JStr (ei_assessment_version e));
                           ("observed_at", JDate (ei_observed_at e));
                           ("valid_until", JOptDate (ei_valid_until e))]);
        ("compliance", JObj [("state", JStr (compliance_value (ca_state c)));
                             ("assessment_version", JStr (ca_assessment_version c));
                             ("observed_at", JDate (ca_observed_at c));
                             ("valid_until", JOptDate (ca_valid_until c))]);
        ("operational", JObj [("runtime_revision", JStr (on_runtime_revision o));
                              ("provider_quota", JStr (readiness_value (on_provider_quota o)));
                              ("mailbox_quota", JStr (readiness_value (on_mailbox_quota o)));
                              ("send_window", JStr (window_value (on_send_window o)));
                              ("provider_control_plane",
                                 JStr (availability_value (on_provider_control_plane o)));
                              ("retry_after", JOptDate (on_retry_after o));
                              ("valid_until", JOptDate (on_valid_until o))]);
        ("expected_policy_version", JStr (pr_expected_policy_version r));
        ("approval_bindings",
           JList (map (fun b => JStrs [b.1.1; b.1.2; b.2]) (approval_bindings r)));
        ("supervisor_plan_id", JOptStr (pr_supervisor_plan_id r));
        ("supervisor_action_index", opt_json JInt (pr_supervisor_action_index r));
        ("supervisor_version", JOptStr (pr_supervisor_version r));
        ("skill_version", JOptStr (pr_skill_version r))].

(** [policy/gateway.py:60-114 _fingerprint] *)
Definition _fingerprint (request : PolicyRequest) (snapshot : PolicySnapshot)
    (budget_usage : BudgetUsage) (evaluated_at : datetime) (legacy_decimal_encoding : bool)
  : result string :=
  let enc := if legacy_decimal_encoding then legacy_decimal else canonical_decimal in
  json_sha256
    (JObj [("evaluation_id", JStr (pr_evaluation_id request));
           ("request", request_json enc request);
           ("selected_policy_snapshot", snapshot_json enc snapshot);
           ("budget_usage", JObj [("cost_used", JStr (enc (us_cost_used budget_usage)));
                                  ("volume_used", JInt (us_volume_used budget_usage))]);
           ("evaluated_at", JDate evaluated_at)]).

(** * The gateway *)

Section journal.
Context {J : Type} `{Journal : AuditJournal J}.

(** The tables of the policy and the journal of the acquisition store. *)
Record gateway_db : Type := mkgdb { gdb_policy : policy_db; gdb_journal : J }.

(** [policy/contracts.py:251-267 BudgetEnvelope] *)
Definition budget_validate (b : BudgetEnvelope) : result BudgetEnvelope :=
  let! start := checked "period_start" aware (bd_period_start b) in
  let! end_ := checked "period_end" AcquisitionContracts._aware (bd_period_end b) in
  let! currency := Currency "currency" (bd_currency b) in
  let! cap := checked "cost_cap" _finite_nonnegative (bd_cost_cap b) in
  let! used := checked "cost_used" _finite_nonnegative (bd_cost_used b) in
  let! vcap := checked "volume_cap" (Z.leb 0) (bd_volume_cap b) in
  let! vused := checked "volume_used" (Z.leb 0) (bd_volume_used b) in
  require! interval_ok start end_ else ValidationError "budget period end must follow start" in
  Ok (mkBudget start end_ currency cap used vcap vused).

(** [policy/contracts.py:320-351 PolicySnapshot] *)
Definition snapshot_validate (s : PolicySnapshot) : result PolicySnapshot :=
  let! id := PIdentifier "policy_snapshot_id" (ps_policy_snapshot_id s) in
  let! revision := checked "control_revision" (Z.leb 1) (ps_control_revision s) in
  let! version := PShortCode "policy_version" (ps_policy_version s) in
  let! captured := checked "captured_at" aware (ps_captured_at s) in
  let! expires := checked "expires_at" AcquisitionContracts._aware (ps_expires_at s) in
  let! qa := opt_mapM (PStableRef "qa_signal_ref") (ps_qa_signal_ref s) in
  let! commands := items "allowed_commands" CommandName 32 (ps_allowed_commands s) in
  let! countries := items "allowed_countries" PShortCode 64 (ps_allowed_countries s) in
  let! languages := items "allowed_languages" PShortCode 64 (ps_allowed_languages s) in
  let! wedges := items "allowed_wedges" PShortCode 64 (ps_allowed_wedges s) in
  let! runtime := PShortCode "runtime_revision" (ps_runtime_revision s) in
  require! shadow_contract (ps_autonomy_mode s) (ps_shadow_target_mode s)
  else ValidationError "shadow_target_mode" in
  Ok (mkSnapshot id revision version captured expires (ps_autonomy_mode s)
        (ps_shadow_target_mode s) (ps_read_only s) (ps_kill_switch s) qa commands countries
        languages wedges (ps_budget s) runtime).

(** [policy/gateway.py:163-202 _snapshot] *)
Definition _snapshot (db : gateway_db) (request : PolicyRequest) (evaluated_at : datetime)
    (budget_usage : BudgetUsage) (policy_snapshot_id : option string) : result PolicySnapshot :=
  let! control :=
    match policy_snapshot_id with
    | Some id => get_control (gdb_policy db) id
    | None => get_effective_control (gdb_policy db) evaluated_at
    end in
  let day_start := replace_midnight evaluated_at in
  let! day_end := dt_add day_start US_DAY in
  let! budget := budget_validate
    (mkBudget day_start (Some day_end) (pc_currency control) (pc_daily_cost_cap control)
       (us_cost_used budget_usage) (pc_daily_volume_cap control) (us_volume_used budget_usage)) in
  snapshot_validate
    (mkSnapshot (pc_policy_snapshot_id control) (pc_control_revision control)
       (pc_policy_version control) evaluated_at (pc_expires_at control)
       (pc_autonomy_mode control) (pc_shadow_target_mode control) (pc_read_only control)
       (pc_kill_switch control) (pc_qa_signal_ref control) (pc_allowed_commands control)
       (pc_allowed_countries control) (pc_allowed_languages control)
       (pc_allowed_wedges control) budget (on_runtime_revision (pr_operational request))).

(** [policy/gateway.py:139-161 semantic_fingerprint] *)
Definition semantic_fingerprint (db : gateway_db) (request : PolicyRequest)
    (evaluated_at : datetime) (budget_usage : BudgetUsage) (policy_snapshot_id : option string)
    (legacy_decimal_encoding : bool) : result string :=
  let! snapshot := _snapshot db request evaluated_at budget_usage policy_snapshot_id in
  _fingerprint request snapshot budget_usage evaluated_at legacy_decimal_encoding.

(** [policy/gateway.py:118-128 PreparedEvaluation] *)
Record PreparedEvaluation : Type := mkPrepared {
  pe_decision : PolicyDecision;
  pe_fingerprints : string * string;
}.

Definition audit_key (evaluation_id : string) : string := "policy_evaluation:" +:+ evaluation_id.

(** [policy/gateway.py:358-380 _validated_existing] *)
Definition _validated_existing (db : gateway_db) (request : PolicyRequest)
    (semantic_fingerprints : string * string) (existing : evaluation_row)
  : result PolicyDecision :=
  require! bool_decide (er_fingerprint existing = semantic_fingerprints.1)
           || bool_decide (er_fingerprint existing = semantic_fingerprints.2)
  else PolicyEvaluationIdempotencyConflict (pr_evaluation_id request) in
  match pr_acquisition_opportunity_id request with
  | Some id =>
      require! journal_count (gdb_journal db) id (audit_key (pr_evaluation_id request)) =? 1
      else RuntimeError "policy dual-audit invariant violated" in
      decision_from_row existing
  | None => decision_from_row existing
  end.

(** [policy/gateway.py:204-242 prepare]: a decision already recorded, or one
    to record. *)
Definition prepare (db : gateway_db) (request : PolicyRequest) (evaluated_at : datetime)
    (budget_usage : BudgetUsage) (policy_snapshot_id : option string)
  : result (PolicyDecision + PreparedEvaluation) :=
  let! snapshot := _snapshot db request evaluated_at budget_usage policy_snapshot_id in
  let! current := _fingerprint request snapshot budget_usage evaluated_at false in
  let! legacy := _fingerprint request snapshot budget_usage evaluated_at true in
  match find_evaluation (gdb_policy db) (pr_evaluation_id request) with
  | Some existing =>
      let! d := _validated_existing db request (current, legacy) existing in Ok (inl d)
  | None =>
      let! d := evaluate_policy request snapshot evaluated_at in
      Ok (inr (mkPrepared d (current, legacy)))
  end.

Definition ref_json (a : ApprovalRef) : json :=
  JObj [("approval_id", JStr (ap_approval_id a)); ("purpose", JStr (purpose_value (ap_purpose a)));
        ("binding_fingerprint", JStr (ap_binding_fingerprint a))].

(** [policy/gateway.py:332-355 _record]: the arguments of
    [append_in_transaction]. *)
Definition audit_request (request : PolicyRequest) (decision : PolicyDecision)
    (expected_version : Z) (evaluated_at : datetime) : AcquisitionStore.append_request :=
  AcquisitionStore.mkRequest AcquisitionContracts.POLICY_EVALUATED expected_version
    (audit_key (pr_evaluation_id request))
    [("evaluation_id", JStr (pd_evaluation_id decision)); ("command", JStr (pd_command decision));
     ("target_ref", JStr (pd_target_ref decision));
     ("status", JStr (status_value (pd_status decision)));
     ("control_revision", JInt (pd_control_revision decision));
     ("approval_refs", JList (map ref_json (pd_approval_refs decision)))]
    AcquisitionContracts.SYSTEM (Some "kivou-policy-gateway") (pd_reason_codes decision)
    (pd_evidence_refs decision) (Some (pd_policy_version decision)) None None None
    (Some (pd_estimated_cost decision)) None None (Some evaluated_at).

(** [policy/gateway.py:297-356 _record] *)
Definition _record (env : AcquisitionStore.store_env) (db : gateway_db) (request : PolicyRequest)
    (decision : PolicyDecision) (fingerprints : string * string) (evaluated_at : datetime)
  : result (PolicyDecision * gateway_db) :=
  match find_evaluation (gdb_policy db) (pr_evaluation_id request) with
  | Some existing =>
      let! d := _validated_existing db request fingerprints existing in Ok (d, db)
  | None =>
      let! (inserted, policy) :=
        insert_evaluation_if_absent (gdb_policy db) (journal_has (gdb_journal db)) decision
          fingerprints.1 in
      if negb inserted then
        match find_evaluation policy (pr_evaluation_id request) with
        | None => Raise (RuntimeError "policy evaluation conflict was not durable")
        | Some existing =>
            let! d := _validated_existing db request fingerprints existing in Ok (d, db)
        end
      else
        match pr_acquisition_opportunity_id request with
        | None => Ok (decision, mkgdb policy (gdb_journal db))
        | Some id =>
            let! version := option_to_result
              (ValueError "opportunity audit requires expected version")
              (pr_expected_opportunity_version request) in
            let! journal := journal_append env (gdb_journal db) id
                              (audit_request request decision version evaluated_at) in
            Ok (decision, mkgdb policy journal)
        end
  end.

(** [policy/gateway.py:244-269 record_in_transaction] *)
Definition record_in_transaction (env : AcquisitionStore.store_env) (db : gateway_db)
    (request : PolicyRequest) (prepared : PolicyDecision + PreparedEvaluation)
    (evaluated_at : datetime) : result (PolicyDecision * gateway_db) :=
  match prepared with
  | inl _ => Raise TypeError
  | inr p => _record env db request (pe_decision p) (pe_fingerprints p) evaluated_at
  end.

(** [policy/gateway.py:271-295 evaluate_and_record]: [db] is what the
    preparation reads, [db'] what the transaction that records finds. *)
Definition evaluate_and_record (env : AcquisitionStore.store_env) (db db' : gateway_db)
    (request : PolicyRequest) (evaluated_at : datetime) (budget_usage : BudgetUsage)
    (policy_snapshot_id : option string) : result (PolicyDecision * gateway_db) :=
  let! prepared := prepare db request evaluated_at budget_usage policy_snapshot_id in
  match prepared with
  | inl d => Ok (d, db')
  | inr p => record_in_transaction env db' request (inr p) evaluated_at
  end.
End journal.
End gateway.

Arguments gateway_db J : clear implicits.
