(* ===== verification/PolicyGatewayTheorems.v ===== *)
(** PolicyGatewayTheorems: the acquisition store implements the audit
    journal the gateway relies on, and the properties of the gateway and of
    the control history. *)

From S2P Require Import Prelude PyStr PyDatetime PyDatetimeFacts PyDecimal PyJson Database.
From S2P Require Import PolicyContracts PolicyEvaluator PolicyFacts PolicyTheorems.
From S2P Require Import PolicyStore PolicyGateway.
From S2P Require AcquisitionContracts AcquisitionStore AcquisitionEquiv AcquisitionStateFacts.
From S2P Require AcquisitionStoreFacts AcquisitionTheorems.
From Stdlib Require Import Sorting.Sorted.

Local Open Scope string_scope.
Local Open Scope Z_scope.
Local Open Scope list_scope.

(** * The acquisition store is an audit journal *)

Section journal.
Context `{Hash : HashLib} `{DB : Database}.
Import AcquisitionStore AcquisitionStoreFacts.

Definition event_count (j : acq_db) (id key : string) : Z :=
  zlength (filter (fun e => AcquisitionContracts.ev_acquisition_opportunity_id e = id
                            /\ AcquisitionContracts.ev_idempotency_key e = key) (db_events j)).

Lemma count_NoDup {A B} `{EqDecision B} (f : A -> B) (l : list A) (b : B) :
  NoDup (map f l) -> zlength (filter (fun a => f a = b) l) <= 1.
Proof.
  intros H. induction l as [|x l IH]; [done|]. simpl in H. apply NoDup_cons in H as [Hx Hl].
  rewrite filter_cons. destruct (decide (f x = b)) as [Hb|Hb]; [|by apply IH].
  assert (filter (fun a => f a = b) l = []) as ->; [|done].
  apply elem_of_nil_inv. intros y Hy. apply list_elem_of_filter in Hy as [Hfy Hy].
  apply Hx. rewrite Hb, <- Hfy. by apply list_elem_of_fmap_2.
Qed.

Lemma event_count_le1 j id key : db_inv j -> event_count j id key <= 1.
Proof.
  intros Hj. pose proof (count_NoDup _ _ (id, key) (inv_keys j Hj)) as H.
  unfold event_count. erewrite list_filter_iff; [exact H|].
  intros e. split; [intros [-> ->]; done | intros [= ]; done].
Qed.

Lemma event_count_selected j id key f :
  db_inv j -> select_by_key j id key = Some f -> event_count j id key = 1.
Proof.
  intros Hj Hs. pose proof (event_count_le1 j id key Hj).
  apply first_match_Some in Hs as [Hin Hf]. inv_result.
  assert (f ∈ filter (fun e => AcquisitionContracts.ev_acquisition_opportunity_id e = id
    /\ AcquisitionContracts.ev_idempotency_key e = key) (db_events j))
    by (apply list_elem_of_filter; done).
  unfold event_count, zlength in *. destruct (filter _ _) as [|x l]; [set_solver|]. simpl in *. lia.
Qed.

Definition append_event (env : store_env) (j : acq_db) (id : string) (r : append_request)
  : result acq_db :=
  let! (_, j') := append_in_transaction env j id r in Ok j'.

Lemma append_event_Ok env j id r j' :
  append_event env j id r = Ok j' -> exists m, append_in_transaction env j id r = Ok (m, j').
Proof. unfold append_event. intros H. apply result_bind_Ok in H as ([m j1] & ? & H). inv_result. eauto. Qed.

Lemma policy_canonical r :
  rq_event_type r = AcquisitionContracts.POLICY_EVALUATED -> canonical_request r.
Proof. intros Ht H. congruence. Qed.

Lemma append_event_other env j id r j' id' key :
  db_inv j -> rq_event_type r = AcquisitionContracts.POLICY_EVALUATED ->
  strip (rq_idempotency_key r) = rq_idempotency_key r ->
  append_event env j id r = Ok j' -> (id', key) <> (id, rq_idempotency_key r) ->
  event_count j' id' key = event_count j id' key.
Proof.
  intros Hj Ht Hk H Hne. apply append_event_Ok in H as [m H].
  destruct (mr_replayed m) eqn:Hm.
  - unfold append_in_transaction in H. inv_result. destruct v as [m0|next e]; simpl in H.
    + inv_result. by simplify_eq.
    + apply (append_write_Ok j id) in H as (? & ? & ? & _ & _ & _ & _ & _ & _ & _ & -> & _). done.
  - apply append_fresh in H
      as (row & fp & next & e & new & f & Hrow & Hb & Hred & Hnew & Hf & -> & ->); [|done..].
    apply build_event_Ok in Hb as (He & _ & _ & _ & Hkey & _).
    pose proof (event_values_rel e f He Hf) as (Her & _ & Hkf & _).
    apply AcquisitionStateFacts.reduce_event_Some in Hred as (_ & Hid & _).
    pose proof (AcquisitionEquiv.er_opportunity _ _ _ Her) as Hfid.
    pose proof (ri_id _ _ _ (inv_rows j Hj id row Hrow)) as Hrid.
    unfold event_count. simpl. rewrite filter_app, filter_cons_False, filter_nil, app_nil_r; [done|].
    intros [H1 H2]. apply Hne. congruence.
Qed.

#[export] Program Instance AcquisitionJournal : AuditJournal acq_db := {|
  journal_ok := db_inv;
  journal_has j id := truthy (db_opportunities j !! id);
  journal_count := event_count;
  journal_append := append_event;
|}.
Next Obligation.
  intros env j id r j' Hj Ht Hk H. apply append_event_Ok in H as [m H].
  assert (Hj' : db_inv j') by (eapply append_inv; eauto using policy_canonical).
  split; [done|]. pose proof (AcquisitionTheorems.append_recorded env j id r m j' Hj Hk H)
    as (fp & f & _ & Hs & _). by eapply event_count_selected.
Qed.
Next Obligation. intros; by eapply append_event_other. Qed.
End journal.

(** * Every evaluation of an opportunity has its event *)

Section gateway.
Context `{Hash : HashLib} `{DB : Database} {J : Type} `{Journal : AuditJournal J}.

(** The two journals agree: an evaluation recorded for an opportunity has
    exactly one event in the stream of that opportunity, under its key. *)
Record dual_audit (db : gateway_db J) : Prop := {
  da_journal : journal_ok (gdb_journal db);
  da_key : forall eid row, pdb_evaluations (gdb_policy db) !! eid = Some row ->
    pd_evaluation_id (er_decision row) = eid;
  da_event : forall eid row id, pdb_evaluations (gdb_policy db) !! eid = Some row ->
    pd_acquisition_opportunity_id (er_decision row) = Some id ->
    journal_count (gdb_journal db) id (audit_key eid) = 1;
}.

Lemma audit_key_strip r : request_ok r -> strip (audit_key (pr_evaluation_id r)) = audit_key (pr_evaluation_id r).
Proof.
  intros Hr. pose proof (rk_evaluation r Hr) as He. unfold EvaluationIdentifier in He.
  apply constr_id_inv in He as [Hs [Hl _]].
  unfold audit_key. apply strip_prefixed; [done | done|]. intros Hz. rewrite Hz in Hl.
  unfold len in Hl. simpl in Hl. lia.
Qed.

Lemma audit_key_inj a b : audit_key a = audit_key b -> a = b.
Proof. apply sapp_inj. Qed.

(** Validation changes neither the identifiers of a decision taken for a
    well-formed request nor a decision already validated. *)
Lemma evaluated_ids r s t d :
  request_ok r -> evaluate_policy r s t = Ok d ->
  pd_evaluation_id d = pr_evaluation_id r
  /\ pd_acquisition_opportunity_id d = pr_acquisition_opportunity_id r
  /\ decision_validate d = Ok d.
Proof.
  intros Hr H. unfold evaluate_policy in H. inv_result.
  pose proof (decision_validate_idem _ _ H) as Hid.
  unfold decision_validate in H. inv_result.
  cbn [decision pd_evaluation_id pd_acquisition_opportunity_id] in *.
  pose proof (rk_evaluation r Hr). pose proof (rk_opportunity r Hr). split_and!; congruence.
Qed.

Lemma evaluated_revision r s t d :
  evaluate_policy r s t = Ok d -> pd_control_revision d = ps_control_revision s.
Proof. unfold evaluate_policy, decision_validate. intros H. by inv_result. Qed.

Lemma decision_values_ids d w :
  decision_values d = Ok w ->
  pd_evaluation_id w = pd_evaluation_id d
  /\ pd_acquisition_opportunity_id w = pd_acquisition_opportunity_id d
  /\ pd_status w = pd_status d /\ pd_executable w = pd_executable d
  /\ pd_reason_codes w = pd_reason_codes d.
Proof.
  unfold decision_values. intros H. inv_result.
  repeat match goal with
  | H : varchar _ _ _ = Ok _ |- _ => apply varchar_Ok in H as [-> _]
  | H : opt_mapM (varchar _ _) _ = Ok _ |- _ => apply opt_varchar_Ok in H as ->
  end. done.
Qed.

Lemma insert_evaluation_Ok p ex d fp p' :
  insert_evaluation_if_absent p ex d fp = Ok (true, p') ->
  exists w, decision_values d = Ok w /\ pdb_evaluations p !! pd_evaluation_id d = None
  /\ p' = mkpdb (pdb_controls p) (<[pd_evaluation_id d := mkRow w fp]> (pdb_evaluations p)).
Proof.
  unfold insert_evaluation_if_absent. intros H. inv_result.
  apply varchar_Ok in Hv0 as [-> _]. pose proof (decision_values_ids d v Hv) as (Hid & _).
  rewrite Hid in H. destruct (pdb_evaluations p !! pd_evaluation_id d) eqn:E; inv_result; simplify_eq. eauto.
Qed.

Lemma insert_absent p ex d fp b p' :
  pdb_evaluations p !! pd_evaluation_id d = None ->
  insert_evaluation_if_absent p ex d fp = Ok (b, p') -> b = true.
Proof.
  unfold insert_evaluation_if_absent. intros Hn H. inv_result.
  pose proof (decision_values_ids _ _ Hv) as (Hid & _). rewrite Hid, Hn in H. inv_result. by simplify_eq.
Qed.

(** A first recording keeps the controls and writes the row. *)
Lemma fresh_record env (db db' : gateway_db J) r d fps t d' :
  pd_evaluation_id d = pr_evaluation_id r ->
  find_evaluation (gdb_policy db) (pr_evaluation_id r) = None ->
  _record env db r d fps t = Ok (d', db') ->
  d' = d /\ exists w, decision_values d = Ok w
    /\ find_evaluation (gdb_policy db') (pr_evaluation_id r) = Some (mkRow w fps.1).
Proof.
  intros Hid Hfind H. unfold _record in H. rewrite Hfind in H.
  apply result_bind_Ok in H as ([b p'] & Hins & H).
  pose proof Hins as Hb. apply insert_absent in Hb; [|by rewrite Hid]. subst b. simpl in H.
  apply insert_evaluation_Ok in Hins as (w & Hw & _ & ->). rewrite Hid in H.
  destruct (pr_acquisition_opportunity_id r); inv_result; simplify_eq;
    (split; [done|]); exists w; unfold find_evaluation; simpl; by rewrite lookup_insert_eq.
Qed.

Lemma audit_request_type r d v t :
  AcquisitionStore.rq_event_type (audit_request r d v t) = AcquisitionContracts.POLICY_EVALUATED.
Proof. done. Qed.

(** Adding the evaluation alone, for a request about no opportunity. *)
Lemma dual_audit_insert p j w fp eid :
  dual_audit (mkgdb p j) -> pd_evaluation_id w = eid -> pdb_evaluations p !! eid = None ->
  forall j', journal_ok j' ->
  (forall id key, (id, key) <> (default "" (pd_acquisition_opportunity_id w), audit_key eid) ->
     journal_count j' id key = journal_count j id key) ->
  (forall id, pd_acquisition_opportunity_id w = Some id -> journal_count j' id (audit_key eid) = 1) ->
  dual_audit (mkgdb (mkpdb (pdb_controls p) (<[eid := mkRow w fp]> (pdb_evaluations p))) j').
Proof.
  intros Hda Hw Hnone j' Hj' Hother Hown. constructor; simpl; [done | |].
  - intros eid' row Hrow. apply lookup_insert_Some in Hrow as [[<- <-]|[Hne Hrow]]; [done|].
    by apply (da_key _ Hda).
  - intros eid' row id Hrow Hid. apply lookup_insert_Some in Hrow as [[<- <-]|[Hne Hrow]].
    + by apply Hown.
    + rewrite Hother; [by apply (da_event _ Hda eid' row)|].
      intros [= _ Hk]. apply Hne. symmetry. by apply audit_key_inj.
Qed.

Lemma record_dual_audit env db r d fps t d' db' :
  request_ok r -> pd_evaluation_id d = pr_evaluation_id r ->
  pd_acquisition_opportunity_id d = pr_acquisition_opportunity_id r ->
  dual_audit db -> _record env db r d fps t = Ok (d', db') -> dual_audit db'.
Proof.
  intros Hr Hid Hopp Hda H. unfold _record in H.
  destruct (find_evaluation (gdb_policy db) (pr_evaluation_id r)) as [existing|] eqn:Hfind.
  { inv_result. by simplify_eq. }
  apply result_bind_Ok in H as ([[] p'] & Hins & H); simpl in H.
  2: { destruct (find_evaluation p' _); inv_result; by simplify_eq. }
  apply insert_evaluation_Ok in Hins as (w & Hw & Hnone & ->).
  pose proof (decision_values_ids d w Hw) as (Hwid & Hwopp & _).
  destruct db as [p j]. simpl in *. rewrite Hid in *.
  destruct (pr_acquisition_opportunity_id r) as [id|] eqn:Eopp; inv_result; simplify_eq.
  - match goal with E : journal_append _ _ _ _ = Ok ?j' |- _ => rename E into Happ end.
    pose proof (audit_key_strip r Hr) as Hk.
    destruct (journal_append_ok _ _ _ _ _ (da_journal _ Hda) (audit_request_type r d' _ t) Hk Happ)
      as [Hj' Hcount].
    apply (dual_audit_insert p j w _ _ Hda Hwid Hnone _ Hj').
    + intros id' key Hne. rewrite Hwopp, Hopp in Hne. simpl in Hne.
      by eapply (journal_append_other _ _ _ _ _ _ _ (da_journal _ Hda) (audit_request_type r d' _ t) Hk Happ).
    + intros id' Hid'. rewrite Hwopp, Hopp in Hid'. injection Hid' as <-. exact Hcount.
  - apply (dual_audit_insert p j w _ _ Hda Hwid Hnone _ (da_journal _ Hda)); [done|].
    intros id' Hid'. congruence.
Qed.

Lemma evaluate_dual_audit env stale db r t usage sid d db' :
  request_ok r -> dual_audit db ->
  evaluate_and_record env stale db r t usage sid = Ok (d, db') -> dual_audit db'.
Proof.
  intros Hr Hda H. unfold evaluate_and_record, prepare in H.
  apply result_bind_Ok in H as (prep & Hprep & H). inv_result.
  destruct (find_evaluation _ _).
  - inv_result. by simplify_eq.
  - inv_result. simplify_eq. cbn [record_in_transaction pe_decision pe_fingerprints] in H.
    match goal with E : evaluate_policy _ _ _ = Ok _ |- _ =>
      destruct (evaluated_ids _ _ _ _ Hr E) as (? & ? & _) end.
    by eapply record_dual_audit.
Qed.

(** ** What a replay reads *)

(** A decision that validates to itself is read back from its row. *)
Lemma decision_read_back d w fp :
  decision_validate d = Ok d -> decision_values d = Ok w ->
  exists d', decision_from_row (mkRow w fp) = Ok d'
  /\ pd_status d' = pd_status d /\ pd_executable d' = pd_executable d
  /\ pd_reason_codes d' = pd_reason_codes d.
Proof.
  intros Hd Hw. unfold decision_values in Hw. inv_result.
  repeat match goal with
  | H : varchar _ _ _ = Ok _ |- _ => apply varchar_Ok in H as [-> _]
  | H : opt_mapM (varchar _ _) _ = Ok _ |- _ => apply opt_varchar_Ok in H as ->
  end.
  unfold decision_validate in Hd. inv_result. destruct d. cbn in *. injection Hd; intros; subst; clear Hd.
  match goal with E : checked "approval_refs" _ _ = Ok _ |- _ =>
    let H := fresh in pose proof E as H; apply checked_Ok in H as [_ H]; subst end.
  unfold decision_from_row, decision_validate.
  cbn -[EvaluationIdentifier PIdentifier CommandName PStableRef PFingerprint PShortCode Currency
        checked items opt_mapM mapM_result ref_validate assume_utc] in *.
  repeat match goal with
  | H : ?f ?a = Ok ?a |- context [?f ?a] => rewrite H; clear H; cbn [result_bind]
  | |- context [checked _ aware (assume_utc ?x)] =>
      rewrite (checked_id _ aware (assume_utc x)) by apply aware_assume_utc; cbn [result_bind]
  | |- context [checked _ AcquisitionContracts._aware (assume_utc <$> ?x)] =>
      rewrite (checked_id _ AcquisitionContracts._aware (assume_utc <$> x))
        by apply aware_assume_utc_opt; cbn [result_bind]
  end.
  eexists; split; [reflexivity | done].
Qed.

Lemma snapshot_controls (db db' : gateway_db J) r t usage sid :
  pdb_controls (gdb_policy db) = pdb_controls (gdb_policy db') ->
  _snapshot db r t usage sid = _snapshot db' r t usage sid.
Proof.
  intros H. unfold _snapshot, get_control, get_effective_control, newest. by rewrite H.
Qed.

(** ** The control an evaluation rests on *)

Lemma snapshot_spec (db : gateway_db J) r t usage s :
  datetime_ok t = true -> _snapshot db r t usage None = Ok s ->
  exists row, row ∈ pdb_controls (gdb_policy db) /\ in_effect t row = true
  /\ (forall row', row' ∈ pdb_controls (gdb_policy db) -> in_effect t row' = true ->
      pc_control_revision row' <= pc_control_revision row)
  /\ ps_control_revision s = pc_control_revision row
  /\ ps_autonomy_mode s = pc_autonomy_mode row
  /\ (forall e, ps_expires_at s = Some e -> instant t < instant e)
  /\ (forall e, bd_period_end (ps_budget s) = Some e -> instant t < instant e).
Proof.
  intros Ht H. unfold _snapshot in H. inv_result.
  apply effective_control_spec in Hv as (row & Hin & Heff & Hmax & Hrow).
  apply control_from_row_kept in Hrow as (Hrev & Hmode & _ & _ & Hexp).
  exists row. unfold snapshot_validate in H. inv_result.
  unfold budget_validate in Hv1. inv_result. cbn in *.
  repeat match goal with E : checked _ _ _ = Ok _ |- _ => apply checked_Ok in E as [_ ->] end.
  split_and!; try done.
  - intros e He. destruct (Hexp e He) as (e' & He' & ->). unfold in_effect in Heff.
    rewrite He' in Heff. inv_result. unfold dt_ltb in *. lia.
  - intros e [= <-]. apply dt_add_instant in Hv0 as [-> _].
    pose proof (datetime_ok_time t Ht). unfold instant, local_us, replace_midnight, time_us.
    unfold time_us in *. simpl. lia.
Qed.
End gateway.

(** * The history of the gateway's tables *)

Section history.
Context `{Hash : HashLib} `{DB : Database}.
Import AcquisitionStoreFacts.

(** What happens to the tables: an evaluation (prepared on any earlier
    state), a new control, and any calls of the acquisition store. *)
Inductive gateway_step : gateway_db AcquisitionStore.acq_db ->
    gateway_db AcquisitionStore.acq_db -> Prop :=
| step_evaluate env stale db r t usage sid d db' :
    request_ok r -> evaluate_and_record env stale db r t usage sid = Ok (d, db') ->
    gateway_step db db'
| step_append db control p' :
    append_control (gdb_policy db) control = Ok p' ->
    gateway_step db (mkgdb p' (gdb_journal db))
| step_append_if_latest db control expected b p' :
    append_control_if_latest (gdb_policy db) control expected = Ok (b, p') ->
    gateway_step db (mkgdb p' (gdb_journal db))
| step_acquisition db calls :
    Forall (fun c => call_canonical c.2) calls ->
    gateway_step db (mkgdb (gdb_policy db) (run (gdb_journal db) calls)).

Lemma insert_control_evaluations p c p' :
  insert_control p c = Ok p' -> pdb_evaluations p' = pdb_evaluations p.
Proof. intros H. by apply insert_control_Ok in H as (row & _ & -> & _). Qed.

Lemma append_control_evaluations p c p' :
  append_control p c = Ok p' -> pdb_evaluations p' = pdb_evaluations p.
Proof.
  unfold append_control. destruct (max_revision p); intros H; inv_result;
    by eapply insert_control_evaluations.
Qed.

Lemma append_if_latest_evaluations p c expected b p' :
  append_control_if_latest p c expected = Ok (b, p') -> pdb_evaluations p' = pdb_evaluations p.
Proof.
  unfold append_control_if_latest. destruct (_ || _); intros H; [by simplify_eq|].
  destruct (insert_control p c) as [p1|e] eqn:E.
  - simplify_eq. by eapply insert_control_evaluations.
  - destruct e; by simplify_eq.
Qed.

Lemma dual_audit_evaluations p p' (j : AcquisitionStore.acq_db) :
  pdb_evaluations p' = pdb_evaluations p -> dual_audit (mkgdb p j) -> dual_audit (mkgdb p' j).
Proof.
  intros He Hda. constructor; simpl; rewrite ?He;
    [apply (da_journal _ Hda) | apply (da_key _ Hda) | apply (da_event _ Hda)].
Qed.

(** The acquisition store never loses an event and never repeats a key. *)
Lemma run_event_count j calls id key :
  db_inv j -> Forall (fun c => call_canonical c.2) calls ->
  event_count j id key = 1 -> event_count (run j calls) id key = 1.
Proof.
  intros Hj Hc H. pose proof (event_count_le1 _ id key (run_inv j calls Hj Hc)) as Hle.
  destruct (run_events j calls Hj Hc) as [l Hl]. unfold event_count in *.
  rewrite Hl, filter_app in Hle |- *. unfold zlength in *. rewrite length_app in Hle |- *. lia.
Qed.

Lemma gateway_step_dual_audit db db' : gateway_step db db' -> dual_audit db -> dual_audit db'.
Proof.
  intros Hs Hda. destruct Hs as [env stale db r t usage sid d db' Hr H|[p j] c p' H
    |[p j] c expected b p' H|[p j] calls Hc]; simpl in *.
  - by eapply evaluate_dual_audit.
  - eapply dual_audit_evaluations; [by eapply append_control_evaluations | done].
  - eapply dual_audit_evaluations; [by eapply append_if_latest_evaluations | done].
  - constructor; simpl; [by apply run_inv, Hc; apply (da_journal _ Hda) | apply (da_key _ Hda)|].
    intros eid row id Hrow Hid. apply run_event_count; [apply (da_journal _ Hda) | done|].
    by apply (da_event _ Hda eid row).
Qed.

Lemma dual_audit_reachable db :
  rtc gateway_step (mkgdb empty_policy_db AcquisitionStore.empty_db) db -> dual_audit db.
Proof.
  intros H. remember (mkgdb empty_policy_db AcquisitionStore.empty_db) as db0 eqn:E0.
  assert (H0 : dual_audit db0).
  { subst. constructor; simpl; [apply db_inv_empty | done | done]. }
  clear E0. induction H as [|x y z Hs _ IH]; [done|]. apply IH. by eapply gateway_step_dual_audit.
Qed.

Lemma evaluate_controls env stale db r t usage sid d db' :
  evaluate_and_record (J := AcquisitionStore.acq_db) env stale db r t usage sid = Ok (d, db') ->
  pdb_controls (gdb_policy db') = pdb_controls (gdb_policy db).
Proof.
  unfold evaluate_and_record. intros H. apply result_bind_Ok in H as ([d0|p] & _ & H).
  { by simplify_eq. }
  cbn [record_in_transaction] in H. unfold _record in H.
  destruct (find_evaluation (gdb_policy db) _); [inv_result; by simplify_eq|].
  apply result_bind_Ok in H as ([[] p'] & Hins & H); simpl in H.
  - apply insert_evaluation_Ok in Hins as (w & _ & _ & ->).
    destruct (pr_acquisition_opportunity_id r); inv_result; by simplify_eq.
  - destruct (find_evaluation p' _); inv_result; by simplify_eq.
Qed.

Lemma gateway_step_history db db' :
  gateway_step db db' -> history_ok (gdb_policy db) -> history_ok (gdb_policy db').
Proof.
  intros Hs Hh. destruct Hs as [env stale db r t usage sid d db' Hr H|[p j] c p' H
    |[p j] c expected b p' H|[p j] calls Hc]; simpl in *.
  - unfold history_ok, revisions. by erewrite evaluate_controls by done.
  - by eapply append_control_history.
  - by eapply append_if_latest_spec in H as [? _].
  - done.
Qed.
End history.

(** * The claims *)

Section claims.
Context `{Hash : HashLib} `{DB : Database}.
Implicit Types db : gateway_db AcquisitionStore.acq_db.

(** C6 (invariant).  The dual audit holds in every state the policy gateway,
    the control history and the acquisition store can reach from empty
    tables, in any interleaving and with evaluations prepared on stale
    reads: an evaluation recorded for an opportunity has exactly one event
    under its key in the stream of that opportunity.  So the guard of
    [_validated_existing] never fires for a request about the opportunity of
    the recorded evaluation: a repeated request is answered from the row, or
    refused because its content differs. *)
Theorem every_evaluation_audited db (eid : string) (row : evaluation_row) (id : string) :
  rtc gateway_step (mkgdb empty_policy_db AcquisitionStore.empty_db) db ->
  find_evaluation (gdb_policy db) eid = Some row ->
  pd_acquisition_opportunity_id (er_decision row) = Some id ->
  event_count (gdb_journal db) id (audit_key eid) = 1
  /\ forall r fps, pr_evaluation_id r = eid -> pr_acquisition_opportunity_id r = Some id ->
     _validated_existing db r fps row
     = if bool_decide (er_fingerprint row = fps.1) || bool_decide (er_fingerprint row = fps.2)
       then decision_from_row row else Raise (PolicyEvaluationIdempotencyConflict eid).
Proof.
  intros Hr Hrow Hid. apply dual_audit_reachable in Hr as Hda.
  pose proof (da_event _ Hda eid row id Hrow Hid) as Hone. split; [exact Hone|].
  intros r fps He Ho. unfold _validated_existing. rewrite Ho, He. simpl in Hone |- *.
  by rewrite Hone.
Qed.

(** C34 (equivalence).  Recording is idempotent: after an evaluation has been
    recorded, the same request with the same usage at the same time is
    answered with the recorded status, executability and reasons, and writes
    neither a second evaluation nor a second event. *)
Theorem evaluation_replayed (env env' : AcquisitionStore.store_env) db db' (r : PolicyRequest)
    (t : datetime) (usage : BudgetUsage) (sid : option string) (d : PolicyDecision) :
  request_ok r -> dual_audit db ->
  evaluate_and_record env db db r t usage sid = Ok (d, db') ->
  exists d', evaluate_and_record env' db' db' r t usage sid = Ok (d', db')
    /\ pd_status d' = pd_status d /\ pd_executable d' = pd_executable d
    /\ pd_reason_codes d' = pd_reason_codes d.
Proof.
  intros Hr Hda H. pose proof (evaluate_dual_audit _ _ _ _ _ _ _ _ _ Hr Hda H) as Hda'.
  pose proof (evaluate_controls _ _ _ _ _ _ _ _ _ H) as Hc.
  unfold evaluate_and_record, prepare in H. inv_result.
  destruct (find_evaluation (gdb_policy db) (pr_evaluation_id r)) as [existing|] eqn:Hfind;
    inv_result; simplify_eq.
  { exists d. unfold evaluate_and_record, prepare. rewrite Hv0. cbn [result_bind].
    rewrite Hv1. cbn [result_bind]. rewrite Hv2. cbn [result_bind]. rewrite Hfind. by rewrite Hv3. }
  destruct (evaluated_ids r _ t _ Hr Hv3) as (Hid & Hopp & Hval).
  cbn [record_in_transaction pe_decision pe_fingerprints] in H.
  apply fresh_record in H as (-> & w & Hw & Hfind'); [|done..].
  destruct (decision_read_back _ w v1 Hval Hw) as (d' & Hd' & Hsame). exists d'. split; [|done].
  pose proof (decision_values_ids _ _ Hw) as (_ & Hwopp & _).
  unfold evaluate_and_record, prepare. rewrite (snapshot_controls db' db) by done.
  rewrite Hv0. cbn [result_bind]. rewrite Hv1. cbn [result_bind]. rewrite Hv2. cbn [result_bind].
  rewrite Hfind'. unfold _validated_existing. simpl. rewrite bool_decide_eq_true_2 by done. simpl.
  destruct (pr_acquisition_opportunity_id r) as [id|] eqn:Eo.
  - pose proof (da_event _ Hda' _ _ id Hfind') as Hone. simpl in Hone. rewrite Hone by congruence.
    simpl. by rewrite Hd'.
  - by rewrite Hd'.
Qed.

(** A decision the gateway prepares without an explicit
    snapshot rests on the control in force: one whose interval contains the
    evaluation time and whose revision is the greatest of those, under that
    control's autonomy mode; never allowed in shadow mode, and never born
    stale - an allowed decision is valid strictly beyond its evaluation
    time. *)
Theorem decision_under_control_in_force db (r : PolicyRequest) (t : datetime)
    (usage : BudgetUsage) (p : PreparedEvaluation) :
  datetime_ok t = true -> prepare db r t usage None = Ok (inr p) ->
  exists c, c ∈ pdb_controls (gdb_policy db) /\ in_effect t c = true
  /\ (forall c', c' ∈ pdb_controls (gdb_policy db) -> in_effect t c' = true ->
      pc_control_revision c' <= pc_control_revision c)
  /\ pd_control_revision (pe_decision p) = pc_control_revision c
  /\ (allowed (pe_decision p) = true -> pc_autonomy_mode c <> SHADOW
      /\ forall v, pd_valid_until (pe_decision p) = Some v -> instant t < instant v).
Proof.
  intros Ht H. unfold prepare in H. inv_result. destruct (find_evaluation _ _); inv_result; simplify_eq.
  simpl.
  apply snapshot_spec in Hv as (c & Hin & Heff & Hmax & Hrev & Hmode & Hexp & Hend); [|done].
  exists c. apply evaluated in Hv2 as Hd. destruct Hd as (_ & _ & Hal & _ & _ & Hvu).
  apply evaluated_revision in Hv2 as Hdrev. split_and!; try done; [congruence|]. intros Ha. rewrite Hal in Ha.
  apply allowed_spec in Ha as [Hshadow [_ _ (pol & Hp & Hperm)]]. split; [congruence|].
  intros u Hu. rewrite Hvu in Hu. cbn [decision pd_valid_until] in Hu. unfold _known_boundaries in Hu.
  pose proof (dt_min_spec (boundaries r v t)) as Hm. rewrite Hu in Hm. destruct Hm as [Hum _].
  by eapply permitted_boundaries.
Qed.

(** The control history is append-only and totally ordered:
    in every reachable state the revisions of its rows strictly increase in
    the order of the inserts, so no two controls share one. *)
Theorem control_history_increases db :
  rtc gateway_step (mkgdb empty_policy_db AcquisitionStore.empty_db) db ->
  StronglySorted Z.lt (revisions (gdb_policy db)).
Proof.
  intros H. remember (mkgdb empty_policy_db AcquisitionStore.empty_db) as db0 eqn:E0.
  assert (H0 : history_ok (gdb_policy db0)) by (subst; constructor). clear E0.
  induction H as [|x y z Hs _ IH]; [done|]. apply IH. by eapply gateway_step_history.
Qed.

(** C7 (safety).  The compare-and-append of the control history is exact:
    it succeeds only when the head is still the expected one, appends the
    next revision, which becomes the head; otherwise the table is unchanged.
    Of two writers that read the same head, the second to append fails. *)
Theorem append_if_latest_exclusive (p p1 : policy_db) (c c' : PolicyControlSnapshot)
    (expected : option Z) (b : bool) :
  history_ok p -> append_control_if_latest p c expected = Ok (b, p1) ->
  if b then
    expected = max_revision p
    /\ pc_control_revision c = default 0 (max_revision p) + 1
    /\ max_revision p1 = Some (pc_control_revision c)
    /\ append_control_if_latest p1 c' expected = Ok (false, p1)
  else p1 = p.
Proof.
  intros Hh H. apply append_if_latest_spec in H as [_ H]; [|done]. destruct b; [|done].
  destruct H as (He & Hm & Hc). split_and!; try done.
  unfold append_control_if_latest. rewrite Hm, bool_decide_eq_false_2; [done|].
  intros E. rewrite He in E. rewrite <- E in Hc. simpl in Hc. lia.
Qed.
End claims.

(** * States that satisfy the hypotheses *)

Module GatewaySample.
Import AcquisitionTheorems.Sample PolicySample.

Definition journal : AcquisitionStore.acq_db :=
  AcquisitionStoreFacts.run AcquisitionStore.empty_db
    [(env 1, AcquisitionStoreFacts.CallCreate create);
     (env 2, AcquisitionStoreFacts.CallAppend "opp-1" enrich);
     (env 3, AcquisitionStoreFacts.CallAppend "opp-1" ready)].

Definition control_at (revision : Z) (id fingerprint : string) : PolicyControlSnapshot :=
  mkControl id revision POLICY_VERSION ASSISTED None false false None
    ["schedule_campaign"; "pause_campaign"] ["FR"] ["fr"] [] "EUR" (mkdec 100 0) 50 earlier
    (Some later) fingerprint earlier "HUMAN" "human:alice" ["setup"].

Definition control : PolicyControlSnapshot := control_at 3 "snap-1" (pad_digits 64 1).

Definition asked : PolicyRequest :=
  mkPolicyRequest "eval-1" "req-1" "schedule_campaign" "camp-1" (Some "opp-1") None (Some 3) "HERMES"
    None "{}" fp PolicySample.scope (mkdec 250 (-2)) "EUR" 20 [] ["ev-1"]
    (pr_evidence PolicySample.request) (pr_compliance PolicySample.request)
    (pr_operational PolicySample.request) POLICY_VERSION [grant] None None None None.

Definition usage : BudgetUsage := mkUsage (mkdec 4000 (-2)) 10.

Definition controlled : gateway_db AcquisitionStore.acq_db :=
  mkgdb (mkpdb [control] ∅) journal.

Definition recorded : result (PolicyDecision * gateway_db AcquisitionStore.acq_db) :=
  evaluate_and_record (env 9) controlled controlled asked now usage None.

Definition recorded_db : gateway_db AcquisitionStore.acq_db :=
  match recorded with Ok (_, db) => db | Raise _ => controlled end.
Definition recorded_decision : PolicyDecision :=
  match recorded with Ok (d, _) => d | Raise _ => decided end.

Lemma recorded_Ok : recorded = Ok (recorded_decision, recorded_db).
Proof. vm_compute. reflexivity. Qed.

Lemma asked_ok : request_ok asked.
Proof. constructor; try (vm_compute; reflexivity); by repeat constructor. Qed.
End GatewaySample.

Section witnesses.
Import AcquisitionTheorems.Sample PolicySample GatewaySample.

Lemma recorded_reachable :
  rtc gateway_step (mkgdb empty_policy_db AcquisitionStore.empty_db) recorded_db.
Proof.
  eapply rtc_l; [apply (step_acquisition (mkgdb empty_policy_db AcquisitionStore.empty_db)
    [(env 1, AcquisitionStoreFacts.CallCreate create);
     (env 2, AcquisitionStoreFacts.CallAppend "opp-1" enrich);
     (env 3, AcquisitionStoreFacts.CallAppend "opp-1" ready)]); repeat constructor; done|].
  eapply rtc_l; [apply (step_append _ control (mkpdb [control] ∅)); vm_compute; reflexivity|].
  eapply rtc_l; [apply (step_evaluate (env 9) controlled controlled asked now usage None
    recorded_decision recorded_db asked_ok recorded_Ok)|].
  reflexivity.
Qed.

Lemma controlled_audit : dual_audit controlled.
Proof.
  apply dual_audit_reachable.
  eapply rtc_l; [apply (step_acquisition (mkgdb empty_policy_db AcquisitionStore.empty_db)
    [(env 1, AcquisitionStoreFacts.CallCreate create);
     (env 2, AcquisitionStoreFacts.CallAppend "opp-1" enrich);
     (env 3, AcquisitionStoreFacts.CallAppend "opp-1" ready)]); repeat constructor; done|].
  eapply rtc_l; [apply (step_append _ control (mkpdb [control] ∅)); vm_compute; reflexivity|].
  reflexivity.
Qed.

Lemma every_evaluation_audited_witness :
  event_count (gdb_journal recorded_db) "opp-1" (audit_key "eval-1") = 1.
Proof.
  destruct (find_evaluation (gdb_policy recorded_db) "eval-1") as [row|] eqn:E.
  - apply (every_evaluation_audited recorded_db "eval-1" row "opp-1" recorded_reachable E).
    revert E. vm_compute. intros [= <-]. reflexivity.
  - exfalso. revert E. vm_compute. discriminate.
Defined.

Lemma evaluation_replayed_witness :
  exists d', evaluate_and_record (env 10) recorded_db recorded_db asked now usage None
             = Ok (d', recorded_db) /\ pd_status d' = APPROVED.
Proof.
  destruct (evaluation_replayed (env 9) (env 10) controlled recorded_db asked now usage None
    recorded_decision asked_ok controlled_audit recorded_Ok) as (d' & H & Hs & _).
  exists d'. split; [exact H|]. rewrite Hs. vm_compute. reflexivity.
Defined.

Lemma decision_under_control_in_force_witness :
  exists p, prepare controlled asked now usage None = Ok (inr p) /\ allowed (pe_decision p) = true
  /\ exists c, c ∈ [control] /\ pc_autonomy_mode c <> SHADOW.
Proof.
  destruct (prepare controlled asked now usage None) as [[d|p]|e] eqn:E;
    [exfalso; revert E; vm_compute; discriminate | | exfalso; revert E; vm_compute; discriminate].
  exists p. split; [done|].
  assert (Ha : allowed (pe_decision p) = true)
    by (revert E; vm_compute; intros [= <-]; reflexivity).
  split; [exact Ha|].
  destruct (decision_under_control_in_force controlled asked now usage p ltac:(reflexivity) E)
    as (c & Hc & _ & _ & _ & H).
  exists c. split; [exact Hc | apply (H Ha)].
Defined.

Lemma control_history_increases_witness : StronglySorted Z.lt (revisions (gdb_policy recorded_db)).
Proof. apply (control_history_increases recorded_db recorded_reachable). Defined.

Lemma append_if_latest_exclusive_witness :
  exists p, append_control_if_latest (mkpdb [control] ∅) (control_at 4 "snap-2" (pad_digits 64 2))
              (Some 3) = Ok (true, p)
  /\ append_control_if_latest p (control_at 4 "snap-3" (pad_digits 64 3)) (Some 3) = Ok (false, p).
Proof.
  destruct (append_control_if_latest (mkpdb [control] ∅)
    (control_at 4 "snap-2" (pad_digits 64 2)) (Some 3)) as [[b p]|e] eqn:E;
    [|exfalso; revert E; vm_compute; discriminate].
  assert (b = true) as -> by (revert E; vm_compute; intros [= <-]; done).
  exists p. split; [done|].
  assert (Hh : history_ok (mkpdb [control] ∅)) by (by repeat constructor).
  apply (append_if_latest_exclusive (mkpdb [control] ∅) p (control_at 4 "snap-2" (pad_digits 64 2))
    (control_at 4 "snap-3" (pad_digits 64 3)) (Some 3) true Hh E).
Defined.
End witnesses.
