(* ===== verification/OperationsContracts.v ===== *)
(** OperationsContracts: the contracts of the operations package
    ([operations/contracts.py]) - incident triggers, dead letters, the retry
    policy, health and readiness - and the two pure evaluations over them
    ([operations/health.py], [operations/readiness.py]). *)

From S2P Require Import Prelude PyStr PyDatetime PyDecimal PyJson.
From S2P Require Import PolicyContracts.

Local Open Scope string_scope.
Local Open Scope Z_scope.
Local Open Scope list_scope.

(** [operations/contracts.py:23-27 versions] *)
Definition BREAKER_VERSION : string := "acquisition-circuit-breaker-v1".
(** [operations/contracts.py:25-25 RETRY_POLICY_VERSION] *)
Definition RETRY_POLICY_VERSION : string := "acquisition-retry-policy-v1".

(** * Fields *)

(** [operations/contracts.py:29-31 SafeRef] *)
Definition SafeRef (field s : string) : result string := constr field 1 256 s.
(** [operations/contracts.py:32-34 SafeCode] *)
Definition SafeCode (field s : string) : result string := matching field is_safe_code s.

(** [operations/contracts.py:38-41 _aware] *)
Definition _aware_to_utc (field : string) (value : datetime) : result datetime :=
  require! aware value else ValidationError field in
  astimezone_utc value.

(** [sub in s] *)
Fixpoint in_str (sub s : string) : bool :=
  startswith s sub || match s with EmptyString => false | String _ t => in_str sub t end.

Fixpoint any_char (f : Ascii.ascii -> bool) (s : string) : bool :=
  match s with EmptyString => false | String c t => f c || any_char f t end.

(** [operations/contracts.py:50-53 _internal_ref] *)
Definition _internal_ref (field value : string) : result string :=
  require! negb (in_str "@" value || in_str "://" value || any_char py_isspace value)
  else ValidationError field in Ok value.

Definition OpaqueRef (field s : string) : result string :=
  let! t := SafeRef field s in _internal_ref field t.

(** [^(CH|FR)$] under [str_strip_whitespace]. *)
Definition served_country (field s : string) : result string :=
  matching field (fun t => in_list t ["CH"; "FR"]) s.

(** * Enumerations *)

(** [operations/contracts.py:67-72 ScopeType] *)
Inductive ScopeType : Type := GLOBAL | COUNTRY | WEDGE | CAMPAIGN | MAILBOX.

#[export] Instance ScopeType_eq_dec : EqDecision ScopeType.
Proof. solve_decision. Defined.

(** [operations/contracts.py:67-72 ScopeType] *)
Definition scope_type_value (s : ScopeType) : string :=
  match s with
  | GLOBAL => "GLOBAL" | COUNTRY => "COUNTRY" | WEDGE => "WEDGE" | CAMPAIGN => "CAMPAIGN"
  | MAILBOX => "MAILBOX"
  end.

(** [operations/contracts.py:75-85 IncidentType] *)
Inductive IncidentType : Type :=
| BOUNCE_RATE | COMPLAINT | COMPLIANCE_FAILURE | PROVIDER_FAILURE | UNEXPECTED_TRANSPORT_TRUTH
| BUDGET_BREACH | COST_DRIFT | CONVERSION_DEGRADATION | RETENTION_DEGRADATION
| MAILBOX_UNAVAILABLE.

#[export] Instance IncidentType_eq_dec : EqDecision IncidentType.
Proof. solve_decision. Defined.

(** [operations/contracts.py:75-85 IncidentType] *)
Definition incident_type_value (t : IncidentType) : string :=
  match t with
  | BOUNCE_RATE => "BOUNCE_RATE" | COMPLAINT => "COMPLAINT"
  | COMPLIANCE_FAILURE => "COMPLIANCE_FAILURE" | PROVIDER_FAILURE => "PROVIDER_FAILURE"
  | UNEXPECTED_TRANSPORT_TRUTH => "UNEXPECTED_TRANSPORT_TRUTH"
  | BUDGET_BREACH => "BUDGET_BREACH" | COST_DRIFT => "COST_DRIFT"
  | CONVERSION_DEGRADATION => "CONVERSION_DEGRADATION"
  | RETENTION_DEGRADATION => "RETENTION_DEGRADATION"
  | MAILBOX_UNAVAILABLE => "MAILBOX_UNAVAILABLE"
  end.

(** [operations/contracts.py:88-91 IncidentSeverity] *)
Inductive IncidentSeverity : Type := WARNING | HIGH | CRITICAL.

#[export] Instance IncidentSeverity_eq_dec : EqDecision IncidentSeverity.
Proof. solve_decision. Defined.

(** [operations/contracts.py:94-97 IncidentState] *)
Inductive IncidentState : Type := IncidentOPEN | ACKNOWLEDGED | IncidentRESOLVED.

#[export] Instance IncidentState_eq_dec : EqDecision IncidentState.
Proof. solve_decision. Defined.

(** [operations/contracts.py:100-103 DeadLetterStatus] *)
Inductive DeadLetterStatus : Type := LetterOPEN | REQUEUED | LetterRESOLVED.

#[export] Instance DeadLetterStatus_eq_dec : EqDecision DeadLetterStatus.
Proof. solve_decision. Defined.

(** [operations/contracts.py:106-114 WorkType] *)
Inductive WorkType : Type :=
| SUPERVISOR_CYCLE | SUPPLIER_DISCOVERY | CONTACT_DISCOVERY | COMPANY_RESEARCH
| CAMPAIGN_PROVIDER_OPERATION | RESPONSE_RESOLUTION | CONVERSION_RECONCILIATION
| LEARNING_CYCLE.

#[export] Instance WorkType_eq_dec : EqDecision WorkType.
Proof. solve_decision. Defined.

(** [operations/contracts.py:106-114 WorkType] *)
Definition work_type_value (t : WorkType) : string :=
  match t with
  | SUPERVISOR_CYCLE => "SUPERVISOR_CYCLE" | SUPPLIER_DISCOVERY => "SUPPLIER_DISCOVERY"
  | CONTACT_DISCOVERY => "CONTACT_DISCOVERY" | COMPANY_RESEARCH => "COMPANY_RESEARCH"
  | CAMPAIGN_PROVIDER_OPERATION => "CAMPAIGN_PROVIDER_OPERATION"
  | RESPONSE_RESOLUTION => "RESPONSE_RESOLUTION"
  | CONVERSION_RECONCILIATION => "CONVERSION_RECONCILIATION"
  | LEARNING_CYCLE => "LEARNING_CYCLE"
  end.

(** [operations/contracts.py:117-120 HealthStatus] *)
Inductive HealthStatus : Type := HealthREADY | DEGRADED | HealthNOT_READY.

#[export] Instance HealthStatus_eq_dec : EqDecision HealthStatus.
Proof. solve_decision. Defined.

(** [operations/contracts.py:123-126 GateStatus] *)
Inductive GateStatus : Type := GateREADY | GateNOT_READY | GateINSUFFICIENT_EVIDENCE.

#[export] Instance GateStatus_eq_dec : EqDecision GateStatus.
Proof. solve_decision. Defined.

(** [operations/contracts.py:129-132 RetryDisposition] *)
Inductive RetryDisposition : Type := RETRY | DLQ | RECONCILE_FIRST.

#[export] Instance RetryDisposition_eq_dec : EqDecision RetryDisposition.
Proof. solve_decision. Defined.

(** * Incidents and dead letters *)

(** [operations/contracts.py:135-138 BreakerScope] *)
Record BreakerScope : Type := mkBreakerScope { bs_scope_type : ScopeType; bs_scope_ref : string }.

#[export] Instance BreakerScope_eq_dec : EqDecision BreakerScope.
Proof. solve_decision. Defined.

(** [operations/contracts.py:135-138 BreakerScope] *)
Definition scope_validate (s : BreakerScope) : result BreakerScope :=
  let! ref := OpaqueRef "scope_ref" (bs_scope_ref s) in
  Ok (mkBreakerScope (bs_scope_type s) ref).

(** [operations/contracts.py:141-163 IncidentTrigger] *)
Record IncidentTrigger : Type := mkTrigger {
  tg_incident_type : IncidentType;
  tg_severity : IncidentSeverity;
  tg_scope : BreakerScope;
  tg_source_state_ref : string;
  tg_triggered_at : datetime;
  tg_reason_codes : list string;
  tg_observed_value : option decimal;
  tg_threshold_value : option decimal;
  tg_metric_version : option string;
  tg_campaign_ref : option string;
  tg_mailbox_ref : option string;
  tg_wedge : option string;
  tg_country : option string;
  tg_human_review_required : bool;
  tg_pause_required : bool;
  tg_policy_control_before : option string;
  tg_policy_control_after : option string;
}.

(** [operations/contracts.py:141-163 IncidentTrigger]: building one from its
    fields, the scope given as a [BreakerScope]. *)
Definition trigger_validate (t : IncidentTrigger) : result IncidentTrigger :=
  let! source := OpaqueRef "source_state_ref" (tg_source_state_ref t) in
  let! triggered := _aware_to_utc "triggered_at" (tg_triggered_at t) in
  let! reasons := items "reason_codes" SafeCode 16 (tg_reason_codes t) in
  let! _ := checked "reason_codes" list_truthy reasons in
  let! metric := opt_mapM (SafeRef "metric_version") (tg_metric_version t) in
  let! campaign := opt_mapM (OpaqueRef "campaign_ref") (tg_campaign_ref t) in
  let! mailbox := opt_mapM (OpaqueRef "mailbox_ref") (tg_mailbox_ref t) in
  let! wedge := opt_mapM (OpaqueRef "wedge") (tg_wedge t) in
  let! country := opt_mapM (served_country "country") (tg_country t) in
  let! before := opt_mapM (SafeRef "policy_control_before") (tg_policy_control_before t) in
  let! after := opt_mapM (SafeRef "policy_control_after") (tg_policy_control_after t) in
  Ok (mkTrigger (tg_incident_type t) (tg_severity t) (tg_scope t) source triggered reasons
        (tg_observed_value t) (tg_threshold_value t) metric campaign mailbox wedge country
        (tg_human_review_required t) (tg_pause_required t) before after).

(** [operations/contracts.py:183-200 DeadLetterExhaustion] *)
Record DeadLetterExhaustion : Type := mkExhaustion {
  ex_work_type : WorkType;
  ex_work_ref : string;
  ex_scope : BreakerScope;
  ex_attempt_count : Z;
  ex_first_failed_at : datetime;
  ex_last_failed_at : datetime;
  ex_failure_code : string;
  ex_retry_policy_version : string;
  ex_source_component : string;
  ex_source_state_ref : string;
}.

(** [operations/contracts.py:183-224 DeadLetterExhaustion] *)
Definition exhaustion_validate (e : DeadLetterExhaustion) : result DeadLetterExhaustion :=
  let! work := OpaqueRef "work_ref" (ex_work_ref e) in
  let! attempts := checked "attempt_count" (fun n => (1 <=? n) && (n <=? 100)) (ex_attempt_count e) in
  let! first := _aware_to_utc "first_failed_at" (ex_first_failed_at e) in
  let! last := _aware_to_utc "last_failed_at" (ex_last_failed_at e) in
  let! code := SafeCode "failure_code" (ex_failure_code e) in
  let! version := OpaqueRef "retry_policy_version" (ex_retry_policy_version e) in
  let! component := matching "source_component" is_component (ex_source_component e) in
  let! source := OpaqueRef "source_state_ref" (ex_source_state_ref e) in
  require! negb (dt_ltb last first)
  else ValidationError "last failure cannot precede first failure" in
  Ok (mkExhaustion (ex_work_type e) work (ex_scope e) attempts first last code version component
        source).

(** * Fingerprints *)

Section fingerprints.
Context `{Hash : HashLib}.

(** [operations/contracts.py:56-60 canonical_fingerprint], of a value made
    of strings, integers, booleans, [None] and tuples of them. *)
Definition canonical_fingerprint (domain : string) (value : json) : string :=
  match dumps value with
  | Ok encoded => sha256_hexdigest (domain +:+ String (chr 0) EmptyString +:+ encoded)
  | Raise _ => EmptyString
  end.

(** [scope.model_dump(mode="json")] *)
Definition scope_json (s : BreakerScope) : json :=
  JObj [("scope_type", JStr (scope_type_value (bs_scope_type s)));
        ("scope_ref", JStr (bs_scope_ref s))].

(** [operations/contracts.py:165-176 trigger_fingerprint] *)
Definition trigger_fingerprint (t : IncidentTrigger) : string :=
  canonical_fingerprint "acquisition-operational-incident:v1"
    (JObj [("version", JStr BREAKER_VERSION);
           ("type", JStr (incident_type_value (tg_incident_type t)));
           ("scope", scope_json (tg_scope t));
           ("source_state_ref", JStr (tg_source_state_ref t));
           ("metric_version", JOptStr (tg_metric_version t))]).

(** [operations/contracts.py:178-180 incident_ref] *)
Definition incident_ref (t : IncidentTrigger) : string :=
  canonical_fingerprint "acquisition-operational-incident-ref:v1" (JStr (trigger_fingerprint t)).

(** [operations/contracts.py:208-220 exhaustion_fingerprint] *)
Definition exhaustion_fingerprint (e : DeadLetterExhaustion) : string :=
  canonical_fingerprint "acquisition-dead-letter-exhaustion:v1"
    (JObj [("work_type", JStr (work_type_value (ex_work_type e)));
           ("work_ref", JStr (ex_work_ref e));
           ("scope", scope_json (ex_scope e));
           ("retry_policy_version", JStr (ex_retry_policy_version e));
           ("source_component", JStr (ex_source_component e));
           ("source_state_ref", JStr (ex_source_state_ref e))]).

(** [operations/contracts.py:222-224 dead_letter_ref] *)
Definition dead_letter_ref (e : DeadLetterExhaustion) : string :=
  canonical_fingerprint "acquisition-dead-letter-ref:v1" (JStr (exhaustion_fingerprint e)).
End fingerprints.

(** * The retry policy *)

(** [operations/contracts.py:227-230 RetryDecision] *)
Record RetryDecision : Type := mkRetry {
  rd_disposition : RetryDisposition;
  rd_retry_at : option datetime;
}.

(** [operations/contracts.py:233-236 RetryPolicy] *)
Record RetryPolicy : Type := mkRetryPolicy {
  rp_version : string;
  rp_maximum_attempts : Z;
  rp_delays_seconds : list Z;
}.

(** [operations/contracts.py:233-263 RetryPolicy] *)
Definition retry_policy_validate (p : RetryPolicy) : result RetryPolicy :=
  let! version := SafeRef "version" (rp_version p) in
  let! attempts := checked "maximum_attempts" (fun n => (1 <=? n) && (n <=? 20))
                     (rp_maximum_attempts p) in
  require! zlength (rp_delays_seconds p) =? attempts
  else ValidationError "one delay is required per allowed attempt" in
  require! negb (existsb (fun item => item <=? 0) (rp_delays_seconds p))
  else ValidationError "retry delays must be positive" in
  Ok (mkRetryPolicy version attempts (rp_delays_seconds p)).

(** [operations/contracts.py:246-263 decide]: [IndexError] when the attempt
    has no delay, and the validation of the [RetryDecision] built. *)
Definition decide_retry (p : RetryPolicy) (attempt : Z) (failed_at : datetime)
    (external_outcome_unknown : bool) : result RetryDecision :=
  require! aware failed_at else ValueError "timestamp must be timezone-aware" in
  let! failed_at := astimezone_utc failed_at in
  if external_outcome_unknown then Ok (mkRetry RECONCILE_FIRST None)
  else if rp_maximum_attempts p <=? attempt then Ok (mkRetry DLQ None)
  else if attempt <? 1 then Raise (ValueError "attempt must be positive")
  else
    let! delay := option_to_result (RuntimeError "IndexError")
                    (rp_delays_seconds p !! Z.to_nat (attempt - 1)) in
    let! retry_at := dt_add failed_at (delay * US_SECOND) in
    let! retry_at := _aware_to_utc "retry_at" retry_at in
    Ok (mkRetry RETRY (Some retry_at)).

(** [operations/contracts.py:266-270 DEFAULT_RETRY_POLICY] *)
Definition DEFAULT_RETRY_POLICY : RetryPolicy :=
  mkRetryPolicy RETRY_POLICY_VERSION 5 [60; 120; 240; 480; 960].

(** * Health *)

(** [operations/contracts.py:273-278 HermesRuntimeIdentity], which has the
    fields of [supervisor/pin.py:10-16 HermesPin]. *)
Record HermesRuntimeIdentity : Type := mkRuntime {
  hr_repository : string;
  hr_tag : string;
  hr_commit : string;
  hr_version : string;
  hr_python_contract : string;
}.

#[export] Instance HermesRuntimeIdentity_eq_dec : EqDecision HermesRuntimeIdentity.
Proof. solve_decision. Defined.

(** [operations/contracts.py:281-283 HealthComponent] *)
Record HealthComponent : Type := mkComponent {
  hc_status : HealthStatus;
  hc_reason_codes : list string;
}.

(** [operations/health.py:15-37 verify_hermes_runtime], against an explicit
    pin. *)
Definition verify_hermes_runtime (observed : option HermesRuntimeIdentity)
    (pin : HermesRuntimeIdentity) : HealthComponent :=
  match observed with
  | None => mkComponent HealthNOT_READY ["HERMES_RUNTIME_UNCONFIGURED"]
  | Some actual =>
      if negb (bool_decide (actual = pin))
      then mkComponent HealthNOT_READY ["HERMES_RUNTIME_IDENTITY_MISMATCH"]
      else mkComponent HealthREADY []
  end.

(** [operations/contracts.py:286-297 HealthEvidence] *)
Record HealthEvidence : Type := mkHealthEvidence {
  he_observed_at : datetime;
  he_api : HealthStatus;
  he_database : HealthStatus;
  he_hermes_runtime : HealthStatus;
  he_supervisor_loop : HealthStatus;
  he_policy_control : HealthStatus;
  he_campaign_execution : HealthStatus;
  he_dlq : HealthStatus;
  he_circuit_breakers : HealthStatus;
  he_reason_codes : list string;
}.

(** [operations/contracts.py:300-313 AcquisitionOperationalHealth]: the
    components are those of the evidence. *)
Record AcquisitionOperationalHealth : Type := mkHealth {
  oh_evidence : HealthEvidence;
  oh_status : HealthStatus;
  oh_reason_codes : list string;
}.

Definition health_values (e : HealthEvidence) : list HealthStatus :=
  [he_api e; he_database e; he_hermes_runtime e; he_supervisor_loop e; he_policy_control e;
   he_campaign_execution e; he_dlq e; he_circuit_breakers e].

(** [operations/health.py:40-69 evaluate_health] *)
Definition evaluate_health (e : HealthEvidence) : AcquisitionOperationalHealth :=
  let values := health_values e in
  let aggregate :=
    if in_list HealthNOT_READY values then HealthNOT_READY
    else if in_list DEGRADED values then DEGRADED
    else HealthREADY in
  mkHealth e aggregate (sorted_set (he_reason_codes e)).

(** * Readiness *)

(** [operations/contracts.py:316-319 GateEvidence] *)
Record GateEvidence : Type := mkGate {
  ge_status : GateStatus;
  ge_reason_codes : list string;
  ge_evidence_refs : list string;
}.

(** [operations/contracts.py:322-331 ReadinessEvidence] *)
Record ReadinessEvidence : Type := mkReadinessEvidence {
  re_evaluated_at : datetime;
  re_h_a_runtime : GateEvidence;
  re_h_b_state : GateEvidence;
  re_h_c_policy : GateEvidence;
  re_h_d_shadow : GateEvidence;
  re_h_e_capped : GateEvidence;
  re_h_f_closed_loop : GateEvidence;
  re_h_g_precision : GateEvidence;
}.

(** [operations/contracts.py:333-372 repository_default] *)
Definition repository_default (evaluated_at : datetime) : ReadinessEvidence :=
  mkReadinessEvidence evaluated_at
    (mkGate GateNOT_READY ["HERMES_RUNTIME_UNCONFIGURED"; "ENVIRONMENT_UNCONFIGURED"] [])
    (mkGate GateREADY ["DURABLE_REPLAY_CONTRACTS_PRESENT"] ["acquisition-state-v1"])
    (mkGate GateREADY ["POLICY_COMMAND_COVERAGE_PRESENT"] ["acquisition-policy-v1"])
    (mkGate GateINSUFFICIENT_EVIDENCE ["HUMAN_REVIEW_TRUTH_UNAVAILABLE"] [])
    (mkGate GateNOT_READY ["PRODUCTION_MAILBOX_UNCONFIGURED"; "COST_COVERAGE_INCOMPLETE"] [])
    (mkGate GateREADY ["CLOSED_LOOP_IDENTITIES_PRESENT"] ["weekly-commercial-cockpit-v1"])
    (mkGate GateNOT_READY ["ALLOCATION_ENVELOPE_UNCONFIGURED"] ["wedge-economic-value-v1"]).

(** [operations/contracts.py:375-388 AutonomousReadiness]: the gates are
    those of the evidence. *)
Record AutonomousReadiness : Type := mkReadiness {
  ar_evidence : ReadinessEvidence;
  ar_highest_safe_mode : AutonomyMode;
  ar_blockers : list string;
  ar_evidence_refs : list string;
}.

Definition gates (e : ReadinessEvidence) : list GateEvidence :=
  [re_h_a_runtime e; re_h_b_state e; re_h_c_policy e; re_h_d_shadow e; re_h_e_capped e;
   re_h_f_closed_loop e; re_h_g_precision e].

Definition gate_ready (g : GateEvidence) : bool := bool_decide (ge_status g = GateREADY).

(** [operations/readiness.py:9-56 evaluate_readiness] *)
Definition evaluate_readiness (e : ReadinessEvidence) : AutonomousReadiness :=
  let blockers :=
    sorted_set (flat_map ge_reason_codes (List.filter (fun g => negb (gate_ready g)) (gates e))) in
  let refs := sorted_set (flat_map ge_evidence_refs (gates e)) in
  let mode :=
    if forallb gate_ready (gates e) then ADAPTIVE_VOLUME
    else if forallb gate_ready [re_h_a_runtime e; re_h_b_state e; re_h_c_policy e; re_h_e_capped e]
    then AUTONOMOUS_CAPPED
    else if forallb gate_ready [re_h_a_runtime e; re_h_b_state e; re_h_c_policy e]
    then ASSISTED
    else SHADOW in
  mkReadiness e mode blockers refs.
