(* ===== verification/OperationsStore.v ===== *)
(** OperationsStore: the replay-safe persistence of operational incidents
    and dead letters ([operations/store.py]), over the tables
    [acquisition_operational_incident] and [acquisition_dead_letter] of
    [persistence/schema.py].  Each operation is one transaction: it returns
    the row it answers with and the tables after it, and a [Raise] leaves
    them as they were. *)

From S2P Require Import Prelude PyStr PyDatetime PyDecimal PyJson Database.
From S2P Require Import PolicyContracts OperationsContracts.

Local Open Scope string_scope.
Local Open Scope Z_scope.
Local Open Scope list_scope.

(** * Tables *)

(** [persistence/schema.py:2875-2946 acquisition_operational_incident] *)
Record incident_row : Type := mkIncident {
  in_incident_ref : string;
  in_trigger_fingerprint : string;
  in_incident_version : string;
  in_incident_type : IncidentType;
  in_severity : IncidentSeverity;
  in_scope : BreakerScope;
  in_source_state_ref : string;
  in_triggered_at : datetime;
  in_observed_value : option decimal;
  in_threshold_value : option decimal;
  in_metric_version : option string;
  in_reason_codes : list string;
  in_state : IncidentState;
  in_human_review_required : bool;
  in_pause_required : bool;
  in_policy_control_before : option string;
  in_policy_control_after : option string;
  in_campaign_ref : option string;
  in_mailbox_ref : option string;
  in_wedge : option string;
  in_country : option string;
  in_acknowledged_at : option datetime;
  in_resolved_at : option datetime;
  in_created_at : datetime;
  in_updated_at : datetime;
}.

(** [persistence/schema.py:2949-2997 acquisition_dead_letter] *)
Record dead_letter_row : Type := mkLetter {
  dl_dead_letter_ref : string;
  dl_exhaustion_fingerprint : string;
  dl_work_type : WorkType;
  dl_work_ref : string;
  dl_scope : BreakerScope;
  dl_attempt_count : Z;
  dl_first_failed_at : datetime;
  dl_last_failed_at : datetime;
  dl_failure_code : string;
  dl_retry_policy_version : string;
  dl_source_component : string;
  dl_source_state_ref : string;
  dl_status : DeadLetterStatus;
  dl_requeued_at : option datetime;
  dl_resolved_at : option datetime;
  dl_created_at : datetime;
  dl_updated_at : datetime;
}.

(** Each table by its primary key. *)
Record operations_db : Type := mkodb {
  odb_incidents : gmap string incident_row;
  odb_dead_letters : gmap string dead_letter_row;
}.

Definition empty_operations_db : operations_db := mkodb ∅ ∅.

(** [persistence/schema.py:2927-2932 ck_operational_incident_lifecycle] *)
Definition incident_lifecycle (r : incident_row) : bool :=
  match in_state r with
  | IncidentOPEN => negb (truthy (in_acknowledged_at r)) && negb (truthy (in_resolved_at r))
  | ACKNOWLEDGED => truthy (in_acknowledged_at r) && negb (truthy (in_resolved_at r))
  | IncidentRESOLVED => truthy (in_resolved_at r)
  end.

(** [persistence/schema.py:2989-2994 ck_dead_letter_lifecycle] *)
Definition letter_lifecycle (r : dead_letter_row) : bool :=
  match dl_status r with
  | LetterOPEN => negb (truthy (dl_requeued_at r)) && negb (truthy (dl_resolved_at r))
  | REQUEUED => truthy (dl_requeued_at r) && negb (truthy (dl_resolved_at r))
  | LetterRESOLVED => truthy (dl_resolved_at r)
  end.

(** [operations/store.py:299-315 _require_same]: the comparisons of the keys
    that are not excluded, in the order of the dictionary. *)
Fixpoint _require_same (checks : list (string * bool)) : result unit :=
  match checks with
  | [] => Ok tt
  | (key, same) :: checks' =>
      require! same else OperationsConflict ("conflicting replay for " +:+ key) in
      _require_same checks'
  end.

Section store.
Context `{Hash : HashLib} `{DB : Database}.

(** ** Incidents *)

(** The row as the columns give it back. *)
Definition incident_columns (r : incident_row) : result incident_row :=
  let! ref := varchar "incident_ref" 64 (in_incident_ref r) in
  let! fingerprint := varchar "trigger_fingerprint" 64 (in_trigger_fingerprint r) in
  let! version := varchar "incident_version" 64 (in_incident_version r) in
  let! scope_ref := varchar "scope_ref" 256 (bs_scope_ref (in_scope r)) in
  let! source := varchar "source_state_ref" 256 (in_source_state_ref r) in
  let! observed := opt_mapM (numeric 24 8) (in_observed_value r) in
  let! threshold := opt_mapM (numeric 24 8) (in_threshold_value r) in
  let! metric := opt_mapM (varchar "metric_version" 64) (in_metric_version r) in
  let! before := opt_mapM (varchar "policy_control_before" 64) (in_policy_control_before r) in
  let! after := opt_mapM (varchar "policy_control_after" 64) (in_policy_control_after r) in
  let! campaign := opt_mapM (varchar "campaign_ref" 64) (in_campaign_ref r) in
  let! mailbox := opt_mapM (varchar "mailbox_ref" 100) (in_mailbox_ref r) in
  let! wedge := opt_mapM (varchar "wedge" 100) (in_wedge r) in
  let! country := opt_mapM (varchar "country" 2) (in_country r) in
  let! _ := check_constraint "ck_operational_incident_lifecycle" (incident_lifecycle r) in
  let! _ := check_constraint "ck_operational_incident_country"
              (match country with None => true | Some c => in_list c ["CH"; "FR"] end) in
  Ok (mkIncident ref fingerprint version (in_incident_type r) (in_severity r)
        (mkBreakerScope (bs_scope_type (in_scope r)) scope_ref) source
        (timestamptz (in_triggered_at r)) observed threshold metric (in_reason_codes r)
        (in_state r) (in_human_review_required r) (in_pause_required r) before after campaign
        mailbox wedge country (timestamptz <$> in_acknowledged_at r)
        (timestamptz <$> in_resolved_at r) (timestamptz (in_created_at r))
        (timestamptz (in_updated_at r))).

(** [operations/store.py:277-286 _incident] *)
Definition _incident (db : operations_db) (incident_ref : string) : result incident_row :=
  option_to_result (KeyError incident_ref) (odb_incidents db !! incident_ref).

(** [operations/store.py:48-75 open_incident]: the values. *)
Definition incident_of (trigger : IncidentTrigger) : incident_row :=
  mkIncident (incident_ref trigger) (trigger_fingerprint trigger) BREAKER_VERSION
    (tg_incident_type trigger) (tg_severity trigger) (tg_scope trigger)
    (tg_source_state_ref trigger) (tg_triggered_at trigger) (tg_observed_value trigger)
    (tg_threshold_value trigger) (tg_metric_version trigger) (tg_reason_codes trigger)
    IncidentOPEN (tg_human_review_required trigger) (tg_pause_required trigger)
    (tg_policy_control_before trigger) (tg_policy_control_after trigger)
    (tg_campaign_ref trigger) (tg_mailbox_ref trigger) (tg_wedge trigger) (tg_country trigger)
    None None (tg_triggered_at trigger) (tg_triggered_at trigger).

(** [persistence/conflicts.py:47-76 insert_if_absent] into the incidents,
    on a conflict of [trigger_fingerprint]; [campaign_exists] is the table
    the foreign key refers to. *)
Definition insert_incident (db : operations_db) (campaign_exists : string -> bool)
    (values : incident_row) : result (bool * operations_db) :=
  let! row := incident_columns values in
  if existsb (fun p => bool_decide (in_trigger_fingerprint p.2 = in_trigger_fingerprint row))
       (map_to_list (odb_incidents db))
  then Ok (false, db)
  else
    let! _ := check_constraint "acquisition_operational_incident_pkey"
                (negb (truthy (odb_incidents db !! in_incident_ref row))) in
    let! _ := check_constraint "acquisition_operational_incident_campaign_ref_fkey"
                (match in_campaign_ref row with Some c => campaign_exists c | None => true end) in
    Ok (true, mkodb (<[in_incident_ref row := row]> (odb_incidents db)) (odb_dead_letters db)).

(** [operations/store.py:84-97 open_incident]: the keys compared. *)
Definition incident_checks (row values : incident_row) : list (string * bool) :=
  [("incident_ref", bool_decide (in_incident_ref row = in_incident_ref values));
   ("trigger_fingerprint", bool_decide (in_trigger_fingerprint row = in_trigger_fingerprint values));
   ("incident_version", bool_decide (in_incident_version row = in_incident_version values));
   ("incident_type", bool_decide (in_incident_type row = in_incident_type values));
   ("severity", bool_decide (in_severity row = in_severity values));
   ("scope_type", bool_decide (bs_scope_type (in_scope row) = bs_scope_type (in_scope values)));
   ("scope_ref", bool_decide (bs_scope_ref (in_scope row) = bs_scope_ref (in_scope values)));
   ("source_state_ref", bool_decide (in_source_state_ref row = in_source_state_ref values));
   ("observed_value", opt_eqb dec_eqb (in_observed_value row) (in_observed_value values));
   ("threshold_value", opt_eqb dec_eqb (in_threshold_value row) (in_threshold_value values));
   ("metric_version", bool_decide (in_metric_version row = in_metric_version values));
   ("reason_codes", bool_decide (in_reason_codes row = in_reason_codes values));
   ("human_review_required",
      Bool.eqb (in_human_review_required row) (in_human_review_required values));
   ("pause_required", Bool.eqb (in_pause_required row) (in_pause_required values));
   ("campaign_ref", bool_decide (in_campaign_ref row = in_campaign_ref values));
   ("mailbox_ref", bool_decide (in_mailbox_ref row = in_mailbox_ref values));
   ("wedge", bool_decide (in_wedge row = in_wedge values));
   ("country", bool_decide (in_country row = in_country values))].

(** [operations/store.py:47-98 open_incident] *)
Definition open_incident (db : operations_db) (campaign_exists : string -> bool)
    (trigger : IncidentTrigger) : result (incident_row * bool * operations_db) :=
  let values := incident_of trigger in
  let! (inserted, db') := insert_incident db campaign_exists values in
  let! row := _incident db' (incident_ref trigger) in
  let! _ := _require_same (incident_checks row values) in
  Ok (row, negb inserted, db').

(** [operations/store.py:100-102 get_incident] *)
Definition get_incident (db : operations_db) (ref : string) : result incident_row := _incident db ref.

(** [ORDER BY triggered_at DESC, incident_ref] *)
Definition incident_leb (a b : incident_row) : bool :=
  dt_ltb (in_triggered_at b) (in_triggered_at a)
  || (dt_eqb (in_triggered_at b) (in_triggered_at a)
      && string_leb (in_incident_ref a) (in_incident_ref b)).

(** [operations/store.py:104-115 list_incidents] *)
Definition list_incidents (db : operations_db) (unresolved_only : bool) (limit : Z)
  : result (list incident_row) :=
  require! (1 <=? limit) && (limit <=? 500)
  else ValueError "incident limit must be between 1 and 500" in
  let rows := List.filter
    (fun r => negb unresolved_only || negb (bool_decide (in_state r = IncidentRESOLVED)))
    (map snd (map_to_list (odb_incidents db))) in
  Ok (take (Z.to_nat limit) (sorted_by incident_leb rows)).

(** [UPDATE acquisition_operational_incident SET ... WHERE incident_ref =
    ...]: the written columns are given as they are read back. *)
Definition update_incident (db : operations_db) (row : incident_row) : result operations_db :=
  let! _ := check_constraint "ck_operational_incident_lifecycle" (incident_lifecycle row) in
  Ok (mkodb (<[in_incident_ref row := row]> (odb_incidents db)) (odb_dead_letters db)).

(** A row with its lifecycle columns replaced. *)
Definition set_lifecycle (r : incident_row) (state : IncidentState)
    (acknowledged resolved : option datetime) (updated : datetime) : incident_row :=
  mkIncident (in_incident_ref r) (in_trigger_fingerprint r) (in_incident_version r)
    (in_incident_type r) (in_severity r) (in_scope r) (in_source_state_ref r)
    (in_triggered_at r) (in_observed_value r) (in_threshold_value r) (in_metric_version r)
    (in_reason_codes r) state (in_human_review_required r) (in_pause_required r)
    (in_policy_control_before r) (in_policy_control_after r) (in_campaign_ref r)
    (in_mailbox_ref r) (in_wedge r) (in_country r) acknowledged resolved (in_created_at r) updated.

(** [operations/store.py:117-128 acknowledge_incident] *)
Definition acknowledge_incident (db : operations_db) (ref : string) (at_ : datetime)
  : result (incident_row * operations_db) :=
  let! row := _incident db ref in
  match in_state row with
  | IncidentRESOLVED => Ok (row, db)
  | ACKNOWLEDGED => let! row := _incident db ref in Ok (row, db)
  | IncidentOPEN =>
      let! db' := update_incident db
        (set_lifecycle row ACKNOWLEDGED (Some (timestamptz at_)) (in_resolved_at row) (timestamptz at_)) in
      let! row := _incident db' ref in Ok (row, db')
  end.

(** [operations/store.py:130-146 resolve_incident] *)
Definition resolve_incident (db : operations_db) (ref : string) (at_ : datetime)
  : result (incident_row * operations_db) :=
  let! row := _incident db ref in
  if negb (bool_decide (in_state row = IncidentRESOLVED)) then
    let acknowledged :=
      match in_acknowledged_at row with None => Some (timestamptz at_) | Some a => Some a end in
    let! db' := update_incident db
      (set_lifecycle row IncidentRESOLVED acknowledged (Some (timestamptz at_)) (timestamptz at_)) in
    let! row := _incident db' ref in Ok (row, db')
  else let! row := _incident db ref in Ok (row, db).

(** A row with its policy controls and its update time replaced. *)
Definition set_controls (r : incident_row) (before after : option string) (updated : datetime)
  : incident_row :=
  mkIncident (in_incident_ref r) (in_trigger_fingerprint r) (in_incident_version r)
    (in_incident_type r) (in_severity r) (in_scope r) (in_source_state_ref r)
    (in_triggered_at r) (in_observed_value r) (in_threshold_value r) (in_metric_version r)
    (in_reason_codes r) (in_state r) (in_human_review_required r) (in_pause_required r)
    before after (in_campaign_ref r) (in_mailbox_ref r) (in_wedge r) (in_country r)
    (in_acknowledged_at r) (in_resolved_at r) (in_created_at r) updated.

(** [operations/store.py:148-175 bind_incident_policy_controls] *)
Definition bind_incident_policy_controls (db : operations_db) (ref before_ref after_ref : string)
    (at_ : datetime) : result (incident_row * operations_db) :=
  let! row := _incident db ref in
  let write before after :=
    let! before := opt_mapM (varchar "policy_control_before" 64) before in
    let! after := opt_mapM (varchar "policy_control_after" 64) after in
    let! db' := update_incident db (set_controls row before after (timestamptz at_)) in
    let! row := _incident db' ref in Ok (row, db') in
  let after_step before :=
    match in_policy_control_after row with
    | None => write before (Some after_ref)
    | Some after => if negb (bool_decide (after = after_ref)) then Ok (row, db)
                    else write before (Some after)
    end in
  match in_policy_control_before row with
  | None => after_step (Some before_ref)
  | Some before =>
      if negb (bool_decide (before = before_ref)) && negb (truthy (in_policy_control_after row))
      then Raise (OperationsConflict "incident Policy predecessor conflicts")
      else after_step (Some before)
  end.

Definition severe (s : IncidentSeverity) : bool :=
  match s with HIGH | CRITICAL => true | WARNING => false end.

(** The scope every execution depends on. *)
Definition GLOBAL_SCOPE : BreakerScope := mkBreakerScope GLOBAL "acquisition".

(** The rows [has_open_breaker] counts. *)
Definition blocks (scope : BreakerScope) (r : incident_row) : bool :=
  negb (bool_decide (in_state r = IncidentRESOLVED)) && severe (in_severity r)
  && (bool_decide (in_scope r = GLOBAL_SCOPE) || bool_decide (in_scope r = scope)).

(** [operations/store.py:177-197 has_open_breaker] *)
Definition has_open_breaker (db : operations_db) (scope : BreakerScope) : bool :=
  negb (zlength (List.filter (blocks scope) (map snd (map_to_list (odb_incidents db)))) =? 0).

(** ** Dead letters *)

Definition letter_columns (r : dead_letter_row) : result dead_letter_row :=
  let! ref := varchar "dead_letter_ref" 64 (dl_dead_letter_ref r) in
  let! fingerprint := varchar "exhaustion_fingerprint" 64 (dl_exhaustion_fingerprint r) in
  let! work := varchar "work_ref" 256 (dl_work_ref r) in
  let! scope_ref := varchar "scope_ref" 256 (bs_scope_ref (dl_scope r)) in
  let! code := varchar "failure_code" 100 (dl_failure_code r) in
  let! version := varchar "retry_policy_version" 64 (dl_retry_policy_version r) in
  let! component := varchar "source_component" 64 (dl_source_component r) in
  let! source := varchar "source_state_ref" 256 (dl_source_state_ref r) in
  let! _ := check_constraint "ck_dead_letter_attempt_count" (1 <=? dl_attempt_count r) in
  let! _ := check_constraint "ck_dead_letter_failure_window"
              (dt_leb (dl_first_failed_at r) (dl_last_failed_at r)) in
  let! _ := check_constraint "ck_dead_letter_lifecycle" (letter_lifecycle r) in
  Ok (mkLetter ref fingerprint (dl_work_type r) work
        (mkBreakerScope (bs_scope_type (dl_scope r)) scope_ref) (dl_attempt_count r)
        (timestamptz (dl_first_failed_at r)) (timestamptz (dl_last_failed_at r)) code version
        component source (dl_status r) (timestamptz <$> dl_requeued_at r)
        (timestamptz <$> dl_resolved_at r) (timestamptz (dl_created_at r))
        (timestamptz (dl_updated_at r))).

(** [operations/store.py:288-297 _dead_letter] *)
Definition _dead_letter (db : operations_db) (ref : string) : result dead_letter_row :=
  option_to_result (KeyError ref) (odb_dead_letters db !! ref).

(** [operations/store.py:202-221 enqueue_dead_letter]: the values. *)
Definition letter_of (exhaustion : DeadLetterExhaustion) (created_at : datetime) : dead_letter_row :=
  mkLetter (dead_letter_ref exhaustion) (exhaustion_fingerprint exhaustion)
    (ex_work_type exhaustion) (ex_work_ref exhaustion) (ex_scope exhaustion)
    (ex_attempt_count exhaustion) (ex_first_failed_at exhaustion) (ex_last_failed_at exhaustion)
    (ex_failure_code exhaustion) (ex_retry_policy_version exhaustion)
    (ex_source_component exhaustion) (ex_source_state_ref exhaustion) LetterOPEN None None
    created_at created_at.

(** [persistence/conflicts.py:47-76 insert_if_absent] into the dead letters,
    on a conflict of [exhaustion_fingerprint]. *)
Definition insert_letter (db : operations_db) (values : dead_letter_row)
  : result (bool * operations_db) :=
  let! row := letter_columns values in
  if existsb (fun p => bool_decide (dl_exhaustion_fingerprint p.2 = dl_exhaustion_fingerprint row))
       (map_to_list (odb_dead_letters db))
  then Ok (false, db)
  else
    let! _ := check_constraint "acquisition_dead_letter_pkey"
                (negb (truthy (odb_dead_letters db !! dl_dead_letter_ref row))) in
    Ok (true, mkodb (odb_incidents db) (<[dl_dead_letter_ref row := row]> (odb_dead_letters db))).

(** [operations/store.py:307-313 _require_same]: two datetimes compared in
    UTC. *)
Definition same_instant (actual value : datetime) : result bool :=
  let! a := astimezone_utc (assume_utc actual) in
  let! v := astimezone_utc (assume_utc value) in
  Ok (dt_eqb a v).

(** [operations/store.py:230-234 enqueue_dead_letter]: the keys compared. *)
Definition letter_checks (row values : dead_letter_row) : result (list (string * bool)) :=
  let! first := same_instant (dl_first_failed_at row) (dl_first_failed_at values) in
  let! last := same_instant (dl_last_failed_at row) (dl_last_failed_at values) in
  Ok [("dead_letter_ref", bool_decide (dl_dead_letter_ref row = dl_dead_letter_ref values));
      ("exhaustion_fingerprint",
         bool_decide (dl_exhaustion_fingerprint row = dl_exhaustion_fingerprint values));
      ("work_type", bool_decide (dl_work_type row = dl_work_type values));
      ("work_ref", bool_decide (dl_work_ref row = dl_work_ref values));
      ("scope_type", bool_decide (bs_scope_type (dl_scope row) = bs_scope_type (dl_scope values)));
      ("scope_ref", bool_decide (bs_scope_ref (dl_scope row) = bs_scope_ref (dl_scope values)));
      ("attempt_count", dl_attempt_count row =? dl_attempt_count values);
      ("first_failed_at", first);
      ("last_failed_at", last);
      ("failure_code", bool_decide (dl_failure_code row = dl_failure_code values));
      ("retry_policy_version",
         bool_decide (dl_retry_policy_version row = dl_retry_policy_version values));
      ("source_component", bool_decide (dl_source_component row = dl_source_component values));
      ("source_state_ref", bool_decide (dl_source_state_ref row = dl_source_state_ref values))].

(** [operations/store.py:199-235 enqueue_dead_letter] *)
Definition enqueue_dead_letter (db : operations_db) (exhaustion : DeadLetterExhaustion)
    (created_at : datetime) : result (dead_letter_row * bool * operations_db) :=
  let values := letter_of exhaustion created_at in
  let! (inserted, db') := insert_letter db values in
  let! row := _dead_letter db' (dead_letter_ref exhaustion) in
  let! checks := letter_checks row values in
  let! _ := _require_same checks in
  Ok (row, negb inserted, db').

(** [operations/store.py:237-239 get_dead_letter] *)
Definition get_dead_letter (db : operations_db) (ref : string) : result dead_letter_row :=
  _dead_letter db ref.

(** [ORDER BY created_at DESC, dead_letter_ref] *)
Definition letter_leb (a b : dead_letter_row) : bool :=
  dt_ltb (dl_created_at b) (dl_created_at a)
  || (dt_eqb (dl_created_at b) (dl_created_at a)
      && string_leb (dl_dead_letter_ref a) (dl_dead_letter_ref b)).

(** [operations/store.py:241-251 list_dead_letters] *)
Definition list_dead_letters (db : operations_db) (status : option DeadLetterStatus) (limit : Z)
  : result (list dead_letter_row) :=
  require! (1 <=? limit) && (limit <=? 500)
  else ValueError "dead-letter limit must be between 1 and 500" in
  let rows := List.filter
    (fun r => match status with Some s => bool_decide (dl_status r = s) | None => true end)
    (map snd (map_to_list (odb_dead_letters db))) in
  Ok (take (Z.to_nat limit) (sorted_by letter_leb rows)).

Definition update_letter (db : operations_db) (row : dead_letter_row) : result operations_db :=
  let! _ := check_constraint "ck_dead_letter_lifecycle" (letter_lifecycle row) in
  Ok (mkodb (odb_incidents db) (<[dl_dead_letter_ref row := row]> (odb_dead_letters db))).

Definition set_letter (r : dead_letter_row) (status : DeadLetterStatus)
    (requeued resolved : option datetime) (updated : datetime) : dead_letter_row :=
  mkLetter (dl_dead_letter_ref r) (dl_exhaustion_fingerprint r) (dl_work_type r) (dl_work_ref r)
    (dl_scope r) (dl_attempt_count r) (dl_first_failed_at r) (dl_last_failed_at r)
    (dl_failure_code r) (dl_retry_policy_version r) (dl_source_component r)
    (dl_source_state_ref r) status requeued resolved (dl_created_at r) updated.

(** [operations/store.py:253-264 mark_dead_letter_requeued] *)
Definition mark_dead_letter_requeued (db : operations_db) (ref : string) (at_ : datetime)
  : result (dead_letter_row * operations_db) :=
  let! row := _dead_letter db ref in
  match dl_status row with
  | LetterOPEN =>
      let! db' := update_letter db (set_letter row REQUEUED (Some (timestamptz at_)) (dl_resolved_at row) (timestamptz at_)) in
      let! row := _dead_letter db' ref in Ok (row, db')
  | REQUEUED => let! row := _dead_letter db ref in Ok (row, db)
  | LetterRESOLVED => Raise (OperationsConflict "resolved dead letter cannot be requeued")
  end.

(** [operations/store.py:266-275 resolve_dead_letter] *)
Definition resolve_dead_letter (db : operations_db) (ref : string) (at_ : datetime)
  : result (dead_letter_row * operations_db) :=
  let! row := _dead_letter db ref in
  if negb (bool_decide (dl_status row = LetterRESOLVED)) then
    let! db' := update_letter db
      (set_letter row LetterRESOLVED (dl_requeued_at row) (Some (timestamptz at_)) (timestamptz at_)) in
    let! row := _dead_letter db' ref in Ok (row, db')
  else let! row := _dead_letter db ref in Ok (row, db).
End store.
