(* ===== verification/CircuitBreakers.v ===== *)
(** CircuitBreakers: the observations that open operational incidents and
    the guard that blocks execution while a severe one is unresolved
    ([operations/circuit_breakers.py]). *)

From S2P Require Import Prelude PyStr PyDatetime PyDecimal PyJson Database.
From S2P Require Import PolicyContracts OperationsContracts OperationsStore.

Local Open Scope string_scope.
Local Open Scope Z_scope.
Local Open Scope list_scope.

(** [operations/circuit_breakers.py:20-20 BOUNCE_BREAKER_VERSION] *)
Definition BOUNCE_BREAKER_VERSION : string := "step1-bounce-breaker-v1".
(** [operations/circuit_breakers.py:21-21 BOUNCE_MINIMUM_SAMPLE] *)
Definition BOUNCE_MINIMUM_SAMPLE : Z := 20.
(** [operations/circuit_breakers.py:22-22 BOUNCE_MAXIMUM_RATE] *)
Definition BOUNCE_MAXIMUM_RATE : decimal := mkdec 5 (-2).
(** [operations/circuit_breakers.py:23-23 PROVIDER_FAILURE_BREAKER_VERSION] *)
Definition PROVIDER_FAILURE_BREAKER_VERSION : string := "provider-failure-breaker-v1".
(** [operations/circuit_breakers.py:24-24 PROVIDER_FAILURE_THRESHOLD] *)
Definition PROVIDER_FAILURE_THRESHOLD : Z := 3.

(** * Observations *)

(** [operations/circuit_breakers.py:37-47 BounceObservation] *)
Record BounceObservation : Type := mkBounces {
  bo_scope : BreakerScope;
  bo_authoritative_step1_members : list string;
  bo_bounced_step1_members : list string;
  bo_source_state_ref : string;
  bo_observed_at : datetime;
  bo_campaign_ref : option string;
  bo_mailbox_ref : option string;
  bo_wedge : option string;
  bo_country : option string;
}.

(** [len(set(l)) != len(l)] *)
Definition has_duplicates (l : list string) : bool :=
  negb (zlength (dict_fromkeys l) =? zlength l).

(** [operations/circuit_breakers.py:37-59 BounceObservation] *)
Definition bounces_validate (o : BounceObservation) : result BounceObservation :=
  let! sent := items "authoritative_step1_members" SafeRef 100000
                 (bo_authoritative_step1_members o) in
  let! bounced := items "bounced_step1_members" SafeRef 100000 (bo_bounced_step1_members o) in
  let! source := SafeRef "source_state_ref" (bo_source_state_ref o) in
  let! observed := _aware_to_utc "observed_at" (bo_observed_at o) in
  let! campaign := opt_mapM (SafeRef "campaign_ref") (bo_campaign_ref o) in
  let! mailbox := opt_mapM (SafeRef "mailbox_ref") (bo_mailbox_ref o) in
  let! wedge := opt_mapM (SafeRef "wedge") (bo_wedge o) in
  let! country := opt_mapM (served_country "country") (bo_country o) in
  require! negb (has_duplicates sent) else ValidationError "Step-1 sent members must be unique" in
  require! negb (has_duplicates bounced)
  else ValidationError "Step-1 bounced members must be unique" in
  require! forallb (fun m => in_list m sent) bounced
  else ValidationError "bounce member must belong to authoritative Step-1 sample" in
  Ok (mkBounces (bo_scope o) sent bounced source observed campaign mailbox wedge country).

(** [operations/circuit_breakers.py:62-70 ProviderFailureObservation] *)
Record ProviderFailureObservation : Type := mkFailures {
  pf_scope : BreakerScope;
  pf_failure_refs : list string;
  pf_failure_codes : list string;
  pf_source_state_ref : string;
  pf_observed_at : datetime;
  pf_campaign_ref : option string;
  pf_mailbox_ref : option string;
}.

(** [operations/circuit_breakers.py:62-78 ProviderFailureObservation] *)
Definition failures_validate (o : ProviderFailureObservation) : result ProviderFailureObservation :=
  let! refs := items "failure_refs" SafeRef 100 (pf_failure_refs o) in
  let! codes := items "failure_codes" SafeCode 100 (pf_failure_codes o) in
  let! source := SafeRef "source_state_ref" (pf_source_state_ref o) in
  let! observed := _aware_to_utc "observed_at" (pf_observed_at o) in
  let! campaign := opt_mapM (SafeRef "campaign_ref") (pf_campaign_ref o) in
  let! mailbox := opt_mapM (SafeRef "mailbox_ref") (pf_mailbox_ref o) in
  require! zlength refs =? zlength codes
  else ValidationError "provider failure refs and codes must align" in
  require! negb (has_duplicates refs) else ValidationError "provider failure refs must be unique" in
  Ok (mkFailures (pf_scope o) refs codes source observed campaign mailbox).

(** [operations/circuit_breakers.py:81-85 LearningDegradationThresholds] *)
Record LearningDegradationThresholds : Type := mkThresholds {
  lt_version : string;
  lt_minimum_sample : Z;
  lt_minimum_conversion_rate : option decimal;
  lt_minimum_retention_rate : option decimal;
}.

(** [operations/circuit_breakers.py:87-89 configured] *)
Definition configured (t : LearningDegradationThresholds) : bool :=
  truthy (lt_minimum_conversion_rate t) || truthy (lt_minimum_retention_rate t).

(** [operations/circuit_breakers.py:92-99 DegradationObservation] *)
Record DegradationObservation : Type := mkDegradation {
  do_incident_type : IncidentType;
  do_scope : BreakerScope;
  do_authoritative_sample_count : Z;
  do_observed_rate : decimal;
  do_source_state_ref : string;
  do_observed_at : datetime;
}.

(** [operations/circuit_breakers.py:92-108 DegradationObservation] *)
Definition degradation_validate (o : DegradationObservation) : result DegradationObservation :=
  let! count := checked "authoritative_sample_count" (Z.leb 0) (do_authoritative_sample_count o) in
  let! rate := checked "observed_rate" (fun d => dec_leb dec_zero d && dec_leb d dec_one)
                 (do_observed_rate o) in
  let! source := SafeRef "source_state_ref" (do_source_state_ref o) in
  let! observed := _aware_to_utc "observed_at" (do_observed_at o) in
  require! in_list (do_incident_type o) [CONVERSION_DEGRADATION; RETENTION_DEGRADATION]
  else ValidationError "degradation observation requires conversion or retention type" in
  Ok (mkDegradation (do_incident_type o) (do_scope o) count rate source observed).

Section service.
Context `{Hash : HashLib} `{DB : Database}.

(** * The execution guard *)

(** [operations/circuit_breakers.py:121-126 require_allowed] *)
Fixpoint guard_scopes (db : operations_db) (scopes : list BreakerScope) : result unit :=
  match scopes with
  | [] => Ok tt
  | scope :: scopes' =>
      if has_open_breaker db scope
      then Raise (AcquisitionCircuitOpen "acquisition execution circuit is open")
      else guard_scopes db scopes'
  end.

(** [operations/circuit_breakers.py:121-126 require_allowed] *)
Definition require_allowed (db : operations_db) (scopes : list BreakerScope) : result unit :=
  require! list_truthy scopes else ValueError "at least one execution scope is required" in
  guard_scopes db scopes.

(** * The breakers *)

Variables (db : operations_db) (campaign_exists : string -> bool).

(** Build the trigger and open its incident. *)
Definition trip (trigger : IncidentTrigger)
  : result (option (incident_row * bool) * operations_db) :=
  let! trigger := trigger_validate trigger in
  let! (saved, db') := open_incident db campaign_exists trigger in
  Ok (Some saved, db').

(** [operations/circuit_breakers.py:133-158 observe_bounces]: the rate. *)
Definition bounce_rate (o : BounceObservation) : decimal :=
  dec_div (dec_of_Z (zlength (bo_bounced_step1_members o)))
    (dec_of_Z (zlength (bo_authoritative_step1_members o))).

(** [operations/circuit_breakers.py:133-158 observe_bounces] *)
Definition observe_bounces (o : BounceObservation)
  : result (option (incident_row * bool) * operations_db) :=
  let sent_count := zlength (bo_authoritative_step1_members o) in
  if sent_count <? BOUNCE_MINIMUM_SAMPLE then Ok (None, db)
  else if dec_leb (bounce_rate o) BOUNCE_MAXIMUM_RATE then Ok (None, db)
  else trip (mkTrigger BOUNCE_RATE HIGH (bo_scope o) (bo_source_state_ref o) (bo_observed_at o)
               ["STEP1_BOUNCE_RATE_ABOVE_LIMIT"] (Some (bounce_rate o))
               (Some BOUNCE_MAXIMUM_RATE) (Some BOUNCE_BREAKER_VERSION) (bo_campaign_ref o)
               (bo_mailbox_ref o) (bo_wedge o) (bo_country o) true true None None).

(** [operations/circuit_breakers.py:160-178 observe_complaint] *)
Definition observe_complaint (campaign_ref response_evaluation_ref : string)
    (observed_at : datetime) : result (option (incident_row * bool) * operations_db) :=
  let! scope := scope_validate (mkBreakerScope CAMPAIGN campaign_ref) in
  trip (mkTrigger COMPLAINT HIGH scope response_evaluation_ref observed_at
          ["AUTHORITATIVE_COMPLAINT"] None None None None None None None true true None None).

Definition ignored_failures : list string := ["RATE_LIMITED"; "SEND_WINDOW_CLOSED"; "NORMAL_WAITING"].

(** [operations/circuit_breakers.py:180-209 observe_provider_failures] *)
Definition qualifying_failures (o : ProviderFailureObservation) : list string :=
  map fst (List.filter (fun p => negb (in_list p.2 ignored_failures))
             (zip (pf_failure_refs o) (pf_failure_codes o))).

(** [operations/circuit_breakers.py:180-209 observe_provider_failures] *)
Definition observe_provider_failures (o : ProviderFailureObservation)
  : result (option (incident_row * bool) * operations_db) :=
  let qualifying := zlength (qualifying_failures o) in
  if qualifying <? PROVIDER_FAILURE_THRESHOLD then Ok (None, db)
  else trip (mkTrigger PROVIDER_FAILURE HIGH (pf_scope o) (pf_source_state_ref o)
               (pf_observed_at o) ["CONSECUTIVE_PROVIDER_FAILURES"; "RECONCILE_BEFORE_RETRY"]
               (Some (dec_of_Z qualifying)) (Some (dec_of_Z PROVIDER_FAILURE_THRESHOLD))
               (Some PROVIDER_FAILURE_BREAKER_VERSION) (pf_campaign_ref o) (pf_mailbox_ref o)
               None None true true None None).

(** [operations/circuit_breakers.py:211-243 observe_degradation] *)
Definition observe_degradation (o : DegradationObservation) (t : LearningDegradationThresholds)
  : result (option (incident_row * bool) * operations_db) :=
  let threshold :=
    if bool_decide (do_incident_type o = CONVERSION_DEGRADATION)
    then lt_minimum_conversion_rate t else lt_minimum_retention_rate t in
  if negb (configured t) then Ok (None, db)
  else match threshold with
  | None => Ok (None, db)
  | Some threshold =>
      if do_authoritative_sample_count o <? lt_minimum_sample t then Ok (None, db)
      else if dec_leb threshold (do_observed_rate o) then Ok (None, db)
      else trip (mkTrigger (do_incident_type o) HIGH (do_scope o) (do_source_state_ref o)
                   (do_observed_at o)
                   [incident_type_value (do_incident_type o) +:+ "_BELOW_OPERATOR_THRESHOLD"]
                   (Some (do_observed_rate o)) (Some threshold) (Some (lt_version t)) None None
                   None None true true None None)
  end.

Definition critical_transport_codes : list string :=
  ["UNEXPECTED_EMAIL_SENT_AFTER_STOP"; "CONFLICTING_STEP1_TRANSPORT_TRUTH";
   "DUPLICATE_BUSINESS_SEND"; "TRANSPORT_STATE_CONFLICT"].

(** [operations/circuit_breakers.py:245-272 observe_critical_transport] *)
Definition observe_critical_transport (campaign_ref provider_event_ref incident_code : string)
    (observed_at : datetime) : result (option (incident_row * bool) * operations_db) :=
  require! in_list incident_code critical_transport_codes
  else ValueError "transport incident is not critical" in
  let! scope := scope_validate (mkBreakerScope CAMPAIGN campaign_ref) in
  trip (mkTrigger UNEXPECTED_TRANSPORT_TRUTH CRITICAL scope provider_event_ref observed_at
          [incident_code; "AUTHORITATIVE_SENT_TRUTH_PRESERVED"] None None None None None None None
          true true None None).
End service.
