(* ===== verification/OperationsFacts.v ===== *)
(** OperationsFacts: the calls of the operations store as data, their effect
    on the tables, the well-formedness of the tables and the one-way
    evolution of their rows. *)

From S2P Require Import Prelude PyStr PyDatetime PyDatetimeFacts PyDecimal PyJson Database.
From S2P Require Import PolicyContracts OperationsContracts OperationsStore CircuitBreakers.

Local Open Scope string_scope.
Local Open Scope Z_scope.
Local Open Scope list_scope.

(** A call that writes. *)
Inductive operation : Type :=
| OpOpen (campaign_exists : string -> bool) (trigger : IncidentTrigger)
| OpAcknowledge (ref : string) (at_ : datetime)
| OpResolve (ref : string) (at_ : datetime)
| OpBind (ref before_ref after_ref : string) (at_ : datetime)
| OpEnqueue (exhaustion : DeadLetterExhaustion) (created_at : datetime)
| OpRequeue (ref : string) (at_ : datetime)
| OpResolveLetter (ref : string) (at_ : datetime).

Section facts.
Context `{Hash : HashLib} `{DB : Database}.

(** The tables after a call, unchanged when it raises. *)
Definition exec_op (db : operations_db) (op : operation) : operations_db :=
  let keep {A} (r : result (A * operations_db)) :=
    match r with Ok (_, db') => db' | Raise _ => db end in
  match op with
  | OpOpen ce t => keep (open_incident db ce t)
  | OpAcknowledge ref a => keep (acknowledge_incident db ref a)
  | OpResolve ref a => keep (resolve_incident db ref a)
  | OpBind ref b c a => keep (bind_incident_policy_controls db ref b c a)
  | OpEnqueue e a => keep (enqueue_dead_letter db e a)
  | OpRequeue ref a => keep (mark_dead_letter_requeued db ref a)
  | OpResolveLetter ref a => keep (resolve_dead_letter db ref a)
  end.

Definition run_ops (db : operations_db) (ops : list operation) : operations_db :=
  foldl exec_op db ops.

(** ** Well-formed tables *)

Record ops_inv (db : operations_db) : Prop := {
  oi_incident : forall ref r, odb_incidents db !! ref = Some r ->
    in_incident_ref r = ref /\ incident_lifecycle r = true;
  oi_letter : forall ref r, odb_dead_letters db !! ref = Some r ->
    dl_dead_letter_ref r = ref /\ letter_lifecycle r = true;
}.

Lemma ops_inv_empty : ops_inv empty_operations_db.
Proof. by constructor. Qed.

(** ** One-way evolution of a row *)

Definition incident_rank (s : IncidentState) : Z :=
  match s with IncidentOPEN => 0 | ACKNOWLEDGED => 1 | IncidentRESOLVED => 2 end.

Definition letter_rank (s : DeadLetterStatus) : Z :=
  match s with LetterOPEN => 0 | REQUEUED => 1 | LetterRESOLVED => 2 end.

(** A column written once. *)
Definition write_once {A} (o o' : option A) : Prop := forall a, o = Some a -> o' = Some a.

(** What never changes of an incident. *)
Record incident_same (r r' : incident_row) : Prop := {
  is_ref : in_incident_ref r' = in_incident_ref r;
  is_fingerprint_ : in_trigger_fingerprint r' = in_trigger_fingerprint r;
  is_version : in_incident_version r' = in_incident_version r;
  is_type : in_incident_type r' = in_incident_type r;
  is_severity : in_severity r' = in_severity r;
  is_scope : in_scope r' = in_scope r;
  is_source : in_source_state_ref r' = in_source_state_ref r;
  is_triggered : in_triggered_at r' = in_triggered_at r;
  is_observed : in_observed_value r' = in_observed_value r;
  is_threshold : in_threshold_value r' = in_threshold_value r;
  is_metric : in_metric_version r' = in_metric_version r;
  is_reasons : in_reason_codes r' = in_reason_codes r;
  is_review : in_human_review_required r' = in_human_review_required r;
  is_pause : in_pause_required r' = in_pause_required r;
  is_campaign : in_campaign_ref r' = in_campaign_ref r;
  is_mailbox : in_mailbox_ref r' = in_mailbox_ref r;
  is_wedge : in_wedge r' = in_wedge r;
  is_country_ : in_country r' = in_country r;
  is_created : in_created_at r' = in_created_at r;
}.

Record incident_later (r r' : incident_row) : Prop := {
  il_same : incident_same r r';
  il_rank : incident_rank (in_state r) <= incident_rank (in_state r');
  il_acknowledged : write_once (in_acknowledged_at r) (in_acknowledged_at r');
  il_resolved : write_once (in_resolved_at r) (in_resolved_at r');
  il_before : write_once (in_policy_control_before r) (in_policy_control_before r');
  il_after : write_once (in_policy_control_after r) (in_policy_control_after r');
}.

Record letter_later (r r' : dead_letter_row) : Prop := {
  ll_ref : dl_dead_letter_ref r' = dl_dead_letter_ref r;
  ll_fingerprint : dl_exhaustion_fingerprint r' = dl_exhaustion_fingerprint r;
  ll_work : dl_work_type r' = dl_work_type r /\ dl_work_ref r' = dl_work_ref r;
  ll_scope : dl_scope r' = dl_scope r;
  ll_attempts : dl_attempt_count r' = dl_attempt_count r;
  ll_rank : letter_rank (dl_status r) <= letter_rank (dl_status r');
  ll_requeued : write_once (dl_requeued_at r) (dl_requeued_at r');
  ll_resolved : write_once (dl_resolved_at r) (dl_resolved_at r');
}.

#[export] Instance incident_same_PreOrder : PreOrder incident_same.
Proof.
  split; [intros r; by constructor|]. intros a b c [] []. constructor; congruence.
Qed.

#[export] Instance incident_later_PreOrder : PreOrder incident_later.
Proof.
  split; [intros r; constructor; [reflexivity|lia|by intros ?..]|].
  intros a b c [] []. constructor; [by etransitivity|lia|..]; intros ? ?; auto.
Qed.

#[export] Instance letter_later_PreOrder : PreOrder letter_later.
Proof.
  split; [intros r; constructor; try lia; by try intros ?|].
  intros a b c [? ? [? ?] ] [? ? [? ?] ]. constructor; try congruence; try lia;
    [split; congruence|..]; intros ? ?; auto.
Qed.

(** The tables after a call: each row of before is still there, further
    along; a new incident or letter is open. *)
Record ops_later (db db' : operations_db) : Prop := {
  ol_incident : forall ref r, odb_incidents db !! ref = Some r ->
    exists r', odb_incidents db' !! ref = Some r' /\ incident_later r r';
  ol_letter : forall ref r, odb_dead_letters db !! ref = Some r ->
    exists r', odb_dead_letters db' !! ref = Some r' /\ letter_later r r';
}.

#[export] Instance ops_later_PreOrder : PreOrder ops_later.
Proof.
  split; [constructor; eauto; intros ref r H; exists r; (split; [done | reflexivity])|].
  intros a b c [H1 H2] [H3 H4]. constructor; intros ref r H.
  - destruct (H1 ref r H) as (r' & H' & ?). destruct (H3 ref r' H') as (r'' & ? & ?).
    exists r''. split; [done | by etransitivity].
  - destruct (H2 ref r H) as (r' & H' & ?). destruct (H4 ref r' H') as (r'' & ? & ?).
    exists r''. split; [done | by etransitivity].
Qed.

(** ** Every call preserves the invariant and only moves rows forward *)

Definition steps (db db' : operations_db) : Prop := ops_inv db' /\ ops_later db db'.

Lemma steps_refl db : ops_inv db -> steps db db.
Proof. intros H. split; [done | reflexivity]. Qed.

Lemma replace_incident db ref r r' :
  ops_inv db -> odb_incidents db !! ref = Some r ->
  incident_later r r' -> incident_lifecycle r' = true ->
  steps db (mkodb (<[in_incident_ref r' := r']> (odb_incidents db)) (odb_dead_letters db)).
Proof.
  intros Hdb Hr Hl Hc. destruct (oi_incident db Hdb ref r Hr) as [Href _].
  rewrite (is_ref _ _ (il_same _ _ Hl)), Href.
  assert (Hr' : in_incident_ref r' = ref) by (by rewrite (is_ref _ _ (il_same _ _ Hl))).
  split; constructor; simpl; try apply (oi_letter _ Hdb).
  - intros ref' q Hq. apply lookup_insert_Some in Hq as [[<- <-]|[_ Hq]]; [done|].
    by apply (oi_incident _ Hdb).
  - intros ref' q Hq. destruct (decide (ref = ref')) as [<-|Hne].
    + exists r'. rewrite lookup_insert_eq. split; [done|]. by rewrite Hr in Hq; injection Hq as <-.
    + exists q. rewrite lookup_insert_ne by done. split; [done | reflexivity].
  - intros ref' q Hq. exists q. split; [done | reflexivity].
Qed.

Lemma new_incident db r :
  ops_inv db -> odb_incidents db !! in_incident_ref r = None -> incident_lifecycle r = true ->
  steps db (mkodb (<[in_incident_ref r := r]> (odb_incidents db)) (odb_dead_letters db)).
Proof.
  intros Hdb Hr Hc. split; constructor; simpl; try apply (oi_letter _ Hdb).
  - intros ref' q Hq. apply lookup_insert_Some in Hq as [[<- <-]|[_ Hq]]; [done|].
    by apply (oi_incident _ Hdb).
  - intros ref' q Hq. exists q. rewrite lookup_insert_ne by congruence. split; [done | reflexivity].
  - intros ref' q Hq. exists q. split; [done | reflexivity].
Qed.

Lemma replace_letter db ref r r' :
  ops_inv db -> odb_dead_letters db !! ref = Some r ->
  letter_later r r' -> letter_lifecycle r' = true ->
  steps db (mkodb (odb_incidents db) (<[dl_dead_letter_ref r' := r']> (odb_dead_letters db))).
Proof.
  intros Hdb Hr Hl Hc. destruct (oi_letter db Hdb ref r Hr) as [Href _].
  assert (Hr' : dl_dead_letter_ref r' = ref) by (by rewrite (ll_ref _ _ Hl)). rewrite Hr'.
  split; constructor; simpl; try apply (oi_incident _ Hdb).
  - intros ref' q Hq. apply lookup_insert_Some in Hq as [[<- <-]|[_ Hq]]; [done|].
    by apply (oi_letter _ Hdb).
  - intros ref' q Hq. exists q. split; [done | reflexivity].
  - intros ref' q Hq. destruct (decide (ref = ref')) as [<-|Hne].
    + exists r'. rewrite lookup_insert_eq. split; [done|]. by rewrite Hr in Hq; injection Hq as <-.
    + exists q. rewrite lookup_insert_ne by done. split; [done | reflexivity].
Qed.

Lemma new_letter db r :
  ops_inv db -> odb_dead_letters db !! dl_dead_letter_ref r = None -> letter_lifecycle r = true ->
  steps db (mkodb (odb_incidents db) (<[dl_dead_letter_ref r := r]> (odb_dead_letters db))).
Proof.
  intros Hdb Hr Hc. split; constructor; simpl; try apply (oi_incident _ Hdb).
  - intros ref' q Hq. apply lookup_insert_Some in Hq as [[<- <-]|[_ Hq]]; [done|].
    by apply (oi_letter _ Hdb).
  - intros ref' q Hq. exists q. split; [done | reflexivity].
  - intros ref' q Hq. exists q. rewrite lookup_insert_ne by congruence. split; [done | reflexivity].
Qed.

(** What the columns keep. *)
Lemma incident_columns_Ok v r :
  incident_columns v = Ok r ->
  in_incident_ref r = in_incident_ref v /\ in_trigger_fingerprint r = in_trigger_fingerprint v
  /\ in_state r = in_state v /\ in_severity r = in_severity v /\ in_scope r = in_scope v
  /\ incident_lifecycle r = true.
Proof.
  unfold incident_columns. intros H. inv_result.
  repeat match goal with H : varchar _ _ _ = Ok _ |- _ => apply varchar_Ok in H as [-> _] end.
  split_and!; try done; [by destruct (in_scope v)|].
  match goal with E : check_constraint "ck_operational_incident_lifecycle" _ = Ok _ |- _ =>
    unfold check_constraint in E; destruct (incident_lifecycle v) eqn:El; [|done] end.
  revert El. unfold incident_lifecycle. simpl.
  by destruct (in_state v), (in_acknowledged_at v), (in_resolved_at v).
Qed.

Lemma letter_columns_Ok v r :
  letter_columns v = Ok r ->
  dl_dead_letter_ref r = dl_dead_letter_ref v
  /\ dl_exhaustion_fingerprint r = dl_exhaustion_fingerprint v
  /\ dl_status r = dl_status v /\ dl_scope r = dl_scope v /\ letter_lifecycle r = true.
Proof.
  unfold letter_columns. intros H. inv_result.
  repeat match goal with H : varchar _ _ _ = Ok _ |- _ => apply varchar_Ok in H as [-> _] end.
  split_and!; try done; [by destruct (dl_scope v)|].
  match goal with E : check_constraint "ck_dead_letter_lifecycle" _ = Ok _ |- _ =>
    unfold check_constraint in E; destruct (letter_lifecycle v) eqn:El; [|done] end.
  revert El. unfold letter_lifecycle. simpl.
  by destruct (dl_status v), (dl_requeued_at v), (dl_resolved_at v).
Qed.

Lemma update_incident_Ok db r db' :
  update_incident db r = Ok db' ->
  incident_lifecycle r = true
  /\ db' = mkodb (<[in_incident_ref r := r]> (odb_incidents db)) (odb_dead_letters db).
Proof. unfold update_incident, check_constraint. destruct (incident_lifecycle r); intros H; by inv_result. Qed.

Lemma update_letter_Ok db r db' :
  update_letter db r = Ok db' ->
  letter_lifecycle r = true
  /\ db' = mkodb (odb_incidents db) (<[dl_dead_letter_ref r := r]> (odb_dead_letters db)).
Proof. unfold update_letter, check_constraint. destruct (letter_lifecycle r); intros H; by inv_result. Qed.

Lemma incident_Ok db ref r : _incident db ref = Ok r -> odb_incidents db !! ref = Some r.
Proof. unfold _incident. intros H. by inv_result. Qed.

Lemma letter_Ok db ref r : _dead_letter db ref = Ok r -> odb_dead_letters db !! ref = Some r.
Proof. unfold _dead_letter. intros H. by inv_result. Qed.

Lemma lifecycle_open r :
  incident_lifecycle r = true -> in_state r = IncidentOPEN ->
  in_acknowledged_at r = None /\ in_resolved_at r = None.
Proof. unfold incident_lifecycle. intros H E. rewrite E in H. inv_result. by rewrite <- !truthy_None. Qed.

Lemma lifecycle_unresolved r :
  incident_lifecycle r = true -> in_state r <> IncidentRESOLVED -> in_resolved_at r = None.
Proof.
  unfold incident_lifecycle. intros H E. destruct (in_state r); [..|done];
    inv_result; by apply truthy_None.
Qed.

Lemma letter_unresolved r :
  letter_lifecycle r = true -> dl_status r <> LetterRESOLVED -> dl_resolved_at r = None.
Proof.
  unfold letter_lifecycle. intros H E. destruct (dl_status r); [..|done];
    inv_result; by apply truthy_None.
Qed.

#[local] Ltac replace_row :=
  lazymatch goal with
  | |- steps ?db (mkodb (<[_ := ?r]> _) (odb_dead_letters ?db)) =>
      eapply (replace_incident db _ _ r); [eassumption | eassumption | | try done]
  | |- steps ?db (mkodb (odb_incidents ?db) (<[_ := ?r]> _)) =>
      eapply (replace_letter db _ _ r); [eassumption | eassumption | | try done]
  end.

Lemma insert_incident_steps db ce v b db' :
  ops_inv db -> insert_incident db ce v = Ok (b, db') ->
  steps db db'
  /\ if b then odb_incidents db !! in_incident_ref v = None
            /\ exists r, incident_columns v = Ok r /\ odb_incidents db' !! in_incident_ref v = Some r
     else db' = db.
Proof.
  intros Hdb. unfold insert_incident. intros H. inv_result.
  apply incident_columns_Ok in Hv as Hc. destruct Hc as (Href & _ & _ & _ & _ & Hlife).
  destruct (existsb _ _); inv_result; simplify_eq.
  { split; [by apply steps_refl | done]. }
  match goal with E : check_constraint "acquisition_operational_incident_pkey" _ = Ok _ |- _ =>
    unfold check_constraint in E; destruct (odb_incidents db !! in_incident_ref v0) eqn:El; [done|] end.
  split; [by apply new_incident|]. rewrite <- Href. split; [done|]. exists v0.
  split; [done|]. simpl. by rewrite lookup_insert_eq.
Qed.

Lemma open_incident_steps db ce t row b db' :
  ops_inv db -> open_incident db ce t = Ok (row, b, db') ->
  steps db db' /\ odb_incidents db' !! incident_ref t = Some row
  /\ _require_same (incident_checks row (incident_of t)) = Ok tt
  /\ (if b then db' = db
      else odb_incidents db !! incident_ref t = None /\ in_state row = IncidentOPEN
           /\ incident_columns (incident_of t) = Ok row)
  /\ exists r, incident_columns (incident_of t) = Ok r.
Proof.
  intros Hdb. unfold open_incident. intros H. apply result_bind_Ok in H as ([ins db1] & Hins & H).
  assert (Hcol : exists r, incident_columns (incident_of t) = Ok r).
  { unfold insert_incident in Hins. inv_result. eauto. }
  inv_result. simplify_eq. destruct v0. apply incident_Ok in Hv as Hrow.
  apply insert_incident_steps in Hins as [Hs Hi]; [|done]. split_and!; try done.
  destruct ins; simpl in *; [|done]. destruct Hi as (Hnone & r & Hr & Hl).
  simpl in Hl. rewrite Hrow in Hl. injection Hl as <-. split; [done|]. split; [|done].
  by apply incident_columns_Ok in Hr as (_ & _ & -> & _).
Qed.

Lemma acknowledge_steps db ref a row db' :
  ops_inv db -> acknowledge_incident db ref a = Ok (row, db') -> steps db db'.
Proof.
  intros Hdb. unfold acknowledge_incident. intros H. apply result_bind_Ok in H as (r & Hr & H).
  apply incident_Ok in Hr. destruct (oi_incident db Hdb ref r Hr) as [_ Hlife].
  destruct (in_state r) eqn:Es; inv_result; simplify_eq; try by apply steps_refl.
  apply update_incident_Ok in Hv as [Hc ->]. replace_row.
  destruct (lifecycle_open r Hlife Es) as [Ha _].
  constructor; simpl; try (by intros ?); [by constructor | rewrite Es; simpl; lia |].
  by rewrite Ha.
Qed.

Lemma resolve_steps db ref a row db' :
  ops_inv db -> resolve_incident db ref a = Ok (row, db') ->
  steps db db' /\ odb_incidents db' !! ref = Some row /\ in_state row = IncidentRESOLVED.
Proof.
  intros Hdb. unfold resolve_incident. intros H. apply result_bind_Ok in H as (r & Hr & H).
  apply incident_Ok in Hr. destruct (oi_incident db Hdb ref r Hr) as [Href Hlife].
  case_bool_decide as Es; simpl in H; inv_result; simplify_eq.
  { apply incident_Ok in Hv as Hr'. split; [by apply steps_refl|]. split; [done|].
    rewrite Hr in Hr'. by injection Hr' as <-. }
  apply incident_Ok in Hv as Hv0. split_and!; [|done|].
  - replace_row.
    pose proof (lifecycle_unresolved r Hlife Es) as Hn.
    constructor; simpl; try (by intros ?); [by constructor | destruct (in_state r); simpl; lia | |].
    + intros x Hx. by rewrite Hx.
    + by rewrite Hn.
  - simpl in Hv0. rewrite lookup_insert_eq in Hv0. by injection Hv0 as <-.
Qed.

Lemma bind_steps db ref before after a row db' :
  ops_inv db -> bind_incident_policy_controls db ref before after a = Ok (row, db') -> steps db db'.
Proof.
  intros Hdb. unfold bind_incident_policy_controls. intros H. apply result_bind_Ok in H as (r & Hr & H).
  apply incident_Ok in Hr. destruct (oi_incident db Hdb ref r Hr) as [_ Hlife]. cbn zeta in H.
  assert (Hw : forall b c row db',
    write_once (in_policy_control_before r) b -> write_once (in_policy_control_after r) c ->
    (let! before := opt_mapM (varchar "policy_control_before" 64) b in
     let! after := opt_mapM (varchar "policy_control_after" 64) c in
     let! db' := update_incident db (set_controls r before after (timestamptz a)) in
     let! row := _incident db' ref in Ok (row, db')) = Ok (row, db') -> steps db db').
  { intros b c row1 db1 Hb Hc Hu. inv_result. simplify_eq.
    apply opt_varchar_Ok in Hv as ->. apply opt_varchar_Ok in Hv0 as ->.
    apply update_incident_Ok in Hv1 as [Hl ->]. replace_row.
    constructor; simpl; [by constructor | lia | by intros ? | by intros ? | done | done]. }
  destruct (in_policy_control_before r) as [b0|] eqn:Eb.
  - destruct (negb _ && _); [done|]. destruct (in_policy_control_after r) as [c0|] eqn:Ec.
    + case_bool_decide; cbn [negb] in H; [|inv_result; simplify_eq; by apply steps_refl].
      eapply Hw, H; by intros ?.
    + eapply Hw, H; by intros ?.
  - destruct (in_policy_control_after r) as [c0|] eqn:Ec.
    + case_bool_decide; cbn [negb] in H; [|inv_result; simplify_eq; by apply steps_refl].
      eapply Hw, H; by intros ?.
    + eapply Hw, H; by intros ?.
Qed.

Lemma insert_letter_steps db v b db' :
  ops_inv db -> insert_letter db v = Ok (b, db') ->
  steps db db' /\ if b then odb_dead_letters db !! dl_dead_letter_ref v = None else db' = db.
Proof.
  intros Hdb. unfold insert_letter. intros H. inv_result.
  apply letter_columns_Ok in Hv as Hc. destruct Hc as (Href & _ & _ & _ & Hlife).
  destruct (existsb _ _); inv_result; simplify_eq.
  { split; [by apply steps_refl | done]. }
  match goal with E : check_constraint "acquisition_dead_letter_pkey" _ = Ok _ |- _ =>
    unfold check_constraint in E;
    destruct (odb_dead_letters db !! dl_dead_letter_ref v0) eqn:El; [done|] end.
  split; [by apply new_letter | congruence].
Qed.

Lemma enqueue_steps db e a row b db' :
  ops_inv db -> enqueue_dead_letter db e a = Ok (row, b, db') ->
  steps db db' /\ odb_dead_letters db' !! dead_letter_ref e = Some row.
Proof.
  intros Hdb. unfold enqueue_dead_letter. intros H. apply result_bind_Ok in H as ([ins db1] & Hins & H).
  inv_result. simplify_eq. apply letter_Ok in Hv. by apply insert_letter_steps in Hins as [? _].
Qed.

Lemma requeue_steps db ref a row db' :
  ops_inv db -> mark_dead_letter_requeued db ref a = Ok (row, db') ->
  steps db db' /\ odb_dead_letters db' !! ref = Some row /\ dl_status row = REQUEUED.
Proof.
  intros Hdb. unfold mark_dead_letter_requeued. intros H. apply result_bind_Ok in H as (r & Hr & H).
  apply letter_Ok in Hr. destruct (oi_letter db Hdb ref r Hr) as [Href Hlife].
  destruct (dl_status r) eqn:Es; inv_result; simplify_eq.
  - apply update_letter_Ok in Hv as [Hc ->]. apply letter_Ok in Hv0. split_and!; [|done|].
    + replace_row.
      constructor; simpl; try (by intros ?); try done; [rewrite Es; simpl; lia |].
      intros x Hx. unfold letter_lifecycle in Hlife. rewrite Es, Hx in Hlife. done.
    + simpl in Hv0. rewrite lookup_insert_eq in Hv0. by injection Hv0 as <-.
  - apply letter_Ok in Hv as Hr'. split; [by apply steps_refl|]. split; [done|].
    rewrite Hr in Hr'. by injection Hr' as <-.
Qed.

Lemma resolve_letter_steps db ref a row db' :
  ops_inv db -> resolve_dead_letter db ref a = Ok (row, db') -> steps db db'.
Proof.
  intros Hdb. unfold resolve_dead_letter. intros H. apply result_bind_Ok in H as (r & Hr & H).
  apply letter_Ok in Hr. destruct (oi_letter db Hdb ref r Hr) as [Href Hlife].
  case_bool_decide as Es; simpl in H; inv_result; simplify_eq; [by apply steps_refl|].
  replace_row.
  pose proof (letter_unresolved r Hlife Es) as Hn.
  constructor; simpl; try (by intros ?); try done; [destruct (dl_status r); simpl; lia |].
  by rewrite Hn.
Qed.

Lemma exec_op_steps db op : ops_inv db -> steps db (exec_op db op).
Proof.
  intros Hdb. destruct op as [ce t|ref a|ref a|ref b c a|e a|ref a|ref a]; simpl.
  - destruct (open_incident db ce t) as [[[row b] db']|] eqn:E; [|by apply steps_refl].
    by apply open_incident_steps in E as [? _].
  - destruct (acknowledge_incident db ref a) as [[row db']|] eqn:E; [|by apply steps_refl].
    by eapply acknowledge_steps.
  - destruct (resolve_incident db ref a) as [[row db']|] eqn:E; [|by apply steps_refl].
    by apply resolve_steps in E as [? _].
  - destruct (bind_incident_policy_controls db ref b c a) as [[row db']|] eqn:E;
      [|by apply steps_refl]. by eapply bind_steps.
  - destruct (enqueue_dead_letter db e a) as [[[row b] db']|] eqn:E; [|by apply steps_refl].
    by apply enqueue_steps in E as [? _].
  - destruct (mark_dead_letter_requeued db ref a) as [[row db']|] eqn:E; [|by apply steps_refl].
    by apply requeue_steps in E as [? _].
  - destruct (resolve_dead_letter db ref a) as [[row db']|] eqn:E; [|by apply steps_refl].
    by eapply resolve_letter_steps.
Qed.

Lemma run_ops_steps db ops : ops_inv db -> steps db (run_ops db ops).
Proof.
  revert db. induction ops as [|op ops IH]; intros db Hdb; [by apply steps_refl|].
  destruct (exec_op_steps db op Hdb) as [Hdb' Hl]. destruct (IH _ Hdb') as [H1 H2].
  split; [done | by etransitivity].
Qed.
End facts.
