(* ===== verification/SafetyController.v ===== *)
(** SafetyController: the monotone downgrade of autonomy and the critical
    stop of [operations/safety_controller.py], over the control history of
    PolicyStore; and the typed requeue of dead letters behind the current
    policy and circuit controls ([operations/dead_letter.py]).

    Every statement of the controller is a transaction of its own; what the
    other writers of the history do before the controller's n-th statement
    is the function [others n], so a run of the controller is a run under
    one interleaving, and a theorem for every [others] is a theorem for
    every interleaving.

    The handlers of dead letters are components of their own: a handler maps
    their durable state to whether the work was reconstructed and the state
    after.  The result of [requeue] carries both states in every case,
    because a handler that has run has run whether or not [requeue] then
    raises. *)

From S2P Require Import Prelude PyStr PyDatetime PyDecimal PyJson Database PolicyContracts.
From S2P Require Import PolicyStore OperationsContracts OperationsStore CircuitBreakers.

Local Open Scope string_scope.
Local Open Scope Z_scope.
Local Open Scope list_scope.

(** [operations/safety_controller.py:14-14 SAFETY_CONTROLLER_REF] *)
Definition SAFETY_CONTROLLER_REF : string := "kivou-safety-controller".
(** [operations/safety_controller.py:15-15 MAX_CONTROL_APPEND_ATTEMPTS] *)
Definition MAX_CONTROL_APPEND_ATTEMPTS : nat := 3.

(** [operations/safety_controller.py:17-22 _NEXT_SAFER] *)
Definition _NEXT_SAFER (m : AutonomyMode) : AutonomyMode :=
  match m with
  | ADAPTIVE_VOLUME => AUTONOMOUS_CAPPED
  | AUTONOMOUS_CAPPED => ASSISTED
  | ASSISTED => SHADOW
  | SHADOW => SHADOW
  end.

(** [operations/safety_controller.py:145-153 _is_exact_critical_stop] *)
Definition _is_exact_critical_stop (control : PolicyControlSnapshot) : bool :=
  bool_decide (pc_autonomy_mode control = SHADOW)
  && bool_decide (pc_shadow_target_mode control = Some ASSISTED)
  && pc_kill_switch control && pc_read_only control && negb (truthy (pc_expires_at control)).

Section controller.
Context `{Hash : HashLib} `{DB : Database}.
Variables (others : nat -> policy_db -> policy_db) (at_ : datetime) (reason_codes : list string).

(** [operations/safety_controller.py:91-143 _append_safer] *)
Definition control_fingerprint (current head : PolicyControlSnapshot) (target : AutonomyMode)
    (kill_switch read_only : bool) : string :=
  canonical_fingerprint "policy-safety-control:v2"
    (JObj [("previous", JStr (pc_policy_snapshot_id current));
           ("durable_head", JStr (pc_policy_snapshot_id head));
           ("control_revision", JInt (pc_control_revision head + 1));
           ("target", JStr (mode_value target));
           ("kill_switch", JBool kill_switch);
           ("read_only", JBool read_only);
           ("reason_codes", JStrs reason_codes);
           ("effective_at", JStr (isoformat at_))]).

(** [operations/safety_controller.py:114-133 _append_safer]: the values of
    the replacement. *)
Definition safer_values (current head : PolicyControlSnapshot) (target : AutonomyMode)
    (kill_switch read_only : bool) : PolicyControlSnapshot :=
  let fingerprint := control_fingerprint current head target kill_switch read_only in
  mkControl fingerprint (pc_control_revision head + 1) (pc_policy_version current) target
    (if bool_decide (target = SHADOW) then Some ASSISTED else None) read_only kill_switch
    (pc_qa_signal_ref current) (pc_allowed_commands current) (pc_allowed_countries current)
    (pc_allowed_languages current) (pc_allowed_wedges current) (pc_currency current)
    (pc_daily_cost_cap current) (pc_daily_volume_cap current) at_ None fingerprint at_ "SYSTEM"
    SAFETY_CONTROLLER_REF reason_codes.

(** [operations/safety_controller.py:91-143 _append_safer] *)
Definition _append_safer (db : policy_db) (current head : PolicyControlSnapshot)
    (target : AutonomyMode) (kill_switch read_only : bool)
  : result (option PolicyControlSnapshot * policy_db) :=
  match control_validate (safer_values current head target kill_switch read_only) with
  | Raise _ => Raise (SafetyControlConflict "policy safety control is invalid")
  | Ok replacement =>
      let! (appended, db') :=
        append_control_if_latest db replacement (Some (pc_control_revision head)) in
      Ok ((if appended : bool then Some replacement else None), db')
  end.

(** [operations/safety_controller.py:34-63 downgrade]: the loop, with the
    attempts left and the number of statements run. *)
Fixpoint downgrade_loop (attempts n : nat) (db : policy_db)
  : result (PolicyControlSnapshot * policy_db) :=
  match attempts with
  | O => Raise (SafetyControlConflict "policy safety control changed concurrently")
  | S attempts' =>
      let db := others n db in
      let! head := get_latest_control db in
      let db := others (S n) db in
      let! current := get_effective_control db at_ in
      if pc_control_revision head <? pc_control_revision current
      then downgrade_loop attempts' (S (S n)) db
      else if negb (pc_control_revision current =? pc_control_revision head)
              && negb (match pc_expires_at head with Some e => dt_leb e at_ | None => false end)
      then Raise (SafetyControlConflict "policy safety durable head is not effective")
      else if bool_decide (pc_created_by_actor_ref current = SAFETY_CONTROLLER_REF)
              && bool_decide (pc_reason_codes current = reason_codes)
      then Ok (current, db)
      else
        let target := _NEXT_SAFER (pc_autonomy_mode current) in
        if bool_decide (target = pc_autonomy_mode current) then Ok (current, db)
        else
          let db := others (S (S n)) db in
          let! (replacement, db) := _append_safer db current head target
                                      (pc_kill_switch current) (pc_read_only current) in
          match replacement with
          | Some r => Ok (r, db)
          | None => downgrade_loop attempts' (S (S (S n))) db
          end
  end.

(** [operations/safety_controller.py:34-63 downgrade] *)
Definition downgrade (db : policy_db) : result (PolicyControlSnapshot * policy_db) :=
  downgrade_loop MAX_CONTROL_APPEND_ATTEMPTS 0 db.

(** [operations/safety_controller.py:65-89 critical_stop]: the loop. *)
Fixpoint critical_stop_loop (attempts n : nat) (db : policy_db)
  : result (PolicyControlSnapshot * policy_db) :=
  match attempts with
  | O => Raise (SafetyControlConflict "policy critical stop changed concurrently")
  | S attempts' =>
      let db := others n db in
      let! head := get_latest_control db in
      let db := others (S n) db in
      let! current := get_effective_control db at_ in
      if pc_control_revision head <? pc_control_revision current
      then critical_stop_loop attempts' (S (S n)) db
      else if _is_exact_critical_stop current then Ok (current, db)
      else
        let db := others (S (S n)) db in
        let! (replacement, db) := _append_safer db current head SHADOW true true in
        match replacement with
        | Some r => Ok (r, db)
        | None =>
            let db := others (S (S (S n))) db in
            let! winner := get_effective_control db at_ in
            if _is_exact_critical_stop winner then Ok (winner, db)
            else critical_stop_loop attempts' (S (S (S (S n)))) db
        end
  end.

(** [operations/safety_controller.py:65-89 critical_stop] *)
Definition critical_stop (db : policy_db) : result (PolicyControlSnapshot * policy_db) :=
  critical_stop_loop MAX_CONTROL_APPEND_ATTEMPTS 0 db.
End controller.

(** * Dead letters *)

Section requeue.
Context `{Hash : HashLib} `{DB : Database}.

(** [operations/dead_letter.py:40-52 require_requeue_allowed] *)
Definition require_requeue_allowed (policy : policy_db) (db : operations_db)
    (row : dead_letter_row) (at_ : datetime) : result unit :=
  match get_effective_control policy at_ with
  | Raise (PolicyControlUnavailable _) =>
      Raise (DeadLetterRequeueBlocked "Policy control unavailable")
  | Raise e => Raise e
  | Ok control =>
      if pc_kill_switch control || pc_read_only control
      then Raise (DeadLetterRequeueBlocked "hard safety control blocks requeue")
      else
        let! scope := scope_validate (dl_scope row) in
        match require_allowed db [scope] with
        | Raise (AcquisitionCircuitOpen _) =>
            Raise (DeadLetterRequeueBlocked "execution circuit blocks requeue")
        | r => r
        end
  end.

Context {W : Type}.

(** A handler, and the table of the configured ones. *)
Definition DeadLetterHandler : Type := W -> dead_letter_row -> datetime -> result bool * W.

Variable guard : operations_db -> dead_letter_row -> datetime -> result unit.
Variable handlers : WorkType -> option DeadLetterHandler.

(** [operations/dead_letter.py:67-80 requeue] *)
Definition requeue (db : operations_db) (w : W) (ref : string) (at_ : datetime)
  : result dead_letter_row * operations_db * W :=
  match get_dead_letter db ref with
  | Raise e => (Raise e, db, w)
  | Ok row =>
      match dl_status row with
      | REQUEUED => (Ok row, db, w)
      | LetterRESOLVED =>
          (Raise (DeadLetterRequeueBlocked "resolved dead letter cannot be requeued"), db, w)
      | LetterOPEN =>
          match guard db row at_ with
          | Raise e => (Raise e, db, w)
          | Ok _ =>
              match handlers (dl_work_type row) with
              | None =>
                  (Raise (DeadLetterRequeueBlocked "typed requeue handler is unconfigured"), db, w)
              | Some handler =>
                  let (done, w') := handler w row at_ in
                  match done with
                  | Raise e => (Raise e, db, w')
                  | Ok false =>
                      (Raise (DeadLetterRequeueBlocked
                                "durable work is stale or cannot be reconstructed"), db, w')
                  | Ok true =>
                      match mark_dead_letter_requeued db ref at_ with
                      | Ok (row, db') => (Ok row, db', w')
                      | Raise e => (Raise e, db, w')
                      end
                  end
              end
          end
      end
  end.
End requeue.
