(* ===== verification/OperationsTheorems.v ===== *)
(** OperationsTheorems: the properties of the incident and dead-letter
    store, the circuit breakers, the retry policy, the requeue boundary and
    the readiness and health evaluations. *)

From S2P Require Import Prelude PyStr PyDatetime PyDatetimeFacts PyDecimal PyJson Database.
From S2P Require Import PolicyContracts PolicyStore OperationsContracts OperationsStore.
From S2P Require Import CircuitBreakers OperationsFacts SafetyController.

Local Open Scope string_scope.
Local Open Scope Z_scope.
Local Open Scope list_scope.

Section lemmas.
Context `{Hash : HashLib} `{DB : Database}.

(** ** The guard *)

Lemma has_open_breaker_true db scope :
  has_open_breaker db scope = true
  <-> exists ref r, odb_incidents db !! ref = Some r /\ blocks scope r = true.
Proof.
  unfold has_open_breaker. rewrite negb_true_iff, Z.eqb_neq. split.
  - intros H. destruct (List.filter (blocks scope) _) as [|r l] eqn:E; [done|].
    assert (Hin : In r (List.filter (blocks scope) (map snd (map_to_list (odb_incidents db)))))
      by (rewrite E; by left).
    apply filter_In in Hin as [Hin Hb]. apply in_map_iff in Hin as ([ref r'] & <- & Hin).
    apply list_elem_of_In, elem_of_map_to_list in Hin. eauto.
  - intros (ref & r & Hr & Hb). apply elem_of_map_to_list, list_elem_of_In in Hr.
    apply (in_map snd) in Hr. simpl in Hr.
    assert (Hin : In r (List.filter (blocks scope) (map snd (map_to_list (odb_incidents db)))))
      by (by apply filter_In).
    destruct (List.filter _ _); [done|]. unfold zlength. simpl. lia.
Qed.

Lemma has_open_breaker_false db scope :
  has_open_breaker db scope = false
  <-> forall ref r, odb_incidents db !! ref = Some r -> blocks scope r = false.
Proof.
  rewrite <- not_true_iff_false, has_open_breaker_true. split.
  - intros H ref r Hr. apply not_true_iff_false. intros Hb. apply H. eauto.
  - intros H (ref & r & Hr & Hb). by rewrite (H ref r Hr) in Hb.
Qed.

Lemma blocks_false scope r :
  blocks scope r = false
  <-> (in_state r = IncidentRESOLVED \/ severe (in_severity r) = false
       \/ (in_scope r <> GLOBAL_SCOPE /\ in_scope r <> scope)).
Proof.
  unfold blocks. repeat case_bool_decide; destruct (severe _); simpl; naive_solver.
Qed.

Lemma guard_scopes_Ok db scopes :
  guard_scopes db scopes = Ok tt <-> Forall (fun s => has_open_breaker db s = false) scopes.
Proof.
  induction scopes as [|s l IH]; simpl; [by split|]. rewrite Forall_cons.
  destruct (has_open_breaker db s); [by split; [|intros [? _]]|]. rewrite IH. naive_solver.
Qed.

Lemma guard_scopes_open db scopes :
  guard_scopes db scopes = Ok tt
  \/ guard_scopes db scopes = Raise (AcquisitionCircuitOpen "acquisition execution circuit is open").
Proof. induction scopes as [|s l IH]; simpl; [by left|]. destruct (has_open_breaker db s); auto. Qed.

(** ** Comparisons of a replay *)

Lemma require_same_Ok checks : _require_same checks = Ok tt <-> Forall (fun c => c.2 = true) checks.
Proof.
  induction checks as [|[k b] l IH]; simpl; [by split|]. rewrite Forall_cons. simpl.
  destruct b; [rewrite IH; naive_solver | by split; [|intros [? _]]].
Qed.

Lemma require_same_kept r r' t :
  incident_same r r' -> _require_same (incident_checks r (incident_of t)) = Ok tt ->
  _require_same (incident_checks r' (incident_of t)) = Ok tt.
Proof.
  intros [] H. unfold incident_checks in *.
  repeat match goal with E : _ r' = _ |- _ => rewrite E; clear E end. exact H.
Qed.

(** A replay of a trigger whose incident is there answers with its row. *)
Lemma open_incident_replay db ce t r :
  ops_inv db -> odb_incidents db !! incident_ref t = Some r ->
  in_trigger_fingerprint r = trigger_fingerprint t ->
  (exists v, incident_columns (incident_of t) = Ok v) ->
  _require_same (incident_checks r (incident_of t)) = Ok tt ->
  open_incident db ce t = Ok (r, true, db).
Proof.
  intros Hdb Hr Hf [v Hv] Hs. unfold open_incident, insert_incident. rewrite Hv. cbn [result_bind].
  apply incident_columns_Ok in Hv as (_ & Hvf & _).
  assert (E : existsb (fun p => bool_decide (in_trigger_fingerprint p.2 = in_trigger_fingerprint v))
    (map_to_list (odb_incidents db)) = true).
  { apply existsb_exists. exists (incident_ref t, r). split.
    - by apply list_elem_of_In, elem_of_map_to_list.
    - apply bool_decide_eq_true. rewrite Hvf. exact Hf. }
  rewrite E. cbn [result_bind]. unfold _incident. rewrite Hr. cbn [option_to_result result_bind].
  by rewrite Hs.
Qed.

Lemma same_fingerprint r t :
  _require_same (incident_checks r (incident_of t)) = Ok tt ->
  in_trigger_fingerprint r = trigger_fingerprint t.
Proof.
  rewrite require_same_Ok. unfold incident_checks. rewrite !Forall_cons. intros (_ & H & _).
  by apply bool_decide_eq_true in H.
Qed.

(** ** Resolution is the only way out *)

Definition resolves (ref : string) (op : operation) : bool :=
  match op with OpResolve ref' _ => bool_decide (ref' = ref) | _ => false end.

Lemma update_incident_lookup db r r' db' ref q :
  in_incident_ref r' = in_incident_ref r -> update_incident db r' = Ok db' ->
  odb_incidents db' !! ref = Some q ->
  (in_incident_ref r = ref /\ q = r') \/ odb_incidents db !! ref = Some q.
Proof.
  intros He H Hq. apply update_incident_Ok in H as [_ ->]. simpl in Hq.
  apply lookup_insert_Some in Hq as [[Hk <-]|[_ Hq]]; [left; split; congruence | by right].
Qed.

(** A call that does not resolve an incident leaves an unresolved one
    unresolved. *)
Lemma exec_op_unresolved db op ref r r' :
  ops_inv db -> resolves ref op = false ->
  odb_incidents db !! ref = Some r -> in_state r <> IncidentRESOLVED ->
  odb_incidents (exec_op db op) !! ref = Some r' -> in_state r' <> IncidentRESOLVED.
Proof.
  intros Hdb Hno Hr Hs Hr'.
  assert (Hsame : forall db', odb_incidents db' !! ref = Some r' ->
    odb_incidents db' = odb_incidents db -> in_state r' <> IncidentRESOLVED) by (intros; congruence).
  destruct op as [ce t|ref0 a|ref0 a|ref0 b c a|e a|ref0 a|ref0 a]; simpl in Hr'.
  - destruct (open_incident db ce t) as [[[row b] db']|] eqn:E; [|congruence].
    pose proof E as E'. apply open_incident_steps in E as (_ & Hrow & _ & Hb & _); [|done].
    destruct b; [subst; congruence|]. destruct Hb as (Hnone & Hopen & Hcol).
    unfold open_incident, insert_incident in E'. rewrite Hcol in E'. cbn [result_bind] in E'.
    destruct (existsb _ _); inv_result; simplify_eq.
    simpl in Hr'. apply lookup_insert_Some in Hr' as [[_ <-]|[_ Hr']]; congruence.
  - destruct (acknowledge_incident db ref0 a) as [[row db']|] eqn:E; [|congruence].
    unfold acknowledge_incident in E. apply result_bind_Ok in E as (r0 & Hr0 & E).
    apply incident_Ok in Hr0. destruct (in_state r0); inv_result; simplify_eq; try congruence.
    apply (update_incident_lookup _ r0 _ _ ref r') in Hv as [[_ ->]|Hq]; done || congruence.
  - simpl in Hno. apply bool_decide_eq_false in Hno.
    destruct (resolve_incident db ref0 a) as [[row db']|] eqn:E; [|congruence].
    unfold resolve_incident in E. apply result_bind_Ok in E as (r0 & Hr0 & E).
    apply incident_Ok in Hr0. destruct (oi_incident db Hdb _ _ Hr0) as [Href _].
    destruct (negb _); apply result_bind_Ok in E as (db1 & Hu & E); inv_result; simplify_eq;
      [|congruence].
    apply (update_incident_lookup _ r0 _ _ ref r') in Hu as [[Hk ->]|Hq]; done || congruence.
  - destruct (bind_incident_policy_controls db ref0 b c a) as [[row db']|] eqn:E; [|congruence].
    unfold bind_incident_policy_controls in E. apply result_bind_Ok in E as (r0 & Hr0 & E).
    apply incident_Ok in Hr0. destruct (oi_incident db Hdb _ _ Hr0) as [Href _].
    assert (Hu : db' = db \/ exists b' c', update_incident db (set_controls r0 b' c' (timestamptz a))
                                           = Ok db').
    { destruct (in_policy_control_before r0), (in_policy_control_after r0); simpl in E;
        repeat match type of E with (if ?x then _ else _) = _ => destruct x end;
        inv_result; simplify_eq; eauto. }
    destruct Hu as [->|(b' & c' & Hu)]; [congruence|].
    apply (update_incident_lookup _ r0 _ _ ref r') in Hu as [[Hk ->]|Hq]; [simpl; congruence | congruence | done | done].
  - destruct (enqueue_dead_letter db e a) as [[[row b] db']|] eqn:E; [|congruence].
    unfold enqueue_dead_letter, insert_letter in E. inv_result.
    destruct (existsb _ _); inv_result; simplify_eq; simpl in *; congruence.
  - destruct (mark_dead_letter_requeued db ref0 a) as [[row db']|] eqn:E; [|congruence].
    unfold mark_dead_letter_requeued, update_letter in E. inv_result.
    destruct (dl_status v); inv_result; simplify_eq; simpl in *; congruence.
  - destruct (resolve_dead_letter db ref0 a) as [[row db']|] eqn:E; [|congruence].
    unfold resolve_dead_letter, update_letter in E. inv_result.
    destruct (negb _); inv_result; simplify_eq; simpl in *; congruence.
Qed.

Lemma run_ops_unresolved db ops ref r :
  ops_inv db -> forallb (fun op => negb (resolves ref op)) ops = true ->
  odb_incidents db !! ref = Some r -> in_state r <> IncidentRESOLVED ->
  exists r', odb_incidents (run_ops db ops) !! ref = Some r' /\ in_state r' <> IncidentRESOLVED
  /\ incident_later r r'.
Proof.
  revert db r. induction ops as [|op ops IH]; intros db r Hdb Hops Hr Hs.
  { exists r. split_and!; [done | done | reflexivity]. }
  simpl in Hops. inv_result. destruct (exec_op_steps db op Hdb) as [Hdb' Hl].
  destruct (ol_incident _ _ Hl ref r Hr) as (r1 & Hr1 & Hl1).
  assert (Hs1 : in_state r1 <> IncidentRESOLVED) 
    by (exact (exec_op_unresolved db op ref r r1 Hdb H Hr Hs Hr1)).
  destruct (IH _ r1 Hdb') as (r2 & ? & ? & ?); [done..|].
  exists r2. split_and!; [done | done | by etransitivity].
Qed.
End lemmas.

(** * The claims *)

Section claims.
Context `{Hash : HashLib} `{DB : Database}.

(** C8 (safety).  The execution guard is exact and holds until resolution:
    [require_allowed] lets a non-empty list of scopes through exactly when
    no unresolved HIGH or CRITICAL incident has the global scope or one of
    them; and once such an incident is there, every execution in its scope
    is refused after any calls of the store that do not resolve that
    incident - acknowledging it, binding controls to it or replaying its
    trigger does not unblock it. *)
Theorem breaker_holds_until_resolved (db : operations_db) (scopes : list BreakerScope) :
  ops_inv db ->
  (require_allowed db scopes = Ok tt <->
   scopes <> [] /\ forall ref r scope, odb_incidents db !! ref = Some r -> scope ∈ scopes ->
     in_state r = IncidentRESOLVED \/ severe (in_severity r) = false
     \/ (in_scope r <> GLOBAL_SCOPE /\ in_scope r <> scope))
  /\ forall ref r ops, odb_incidents db !! ref = Some r -> in_state r <> IncidentRESOLVED ->
     severe (in_severity r) = true -> scopes <> [] ->
     in_scope r = GLOBAL_SCOPE \/ in_scope r ∈ scopes ->
     forallb (fun op => negb (resolves ref op)) ops = true ->
     require_allowed (run_ops db ops) scopes
     = Raise (AcquisitionCircuitOpen "acquisition execution circuit is open").
Proof.
  intros Hdb. unfold require_allowed. split.
  - destruct (list_truthy scopes) eqn:E.
    2: { apply list_truthy_false in E. split; [done | by intros [? _]]. }
    apply list_truthy_true in E. rewrite guard_scopes_Ok, Forall_forall. split.
    + intros H. split; [done|]. intros ref r scope Hr Hs. apply blocks_false.
      specialize (H scope Hs). rewrite has_open_breaker_false in H. by apply (H ref).
    + intros [_ H] scope Hs. rewrite has_open_breaker_false. intros ref r Hr.
      apply blocks_false. by eapply H.
  - intros ref r ops Hr Hs Hsev Hne Hscope Hops. apply list_truthy_true in Hne as Htr. rewrite Htr.
    destruct (run_ops_unresolved db ops ref r Hdb Hops Hr Hs) as (r' & Hr' & Hs' & Hl).
    destruct (guard_scopes_open (run_ops db ops) scopes) as [H|H]; [|done]. exfalso.
    rewrite guard_scopes_Ok, Forall_forall in H.
    pose proof (is_scope _ _ (il_same _ _ Hl)) as Esc. pose proof (is_severity _ _ (il_same _ _ Hl)) as Esv.
    assert (Hb : exists scope, scope ∈ scopes /\ (in_scope r' = GLOBAL_SCOPE \/ in_scope r' = scope)).
    { destruct Hscope as [Hg|Hin]; [|exists (in_scope r); split; [done | by right]].
      destruct scopes as [|s l]; [done|]. exists s. split; [by left | left; congruence]. }
    destruct Hb as (scope & Hin & Hb). specialize (H scope Hin).
    rewrite has_open_breaker_false in H. specialize (H ref r' Hr'). apply blocks_false in H.
    destruct H as [H|[H|[H1 H2]]]; [done | congruence | destruct Hb; done].
Qed.

(** The operational tables only move forward: after any
    sequence of calls every incident is still there with the same trigger,
    severity, scope and metrics, in the same state or a later one of OPEN,
    ACKNOWLEDGED, RESOLVED, with the times and the policy lineage already
    written unchanged; every dead letter likewise through OPEN, REQUEUED,
    RESOLVED; and the lifecycle constraints hold. *)
Theorem operations_move_forward (ops ops' : list operation) :
  let db := run_ops empty_operations_db ops in
  ops_inv (run_ops db ops')
  /\ (forall ref r, odb_incidents db !! ref = Some r ->
      exists r', odb_incidents (run_ops db ops') !! ref = Some r' /\ incident_later r r')
  /\ (forall ref r, odb_dead_letters db !! ref = Some r ->
      exists r', odb_dead_letters (run_ops db ops') !! ref = Some r' /\ letter_later r r').
Proof.
  intros db. destruct (run_ops_steps _ ops ops_inv_empty) as [Hdb _]. fold db in Hdb.
  destruct (run_ops_steps db ops' Hdb) as [Hinv [H1 H2]]. done.
Qed.

(** Opening an incident is replay-safe: the first call
    writes an OPEN row under the reference of the trigger and changes no
    other, and repeating it after any other calls - also after the incident
    was acknowledged or resolved - answers with the current row, marked as
    replayed, and changes nothing. *)
Theorem open_incident_once (db db1 : operations_db) (campaigns campaigns' : string -> bool)
    (t : IncidentTrigger) (row : incident_row) (replayed : bool) (ops : list operation) :
  ops_inv db -> open_incident db campaigns t = Ok (row, replayed, db1) ->
  odb_incidents db1 !! incident_ref t = Some row
  /\ (if replayed then db1 = db else
      odb_incidents db !! incident_ref t = None /\ in_state row = IncidentOPEN)
  /\ exists row', open_incident (run_ops db1 ops) campaigns' t = Ok (row', true, run_ops db1 ops)
     /\ incident_later row row'.
Proof.
  intros Hdb H. apply open_incident_steps in H as ([Hdb1 _] & Hrow & Hsame & Hb & Hcol); [|done].
  split; [done|]. split; [destruct replayed; naive_solver|].
  destruct (run_ops_steps db1 ops Hdb1) as [Hdb2 Hl].
  destruct (ol_incident _ _ Hl _ _ Hrow) as (row' & Hrow' & Hlater). exists row'. split; [|done].
  apply open_incident_replay; try done.
  - apply same_fingerprint. by eapply require_same_kept; [apply Hlater|].
  - by eapply require_same_kept; [apply Hlater|].
Qed.

(** The column of a metric decides whether an incident can be
    opened at all: when the row read back does not carry exactly the
    observed value written - a rate with more digits than the column's
    scale - the comparison that protects replays refuses the first write,
    and nothing is recorded. *)
Theorem inexact_metric_never_opens (db : operations_db) (campaigns : string -> bool)
    (t : IncidentTrigger) (row : incident_row) :
  ops_inv db -> odb_incidents db !! incident_ref t = None ->
  incident_columns (incident_of t) = Ok row ->
  opt_eqb dec_eqb (in_observed_value row) (tg_observed_value t) = false ->
  is_ok (open_incident db campaigns t) = false
  /\ exec_op db (OpOpen campaigns t) = db.
Proof.
  intros Hdb Hnone Hcol Hne. simpl.
  destruct (open_incident db campaigns t) as [[[row' b] db']|e] eqn:E; [|done]. exfalso.
  apply open_incident_steps in E as (_ & Hrow & Hsame & Hb & _); [|done].
  destruct b; [congruence|]. destruct Hb as (_ & _ & Hcol').
  rewrite Hcol in Hcol'. injection Hcol' as <-.
  rewrite require_same_Ok in Hsame. unfold incident_checks in Hsame. rewrite !Forall_cons in Hsame.
  destruct Hsame as (_ & _ & _ & _ & _ & _ & _ & _ & H & _). simpl in H. congruence.
Qed.

Lemma validated_bounces o0 o :
  bounces_validate o0 = Ok o ->
  zlength (bo_authoritative_step1_members o) <= 100000
  /\ 0 <= zlength (bo_bounced_step1_members o) <= zlength (bo_authoritative_step1_members o).
Proof.
  unfold bounces_validate, items. intros H. inv_result. cbn [bo_authoritative_step1_members bo_bounced_step1_members].
  repeat match goal with E : checked _ _ _ = Ok _ |- _ => apply checked_Ok in E as [? ->] end.
  split; [lia|]. split; [unfold zlength; lia|].
  unfold has_duplicates in *. inv_result.
  match goal with
  | E : (zlength (dict_fromkeys ?s) =? zlength ?s) = true,
    E' : (zlength (dict_fromkeys ?b) =? zlength ?b) = true,
    F : forallb (fun m => in_list m ?s) ?b = true |- _ =>
      apply Z.eqb_eq in E, E'; rewrite <- E, <- E'; rename F into Hsub
  end.
  unfold zlength. apply inj_le, NoDup_incl_length.
  - apply NoDup_ListNoDup, NoDup_dict_fromkeys.
  - intros x Hx. apply list_elem_of_In in Hx. apply list_elem_of_In.
    rewrite elem_of_dict_fromkeys in Hx |- *. rewrite forallb_forall in Hsub.
    apply list_elem_of_In in Hx. apply Hsub in Hx. by apply in_list_true.
Qed.

(** The bounce breaker trips exactly above five percent:
    on an accepted observation of [sent] members of which [bounced]
    bounced, nothing happens below twenty members or while
    [20 * bounced <= sent], and otherwise the HIGH incident of the
    observation is opened with the rate as its metric.  The decimal
    division, rounded to 28 digits, decides as the exact fraction does. *)
Theorem bounce_breaker_exact (db : operations_db) (campaigns : string -> bool)
    (given o : BounceObservation) :
  bounces_validate given = Ok o ->
  let sent := zlength (bo_authoritative_step1_members o) in
  let bounced := zlength (bo_bounced_step1_members o) in
  observe_bounces db campaigns o
  = if (20 <=? sent) && (sent <? 20 * bounced)
    then trip db campaigns
           (mkTrigger BOUNCE_RATE HIGH (bo_scope o) (bo_source_state_ref o) (bo_observed_at o)
              ["STEP1_BOUNCE_RATE_ABOVE_LIMIT"] (Some (bounce_rate o))
              (Some BOUNCE_MAXIMUM_RATE) (Some BOUNCE_BREAKER_VERSION) (bo_campaign_ref o)
              (bo_mailbox_ref o) (bo_wedge o) (bo_country o) true true None None)
    else Ok (None, db).
Proof.
  intros H sent bounced. apply validated_bounces in H as [H1 H2]. fold sent bounced in H1, H2.
  unfold observe_bounces, BOUNCE_MINIMUM_SAMPLE, bounce_rate, BOUNCE_MAXIMUM_RATE.
  fold sent bounced. destruct (Z.ltb_spec sent 20), (Z.leb_spec 20 sent); try lia; [done|].
  rewrite rate_at_most_five_percent by lia.
  destruct (Z.leb_spec (20 * bounced) sent), (Z.ltb_spec sent (20 * bounced)); try lia; done.
Qed.

(** A validated retry policy answers every attempt, and
    how it does is exact: an unknown external outcome is reconciled first;
    from the maximum on the work goes to the dead letters; an earlier
    attempt is retried after its own delay, strictly after the failure and
    in UTC; an attempt below one is refused.  The delay of the attempt is
    always there: no answer is an IndexError. *)
Theorem retry_schedule (given p : RetryPolicy) (attempt : Z) (failed_at : datetime)
    (unknown : bool) :
  retry_policy_validate given = Ok p -> aware failed_at = true ->
  match decide_retry p attempt failed_at unknown with
  | Ok d =>
      if unknown then d = mkRetry RECONCILE_FIRST None
      else if rp_maximum_attempts p <=? attempt then d = mkRetry DLQ None
      else 1 <= attempt /\ exists delay at_,
        rp_delays_seconds p !! Z.to_nat (attempt - 1) = Some delay /\ 0 < delay
        /\ d = mkRetry RETRY (Some at_)
        /\ instant at_ = instant failed_at + delay * US_SECOND /\ utcoffset at_ = Some 0
  | Raise (ValueError _) => unknown = false /\ attempt < 1
  | Raise e => e = OverflowError
  end.
Proof.
  intros Hp Ha. unfold retry_policy_validate in Hp. inv_result.
  apply checked_Ok in Hv0 as [Hmax ->]. apply Z.eqb_eq in Hc. unfold decide_retry. rewrite Ha.
  cbn [rp_maximum_attempts rp_delays_seconds].
  assert (Hov : forall x y e, dt_add x y = Raise e -> e = OverflowError).
  { intros x y e. apply of_local_us_Raise. }
  assert (Hov' : forall x e, astimezone_utc x = Raise e -> e = OverflowError).
  { intros x e. apply of_local_us_Raise. }
  destruct (astimezone_utc failed_at) as [utc|e] eqn:Eu; cbn [result_bind]; [|apply Hov' in Eu; by subst].
  destruct unknown; [done|]. destruct (Z.leb_spec (rp_maximum_attempts given) attempt) as [|Hlt]; [done|].
  destruct (Z.ltb_spec attempt 1); [done|].
  destruct (rp_delays_seconds given !! Z.to_nat (attempt - 1)) as [delay|] eqn:Ed.
  2: { apply lookup_ge_None in Ed. unfold zlength in Hc. lia. }
  cbn [option_to_result result_bind]. apply astimezone_utc_instant in Eu as [Eu Eo].
  destruct (dt_add utc (delay * US_SECOND)) as [at_|e] eqn:Eadd; cbn [result_bind];
    [|apply Hov in Eadd; by subst].
  apply dt_add_instant in Eadd as [Ei Et]. unfold _aware_to_utc, aware. rewrite Et, Eo. simpl.
  destruct (astimezone_utc at_) as [at'|e] eqn:E'; simpl; [|apply Hov' in E'; by subst].
  apply astimezone_utc_instant in E' as [Ei' Eo']. split; [done|]. exists delay, at'.
  split_and!; try done; [|congruence].
  apply list_elem_of_lookup_2, list_elem_of_In in Ed.
  destruct (Z.lt_ge_cases 0 delay) as [|Hle]; [done|]. exfalso.
  assert (Hex : existsb (fun item => item <=? 0) (rp_delays_seconds given) = true)
    by (apply existsb_exists; exists delay; split; [done | lia]). congruence.
Qed.

(** A dead letter is handed to its handler only while it is
    OPEN and the guard allows it: a policy control is in force with neither
    the kill switch nor the read-only flag, and no unresolved severe
    incident is global or in the letter's scope; the state of the handlers
    changes only then.  A success answers with the letter, REQUEUED; a
    failure leaves the tables as they were; a letter already requeued is
    answered and a resolved one refused without calling any handler. *)
Theorem requeue_guarded {W : Type} (policy : policy_db) (db db' : operations_db) (w w' : W)
    (handlers : WorkType -> option (DeadLetterHandler (W := W))) (ref : string) (at_ : datetime)
    (answer : result dead_letter_row) :
  ops_inv db ->
  requeue (require_requeue_allowed policy) handlers db w ref at_ = (answer, db', w') ->
  match answer with
  | Ok row =>
      odb_dead_letters db' !! ref = Some row /\ dl_status row = REQUEUED
  | Raise _ => db' = db
  end
  /\ (forall row, odb_dead_letters db !! ref = Some row -> dl_status row <> LetterOPEN ->
      w' = w /\ db' = db /\ is_ok answer = bool_decide (dl_status row = REQUEUED))
  /\ (w' = w \/
      exists row control scope, odb_dead_letters db !! ref = Some row /\ dl_status row = LetterOPEN
      /\ get_effective_control policy at_ = Ok control
      /\ pc_kill_switch control = false /\ pc_read_only control = false
      /\ scope_validate (dl_scope row) = Ok scope /\ has_open_breaker db scope = false).
Proof.
  intros Hdb. unfold requeue, get_dead_letter.
  destruct (_dead_letter db ref) as [row|e] eqn:Erow.
  2: { intros [= <- <- <-]. split; [done|]. split; [|by left]. intros row Hrow.
       unfold _dead_letter in Erow. by rewrite Hrow in Erow. }
  apply letter_Ok in Erow.
  assert (Hopen : forall (P : dead_letter_row -> Prop), dl_status row = LetterOPEN ->
    forall row0, odb_dead_letters db !! ref = Some row0 -> dl_status row0 <> LetterOPEN -> P row0)
    by (intros P Ho row0 Hrow0; congruence).
  destruct (dl_status row) eqn:Es.
  2,3: intros [= <- <- <-]; split; [done|]; split; [|by left]; intros row0 Hrow0 _;
    rewrite Erow in Hrow0; injection Hrow0 as <-; rewrite Es; done.
  specialize (fun P => Hopen P eq_refl).
  destruct (require_requeue_allowed policy db row at_) as [u|e] eqn:Eg;
    [|intros [= <- <- <-]; split_and!; [done | apply Hopen | by left]].
  destruct (handlers (dl_work_type row)) as [h|];
    [|intros [= <- <- <-]; split_and!; [done | apply Hopen | by left]].
  destruct (h w row at_) as [done_ w1]. intros H.
  assert (Hg : exists control scope, get_effective_control policy at_ = Ok control
    /\ pc_kill_switch control = false /\ pc_read_only control = false
    /\ scope_validate (dl_scope row) = Ok scope /\ has_open_breaker db scope = false).
  { unfold require_requeue_allowed in Eg.
    destruct (get_effective_control policy at_) as [control|[]]; try done.
    destruct (pc_kill_switch control || pc_read_only control) eqn:Ek; [done|]. inv_result.
    exists control, v. split_and!; try done; try by apply orb_false_iff in Ek.
    revert Eg. unfold require_allowed. simpl. by destruct (has_open_breaker db v). }
  destruct Hg as (control & scope & Hg).
  assert (Hw : w' = w1) by (destruct done_ as [[]|]; [destruct (mark_dead_letter_requeued db ref at_)
    as [[? ?]|] | |]; by injection H as <- <- <-). subst w1.
  split; [|split; [apply Hopen | right; exists row, control, scope; naive_solver]].
  destruct done_ as [[]|]; [|by injection H as <- <-..].
  destruct (mark_dead_letter_requeued db ref at_) as [[row' db1]|] eqn:Em; [|by injection H as <- <-].
  injection H as <- <-. apply requeue_steps in Em as (_ & Hrow & Hst); [|done].
  done.
Qed.

(** The highest safe mode is exactly what the gates
    allow, and never more than they allow: ADAPTIVE_VOLUME needs all seven,
    AUTONOMOUS_CAPPED the runtime, state, policy and cap gates, ASSISTED the
    first three, anything less is SHADOW; every reason of a gate that is not
    ready is listed as a blocker and nothing else is; and the operational
    health is READY only when all eight components are, NOT_READY as soon as
    one is. *)
Theorem readiness_exact (e : ReadinessEvidence) (h : HealthEvidence) :
  let ready g := ge_status g = GateREADY in
  let core := ready (re_h_a_runtime e) /\ ready (re_h_b_state e) /\ ready (re_h_c_policy e) in
  let mode := ar_highest_safe_mode (evaluate_readiness e) in
  (mode = ADAPTIVE_VOLUME <-> Forall ready (gates e))
  /\ (mode = AUTONOMOUS_CAPPED \/ mode = ADAPTIVE_VOLUME <-> core /\ ready (re_h_e_capped e))
  /\ (mode <> SHADOW <-> core)
  /\ (forall code, code ∈ ar_blockers (evaluate_readiness e)
      <-> exists g, g ∈ gates e /\ ~ ready g /\ code ∈ ge_reason_codes g)
  /\ (oh_status (evaluate_health h) = HealthREADY
      <-> Forall (fun s => s = HealthREADY) (health_values h))
  /\ (oh_status (evaluate_health h) = HealthNOT_READY <-> HealthNOT_READY ∈ health_values h).
Proof.
  intros ready core mode.
  assert (Hall : forall l, forallb gate_ready l = true <-> Forall ready l).
  { intros l. rewrite forallb_forall, Forall_forall. setoid_rewrite <- list_elem_of_In.
    unfold gate_ready, ready. by setoid_rewrite bool_decide_eq_true. }
  assert (Hmode : mode = if forallb gate_ready (gates e) then ADAPTIVE_VOLUME
    else if forallb gate_ready [re_h_a_runtime e; re_h_b_state e; re_h_c_policy e; re_h_e_capped e]
    then AUTONOMOUS_CAPPED
    else if forallb gate_ready [re_h_a_runtime e; re_h_b_state e; re_h_c_policy e]
    then ASSISTED else SHADOW) by done.
  assert (Hcore : core <-> Forall ready [re_h_a_runtime e; re_h_b_state e; re_h_c_policy e])
    by (rewrite !Forall_cons, Forall_nil; unfold core; tauto).
  assert (Hcap : core /\ ready (re_h_e_capped e) <->
    Forall ready [re_h_a_runtime e; re_h_b_state e; re_h_c_policy e; re_h_e_capped e])
    by (rewrite !Forall_cons, Forall_nil; unfold core; tauto).
  assert (H13 : Forall ready (gates e) -> core /\ ready (re_h_e_capped e))
    by (unfold gates, core; rewrite !Forall_cons; tauto).
  rewrite <- (Hall (gates e)) in H13 |- *. rewrite <- Hall in Hcore, Hcap.
  rewrite Hmode. clear Hmode. split_and!.
  - repeat case_match; naive_solver.
  - rewrite Hcap in *. repeat case_match; naive_solver.
  - destruct (forallb gate_ready (gates e)); [naive_solver|].
    destruct (forallb gate_ready [_; _; _; _]); [naive_solver|].
    rewrite Hcore. destruct (forallb _ _); naive_solver.
  - intros code. unfold evaluate_readiness. cbn [ar_blockers]. rewrite elem_of_sorted_set.
    rewrite list_elem_of_In, in_flat_map. setoid_rewrite filter_In.
    setoid_rewrite <- list_elem_of_In. unfold gate_ready, ready.
    setoid_rewrite negb_true_iff. setoid_rewrite bool_decide_eq_false. naive_solver.
  - unfold evaluate_health. cbn [oh_status]. rewrite Forall_forall. split.
    + intros H s Hs. destruct (in_list HealthNOT_READY _) eqn:E1; [done|].
      destruct (in_list DEGRADED _) eqn:E2; [done|]. apply in_list_false in E1, E2.
      by destruct s.
    + intros H. destruct (in_list HealthNOT_READY _) eqn:E1.
      { apply in_list_true, H in E1. done. }
      destruct (in_list DEGRADED _) eqn:E2; [|done]. apply in_list_true, H in E2. done.
  - unfold evaluate_health. cbn [oh_status]. rewrite <- in_list_true.
    destruct (in_list HealthNOT_READY _); [done|]. by destruct (in_list DEGRADED _).
Qed.
End claims.

(** * States that satisfy the hypotheses *)

Module OperationsSample.
#[export] Existing Instance LengthHash.

Definition t0 : datetime := mkdt 2026 3 1 9 0 0 0 (Some 0).
Definition t1 : datetime := mkdt 2026 3 1 10 0 0 0 (Some 0).
Definition campaign : BreakerScope := mkBreakerScope CAMPAIGN "camp-1".
Definition any : string -> bool := fun _ => true.

Definition trigger : IncidentTrigger :=
  mkTrigger COMPLAINT HIGH campaign "resp-1" t0 ["AUTHORITATIVE_COMPLAINT"] None None None None None
    None None true true None None.

(** Fifty-nine members, three of which bounced. *)
Definition members (n : nat) : list string := map (fun i => str_int (Z.of_nat i)) (seq 1 n).
Definition bounces : BounceObservation :=
  mkBounces campaign (members 59) (members 3) "obs-1" t0 None None None None.

Definition bounce_trigger : IncidentTrigger :=
  mkTrigger BOUNCE_RATE HIGH campaign "obs-1" t0 ["STEP1_BOUNCE_RATE_ABOVE_LIMIT"]
    (Some (bounce_rate bounces)) (Some BOUNCE_MAXIMUM_RATE) (Some BOUNCE_BREAKER_VERSION) None None
    None None true true None None.

Definition exhaustion : DeadLetterExhaustion :=
  mkExhaustion COMPANY_RESEARCH "work-1" campaign 5 t0 t1 "TIMEOUT" RETRY_POLICY_VERSION "research"
    "state-1".

Definition control : PolicyControlSnapshot :=
  mkControl "snap-1" 3 POLICY_VERSION ASSISTED None false false None ["research_company"] ["FR"]
    ["fr"] [] "EUR" (mkdec 100 0) 50 t0 None (pad_digits 64 1) t0 "HUMAN" "human:alice" ["setup"].
Definition policy : policy_db := mkpdb [control] ∅.

(** A handler that counts its calls. *)
Definition counting : WorkType -> option (DeadLetterHandler (W := nat)) :=
  fun _ => Some (fun w _ _ => (Ok true, S w)).
End OperationsSample.

Section witnesses.
Import OperationsSample.
#[local] Existing Instance ExactDatabase.

Definition opened : operations_db := run_ops empty_operations_db [OpOpen any trigger].
Definition opened_row : incident_row :=
  match open_incident empty_operations_db any trigger with
  | Ok (row, _, _) => row | Raise _ => incident_of trigger end.

Lemma opened_Ok :
  open_incident empty_operations_db any trigger = Ok (opened_row, false, opened).
Proof. vm_compute. reflexivity. Qed.

Lemma opened_inv : ops_inv opened.
Proof. apply (run_ops_steps empty_operations_db), ops_inv_empty. Qed.

Lemma breaker_holds_until_resolved_witness :
  require_allowed (run_ops opened [OpAcknowledge (incident_ref trigger) t1; OpOpen any trigger])
    [mkBreakerScope CAMPAIGN "camp-2"; campaign]
  = Raise (AcquisitionCircuitOpen "acquisition execution circuit is open").
Proof.
  apply (proj2 (breaker_holds_until_resolved opened
    [mkBreakerScope CAMPAIGN "camp-2"; campaign] opened_inv) (incident_ref trigger) opened_row).
  - vm_compute. reflexivity.
  - vm_compute. discriminate.
  - reflexivity.
  - discriminate.
  - right. apply in_list_true. vm_compute. reflexivity.
  - reflexivity.
Defined.

Lemma open_incident_once_witness :
  exists row', open_incident (run_ops opened [OpResolve (incident_ref trigger) t1]) any trigger
    = Ok (row', true, run_ops opened [OpResolve (incident_ref trigger) t1]).
Proof.
  destruct (open_incident_once empty_operations_db opened any any trigger opened_row false
    [OpResolve (incident_ref trigger) t1] ops_inv_empty opened_Ok) as (_ & _ & row' & H & _).
  exists row'. exact H.
Defined.

Lemma bounce_breaker_exact_witness :
  bounces_validate bounces = Ok bounces
  /\ observe_bounces empty_operations_db any bounces = trip empty_operations_db any bounce_trigger.
Proof.
  split; [vm_compute; reflexivity|].
  rewrite (bounce_breaker_exact empty_operations_db any bounces bounces ltac:(vm_compute; reflexivity)).
  reflexivity.
Defined.

Lemma retry_schedule_witness :
  exists d at_, decide_retry DEFAULT_RETRY_POLICY 2 t0 false = Ok d
    /\ d = mkRetry RETRY (Some at_) /\ instant at_ = instant t0 + 120 * US_SECOND.
Proof.
  pose proof (retry_schedule DEFAULT_RETRY_POLICY DEFAULT_RETRY_POLICY 2 t0 false
    ltac:(vm_compute; reflexivity) eq_refl) as H.
  destruct (decide_retry DEFAULT_RETRY_POLICY 2 t0 false) as [d|e] eqn:E.
  - exists d. cbn [DEFAULT_RETRY_POLICY rp_maximum_attempts] in H.
    change (5 <=? 2) with false in H. cbn match in H. destruct H as (_ & delay & a & Hd & _ & -> & Hi & _).
    exists a. split; [done|]. split; [done|]. rewrite Hi. by injection Hd as <-.
  - exfalso. revert E. vm_compute. discriminate.
Defined.

Definition queued : operations_db := run_ops empty_operations_db [OpEnqueue exhaustion t1].

Lemma queued_inv : ops_inv queued.
Proof. apply (run_ops_steps empty_operations_db), ops_inv_empty. Qed.

Definition requeued_row : dead_letter_row :=
  match requeue (require_requeue_allowed policy) counting queued 0%nat
          (dead_letter_ref exhaustion) t1 with
  | (Ok row, _, _) => row | _ => letter_of exhaustion t1 end.

Lemma requeued_Ok :
  requeue (require_requeue_allowed policy) counting queued 0%nat (dead_letter_ref exhaustion) t1
  = (Ok requeued_row, run_ops queued [OpRequeue (dead_letter_ref exhaustion) t1], 1%nat).
Proof. vm_compute. reflexivity. Qed.

Lemma requeue_guarded_witness : dl_status requeued_row = REQUEUED.
Proof.
  apply (requeue_guarded policy queued _ 0%nat _ counting (dead_letter_ref exhaustion) t1
    (Ok requeued_row) queued_inv requeued_Ok).
Defined.
End witnesses.

Section scaled_witness.
Import OperationsSample.
#[local] Existing Instance ScaledDatabase.

Definition bounce_row : incident_row :=
  match incident_columns (incident_of bounce_trigger) with
  | Ok row => row | Raise _ => incident_of bounce_trigger end.

(** On PostgreSQL: three bounces of fifty-nine, above the limit, whose rate
    does not fit the eight decimals of the column. *)
Lemma inexact_metric_never_opens_witness :
  is_ok (open_incident empty_operations_db any bounce_trigger) = false.
Proof.
  apply (inexact_metric_never_opens empty_operations_db any bounce_trigger bounce_row
    ops_inv_empty (lookup_empty _)); vm_compute; reflexivity.
Defined.

(** The breaker that should trip raises instead, and no incident is left. *)
Theorem bounce_breaker_fails_open :
  observe_bounces empty_operations_db any bounces
  = Raise (OperationsConflict "conflicting replay for observed_value").
Proof. vm_compute. reflexivity. Qed.
End scaled_witness.
