(* ===== verification/SafetyTheorems.v ===== *)
(** SafetyTheorems: the safety controller of SafetyController under every
    interleaving with the other writers of the control history. *)

From S2P Require Import Prelude PyStr PyDatetime PyDatetimeFacts PyDecimal PyJson Database.
From S2P Require Import PolicyContracts PolicyEvaluator PolicyStore.
From S2P Require Import OperationsContracts SafetyController.
From Stdlib Require Import Sorting.Sorted.

Local Open Scope string_scope.
Local Open Scope Z_scope.
Local Open Scope list_scope.

(** * Validation and the columns leave a validated control alone *)

Lemma control_validate_idem c c' : control_validate c = Ok c' -> control_validate c' = Ok c'.
Proof.
  unfold control_validate. intros H. inv_result.
  cbn -[PIdentifier PShortCode PStableRef PFingerprint CommandName Currency checked items opt_mapM
        mapM_result matching interval_ok shadow_contract].
  rewrite_validated.
  repeat match goal with
  | H : interval_ok _ _ = true |- _ => rewrite H; clear H
  | H : shadow_contract _ _ = true |- _ => rewrite H; clear H
  end. done.
Qed.

Section lemmas.
Context `{Hash : HashLib} `{DB : Database}.

(** A validated control without expiry is read back from its row with the
    same modes and switches. *)
Lemma control_read_back c w :
  control_validate c = Ok c -> _control_values c = Ok w -> pc_expires_at c = None ->
  exists c', _control_from_row w = Ok c'
  /\ pc_autonomy_mode c' = pc_autonomy_mode c
  /\ pc_shadow_target_mode c' = pc_shadow_target_mode c
  /\ pc_kill_switch c' = pc_kill_switch c /\ pc_read_only c' = pc_read_only c
  /\ pc_expires_at c' = None /\ pc_control_revision c' = pc_control_revision c.
Proof.
  intros Hc Hw Hexp. unfold _control_values in Hw. inv_result.
  repeat match goal with
  | H : varchar _ _ _ = Ok _ |- _ => apply varchar_Ok in H as [-> _]
  | H : opt_mapM (varchar _ _) _ = Ok _ |- _ => apply opt_varchar_Ok in H as ->
  end.
  assert (Hcap : checked "daily_cost_cap" _finite_nonnegative v3 = Ok v3).
  { apply checked_id. unfold _finite_nonnegative.
    match goal with E : check_constraint "ck_policy_snapshot_cost" _ = Ok _ |- _ =>
      unfold check_constraint in E; by destruct (dec_leb dec_zero v3) end. }
  unfold control_validate in Hc. inv_result. destruct c. cbn in *. injection Hc; intros; subst; clear Hc.
  unfold _control_from_row, control_validate.
  cbn -[PIdentifier PShortCode PStableRef PFingerprint CommandName Currency checked items opt_mapM
        mapM_result matching assume_utc interval_ok shadow_contract] in *.
  repeat match goal with
  | H : ?f ?a = Ok ?a |- context [?f ?a] => rewrite H; clear H; cbn [result_bind]
  | |- context [checked _ aware (assume_utc ?x)] =>
      rewrite (checked_id _ aware (assume_utc x)) by apply aware_assume_utc; cbn [result_bind]
  | |- context [checked _ AcquisitionContracts._aware None] =>
      rewrite (checked_id _ AcquisitionContracts._aware None) by done; cbn [result_bind]
  | H : shadow_contract _ _ = true |- _ => rewrite H; clear H
  end.
  eexists; split; [reflexivity | done].
Qed.

(** ** Interleavings *)

(** Other writers only append, with greater revisions. *)
Definition appends (p p' : policy_db) : Prop :=
  history_ok p' /\ exists l, pdb_controls p' = pdb_controls p ++ l.

Definition others_append (others : nat -> policy_db -> policy_db) : Prop :=
  forall n p, history_ok p -> appends p (others n p).

Lemma StronglySorted_app_lt l l' x y :
  StronglySorted Z.lt (l ++ l') -> x ∈ l -> y ∈ l' -> x < y.
Proof.
  induction l as [|z l IH]; simpl; intros Hs Hx Hy; [by apply not_elem_of_nil in Hx|].
  inversion Hs as [|? ? Hs' Hall]; subst. apply elem_of_cons in Hx as [->|Hx]; [|by apply IH].
  rewrite Forall_forall in Hall. apply Hall. set_solver.
Qed.

(** A history with the same greatest revision is the same history. *)
Lemma appends_same_head p p' :
  appends p p' -> max_revision p <> None -> max_revision p' = max_revision p ->
  pdb_controls p' = pdb_controls p.
Proof.
  intros [Hh [l Hl]] Hsome Hmax. pose proof (max_revision_spec p) as Hp.
  pose proof (max_revision_spec p') as Hp'. rewrite Hmax in Hp'.
  destruct (max_revision p) as [m|]; [|done]. destruct Hp as [Hin _], Hp' as [_ Hall].
  destruct l as [|c l]; [by rewrite app_nil_r in Hl|]. exfalso.
  unfold history_ok, revisions in *. rewrite Hl, map_app in Hh, Hall.
  assert (m < pc_control_revision c) by (eapply StronglySorted_app_lt; [exact Hh | done | simpl; left]).
  rewrite Forall_forall in Hall. specialize (Hall (pc_control_revision c)).
  assert (pc_control_revision c <= m); [|lia]. apply Hall. apply elem_of_app. right. simpl. left.
Qed.

Lemma appends_trans p q r : appends p q -> appends q r -> appends p r.
Proof.
  intros [_ [l Hl]] [Hr [l' Hl']]. split; [done|]. exists (l ++ l'). by rewrite Hl', Hl, app_assoc.
Qed.

Lemma latest_control_max p head :
  get_latest_control p = Ok head -> max_revision p = Some (pc_control_revision head).
Proof.
  unfold get_latest_control. intros H. inv_result. apply newest_Some in Hv as (Hin & _ & Hall).
  apply control_from_row_kept in H as [Hrev _]. rewrite Hrev. pose proof (max_revision_spec p) as Hm.
  destruct (max_revision p) as [m|]; [|rewrite Hm in Hin; by apply not_elem_of_nil in Hin].
  destruct Hm as [Hm1 Hm2]. f_equal. unfold revisions in *.
  apply list_elem_of_fmap in Hm1 as (c & -> & Hc). rewrite Forall_forall in Hall. rewrite Forall_forall in Hm2.
  specialize (Hall c Hc eq_refl). assert (pc_control_revision v <= pc_control_revision c); [|lia].
  apply Hm2. by apply list_elem_of_fmap_2.
Qed.

Lemma effective_controls p p' t :
  pdb_controls p = pdb_controls p' -> get_effective_control p t = get_effective_control p' t.
Proof. intros H. unfold get_effective_control, newest. by rewrite H. Qed.

Lemma effective_aware p t c : get_effective_control p t = Ok c -> aware t = true.
Proof. unfold get_effective_control. intros H. by inv_result. Qed.

Lemma append_if_latest_true p c m p' :
  append_control_if_latest p c (Some m) = Ok (true, p') ->
  max_revision p = Some m /\ insert_control p c = Ok p' /\ pc_control_revision c = m + 1.
Proof.
  unfold append_control_if_latest. destruct (_ || _) eqn:E; [done|]. inv_result.
  rewrite H. apply Z.eqb_eq in H0. rewrite H in H0. destruct (insert_control p c) as [q|[]]; intros Hq;
    by simplify_eq.
Qed.

(** A control without expiry, appended at its own time, is the one in force
    from then on. *)
Lemma appended_in_force p c p' t :
  history_ok p -> control_validate c = Ok c -> aware t = true ->
  pc_effective_at c = t -> pc_expires_at c = None ->
  Forall (fun x => x < pc_control_revision c) (revisions p) ->
  insert_control p c = Ok p' ->
  exists c', get_effective_control p' t = Ok c'
  /\ pc_autonomy_mode c' = pc_autonomy_mode c
  /\ pc_shadow_target_mode c' = pc_shadow_target_mode c
  /\ pc_kill_switch c' = pc_kill_switch c /\ pc_read_only c' = pc_read_only c
  /\ pc_expires_at c' = None /\ pc_control_revision c' = pc_control_revision c.
Proof.
  intros Hh Hc Ht Heff Hexp Hlt H. apply insert_control_Ok in H as (row & Hrow & -> & Hrev & _).
  destruct (control_read_back c row Hc Hrow Hexp) as (c' & Hread & Hkept). exists c'. split; [|done].
  assert (Hin : in_effect t row = true).
  { unfold _control_values in Hrow. inv_result. unfold in_effect. cbn. rewrite Hexp. simpl.
    rewrite andb_true_r. unfold dt_leb. destruct (timestamptz_equiv (pc_effective_at c)) as [_ <-];
      [congruence | apply Z.leb_refl]. }
  unfold get_effective_control. rewrite Ht.
  assert (Hn : newest (in_effect t) (mkpdb (pdb_controls p ++ [row]) (pdb_evaluations p)) = Some row).
  { destruct (newest _ _) as [q|] eqn:E.
    - apply newest_Some in E as (Hq & _ & Hall). simpl in Hq, Hall.
      apply elem_of_app in Hq as [Hq|Hq]; [|by apply list_elem_of_singleton in Hq as ->]. exfalso.
      rewrite Forall_forall in Hall. rewrite Forall_forall in Hlt.
      assert (pc_control_revision q < pc_control_revision c)
        by (apply Hlt; unfold revisions; by apply list_elem_of_fmap_2).
      assert (pc_control_revision row <= pc_control_revision q) by (apply Hall; [set_solver | done]). lia.
    - apply newest_None in E. rewrite Forall_forall in E. simpl in E.
      rewrite (E row) in Hin; [done | set_solver]. }
  rewrite Hn. exact Hread.
Qed.

(** ** One attempt *)

(** What a control has in common with the one in force. *)
Record same_switches (c c' : PolicyControlSnapshot) : Prop := {
  sw_mode : pc_autonomy_mode c' = pc_autonomy_mode c;
  sw_shadow : pc_shadow_target_mode c' = pc_shadow_target_mode c;
  sw_kill : pc_kill_switch c' = pc_kill_switch c;
  sw_read : pc_read_only c' = pc_read_only c;
  sw_expires : pc_expires_at c' = pc_expires_at c;
}.

(** A replacement restricts nothing but what it is given. *)
Record replaces (current r : PolicyControlSnapshot) (target : AutonomyMode) (kill read : bool)
    (t : datetime) : Prop := {
  rp_mode : pc_autonomy_mode r = target;
  rp_shadow : pc_shadow_target_mode r = if bool_decide (target = SHADOW) then Some ASSISTED else None;
  rp_kill : pc_kill_switch r = kill;
  rp_read : pc_read_only r = read;
  rp_expires : pc_expires_at r = None;
  rp_effective : pc_effective_at r = t;
  rp_commands : pc_allowed_commands r = pc_allowed_commands current;
  rp_countries : pc_allowed_countries r = pc_allowed_countries current;
  rp_cost : pc_daily_cost_cap r = pc_daily_cost_cap current;
  rp_volume : pc_daily_volume_cap r = pc_daily_volume_cap current;
  rp_currency : pc_currency r = pc_currency current;
}.

Lemma safer_replaces t reasons current head target kill read r :
  control_validate current = Ok current ->
  control_validate (safer_values t reasons current head target kill read) = Ok r ->
  replaces current r target kill read t /\ pc_control_revision r = pc_control_revision head + 1
  /\ control_validate r = Ok r.
Proof.
  intros Hc Hr. split; [|split; [|by eapply control_validate_idem]].
  2: { unfold control_validate in Hr. inv_result.
       repeat match goal with E : checked _ _ _ = Ok _ |- _ => apply checked_Ok in E as [_ ->] end. done. }
  unfold control_validate in Hc, Hr. inv_result. destruct current. cbn in *.
  injection Hc; intros; subst; clear Hc. cbn in *.
  repeat match goal with
  | E : checked _ _ _ = Ok _ |- _ => apply checked_Ok in E as [_ ->]
  end.
  constructor; cbn; congruence.
Qed.

Lemma effective_validated p t c : get_effective_control p t = Ok c -> control_validate c = Ok c.
Proof.
  unfold get_effective_control, _control_from_row. intros H. inv_result. by eapply control_validate_idem.
Qed.

Lemma append_safer_spec t reasons p1 p2 p3 head current target kill read repl p4 :
  history_ok p1 -> appends p1 p2 -> appends p2 p3 ->
  get_latest_control p1 = Ok head -> get_effective_control p2 t = Ok current ->
  _append_safer t reasons p3 current head target kill read = Ok (repl, p4) ->
  match repl with
  | None => p4 = p3
  | Some r =>
      get_effective_control p3 t = Ok current /\ appends p3 p4
      /\ insert_control p3 r = Ok p4 /\ replaces current r target kill read t
      /\ exists c, get_effective_control p4 t = Ok c /\ same_switches r c
  end.
Proof.
  intros H1 H12 H23 Hhead Hcur. unfold _append_safer. intros H.
  destruct (control_validate _) as [r|] eqn:Er; [|done].
  apply result_bind_Ok in H as ([b q] & Happ & H). cbn match in H. injection H as <- <-.
  destruct H12 as [H2 Hl12]. destruct H23 as [H3 Hl23].
  destruct b; [|by apply append_if_latest_spec in Happ as [_ ?]].
  pose proof (latest_control_max p1 head Hhead) as Hmax1.
  apply append_if_latest_true in Happ as Hins. destruct Hins as (Hmax3 & Hins & _).
  assert (H13 : appends p1 p3) by (apply (appends_trans p1 p2 p3); by split).
  assert (E31 : pdb_controls p3 = pdb_controls p1)
    by (apply appends_same_head; [done | by rewrite Hmax1 | by rewrite Hmax1, Hmax3]).
  assert (E32 : pdb_controls p3 = pdb_controls p2).
  { destruct Hl12 as [l E12], Hl23 as [l' E23]. rewrite E12 in E23.
    rewrite <- app_assoc in E23. rewrite E31 in E23.
    rewrite <- (app_nil_r (pdb_controls p1)) in E23 at 1. apply app_inv_head in E23.
    symmetry in E23. apply app_eq_nil in E23 as [-> _]. by rewrite E31, E12, app_nil_r. }
  rewrite (effective_controls p3 p2 t) by done. split; [done|].
  destruct (safer_replaces t reasons current head target kill read r
    (effective_validated _ _ _ Hcur) Er) as (Hrep & Hrev & Hval).
  assert (Hlt : Forall (fun x => x < pc_control_revision r) (revisions p3)).
  { eapply Forall_impl; [by apply max_revision_history|]. simpl. intros; lia. }
  split; [|split_and!; [done..|]].
  - split; [by eapply insert_control_history|]. apply insert_control_Ok in Hins as (row & _ & -> & _).
    by exists [row].
  - destruct (appended_in_force p3 r q t) as (c & Hc & Hk); try done.
    { by eapply effective_aware. } { apply (rp_effective _ _ _ _ _ _ Hrep). }
    { apply (rp_expires _ _ _ _ _ _ Hrep). }
    exists c. split; [done|]. destruct Hk as (? & ? & ? & ? & ? & ?).
    constructor; try done. by rewrite (rp_expires _ _ _ _ _ _ Hrep).
Qed.
End lemmas.

(** * The claims *)

Definition autonomy_rank (m : AutonomyMode) : Z :=
  match m with SHADOW => 0 | ASSISTED => 1 | AUTONOMOUS_CAPPED => 2 | ADAPTIVE_VOLUME => 3 end.

Section claims.
Context `{Hash : HashLib} `{DB : Database}.

(** How a downgrade ends: the control in force is left, for a reason, or it
    is replaced in one atomic step by the next safer one. *)
Inductive downgraded (t : datetime) (reasons : list string) (c : PolicyControlSnapshot)
    (p : policy_db) : Prop :=
| downgrade_kept :
    get_effective_control p t = Ok c ->
    pc_autonomy_mode c = SHADOW
    \/ (pc_created_by_actor_ref c = SAFETY_CONTROLLER_REF /\ pc_reason_codes c = reasons) ->
    downgraded t reasons c p
| downgrade_replaced before current in_force :
    get_effective_control before t = Ok current -> insert_control before c = Ok p ->
    autonomy_rank (pc_autonomy_mode c) = autonomy_rank (pc_autonomy_mode current) - 1 ->
    replaces current c (_NEXT_SAFER (pc_autonomy_mode current)) (pc_kill_switch current)
      (pc_read_only current) t ->
    get_effective_control p t = Ok in_force -> same_switches c in_force ->
    downgraded t reasons c p.

Lemma downgrade_loop_spec others t reasons attempts n p c p' :
  others_append others -> history_ok p ->
  downgrade_loop others t reasons attempts n p = Ok (c, p') ->
  history_ok p' /\ downgraded t reasons c p'.
Proof.
  intros Ho. revert n p. induction attempts as [|attempts IH]; intros n p Hp H; [done|].
  cbn [downgrade_loop] in H.
  destruct (Ho n p Hp) as [H1 _]. destruct (Ho (S n) _ H1) as [H2 H12].
  set (p1 := others n p) in *. set (p2 := others (S n) p1) in *.
  apply result_bind_Ok in H as (head & Hhead & H). apply result_bind_Ok in H as (current & Hcur & H).
  destruct (_ <? _); [by eapply IH|]. destruct (negb _ && negb _); [done|].
  destruct (bool_decide _ && bool_decide _) eqn:Ealready.
  { inv_result. simplify_eq. split; [done|]. apply downgrade_kept; [done | by right]. }
  case_bool_decide as Esame.
  { inv_result. simplify_eq. split; [done|]. apply downgrade_kept; [done|].
    left. by destruct (pc_autonomy_mode c). }
  destruct (Ho (S (S n)) _ H2) as [H3 H23]. set (p3 := others (S (S n)) p2) in *.
  apply result_bind_Ok in H as ([repl p4] & Happ & H). cbn match in H.
  apply (append_safer_spec t reasons p1 p2 p3 head current) in Happ; [|by try split..].
  destruct repl as [r|]; [|subst p4; by eapply IH].
  injection H as <- <-. destruct Happ as (Hc3 & [H4 _] & Hins & Hrep & in_force & Hf & Hsw).
  split; [done|]. apply (downgrade_replaced t reasons r p4 p3 current in_force); try done.
  rewrite (rp_mode _ _ _ _ _ _ Hrep). by destruct (pc_autonomy_mode current).
Qed.

(** C30 (safety).  Autonomy only ever goes down: under every interleaving
    with writers that append to the history, a successful [downgrade] either
    leaves the control in force - because it is already SHADOW, or because
    the controller set it for the same reasons - or replaces, in one atomic
    step, the control that is in force at that very moment by one exactly
    one rank lower, with the same kill switch, read-only flag, scope and
    caps and without expiry, which is then the control in force. *)
Theorem downgrade_lowers_autonomy (others : nat -> policy_db -> policy_db) (t : datetime)
    (reasons : list string) (p p' : policy_db) (c : PolicyControlSnapshot) :
  others_append others -> history_ok p -> downgrade others t reasons p = Ok (c, p') ->
  history_ok p' /\ downgraded t reasons c p'.
Proof. apply downgrade_loop_spec. Qed.

Lemma exact_stop_iff c :
  _is_exact_critical_stop c = true <->
  pc_autonomy_mode c = SHADOW /\ pc_shadow_target_mode c = Some ASSISTED
  /\ pc_kill_switch c = true /\ pc_read_only c = true /\ pc_expires_at c = None.
Proof.
  unfold _is_exact_critical_stop. rewrite !andb_true_iff, !bool_decide_eq_true, negb_true_iff, truthy_None.
  tauto.
Qed.

Lemma replaces_exact_stop current r t :
  replaces current r SHADOW true true t -> _is_exact_critical_stop r = true.
Proof. intros []. apply exact_stop_iff. done. Qed.

Lemma same_switches_stop r c :
  same_switches r c -> _is_exact_critical_stop r = true -> _is_exact_critical_stop c = true.
Proof. intros [] H. rewrite exact_stop_iff in *. intuition congruence. Qed.

Lemma critical_stop_loop_spec others t reasons attempts n p c p' :
  others_append others -> history_ok p ->
  critical_stop_loop others t reasons attempts n p = Ok (c, p') ->
  _is_exact_critical_stop c = true
  /\ exists in_force, get_effective_control p' t = Ok in_force
     /\ _is_exact_critical_stop in_force = true.
Proof.
  intros Ho. revert n p. induction attempts as [|attempts IH]; intros n p Hp H; [done|].
  cbn [critical_stop_loop] in H.
  destruct (Ho n p Hp) as [H1 _]. destruct (Ho (S n) _ H1) as [H2 H12].
  set (p1 := others n p) in *. set (p2 := others (S n) p1) in *.
  apply result_bind_Ok in H as (head & Hhead & H). apply result_bind_Ok in H as (current & Hcur & H).
  destruct (_ <? _); [by eapply IH|].
  destruct (_is_exact_critical_stop current) eqn:Ex; [inv_result; simplify_eq; eauto|].
  destruct (Ho (S (S n)) _ H2) as [H3 H23]. set (p3 := others (S (S n)) p2) in *.
  apply result_bind_Ok in H as ([repl p4] & Happ & H). cbn match in H.
  apply (append_safer_spec t reasons p1 p2 p3 head current) in Happ; [|by try split..].
  destruct repl as [r|].
  - injection H as <- <-. destruct Happ as (_ & _ & _ & Hrep & in_force & Hf & Hsw).
    apply replaces_exact_stop in Hrep. split; [done|]. exists in_force. split; [done|].
    by eapply same_switches_stop.
  - subst p4. destruct (Ho (S (S (S n))) _ H3) as [H5 _].
    apply result_bind_Ok in H as (winner & Hw & H).
    destruct (_is_exact_critical_stop winner) eqn:Ew; [inv_result; simplify_eq; eauto|].
    by eapply IH.
Qed.

(** C35 (safety).  A critical stop that returns has stopped: under every
    interleaving with appending writers, the control it returns and the one
    in force in the history it leaves are both SHADOW with the kill switch,
    read-only and without expiry. *)
Theorem critical_stop_stops (others : nat -> policy_db -> policy_db) (t : datetime)
    (reasons : list string) (p p' : policy_db) (c : PolicyControlSnapshot) :
  others_append others -> history_ok p -> critical_stop others t reasons p = Ok (c, p') ->
  _is_exact_critical_stop c = true
  /\ exists in_force, get_effective_control p' t = Ok in_force
     /\ _is_exact_critical_stop in_force = true.
Proof. apply critical_stop_loop_spec. Qed.

(** C33 (liveness).  A critical stop succeeds as soon as it is left alone:
    when the other writers append nothing between the statements of the
    first attempt and the replacement is accepted by the table, the call
    returns - the control in force if it already is the exact stop, the
    replacement otherwise - and never a conflict. *)
Theorem critical_stop_uncontended (others : nat -> policy_db -> policy_db) (t : datetime)
    (reasons : list string) (p p' : policy_db) (head current r : PolicyControlSnapshot) :
  (forall n, (n < 3)%nat -> others n p = p) -> get_latest_control p = Ok head ->
  get_effective_control p t = Ok current ->
  control_validate (safer_values t reasons current head SHADOW true true) = Ok r ->
  insert_control p r = Ok p' ->
  critical_stop others t reasons p
  = if _is_exact_critical_stop current then Ok (current, p) else Ok (r, p').
Proof.
  intros Ho Hh Hc Hr Hi. unfold critical_stop. cbn [critical_stop_loop MAX_CONTROL_APPEND_ATTEMPTS].
  rewrite (Ho 0%nat), Hh by lia. cbn [result_bind]. rewrite (Ho 1%nat), Hc by lia. cbn [result_bind].
  pose proof (latest_control_max p head Hh) as Hmax.
  assert (Hle : pc_control_revision current <= pc_control_revision head).
  { apply effective_control_spec in Hc as (row & Hin & _ & _ & Hrow).
    apply control_from_row_kept in Hrow as [-> _].
    apply max_revision_history in Hmax. rewrite Forall_forall in Hmax.
    apply Hmax. unfold revisions. by apply list_elem_of_fmap_2. }
  destruct (Z.ltb_spec (pc_control_revision head) (pc_control_revision current)); [lia|].
  destruct (_is_exact_critical_stop current); [done|]. rewrite (Ho 2%nat) by lia.
  unfold _append_safer. rewrite Hr.
  destruct (safer_replaces t reasons current head SHADOW true true r
    (effective_validated _ _ _ Hc) Hr) as (_ & Hrev & _).
  unfold append_control_if_latest. rewrite Hmax, bool_decide_eq_true_2, Hrev, Z.eqb_refl by done.
  cbn [negb orb]. by rewrite Hi.
Qed.
End claims.

(** * States that satisfy the hypotheses *)

Section rivals.
Context `{DB : Database}.

(** A writer that appends one control before the [k]-th statement. *)
Definition rival (k : nat) (c : PolicyControlSnapshot) (expected : Z) (n : nat) (p : policy_db)
  : policy_db :=
  if (n =? k)%nat then
    match append_control_if_latest p c (Some expected) with Ok (_, q) => q | Raise _ => p end
  else p.

Lemma appends_refl p : history_ok p -> appends p p.
Proof. intros H. split; [done|]. exists []. by rewrite app_nil_r. Qed.

Lemma rival_appends k c expected : others_append (rival k c expected).
Proof.
  intros n p Hp. unfold rival. destruct (n =? k)%nat; [|by apply appends_refl].
  destruct (append_control_if_latest p c (Some expected)) as [[b q]|e] eqn:E; [|by apply appends_refl].
  destruct b.
  - pose proof (append_if_latest_spec _ _ _ _ _ Hp E) as [Hq _]. split; [done|].
    apply append_if_latest_true in E as (_ & Hi & _).
    apply insert_control_Ok in Hi as (row & _ & -> & _). by exists [row].
  - apply append_if_latest_spec in E as [_ ->]; [|done]. by apply appends_refl.
Qed.
End rivals.

Module SafetySample.
#[export] Existing Instance LengthHash.
#[export] Existing Instance ExactDatabase.

Definition t0 : datetime := mkdt 2026 3 1 9 0 0 0 (Some 0).
Definition t1 : datetime := mkdt 2026 3 1 10 0 0 0 (Some 0).

Definition control_at (revision : Z) (mode : AutonomyMode) (id : string) (n : Z)
  : PolicyControlSnapshot :=
  mkControl id revision POLICY_VERSION mode None false false None ["schedule_campaign"] ["FR"]
    ["fr"] [] "EUR" (mkdec 100 0) 50 t0 None (pad_digits 64 n) t0 "HUMAN" "human:alice" ["setup"].

Definition history : policy_db := mkpdb [control_at 3 ADAPTIVE_VOLUME "snap-3" 1] ∅.

(** A rival lowers the mode to ASSISTED while the controller decides. *)
Definition contended : nat -> policy_db -> policy_db :=
  rival 2 (control_at 4 ASSISTED "snap-4" 2) 3.
Definition alone : nat -> policy_db -> policy_db := rival 9 (control_at 4 ASSISTED "snap-4" 2) 3.

Lemma history_is_ok : history_ok history.
Proof. by repeat constructor. Qed.

Definition end_of (r : result (PolicyControlSnapshot * policy_db)) : PolicyControlSnapshot * policy_db :=
  match r with Ok x => x | Raise _ => (control_at 3 ADAPTIVE_VOLUME "snap-3" 1, history) end.

Definition lowered := end_of (downgrade contended t1 ["BOUNCE"] history).
Definition stopped := end_of (critical_stop contended t1 ["TRANSPORT"] history).
Definition stop_control : PolicyControlSnapshot := (end_of (critical_stop alone t1 ["TRANSPORT"] history)).1.
Definition stop_history : policy_db := (end_of (critical_stop alone t1 ["TRANSPORT"] history)).2.
End SafetySample.

Section witnesses.
Import SafetySample.

(** The first attempt loses the race; the second starts from the rival's
    control, so the result is SHADOW and not AUTONOMOUS_CAPPED. *)
Lemma downgrade_lowers_autonomy_witness :
  downgraded t1 ["BOUNCE"] lowered.1 lowered.2 /\ pc_autonomy_mode lowered.1 = SHADOW.
Proof.
  split; [|vm_compute; reflexivity].
  apply (downgrade_lowers_autonomy contended t1 ["BOUNCE"] history lowered.2 lowered.1
    (rival_appends _ _ _) history_is_ok). vm_compute. reflexivity.
Defined.

Lemma critical_stop_stops_witness : _is_exact_critical_stop stopped.1 = true.
Proof.
  apply (critical_stop_stops contended t1 ["TRANSPORT"] history stopped.2 stopped.1
    (rival_appends _ _ _) history_is_ok). vm_compute. reflexivity.
Defined.

Lemma critical_stop_uncontended_witness :
  critical_stop alone t1 ["TRANSPORT"] history = Ok (stop_control, stop_history).
Proof.
  refine (critical_stop_uncontended alone t1 ["TRANSPORT"] history stop_history
    (control_at 3 ADAPTIVE_VOLUME "snap-3" 1) (control_at 3 ADAPTIVE_VOLUME "snap-3" 1) stop_control
    _ _ _ _ _); [|vm_compute; reflexivity..].
  intros n Hn. unfold alone, rival. by destruct (Nat.eqb_spec n 9); [lia|].
Defined.
End witnesses.
