(* ===== verification/Recency.v ===== *)
(** Recency: what the dates of a public award allow to say of it
    ([recency/policy.py]), the sentence each state authorises
    ([recency/claim.py]), and what the customer feed shows and in which order
    ([feed/policy.py], and the part of [feed/query.py] that reads a signal's
    date and preselects candidates by it).

    Texts are UTF-8 bytes.  A date is a calendar date; [days_between a b] is
    Python's [(a - b).days]. *)

From S2P Require Import Prelude PyStr PyDatetime.

Local Open Scope string_scope.
Local Open Scope Z_scope.
Local Open Scope list_scope.

(** * The clocks *)

(** [recency/policy.py:29-29 RECENCY_POLICY_VERSION] *)
Definition RECENCY_POLICY_VERSION : string := "award-recency-v0.3".
(** [recency/policy.py:44-44 RECENT_AWARD_DAYS] *)
Definition RECENT_AWARD_DAYS : Z := 30.
(** [recency/policy.py:47-47 AGING_AWARD_DAYS] *)
Definition AGING_AWARD_DAYS : Z := 60.
(** [recency/policy.py:50-50 RECENT_PUBLICATION_DAYS] *)
Definition RECENT_PUBLICATION_DAYS : Z := 30.
(** [recency/policy.py:53-53 RECENT_NOTIFICATION_DAYS] *)
Definition RECENT_NOTIFICATION_DAYS : Z := 30.
(** [recency/policy.py:59-59 PUBLICATION_TOLERANCE_DAYS] *)
Definition PUBLICATION_TOLERANCE_DAYS : Z := 1.
(** [recency/policy.py:66-66 IMPLAUSIBLE_AWARD_AGE_DAYS] *)
Definition IMPLAUSIBLE_AWARD_AGE_DAYS : Z := 3650.

(** [recency/policy.py:74-82 AwardRecencyStatus] *)
Inductive AwardRecencyStatus : Type :=
| recent_award | aging_award | stale_award | recently_notified_contract
| recently_published_award | award_date_unknown | invalid_award_date.

#[export] Instance AwardRecencyStatus_eq_dec : EqDecision AwardRecencyStatus.
Proof. solve_decision. Defined.

(** The literal of each status. *)
#[export] Program Instance AwardRecencyStatus_enum : StrEnum AwardRecencyStatus := {|
  se_value s :=
    match s with
    | recent_award => "recent_award"
    | aging_award => "aging_award"
    | stale_award => "stale_award"
    | recently_notified_contract => "recently_notified_contract"
    | recently_published_award => "recently_published_award"
    | award_date_unknown => "award_date_unknown"
    | invalid_award_date => "invalid_award_date"
    end;
  se_all := [recent_award; aging_award; stale_award; recently_notified_contract;
             recently_published_award; award_date_unknown; invalid_award_date];
|}.
Next Obligation. solve_se_complete. Qed.
Next Obligation. solve_se_inj. Qed.

(** [recency/policy.py:89-89 ClockStatus] *)
Inductive ClockStatus : Type :=
| ClockRecent | ClockAging | ClockStale | ClockUnknown | ClockInvalid.

#[export] Instance ClockStatus_eq_dec : EqDecision ClockStatus.
Proof. solve_decision. Defined.

(** [recency/policy.py:100-107 ClockAssessment] *)
Record ClockAssessment : Type := mkClock {
  ca_clock : string;
  ca_status : ClockStatus;
  ca_date : option date;
  ca_age_days : option Z;
  ca_reason : string;
}.

(** [recency/policy.py:109-111 ClockAssessment.is_recent] *)
Definition is_recent (c : ClockAssessment) : bool := bool_decide (ca_status c = ClockRecent).

(** [recency/policy.py:113-116 ClockAssessment.is_dated] *)
Definition is_dated (c : ClockAssessment) : bool :=
  match ca_status c with ClockRecent | ClockAging | ClockStale => true | _ => false end.

(** [recency/policy.py:183-248 _assess_clock]; every caller leaves
    [tolerance_days] to its default. *)
Definition _assess_clock (clock : string) (value : option date) (as_of : date)
    (recent_days aging_days : Z) (not_after : option date) : ClockAssessment :=
  match value with
  | None =>
      mkClock clock ClockUnknown None None
        ("aucune date de " +:+ clock +:+ " publiée par la source")
  | Some value =>
      let age := days_between as_of value in
      if age <? 0 then
        mkClock clock ClockInvalid (Some value) (Some age)
          ("date de " +:+ clock +:+ " dans le futur (" +:+ date_isoformat value +:+ ")")
      else if IMPLAUSIBLE_AWARD_AGE_DAYS <? age then
        mkClock clock ClockInvalid (Some value) (Some age)
          ("âge invraisemblable : " +:+ str_int age +:+ " jours (" +:+ date_isoformat value +:+ ")")
      else if match not_after with
              | Some n => PUBLICATION_TOLERANCE_DAYS <? days_between value n
              | None => false
              end then
        mkClock clock ClockInvalid (Some value) (Some age)
          ("date de " +:+ clock +:+ " postérieure à sa propre publication de "
           +:+ str_int (match not_after with Some n => days_between value n | None => 0 end)
           +:+ " jours")
      else
        let status := if age <=? recent_days then ClockRecent
                      else if age <=? aging_days then ClockAging else ClockStale in
        mkClock clock status (Some value) (Some age)
          ("date de " +:+ clock +:+ " il y a " +:+ str_int age +:+ " jours")
  end.

(** [recency/policy.py:254-271 _primary_status] *)
Definition _primary_status (award notification publication : ClockAssessment)
  : AwardRecencyStatus * string :=
  if is_recent award then (recent_award, ca_reason award)
  else if is_recent notification then (recently_notified_contract, ca_reason notification)
  else match ca_status award with
  | ClockAging => (aging_award, ca_reason award)
  | ClockStale => (stale_award, ca_reason award)
  | ClockInvalid => (invalid_award_date, ca_reason award)
  | _ =>
      if is_recent publication then (recently_published_award, ca_reason publication)
      else (award_date_unknown, "aucune horloge exploitable")
  end.

(** [recency/policy.py:124-147 AwardRecency] *)
Record AwardRecency : Type := mkRecency {
  ar_status : AwardRecencyStatus;
  ar_reason : string;
  ar_policy_version : string;
  ar_award_clock : ClockAssessment;
  ar_notification_clock : ClockAssessment;
  ar_publication_clock : ClockAssessment;
  ar_award_date : option date;
  ar_contract_notification_date : option date;
  ar_publication_date : option date;
  ar_discovered_at : option date;
  ar_award_age_days : option Z;
  ar_notification_age_days : option Z;
  ar_publication_age_days : option Z;
  ar_publication_delay_days : option Z;
  ar_notification_delay_days : option Z;
  ar_discovery_delay_from_publication : option Z;
  ar_discovery_delay_from_award : option Z;
}.

(** [(a - b).days if a and b else None]; a date is always true. *)
Definition delay (a b : option date) : option Z :=
  match a, b with Some a, Some b => Some (days_between a b) | _, _ => None end.

(** [recency/policy.py:274-355 assess_recency] *)
Definition assess_recency_with (recent_award_days aging_award_days recent_publication_days
    recent_notification_days : Z)
    (award_date contract_notification_date publication_date discovered_at : option date)
    (as_of : date) : AwardRecency :=
  let award := _assess_clock "award" award_date as_of recent_award_days aging_award_days
                 publication_date in
  let notification := _assess_clock "notification" contract_notification_date as_of
                        recent_notification_days aging_award_days None in
  let publication := _assess_clock "publication" publication_date as_of
                       recent_publication_days aging_award_days None in
  let '(status, reason) := _primary_status award notification publication in
  mkRecency status reason RECENCY_POLICY_VERSION award notification publication
    award_date contract_notification_date publication_date discovered_at
    (ca_age_days award) (ca_age_days notification) (ca_age_days publication)
    (delay publication_date award_date) (delay publication_date contract_notification_date)
    (delay discovered_at publication_date) (delay discovered_at award_date).

(** [recency/policy.py:281-284 assess_recency]: the thresholds every caller
    of the package leaves to their defaults. *)
Definition assess_recency : option date -> option date -> option date -> option date -> date ->
    AwardRecency :=
  assess_recency_with RECENT_AWARD_DAYS AGING_AWARD_DAYS RECENT_PUBLICATION_DAYS
    RECENT_NOTIFICATION_DAYS.

(** [recency/policy.py:120-120 CLAIMABLE_JUST_WON] *)
Definition CLAIMABLE_JUST_WON : list AwardRecencyStatus := [recent_award].

(** [recency/policy.py:158-161 AwardRecency.may_claim_just_won] *)
Definition may_claim_just_won (r : AwardRecency) : bool := in_list (ar_status r) CLAIMABLE_JUST_WON.

(** [recency/policy.py:163-171 AwardRecency.is_datable] *)
Definition is_datable (r : AwardRecency) : bool :=
  in_list (ar_status r) [recent_award; aging_award; stale_award].

(** [recency/policy.py:173-175 AwardRecency.is_notification_dated] *)
Definition is_notification_dated (r : AwardRecency) : bool := is_dated (ar_notification_clock r).

(** [recency/policy.py:177-180 AwardRecency.has_recent_notification] *)
Definition has_recent_notification (r : AwardRecency) : bool := is_recent (ar_notification_clock r).

(** [recency/policy.py:149-156 AwardRecency.clocks] *)
Definition clocks (r : AwardRecency) (clock : string) : option ClockAssessment :=
  if bool_decide (clock = "award") then Some (ar_award_clock r)
  else if bool_decide (clock = "notification") then Some (ar_notification_clock r)
  else if bool_decide (clock = "publication") then Some (ar_publication_clock r)
  else None.

(** * The sentence *)

(** [recency/claim.py:21-28 JUST_WON_MARKERS] *)
Definition JUST_WON_MARKERS : list string :=
  ["vient de remporter"; "vient de gagner"; "a remporté"; "has recently won"; "just won"; "has won"].

(** [recency/claim.py:30-30 LANGUAGES] *)
Definition LANGUAGES : list string := ["fr"; "en"].

(** [recency/claim.py:35-67 CLAIM_TEMPLATES] *)
Definition CLAIM_TEMPLATES : list (string * list (string * string)) :=
  [("recent_award",
     [("fr", "{company} vient de remporter un marché public.");
      ("en", "{company} has recently won a public contract.")]);
   ("aging_award",
     [("fr", "{company} figure comme attributaire d'un marché public attribué récemment.");
      ("en", "{company} is named as the awardee of a recently attributed public contract.")]);
   ("stale_award",
     [("fr", "{company} figure comme attributaire d'un marché public déjà attribué.");
      ("en", "{company} is named as the awardee of an already attributed public contract.")]);
   ("recently_notified_contract",
     [("fr", "Un marché attribué à {company} vient d'être notifié.");
      ("en", "A public contract awarded to {company} has recently been notified.")]);
   ("recently_published_award",
     [("fr", "Une attribution concernant {company} vient d'être publiée.");
      ("en", "An award notice concerning {company} has recently been published.")]);
   ("award_date_unknown",
     [("fr", "Un avis d'attribution mentionne {company}, sans date de décision publiée.");
      ("en", "An award notice names {company}, with no published decision date.")]);
   ("invalid_award_date",
     [("fr", "Un avis d'attribution mentionne {company} ; la date publiée est incohérente.");
      ("en", "An award notice names {company}; the published date is inconsistent.")])].

Definition assoc {A} (k : string) (l : list (string * A)) : option A :=
  snd <$> List.find (fun p => bool_decide (p.1 = k)) l.

(** [template.format(company=company)] for a template whose only braces are
    those of [{company}]. *)
Fixpoint format_company (template company : string) {struct template} : string :=
  match template with
  | EmptyString => EmptyString
  | String c rest =>
      if String.prefix "{company}" template then company +:+ format_rest 8 rest company
      else String c (format_company rest company)
  end
with format_rest (skip : nat) (template company : string) {struct template} : string :=
  match template with
  | EmptyString => EmptyString
  | String c rest =>
      match skip with
      | S n => format_rest n rest company
      | O => if String.prefix "{company}" template then company +:+ format_rest 8 rest company
             else String c (format_company rest company)
      end
  end.

(** [recency/claim.py:70-78 claim_for_status]: the template it formats. *)
Definition claim_template (status lang : string) : result string :=
  require! in_list lang LANGUAGES else ValueError ("langue non prise en charge : " +:+ lang) in
  match assoc status CLAIM_TEMPLATES ≫= assoc lang with
  | Some template => Ok template
  | None => Raise (ValueError ("statut de fraîcheur inconnu : " +:+ status))
  end.

(** [recency/claim.py:70-78 claim_for_status] *)
Definition claim_for_status (status company lang : string) : result string :=
  let! template := claim_template status lang in
  Ok (format_company template company).

(** [recency/claim.py:81-87 claim_for] *)
Definition claim_for (recency : AwardRecency) (company lang : string) : result string :=
  claim_for_status (se_value (ar_status recency)) company lang.

(** [recency/claim.py:101-107 _EVENT_TYPE_BY_STATUS] *)
Definition _EVENT_TYPE_BY_STATUS : list (string * string) :=
  [("recent_award", "RECENT_AWARD");
   ("recently_notified_contract", "RECENTLY_NOTIFIED_CONTRACT");
   ("recently_published_award", "RECENTLY_PUBLISHED_AWARD");
   ("award_date_unknown", "RECENTLY_PUBLISHED_AWARD");
   ("invalid_award_date", "RECENTLY_PUBLISHED_AWARD")].

(** [recency/claim.py:110-119 mvp_event_type] *)
Definition mvp_event_type (status : string) : result (option string) :=
  require! truthy (assoc status CLAIM_TEMPLATES)
    else ValueError ("statut de fraîcheur inconnu : " +:+ status) in
  Ok (assoc status _EVENT_TYPE_BY_STATUS).

(** * The feed *)

(** [feed/policy.py:25-25 FRESHNESS_MODES] *)
Definition FRESHNESS_MODES : list string := ["new"; "recent_or_aging"; "all"].

(** [feed/policy.py:29-33 NEW_OPPORTUNITY_STATUSES] *)
Definition NEW_OPPORTUNITY_STATUSES : list string :=
  ["recent_award"; "recently_notified_contract"; "recently_published_award"].

(** [feed/policy.py:36-36 AGING_STATUSES] *)
Definition AGING_STATUSES : list string := ["aging_award"].

(** [feed/policy.py:44-48 HISTORY_ONLY_STATUSES] *)
Definition HISTORY_ONLY_STATUSES : list string :=
  ["stale_award"; "award_date_unknown"; "invalid_award_date"].

(** [feed/policy.py:50-56 _STATUSES_BY_FRESHNESS] *)
Definition _STATUSES_BY_FRESHNESS : list (string * option (list string)) :=
  [("new", Some NEW_OPPORTUNITY_STATUSES);
   ("recent_or_aging", Some (NEW_OPPORTUNITY_STATUSES ++ AGING_STATUSES));
   ("all", None)].

(** [feed/policy.py:61-69 STATUS_RANK] *)
Definition STATUS_RANK : list (string * Z) :=
  [("recent_award", 0); ("recently_notified_contract", 1); ("recently_published_award", 2);
   ("aging_award", 3); ("stale_award", 4); ("invalid_award_date", 5); ("award_date_unknown", 6)].

(** [feed/policy.py:72-80 STATUS_CLOCK] *)
Definition STATUS_CLOCK : list (string * string) :=
  [("recent_award", "award"); ("aging_award", "award"); ("stale_award", "award");
   ("invalid_award_date", "award"); ("recently_notified_contract", "notification");
   ("recently_published_award", "publication"); ("award_date_unknown", "publication")].

(** [feed/policy.py:96-100 statuses_for] *)
Definition statuses_for (freshness : string) : result (option (list string)) :=
  option_to_result (ValueError ("mode de fraîcheur inconnu : " +:+ freshness))
    (assoc freshness _STATUSES_BY_FRESHNESS).

(** [feed/policy.py:103-116 candidate_window_days] *)
Definition candidate_window_days (freshness : string) : option Z :=
  if bool_decide (freshness = "new") then Some RECENT_AWARD_DAYS
  else if bool_decide (freshness = "recent_or_aging") then Some AGING_AWARD_DAYS
  else None.

(** [feed/policy.py:141-148 customer_event_type] *)
Definition customer_event_type (status : string) : option string :=
  assoc status
    [("recent_award", "recent_award");
     ("recently_notified_contract", "recently_notified_contract");
     ("recently_published_award", "recently_published_award")].

(** [feed/policy.py:151-153 rank_of] *)
Definition rank_of (status : string) : Z := default (zlength STATUS_RANK) (assoc status STATUS_RANK).

(** [feed/policy.py:168-170 fit_band] *)
Definition fit_band (band : option string) : string :=
  match band with
  | Some b => if in_list b ["strong"; "promising"; "weak"] then b else "unknown"
  | None => "unknown"
  end.

(** * A signal of the feed *)

(** [feed/query.py:205-215 FeedSignal], with the keys of the [StoredSignal]
    the modelled code reads. *)
Record FeedSignal : Type := mkFeedSignal {
  fs_signal_key : string;
  fs_opportunity_key : string;
  fs_recency : AwardRecency;
}.

(** [feed/query.py:217-219 FeedSignal.status] *)
Definition fs_status (s : FeedSignal) : string := se_value (ar_status (fs_recency s)).

(** [feed/query.py:221-225 FeedSignal.event_date] *)
Definition event_date (s : FeedSignal) : option date :=
  match assoc (fs_status s) STATUS_CLOCK with
  | Some clock => clocks (fs_recency s) clock ≫= ca_date
  | None => None
  end.

(** [feed/query.py:227-239 FeedSignal.sort_key] *)
Definition sort_key (s : FeedSignal) : Z * Z * string :=
  (rank_of (fs_status s),
   match event_date s with Some d => - toordinal d | None => 1 end,
   fs_signal_key s).

(** [as_of - timedelta(days=days)] *)
Definition date_minus (d : date) (days : Z) : result date :=
  let n := toordinal d - days in
  if (0 <? n) && (n <=? MAXORDINAL) then
    let '(y, m, d') := ord2ymd n in Ok (mkdate y m d')
  else Raise OverflowError.

(** A date column compared with a bound; a comparison with NULL does not
    hold. *)
Definition column_from (column : option date) (floor : date) : bool :=
  match column with Some d => toordinal floor <=? toordinal d | None => false end.

(** [feed/query.py:433-440 _date_window]: the condition on the three dates
    of a row. *)
Definition _date_window (as_of : date) (days : Z) (award notification published : option date)
  : result bool :=
  let! floor := date_minus as_of days in
  Ok (column_from award floor || column_from notification floor || column_from published floor).

(** [feed/query.py:619-621 feed_page]: the rows of a freshness mode that
    the query keeps. *)
Definition preselected (freshness : string) (as_of : date)
    (award notification published : option date) : result bool :=
  match candidate_window_days freshness with
  | Some window => _date_window as_of window award notification published
  | None => Ok true
  end.

(** [feed/query.py:702-705 feed_page]: the statuses the page keeps. *)
Definition admitted (freshness : string) (s : FeedSignal) : result bool :=
  let! statuses := statuses_for freshness in
  Ok match statuses with Some l => in_list (fs_status s) l | None => true end.
