(* ===== verification/RecencyTheorems.v ===== *)
(** RecencyTheorems: what each recency status says of the dates, when the
    authorised sentence claims a victory, and what the feed's preselection by
    date may drop. *)

From S2P Require Import Prelude PyStr PyDatetime PyDatetimeFacts Recency.
From Stdlib Require Import Ascii String.

Local Open Scope string_scope.
Local Open Scope Z_scope.
Local Open Scope list_scope.

(** * The clocks *)

Section clocks.
Variable as_of : date.

Definition age (d : date) : Z := days_between as_of d.

(** The date of a decision, of a notification or of a publication is
    plausible when it is not in the future, not ten years old, and not after
    the publication of the notice it is read from. *)
Definition plausible (not_after : option date) (d : date) : Prop :=
  0 <= age d <= IMPLAUSIBLE_AWARD_AGE_DAYS
  /\ forall p, not_after = Some p -> days_between d p <= PUBLICATION_TOLERANCE_DAYS.

Variant clock_spec (recent aging : Z) (not_after value : option date)
  : ClockStatus -> option date -> Prop :=
| clock_unknown : value = None -> clock_spec recent aging not_after value ClockUnknown None
| clock_invalid d : value = Some d -> ~ plausible not_after d ->
    clock_spec recent aging not_after value ClockInvalid (Some d)
| clock_recent d : value = Some d -> plausible not_after d -> age d <= recent ->
    clock_spec recent aging not_after value ClockRecent (Some d)
| clock_aging d : value = Some d -> plausible not_after d -> recent < age d <= aging ->
    clock_spec recent aging not_after value ClockAging (Some d)
| clock_stale d : value = Some d -> plausible not_after d ->
    Z.max recent aging < age d <= IMPLAUSIBLE_AWARD_AGE_DAYS ->
    clock_spec recent aging not_after value ClockStale (Some d).

Lemma clockP clock value recent aging not_after :
  clock_spec recent aging not_after value
    (ca_status (_assess_clock clock value as_of recent aging not_after))
    (ca_date (_assess_clock clock value as_of recent aging not_after)).
Proof.
  destruct value as [d|]; [|by constructor]. unfold _assess_clock. fold (age d).
  destruct (Z.ltb_spec (age d) 0).
  { constructor; [done|]. unfold plausible. lia. }
  destruct (Z.ltb_spec IMPLAUSIBLE_AWARD_AGE_DAYS (age d)).
  { constructor; [done|]. unfold plausible. lia. }
  destruct (match not_after with Some n => _ | None => false end) eqn:Hafter.
  { constructor; [done|]. intros [_ Hp]. destruct not_after as [p|]; [|done].
    apply Z.ltb_lt in Hafter. specialize (Hp p eq_refl). lia. }
  assert (plausible not_after d).
  { split; [lia|]. intros p ->. by apply Z.ltb_ge in Hafter. }
  simpl. destruct (Z.leb_spec (age d) recent); [by constructor|].
  destruct (Z.leb_spec (age d) aging); constructor; auto; lia.
Qed.
End clocks.

(** * The status *)

(** The company's decision, its notification, the notice are recent. *)
Definition recent_decision (award publication : option date) (as_of : date) : Prop :=
  exists d, award = Some d /\ plausible as_of publication d /\ age as_of d <= RECENT_AWARD_DAYS.
Definition recent_act (value : option date) (days : Z) (as_of : date) : Prop :=
  exists d, value = Some d /\ 0 <= age as_of d <= days.

Lemma recent_clock clock value days aging as_of :
  days <= IMPLAUSIBLE_AWARD_AGE_DAYS ->
  is_recent (_assess_clock clock value as_of days aging None) = true
  <-> recent_act value days as_of.
Proof.
  intros Hb. unfold is_recent, recent_act. rewrite bool_decide_eq_true.
  assert (Hplain : forall d, plausible as_of None d <->
    0 <= age as_of d <= IMPLAUSIBLE_AWARD_AGE_DAYS) by (unfold plausible; naive_solver).
  destruct (clockP as_of clock value days aging None) as [E|d E Hp|d E Hp Ha|d E Hp Ha|d E Hp Ha];
    try (rewrite Hplain in Hp);
    (split; [intros Hs; first [done|exists d; split; first [done|lia]]
            |intros (d' & E' & Ha'); simplify_eq; first [done|exfalso; lia]]).
Qed.

(** What a status says of the dates: at each line the earlier ones do not
    hold. *)
Definition status_says (award notification publication : option date) (as_of : date)
    (s : AwardRecencyStatus) : Prop :=
  let decision (lo hi : Z) :=
    exists d, award = Some d /\ plausible as_of publication d /\ lo < age as_of d <= hi in
  let fresh := recent_decision award publication as_of in
  let notified := recent_act notification RECENT_NOTIFICATION_DAYS as_of in
  match s with
  | recent_award => fresh
  | recently_notified_contract => ~ fresh /\ notified
  | aging_award => ~ notified /\ decision RECENT_AWARD_DAYS AGING_AWARD_DAYS
  | stale_award => ~ notified /\ decision AGING_AWARD_DAYS IMPLAUSIBLE_AWARD_AGE_DAYS
  | invalid_award_date =>
      ~ notified /\ exists d, award = Some d /\ ~ plausible as_of publication d
  | recently_published_award =>
      ~ notified /\ award = None /\ recent_act publication RECENT_PUBLICATION_DAYS as_of
  | award_date_unknown =>
      ~ notified /\ award = None /\ ~ recent_act publication RECENT_PUBLICATION_DAYS as_of
  end.

Lemma status_says_unique award notification publication as_of s s' :
  status_says award notification publication as_of s ->
  status_says award notification publication as_of s' -> s = s'.
Proof.
  unfold status_says, recent_decision, recent_act, RECENT_AWARD_DAYS, AGING_AWARD_DAYS.
  destruct s, s'; intros; destruct_and?; try done; exfalso; naive_solver lia.
Qed.

(** The status a signal is put forward with is exactly the
    first that holds, in this order: a plausible decision of at most thirty
    days; a notification of at most thirty days; a plausible decision of 31 to
    60 days, or older; a decision date that is not plausible; a notice of at
    most thirty days; nothing.  So an old decision never hides a fresh
    notification, and a missing decision date never becomes one. *)
Theorem status_of_dates award notification publication discovered as_of s :
  ar_status (assess_recency award notification publication discovered as_of) = s
  <-> status_says award notification publication as_of s.
Proof.
  assert (Hs : status_says award notification publication as_of
    (ar_status (assess_recency award notification publication discovered as_of))).
  { unfold assess_recency, assess_recency_with, _primary_status.
    pose proof (recent_clock "notification" notification RECENT_NOTIFICATION_DAYS AGING_AWARD_DAYS
      as_of ltac:(done)) as Hn.
    pose proof (recent_clock "publication" publication RECENT_PUBLICATION_DAYS AGING_AWARD_DAYS
      as_of ltac:(done)) as Hp.
    destruct (is_recent (_assess_clock "notification" _ _ _ _ _)),
      (is_recent (_assess_clock "publication" _ _ _ _ _)); unfold is_recent;
      destruct (clockP as_of "award" award RECENT_AWARD_DAYS AGING_AWARD_DAYS publication);
      unfold status_says, recent_decision, RECENT_AWARD_DAYS, AGING_AWARD_DAYS in *;
      simpl; naive_solver lia. }
  split; [by intros <-|]. intros H. by eapply status_says_unique.
Qed.

(** * The sentence *)

Definition lower (c : ascii) : ascii := if is_upper c then chr (code c + 32) else c.
Fixpoint folded (s : string) : string :=
  match s with EmptyString => EmptyString | String c s' => String (lower c) (folded s') end.
Fixpoint contains (m s : string) : bool :=
  String.prefix m s || match s with EmptyString => false | String _ s' => contains m s' end.

(** The text claims a victory. *)
Definition claims_victory (text : string) : bool :=
  existsb (fun m => contains m (folded text)) JUST_WON_MARKERS.

Definition template_checked (s : AwardRecencyStatus) (lang : string) : bool :=
  match claim_template (se_value s) lang with
  | Ok template => Bool.eqb (claims_victory template) (bool_decide (s = recent_award))
  | Raise _ => false
  end.

Lemma templates_checked : forallb (fun s => forallb (template_checked s) LANGUAGES) se_all = true.
Proof. vm_compute. reflexivity. Qed.

Lemma template_known (s : AwardRecencyStatus) lang : lang ∈ LANGUAGES ->
  exists template, claim_template (se_value s) lang = Ok template
    /\ claims_victory template = bool_decide (s = recent_award).
Proof.
  intros Hl. pose proof templates_checked as H. rewrite forallb_forall in H.
  specialize (H s (proj1 (list_elem_of_In _ _) (se_all_complete s))). rewrite forallb_forall in H.
  specialize (H lang (proj1 (list_elem_of_In _ _) Hl)). unfold template_checked in H.
  destruct (claim_template _ _) as [template|] eqn:E; [|done].
  exists template. split; [done|]. by apply Bool.eqb_prop.
Qed.

(** C36 (safety).  The sentence shown for a signal exists in both languages
    and claims a victory exactly when the source publishes a decision date
    that is between today and thirty days old and at most one day after the
    notice: no notification, publication or discovery date, and no decision
    date that is too old, in the future or later than its own notice, ever
    yields "just won". *)
Theorem just_won_exactly award notification publication discovered as_of company lang :
  lang ∈ LANGUAGES ->
  let r := assess_recency award notification publication discovered as_of in
  let just_won := recent_decision award publication as_of in
  (may_claim_just_won r = true <-> just_won)
  /\ exists template, claim_for r company lang = Ok (format_company template company)
       /\ (claims_victory template = true <-> just_won).
Proof.
  intros Hl r just_won.
  assert (Hs : ar_status r = recent_award <-> just_won) by apply status_of_dates.
  split.
  - unfold may_claim_just_won, CLAIMABLE_JUST_WON. rewrite in_list_true, list_elem_of_singleton.
    apply Hs.
  - destruct (template_known (ar_status r) lang Hl) as (template & Ht & Hv).
    exists template. unfold claim_for, claim_for_status. rewrite Ht, Hv, bool_decide_eq_true.
    by split.
Qed.

(** * The feed *)

Lemma date_ok_toordinal d : date_ok d = true -> 1 <= toordinal d <= MAXORDINAL.
Proof.
  destruct d as [y m d]. unfold date_ok, ymd_ok, toordinal, ymd2ord. simpl. intros Hd. inv_result.
  assert (Hyear : 0 <= days_before_month y m
    /\ days_before_month y m + d <= if is_leap y then 366 else 365).
  { unfold days_before_month, days_in_month in *.
    assert (Hm : m = 1 \/ m = 2 \/ m = 3 \/ m = 4 \/ m = 5 \/ m = 6 \/ m = 7 \/ m = 8 \/ m = 9
      \/ m = 10 \/ m = 11 \/ m = 12) by lia.
    destruct (is_leap y); destruct_or! Hm; subst; vm_compute days_before_month_common;
      simpl in *; lia. }
  assert (Hleap : is_leap y = true -> y <= 9996).
  { unfold is_leap. intros. inv_result. assert (y mod 4 = 0) by lia.
    pose proof (Z.div_mod y 4 ltac:(lia)). lia. }
  unfold days_before_year, MAXORDINAL.
  pose proof (Z.div_mod (y - 1) 4 ltac:(lia)). pose proof (Z.mod_pos_bound (y - 1) 4 ltac:(lia)).
  pose proof (Z.div_mod (y - 1) 100 ltac:(lia)). pose proof (Z.mod_pos_bound (y - 1) 100 ltac:(lia)).
  pose proof (Z.div_mod (y - 1) 400 ltac:(lia)). pose proof (Z.mod_pos_bound (y - 1) 400 ltac:(lia)).
  destruct (is_leap y); [|lia]. specialize (Hleap eq_refl). lia.
Qed.

Lemma date_minus_spec d days : date_ok d = true -> days < toordinal d -> 0 <= days ->
  exists floor, date_minus d days = Ok floor /\ toordinal floor = toordinal d - days.
Proof.
  intros Hd Hlt H0. unfold date_minus.
  assert (toordinal d <= MAXORDINAL) by (by apply date_ok_toordinal).
  destruct (Z.ltb_spec 0 (toordinal d - days)); [|lia].
  destruct (Z.leb_spec (toordinal d - days) MAXORDINAL); [|lia].
  destruct (ord2ymd_spec (toordinal d - days)) as (y & m & dd & E & Ho & _); [lia|].
  simpl. rewrite E. eexists. split; [done|]. unfold toordinal. simpl. by rewrite Ho.
Qed.

(** The date that decides a status. *)
Lemma event_date_of_status key opp award notification publication discovered as_of :
  let r := assess_recency award notification publication discovered as_of in
  event_date (mkFeedSignal key opp r) =
    match ar_status r with
    | recently_notified_contract => notification
    | recently_published_award | award_date_unknown => publication
    | _ => award
    end.
Proof.
  simpl. unfold event_date, fs_status. simpl.
  assert (Hd : forall clock value recent aging na,
    ca_date (_assess_clock clock value as_of recent aging na) = value)
    by (intros; destruct value; [|done]; unfold _assess_clock; by repeat case_match).
  destruct (ar_status _); simpl; unfold clocks, assess_recency, assess_recency_with;
    destruct (_primary_status _ _ _); simpl; by rewrite Hd.
Qed.

Lemma column_from_spec as_of floor w d : toordinal floor = toordinal as_of - w ->
  days_between as_of d <= w -> column_from (Some d) floor = true.
Proof. intros Hf Hd. unfold days_between in Hd. simpl. lia. Qed.

(** The statuses a mode of the feed admits. *)
Lemma admitted_new key opp r : admitted "new" (mkFeedSignal key opp r) = Ok true <->
  ar_status r = recent_award \/ ar_status r = recently_notified_contract
  \/ ar_status r = recently_published_award.
Proof. unfold admitted, fs_status. simpl. destruct (ar_status r); vm_compute; naive_solver. Qed.

Lemma admitted_aging key opp r : admitted "recent_or_aging" (mkFeedSignal key opp r) = Ok true <->
  ar_status r = recent_award \/ ar_status r = recently_notified_contract
  \/ ar_status r = recently_published_award \/ ar_status r = aging_award.
Proof. unfold admitted, fs_status. simpl. destruct (ar_status r); vm_compute; naive_solver. Qed.

(** The date the customer reads on a signal that a freshness
    mode admits is between today and the mode's window old, so the
    preselection by date in the query never drops a signal the mode admits
    (the window cannot start before the calendar). *)
Theorem feed_window_necessary freshness w key opp award notification publication discovered as_of :
  candidate_window_days freshness = Some w -> date_ok as_of = true -> w < toordinal as_of ->
  let s := mkFeedSignal key opp
             (assess_recency award notification publication discovered as_of) in
  admitted freshness s = Ok true ->
  (exists d, event_date s = Some d /\ 0 <= days_between as_of d <= w)
  /\ preselected freshness as_of award notification publication = Ok true.
Proof.
  intros Hw Hok Hfloor s Hadm.
  assert (Hd : exists d, event_date s = Some d /\ 0 <= days_between as_of d <= w).
  { unfold s. rewrite event_date_of_status.
    pose proof (proj1 (status_of_dates award notification publication discovered as_of _) eq_refl)
      as Hs.
    unfold candidate_window_days in Hw.
    destruct (bool_decide_reflect (freshness = "new")) as [->|];
      [apply admitted_new in Hadm|destruct (bool_decide_reflect (freshness = "recent_or_aging"))
        as [->|]; [apply admitted_aging in Hadm|done]]; simplify_eq;
      destruct (ar_status _); simpl in Hs; unfold recent_decision, recent_act, plausible, age,
        RECENT_AWARD_DAYS, AGING_AWARD_DAYS, RECENT_NOTIFICATION_DAYS, RECENT_PUBLICATION_DAYS in *;
      destruct_or? Hadm; try done; naive_solver lia. }
  split; [done|]. destruct Hd as (d & He & Hd). unfold s in He.
  rewrite event_date_of_status in He.
  unfold preselected, _date_window. rewrite Hw.
  destruct (date_minus_spec as_of w) as (floor & -> & Ho); [done..| |].
  { unfold candidate_window_days in Hw. repeat case_match; by simplify_eq. }
  cbn [result_bind]. f_equal. rewrite !orb_true_iff.
  assert (Hcol : column_from (Some d) floor = true)
    by (apply (column_from_spec as_of floor w); [done|lia]).
  destruct (ar_status _); rewrite He; auto.
Qed.

(** * States that satisfy the hypotheses *)

Definition day (m d : Z) : date := mkdate 2026 m d.

(** A decision of ninety days ago, notified yesterday. *)
Example just_won_exactly_witness :
  "en" ∈ LANGUAGES
  /\ let r := assess_recency (Some (day 5 1)) (Some (day 7 29)) (Some (day 7 30)) None (day 7 30) in
     ar_status r = recently_notified_contract
     /\ (may_claim_just_won r = true
         <-> recent_decision (Some (day 5 1)) (Some (day 7 30)) (day 7 30))
     /\ exists template,
          claim_for r "Kivou SA" "en" = Ok (format_company template "Kivou SA")
          /\ (claims_victory template = true
              <-> recent_decision (Some (day 5 1)) (Some (day 7 30)) (day 7 30)).
Proof.
  assert (Hl : "en" ∈ LANGUAGES) by (apply in_list_true; vm_compute; reflexivity).
  split; [exact Hl|]. split; [vm_compute; reflexivity|].
  exact (just_won_exactly (Some (day 5 1)) (Some (day 7 29)) (Some (day 7 30)) None (day 7 30)
    "Kivou SA" "en" Hl).
Defined.

Example feed_window_necessary_witness :
  let s := mkFeedSignal "s1" "o1"
             (assess_recency (Some (day 6 5)) None (Some (day 7 1)) None (day 7 30)) in
  admitted "recent_or_aging" s = Ok true
  /\ (exists d, event_date s = Some d /\ 0 <= days_between (day 7 30) d <= 60)
  /\ preselected "recent_or_aging" (day 7 30) (Some (day 6 5)) None (Some (day 7 1)) = Ok true.
Proof.
  intros s. assert (Ha : admitted "recent_or_aging" s = Ok true) by (vm_compute; reflexivity).
  split; [exact Ha|].
  apply (feed_window_necessary "recent_or_aging" 60 "s1" "o1" (Some (day 6 5)) None (Some (day 7 1))
    None (day 7 30)); [reflexivity|vm_compute; reflexivity|vm_compute; reflexivity|exact Ha].
Defined.

(** The sentence of the notified contract speaks of the contract. *)
Example claim_of_notified :
  claim_for (assess_recency (Some (day 5 1)) (Some (day 7 29)) (Some (day 7 30)) None (day 7 30))
    "Kivou SA" "en"
  = Ok "A public contract awarded to Kivou SA has recently been notified.".
Proof. vm_compute. reflexivity. Qed.
