(* ===== verification/BillingCatalogue.v ===== *)
(** BillingCatalogue: the plans and their entitlements
    ([billing/catalogue.py]), the history window and the magnitude bands of
    the paywall ([billing/paywall.py]) and who may see a signal
    ([billing/access.py]). *)

From S2P Require Import Prelude PyStr PyDatetime PyDecimal PyJson Recency.

Local Open Scope string_scope.
Local Open Scope Z_scope.
Local Open Scope list_scope.

(** * The catalogue *)

(** [billing/catalogue.py:31-31 PLAN_CODES] *)
Definition PLAN_CODES : list string := ["discovery"; "essential"; "pro"].
(** [billing/catalogue.py:36-36 PURCHASABLE_PLANS] *)
Definition PURCHASABLE_PLANS : list string := ["essential"; "pro"].
(** [billing/catalogue.py:40-40 CURRENCIES] *)
Definition CURRENCIES : list string := ["chf"; "eur"].
(** [billing/catalogue.py:42-42 SALES_CURRENCIES] *)
Definition SALES_CURRENCIES : list string := ["eur"].
(** [billing/catalogue.py:55-55 FOUNDING_MAXIMUM_ACCOUNTS] *)
Definition FOUNDING_MAXIMUM_ACCOUNTS : Z := 5.
(** [billing/catalogue.py:57-57 FOUNDING_PLAN_CODE] *)
Definition FOUNDING_PLAN_CODE : string := "pro".
(** [billing/catalogue.py:63-63 DISCOVERY_GRANT_LIMIT] *)
Definition DISCOVERY_GRANT_LIMIT : Z := 3.

(** [billing/catalogue.py:71-94 PlanEntitlements] *)
Record PlanEntitlements : Type := mkPlanEntitlements {
  pe_plan_code : string;
  pe_max_active_icps : Z;
  pe_history_days : option Z;
  pe_territory_mode : string;
  pe_max_territories_per_icp : option Z;
  pe_feed_access : bool;
  pe_detail_access : bool;
  pe_evidence_access : bool;
  pe_filter_level : string;
  pe_export_level : string;
  pe_alert_cadence : string;
  pe_recommended : bool;
  pe_granted_signals : Z;
}.

(** [billing/catalogue.py:96-98 PlanEntitlements.is_paid] *)
Definition is_paid (p : PlanEntitlements) : bool := in_list (pe_plan_code p) PURCHASABLE_PLANS.

(** [billing/catalogue.py:100-102 PlanEntitlements.has_unlimited_history] *)
Definition has_unlimited_history (p : PlanEntitlements) : bool := negb (truthy (pe_history_days p)).

(** [billing/catalogue.py:105-120 DISCOVERY] *)
Definition DISCOVERY : PlanEntitlements :=
  mkPlanEntitlements "discovery" 1 (Some 0) "single" (Some 1) true true true "minimum" "none"
    "weekly" false DISCOVERY_GRANT_LIMIT.

(** [billing/catalogue.py:122-134 ESSENTIAL] *)
Definition ESSENTIAL : PlanEntitlements :=
  mkPlanEntitlements "essential" 1 (Some 30) "single" (Some 1) true true true "basic" "none"
    "weekly" false 0.

(** [billing/catalogue.py:136-149 PRO] *)
Definition PRO : PlanEntitlements :=
  mkPlanEntitlements "pro" 3 (Some 365) "multiple" None true true true "advanced" "manual"
    "daily" true 0.

(** [billing/catalogue.py:151-153 PLANS] *)
Definition PLANS : list (string * PlanEntitlements) :=
  map (fun p => (pe_plan_code p, p)) [DISCOVERY; ESSENTIAL; PRO].

(** [billing/catalogue.py:157-160 MONTHLY_MINOR_UNITS] *)
Definition MONTHLY_MINOR_UNITS : list (string * list (string * Z)) :=
  [("essential", [("chf", 4900); ("eur", 4900)]); ("pro", [("chf", 9900); ("eur", 9900)])].

(** [billing/catalogue.py:165-168 LOOKUP_KEYS] *)
Definition LOOKUP_KEYS : list (string * list (string * string)) :=
  map (fun plan =>
    (plan, map (fun currency => (currency, "kivou_" +:+ plan +:+ "_monthly_" +:+ currency))
             CURRENCIES)) PURCHASABLE_PLANS.

(** [billing/catalogue.py:175-175 PLAN_ORDER] *)
Definition PLAN_ORDER : list string := ["essential"; "pro"].

(** [tuple.index]. *)
Fixpoint index_of (x : string) (l : list string) : option Z :=
  match l with
  | [] => None
  | y :: l' => if bool_decide (x = y) then Some 0 else Z.succ <$> index_of x l'
  end.

(** [billing/catalogue.py:178-182 plan_rank] *)
Definition plan_rank (plan_code : string) : result Z :=
  option_to_result (UnknownPlan plan_code) (index_of plan_code PLAN_ORDER).

(** [billing/catalogue.py:201-209 entitlements_for] *)
Definition entitlements_for (plan_code : option string) : PlanEntitlements :=
  match plan_code with
  | None => DISCOVERY
  | Some code => default DISCOVERY (assoc code PLANS)
  end.

(** [billing/catalogue.py:212-218 lookup_key_for] *)
Definition lookup_key_for (plan_code currency : string) : result string :=
  require! in_list plan_code PURCHASABLE_PLANS else UnknownPlan plan_code in
  require! in_list currency CURRENCIES else UnknownCurrency currency in
  option_to_result (KeyError plan_code) (assoc plan_code LOOKUP_KEYS ≫= assoc currency).

(** [billing/catalogue.py:221-224 amount_for] *)
Definition amount_for (plan_code currency : string) : result Z :=
  let! _ := lookup_key_for plan_code currency in
  option_to_result (KeyError plan_code) (assoc plan_code MONTHLY_MINOR_UNITS ≫= assoc currency).

(** [billing/catalogue.py:229-231 _BY_LOOKUP_KEY] *)
Definition _BY_LOOKUP_KEY : list (string * (string * string)) :=
  flat_map (fun '(plan, keys) => map (fun '(currency, key) => (key, (plan, currency))) keys)
    LOOKUP_KEYS.

(** [billing/catalogue.py:234-242 plan_for_lookup_key] *)
Definition plan_for_lookup_key (lookup_key : option string) : option (string * string) :=
  lookup_key ≫= fun key => assoc key _BY_LOOKUP_KEY.

Definition opt_int (o : option Z) : json := opt_json JInt o.

(** [billing/catalogue.py:266-281 customer_safe_entitlements] *)
Definition customer_safe_entitlements (plan : PlanEntitlements) : json :=
  JObj [("max_active_icps", JInt (pe_max_active_icps plan));
        ("history_days", opt_int (pe_history_days plan));
        ("history_scope", JStr (if has_unlimited_history plan then "all_available" else "window"));
        ("territory_mode", JStr (pe_territory_mode plan));
        ("max_territories_per_icp", opt_int (pe_max_territories_per_icp plan));
        ("feed_access", JBool (pe_feed_access plan));
        ("detail_access", JBool (pe_detail_access plan));
        ("evidence_access", JBool (pe_evidence_access plan));
        ("filter_level", JStr (pe_filter_level plan));
        ("export_level", JStr (pe_export_level plan));
        ("alert_cadence", JStr (pe_alert_cadence plan));
        ("granted_signals", JInt (pe_granted_signals plan))].

(** [billing/catalogue.py:245-263 public_catalogue] *)
Definition public_catalogue : list json :=
  map (fun plan =>
    let prices := default [] (assoc (pe_plan_code plan) MONTHLY_MINOR_UNITS) in
    JObj [("plan_code", JStr (pe_plan_code plan));
          ("purchasable", JBool (in_list (pe_plan_code plan) PURCHASABLE_PLANS));
          ("recommended", JBool (pe_recommended plan));
          ("monthly_price",
             JObj (map (fun '(currency, amount) =>
                     (currency, JObj [("amount_minor_units", JInt amount);
                                      ("currency", JStr currency)]))
                   (List.filter (fun p => in_list p.1 SALES_CURRENCIES)
                     (sorted_by (fun a b => string_leb a.1 b.1) prices))));
          ("entitlements", customer_safe_entitlements plan)])
    [DISCOVERY; ESSENTIAL; PRO].

(** * The paywall *)

(** [billing/paywall.py:41-46 _MAGNITUDE_BANDS] *)
Definition _MAGNITUDE_BANDS : list (decimal * string) :=
  [(dec_of_Z 50000, "under_50k"); (dec_of_Z 250000, "50k_250k");
   (dec_of_Z 1000000, "250k_1m"); (dec_of_Z 5000000, "1m_5m")].

(** [billing/paywall.py:50-57 magnitude_band] *)
Definition magnitude_band (amount : option decimal) : option string :=
  amount ≫= fun amount =>
    Some match List.find (fun p => dec_ltb amount p.1) _MAGNITUDE_BANDS with
         | Some (_, label) => label
         | None => "over_5m"
         end.

(** [billing/paywall.py:189-204 within_history_window] *)
Definition within_history_window (item : FeedSignal) (history_days : option Z) (as_of : date)
  : bool :=
  match history_days with
  | None => true
  | Some history_days =>
      match event_date item with
      | None => false
      | Some date => days_between as_of date <=? history_days
      end
  end.

(** * Access *)

(** [billing/access.py:31-31 FILTER_RANK] *)
Definition FILTER_RANK : list (string * Z) := [("minimum", 0); ("basic", 1); ("advanced", 2)].

(** [billing/access.py:35-51 FILTER_REQUIREMENTS] *)
Definition FILTER_REQUIREMENTS : list (string * string) :=
  [("target_icp_id", "minimum"); ("freshness", "minimum"); ("date_from", "minimum");
   ("date_to", "minimum"); ("country", "basic"); ("subdivision_code", "basic");
   ("status", "basic"); ("primary_event", "basic"); ("cpv_prefix", "basic");
   ("winner", "advanced"); ("min_amount", "basic"); ("q", "basic")].

Definition filter_rank (level : string) : Z := default 0 (assoc level FILTER_RANK).
Definition filter_requirement (name : string) : string :=
  default "minimum" (assoc name FILTER_REQUIREMENTS).

(** [billing/access.py:69-77 check_filters]: the request is the names of the
    filters with whether each has a value. *)
Fixpoint check_filters (entitlements : PlanEntitlements) (requested : list (string * bool))
  : result unit :=
  match requested with
  | [] => Ok tt
  | (name, present) :: requested' =>
      if present && (filter_rank (pe_filter_level entitlements)
                     <? filter_rank (filter_requirement name))
      then Raise (BillingError "filter_not_entitled" name)
      else check_filters entitlements requested'
  end.

(** [billing/access.py:80-84 filter_is_available] *)
Definition filter_is_available (entitlements : PlanEntitlements) (filter_name : string) : bool :=
  filter_rank (filter_requirement filter_name) <=? filter_rank (pe_filter_level entitlements).

(** [billing/access.py:88-100 FeedAccess] *)
Record FeedAccess : Type := mkFeedAccess {
  fa_plan_code : string;
  fa_entitlements : PlanEntitlements;
  fa_granted : gset string;
  fa_as_of : date;
}.

(** [billing/access.py:106-118 FeedAccess.is_unlocked] *)
Definition is_unlocked (access : FeedAccess) (item : FeedSignal) : bool :=
  if bool_decide (fs_signal_key item ∈ fa_granted access) then true
  else if negb (is_paid (fa_entitlements access)) then false
  else within_history_window item (pe_history_days (fa_entitlements access)) (fa_as_of access).

(** [billing/access.py:120-129 FeedAccess.as_plan] *)
Definition as_plan (access : FeedAccess) (plan_code : string) : FeedAccess :=
  mkFeedAccess plan_code (entitlements_for (Some plan_code)) (fa_granted access) (fa_as_of access).

(** [billing/access.py:132-151 eligible_upgrade_plans] *)
Definition eligible_upgrade_plans (item : FeedSignal) (access : FeedAccess) : list string :=
  if is_unlocked access item then []
  else List.filter (fun plan => is_unlocked (as_plan access plan) item) PURCHASABLE_PLANS.
