(* ===== verification/BillingStore.v ===== *)
(** BillingStore: the billing tables ([billing/schema.py]), what Kivou reads
    of Stripe's objects ([billing/gateway.py]), and the synchronisation of a
    subscription with the rights it opens ([billing/service.py]).

    The tables are kept by the column the source constrains to be unique:
    customers, subscriptions and checkout attempts by account, webhook events
    by Stripe's event id.  An operation returns its answer with the tables
    after it; a [Raise] rolls the transaction back.  The random part of an
    identifier is an argument. *)

From S2P Require Import Prelude PyStr PyDatetime PyJson Database Recency BillingCatalogue.

Local Open Scope string_scope.
Local Open Scope Z_scope.
Local Open Scope list_scope.

(** * Stripe's objects *)

(** [billing/gateway.py:67-77 StripePrice] *)
Record StripePrice : Type := mkPrice {
  pr_price_id : string;
  pr_product_id : option string;
  pr_lookup_key : option string;
  pr_currency : string;
  pr_unit_amount : option Z;
  pr_recurring_interval : option string;
  pr_livemode : bool;
  pr_active : bool;
}.

(** [billing/gateway.py:81-83 StripeCustomer] *)
Record StripeCustomer : Type := mkStripeCustomer { sc_customer_id : string; sc_livemode : bool }.

(** [billing/gateway.py:87-118 StripeSubscriptionState] *)
Record StripeSubscriptionState : Type := mkState {
  st_subscription_id : string;
  st_customer_id : string;
  st_status : string;
  st_price_id : option string;
  st_product_id : option string;
  st_lookup_key : option string;
  st_currency : option string;
  st_current_period_start : option datetime;
  st_current_period_end : option datetime;
  st_cancel_at_period_end : bool;
  st_canceled_at : option datetime;
  st_livemode : bool;
  st_account_id : option string;
  st_discount_coupon_id : option string;
  st_scheduled_cancellation_at : option datetime;
}.

(** [billing/gateway.py:122-134 StripeScheduledChange] *)
Record StripeScheduledChange : Type := mkScheduled {
  sg_schedule_id : string;
  sg_lookup_key : option string;
  sg_currency : option string;
  sg_effective_at : option datetime;
  sg_livemode : bool;
}.

(** [billing/gateway.py:158-166 StripeEvent] *)
Record StripeEvent : Type := mkEvent {
  ev_event_id : string;
  ev_event_type : string;
  ev_created : datetime;
  ev_livemode : bool;
  ev_object_id : option string;
  ev_data_object : dict;
}.

(** [isinstance(v, str)] and [isinstance(v, dict)]. *)
Definition as_str (j : json) : option string := match j with JStr s => Some s | _ => None end.
Definition as_dict (j : json) : option dict := match j with JObj d => Some d | _ => None end.

(** [billing/gateway.py:168-194 StripeEvent.subscription_id] *)
Definition subscription_id (e : StripeEvent) : option string :=
  let data := ev_data_object e in
  if startswith (ev_event_type e) "customer.subscription." then as_str (dict_get "id" data)
  else
    match dict_get "subscription" data with
    | JStr subscription => Some subscription
    | JObj subscription => as_str (dict_get "id" subscription)
    | _ =>
        as_dict (dict_get "parent" data) ≫= fun parent =>
        as_dict (dict_get "subscription_details" parent) ≫= fun details =>
        as_str (dict_get "subscription" details)
    end.

(** A non-empty string. *)
Definition nonempty_str (j : json) : option string :=
  as_str j ≫= fun s => if nonempty s then Some s else None.

(** [billing/gateway.py:196-208 StripeEvent.account_reference] *)
Definition account_reference (e : StripeEvent) : option string :=
  match nonempty_str (dict_get "client_reference_id" (ev_data_object e)) with
  | Some reference => Some reference
  | None =>
      as_dict (dict_get "metadata" (ev_data_object e)) ≫= fun metadata =>
      nonempty_str (dict_get "kivou_account_id" metadata)
  end.

(** * Tables *)

(** [billing/schema.py:49-49 PAYING_STATUSES] *)
Definition PAYING_STATUSES : list string := ["active"].
(** [billing/schema.py:60-60 TERMINAL_STATUSES] *)
Definition TERMINAL_STATUSES : list string := ["canceled"; "incomplete_expired"].

(** [billing/schema.py:63-71 is_open_subscription] *)
Definition is_open_subscription (status : string) : bool := negb (in_list status TERMINAL_STATUSES).

(** An account with its users, oldest first. *)
Record account_row : Type := mkAccount {
  ac_display_name : string;
  ac_user_emails : list string;
}.

(** [billing/schema.py:95-111 billing_customer] *)
Record customer_row : Type := mkCustomer {
  cu_stripe_customer_id : string;
  cu_livemode : bool;
  cu_created_at : datetime;
  cu_updated_at : datetime;
}.

(** [billing/schema.py:114-165 billing_subscription] *)
Record subscription_row : Type := mkSubscription {
  sub_billing_subscription_id : string;
  sub_account_id : string;
  sub_stripe_subscription_id : string;
  sub_stripe_customer_id : string;
  sub_stripe_price_id : option string;
  sub_stripe_product_id : option string;
  sub_plan_code : option string;
  sub_offer_code : option string;
  sub_currency : option string;
  sub_status : string;
  sub_current_period_start : option datetime;
  sub_current_period_end : option datetime;
  sub_cancel_at_period_end : bool;
  sub_canceled_at : option datetime;
  sub_scheduled_cancellation_at : option datetime;
  sub_last_stripe_event_created_at : option datetime;
  sub_scheduled_plan_code : option string;
  sub_scheduled_plan_change_at : option datetime;
  sub_stripe_schedule_id : option string;
  sub_plan_change_sequence : Z;
  sub_livemode : bool;
  sub_created_at : datetime;
  sub_updated_at : datetime;
}.

(** [billing/schema.py:168-185 stripe_webhook_event] *)
Record webhook_event_row : Type := mkWebhookEvent {
  we_event_type : string;
  we_stripe_object_id : option string;
  we_livemode : bool;
  we_stripe_created_at : datetime;
  we_payload_hash : string;
  we_processed_at : datetime;
  we_processing_result : string;
  we_detail : option string;
}.

(** [billing/schema.py:188-207 discovery_signal_grant] *)
Record grant_row : Type := mkGrant {
  gr_granted_at : datetime;
  gr_opportunity_key : string;
}.

(** [billing/schema.py:227-254 billing_checkout_attempt] *)
Record attempt_row : Type := mkAttempt {
  at_attempt_id : string;
  at_plan_code : string;
  at_currency : string;
  at_stripe_checkout_session_id : option string;
  at_status : string;
  at_expires_at : datetime;
  at_created_at : datetime;
  at_updated_at : datetime;
}.

(** [accounts/schema.py:175-201 target_icp]: the columns billing reads or
    writes.  [ti_territories] is the [territories] of the stored
    [customer_input], [None] when it does not validate. *)
Record target_icp_row : Type := mkIcp {
  ti_account_id : string;
  ti_status : string;
  ti_territories : option (list string);
  ti_plan_limit_code : option string;
  ti_plan_limited_at : option datetime;
  ti_created_at : datetime;
  ti_updated_at : datetime;
}.

Record billing_db : Type := mkbdb {
  bdb_accounts : gmap string account_row;
  bdb_customers : gmap string customer_row;
  bdb_subscriptions : gmap string subscription_row;
  bdb_events : gmap string webhook_event_row;
  bdb_grants : gmap (string * string) grant_row;
  bdb_attempts : gmap string attempt_row;
  bdb_icps : gmap string target_icp_row;
  (** The promised signal of an account ([account_landing_signal]). *)
  bdb_landing : gmap string string;
}.

Definition with_customers db m :=
  mkbdb (bdb_accounts db) m (bdb_subscriptions db) (bdb_events db) (bdb_grants db)
    (bdb_attempts db) (bdb_icps db) (bdb_landing db).
Definition with_subscriptions db m :=
  mkbdb (bdb_accounts db) (bdb_customers db) m (bdb_events db) (bdb_grants db)
    (bdb_attempts db) (bdb_icps db) (bdb_landing db).
Definition with_events db m :=
  mkbdb (bdb_accounts db) (bdb_customers db) (bdb_subscriptions db) m (bdb_grants db)
    (bdb_attempts db) (bdb_icps db) (bdb_landing db).
Definition with_grants db m :=
  mkbdb (bdb_accounts db) (bdb_customers db) (bdb_subscriptions db) (bdb_events db) m
    (bdb_attempts db) (bdb_icps db) (bdb_landing db).
Definition with_attempts db m :=
  mkbdb (bdb_accounts db) (bdb_customers db) (bdb_subscriptions db) (bdb_events db)
    (bdb_grants db) m (bdb_icps db) (bdb_landing db).
Definition with_icps db m :=
  mkbdb (bdb_accounts db) (bdb_customers db) (bdb_subscriptions db) (bdb_events db)
    (bdb_grants db) (bdb_attempts db) m (bdb_landing db).

(** A column of a table holds the value. *)
Definition some_row {K R} `{Countable K} (p : K -> R -> bool) (m : gmap K R) : bool :=
  existsb (fun '(k, r) => p k r) (map_to_list m).

(** A foreign key to [account]. *)
Definition account_exists (db : billing_db) (account_id : string) : result unit :=
  check_constraint "account_id" (truthy (bdb_accounts db !! account_id)).

(** * The stored subscription *)

(** [billing/service.py:105-128 StoredSubscription] *)
Record StoredSubscription : Type := mkStored {
  ss_account_id : string;
  ss_stripe_subscription_id : string;
  ss_stripe_customer_id : string;
  ss_plan_code : option string;
  ss_offer_code : option string;
  ss_currency : option string;
  ss_status : string;
  ss_current_period_start : option datetime;
  ss_current_period_end : option datetime;
  ss_cancel_at_period_end : bool;
  ss_canceled_at : option datetime;
  ss_scheduled_cancellation_at : option datetime;
  ss_last_stripe_event_created_at : option datetime;
  ss_scheduled_plan_code : option string;
  ss_scheduled_plan_change_at : option datetime;
  ss_stripe_schedule_id : option string;
  ss_plan_change_sequence : Z;
  ss_livemode : bool;
}.

(** [x in names] for a value that may be None. *)
Definition opt_in (o : option string) (l : list string) : bool :=
  match o with Some x => in_list x l | None => false end.

(** [billing/service.py:130-138 StoredSubscription.is_open] *)
Definition is_open (s : StoredSubscription) : bool := is_open_subscription (ss_status s).

(** [billing/service.py:140-149 StoredSubscription.grants_paid_access] *)
Definition grants_paid_access (s : StoredSubscription) : bool :=
  in_list (ss_status s) PAYING_STATUSES && opt_in (ss_plan_code s) PURCHASABLE_PLANS.

(** [billing/service.py:179-184 aware_datetime] *)
Definition aware_datetime (value : option datetime) : option datetime := assume_utc <$> value.

(** [billing/service.py:283-303 _stored] *)
Definition _stored (row : subscription_row) : StoredSubscription :=
  mkStored (sub_account_id row) (sub_stripe_subscription_id row) (sub_stripe_customer_id row)
    (sub_plan_code row) (sub_offer_code row) (sub_currency row) (sub_status row)
    (aware_datetime (sub_current_period_start row)) (aware_datetime (sub_current_period_end row))
    (sub_cancel_at_period_end row) (aware_datetime (sub_canceled_at row))
    (aware_datetime (sub_scheduled_cancellation_at row))
    (aware_datetime (sub_last_stripe_event_created_at row))
    (sub_scheduled_plan_code row) (aware_datetime (sub_scheduled_plan_change_at row))
    (sub_stripe_schedule_id row) (sub_plan_change_sequence row) (sub_livemode row).

(** [billing/service.py:268-280 current_subscription] *)
Definition current_subscription (db : billing_db) (account_id : string)
  : option StoredSubscription := _stored <$> bdb_subscriptions db !! account_id.

(** [billing/service.py:195-200 stripe_customer_id] *)
Definition stripe_customer_id (db : billing_db) (account_id : string) : option string :=
  cu_stripe_customer_id <$> bdb_customers db !! account_id.

Definition py_bool (b : bool) : string := if b then "True" else "False".

(** [billing/service.py:251-262 require_stripe_mode] *)
Definition require_stripe_mode (livemode expected : bool) (kind : string) : result unit :=
  if Bool.eqb livemode expected then Ok tt
  else Raise (BillingError "stripe_mode_mismatch"
    ("objet Stripe " +:+ kind +:+ " en livemode=" +:+ py_bool livemode
     +:+ " alors que le mode configuré attend livemode=" +:+ py_bool expected)).

(** [billing/service.py:306-315 resolve_plan] *)
Definition resolve_plan (state : StripeSubscriptionState) : option string * option string :=
  match plan_for_lookup_key (st_lookup_key state) with
  | None => (None, st_currency state)
  | Some (plan, currency) => (Some plan, Some currency)
  end.

(** [billing/service.py:82-101 BillingSubscriptionConflict] *)
Definition BillingSubscriptionConflict (account_id current incoming : string) : exn :=
  BillingError "billing_subscription_conflict"
    ("le compte " +:+ account_id +:+ " porte déjà l'abonnement " +:+ current +:+ " ; "
     +:+ incoming +:+ " arrive sans que le premier soit terminé").

(** [accounts/service.py:760-798 reconcile_territory_plan_limits]: one row. *)
Definition reconcile_icp (timestamp : datetime -> datetime) (max_territories : option Z)
    (now : datetime) (row : target_icp_row) : result (bool * target_icp_row) :=
  let! territories := option_to_result (ValidationError "customer_input") (ti_territories row) in
  let exceeds := bool_decide (ti_status row = "active")
    && match max_territories with
       | Some n => n <? zlength (remove_dups territories)
       | None => false
       end in
  let code := if exceeds then Some "territory_limit_exceeded" else None in
  if bool_decide (ti_plan_limit_code row = code) then Ok (exceeds, row)
  else Ok (exceeds, mkIcp (ti_account_id row) (ti_status row) (ti_territories row) code
                      (if exceeds then Some (timestamp now) else None)
                      (ti_created_at row) (timestamp now)).

Section store.
Context `{DB : Database}.

Fixpoint reconcile_rows (max_territories : option Z) (now : datetime)
    (rows : list (string * target_icp_row)) (icps : gmap string target_icp_row)
  : result (list string * gmap string target_icp_row) :=
  match rows with
  | [] => Ok ([], icps)
  | (target_icp_id, row) :: rows' =>
      let! (exceeds, row') := reconcile_icp timestamptz max_territories now row in
      let! (limited, icps') :=
        reconcile_rows max_territories now rows' (<[target_icp_id := row']> icps) in
      Ok ((if exceeds then [target_icp_id] else []) ++ limited, icps')
  end.

(** [accounts/service.py:760-798 reconcile_territory_plan_limits] *)
Definition reconcile_territory_plan_limits (db : billing_db) (account_id : string)
    (max_territories : option Z) (now : datetime) : result (list string * billing_db) :=
  let rows := List.filter (fun p => bool_decide (ti_account_id p.2 = account_id))
                (map_to_list (bdb_icps db)) in
  let! (limited, icps) := reconcile_rows max_territories now rows (bdb_icps db) in
  Ok (limited, with_icps db icps).

(** [billing/service.py:428-441 _reconcile_target_icp_territories] *)
Definition _reconcile_target_icp_territories (db : billing_db) (stored : StoredSubscription)
    (now : datetime) : result (list string * billing_db) :=
  let effective_plan := if grants_paid_access stored then ss_plan_code stored
                        else Some "discovery" in
  reconcile_territory_plan_limits db (ss_account_id stored)
    (pe_max_territories_per_icp (entitlements_for effective_plan)) now.

(** [billing/service.py:363-391 synchronize_subscription]: the row with the
    values written over [base], which is the row to update or a new one. *)
Definition subscription_values (base : subscription_row) (state : StripeSubscriptionState)
    (account_id : string) (plan_code offer_code currency : option string)
    (event_created_at : option datetime) (clear_announced : bool) (now : datetime)
  : result subscription_row :=
  let! sid := varchar "stripe_subscription_id" 128 (st_subscription_id state) in
  let! cid := varchar "stripe_customer_id" 128 (st_customer_id state) in
  let! price := opt_mapM (varchar "stripe_price_id" 128) (st_price_id state) in
  let! product := opt_mapM (varchar "stripe_product_id" 128) (st_product_id state) in
  let! cur := opt_mapM (varchar "currency" 3) currency in
  let! status := varchar "status" 32 (st_status state) in
  Ok (mkSubscription (sub_billing_subscription_id base) account_id sid cid price product plan_code
        offer_code cur status
        (timestamptz <$> st_current_period_start state)
        (timestamptz <$> st_current_period_end state)
        (st_cancel_at_period_end state) (timestamptz <$> st_canceled_at state)
        (timestamptz <$> st_scheduled_cancellation_at state)
        (timestamptz <$> event_created_at)
        (if clear_announced then None else sub_scheduled_plan_code base)
        (if clear_announced then None else sub_scheduled_plan_change_at base)
        (if clear_announced then None else sub_stripe_schedule_id base)
        (sub_plan_change_sequence base) (st_livemode state)
        (sub_created_at base) (timestamptz now)).

(** [billing/service.py:395-397 synchronize_subscription]: the columns an
    insert does not name. *)
Definition new_row (billing_subscription_id : string) (now : datetime) : subscription_row :=
  mkSubscription billing_subscription_id "" "" "" None None None None None "" None None false None
    None None None None None 0 false (timestamptz now) (timestamptz now).

(** An insert into [billing_subscription] with its constraints. *)
Definition insert_subscription (db : billing_db) (row : subscription_row) : result billing_db :=
  let! _ := varchar "billing_subscription_id" 64 (sub_billing_subscription_id row) in
  let! _ := account_exists db (sub_account_id row) in
  let! _ := check_constraint "billing_subscription_pkey"
    (negb (some_row (fun _ r => bool_decide
       (sub_billing_subscription_id r = sub_billing_subscription_id row)) (bdb_subscriptions db))) in
  let! _ := check_constraint "account_id"
    (negb (truthy (bdb_subscriptions db !! sub_account_id row))) in
  let! _ := check_constraint "stripe_subscription_id"
    (negb (some_row (fun _ r => bool_decide
       (sub_stripe_subscription_id r = sub_stripe_subscription_id row)) (bdb_subscriptions db))) in
  Ok (with_subscriptions db (<[sub_account_id row := row]> (bdb_subscriptions db))).

(** [billing/service.py:419-425 _fetch] *)
Definition _fetch (db : billing_db) (stripe_subscription_id : string) : result StoredSubscription :=
  match List.filter (fun p => bool_decide (sub_stripe_subscription_id p.2 = stripe_subscription_id))
          (map_to_list (bdb_subscriptions db)) with
  | [(_, row)] => Ok (_stored row)
  | [] => Raise NoResultFound
  | _ => Raise (RuntimeError "MultipleResultsFound")
  end.

(** [billing/service.py:318-416 synchronize_subscription] *)
Definition synchronize_subscription (db : billing_db) (token : string)
    (state : StripeSubscriptionState) (account_id : string) (event_created_at : option datetime)
    (expect_livemode : bool) (now : datetime)
  : result (StoredSubscription * string * billing_db) :=
  let! _ := require_stripe_mode (st_livemode state) expect_livemode "subscription" in
  let '(plan_code, currency) := resolve_plan state in
  let offer_code :=
    if truthy (st_discount_coupon_id state) && bool_decide (plan_code = Some FOUNDING_PLAN_CODE)
    then Some "founding" else None in
  let! (existing, db) :=
    match bdb_subscriptions db !! account_id with
    | None => Ok (None, db)
    | Some existing =>
        if bool_decide (sub_stripe_subscription_id existing = st_subscription_id state)
        then Ok (Some existing, db)
        else if is_open_subscription (sub_status existing) then
          Raise (BillingSubscriptionConflict account_id (sub_stripe_subscription_id existing)
                   (st_subscription_id state))
        else Ok (None, with_subscriptions db
               (if in_list (sub_status existing) TERMINAL_STATUSES
                then delete account_id (bdb_subscriptions db) else bdb_subscriptions db))
    end in
  let announced := existing ≫= sub_scheduled_plan_code in
  let clear := truthy announced && bool_decide (plan_code = announced) in
  match existing with
  | None =>
      let! row := subscription_values (new_row ("bsub_" +:+ token) now) state account_id plan_code
                    offer_code currency event_created_at clear now in
      let! db := insert_subscription db row in
      let! stored := _fetch db (st_subscription_id state) in
      let! (_, db) := _reconcile_target_icp_territories db stored now in
      Ok (stored, "created", db)
  | Some existing =>
      if match event_created_at, aware_datetime (sub_last_stripe_event_created_at existing) with
         | Some created, Some previous => dt_ltb created previous
         | _, _ => false
         end
      then Ok (_stored existing, "stale_event_ignored", db)
      else
        let! row := subscription_values existing state account_id plan_code offer_code currency
                      event_created_at clear now in
        let db := with_subscriptions db (<[account_id := row]> (bdb_subscriptions db)) in
        let! stored := _fetch db (st_subscription_id state) in
        let! (_, db) := _reconcile_target_icp_territories db stored now in
        Ok (stored, "updated", db)
  end.
End store.
