(* ===== verification/BillingService.v ===== *)
(** BillingService: the rights and the safe action of an account
    ([billing/service.py], [feed_access] of [billing/access.py]), the Stripe
    gateway as the code sees it, and the account's Stripe customer.

    Stripe is outside the repository: its calls are the operations of the
    class [StripeGateway] over a state [W] of its own, which a Kivou
    transaction that rolls back leaves as the calls left it.  [tx] is such a
    transaction. *)

From S2P Require Import Prelude PyStr PyDatetime PyJson Database Recency BillingCatalogue.
From S2P Require Import BillingStore.

Local Open Scope string_scope.
Local Open Scope Z_scope.
Local Open Scope list_scope.

(** * Rights *)

(** [billing/service.py:153-168 BillingState] *)
Record BillingState : Type := mkBillingState {
  bs_account_id : string;
  bs_plan_code : string;
  bs_offer_code : option string;
  bs_currency : option string;
  bs_subscription_status : option string;
  bs_cancel_at_period_end : bool;
  bs_current_period_end : option datetime;
  bs_scheduled_cancellation_at : option datetime;
  bs_payment_issue : option string;
  bs_entitlements : PlanEntitlements;
}.

(** [billing/service.py:170-172 BillingState.is_discovery] *)
Definition is_discovery (s : BillingState) : bool := bool_decide (bs_plan_code s = "discovery").

(** [billing/service.py:447-452 _PAYMENT_ISSUES] *)
Definition _PAYMENT_ISSUES : list (string * string) :=
  [("past_due", "payment_past_due"); ("unpaid", "payment_unpaid");
   ("incomplete", "payment_incomplete"); ("incomplete_expired", "payment_incomplete_expired")].

(** [billing/service.py:455-490 billing_state] *)
Definition billing_state (db : billing_db) (account_id : string) : BillingState :=
  match current_subscription db account_id with
  | None =>
      mkBillingState account_id "discovery" None None None false None None None DISCOVERY
  | Some subscription =>
      let paid := grants_paid_access subscription in
      let plan_code := if paid then ss_plan_code subscription else Some "discovery" in
      mkBillingState account_id (default "discovery" plan_code)
        (if paid then ss_offer_code subscription else None)
        (ss_currency subscription) (Some (ss_status subscription))
        (ss_cancel_at_period_end subscription) (ss_current_period_end subscription)
        (ss_scheduled_cancellation_at subscription)
        (assoc (ss_status subscription) _PAYMENT_ISSUES) (entitlements_for plan_code)
  end.

(** [billing/service.py:493-494 entitlements] *)
Definition entitlements (db : billing_db) (account_id : string) : PlanEntitlements :=
  bs_entitlements (billing_state db account_id).

(** [billing/service.py:505-510 BILLING_ACTIONS] *)
Inductive billing_actions : Type :=
| ACTION_CHOOSE_PLAN | ACTION_MANAGE_SUBSCRIPTION | ACTION_RECOVER_PAYMENT | ACTION_CONTACT_SUPPORT.

#[export] Instance billing_actions_eq_dec : EqDecision billing_actions.
Proof. solve_decision. Defined.

(** [billing/service.py:514-514 RECOVERABLE_STATUSES] *)
Definition RECOVERABLE_STATUSES : list string := ["past_due"; "unpaid"].

(** [billing/service.py:517-571 billing_action] *)
Definition billing_action (db : billing_db) (account_id : string) : billing_actions :=
  match current_subscription db account_id with
  | None => ACTION_CHOOSE_PLAN
  | Some subscription =>
      if negb (is_open subscription) then ACTION_CHOOSE_PLAN
      else if negb (opt_in (ss_plan_code subscription) PURCHASABLE_PLANS)
      then ACTION_CONTACT_SUPPORT
      else
        let through_portal (intended : billing_actions) :=
          if truthy (stripe_customer_id db account_id) then intended
          else ACTION_CONTACT_SUPPORT in
        if in_list (ss_status subscription) PAYING_STATUSES
        then through_portal ACTION_MANAGE_SUBSCRIPTION
        else if in_list (ss_status subscription) RECOVERABLE_STATUSES
        then through_portal ACTION_RECOVER_PAYMENT
        else ACTION_CONTACT_SUPPORT
  end.

Definition is_founding (r : subscription_row) : bool :=
  bool_decide (sub_offer_code r = Some "founding").

(** [billing/service.py:577-587 founding_accounts] *)
Definition founding_accounts (db : billing_db) : Z :=
  zlength (remove_dups (map (fun p => sub_account_id p.2)
    (List.filter (fun p => is_founding p.2) (map_to_list (bdb_subscriptions db))))).

(** [billing/service.py:590-602 founding_available] *)
Definition founding_available (db : billing_db) (account_id : string) : bool :=
  if some_row (fun _ r => bool_decide (sub_account_id r = account_id) && is_founding r)
       (bdb_subscriptions db)
  then false
  else founding_accounts db <? FOUNDING_MAXIMUM_ACCOUNTS.

(** * Profiles *)

(** [ORDER BY created_at, target_icp_id]. *)
Definition icp_leb (a b : string * target_icp_row) : bool :=
  dt_ltb (ti_created_at a.2) (ti_created_at b.2)
  || (dt_eqb (ti_created_at a.2) (ti_created_at b.2) && string_leb a.1 b.1).

(** [billing/service.py:608-613 active_icp_count] *)
Definition active_icp_count (db : billing_db) (account_id : string) : Z :=
  zlength (List.filter (fun p => bool_decide (ti_account_id p.2 = account_id)
             && bool_decide (ti_status p.2 = "active")) (map_to_list (bdb_icps db))).

(** [billing/service.py:627-635 feedable_target_icps]: the query. *)
Definition usable_icps (db : billing_db) (account_id : string) : list string :=
  map fst (sorted_by icp_leb
    (List.filter (fun p => bool_decide (ti_account_id p.2 = account_id)
       && bool_decide (ti_status p.2 = "active") && negb (truthy (ti_plan_limit_code p.2)))
       (map_to_list (bdb_icps db)))).

(** [billing/service.py:616-639 feedable_target_icps] *)
Definition feedable_target_icps (db : billing_db) (account_id : string) (limit : option Z)
  : list string :=
  match limit with
  | Some n => firstn (Z.to_nat (Z.max 0 n)) (usable_icps db account_id)
  | None => usable_icps db account_id
  end.

(** [billing/service.py:642-653 over_limit_icps] *)
Definition over_limit_icps (db : billing_db) (account_id : string) (limit : Z) : list string :=
  skipn (Z.to_nat (Z.max 0 limit)) (usable_icps db account_id).

(** * Granted signals *)

(** [billing/discovery.py:64-70 granted_signal_keys] *)
Definition granted_signal_keys (db : billing_db) (account_id : string) : gset string :=
  list_to_set (map (fun p => p.1.2)
    (List.filter (fun p => bool_decide (p.1.1 = account_id)) (map_to_list (bdb_grants db)))).

(** [accounts/service.py:1142-1149 landing_signal_keys] *)
Definition landing_signal_keys (db : billing_db) (account_id : string) : gset string :=
  match bdb_landing db !! account_id with Some key => {[ key ]} | None => ∅ end.

(** [billing/access.py:154-165 feed_access] *)
Definition feed_access (db : billing_db) (account_id : string) (as_of : date) : FeedAccess :=
  let state := billing_state db account_id in
  mkFeedAccess (bs_plan_code state) (bs_entitlements state)
    (granted_signal_keys db account_id ∪ landing_signal_keys db account_id) as_of.

(** * Stripe *)

(** [billing/gateway.py:211-252 StripeGateway]: the calls the modelled code
    makes. *)
Class StripeGateway (W : Type) := {
  price_for_lookup_key : string -> W -> result (option StripePrice) * W;
  (** [email account_id display_name idempotency_key] *)
  create_customer : string -> string -> string -> string -> W -> result StripeCustomer * W;
  fetch_subscription : string -> W -> result (option StripeSubscriptionState) * W;
  (** [subscription_id price_id idempotency_key] *)
  change_subscription_price : string -> string -> string -> W ->
    result StripeSubscriptionState * W;
  schedule_subscription_price : string -> string -> string -> W ->
    result (option StripeScheduledChange) * W;
  release_pending_plan_change : string -> W -> result unit * W;
}.

(** * Transactions *)

Section tx.
Context {W : Type}.

Definition tx (A : Type) : Type := billing_db -> W -> result (A * billing_db) * W.

Definition tx_ret {A} (a : A) : tx A := fun db w => (Ok (a, db), w).
Definition tx_bind {A B} (m : tx A) (k : A -> tx B) : tx B :=
  fun db w => let '(r, w') := m db w in
    match r with Ok (a, db') => k a db' w' | Raise e => (Raise e, w') end.
(** A call of Stripe. *)
Definition tx_call {A} (f : W -> result A * W) : tx A :=
  fun db w => let '(r, w') := f w in
    match r with Ok a => (Ok (a, db), w') | Raise e => (Raise e, w') end.
(** A statement of the database. *)
Definition tx_sql {A} (f : billing_db -> result (A * billing_db)) : tx A :=
  fun db w => (f db, w).
(** A value read from the database, or computed and perhaps failing. *)
Definition tx_read {A} (f : billing_db -> result A) : tx A :=
  fun db w => (let! a := f db in Ok (a, db), w).
Definition tx_exec (f : billing_db -> result billing_db) : tx unit :=
  fun db w => (let! db' := f db in Ok (tt, db'), w).
End tx.
Arguments tx : clear implicits.

Declare Scope tx_scope.
Delimit Scope tx_scope with tx.
Notation "'do!' x ':=' c 'in' k" := (tx_bind c (fun x => k))
  (at level 10, x pattern, c at level 100, k at level 200) : tx_scope.
Notation "'guard!' b 'else' e 'in' k" := (if b then k else fun _ w => (Raise e, w))
  (at level 10, b at level 100, e at level 100, k at level 200) : tx_scope.

Section customer.
Context {W : Type} `{DB : Database} `{Stripe : StripeGateway W}.
Local Open Scope tx_scope.

(** [billing/service.py:239-247 ensure_stripe_customer]: the insert. *)
Definition insert_customer (account_id : string) (customer : StripeCustomer) (now : datetime)
    (db : billing_db) : result billing_db :=
  let! cid := varchar "stripe_customer_id" 128 (sc_customer_id customer) in
  let! _ := account_exists db account_id in
  let! _ := check_constraint "billing_customer_pkey"
    (negb (truthy (bdb_customers db !! account_id))) in
  let! _ := check_constraint "stripe_customer_id"
    (negb (some_row (fun _ r => bool_decide (cu_stripe_customer_id r = cid))
       (bdb_customers db))) in
  Ok (with_customers db (<[account_id := mkCustomer cid (sc_livemode customer)
        (timestamptz now) (timestamptz now)]> (bdb_customers db))).

(** [billing/service.py:203-248 ensure_stripe_customer] *)
Definition ensure_stripe_customer (account_id : string) (expect_livemode : bool) (now : datetime)
  : tx W string :=
  do! existing := tx_read (fun db => Ok (stripe_customer_id db account_id)) in
  match existing with
  | Some customer_id => tx_ret customer_id
  | None =>
      do! row := tx_read (fun db =>
        match bdb_accounts db !! account_id with
        | Some (mkAccount display_name (email :: _)) => Ok (display_name, email)
        | _ => Raise (BillingError "no_billing_customer" "compte introuvable")
        end) in
      do! customer := tx_call (create_customer row.2 account_id row.1
                                 ("kivou-customer-" +:+ account_id)) in
      do! _ := tx_read (fun _ =>
        require_stripe_mode (sc_livemode customer) expect_livemode "customer") in
      do! _ := tx_exec (insert_customer account_id customer now) in
      tx_ret (sc_customer_id customer)
  end.
End customer.
