(* ===== verification/BillingCheckout.v ===== *)
(** BillingCheckout: the reservation of a payment attempt
    ([billing/attempts.py]) and what is done before Stripe is asked for a
    checkout session ([billing/checkout.py]).

    The statements of a transaction read what other transactions committed
    before them: [others] is what they committed between the reading of the
    current attempt and the write that reserves it. *)

From S2P Require Import Prelude PyStr PyDatetime PyJson Database Recency BillingCatalogue.
From S2P Require Import BillingStore BillingService.

Local Open Scope string_scope.
Local Open Scope Z_scope.
Local Open Scope list_scope.

(** * The attempt *)

(** [billing/schema.py:219-219 TERMINAL_ATTEMPT_STATUSES] *)
Definition TERMINAL_ATTEMPT_STATUSES : list string := ["completed"; "expired"; "failed"].

(** [billing/schema.py:224-224 CHECKOUT_ATTEMPT_TTL_MINUTES] *)
Definition CHECKOUT_ATTEMPT_TTL_MINUTES : Z := 30.

(** [billing/attempts.py:47-47 CHECKOUT_ATTEMPT_TTL] in microseconds *)
Definition CHECKOUT_ATTEMPT_TTL : Z := CHECKOUT_ATTEMPT_TTL_MINUTES * 60 * US_SECOND.

(** [billing/schema.py:266-275 is_open_attempt] *)
Definition is_open_attempt (status : string) (expires_at now : datetime) : bool :=
  if in_list status TERMINAL_ATTEMPT_STATUSES then false else dt_ltb now expires_at.

(** [billing/attempts.py:70-81 StoredAttempt] *)
Record StoredAttempt : Type := mkStoredAttempt {
  sa_account_id : string;
  sa_attempt_id : string;
  sa_plan_code : string;
  sa_currency : string;
  sa_stripe_checkout_session_id : option string;
  sa_status : string;
  sa_expires_at : datetime;
  sa_created_at : datetime;
  sa_updated_at : datetime;
}.

(** [billing/attempts.py:83-85 StoredAttempt.is_terminal] *)
Definition is_terminal (a : StoredAttempt) : bool := in_list (sa_status a) TERMINAL_ATTEMPT_STATUSES.

(** [billing/attempts.py:87-88 StoredAttempt.is_open] *)
Definition attempt_is_open (a : StoredAttempt) (now : datetime) : bool :=
  is_open_attempt (sa_status a) (sa_expires_at a) now.

(** [billing/attempts.py:90-99 StoredAttempt.idempotency_key] *)
Definition idempotency_key (a : StoredAttempt) : string := "kivou-checkout:" +:+ sa_attempt_id a.

(** [billing/attempts.py:101-102 StoredAttempt.matches] *)
Definition attempt_matches (a : StoredAttempt) (plan_code currency : string) : bool :=
  bool_decide (sa_plan_code a = plan_code) && bool_decide (sa_currency a = currency).

(** [billing/attempts.py:105-116 _row] *)
Definition attempt_of_row (account_id : string) (r : attempt_row) : StoredAttempt :=
  mkStoredAttempt account_id (at_attempt_id r) (at_plan_code r) (at_currency r)
    (at_stripe_checkout_session_id r) (at_status r) (assume_utc (at_expires_at r))
    (assume_utc (at_created_at r)) (assume_utc (at_updated_at r)).

(** [billing/attempts.py:119-125 current_attempt] *)
Definition current_attempt (db : billing_db) (account_id : string) : option StoredAttempt :=
  attempt_of_row account_id <$> bdb_attempts db !! account_id.

(** [billing/attempts.py:50-66 CheckoutInProgress] *)
Definition CheckoutInProgress (a : StoredAttempt) : exn :=
  BillingError "checkout_in_progress"
    ("un paiement est déjà en cours pour ce compte (" +:+ sa_plan_code a +:+ "/"
     +:+ sa_currency a +:+ "), jusqu'à " +:+ isoformat (sa_expires_at a)).

Section attempts.
Context `{DB : Database}.

(** The columns a reservation writes, as they are read back; a new row is
    created now. *)
Definition reserved_row (attempt : StoredAttempt) (created_at : datetime) : result attempt_row :=
  let! aid := varchar "attempt_id" 64 (sa_attempt_id attempt) in
  let! plan := varchar "plan_code" 32 (sa_plan_code attempt) in
  let! cur := varchar "currency" 3 (sa_currency attempt) in
  Ok (mkAttempt aid plan cur None "creating" (timestamptz (sa_expires_at attempt)) created_at
        (timestamptz (sa_updated_at attempt))).

(** Another account's attempt has the identifier. *)
Definition attempt_id_taken (db : billing_db) (account_id attempt_id : string) : bool :=
  some_row (fun k r => negb (bool_decide (k = account_id))
              && bool_decide (at_attempt_id r = attempt_id)) (bdb_attempts db).

(** [dialect_aborts]: a failed statement aborts the transaction
    (PostgreSQL) instead of leaving it usable (SQLite). *)
Variable dialect_aborts : bool.

(** [billing/attempts.py:132-214 reserve] *)
Definition reserve (others : billing_db -> billing_db) (db : billing_db)
    (token account_id plan_code currency : string) (now : datetime)
  : result (StoredAttempt * billing_db) :=
  let existing := current_attempt db account_id in
  match existing with
  | Some e =>
      if attempt_is_open e now then
        if bool_decide (sa_status e = "creating") && attempt_matches e plan_code currency
        then Ok (e, db)
        else Raise (CheckoutInProgress e)
      else
        let attempt_id := "cka_" +:+ token in
        let! expires_at := dt_add now CHECKOUT_ATTEMPT_TTL in
        let attempt := mkStoredAttempt account_id attempt_id plan_code currency None "creating"
                         expires_at now now in
        let db := others db in
        match bdb_attempts db !! account_id with
        | Some r =>
            if bool_decide (at_attempt_id r = sa_attempt_id e) then
              let! row := reserved_row attempt (at_created_at r) in
              let! _ := check_constraint "attempt_id"
                          (negb (attempt_id_taken db account_id attempt_id)) in
              Ok (attempt, with_attempts db (<[account_id := row]> (bdb_attempts db)))
            else Raise (CheckoutInProgress (attempt_of_row account_id r))
        | None => Raise (CheckoutInProgress e)
        end
  | None =>
      let attempt_id := "cka_" +:+ token in
      let! expires_at := dt_add now CHECKOUT_ATTEMPT_TTL in
      let attempt := mkStoredAttempt account_id attempt_id plan_code currency None "creating"
                       expires_at now now in
      let db := others db in
      let! row := reserved_row attempt (timestamptz now) in
      if truthy (bdb_accounts db !! account_id) && negb (truthy (bdb_attempts db !! account_id))
         && negb (attempt_id_taken db account_id attempt_id)
      then Ok (attempt, with_attempts db (<[account_id := row]> (bdb_attempts db)))
      else if dialect_aborts then Raise (RuntimeError "InFailedSqlTransaction")
      else match current_attempt db account_id with
           | None => Raise (IntegrityError "billing_checkout_attempt")
           | Some loser => Raise (CheckoutInProgress loser)
           end
  end.

(** An update of the attempt of an account, when the condition holds of it;
    whether a row was updated. *)
Definition update_attempt (db : billing_db) (account_id : string) (where_ : attempt_row -> bool)
    (set_ : attempt_row -> attempt_row) : bool * billing_db :=
  match bdb_attempts db !! account_id with
  | Some r =>
      if where_ r then (true, with_attempts db (<[account_id := set_ r]> (bdb_attempts db)))
      else (false, db)
  | None => (false, db)
  end.

Definition set_status (status : string) (session : option string) (now : datetime)
    (r : attempt_row) : attempt_row :=
  mkAttempt (at_attempt_id r) (at_plan_code r) (at_currency r) session status (at_expires_at r)
    (at_created_at r) (timestamptz now).

(** [billing/attempts.py:217-237 record_session] *)
Definition record_session (db : billing_db) (account_id attempt_id session_id : string)
    (now : datetime) : result (bool * billing_db) :=
  let mine (r : attempt_row) := bool_decide (at_attempt_id r = attempt_id) in
  let taken := some_row (fun k r => negb (bool_decide (k = account_id))
                 && bool_decide (at_stripe_checkout_session_id r = Some session_id))
                 (bdb_attempts db) in
  if match bdb_attempts db !! account_id with Some r => mine r | None => false end then
    let! session_id := varchar "stripe_checkout_session_id" 255 session_id in
    let! _ := check_constraint "stripe_checkout_session_id" (negb taken) in
    Ok (update_attempt db account_id mine (set_status "open" (Some session_id) now))
  else Ok (false, db).

(** [billing/attempts.py:240-273 fail_attempt] *)
Definition fail_attempt (db : billing_db) (account_id attempt_id : string) (now : datetime)
  : bool * billing_db :=
  update_attempt db account_id
    (fun r => bool_decide (at_attempt_id r = attempt_id) && bool_decide (at_status r = "creating"))
    (fun r => set_status "failed" (at_stripe_checkout_session_id r) now r).

(** [billing/attempts.py:276-294 close_attempt]: the session designates at
    most one attempt, the column being unique. *)
Definition close_attempt (db : billing_db) (session_id status : string) (now : datetime)
  : bool * billing_db :=
  match List.find (fun p => bool_decide (at_stripe_checkout_session_id p.2 = Some session_id))
          (map_to_list (bdb_attempts db)) with
  | Some (account_id, _) =>
      update_attempt db account_id (fun _ => true)
        (fun r => set_status status (at_stripe_checkout_session_id r) now r)
  | None => (false, db)
  end.

(** [billing/attempts.py:297-313 expire_stale] *)
Definition expire_stale (db : billing_db) (account_id : string) (now : datetime)
  : bool * billing_db :=
  update_attempt db account_id
    (fun r => dt_leb (at_expires_at r) now && negb (in_list (at_status r) TERMINAL_ATTEMPT_STATUSES))
    (fun r => set_status "expired" (at_stripe_checkout_session_id r) now r).
End attempts.

(** * The checkout *)

(** [billing/checkout.py:28-40 CheckoutConfiguration] *)
Record CheckoutConfiguration : Type := mkConfiguration {
  cc_success_url : string;
  cc_cancel_url : string;
  cc_portal_return_url : string;
  cc_automatic_tax : bool;
  cc_livemode : bool;
  cc_founding_coupon_id : option string;
  cc_portal_configuration_id : option string;
}.

(** [billing/checkout.py:44-50 PreparedCheckout] *)
Record PreparedCheckout : Type := mkPrepared {
  pp_attempt : StoredAttempt;
  pp_price_id : string;
  pp_customer_id : string;
  pp_coupon_id : option string;
}.

Section checkout.
Context {W : Type} `{DB : Database} `{Stripe : StripeGateway W}.
Variable dialect_aborts : bool.
Local Open Scope tx_scope.

(** [billing/checkout.py:100-108 prepare_checkout]: the coupon. *)
Definition founding_coupon (configuration : CheckoutConfiguration) (founding : bool)
    (db : billing_db) (account_id plan_code : string) : result (option string) :=
  if negb founding then Ok None
  else
    require! bool_decide (plan_code = FOUNDING_PLAN_CODE) else
      BillingError "founding_not_available" "l'offre fondateur porte sur le plan Pro" in
    require! truthy (cc_founding_coupon_id configuration) else
      BillingError "founding_not_available" "aucune remise fondateur configurée" in
    require! founding_available db account_id else
      BillingError "founding_not_available" "offre fondateur épuisée ou déjà utilisée" in
    Ok (cc_founding_coupon_id configuration).

(** [billing/checkout.py:53-127 prepare_checkout] *)
Definition prepare_checkout (others : billing_db -> billing_db)
    (configuration : CheckoutConfiguration) (token account_id plan_code currency : string)
    (now : datetime) (founding : bool) : tx W PreparedCheckout :=
  guard! in_list plan_code PLAN_CODES else BillingError "unknown_plan" plan_code in
  guard! in_list plan_code PURCHASABLE_PLANS else BillingError "plan_not_purchasable" plan_code in
  do! _ := tx_sql (fun db => Ok (expire_stale db account_id now)) in
  do! existing := tx_read (fun db => Ok (current_subscription db account_id)) in
  guard! negb (match existing with Some e => is_open e | None => false end) else
    BillingError "already_subscribed" "le compte porte déjà un abonnement Stripe" in
  do! lookup_key := tx_read (fun _ => lookup_key_for plan_code currency) in
  do! price := tx_call (price_for_lookup_key lookup_key) in
  match price with
  | None => fun _ w => (Raise (BillingError "price_not_configured" lookup_key), w)
  | Some price =>
      guard! pr_active price else BillingError "price_not_configured" lookup_key in
      do! _ := tx_read (fun _ =>
        require_stripe_mode (pr_livemode price) (cc_livemode configuration) "price") in
      guard! bool_decide (pr_currency price = currency) else
        BillingError "price_not_configured" lookup_key in
      do! coupon_id := tx_read (fun db =>
        founding_coupon configuration founding db account_id plan_code) in
      do! customer_id := ensure_stripe_customer account_id (cc_livemode configuration) now in
      do! attempt := tx_sql (fun db =>
        reserve dialect_aborts others db token account_id plan_code currency now) in
      tx_ret (mkPrepared attempt (pr_price_id price) customer_id coupon_id)
  end.
End checkout.

(** The request of a checkout session, as Stripe receives it. *)
Record SessionRequest : Type := mkSessionRequest {
  sr_customer_id : string;
  sr_price_id : string;
  sr_account_id : string;
  sr_success_url : string;
  sr_cancel_url : string;
  sr_automatic_tax : bool;
  sr_coupon_id : option string;
  sr_expires_at : datetime;
  sr_idempotency_key : string;
}.

(** [billing/checkout.py:130-153 open_checkout_session] *)
Definition open_checkout_session (configuration : CheckoutConfiguration)
    (prepared : PreparedCheckout) (account_id : string) : SessionRequest :=
  mkSessionRequest (pp_customer_id prepared) (pp_price_id prepared) account_id
    (cc_success_url configuration) (cc_cancel_url configuration) (cc_automatic_tax configuration)
    (pp_coupon_id prepared) (sa_expires_at (pp_attempt prepared))
    (idempotency_key (pp_attempt prepared)).
