(* ===== verification/BillingWebhooks.v ===== *)
(** BillingWebhooks: the handling of a verified Stripe event
    ([billing/webhooks.py]): recorded once, applied from the object read
    again at Stripe, in one transaction. *)

From S2P Require Import Prelude PyStr PyDatetime PyJson Database Recency BillingCatalogue.
From S2P Require Import BillingStore BillingService BillingCheckout.

Local Open Scope string_scope.
Local Open Scope Z_scope.
Local Open Scope list_scope.

(** [billing/webhooks.py:40-50 HANDLED_EVENT_TYPES] *)
Definition HANDLED_EVENT_TYPES : list string :=
  ["checkout.session.completed"; "customer.subscription.created"; "customer.subscription.updated";
   "customer.subscription.deleted"; "invoice.paid"; "invoice.payment_failed";
   "checkout.session.expired"].

(** [billing/webhooks.py:54-54 ACKNOWLEDGED_EVENT_TYPES] *)
Definition ACKNOWLEDGED_EVENT_TYPES : list string := ["invoice.payment_action_required"].

(** [billing/webhooks.py:63-63 RESULT_CONFLICT] and the other results. *)
Inductive webhook_result : Type :=
| RESULT_APPLIED | RESULT_DUPLICATE | RESULT_IGNORED | RESULT_UNHANDLED | RESULT_REJECTED
| RESULT_CONFLICT.

#[export] Instance webhook_result_eq_dec : EqDecision webhook_result.
Proof. solve_decision. Defined.

Definition result_value (r : webhook_result) : string :=
  match r with
  | RESULT_APPLIED => "applied" | RESULT_DUPLICATE => "duplicate" | RESULT_IGNORED => "ignored"
  | RESULT_UNHANDLED => "unhandled" | RESULT_REJECTED => "rejected" | RESULT_CONFLICT => "conflict"
  end.

(** [billing/webhooks.py:67-73 WebhookOutcome] *)
Record WebhookOutcome : Type := mkOutcome {
  wo_event_id : string;
  wo_event_type : string;
  wo_result : webhook_result;
  wo_detail : option string;
}.

(** [billing/webhooks.py:75-77 WebhookOutcome.accepted] *)
Definition accepted (o : WebhookOutcome) : bool := negb (bool_decide (wo_result o = RESULT_REJECTED)).

(** [billing/webhooks.py:80-88 already_processed] *)
Definition already_processed (db : billing_db) (event_id : string) : bool :=
  truthy (bdb_events db !! event_id).

Section webhooks.
Context {W : Type} `{DB : Database} `{Stripe : StripeGateway W}.
(** [payload_hash] of the raw body; the conversion milestones observe a
    synchronised subscription in tables of their own, part of [W], and may
    fail. *)
Variables (payload_hash : string)
  (observe : option (string -> StoredSubscription -> datetime -> W -> result unit * W)).
Variables (token : string) (event : StripeEvent) (expect_livemode : bool) (now : datetime).
Local Open Scope tx_scope.

(** [billing/webhooks.py:91-113 _record] *)
Definition _record (r : webhook_result) (detail : option string) (db : billing_db)
  : result billing_db :=
  let! event_id := varchar "stripe_event_id" 128 (ev_event_id event) in
  let! event_type := varchar "event_type" 128 (ev_event_type event) in
  let! object_id := opt_mapM (varchar "stripe_object_id" 128) (ev_object_id event) in
  let! hash := varchar "payload_hash" 64 payload_hash in
  let! _ := check_constraint "stripe_webhook_event_pkey" (negb (truthy (bdb_events db !! event_id))) in
  Ok (with_events db (<[event_id := mkWebhookEvent event_type object_id (ev_livemode event)
        (timestamptz (ev_created event)) hash (timestamptz now) (result_value r) detail]>
        (bdb_events db))).

(** [_record(...)] and the outcome. *)
Definition conclude (r : webhook_result) (recorded told : option string) : tx W WebhookOutcome :=
  do! _ := tx_exec (_record r recorded) in
  tx_ret (mkOutcome (ev_event_id event) (ev_event_type event) r told).

(** [billing/webhooks.py:116-138 _account_for_subscription] *)
Definition _account_for_subscription (db : billing_db) (state : StripeSubscriptionState)
  : result (option string) :=
  match st_account_id state ≫= fun a => if nonempty a then Some a else None with
  | Some account_id => Ok (Some account_id)
  | None =>
      match account_reference event with
      | Some reference => Ok (Some reference)
      | None =>
          match List.filter (fun p => bool_decide
                  (cu_stripe_customer_id p.2 = st_customer_id state))
                  (map_to_list (bdb_customers db)) with
          | [] => Ok None
          | [(account_id, _)] => Ok (Some account_id)
          | _ => Raise (RuntimeError "MultipleResultsFound")
          end
      end
  end.

(** [billing/webhooks.py:251-279 handle_event]: the two errors that are
    caught are raised before the synchronisation writes anything. *)
Definition synchronize_and_observe (state : StripeSubscriptionState) (account_id : string)
  : tx W ((webhook_result * string) + string) :=
  fun db w =>
    match synchronize_subscription db token state account_id (Some (ev_created event))
            expect_livemode now with
    | Ok (stored, action, db') =>
        match observe with
        | None => (Ok (inr action, db'), w)
        | Some observe =>
            let '(r, w') := observe account_id stored now w in
            (let! _ := r in Ok (inr action, db'), w')
        end
    | Raise (BillingError code message) =>
        if bool_decide (code = "stripe_mode_mismatch")
        then (Ok (inl (RESULT_REJECTED, message), db), w)
        else if bool_decide (code = "billing_subscription_conflict")
        then (Ok (inl (RESULT_CONFLICT, message), db), w)
        else (Raise (BillingError code message), w)
    | Raise e => (Raise e, w)
    end.

(** [billing/webhooks.py:191-199 handle_event]: the attempt of a checkout
    session follows its session. *)
Definition close_session (db : billing_db) : billing_db :=
  if in_list (ev_event_type event) ["checkout.session.expired"; "checkout.session.completed"] then
    match as_str (dict_get "id" (ev_data_object event)) with
    | Some session_id =>
        (close_attempt db session_id
           (if bool_decide (ev_event_type event = "checkout.session.expired") then "expired"
            else "completed") now).2
    | None => db
    end
  else db.

(** [billing/webhooks.py:213-283 handle_event]: from the subscription of
    the event on. *)
Definition apply_subscription : tx W WebhookOutcome :=
  match subscription_id event with
  | None => conclude RESULT_IGNORED (Some "aucun abonnement rattaché") None
  | Some subscription_id =>
      do! state := tx_call (fetch_subscription subscription_id) in
      match state with
      | None => conclude RESULT_IGNORED (Some "abonnement introuvable chez Stripe") None
      | Some state =>
          do! account_id := tx_read (fun db => _account_for_subscription db state) in
          match account_id with
          | None => conclude RESULT_IGNORED (Some "aucun compte Kivou rattachable") None
          | Some account_id =>
              do! done_ := synchronize_and_observe state account_id in
              match done_ with
              | inl (refusal, message) => conclude refusal (Some message) (Some message)
              | inr action =>
                  conclude (if bool_decide (action = "stale_event_ignored") then RESULT_IGNORED
                            else RESULT_APPLIED) (Some action) (Some action)
              end
          end
      end
  end.

(** [billing/webhooks.py:141-283 handle_event] *)
Definition handle_event : tx W WebhookOutcome :=
  do! seen := tx_read (fun db => Ok (already_processed db (ev_event_id event))) in
  if seen : bool then
    tx_ret (mkOutcome (ev_event_id event) (ev_event_type event) RESULT_DUPLICATE None)
  else if negb (Bool.eqb (ev_livemode event) expect_livemode) then
    conclude RESULT_REJECTED (Some "livemode incompatible avec le mode configuré")
      (Some "livemode incompatible")
  else if in_list (ev_event_type event) ACKNOWLEDGED_EVENT_TYPES then
    conclude RESULT_IGNORED (Some "reconnu, sans effet sur l'accès") None
  else if negb (in_list (ev_event_type event) HANDLED_EVENT_TYPES) then
    conclude RESULT_UNHANDLED None None
  else
    do! _ := tx_exec (fun db => Ok (close_session db)) in
    if bool_decide (ev_event_type event = "checkout.session.expired") then
      conclude RESULT_IGNORED (Some "tentative de paiement expirée") None
    else apply_subscription.
End webhooks.
