(* ===== verification/BillingPlanChange.v ===== *)
(** BillingPlanChange: moving a subscribed account to another plan without
    ever opening a second subscription ([billing/plan_change.py]). *)

From S2P Require Import Prelude PyStr PyDatetime PyJson Database Recency BillingCatalogue.
From S2P Require Import BillingStore BillingService.

Local Open Scope string_scope.
Local Open Scope Z_scope.
Local Open Scope list_scope.

(** [billing/plan_change.py:39-39 EFFECT_SCHEDULED] *)
Inductive plan_effect : Type := EFFECT_IMMEDIATE | EFFECT_SCHEDULED.

(** [billing/plan_change.py:67-73 PlanChangeOutcome] *)
Record PlanChangeOutcome : Type := mkPlanOutcome {
  po_effect : plan_effect;
  po_plan_code : string;
  po_effective_at : option datetime;
}.

(** [billing/plan_change.py:75-80 PlanChangeOutcome.as_payload] *)
Definition as_payload (o : PlanChangeOutcome) : json :=
  JObj [("effect", JStr (match po_effect o with
                         | EFFECT_IMMEDIATE => "immediate" | EFFECT_SCHEDULED => "scheduled" end));
        ("plan_code", JStr (po_plan_code o));
        ("effective_at", opt_json (fun d => JStr (isoformat d)) (po_effective_at o))].

Definition PlanChangeUnavailable (message : string) : exn :=
  BillingError "plan_change_unavailable" message.

(** [billing/plan_change.py:83-104 _changeable]: the subscription with its
    plan and its currency. *)
Definition _changeable (db : billing_db) (account_id : string)
  : result (StoredSubscription * string * string) :=
  require! bool_decide (billing_action db account_id = ACTION_MANAGE_SUBSCRIPTION) else
    PlanChangeUnavailable "aucun abonnement gérable pour ce compte" in
  match current_subscription db account_id with
  | None => Raise (PlanChangeUnavailable "abonnement introuvable")
  | Some subscription =>
      match ss_plan_code subscription with
      | None => Raise (PlanChangeUnavailable "abonnement introuvable")
      | Some plan_code =>
          match ss_currency subscription with
          | Some currency =>
              if in_list currency CURRENCIES then Ok (subscription, plan_code, currency)
              else Raise (PlanChangeUnavailable "devise du contrat inconnue")
          | None => Raise (PlanChangeUnavailable "devise du contrat inconnue")
          end
      end
  end.

(** [billing/plan_change.py:121-157 _idempotency_key] *)
Definition _idempotency_key (kind subscription_id source target currency : string) (sequence : Z)
  : string :=
  "kivou-plan-" +:+ kind +:+ ":" +:+ subscription_id +:+ ":" +:+ str_int sequence +:+ ":"
  +:+ source +:+ "->" +:+ target +:+ ":" +:+ currency.

Section plan_change.
Context {W : Type} `{DB : Database} `{Stripe : StripeGateway W}.
Local Open Scope tx_scope.

(** [billing/plan_change.py:107-118 _authorised_price] *)
Definition _authorised_price (plan_code currency : string) : tx W string :=
  do! lookup_key := tx_read (fun _ => lookup_key_for plan_code currency) in
  do! price := tx_call (price_for_lookup_key lookup_key) in
  tx_read (fun _ =>
    match price with
    | Some price =>
        if pr_active price then Ok (pr_price_id price)
        else Raise (PlanChangeUnavailable ("aucun prix actif pour " +:+ lookup_key))
    | None => Raise (PlanChangeUnavailable ("aucun prix actif pour " +:+ lookup_key))
    end).

(** An update of the subscription of the account. *)
Definition update_subscription (account_id : string)
    (f : subscription_row -> result subscription_row) (db : billing_db) : result billing_db :=
  match bdb_subscriptions db !! account_id with
  | Some r => let! r' := f r in
              Ok (with_subscriptions db (<[account_id := r']> (bdb_subscriptions db)))
  | None => Ok db
  end.

Definition with_schedule (plan_code : option string) (effective_at : option datetime)
    (schedule_id : option string) (sequence : Z) (now : datetime) (r : subscription_row)
  : subscription_row :=
  mkSubscription (sub_billing_subscription_id r) (sub_account_id r) (sub_stripe_subscription_id r)
    (sub_stripe_customer_id r) (sub_stripe_price_id r) (sub_stripe_product_id r) (sub_plan_code r)
    (sub_offer_code r) (sub_currency r) (sub_status r) (sub_current_period_start r)
    (sub_current_period_end r) (sub_cancel_at_period_end r) (sub_canceled_at r)
    (sub_scheduled_cancellation_at r) (sub_last_stripe_event_created_at r)
    plan_code (timestamptz <$> effective_at) schedule_id sequence (sub_livemode r)
    (sub_created_at r) (timestamptz now).

(** [billing/plan_change.py:160-180 _record_scheduled] *)
Definition _record_scheduled (account_id plan_code : string) (effective_at : option datetime)
    (schedule_id : option string) (now : datetime) : billing_db -> result billing_db :=
  update_subscription account_id (fun r =>
    let! plan := varchar "scheduled_plan_code" 32 plan_code in
    let! schedule := opt_mapM (varchar "stripe_schedule_id" 128) schedule_id in
    Ok (with_schedule (Some plan) effective_at schedule (sub_plan_change_sequence r + 1) now r)).

(** [billing/plan_change.py:183-199 _clear_scheduled] *)
Definition _clear_scheduled (account_id : string) (now : datetime) (advance : bool)
  : billing_db -> result billing_db :=
  update_subscription account_id (fun r =>
    Ok (with_schedule None None None
          (sub_plan_change_sequence r + if advance then 1 else 0) now r)).

(** [billing/plan_change.py:202-284 request_plan_change] *)
Definition request_plan_change (token account_id target_plan : string) (now : datetime)
    (expect_livemode : bool) : tx W PlanChangeOutcome :=
  do! (subscription, current_plan, currency) := tx_read (fun db => _changeable db account_id) in
  if bool_decide (ss_scheduled_plan_code subscription = Some target_plan) then
    tx_ret (mkPlanOutcome EFFECT_SCHEDULED target_plan (ss_scheduled_plan_change_at subscription))
  else
    guard! negb (bool_decide (target_plan = current_plan)) else
      BillingError "plan_change_same_plan" ("déjà sur la formule " +:+ target_plan) in
    do! price_id := _authorised_price target_plan currency in
    let sid := ss_stripe_subscription_id subscription in
    let key kind := _idempotency_key kind sid current_plan target_plan currency
                      (ss_plan_change_sequence subscription) in
    do! target_rank := tx_read (fun _ => plan_rank target_plan) in
    do! current_rank := tx_read (fun _ => plan_rank current_plan) in
    if current_rank <? target_rank then
      do! _ := (if truthy (ss_scheduled_plan_code subscription)
                then tx_call (release_pending_plan_change sid) else tx_ret tt) in
      do! state := tx_call (change_subscription_price sid price_id (key "change")) in
      do! _ := tx_exec (fun db =>
        let! (_, _, db) := synchronize_subscription db token state account_id (Some now)
                             expect_livemode now in Ok db) in
      do! _ := tx_exec (_clear_scheduled account_id now true) in
      tx_ret (mkPlanOutcome EFFECT_IMMEDIATE target_plan None)
    else
      do! scheduled := tx_call (schedule_subscription_price sid price_id (key "schedule")) in
      let effective_at := scheduled ≫= sg_effective_at in
      do! _ := tx_exec (_record_scheduled account_id target_plan effective_at
                          (sg_schedule_id <$> scheduled) now) in
      tx_ret (mkPlanOutcome EFFECT_SCHEDULED target_plan effective_at).

(** [billing/plan_change.py:287-295 cancel_scheduled_plan_change] *)
Definition cancel_scheduled_plan_change (account_id : string) (now : datetime) : tx W unit :=
  do! (subscription, _, _) := tx_read (fun db => _changeable db account_id) in
  guard! truthy (ss_scheduled_plan_code subscription) else
    BillingError "plan_change_none_scheduled" "aucun changement programmé" in
  do! _ := tx_call (release_pending_plan_change (ss_stripe_subscription_id subscription)) in
  tx_exec (_clear_scheduled account_id now true).
End plan_change.

(** [billing/plan_change.py:298-320 scheduled_plan_change] *)
Definition scheduled_plan_change (db : billing_db) (account_id : string)
  : option (string * option string) :=
  match current_subscription db account_id with
  | Some subscription =>
      if is_open subscription then
        (fun plan => (plan, isoformat <$> ss_scheduled_plan_change_at subscription))
          <$> ss_scheduled_plan_code subscription
      else None
  | None => None
  end.
