(* ===== verification/BillingGrants.v ===== *)
(** BillingGrants: the signals given to an account for good
    ([billing/discovery.py]).  [_lock_account] serialises the counting and
    the inserts of a transaction, so no other grant of the account comes
    between them. *)

From S2P Require Import Prelude PyStr PyDatetime PyJson Database Recency BillingCatalogue.
From S2P Require Import BillingStore BillingService.

Local Open Scope string_scope.
Local Open Scope Z_scope.
Local Open Scope list_scope.

(** [billing/discovery.py:92-97 opened_signal_keys] *)
Definition opened_signal_keys (db : billing_db) (account_id : string) : gset string :=
  granted_signal_keys db account_id ∪ landing_signal_keys db account_id.

(** [billing/discovery.py:85-89 remaining_slots] *)
Definition remaining_slots (db : billing_db) (account_id : string) : Z :=
  Z.max 0 (DISCOVERY_GRANT_LIMIT - Z.of_nat (size (opened_signal_keys db account_id))).

(** [billing/discovery.py:100-118 _lock_account] *)
Definition _lock_account (db : billing_db) (account_id : string) : result unit :=
  if truthy (bdb_accounts db !! account_id) then Ok tt
  else Raise (LookupError ("unknown account: " +:+ account_id)).

Section grants.
Context `{DB : Database}.

(** [persistence/conflicts.py:47-76 insert_if_absent] into the grants. *)
Definition insert_grant (db : billing_db) (account_id signal_key opportunity_key : string)
    (now : datetime) : result (bool * billing_db) :=
  let! key := varchar "signal_key" 64 signal_key in
  let! opportunity := varchar "opportunity_key" 64 opportunity_key in
  if truthy (bdb_grants db !! (account_id, key)) then Ok (false, db)
  else Ok (true, with_grants db
         (<[(account_id, key) := mkGrant (timestamptz now) opportunity]> (bdb_grants db))).

(** [billing/discovery.py:387-410 grant_up_to_limit]: the loop. *)
Fixpoint grant_loop (db : billing_db) (account_id : string) (candidates : list FeedSignal)
    (now : datetime) (slots : Z) (already : gset string) : result (list string * billing_db) :=
  match candidates with
  | [] => Ok ([], db)
  | item :: candidates' =>
      if slots <=? 0 then Ok ([], db)
      else
        let key := fs_signal_key item in
        if bool_decide (key ∈ already) then
          grant_loop db account_id candidates' now slots already
        else
          let! (inserted, db) := insert_grant db account_id key (fs_opportunity_key item) now in
          if inserted : bool then
            let! (newly, db) := grant_loop db account_id candidates' now (slots - 1)
                                  (already ∪ {[ key ]}) in
            Ok (key :: newly, db)
          else grant_loop db account_id candidates' now slots (already ∪ {[ key ]})
  end.

(** [billing/discovery.py:365-410 grant_up_to_limit] *)
Definition grant_up_to_limit (db : billing_db) (account_id : string)
    (candidates : list FeedSignal) (now : datetime) : result (list string * billing_db) :=
  let! _ := _lock_account db account_id in
  let slots := remaining_slots db account_id in
  if slots <=? 0 then Ok ([], db)
  else grant_loop db account_id candidates now slots (opened_signal_keys db account_id).

(** [billing/discovery.py:345-362 grant_landing_cohort]: the inserts. *)
Fixpoint cohort_loop (db : billing_db) (account_id : string)
    (opportunities : gmap string string) (keys : list string) (now : datetime)
  : result (list string * billing_db) :=
  match keys with
  | [] => Ok ([], db)
  | key :: keys' =>
      match opportunities !! key with
      | None => cohort_loop db account_id opportunities keys' now
      | Some opportunity_key =>
          let! (inserted, db) := insert_grant db account_id key opportunity_key now in
          let! (newly, db) := cohort_loop db account_id opportunities keys' now in
          Ok ((if inserted : bool then [key] else []) ++ newly, db)
      end
  end.

(** [billing/discovery.py:324-362 grant_landing_cohort]; [opportunities] is
    the opportunity of each materialised signal. *)
Definition grant_landing_cohort (db : billing_db) (opportunities : gmap string string)
    (account_id : string) (signal_keys : list string) (now : datetime)
  : result (list string * billing_db) :=
  let! _ := _lock_account db account_id in
  let bait := bdb_landing db !! account_id in
  let selected := firstn (Z.to_nat DISCOVERY_GRANT_LIMIT) (dict_fromkeys signal_keys) in
  let candidates := List.filter (fun key => negb (bool_decide (Some key = bait))) selected in
  cohort_loop db account_id opportunities
    (firstn (Z.to_nat (DISCOVERY_GRANT_LIMIT - 1)) candidates) now.
End grants.
