(* ===== verification/BillingFacts.v ===== *)
(** BillingFacts: the invariant of the billing tables and what the
    synchronisation of a subscription leaves behind. *)

From S2P Require Import Prelude PyStr PyDatetime PyJson AcquisitionEquiv Database Recency.
From S2P Require Import PolicyStore BillingCatalogue BillingStore BillingService.
From S2P Require Import BillingCheckout.

Local Open Scope string_scope.
Local Open Scope Z_scope.
Local Open Scope list_scope.

(** [inv_result] through the pairs that operations return. *)
Ltac inv_pairs :=
  repeat (inv_result;
    try match goal with
    | H : (let '(_, _) := ?v in _) = _ |- _ => is_var v; destruct v
    | H : (_, _) = (_, _) |- _ => injection H as H; try subst
    end); inv_result.

(** * Tables *)

Lemma some_row_false {K R} `{Countable K} (p : K -> R -> bool) (m : gmap K R) :
  some_row p m = false <-> forall k r, m !! k = Some r -> p k r = false.
Proof.
  unfold some_row. rewrite <- not_true_iff_false, existsb_exists. split.
  - intros Hn k r Hl. apply not_true_iff_false. intros Hp. apply Hn. exists (k, r).
    by rewrite <- list_elem_of_In, elem_of_map_to_list.
  - intros Ha ([k r] & Hin & Hp). rewrite <- list_elem_of_In, elem_of_map_to_list in Hin.
    by rewrite (Ha k r Hin) in Hp.
Qed.

(** The one element of a list without duplicates that satisfies [p]. *)
Lemma filter_singleton {A} (p : A -> bool) (l : list A) x :
  NoDup l -> x ∈ l -> p x = true -> (forall y, y ∈ l -> p y = true -> y = x) ->
  List.filter p l = [x].
Proof.
  induction 1 as [|y l Hy Hl IH]; intros Hx Hp Hu; [by apply not_elem_of_nil in Hx|].
  simpl. apply elem_of_cons in Hx as [<-|Hx].
  - rewrite Hp. f_equal. destruct (List.filter p l) as [|z l'] eqn:E; [done|]. exfalso.
    assert (Hz : z ∈ l /\ p z = true)
      by (rewrite list_elem_of_In, <- filter_In, E; by left).
    destruct Hz as [Hz Hpz]. rewrite (Hu z) in Hz; [done|by right|done].
  - destruct (p y) eqn:Ey.
    + by rewrite (Hu y) in Hy; [|left|].
    + apply IH; [done..|]. intros z Hz. apply Hu. by right.
Qed.

Lemma filter_map_to_list {K R} `{Countable K} (p : K * R -> bool) (m : gmap K R) k r :
  m !! k = Some r -> p (k, r) = true ->
  (forall k' r', m !! k' = Some r' -> p (k', r') = true -> k' = k) ->
  List.filter p (map_to_list m) = [(k, r)].
Proof.
  intros Hl Hp Hu. apply filter_singleton; [apply NoDup_map_to_list|by apply elem_of_map_to_list|done|].
  intros [k' r'] Hin Hp'. apply elem_of_map_to_list in Hin.
  pose proof (Hu k' r' Hin Hp') as ->. by simplify_eq.
Qed.

(** * The invariant *)

(** The keys and the unique columns of the tables. *)
Record billing_wf (db : billing_db) : Prop := {
  wf_sub_account : forall a r, bdb_subscriptions db !! a = Some r -> sub_account_id r = a;
  wf_sub_unique : forall a b r s,
    bdb_subscriptions db !! a = Some r -> bdb_subscriptions db !! b = Some s ->
    sub_stripe_subscription_id r = sub_stripe_subscription_id s -> a = b;
  wf_customer_unique : forall a b r s,
    bdb_customers db !! a = Some r -> bdb_customers db !! b = Some s ->
    cu_stripe_customer_id r = cu_stripe_customer_id s -> a = b;
  wf_attempt_unique : forall a b r s,
    bdb_attempts db !! a = Some r -> bdb_attempts db !! b = Some s ->
    at_attempt_id r = at_attempt_id s -> a = b;
  wf_known_accounts : forall a,
    is_Some (bdb_subscriptions db !! a) \/ is_Some (bdb_customers db !! a)
    \/ is_Some (bdb_attempts db !! a) -> is_Some (bdb_accounts db !! a);
}.

(** What the invariant does not look at. *)
Definition same_tables (db db' : billing_db) : Prop :=
  bdb_accounts db' = bdb_accounts db /\ bdb_customers db' = bdb_customers db
  /\ bdb_subscriptions db' = bdb_subscriptions db /\ bdb_attempts db' = bdb_attempts db.

Lemma billing_wf_same db db' : same_tables db db' -> billing_wf db -> billing_wf db'.
Proof. intros (Ha & Hc & Hs & Ht) []. split; rewrite ?Ha, ?Hc, ?Hs, ?Ht; auto. Qed.

(** The subscription of an account replaced by one with the same or a free
    Stripe identifier. *)
Lemma billing_wf_subscription db db' account row :
  billing_wf db ->
  bdb_accounts db' = bdb_accounts db -> bdb_customers db' = bdb_customers db ->
  bdb_attempts db' = bdb_attempts db ->
  bdb_subscriptions db' = <[account := row]> (bdb_subscriptions db) ->
  sub_account_id row = account -> is_Some (bdb_accounts db !! account) ->
  (forall b s, b <> account -> bdb_subscriptions db !! b = Some s ->
     sub_stripe_subscription_id s <> sub_stripe_subscription_id row) ->
  billing_wf db'.
Proof.
  intros Hwf Ha Hc Ht Hs Hacc Hex Hfree. destruct Hwf as [W1 W2 W3 W4 W5].
  split; rewrite ?Ha, ?Hc, ?Ht, ?Hs; [| |done|done|].
  - intros a r [[-> <-]|[? Hl]]%lookup_insert_Some; [done|by apply W1].
  - intros a b r s [[<- <-]|[Hna Hr]]%lookup_insert_Some [[<- <-]|[Hnb Hs']]%lookup_insert_Some E;
      [done| | |by eapply W2].
    + by destruct (Hfree b s).
    + by destruct (Hfree a r).
  - intros a [H|H]; [|by apply W5; right]. destruct (decide (a = account)) as [->|Hn]; [done|].
    rewrite lookup_insert_ne in H by done. apply W5. by left.
Qed.

(** * The synchronisation *)

Section sync.
Context `{DB : Database}.

Lemma fetch_spec db a r : billing_wf db -> bdb_subscriptions db !! a = Some r ->
  _fetch db (sub_stripe_subscription_id r) = Ok (_stored r).
Proof.
  intros Hwf Hl. unfold _fetch.
  rewrite (filter_map_to_list _ _ a r Hl); [done| |].
  - by apply bool_decide_eq_true.
  - intros b s Hs Hp. simpl in Hp. apply bool_decide_eq_true in Hp.
    by eapply (wf_sub_unique db Hwf).
Qed.

Lemma reconcile_icps db account max now l db' :
  reconcile_territory_plan_limits db account max now = Ok (l, db') ->
  db' = with_icps db (bdb_icps db').
Proof. unfold reconcile_territory_plan_limits. intros H. by inv_pairs. Qed.

(** The columns the synchronisation writes from Stripe's state. *)
Record synced_row (base : subscription_row) (state : StripeSubscriptionState) (account : string)
    (created : option datetime) (row : subscription_row) : Prop := {
  sy_account : sub_account_id row = account;
  sy_sid : sub_stripe_subscription_id row = st_subscription_id state;
  sy_plan : sub_plan_code row = (resolve_plan state).1;
  sy_currency : sub_currency row = (resolve_plan state).2;
  sy_status : sub_status row = st_status state;
  sy_created : sub_last_stripe_event_created_at row = timestamptz <$> created;
  sy_sequence : sub_plan_change_sequence row = sub_plan_change_sequence base;
  sy_offer : sub_offer_code row =
    if truthy (st_discount_coupon_id state)
       && bool_decide ((resolve_plan state).1 = Some FOUNDING_PLAN_CODE)
    then Some "founding" else None;
}.

Lemma subscription_values_spec base state account created clear now row :
  subscription_values base state account (resolve_plan state).1
    (if truthy (st_discount_coupon_id state)
        && bool_decide ((resolve_plan state).1 = Some FOUNDING_PLAN_CODE)
     then Some "founding" else None) (resolve_plan state).2 created clear now = Ok row ->
  synced_row base state account created row.
Proof.
  unfold subscription_values. intros H. inv_result.
  repeat match goal with
  | H : varchar _ _ _ = Ok _ |- _ => apply varchar_Ok in H as [-> _]
  | H : opt_mapM (varchar _ _) _ = Ok _ |- _ => apply opt_varchar_Ok in H as ->
  end.
  by split.
Qed.

(** What the synchronisation does when it succeeds: it ignores an event
    older than the one applied last, or it writes one row. *)
Inductive sync_outcome (db : billing_db) (state : StripeSubscriptionState) (account : string)
    (created : option datetime) : StoredSubscription -> string -> billing_db -> Prop :=
| sync_stale r c p :
    bdb_subscriptions db !! account = Some r ->
    sub_stripe_subscription_id r = st_subscription_id state ->
    created = Some c -> aware_datetime (sub_last_stripe_event_created_at r) = Some p ->
    dt_ltb c p = true ->
    sync_outcome db state account created (_stored r) "stale_event_ignored" db
| sync_updated r row db' :
    bdb_subscriptions db !! account = Some r ->
    sub_stripe_subscription_id r = st_subscription_id state ->
    (forall c p, created = Some c -> aware_datetime (sub_last_stripe_event_created_at r) = Some p ->
       dt_ltb c p = false) ->
    synced_row r state account created row ->
    db' = with_icps (with_subscriptions db (<[account := row]> (bdb_subscriptions db)))
            (bdb_icps db') ->
    sync_outcome db state account created (_stored row) "updated" db'
| sync_created base row db' :
    (forall r, bdb_subscriptions db !! account = Some r ->
       sub_stripe_subscription_id r <> st_subscription_id state
       /\ is_open_subscription (sub_status r) = false) ->
    (forall b s, b <> account -> bdb_subscriptions db !! b = Some s ->
       sub_stripe_subscription_id s <> st_subscription_id state) ->
    is_Some (bdb_accounts db !! account) ->
    sub_plan_change_sequence base = 0 ->
    synced_row base state account created row ->
    db' = with_icps (with_subscriptions db (<[account := row]> (bdb_subscriptions db)))
            (bdb_icps db') ->
    sync_outcome db state account created (_stored row) "created" db'.

Lemma insert_subscription_spec db row db' :
  insert_subscription db row = Ok db' ->
  db' = with_subscriptions db (<[sub_account_id row := row]> (bdb_subscriptions db))
  /\ is_Some (bdb_accounts db !! sub_account_id row)
  /\ (forall b s, bdb_subscriptions db !! b = Some s ->
       sub_stripe_subscription_id s <> sub_stripe_subscription_id row).
Proof.
  unfold insert_subscription, account_exists, check_constraint. intros H. inv_result.
  split; [done|]. split; [by apply truthy_Some|].
  intros b s Hs. rewrite some_row_false in *.
  match goal with H : forall k r, _ -> bool_decide (sub_stripe_subscription_id r = _) = false |- _ =>
    specialize (H b s Hs); by apply bool_decide_eq_false in H end.
Qed.

Lemma closed_subscription db account :
  billing_wf db -> billing_wf (with_subscriptions db (delete account (bdb_subscriptions db))).
Proof.
  intros [W1 W2 W3 W4 W5]. split; simpl; [| |done|done|].
  - intros a r [_ Hl]%lookup_delete_Some. by apply W1.
  - intros a b r s [_ Hr]%lookup_delete_Some [_ Hs]%lookup_delete_Some. by eapply W2.
  - intros a [[r [_ Hr]%lookup_delete_Some]|H]; apply W5; [left; by eexists|by right].
Qed.

(** The row written is the row read back, and the profiles alone change
    after it. *)
Lemma written_back db account row stored limited db' now :
  billing_wf (with_subscriptions db (<[account := row]> (bdb_subscriptions db))) ->
  _fetch (with_subscriptions db (<[account := row]> (bdb_subscriptions db)))
    (sub_stripe_subscription_id row) = Ok stored ->
  _reconcile_target_icp_territories
    (with_subscriptions db (<[account := row]> (bdb_subscriptions db))) stored now
    = Ok (limited, db') ->
  stored = _stored row
  /\ db' = with_icps (with_subscriptions db (<[account := row]> (bdb_subscriptions db)))
             (bdb_icps db').
Proof.
  intros Hwf Hf Hr.
  erewrite fetch_spec in Hf; [|done|simpl; apply lookup_insert_eq]. simplify_eq.
  split; [done|]. by eapply reconcile_icps.
Qed.

(** The branch that inserts the first or the next subscription. *)
Lemma create_spec db token state account created clear now stored action db' :
  let db0 := with_subscriptions db (delete account (bdb_subscriptions db)) in
  billing_wf db ->
  (forall r, bdb_subscriptions db !! account = Some r ->
     sub_stripe_subscription_id r <> st_subscription_id state
     /\ is_open_subscription (sub_status r) = false) ->
  (let! row := subscription_values (new_row ("bsub_" +:+ token) now) state account
       (resolve_plan state).1
       (if truthy (st_discount_coupon_id state)
           && bool_decide ((resolve_plan state).1 = Some FOUNDING_PLAN_CODE)
        then Some "founding" else None) (resolve_plan state).2 created clear now in
   let! db1 := insert_subscription db0 row in
   let! stored := _fetch db1 (st_subscription_id state) in
   let! (_, db2) := _reconcile_target_icp_territories db1 stored now in
   Ok (stored, "created", db2)) = Ok (stored, action, db') ->
  sync_outcome db state account created stored action db'.
Proof.
  intros db0 Hwf Hclosed H.
  apply result_bind_Ok in H as (row & Hrow & H). apply subscription_values_spec in Hrow.
  apply result_bind_Ok in H as (db1 & Hins & H). apply insert_subscription_spec in Hins.
  destruct Hins as (-> & Hex & Hfree). rewrite (sy_account _ _ _ _ _ Hrow) in *.
  rewrite (sy_sid _ _ _ _ _ Hrow) in Hfree. simpl in Hex, Hfree.
  assert (E : with_subscriptions db0 (<[account := row]> (bdb_subscriptions db0))
              = with_subscriptions db (<[account := row]> (bdb_subscriptions db)))
    by (unfold db0, with_subscriptions; simpl; by rewrite insert_delete_eq).
  rewrite E in H.
  assert (Hfree' : forall b s, b <> account -> bdb_subscriptions db !! b = Some s ->
            sub_stripe_subscription_id s <> st_subscription_id state)
    by (intros b s Hb Hs; apply (Hfree b); by rewrite lookup_delete_ne).
  apply result_bind_Ok in H as (stored' & Hf & H). apply result_bind_Ok in H as ([l db2] & Hr & H).
  simplify_eq. rewrite <- (sy_sid _ _ _ _ _ Hrow) in Hf.
  apply (written_back _ _ _ _ _ _ _) in Hr as [-> Hdb]; [| |done].
  - by apply (sync_created _ _ _ _ (new_row ("bsub_" +:+ token) now) row).
  - eapply (billing_wf_subscription db _ account row Hwf); try done.
    + apply Hrow.
    + intros b s Hb Hs. rewrite (sy_sid _ _ _ _ _ Hrow). by apply (Hfree' b).
Qed.

Lemma update_spec db state account created clear now r stored action db' :
  billing_wf db -> bdb_subscriptions db !! account = Some r ->
  sub_stripe_subscription_id r = st_subscription_id state ->
  (forall c p, created = Some c -> aware_datetime (sub_last_stripe_event_created_at r) = Some p ->
     dt_ltb c p = false) ->
  (let! row := subscription_values r state account (resolve_plan state).1
       (if truthy (st_discount_coupon_id state)
           && bool_decide ((resolve_plan state).1 = Some FOUNDING_PLAN_CODE)
        then Some "founding" else None) (resolve_plan state).2 created clear now in
   let db := with_subscriptions db (<[account := row]> (bdb_subscriptions db)) in
   let! stored := _fetch db (st_subscription_id state) in
   let! (_, db1) := _reconcile_target_icp_territories db stored now in
   Ok (stored, "updated", db1)) = Ok (stored, action, db') ->
  sync_outcome db state account created stored action db'.
Proof.
  intros Hwf Hl Hsid Hnew H.
  apply result_bind_Ok in H as (row & Hrow & H). apply subscription_values_spec in Hrow.
  apply result_bind_Ok in H as (stored' & Hf & H). apply result_bind_Ok in H as ([l db2] & Hr & H).
  simplify_eq. rewrite <- (sy_sid _ _ _ _ _ Hrow) in Hf.
  apply (written_back _ _ _ _ _ _ _) in Hr as [-> Hdb]; [| |done].
  - by eapply sync_updated.
  - eapply (billing_wf_subscription db _ account row Hwf); try done.
    + apply Hrow.
    + eapply (wf_known_accounts db Hwf). left. by eexists.
    + intros b s Hb Hs E. apply Hb. eapply (wf_sub_unique db Hwf); [done..|].
      by rewrite E, (sy_sid _ _ _ _ _ Hrow).
Qed.

Lemma synchronize_spec db token state account created live now stored action db' :
  billing_wf db ->
  synchronize_subscription db token state account created live now = Ok (stored, action, db') ->
  sync_outcome db state account created stored action db' /\ st_livemode state = live.
Proof.
  intros Hwf H. unfold synchronize_subscription in H.
  rewrite (surjective_pairing (resolve_plan state)) in H.
  apply result_bind_Ok in H as (u & Hmode & H). split.
  2:{ unfold require_stripe_mode in Hmode. inv_result. by apply Bool.eqb_prop. }
  clear Hmode u. cbn [fst snd] in H.
  destruct (bdb_subscriptions db !! account) as [r|] eqn:Hr.
  - destruct (bool_decide_reflect (sub_stripe_subscription_id r = st_subscription_id state))
      as [Hsid|Hsid]; cbn [result_bind] in H.
    + destruct (match created with Some _ => _ | None => false end) eqn:Hstale.
      * simplify_eq. destruct created as [c|]; [|done].
        destruct (aware_datetime (sub_last_stripe_event_created_at r)) as [p|] eqn:Hp; [|done].
        by eapply sync_stale.
      * eapply update_spec; [done..| |exact H]. intros c p -> Hp. by rewrite Hp in Hstale.
    + destruct (is_open_subscription (sub_status r)) eqn:Hopen; [done|]. cbn [result_bind] in H.
      assert (Hterm : in_list (sub_status r) TERMINAL_STATUSES = true)
        by (unfold is_open_subscription in Hopen; by apply negb_false_iff in Hopen).
      rewrite Hterm in H. eapply create_spec; [done| |exact H].
      intros r' Hr'. by simplify_eq.
  - cbn [result_bind] in H.
    assert (Hdb : db = with_subscriptions db (delete account (bdb_subscriptions db)))
      by (rewrite delete_id by done; by destruct db).
    eapply create_spec; [done| |rewrite <- Hdb; exact H]. intros r Hr'. by simplify_eq.
Qed.

(** The synchronisation keeps the invariant. *)
Lemma sync_outcome_wf db state account created stored action db' :
  billing_wf db -> sync_outcome db state account created stored action db' -> billing_wf db'.
Proof.
  intros Hwf [| r row db'' Hr Hsid _ Hrow Hdb | base row db'' _ Hfree Hex _ Hrow Hdb]; [done|..];
    rewrite Hdb; (eapply (billing_wf_subscription db _ account row Hwf); [done..|apply Hrow| |]).
  - eapply (wf_known_accounts db Hwf). left. by eexists.
  - intros b s Hb Hs E. apply Hb. eapply (wf_sub_unique db Hwf); [done..|].
    by rewrite E, (sy_sid _ _ _ _ _ Hrow).
  - done.
  - intros b s Hb Hs. rewrite (sy_sid _ _ _ _ _ Hrow). by apply (Hfree b).
Qed.
End sync.

(** * Attempts *)

(** An update of an attempt that keeps its identifier. *)
Lemma update_attempt_spec db account where_ set_ :
  (forall r, at_attempt_id (set_ r) = at_attempt_id r) -> billing_wf db ->
  let db' := (update_attempt db account where_ set_).2 in
  billing_wf db'
  /\ db' = with_attempts db (bdb_attempts db')
  /\ (forall a, a <> account -> bdb_attempts db' !! a = bdb_attempts db !! a)
  /\ bdb_attempts db' !! account =
       (fun r => if where_ r : bool then set_ r else r) <$> bdb_attempts db !! account.
Proof.
  intros Hid Hwf. unfold update_attempt.
  assert (Heta : db = with_attempts db (bdb_attempts db)) by (by destruct db).
  destruct (bdb_attempts db !! account) as [r|] eqn:Hr; cbn [snd fmap option_fmap option_map];
    [|by rewrite Hr].
  destruct (where_ r) eqn:Hw; cbn [snd]; [|by rewrite Hr].
  split_and!; [|done| |simpl; by rewrite lookup_insert_eq].
  2:{ intros a Ha. simpl. by rewrite lookup_insert_ne. }
  destruct Hwf as [W1 W2 W3 W4 W5]. split; simpl; [done|done|done| |].
  - assert (Hold : forall a s, <[account := set_ r]> (bdb_attempts db) !! a = Some s ->
      exists s', bdb_attempts db !! a = Some s' /\ at_attempt_id s' = at_attempt_id s).
    { intros a s [[<- <-]|[? Hl]]%lookup_insert_Some; [by exists r|by exists s]. }
    intros a b s s' (t & Ht & E)%Hold (t' & Ht' & E')%Hold Hids. eapply W4; [done..|congruence].
  - intros a [H|[H|H]]; [apply W5; auto..|]. apply W5. right; right.
    destruct (decide (a = account)) as [->|Hn]; [by rewrite Hr|].
    by rewrite lookup_insert_ne in H.
Qed.

(** * Transactions *)

Section tx_facts.
Context {W : Type}.

Lemma tx_bind_Ok {A B} (m : tx W A) (k : A -> tx W B) db w b db' w' :
  tx_bind m k db w = (Ok (b, db'), w') ->
  exists a db1 w1, m db w = (Ok (a, db1), w1) /\ k a db1 w1 = (Ok (b, db'), w').
Proof.
  unfold tx_bind. destruct (m db w) as [[[a db1]|e] w1]; [|done].
  intros H. by exists a, db1, w1.
Qed.

Lemma tx_call_Ok {A} (f : W -> result A * W) db w a db' w' :
  tx_call f db w = (Ok (a, db'), w') -> f w = (Ok a, w') /\ db' = db.
Proof. unfold tx_call. destruct (f w) as [[]]; intros; by simplify_eq. Qed.

Lemma tx_read_Ok {A} (f : billing_db -> result A) db w a db' w' :
  @tx_read W A f db w = (Ok (a, db'), w') -> f db = Ok a /\ db' = db /\ w' = w.
Proof.
  unfold tx_read. intros H. injection H as H <-. apply result_bind_Ok in H as (v & Hv & H).
  by simplify_eq.
Qed.

Lemma tx_sql_Ok {A} (f : billing_db -> result (A * billing_db)) db w a db' w' :
  @tx_sql W A f db w = (Ok (a, db'), w') -> f db = Ok (a, db') /\ w' = w.
Proof. unfold tx_sql. intros. by simplify_eq. Qed.

Lemma tx_exec_Ok (f : billing_db -> result billing_db) db w a db' w' :
  @tx_exec W f db w = (Ok (a, db'), w') -> f db = Ok db' /\ w' = w.
Proof.
  unfold tx_exec. intros H. injection H as H <-. apply result_bind_Ok in H as (v & Hv & H).
  by simplify_eq.
Qed.

Lemma tx_ret_Ok {A} (x : A) db w a db' w' :
  @tx_ret W A x db w = (Ok (a, db'), w') -> x = a /\ db' = db /\ w' = w.
Proof. unfold tx_ret. intros. by simplify_eq. Qed.
End tx_facts.

(** Inversion of a transaction that succeeds. *)
Ltac inv_tx_step :=
  match goal with
  | H : tx_bind _ _ _ _ = (Ok _, _) |- _ =>
      let a := fresh "a" in let db := fresh "db" in let w := fresh "w" in
      apply tx_bind_Ok in H as (a & db & w & ? & H)
  | H : tx_call _ _ _ = (Ok _, _) |- _ => apply tx_call_Ok in H as [H ->]
  | H : tx_read _ _ _ = (Ok _, _) |- _ => apply tx_read_Ok in H as (H & -> & ->)
  | H : tx_sql _ _ _ = (Ok _, _) |- _ => apply tx_sql_Ok in H as [H ->]
  | H : tx_exec _ _ _ = (Ok _, _) |- _ => apply tx_exec_Ok in H as [H ->]
  | H : tx_ret _ _ _ = (Ok _, _) |- _ => apply tx_ret_Ok in H as (H & -> & ->)
  | H : (if ?b then _ else fun _ w => (Raise _, w)) _ _ = (Ok _, _) |- _ =>
      let E := fresh "Hg" in destruct b eqn:E; [|discriminate H]
  end.
Ltac inv_tx := repeat inv_tx_step.
