(* ===== verification/BillingSpecs.v ===== *)
(** BillingSpecs: what each transaction of the billing components does when
    it succeeds: the handling of a Stripe event, a change of plan, the
    preparation of a checkout and the grants. *)

From S2P Require Import Prelude PyStr PyDatetime PyJson AcquisitionEquiv Database Recency.
From S2P Require Import PolicyStore BillingCatalogue BillingStore BillingService.
From S2P Require Import BillingCheckout BillingWebhooks BillingPlanChange BillingGrants.
From S2P Require Import BillingFacts.

Local Open Scope string_scope.
Local Open Scope Z_scope.
Local Open Scope list_scope.

(** * Events *)

Section webhooks.
Context {W : Type} `{DB : Database} `{Stripe : StripeGateway W}.
Variables (payload_hash : string)
  (observe : option (string -> StoredSubscription -> datetime -> W -> result unit * W)).
Variables (token : string) (event : StripeEvent) (live : bool) (now : datetime).

Let handle := handle_event payload_hash observe token event live now.
Let close := close_session event now.

Lemma record_spec r detail db db' :
  _record payload_hash event now r detail db = Ok db' ->
  bdb_events db !! ev_event_id event = None
  /\ exists row, db' = with_events db (<[ev_event_id event := row]> (bdb_events db)).
Proof.
  unfold _record, check_constraint. intros H. inv_result.
  match goal with H : varchar "stripe_event_id" _ _ = Ok _ |- _ => apply varchar_Ok in H as [-> _] end.
  split; [by apply truthy_None|by eexists].
Qed.

Lemma conclude_spec r recorded told db w o db' w' :
  @conclude W DB payload_hash event now r recorded told db w = (Ok (o, db'), w') ->
  wo_result o = r /\ wo_event_id o = ev_event_id event
  /\ exists row, db' = with_events db (<[ev_event_id event := row]> (bdb_events db)).
Proof.
  unfold conclude. intros H. inv_tx. subst.
  match goal with H : _record _ _ _ _ _ _ = Ok _ |- _ => apply record_spec in H as [_ [row ->]] end.
  eauto.
Qed.

Lemma close_session_spec db : billing_wf db ->
  billing_wf (close db) /\ close db = with_attempts db (bdb_attempts (close db)).
Proof.
  intros Hwf. assert (Heta : db = with_attempts db (bdb_attempts db)) by (by destruct db).
  unfold close, close_session. destruct (in_list _ _); [|done].
  destruct (as_str _) as [sid|]; [|done]. unfold close_attempt.
  destruct (List.find _ _) as [[a r]|]; [|done].
  edestruct (update_attempt_spec db a (fun _ => true)) as (H1 & H2 & _); [|exact Hwf|eauto]. done.
Qed.

(** What happened of an event: already seen, recorded without touching a
    subscription, or recorded with the synchronisation of an account. *)
Inductive handled (db : billing_db) : WebhookOutcome -> billing_db -> Prop :=
| handled_duplicate o :
    already_processed db (ev_event_id event) = true -> wo_result o = RESULT_DUPLICATE ->
    handled db o db
| handled_recorded o db1 row :
    db1 = db \/ db1 = close db -> wo_result o <> RESULT_APPLIED ->
    handled db o (with_events db1 (<[ev_event_id event := row]> (bdb_events db1)))
| handled_synchronized o state account stored action db1 row :
    sync_outcome (close db) state account (Some (ev_created event)) stored action db1 ->
    (wo_result o = RESULT_APPLIED <-> action <> "stale_event_ignored") ->
    handled db o (with_events db1 (<[ev_event_id event := row]> (bdb_events db1))).

Lemma apply_subscription_spec db w o db' w' :
  billing_wf db ->
  apply_subscription payload_hash observe token event live now (close db) w = (Ok (o, db'), w') ->
  handled db o db'.
Proof.
  intros Hwf H. unfold apply_subscription in H.
  assert (Hplain : forall r x y w1, r <> RESULT_APPLIED ->
    @conclude W DB payload_hash event now r x y (close db) w1 = (Ok (o, db'), w') -> handled db o db').
  { intros r x y w1 Hr Hc. apply conclude_spec in Hc as (Eo & _ & row & ->).
    apply handled_recorded; [by right|congruence]. }
  destruct (subscription_id event); [|by eapply Hplain in H].
  apply tx_bind_Ok in H as (fetched & db1 & w1 & Hf & H). apply tx_call_Ok in Hf as [_ ->].
  destruct fetched as [state|]; [|by eapply Hplain in H].
  apply tx_bind_Ok in H as (found & db1 & w2 & Ha & H). apply tx_read_Ok in Ha as (_ & -> & ->).
  destruct found as [account|]; [|by eapply Hplain in H].
  apply tx_bind_Ok in H as (done_ & db1 & w3 & Hs & H). unfold synchronize_and_observe in Hs.
  destruct (synchronize_subscription _ _ _ _ _ _ _) as [[[stored action] db2]|e] eqn:Es.
  - assert (Ha : done_ = inr action /\ db1 = db2).
    { destruct observe as [f|]; [|by simplify_eq].
      destruct (f account stored now w1) as [[] ?]; cbn in Hs; by simplify_eq. }
    destruct Ha as [-> ->]. apply conclude_spec in H as (Eo & _ & row & ->).
    apply synchronize_spec in Es as [Es _]; [|by apply close_session_spec].
    eapply handled_synchronized; [exact Es|]. rewrite Eo. by case_bool_decide.
  - destruct e; try done. repeat case_match; simplify_eq; by eapply Hplain in H.
Qed.

Lemma handle_event_spec db w o db' w' :
  billing_wf db -> handle db w = (Ok (o, db'), w') -> handled db o db'.
Proof.
  intros Hwf H. unfold handle, handle_event in H. inv_tx_step. inv_tx_step. simplify_eq.
  destruct (already_processed db (ev_event_id event)) eqn:Hseen.
  { inv_tx. subst. by apply handled_duplicate. }
  assert (Hplain : forall db1 r x y w1, db1 = db \/ db1 = close db -> r <> RESULT_APPLIED ->
    @conclude W DB payload_hash event now r x y db1 w1 = (Ok (o, db'), w') -> handled db o db').
  { intros db1 r x y w1 Hdb Hr Hc. apply conclude_spec in Hc as (Eo & _ & row & ->).
    apply handled_recorded; [done|congruence]. }
  destruct (negb _); [eapply Hplain in H; auto|].
  destruct (in_list _ ACKNOWLEDGED_EVENT_TYPES); [eapply Hplain in H; auto|].
  destruct (negb _); [eapply Hplain in H; auto|].
  inv_tx_step. inv_tx_step. simplify_eq. fold (close db) in *.
  destruct (bool_decide _); [eapply Hplain in H; auto|]. by eapply apply_subscription_spec.
Qed.
End webhooks.

(** * Plan changes *)

Section plan_change.
Context {W : Type} `{DB : Database} `{Stripe : StripeGateway W}.

Lemma changeable_spec db account s plan currency :
  _changeable db account = Ok (s, plan, currency) ->
  exists r, bdb_subscriptions db !! account = Some r /\ s = _stored r
    /\ is_open_subscription (sub_status r) = true /\ sub_plan_code r = Some plan.
Proof.
  unfold _changeable. intros H.
  destruct (bool_decide_reflect (billing_action db account = ACTION_MANAGE_SUBSCRIPTION))
    as [Ha|]; [|done].
  unfold billing_action, current_subscription in *.
  destruct (bdb_subscriptions db !! account) as [r|]; [|done]. cbn [fmap option_fmap option_map] in *.
  unfold is_open in Ha. cbn [_stored ss_status ss_plan_code ss_currency] in *.
  destruct (is_open_subscription (sub_status r)) eqn:Ho; [|done].
  destruct (sub_plan_code r) as [p|] eqn:Hp; [|done].
  destruct (sub_currency r) as [c|]; [|done]. destruct (in_list c CURRENCIES); [|done].
  simplify_eq. by exists r.
Qed.

(** The row with another announcement. *)
Inductive rescheduled (db : billing_db) (account : string) (plan : option string)
  : billing_db -> Prop :=
| rescheduled_row r at_ schedule now :
    bdb_subscriptions db !! account = Some r ->
    rescheduled db account plan
      (with_subscriptions db
        (<[account := with_schedule plan at_ schedule (sub_plan_change_sequence r + 1) now r]>
          (bdb_subscriptions db))).

Lemma clear_scheduled_spec db account now db' r :
  bdb_subscriptions db !! account = Some r ->
  _clear_scheduled account now true db = Ok db' -> rescheduled db account None db'.
Proof.
  intros Hr H. unfold _clear_scheduled, update_subscription in H. rewrite Hr in H. inv_result.
  by apply rescheduled_row.
Qed.

Lemma record_scheduled_spec db account plan at_ schedule now db' r :
  bdb_subscriptions db !! account = Some r ->
  _record_scheduled account plan at_ schedule now db = Ok db' ->
  rescheduled db account (Some plan) db'.
Proof.
  intros Hr H. unfold _record_scheduled, update_subscription in H. rewrite Hr in H. inv_result.
  match goal with H : varchar _ _ _ = Ok _ |- _ => apply varchar_Ok in H as [-> _] end.
  by apply rescheduled_row.
Qed.

Lemma authorised_price_spec plan currency db w p db' w' :
  _authorised_price plan currency db w = (Ok (p, db'), w') -> db' = db.
Proof. unfold _authorised_price. intros H. by inv_tx. Qed.

(** What a successful change did: nothing, because it was scheduled
    already; the price changed now; or a change scheduled. *)
Inductive changed (db : billing_db) (account target : string) (now : datetime)
    (r : subscription_row) : billing_db -> plan_effect -> Prop :=
| changed_before : sub_scheduled_plan_code r = Some target ->
    changed db account target now r db EFFECT_SCHEDULED
| changed_now state stored action db1 db' :
    sub_plan_code r <> Some target ->
    sync_outcome db state account (Some now) stored action db1 ->
    rescheduled db1 account None db' ->
    changed db account target now r db' EFFECT_IMMEDIATE
| changed_later db' :
    sub_plan_code r <> Some target -> rescheduled db account (Some target) db' ->
    changed db account target now r db' EFFECT_SCHEDULED.

Lemma sync_outcome_row db state account created stored action db' r :
  bdb_subscriptions db !! account = Some r ->
  sync_outcome db state account created stored action db' ->
  is_Some (bdb_subscriptions db' !! account).
Proof.
  intros Hr []; [by eexists|..];
    (match goal with H : ?d = with_icps _ (bdb_icps ?d) |- _ => rewrite H end);
    simpl; rewrite lookup_insert_eq; by eexists.
Qed.

Lemma request_plan_change_spec token account target now live db w o db' w' :
  billing_wf db ->
  request_plan_change token account target now live db w = (Ok (o, db'), w') ->
  exists r, bdb_subscriptions db !! account = Some r
    /\ is_open_subscription (sub_status r) = true
    /\ changed db account target now r db' (po_effect o)
    /\ (sub_scheduled_plan_code r = Some target -> db' = db /\ w' = w).
Proof.
  intros Hwf H. unfold request_plan_change in H.
  apply tx_bind_Ok in H as ([[s plan] currency] & db1 & w1 & Hc & H).
  apply tx_read_Ok in Hc as (Hc & -> & ->).
  apply changeable_spec in Hc as (r & Hr & -> & Hopen & Hplan). exists r. split_and!; [done..| |].
  - destruct (bool_decide_reflect (ss_scheduled_plan_code (_stored r) = Some target)) as [Hs|Hs].
    { inv_tx. subst. by apply changed_before. }
    inv_tx_step. apply negb_true_iff, bool_decide_eq_false in Hg.
    assert (Hne : sub_plan_code r <> Some target) by congruence.
    apply tx_bind_Ok in H as (price & db1 & w1 & Hp & H). apply authorised_price_spec in Hp as ->.
    cbv zeta in H.
    apply tx_bind_Ok in H as (rank & db1 & w2 & Hk & H). apply tx_read_Ok in Hk as (_ & -> & ->).
    apply tx_bind_Ok in H as (rank' & db1 & w2 & Hk & H). apply tx_read_Ok in Hk as (_ & -> & ->).
    destruct (rank' <? rank).
    + apply tx_bind_Ok in H as (u & db1 & w2 & Hrel & H).
      assert (db1 = db) as -> by (destruct (truthy _) in Hrel; by inv_tx).
      apply tx_bind_Ok in H as (state & db1 & w3 & Hst & H). apply tx_call_Ok in Hst as [_ ->].
      apply tx_bind_Ok in H as (u' & db1 & w4 & Hsync & H). apply tx_exec_Ok in Hsync as [Hsync ->].
      apply result_bind_Ok in Hsync as ([[stored action] db2] & Hsync & E). simplify_eq.
      apply synchronize_spec in Hsync as [Hsync _]; [|done].
      destruct (sync_outcome_row _ _ _ _ _ _ _ _ Hr Hsync) as [r1 Hr1].
      inv_tx. subst. eapply changed_now; [done|exact Hsync|]. by eapply clear_scheduled_spec.
    + apply tx_bind_Ok in H as (scheduled & db1 & w2 & Hst & H). apply tx_call_Ok in Hst as [_ ->].
      inv_tx. subst. eapply changed_later; [done|]. by eapply record_scheduled_spec.
  - intros Hs. destruct (bool_decide_reflect (ss_scheduled_plan_code (_stored r) = Some target)).
    { by inv_tx. }
    done.
Qed.

Lemma cancel_scheduled_spec account now db w u db' w' :
  cancel_scheduled_plan_change account now db w = (Ok (u, db'), w') ->
  exists r, bdb_subscriptions db !! account = Some r
    /\ is_Some (sub_scheduled_plan_code r) /\ rescheduled db account None db'.
Proof.
  intros H. unfold cancel_scheduled_plan_change in H.
  apply tx_bind_Ok in H as ([[s plan] currency] & db1 & w1 & Hc & H).
  apply tx_read_Ok in Hc as (Hc & -> & ->).
  apply changeable_spec in Hc as (r & Hr & -> & Hopen & Hplan). exists r. inv_tx.
  split_and!; [done|by apply truthy_Some|]. by eapply clear_scheduled_spec.
Qed.
End plan_change.

(** * Checkout *)

Section checkout.
Context `{DB : Database}.
Variable aborts : bool.

Lemma expire_stale_spec db account now : billing_wf db ->
  let db' := (expire_stale db account now).2 in
  billing_wf db' /\ db' = with_attempts db (bdb_attempts db').
Proof.
  intros Hwf. edestruct (update_attempt_spec db account
    (fun r => dt_leb (at_expires_at r) now && negb (in_list (at_status r) TERMINAL_ATTEMPT_STATUSES))
    (fun r => set_status "expired" (at_stripe_checkout_session_id r) now r)) as (H1 & H2 & _);
    [done|exact Hwf|by split].
Qed.

Lemma reserved_row_spec attempt created row :
  reserved_row attempt created = Ok row ->
  row = mkAttempt (sa_attempt_id attempt) (sa_plan_code attempt) (sa_currency attempt) None
          "creating" (timestamptz (sa_expires_at attempt)) created
          (timestamptz (sa_updated_at attempt)).
Proof.
  unfold reserved_row. intros H. inv_result.
  repeat match goal with H : varchar _ _ _ = Ok _ |- _ => apply varchar_Ok in H as [-> _] end. done.
Qed.

(** The attempt a reservation answers with: the one being created for the
    same purchase, or a new one, the place being free. *)
Inductive reserved (others : billing_db -> billing_db) (db : billing_db)
    (token account plan currency : string) (now : datetime) : StoredAttempt -> billing_db -> Prop :=
| reserved_again r :
    bdb_attempts db !! account = Some r ->
    attempt_is_open (attempt_of_row account r) now = true ->
    at_status r = "creating" -> at_plan_code r = plan -> at_currency r = currency ->
    reserved others db token account plan currency now (attempt_of_row account r) db
| reserved_new expires created :
    let attempt := mkStoredAttempt account ("cka_" +:+ token) plan currency None "creating"
                     expires now now in
    let row := mkAttempt ("cka_" +:+ token) plan currency None "creating" (timestamptz expires)
                 created (timestamptz now) in
    let db1 := others db in
    dt_add now CHECKOUT_ATTEMPT_TTL = Ok expires ->
    (forall r, bdb_attempts db !! account = Some r ->
       attempt_is_open (attempt_of_row account r) now = false) ->
    (is_Some (bdb_accounts db1 !! account) \/ is_Some (bdb_attempts db1 !! account)) ->
    (forall r, bdb_attempts db1 !! account = Some r ->
       exists r0, bdb_attempts db !! account = Some r0 /\ at_attempt_id r = at_attempt_id r0) ->
    attempt_id_taken db1 account ("cka_" +:+ token) = false ->
    reserved others db token account plan currency now attempt
      (with_attempts db1 (<[account := row]> (bdb_attempts db1))).

Lemma reserve_spec others db token account plan currency now a db' :
  reserve aborts others db token account plan currency now = Ok (a, db') ->
  reserved others db token account plan currency now a db'.
Proof.
  unfold reserve, current_attempt.
  destruct (bdb_attempts db !! account) as [r|] eqn:Hr; cbn [fmap option_fmap option_map].
  - destruct (attempt_is_open (attempt_of_row account r) now) eqn:Hopen.
    { destruct (bool_decide _ && _) eqn:Hm; [|done]. intros H. simplify_eq.
      unfold attempt_matches in Hm. inv_result. by eapply reserved_again. }
    cbv zeta. intros H. apply result_bind_Ok in H as (expires & He & H).
    destruct (bdb_attempts (others db) !! account) as [r1|] eqn:Hr1; [|done].
    destruct (bool_decide_reflect (at_attempt_id r1 = sa_attempt_id (attempt_of_row account r)))
      as [Hid|]; [|done].
    apply result_bind_Ok in H as (row & Hrow & H). apply reserved_row_spec in Hrow as ->.
    apply result_bind_Ok in H as (u & Hc & H). unfold check_constraint in Hc. inv_result. simpl.
    apply reserved_new; [done|by intros r2 Hr2; simplify_eq|by right; eexists| |done].
    intros r' Hr'. simplify_eq. by exists r.
  - cbv zeta. intros H. apply result_bind_Ok in H as (expires & He & H).
    apply result_bind_Ok in H as (row & Hrow & H). apply reserved_row_spec in Hrow as ->.
    destruct (_ && _ && _) eqn:Hok; [|by repeat case_match]. simplify_eq. simpl. inv_result.
    apply reserved_new; [done|by intros; simplify_eq|left; by apply truthy_Some| |done].
    intros r' Hr'. exfalso.
    match goal with H : truthy (bdb_attempts (others db) !! _) = false |- _ =>
      by rewrite Hr' in H end.
Qed.

(** The attempt is read back while it is open, whoever asks. *)
Lemma reserve_open others db token account plan currency now r :
  bdb_attempts db !! account = Some r ->
  attempt_is_open (attempt_of_row account r) now = true ->
  reserve aborts others db token account plan currency now =
    if bool_decide (at_status r = "creating")
       && (bool_decide (at_plan_code r = plan) && bool_decide (at_currency r = currency))
    then Ok (attempt_of_row account r, db)
    else Raise (CheckoutInProgress (attempt_of_row account r)).
Proof.
  intros Hr Hopen. unfold reserve, current_attempt. rewrite Hr.
  cbn [fmap option_fmap option_map]. by rewrite Hopen.
Qed.

(** The other transactions leave the keys of the tables as they must be. *)
Lemma reserved_wf others db token account plan currency now a db' :
  (forall d, billing_wf d -> billing_wf (others d)) ->
  billing_wf db -> reserved others db token account plan currency now a db' -> billing_wf db'.
Proof.
  intros Hothers Hwf0 [r|expires created attempt row db1 He Hfree Hex _ Htaken]; [done|].
  pose proof (Hothers db Hwf0) as Hwf. fold db1 in Hwf. unfold attempt_id_taken in Htaken.
  rewrite some_row_false in Htaken.
  destruct Hwf as [W1 W2 W3 W4 W5]. split; simpl; [done..| |].
  - assert (Hnew : forall b s, b <> account -> bdb_attempts db1 !! b = Some s ->
      at_attempt_id s <> "cka_" +:+ token).
    { intros b s Hb Hs E. specialize (Htaken b s Hs). simpl in Htaken.
      apply andb_false_iff in Htaken. by destruct Htaken; inv_result. }
    intros b c s t [[<- <-]|[Hb Hs]]%lookup_insert_Some [[<- <-]|[Hc Ht]]%lookup_insert_Some E;
      [done| | |by eapply W4].
    + by destruct (Hnew c t).
    + by destruct (Hnew b s).
  - intros b [H|[H|H]]; [apply W5; auto..|]. destruct (decide (b = account)) as [->|Hn].
    + destruct Hex as [|Hex]; [done|]. apply W5. auto.
    + rewrite lookup_insert_ne in H by done. apply W5. auto.
Qed.

Lemma reserved_alone db token account plan currency now a db' :
  reserved id db token account plan currency now a db' -> db' = with_attempts db (bdb_attempts db').
Proof. intros []; [by destruct db | done]. Qed.
End checkout.

Section customer.
Context {W : Type} `{DB : Database} `{Stripe : StripeGateway W}.
Variable aborts : bool.

Lemma insert_customer_spec account customer now db db' : billing_wf db ->
  insert_customer account customer now db = Ok db' ->
  billing_wf db' /\ db' = with_customers db (bdb_customers db').
Proof.
  intros Hwf H. unfold insert_customer, account_exists, check_constraint in H. inv_result.
  apply varchar_Ok in Hv as [-> _]. split; [|done].
  match goal with H : some_row _ _ = false |- _ => rewrite some_row_false in H; rename H into Hu end.
  destruct Hwf as [W1 W2 W3 W4 W5]. split; simpl; [done|done| |done|].
  - assert (Hnew : forall b s, bdb_customers db !! b = Some s ->
      cu_stripe_customer_id s <> sc_customer_id customer)
      by (intros b s Hs; specialize (Hu b s Hs); by inv_result).
    intros b c s t [[<- <-]|[Hb Hs]]%lookup_insert_Some [[<- <-]|[Hc Ht]]%lookup_insert_Some E;
      [done| | |by eapply W3].
    + by destruct (Hnew c t).
    + by destruct (Hnew b s).
  - intros b [H|[H|H]]; [apply W5; auto| |apply W5; auto].
    destruct (decide (b = account)) as [->|Hn]; [by apply truthy_Some|].
    rewrite lookup_insert_ne in H by done. apply W5. auto.
Qed.

Lemma ensure_customer_spec account live now db w c db' w' : billing_wf db ->
  ensure_stripe_customer account live now db w = (Ok (c, db'), w') ->
  billing_wf db' /\ db' = with_customers db (bdb_customers db').
Proof.
  intros Hwf H. unfold ensure_stripe_customer in H. inv_tx_step. inv_tx_step. simplify_eq.
  destruct (stripe_customer_id db account).
  { inv_tx. split; [done|by destruct db]. }
  inv_tx. by eapply insert_customer_spec.
Qed.

(** What a prepared checkout rests on. *)
Record prepared_from (others : billing_db -> billing_db) (configuration : CheckoutConfiguration)
    (db : billing_db) (w : W) (token account plan currency : string) (now : datetime)
    (p : PreparedCheckout) (db' : billing_db) : Prop := {
  pf_purchasable : plan ∈ PURCHASABLE_PLANS;
  pf_not_subscribed : forall r, bdb_subscriptions db !! account = Some r ->
    is_open_subscription (sub_status r) = false;
  pf_price : exists key price w1, lookup_key_for plan currency = Ok key
    /\ price_for_lookup_key key w = (Ok (Some price), w1)
    /\ pr_active price = true /\ pr_currency price = currency
    /\ pr_livemode price = cc_livemode configuration /\ pp_price_id p = pr_price_id price;
  pf_attempt : exists db1, billing_wf db1
    /\ db1 = with_customers (with_attempts db (bdb_attempts db1)) (bdb_customers db1)
    /\ bdb_attempts db1 = bdb_attempts (expire_stale db account now).2
    /\ reserved others db1 token account plan currency now (pp_attempt p) db';
}.

Lemma prepare_checkout_spec others configuration token account plan currency now founding
    db w p db' w' : billing_wf db ->
  prepare_checkout aborts others configuration token account plan currency now founding db w
    = (Ok (p, db'), w') ->
  prepared_from others configuration db w token account plan currency now p db'.
Proof.
  intros Hwf H. unfold prepare_checkout in H. inv_tx_step. inv_tx_step.
  apply in_list_true in Hg0.
  destruct (expire_stale_spec db account now Hwf) as [Hwf1 E1].
  apply tx_bind_Ok in H as (u & db1 & w1 & He & H). apply tx_sql_Ok in He as [He ->].
  simplify_eq. rewrite He in *. cbn [snd] in *.
  assert (Hstale : (expire_stale db account now).2 = db1) by (by rewrite He). clear He.
  apply tx_bind_Ok in H as (e & db2 & w1 & He & H). apply tx_read_Ok in He as (He & -> & ->).
  simplify_eq. inv_tx_step. apply negb_true_iff in Hg1.
  apply tx_bind_Ok in H as (key & db2 & w1 & Hk & H). apply tx_read_Ok in Hk as (Hk & -> & ->).
  apply tx_bind_Ok in H as (price & db2 & w1 & Hp & H). apply tx_call_Ok in Hp as [Hp ->].
  destruct price as [price|]; [|done]. inv_tx_step.
  apply tx_bind_Ok in H as (u1 & db2 & w2 & Hm & H). apply tx_read_Ok in Hm as (Hm & -> & ->).
  inv_tx_step. apply bool_decide_eq_true in Hg3.
  apply tx_bind_Ok in H as (c & db2 & w2 & Hc & H). apply tx_read_Ok in Hc as (_ & -> & ->).
  apply tx_bind_Ok in H as (cid & db2 & w2 & Hcu & H).
  destruct (ensure_customer_spec _ _ _ _ _ _ _ _ Hwf1 Hcu) as [Hwf2 E2].
  apply tx_bind_Ok in H as (a & db3 & w3 & Hr & H). apply tx_sql_Ok in Hr as [Hr ->].
  apply tx_ret_Ok in H as (<- & -> & ->). apply reserve_spec in Hr.
  split; simpl.
  - done.
  - intros r Hr'. unfold current_subscription in Hg1. rewrite E1 in Hg1. simpl in Hg1.
    by rewrite Hr' in Hg1.
  - exists key, price, w1. unfold require_stripe_mode in Hm. inv_result.
    split_and!; [done..| |done]. by apply Bool.eqb_prop.
  - exists db2. split; [done|]. split; [by rewrite E2, E1|]. split; [by rewrite E2|done].
Qed.
End customer.

(** * Grants *)

Section grants.
Context `{DB : Database}.

Lemma elem_of_granted db account key :
  key ∈ granted_signal_keys db account <-> is_Some (bdb_grants db !! (account, key)).
Proof.
  unfold granted_signal_keys. rewrite elem_of_list_to_set, list_elem_of_fmap. split.
  - intros ([[a k] g] & -> & Hin). rewrite list_elem_of_In, filter_In, <- list_elem_of_In in Hin.
    destruct Hin as [Hin Ha]. simpl in *. inv_result. subst.
    apply elem_of_map_to_list in Hin. by eexists.
  - intros [g Hg]. exists ((account, key), g). split; [done|].
    rewrite list_elem_of_In, filter_In, <- list_elem_of_In. split; [by apply elem_of_map_to_list|].
    by apply bool_decide_eq_true.
Qed.

(** The grants of [db'] are those of [db] with [newly] for the account. *)
Definition granted_more (db : billing_db) (account : string) (newly : list string)
    (db' : billing_db) : Prop :=
  db' = with_grants db (bdb_grants db')
  /\ opened_signal_keys db' account = opened_signal_keys db account ∪ list_to_set newly
  /\ forall b, b <> account -> opened_signal_keys db' b = opened_signal_keys db b.

Lemma granted_more_refl db account : granted_more db account [] db.
Proof. split_and!; [by destruct db|set_solver|done]. Qed.

Lemma granted_more_trans db account l db1 l' db2 :
  granted_more db account l db1 -> granted_more db1 account l' db2 ->
  granted_more db account (l ++ l') db2.
Proof.
  intros (E1 & H1 & B1) (E2 & H2 & B2). split_and!.
  - rewrite E2, E1. done.
  - rewrite H2, H1, list_to_set_app_L. set_solver.
  - intros b Hb. by rewrite B2, B1.
Qed.

Lemma insert_grant_spec db account key opportunity now inserted db' :
  insert_grant db account key opportunity now = Ok (inserted, db') ->
  (inserted = true <-> key ∉ granted_signal_keys db account)
  /\ (key ∈ granted_signal_keys db' account)
  /\ granted_more db account (if inserted then [key] else []) db'.
Proof.
  unfold insert_grant. intros H. apply result_bind_Ok in H as (k & Hk & H).
  apply varchar_Ok in Hk as [-> _]. apply result_bind_Ok in H as (o & _ & H).
  rewrite !elem_of_granted.
  destruct (truthy (bdb_grants db !! (account, key))) eqn:Hg; simplify_eq.
  - apply truthy_Some in Hg. split_and!; [|done|by apply granted_more_refl].
    split; [done|by intros []].
  - apply truthy_None in Hg. rewrite Hg. split_and!.
    + split; [|done]. by intros _ [? ?].
    + simpl. rewrite lookup_insert_eq. by eexists.
    + split_and!; [done| |].
      * apply set_eq. intros k. unfold opened_signal_keys, landing_signal_keys.
        rewrite !elem_of_union, !elem_of_granted. simpl.
        destruct (decide (k = key)) as [->|Hn];
          [rewrite lookup_insert_eq; set_solver|].
        rewrite lookup_insert_ne by congruence. set_solver.
      * intros b Hb. apply set_eq. intros k. unfold opened_signal_keys, landing_signal_keys.
        rewrite !elem_of_union, !elem_of_granted. simpl.
        by rewrite lookup_insert_ne by congruence.
Qed.

Lemma grant_loop_spec account now candidates db slots newly db' :
  grant_loop db account candidates now slots (opened_signal_keys db account) = Ok (newly, db') ->
  granted_more db account newly db'
  /\ NoDup newly /\ (forall k, k ∈ newly -> k ∉ opened_signal_keys db account)
  /\ newly `sublist_of` map fs_signal_key candidates
  /\ Z.of_nat (length newly) <= Z.max 0 slots
  /\ (Z.of_nat (length newly) < slots ->
      forall item, item ∈ candidates -> fs_signal_key item ∈ opened_signal_keys db' account).
Proof.
  revert db slots newly. induction candidates as [|item candidates IH]; intros db slots newly H;
    cbn [grant_loop] in H.
  { simplify_eq. split_and!;
      [apply granted_more_refl|constructor|set_solver|constructor|simpl; lia|set_solver]. }
  destruct (Z.leb_spec slots 0).
  { simplify_eq. split_and!;
      [apply granted_more_refl|constructor|set_solver|apply sublist_nil_l|simpl; lia|simpl; lia]. }
  cbv zeta in H. destruct (bool_decide_reflect (fs_signal_key item ∈ opened_signal_keys db account))
    as [Hin|Hnin].
  - apply IH in H as (Hm & Hnd & Hfresh & Hsub & Hlen & Hall).
    split_and!; [done..|by constructor|done|]. intros Hl i [->|Hi]%elem_of_cons; [|by apply Hall].
    destruct Hm as (_ & -> & _). set_solver.
  - apply result_bind_Ok in H as ([inserted db1] & Hins & H).
    destruct (insert_grant_spec _ _ _ _ _ _ _ Hins) as (Hi & Hk & Hm1).
    assert (inserted = true) as -> by (apply Hi; unfold opened_signal_keys in Hnin; set_solver).
    apply result_bind_Ok in H as ([newly' db2] & H & E). simplify_eq.
    assert (Ho : opened_signal_keys db account ∪ {[fs_signal_key item]}
                 = opened_signal_keys db1 account)
      by (destruct Hm1 as (_ & -> & _); set_solver).
    rewrite Ho in H. apply IH in H as (Hm & Hnd & Hfresh & Hsub & Hlen & Hall).
    rewrite <- Ho in Hfresh.
    split_and!.
    + by apply (granted_more_trans _ _ [_] db1).
    + constructor; [|done]. intros Hc. apply (Hfresh _ Hc). set_solver.
    + intros k [->|Hin]%elem_of_cons; [done|]. specialize (Hfresh k Hin). set_solver.
    + by constructor.
    + simpl. lia.
    + simpl. intros Hl i [->|Hi']%elem_of_cons; [|apply Hall; [lia|done]].
      destruct Hm as (_ & -> & _). rewrite <- Ho. set_solver.
Qed.
End grants.
