(* ===== verification/BillingTheorems.v ===== *)
(** BillingTheorems: what the billing components promise: an event is
    applied once and only an applied one changes a subscription; an open
    subscription is never replaced and its clock never goes back; rights
    follow what is paid; one payment at a time; plan changes are numbered;
    three signals are given. *)

From stdpp Require Import relations pretty.
From Stdlib Require Import Ascii String.
From S2P Require Import Prelude PyStr PyDatetime PyJson AcquisitionEquiv Database Recency.
From S2P Require Import PolicyStore BillingCatalogue BillingStore BillingService.
From S2P Require Import BillingCheckout BillingWebhooks BillingPlanChange BillingGrants.
From S2P Require Import BillingFacts BillingSpecs.

Local Open Scope string_scope.
Local Open Scope Z_scope.
Local Open Scope list_scope.

(** * The transactions of the billing tables *)

Section steps.
Context {W : Type} `{DB : Database} `{Stripe : StripeGateway W}.
Variable aborts : bool.

(** One committed transaction; times are aware. *)
Inductive billing_step : billing_db -> billing_db -> Prop :=
| step_event payload observe token event live now w o db db' w' :
    aware (ev_created event) = true ->
    handle_event payload observe token event live now db w = (Ok (o, db'), w') ->
    billing_step db db'
| step_change token account target now live w o db db' w' :
    aware now = true ->
    request_plan_change token account target now live db w = (Ok (o, db'), w') ->
    billing_step db db'
| step_cancel account now w db db' w' :
    cancel_scheduled_plan_change account now db w = (Ok (tt, db'), w') ->
    billing_step db db'
| step_checkout configuration token account plan currency now founding w p db db' w' :
    prepare_checkout aborts id configuration token account plan currency now founding db w
      = (Ok (p, db'), w') ->
    billing_step db db'
| step_session account attempt session now b db db' :
    record_session db account attempt session now = Ok (b, db') -> billing_step db db'
| step_failed account attempt now db :
    billing_step db (fail_attempt db account attempt now).2
| step_grant account candidates now newly db db' :
    grant_up_to_limit db account candidates now = Ok (newly, db') -> billing_step db db'.

(** The same subscription, its event clock and its plan changes not earlier. *)
Definition clock_le (o o' : option datetime) : Prop :=
  match o with
  | None => True
  | Some t => exists t', o' = Some t' /\ instant t <= instant t'
  end.
Definition kept (r r' : subscription_row) : Prop :=
  sub_stripe_subscription_id r' = sub_stripe_subscription_id r
  /\ clock_le (sub_last_stripe_event_created_at r) (sub_last_stripe_event_created_at r')
  /\ sub_plan_change_sequence r <= sub_plan_change_sequence r'.

Lemma clock_le_refl o : clock_le o o.
Proof. destruct o; simpl; [|done]. by eexists. Qed.
Lemma clock_le_trans a b c : clock_le a b -> clock_le b c -> clock_le a c.
Proof.
  destruct a as [a|]; [|done]. intros (b' & -> & Hab) (c' & -> & Hbc). exists c'. split; [done|lia].
Qed.
Lemma kept_refl r : kept r r.
Proof. split_and!; [done|apply clock_le_refl|done]. Qed.
Lemma kept_trans r1 r2 r3 : kept r1 r2 -> kept r2 r3 -> kept r1 r3.
Proof.
  intros (E1 & C1 & S1) (E2 & C2 & S2).
  split_and!; [congruence|by eapply clock_le_trans|lia].
Qed.

(** Every account of [db] with a subscription keeps it in [db'] if it is
    open. *)
Definition kept_if_open (db db' : billing_db) : Prop :=
  forall a r, bdb_subscriptions db !! a = Some r ->
  exists r', bdb_subscriptions db' !! a = Some r'
    /\ (is_open_subscription (sub_status r) = true -> kept r r').

Lemma kept_same db db' : bdb_subscriptions db' = bdb_subscriptions db -> kept_if_open db db'.
Proof. intros E a r Hr. rewrite E. exists r. split; [done|]. intros _. apply kept_refl. Qed.

Lemma kept_insert db db' account row :
  bdb_subscriptions db' = <[account := row]> (bdb_subscriptions db) ->
  (forall r, bdb_subscriptions db !! account = Some r ->
     is_open_subscription (sub_status r) = true -> kept r row) ->
  kept_if_open db db'.
Proof.
  intros E Hk a r Hr. rewrite E. destruct (decide (a = account)) as [->|Hn].
  - exists row. rewrite lookup_insert_eq. split; [done|]. by apply Hk.
  - exists r. rewrite lookup_insert_ne by done. split; [done|]. intros _. apply kept_refl.
Qed.

Lemma sync_kept db state account created stored action db' :
  aware created = true -> sync_outcome db state account (Some created) stored action db' ->
  kept_if_open db db'.
Proof.
  intros Haw [|r row db'' Hr Hsid Hnew Hrow Hdb|base row db'' Hold _ _ _ Hrow Hdb].
  - by apply kept_same.
  - apply (kept_insert _ _ account row); [by rewrite Hdb|]. intros r' Hr' _. simplify_eq.
    split_and!.
    + by rewrite (sy_sid _ _ _ _ _ Hrow).
    + rewrite (sy_created _ _ _ _ _ Hrow).
      destruct (sub_last_stripe_event_created_at r) as [t|]; [|done].
      exists (timestamptz created). split; [done|].
      specialize (Hnew created (assume_utc t) eq_refl eq_refl). unfold dt_ltb in Hnew.
      rewrite instant_assume_utc in Hnew. apply Z.ltb_ge in Hnew.
      pose proof (timestamptz_equiv created Haw) as He. unfold dt_equiv in He. naive_solver lia.
    + by rewrite (sy_sequence _ _ _ _ _ Hrow).
  - apply (kept_insert _ _ account row); [by rewrite Hdb|]. intros r Hr Ho.
    destruct (Hold r Hr) as [_ Hc]. congruence.
Qed.

Lemma rescheduled_kept db account plan db' :
  billing_wf db -> rescheduled db account plan db' -> billing_wf db' /\ kept_if_open db db'.
Proof.
  intros Hwf [r at_ schedule now Hr]. split.
  - eapply (billing_wf_subscription db _ account _ Hwf); [done..| | |].
    + simpl. by eapply (wf_sub_account db Hwf).
    + eapply (wf_known_accounts db Hwf). left. by eexists.
    + intros b s Hb Hs E. apply Hb. by eapply (wf_sub_unique db Hwf).
  - eapply kept_insert; [done|]. intros r' Hr' _. simplify_eq.
    split_and!; [done|apply clock_le_refl|simpl; lia].
Qed.

Lemma kept_if_open_same db db1 db' :
  bdb_subscriptions db1 = bdb_subscriptions db -> kept_if_open db1 db' -> kept_if_open db db'.
Proof. intros E H a r Hr. apply H. by rewrite E. Qed.

Lemma handled_kept event now db o db' :
  aware (ev_created event) = true -> billing_wf db -> handled event now db o db' ->
  billing_wf db' /\ kept_if_open db db'.
Proof.
  intros Haw Hwf H. destruct (close_session_spec event now db Hwf) as [Hwfc Hc].
  destruct H as [|o db1 row Hdb _|o state account stored action db1 row Hs _].
  - split; [done|by apply kept_same].
  - assert (H1 : billing_wf db1 /\ bdb_subscriptions db1 = bdb_subscriptions db)
      by (destruct Hdb as [->| ->]; [done|split; [done|by rewrite Hc]]).
    destruct H1 as [Hwf1 E]. split; [|by apply kept_same].
    by eapply billing_wf_same; [|exact Hwf1].
  - split.
    + apply (billing_wf_same db1); [by split_and!|]. by eapply sync_outcome_wf.
    + eapply (kept_if_open_same db (close_session event now db)); [by rewrite Hc|].
      intros a r Hr. exact (sync_kept _ _ _ _ _ _ _ Haw Hs a r Hr).
Qed.

Lemma step_kept db db' : billing_wf db -> billing_step db db' ->
  billing_wf db' /\ kept_if_open db db'.
Proof.
  intros Hwf H. destruct H as [payload observe token event live now w o db db' w' Haw H
    |token account target now live w o db db' w' Haw H|account now w db db' w' H
    |configuration token account plan currency now founding w p db db' w' H
    |account attempt session now b db db' H|account attempt now db
    |account candidates now newly db db' H].
  - eapply handled_kept; [exact Haw|done|]. by eapply handle_event_spec.
  - apply request_plan_change_spec in H as (r & _ & _ & H & _); [|done].
    destruct H as [|state stored action db1 db' _ Hs Hre|db' _ Hre].
    + split; [done|by apply kept_same].
    + pose proof (sync_outcome_wf _ _ _ _ _ _ _ Hwf Hs) as Hwf1.
      destruct (rescheduled_kept _ _ _ _ Hwf1 Hre) as [Hwf2 Hk2]. split; [done|].
      intros a r' Hr'. destruct (sync_kept _ _ _ _ _ _ _ Haw Hs a r' Hr') as (r1 & Hr1 & K1).
      destruct Hre as [r2 at_ schedule now' Hr2]. simpl.
      destruct (decide (a = account)) as [->|Hn].
      * rewrite lookup_insert_eq. eexists. split; [done|]. intros Ho. simplify_eq.
        eapply kept_trans; [by apply K1|]. split_and!; [done|apply clock_le_refl|simpl; lia].
      * rewrite lookup_insert_ne by done. by exists r1.
    + by apply (rescheduled_kept _ account (Some target)).
  - apply cancel_scheduled_spec in H as (r & _ & _ & H). by apply (rescheduled_kept _ account None).
  - apply prepare_checkout_spec in H as [_ _ _ (db1 & Hwf1 & E & _ & Hr)]; [|done].
    pose proof (reserved_alone _ _ _ _ _ _ _ _ Hr) as E'. apply reserved_wf in Hr; [|done..]. split; [done|].
    apply kept_same. rewrite E', E. done.
  - unfold record_session, check_constraint in H. cbv zeta in H.
    destruct (match bdb_attempts db !! account with Some _ => _ | None => false end);
      [|simplify_eq; split; [done|by apply kept_same]].
    inv_result. edestruct (update_attempt_spec db account
      (fun r => bool_decide (at_attempt_id r = attempt)) (set_status "open" (Some v) now))
      as (H1 & H2 & _); [done|exact Hwf|]. rewrite H in *. simpl in *.
    split; [done|]. apply kept_same. by rewrite H2.
  - edestruct (update_attempt_spec db account) as (H1 & H2 & _); [|exact Hwf|].
    2:{ split; [exact H1|]. apply kept_same. unfold fail_attempt. by rewrite H2. }
    done.
  - unfold grant_up_to_limit in H. apply result_bind_Ok in H as (u & _ & H). cbv zeta in H.
    destruct (remaining_slots db account <=? 0);
      [simplify_eq; split; [done|by apply kept_same]|].
    apply grant_loop_spec in H as [(E & _) _]. split; [|apply kept_same; by rewrite E].
    eapply billing_wf_same; [|exact Hwf]. rewrite E. by split_and!.
Qed.

(** ** Events are remembered *)

Lemma sync_outcome_events db state account created stored action db' :
  sync_outcome db state account created stored action db' -> bdb_events db' = bdb_events db.
Proof.
  intros [|? ? ? ? ? ? ? H|? ? ? ? ? ? ? ? H]; [done|..]; by rewrite H.
Qed.

Lemma step_events db db' id : billing_wf db -> billing_step db db' ->
  already_processed db id = true -> already_processed db' id = true.
Proof.
  intros Hwf H. assert (Hsame : forall d, bdb_events d = bdb_events db ->
    already_processed db id = true -> already_processed d id = true)
    by (intros d E; unfold already_processed; by rewrite E).
  destruct H as [payload observe token event live now w o db db' w' Haw H
    |token account target now live w o db db' w' Haw H|account now w db db' w' H
    |configuration token account plan currency now founding w p db db' w' H
    |account attempt session now b db db' H|account attempt now db
    |account candidates now newly db db' H].
  - apply handle_event_spec in H; [|done].
    destruct (close_session_spec event now db Hwf) as [_ Hc].
    assert (Hins : forall d row, bdb_events d = bdb_events db ->
      already_processed db id = true ->
      already_processed (with_events d (<[ev_event_id event := row]> (bdb_events d))) id = true).
    { intros d row E. unfold already_processed. rewrite !truthy_Some. simpl. rewrite E.
      intros Hs. by apply lookup_insert_is_Some'; right. }
    destruct H as [|o db1 row Hdb _|o state account stored action db1 row Hs _]; [done|..];
      apply Hins.
    + destruct Hdb as [->| ->]; [done|by rewrite Hc].
    + apply sync_outcome_events in Hs. by rewrite Hs, Hc.
  - apply request_plan_change_spec in H as (r & _ & _ & H & _); [|done].
    destruct H as [|state stored action db1 db' _ Hs [r1 ? ? ? _]|db' _ [r1 ? ? ? _]];
      [done| |by apply Hsame].
    apply Hsame. simpl. by eapply sync_outcome_events.
  - apply cancel_scheduled_spec in H as (r & _ & _ & [r1 ? ? ? _]). by apply Hsame.
  - apply prepare_checkout_spec in H as [_ _ _ (db1 & Hwf1 & E & _ & Hr)]; [|done].
    apply reserved_alone in Hr as E'. apply Hsame. by rewrite E', E.
  - apply Hsame. unfold record_session, check_constraint in H. cbv zeta in H.
    destruct (match bdb_attempts db !! account with Some _ => _ | None => false end); [|by simplify_eq].
    inv_result. unfold update_attempt in H. by repeat case_match; simplify_eq.
  - apply Hsame. unfold fail_attempt, update_attempt. by repeat case_match.
  - apply Hsame. unfold grant_up_to_limit in H. apply result_bind_Ok in H as (u & _ & H).
    cbv zeta in H. destruct (remaining_slots db account <=? 0); [by simplify_eq|].
    apply grant_loop_spec in H as [(E & _) _]. by rewrite E.
Qed.

Lemma run_wf db db' : billing_wf db -> rtc billing_step db db' -> billing_wf db'.
Proof. intros Hwf H. induction H; [done|]. apply IHrtc. by apply (step_kept x). Qed.

Lemma billing_run_events db db' id : billing_wf db -> rtc billing_step db db' ->
  already_processed db id = true -> already_processed db' id = true.
Proof.
  intros Hwf H. induction H as [|x y z Hxy _ IH]; [done|]. intros Hx.
  apply IH; [by apply (step_kept x)|by eapply step_events].
Qed.

Lemma handled_processed event now db o db' :
  handled event now db o db' -> already_processed db' (ev_event_id event) = true.
Proof.
  intros []; [done|..]; unfold already_processed; simpl; by rewrite lookup_insert_eq.
Qed.

(** C23 (safety).  A Stripe event is applied once: when its handling is
    committed, delivering it again, at any later time, after any other
    transactions, changes nothing in the tables and does not call Stripe;
    and an event answered anything but "applied" (rejected, ignored,
    unhandled, a conflict, a stale notification) leaves every subscription
    as it was. *)
Theorem event_applied_once payload observe token event live now db w o db' w' :
  billing_wf db ->
  handle_event payload observe token event live now db w = (Ok (o, db'), w') ->
  (wo_result o <> RESULT_APPLIED -> bdb_subscriptions db' = bdb_subscriptions db)
  /\ forall later, rtc billing_step db' later ->
     forall payload2 observe2 token2 event2 live2 now2 w2,
       ev_event_id event2 = ev_event_id event ->
       handle_event payload2 observe2 token2 event2 live2 now2 later w2
       = (Ok (mkOutcome (ev_event_id event2) (ev_event_type event2) RESULT_DUPLICATE None, later), w2).
Proof.
  intros Hwf H. apply handle_event_spec in H; [|done]. split.
  - intros Hn. destruct (close_session_spec event now db Hwf) as [_ Hc].
    destruct H as [|o db1 row Hdb _|o state account stored action db1 row Hs Hiff]; [done|..]; simpl.
    + destruct Hdb as [->| ->]; [done|by rewrite Hc].
    + destruct Hs as [| |]; [simpl; by rewrite Hc|..]; exfalso; apply Hn; by apply Hiff.
  - intros later Hl payload2 observe2 token2 event2 live2 now2 w2 Hid.
    assert (Hwf' : billing_wf db').
    { destruct (close_session_spec event now db Hwf) as [Hwfc _].
      destruct H as [|o db1 row Hdb _|o state account stored action db1 row Hs _]; [done|..].
      - apply (billing_wf_same db1); [by split_and!|]. by destruct Hdb as [->| ->].
      - apply (billing_wf_same db1); [by split_and!|]. by eapply sync_outcome_wf. }
    pose proof (billing_run_events _ _ _ Hwf' Hl (handled_processed _ _ _ _ _ H)) as Hp.
    unfold handle_event, tx_bind, tx_read. cbn [result_bind]. by rewrite Hid, Hp.
Qed.

(** C9 (invariant).  An open subscription is never replaced.  After any
    transactions (events in any order, plan changes, checkouts, grants) no
    Stripe subscription belongs to two accounts, and an account that had a
    subscription has one: the same, its last event and its count of plan
    changes not earlier than they were, unless it had been closed
    ("canceled" or "incomplete_expired") on the way. *)
Theorem open_subscription_kept db db' :
  billing_wf db -> rtc billing_step db db' ->
  billing_wf db'
  /\ forall a r, bdb_subscriptions db !! a = Some r ->
     exists r', bdb_subscriptions db' !! a = Some r'
       /\ (kept r r'
           \/ exists db1 r1, rtc billing_step db db1 /\ rtc billing_step db1 db'
                /\ bdb_subscriptions db1 !! a = Some r1
                /\ sub_stripe_subscription_id r1 = sub_stripe_subscription_id r
                /\ is_open_subscription (sub_status r1) = false).
Proof.
  intros Hwf H. split; [by eapply run_wf|]. intros a r Hr.
  revert db' H. apply rtc_ind_r.
  { exists r. split; [done|]. left. apply kept_refl. }
  intros db1 db2 H1 H2 IH.
  destruct IH as (r1 & Hr1 & IH).
  destruct (step_kept _ _ (run_wf _ _ Hwf H1) H2) as [_ Hk].
  destruct (Hk a r1 Hr1) as (r2 & Hr2 & K). exists r2. split; [done|].
  destruct IH as [K1|(d & rd & Hd1 & Hd2 & Hrd & Hid & Hc)].
  - destruct (is_open_subscription (sub_status r1)) eqn:Ho.
    + left. eapply kept_trans; [exact K1|by apply K].
    + right. exists db1, r1. split_and!; [done|by apply rtc_once|done|apply K1|done].
  - right. exists d, rd. split_and!; [done|by eapply rtc_r|done..].
Qed.
End steps.

(** * Rights *)

Section rights.
Context `{DB : Database}.

(** A lookup key of the catalogue is the one a plan and a currency have. *)
Lemma lookup_key_spec key p c :
  assoc key _BY_LOOKUP_KEY = Some (p, c) <-> lookup_key_for p c = Ok key.
Proof.
  split.
  - unfold assoc. destruct (List.find _ _) as [[k [p' c']]|] eqn:E; [|done]. simpl. intros [= -> ->].
    apply find_some in E as [Hin Hk]. simpl in Hk. apply bool_decide_eq_true in Hk as ->.
    repeat destruct Hin as [Hin|Hin]; simplify_eq; try reflexivity. done.
  - unfold lookup_key_for. intros H. inv_result. apply in_list_true in Hc, Hc0.
    unfold PURCHASABLE_PLANS, CURRENCIES in *.
    repeat match goal with H : _ ∈ _ :: _ |- _ => apply elem_of_cons in H as [->|H]
                      | H : _ ∈ [] |- _ => by apply elem_of_nil in H end;
      vm_compute in H; injection H as <-; reflexivity.
Qed.

Lemma lookup_key_plan p c key : lookup_key_for p c = Ok key -> p ∈ PURCHASABLE_PLANS.
Proof. unfold lookup_key_for. intros H. inv_result. by apply in_list_true. Qed.

(** What the rights of an account with a subscription are. *)
Lemma billing_state_spec db account r :
  bdb_subscriptions db !! account = Some r ->
  (forall p, sub_plan_code r = Some p -> p ∈ PURCHASABLE_PLANS) ->
  let s := billing_state db account in
  bs_plan_code s = match sub_plan_code r with
                   | Some p => if bool_decide (sub_status r = "active") then p else "discovery"
                   | None => "discovery"
                   end
  /\ bs_entitlements s = entitlements_for (Some (bs_plan_code s)).
Proof.
  intros Hr Hp. unfold billing_state, current_subscription. rewrite Hr.
  cbn [fmap option_fmap option_map]. unfold grants_paid_access, opt_in.
  cbn [_stored ss_status ss_plan_code].
  replace (in_list (sub_status r) PAYING_STATUSES) with (bool_decide (sub_status r = "active"))
    by (unfold in_list, PAYING_STATUSES; apply bool_decide_ext; by rewrite list_elem_of_singleton).
  destruct (sub_plan_code r) as [p|]; [|by rewrite andb_false_r].
  assert (in_list p PURCHASABLE_PLANS = true) as -> by (apply in_list_true; auto).
  by case_bool_decide.
Qed.

Lemma paid_plan_codes code : is_paid (entitlements_for (Some code)) = in_list code PURCHASABLE_PLANS.
Proof.
  unfold entitlements_for, assoc, PLANS. simpl.
  unfold in_list. repeat case_bool_decide; subst; try done; exfalso;
    repeat match goal with
    | H : _ ∈ PURCHASABLE_PLANS |- _ => unfold PURCHASABLE_PLANS in H; set_solver
    | H : _ ∉ PURCHASABLE_PLANS |- _ => apply H; unfold PURCHASABLE_PLANS; set_solver
    end.
Qed.

(** C24 (functional).  Rights follow what is paid.  Once the state Stripe
    reports of a subscription is applied, the account has a paid plan exactly
    when the subscription is "active" and its price has the lookup key the
    catalogue sells that plan under, and Discovery in every other case
    (another status, an unknown price); choosing a plan is offered exactly
    when the subscription is over; no other account's rights change. *)
Theorem rights_follow_payment db token state account created live now stored action db' :
  billing_wf db ->
  synchronize_subscription db token state account created live now = Ok (stored, action, db') ->
  action <> "stale_event_ignored" ->
  let s := billing_state db' account in
  (forall p, p ∈ PURCHASABLE_PLANS ->
     bs_plan_code s = p <->
     st_status state = "active" /\ exists c key,
       st_lookup_key state = Some key /\ lookup_key_for p c = Ok key)
  /\ (bs_plan_code s ∈ PURCHASABLE_PLANS \/ bs_plan_code s = "discovery")
  /\ bs_entitlements s = entitlements_for (Some (bs_plan_code s))
  /\ (is_paid (bs_entitlements s) = true <-> bs_plan_code s ∈ PURCHASABLE_PLANS)
  /\ (billing_action db' account = ACTION_CHOOSE_PLAN <-> st_status state ∈ TERMINAL_STATUSES)
  /\ forall b, b <> account -> billing_state db' b = billing_state db b
                            /\ billing_action db' b = billing_action db b.
Proof.
  intros Hwf H Hact s. apply synchronize_spec in H as [H _]; [|done].
  assert (Hrow : exists row, bdb_subscriptions db' !! account = Some row
    /\ sub_plan_code row = (resolve_plan state).1 /\ sub_status row = st_status state
    /\ (forall b, b <> account -> bdb_subscriptions db' !! b = bdb_subscriptions db !! b)
    /\ bdb_customers db' = bdb_customers db).
  { destruct H as [|r row db'' _ _ _ Hr Hdb|base row db'' _ _ _ _ Hr Hdb]; [done|..];
      exists row; rewrite Hdb; (split_and!; [apply lookup_insert_eq|apply Hr|apply Hr| |done]);
      intros b Hb; simpl; by rewrite lookup_insert_ne. }
  clear H. destruct Hrow as (row & Hr & Hplan & Hst & Hother & Hcu).
  assert (Hres : (resolve_plan state).1 = fst <$> plan_for_lookup_key (st_lookup_key state))
    by (unfold resolve_plan; by destruct (plan_for_lookup_key _) as [[]|]).
  assert (Hknown : forall p, (resolve_plan state).1 = Some p <->
    exists c key, st_lookup_key state = Some key /\ lookup_key_for p c = Ok key).
  { intros p. rewrite Hres. unfold plan_for_lookup_key. setoid_rewrite <- lookup_key_spec.
    destruct (st_lookup_key state) as [key|]; simpl; [|naive_solver].
    destruct (assoc key _BY_LOOKUP_KEY) as [[p' c']|] eqn:E; simpl; [|naive_solver].
    split; [intros [= ->]; eauto|intros (c & k & [= <-] & E'); congruence]. }
  assert (Hsold : forall p, sub_plan_code row = Some p -> p ∈ PURCHASABLE_PLANS).
  { intros p E. rewrite Hplan in E. apply Hknown in E as (c & key & _ & E).
    by eapply lookup_key_plan. }
  destruct (billing_state_spec db' account row Hr Hsold) as [Hcode Hent].
  fold s in Hcode, Hent. rewrite Hplan, Hst in Hcode.
  assert (Hcodes : bs_plan_code s ∈ PURCHASABLE_PLANS \/ bs_plan_code s = "discovery").
  { rewrite Hcode. destruct (resolve_plan state).1 as [p|] eqn:E; [|by right].
    case_bool_decide; [left|by right]. apply Hsold. by rewrite Hplan. }
  split_and!; [|done|done| | |].
  - intros p Hp. rewrite Hcode, <- Hknown.
    assert (p <> "discovery") by (intros ->; unfold PURCHASABLE_PLANS in Hp; set_solver).
    destruct (resolve_plan state).1 as [p'|]; [|naive_solver].
    case_bool_decide; naive_solver.
  - rewrite Hent, paid_plan_codes. apply in_list_true.
  - unfold billing_action, current_subscription. rewrite Hr.
    cbn [fmap option_fmap option_map]. unfold is_open, is_open_subscription.
    cbn [_stored ss_status]. rewrite Hst, negb_involutive, <- in_list_true.
    destruct (in_list (st_status state) TERMINAL_STATUSES); [done|].
    split; [|done]. by repeat case_match.
  - intros b Hb. unfold billing_state, billing_action, current_subscription, stripe_customer_id.
    by rewrite (Hother b Hb), Hcu.
Qed.
End rights.

(** * Plan changes *)

Section no_colon.
Definition no_colon (c : ascii) : bool := negb (eqc c ":"%char).

Lemma pretty_N_go_all x s : all_chars no_colon s = true ->
  all_chars no_colon (pretty_N_go x s) = true.
Proof.
  revert s. induction (N.lt_wf_0 x) as [x _ IH]. intros s Hs.
  destruct (decide (x = 0)%N) as [->|Hx]; [by rewrite pretty_N_go_0|].
  rewrite pretty_N_go_step by (by apply N.neq_0_lt_0). apply IH; [by apply N.div_lt; lia|].
  simpl. rewrite Hs, andb_true_r. pose proof (N.mod_lt x 10 ltac:(done)).
  unfold no_colon, eqc, pretty_N_char. repeat case_match; done.
Qed.

Lemma str_int_no_colon z : all_chars no_colon (str_int z) = true.
Proof.
  unfold str_int, pretty, pretty_Z. assert (HN : forall n : N, all_chars no_colon (pretty n) = true)
    by (intros n; unfold pretty, pretty_N; case_decide; [done|]; by apply pretty_N_go_all).
  destruct z as [|p|p]; [done|exact (HN (Npos p))|]. cbn. exact (HN (Npos p)).
Qed.

Lemma split_at_colon a b x y :
  all_chars no_colon a = true -> all_chars no_colon b = true ->
  a +:+ String ":"%char x = b +:+ String ":"%char y -> a = b.
Proof.
  revert b. induction a as [|c a IH]; intros [|d b] Ha Hb E; simpl in *; try done;
    inv_result; simplify_eq; try done.
  f_equal. by apply IH.
Qed.
End no_colon.

Lemma idempotency_key_sequence kind kind' sid source source' target target' c c' n n' :
  kind ∈ ["change"; "schedule"] -> kind' ∈ ["change"; "schedule"] ->
  _idempotency_key kind sid source target c n = _idempotency_key kind' sid source' target' c' n' ->
  n = n'.
Proof.
  intros Hk Hk' E. unfold _idempotency_key in E. apply sapp_inj in E.
  assert (kind = kind') as <-.
  { repeat match goal with H : _ ∈ _ :: _ |- _ => apply elem_of_cons in H as [->|H]
                      | H : _ ∈ [] |- _ => by apply elem_of_nil in H end; done. }
  do 2 apply sapp_inj in E. do 2 apply sapp_inj in E.
  apply split_at_colon in E; [|apply str_int_no_colon..].
  unfold str_int in E. by apply (inj pretty) in E.
Qed.

Section plan_changes.
Context {W : Type} `{DB : Database} `{Stripe : StripeGateway W}.

(** The synchronisation of an open subscription keeps its number of plan
    changes. *)
Lemma sync_open_row db state account created stored action db' r :
  bdb_subscriptions db !! account = Some r -> is_open_subscription (sub_status r) = true ->
  sync_outcome db state account created stored action db' ->
  exists r1, bdb_subscriptions db' !! account = Some r1
    /\ sub_stripe_subscription_id r1 = sub_stripe_subscription_id r
    /\ sub_plan_change_sequence r1 = sub_plan_change_sequence r.
Proof.
  intros Hr Ho [|r0 row db'' Hr0 Hsid _ Hrow Hdb|base row db'' Hold _ _ _ _ _].
  - by exists r.
  - exists row. rewrite Hdb. simpl. rewrite lookup_insert_eq. simplify_eq.
    split_and!; [done| |apply Hrow]. by rewrite (sy_sid _ _ _ _ _ Hrow).
  - destruct (Hold r Hr) as [_ Hc]. congruence.
Qed.

(** C13 (safety).  A change of plan never opens a second subscription and is
    numbered: it applies to the account's open subscription and leaves that
    subscription in place; asking again for the change already scheduled
    touches neither the tables nor Stripe; any other change that succeeds
    advances the sequence by one, so that no later change of the subscription
    can present an idempotency key of this one; a scheduled change leaves the
    rights of the account as they were, an immediate one leaves nothing
    announced. *)
Theorem plan_change_numbered token account target now live db w o db' w' :
  billing_wf db ->
  request_plan_change token account target now live db w = (Ok (o, db'), w') ->
  exists r r', bdb_subscriptions db !! account = Some r
    /\ bdb_subscriptions db' !! account = Some r'
    /\ is_open_subscription (sub_status r) = true
    /\ sub_stripe_subscription_id r' = sub_stripe_subscription_id r
    /\ ((sub_scheduled_plan_code r = Some target /\ db' = db /\ w' = w)
        \/ (sub_plan_change_sequence r' = sub_plan_change_sequence r + 1
            /\ forall kind kind' source source' goal goal' c c' n,
                 kind ∈ ["change"; "schedule"] -> kind' ∈ ["change"; "schedule"] ->
                 sub_plan_change_sequence r' <= n ->
                 _idempotency_key kind (sub_stripe_subscription_id r) source goal c
                   (sub_plan_change_sequence r)
                 <> _idempotency_key kind' (sub_stripe_subscription_id r') source' goal' c' n))
    /\ (po_effect o = EFFECT_SCHEDULED -> billing_state db' account = billing_state db account)
    /\ (po_effect o = EFFECT_IMMEDIATE -> sub_scheduled_plan_code r' = None).
Proof.
  intros Hwf H. destruct (request_plan_change_spec _ _ _ _ _ _ _ _ _ _ Hwf H)
    as (r & Hr & Ho & Hch & Hbefore). exists r.
  assert (Hkeys : forall r', sub_stripe_subscription_id r' = sub_stripe_subscription_id r ->
    sub_plan_change_sequence r' = sub_plan_change_sequence r + 1 ->
    forall kind kind' source source' goal goal' c c' n,
      kind ∈ ["change"; "schedule"] -> kind' ∈ ["change"; "schedule"] ->
      sub_plan_change_sequence r' <= n ->
      _idempotency_key kind (sub_stripe_subscription_id r) source goal c
        (sub_plan_change_sequence r)
      <> _idempotency_key kind' (sub_stripe_subscription_id r') source' goal' c' n).
  { intros r' Es Eq kind kind' source source' goal goal' c c' n Hk Hk' Hn E. rewrite Es in E.
    apply idempotency_key_sequence in E; [lia|done..]. }
  destruct Hch as [Hs|state stored action db1 db' _ Hsync Hre|db' Hne Hre].
  - exists r. destruct (Hbefore Hs) as [_ ->]. split_and!; auto; done.
  - destruct (sync_open_row _ _ _ _ _ _ _ _ Hr Ho Hsync) as (r1 & Hr1 & Es & Eq).
    destruct Hre as [r2 at_ schedule now' Hr2]. simplify_eq. simpl. rewrite lookup_insert_eq.
    eexists. split_and!; [done..| |done|done]. right. split; [simpl; lia|]. apply Hkeys; simpl; [done|lia].
  - destruct Hre as [r2 at_ schedule now' Hr2]. simplify_eq. simpl. rewrite lookup_insert_eq.
    eexists. split_and!; [done..| | |done].
    + right. split; [simpl; lia|]. by apply Hkeys.
    + intros _. unfold billing_state, current_subscription. simpl.
      by rewrite lookup_insert_eq, Hr.
Qed.
End plan_changes.

(** * Checkout *)

(** The purchase of an attempt, under its identifier and until its expiry. *)
Definition same_purchase (r r' : attempt_row) : Prop :=
  at_attempt_id r' = at_attempt_id r /\ at_plan_code r' = at_plan_code r
  /\ at_currency r' = at_currency r /\ at_expires_at r' = at_expires_at r.

#[export] Instance same_purchase_preorder : PreOrder same_purchase.
Proof. split; [by intros r|]. intros a b c (? & ? & ? & ?) (? & ? & ? & ?). split_and!; congruence. Qed.


(** The account still has the attempt. *)
Definition purchase_kept (account : string) (db db' : billing_db) : Prop :=
  forall r, bdb_attempts db !! account = Some r ->
  exists r', bdb_attempts db' !! account = Some r' /\ same_purchase r r'.

#[export] Instance purchase_kept_preorder account : PreOrder (purchase_kept account).
Proof.
  split; [intros db r Hr; by exists r|]. intros a b c H1 H2 r Hr.
  destruct (H1 r Hr) as (r1 & Hr1 & S1). destruct (H2 r1 Hr1) as (r2 & Hr2 & S2).
  exists r2. split; [done | by etrans].
Qed.







Section payments.
Context {W : Type} `{DB : Database} `{Stripe : StripeGateway W}.
Variable aborts : bool.






End payments.

(** * Grants *)

(** C32 (bounds).  Three signals are given, once.  Opening signals for an
    account never takes the signals it sees, the promised one included, past
    three, takes the candidates in order, opens all of them while places are
    left, takes nothing back and touches no other account; every signal
    opened stays readable at any date and under any plan. *)
Theorem three_signals `{DB : Database} db account candidates now newly db' :
  grant_up_to_limit db account candidates now = Ok (newly, db') ->
  let opened := opened_signal_keys db account in
  let opened' := opened_signal_keys db' account in
  Z.of_nat (size opened') <= Z.max DISCOVERY_GRANT_LIMIT (Z.of_nat (size opened))
  /\ opened' = opened ∪ list_to_set newly
  /\ size opened' = (size opened + length newly)%nat
  /\ newly `sublist_of` map fs_signal_key candidates
  /\ (Z.of_nat (size opened') < DISCOVERY_GRANT_LIMIT ->
      forall item, item ∈ candidates -> fs_signal_key item ∈ opened')
  /\ (forall b, b <> account -> opened_signal_keys db' b = opened_signal_keys db b)
  /\ forall item as_of, fs_signal_key item ∈ opened' ->
       is_unlocked (feed_access db' account as_of) item = true.
Proof.
  intros H opened opened'. unfold grant_up_to_limit in H.
  apply result_bind_Ok in H as (u & _ & H). cbv zeta in H.
  assert (Hfacts : granted_more db account newly db' /\ NoDup newly
    /\ (forall k, k ∈ newly -> k ∉ opened) /\ newly `sublist_of` map fs_signal_key candidates
    /\ Z.of_nat (length newly) <= remaining_slots db account
    /\ (Z.of_nat (length newly) < remaining_slots db account ->
        forall item, item ∈ candidates -> fs_signal_key item ∈ opened')).
  { assert (Hpos : 0 <= remaining_slots db account) by (unfold remaining_slots; lia).
    destruct (Z.leb_spec (remaining_slots db account) 0).
    - simplify_eq. split_and!; [apply granted_more_refl|constructor|set_solver|apply sublist_nil_l
        |simpl; lia|simpl; lia].
    - apply grant_loop_spec in H as (? & ? & ? & ? & ? & ?). split_and!; try done. lia. }
  destruct Hfacts as ((E & Ho & Hother) & Hnd & Hfresh & Hsub & Hlen & Hall).
  fold opened opened' in Ho.
  assert (Hsize : size opened' = (size opened + length newly)%nat).
  { rewrite Ho, size_union, size_list_to_set by done || set_solver. done. }
  unfold remaining_slots in Hlen, Hall. fold opened in Hlen, Hall.
  split_and!; [|done|done|done| |done|].
  - lia.
  - intros Hl. apply Hall. lia.
  - intros item as_of Hi. unfold is_unlocked, feed_access. simpl.
    by rewrite bool_decide_eq_true_2.
Qed.

(** * Runs that satisfy the hypotheses *)

#[local] Existing Instance ExactDatabase.

Definition june (d h : Z) : datetime := mkdt 2026 6 d h 0 0 0 (Some 0).

Definition pro_price : StripePrice :=
  mkPrice "price_pro" None (Some "kivou_pro_monthly_eur") "eur" (Some 9900) (Some "month") false true.
Definition essential_price : StripePrice :=
  mkPrice "price_essential" None (Some "kivou_essential_monthly_eur") "eur" (Some 4900)
    (Some "month") false true.
Definition pro_state : StripeSubscriptionState :=
  mkState "sub_1" "cus_1" "active" (Some "price_pro") None (Some "kivou_pro_monthly_eur")
    (Some "eur") None None false None false (Some "a1") (Some "coupon") None.

(** A Stripe that knows one subscription and two prices. *)
#[local] Instance DemoStripe : StripeGateway unit := {|
  price_for_lookup_key key w :=
    (Ok (if bool_decide (key = "kivou_pro_monthly_eur") then Some pro_price
         else if bool_decide (key = "kivou_essential_monthly_eur") then Some essential_price
         else None), w);
  create_customer email account name key w := (Ok (mkStripeCustomer "cus_1" false), w);
  fetch_subscription id w := (Ok (if bool_decide (id = "sub_1") then Some pro_state else None), w);
  change_subscription_price id price key w := (Ok pro_state, w);
  schedule_subscription_price id price key w :=
    (Ok (Some (mkScheduled "sched_1" (Some "kivou_essential_monthly_eur") (Some "eur")
                 (Some (june 30 0)) false)), w);
  release_pending_plan_change id w := (Ok tt, w);
|}.

Definition demo_db : billing_db :=
  mkbdb {[ "a1" := mkAccount "Kivou SA" ["a@kivou.ch"] ]} ∅ ∅ ∅ ∅ ∅ ∅ {[ "a1" := "bait" ]}.

Lemma demo_wf : billing_wf demo_db.
Proof.
  split; simpl; try (intros *; by rewrite lookup_empty).
  intros a [H|[H|H]]; rewrite lookup_empty in H; by destruct H.
Qed.

Definition created_event : StripeEvent :=
  mkEvent "evt_1" "customer.subscription.created" (june 1 8) false (Some "sub_1")
    [("id", JStr "sub_1")].

(** The answer and the tables of a run that succeeds. *)
Definition answer {A} (d : A) (run : result (A * billing_db) * unit) : A :=
  match run.1 with Ok (a, _) => a | Raise _ => d end.
Definition tables {A} (run : result (A * billing_db) * unit) : billing_db :=
  match run.1 with Ok (_, db) => db | Raise _ => demo_db end.
Definition succeeded {A} (run : result (A * billing_db) * unit) : bool := is_ok run.1.

Lemma run_succeeded {A} (d : A) run :
  succeeded run = true -> run = (Ok (answer d run, tables run), tt).
Proof. destruct run as [[[a db]|e] []]; [done|done]. Qed.

Definition demo_configuration : CheckoutConfiguration :=
  mkConfiguration "https://kivou.ch/ok" "https://kivou.ch/no" "https://kivou.ch" false false
    (Some "coupon") None.

(** A checkout, its event, a descent scheduled, a signal opened. *)
Definition no_checkout : PreparedCheckout :=
  mkPrepared (mkStoredAttempt "" "" "" "" None "" (june 1 0) (june 1 0) (june 1 0)) "" "" None.
Definition checkout_run : result (PreparedCheckout * billing_db) * unit :=
  prepare_checkout true id demo_configuration "t0" "a1" "pro" "eur" (june 1 7) true demo_db tt.
Definition checkout_db : billing_db := tables checkout_run.

Definition no_outcome : WebhookOutcome := mkOutcome "" "" RESULT_UNHANDLED None.
Definition event_run : result (WebhookOutcome * billing_db) * unit :=
  handle_event "hash" None "t1" created_event false (june 1 9) checkout_db tt.
Definition subscribed_db : billing_db := tables event_run.

Definition no_change : PlanChangeOutcome := mkPlanOutcome EFFECT_IMMEDIATE "" None.
Definition change_run : result (PlanChangeOutcome * billing_db) * unit :=
  request_plan_change "t2" "a1" "essential" (june 2 9) false subscribed_db tt.
Definition changed_db : billing_db := tables change_run.

Lemma checkout_run_ok : checkout_run = (Ok (answer no_checkout checkout_run, checkout_db), tt).
Proof. apply run_succeeded. vm_compute. reflexivity. Qed.
Lemma event_run_ok : event_run = (Ok (answer no_outcome event_run, subscribed_db), tt).
Proof. apply run_succeeded. vm_compute. reflexivity. Qed.
Lemma change_run_ok : change_run = (Ok (answer no_change change_run, changed_db), tt).
Proof. apply run_succeeded. vm_compute. reflexivity. Qed.

Lemma checkout_step : billing_step true demo_db checkout_db.
Proof.
  exact (step_checkout true demo_configuration "t0" "a1" "pro" "eur" (june 1 7) true tt
    (answer no_checkout checkout_run) demo_db checkout_db tt checkout_run_ok).
Qed.

Lemma event_step : billing_step true checkout_db subscribed_db.
Proof.
  apply (step_event true "hash" None "t1" created_event false (june 1 9) tt
    (answer no_outcome event_run) checkout_db subscribed_db tt); [vm_compute; reflexivity|].
  exact event_run_ok.
Qed.

Lemma change_step : billing_step true subscribed_db changed_db.
Proof.
  apply (step_change true "t2" "a1" "essential" (june 2 9) false tt
    (answer no_change change_run) subscribed_db changed_db tt); [vm_compute; reflexivity|].
  exact change_run_ok.
Qed.

Lemma checkout_wf : billing_wf checkout_db.
Proof. exact (proj1 (step_kept true _ _ demo_wf checkout_step)). Qed.
Lemma subscribed_wf : billing_wf subscribed_db.
Proof. exact (proj1 (step_kept true _ _ checkout_wf event_step)). Qed.




Example event_applied_once_witness :
  wo_result (answer no_outcome event_run) = RESULT_APPLIED
  /\ (wo_result (answer no_outcome event_run) <> RESULT_APPLIED ->
      bdb_subscriptions subscribed_db = bdb_subscriptions checkout_db)
  /\ forall later, rtc (billing_step true) subscribed_db later ->
     forall payload2 observe2 token2 event2 live2 now2 (w2 : unit),
       ev_event_id event2 = "evt_1" ->
       handle_event payload2 observe2 token2 event2 live2 now2 later w2
       = (Ok (mkOutcome (ev_event_id event2) (ev_event_type event2) RESULT_DUPLICATE None, later), w2).
Proof.
  split; [vm_compute; reflexivity|].
  exact (event_applied_once true "hash" None "t1" created_event false (june 1 9) checkout_db tt
    (answer no_outcome event_run) subscribed_db tt checkout_wf event_run_ok).
Defined.

Example plan_change_numbered_witness :
  billing_wf subscribed_db
  /\ exists r r', bdb_subscriptions subscribed_db !! "a1" = Some r
       /\ bdb_subscriptions changed_db !! "a1" = Some r'
       /\ sub_stripe_subscription_id r' = sub_stripe_subscription_id r
       /\ sub_plan_change_sequence r' = sub_plan_change_sequence r + 1
       /\ billing_state changed_db "a1" = billing_state subscribed_db "a1".
Proof.
  split; [exact subscribed_wf|].
  destruct (plan_change_numbered "t2" "a1" "essential" (june 2 9) false subscribed_db tt
    (answer no_change change_run) changed_db tt subscribed_wf change_run_ok)
    as (r & r' & Hr & Hr' & _ & Hid & Hseq & Hsched & _).
  exists r, r'. split; [exact Hr|]. split; [exact Hr'|]. split; [exact Hid|]. split.
  - destruct Hseq as [(_ & E & _)|[E _]]; [|exact E]. exfalso.
    assert (Ha : sub_plan_change_sequence <$> bdb_subscriptions changed_db !! "a1" = Some 1)
      by (vm_compute; reflexivity).
    rewrite E in Ha. vm_compute in Ha. discriminate Ha.
  - apply Hsched. vm_compute. reflexivity.
Defined.

Example open_subscription_kept_witness :
  rtc (billing_step true) subscribed_db changed_db
  /\ billing_wf changed_db
  /\ forall a r, bdb_subscriptions subscribed_db !! a = Some r ->
     exists r', bdb_subscriptions changed_db !! a = Some r'
       /\ (kept r r'
           \/ exists db1 r1, rtc (billing_step true) subscribed_db db1
                /\ rtc (billing_step true) db1 changed_db
                /\ bdb_subscriptions db1 !! a = Some r1
                /\ sub_stripe_subscription_id r1 = sub_stripe_subscription_id r
                /\ is_open_subscription (sub_status r1) = false).
Proof.
  assert (Hrun : rtc (billing_step true) subscribed_db changed_db)
    by (apply rtc_once; exact change_step).
  split; [exact Hrun|].
  exact (open_subscription_kept true subscribed_db changed_db subscribed_wf Hrun).
Defined.

(** The state of the run, applied. *)
Definition sync_run : result (StoredSubscription * string * billing_db) :=
  synchronize_subscription checkout_db "t1" pro_state "a1" (Some (june 1 8)) false (june 1 9).
Definition synced : StoredSubscription * string * billing_db :=
  match sync_run with
  | Ok x => x
  | Raise _ => (_stored (new_row "" (june 1 0)), "stale_event_ignored", demo_db)
  end.

Example rights_follow_payment_witness :
  billing_wf checkout_db
  /\ bs_plan_code (billing_state synced.2 "a1") = "pro"
  /\ is_paid (bs_entitlements (billing_state synced.2 "a1")) = true
  /\ ~ billing_action synced.2 "a1" = ACTION_CHOOSE_PLAN.
Proof.
  split; [exact checkout_wf|].
  assert (Hrun : sync_run = Ok (synced.1.1, synced.1.2, synced.2)) by (vm_compute; reflexivity).
  assert (Hact : synced.1.2 <> "stale_event_ignored") by (vm_compute; discriminate).
  destruct (rights_follow_payment checkout_db "t1" pro_state "a1" (Some (june 1 8)) false (june 1 9)
    synced.1.1 synced.1.2 synced.2 checkout_wf Hrun Hact) as (Hpro & _ & _ & Hpaid & Hchoose & _).
  assert (Hin : "pro" ∈ PURCHASABLE_PLANS) by (apply in_list_true; vm_compute; reflexivity).
  assert (Hcode : bs_plan_code (billing_state synced.2 "a1") = "pro").
  { apply (Hpro "pro" Hin). split; [reflexivity|]. exists "eur", "kivou_pro_monthly_eur".
    split; vm_compute; reflexivity. }
  split; [exact Hcode|]. split.
  - apply Hpaid. rewrite Hcode. exact Hin.
  - intros E. apply Hchoose in E. apply in_list_true in E. vm_compute in E. discriminate E.
Defined.

(** The promised signal counts: two others are opened of four. *)
Definition no_recency : AwardRecency := assess_recency None None None None (mkdate 2026 6 1).
Definition four_signals : list FeedSignal :=
  map (fun k => mkFeedSignal k "o" no_recency) ["s1"; "bait"; "s2"; "s3"].
Definition grant_run : result (list string * billing_db) :=
  grant_up_to_limit demo_db "a1" four_signals (june 1 8).
Definition granted_db : billing_db :=
  match grant_run with Ok (_, db) => db | Raise _ => demo_db end.

Example three_signals_witness :
  grant_run = Ok (["s1"; "s2"], granted_db)
  /\ size (opened_signal_keys granted_db "a1") = 3%nat
  /\ is_unlocked (feed_access granted_db "a1" (mkdate 2030 1 1)) (mkFeedSignal "s2" "o" no_recency)
     = true.
Proof.
  assert (Hrun : grant_run = Ok (["s1"; "s2"], granted_db)) by (vm_compute; reflexivity).
  split; [exact Hrun|].
  destruct (three_signals demo_db "a1" four_signals (june 1 8) ["s1"; "s2"] granted_db Hrun)
    as (_ & Ho & Hsize & _ & _ & _ & Hopen).
  split; [rewrite Hsize; vm_compute; reflexivity|].
  apply Hopen. rewrite Ho. simpl. set_solver.
Defined.

(** * What the model shows of the code *)

(** When the twelve months of the coupon end, the account's place among the
    founding accounts is free again, and the account is eligible again. *)
Example founding_place_returned :
  let over := mkState "sub_1" "cus_1" "active" (Some "price_pro") None
                (Some "kivou_pro_monthly_eur") (Some "eur") None None false None false (Some "a1")
                None None in
  match synchronize_subscription subscribed_db "t3" over "a1" (Some (june 20 8)) false (june 20 9) with
  | Ok (_, _, db) =>
      founding_accounts subscribed_db = 1 /\ founding_available subscribed_db "a1" = false
      /\ founding_accounts db = 0 /\ founding_available db "a1" = true
  | Raise _ => False
  end.
Proof. vm_compute. repeat split; reflexivity. Qed.

(** On PostgreSQL the request that loses the race for the first reservation
    of an account is not answered "checkout in progress": the statement that
    reads the winner runs in a transaction the failed insert aborted. *)
Example reservation_race_on_postgresql :
  reserve true (fun _ => checkout_db) demo_db "t9" "a1" "pro" "eur" (june 1 7)
    = Raise (RuntimeError "InFailedSqlTransaction")
  /\ (match reserve false (fun _ => checkout_db) demo_db "t9" "a1" "pro" "eur" (june 1 7) with
      | Raise (BillingError "checkout_in_progress" _) => True
      | _ => False
      end).
Proof. split; vm_compute; [reflexivity|done]. Qed.

(** A signal whose award date lies in the future, which the recency policy
    disqualifies, falls within every paid history window. *)
Example future_date_in_window :
  let s := mkFeedSignal "s" "o"
             (assess_recency (Some (mkdate 2027 1 1)) None (Some (mkdate 2020 1 1)) None
                (mkdate 2026 6 1)) in
  fs_status s = "invalid_award_date"
  /\ within_history_window s (pe_history_days ESSENTIAL) (mkdate 2026 6 1) = true.
Proof. vm_compute. split; reflexivity. Qed.
