(* ===== verification/PyText.v ===== *)
(** PyText: published text and the regular expressions read in it.

    The text of a notice may hold any character.  In the files that require
    this one a Python [str] is modelled by its UTF-8 encoding, so a literal
    is written as in the source; equality, concatenation and prefixes are
    those of the strings, and what counts or tests characters goes through
    [chars].  On ASCII text this agrees with PyStr.  A regular expression is
    matched by derivatives. *)

From S2P Require Import Prelude PyStr.
From Stdlib Require Import Ascii String.
From stdpp Require Import list.

Local Open Scope Z_scope.

(** * Characters *)

(** A continuation byte of UTF-8. *)
Definition is_continuation (c : ascii) : bool := (128 <=? code c) && (code c <? 192).

Definition starts_inside (s : string) : bool :=
  match s with String c _ => is_continuation c | EmptyString => false end.

(** The characters of a string, each by its encoding. *)
Fixpoint chars (s : string) : list string :=
  match s with
  | EmptyString => []
  | String c s' =>
      match chars s' with
      | x :: l => if starts_inside x then String c x :: l else String c EmptyString :: x :: l
      | [] => [String c EmptyString]
      end
  end.

Definition of_chars (l : list string) : string := foldr String.append EmptyString l.

(** [len(s)] and [s[:n]]. *)
Definition ulen (s : string) : Z := zlength (chars s).
Definition slice_to (n : nat) (s : string) : string := of_chars (take n (chars s)).

Lemma of_chars_chars s : of_chars (chars s) = s.
Proof.
  induction s as [|c s IH]; simpl; [done|].
  destruct (chars s) as [|x l] eqn:E; simpl in IH |- *; [by rewrite <- IH|].
  destruct (starts_inside x); simpl; by rewrite <- IH.
Qed.

Definition bytes (l : list Z) : string := foldr (fun n s => String (chr n) s) EmptyString l.

(** The characters [str.isspace] and [\s] accept. *)
Definition SPACES : list string :=
  map (fun n => bytes [n]) [9; 10; 11; 12; 13; 28; 29; 30; 31; 32]
  ++ [bytes [194; 133]; bytes [194; 160]; bytes [225; 154; 128]]
  ++ map (fun n => bytes [226; 128; n])
       [128; 129; 130; 131; 132; 133; 134; 135; 136; 137; 138; 168; 169; 175]
  ++ [bytes [226; 129; 159]; bytes [227; 128; 128]].

Definition isspace (c : string) : bool := in_list c SPACES.

Fixpoint ldrop (l : list string) : list string :=
  match l with c :: l' => if isspace c then ldrop l' else l | [] => [] end.

Definition rdrop (l : list string) : list string :=
  foldr (fun c r => if isspace c && negb (list_truthy r) then [] else c :: r) [] l.

(** [s.strip()] and [s.rstrip()] *)
Definition ustrip (s : string) : string := of_chars (rdrop (ldrop (chars s))).
Definition urstrip (s : string) : string := of_chars (rdrop (chars s)).

(** [s.split()]: the runs of characters that are not space. *)
Fixpoint split_runs (run l : list string) : list string :=
  match l with
  | [] => if list_truthy run then [of_chars (rev run)] else []
  | c :: l' =>
      if isspace c then (if list_truthy run then [of_chars (rev run)] else []) ++ split_runs [] l'
      else split_runs (c :: run) l'
  end.
Definition usplit (s : string) : list string := split_runs [] (chars s).

(** [s.rsplit(" ", 1)] when it has two parts. *)
Fixpoint rsplit_space (s : string) : option (string * string) :=
  match s with
  | EmptyString => None
  | String c s' =>
      match rsplit_space s' with
      | Some (a, b) => Some (String c a, b)
      | None => if eqc c " " then Some (EmptyString, s') else None
      end
  end.

(** A field typed [NonEmptyStr]. *)
Definition NonEmptyStr (field s : string) : result string :=
  let t := ustrip s in if nonempty t then Ok t else Raise (ValidationError field).

(** No space character begins with the byte. *)
Definition dark (c : ascii) : bool :=
  forallb (fun x => match x with String d _ => negb (eqc c d) | EmptyString => true end) SPACES.

Lemma dark_char c x : dark c = true -> isspace (String c x) = false.
Proof.
  intros H. apply in_list_false. intros Hin. unfold dark in H. rewrite forallb_forall in H.
  apply list_elem_of_In in Hin. specialize (H _ Hin). simpl in H. unfold eqc in H.
  by rewrite bool_decide_true in H.
Qed.

Lemma chars_cons c s : exists x l, chars (String c s) = String c x :: l.
Proof. simpl. destruct (chars s) as [|x l]; [eauto|]. destruct (starts_inside x); eauto. Qed.

(** A string that begins with a visible character is a [NonEmptyStr]. *)
Lemma NonEmptyStr_dark f c s : dark c = true -> exists t, NonEmptyStr f (String c s) = Ok t.
Proof.
  intros Hc. unfold NonEmptyStr, ustrip.
  destruct (chars_cons c s) as (x & l & ->). simpl. rewrite (dark_char c x Hc). simpl.
  rewrite (dark_char c x Hc). simpl. eauto.
Qed.

(** A stripped string that is not empty is kept. *)
Lemma NonEmptyStr_id f s : ustrip s = s -> s <> EmptyString -> NonEmptyStr f s = Ok s.
Proof. intros H Hs. unfold NonEmptyStr. rewrite H. by destruct s. Qed.

(** * Regular expressions *)

Inductive re : Type :=
| Void | Eps
| Atom (accepts : string -> bool)
| Cat (r1 r2 : re)
| Alt (r1 r2 : re)
| Many (r : re).

(** [r+] *)
Definition Plus (r : re) : re := Cat r (Many r).

Fixpoint nullable (r : re) : bool :=
  match r with
  | Void => false | Eps => true | Atom _ => false
  | Cat r1 r2 => nullable r1 && nullable r2
  | Alt r1 r2 => nullable r1 || nullable r2
  | Many _ => true
  end.

(** [Cat] and [Alt] without the branches that cannot match. *)
Definition cat (r1 r2 : re) : re :=
  match r1 with Void => Void | Eps => r2 | _ => Cat r1 r2 end.
Definition alt (r1 r2 : re) : re :=
  match r1, r2 with Void, _ => r2 | _, Void => r1 | _, _ => Alt r1 r2 end.

Fixpoint der (c : string) (r : re) : re :=
  match r with
  | Void => Void | Eps => Void
  | Atom f => if f c then Eps else Void
  | Cat r1 r2 => if nullable r1 then alt (cat (der c r1) r2) (der c r2) else cat (der c r1) r2
  | Alt r1 r2 => alt (der c r1) (der c r2)
  | Many r' => cat (der c r') (Many r')
  end.

Fixpoint match_prefix (r : re) (l : list string) : bool :=
  nullable r
  || match r, l with
     | Void, _ | _, [] => false
     | _, c :: l' => match_prefix (der c r) l'
     end.

(** [re.search(r, s)] finds a match in the characters. *)
Fixpoint search (r : re) (l : list string) : bool :=
  match_prefix r l || match l with _ :: l' => search r l' | [] => false end.

(** The texts a regular expression matches. *)
Inductive matches : re -> list string -> Prop :=
| M_Eps : matches Eps []
| M_Atom f c : f c = true -> matches (Atom f) [c]
| M_Cat r1 r2 u v : matches r1 u -> matches r2 v -> matches (Cat r1 r2) (u ++ v)
| M_Left r1 r2 u : matches r1 u -> matches (Alt r1 r2) u
| M_Right r1 r2 u : matches r2 u -> matches (Alt r1 r2) u
| M_Nil r : matches (Many r) []
| M_More r u v : matches r u -> matches (Many r) v -> matches (Many r) (u ++ v).
#[export] Hint Constructors matches : kivou.

Lemma nullable_spec r : nullable r = true <-> matches r [].
Proof.
  split.
  - induction r; simpl; intros H; try discriminate H; eauto with kivou.
    + apply andb_true_iff in H as [H1 H2].
      change (@nil string) with (@nil string ++ []). eauto with kivou.
    + apply orb_true_iff in H as [H|H]; eauto with kivou.
  - remember [] as w eqn:E. intros H; revert E.
    induction H; intros E; simpl; try done.
    + apply app_eq_nil in E as [-> ->]. by rewrite IHmatches1, IHmatches2.
    + by rewrite IHmatches.
    + rewrite IHmatches by done. by destruct (nullable r1).
Qed.

Lemma matches_cat r1 r2 w : matches (cat r1 r2) w <-> matches (Cat r1 r2) w.
Proof.
  destruct r1; simpl; try done.
  - split; intros H; inversion H as [| |? ? u v Hu Hv| | | |]; subst. inversion Hu.
  - split; intros H.
    + change w with ([] ++ w). eauto with kivou.
    + inversion H as [| |? ? u v Hu Hv| | | |]; subst. by inversion Hu; subst.
Qed.

Lemma matches_alt r1 r2 w : matches (alt r1 r2) w <-> matches (Alt r1 r2) w.
Proof.
  assert (Hv : ~ matches Void w) by (intros H; inversion H).
  assert (Hl : matches r1 w \/ matches r2 w <-> matches (Alt r1 r2) w).
  { split; [intros [H|H]; eauto with kivou | intros H; inversion H; auto]. }
  rewrite <- Hl. destruct r1, r2; simpl; try tauto; rewrite <- ?Hl; split; intros H;
    first [by inversion H; auto | destruct H; eauto with kivou].
Qed.

Lemma matches_der c r w : matches (der c r) w <-> matches r (c :: w).
Proof.
  split.
  - revert w; induction r; simpl; intros w H.
    + inversion H.
    + inversion H.
    + destruct (accepts c) eqn:E; inversion H; subst. by constructor.
    + assert (Hc : matches (cat (der c r1) r2) w -> matches (Cat r1 r2) (c :: w)).
      { intros H'. apply matches_cat in H'. inversion H' as [| |? ? u v Hu Hv| | | |]; subst.
        rewrite app_comm_cons. eauto with kivou. }
      destruct (nullable r1) eqn:E; [|auto]. apply matches_alt in H.
      inversion H as [| | |? ? ? Hl|? ? ? Hr| |]; subst; [auto|].
      apply nullable_spec in E. change (c :: w) with ([] ++ c :: w). eauto with kivou.
    + apply matches_alt in H. inversion H; subst; eauto with kivou.
    + apply matches_cat in H.
      inversion H as [| |? ? u v Hu Hv| | | |]; subst. rewrite app_comm_cons. eauto with kivou.
  - remember (c :: w) as x eqn:E. intros H; revert c w E.
    induction H; intros c' w E; simpl; simplify_eq.
    + rewrite H. constructor.
    + destruct u as [|d u]; simpl in E; simplify_eq.
      * rewrite (proj2 (nullable_spec r1)) by done. apply matches_alt, M_Right; auto.
      * assert (Hc : matches (cat (der c' r1) r2) (u ++ v)) by (apply matches_cat; eauto with kivou).
        destruct (nullable r1); [apply matches_alt|]; eauto with kivou.
    + apply matches_alt, M_Left; auto.
    + apply matches_alt, M_Right; auto.
    + destruct u as [|d u]; simpl in E; simplify_eq; [by apply IHmatches2|].
      apply matches_cat. constructor; auto.
Qed.

Lemma match_prefix_eq r l :
  match_prefix r l
  = nullable r || match l with c :: l' => match_prefix (der c r) l' | [] => false end.
Proof. destruct r, l as [|c l]; simpl; try done. by destruct l. Qed.

Lemma match_prefix_spec r l :
  match_prefix r l = true <-> exists u v, l = u ++ v /\ matches r u.
Proof.
  revert r; induction l as [|c l IH]; intros r; rewrite match_prefix_eq.
  - rewrite orb_false_r, nullable_spec. split; [by exists [], []|].
    intros (u & v & E & H). symmetry in E. by apply app_eq_nil in E as [-> ->].
  - rewrite orb_true_iff, nullable_spec, IH. split.
    + intros [H|(u & v & -> & H)]; [by exists [], (c :: l)|].
      exists (c :: u), v. by rewrite <- matches_der.
    + intros ([|d u] & v & E & H); simpl in E; simplify_eq; [by left|].
      right. exists u, v. by rewrite matches_der.
Qed.

Lemma search_spec r l :
  search r l = true <-> exists a u b, l = a ++ u ++ b /\ matches r u.
Proof.
  induction l as [|c l IH]; cbn [search]; rewrite orb_true_iff, match_prefix_spec.
  - split.
    + intros [(u & v & E & H)|H]; [by exists [], u, v | done].
    + intros ([|] & u & b & E & H); [|done]. left. by exists u, b.
  - rewrite IH. split.
    + intros [(u & v & E & H)|(a & u & b & -> & H)]; [by exists [], u, v | by exists (c :: a), u, b].
    + intros ([|d a] & u & b & E & H); simpl in E; [left; by exists u, b | right].
      simplify_eq. by exists a, u, b.
Qed.

(** No atom accepts the character. *)
Fixpoint rejects (x : string) (r : re) : bool :=
  match r with
  | Void | Eps => true
  | Atom f => negb (f x)
  | Cat r1 r2 | Alt r1 r2 => rejects x r1 && rejects x r2
  | Many r' => rejects x r'
  end.

Lemma rejected x r u : rejects x r = true -> matches r u -> x ∉ u.
Proof.
  intros Hx H; induction H; simpl in Hx; try apply andb_true_iff in Hx as [? ?]; try set_solver.
  intros Hin. apply list_elem_of_singleton in Hin as ->. by rewrite H in Hx.
Qed.

(** A match never spans a character that no atom accepts. *)
Lemma search_split r x a b : rejects x r = true ->
  search r (a ++ x :: b) = search r a || search r b.
Proof.
  intros Hx. apply eq_bool_prop_intro.
  rewrite !Is_true_true, orb_true_iff, !search_spec. split.
  - intros (p & u & q & E & H). pose proof (rejected x r u Hx H) as Hu.
    assert (Hin : x ∉ u) by done.
    destruct (decide (length a < length p)%nat) as [Hl|Hl].
    + right. apply (f_equal (drop (S (length a)))) in E as E'.
      rewrite drop_app_ge in E' by lia.
      replace (S (length a) - length a)%nat with 1%nat in E' by lia. simpl in E'.
      rewrite drop_0 in E'. rewrite drop_app_le in E' by lia.
      exists (drop (S (length a)) p), u, q. by split.
    + left. assert (Ht : (length p + length u <= length a)%nat).
      { destruct (decide (length p + length u <= length a)%nat); [done|]. exfalso. apply Hin.
        apply (f_equal (lookup (length a))) in E. rewrite list_lookup_middle in E by done.
        rewrite lookup_app_r, lookup_app_l in E by lia. symmetry in E.
        by eapply list_elem_of_lookup_2. }
      apply (f_equal (take (length a))) in E as E'. rewrite take_app_length in E'.
      rewrite app_assoc, take_app_ge in E' by (rewrite length_app; lia).
      exists p, u, (take (length a - length (p ++ u)) q). split; [|done]. by rewrite app_assoc.
  - intros [(p & u & q & -> & H)|(p & u & q & -> & H)].
    + exists p, u, (q ++ x :: b). split; [|done]. by rewrite <- !app_assoc.
    + exists (a ++ x :: p), u, q. split; [|done]. by rewrite <- app_assoc.
Qed.

(** The text of a literal, case ignored: besides its two cases, the
    characters whose lower case or equivalence is the letter. *)
Definition swap_case (c : ascii) : ascii :=
  if is_upper c then chr (code c + 32) else if is_lower c then chr (code c - 32) else c.
Definition FOLDED : list (string * string) :=
  [("é", "É"); ("s", bytes [197; 191]); ("i", bytes [196; 176]); ("i", bytes [196; 177]);
   ("k", bytes [226; 132; 170])].
Definition same_letter (p c : string) : bool :=
  bool_decide (p = c) || in_list (p, c) FOLDED
  || match p, c with String a "", String b "" => eqc (swap_case a) b | _, _ => false end.

Definition Lit (s : string) : re := foldr (fun c r => Cat (Atom (same_letter c)) r) Eps (chars s).
Definition OneOf (l : list re) : re := foldr Alt Void l.
(** [\s+] *)
Definition Spaces : re := Plus (Atom isspace).

(** [re.fullmatch(r, s)] *)
Definition fullmatch (r : re) (s : string) : bool :=
  nullable (fold_left (fun r c => der c r) (chars s) r).

(** * Case *)

(** What [casefold] and [upper] make of a character outside ASCII. *)
Class CaseData := { wide_casefold : string -> string; wide_upper : string -> string }.

Definition ascii_lower (c : ascii) : ascii := if is_upper c then chr (code c + 32) else c.
Definition ascii_upper (c : ascii) : ascii := if is_lower c then chr (code c - 32) else c.

Section case.
Context `{CaseData}.
(** [s.casefold()] and [s.upper()] *)
Definition casefold (s : string) : string :=
  of_chars (map (fun c => match c with
    | String a EmptyString => if code a <? 128 then String (ascii_lower a) EmptyString else wide_casefold c
    | _ => wide_casefold c
    end) (chars s)).
Definition upper (s : string) : string :=
  of_chars (map (fun c => match c with
    | String a EmptyString => if code a <? 128 then String (ascii_upper a) EmptyString else wide_upper c
    | _ => wide_upper c
    end) (chars s)).
End case.
