(* ===== verification/PyFloat.v ===== *)
(** PyFloat: the binary64 numbers the matching code computes with.

    A [float] is a [spec_float] of the Standard Library at precision 53;
    [SFmul], [SFdiv] and the comparisons are the ones of IEEE 754.  [float(s)]
    and the true division of integers round the exact rational to nearest,
    ties to even; [round] and the format [.0f] round the exact value of the
    float the same way.  The digits [float(s)] reads are the ASCII ones. *)

From S2P Require Import Prelude PyStr PyDecimal PyText.
From Stdlib Require Import Ascii String Floats.SpecFloat.
From stdpp Require Import list.

Local Open Scope Z_scope.

Definition float : Type := spec_float.
Definition fprec : Z := 53.
Definition femax : Z := 1024.

(** The float nearest to [num / den], [den] positive: the quotient is taken
    with at least 63 bits and a sticky bit, so one rounding remains. *)
Definition of_ratio (num den : Z) : float :=
  if num =? 0 then S754_zero false
  else
    let shift := Z.max 0 (64 + Z.log2 den - Z.log2 (Z.abs num)) in
    let scaled := Z.shiftl (Z.abs num) shift in
    let sticky := if scaled mod den =? 0 then 0 else 1 in
    binary_normalize fprec femax (Z.sgn num * (2 * (scaled / den) + sticky)) (- (shift + 1)) false.

(** [float(n)] for an integer; one that rounds past the largest float
    raises. *)
Definition float_of_int (n : Z) : result float :=
  match of_ratio n 1 with S754_infinity _ => Raise OverflowError | x => Ok x end.

(** The value of an integer literal below 2^53. *)
Definition fint (n : Z) : float := of_ratio n 1.

Definition fmul : float -> float -> float := SFmul fprec femax.
Definition fdiv : float -> float -> float := SFdiv fprec femax.
Definition fltb : float -> float -> bool := SFltb.
Definition fleb : float -> float -> bool := SFleb.

(** [m * 2 ^ e] rounded half to even, [m] not negative. *)
Definition round_scaled (m e : Z) : Z :=
  if 0 <=? e then m * 2 ^ e else div_half_even m (2 ^ (- e)).

(** [round(x)] *)
Definition py_round (x : float) : result Z :=
  match x with
  | S754_zero _ => Ok 0
  | S754_infinity _ => Raise OverflowError
  | S754_nan => Raise (ValueError "cannot convert float NaN to integer")
  | S754_finite s m e => Ok (if s then - round_scaled (Zpos m) e else round_scaled (Zpos m) e)
  end.

(** [f"{x:.0f}"] *)
Definition format_0f (x : float) : string :=
  let signed (s : bool) (t : string) := if s then "-" +:+ t else t in
  match x with
  | S754_zero s => signed s "0"
  | S754_infinity s => signed s "inf"
  | S754_nan => "nan"
  | S754_finite s m e => signed s (str_int (round_scaled (Zpos m) e))
  end.

(** [round(100 * points / ceiling)] *)
Definition percentage (points ceiling : Z) : result Z := py_round (of_ratio (100 * points) ceiling).

(** * [float(s)] *)

(** The leading digits of a string, an underscore allowed between two. *)
Fixpoint digit_group (seen : bool) (s : string) : list Z * string :=
  match s with
  | EmptyString => ([], s)
  | String c s' =>
      if is_digit c then let '(ds, rest) := digit_group true s' in (code c - 48 :: ds, rest)
      else if seen && eqc c "_" then
        match s' with
        | String d _ => if is_digit d then digit_group false s' else ([], s)
        | EmptyString => ([], s)
        end
      else ([], s)
  end.

Definition value_of (ds : list Z) : Z := foldl (fun acc d => 10 * acc + d) 0 ds.

Definition read_sign (s : string) : bool * string :=
  match s with
  | String c s' => if eqc c "-" then (true, s') else if eqc c "+" then (false, s') else (false, s)
  | EmptyString => (false, s)
  end.

Definition lower (s : string) : string :=
  of_chars (map (fun c => match c with String a EmptyString =>
     if is_upper a then String (chr (code a + 32)) EmptyString else c | _ => c end) (chars s)).

(** The float of [m * 10 ^ e]. *)
Definition of_decimal (m e : Z) : float :=
  if 0 <=? e then of_ratio (m * 10 ^ e) 1 else of_ratio m (10 ^ (- e)).

Definition negate (s : bool) (x : float) : float := if s then SFopp x else x.

Definition parse_float (text : string) : option float :=
  let '(sign, body) := read_sign (ustrip text) in
  if in_list (lower body) ["inf"; "infinity"] then Some (S754_infinity sign)
  else if bool_decide (lower body = "nan") then Some S754_nan
  else
    let '(whole, rest) := digit_group false body in
    let '(fraction, rest) :=
      match rest with
      | String c rest' => if eqc c "." then digit_group false rest' else ([], rest)
      | EmptyString => ([], rest)
      end in
    if negb (list_truthy (whole ++ fraction)) then None
    else
      let m := value_of (whole ++ fraction) in
      match rest with
      | EmptyString => Some (negate sign (of_decimal m (- zlength fraction)))
      | String c rest' =>
          if eqc c "e" || eqc c "E" then
            let '(esign, digits) := read_sign rest' in
            match digit_group false digits with
            | (d :: ds, EmptyString) =>
                let e := value_of (d :: ds) in
                Some (negate sign (of_decimal m ((if esign then - e else e) - zlength fraction)))
            | _ => None
            end
          else None
      end.

Example float_of_amount : format_0f <$> parse_float "4500000.50" = Some "4500000".
Proof. vm_compute. reflexivity. Qed.
Example float_tenth : parse_float " 1e-1 " = Some (fdiv (fint 1) (fint 10)).
Proof. vm_compute. reflexivity. Qed.
Example float_refused : map parse_float ["1_0"; "_1"; "1__0"; "1_"; "1,0"; ""; "."; "1e"; "12 x"]
  = [Some (fint 10); None; None; None; None; None; None; None; None].
Proof. vm_compute. reflexivity. Qed.
Example float_saturates : parse_float "1e400" = Some (S754_infinity false).
Proof. vm_compute. reflexivity. Qed.
Example rounds_to_even : map (fun p => percentage p 80) [1; 2; 50; 78]
  = [Ok 1; Ok 2; Ok 62; Ok 98].
Proof. vm_compute. reflexivity. Qed.
