(* ===== verification/Understanding.v ===== *)
(** Understanding: the understanding of a contract the engines read.

    Models the data of [domain/evidence.py], [domain/events.py] and
    [understanding/model.py], and the CPV tables of [understanding/cpv.py].
    A [Literal] type is the list of its values.  An [Evidence] is an object:
    the engines keep one per identity, so it carries its [id]. *)

From S2P Require Import Prelude PyStr PyDatetime PyText.
From Stdlib Require Import String.
From stdpp Require Import gmap strings list.

Local Open Scope Z_scope.

(** * Evidence and claims *)

(** [domain/events.py:76-86 EventRef] *)
Record EventRef : Type := mkEventRef {
  er_source_system : string;
  er_source_notice_id : string;
  er_notice_version : option string;
}.

(** [domain/evidence.py:52-71 Evidence] *)
Record Evidence : Type := mkEvidence {
  ed_id : Z;
  ed_source_system : string;
  ed_source_kind : string;
  ed_source_notice_id : option string;
  ed_source_procedure_id : option string;
  ed_source_url : option string;
  ed_path : option string;
  ed_raw_value : option string;
  ed_excerpt : option string;
  ed_retrieved_at : option datetime;
  ed_engine_version : option string;
}.

#[export] Instance event_ref_eq_dec : EqDecision EventRef.
Proof. solve_decision. Defined.
#[export] Instance evidence_eq_dec : EqDecision Evidence.
Proof. solve_decision. Defined.

(** [list({id(e): e for e in l}.values())]: one evidence per object, where
    it first appears. *)
Fixpoint by_identity_acc (seen : list Z) (l : list Evidence) : list Evidence :=
  match l with
  | [] => []
  | e :: l' =>
      if in_list (ed_id e) seen then by_identity_acc seen l'
      else e :: by_identity_acc (ed_id e :: seen) l'
  end.
Definition by_identity (l : list Evidence) : list Evidence := by_identity_acc [] l.

Lemma by_identity_nil l : by_identity l = [] <-> l = [].
Proof. by destruct l. Qed.

(** [understanding/model.py:67-74 Claim] *)
Record Claim : Type := mkClaim {
  cl_value : string;
  cl_confidence : string;
  cl_kind : string;
  cl_rule : option string;
  cl_evidence : list Evidence;
}.

(** [understanding/model.py:67-84 Claim]: a claim held sure is proved. *)
Definition claim_validate (c : Claim) : result Claim :=
  let! value := NonEmptyStr "value" (cl_value c) in
  let! confidence := checked "confidence" (fun x => in_list x ["high"; "medium"; "low"])
                       (cl_confidence c) in
  let! kind := checked "kind" (fun x => in_list x ["source_fact"; "derived"]) (cl_kind c) in
  let! rule := opt_mapM (NonEmptyStr "rule") (cl_rule c) in
  require! negb (in_list confidence ["high"; "medium"]) || list_truthy (cl_evidence c)
  else ValidationError "evidence" in
  Ok (mkClaim value confidence kind rule (cl_evidence c)).

(** [understanding/model.py:86-89 Claim.is_material] *)
Definition is_material (c : Claim) : bool := negb (bool_decide (cl_value c = "unknown")).

(** * The understanding of a contract *)

(** [domain/values.py:149-156 Location] *)
Record Location : Type := mkLocation {
  loc_country : option string;
  loc_subdivision_code : option string;
  loc_subdivision_scheme : option string;
  loc_locality : option string;
  loc_postal_code : option string;
}.

(** [understanding/model.py:92-110 ContractTiming]: the fields the engines
    read. *)
Record ContractTiming : Type := mkTiming {
  ti_published_at : option (date + datetime);
  ti_contract_start_date : option date;
  ti_duration_value : option Z;
  ti_duration_unit : option string;
}.

(** [understanding/model.py:136-166 ContractUnderstanding], with the place
    of performance of its geography; the fields no engine reads are left
    out. *)
Record ContractUnderstanding : Type := mkUnderstanding {
  cu_award_ref : EventRef;
  cu_contract_type : Claim;
  cu_sector : Claim;
  cu_trade_domain : option Claim;
  cu_characteristics : list Claim;
  cu_facts : gmap string Claim;
  cu_place_of_performance : option Location;
  cu_timing : ContractTiming;
}.

(** [published.date() if hasattr(published, "date") else published] *)
Definition published_date (p : date + datetime) : date :=
  match p with inl d => d | inr t => mkdate (year t) (month t) (day t) end.

(** [cu.trade_domain.value if cu.trade_domain else "unknown_or_general"] *)
Definition trade_domain_of (cu : ContractUnderstanding) : string :=
  match cu_trade_domain cu with Some c => cl_value c | None => "unknown_or_general" end.

(** * The CPV tables *)

(** [understanding/cpv.py:23-41 ContractType] *)
Definition ContractType : list string :=
  ["construction"; "engineering_architecture"; "it_digital"; "telecom"; "transport_logistics";
   "medical_supply"; "social_health_services"; "facility_services"; "security_services";
   "business_services"; "education_services"; "energy_utilities"; "equipment_supply";
   "maintenance_repair"; "research"; "financial_insurance"; "unknown"].

(** [understanding/cpv.py:43-53 TradeDomain] *)
Definition TradeDomain : list string :=
  ["earthworks_demolition"; "general_building"; "roadworks_civil"; "rail_infrastructure";
   "special_civil"; "technical_installation"; "interior_finishing"; "equipment_hire";
   "unknown_or_general"].

(** [understanding/cpv.py:68-79 Sector] *)
Definition Sector : list string :=
  ["healthcare"; "education"; "transport"; "energy"; "environment"; "defence_security";
   "public_administration"; "culture_recreation"; "housing"; "unknown"].

(** [understanding/cpv.py:82-137 CPV_TYPE_RULES] *)
Definition CPV_TYPE_RULES : list (string * string) :=
  [("45", "construction"); ("71", "engineering_architecture"); ("48", "it_digital");
   ("72", "it_digital"); ("64", "telecom"); ("60", "transport_logistics");
   ("63", "transport_logistics"); ("33", "medical_supply"); ("85", "social_health_services");
   ("90", "facility_services"); ("55", "facility_services"); ("98", "facility_services");
   ("79", "business_services"); ("797", "security_services"); ("66", "financial_insurance");
   ("73", "research"); ("80", "education_services"); ("09", "energy_utilities");
   ("65", "energy_utilities"); ("50", "maintenance_repair"); ("03", "equipment_supply");
   ("14", "equipment_supply"); ("15", "equipment_supply"); ("16", "equipment_supply");
   ("18", "equipment_supply"); ("19", "equipment_supply"); ("22", "equipment_supply");
   ("24", "equipment_supply"); ("30", "equipment_supply"); ("31", "equipment_supply");
   ("32", "equipment_supply"); ("34", "equipment_supply"); ("35", "equipment_supply");
   ("37", "equipment_supply"); ("38", "equipment_supply"); ("39", "equipment_supply");
   ("41", "equipment_supply"); ("42", "equipment_supply"); ("43", "equipment_supply");
   ("44", "equipment_supply")].

(** [understanding/cpv.py:142-159 CPV_TRADE_RULES] *)
Definition CPV_TRADE_RULES : list (string * string) :=
  [("451", "earthworks_demolition"); ("452", "general_building"); ("4523", "roadworks_civil");
   ("45234", "rail_infrastructure"); ("4524", "special_civil"); ("4525", "special_civil");
   ("453", "technical_installation"); ("454", "interior_finishing"); ("455", "equipment_hire")].

(** [understanding/cpv.py:163-183 CPV_SECTOR_RULES] *)
Definition CPV_SECTOR_RULES : list (string * string) :=
  [("33", "healthcare"); ("85", "healthcare"); ("45215", "healthcare"); ("80", "education");
   ("45214", "education"); ("60", "transport"); ("63", "transport"); ("34", "transport");
   ("45234", "transport"); ("09", "energy"); ("65", "energy"); ("45251", "energy");
   ("90", "environment"); ("35", "defence_security"); ("797", "defence_security");
   ("75", "public_administration"); ("92", "culture_recreation");
   ("45212", "culture_recreation"); ("45211", "housing")].

(** The value of a key of a table. *)
Definition assoc_get {A} (k : string) (l : list (string * A)) : option A :=
  snd <$> List.find (fun p => bool_decide (p.1 = k)) l.

(** The prefixes of length [n], [n - 1] ... 1, the first in the table. *)
Fixpoint prefix_from (rules : list (string * string)) (code : string) (n : nat) : option string :=
  match n with
  | O => None
  | S n' =>
      match assoc_get (slice_to n code) rules with
      | Some found => Some found
      | None => prefix_from rules code n'
      end
  end.

(** [understanding/cpv.py:186-193 _longest_prefix_match] *)
Definition _longest_prefix_match (code : option string) (rules : list (string * string))
  : option string :=
  match code with
  | None => None
  | Some c => prefix_from rules c (Nat.min (length (chars c)) 8)
  end.

(** [understanding/cpv.py:196-198 contract_type_for_cpv] *)
Definition contract_type_for_cpv (code : option string) : string :=
  default "unknown" (_longest_prefix_match code CPV_TYPE_RULES).

(** [understanding/cpv.py:201-208 trade_domain_for_cpv] *)
Definition trade_domain_for_cpv (code : option string) : string :=
  default "unknown_or_general" (_longest_prefix_match code CPV_TRADE_RULES).

(** [understanding/cpv.py:211-213 sector_for_cpv] *)
Definition sector_for_cpv (code : option string) : string :=
  default "unknown" (_longest_prefix_match code CPV_SECTOR_RULES).

Example cpv_examples :
  map (fun c => (contract_type_for_cpv (Some c), trade_domain_for_cpv (Some c), sector_for_cpv (Some c)))
    ["45234115"; "45233140"; "79710000"; "45000000"; "99000000"]
  = [("construction", "rail_infrastructure", "transport");
     ("construction", "roadworks_civil", "unknown");
     ("security_services", "unknown_or_general", "defence_security");
     ("construction", "unknown_or_general", "unknown");
     ("unknown", "unknown_or_general", "unknown")].
Proof. vm_compute. reflexivity. Qed.
