(* ===== verification/Needs.v ===== *)
(** Needs: the inference of commercial needs from an understood contract.

    Models [needs/model.py], [needs/rules.py] and [needs/features.py]: the
    needs and their validation, the facts of a contract by role, and the
    rules that ask for one fact of each role; and [needs/engine.py]: the
    examination of the rules, the deduplication by category, the ranking, the
    construction of the needs and of the result. *)

From S2P Require Import Prelude PyStr PyDatetime PyDecimal PyText PyFloat Understanding.
From Stdlib Require Import Ascii String.
From stdpp Require Import gmap strings list.

Local Open Scope Z_scope.

(** [str.isalnum] on the characters outside ASCII, from the Unicode
    database. *)
Class UnicodeData := { wide_alnum : string -> bool }.

(** * Data *)

(** [needs/model.py:32-32 ENGINE_VERSION] *)
Definition ENGINE_VERSION : string := "need-graph-v0.2".
(** [needs/model.py:34-34 MAX_NEEDS] *)
Definition MAX_NEEDS : nat := 3.

(** [needs/model.py:38-46 NeedCategory] *)
Definition NeedCategory : list string :=
  ["workforce_capacity"; "equipment_or_rental"; "materials_or_components";
   "logistics_and_transport"; "specialist_subcontracting"; "safety_and_ppe";
   "waste_and_environment"].

(** [needs/model.py:56-56 NeedTiming] *)
Definition NeedTiming : list string :=
  ["immediate"; "near_term"; "medium_term"; "recurring"; "unknown"].

(** [needs/model.py:61-61 Externalisability] *)
Definition Externalisability : list string :=
  ["likely_internal"; "mixed"; "external_plausible"; "unknown"].

(** [needs/model.py:65-65 SourceMode] *)
Definition SourceMode : list string := ["metadata_fallback"; "document_supported"].

(** [needs/model.py:71-71 NeedConfidence] *)
Definition NeedConfidence : list string := ["medium"; "low"].

(** A field typed by a [Literal]. *)
Definition literal (field : string) (values : list string) (v : string) : result string :=
  checked field (fun x => in_list x values) v.

(** [needs/model.py:77-83 _CERTAINTY_WORDING] *)
Definition _CERTAINTY_WORDING : re :=
  let phrase w l := Cat (Lit w) (Cat Spaces (OneOf (map Lit l))) in
  OneOf
    [phrase "will" ["definitely"; "buy"; "hire"; "purchase"; "need"];
     phrase "must" ["buy"; "purchase"];
     phrase "confirmed" ["purchase"; "demand"];
     phrase "certain" ["demand"; "opportunity"];
     phrase "va" ["acheter"; "recruter"; "embaucher"];
     phrase "besoin" ["confirme"; "confirmé"];
     phrase "achat" ["certain"];
     phrase "demande" ["certaine"]].

(** A character of a word, in regular expressions. *)
Definition is_word `{UnicodeData} (c : string) : bool :=
  match c with
  | String a EmptyString => is_digit a || is_upper a || is_lower a || eqc a "_"
  | _ => wide_alnum c
  end.

(** The word in the characters, with a character that is not of a word, or
    an end, on both sides. *)
Definition word_search `{UnicodeData} (w : string) (l : list string) : bool :=
  let edge := Atom (fun c => negb (is_word c)) in
  search (Cat edge (Cat (Lit w) edge)) ([" "] ++ l ++ [" "]).

(** The markers that are not whole words. *)
Definition marker_stems : re :=
  OneOf [Lit "plausible"; Cat (Lit "likely") (Cat Spaces (Lit "operational"));
         Lit "pourrait"; Lit "pourraient"; Lit "susceptible"; Lit "hypothes";
         Lit "hypothés"; Lit "envisageable"].

(** [needs/model.py:85-89 _HYPOTHETICAL_MARKERS] *)
Definition _HYPOTHETICAL_MARKERS `{UnicodeData} (l : list string) : bool :=
  existsb (fun w => word_search w l) ["may"; "could"; "might"] || search marker_stems l.

(** [needs/model.py:92-97 SuppressedCandidate] *)
Record SuppressedCandidate : Type := mkSuppressed {
  su_category : string;
  su_rule_id : string;
  su_reason : string;
}.

#[export] Instance suppressed_eq_dec : EqDecision SuppressedCandidate.
Proof. solve_decision. Defined.

(** [needs/model.py:92-97 SuppressedCandidate]: what building one does. *)
Definition suppressed_validate (s : SuppressedCandidate) : result SuppressedCandidate :=
  let! category := literal "category" NeedCategory (su_category s) in
  let! rule_id := NonEmptyStr "rule_id" (su_rule_id s) in
  let! reason := NonEmptyStr "reason" (su_reason s) in
  Ok (mkSuppressed category rule_id reason).

(** [needs/model.py:100-129 ResourceNeed] *)
Record ResourceNeed : Type := mkNeed {
  rn_category : string;
  rn_subject : option string;
  rn_statement : string;
  rn_reasoning : string;
  rn_timing : string;
  rn_externalisability : string;
  rn_confidence : string;
  rn_evidence_refs : list Evidence;
  rn_supporting_facts : list string;
  rn_mechanism_facts : list string;
  rn_pressure_facts : list string;
  rn_rule_ids : list string;
  rn_source_mode : string;
  rn_engine_version : string;
}.

(** [needs/model.py:131-153 ResourceNeed._une_hypothese_se_justifie] *)
Definition _une_hypothese_se_justifie `{UnicodeData} (n : ResourceNeed) : result ResourceNeed :=
  require! list_truthy (rn_rule_ids n) else ValidationError "rule_ids" in
  require! list_truthy (rn_evidence_refs n) else ValidationError "evidence_refs" in
  require! negb (bool_decide (rn_confidence n = "medium"))
           || (list_truthy (rn_mechanism_facts n) && list_truthy (rn_pressure_facts n))
  else ValidationError "pressure_facts" in
  require! negb (search _CERTAINTY_WORDING (chars (rn_statement n)))
  else ValidationError "statement" in
  require! negb (search _CERTAINTY_WORDING (chars (rn_reasoning n)))
  else ValidationError "reasoning" in
  require! _HYPOTHETICAL_MARKERS (chars (rn_reasoning n)) else ValidationError "reasoning" in
  Ok n.

(** [needs/model.py:100-153 ResourceNeed]: what building one does. *)
Definition need_validate `{UnicodeData} (n : ResourceNeed) : result ResourceNeed :=
  let! category := literal "category" NeedCategory (rn_category n) in
  let! subject := opt_mapM (NonEmptyStr "subject") (rn_subject n) in
  let! statement := NonEmptyStr "statement" (rn_statement n) in
  let! reasoning := NonEmptyStr "reasoning" (rn_reasoning n) in
  let! timing := literal "timing" NeedTiming (rn_timing n) in
  let! externalisability := literal "externalisability" Externalisability
                              (rn_externalisability n) in
  let! confidence := literal "confidence" NeedConfidence (rn_confidence n) in
  let! facts := mapM_result (NonEmptyStr "supporting_facts") (rn_supporting_facts n) in
  let! mechanisms := mapM_result (NonEmptyStr "mechanism_facts") (rn_mechanism_facts n) in
  let! pressures := mapM_result (NonEmptyStr "pressure_facts") (rn_pressure_facts n) in
  let! rule_ids := mapM_result (NonEmptyStr "rule_ids") (rn_rule_ids n) in
  let! mode := literal "source_mode" SourceMode (rn_source_mode n) in
  let! version := NonEmptyStr "engine_version" (rn_engine_version n) in
  _une_hypothese_se_justifie
    (mkNeed category subject statement reasoning timing externalisability confidence
       (rn_evidence_refs n) facts mechanisms pressures rule_ids mode version).

(** [needs/model.py:156-164 NeedGraphResult] *)
Record NeedGraphResult : Type := mkGraph {
  ng_award_ref : EventRef;
  ng_source_mode : string;
  ng_needs : list ResourceNeed;
  ng_suppressed_candidates : list SuppressedCandidate;
  ng_warnings : list string;
  ng_engine_version : string;
}.

(** [needs/model.py:156-184 NeedGraphResult]: what building one does. *)
Definition graph_validate (g : NeedGraphResult) : result NeedGraphResult :=
  let! mode := literal "source_mode" SourceMode (ng_source_mode g) in
  let! warnings := mapM_result (NonEmptyStr "warnings") (ng_warnings g) in
  let! version := NonEmptyStr "engine_version" (ng_engine_version g) in
  require! (length (ng_needs g) <=? MAX_NEEDS)%nat else ValidationError "needs" in
  require! forallb (fun n => bool_decide (rn_confidence n = "medium")) (ng_needs g)
  else ValidationError "needs" in
  require! bool_decide (NoDup (map rn_category (ng_needs g))) else ValidationError "needs" in
  Ok (mkGraph (ng_award_ref g) mode (ng_needs g) (ng_suppressed_candidates g) warnings version).

(** * Features *)

(** [needs/features.py:31-31 COMPARABLE_CURRENCIES] *)
Definition COMPARABLE_CURRENCIES : list string := ["EUR"; "CHF"].
(** [needs/features.py:35-35 MATERIALITY_FLOOR] *)
Definition MATERIALITY_FLOOR : Z := 50000.
(** [needs/features.py:40-40 LARGE_FLOOR] *)
Definition LARGE_FLOOR : Z := 1000000.
(** [needs/features.py:41-41 VERY_LARGE_FLOOR] *)
Definition VERY_LARGE_FLOOR : Z := 10000000.

(** The amount and the currency of an amount claim; [None] is the
    [ValueError] of the unpacking or of [float]. *)
Definition read_amount (text : string) : option (float * string) :=
  match rsplit_space text with
  | Some (raw_value, currency) => value ← parse_float raw_value; Some (value, currency)
  | None => None
  end.

(** [needs/features.py:44-61 magnitude_band] *)
Definition magnitude_band (amount_claim_value : option string) : string :=
  match amount_claim_value ≫= read_amount with
  | None => "unknown"
  | Some (value, currency) =>
      if negb (in_list currency COMPARABLE_CURRENCIES) then "unknown"
      else if fltb value (fint MATERIALITY_FLOOR) then "not_material"
      else if fleb (fint VERY_LARGE_FLOOR) value then "very_large"
      else if fleb (fint LARGE_FLOOR) value then "large"
      else "modest"
  end.

(** [needs/features.py:75-81 _CPV_PROFILES] *)
Definition _CPV_PROFILES : list (string * string) :=
  [("451", "earthworks"); ("452", "building_civil"); ("453", "technical_installation");
   ("454", "finishing"); ("455", "equipment_hire_as_deliverable")].

(** [needs/features.py:90-93 construction_profile] *)
Definition construction_profile (cpv : option string) : string :=
  default "general_or_unknown" (cpv ≫= fun c => assoc_get (slice_to 3 c) _CPV_PROFILES).

(** [needs/features.py:98-106 HUMAN_INTENSIVE_TYPES] *)
Definition HUMAN_INTENSIVE_TYPES : list string :=
  ["construction"; "facility_services"; "security_services"; "transport_logistics";
   "maintenance_repair"].

(** [needs/features.py:111-119 RECURRING_SERVICE_TYPES] *)
Definition RECURRING_SERVICE_TYPES : list string :=
  ["facility_services"; "security_services"; "social_health_services"; "maintenance_repair";
   "transport_logistics"].

(** [needs/features.py:129-129 MACHINERY_PROFILES] *)
Definition MACHINERY_PROFILES : list string := ["earthworks"; "building_civil"].
(** [needs/features.py:130-130 MATERIALS_PROFILES] *)
Definition MATERIALS_PROFILES : list string :=
  ["building_civil"; "technical_installation"; "finishing"].
(** [needs/features.py:131-131 DEBRIS_PROFILES] *)
Definition DEBRIS_PROFILES : list string := ["earthworks"; "building_civil"; "finishing"].
(** [needs/features.py:132-132 SEPARABLE_SPECIALTY_TYPES] *)
Definition SEPARABLE_SPECIALTY_TYPES : list string :=
  ["construction"; "engineering_architecture"; "it_digital"].

(** [needs/features.py:134-134 _MONTHS_PER_UNIT] *)
Definition _MONTHS_PER_UNIT : list (string * float) :=
  [("day", fdiv (fint 1) (fint 30)); ("week", fdiv (fint 1) (of_decimal 43 (-1)));
   ("month", fint 1); ("year", fint 12)].
(** [needs/features.py:135-135 NEAR_TERM_DAYS] *)
Definition NEAR_TERM_DAYS : Z := 90.
(** [needs/features.py:136-136 RECURRING_MONTHS] *)
Definition RECURRING_MONTHS : Z := 12.

(** [needs/features.py:140-157 NeedFeatures] *)
Record NeedFeatures : Type := mkFeatures {
  nf_contract_type : string;
  nf_construction_profile : string;
  nf_magnitude_band : string;
  nf_several_lots : bool;
  nf_long_duration : bool;
  nf_defined_period : bool;
  nf_consortium : bool;
  nf_duration_months : option float;
  nf_timing : string;
  nf_published_object : option string;
  nf_trade_domain : string;
  nf_claims : gmap string Claim;
}.

(** A service of repeated deliveries that lasts a year. *)
Definition recurs (contract_type : string) (duration_months : option float) : bool :=
  in_list contract_type RECURRING_SERVICE_TYPES
  && match duration_months with Some m => fleb (fint RECURRING_MONTHS) m | None => false end.

(** [needs/features.py:192-198 NeedFeatures.recurring_service] *)
Definition recurring_service (f : NeedFeatures) : bool :=
  recurs (nf_contract_type f) (nf_duration_months f).

(** The table of [mechanism]. *)
Definition mechanisms (f : NeedFeatures) : list (string * bool) :=
  let profile := nf_construction_profile f in
  let construction := bool_decide (nf_contract_type f = "construction") in
  [("human_intensive_type", in_list (nf_contract_type f) HUMAN_INTENSIVE_TYPES);
   ("social_health_service", bool_decide (nf_contract_type f = "social_health_services"));
   ("construction_machinery", construction && in_list profile MACHINERY_PROFILES);
   ("construction_materials", construction && in_list profile MATERIALS_PROFILES);
   ("construction_debris", construction && in_list profile DEBRIS_PROFILES);
   ("construction_site", construction);
   ("transport_fleet", bool_decide (nf_contract_type f = "transport_logistics"));
   ("separable_specialties", in_list (nf_contract_type f) SEPARABLE_SPECIALTY_TYPES)].

(** The table of [pressure]. *)
Definition pressures (f : NeedFeatures) : list (string * bool) :=
  let known_magnitude := in_list (nf_magnitude_band f) ["modest"; "large"; "very_large"] in
  let large := in_list (nf_magnitude_band f) ["large"; "very_large"] in
  [("large_magnitude", large);
   ("known_nontrivial_magnitude", known_magnitude);
   ("long_recurring_duration", recurring_service f);
   ("recurring_with_magnitude", recurring_service f && known_magnitude);
   ("parallel_lots_with_magnitude", nf_several_lots f && known_magnitude);
   ("distinct_specialties", nf_consortium f);
   ("near_term_start", in_list (nf_timing f) ["immediate"; "near_term"]);
   ("defined_period", false);
   ("several_lots_alone", false)].

(** [table[name]] *)
Definition entry {A} (table : list (string * A)) (name : string) : result A :=
  option_to_result (KeyError name) (assoc_get name table).

(** [needs/features.py:160-172 NeedFeatures.mechanism] *)
Definition mechanism (f : NeedFeatures) : string -> result bool := entry (mechanisms f).
(** [needs/features.py:175-190 NeedFeatures.pressure] *)
Definition pressure (f : NeedFeatures) : string -> result bool := entry (pressures f).

(** [needs/features.py:201-212 PRESSURE_FACTS] *)
Definition PRESSURE_FACTS : list (string * string) :=
  [("large_magnitude", "amount"); ("known_nontrivial_magnitude", "amount");
   ("long_recurring_duration", "long_duration"); ("recurring_with_magnitude", "amount");
   ("parallel_lots_with_magnitude", "lot"); ("distinct_specialties", "consortium_award");
   ("near_term_start", "contract_start_date")].

(** [needs/features.py:216-225 MECHANISM_FACTS] *)
Definition MECHANISM_FACTS : list (string * string) :=
  [("human_intensive_type", "contract_type"); ("social_health_service", "contract_type");
   ("construction_machinery", "cpv"); ("construction_materials", "cpv");
   ("construction_debris", "cpv"); ("construction_site", "contract_type");
   ("transport_fleet", "contract_type"); ("separable_specialties", "contract_type")].

(** [needs/features.py:228-242 _timing_of] *)
Definition _timing_of (t : ContractTiming) (recurring : bool) : string :=
  if recurring then "recurring"
  else match ti_contract_start_date t, ti_published_at t with
       | Some start, Some published =>
           let delta := days_between start (published_date published) in
           if delta <=? 30 then "immediate"
           else if delta <=? NEAR_TERM_DAYS then "near_term" else "medium_term"
       | _, _ => "unknown"
       end.

(** [needs/features.py:245-280 extract_features] *)
Definition duration_months (t : ContractTiming) : result (option float) :=
  match ti_duration_value t, ti_duration_unit t ≫= fun u => assoc_get u _MONTHS_PER_UNIT with
  | Some v, Some per_unit =>
      if v =? 0 then Ok None
      else let! x := float_of_int v in Ok (Some (fmul x per_unit))
  | _, _ => Ok None
  end.

(** [needs/features.py:245-280 extract_features] *)
Definition extract_features (cu : ContractUnderstanding) : result NeedFeatures :=
  let characteristics := map cl_value (cu_characteristics cu) in
  let contract_type := cl_value (cu_contract_type cu) in
  let! months := duration_months (cu_timing cu) in
  let recurring := recurs contract_type months in
  let fact name := cl_value <$> cu_facts cu !! name in
  let claims := foldl (fun m c => <[cl_value c := c]> m)
                  (cu_facts cu ∪ {["contract_type" := cu_contract_type cu]})
                  (cu_characteristics cu) in
  Ok (mkFeatures contract_type (construction_profile (fact "cpv")) (magnitude_band (fact "amount"))
        (in_list "several_lots" characteristics) (in_list "long_duration" characteristics)
        (in_list "defined_contract_period" characteristics)
        (in_list "consortium_award" characteristics || in_list "multiple_contractors" characteristics)
        months (_timing_of (cu_timing cu) recurring) (fact "published_object")
        (trade_domain_of cu) claims).

(** * Rules *)

(** [needs/rules.py:33-44 NeedRule] *)
Record NeedRule : Type := mkRule {
  nr_rule_id : string;
  nr_category : string;
  nr_mechanism_predicates : list string;
  nr_pressure_predicates : list string;
  nr_statement_template : string;
  nr_reasoning_template : string;
  nr_externalisability : string;
}.

(** [needs/rules.py:47-53 DELIVERABLE_OVERLAP] *)
Definition DELIVERABLE_OVERLAP : list (string * list string) :=
  [("transport_logistics", ["logistics_and_transport"]);
   ("equipment_supply",
    ["equipment_or_rental"; "materials_or_components"; "logistics_and_transport"]);
   ("medical_supply", ["materials_or_components"; "logistics_and_transport"])].

(** [needs/rules.py:58-60 PROFILE_OVERLAP] *)
Definition PROFILE_OVERLAP : list (string * list string) :=
  [("equipment_hire_as_deliverable", ["equipment_or_rental"])].

(** [needs/rules.py:64-71 ALL_PRESSURES] *)
Definition ALL_PRESSURES : list string :=
  ["large_magnitude"; "known_nontrivial_magnitude"; "long_recurring_duration";
   "parallel_lots_with_magnitude"; "distinct_specialties"; "near_term_start"].

(** [needs/rules.py:76-207 RULE_LIBRARY] *)
Definition RULE_LIBRARY : list NeedRule := [
  mkRule "workforce-human-intensive-v1" "workforce_capacity"
    ["human_intensive_type"] ALL_PRESSURES
    "Une capacité de personnel supplémentaire pourrait être nécessaire pour tenir la charge d'exécution du marché."
    "Le contrat porte sur un travail à forte intensité de main-d'œuvre et d'une ampleur qui pourrait dépasser les effectifs en place : un renfort — interne, intérimaire ou sous-traité — est plausible."
    "mixed";
  mkRule "workforce-social-health-v1" "workforce_capacity"
    ["social_health_service"] ["large_magnitude"; "recurring_with_magnitude"]
    "Une capacité de personnel qualifié pourrait être mobilisée pour assurer la prestation sur la durée."
    "Le contrat est un service à la personne d'ampleur ou durablement récurrent : une mobilisation d'effectifs supplémentaires est plausible pendant l'exécution."
    "mixed";
  mkRule "equipment-construction-machinery-v1" "equipment_or_rental"
    ["construction_machinery"] ALL_PRESSURES
    "Une capacité temporaire d'engins ou de matériel de chantier pourrait être commercialement pertinente."
    "Le corps de métier publié compte parmi ceux qui mobilisent des engins au-delà du parc courant : si l'exécution comporte de tels travaux, une location ou un complément d'équipement est plausible."
    "mixed";
  mkRule "equipment-transport-fleet-v1" "equipment_or_rental"
    ["transport_fleet"] ALL_PRESSURES
    "Un renfort de flotte ou de matériel roulant pourrait être nécessaire pour absorber le volume du marché."
    "Le marché de transport pourrait solliciter la flotte au-delà de sa capacité disponible : une location ou une acquisition de véhicules est plausible."
    "mixed";
  mkRule "materials-construction-v1" "materials_or_components"
    ["construction_materials"] ALL_PRESSURES
    "Un approvisionnement en matériaux ou composants pourrait accompagner l'exécution des travaux."
    "Le corps de métier publié consomme des matériaux et des composants en volume : si l'objet du lot en relève, des achats d'approvisionnement sont plausibles auprès de négoces ou de fabricants."
    "external_plausible";
  mkRule "subcontracting-separable-specialties-v1" "specialist_subcontracting"
    ["separable_specialties"] ALL_PRESSURES
    "Le recours à des sous-traitants spécialisés pourrait être pertinent sur certaines composantes du marché."
    "Le marché réunit des spécialités techniquement séparables et une ampleur qui rend plausible la couverture d'une partie par des sous-traitants spécialisés."
    "external_plausible";
  mkRule "safety-ppe-construction-v1" "safety_and_ppe"
    ["construction_site"] ALL_PRESSURES
    "Un approvisionnement en équipements de protection pourrait accompagner la montée en charge du chantier."
    "Un chantier soumis aux obligations de sécurité mobilise des EPI et des protections collectives proportionnés à son ampleur : un achat complémentaire est plausible."
    "external_plausible";
  mkRule "waste-construction-debris-v1" "waste_and_environment"
    ["construction_debris"] ALL_PRESSURES
    "Une capacité d'évacuation et de traitement des déchets de chantier pourrait être requise."
    "Les travaux génèrent des déblais et des gravats dont le volume suit l'ampleur du chantier : un prestataire de collecte ou de traitement est plausible."
    "external_plausible"
].

(** * The engine *)

(** [needs/engine.py:48-56 _CATEGORY_PRIORITY] *)
Definition _CATEGORY_PRIORITY : list string :=
  ["workforce_capacity"; "equipment_or_rental"; "materials_or_components";
   "logistics_and_transport"; "specialist_subcontracting"; "safety_and_ppe";
   "waste_and_environment"].

(** [needs/engine.py:60-63 _Candidate] *)
Record _Candidate : Type := mkCandidate {
  ca_rule : NeedRule;
  ca_mechanisms : list string;
  ca_pressures : list string;
}.

(** [needs/engine.py:65-69 _Candidate.supporting_facts] *)
Definition supporting_facts (c : _Candidate) : result (list string) :=
  let! mechanisms := mapM_result (entry MECHANISM_FACTS) (ca_mechanisms c) in
  let! pressures := mapM_result (entry PRESSURE_FACTS) (ca_pressures c) in
  Ok (dict_fromkeys (mechanisms ++ pressures)).

(** [needs/engine.py:72-72 SUBJECT_MAX_CHARS] *)
Definition SUBJECT_MAX_CHARS : Z := 120.

(** The published object on one line, cut when it is long. *)
Definition shown_object (published_object : option string) : string :=
  let published := PyStr.join " " (usplit (default "" published_object)) in
  if SUBJECT_MAX_CHARS <? ulen published
  then urstrip (slice_to (Z.to_nat (SUBJECT_MAX_CHARS - 1)) published) +:+ "…"
  else published.

(** [needs/engine.py:77-92 _subject] *)
Definition _subject (f : NeedFeatures) : option string :=
  let published := shown_object (nf_published_object f) in
  if negb (nonempty published) then None
  else if negb (bool_decide (nf_trade_domain f = "unknown_or_general"))
  then Some (published +:+ " (" +:+ nf_trade_domain f +:+ ")")
  else Some published.

(** [tuple(x for x in l if f(x))] *)
Fixpoint filter_result {A} (f : A -> result bool) (l : list A) : result (list A) :=
  match l with
  | [] => Ok []
  | x :: l' =>
      let! b := f x in
      let! kept := filter_result f l' in
      Ok (if b : bool then x :: kept else kept)
  end.

(** The categories the contract itself delivers. *)
Definition forbidden (f : NeedFeatures) : list string :=
  default [] (assoc_get (nf_contract_type f) DELIVERABLE_OVERLAP)
  ++ default [] (assoc_get (nf_construction_profile f) PROFILE_OVERLAP).

(** What a rule says of a contract. *)
Inductive verdict : Type :=
| Silent
| Suppressed (s : SuppressedCandidate)
| Proposed (c : _Candidate).

Definition suppress (rule : NeedRule) (reason : string) : result SuppressedCandidate :=
  suppressed_validate (mkSuppressed (nr_category rule) (nr_rule_id rule) reason).

(** [needs/engine.py:111-151 derive]: one turn of the loop. *)
Definition examine (f : NeedFeatures) (rule : NeedRule) : result verdict :=
  let! mechanisms := filter_result (mechanism f) (nr_mechanism_predicates rule) in
  if negb (list_truthy mechanisms) then Ok Silent
  else if in_list (nr_category rule) (forbidden f)
  then let! s := suppress rule "deliverable_overlap" in Ok (Suppressed s)
  else if bool_decide (nf_magnitude_band f = "not_material")
  then let! s := suppress rule "magnitude_not_material" in Ok (Suppressed s)
  else
    let! pressures := filter_result (pressure f) (nr_pressure_predicates rule) in
    if negb (list_truthy pressures)
    then let! s := suppress rule "no_pressure_fact" in Ok (Suppressed s)
    else Ok (Proposed (mkCandidate rule mechanisms pressures)).

Definition suppressed_of (v : verdict) : option SuppressedCandidate :=
  match v with Suppressed s => Some s | _ => None end.
Definition proposed_of (v : verdict) : option _Candidate :=
  match v with Proposed c => Some c | _ => None end.

Definition candidate_category (c : _Candidate) : string := nr_category (ca_rule c).

(** [max(l, key=...)]: the first that has the greatest key. *)
Definition max_first {A} (key : A -> Z) (x : A) (l : list A) : A :=
  foldl (fun best y => if key best <? key y then y else best) x l.

Definition primary_of (group : list _Candidate) : result _Candidate :=
  let! keyed := mapM_result (fun c =>
      let! key := let! facts := supporting_facts c in Ok (zlength (dict_fromkeys facts)) in
      Ok (key, c)) group in
  match keyed with
  | k :: ks => Ok (snd (max_first fst k ks))
  | [] => Raise (ValueError "max() iterable argument is empty")
  end.

(** [needs/engine.py:177-186 _deduplicate] *)
Definition _deduplicate (candidates : list _Candidate)
  : result (list (_Candidate * list _Candidate)) :=
  mapM_result (fun category =>
      let group := List.filter (fun c => bool_decide (candidate_category c = category)) candidates in
      let! primary := primary_of group in Ok (primary, group))
    (dict_fromkeys (map candidate_category candidates)).

(** The distinct pressures of a group. *)
Definition group_pressures (group : list _Candidate) : list string :=
  dict_fromkeys (flat_map ca_pressures group).

(** [needs/engine.py:188-197 _score] *)
Definition _score (group : list _Candidate) (f : NeedFeatures) : Z :=
  10 * zlength (group_pressures group)
  + (if in_list (nf_magnitude_band f) ["large"; "very_large"] then 5 else 0)
  + (if bool_decide (nf_timing f = "unknown") then 0 else 2).

(** [l.index(x)] *)
Fixpoint index_of (x : string) (l : list string) : option Z :=
  match l with
  | [] => None
  | y :: l' => if bool_decide (y = x) then Some 0 else Z.succ <$> index_of x l'
  end.

(** The order of pairs of integers. *)
Definition pair_leb (a b : Z * Z) : bool :=
  (a.1 <? b.1) || ((a.1 =? b.1) && (a.2 <=? b.2)).

(** [needs/engine.py:154-160 derive]: the key of the sort. *)
Definition rank_key (f : NeedFeatures) (item : _Candidate * list _Candidate) : result (Z * Z) :=
  let! index := option_to_result (ValueError "tuple.index(x): x not in tuple")
                  (index_of (candidate_category item.1) _CATEGORY_PRIORITY) in
  Ok (- _score item.2 f, index).

(** [needs/engine.py:103-175 derive] *)
Definition ranked (f : NeedFeatures) (merged : list (_Candidate * list _Candidate))
  : result (list (_Candidate * list _Candidate)) :=
  let! keyed := mapM_result (fun item => let! key := rank_key f item in Ok (key, item)) merged in
  Ok (map snd (sorted_by (fun a b => pair_leb a.1 b.1) keyed)).

(** [needs/engine.py:199-247 _need] *)
Definition reasoning_of (template : string) (subject : option string) : string :=
  match subject with
  | Some s =>
      template +:+ " Elle porte sur l'objet publié « " +:+ s
      +:+ " » : si cet objet ne relève pas de ces travaux, elle ne tient pas."
  | None =>
      template +:+ " L'avis ne publie aucun objet exploitable pour ce lot : l'hypothèse repose sur le seul code CPV et reste à ce titre plus fragile."
  end.

(** The evidence of the facts that are claims of the contract. *)
Definition evidence_of (f : NeedFeatures) (facts : list string) : list Evidence :=
  by_identity (flat_map (fun fact => match nf_claims f !! fact with
                                     | Some c => cl_evidence c
                                     | None => []
                                     end) facts).

Section engine.
Context `{UnicodeData}.

(** [needs/engine.py:199-247 _need] *)
Definition _need (primary : _Candidate) (group : list _Candidate) (f : NeedFeatures)
  : result ResourceNeed :=
  let! facts := mapM_result supporting_facts group in
  let facts := dict_fromkeys (concat facts) in
  let rule := ca_rule primary in
  let externalisability :=
    if bool_decide (nr_externalisability rule = "external_plausible")
       && (zlength (group_pressures group) <? 2)
    then "mixed" else nr_externalisability rule in
  let subject := _subject f in
  need_validate
    (mkNeed (nr_category rule) subject (nr_statement_template rule)
       (reasoning_of (nr_reasoning_template rule) subject) (nf_timing f) externalisability "medium"
       (evidence_of f facts) facts (dict_fromkeys (flat_map ca_mechanisms group))
       (group_pressures group) (dict_fromkeys (map (fun c => nr_rule_id (ca_rule c)) group))
       "metadata_fallback" ENGINE_VERSION).

(** [needs/engine.py:103-175 derive] *)
Definition derive (rules : list NeedRule) (cu : ContractUnderstanding) : result NeedGraphResult :=
  let! f := extract_features cu in
  let! verdicts := mapM_result (examine f) rules in
  let! merged := _deduplicate (omap proposed_of verdicts) in
  let! order := ranked f merged in
  let! needs := mapM_result (fun item => _need item.1 item.2 f) (take MAX_NEEDS order) in
  let! below := mapM_result (fun item => suppress (ca_rule item.1) "ranked_below_top_three")
                  (drop MAX_NEEDS order) in
  graph_validate
    (mkGraph (cu_award_ref cu) "metadata_fallback" needs
       (omap suppressed_of verdicts ++ below) [] ENGINE_VERSION).
End engine.
