(* ===== verification/PyTextFacts.v ===== *)
(** PyTextFacts: the characters of concatenated, cut and stripped text. *)

From S2P Require Import Prelude PyStr PyText.
From Stdlib Require Import Ascii String.
From stdpp Require Import list.

Local Open Scope Z_scope.

(** * Characters of a concatenation *)

(** A character: a byte and continuation bytes. *)
Definition is_char (c : string) : Prop :=
  exists a t, c = String a t /\ all_chars is_continuation t = true.

(** Characters as [chars] finds them: only the first may begin inside. *)
Definition grouped (l : list string) : Prop :=
  Forall is_char l /\ Forall (fun c => starts_inside c = false) (tail l).

Lemma chars_grouped s : grouped (chars s).
Proof.
  induction s as [|c s [IH1 IH2]]; simpl; [by split|].
  destruct (chars s) as [|x l]; simpl in IH2; [split; [|done]; repeat constructor; by exists c, EmptyString|].
  apply Forall_cons in IH1 as [(a & t & -> & Ht) IH1]. simpl.
  destruct (is_continuation a) eqn:E; split; simpl.
  - constructor; [|done]. exists c, (String a t). simpl. by rewrite E, Ht.
  - done.
  - repeat constructor; [by exists c, EmptyString | by exists a, t | done].
  - by constructor.
Qed.

Lemma chars_eq c s :
  chars (String c s)
  = match chars s with
    | x :: l => if starts_inside x then String c x :: l else String c EmptyString :: x :: l
    | [] => [String c EmptyString]
    end.
Proof. done. Qed.

Lemma chars_char c s : is_char c -> starts_inside s = false ->
  chars (c +:+ s) = c :: chars s.
Proof.
  intros (a & t & -> & Ht) Hs. revert a. induction t as [|b t IH]; intros a.
  - change (String a "" +:+ s) with (String a s). rewrite chars_eq.
    destruct s as [|d s]; [done|]. destruct (chars_cons d s) as (x & l & E). rewrite E.
    simpl in Hs |- *. by rewrite Hs.
  - simpl in Ht. apply andb_true_iff in Ht as [Hb Ht]. specialize (IH Ht b).
    change (String a (String b t) +:+ s) with (String a (String b t +:+ s)).
    rewrite chars_eq, IH. simpl. by rewrite Hb.
Qed.

Lemma starts_inside_of_chars l : grouped l -> head l = None \/
  (exists c, head l = Some c /\ starts_inside (of_chars l) = starts_inside c).
Proof.
  intros [H _]. destruct l as [|c l]; [by left|]. right. exists c. split; [done|].
  apply Forall_cons in H as [(a & t & -> & _) _]. done.
Qed.

Lemma chars_of_chars l : grouped l -> chars (of_chars l) = l.
Proof.
  induction l as [|c l IH]; intros [H1 H2]; simpl; [done|]. simpl in H2.
  apply Forall_cons in H1 as [Hc Hl].
  assert (Hg : grouped l). { split; [done|]. destruct l; [done|]. by apply Forall_cons in H2 as [_ ?]. }
  rewrite chars_char, IH; [done | done | done |].
  destruct l as [|d l]; [done|]. apply Forall_cons in H2 as [Hd _], Hl as [(a & t & -> & _) _]. done.
Qed.

Lemma of_chars_app l1 l2 : of_chars (l1 ++ l2) = of_chars l1 +:+ of_chars l2.
Proof. induction l1 as [|c l1 IH]; simpl; [done|]. by rewrite IH, sapp_assoc. Qed.

Lemma grouped_app l1 l2 : grouped l1 -> grouped l2 ->
  match l2 with c :: _ => starts_inside c = false | [] => True end -> grouped (l1 ++ l2).
Proof.
  intros [H1 H1'] [H2 H2'] H. split; [by apply Forall_app|].
  destruct l1 as [|c l1]; [done|]. simpl in H1' |- *. apply Forall_app. split; [done|].
  destruct l2; [done|]. by constructor.
Qed.

Lemma chars_app s t : starts_inside t = false -> chars (s +:+ t) = chars s ++ chars t.
Proof.
  intros H. rewrite <- (of_chars_chars s) at 1. rewrite <- (of_chars_chars t) at 1.
  rewrite <- of_chars_app. apply chars_of_chars. apply grouped_app; try apply chars_grouped.
  destruct t as [|c t]; [done|]. destruct (chars_cons c t) as (x & l & ->). done.
Qed.

Lemma grouped_suffix l1 l2 : grouped (l1 ++ l2) -> grouped l2.
Proof.
  intros [H1 H2]. apply Forall_app in H1 as [_ H1]. split; [done|].
  destruct l1 as [|c l1]; [done|]. simpl in H2. apply Forall_app in H2 as [_ H2].
  destruct l2; [done|]. by apply Forall_cons in H2 as [_ ?].
Qed.

Lemma grouped_prefix l1 l2 : grouped (l1 ++ l2) -> grouped l1.
Proof.
  intros [H1 H2]. apply Forall_app in H1 as [H1 _]. split; [done|].
  destruct l1 as [|c l1]; [done|]. simpl in H2. by apply Forall_app in H2 as [H2 _].
Qed.

(** * Stripping *)

(** A text whose ends are visible characters. *)
Definition trimmed (l : list string) : Prop :=
  exists a m, l = a :: m /\ isspace a = false /\
  exists m' z, l = m' ++ [z] /\ isspace z = false.

Lemma rdrop_keep l z : isspace z = false -> rdrop (l ++ [z]) = l ++ [z].
Proof.
  intros Hz. unfold rdrop. rewrite foldr_app. simpl. rewrite Hz. simpl.
  induction l as [|c l IH]; simpl; [done|]. rewrite IH. destruct (isspace c); [|done].
  by destruct l.
Qed.

Lemma rdrop_spec l : exists l', l = rdrop l ++ l' /\ Forall (fun c => isspace c = true) l'.
Proof.
  induction l as [|c l (l' & E & H)]; simpl; [by exists []|].
  destruct (rdrop l) as [|d r] eqn:Er; simpl.
  - simpl in E. subst l'. destruct (isspace c) eqn:Ec; simpl; [exists (c :: l) | by exists l].
    split; [done|]. by constructor.
  - rewrite andb_false_r. exists l'. split; [|done]. rewrite E at 1. done.
Qed.

Lemma rdrop_cons c l : isspace c = false -> rdrop (c :: l) = c :: rdrop l.
Proof. intros H. simpl. by rewrite H. Qed.

Lemma ustrip_trimmed s : trimmed (chars s) -> ustrip s = s.
Proof.
  intros (a & m & E & Ha & m' & z & E' & Hz). unfold ustrip. rewrite E. simpl. rewrite Ha.
  rewrite <- E, E', rdrop_keep, <- E' by done. apply of_chars_chars.
Qed.

Lemma NonEmptyStr_trimmed f s : trimmed (chars s) -> NonEmptyStr f s = Ok s.
Proof.
  intros H. apply NonEmptyStr_id; [by apply ustrip_trimmed|]. intros ->.
  destruct H as (a & m & E & _). done.
Qed.

(** A text whose first byte no space begins with. *)
Definition dark_head (s : string) : bool :=
  match s with String c _ => dark c | EmptyString => false end.

Lemma NonEmptyStr_dark_head f s : dark_head s = true ->
  exists t, NonEmptyStr f s = Ok t /\ dark_head t = true.
Proof.
  destruct s as [|c s]; [done|]. simpl. intros Hc. unfold NonEmptyStr, ustrip.
  destruct (chars_cons c s) as (x & l & E). simpl chars in E |- *. rewrite E. simpl.
  rewrite (dark_char c x Hc). simpl. rewrite (dark_char c x Hc). simpl. eexists. by split.
Qed.

Lemma ldrop_suffix l : exists l', l = l' ++ ldrop l.
Proof.
  induction l as [|c l (l' & E)]; simpl; [by exists []|].
  destruct (isspace c); [|by exists []]. exists (c :: l'). simpl. by rewrite <- E.
Qed.

Lemma ldrop_head l : match ldrop l with c :: _ => isspace c = false | [] => True end.
Proof. induction l as [|c l IH]; simpl; [done|]. by destruct (isspace c) eqn:E. Qed.

Lemma rdrop_idem l : rdrop (rdrop l) = rdrop l.
Proof.
  induction l as [|c l IH]; [done|]. simpl. fold (rdrop l).
  destruct (isspace c && negb (list_truthy (rdrop l))) eqn:E; [done|].
  simpl. fold (rdrop (rdrop l)). by rewrite IH, E.
Qed.

Lemma ustrip_idem s : ustrip (ustrip s) = ustrip s.
Proof.
  unfold ustrip. pose proof (chars_grouped s) as Hg.
  destruct (ldrop_suffix (chars s)) as (l1 & E1). rewrite E1 in Hg. apply grouped_suffix in Hg.
  pose proof (ldrop_head (chars s)) as Hh.
  destruct (rdrop_spec (ldrop (chars s))) as (l2 & E2 & _). rewrite E2 in Hg.
  apply grouped_prefix in Hg. rewrite chars_of_chars by done.
  destruct (ldrop (chars s)) as [|c l]; [done|].
  rewrite rdrop_cons by done. simpl. rewrite Hh, rdrop_cons by done. by rewrite rdrop_idem.
Qed.

Lemma NonEmptyStr_idem f s t : NonEmptyStr f s = Ok t -> NonEmptyStr f t = Ok t.
Proof.
  unfold NonEmptyStr. destruct (nonempty (ustrip s)) eqn:E; [|discriminate].
  intros [= <-]. by rewrite ustrip_idem, E.
Qed.

(** [s.split()] finds runs of visible characters. *)
Definition visible_run (w : string) : Prop :=
  exists l, l <> [] /\ w = of_chars l /\ grouped l /\ Forall (fun c => isspace c = false) l.

Lemma split_runs_visible run l : grouped (rev run ++ l) ->
  Forall (fun c => isspace c = false) run -> Forall visible_run (split_runs run l).
Proof.
  assert (Hrun : forall run, run <> [] -> grouped (rev run) ->
    Forall (fun c => isspace c = false) run -> visible_run (of_chars (rev run))).
  { intros r Hne Hg Hv. exists (rev r). split_and!; try done.
    - intros E. apply Hne. destruct r; [done|]. simpl in E. by destruct (rev r).
    - apply Forall_forall. intros x Hx. rewrite Forall_forall in Hv. apply Hv.
      apply list_elem_of_In. apply list_elem_of_In in Hx. by apply in_rev. }
  revert run; induction l as [|c l IH]; intros run Hg Hv; simpl.
  - rewrite app_nil_r in Hg. destruct run as [|x run]; [constructor|].
    constructor; [|constructor]. by apply (Hrun (x :: run)).
  - destruct (isspace c) eqn:Ec.
    + apply Forall_app. split.
      * destruct run as [|x run]; [constructor|]. constructor; [|constructor].
        apply (Hrun (x :: run)); try done. by eapply grouped_prefix.
      * apply IH; [|constructor]. simpl. apply grouped_suffix in Hg.
        change (c :: l) with ([c] ++ l) in Hg. by eapply grouped_suffix.
    + apply IH; [|by constructor]. simpl. by rewrite <- app_assoc.
Qed.

Lemma usplit_visible s : Forall visible_run (usplit s).
Proof. apply split_runs_visible; [apply chars_grouped | constructor]. Qed.

(** A text that begins with a visible character. *)
Definition visible_head (l : list string) : Prop :=
  exists c m, l = c :: m /\ isspace c = false.

Lemma join_visible ws : ws <> [] -> Forall visible_run ws ->
  visible_head (chars (PyStr.join " " ws)).
Proof.
  intros Hne Hws. destruct ws as [|w ws]; [done|].
  apply Forall_cons in Hws as [(l & Hl & -> & Hg & Hv) _].
  destruct l as [|c l]; [done|]. apply Forall_cons in Hv as [Hc _].
  assert (Ht : exists t, PyStr.join " " (of_chars (c :: l) :: ws) = of_chars (c :: l) +:+ t
                 /\ starts_inside t = false).
  { destruct ws as [|w' ws]; simpl; [exists EmptyString; by rewrite ?sapp_nil_r | by eexists]. }
  destruct Ht as (t & -> & Hi). rewrite chars_app, chars_of_chars by done.
  by exists c, (l ++ chars t).
Qed.

Lemma NonEmptyStr_visible f s : visible_head (chars s) -> exists t, NonEmptyStr f s = Ok t.
Proof.
  intros (c & m & E & Hc). unfold NonEmptyStr, ustrip. rewrite E. simpl. rewrite Hc. simpl.
  rewrite Hc. simpl.
  pose proof (chars_grouped s) as [Hg _]. rewrite E in Hg.
  apply Forall_cons in Hg as [(a & t & -> & _) _]. simpl. eauto.
Qed.

(** A text that ends with a visible character. *)
Definition visible_end (l : list string) : bool :=
  match last l with Some z => negb (isspace z) | None => false end.

Lemma trimmed_app l1 m l2 : trimmed l1 -> visible_end l2 = true -> trimmed (l1 ++ m ++ l2).
Proof.
  intros (a & t & E & Ha & _) H. unfold visible_end in H.
  destruct (last l2) as [z|] eqn:Ez; [|done]. apply last_Some in Ez as [t' E'].
  apply negb_true_iff in H. exists a, (t ++ m ++ l2). split; [by rewrite E|]. split; [done|].
  exists (l1 ++ m ++ t'), z. rewrite E'. by rewrite <- !app_assoc.
Qed.

Lemma starts_outside s c l : chars s = c :: l -> starts_inside c = false -> starts_inside s = false.
Proof.
  destruct s as [|a s]; [done|]. destruct (chars_cons a s) as (x & m & ->).
  intros [= <- _]. done.
Qed.

Lemma chars_outside s : starts_inside s = false -> Forall (fun c => starts_inside c = false) (chars s).
Proof.
  intros H. pose proof (chars_grouped s) as [_ Ht]. destruct s as [|a s]; [constructor|].
  destruct (chars_cons a s) as (x & m & E). rewrite E in Ht |- *. by constructor.
Qed.

Lemma of_chars_outside l : Forall is_char l -> Forall (fun c => starts_inside c = false) l ->
  starts_inside (of_chars l) = false.
Proof.
  intros H1 H2. destruct l as [|c l]; [done|].
  apply Forall_cons in H1 as [(a & t & -> & _) _], H2 as [H2 _]. done.
Qed.

Lemma split_runs_outside run l :
  Forall is_char (rev run ++ l) -> Forall (fun c => starts_inside c = false) (rev run ++ l) ->
  Forall (fun w => starts_inside w = false) (split_runs run l).
Proof.
  revert run; induction l as [|c l IH]; intros run H1 H2; simpl.
  - rewrite app_nil_r in H1, H2. destruct run; [constructor|].
    constructor; [by apply of_chars_outside | constructor].
  - assert (H1' := H1). assert (H2' := H2).
    apply Forall_app in H1' as [Hr Hl], H2' as [Hr' Hl'].
    apply Forall_cons in Hl as [_ Hl], Hl' as [_ Hl'].
    destruct (isspace c).
    + apply Forall_app. split; [|by apply IH]. destruct run; [constructor|].
      constructor; [by apply of_chars_outside | constructor].
    + apply IH; simpl; by rewrite <- app_assoc.
Qed.

Lemma usplit_outside s : starts_inside s = false ->
  Forall (fun w => starts_inside w = false) (usplit s).
Proof.
  intros H. apply split_runs_outside; [apply (chars_grouped s) | by apply chars_outside].
Qed.

Lemma join_outside ws : Forall (fun w => starts_inside w = false) ws -> Forall visible_run ws ->
  starts_inside (PyStr.join " " ws) = false.
Proof.
  intros H Hv. destruct ws as [|w ws]; [done|].
  apply Forall_cons in H as [Hw _], Hv as [(l & Hl & -> & [Hc _] & _) _].
  destruct l as [|c l]; [done|]. apply Forall_cons in Hc as [(a & t & -> & _) _].
  by destruct ws.
Qed.

(** * Searching *)

Lemma search_app_l r a b : search r a = true -> search r (a ++ b) = true.
Proof.
  rewrite !search_spec. intros (p & u & q & -> & H). exists p, u, (q ++ b).
  split; [by rewrite <- !app_assoc | done].
Qed.

(** A match may end with the character. *)
Fixpoint ends (x : string) (r : re) : bool :=
  match r with
  | Void | Eps => false
  | Atom f => f x
  | Cat r1 r2 => ends x r2 || (nullable r2 && ends x r1)
  | Alt r1 r2 => ends x r1 || ends x r2
  | Many r' => ends x r'
  end.

Lemma ends_spec x r w : matches r w -> forall u, w = u ++ [x] -> ends x r = true.
Proof.
  intros H; induction H; intros w E; simpl.
  - by destruct w.
  - destruct w as [|? [|? ?]]; simplify_eq/=; done.
  - destruct v as [|y v] using rev_ind.
    + rewrite app_nil_r in E. apply orb_true_iff. right.
      rewrite (proj2 (nullable_spec r2)) by done. by eapply IHmatches1.
    + rewrite app_assoc in E. apply app_inj_tail in E as [_ ->]. by erewrite IHmatches2.
  - by erewrite IHmatches.
  - by erewrite IHmatches, orb_true_r.
  - by destruct w.
  - destruct v as [|y v] using rev_ind.
    + rewrite app_nil_r in E. by eapply IHmatches1.
    + rewrite app_assoc in E. apply app_inj_tail in E as [_ ->]. by eapply IHmatches2.
Qed.

(** A character no match ends with does not matter at the end of a text,
    one no match begins with does not matter at its start. *)
Lemma search_snoc r l x : nullable r = false -> ends x r = false ->
  search r (l ++ [x]) = search r l.
Proof.
  intros Hn He. apply eq_bool_prop_intro. rewrite !Is_true_true. split; [|apply search_app_l].
  rewrite !search_spec. intros (a & u & b & E & H).
  destruct b as [|y b _] using rev_ind.
  - rewrite app_nil_r in E. destruct u as [|y u _] using rev_ind.
    + apply nullable_spec in H. congruence.
    + rewrite app_assoc in E. apply app_inj_tail in E as [_ <-].
      by rewrite (ends_spec x r _ H u) in He.
  - rewrite !app_assoc in E. apply app_inj_tail in E as [-> _]. exists a, u, b.
    by rewrite <- app_assoc.
Qed.

Lemma search_cons r x l : nullable r = false -> der x r = Void -> search r (x :: l) = search r l.
Proof.
  intros Hn Hd. cbn [search]. rewrite match_prefix_eq, Hn, Hd. simpl. by destruct l.
Qed.

(** * Hexadecimal text *)

Lemma hex_visible c : is_hex_lower c = true ->
  isspace (String c EmptyString) = false /\ starts_inside (String c EmptyString) = false.
Proof. destruct c as [[] [] [] [] [] [] [] []]; vm_compute; done. Qed.

Lemma hex_chars s : all_chars is_hex_lower s = true ->
  Forall (fun c => isspace c = false /\ starts_inside c = false) (chars s).
Proof.
  induction s as [|c s IH]; simpl; [constructor|]. intros H. apply andb_true_iff in H as [Hc Hs].
  specialize (IH Hs). apply hex_visible in Hc. destruct IH as [|x l [Hx Hx'] IH]; [auto|].
  rewrite Hx'. auto.
Qed.

Lemma ustrip_fingerprint s : is_fingerprint s = true -> ustrip s = s.
Proof.
  unfold is_fingerprint. intros H. apply andb_true_iff in H as [_ H]. apply hex_chars in H.
  unfold ustrip. assert (forall l, Forall (fun c => isspace c = false /\ starts_inside c = false) l ->
    ldrop l = l /\ rdrop l = l) as Hl.
  { induction 1 as [|c l [Hc _] _ [_ IH]]; [done|]. simpl. rewrite Hc. simpl. split; [done|].
    by fold (rdrop l); rewrite IH. }
  destruct (Hl _ H) as [-> ->]. apply of_chars_chars.
Qed.
