(* ===== verification/NeedsFacts.v ===== *)
(** NeedsFacts: what the examination of rules, the ranking and the
    construction of needs compute. *)

From S2P Require Import Prelude PyStr PyText PyTextFacts Understanding Needs.
From Stdlib Require Import Ascii String Sorting.Sorted.
From stdpp Require Import gmap strings list.

Local Open Scope Z_scope.

(** * Tables *)

Definition known {A} (table : list (string * A)) (name : string) : bool :=
  truthy (assoc_get name table).

(** The entry of a table of booleans, false when there is none. *)
Definition holds (table : list (string * bool)) (name : string) : bool :=
  default false (assoc_get name table).

Lemma known_keys {A} (t : list (string * A)) name : known t name = true <-> name ∈ map fst t.
Proof.
  unfold known, assoc_get. induction t as [|[k v] t IH]; simpl; [split; [done | set_solver]|].
  case_bool_decide as E; simpl in E |- *; [subst; set_solver|].
  rewrite IH, elem_of_cons. split; [auto | intros [?|?]; [congruence | done]].
Qed.

Lemma known_wider {A B} (t : list (string * A)) (t' : list (string * B)) extra name :
  map fst t' = map fst t ++ extra -> known t name = true -> known t' name = true.
Proof. intros E. rewrite !known_keys, E. set_solver. Qed.

Lemma entry_known {A} (t : list (string * A)) name :
  known t name = true -> exists v, entry t name = Ok v /\ assoc_get name t = Some v.
Proof. unfold known, entry. destruct (assoc_get name t); simpl; [eauto | done]. Qed.

Lemma entry_holds t name : known t name = true -> entry t name = Ok (holds t name).
Proof. unfold known, entry, holds. by destruct (assoc_get name t). Qed.

Lemma filter_entries t l : forallb (known t) l = true ->
  filter_result (entry t) l = Ok (List.filter (holds t) l).
Proof.
  induction l as [|x l IH]; simpl; [done|]. intros H. apply andb_true_iff in H as [Hx H].
  rewrite entry_holds by done. simpl. rewrite IH by done. simpl. by destruct (holds t x).
Qed.

Lemma mapM_entries {A} (t : list (string * A)) l : forallb (known t) l = true ->
  exists vs, mapM_result (entry t) l = Ok vs.
Proof.
  induction l as [|x l IH]; simpl; [eauto|]. intros H. apply andb_true_iff in H as [Hx H].
  destruct (entry_known t x Hx) as (v & -> & _), (IH H) as (vs & ->). simpl. eauto.
Qed.

Lemma mechanisms_keys f : map fst (mechanisms f) = map fst MECHANISM_FACTS ++ [].
Proof. done. Qed.
Lemma pressures_keys f :
  map fst (pressures f) = map fst PRESSURE_FACTS ++ ["defined_period"; "several_lots_alone"].
Proof. done. Qed.

Lemma forallb_impl {A} (p q : A -> bool) l :
  (forall x, p x = true -> q x = true) -> forallb p l = true -> forallb q l = true.
Proof. intros H. rewrite !forallb_forall. auto. Qed.

(** * Rules *)

Definition is_trimmed (l : list string) : bool :=
  match head l, last l with
  | Some a, Some z => negb (isspace a) && negb (isspace z)
  | _, _ => false
  end.

(** What the library of rules guarantees of each rule. *)
Definition rule_ok (r : NeedRule) : bool :=
  forallb (known MECHANISM_FACTS) (nr_mechanism_predicates r)
  && forallb (known PRESSURE_FACTS) (nr_pressure_predicates r)
  && in_list (nr_category r) NeedCategory
  && is_trimmed (chars (nr_rule_id r))
  && is_trimmed (chars (nr_statement_template r))
  && negb (search _CERTAINTY_WORDING (chars (nr_statement_template r)))
  && is_trimmed (chars (nr_reasoning_template r))
  && negb (search _CERTAINTY_WORDING (chars (reasoning_of (nr_reasoning_template r) None)))
  && negb (search _CERTAINTY_WORDING (chars (reasoning_of (nr_reasoning_template r) (Some ""))))
  && search marker_stems (chars (nr_reasoning_template r))
  && in_list (nr_externalisability r) Externalisability.

Definition rules_ok (rules : list NeedRule) : Prop := Forall (fun r => rule_ok r = true) rules.

Lemma rules_ok_elem rules r : rules_ok rules -> r ∈ rules -> rule_ok r = true.
Proof. unfold rules_ok. rewrite Forall_forall. auto. Qed.

Lemma library_ok : rules_ok RULE_LIBRARY.
Proof. unfold rules_ok. apply Forall_forall. intros r Hr.
  assert (H : forallb rule_ok RULE_LIBRARY = true) by (vm_compute; reflexivity).
  rewrite forallb_forall in H. apply H. by apply list_elem_of_In. Qed.

Lemma is_trimmed_spec l : is_trimmed l = true -> trimmed l.
Proof.
  unfold is_trimmed, trimmed. destruct l as [|a m]; [done|]. simpl head.
  destruct (last (a :: m)) as [z|] eqn:E; [|done]. intros H.
  apply andb_true_iff in H as [Ha Hz]. rewrite negb_true_iff in Ha, Hz.
  exists a, m. split_and!; [done..|]. apply last_Some in E as [m' E]. by exists m', z.
Qed.

(** A mechanism, and a pressure, of the rule holds. *)
Definition has_mechanism (f : NeedFeatures) (r : NeedRule) : bool :=
  existsb (holds (mechanisms f)) (nr_mechanism_predicates r).
Definition has_pressure (f : NeedFeatures) (r : NeedRule) : bool :=
  existsb (holds (pressures f)) (nr_pressure_predicates r).

(** A rule that founds a need of the contract. *)
Definition eligible (f : NeedFeatures) (r : NeedRule) : bool :=
  has_mechanism f r && negb (in_list (nr_category r) (forbidden f))
  && negb (bool_decide (nf_magnitude_band f = "not_material")) && has_pressure f r.

(** What is recorded of a rule that applies and founds nothing. *)
Definition diagnosis (f : NeedFeatures) (r : NeedRule) : option SuppressedCandidate :=
  let noted reason := Some (mkSuppressed (nr_category r) (nr_rule_id r) reason) in
  if negb (has_mechanism f r) then None
  else if in_list (nr_category r) (forbidden f) then noted "deliverable_overlap"
  else if bool_decide (nf_magnitude_band f = "not_material") then noted "magnitude_not_material"
  else if negb (has_pressure f r) then noted "no_pressure_fact"
  else None.

Definition candidate_of (f : NeedFeatures) (r : NeedRule) : _Candidate :=
  mkCandidate r (List.filter (holds (mechanisms f)) (nr_mechanism_predicates r))
    (List.filter (holds (pressures f)) (nr_pressure_predicates r)).

Lemma filter_truthy {A} (p : A -> bool) l : list_truthy (List.filter p l) = existsb p l.
Proof. induction l as [|x l IH]; simpl; [done|]. by destruct (p x). Qed.

Lemma rule_ok_spec r : rule_ok r = true ->
  forallb (known MECHANISM_FACTS) (nr_mechanism_predicates r) = true
  /\ forallb (known PRESSURE_FACTS) (nr_pressure_predicates r) = true
  /\ nr_category r ∈ NeedCategory /\ trimmed (chars (nr_rule_id r)).
Proof.
  unfold rule_ok. intros H. inv_result. split_and!; try done.
  - by apply in_list_true.
  - by apply is_trimmed_spec.
Qed.

Lemma suppress_ok r reason : rule_ok r = true -> is_trimmed (chars reason) = true ->
  suppress r reason = Ok (mkSuppressed (nr_category r) (nr_rule_id r) reason).
Proof.
  intros Hr Hs. apply rule_ok_spec in Hr as (_ & _ & Hc & Hid).
  unfold suppress, suppressed_validate, literal. simpl.
  rewrite checked_id by by apply in_list_true. simpl.
  rewrite !NonEmptyStr_trimmed by first [done | by apply is_trimmed_spec]. done.
Qed.

Lemma examine_spec f r : rule_ok r = true ->
  examine f r = Ok (match diagnosis f r with
                    | Some s => Suppressed s
                    | None => if eligible f r then Proposed (candidate_of f r) else Silent
                    end).
Proof.
  intros Hr. pose proof (rule_ok_spec r Hr) as (Hm & Hp & _ & _).
  unfold examine, diagnosis, eligible, has_mechanism, has_pressure, mechanism, pressure.
  rewrite filter_entries; [|eapply forallb_impl; [|done]; intros x; apply (known_wider _ _ _ x (mechanisms_keys f))].
  simpl. rewrite filter_truthy.
  destruct (existsb _ (nr_mechanism_predicates r)); simpl; [|done].
  destruct (in_list _ _); simpl; [by rewrite suppress_ok by done|].
  case_bool_decide; simpl; [by rewrite suppress_ok by done|].
  rewrite filter_entries; [|eapply forallb_impl; [|done]; intros x; apply (known_wider _ _ _ x (pressures_keys f))].
  simpl. rewrite filter_truthy.
  destruct (existsb _ (nr_pressure_predicates r)); simpl; [done|]. by rewrite suppress_ok by done.
Qed.

Definition verdict_of (f : NeedFeatures) (r : NeedRule) : verdict :=
  match diagnosis f r with
  | Some s => Suppressed s
  | None => if eligible f r then Proposed (candidate_of f r) else Silent
  end.

Lemma examine_all f rules : rules_ok rules ->
  mapM_result (examine f) rules = Ok (map (verdict_of f) rules).
Proof.
  intros H. apply mapM_result_Ok. induction H; simpl; constructor; [|done]. by apply examine_spec.
Qed.

Lemma suppressed_verdicts f rules :
  omap suppressed_of (map (verdict_of f) rules) = omap (diagnosis f) rules.
Proof.
  induction rules as [|r rules IH]; csimpl; [done|]. rewrite IH. unfold verdict_of.
  destruct (diagnosis f r); simpl; [done|]. by destruct (eligible f r).
Qed.

Lemma eligible_diagnosis f r : eligible f r = true -> diagnosis f r = None.
Proof.
  unfold eligible, diagnosis. intros H.
  apply andb_true_iff in H as [H Hp]. apply andb_true_iff in H as [H Hn].
  apply andb_true_iff in H as [Hm Hf]. apply negb_true_iff in Hf, Hn. by rewrite Hm, Hp, Hf, Hn.
Qed.

Lemma proposed_verdicts f rules :
  omap proposed_of (map (verdict_of f) rules)
  = map (candidate_of f) (List.filter (eligible f) rules).
Proof.
  induction rules as [|r rules IH]; csimpl; [done|]. rewrite IH. unfold verdict_of.
  destruct (eligible f r) eqn:E; [by rewrite (eligible_diagnosis f r E)|].
  by destruct (diagnosis f r).
Qed.

(** * Groups *)

(** The eligible rules of a category, as candidates, and the categories in
    the order the rules bring them. *)
Definition group_of (f : NeedFeatures) (rules : list NeedRule) (category : string)
  : list _Candidate :=
  map (candidate_of f)
    (List.filter (fun r => bool_decide (nr_category r = category))
       (List.filter (eligible f) rules)).
Definition categories (f : NeedFeatures) (rules : list NeedRule) : list string :=
  dict_fromkeys (map nr_category (List.filter (eligible f) rules)).

Lemma filter_candidates f rules category :
  List.filter (fun c => bool_decide (candidate_category c = category))
    (map (candidate_of f) (List.filter (eligible f) rules))
  = group_of f rules category.
Proof.
  unfold group_of. induction (List.filter (eligible f) rules) as [|r l IH]; simpl; [done|].
  change (candidate_category (candidate_of f r)) with (nr_category r).
  case_bool_decide; simpl; by rewrite IH.
Qed.

Lemma candidate_categories f rules :
  map candidate_category (map (candidate_of f) (List.filter (eligible f) rules))
  = map nr_category (List.filter (eligible f) rules).
Proof. by rewrite map_map. Qed.

Lemma elem_of_group f rules category c : c ∈ group_of f rules category <->
  exists r, r ∈ rules /\ eligible f r = true /\ nr_category r = category /\ c = candidate_of f r.
Proof.
  unfold group_of. rewrite list_elem_of_In, in_map_iff. split.
  - intros (r & <- & H). apply filter_In in H as [H Hc]. apply filter_In in H as [H He].
    apply bool_decide_eq_true in Hc. exists r. split_and!; [by apply list_elem_of_In | done..].
  - intros (r & Hr & He & Hc & ->). exists r. split; [done|]. rewrite !filter_In.
    split_and!; [by apply list_elem_of_In | done | by apply bool_decide_eq_true].
Qed.

Lemma elem_of_categories f rules category : category ∈ categories f rules <->
  exists r, r ∈ rules /\ eligible f r = true /\ nr_category r = category.
Proof.
  unfold categories. rewrite elem_of_dict_fromkeys, list_elem_of_In, in_map_iff. split.
  - intros (r & <- & H). apply filter_In in H as [H He]. exists r. by rewrite list_elem_of_In.
  - intros (r & Hr & He & <-). exists r. rewrite filter_In, <- list_elem_of_In. done.
Qed.

Lemma group_nonempty f rules category :
  category ∈ categories f rules -> group_of f rules category <> [].
Proof.
  intros H. apply elem_of_categories in H as (r & Hr & He & Hc).
  assert (Hin : candidate_of f r ∈ group_of f rules category).
  { apply elem_of_group. by exists r. }
  intros E. rewrite E in Hin. by apply not_elem_of_nil in Hin.
Qed.

Lemma supporting_facts_ok f r : rule_ok r = true ->
  exists facts, supporting_facts (candidate_of f r) = Ok facts.
Proof.
  intros Hr. apply rule_ok_spec in Hr as (Hm & Hp & _). unfold supporting_facts. simpl.
  assert (Hf : forall {A} (t : list (string * A)) p l, forallb (known t) l = true ->
            forallb (known t) (List.filter p l) = true).
  { intros A t p l. rewrite !forallb_forall. intros H x Hx. apply filter_In in Hx as [Hx _]. auto. }
  destruct (mapM_entries MECHANISM_FACTS _ (Hf _ _ (holds (mechanisms f)) _ Hm)) as (ms & ->).
  destruct (mapM_entries PRESSURE_FACTS _ (Hf _ _ (holds (pressures f)) _ Hp)) as (ps & ->).
  simpl. eauto.
Qed.

Lemma mapM_all {A B} (g : A -> result B) l :
  (forall x, x ∈ l -> exists y, g x = Ok y) -> exists ys, mapM_result g l = Ok ys.
Proof.
  induction l as [|x l IH]; simpl; intros H; [eauto|].
  destruct (H x) as [y ->]; [set_solver|]. destruct IH as [ys ->]; [set_solver|]. simpl. eauto.
Qed.

Lemma max_first_elem {A} (key : A -> Z) x l : max_first key x l ∈ x :: l.
Proof.
  revert x; unfold max_first; induction l as [|y l IH]; intros x; simpl; [set_solver|].
  destruct (key x <? key y); [specialize (IH y) | specialize (IH x)]; set_solver.
Qed.

Lemma keyed_values {A K} (key : A -> result K) l keyed :
  mapM_result (fun x => let! k := key x in Ok (k, x)) l = Ok keyed -> map snd keyed = l.
Proof.
  revert keyed; induction l as [|x l IH]; simpl; intros keyed H; inv_result; simpl; [done|].
  f_equal. by apply IH.
Qed.

Lemma primary_of_ok f rules category : rules_ok rules -> category ∈ categories f rules ->
  exists c, primary_of (group_of f rules category) = Ok c /\ c ∈ group_of f rules category.
Proof.
  intros Hrules Hcat. unfold primary_of.
  destruct (mapM_all (fun c => let! n := let! facts := supporting_facts c in
                                         Ok (zlength (dict_fromkeys facts)) in Ok (n, c))
              (group_of f rules category)) as [keyed Hk].
  { intros c Hc. apply elem_of_group in Hc as (r & Hr & _ & _ & ->).
    destruct (supporting_facts_ok f r) as [facts ->]; [|simpl; eauto].
    by eapply Forall_forall in Hrules. }
  rewrite Hk. simpl. apply keyed_values in Hk as Hsnd.
  destruct keyed as [|k ks].
  - exfalso. by apply (group_nonempty f rules category).
  - exists (snd (max_first fst k ks)). split; [done|]. rewrite <- Hsnd.
    apply list_elem_of_fmap_2. apply max_first_elem.
Qed.

(** The merged candidates: one group per category, with one of its
    candidates as the primary. *)
Definition item_ok (f : NeedFeatures) (rules : list NeedRule) (category : string)
    (item : _Candidate * list _Candidate) : Prop :=
  item.2 = group_of f rules category /\ item.1 ∈ item.2.

Lemma deduplicate_ok f rules : rules_ok rules ->
  exists merged,
    _deduplicate (map (candidate_of f) (List.filter (eligible f) rules)) = Ok merged
    /\ Forall2 (item_ok f rules) (categories f rules) merged.
Proof.
  intros Hrules. unfold _deduplicate. rewrite candidate_categories.
  change (dict_fromkeys (map nr_category (List.filter (eligible f) rules))) with (categories f rules).
  set (g := fun category : string => _).
  assert (Hg : forall category, category ∈ categories f rules ->
            exists item, g category = Ok item /\ item_ok f rules category item).
  { intros category Hc. unfold g. rewrite filter_candidates.
    destruct (primary_of_ok f rules category Hrules Hc) as (c & -> & Hin). simpl. by eexists. }
  clearbody g. induction (categories f rules) as [|c l IH]; simpl; [exists []; by split|].
  destruct (Hg c) as (item & -> & Hi); [set_solver|].
  destruct IH as (merged & -> & Hm); [set_solver|]. simpl. exists (item :: merged). auto.
Qed.

(** * Ranking *)

(** The score of a category and its place in the order of priorities. *)
Definition rank (f : NeedFeatures) (rules : list NeedRule) (category : string) : Z * Z :=
  (- _score (group_of f rules category) f, default 0 (index_of category _CATEGORY_PRIORITY)).

(** The category is announced before the other, or is the other. *)
Definition ranks_before (f : NeedFeatures) (rules : list NeedRule) (a b : string) : Prop :=
  pair_leb (rank f rules a) (rank f rules b) = true.

Section sorting.
Context {A : Type} (leb : A -> A -> bool).
Hypothesis leb_total : forall x y, leb x y = true \/ leb y x = true.
Hypothesis leb_trans : forall x y z, leb x y = true -> leb y z = true -> leb x z = true.
Let le (x y : A) : Prop := leb x y = true.

Lemma insert_StronglySorted x l : StronglySorted le l -> StronglySorted le (insert_sorted leb x l).
Proof.
  induction 1 as [|y l Hl IH Hy]; simpl; [by repeat constructor|].
  destruct (leb x y) eqn:E.
  - constructor; [by constructor|]. constructor; [done|].
    eapply Forall_impl; [exact Hy|]. intros z Hz. by eapply leb_trans.
  - constructor; [done|]. rewrite insert_sorted_Permutation. constructor; [|done].
    destruct (leb_total x y); [congruence | done].
Qed.

Lemma sorted_by_StronglySorted l : StronglySorted le (sorted_by leb l).
Proof. induction l; simpl; [constructor | by apply insert_StronglySorted]. Qed.
End sorting.

Lemma pair_leb_total a b : pair_leb a b = true \/ pair_leb b a = true.
Proof. unfold pair_leb. lia. Qed.
Lemma pair_leb_trans a b c : pair_leb a b = true -> pair_leb b c = true -> pair_leb a c = true.
Proof. unfold pair_leb. lia. Qed.

Lemma index_of_elem x l : x ∈ l -> exists i, index_of x l = Some i.
Proof.
  induction l as [|y l IH]; intros H; [by apply not_elem_of_nil in H|]. simpl.
  case_bool_decide; [eauto|]. apply elem_of_cons in H as [->|H]; [done|].
  destruct (IH H) as [i ->]. simpl. eauto.
Qed.

Lemma category_known f rules category : rules_ok rules -> category ∈ categories f rules ->
  category ∈ NeedCategory.
Proof.
  intros Hrules H. apply elem_of_categories in H as (r & Hr & _ & <-).
  by apply rule_ok_spec, (rules_ok_elem rules).
Qed.

Lemma item_category f rules category item : item_ok f rules category item ->
  candidate_category item.1 = category.
Proof. intros [-> H]. by apply elem_of_group in H as (r & _ & _ & <- & ->). Qed.

Lemma ranked_ok f rules merged : rules_ok rules ->
  Forall2 (item_ok f rules) (categories f rules) merged ->
  exists items order, ranked f merged = Ok items /\ Forall2 (item_ok f rules) order items
    /\ order ≡ₚ categories f rules /\ StronglySorted (ranks_before f rules) order.
Proof.
  intros Hrules Hm. unfold ranked.
  assert (Hkey : forall item, item ∈ merged -> exists category,
            item_ok f rules category item /\ rank_key f item = Ok (rank f rules category)).
  { intros item Hi. apply list_elem_of_lookup in Hi as [i Hi].
    destruct (Forall2_lookup_r _ _ _ _ _ Hm Hi) as (c & Hc & Hok). exists c. split; [done|].
    unfold rank_key. rewrite (item_category f rules c item Hok).
    assert (Hin : c ∈ _CATEGORY_PRIORITY).
    { apply (category_known f rules); [done|]. by eapply list_elem_of_lookup_2. }
    destruct (index_of_elem c _CATEGORY_PRIORITY Hin) as [n Hn]. unfold rank.
    rewrite Hn. simpl. by destruct Hok as [-> _]. }
  destruct (mapM_all (fun item => let! k := rank_key f item in Ok (k, item)) merged) as [keyed Hk].
  { intros item Hi. destruct (Hkey item Hi) as (c & _ & ->). simpl. eauto. }
  rewrite Hk. simpl.
  assert (Hall : Forall (fun p => exists c, item_ok f rules c p.2 /\ p.1 = rank f rules c) keyed).
  { apply keyed_values in Hk as Hv. apply mapM_result_Ok in Hk. apply Forall_forall.
    intros p Hp. apply list_elem_of_lookup in Hp as [i Hi].
    destruct (Forall2_lookup_r _ _ _ _ _ Hk Hi) as (x & Hx & E).
    destruct (Hkey x) as (c & Hc & Ek); [by eapply list_elem_of_lookup_2|].
    rewrite Ek in E. simpl in E. injection E as <-. by exists c. }
  set (leb := fun a b : (Z * Z) * (_Candidate * list _Candidate) => pair_leb a.1 b.1).
  pose proof (sorted_by_StronglySorted leb (fun x y => pair_leb_total x.1 y.1)
                (fun x y z => pair_leb_trans x.1 y.1 z.1) keyed) as Hs.
  pose proof (sorted_by_Permutation leb keyed) as Hp.
  set (sorted := sorted_by leb keyed) in *. rewrite <- Hp in Hall.
  exists (map snd sorted), (map (fun p => candidate_category p.2.1) sorted). split_and!; [done|..].
  - clear -Hall. induction Hall as [|p l (c & Hc & _) _ IH]; simpl; constructor; [|done].
    by rewrite (item_category f rules c).
  - rewrite Hp. apply keyed_values in Hk. rewrite <- (map_map snd (fun i => candidate_category i.1)), Hk.
    clear -Hm. induction Hm as [|c item l l' Hc _ IH]; simpl; [done|].
    by rewrite (item_category f rules c item Hc), IH.
  - clear -Hall Hs. induction Hs as [|p l Hl IH Hp]; simpl; [constructor|].
    apply Forall_cons in Hall as [(c & Hc & Ec) Hall]. constructor; [by apply IH|].
    apply Forall_map. apply Forall_forall. intros q Hq.
    rewrite Forall_forall in Hp, Hall. destruct (Hall q Hq) as (c' & Hc' & Ec').
    specialize (Hp q Hq). unfold leb in Hp. rewrite Ec, Ec' in Hp. unfold ranks_before.
    by rewrite (item_category f rules c p.2 Hc), (item_category f rules c' q.2 Hc').
Qed.

(** * Building a need *)

Lemma kept_names f names : Forall (fun s => trimmed (chars s)) names ->
  mapM_result (NonEmptyStr f) names = Ok names.
Proof.
  intros H. apply mapM_result_id. eapply Forall_impl; [exact H|]. intros s Hs.
  by apply NonEmptyStr_trimmed.
Qed.

Definition all_trimmed (l : list string) : bool := forallb (fun s => is_trimmed (chars s)) l.

Lemma all_trimmed_elem l s : all_trimmed l = true -> s ∈ l -> trimmed (chars s).
Proof.
  unfold all_trimmed. rewrite forallb_forall. intros H Hs. apply is_trimmed_spec, H.
  by apply list_elem_of_In.
Qed.

Lemma entries_elem {A} (t : list (string * A)) l vs v :
  mapM_result (entry t) l = Ok vs -> v ∈ vs -> v ∈ map snd t.
Proof.
  intros H Hv. apply mapM_result_Ok in H. apply list_elem_of_lookup in Hv as [i Hi].
  destruct (Forall2_lookup_r _ _ _ _ _ H Hi) as (k & _ & E). unfold entry, assoc_get in E.
  destruct (List.find _ t) as [p|] eqn:Ef; simpl in E; inv_result.
  apply List.find_some in Ef as [Hin _]. apply list_elem_of_In. by apply in_map.
Qed.

Lemma supporting_fact_name f r facts fact :
  supporting_facts (candidate_of f r) = Ok facts -> fact ∈ facts ->
  fact ∈ map snd MECHANISM_FACTS ++ map snd PRESSURE_FACTS.
Proof.
  unfold supporting_facts. intros H Hf. inv_result. rewrite elem_of_dict_fromkeys, elem_of_app in Hf.
  rewrite elem_of_app. destruct Hf as [Hf|Hf]; [left|right]; by eapply entries_elem.
Qed.

Section needs.
Context {UD : UnicodeData}.

(** The mechanisms and the rules of a group. *)
Definition group_mechanisms (group : list _Candidate) : list string :=
  dict_fromkeys (flat_map ca_mechanisms group).
Definition group_rules (group : list _Candidate) : list string :=
  dict_fromkeys (map (fun c => nr_rule_id (ca_rule c)) group).

(** A rule of the library is [external_plausible] only for pressures that
    converge. *)
Definition announced_externalisability (rule : NeedRule) (group : list _Candidate) : string :=
  if bool_decide (nr_externalisability rule = "external_plausible")
     && (zlength (group_pressures group) <? 2)
  then "mixed" else nr_externalisability rule.

Lemma externalisability_ok rule group : nr_externalisability rule ∈ Externalisability ->
  announced_externalisability rule group ∈ Externalisability.
Proof. unfold announced_externalisability. intros. destruct (_ && _); [|done]. set_solver. Qed.

(** The names a group brings are those of its rules. *)
Lemma elem_of_flat {A B} (g : A -> list B) l y : y ∈ flat_map g l <-> exists x, x ∈ l /\ y ∈ g x.
Proof.
  rewrite list_elem_of_In, in_flat_map. split; intros (x & H1 & H2); exists x;
    by rewrite ?list_elem_of_In in *.
Qed.

Lemma known_name {A} (t : list (string * A)) l p x :
  all_trimmed (map fst t) = true -> forallb (known t) l = true -> x ∈ List.filter p l ->
  trimmed (chars x).
Proof.
  intros Ht Hl Hx. eapply (all_trimmed_elem _ x Ht). apply known_keys.
  rewrite forallb_forall in Hl. apply list_elem_of_In, filter_In in Hx as [Hx _]. auto.
Qed.

Lemma group_mechanism_names f rules category x : rules_ok rules ->
  x ∈ group_mechanisms (group_of f rules category) -> trimmed (chars x).
Proof.
  intros Hrules H. unfold group_mechanisms in H. rewrite elem_of_dict_fromkeys, elem_of_flat in H.
  destruct H as (c & Hc & Hx). apply elem_of_group in Hc as (r & Hr & _ & _ & ->).
  apply (rules_ok_elem rules) in Hr; [|done]. apply rule_ok_spec in Hr as (Hm & _).
  exact (known_name MECHANISM_FACTS _ (holds (mechanisms f)) x eq_refl Hm Hx).
Qed.

Lemma group_pressure_names f rules category x : rules_ok rules ->
  x ∈ group_pressures (group_of f rules category) -> trimmed (chars x).
Proof.
  intros Hrules H. unfold group_pressures in H. rewrite elem_of_dict_fromkeys, elem_of_flat in H.
  destruct H as (c & Hc & Hx). apply elem_of_group in Hc as (r & Hr & _ & _ & ->).
  apply (rules_ok_elem rules) in Hr; [|done]. apply rule_ok_spec in Hr as (_ & Hp & _).
  exact (known_name PRESSURE_FACTS _ (holds (pressures f)) x eq_refl Hp Hx).
Qed.

Lemma group_rule_names f rules category x : rules_ok rules ->
  x ∈ group_rules (group_of f rules category) -> trimmed (chars x).
Proof.
  intros Hrules H. unfold group_rules in H.
  rewrite elem_of_dict_fromkeys, list_elem_of_In, in_map_iff in H.
  destruct H as (c & <- & Hc). apply list_elem_of_In, elem_of_group in Hc as (r & Hr & _ & _ & ->).
  apply (rules_ok_elem rules) in Hr; [|done]. by apply rule_ok_spec in Hr as (_ & _ & _ & Hid).
Qed.

Lemma supporting_fact_trimmed f r facts fact :
  supporting_facts (candidate_of f r) = Ok facts -> fact ∈ facts -> trimmed (chars fact).
Proof.
  intros Hs Hf. apply (all_trimmed_elem (map snd MECHANISM_FACTS ++ map snd PRESSURE_FACTS)).
  - vm_compute. reflexivity.
  - by eapply supporting_fact_name.
Qed.

Lemma version_kept : NonEmptyStr "engine_version" ENGINE_VERSION = Ok ENGINE_VERSION.
Proof. vm_compute. reflexivity. Qed.

Lemma bind_Ok {A B} (v : A) (k : A -> result B) : result_bind (Ok v) k = k v.
Proof. done. Qed.
Lemma bind_Raise {A B} (e : exn) (k : A -> result B) : result_bind (Raise e) k = Raise e.
Proof. done. Qed.

Lemma need_validate_eq category subject statement reasoning timing ext evidence facts ms ps ids :
  in_list category NeedCategory = true -> trimmed (chars statement) ->
  in_list timing NeedTiming = true -> in_list ext Externalisability = true ->
  Forall (fun s => trimmed (chars s)) facts -> Forall (fun s => trimmed (chars s)) ms ->
  Forall (fun s => trimmed (chars s)) ps -> Forall (fun s => trimmed (chars s)) ids ->
  need_validate (mkNeed category subject statement reasoning timing ext "medium" evidence facts
                   ms ps ids "metadata_fallback" ENGINE_VERSION)
  = let! subject := opt_mapM (NonEmptyStr "subject") subject in
    let! reasoning := NonEmptyStr "reasoning" reasoning in
    _une_hypothese_se_justifie
      (mkNeed category subject statement reasoning timing ext "medium" evidence facts
         ms ps ids "metadata_fallback" ENGINE_VERSION).
Proof.
  intros Hc Hs Ht He Hf Hm Hp Hi. unfold need_validate, literal.
  cbn [rn_category rn_subject rn_statement rn_reasoning rn_timing
    rn_externalisability rn_confidence rn_evidence_refs rn_supporting_facts rn_mechanism_facts
    rn_pressure_facts rn_rule_ids rn_source_mode rn_engine_version].
  rewrite checked_id, bind_Ok by done.
  destruct (opt_mapM _ subject); rewrite ?bind_Ok, ?bind_Raise; [|reflexivity].
  rewrite NonEmptyStr_trimmed, bind_Ok by done.
  destruct (NonEmptyStr "reasoning" reasoning); rewrite ?bind_Ok, ?bind_Raise; [|reflexivity].
  rewrite (checked_id "timing"), bind_Ok by done.
  rewrite (checked_id "externalisability"), bind_Ok by done.
  rewrite (checked_id "confidence"), bind_Ok by (vm_compute; reflexivity).
  do 4 rewrite kept_names, bind_Ok by done.
  rewrite (checked_id "source_mode"), bind_Ok by (vm_compute; reflexivity).
  rewrite version_kept, bind_Ok. reflexivity.
Qed.

Lemma need_eq f rules category item :
  rules_ok rules -> item_ok f rules category item -> nf_timing f ∈ NeedTiming ->
  exists facts rule, rule ∈ rules /\ rule_ok rule = true
    /\ (forall fact, fact ∈ facts <-> exists c l, c ∈ item.2 /\ supporting_facts c = Ok l /\ fact ∈ l)
    /\ _need item.1 item.2 f
       = let! subject := opt_mapM (NonEmptyStr "subject") (_subject f) in
         let! reasoning := NonEmptyStr "reasoning"
                             (reasoning_of (nr_reasoning_template rule) (_subject f)) in
         _une_hypothese_se_justifie
           (mkNeed category subject (nr_statement_template rule) reasoning (nf_timing f)
              (announced_externalisability rule item.2) "medium" (evidence_of f facts) facts
              (group_mechanisms item.2) (group_pressures item.2) (group_rules item.2)
              "metadata_fallback" ENGINE_VERSION).
Proof.
  intros Hrules [Hg Hin] Htiming. destruct item as [primary group]; simpl in *. subst group.
  assert (Hgroup : forall c, c ∈ group_of f rules category -> exists r, r ∈ rules
            /\ rule_ok r = true /\ nr_category r = category /\ c = candidate_of f r).
  { intros c Hc. apply elem_of_group in Hc as (r & Hr & _ & Hcat & ->). exists r.
    split_and!; try done. by apply (rules_ok_elem rules). }
  destruct (Hgroup primary Hin) as (r & Hr & Hok & Hcat & Hp).
  destruct (mapM_all supporting_facts (group_of f rules category)) as [lists Hl].
  { intros c Hc. destruct (Hgroup c Hc) as (r' & _ & Hok' & _ & ->). by apply supporting_facts_ok. }
  assert (Hfacts : forall fact, fact ∈ dict_fromkeys (concat lists) <->
            exists c l, c ∈ group_of f rules category /\ supporting_facts c = Ok l /\ fact ∈ l).
  { intros fact. rewrite elem_of_dict_fromkeys. apply mapM_result_Ok in Hl.
    rewrite list_elem_of_In, in_concat. split.
    - intros (l & Hi & Hf). apply list_elem_of_In, list_elem_of_lookup in Hi as [i Hi].
      destruct (Forall2_lookup_r _ _ _ _ _ Hl Hi) as (c & Hc & E).
      exists c, l. split; [by eapply list_elem_of_lookup_2|]. by rewrite list_elem_of_In.
    - intros (c & l & Hc & E & Hf). apply list_elem_of_lookup in Hc as [i Hi].
      destruct (Forall2_lookup_l _ _ _ _ _ Hl Hi) as (l' & Hl' & E'). exists l.
      rewrite E in E'. injection E' as <-. split; apply list_elem_of_In; [|done].
      by eapply list_elem_of_lookup_2. }
  exists (dict_fromkeys (concat lists)), r. split_and!; [done..|].
  unfold _need. rewrite Hl. cbn [result_bind]. subst primary. simpl ca_rule.
  unfold rule_ok in Hok.
  repeat match goal with H : _ && _ = true |- _ => apply andb_true_iff in H as [? ?] end.
  rewrite Hcat. apply need_validate_eq; try (by apply in_list_true).
  - by rewrite <- Hcat.
  - by apply is_trimmed_spec.
  - apply in_list_true, externalisability_ok. by apply in_list_true.
  - apply Forall_forall. intros fact Hf. apply Hfacts in Hf as (c & l & Hc & Hs & Hf).
    destruct (Hgroup c Hc) as (r' & _ & _ & _ & ->). by eapply supporting_fact_trimmed.
  - apply Forall_forall; intros x Hx; by apply (group_mechanism_names f rules category).
  - apply Forall_forall; intros x Hx; by apply (group_pressure_names f rules category).
  - apply Forall_forall; intros x Hx; by apply (group_rule_names f rules category).
Qed.
End needs.
