(* ===== verification/NeedsTheorems.v ===== *)
(** NeedsTheorems: the properties of the derivation of needs.

    Which categories are announced and in which order, what founds each
    need, what becomes of every rule that applies, and when the derivation
    refuses its own text. *)

From S2P Require Import Prelude PyStr PyDatetime PyText PyTextFacts PyFloat Understanding.
From S2P Require Import Needs NeedsFacts.
From Stdlib Require Import Ascii String Sorting.Sorted.
From stdpp Require Import gmap strings list.

Local Open Scope Z_scope.

Lemma timing_ok t recurring : _timing_of t recurring ∈ NeedTiming.
Proof.
  unfold _timing_of, NeedTiming. destruct recurring; [set_solver|].
  destruct (ti_contract_start_date t), (ti_published_at t); try set_solver.
  destruct (_ <=? 30); [set_solver|]. destruct (_ <=? NEAR_TERM_DAYS); set_solver.
Qed.

Section derive.
Context {UD : UnicodeData}.
Context (rules : list NeedRule) (rules_valid : rules_ok rules).
Context (cu : ContractUnderstanding) (f : NeedFeatures).
Context (features : extract_features cu = Ok f).

Lemma features_timing : nf_timing f ∈ NeedTiming.
Proof using features.
  pose proof features as H. unfold extract_features in H. apply result_bind_Ok in H as (m & _ & H).
  injection H as H. rewrite <- H. apply timing_ok.
Qed.

(** What is recorded of a category that the first three keep out. *)
Definition below (item : _Candidate * list _Candidate) : SuppressedCandidate :=
  mkSuppressed (candidate_category item.1) (nr_rule_id (ca_rule item.1)) "ranked_below_top_three".

Lemma derive_eq : exists items order,
  Forall2 (item_ok f rules) order items /\ order ≡ₚ categories f rules
  /\ StronglySorted (ranks_before f rules) order
  /\ derive rules cu
     = let! needs := mapM_result (fun item => _need item.1 item.2 f) (take MAX_NEEDS items) in
       graph_validate
         (mkGraph (cu_award_ref cu) "metadata_fallback" needs
            (omap (diagnosis f) rules ++ map below (drop MAX_NEEDS items)) [] ENGINE_VERSION).
Proof using rules_valid features.
  destruct (deduplicate_ok f rules rules_valid) as (merged & Hd & Hm).
  destruct (ranked_ok f rules merged rules_valid Hm) as (items & order & Hr & Hi & Hp & Hs).
  exists items, order. split_and!; [done..|]. unfold derive.
  rewrite features, bind_Ok, examine_all, bind_Ok by done.
  rewrite proposed_verdicts, Hd, bind_Ok, Hr, bind_Ok, suppressed_verdicts.
  destruct (mapM_result _ (take MAX_NEEDS items)); rewrite ?bind_Ok, ?bind_Raise; [|done].
  rewrite (proj2 (mapM_result_Ok _ _ (map below (drop MAX_NEEDS items)))), bind_Ok; [done|].
  assert (Hdrop : Forall2 (item_ok f rules) (drop MAX_NEEDS order) (drop MAX_NEEDS items))
    by by apply Forall2_drop.
  induction Hdrop as [|c item l l' [Hg Hc] _ IH]; simpl; constructor; [|done].
  rewrite Hg in Hc. apply elem_of_group in Hc as (r & Hr' & _ & Hcat & E). unfold below.
  rewrite E. apply suppress_ok; [by apply (rules_ok_elem rules) | vm_compute; reflexivity].
Qed.

(** ** The needs of a result *)

(** A need as it comes from the group of its category. *)
Record need_spec (category : string) (n : ResourceNeed) : Prop := {
  ns_category : rn_category n = category;
  ns_confidence : rn_confidence n = "medium";
  ns_mechanisms : rn_mechanism_facts n = group_mechanisms (group_of f rules category);
  ns_pressures : rn_pressure_facts n = group_pressures (group_of f rules category);
  ns_rules : rn_rule_ids n = group_rules (group_of f rules category);
  ns_evidence : rn_evidence_refs n = evidence_of f (rn_supporting_facts n);
  ns_proved : rn_evidence_refs n <> [];
  ns_wording : search _CERTAINTY_WORDING (chars (rn_statement n)) = false
    /\ search _CERTAINTY_WORDING (chars (rn_reasoning n)) = false;
}.

Lemma need_Ok category item n : item_ok f rules category item ->
  _need item.1 item.2 f = Ok n -> need_spec category n.
Proof using rules_valid features.
  intros Hi H. pose proof features_timing as Ht.
  destruct (need_eq f rules category item rules_valid Hi Ht) as (facts & rule & _ & _ & _ & E).
  rewrite E in H. destruct Hi as [Hg _]. rewrite Hg in H.
  apply result_bind_Ok in H as (subject & _ & H). apply result_bind_Ok in H as (reasoning & _ & H).
  unfold _une_hypothese_se_justifie in H.
  cbn [rn_rule_ids rn_evidence_refs rn_confidence rn_mechanism_facts rn_pressure_facts
       rn_statement rn_reasoning] in H.
  destruct (list_truthy (group_rules _)); [|discriminate H].
  destruct (list_truthy (evidence_of f facts)) eqn:He; [|discriminate H].
  destruct (_ || _); [|discriminate H].
  destruct (search _ (chars (nr_statement_template rule))) eqn:Hs; [discriminate H|].
  destruct (search _ (chars reasoning)) eqn:Hr; [discriminate H|].
  destruct (_HYPOTHETICAL_MARKERS _); [|discriminate H]. simpl in H. injection H as <-.
  constructor; simpl; try done. by apply list_truthy_true.
Qed.
End derive.

(** ** The text of a need *)

(** The published object is shown from its first visible character. *)
Lemma shown_object_head o : starts_inside (default "" o) = false ->
  starts_inside (shown_object o) = false
  /\ (nonempty (shown_object o) = true -> visible_head (chars (shown_object o))).
Proof.
  intros Ho. unfold shown_object. set (ws := usplit (default "" o)).
  pose proof (usplit_visible (default "" o)) as Hv. pose proof (usplit_outside _ Ho) as Hi.
  fold ws in Hv, Hi. pose proof (join_outside ws Hi Hv) as Hout.
  destruct (decide (ws = [])) as [->|Hne]; [done|].
  pose proof (join_visible ws Hne Hv) as Hhead. set (p := PyStr.join " " ws) in *.
  destruct (SUBJECT_MAX_CHARS <? ulen p) eqn:E; [|by split].
  destruct Hhead as (c & m & Ec & Hc). unfold slice_to, urstrip. rewrite Ec.
  change (Z.to_nat (SUBJECT_MAX_CHARS - 1)) with (S 118).
  change (take (S 118) (c :: m)) with (c :: take 118 m).
  pose proof (chars_grouped p) as Hg. rewrite Ec in Hg.
  assert (Hg' : grouped (c :: take 118 m)).
  { eapply (grouped_prefix _ (drop 118 m)). simpl. by rewrite take_drop. }
  rewrite chars_of_chars, rdrop_cons by done.
  destruct (rdrop_spec (take 118 m)) as (l' & El & _).
  assert (Hg'' : grouped (c :: rdrop (take 118 m))).
  { eapply (grouped_prefix _ l'). simpl. by rewrite <- El. }
  assert (Hcut : chars (of_chars (c :: rdrop (take 118 m)) +:+ "…")
                 = c :: rdrop (take 118 m) ++ chars "…").
  { by rewrite chars_app, chars_of_chars by done. }
  assert (Hco : starts_inside c = false).
  { pose proof (chars_outside p Hout) as Hall. rewrite Ec in Hall. by apply Forall_cons in Hall as [? _]. }
  split; [by eapply starts_outside|]. intros _. rewrite Hcut. by exists c, (rdrop (take 118 m) ++ chars "…").
Qed.

Lemma certainty_facts :
  nullable _CERTAINTY_WORDING = false /\ der " " _CERTAINTY_WORDING = Void
  /\ ends " " _CERTAINTY_WORDING = false /\ rejects "«" _CERTAINTY_WORDING = true
  /\ rejects "»" _CERTAINTY_WORDING = true /\ rejects "(" _CERTAINTY_WORDING = true
  /\ rejects ")" _CERTAINTY_WORDING = true
  /\ forallb (fun d => negb (search _CERTAINTY_WORDING (chars d))
                       && negb (starts_inside (d +:+ ")"))) TradeDomain = true.
Proof. vm_compute. split_and!; reflexivity. Qed.

Lemma search_subject f : nf_trade_domain f ∈ TradeDomain ->
  match _subject f with
  | Some s => search _CERTAINTY_WORDING (chars s)
              = search _CERTAINTY_WORDING (chars (shown_object (nf_published_object f)))
  | None => shown_object (nf_published_object f) = EmptyString
  end.
Proof.
  intros Hd. destruct certainty_facts as (Hn & _ & He & _ & _ & Ho & Hc & Ht).
  unfold _subject. set (obj := shown_object _). clearbody obj.
  destruct (nonempty obj) eqn:Hne; simpl negb; cbv iota; [|by destruct obj].
  case_bool_decide; simpl negb; cbv iota; [done|].
  rewrite forallb_forall in Ht. specialize (Ht (nf_trade_domain f)).
  apply list_elem_of_In in Hd. specialize (Ht Hd). apply andb_true_iff in Ht as [Ht Hin].
  apply negb_true_iff in Ht, Hin.
  assert (Es : chars (obj +:+ " (" +:+ nf_trade_domain f +:+ ")")
               = (chars obj ++ [" "]) ++ "(" :: chars (nf_trade_domain f) ++ ")" :: []).
  { rewrite chars_app by done. rewrite <- app_assoc. f_equal.
    rewrite (chars_app " ("), (chars_app _ ")") by done. done. }
  rewrite Es, search_split, search_snoc, search_split by done.
  rewrite Ht. simpl. by rewrite !orb_false_r.
Qed.

Lemma subject_text f : nf_trade_domain f ∈ TradeDomain ->
  starts_inside (default "" (nf_published_object f)) = false ->
  match _subject f with
  | Some s => starts_inside s = false /\ visible_head (chars s)
  | None => True
  end.
Proof.
  intros Hd Ho. destruct (shown_object_head _ Ho) as [Hs Hv]. unfold _subject.
  set (obj := shown_object _) in *. clearbody obj.
  destruct (nonempty obj) eqn:Hne; simpl negb; cbv iota; [|done].
  specialize (Hv eq_refl). case_bool_decide; simpl negb; cbv iota; [done|].
  destruct Hv as (c & m & E & Hc).
  assert (Es : chars (obj +:+ " (" +:+ nf_trade_domain f +:+ ")")
               = c :: m ++ chars (" (" +:+ nf_trade_domain f +:+ ")")).
  { by rewrite chars_app, E by done. }
  split; [|by eexists _, _].
  eapply starts_outside; [exact Es|]. pose proof (chars_outside obj Hs) as Hall.
  rewrite E in Hall. by apply Forall_cons in Hall as [? _].
Qed.

(** The parts of a reasoning that do not come from the notice. *)
Definition lead : string := " Elle porte sur l'objet publié ".
Definition trail : string := " : si cet objet ne relève pas de ces travaux, elle ne tient pas.".

Lemma chars_quoted template s : starts_inside s = false ->
  chars (reasoning_of template (Some s))
  = (chars template ++ chars lead) ++ "«" :: ([" "] ++ chars s ++ [" "]) ++ "»" :: chars trail.
Proof.
  intros Hs. unfold reasoning_of.
  assert (Hin : forall t, starts_inside t = false -> starts_inside (s +:+ t) = false)
    by by destruct s.
  rewrite chars_app by done. rewrite chars_app by by apply Hin.
  rewrite chars_app by done. rewrite <- app_assoc. f_equal.
  change (chars " Elle porte sur l'objet publié « ") with (chars lead ++ ["«"; " "]).
  change (chars " » : si cet objet ne relève pas de ces travaux, elle ne tient pas.")
    with (" " :: "»" :: chars trail).
  rewrite <- !app_assoc. reflexivity.
Qed.

Lemma reasoning_text `{UnicodeData} f r : rule_ok r = true -> nf_trade_domain f ∈ TradeDomain ->
  starts_inside (default "" (nf_published_object f)) = false ->
  let reasoning := reasoning_of (nr_reasoning_template r) (_subject f) in
  NonEmptyStr "reasoning" reasoning = Ok reasoning
  /\ _HYPOTHETICAL_MARKERS (chars reasoning) = true
  /\ search _CERTAINTY_WORDING (chars reasoning)
     = search _CERTAINTY_WORDING (chars (shown_object (nf_published_object f))).
Proof.
  intros Hr Hd Ho. pose proof (subject_text f Hd Ho) as Hs. pose proof (search_subject f Hd) as Hq.
  assert (Hparts : trimmed (chars (nr_reasoning_template r))
    /\ search _CERTAINTY_WORDING (chars (reasoning_of (nr_reasoning_template r) None)) = false
    /\ search _CERTAINTY_WORDING (chars (reasoning_of (nr_reasoning_template r) (Some ""))) = false
    /\ search marker_stems (chars (nr_reasoning_template r)) = true).
  { unfold rule_ok in Hr.
    repeat match goal with H : _ && _ = true |- _ => apply andb_true_iff in H as [? ?] end.
    repeat match goal with H : negb _ = true |- _ => apply negb_true_iff in H end.
    split_and!; try done. by apply is_trimmed_spec. }
  clear Hr. destruct Hparts as (Ht & Hn & Hp & Hm).
  destruct (_subject f) as [s|]; intros reasoning.
  - destruct Hs as [Hs _]. rewrite <- Hq.
    pose proof (chars_quoted (nr_reasoning_template r) "" eq_refl) as E0. rewrite E0 in Hp.
    pose proof (chars_quoted (nr_reasoning_template r) s Hs) as E. fold reasoning in E. rewrite E.
    clear E0. destruct certainty_facts as (Hnul & Hder & Hend & Hq1 & Hq2 & _).
    split_and!.
    + apply NonEmptyStr_trimmed. rewrite E.
      change ("»" :: chars trail) with (["»"] ++ chars trail).
      rewrite (app_comm_cons _ _ "«"), <- app_assoc, !(app_assoc _ _ (chars trail)), <- app_assoc.
      apply trimmed_app; [done | vm_compute; reflexivity].
    + unfold _HYPOTHETICAL_MARKERS. apply orb_true_iff. right. rewrite <- !app_assoc.
      by apply search_app_l.
    + rewrite !search_split in Hp |- * by done.
      change ([" "] ++ chars s ++ [" "]) with (" " :: chars s ++ [" "]).
      rewrite search_cons, search_snoc by done.
      apply orb_false_iff in Hp as [-> Hp]. apply orb_false_iff in Hp as [_ ->].
      simpl. by rewrite orb_false_r.
  - rewrite Hq. split_and!.
    + apply NonEmptyStr_trimmed. unfold reasoning, reasoning_of. rewrite chars_app by done.
      apply (trimmed_app _ []); [done | vm_compute; reflexivity].
    + unfold _HYPOTHETICAL_MARKERS. apply orb_true_iff. right. unfold reasoning, reasoning_of.
      rewrite chars_app by done. by apply search_app_l.
    + unfold reasoning. rewrite Hn. vm_compute. reflexivity.
Qed.

(** ** The evidence of a need *)

(** What the understanding of a contract guarantees: a known type and a
    published CPV are proved, the other claims do not take their names, and
    a text begins with a character. *)
Record contract_ok (cu : ContractUnderstanding) : Prop := {
  co_type : cl_value (cu_contract_type cu) = "unknown" \/ cl_evidence (cu_contract_type cu) <> [];
  co_key : cu_facts cu !! "contract_type" = None;
  co_cpv : forall c, cu_facts cu !! "cpv" = Some c -> cl_evidence c <> [];
  co_characteristics :
    Forall (fun c => cl_value c ∉ ["contract_type"; "cpv"]) (cu_characteristics cu);
  co_trade : trade_domain_of cu ∈ TradeDomain;
  co_duration : forall v, ti_duration_value (cu_timing cu) = Some v -> is_ok (float_of_int v) = true;
  co_object : forall c, cu_facts cu !! "published_object" = Some c ->
    starts_inside (cl_value c) = false;
}.

Lemma extract_ok cu : contract_ok cu -> exists f, extract_features cu = Ok f.
Proof.
  intros Hcu. unfold extract_features, duration_months.
  destruct (ti_duration_value (cu_timing cu)) as [v|] eqn:Ev; [|simpl; eauto].
  destruct (_ ≫= _); [|simpl; eauto]. destruct (v =? 0); [simpl; eauto|].
  pose proof (co_duration cu Hcu v Ev) as Hv. destruct (float_of_int v); [simpl; eauto | done].
Qed.

Lemma other_claims cs (m : gmap string Claim) name :
  Forall (fun c => cl_value c <> name) cs ->
  foldl (fun m c => <[cl_value c := c]> m) m cs !! name = m !! name.
Proof.
  revert m; induction cs as [|c cs IH]; intros m H; simpl; [done|].
  apply Forall_cons in H as [Hc H]. by rewrite IH, lookup_insert_ne.
Qed.

Lemma features_fields cu f : extract_features cu = Ok f ->
  nf_contract_type f = cl_value (cu_contract_type cu)
  /\ nf_construction_profile f = construction_profile (cl_value <$> cu_facts cu !! "cpv")
  /\ nf_published_object f = cl_value <$> cu_facts cu !! "published_object"
  /\ nf_trade_domain f = trade_domain_of cu
  /\ nf_claims f = foldl (fun m c => <[cl_value c := c]> m)
                     (cu_facts cu ∪ {["contract_type" := cu_contract_type cu]})
                     (cu_characteristics cu).
Proof.
  unfold extract_features. intros H. apply result_bind_Ok in H as (m & _ & H).
  injection H as H. by rewrite <- H.
Qed.

Lemma mechanism_proved cu f m : contract_ok cu -> extract_features cu = Ok f ->
  holds (mechanisms f) m = true ->
  exists fact c, assoc_get m MECHANISM_FACTS = Some fact /\ nf_claims f !! fact = Some c
    /\ cl_evidence c <> [].
Proof.
  intros Hcu Hf Hm. apply features_fields in Hf as (Ht & Hp & _ & _ & Hclaims).
  pose proof (co_characteristics cu Hcu) as Hch.
  assert (Htype : nf_contract_type f <> "unknown" ->
            exists c, nf_claims f !! "contract_type" = Some c /\ cl_evidence c <> []).
  { intros Hne. exists (cu_contract_type cu). rewrite Hclaims, other_claims.
    2: { eapply Forall_impl; [exact Hch|]. set_solver. }
    rewrite lookup_union_r by apply (co_key cu Hcu). rewrite lookup_singleton_eq.
    split; [done|]. destruct (co_type cu Hcu); congruence. }
  assert (Hcpv : nf_construction_profile f <> "general_or_unknown" ->
            exists c, nf_claims f !! "cpv" = Some c /\ cl_evidence c <> []).
  { intros Hne. destruct (cu_facts cu !! "cpv") as [c|] eqn:Ec; [|by rewrite Hp in Hne].
    exists c. rewrite Hclaims, other_claims.
    2: { eapply Forall_impl; [exact Hch|]. set_solver. }
    split; [by apply lookup_union_Some_l | by apply (co_cpv cu Hcu)]. }
  assert (Hk : m ∈ map fst MECHANISM_FACTS).
  { rewrite <- (app_nil_r (map fst _)), <- (mechanisms_keys f). apply known_keys.
    unfold holds, known in *. by destruct (assoc_get m (mechanisms f)). }
  assert (Hfound : forall fact, assoc_get m MECHANISM_FACTS = Some fact ->
            (exists c, nf_claims f !! fact = Some c /\ cl_evidence c <> []) ->
            exists fact c, assoc_get m MECHANISM_FACTS = Some fact /\ nf_claims f !! fact = Some c
              /\ cl_evidence c <> []) by (intros fact E (c & H); by exists fact, c).
  unfold holds in Hm. simpl in Hk.
  repeat (apply elem_of_cons in Hk as [->|Hk];
    [eapply Hfound; [reflexivity|]; simpl in Hm;
     first [apply Htype; intros E; rewrite E in Hm; vm_compute in Hm; discriminate Hm
           | apply Hcpv; intros E; rewrite E, andb_false_r in Hm; discriminate Hm]|]).
  by apply not_elem_of_nil in Hk.
Qed.

Lemma supporting_has c l m fact : supporting_facts c = Ok l -> m ∈ ca_mechanisms c ->
  assoc_get m MECHANISM_FACTS = Some fact -> fact ∈ l.
Proof.
  unfold supporting_facts. intros H Hm Hf. apply result_bind_Ok in H as (ms & Hms & H).
  apply result_bind_Ok in H as (ps & _ & H). injection H as <-.
  apply elem_of_dict_fromkeys, elem_of_app. left.
  apply mapM_result_Ok in Hms. apply list_elem_of_lookup in Hm as [i Hi].
  destruct (Forall2_lookup_l _ _ _ _ _ Hms Hi) as (y & Hy & E).
  unfold entry in E. rewrite Hf in E. simpl in E. injection E as <-. by eapply list_elem_of_lookup_2.
Qed.

Lemma evidence_nonempty f facts fact c : fact ∈ facts -> nf_claims f !! fact = Some c ->
  cl_evidence c <> [] -> evidence_of f facts <> [].
Proof.
  intros Hf Hc Hne. unfold evidence_of. rewrite by_identity_nil.
  destruct (cl_evidence c) as [|e es] eqn:Ee; [done|]. intros E.
  assert (Hin : e ∈ flat_map (fun fact => match nf_claims f !! fact with
                    | Some c => cl_evidence c | None => [] end) facts).
  { apply elem_of_flat. exists fact. split; [done|]. rewrite Hc, Ee. set_solver. }
  rewrite E in Hin. by apply not_elem_of_nil in Hin.
Qed.

Lemma has_mechanism_elem f r : eligible f r = true ->
  exists m, m ∈ ca_mechanisms (candidate_of f r) /\ holds (mechanisms f) m = true.
Proof.
  unfold eligible, has_mechanism. intros H. do 3 apply andb_true_iff in H as [H _].
  apply existsb_exists in H as (m & Hm & Hh). exists m. split; [|done].
  simpl. rewrite list_elem_of_In, filter_In. done.
Qed.

Lemma has_pressure_elem f r : eligible f r = true ->
  exists p, p ∈ ca_pressures (candidate_of f r) /\ holds (pressures f) p = true.
Proof.
  unfold eligible, has_pressure. intros H. apply andb_true_iff in H as [_ H].
  apply existsb_exists in H as (m & Hm & Hh). exists m. split; [|done].
  simpl. rewrite list_elem_of_In, filter_In. done.
Qed.

Section building.
Context {UD : UnicodeData}.
Context (rules : list NeedRule) (rules_valid : rules_ok rules).
Context (cu : ContractUnderstanding) (f : NeedFeatures).
Context (features : extract_features cu = Ok f) (contract : contract_ok cu).

(** A need is built unless the published object has the wording of
    certainty. *)
Lemma need_built category item : item_ok f rules category item ->
  if search _CERTAINTY_WORDING (chars (shown_object (nf_published_object f)))
  then _need item.1 item.2 f = Raise (ValidationError "reasoning")
  else exists n, _need item.1 item.2 f = Ok n.
Proof using rules_valid features contract.
  intros Hi. pose proof (features_timing cu f features) as Htime.
  destruct (need_eq f rules category item rules_valid Hi Htime)
    as (facts & rule & Hrule & Hok & Hfacts & ->).
  destruct (features_fields cu f features) as (_ & _ & Hobj & Htrade & _).
  assert (Hd : nf_trade_domain f ∈ TradeDomain) by (rewrite Htrade; apply co_trade, contract).
  assert (Ho : starts_inside (default "" (nf_published_object f)) = false).
  { rewrite Hobj. destruct (cu_facts cu !! "published_object") as [c|] eqn:Ec; [|done].
    by apply (co_object cu contract). }
  destruct (reasoning_text f rule Hok Hd Ho) as (Hr & Hmark & Hcert).
  assert (Hsub : exists s, opt_mapM (NonEmptyStr "subject") (_subject f) = Ok s).
  { pose proof (subject_text f Hd Ho) as Hs. destruct (_subject f) as [s|]; simpl; [|eauto].
    destruct Hs as [_ Hs]. destruct (NonEmptyStr_visible "subject" s Hs) as [t ->]. simpl. eauto. }
  destruct Hsub as [s ->]. rewrite bind_Ok, Hr, bind_Ok. unfold _une_hypothese_se_justifie.
  cbn [rn_rule_ids rn_evidence_refs rn_confidence rn_mechanism_facts rn_pressure_facts
       rn_statement rn_reasoning].
  destruct Hi as [Hg Hin]. rewrite Hg in Hin, Hfacts |- *.
  destruct (proj1 (elem_of_group f rules category item.1) Hin) as (r & Hr' & He & Hcat & Ec).
  destruct (has_mechanism_elem f r He) as (m & Hm & Hh).
  destruct (has_pressure_elem f r He) as (p & Hp & _).
  destruct (mechanism_proved cu f m contract features Hh) as (fact & c & Hfact & Hc & Hne).
  assert (Hnil : forall {A} (l : list A) x, x ∈ l -> list_truthy l = true).
  { intros A l x Hx. apply list_truthy_true. intros ->. by apply not_elem_of_nil in Hx. }
  assert (Hev : list_truthy (evidence_of f facts) = true).
  { apply list_truthy_true. apply (evidence_nonempty f facts fact c); try done.
    destruct (supporting_facts_ok f r (rules_ok_elem rules r rules_valid Hr')) as [l Hl].
    apply Hfacts. exists item.1, l. rewrite Ec. split_and!; [by rewrite <- Ec | done |].
    by eapply supporting_has. }
  rewrite (Hnil _ (group_rules _) (nr_rule_id r)), Hev,
    (Hnil _ (group_mechanisms _) m), (Hnil _ (group_pressures _) p).
  - rewrite orb_true_r, Hmark, Hcert.
    unfold rule_ok in Hok.
    repeat match goal with H : _ && _ = true |- _ => apply andb_true_iff in H as [? ?] end.
    match goal with H : negb (search _ (chars (nr_statement_template rule))) = true |- _ => rewrite H end.
    destruct (search _CERTAINTY_WORDING (chars (shown_object (nf_published_object f)))); [reflexivity | eexists; reflexivity].
  - apply elem_of_dict_fromkeys, elem_of_flat. exists item.1. by rewrite Ec in Hin |- *.
  - apply elem_of_dict_fromkeys, elem_of_flat. exists item.1. by rewrite Ec in Hin |- *.
  - apply elem_of_dict_fromkeys. apply list_elem_of_In, in_map_iff. exists item.1.
    rewrite <- list_elem_of_In. by rewrite Ec in Hin |- *.
Qed.
End building.

(** The result of a derivation, part by part. *)
Lemma derive_Ok `{UnicodeData} rules cu f g : rules_ok rules -> extract_features cu = Ok f ->
  derive rules cu = Ok g ->
  exists items order, order ≡ₚ categories f rules /\ StronglySorted (ranks_before f rules) order
    /\ Forall2 (item_ok f rules) order items
    /\ Forall2 (need_spec rules f) (take MAX_NEEDS order) (ng_needs g)
    /\ ng_suppressed_candidates g
       = omap (diagnosis f) rules ++ map below (drop MAX_NEEDS items).
Proof.
  intros Hrules Hf Hg.
  destruct (derive_eq rules Hrules cu f Hf) as (items & order & Hi & Hp & Hs & E).
  rewrite E in Hg. apply result_bind_Ok in Hg as (needs & Hn & Hg).
  exists items, order. split_and!; [done..| |].
  - assert (Hneeds : ng_needs g = needs).
    { unfold graph_validate in Hg. inv_result. done. }
    rewrite Hneeds. apply mapM_result_Ok in Hn.
    assert (Hi' : Forall2 (item_ok f rules) (take MAX_NEEDS order) (take MAX_NEEDS items))
      by by apply Forall2_take.
    clear -Hn Hi' Hrules Hf. revert needs Hn.
    induction Hi' as [|c item l l' Hi _ IH]; intros needs Hn; inversion Hn; subst; constructor.
    + by eapply need_Ok.
    + by apply IH.
  - unfold graph_validate in Hg. inv_result. done.
Qed.

Lemma categories_NoDup f rules : NoDup (categories f rules).
Proof. apply NoDup_dict_fromkeys. Qed.

Lemma specs_categories rules f order needs :
  Forall2 (need_spec rules f) order needs -> map rn_category needs = order.
Proof. induction 1 as [|c n l l' [Hc] _ IH]; simpl; [done|]. by rewrite Hc, IH. Qed.

Lemma holds_entry t name : holds t name = true -> entry t name = Ok true.
Proof. unfold holds, entry. destruct (assoc_get name t); simpl; [by intros -> | done]. Qed.

Lemma group_mechanism_holds f rules category m :
  m ∈ group_mechanisms (group_of f rules category) -> mechanism f m = Ok true.
Proof.
  intros H. apply elem_of_dict_fromkeys, elem_of_flat in H as (c & Hc & Hm).
  apply elem_of_group in Hc as (r & _ & _ & _ & ->). simpl in Hm.
  apply list_elem_of_In, filter_In in Hm as [_ Hm]. by apply holds_entry.
Qed.

Lemma group_pressure_holds f rules category p :
  p ∈ group_pressures (group_of f rules category) -> pressure f p = Ok true.
Proof.
  intros H. apply elem_of_dict_fromkeys, elem_of_flat in H as (c & Hc & Hm).
  apply elem_of_group in Hc as (r & _ & _ & _ & ->). simpl in Hm.
  apply list_elem_of_In, filter_In in Hm as [_ Hm]. by apply holds_entry.
Qed.

Lemma elem_of_group_rules f rules category id : id ∈ group_rules (group_of f rules category)
  <-> exists r, r ∈ rules /\ eligible f r = true /\ nr_category r = category /\ nr_rule_id r = id.
Proof.
  unfold group_rules. rewrite elem_of_dict_fromkeys, list_elem_of_In, in_map_iff. split.
  - intros (c & <- & Hc). apply list_elem_of_In, elem_of_group in Hc as (r & Hr & He & Hcat & ->).
    by exists r.
  - intros (r & Hr & He & Hcat & <-). exists (candidate_of f r). split; [done|].
    apply list_elem_of_In, elem_of_group. by exists r.
Qed.

Lemma elem_of_by_identity l e : e ∈ by_identity l -> e ∈ l.
Proof.
  unfold by_identity. generalize (@nil Z). induction l as [|x l IH]; intros seen; simpl; [done|].
  destruct (in_list _ _); [intros H; apply IH in H; set_solver|].
  rewrite !elem_of_cons. intros [->|H]; [by left | right; by eapply IH].
Qed.

Lemma elem_of_evidence f facts e : e ∈ evidence_of f facts ->
  exists fact c, fact ∈ facts /\ nf_claims f !! fact = Some c /\ e ∈ cl_evidence c.
Proof.
  unfold evidence_of. intros H. apply elem_of_by_identity, elem_of_flat in H as (fact & Hf & H).
  destruct (nf_claims f !! fact) as [c|] eqn:Ec; [|by apply not_elem_of_nil in H].
  by exists fact, c.
Qed.

(** C22 (safety).  A derivation announces at most three needs, of distinct
    categories.  Each of them names mechanisms and pressures that hold for
    the contract, at least one of each; it is not what the contract itself
    delivers, nor founded on an amount too small to count; its rules are
    exactly the rules of its category that apply; its evidence is not empty
    and is the evidence of claims of the contract; and neither its
    statement nor its reasoning has the wording of certainty. *)
Theorem needs_justified `{UnicodeData} (cu : ContractUnderstanding) (g : NeedGraphResult) :
  derive RULE_LIBRARY cu = Ok g ->
  exists f, extract_features cu = Ok f
    /\ (length (ng_needs g) <= 3)%nat /\ NoDup (map rn_category (ng_needs g))
    /\ forall n, n ∈ ng_needs g ->
         rn_confidence n = "medium"
         /\ rn_category n ∉ forbidden f /\ nf_magnitude_band f <> "not_material"
         /\ rn_mechanism_facts n <> []
         /\ (forall m, m ∈ rn_mechanism_facts n -> mechanism f m = Ok true)
         /\ rn_pressure_facts n <> []
         /\ (forall p, p ∈ rn_pressure_facts n -> pressure f p = Ok true)
         /\ rn_evidence_refs n <> []
         /\ (forall e, e ∈ rn_evidence_refs n -> exists fact c,
               fact ∈ rn_supporting_facts n /\ nf_claims f !! fact = Some c /\ e ∈ cl_evidence c)
         /\ (forall id, id ∈ rn_rule_ids n <-> exists r, r ∈ RULE_LIBRARY /\ eligible f r = true
               /\ nr_category r = rn_category n /\ nr_rule_id r = id)
         /\ search _CERTAINTY_WORDING (chars (rn_statement n)) = false
         /\ search _CERTAINTY_WORDING (chars (rn_reasoning n)) = false.
Proof.
  intros Hg. assert (Hf := Hg). apply result_bind_Ok in Hf as (f & Hf & _). exists f.
  destruct (derive_Ok _ cu f g library_ok Hf Hg) as (items & order & Hp & _ & _ & Hn & _).
  split; [done|]. split; [|split].
  - apply Forall2_length in Hn. rewrite length_take in Hn. unfold MAX_NEEDS in Hn. lia.
  - rewrite (specs_categories _ _ _ _ Hn). eapply sublist_NoDup; [|apply sublist_take].
    rewrite Hp. apply categories_NoDup.
  - intros n Hin. apply list_elem_of_lookup in Hin as [i Hi].
    destruct (Forall2_lookup_r _ _ _ _ _ Hn Hi) as (c & Hc & [Hcat Hconf Hm Hpr Hr He Hne Hw]).
    apply list_elem_of_lookup_2, elem_of_take in Hc as (j & Hc & _).
    apply list_elem_of_lookup_2 in Hc. rewrite Hp in Hc.
    apply elem_of_categories in Hc as (r & Hr' & Hel & Hrc).
    assert (Hin : candidate_of f r ∈ group_of f RULE_LIBRARY c) by (apply elem_of_group; by exists r).
    destruct (has_mechanism_elem f r Hel) as (m & Hmm & _), (has_pressure_elem f r Hel) as (p & Hpp & _).
    rewrite Hcat, Hm, Hpr, Hr. split_and!; try done; try tauto.
    + unfold eligible in Hel. rewrite Hrc in Hel. intros Hfb.
      apply in_list_true in Hfb. rewrite Hfb in Hel. by destruct (has_mechanism f r).
    + intros Hb. unfold eligible in Hel. rewrite Hb in Hel.
      by destruct (has_mechanism f r), (in_list _ _).
    + intros E. eapply not_elem_of_nil. rewrite <- E. apply elem_of_dict_fromkeys, elem_of_flat. eauto.
    + intros x. apply group_mechanism_holds.
    + intros E. eapply not_elem_of_nil. rewrite <- E. apply elem_of_dict_fromkeys, elem_of_flat. eauto.
    + intros x. apply group_pressure_holds.
    + intros e. rewrite He. apply elem_of_evidence.
    + apply elem_of_group_rules.
Qed.

Lemma diagnosis_or_eligible f r : has_mechanism f r = true ->
  eligible f r = true \/ exists s, diagnosis f r = Some s /\ su_category s = nr_category r.
Proof.
  intros Hm. unfold eligible, diagnosis. rewrite Hm. simpl.
  destruct (in_list _ _); simpl; [right; eauto|]. destruct (bool_decide _); simpl; [right; eauto|].
  destruct (has_pressure f r); simpl; [by left | right; eauto].
Qed.

(** C30 (refinement).  The derivation implements a ranking of categories:
    the categories of the eligible rules, each once, ordered by score and
    then by priority; the first three are announced, the others are
    recorded as ranked below, after the diagnosis of the rules that apply
    and are not eligible.  So every rule with a mechanism in the contract
    is accounted for: in the need of its category, or among the suppressed
    candidates. *)
Theorem needs_ranked `{UnicodeData} (cu : ContractUnderstanding) (g : NeedGraphResult) :
  derive RULE_LIBRARY cu = Ok g ->
  exists f order kept_out, extract_features cu = Ok f
    /\ order ≡ₚ categories f RULE_LIBRARY
    /\ StronglySorted (ranks_before f RULE_LIBRARY) order
    /\ map rn_category (ng_needs g) = take 3 order
    /\ ng_suppressed_candidates g = omap (diagnosis f) RULE_LIBRARY ++ kept_out
    /\ map su_category kept_out = drop 3 order
    /\ Forall (fun s => su_reason s = "ranked_below_top_three") kept_out
    /\ forall r, r ∈ RULE_LIBRARY -> has_mechanism f r = true ->
         (exists n, n ∈ ng_needs g /\ rn_category n = nr_category r /\ nr_rule_id r ∈ rn_rule_ids n)
         \/ (exists s, s ∈ ng_suppressed_candidates g /\ su_category s = nr_category r).
Proof.
  intros Hg. assert (Hf := Hg). apply result_bind_Ok in Hf as (f & Hf & _).
  destruct (derive_Ok _ cu f g library_ok Hf Hg) as (items & order & Hp & Hs & Hi & Hn & Hsup).
  assert (Hcats : map su_category (map below (drop MAX_NEEDS items)) = drop MAX_NEEDS order).
  { apply (Forall2_drop _ _ _ MAX_NEEDS) in Hi. clear -Hi.
    induction Hi as [|c item l l' Hc _ IH]; simpl; [done|].
    by rewrite (item_category f RULE_LIBRARY c item Hc), IH. }
  exists f, order, (map below (drop MAX_NEEDS items)). split_and!; [done..| | | | |].
  - apply (specs_categories _ _ _ _ Hn).
  - done.
  - done.
  - apply Forall_map, Forall_true. done.
  - intros r Hr Hm. destruct (diagnosis_or_eligible f r Hm) as [He|(s & Hd & Hc)].
    2: { right. exists s. split; [|done]. rewrite Hsup, elem_of_app. left.
         apply list_elem_of_omap. by exists r. }
    assert (Hin : nr_category r ∈ order) by (rewrite Hp; apply elem_of_categories; by exists r).
    rewrite <- (take_drop MAX_NEEDS order), elem_of_app in Hin. destruct Hin as [Hin|Hin].
    + left. apply list_elem_of_lookup in Hin as [i Hin].
      destruct (Forall2_lookup_l _ _ _ _ _ Hn Hin) as (n & Hni & Hspec). exists n.
      split; [by eapply list_elem_of_lookup_2|]. split; [apply Hspec|].
      rewrite (ns_rules _ _ _ _ Hspec). apply elem_of_group_rules. by exists r.
    + right. rewrite <- Hcats in Hin. apply list_elem_of_fmap in Hin as (s & -> & Hin').
      exists s. split; [|done]. rewrite Hsup, elem_of_app. by right.
Qed.

(** The needs of distinct categories pass the validation of the result. *)
Lemma graph_ok rules f order needs ref suppressed : NoDup order ->
  Forall2 (need_spec rules f) (take MAX_NEEDS order) needs ->
  exists g, graph_validate (mkGraph ref "metadata_fallback" needs suppressed [] ENGINE_VERSION) = Ok g.
Proof.
  intros Hnd Hspecs. unfold graph_validate, literal.
  cbn [ng_source_mode ng_warnings ng_engine_version ng_needs ng_award_ref ng_suppressed_candidates].
  rewrite checked_id, bind_Ok by (vm_compute; reflexivity). cbn [mapM_result].
  rewrite bind_Ok, version_kept, bind_Ok.
  rewrite (proj2 (Nat.leb_le _ _)).
  2: { apply Forall2_length in Hspecs. rewrite length_take in Hspecs. lia. }
  replace (forallb _ needs) with true.
  2: { symmetry. apply forallb_forall. intros n Hin.
       apply list_elem_of_In, list_elem_of_lookup in Hin as [i Hin].
       destruct (Forall2_lookup_r _ _ _ _ _ Hspecs Hin) as (c & _ & Hspec).
       by rewrite (ns_confidence _ _ _ _ Hspec). }
  rewrite (specs_categories _ _ _ _ Hspecs), bool_decide_true; [by eexists|].
  eapply sublist_NoDup; [done | apply sublist_take].
Qed.

(** C22 (error).  For an understood contract the derivation returns a
    result, with one exception: when a rule is eligible and the published
    object, as it is quoted, has the wording of certainty, the reasoning
    that quotes it is refused and the derivation of the whole contract
    raises.  The two cases are decided by the contract alone. *)
Theorem derive_refuses_quotation `{UnicodeData} (cu : ContractUnderstanding) :
  contract_ok cu ->
  exists f, extract_features cu = Ok f
    /\ if existsb (eligible f) RULE_LIBRARY
          && search _CERTAINTY_WORDING (chars (shown_object (nf_published_object f)))
       then derive RULE_LIBRARY cu = Raise (ValidationError "reasoning")
       else exists g, derive RULE_LIBRARY cu = Ok g.
Proof.
  intros Hcu. destruct (extract_ok cu Hcu) as [f Hf]. exists f. split; [done|].
  destruct (derive_eq _ library_ok cu f Hf) as (items & order & Hi & Hp & _ & ->).
  assert (Hel : existsb (eligible f) RULE_LIBRARY = list_truthy order).
  { apply eq_bool_prop_intro. rewrite !Is_true_true, existsb_exists, list_truthy_true. split.
    - intros (r & Hr & He) E. eapply not_elem_of_nil. rewrite <- E, Hp. apply elem_of_categories.
      exists r. split; [by apply list_elem_of_In | by split].
    - destruct order as [|c order]; [done|]. intros _.
      assert (Hc : c ∈ categories f RULE_LIBRARY) by (rewrite <- Hp; set_solver).
      apply elem_of_categories in Hc as (r & Hr & He & _). exists r.
      split; [by apply list_elem_of_In | done]. }
  rewrite Hel. apply (Forall2_take _ _ _ MAX_NEEDS) in Hi as Ht.
  pose proof (fun c item => need_built _ library_ok cu f Hf Hcu c item) as Hb.
  destruct (search _CERTAINTY_WORDING (chars (shown_object (nf_published_object f)))) eqn:Es.
  - destruct Hi as [|c item order items Hc Hi]; cbn [list_truthy andb].
    + rewrite take_nil. cbn [mapM_result]. rewrite bind_Ok.
      apply (graph_ok RULE_LIBRARY f []); [constructor | rewrite take_nil; constructor].
    + change (take MAX_NEEDS (item :: items)) with (item :: take 2 items).
      cbn [mapM_result]. by rewrite (Hb c item Hc).
  - rewrite andb_false_r.
    destruct (mapM_all (fun item => _need item.1 item.2 f) (take MAX_NEEDS items)) as [needs Hn].
    { intros item Hin. apply list_elem_of_lookup in Hin as [i Hin].
      destruct (Forall2_lookup_r _ _ _ _ _ Ht Hin) as (c & _ & Hc). by apply (Hb c). }
    rewrite Hn, bind_Ok. apply (graph_ok RULE_LIBRARY f order).
    + rewrite Hp. apply categories_NoDup.
    + apply mapM_result_Ok in Hn. clear -Ht Hn Hf. revert needs Hn.
      induction Ht as [|c item l l' Hc _ IH]; intros needs Hn; inversion Hn; subst; constructor.
      * eapply need_Ok; [apply library_ok | done..].
      * by apply IH.
Qed.

(** * Instances *)

Module NeedsSample.
#[export] Instance data : UnicodeData := {| wide_alnum _ := true |}.

Definition proof (n : Z) : Evidence :=
  mkEvidence n "simap" "publication_field" (Some "n1") None None (Some "value") None None None None.
Definition claim (value : string) (n : Z) : Claim :=
  mkClaim value "high" "source_fact" None [proof n].

(** A building contract in Switzerland, of 4.5 millions. *)
Definition building (object : string) (characteristics : list Claim) (amount : option string)
  : ContractUnderstanding :=
  mkUnderstanding (mkEventRef "simap" "n1" None) (claim "construction" 1) (claim "unknown" 2)
    (Some (claim "general_building" 3)) characteristics
    (<["cpv" := claim "45210000" 6]> (<["published_object" := claim object 7]>
       (match amount with Some a => {["amount" := claim a 5]} | None => ∅ end)))
    (Some (mkLocation (Some "CH") None None None None))
    (mkTiming (Some (inl (mkdate 2026 5 1))) None None None).

Definition school : ContractUnderstanding :=
  building "Neubau Schulhaus" [claim "several_lots" 4] (Some "4500000.00 CHF").

Definition answer {A} (d : A) (r : result A) : A := match r with Ok x => x | Raise _ => d end.
Definition no_graph : NeedGraphResult := mkGraph (mkEventRef "" "" None) "" [] [] [] "".
Definition school_needs : NeedGraphResult := answer no_graph (derive RULE_LIBRARY school).

Lemma school_derived : derive RULE_LIBRARY school = Ok school_needs.
Proof. vm_compute. reflexivity. Qed.

Definition no_features : NeedFeatures :=
  mkFeatures "" "" "" false false false false None "" None "" ∅.
Definition school_features : NeedFeatures := answer no_features (extract_features school).

Lemma building_ok object characteristics amount :
  Forall (fun c => cl_value c ∉ ["contract_type"; "cpv"]) characteristics ->
  starts_inside object = false -> contract_ok (building object characteristics amount).
Proof.
  intros Hc Ho. constructor; simpl; try done.
  - by right.
  - destruct amount; vm_compute; reflexivity.
  - intros c. rewrite lookup_insert_eq. by intros [= <-].
  - apply in_list_true. vm_compute. reflexivity.
  - intros c. rewrite lookup_insert_ne, lookup_insert_eq by done. by intros [= <-].
Qed.
End NeedsSample.
Import NeedsSample.

Example needs_justified_witness :
  map rn_category (ng_needs school_needs)
    = ["workforce_capacity"; "equipment_or_rental"; "materials_or_components"]
  /\ NoDup (map rn_category (ng_needs school_needs)).
Proof.
  split; [vm_compute; reflexivity|].
  pose proof (needs_justified school school_needs school_derived) as (f & _ & _ & H & _). exact H.
Defined.

Example needs_ranked_witness :
  exists f order, extract_features school = Ok f /\ order ≡ₚ categories f RULE_LIBRARY
    /\ map rn_category (ng_needs school_needs) = take 3 order.
Proof.
  pose proof (needs_ranked school school_needs school_derived) as (f & order & k & Hf & Hp & _ & Hn & _).
  exists f, order. split; [exact Hf|]. split; [exact Hp | exact Hn].
Defined.

(** The object of a notice that speaks of what the contractor will need
    stops the derivation; the same contract under another name does not. *)
Definition quoted : ContractUnderstanding :=
  building "Scaffolding the contractor will need" [] (Some "4500000.00 CHF").

Example derive_refuses_quotation_witness :
  contract_ok quoted /\ derive RULE_LIBRARY quoted = Raise (ValidationError "reasoning").
Proof.
  assert (Hok : contract_ok quoted) by (apply building_ok; [constructor | reflexivity]).
  split; [exact Hok|].
  pose proof (derive_refuses_quotation quoted Hok) as (f & Hf & H).
  assert (Ef : answer no_features (extract_features quoted) = f) by (rewrite Hf; reflexivity).
  rewrite <- Ef in H.
  assert (Hif : existsb (eligible (answer no_features (extract_features quoted))) RULE_LIBRARY
    && search _CERTAINTY_WORDING (chars (shown_object (nf_published_object
         (answer no_features (extract_features quoted))))) = true) by (vm_compute; reflexivity).
  rewrite Hif in H. exact H.
Defined.

(** Several contractors without a group make a need that cites a group. *)
Example contractors_cited_as_consortium :
  let g := answer no_graph (derive RULE_LIBRARY
             (building "Neubau" [claim "multiple_contractors" 4] None)) in
  map rn_supporting_facts (take 1 (ng_needs g)) = [["contract_type"; "consortium_award"]].
Proof. vm_compute. reflexivity. Qed.
