(* ===== verification/MatchingModel.v ===== *)
(** MatchingModel: the profile a customer declares and the result of a match.

    Models [matching/icp.py] and [matching/model.py]: the target profile
    with its validation, the hard filters, the score components, and the
    validation of a scored match. *)

From S2P Require Import Prelude PyStr PyDatetime PyText PyFloat Understanding Needs.
From Stdlib Require Import Ascii String.
From stdpp Require Import gmap strings list.

Local Open Scope Z_scope.

(** * The target profile *)

(** [matching/icp.py:29-29 MATCH_POLICY_VERSION] *)
Definition MATCH_POLICY_VERSION : string := "icp-match-v0.2".

(** [matching/icp.py:31-31 GeographyBasis] *)
Definition GeographyBasis : list string :=
  ["place_of_performance"; "winner_location"; "either"; "ignore"].
(** [matching/icp.py:38-38 GeographyPolicy] *)
Definition GeographyPolicy : list string := ["required"; "preferred"; "ignored"].
(** [matching/icp.py:44-44 UnknownValuePolicy] *)
Definition UnknownValuePolicy : list string := ["exclude"; "allow_with_penalty"; "allow_neutral"].
(** [matching/icp.py:46-46 MAX_SIGNAL_AGE_DAYS] *)
Definition MAX_SIGNAL_AGE_DAYS : Z := 730.

(** [matching/icp.py:50-61 Territory] *)
Record Territory : Type := mkTerritory {
  te_country : string;
  te_subdivision_code : option string;
  te_subdivision_scheme : option string;
}.

(** [matching/icp.py:50-70 Territory]: what building one does. *)
Definition territory_validate (t : Territory) : result Territory :=
  let! country := NonEmptyStr "country" (te_country t) in
  let! code := opt_mapM (NonEmptyStr "subdivision_code") (te_subdivision_code t) in
  let! scheme := opt_mapM (NonEmptyStr "subdivision_scheme") (te_subdivision_scheme t) in
  require! negb (truthy code && negb (truthy scheme)) else ValidationError "subdivision_scheme" in
  Ok (mkTerritory country code scheme).

(** [matching/icp.py:73-78 ValueThreshold] *)
Record ValueThreshold : Type := mkThreshold {
  vt_currency : string;
  vt_minimum_amount : float;
  vt_maximum_amount : option float;
}.

(** [matching/icp.py:73-87 ValueThreshold]: what building one does. *)
Definition threshold_validate (t : ValueThreshold) : result ValueThreshold :=
  let! currency := NonEmptyStr "currency" (vt_currency t) in
  let! minimum := checked "minimum_amount" (fleb (fint 0)) (vt_minimum_amount t) in
  let! maximum := opt_mapM (checked "maximum_amount" (fleb (fint 0))) (vt_maximum_amount t) in
  require! negb (match maximum with Some m => fltb m minimum | None => false end)
  else ValidationError "maximum_amount" in
  Ok (mkThreshold currency minimum maximum).

(** [matching/icp.py:90-124 TargetICP] *)
Record TargetICP : Type := mkICP {
  icp_id : string;
  icp_name : string;
  icp_offer_summary : string;
  icp_primary_need_categories : list string;
  icp_secondary_need_categories : list string;
  icp_geography_basis : string;
  icp_geography_policy : string;
  icp_territories : list Territory;
  icp_primary_trade_domains : list string;
  icp_secondary_trade_domains : list string;
  icp_included_contract_types : list string;
  icp_excluded_contract_types : list string;
  icp_included_sectors : list string;
  icp_excluded_sectors : list string;
  icp_included_cpv_prefixes : list string;
  icp_value_thresholds : list ValueThreshold;
  icp_unknown_value_policy : string;
  icp_maximum_signal_age_days : Z;
  icp_preferred_timings : list string;
  icp_source_modes_allowed : list string;
}.

(** A tuple typed by a [Literal]. *)
Definition literals (field : string) (values l : list string) : result (list string) :=
  mapM_result (literal field values) l.

(** [set(a) & set(b)] is empty. *)
Definition disjoint_lists (a b : list string) : bool := forallb (fun x => negb (in_list x b)) a.

(** [matching/icp.py:126-184 TargetICP._un_profil_coherent] *)
Definition _un_profil_coherent (p : TargetICP) : result TargetICP :=
  require! list_truthy (icp_primary_need_categories p)
  else ValidationError "primary_need_categories" in
  require! disjoint_lists (icp_primary_need_categories p) (icp_secondary_need_categories p)
  else ValidationError "secondary_need_categories" in
  require! disjoint_lists (icp_primary_trade_domains p) (icp_secondary_trade_domains p)
  else ValidationError "secondary_trade_domains" in
  require! negb (in_list "unknown_or_general"
                   (icp_primary_trade_domains p ++ icp_secondary_trade_domains p))
  else ValidationError "primary_trade_domains" in
  require! negb (list_truthy (icp_secondary_trade_domains p)
                 && negb (list_truthy (icp_primary_trade_domains p)))
  else ValidationError "primary_trade_domains" in
  require! disjoint_lists (icp_included_contract_types p) (icp_excluded_contract_types p)
  else ValidationError "excluded_contract_types" in
  require! disjoint_lists (icp_included_sectors p) (icp_excluded_sectors p)
  else ValidationError "excluded_sectors" in
  let ignoring_basis := bool_decide (icp_geography_basis p = "ignore") in
  let ignoring_policy := bool_decide (icp_geography_policy p = "ignored") in
  require! Bool.eqb ignoring_basis ignoring_policy else ValidationError "geography_policy" in
  require! ignoring_policy || list_truthy (icp_territories p) else ValidationError "territories" in
  require! bool_decide (NoDup (map vt_currency (icp_value_thresholds p)))
  else ValidationError "value_thresholds" in
  require! list_truthy (icp_source_modes_allowed p) else ValidationError "source_modes_allowed" in
  Ok p.

(** [matching/icp.py:90-184 TargetICP]: what building one does. *)
Definition icp_validate (p : TargetICP) : result TargetICP :=
  let! id := NonEmptyStr "icp_id" (icp_id p) in
  let! name := NonEmptyStr "name" (icp_name p) in
  let! primary := literals "primary_need_categories" NeedCategory (icp_primary_need_categories p) in
  let! secondary := literals "secondary_need_categories" NeedCategory
                      (icp_secondary_need_categories p) in
  let! basis := literal "geography_basis" GeographyBasis (icp_geography_basis p) in
  let! policy := literal "geography_policy" GeographyPolicy (icp_geography_policy p) in
  let! territories := mapM_result territory_validate (icp_territories p) in
  let! trades := literals "primary_trade_domains" TradeDomain (icp_primary_trade_domains p) in
  let! others := literals "secondary_trade_domains" TradeDomain (icp_secondary_trade_domains p) in
  let! types := literals "included_contract_types" ContractType (icp_included_contract_types p) in
  let! no_types := literals "excluded_contract_types" ContractType
                     (icp_excluded_contract_types p) in
  let! sectors := literals "included_sectors" Sector (icp_included_sectors p) in
  let! no_sectors := literals "excluded_sectors" Sector (icp_excluded_sectors p) in
  let! thresholds := mapM_result threshold_validate (icp_value_thresholds p) in
  let! unknown := literal "unknown_value_policy" UnknownValuePolicy (icp_unknown_value_policy p) in
  let! age := checked "maximum_signal_age_days" (fun n => (0 <? n) && (n <=? MAX_SIGNAL_AGE_DAYS))
                (icp_maximum_signal_age_days p) in
  let! timings := literals "preferred_timings" NeedTiming (icp_preferred_timings p) in
  let! modes := literals "source_modes_allowed" SourceMode (icp_source_modes_allowed p) in
  _un_profil_coherent
    (mkICP id name (icp_offer_summary p) primary secondary basis policy territories trades others
       types no_types sectors no_sectors (icp_included_cpv_prefixes p) thresholds unknown age
       timings modes).

(** [matching/icp.py:186-191 TargetICP.threshold_for] *)
Definition threshold_for (p : TargetICP) (currency : string) : option ValueThreshold :=
  first_match (fun t => bool_decide (vt_currency t = currency)) (icp_value_thresholds p).

(** * The result of a match *)

(** [matching/model.py:30-30 SCORE_POLICY_VERSION] *)
Definition SCORE_POLICY_VERSION : string := "signal-score-v0.2".
(** [matching/model.py:35-35 MatchDecision] *)
Definition MatchDecision : list string := ["show"; "borderline"; "exclude"; "insufficient_data"].
(** [matching/model.py:41-41 SignalConfidence] *)
Definition SignalConfidence : list string := ["medium"; "low"].
(** [matching/model.py:45-45 ScoreBand] *)
Definition ScoreBand : list string := ["strong"; "promising"; "weak"; "excluded"].

(** [matching/model.py:49-57 HardFilterResult] *)
Record HardFilterResult : Type := mkFilter {
  hf_name : string;
  hf_passed : bool;
  hf_evaluable : bool;
  hf_detail : string;
}.

(** [matching/model.py:49-57 HardFilterResult]: what building one does. *)
Definition hard_filter (name : string) (passed evaluable : bool) (detail : string)
  : result HardFilterResult :=
  let! name := NonEmptyStr "name" name in
  let! detail := NonEmptyStr "detail" detail in
  Ok (mkFilter name passed evaluable detail).

(** [matching/model.py:60-66 SignalScoreComponent] *)
Record SignalScoreComponent : Type := mkComponent {
  sc_name : string;
  sc_points : Z;
  sc_maximum_points : Z;
  sc_detail : string;
}.

(** [matching/model.py:60-75 SignalScoreComponent]: what building one does. *)
Definition score_component (name : string) (points maximum_points : Z) (detail : string)
  : result SignalScoreComponent :=
  let! name := NonEmptyStr "name" name in
  let! points := checked "points" (Z.leb 0) points in
  let! maximum := checked "maximum_points" (Z.ltb 0) maximum_points in
  let! detail := NonEmptyStr "detail" detail in
  require! points <=? maximum else ValidationError "points" in
  Ok (mkComponent name points maximum detail).

(** [matching/model.py:78-105 ScoredSignalMatch] *)
Record ScoredSignalMatch : Type := mkScored {
  sm_award_ref : EventRef;
  sm_icp_id : string;
  sm_as_of : date;
  sm_decision : string;
  sm_band : string;
  sm_confidence : string;
  sm_raw_points : Z;
  sm_maximum_applicable_points : Z;
  sm_normalized_score : Z;
  sm_score_components : list SignalScoreComponent;
  sm_hard_filter_results : list HardFilterResult;
  sm_matched_needs : list string;
  sm_positive_reasons : list string;
  sm_limitations : list string;
  sm_evidence_refs : list Evidence;
  sm_match_policy_version : string;
  sm_score_policy_version : string;
}.

Definition sum (l : list Z) : Z := foldr Z.add 0 l.

(** [round(100 * raw / maximum) if maximum else 0] *)
Definition normalized_of (raw maximum : Z) : result Z :=
  if maximum =? 0 then Ok 0 else percentage raw maximum.

(** [matching/model.py:107-155 ScoredSignalMatch._un_score_se_justifie] *)
Definition _un_score_se_justifie (m : ScoredSignalMatch) : result ScoredSignalMatch :=
  require! sum (map sc_points (sm_score_components m)) =? sm_raw_points m
  else ValidationError "raw_points" in
  require! sum (map sc_maximum_points (sm_score_components m)) =? sm_maximum_applicable_points m
  else ValidationError "maximum_applicable_points" in
  let! expected := normalized_of (sm_raw_points m) (sm_maximum_applicable_points m) in
  require! sm_normalized_score m =? expected else ValidationError "normalized_score" in
  let presented := in_list (sm_decision m) ["show"; "borderline"] in
  require! negb presented || list_truthy (sm_positive_reasons m)
  else ValidationError "positive_reasons" in
  require! negb presented || list_truthy (sm_score_components m)
  else ValidationError "score_components" in
  require! negb presented || list_truthy (sm_evidence_refs m)
  else ValidationError "evidence_refs" in
  require! negb presented || list_truthy (sm_matched_needs m)
  else ValidationError "matched_needs" in
  require! (if bool_decide (sm_decision m = "show") then in_list (sm_band m) ["strong"; "promising"]
            else if bool_decide (sm_decision m = "borderline")
            then in_list (sm_band m) ["promising"; "weak"]
            else bool_decide (sm_band m = "excluded"))
  else ValidationError "band" in
  Ok m.

(** [matching/model.py:78-155 ScoredSignalMatch]: what building one does. *)
Definition scored_validate (m : ScoredSignalMatch) : result ScoredSignalMatch :=
  let! id := NonEmptyStr "icp_id" (sm_icp_id m) in
  let! decision := literal "decision" MatchDecision (sm_decision m) in
  let! band := literal "band" ScoreBand (sm_band m) in
  let! confidence := literal "confidence" SignalConfidence (sm_confidence m) in
  let! raw := checked "raw_points" (Z.leb 0) (sm_raw_points m) in
  let! maximum := checked "maximum_applicable_points" (Z.leb 0) (sm_maximum_applicable_points m) in
  let! normalized := checked "normalized_score" (fun n => (0 <=? n) && (n <=? 100))
                       (sm_normalized_score m) in
  let! matched := literals "matched_needs" NeedCategory (sm_matched_needs m) in
  let! reasons := mapM_result (NonEmptyStr "positive_reasons") (sm_positive_reasons m) in
  let! limitations := mapM_result (NonEmptyStr "limitations") (sm_limitations m) in
  let! match_version := NonEmptyStr "match_policy_version" (sm_match_policy_version m) in
  let! score_version := NonEmptyStr "score_policy_version" (sm_score_policy_version m) in
  _un_score_se_justifie
    (mkScored (sm_award_ref m) id (sm_as_of m) decision band confidence raw maximum normalized
       (sm_score_components m) (sm_hard_filter_results m) matched reasons limitations
       (sm_evidence_refs m) match_version score_version).

(** * Reference profiles *)

(** A whole country, and a threshold without maximum. *)
Definition country (c : string) : Territory := mkTerritory c None None.
Definition from_amount (currency : string) (minimum : Z) : ValueThreshold :=
  mkThreshold currency (fint minimum) None.

(** [matching/reference.py:24-166 REFERENCE_ICPS] *)
Definition REFERENCE_ICPS : list TargetICP :=
  [ mkICP "icp-staffing-ch" "Agence d'intérim BTP — Suisse"
      "Mise à disposition de personnel qualifié pour chantiers et sites."
      ["workforce_capacity"] ["specialist_subcontracting"] "place_of_performance" "required"
      [country "CH"]
      [] []
      [] ["it_digital"; "research"] [] [] []
      [from_amount "CHF" 250000] "allow_with_penalty" 90
      ["immediate"; "near_term"; "recurring"] ["metadata_fallback"];
    mkICP "icp-plant-hire-ch" "Loueur d'engins de chantier — Suisse"
      "Location de pelles, grues et matériel de terrassement avec ou sans opérateur."
      ["equipment_or_rental"] ["logistics_and_transport"] "place_of_performance" "required"
      [country "CH"]
      [] []
      ["construction"] ["it_digital"; "business_services"; "financial_insurance"] [] [] []
      [from_amount "CHF" 500000] "exclude" 60
      ["immediate"; "near_term"] ["metadata_fallback"];
    mkICP "icp-materials-eu" "Négoce de matériaux de construction — zone euro"
      "Fourniture de matériaux et composants pour le bâtiment et le génie civil."
      ["materials_or_components"] ["equipment_or_rental"] "place_of_performance" "required"
      [country "FR"; country "DE"; country "ES"; country "IT"; country "PT"; country "BE"; country "NL"]
      [] []
      ["construction"] [] [] [] []
      [from_amount "EUR" 200000] "allow_with_penalty" 120
      ["near_term"; "medium_term"] ["metadata_fallback"];
    mkICP "icp-ppe-safety-ch" "Fournisseur EPI et sécurité chantier — Suisse"
      "Équipements de protection individuelle et protections collectives."
      ["safety_and_ppe"] ["workforce_capacity"] "place_of_performance" "preferred"
      [country "CH"]
      [] []
      ["construction"] [] [] [] []
      [from_amount "CHF" 100000] "allow_neutral" 180
      [] ["metadata_fallback"];
    mkICP "icp-waste-ch" "Collecte et traitement de déchets de chantier — Suisse"
      "Évacuation de déblais, gravats et déchets de construction."
      ["waste_and_environment"] [] "place_of_performance" "required"
      [country "CH"]
      [] []
      ["construction"] [] [] [] []
      [from_amount "CHF" 150000] "allow_neutral" 120
      [] ["metadata_fallback"];
    mkICP "icp-subcontracting-eu" "Sous-traitance technique spécialisée — Europe de l'Ouest"
      "Lots techniques spécialisés en construction, ingénierie et systèmes."
      ["specialist_subcontracting"] ["workforce_capacity"] "place_of_performance" "preferred"
      [country "FR"; country "DE"; country "CH"; country "BE"; country "AT"]
      [] []
      [] [] [] ["defence_security"] []
      [from_amount "EUR" 500000; from_amount "CHF" 500000] "allow_with_penalty" 90
      ["near_term"; "medium_term"] ["metadata_fallback"];
    mkICP "icp-national-supplier" "Fournisseur multirégional — capacité et matériaux"
      "Groupe national couvrant plusieurs pays, offre large sur les intrants de chantier."
      ["workforce_capacity"; "materials_or_components"] ["equipment_or_rental"; "safety_and_ppe"] "either" "preferred"
      [country "CH"; country "FR"; country "DE"; country "IT"; country "ES"; country "PL"]
      [] []
      [] [] [] [] []
      [from_amount "CHF" 100000; from_amount "EUR" 100000] "allow_neutral" 180
      [] ["metadata_fallback"];
    mkICP "icp-remote-specialist" "Cabinet de spécialistes à distance — sans contrainte de zone"
      "Expertise technique délivrée à distance, indépendante du lieu d'exécution."
      ["specialist_subcontracting"] [] "ignore" "ignored"
      []
      [] []
      [] ["medical_supply"; "equipment_supply"] [] [] []
      [] "allow_neutral" 365
      [] ["metadata_fallback"] ].

(** [matching/reference.py:172-209 CONSTRUCTION_INPUTS_ICP] *)
Definition CONSTRUCTION_INPUTS_ICP : TargetICP :=
  mkICP "icp-construction-inputs-ch-eu-v0" "Négoce d'intrants de chantier — CH, DE, FR, ES, PT"
      "Matériaux et composants de gros œuvre et de second œuvre livrés sur chantier : béton et granulats, maçonnerie, charpente, couverture et étanchéité, menuiserie, cloisons, sols et revêtements."
      ["materials_or_components"] ["equipment_or_rental"] "place_of_performance" "required"
      [country "CH"; country "DE"; country "FR"; country "ES"; country "PT"]
      ["general_building"; "interior_finishing"; "earthworks_demolition"] ["roadworks_civil"; "special_civil"]
      ["construction"] [] [] [] []
      [from_amount "CHF" 100000; from_amount "EUR" 100000] "allow_with_penalty" 120
      ["near_term"; "medium_term"] ["metadata_fallback"].

Example reference_profiles_valid :
  forallb (fun p => is_ok (icp_validate p)) (CONSTRUCTION_INPUTS_ICP :: REFERENCE_ICPS) = true.
Proof. vm_compute. reflexivity. Qed.
