(* ===== verification/MatchingEngine.v ===== *)
(** MatchingEngine: an award confronted with a target profile.

    Models [matching/engine.py]: the hard filters, the score components, the
    decision, its explanation and its evidence, in the order of the
    source. *)

From S2P Require Import Prelude PyStr PyDatetime PyText PyFloat Understanding Needs.
From S2P Require Import MatchingModel.
From Stdlib Require Import Ascii String.
From stdpp Require Import gmap strings list.

Local Open Scope Z_scope.

(** [matching/engine.py:44-44 NEED_FIT_MAX] *)
Definition NEED_FIT_MAX : Z := 45.
(** [matching/engine.py:45-45 ECONOMIC_MAX] *)
Definition ECONOMIC_MAX : Z := 20.
(** [matching/engine.py:46-46 GEOGRAPHY_MAX] *)
Definition GEOGRAPHY_MAX : Z := 20.
(** [matching/engine.py:47-47 FRESHNESS_MAX] *)
Definition FRESHNESS_MAX : Z := 15.
(** [matching/engine.py:49-49 PRIMARY_FIT_POINTS] *)
Definition PRIMARY_FIT_POINTS : Z := 45.
(** [matching/engine.py:50-50 SECONDARY_FIT_POINTS] *)
Definition SECONDARY_FIT_POINTS : Z := 25.
(** [matching/engine.py:51-51 SECOND_NEED_BONUS] *)
Definition SECOND_NEED_BONUS : Z := 5.
(** [matching/engine.py:55-55 SHOW_THRESHOLD] *)
Definition SHOW_THRESHOLD : Z := 60.
(** [matching/engine.py:56-56 BORDERLINE_THRESHOLD] *)
Definition BORDERLINE_THRESHOLD : Z := 40.
(** [matching/engine.py:57-57 STRONG_BAND] *)
Definition STRONG_BAND : Z := 75.
(** [matching/engine.py:58-58 PROMISING_BAND] *)
Definition PROMISING_BAND : Z := 55.

Section match_.
Variables (cu : ContractUnderstanding) (needs : NeedGraphResult) (icp : TargetICP) (as_of : date).

Local Notation fact name := (cl_value <$> cu_facts cu !! name).

(** The categories the contract produces, and those of a list among them. *)
Definition produced : list string := map rn_category (ng_needs needs).
Definition hits (categories : list string) : list string :=
  List.filter (fun c => in_list c produced) categories.
Definition primary_hits : list string := hits (icp_primary_need_categories icp).
Definition secondary_hits : list string := hits (icp_secondary_need_categories icp).
Definition matched : list string := primary_hits ++ secondary_hits.

(** * Hard filters *)

(** [matching/engine.py:73-216 match] *)
Definition source_mode_filter : result HardFilterResult :=
  hard_filter "source_mode" (in_list (ng_source_mode needs) (icp_source_modes_allowed icp)) true
    ("mode de production " +:+ ng_source_mode needs).

(** [matching/engine.py:73-216 match] *)
Definition need_overlap_filter : result HardFilterResult :=
  hard_filter "need_overlap" (list_truthy matched) true
    (if list_truthy matched then "besoins correspondants : " +:+ PyStr.join ", " matched
     else "aucun besoin de l'ICP n'est produit pour cet award-lot").

Inductive trade_fit : Type :=
| TradeNotConfigured | TradeExact | TradeCompatible | TradeUnknown | TradeIncompatible.

#[export] Instance trade_fit_eq_dec : EqDecision trade_fit.
Proof. solve_decision. Defined.

(** [matching/engine.py:239-256 _trade_domain_filter]: the fit. *)
Definition _trade_fit : trade_fit :=
  let domain := trade_domain_of cu in
  if negb (list_truthy (icp_primary_trade_domains icp)) then TradeNotConfigured
  else if in_list domain (icp_primary_trade_domains icp) then TradeExact
  else if in_list domain (icp_secondary_trade_domains icp) then TradeCompatible
  else if bool_decide (domain = "unknown_or_general") then TradeUnknown
  else TradeIncompatible.

(** [matching/engine.py:220-270 _trade_domain_filter] *)
Definition _trade_domain_filter : result HardFilterResult :=
  let domain := trade_domain_of cu in
  hard_filter "trade_domain" (negb (bool_decide (_trade_fit = TradeIncompatible))) true
    match _trade_fit with
    | TradeNotConfigured => "l'ICP ne cible aucun corps de métier"
    | TradeExact => "corps de métier ciblé : " +:+ domain
    | TradeCompatible => "corps de métier accepté en second : " +:+ domain
    | TradeUnknown => "le CPV publié ne dit pas le corps de métier"
    | TradeIncompatible => "corps de métier hors cible : " +:+ domain
    end.

(** [matching/engine.py:272-284 _contract_type_filter] *)
Definition _contract_type_filter : result HardFilterResult :=
  let contract_type := cl_value (cu_contract_type cu) in
  let excluded := in_list contract_type (icp_excluded_contract_types icp) in
  hard_filter "contract_type" (negb excluded) true
    (if excluded then "type de contrat " +:+ contract_type +:+ " explicitement exclu"
     else "type de contrat " +:+ contract_type).

(** [matching/engine.py:286-312 _sector_filter] *)
Definition _sector_filter : result HardFilterResult :=
  let sector := cl_value (cu_sector cu) in
  let excluded := negb (bool_decide (sector = "unknown")) && in_list sector (icp_excluded_sectors icp) in
  let by_sector :=
    hard_filter "sector" (negb excluded) true
      (if excluded then "secteur " +:+ sector +:+ " explicitement exclu" else "secteur " +:+ sector) in
  if list_truthy (icp_included_cpv_prefixes icp) then
    match fact "cpv" with
    | None => hard_filter "cpv_sector" false false "CPV absent : secteur ciblé inévaluable"
    | Some cpv =>
        if negb (nonempty cpv) then
          hard_filter "cpv_sector" false false "CPV absent : secteur ciblé inévaluable"
        else if negb (existsb (startswith cpv) (icp_included_cpv_prefixes icp)) then
          hard_filter "cpv_sector" false true ("CPV " +:+ cpv +:+ " hors du secteur ciblé")
        else by_sector
    end
  else by_sector.

(** The days since the publication. *)
Definition age_of (published : date + datetime) : Z :=
  days_between as_of (published_date published).

(** [matching/engine.py:314-332 _freshness_filter] *)
Definition _freshness_filter : result HardFilterResult :=
  match ti_published_at (cu_timing cu) with
  | None => hard_filter "signal_age" false false
              "date de publication absente : la fraîcheur est inévaluable"
  | Some published =>
      let age := age_of published in
      hard_filter "signal_age" (age <=? icp_maximum_signal_age_days icp) true
        ("signal publié il y a " +:+ str_int age +:+ " jours (plafond "
         +:+ str_int (icp_maximum_signal_age_days icp) +:+ ")")
  end.

Inductive geography_status : Type := GeoIgnored | GeoUnknown | GeoMatch | GeoMismatch.

#[export] Instance geography_status_eq_dec : EqDecision geography_status.
Proof. solve_decision. Defined.

(** [matching/engine.py:348-358 _geography_filter]: the countries that count,
    with the place they come from. *)
Definition candidate_place : option (string * Location) :=
  if in_list (icp_geography_basis icp) ["place_of_performance"; "either"] then
    match cu_place_of_performance cu with
    | Some place =>
        match loc_country place with
        | Some country => if nonempty country then Some (country, place) else None
        | None => None
        end
    | None => None
    end
  else None.

(** The places the profile names by their subdivision, and the countries it
    names whole. *)
Definition wanted_subdivisions : list (string * string * option string) :=
  omap (fun t => match te_subdivision_code t with
                 | Some code => Some (te_country t, code, te_subdivision_scheme t)
                 | None => None
                 end) (icp_territories icp).
Definition whole_countries : list string :=
  map te_country (List.filter (fun t => negb (truthy (te_subdivision_code t))) (icp_territories icp)).

(** [matching/engine.py:334-408 _geography_filter] *)
Definition _geography_filter : result (HardFilterResult * geography_status) :=
  if bool_decide (icp_geography_policy icp = "ignored") || bool_decide (icp_geography_basis icp = "ignore")
  then let! h := hard_filter "geography" true true "géographie non contraignante" in Ok (h, GeoIgnored)
  else
    match candidate_place with
    | None =>
        let soft := negb (bool_decide (icp_geography_policy icp = "required")) in
        let! h := hard_filter "geography_missing" soft soft
                    "localisation absente pour la base géographique demandée" in
        Ok (h, GeoUnknown)
    | Some (country, place) =>
        let decided (found : bool) :=
          let! h := hard_filter "geography"
                      (found || bool_decide (icp_geography_policy icp = "preferred")) true
                      (if found then "lieu d'exécution " +:+ country +:+ " dans la zone ciblée"
                       else "lieu d'exécution " +:+ country +:+ " hors zone") in
          Ok (h, if found then GeoMatch else GeoMismatch) in
        let found := in_list country whole_countries in
        if negb found && list_truthy wanted_subdivisions then
          match loc_subdivision_code place with
          | None =>
              let! h := hard_filter "geography_subdivision_missing" false false
                          "subdivision du lieu d'exécution absente" in
              Ok (h, GeoUnknown)
          | Some subdivision =>
              decided (in_list (country, subdivision, loc_subdivision_scheme place)
                         wanted_subdivisions)
          end
        else decided found
    end.

Inductive value_status : Type :=
| ValueMissing | ValueNotMaterial | ValueNoThreshold | ValueCurrencyUnsupported
| ValueBelow | ValueAbove | ValueWithin.

#[export] Instance value_status_eq_dec : EqDecision value_status.
Proof. solve_decision. Defined.

(** [matching/engine.py:410-499 _value_filter] *)
Definition _value_filter : result (HardFilterResult * value_status) :=
  let soft := negb (bool_decide (icp_unknown_value_policy icp = "exclude")) in
  let outcome name passed evaluable detail status :=
    let! h := hard_filter name passed evaluable detail in Ok (h, status) in
  match fact "amount" with
  | None => outcome "value_missing" soft soft "montant absent" ValueMissing
  | Some amount =>
      match read_amount amount with
      | None => outcome "value_unreadable" true true "montant illisible" ValueMissing
      | Some (value, currency) =>
          let shown := "montant " +:+ format_0f value +:+ " " +:+ currency in
          if bool_decide (magnitude_band (Some amount) = "not_material") then
            outcome "value_threshold" true true ("montant non matériel (" +:+ amount +:+ ")")
              ValueNotMaterial
          else if negb (list_truthy (icp_value_thresholds icp)) then
            outcome "value_threshold" true true ("aucun seuil configuré ; " +:+ shown +:+ " connu")
              ValueNoThreshold
          else
            match threshold_for icp currency with
            | None => outcome "value_currency" soft soft
                        ("devise " +:+ currency +:+ " sans seuil correspondant")
                        ValueCurrencyUnsupported
            | Some threshold =>
                if fltb value (vt_minimum_amount threshold) then
                  outcome "value_threshold" false true
                    (shown +:+ " sous le minimum " +:+ format_0f (vt_minimum_amount threshold))
                    ValueBelow
                else
                  match vt_maximum_amount threshold with
                  | Some maximum =>
                      if fltb maximum value then
                        outcome "value_threshold" false true
                          (shown +:+ " au-dessus du maximum " +:+ format_0f maximum) ValueAbove
                      else outcome "value_threshold" true true
                             (shown +:+ " dans la fourchette ciblée") ValueWithin
                  | None => outcome "value_threshold" true true
                              (shown +:+ " dans la fourchette ciblée") ValueWithin
                  end
            end
      end
  end.

(** * Score components *)

(** [matching/engine.py:503-521 _need_component] *)
Definition _need_component : result SignalScoreComponent :=
  let base := if list_truthy primary_hits then PRIMARY_FIT_POINTS else SECONDARY_FIT_POINTS in
  let detail :=
    if list_truthy primary_hits
    then "besoin principal correspondant : " +:+ PyStr.join ", " primary_hits
    else "besoin secondaire correspondant : " +:+ PyStr.join ", " secondary_hits in
  let extra := zlength primary_hits + zlength secondary_hits - 1 in
  score_component "need_offer_fit"
    (Z.min NEED_FIT_MAX (base + if 0 <? extra then SECOND_NEED_BONUS else 0)) NEED_FIT_MAX detail.

(** [matching/engine.py:523-537 _economic_component]: its points. *)
Definition economic_points (status : value_status) : Z :=
  if in_list status [ValueMissing; ValueCurrencyUnsupported; ValueNotMaterial] then 0
  else default 0 (assoc_get (magnitude_band (fact "amount"))
                    [("very_large", 20); ("large", 18); ("modest", 12)]).

Definition value_status_str (status : value_status) : string :=
  match status with
  | ValueMissing => "missing" | ValueNotMaterial => "not_material"
  | ValueNoThreshold => "no_threshold_configured"
  | ValueCurrencyUnsupported => "currency_unsupported"
  | ValueBelow => "below" | ValueAbove => "above" | ValueWithin => "within"
  end.

(** [matching/engine.py:523-537 _economic_component] *)
Definition _economic_component (status : value_status) : result SignalScoreComponent :=
  let band := magnitude_band (fact "amount") in
  let points := economic_points status in
  score_component "economic_impact" points ECONOMIC_MAX
    (if negb (points =? 0) then "échelle économique " +:+ band
     else "aucun point économique (échelle " +:+ band +:+ ", état " +:+ value_status_str status +:+ ")").

(** [matching/engine.py:539-549 _geography_component] *)
Definition _geography_component (status : geography_status) : result SignalScoreComponent :=
  score_component "geography" (if bool_decide (status = GeoMatch) then GEOGRAPHY_MAX else 0)
    GEOGRAPHY_MAX
    match status with
    | GeoMatch => "lieu d'exécution dans la zone ciblée"
    | GeoMismatch => "lieu d'exécution hors de la zone ciblée"
    | GeoUnknown => "localisation absente : aucun point géographique"
    | GeoIgnored => "géographie non évaluée"
    end.

(** The timings of the needs that the profile prefers. *)
Definition preferred_found : list string :=
  List.filter (fun t => in_list t (icp_preferred_timings icp)) (map rn_timing (ng_needs needs)).

Definition freshness_points (age : Z) : Z :=
  if age <=? 30 then 10 else if age <=? 60 then 6 else if age <=? 90 then 3 else 0.
Definition timing_points : Z := if list_truthy preferred_found then 5 else 0.

(** [matching/engine.py:551-583 _freshness_component] *)
Definition _freshness_component : result SignalScoreComponent :=
  match ti_published_at (cu_timing cu) with
  | None => Raise TypeError
  | Some published =>
      let age := age_of published in
      score_component "freshness_timing"
        (Z.min FRESHNESS_MAX (freshness_points age + timing_points)) FRESHNESS_MAX
        ("publié il y a " +:+ str_int age +:+ " jours"
         +:+ if negb (timing_points =? 0)
             then " ; timing " +:+ PyStr.join ", " (sorted_set preferred_found) +:+ " recherché"
             else " ; aucun timing préféré établi")
  end.

(** * Explanation and evidence *)

(** [next(c for c in components if c.name == name)] *)
Definition component_named (name : string) (components : list SignalScoreComponent)
  : result SignalScoreComponent :=
  option_to_result (RuntimeError "StopIteration")
    (first_match (fun c => bool_decide (sc_name c = name)) components).

(** [cu.trade_domain.value] *)
Definition trade_domain_value : result string :=
  option_to_result (RuntimeError "AttributeError") (cl_value <$> cu_trade_domain cu).

(** [l.append(x)] under a condition. *)
Definition said (b : bool) (text : string) : list string := if b then [text] else [].

(** [matching/engine.py:587-654 _explain] *)
Definition _explain (components : list SignalScoreComponent) (geo : geography_status)
    (value : value_status) : result (list string * list string) :=
  let! economic := component_named "economic_impact" components in
  let! money :=
    (if negb (sc_points economic =? 0) then
       let! amount := option_to_result (KeyError "amount") (fact "amount") in
       Ok (["marché de " +:+ amount], [])
     else Ok ([], match value with
                  | ValueMissing => ["montant non publié : aucun point économique"]
                  | ValueCurrencyUnsupported =>
                      ["devise sans seuil configuré : aucune comparaison monétaire n'est faite"]
                  | ValueNotMaterial => ["montant non matériel : aucun point économique"]
                  | _ => []
                  end)) in
  let! trade :=
    match _trade_fit with
    | TradeExact => let! domain := trade_domain_value in
                    Ok (["corps de métier ciblé : " +:+ domain], [])
    | TradeCompatible => let! domain := trade_domain_value in
        Ok ([], ["corps de métier « " +:+ domain +:+ " » accepté en second : les intrants de ce marché peuvent passer par un autre canal d'achat"])
    | TradeUnknown =>
        Ok ([], ["le CPV publié ne dit pas le corps de métier : la compatibilité avec l'offre du client n'est pas établie"])
    | _ => Ok ([], [])
    end in
  let! freshness := component_named "freshness_timing" components in
  Ok (said (list_truthy primary_hits)
        ("besoin principal de l'ICP couvert : " +:+ PyStr.join ", " primary_hits)
      ++ said (list_truthy secondary_hits)
           ("besoin secondaire également couvert : " +:+ PyStr.join ", " secondary_hits)
      ++ fst money ++ fst trade
      ++ said (bool_decide (geo = GeoMatch)) "lieu d'exécution dans la zone ciblée"
      ++ said (negb (sc_points freshness =? 0)) (sc_detail freshness),
      said (negb (list_truthy primary_hits))
        "aucun besoin principal ne correspond : le fit repose sur une offre secondaire"
      ++ snd money ++ snd trade
      ++ said (bool_decide (geo = GeoUnknown) && bool_decide (icp_geography_policy icp = "preferred"))
           "localisation absente : la préférence géographique n'a pas joué"
      ++ said (bool_decide (geo = GeoMismatch)) "lieu d'exécution hors de la zone ciblée"
      ++ said (forallb (fun n => bool_decide (rn_timing n = "unknown")) (ng_needs needs))
           "aucune date de début publiée : le timing reste indéterminé"
      ++ ["besoins inférés depuis les métadonnées de l'avis, sans exigence documentaire validée"]).

(** [matching/engine.py:656-671 _evidence] *)
Definition _evidence : list Evidence :=
  let of_claim name := match cu_facts cu !! name with Some c => cl_evidence c | None => [] end in
  by_identity
    (flat_map rn_evidence_refs
       (List.filter (fun n => in_list (rn_category n) matched) (ng_needs needs))
     ++ of_claim "amount" ++ of_claim "cpv" ++ cl_evidence (cu_contract_type cu)).

(** * The match *)

(** [matching/engine.py:122-143 match]: what a blocking filter decides. *)
Definition blocked_match (filters : list HardFilterResult) : result ScoredSignalMatch :=
  let blocked := List.filter (fun h => negb (hf_passed h)) filters in
  let inevaluable := List.filter (fun h => negb (hf_evaluable h)) blocked in
  scored_validate
    (mkScored (cu_award_ref cu) (icp_id icp) as_of
       (if list_truthy inevaluable then "insufficient_data" else "exclude") "excluded" "medium"
       0 0 0 [] filters matched [] (map hf_detail blocked) []
       MATCH_POLICY_VERSION SCORE_POLICY_VERSION).

(** [matching/engine.py:73-216 match] *)
Definition decision_of (normalized : Z) (geo : geography_status) (value : value_status) : string :=
  if (SHOW_THRESHOLD <=? normalized) && list_truthy primary_hits
     && in_list geo [GeoMatch; GeoIgnored] && in_list value [ValueWithin; ValueNoThreshold]
     && in_list _trade_fit [TradeExact; TradeNotConfigured]
  then "show"
  else if BORDERLINE_THRESHOLD <=? normalized then "borderline" else "exclude".

(** [matching/engine.py:73-216 match] *)
Definition band_of (decision : string) (normalized : Z) : string :=
  if bool_decide (decision = "show") then
    if STRONG_BAND <=? normalized then "strong" else "promising"
  else if bool_decide (decision = "borderline") then
    if PROMISING_BAND <=? normalized then "promising" else "weak"
  else "excluded".

(** [matching/engine.py:73-216 match] *)
Definition components_of (geo : geography_status) (value : value_status)
  : result (list SignalScoreComponent) :=
  let! need := _need_component in
  let! economic := _economic_component value in
  let! geography :=
    (if negb (bool_decide (icp_geography_policy icp = "ignored"))
     then let! c := _geography_component geo in Ok [c] else Ok []) in
  let! freshness := _freshness_component in
  Ok ([need; economic] ++ geography ++ [freshness]).

(** [matching/engine.py:145-217 match]: a match whose filters all pass. *)
Definition scored_match (filters : list HardFilterResult) (geo : geography_status)
    (value : value_status) : result ScoredSignalMatch :=
  let! components := components_of geo value in
  let raw := sum (map sc_points components) in
  let ceiling := sum (map sc_maximum_points components) in
  let! normalized := normalized_of raw ceiling in
  let decision := decision_of normalized geo value in
  let! (reasons, limitations) := _explain components geo value in
  let presented := negb (bool_decide (decision = "exclude")) in
  scored_validate
    (mkScored (cu_award_ref cu) (icp_id icp) as_of decision (band_of decision normalized) "medium"
       raw ceiling normalized components filters matched
       (if presented then reasons else []) limitations (if presented then _evidence else [])
       MATCH_POLICY_VERSION SCORE_POLICY_VERSION).

(** [matching/engine.py:73-216 match] *)
Definition match_ : result ScoredSignalMatch :=
  let! source_mode := source_mode_filter in
  let! need_overlap := need_overlap_filter in
  let! trade := _trade_domain_filter in
  let! contract_type := _contract_type_filter in
  let! sector := _sector_filter in
  let! freshness := _freshness_filter in
  let! (geography, geo) := _geography_filter in
  let! (amount, value) := _value_filter in
  let filters := [source_mode; need_overlap; trade; contract_type; sector; freshness; geography;
                  amount] in
  if existsb (fun h => negb (hf_passed h)) filters then blocked_match filters
  else scored_match filters geo value.
End match_.
