(* ===== verification/MatchingFacts.v ===== *)
(** MatchingFacts: the verdict of each filter, the points of each component
    and the exact score. *)

From S2P Require Import Prelude PyStr PyDatetime PyDecimal PyText PyTextFacts PyFloat.
From S2P Require Import Understanding Needs NeedsFacts MatchingModel MatchingEngine.
From Stdlib Require Import Ascii String.
From stdpp Require Import gmap strings list.

Local Open Scope Z_scope.

(** A filter with the verdict and a detail that can be shown. *)
Definition verdict_is (h : HardFilterResult) (passed evaluable : bool) : Prop :=
  hf_passed h = passed /\ hf_evaluable h = evaluable /\ dark_head (hf_detail h) = true.

Lemma hard_filter_ok name passed evaluable detail :
  is_trimmed (chars name) = true -> dark_head detail = true ->
  exists h, hard_filter name passed evaluable detail = Ok h /\ verdict_is h passed evaluable.
Proof.
  intros Hn Hd. unfold hard_filter.
  rewrite NonEmptyStr_trimmed, bind_Ok by by apply is_trimmed_spec.
  destruct (NonEmptyStr_dark_head "detail" detail Hd) as (t & -> & Ht). rewrite bind_Ok.
  by eexists.
Qed.

Lemma score_component_ok name points maximum detail :
  is_trimmed (chars name) = true -> dark_head detail = true -> 0 <= points <= maximum ->
  0 < maximum ->
  exists t, score_component name points maximum detail = Ok (mkComponent name points maximum t)
    /\ dark_head t = true.
Proof.
  intros Hn Hd Hp Hm. unfold score_component.
  rewrite NonEmptyStr_trimmed, bind_Ok by by apply is_trimmed_spec.
  rewrite !checked_id, !bind_Ok by lia.
  destruct (NonEmptyStr_dark_head "detail" detail Hd) as (t & -> & Ht). rewrite bind_Ok.
  replace (points <=? maximum) with true by lia. eauto.
Qed.

(** [hard_filter] and [score_component] at the literals of the source. *)
Ltac settle := apply hard_filter_ok; vm_compute; reflexivity.

Section filters.
Context (cu : ContractUnderstanding) (needs : NeedGraphResult) (icp : TargetICP) (as_of : date).

Lemma source_mode_ok : exists h, source_mode_filter needs icp = Ok h
  /\ verdict_is h (in_list (ng_source_mode needs) (icp_source_modes_allowed icp)) true.
Proof. settle. Qed.

Lemma need_overlap_ok : exists h, need_overlap_filter needs icp = Ok h
  /\ verdict_is h (list_truthy (matched needs icp)) true.
Proof. apply hard_filter_ok; [vm_compute; reflexivity|]. by destruct (list_truthy _). Qed.

Lemma trade_ok : exists h, _trade_domain_filter cu icp = Ok h
  /\ verdict_is h (negb (bool_decide (_trade_fit cu icp = TradeIncompatible))) true.
Proof. apply hard_filter_ok; [vm_compute; reflexivity|]. by destruct (_trade_fit cu icp). Qed.

Lemma contract_type_ok : exists h, _contract_type_filter cu icp = Ok h
  /\ verdict_is h (negb (in_list (cl_value (cu_contract_type cu)) (icp_excluded_contract_types icp)))
       true.
Proof. apply hard_filter_ok; [vm_compute; reflexivity|]. by destruct (in_list _ _). Qed.

(** The sector passes, and can be evaluated. *)
Definition cpv_verdict : bool * bool :=
  if list_truthy (icp_included_cpv_prefixes icp) then
    match cl_value <$> cu_facts cu !! "cpv" with
    | None => (false, false)
    | Some cpv => if nonempty cpv then (existsb (startswith cpv) (icp_included_cpv_prefixes icp), true)
                  else (false, false)
    end
  else (true, true).
Definition sector_excluded : bool :=
  negb (bool_decide (cl_value (cu_sector cu) = "unknown"))
  && in_list (cl_value (cu_sector cu)) (icp_excluded_sectors icp).

Lemma sector_ok : exists h, _sector_filter cu icp = Ok h
  /\ verdict_is h (cpv_verdict.1 && negb sector_excluded) cpv_verdict.2.
Proof.
  unfold _sector_filter, cpv_verdict. fold sector_excluded.
  assert (Hs : exists h, hard_filter "sector" (negb sector_excluded) true
      (if sector_excluded then "secteur " +:+ cl_value (cu_sector cu) +:+ " explicitement exclu"
       else "secteur " +:+ cl_value (cu_sector cu)) = Ok h
      /\ verdict_is h (negb sector_excluded) true).
  { apply hard_filter_ok; [vm_compute; reflexivity|]. by destruct sector_excluded. }
  destruct (list_truthy _); [|exact Hs].
  destruct (cl_value <$> cu_facts cu !! "cpv") as [cpv|]; [|settle].
  destruct (nonempty cpv); simpl negb; cbv iota; [|settle].
  destruct (existsb _ _); simpl negb; cbv iota; [exact Hs | settle].
Qed.

Definition fresh_enough : bool :=
  match ti_published_at (cu_timing cu) with
  | Some p => age_of as_of p <=? icp_maximum_signal_age_days icp
  | None => false
  end.

Lemma freshness_ok : exists h, _freshness_filter cu icp as_of = Ok h
  /\ verdict_is h fresh_enough (truthy (ti_published_at (cu_timing cu))).
Proof.
  unfold _freshness_filter, fresh_enough. destruct (ti_published_at _); [|settle].
  apply hard_filter_ok; [vm_compute; reflexivity | done].
Qed.

(** The place of performance is in a territory of the profile, or does not
    count. *)
Definition place_fits : Prop :=
  icp_geography_policy icp = "ignored" \/ icp_geography_basis icp = "ignore"
  \/ (icp_geography_basis icp ∈ ["place_of_performance"; "either"]
      /\ exists place country, cu_place_of_performance cu = Some place
           /\ loc_country place = Some country /\ country <> EmptyString
           /\ exists t, t ∈ icp_territories icp /\ te_country t = country
                /\ (te_subdivision_code t = None
                    \/ (te_subdivision_code t = loc_subdivision_code place
                        /\ te_subdivision_scheme t = loc_subdivision_scheme place))).

Lemma candidate_place_spec country place : candidate_place cu icp = Some (country, place) <->
  icp_geography_basis icp ∈ ["place_of_performance"; "either"]
  /\ cu_place_of_performance cu = Some place /\ loc_country place = Some country
  /\ country <> EmptyString.
Proof.
  unfold candidate_place. destruct (in_list (icp_geography_basis icp) _) eqn:Eb.
  2: { apply in_list_false in Eb. split; [done | by intros [? _]]. }
  apply in_list_true in Eb. destruct (cu_place_of_performance cu) as [p|].
  2: { split; [done | by intros (_ & ? & _)]. }
  destruct (loc_country p) as [c|] eqn:Ec.
  2: { split; [done | intros (_ & [= ->] & ? & _); congruence]. }
  destruct (nonempty c) eqn:En.
  - split; [intros [= -> ->] | intros (_ & [= ->] & E & _); congruence].
    split_and!; [done..|]. by intros ->.
  - split; [done|]. intros (_ & [= ->] & E & Hne). destruct c; [congruence | done].
Qed.

Lemma whole_country_spec country : in_list country (whole_countries icp) = true <->
  exists t, t ∈ icp_territories icp /\ te_country t = country /\ te_subdivision_code t = None.
Proof.
  unfold whole_countries. rewrite in_list_true, list_elem_of_In, in_map_iff. split.
  - intros (t & <- & H). apply filter_In in H as [H E]. exists t.
    split_and!; [by apply list_elem_of_In | done |]. by destruct (te_subdivision_code t).
  - intros (t & Ht & <- & E). exists t. split; [done|]. rewrite filter_In, E.
    by rewrite <- list_elem_of_In.
Qed.

Lemma wanted_spec country code scheme :
  in_list (country, code, scheme) (wanted_subdivisions icp) = true <->
  exists t, t ∈ icp_territories icp /\ te_country t = country
    /\ te_subdivision_code t = Some code /\ te_subdivision_scheme t = scheme.
Proof.
  unfold wanted_subdivisions. rewrite in_list_true, list_elem_of_omap. split.
  - intros (t & Ht & E). exists t. destruct (te_subdivision_code t); [|done]. by simplify_eq.
  - intros (t & Ht & <- & E & <-). exists t. by rewrite E.
Qed.

Lemma geography_ok : exists h geo, _geography_filter cu icp = Ok (h, geo)
  /\ dark_head (hf_detail h) = true
  /\ (geo ∈ [GeoMatch; GeoIgnored] -> hf_passed h = true)
  /\ (geo ∈ [GeoMatch; GeoIgnored] <-> place_fits).
Proof.
  unfold _geography_filter.
  destruct (bool_decide (icp_geography_policy icp = "ignored")
            || bool_decide (icp_geography_basis icp = "ignore")) eqn:Eig.
  { destruct (hard_filter_ok "geography" true true "géographie non contraignante")
      as (h & -> & Hp & _ & Hd); [done..|]. rewrite bind_Ok. exists h, GeoIgnored.
    split_and!; [done..|]. split; [|set_solver]. intros _. unfold place_fits.
    apply orb_true_iff in Eig as [E|E]; apply bool_decide_eq_true in E; auto. }
  apply orb_false_iff in Eig as [E1 E2]. rewrite !bool_decide_eq_false in E1, E2.
  assert (Hfits : place_fits <-> exists country place, candidate_place cu icp = Some (country, place)
    /\ (in_list country (whole_countries icp) = true
        \/ (exists code, loc_subdivision_code place = Some code
             /\ in_list (country, code, loc_subdivision_scheme place) (wanted_subdivisions icp) = true))).
  { unfold place_fits. split.
    - intros [?|[?|(Hb & place & country & Hp & Hc & Hne & t & Ht & Htc & Hs)]]; try done.
      exists country, place. split; [by apply candidate_place_spec|].
      rewrite whole_country_spec. destruct (te_subdivision_code t) as [code|] eqn:Es.
      + right. destruct Hs as [?|[Hs1 Hs2]]; [done|]. exists code. split; [done|].
        apply wanted_spec. by exists t.
      + left. by exists t.
    - intros (country & place & Hcand & Hm). right; right.
      apply candidate_place_spec in Hcand as (Hb & Hp & Hc & Hne). split; [done|].
      exists place, country. split_and!; [done..|]. destruct Hm as [Hm|(code & Hcode & Hm)].
      + apply whole_country_spec in Hm as (t & Ht & Htc & Hs). exists t. auto.
      + apply wanted_spec in Hm as (t & Ht & Htc & Hs & Hsch). exists t.
        split_and!; [done..|]. right. by rewrite Hs, Hcode. }
  setoid_rewrite Hfits. clear Hfits.
  destruct (candidate_place cu icp) as [[country place]|].
  2: { destruct (hard_filter_ok "geography_missing" (negb (bool_decide (icp_geography_policy icp = "required")))
         (negb (bool_decide (icp_geography_policy icp = "required")))
         "localisation absente pour la base géographique demandée") as (h & -> & _ & _ & Hd); [done..|].
       rewrite bind_Ok. exists h, GeoUnknown. split_and!; [done..| |].
       - set_solver.
       - split; [set_solver | by intros (? & ? & ? & _)]. }
  assert (Hdec : forall found, exists h, hard_filter "geography"
      (found || bool_decide (icp_geography_policy icp = "preferred")) true
      (if found then "lieu d'exécution " +:+ country +:+ " dans la zone ciblée"
       else "lieu d'exécution " +:+ country +:+ " hors zone") = Ok h
      /\ verdict_is h (found || bool_decide (icp_geography_policy icp = "preferred")) true).
  { intros found. apply hard_filter_ok; [vm_compute; reflexivity|]. by destruct found. }
  assert (Hgeo : forall found : bool, (if found then GeoMatch else GeoMismatch)
            ∈ [GeoMatch; GeoIgnored] <-> found = true) by (intros []; set_solver).
  destruct (in_list country (whole_countries icp)) eqn:Ew; simpl negb; cbn [andb].
  { destruct (Hdec true) as (h & -> & Hp & _ & Hd). rewrite bind_Ok. exists h, GeoMatch.
    split_and!; [done..|]. split; [|set_solver]. intros _. exists country, place. auto. }
  destruct (list_truthy (wanted_subdivisions icp)) eqn:El.
  - destruct (loc_subdivision_code place) as [code|] eqn:Ec.
    + destruct (in_list (country, code, _) _) eqn:Ei.
      * destruct (Hdec true) as (h & -> & Hp & _ & Hd). rewrite bind_Ok. exists h, GeoMatch.
        split_and!; [done..|]. split; [|set_solver]. intros _. exists country, place. eauto.
      * destruct (Hdec false) as (h & -> & Hp & _ & Hd). rewrite bind_Ok. exists h, GeoMismatch.
        split_and!; [done | done | set_solver |]. split; [set_solver|].
        intros (? & ? & [= <- <-] & [?|(c & ? & ?)]); simplify_eq; congruence.
    + destruct (hard_filter_ok "geography_subdivision_missing" false false
         "subdivision du lieu d'exécution absente") as (h & -> & _ & _ & Hd); [done..|].
      rewrite bind_Ok. exists h, GeoUnknown. split_and!; [done | done | set_solver |].
      split; [set_solver|]. intros (? & ? & [= <- <-] & [?|(c & ? & ?)]); simplify_eq; congruence.
  - destruct (Hdec false) as (h & -> & Hp & _ & Hd). rewrite bind_Ok. exists h, GeoMismatch.
    split_and!; [done | done | set_solver |]. split; [set_solver|].
    intros (? & ? & [= <- <-] & [?|(c & ? & Hin)]); [congruence|].
    apply list_truthy_false in El. rewrite El in Hin. apply in_list_true in Hin. set_solver.
Qed.

(** The amount is read, material, and inside the threshold of its currency
    when the profile has thresholds. *)
Definition value_fits : Prop :=
  exists amount value currency, cl_value <$> cu_facts cu !! "amount" = Some amount
    /\ read_amount amount = Some (value, currency)
    /\ magnitude_band (Some amount) <> "not_material"
    /\ (icp_value_thresholds icp = []
        \/ exists t, threshold_for icp currency = Some t
             /\ fltb value (vt_minimum_amount t) = false
             /\ forall m, vt_maximum_amount t = Some m -> fltb m value = false).

Lemma value_ok : exists h v, _value_filter cu icp = Ok (h, v)
  /\ dark_head (hf_detail h) = true
  /\ (v ∈ [ValueWithin; ValueNoThreshold] -> hf_passed h = true)
  /\ (v ∈ [ValueWithin; ValueNoThreshold] <-> value_fits).
Proof.
  unfold _value_filter.
  assert (Hout : forall name passed evaluable detail v P,
    is_trimmed (chars name) = true -> dark_head detail = true ->
    (v ∈ [ValueWithin; ValueNoThreshold] -> passed = true) ->
    (v ∈ [ValueWithin; ValueNoThreshold] <-> P) ->
    exists h v', (let! h := hard_filter name passed evaluable detail in Ok (h, v)) = Ok (h, v')
      /\ dark_head (hf_detail h) = true
      /\ (v' ∈ [ValueWithin; ValueNoThreshold] -> hf_passed h = true)
      /\ (v' ∈ [ValueWithin; ValueNoThreshold] <-> P)).
  { intros name passed evaluable detail v P Hn Hd Hpass HP.
    destruct (hard_filter_ok name passed evaluable detail Hn Hd) as (h & -> & Hp & _ & Hd').
    rewrite bind_Ok. exists h, v. rewrite Hp. auto. }
  unfold value_fits.
  destruct (cl_value <$> cu_facts cu !! "amount") as [amount|].
  2: { apply Hout; [done | done | set_solver |]. split; [set_solver | by intros (? & ? & ? & ? & _)]. }
  destruct (read_amount amount) as [[value currency]|] eqn:Er.
  2: { apply Hout; [done | done | done |]. split; [set_solver|].
       intros (? & ? & ? & [= <-] & ? & _). congruence. }
  case_bool_decide as Eb.
  { apply Hout; [done | done | done |]. split; [set_solver|].
    by intros (? & ? & ? & [= <-] & _ & ? & _). }
  destruct (icp_value_thresholds icp) as [|t0 ts] eqn:Et; cbn [list_truthy negb].
  { apply Hout; [done | done | done |]. split; [|set_solver]. intros _.
    exists amount, value, currency. auto. }
  assert (Hne : t0 :: ts <> []) by done.
  destruct (threshold_for icp currency) as [t|] eqn:Eth.
  2: { apply Hout; [done | done | set_solver |]. split; [set_solver|].
       intros (? & ? & ? & [= <-] & ? & _ & [?|(t & ? & _)]); simplify_eq; congruence. }
  destruct (fltb value (vt_minimum_amount t)) eqn:Emin.
  { apply Hout; [done | done | set_solver |]. split; [set_solver|].
    intros (? & ? & ? & [= <-] & ? & _ & [?|(t' & ? & ? & _)]); simplify_eq; congruence. }
  assert (Hgood : (forall m, vt_maximum_amount t = Some m -> fltb m value = false) ->
    (ValueWithin ∈ [ValueWithin; ValueNoThreshold] <-> exists amount0 value0 currency0,
       Some amount = Some amount0 /\ read_amount amount0 = Some (value0, currency0)
       /\ magnitude_band (Some amount0) <> "not_material"
       /\ (t0 :: ts = [] \/ exists t1, threshold_for icp currency0 = Some t1
            /\ fltb value0 (vt_minimum_amount t1) = false
            /\ forall m, vt_maximum_amount t1 = Some m -> fltb m value0 = false))).
  { intros Hm. split; [|set_solver]. intros _. exists amount, value, currency.
    split_and!; [done..|]. right. by exists t. }
  destruct (vt_maximum_amount t) as [maximum|] eqn:Emax.
  - destruct (fltb maximum value) eqn:Eabove.
    + apply Hout; [done | done | set_solver |]. split; [set_solver|].
      intros (? & ? & ? & [= <-] & ? & _ & [?|(t' & ? & _ & Hm)]); simplify_eq.
      apply Hm in Emax. congruence.
    + apply Hout; [done | done | done |]. apply Hgood. by intros m [= <-].
  - apply Hout; [done | done | done |]. by apply Hgood.
Qed.
End filters.

(** * The score *)

Section score.
Context (cu : ContractUnderstanding) (needs : NeedGraphResult) (icp : TargetICP) (as_of : date).

(** The points of the four components. *)
Definition need_points : Z :=
  Z.min NEED_FIT_MAX
    ((if list_truthy (primary_hits needs icp) then PRIMARY_FIT_POINTS else SECONDARY_FIT_POINTS)
     + (if 0 <? zlength (primary_hits needs icp) + zlength (secondary_hits needs icp) - 1
        then SECOND_NEED_BONUS else 0)).
Definition geography_points (geo : geography_status) : Z :=
  if bool_decide (icp_geography_policy icp = "ignored") then 0
  else if bool_decide (geo = GeoMatch) then GEOGRAPHY_MAX else 0.
Definition fresh_points (published : date + datetime) : Z :=
  Z.min FRESHNESS_MAX (freshness_points (age_of as_of published) + timing_points needs icp).

(** The points a match can have, and those it has. *)
Definition ceiling_of : Z := if bool_decide (icp_geography_policy icp = "ignored") then 80 else 100.
Definition raw_of (geo : geography_status) (value : value_status) (published : date + datetime) : Z :=
  need_points + economic_points cu value + geography_points geo + fresh_points published.

Lemma need_points_range : 25 <= need_points <= 45.
Proof.
  unfold need_points, NEED_FIT_MAX, PRIMARY_FIT_POINTS, SECONDARY_FIT_POINTS, SECOND_NEED_BONUS.
  destruct (list_truthy _), (0 <? _); lia.
Qed.

Lemma economic_points_range value : 0 <= economic_points cu value <= 20.
Proof.
  unfold economic_points. destruct (in_list value _); [lia|]. unfold assoc_get. simpl.
  repeat (case_bool_decide; simpl; [lia|]). lia.
Qed.

Lemma timing_points_range : 0 <= timing_points needs icp <= 5.
Proof. unfold timing_points. destruct (list_truthy _); lia. Qed.

Lemma fresh_points_range published : 0 <= fresh_points published <= 15.
Proof.
  unfold fresh_points, FRESHNESS_MAX, freshness_points. pose proof timing_points_range.
  repeat match goal with |- context [if ?b then _ else _] => destruct b end; lia.
Qed.

Lemma geography_points_range geo :
  0 <= geography_points geo
  /\ geography_points geo + 80 <= ceiling_of /\ 80 <= ceiling_of <= 100.
Proof.
  unfold geography_points, ceiling_of, GEOGRAPHY_MAX.
  destruct (bool_decide (icp_geography_policy icp = "ignored")), (bool_decide (geo = GeoMatch)); lia.
Qed.

Lemma raw_range geo value published : 25 <= raw_of geo value published <= ceiling_of.
Proof.
  unfold raw_of. pose proof need_points_range. pose proof (economic_points_range value).
  pose proof (fresh_points_range published). pose proof (geography_points_range geo). lia.
Qed.

(** The float computation gives the exact percentage, rounded half to
    even. *)
Lemma percentage_exact raw ceiling : ceiling = 80 \/ ceiling = 100 -> 0 <= raw <= ceiling ->
  percentage raw ceiling = Ok (div_half_even (100 * raw) ceiling)
  /\ 0 <= div_half_even (100 * raw) ceiling <= 100.
Proof.
  intros Hc Hr.
  assert (H : forallb (fun c => forallb (fun r =>
      match percentage r c with
      | Ok n => (n =? div_half_even (100 * r) c) && (0 <=? n) && (n <=? 100)
      | Raise _ => false
      end) (seqZ 0 (c + 1))) [80; 100] = true) by (vm_compute; reflexivity).
  rewrite forallb_forall in H. specialize (H ceiling ltac:(destruct Hc as [-> | ->]; simpl; auto)).
  rewrite forallb_forall in H.
  specialize (H raw ltac:(apply list_elem_of_In, elem_of_seqZ; lia)).
  destruct (percentage raw ceiling) as [n|]; [|done].
  apply andb_true_iff in H as [H ?]. apply andb_true_iff in H as [H ?].
  apply Z.eqb_eq in H. subst n. split; [done | lia].
Qed.

Lemma ceiling_cases : ceiling_of = 80 \/ ceiling_of = 100.
Proof. unfold ceiling_of. destruct (bool_decide _); auto. Qed.

Definition score_of (geo : geography_status) (value : value_status) (published : date + datetime) : Z :=
  div_half_even (100 * raw_of geo value published) ceiling_of.

Lemma normalized_ok geo value published :
  normalized_of (raw_of geo value published) ceiling_of = Ok (score_of geo value published)
  /\ 0 <= score_of geo value published <= 100.
Proof.
  pose proof (raw_range geo value published) as Hr. pose proof ceiling_cases as Hc.
  unfold normalized_of. replace (ceiling_of =? 0) with false by (destruct Hc; lia).
  apply percentage_exact; [done | lia].
Qed.

Lemma components_ok geo value published :
  ti_published_at (cu_timing cu) = Some published ->
  exists components economic fresh, components_of cu needs icp as_of geo value = Ok components
    /\ sum (map sc_points components) = raw_of geo value published
    /\ sum (map sc_maximum_points components) = ceiling_of
    /\ component_named "economic_impact" components = Ok economic
    /\ sc_points economic = economic_points cu value
    /\ component_named "freshness_timing" components = Ok fresh
    /\ dark_head (sc_detail fresh) = true /\ components <> [].
Proof.
  intros Hp. unfold components_of, _need_component, _economic_component, _geography_component,
    _freshness_component. rewrite Hp.
  pose proof need_points_range as Hn. pose proof (economic_points_range value) as He.
  pose proof (fresh_points_range published) as Hf.
  match goal with |- context [score_component "need_offer_fit" ?p ?m ?d] =>
    destruct (score_component_ok "need_offer_fit" p m d) as (d1 & -> & _);
      [done | by destruct (list_truthy _) | unfold need_points, NEED_FIT_MAX in *; lia | done |] end.
  rewrite bind_Ok. fold need_points.
  match goal with |- context [score_component "economic_impact" ?p ?m ?d] =>
    destruct (score_component_ok "economic_impact" p m d) as (d2 & -> & _);
      [done | by destruct (negb _) | unfold ECONOMIC_MAX; lia | done |] end.
  rewrite bind_Ok.
  match goal with |- context [score_component "freshness_timing" ?p ?m ?d] =>
    destruct (score_component_ok "freshness_timing" p m d) as (d4 & -> & Hd4);
      [done | done | unfold fresh_points, FRESHNESS_MAX in *; lia | done |] end.
  fold (fresh_points published). unfold raw_of, geography_points, ceiling_of.
  destruct (bool_decide (icp_geography_policy icp = "ignored")); cbn [negb].
  - rewrite !bind_Ok. eexists _, _, _. split; [reflexivity|]. simpl.
    unfold NEED_FIT_MAX, ECONOMIC_MAX, FRESHNESS_MAX.
    split_and!; try done; lia.
  - match goal with |- context [score_component "geography" ?p ?m ?d] =>
      destruct (score_component_ok "geography" p m d) as (d3 & -> & _);
        [done | by destruct geo | unfold GEOGRAPHY_MAX; destruct (bool_decide _); lia | done |] end.
    rewrite !bind_Ok. eexists _, _, _. split; [reflexivity|]. simpl.
    unfold NEED_FIT_MAX, ECONOMIC_MAX, FRESHNESS_MAX, GEOGRAPHY_MAX.
    split_and!; try done; lia.
Qed.
End score.
