(* ===== verification/MatchingTheorems.v ===== *)
(** MatchingTheorems: the properties of the matching.

    When a signal is shown, why a failed filter is final, what the score is,
    and that a match is always produced. *)

From S2P Require Import Prelude PyStr PyDatetime PyDecimal PyText PyTextFacts PyFloat.
From S2P Require Import Understanding Needs NeedsFacts NeedsTheorems MatchingModel.
From S2P Require Import MatchingEngine MatchingFacts.
From Stdlib Require Import Ascii String.
From stdpp Require Import gmap strings list.

Local Open Scope Z_scope.

(** * Valid profiles *)

(** What the validation of a profile leaves the engine with. *)
Record profile_ok (icp : TargetICP) : Prop := {
  po_id : NonEmptyStr "icp_id" (icp_id icp) = Ok (icp_id icp);
  po_primary : Forall (fun c => c ∈ NeedCategory) (icp_primary_need_categories icp);
  po_secondary : Forall (fun c => c ∈ NeedCategory) (icp_secondary_need_categories icp);
  po_trades : "unknown_or_general"
    ∉ icp_primary_trade_domains icp ++ icp_secondary_trade_domains icp;
  po_apart : forall c, c ∈ icp_primary_need_categories icp ->
    c ∉ icp_secondary_need_categories icp;
  po_source : icp_source_modes_allowed icp <> [];
}.

Lemma literals_Ok field values l l' : literals field values l = Ok l' ->
  l' = l /\ Forall (fun x => x ∈ values) l.
Proof.
  unfold literals, literal. intros H. apply mapM_result_Ok in H.
  induction H as [|x y l l' Hx _ [-> IH]]; [done|]. apply checked_Ok in Hx as [Hx ->].
  split; [done|]. constructor; [by apply in_list_true | done].
Qed.

Lemma icp_validate_ok p icp : icp_validate p = Ok icp -> profile_ok icp.
Proof.
  unfold icp_validate. intros H.
  repeat match goal with
  | H : result_bind _ _ = Ok _ |- _ =>
      let Hv := fresh "Hv" in apply result_bind_Ok in H as (? & Hv & H)
  end.
  repeat match goal with Hv : literals _ _ _ = Ok _ |- _ => apply literals_Ok in Hv as [-> ?] end.
  unfold _un_profil_coherent in H.
  cbn [icp_primary_need_categories icp_secondary_need_categories icp_primary_trade_domains
       icp_secondary_trade_domains icp_included_contract_types icp_excluded_contract_types
       icp_included_sectors icp_excluded_sectors icp_geography_basis icp_geography_policy
       icp_territories icp_value_thresholds icp_source_modes_allowed] in H.
  repeat match goal with
  | H : (if ?b then _ else Raise _) = Ok _ |- _ => let E := fresh "E" in destruct b eqn:E; [|discriminate H]
  end.
  injection H as <-. constructor; cbn [icp_id icp_primary_need_categories
    icp_secondary_need_categories icp_primary_trade_domains icp_secondary_trade_domains
    icp_source_modes_allowed]; try done.
  - by eapply NonEmptyStr_idem.
  - apply negb_true_iff in E2. by apply in_list_false.
  - intros c Hc. unfold disjoint_lists in E0. rewrite forallb_forall in E0.
    apply list_elem_of_In in Hc. specialize (E0 c Hc). apply negb_true_iff in E0.
    by apply in_list_false.
  - by apply list_truthy_true.
Qed.

Section match_.
Context (cu : ContractUnderstanding) (needs : NeedGraphResult) (icp : TargetICP) (as_of : date).

(** * Explanation and evidence *)

Lemma elem_of_hits categories c :
  c ∈ hits needs categories <-> c ∈ categories /\ c ∈ produced needs.
Proof.
  unfold hits. rewrite !list_elem_of_In, filter_In, <- !list_elem_of_In. by rewrite in_list_true.
Qed.

Lemma trade_domain_known : profile_ok icp ->
  in_list (_trade_fit cu icp) [TradeExact; TradeCompatible] = true ->
  exists domain, trade_domain_value cu = Ok domain.
Proof.
  intros Hicp H. apply in_list_true in H. unfold trade_domain_value. unfold _trade_fit, trade_domain_of in H.
  destruct (cu_trade_domain cu) as [c|]; simpl; [eauto|]. exfalso.
  pose proof (po_trades icp Hicp) as Hn. rewrite elem_of_app in Hn.
  destruct (list_truthy _); simpl in H; [|set_solver].
  destruct (in_list _ (icp_primary_trade_domains icp)) eqn:E1; [apply in_list_true in E1; tauto|].
  destruct (in_list _ (icp_secondary_trade_domains icp)) eqn:E2; [apply in_list_true in E2; tauto|].
  simpl in H. set_solver.
Qed.

Lemma said_dark b text : dark_head text = true -> Forall (fun s => dark_head s = true) (said b text).
Proof. intros H. destruct b; simpl; by constructor. Qed.

Lemma explain_ok components economic fresh geo value :
  profile_ok icp ->
  component_named "economic_impact" components = Ok economic ->
  sc_points economic = economic_points cu value ->
  component_named "freshness_timing" components = Ok fresh -> dark_head (sc_detail fresh) = true ->
  exists reasons limitations, _explain cu needs icp components geo value = Ok (reasons, limitations)
    /\ Forall (fun s => dark_head s = true) reasons
    /\ Forall (fun s => dark_head s = true) limitations
    /\ (matched needs icp <> [] -> reasons <> []).
Proof.
  intros Hicp He Hep Hf Hfd. unfold _explain. rewrite He, bind_Ok.
  assert (Hmoney : exists r l, (if negb (sc_points economic =? 0)
      then let! amount := option_to_result (KeyError "amount") (cl_value <$> cu_facts cu !! "amount") in
           Ok (["marché de " +:+ amount], [])
      else Ok ([], match value with
                   | ValueMissing => ["montant non publié : aucun point économique"]
                   | ValueCurrencyUnsupported =>
                       ["devise sans seuil configuré : aucune comparaison monétaire n'est faite"]
                   | ValueNotMaterial => ["montant non matériel : aucun point économique"]
                   | _ => []
                   end)) = Ok (r, l)
    /\ Forall (fun s => dark_head s = true) r /\ Forall (fun s => dark_head s = true) l).
  { destruct (sc_points economic =? 0) eqn:Ez; simpl negb; cbv iota.
    - eexists _, _. split; [reflexivity|]. split; [constructor|]. destruct value; repeat constructor.
    - destruct (cl_value <$> cu_facts cu !! "amount") as [amount|] eqn:Ea.
      + simpl. eexists _, _. split; [reflexivity|]. split; repeat constructor.
      + exfalso. rewrite Hep in Ez. unfold economic_points in Ez. rewrite Ea in Ez.
        destruct (in_list value _); simpl in Ez; discriminate Ez. }
  destruct Hmoney as (r1 & l1 & -> & Hr1 & Hl1). rewrite bind_Ok.
  assert (Htrade : exists r l, match _trade_fit cu icp with
    | TradeExact => let! domain := trade_domain_value cu in
                    Ok (["corps de métier ciblé : " +:+ domain], [])
    | TradeCompatible => let! domain := trade_domain_value cu in
        Ok ([], ["corps de métier « " +:+ domain +:+ " » accepté en second : les intrants de ce marché peuvent passer par un autre canal d'achat"])
    | TradeUnknown =>
        Ok ([], ["le CPV publié ne dit pas le corps de métier : la compatibilité avec l'offre du client n'est pas établie"])
    | _ => Ok ([], [])
    end = Ok (r, l)
    /\ Forall (fun s => dark_head s = true) r /\ Forall (fun s => dark_head s = true) l).
  { destruct (_trade_fit cu icp) eqn:Et;
      try (destruct (trade_domain_known Hicp) as [d ->]; [by rewrite Et | simpl]);
      eexists _, _; (split; [reflexivity | split; repeat constructor]). }
  destruct Htrade as (r2 & l2 & -> & Hr2 & Hl2). rewrite bind_Ok, Hf, bind_Ok.
  eexists _, _. split; [reflexivity|]. split_and!.
  - repeat apply Forall_app_2; try done; by apply said_dark.
  - repeat apply Forall_app_2; try done; first [by apply said_dark | by repeat constructor].
  - intros Hm. unfold matched in Hm.
    destruct (primary_hits needs icp); [|done]. destruct (secondary_hits needs icp); done.
Qed.

Lemma match_evidence_nonempty : (forall n, n ∈ ng_needs needs -> rn_evidence_refs n <> []) ->
  matched needs icp <> [] -> _evidence cu needs icp <> [].
Proof.
  intros Hev Hm. unfold _evidence. rewrite by_identity_nil. intros E.
  apply app_eq_nil in E as [E _]. destruct (matched needs icp) as [|c l] eqn:Em; [done|].
  assert (Hc : c ∈ produced needs).
  { assert (Hin : c ∈ matched needs icp) by (rewrite Em; set_solver).
    unfold matched, primary_hits, secondary_hits in Hin. rewrite elem_of_app, !elem_of_hits in Hin.
    tauto. }
  unfold produced in Hc. apply list_elem_of_fmap in Hc as (n & -> & Hn).
  specialize (Hev n Hn). destruct (rn_evidence_refs n) as [|e es] eqn:Ee; [done|].
  apply (not_elem_of_nil e). rewrite <- E. apply elem_of_flat. exists n. split; [|rewrite Ee; set_solver].
  apply list_elem_of_In, filter_In. split; [by apply list_elem_of_In|].
  apply in_list_true. set_solver.
Qed.
End match_.

(** * The match *)

(** ** Validation of the result *)

Lemma kept_texts field l : Forall (fun s => dark_head s = true) l ->
  exists l', mapM_result (NonEmptyStr field) l = Ok l' /\ length l' = length l.
Proof.
  intros H. destruct (mapM_all (NonEmptyStr field) l) as [l' Hl].
  { intros s Hs. rewrite Forall_forall in H. destruct (NonEmptyStr_dark_head field s (H s Hs)) as (t & Ht & _).
    eauto. }
  exists l'. split; [done|]. apply mapM_result_Ok, Forall2_length in Hl. done.
Qed.

Lemma literals_ok field values l : Forall (fun x => x ∈ values) l -> literals field values l = Ok l.
Proof.
  intros H. apply mapM_result_id. eapply Forall_impl; [exact H|]. intros x Hx.
  apply checked_id. by apply in_list_true.
Qed.

Lemma versions_kept :
  NonEmptyStr "match_policy_version" MATCH_POLICY_VERSION = Ok MATCH_POLICY_VERSION
  /\ NonEmptyStr "score_policy_version" SCORE_POLICY_VERSION = Ok SCORE_POLICY_VERSION.
Proof. split; vm_compute; reflexivity. Qed.

Lemma scored_validate_eq ref id as_of decision band raw ceiling normalized components filters
    found reasons limitations evidence :
  NonEmptyStr "icp_id" id = Ok id -> in_list decision MatchDecision = true ->
  in_list band ScoreBand = true -> 0 <= raw -> 0 <= ceiling -> 0 <= normalized <= 100 ->
  Forall (fun c => c ∈ NeedCategory) found ->
  Forall (fun s => dark_head s = true) reasons ->
  Forall (fun s => dark_head s = true) limitations ->
  exists reasons' limitations', length reasons' = length reasons /\
    scored_validate
      (mkScored ref id as_of decision band "medium" raw ceiling normalized components filters found
         reasons limitations evidence MATCH_POLICY_VERSION SCORE_POLICY_VERSION)
    = _un_score_se_justifie
        (mkScored ref id as_of decision band "medium" raw ceiling normalized components filters found
           reasons' limitations' evidence MATCH_POLICY_VERSION SCORE_POLICY_VERSION).
Proof.
  intros Hid Hd Hb Hr Hc Hn Hf Hre Hli.
  destruct (kept_texts "positive_reasons" reasons Hre) as (r & Er & Hlr).
  destruct (kept_texts "limitations" limitations Hli) as (l & El & _).
  destruct versions_kept as [Em Es].
  exists r, l. split; [done|]. unfold scored_validate, literal.
  cbn [sm_icp_id sm_decision sm_band sm_confidence sm_raw_points sm_maximum_applicable_points
    sm_normalized_score sm_matched_needs sm_positive_reasons sm_limitations sm_match_policy_version
    sm_score_policy_version sm_award_ref sm_as_of sm_score_components sm_hard_filter_results
    sm_evidence_refs].
  rewrite Hid, bind_Ok, (checked_id "decision"), bind_Ok by done.
  rewrite (checked_id "band"), bind_Ok by done.
  rewrite (checked_id "confidence"), bind_Ok by (vm_compute; reflexivity).
  rewrite (checked_id "raw_points"), bind_Ok by lia.
  rewrite (checked_id "maximum_applicable_points"), bind_Ok by lia.
  rewrite (checked_id "normalized_score"), bind_Ok by lia.
  rewrite literals_ok, bind_Ok by done.
  by rewrite Er, bind_Ok, El, bind_Ok, Em, bind_Ok, Es, bind_Ok.
Qed.

Section outcome.
Context (cu : ContractUnderstanding) (needs : NeedGraphResult) (icp : TargetICP) (as_of : date).

(** The eight filters have a verdict, and the match follows from them. *)
Lemma match_cases : exists filters geo value,
  match_ cu needs icp as_of
  = (if existsb (fun h => negb (hf_passed h)) filters then blocked_match cu needs icp as_of filters
     else scored_match cu needs icp as_of filters geo value)
  /\ Forall (fun h => dark_head (hf_detail h) = true) filters
  /\ (geo ∈ [GeoMatch; GeoIgnored] <-> place_fits cu icp)
  /\ (value ∈ [ValueWithin; ValueNoThreshold] <-> value_fits cu icp)
  /\ (existsb (fun h => negb (hf_passed h)) filters = false ->
       ng_source_mode needs ∈ icp_source_modes_allowed icp
       /\ matched needs icp <> []
       /\ cl_value (cu_contract_type cu) ∉ icp_excluded_contract_types icp
       /\ (cpv_verdict cu icp).1 = true /\ sector_excluded cu icp = false
       /\ fresh_enough cu icp as_of = true)
  /\ (ng_source_mode needs ∈ icp_source_modes_allowed icp ->
      matched needs icp <> [] ->
      _trade_fit cu icp <> TradeIncompatible ->
      cl_value (cu_contract_type cu) ∉ icp_excluded_contract_types icp ->
      (cpv_verdict cu icp).1 = true -> sector_excluded cu icp = false ->
      fresh_enough cu icp as_of = true ->
      geo ∈ [GeoMatch; GeoIgnored] -> value ∈ [ValueWithin; ValueNoThreshold] ->
      existsb (fun h => negb (hf_passed h)) filters = false).
Proof.
  destruct (source_mode_ok needs icp) as (h1 & E1 & P1 & _ & D1).
  destruct (need_overlap_ok needs icp) as (h2 & E2 & P2 & _ & D2).
  destruct (trade_ok cu icp) as (h3 & E3 & P3 & _ & D3).
  destruct (contract_type_ok cu icp) as (h4 & E4 & P4 & _ & D4).
  destruct (sector_ok cu icp) as (h5 & E5 & P5 & _ & D5).
  destruct (freshness_ok cu icp as_of) as (h6 & E6 & P6 & _ & D6).
  destruct (geography_ok cu icp) as (h7 & geo & E7 & D7 & P7 & G7).
  destruct (value_ok cu icp) as (h8 & value & E8 & D8 & P8 & G8).
  exists [h1; h2; h3; h4; h5; h6; h7; h8], geo, value. split_and!.
  - unfold match_. rewrite E1, E2, E3, E4, E5, E6, E7, E8. by rewrite !bind_Ok.
  - by repeat constructor.
  - done.
  - done.
  - simpl. rewrite P1, P2, P4, P5, P6. intros H.
    repeat match goal with H : _ || _ = false |- _ => apply orb_false_iff in H as [? H] end.
    repeat match goal with H : negb _ = false |- _ => apply negb_false_iff in H end.
    repeat match goal with H : _ && _ = true |- _ => apply andb_true_iff in H as [? ?] end.
    repeat match goal with H : negb _ = true |- _ => apply negb_true_iff in H end.
    split_and!; try done.
    + by apply in_list_true.
    + by apply list_truthy_true.
    + by apply in_list_false.
  - intros H1 H2 H3 H4 H5 H6 H7 H8 H9. simpl.
    rewrite P1, P2, P3, P4, P5, P6, P7, P8 by done.
    rewrite (proj2 (in_list_true _ _) H1), (proj2 (list_truthy_true _) H2),
      (bool_decide_false _ H3), (proj2 (in_list_false _ _) H4), H5, H6, H7. done.
Qed.

(** What a match whose filters pass reports. *)
Record scored_as (filters : list HardFilterResult) (geo : geography_status) (value : value_status)
    (published : date + datetime) (m : ScoredSignalMatch) : Prop := {
  sa_score : sm_normalized_score m = score_of cu needs icp as_of geo value published;
  sa_raw : sm_raw_points m = raw_of cu needs icp as_of geo value published;
  sa_ceiling : sm_maximum_applicable_points m = ceiling_of icp;
  sa_decision : sm_decision m = decision_of cu needs icp (sm_normalized_score m) geo value;
  sa_band : sm_band m = band_of (sm_decision m) (sm_normalized_score m);
  sa_filters : sm_hard_filter_results m = filters;
  sa_sum : sm_raw_points m = sum (map sc_points (sm_score_components m));
  sa_components : sm_score_components m <> [];
  sa_reasons : if bool_decide (sm_decision m = "exclude")
    then sm_positive_reasons m = [] /\ sm_evidence_refs m = []
    else sm_positive_reasons m <> [] /\ sm_evidence_refs m <> [];
}.

Lemma decision_cases normalized geo value :
  decision_of cu needs icp normalized geo value = "show"
  \/ decision_of cu needs icp normalized geo value = "borderline"
  \/ decision_of cu needs icp normalized geo value = "exclude".
Proof. unfold decision_of. destruct (_ && _); [auto|]. destruct (_ <=? _); auto. Qed.

Lemma matched_categories : profile_ok icp -> Forall (fun c => c ∈ NeedCategory) (matched needs icp).
Proof.
  intros H. apply Forall_forall. intros c Hc. unfold matched, primary_hits, secondary_hits in Hc.
  rewrite elem_of_app, !elem_of_hits in Hc.
  pose proof (po_primary icp H) as H1. pose proof (po_secondary icp H) as H2.
  rewrite Forall_forall in H1, H2. destruct Hc as [[Hc _]|[Hc _]]; auto.
Qed.

Lemma scored_ok filters geo value published : profile_ok icp ->
  (forall n, n ∈ ng_needs needs -> rn_evidence_refs n <> []) -> matched needs icp <> [] ->
  ti_published_at (cu_timing cu) = Some published ->
  exists m, scored_match cu needs icp as_of filters geo value = Ok m
    /\ scored_as filters geo value published m.
Proof.
  intros Hicp Hev Hm Hp. unfold scored_match.
  destruct (components_ok cu needs icp as_of geo value published Hp)
    as (components & economic & fresh & -> & Hraw & Hceil & He & Hep & Hf & Hfd & Hne).
  destruct (explain_ok cu needs icp components economic fresh geo value Hicp He Hep Hf Hfd)
    as (reasons & limitations & Ex & Hre & Hli & Hrne).
  destruct (normalized_ok cu needs icp as_of geo value published) as [Hn Hn'].
  pose proof (raw_range cu needs icp as_of geo value published) as Hrr.
  rewrite bind_Ok, Hraw, Hceil, Hn, bind_Ok, Ex, bind_Ok.
  set (score := score_of cu needs icp as_of geo value published) in *.
  set (decision := decision_of cu needs icp score geo value).
  destruct (scored_validate_eq (cu_award_ref cu) (icp_id icp) as_of decision (band_of decision score)
      (raw_of cu needs icp as_of geo value published) (ceiling_of icp) score components filters
      (matched needs icp) (if negb (bool_decide (decision = "exclude")) then reasons else [])
      limitations (if negb (bool_decide (decision = "exclude")) then _evidence cu needs icp else []))
    as (r & l & Hlen & ->).
  - apply (po_id icp Hicp).
  - destruct (decision_cases score geo value) as [E|[E|E]]; fold decision in E; rewrite E;
      vm_compute; reflexivity.
  - unfold band_of. repeat match goal with |- context [if ?b then _ else _] => destruct b end;
      vm_compute; reflexivity.
  - lia.
  - lia.
  - done.
  - by apply matched_categories.
  - destruct (negb _); [done | constructor].
  - done.
  - unfold _un_score_se_justifie.
    cbn [sm_score_components sm_raw_points sm_maximum_applicable_points sm_normalized_score
      sm_decision sm_positive_reasons sm_evidence_refs sm_matched_needs sm_band].
    rewrite Hraw, Hceil, !Z.eqb_refl, Hn, bind_Ok, Z.eqb_refl.
    assert (Hc : list_truthy components = true) by by apply list_truthy_true.
    assert (Hmm : list_truthy (matched needs icp) = true) by by apply list_truthy_true.
    rewrite Hc, Hmm, !orb_true_r.
    set (evidence := if negb (bool_decide (decision = "exclude")) then _evidence cu needs icp else []).
    assert (Hpres : if bool_decide (decision = "exclude") then r = [] /\ evidence = []
      else r <> [] /\ evidence <> []).
    { unfold evidence. destruct (bool_decide _); simpl negb in *; cbv iota in *.
      - by destruct r.
      - split; [|by apply match_evidence_nonempty]. intros ->. specialize (Hrne Hm). by destruct reasons. }
    assert (Hshown : negb (in_list decision ["show"; "borderline"]) || list_truthy r = true
      /\ negb (in_list decision ["show"; "borderline"]) || list_truthy evidence = true).
    { case_bool_decide as Ed; [by rewrite Ed|]. destruct Hpres as [H1 H2].
      split; apply orb_true_iff; right; by apply list_truthy_true. }
    destruct Hshown as [-> ->].
    assert (Hband : (if bool_decide (decision = "show")
                     then in_list (band_of decision score) ["strong"; "promising"]
                     else if bool_decide (decision = "borderline")
                     then in_list (band_of decision score) ["promising"; "weak"]
                     else bool_decide (band_of decision score = "excluded")) = true).
    { unfold band_of. destruct (bool_decide (decision = "show")), (bool_decide (decision = "borderline"));
        repeat match goal with |- context [if ?b then _ else _] => destruct b end; reflexivity. }
    rewrite Hband. eexists. split; [reflexivity|]. constructor; done.
Qed.

(** What a match that a filter blocks reports. *)
Record blocked_as (m : ScoredSignalMatch) : Prop := {
  ba_decision : sm_decision m
    = (if existsb (fun h => negb (hf_passed h) && negb (hf_evaluable h)) (sm_hard_filter_results m)
       then "insufficient_data" else "exclude");
  ba_band : sm_band m = "excluded";
  ba_points : sm_normalized_score m = 0 /\ sm_raw_points m = 0 /\ sm_maximum_applicable_points m = 0
    /\ sm_score_components m = [];
  ba_silent : sm_positive_reasons m = [] /\ sm_evidence_refs m = [];
}.

Lemma blocked_ok filters : profile_ok icp ->
  Forall (fun h => dark_head (hf_detail h) = true) filters ->
  exists m, blocked_match cu needs icp as_of filters = Ok m
    /\ sm_hard_filter_results m = filters /\ blocked_as m.
Proof.
  intros Hicp Hd. unfold blocked_match.
  set (blocked := List.filter (fun h => negb (hf_passed h)) filters).
  assert (Hin : list_truthy (List.filter (fun h => negb (hf_evaluable h)) blocked)
    = existsb (fun h => negb (hf_passed h) && negb (hf_evaluable h)) filters).
  { rewrite filter_truthy. unfold blocked. clear. induction filters as [|h l IH]; simpl; [done|].
    destruct (hf_passed h); simpl; by rewrite IH. }
  rewrite Hin. set (decision := if existsb _ filters then _ else _).
  assert (Hdec : decision = "insufficient_data" \/ decision = "exclude")
    by (unfold decision; destruct (existsb _ _); auto).
  destruct (scored_validate_eq (cu_award_ref cu) (icp_id icp) as_of decision "excluded"
      0 0 0 [] filters (matched needs icp) [] (map hf_detail blocked) []) as (r & l & Hlen & ->).
  - apply (po_id icp Hicp).
  - by destruct Hdec as [-> | ->].
  - done.
  - done.
  - done.
  - lia.
  - by apply matched_categories.
  - constructor.
  - apply Forall_map. apply Forall_forall. intros h Hh. rewrite Forall_forall in Hd. apply Hd.
    apply list_elem_of_In, filter_In in Hh as [Hh _]. by apply list_elem_of_In.
  - destruct r; [|done].
    assert (Hval : decision = if existsb (fun h => negb (hf_passed h) && negb (hf_evaluable h)) filters
      then "insufficient_data" else "exclude") by done.
    clearbody decision. exists (mkScored (cu_award_ref cu) (icp_id icp) as_of decision "excluded" "medium" 0 0 0 []
      filters (matched needs icp) [] l [] MATCH_POLICY_VERSION SCORE_POLICY_VERSION).
    split; [by destruct Hdec as [-> | ->] | split; [done | constructor; done]].
Qed.
End outcome.

(** ** The two outcomes of a match *)

Lemma derived_evidence `{UnicodeData} cu g : derive RULE_LIBRARY cu = Ok g ->
  forall n, n ∈ ng_needs g -> rn_evidence_refs n <> [].
Proof.
  intros Hg n Hn. destruct (extract_features cu) as [f|] eqn:Hf.
  2: { unfold derive in Hg. rewrite Hf in Hg. discriminate. }
  destruct (derive_Ok _ cu f g library_ok Hf Hg) as (items & order & _ & _ & _ & Hns & _).
  apply list_elem_of_lookup in Hn as [i Hi].
  destruct (Forall2_lookup_r _ _ _ _ _ Hns Hi) as (category & _ & Hspec). apply Hspec.
Qed.

Section verdict.
Context `{UnicodeData} (p icp : TargetICP) (cu : ContractUnderstanding) (needs : NeedGraphResult)
  (as_of : date).
Context (derived : derive RULE_LIBRARY cu = Ok needs) (valid : icp_validate p = Ok icp).

Definition any_failed (m : ScoredSignalMatch) : bool :=
  existsb (fun h => negb (hf_passed h)) (sm_hard_filter_results m).

Lemma none_failed m : any_failed m = false <->
  Forall (fun h => hf_passed h = true) (sm_hard_filter_results m).
Proof.
  unfold any_failed. induction (sm_hard_filter_results m) as [|h l IH]; simpl; [by split|].
  by rewrite Forall_cons, <- IH, orb_false_iff, negb_false_iff.
Qed.

(** The conditions of the filters that do not depend on the place nor on the
    amount. *)
Definition filters_let_through : Prop :=
  ng_source_mode needs ∈ icp_source_modes_allowed icp
  /\ matched needs icp <> []
  /\ cl_value (cu_contract_type cu) ∉ icp_excluded_contract_types icp
  /\ (cpv_verdict cu icp).1 = true /\ sector_excluded cu icp = false
  /\ fresh_enough cu icp as_of = true.

(** A match is produced: blocked by a filter, or scored. *)
Lemma match_spec : exists m geo value, match_ cu needs icp as_of = Ok m
  /\ (geo ∈ [GeoMatch; GeoIgnored] <-> place_fits cu icp)
  /\ (value ∈ [ValueWithin; ValueNoThreshold] <-> value_fits cu icp)
  /\ (any_failed m = false -> filters_let_through)
  /\ (filters_let_through -> _trade_fit cu icp <> TradeIncompatible ->
      place_fits cu icp -> value_fits cu icp -> any_failed m = false)
  /\ if any_failed m then blocked_as m
     else exists published,
            scored_as cu needs icp as_of (sm_hard_filter_results m) geo value published m.
Proof.
  pose proof (icp_validate_ok p icp valid) as Hicp.
  pose proof (derived_evidence cu needs derived) as Hev.
  destruct (match_cases cu needs icp as_of) as (filters & geo & value & Hm & Hd & Hg & Hv & Hpass & Hall).
  destruct (existsb (fun h => negb (hf_passed h)) filters) eqn:Ef; cbv iota in Hm; rewrite Hm; clear Hm.
  - destruct (blocked_ok cu needs icp as_of filters Hicp Hd) as (m & Em & <- & Hb).
    exists m, geo, value. unfold any_failed. rewrite Ef. split_and!; try done.
    intros (? & ? & ? & ? & ? & ?) ? ? ?. apply Hall; tauto.
  - specialize (Hpass eq_refl). destruct Hpass as (H1 & Hma & H2 & H3 & H4 & Hfr).
    unfold fresh_enough in Hfr. destruct (ti_published_at (cu_timing cu)) as [published|] eqn:Ep; [|done].
    destruct (scored_ok cu needs icp as_of filters geo value published Hicp Hev Hma Ep) as (m & Em & Hs).
    pose proof (sa_filters _ _ _ _ _ _ _ _ _ Hs) as Efi. subst filters.
    exists m, geo, value. unfold any_failed. rewrite Ef. split_and!; try done; [|eauto].
    intros _. unfold filters_let_through, fresh_enough. by rewrite Ep.
Qed.
End verdict.

(** ** Decisions and bands *)

Lemma undecided_spec l :
  existsb (fun h => negb (hf_passed h) && negb (hf_evaluable h)) l = true <->
  exists h, h ∈ l /\ hf_passed h = false /\ hf_evaluable h = false.
Proof.
  rewrite existsb_exists. split; intros (h & Hin & H); exists h.
  - apply andb_true_iff in H as [? ?]. rewrite list_elem_of_In.
    by split_and!; [|apply negb_true_iff..].
  - destruct H as [-> ->]. by rewrite <- list_elem_of_In.
Qed.

Lemma decision_bands cu needs icp score geo value :
  let decision := decision_of cu needs icp score geo value in
  let band := band_of decision score in
  (score < 40 <-> decision = "exclude")
  /\ (band = "strong" <-> decision = "show" /\ 75 <= score)
  /\ (band = "promising" <-> decision = "show" /\ score < 75 \/ decision = "borderline" /\ 55 <= score)
  /\ (band = "weak" <-> decision = "borderline" /\ score < 55).
Proof.
  unfold decision_of, band_of, SHOW_THRESHOLD, BORDERLINE_THRESHOLD, STRONG_BAND, PROMISING_BAND.
  destruct (60 <=? score) eqn:E60; cbn [andb].
  2: destruct (40 <=? score) eqn:E40; cbn; destruct (55 <=? score) eqn:E55; cbn; split_and!; split;
       first [done | lia | naive_solver lia].
  destruct (_ && _); cbn; [destruct (75 <=? score) eqn:E75; cbn; split_and!; split; first [done | lia | naive_solver lia]|].
  replace (40 <=? score) with true by lia. cbn. replace (55 <=? score) with true by lia.
  cbn; split_and!; split; first [done | lia | naive_solver lia].
Qed.

Lemma div_half_even_low raw c : 0 < c -> 25 * c <= 100 * raw -> 25 <= div_half_even (100 * raw) c.
Proof.
  intros Hc Hr. unfold div_half_even.
  pose proof (Z.div_le_lower_bound (100 * raw) c 25 Hc ltac:(lia)).
  repeat case_match; lia.
Qed.

(** * The properties *)

(** C32 (termination).  For a contract whose needs were derived and a valid
    profile the engine always returns a match: none of its validations fails,
    none of its lookups misses, whichever filters fail. *)
Theorem match_total `{UnicodeData} (p icp : TargetICP) (cu : ContractUnderstanding)
    (needs : NeedGraphResult) (as_of : date) :
  derive RULE_LIBRARY cu = Ok needs -> icp_validate p = Ok icp ->
  exists m, match_ cu needs icp as_of = Ok m /\ sm_decision m ∈ MatchDecision
    /\ (sm_decision m ∈ ["show"; "borderline"] <->
        sm_positive_reasons m <> [] /\ sm_evidence_refs m <> []).
Proof.
  intros Hg Hicp.
  destruct (match_spec p icp cu needs as_of Hg Hicp) as (m & geo & value & Em & _ & _ & _ & _ & Ho).
  exists m. split; [done|]. destruct (any_failed m) eqn:Ef.
  - destruct Ho as [Hd _ _ [Hr He]]. rewrite Hd, Hr, He.
    destruct (existsb _ _); split; set_solver.
  - destruct Ho as [published Hs].
    pose proof (sa_reasons _ _ _ _ _ _ _ _ _ Hs) as Hr.
    destruct (decision_cases cu needs icp (sm_normalized_score m) geo value) as [E|[E|E]];
      rewrite <- (sa_decision _ _ _ _ _ _ _ _ _ Hs) in E; rewrite E in Hr |- *;
      cbn in Hr; (split; [set_solver|]); set_solver.
Qed.

(** What a profile asks of a contract before its score counts.  The included
    contract types and the included sectors of the profile are not in it:
    the engine does not read them. *)
Record shown_envelope (cu : ContractUnderstanding) (needs : NeedGraphResult) (icp : TargetICP)
    (as_of : date) : Prop := {
  se_mode : ng_source_mode needs ∈ icp_source_modes_allowed icp;
  se_primary : exists c, c ∈ icp_primary_need_categories icp
    /\ c ∈ map rn_category (ng_needs needs);
  se_trade : icp_primary_trade_domains icp = []
    \/ trade_domain_of cu ∈ icp_primary_trade_domains icp;
  se_type : cl_value (cu_contract_type cu) ∉ icp_excluded_contract_types icp;
  se_cpv : icp_included_cpv_prefixes icp = []
    \/ exists cpv prefix, cl_value <$> cu_facts cu !! "cpv" = Some cpv /\ nonempty cpv = true
         /\ prefix ∈ icp_included_cpv_prefixes icp /\ startswith cpv prefix = true;
  se_sector : cl_value (cu_sector cu) = "unknown"
    \/ cl_value (cu_sector cu) ∉ icp_excluded_sectors icp;
  se_age : exists published, ti_published_at (cu_timing cu) = Some published
    /\ days_between as_of (published_date published) <= icp_maximum_signal_age_days icp;
  se_place : place_fits cu icp;
  se_value : value_fits cu icp;
}.

Section envelope.
Context (cu : ContractUnderstanding) (needs : NeedGraphResult) (icp : TargetICP) (as_of : date).

Lemma primary_hits_truthy : list_truthy (primary_hits needs icp) = true <->
  exists c, c ∈ icp_primary_need_categories icp /\ c ∈ map rn_category (ng_needs needs).
Proof.
  rewrite list_truthy_true. split.
  - intros H. unfold primary_hits in *. destruct (hits needs _) as [|c l] eqn:E; [done|].
    exists c. apply elem_of_hits. rewrite E. set_solver.
  - intros (c & H) E. apply elem_of_hits in H. unfold primary_hits in E. rewrite E in H. set_solver.
Qed.

Lemma trade_targeted : in_list (_trade_fit cu icp) [TradeExact; TradeNotConfigured] = true <->
  icp_primary_trade_domains icp = [] \/ trade_domain_of cu ∈ icp_primary_trade_domains icp.
Proof.
  unfold _trade_fit. destruct (icp_primary_trade_domains icp) as [|d ds] eqn:E; [by simpl; split; auto|].
  cbn [list_truthy negb]. destruct (in_list (trade_domain_of cu) (d :: ds)) eqn:Ed.
  - apply in_list_true in Ed. split; auto.
  - apply in_list_false in Ed. split; [|by intros [?|?]].
    destruct (in_list _ (icp_secondary_trade_domains icp)); [done|]. by case_bool_decide.
Qed.

Lemma cpv_verdict_true : (cpv_verdict cu icp).1 = true <->
  icp_included_cpv_prefixes icp = []
  \/ exists cpv prefix, cl_value <$> cu_facts cu !! "cpv" = Some cpv /\ nonempty cpv = true
       /\ prefix ∈ icp_included_cpv_prefixes icp /\ startswith cpv prefix = true.
Proof.
  unfold cpv_verdict. destruct (icp_included_cpv_prefixes icp) as [|x xs] eqn:Ex; [by split; auto|].
  cbn [list_truthy]. destruct (cl_value <$> cu_facts cu !! "cpv") as [cpv|].
  2: { split; [done | intros [?|(? & ? & ? & _)]; done]. }
  destruct (nonempty cpv) eqn:En.
  - cbn [fst]. rewrite existsb_exists. split.
    + intros (prefix & Hin & Hp). right. exists cpv, prefix. split_and!; [done..| |done].
      by apply list_elem_of_In.
    + intros [?|(c & prefix & [= <-] & _ & Hin & Hp)]; [done|]. exists prefix.
      split; [by apply list_elem_of_In | done].
  - split; [done|]. intros [?|(c & prefix & [= <-] & Hc & _)]; congruence.
Qed.

Lemma sector_allowed : sector_excluded cu icp = false <->
  cl_value (cu_sector cu) = "unknown" \/ cl_value (cu_sector cu) ∉ icp_excluded_sectors icp.
Proof.
  unfold sector_excluded. rewrite andb_false_iff, negb_false_iff, bool_decide_eq_true.
  by rewrite in_list_false.
Qed.

Lemma fresh_enough_true : fresh_enough cu icp as_of = true <->
  exists published, ti_published_at (cu_timing cu) = Some published
    /\ days_between as_of (published_date published) <= icp_maximum_signal_age_days icp.
Proof.
  unfold fresh_enough, age_of. destruct (ti_published_at _) as [pd|].
  - rewrite Z.leb_le. split; [eauto | by intros (? & [= <-] & ?)].
  - split; [done | by intros (? & ? & _)].
Qed.

Lemma envelope_spec : shown_envelope cu needs icp as_of <->
  filters_let_through icp cu needs as_of /\ list_truthy (primary_hits needs icp) = true
  /\ in_list (_trade_fit cu icp) [TradeExact; TradeNotConfigured] = true
  /\ place_fits cu icp /\ value_fits cu icp.
Proof.
  unfold filters_let_through.
  rewrite primary_hits_truthy, trade_targeted, cpv_verdict_true, sector_allowed, fresh_enough_true.
  split.
  - intros [H1 H2 H3 H4 H5 H6 H7 H8 H9]. split_and!; try done.
    destruct H2 as (c & Hc & Hp). unfold matched. intros E. apply app_eq_nil in E as [E _].
    assert (H : c ∈ primary_hits needs icp) by (by apply elem_of_hits). rewrite E in H. set_solver.
  - intros ((H1 & H2 & H3 & H4 & H5 & H6) & H7 & H8 & H9 & H10). by constructor.
Qed.
End envelope.

(** C29 (functional).  A match is shown exactly when the profile accepts the
    production mode, one of its primary needs is produced, the trade of the
    contract is one it targets (or it targets none), neither the type nor a
    known sector is excluded, the CPV has one of its prefixes when it has
    any, the notice is young enough, the place of performance is in a
    territory (or geography is ignored), the amount is readable, material
    and within the threshold of its currency, if one is configured, and the
    score is at least 60.
    The first nine conditions are enough for every filter to pass. *)
Theorem shown_exactly `{UnicodeData} (p icp : TargetICP) (cu : ContractUnderstanding)
    (needs : NeedGraphResult) (as_of : date) (m : ScoredSignalMatch) :
  derive RULE_LIBRARY cu = Ok needs -> icp_validate p = Ok icp ->
  match_ cu needs icp as_of = Ok m ->
  (sm_decision m = "show" <->
   shown_envelope cu needs icp as_of /\ 60 <= sm_normalized_score m)
  /\ (shown_envelope cu needs icp as_of ->
      Forall (fun h => hf_passed h = true) (sm_hard_filter_results m)).
Proof.
  intros Hg Hicp Em. rewrite envelope_spec.
  destruct (match_spec p icp cu needs as_of Hg Hicp) as (m' & geo & value & Em' & Hgeo & Hval & Hpass & Hall & Ho).
  rewrite Em in Em'. injection Em' as <-. split.
  2: { intros (H1 & _ & Ht & H2 & H3). apply none_failed, Hall; try done. intros E. by rewrite E in Ht. }
  rewrite <- Hgeo, <- Hval. destruct (any_failed m) eqn:Ef.
  - destruct Ho as [Hd _ [-> _] _]. rewrite Hd. split; [by destruct (existsb _ _) | lia].
  - destruct Ho as [published Hs]. pose proof (sa_decision _ _ _ _ _ _ _ _ _ Hs) as Hd.
    rewrite Hd at 1. unfold decision_of, SHOW_THRESHOLD. rewrite <- !in_list_true. split.
    + intros H0. destruct (_ && _) eqn:E.
      * repeat (apply andb_true_iff in E as [E ?]). split_and!; auto; lia.
      * by destruct (BORDERLINE_THRESHOLD <=? _).
    + intros ((_ & H1 & H2 & H3 & H4) & H5). apply Z.leb_le in H5. by rewrite H5, H1, H2, H3, H4.
Qed.

(** C20 (safety).  A filter that fails is never compensated: the match then
    has no points, no reason and no evidence, its band is excluded, and it is
    undecided (insufficient data) when one of the failed filters could not be
    evaluated, excluded otherwise. *)
Theorem filter_never_compensated `{UnicodeData} (p icp : TargetICP) (cu : ContractUnderstanding)
    (needs : NeedGraphResult) (as_of : date) (m : ScoredSignalMatch) (h : HardFilterResult) :
  derive RULE_LIBRARY cu = Ok needs -> icp_validate p = Ok icp ->
  match_ cu needs icp as_of = Ok m ->
  h ∈ sm_hard_filter_results m -> hf_passed h = false ->
  sm_normalized_score m = 0 /\ sm_raw_points m = 0 /\ sm_score_components m = []
  /\ sm_positive_reasons m = [] /\ sm_evidence_refs m = [] /\ sm_band m = "excluded"
  /\ (sm_decision m = "insufficient_data" <->
      exists h', h' ∈ sm_hard_filter_results m /\ hf_passed h' = false /\ hf_evaluable h' = false)
  /\ (sm_decision m = "exclude" <->
      forall h', h' ∈ sm_hard_filter_results m -> hf_passed h' = false -> hf_evaluable h' = true).
Proof.
  intros Hg Hicp Em Hin Hf.
  destruct (match_spec p icp cu needs as_of Hg Hicp) as (m' & geo & value & Em' & _ & _ & _ & _ & Ho).
  rewrite Em in Em'. injection Em' as <-.
  assert (Ef : any_failed m = true).
  { apply not_false_iff_true. rewrite none_failed, Forall_forall. intros Hall.
    specialize (Hall h Hin). congruence. }
  rewrite Ef in Ho. destruct Ho as [Hd Hb (H1 & H2 & _ & H3) [H4 H5]]. split_and!; try done.
  - rewrite Hd, <- undecided_spec. by destruct (existsb _ _).
  - rewrite Hd. destruct (existsb _ _) eqn:E.
    + apply undecided_spec in E as (h' & Hh & Hp & He). split; [done|]. intros Hall.
      specialize (Hall h' Hh Hp). congruence.
    + split; [|done]. intros _ h' Hh Hp. apply not_false_iff_true. intros He.
      apply not_true_iff_false in E. apply E, undecided_spec. eauto.
Qed.

(** C31 (bounds).  A match whose filters all pass has the sum of the points
    of its components, between 25 and the points its components can have, 80
    when geography is ignored and 100 otherwise; its score is the exact
    percentage, rounded half to even, although the code computes it with
    floating-point numbers; a score below 40 is excluded, a match that is
    shown is strong from 75 on and promising below, a borderline one is
    promising from 55 on and weak below. *)
Theorem score_exact `{UnicodeData} (p icp : TargetICP) (cu : ContractUnderstanding)
    (needs : NeedGraphResult) (as_of : date) (m : ScoredSignalMatch) :
  derive RULE_LIBRARY cu = Ok needs -> icp_validate p = Ok icp ->
  match_ cu needs icp as_of = Ok m ->
  Forall (fun h => hf_passed h = true) (sm_hard_filter_results m) ->
  let raw := sm_raw_points m in
  let ceiling := sm_maximum_applicable_points m in
  let score := sm_normalized_score m in
  raw = sum (map sc_points (sm_score_components m))
  /\ ceiling = (if bool_decide (icp_geography_policy icp = "ignored") then 80 else 100)
  /\ 25 <= raw <= ceiling
  /\ score = div_half_even (100 * raw) ceiling /\ 25 <= score <= 100
  /\ (score < 40 <-> sm_decision m = "exclude")
  /\ (sm_band m = "strong" <-> sm_decision m = "show" /\ 75 <= score)
  /\ (sm_band m = "promising" <->
      sm_decision m = "show" /\ score < 75 \/ sm_decision m = "borderline" /\ 55 <= score)
  /\ (sm_band m = "weak" <-> sm_decision m = "borderline" /\ score < 55).
Proof.
  intros Hg Hicp Em Hall. cbv zeta.
  destruct (match_spec p icp cu needs as_of Hg Hicp) as (m' & geo & value & Em' & _ & _ & _ & _ & Ho).
  rewrite Em in Em'. injection Em' as <-. apply none_failed in Hall. rewrite Hall in Ho.
  destruct Ho as [published [Hs Hr Hc Hd Hb _ Hsum _ _]].
  pose proof (raw_range cu needs icp as_of geo value published) as Hrange.
  pose proof (normalized_ok cu needs icp as_of geo value published) as [_ Hn].
  assert (Hlow : 25 <= sm_normalized_score m).
  { rewrite Hs. unfold score_of. destruct (ceiling_cases icp) as [E|E];
      rewrite E in *; apply div_half_even_low; lia. }
  destruct (decision_bands cu needs icp (sm_normalized_score m) geo value) as (D1 & D2 & D3 & D4).
  rewrite <- Hd, <- Hb in *. rewrite <- Hr, <- Hc in Hrange. rewrite <- Hs in Hn.
  split_and!; try done; try lia. by rewrite Hs, Hr, Hc.
Qed.

(** * Concrete matches *)

Module MatchSample.
Export NeedsSample.

(** The school of [NeedsSample] for the reference supplier of site inputs,
    one month after its publication. *)
Definition june : date := mkdate 2026 6 1.
Definition no_match : ScoredSignalMatch :=
  mkScored (mkEventRef "" "" None) "" june "" "" "" 0 0 0 [] [] [] [] [] [] "" "".
Definition school_match : ScoredSignalMatch :=
  answer no_match (match_ school school_needs CONSTRUCTION_INPUTS_ICP june).

Lemma school_matched :
  match_ school school_needs CONSTRUCTION_INPUTS_ICP june = Ok school_match.
Proof. vm_compute. reflexivity. Qed.
Lemma supplier_valid : icp_validate CONSTRUCTION_INPUTS_ICP = Ok CONSTRUCTION_INPUTS_ICP.
Proof. vm_compute. reflexivity. Qed.

(** The same supplier with another geography, other timings or another
    maximum age. *)
Definition supplier (policy : string) (territories : list Territory) (timings : list string) (age : Z)
  : TargetICP :=
  let p := CONSTRUCTION_INPUTS_ICP in
  mkICP (icp_id p) (icp_name p) (icp_offer_summary p) (icp_primary_need_categories p)
    (icp_secondary_need_categories p) (icp_geography_basis p) policy territories
    (icp_primary_trade_domains p) (icp_secondary_trade_domains p) (icp_included_contract_types p)
    (icp_excluded_contract_types p) (icp_included_sectors p) (icp_excluded_sectors p)
    (icp_included_cpv_prefixes p) (icp_value_thresholds p) (icp_unknown_value_policy p) age timings
    (icp_source_modes_allowed p).

(** For notices of at most ten days. *)
Definition hurried : TargetICP := supplier "required" [country "CH"] [] 10.
Definition late_match : ScoredSignalMatch :=
  answer no_match (match_ school school_needs hurried june).
Lemma late_matched : match_ school school_needs hurried june = Ok late_match.
Proof. vm_compute. reflexivity. Qed.
Lemma hurried_valid : icp_validate hurried = Ok hurried.
Proof. vm_compute. reflexivity. Qed.
End MatchSample.
Import MatchSample.

Example match_total_witness :
  exists m, match_ school school_needs hurried june = Ok m /\ sm_decision m ∈ MatchDecision.
Proof.
  pose proof (match_total hurried hurried school school_needs june school_derived hurried_valid)
    as (m & Em & Hd & _).
  exists m. split; [exact Em | exact Hd].
Defined.

Example shown_exactly_witness :
  shown_envelope school school_needs CONSTRUCTION_INPUTS_ICP june
  /\ sm_normalized_score school_match = 89.
Proof.
  assert (Hs : sm_decision school_match = "show") by (vm_compute; reflexivity).
  pose proof (shown_exactly CONSTRUCTION_INPUTS_ICP CONSTRUCTION_INPUTS_ICP school school_needs june
                school_match school_derived supplier_valid school_matched) as [Hiff _].
  split; [exact (proj1 (proj1 Hiff Hs)) | vm_compute; reflexivity].
Defined.

Example filter_never_compensated_witness :
  sm_decision late_match = "exclude" /\ sm_score_components late_match = [].
Proof.
  pose (h := nth 5 (sm_hard_filter_results late_match) (mkFilter "" true true "")).
  assert (Hin : h ∈ sm_hard_filter_results late_match).
  { apply list_elem_of_In. vm_compute. tauto. }
  assert (Hf : hf_passed h = false) by (vm_compute; reflexivity).
  pose proof (filter_never_compensated hurried hurried school school_needs june late_match h
                school_derived hurried_valid late_matched Hin Hf) as (_ & _ & H & _).
  split; [vm_compute; reflexivity | exact H].
Defined.

Example score_exact_witness :
  sm_normalized_score school_match = div_half_even (100 * 89) 100.
Proof.
  assert (Hp : Forall (fun h => hf_passed h = true) (sm_hard_filter_results school_match)).
  { apply none_failed. vm_compute. reflexivity. }
  pose proof (score_exact CONSTRUCTION_INPUTS_ICP CONSTRUCTION_INPUTS_ICP school school_needs june
                school_match school_derived supplier_valid school_matched Hp)
    as (_ & _ & _ & H & _).
  vm_compute in H. vm_compute. exact H.
Defined.

(** ** What the modelling showed *)

(** The profile with other included contract types and sectors. *)
Definition with_inclusions (types sectors : list string) (p : TargetICP) : TargetICP :=
  mkICP (icp_id p) (icp_name p) (icp_offer_summary p) (icp_primary_need_categories p)
    (icp_secondary_need_categories p) (icp_geography_basis p) (icp_geography_policy p)
    (icp_territories p) (icp_primary_trade_domains p) (icp_secondary_trade_domains p) types
    (icp_excluded_contract_types p) sectors (icp_excluded_sectors p) (icp_included_cpv_prefixes p)
    (icp_value_thresholds p) (icp_unknown_value_policy p) (icp_maximum_signal_age_days p)
    (icp_preferred_timings p) (icp_source_modes_allowed p).

(** The engine does not read the included contract types nor the included
    sectors: no match depends on them. *)
Lemma inclusions_inert types sectors cu needs icp as_of :
  match_ cu needs (with_inclusions types sectors icp) as_of = match_ cu needs icp as_of.
Proof. reflexivity. Qed.

(** A preferred geography with a subdivision blocks a contract whose place
    has none, although only the required geography is meant to block. *)
Definition zurich_preferred : TargetICP :=
  supplier "preferred" [mkTerritory "CH" (Some "ZH") (Some "canton")] [] 120.
Example preferred_geography_blocks :
  is_ok (icp_validate zurich_preferred) = true
  /\ sm_decision (answer no_match (match_ school school_needs zurich_preferred june))
     = "insufficient_data".
Proof. split; vm_compute; reflexivity. Qed.

(** A profile that lists the unknown timing among the preferred ones is given
    the points of a preferred timing. *)
Example unknown_timing_scores :
  let icp := supplier "required" [country "CH"] ["unknown"] 120 in
  is_ok (icp_validate icp) = true
  /\ map rn_timing (ng_needs school_needs) = ["unknown"; "unknown"; "unknown"]
  /\ sm_raw_points (answer no_match (match_ school school_needs icp june))
     = sm_raw_points school_match + 5.
Proof. split_and!; vm_compute; reflexivity. Qed.
