(* ===== verification/RuntimeContracts.v ===== *)
(** RuntimeContracts: the contracts of the acquisition runtime
    ([acquisition_runtime/contracts.py]): the stages and their commands, the
    statuses, the capability evidence, and the records that the store and the
    runner exchange, each with the validation that building it runs. *)

From S2P Require Import Prelude PyStr PyDatetime PyDecimal PyJson.
From Stdlib Require Import Ascii String.

Local Open Scope string_scope.
Local Open Scope Z_scope.
Local Open Scope list_scope.

(** * Fields *)

Definition is_alnum (c : ascii) : bool := is_upper c || is_lower c || is_digit c.

(** [^[A-Za-z0-9][A-Za-z0-9._:-]{0,255}$] *)
Definition is_opaque (s : string) : bool :=
  match s with
  | EmptyString => false
  | String c t =>
      is_alnum c && (len t <=? 255)
      && all_chars (fun d => is_alnum d || eqc d "." || eqc d "_" || eqc d ":" || eqc d "-") t
  end.

(** [acquisition_runtime/contracts.py:27-33 OpaqueRef] *)
Definition OpaqueRef (field s : string) : result string := matching field is_opaque s.
(** [acquisition_runtime/contracts.py:34-34 Fingerprint] *)
Definition RFingerprint (field s : string) : result string := matching field is_fingerprint s.
(** [acquisition_runtime/contracts.py:35-35 MachineCode] *)
Definition MachineCode (field s : string) : result string := matching field is_safe_code s.
(** [acquisition_runtime/contracts.py:36-36 CommandName] *)
Definition RCommandName (field s : string) : result string := matching field is_command_name s.

(** [acquisition_runtime/contracts.py:37-45 BoundedRuntimeText] *)
Definition BoundedRuntimeText (field s : string) : result string :=
  matching field (fun t => (1 <=? len t) && (len t <=? 256)
                           && all_chars (fun c => negb (py_isspace c) && (32 <=? code c)) t) s.

(** [acquisition_runtime/contracts.py:55-55 CommitFingerprint] *)
Definition CommitFingerprint (field s : string) : result string :=
  matching field (fun t => (len t =? 40) && all_chars is_hex_lower t) s.

(** A tuple of at most [n] items. *)
Definition items {A} (field : string) (lo hi : Z) (f : A -> result A) (l : list A) : result (list A) :=
  require! (lo <=? zlength l) && (zlength l <=? hi)
  else ValidationError field in
  mapM_result f l.

(** [Field(ge=0, le=Decimal("50"))] *)
Definition cost_ok (d : decimal) : bool := dec_leb dec_zero d && dec_leb d (dec_of_Z 50).
Definition Cost (field : string) (d : decimal) : result decimal := checked field cost_ok d.

(** [acquisition_runtime/contracts.py:567-570 require_aware] *)
Definition require_aware (value : datetime) : result datetime :=
  require! aware value else ValueError "runtime timestamp must be timezone-aware" in
  astimezone_utc value.

(** A ValueError inside a validator of a model. *)
Definition validated {A} (field : string) (r : result A) : result A :=
  match r with Raise (ValueError _) => Raise (ValidationError field) | _ => r end.

(** * Enumerations *)

(** [acquisition_runtime/contracts.py:58-60 RuntimeExecutionMode] *)
Inductive RuntimeExecutionMode : Type := ModeSHADOW | ModeASSISTED.

#[export] Instance RuntimeExecutionMode_eq_dec : EqDecision RuntimeExecutionMode.
Proof. solve_decision. Defined.

(** [acquisition_runtime/contracts.py:58-60 RuntimeExecutionMode] *)
Definition execution_mode_value (m : RuntimeExecutionMode) : string :=
  match m with ModeSHADOW => "SHADOW" | ModeASSISTED => "ASSISTED" end.

(** [acquisition_runtime/contracts.py:63-65 RuntimeDependencyState] *)
Inductive RuntimeDependencyState : Type := READY | NOT_READY.

#[export] Instance RuntimeDependencyState_eq_dec : EqDecision RuntimeDependencyState.
Proof. solve_decision. Defined.

(** [acquisition_runtime/contracts.py:63-65 RuntimeDependencyState] *)
Definition dependency_value (s : RuntimeDependencyState) : string :=
  match s with READY => "READY" | NOT_READY => "NOT_READY" end.

(** [acquisition_runtime/contracts.py:68-79 AcquisitionRuntimeStage] *)
Inductive AcquisitionRuntimeStage : Type :=
| SIGNAL_SEED | SUPPLIER_DISCOVERY | CONTACT_DISCOVERY | COMPANY_RESEARCH | DECISION
| PERSONALIZATION | COMPLIANCE | CAMPAIGN | PROVIDER_HANDOFF | RESPONSE
| ATTRIBUTION_CONVERSION.

#[export] Instance AcquisitionRuntimeStage_eq_dec : EqDecision AcquisitionRuntimeStage.
Proof. solve_decision. Defined.

(** [acquisition_runtime/contracts.py:68-83 AcquisitionRuntimeStage] *)
Definition stage_value (s : AcquisitionRuntimeStage) : string :=
  match s with
  | SIGNAL_SEED => "SIGNAL_SEED" | SUPPLIER_DISCOVERY => "SUPPLIER_DISCOVERY"
  | CONTACT_DISCOVERY => "CONTACT_DISCOVERY" | COMPANY_RESEARCH => "COMPANY_RESEARCH"
  | DECISION => "DECISION" | PERSONALIZATION => "PERSONALIZATION" | COMPLIANCE => "COMPLIANCE"
  | CAMPAIGN => "CAMPAIGN" | PROVIDER_HANDOFF => "PROVIDER_HANDOFF" | RESPONSE => "RESPONSE"
  | ATTRIBUTION_CONVERSION => "ATTRIBUTION_CONVERSION"
  end.

(** The members in the order of the declaration. *)
Definition stages : list AcquisitionRuntimeStage :=
  [SIGNAL_SEED; SUPPLIER_DISCOVERY; CONTACT_DISCOVERY; COMPANY_RESEARCH; DECISION;
   PERSONALIZATION; COMPLIANCE; CAMPAIGN; PROVIDER_HANDOFF; RESPONSE; ATTRIBUTION_CONVERSION].

#[export] Program Instance AcquisitionRuntimeStage_StrEnum : StrEnum AcquisitionRuntimeStage :=
  {| se_value := stage_value; se_all := stages |}.
Next Obligation. solve_se_complete. Qed.
Next Obligation. solve_se_inj. Qed.

#[export] Instance AcquisitionRuntimeStage_countable : Countable AcquisitionRuntimeStage.
Proof. apply (inj_countable se_value se_parse). intros s. apply se_parse_value. Defined.

(** [acquisition_runtime/contracts.py:86-98 _STAGE_COMMANDS] *)
Definition stage_command (s : AcquisitionRuntimeStage) : string :=
  match s with
  | SIGNAL_SEED => "resolve_signal_seed"
  | SUPPLIER_DISCOVERY => "discover_suppliers"
  | CONTACT_DISCOVERY => "find_decision_makers"
  | COMPANY_RESEARCH => "enrich_company"
  | DECISION => "evaluate_opportunity"
  | PERSONALIZATION => "prepare_campaign"
  | COMPLIANCE => "assess_campaign_compliance"
  | CAMPAIGN => "schedule_campaign"
  | PROVIDER_HANDOFF => "execute_provider_operations"
  | RESPONSE => "classify_response"
  | ATTRIBUTION_CONVERSION => "reconcile_conversion"
  end.

(** [acquisition_runtime/contracts.py:101-109 RuntimeStageStatus] *)
Inductive RuntimeStageStatus : Type :=
| PENDING | RUNNING | WAITING | SUCCEEDED | BLOCKED | FAILED | SUPPRESSED | CANCELLED.

#[export] Instance RuntimeStageStatus_eq_dec : EqDecision RuntimeStageStatus.
Proof. solve_decision. Defined.

(** [acquisition_runtime/contracts.py:101-109 RuntimeStageStatus] *)
Definition stage_status_value (s : RuntimeStageStatus) : string :=
  match s with
  | PENDING => "PENDING" | RUNNING => "RUNNING" | WAITING => "WAITING"
  | SUCCEEDED => "SUCCEEDED" | BLOCKED => "BLOCKED" | FAILED => "FAILED"
  | SUPPRESSED => "SUPPRESSED" | CANCELLED => "CANCELLED"
  end.

(** [acquisition_runtime/contracts.py:112-120 RuntimeCycleStatus] *)
Inductive RuntimeCycleStatus : Type :=
| CyclePENDING | CycleRUNNING | CycleWAITING | CycleSUCCEEDED | CycleBLOCKED | CycleFAILED
| CycleSUPPRESSED | CycleCANCELLED.

#[export] Instance RuntimeCycleStatus_eq_dec : EqDecision RuntimeCycleStatus.
Proof. solve_decision. Defined.

(** [acquisition_runtime/contracts.py:112-120 RuntimeCycleStatus] *)
Definition cycle_status_value (s : RuntimeCycleStatus) : string :=
  match s with
  | CyclePENDING => "PENDING" | CycleRUNNING => "RUNNING" | CycleWAITING => "WAITING"
  | CycleSUCCEEDED => "SUCCEEDED" | CycleBLOCKED => "BLOCKED" | CycleFAILED => "FAILED"
  | CycleSUPPRESSED => "SUPPRESSED" | CycleCANCELLED => "CANCELLED"
  end.

#[export] Program Instance RuntimeCycleStatus_StrEnum : StrEnum RuntimeCycleStatus :=
  {| se_value := cycle_status_value;
     se_all := [CyclePENDING; CycleRUNNING; CycleWAITING; CycleSUCCEEDED; CycleBLOCKED;
                CycleFAILED; CycleSUPPRESSED; CycleCANCELLED] |}.
Next Obligation. solve_se_complete. Qed.
Next Obligation. solve_se_inj. Qed.

(** [acquisition_runtime/contracts.py:123-130 RuntimeRunStatus] *)
Inductive RuntimeRunStatus : Type :=
| RunALREADY_RUNNING | RunCOMPLETED | RunWAITING | RunBLOCKED | RunFAILED | RunSUPPRESSED
| RunCANCELLED.

#[export] Instance RuntimeRunStatus_eq_dec : EqDecision RuntimeRunStatus.
Proof. solve_decision. Defined.

(** * Capability evidence *)

(** [acquisition_runtime/contracts.py:145-150 RuntimeHermesIdentityEvidence] *)
Record RuntimeHermesIdentityEvidence : Type := mkHermes {
  he_repository : string;
  he_tag : string;
  he_commit : string;
  he_version : string;
  he_python_contract : string;
}.

#[export] Instance hermes_eq_dec : EqDecision RuntimeHermesIdentityEvidence.
Proof. solve_decision. Defined.

(** [acquisition_runtime/contracts.py:145-150 RuntimeHermesIdentityEvidence] *)
Definition hermes_validate (h : RuntimeHermesIdentityEvidence) : result RuntimeHermesIdentityEvidence :=
  let! repository := BoundedRuntimeText "repository" (he_repository h) in
  let! tag := BoundedRuntimeText "tag" (he_tag h) in
  let! commit := CommitFingerprint "commit" (he_commit h) in
  let! version := BoundedRuntimeText "version" (he_version h) in
  let! contract := BoundedRuntimeText "python_contract" (he_python_contract h) in
  Ok (mkHermes repository tag commit version contract).

(** [acquisition_runtime/contracts.py:153-156 RuntimeStageDependency] *)
Record RuntimeStageDependency : Type := mkDependency {
  de_stage : AcquisitionRuntimeStage;
  de_status : RuntimeDependencyState;
  de_reason_codes : list string;
}.

#[export] Instance dependency_eq_dec : EqDecision RuntimeStageDependency.
Proof. solve_decision. Defined.

(** [acquisition_runtime/contracts.py:153-164 RuntimeStageDependency] *)
Definition dependency_validate (d : RuntimeStageDependency) : result RuntimeStageDependency :=
  let! codes := items "reason_codes" 0 8 (MachineCode "reason_codes") (de_reason_codes d) in
  require! negb (bool_decide (de_status d = NOT_READY) && negb (list_truthy codes))
  else ValidationError "RuntimeStageDependency" in
  require! negb (bool_decide (de_status d = READY) && list_truthy codes)
  else ValidationError "RuntimeStageDependency" in
  Ok (mkDependency (de_stage d) (de_status d) codes).

(** [acquisition_runtime/contracts.py:167-178 RuntimeCapabilityEvidence] *)
Record RuntimeCapabilityEvidence : Type := mkCapability {
  ce_environment : string;
  ce_mode : RuntimeExecutionMode;
  ce_qa_only : bool;
  ce_hermes : RuntimeHermesIdentityEvidence;
  ce_registry_identity : string;
  ce_native_tools : Z;
  ce_commands : list string;
  ce_dependencies : list RuntimeStageDependency;
}.

#[export] Instance capability_eq_dec : EqDecision RuntimeCapabilityEvidence.
Proof. solve_decision. Defined.

(** [acquisition_runtime/contracts.py:167-197 RuntimeCapabilityEvidence] *)
Definition capability_validate (c : RuntimeCapabilityEvidence) : result RuntimeCapabilityEvidence :=
  let! environment := checked "environment" (fun e => in_list e ["STAGING"; "PRODUCTION"])
                        (ce_environment c) in
  let! hermes := hermes_validate (ce_hermes c) in
  let! identity := RFingerprint "registry_identity" (ce_registry_identity c) in
  let! tools := checked "native_tools" (Z.eqb 0) (ce_native_tools c) in
  let! commands := items "commands" 11 11 (RCommandName "commands") (ce_commands c) in
  let! dependencies := items "dependencies" 11 11 dependency_validate (ce_dependencies c) in
  require! bool_decide (commands = map stage_command stages)
  else ValidationError "RuntimeCapabilityEvidence" in
  require! bool_decide (map de_stage dependencies = stages)
  else ValidationError "RuntimeCapabilityEvidence" in
  Ok (mkCapability environment (ce_mode c) (ce_qa_only c) hermes identity tools commands
        dependencies).

(** [acquisition_runtime/contracts.py:192-192 RuntimeCapabilityEvidence.fingerprint]:
    [model_dump(mode="json")]. *)
Definition capability_json (c : RuntimeCapabilityEvidence) : json :=
  JObj [("environment", JStr (ce_environment c));
        ("mode", JStr (execution_mode_value (ce_mode c)));
        ("qa_only", JBool (ce_qa_only c));
        ("hermes", JObj [("repository", JStr (he_repository (ce_hermes c)));
                         ("tag", JStr (he_tag (ce_hermes c)));
                         ("commit", JStr (he_commit (ce_hermes c)));
                         ("version", JStr (he_version (ce_hermes c)));
                         ("python_contract", JStr (he_python_contract (ce_hermes c)))]);
        ("registry_identity", JStr (ce_registry_identity c));
        ("native_tools", JInt (ce_native_tools c));
        ("commands", JStrs (ce_commands c));
        ("dependencies", JList (map (fun d =>
           JObj [("stage", JStr (stage_value (de_stage d)));
                 ("status", JStr (dependency_value (de_status d)));
                 ("reason_codes", JStrs (de_reason_codes d))]) (ce_dependencies c)))].

(** [acquisition_runtime/contracts.py:189-197 RuntimeCapabilityEvidence.fingerprint] *)
Definition capability_fingerprint `{HashLib} (c : RuntimeCapabilityEvidence) : result string :=
  json_sha256 (capability_json c).

(** [acquisition_runtime/contracts.py:200-206 RuntimeHealthObservation] *)
Record RuntimeHealthObservation : Type := mkObservation {
  ho_capability : RuntimeCapabilityEvidence;
  ho_observed_at : datetime;
  ho_heartbeat_at : datetime;
  ho_last_cycle_ref : option string;
  ho_last_cycle_status : option RuntimeCycleStatus;
  ho_last_cycle_at : option datetime;
}.

(** [acquisition_runtime/contracts.py:200-227 RuntimeHealthObservation] *)
Definition observation_validate (o : RuntimeHealthObservation) : result RuntimeHealthObservation :=
  let! ref := opt_mapM (OpaqueRef "last_cycle_ref") (ho_last_cycle_ref o) in
  let! observed := validated "RuntimeHealthObservation" (require_aware (ho_observed_at o)) in
  let! heartbeat := validated "RuntimeHealthObservation" (require_aware (ho_heartbeat_at o)) in
  require! negb (dt_ltb heartbeat observed) else ValidationError "RuntimeHealthObservation" in
  let present := [truthy ref; truthy (ho_last_cycle_status o); truthy (ho_last_cycle_at o)] in
  require! negb (existsb negb present && existsb id present)
  else ValidationError "RuntimeHealthObservation" in
  let! _ := opt_mapM (fun last =>
      let! last := validated "RuntimeHealthObservation" (require_aware last) in
      require! negb (dt_ltb heartbeat last) else ValidationError "RuntimeHealthObservation" in
      Ok last) (ho_last_cycle_at o) in
  Ok (mkObservation (ho_capability o) (ho_observed_at o) (ho_heartbeat_at o) ref
        (ho_last_cycle_status o) (ho_last_cycle_at o)).

(** [acquisition_runtime/contracts.py:230-236 expected_runtime_registry_identity] *)
Definition expected_runtime_registry_identity `{HashLib} : result string :=
  json_sha256 (JList (map (fun s =>
    JObj [("stage", JStr (stage_value s)); ("command", JStr (stage_command s))]) stages)).

(** [acquisition_runtime/contracts.py:239-245 AcquisitionRuntimeLimits] *)
Record AcquisitionRuntimeLimits : Type := mkLimits {
  lm_maximum_cycle_cost : decimal;
  lm_maximum_suppliers : Z;
  lm_maximum_contacts : Z;
  lm_maximum_provider_operations : Z;
  lm_maximum_wall_seconds : Z;
  lm_lease_seconds : Z;
}.

Definition between (lo hi n : Z) : bool := (lo <=? n) && (n <=? hi).

(** [acquisition_runtime/contracts.py:239-251 AcquisitionRuntimeLimits] *)
Definition limits_validate (l : AcquisitionRuntimeLimits) : result AcquisitionRuntimeLimits :=
  let! _ := checked "maximum_cycle_cost"
              (fun d => dec_ltb dec_zero d && dec_leb d (dec_of_Z 50)) (lm_maximum_cycle_cost l) in
  let! _ := checked "maximum_suppliers" (between 1 25) (lm_maximum_suppliers l) in
  let! _ := checked "maximum_contacts" (Z.eqb 1) (lm_maximum_contacts l) in
  let! _ := checked "maximum_provider_operations" (between 1 4) (lm_maximum_provider_operations l) in
  let! _ := checked "maximum_wall_seconds" (between 60 1200) (lm_maximum_wall_seconds l) in
  let! _ := checked "lease_seconds" (between 120 1500) (lm_lease_seconds l) in
  require! negb (lm_lease_seconds l <=? lm_maximum_wall_seconds l)
  else ValidationError "AcquisitionRuntimeLimits" in
  Ok l.

(** * What the store and the runner exchange *)

(** [acquisition_runtime/contracts.py:427-430 RuntimeLeaseResult] *)
Record RuntimeLeaseResult : Type := mkLeaseResult {
  lr_owned : bool;
  lr_reclaimed : bool;
  lr_fencing_token : option Z;
}.

(** [acquisition_runtime/contracts.py:427-438 RuntimeLeaseResult] *)
Definition lease_result_validate (l : RuntimeLeaseResult) : result RuntimeLeaseResult :=
  let! _ := opt_mapM (checked "fencing_token" (Z.leb 1)) (lr_fencing_token l) in
  require! negb (lr_reclaimed l && negb (lr_owned l)) else ValidationError "RuntimeLeaseResult" in
  require! Bool.eqb (lr_owned l) (truthy (lr_fencing_token l))
  else ValidationError "RuntimeLeaseResult" in
  Ok l.

(** [acquisition_runtime/contracts.py:441-447 RuntimeCycleSnapshot] *)
Record RuntimeCycleSnapshot : Type := mkCycleSnapshot {
  rc_cycle_ref : string;
  rc_opportunity_key : string;
  rc_status : RuntimeCycleStatus;
  rc_next_stage : option AcquisitionRuntimeStage;
  rc_spent_cost : decimal;
  rc_started_at : datetime;
}.

(** [acquisition_runtime/contracts.py:441-452 RuntimeCycleSnapshot] *)
Definition cycle_snapshot_validate (c : RuntimeCycleSnapshot) : result RuntimeCycleSnapshot :=
  let! ref := OpaqueRef "cycle_ref" (rc_cycle_ref c) in
  let! key := OpaqueRef "opportunity_key" (rc_opportunity_key c) in
  let! spent := Cost "spent_cost" (rc_spent_cost c) in
  let! _ := validated "RuntimeCycleSnapshot" (require_aware (rc_started_at c)) in
  Ok (mkCycleSnapshot ref key (rc_status c) (rc_next_stage c) spent (rc_started_at c)).

(** A retry deadline belongs to a waiting stage, and a replay of the same
    attempt to a deadline. *)
Definition retry_coherent (model : string) (status : RuntimeStageStatus) (retry_at : option datetime)
    (replay : bool) : result unit :=
  let! _ := opt_mapM (fun t => validated model (require_aware t)) retry_at in
  require! negb (truthy retry_at && negb (bool_decide (status = WAITING)))
  else ValidationError model in
  require! negb (replay && (negb (bool_decide (status = WAITING)) || negb (truthy retry_at)))
  else ValidationError model in
  Ok tt.

(** [acquisition_runtime/contracts.py:455-462 RuntimeStageSnapshot] *)
Record RuntimeStageSnapshot : Type := mkStageSnapshot {
  rs_cycle_ref : string;
  rs_stage : AcquisitionRuntimeStage;
  rs_status : RuntimeStageStatus;
  rs_attempt_count : Z;
  rs_result_refs : list string;
  rs_retry_at : option datetime;
  rs_replay_same_attempt : bool;
}.

(** [acquisition_runtime/contracts.py:455-482 RuntimeStageSnapshot] *)
Definition stage_snapshot_validate (s : RuntimeStageSnapshot) : result RuntimeStageSnapshot :=
  let! ref := OpaqueRef "cycle_ref" (rs_cycle_ref s) in
  let! _ := checked "attempt_count" (Z.leb 1) (rs_attempt_count s) in
  let! refs := items "result_refs" 0 16 (OpaqueRef "result_refs") (rs_result_refs s) in
  let! _ := retry_coherent "RuntimeStageSnapshot" (rs_status s) (rs_retry_at s)
              (rs_replay_same_attempt s) in
  Ok (mkStageSnapshot ref (rs_stage s) (rs_status s) (rs_attempt_count s) refs (rs_retry_at s)
        (rs_replay_same_attempt s)).

(** The character NUL. *)
Definition NUL : string := String (chr 0) EmptyString.

(** [acquisition_runtime/contracts.py:476-482 RuntimeStageSnapshot.attempt_ref] *)
Definition attempt_ref `{HashLib} (s : RuntimeStageSnapshot) : string :=
  sha256_hexdigest ("acquisition-runtime-attempt-v1" +:+ NUL +:+ rs_cycle_ref s +:+ NUL
                    +:+ stage_value (rs_stage s) +:+ NUL +:+ str_int (rs_attempt_count s)).

(** [acquisition_runtime/contracts.py:490-498 RuntimeProposal] *)
Record RuntimeProposal : Type := mkProposal {
  rp_plan_ref : string;
  rp_action_index : Z;
  rp_command : string;
  rp_target_ref : string;
  rp_argument_fingerprint : string;
  rp_estimated_cost : decimal;
  rp_reason_codes : list string;
  rp_evidence_refs : list string;
}.

(** [acquisition_runtime/contracts.py:490-498 RuntimeProposal] *)
Definition proposal_validate (p : RuntimeProposal) : result RuntimeProposal :=
  let! plan := OpaqueRef "plan_ref" (rp_plan_ref p) in
  let! index := checked "action_index" (between 0 9) (rp_action_index p) in
  let! command := RCommandName "command" (rp_command p) in
  let! target := OpaqueRef "target_ref" (rp_target_ref p) in
  let! fingerprint := RFingerprint "argument_fingerprint" (rp_argument_fingerprint p) in
  let! cost := Cost "estimated_cost" (rp_estimated_cost p) in
  let! reasons := items "reason_codes" 1 16 (MachineCode "reason_codes") (rp_reason_codes p) in
  let! evidence := items "evidence_refs" 0 16 (OpaqueRef "evidence_refs") (rp_evidence_refs p) in
  Ok (mkProposal plan index command target fingerprint cost reasons evidence).

(** [p == q]: equal fields, amounts by value. *)
Definition proposal_eqb (p q : RuntimeProposal) : bool :=
  bool_decide (rp_plan_ref p = rp_plan_ref q) && (rp_action_index p =? rp_action_index q)
  && bool_decide (rp_command p = rp_command q) && bool_decide (rp_target_ref p = rp_target_ref q)
  && bool_decide (rp_argument_fingerprint p = rp_argument_fingerprint q)
  && dec_eqb (rp_estimated_cost p) (rp_estimated_cost q)
  && bool_decide (rp_reason_codes p = rp_reason_codes q)
  && bool_decide (rp_evidence_refs p = rp_evidence_refs q).

(** [acquisition_runtime/contracts.py:501-506 RuntimeStageReservation] *)
Record RuntimeStageReservation : Type := mkReservation {
  rr_accepted : bool;
  rr_created : bool;
  rr_reserved_cost : decimal;
  rr_total_cycle_cost : decimal;
  rr_proposal : option RuntimeProposal;
}.

(** [acquisition_runtime/contracts.py:501-517 RuntimeStageReservation] *)
Definition reservation_validate (r : RuntimeStageReservation) : result RuntimeStageReservation :=
  let! _ := Cost "reserved_cost" (rr_reserved_cost r) in
  let! _ := Cost "total_cycle_cost" (rr_total_cycle_cost r) in
  require! negb (rr_created r && negb (rr_accepted r)) else ValidationError "RuntimeStageReservation" in
  match rr_proposal r with
  | None => Ok r
  | Some p =>
      require! rr_accepted r else ValidationError "RuntimeStageReservation" in
      require! dec_eqb (rp_estimated_cost p) (rr_reserved_cost r)
      else ValidationError "RuntimeStageReservation" in
      Ok r
  end.

(** [acquisition_runtime/contracts.py:520-527 RuntimeActionResult] *)
Record RuntimeActionResult : Type := mkActionResult {
  ra_status : RuntimeStageStatus;
  ra_result_refs : list string;
  ra_reserved_cost : decimal;
  ra_observed_cost : decimal;
  ra_reason_codes : list string;
  ra_retry_at : option datetime;
  ra_replay_same_attempt : bool;
}.

(** [acquisition_runtime/contracts.py:520-543 RuntimeActionResult] *)
Definition action_result_validate (r : RuntimeActionResult) : result RuntimeActionResult :=
  let! refs := items "result_refs" 0 16 (OpaqueRef "result_refs") (ra_result_refs r) in
  let! _ := Cost "reserved_cost" (ra_reserved_cost r) in
  let! _ := Cost "observed_cost" (ra_observed_cost r) in
  let! reasons := items "reason_codes" 0 16 (MachineCode "reason_codes") (ra_reason_codes r) in
  require! negb (in_list (ra_status r) [PENDING; RUNNING]) else ValidationError "RuntimeActionResult" in
  require! bool_decide (ra_status r = SUCCEEDED) || list_truthy reasons
  else ValidationError "RuntimeActionResult" in
  let! _ := retry_coherent "RuntimeActionResult" (ra_status r) (ra_retry_at r)
              (ra_replay_same_attempt r) in
  Ok (mkActionResult (ra_status r) refs (ra_reserved_cost r) (ra_observed_cost r) reasons
        (ra_retry_at r) (ra_replay_same_attempt r)).

(** [acquisition_runtime/contracts.py:546-550 RuntimeRunResult] *)
Record RuntimeRunResult : Type := mkRunResult {
  run_status : RuntimeRunStatus;
  run_cycle_ref : option string;
  run_stage : option AcquisitionRuntimeStage;
  run_reason_code : option string;
}.

#[export] Instance run_result_eq_dec : EqDecision RuntimeRunResult.
Proof. solve_decision. Defined.

(** [acquisition_runtime/contracts.py:546-564 RuntimeRunResult] *)
Definition run_result_validate (r : RuntimeRunResult) : result RuntimeRunResult :=
  let! ref := opt_mapM (OpaqueRef "cycle_ref") (run_cycle_ref r) in
  let! reason := opt_mapM (MachineCode "reason_code") (run_reason_code r) in
  Ok (mkRunResult (run_status r) ref (run_stage r) reason).

(** [acquisition_runtime/contracts.py:552-564 RuntimeRunResult.exit_code] *)
Definition exit_code (r : RuntimeRunResult) : Z :=
  if in_list (run_status r) [RunALREADY_RUNNING; RunCOMPLETED; RunWAITING; RunSUPPRESSED] then 0 else 1.

(** [acquisition_runtime/supervisor.py:42-56 _STAGE_COSTS] *)
Definition KIVOU_STAGE_COSTS (s : AcquisitionRuntimeStage) : decimal :=
  match s with
  | SUPPLIER_DISCOVERY => dec_of_Z 2
  | CONTACT_DISCOVERY => dec_of_Z 6
  | COMPANY_RESEARCH => dec_of_Z 2
  | _ => dec_of_Z 0
  end.
