(* ===== verification/RuntimeStore.v ===== *)
(** RuntimeStore: the durable state of the acquisition runtime
    ([acquisition_runtime/store.py]) over the five tables
    [acquisition_runtime_lease], [_cycle], [_stage], [_stage_attempt] and
    [_observation] of [persistence/schema.py].

    Each operation is one transaction.  The operations of an owner lock the
    row of the lease first, so they are ordered; [abandon_cycle] locks the
    cycle.  [clock] is what [current_timestamp] gives on PostgreSQL, [None]
    on SQLite, where the time of the caller is used. *)

From S2P Require Import Prelude PyStr PyDatetime PyDecimal PyJson AcquisitionContracts.
From S2P Require Import Database RuntimeContracts.
From Stdlib Require Import Ascii String.
From stdpp Require Import gmap.

Local Open Scope string_scope.
Local Open Scope Z_scope.
Local Open Scope list_scope.

(** * Tables *)

(** [persistence/schema.py:3002-3020 acquisition_runtime_lease] *)
Record lease_row : Type := mkLease {
  ls_owner_ref : option string;
  ls_acquired_at : option datetime;
  ls_heartbeat_at : option datetime;
  ls_expires_at : option datetime;
  ls_generation : Z;
}.

(** [persistence/schema.py:3023-3062 acquisition_runtime_cycle] *)
Record cycle_row : Type := mkCycle {
  cy_cycle_ref : string;
  cy_opportunity_key : string;
  cy_config_fingerprint : string;
  cy_status : RuntimeCycleStatus;
  cy_next_stage : option AcquisitionRuntimeStage;
  cy_spent_cost : decimal;
  cy_last_reason_code : option string;
  cy_started_at : datetime;
  cy_updated_at : datetime;
  cy_completed_at : option datetime;
}.

(** [persistence/schema.py:3198-3257 acquisition_runtime_stage] *)
Record stage_row : Type := mkStage {
  sg_cycle_ref : string;
  sg_stage : AcquisitionRuntimeStage;
  sg_status : RuntimeStageStatus;
  sg_attempt_count : Z;
  sg_plan_ref : option string;
  sg_command : option string;
  sg_argument_fingerprint : option string;
  sg_result_refs : list string;
  sg_reserved_cost : decimal;
  sg_observed_cost : decimal;
  sg_reason_codes : list string;
  sg_retry_at : option datetime;
  sg_replay_same_attempt : bool;
  sg_started_at : option datetime;
  sg_completed_at : option datetime;
  sg_updated_at : datetime;
}.

(** [persistence/schema.py:3262-3318 acquisition_runtime_stage_attempt] *)
Record attempt_row : Type := mkAttempt {
  at_cycle_ref : string;
  at_stage : AcquisitionRuntimeStage;
  at_attempt_count : Z;
  at_status : RuntimeStageStatus;
  at_reserved_cost : decimal;
  at_observed_cost : decimal;
  at_proposal : option RuntimeProposal;
  at_retry_at : option datetime;
  at_replay_same_attempt : bool;
  at_completed_at : option datetime;
}.

(** [persistence/schema.py:3065-3120 acquisition_runtime_observation]: the
    columns of the capability are the fields of one record. *)
Record observation_row : Type := mkObservationRow {
  ob_capability_fingerprint : string;
  ob_capability : RuntimeCapabilityEvidence;
  ob_observed_at : datetime;
  ob_heartbeat_at : datetime;
  ob_last_cycle_ref : option string;
  ob_last_cycle_status : option RuntimeCycleStatus;
  ob_last_cycle_at : option datetime;
  ob_updated_at : datetime;
}.

Abbreviation attempt_key := (string * AcquisitionRuntimeStage * Z)%type.

(** The lease and the observation have one row each: the code writes one
    name. *)
Record runtime_db : Type := mkrdb {
  rdb_lease : option lease_row;
  rdb_cycles : gmap string cycle_row;
  rdb_stages : gmap (string * AcquisitionRuntimeStage) stage_row;
  rdb_attempts : gmap attempt_key attempt_row;
  rdb_observation : option observation_row;
}.

Definition empty_runtime_db : runtime_db := mkrdb None ∅ ∅ ∅ None.

Definition with_lease (db : runtime_db) (l : lease_row) : runtime_db :=
  mkrdb (Some l) (rdb_cycles db) (rdb_stages db) (rdb_attempts db) (rdb_observation db).
Definition with_cycle (db : runtime_db) (r : cycle_row) : runtime_db :=
  mkrdb (rdb_lease db) (<[cy_cycle_ref r := r]> (rdb_cycles db)) (rdb_stages db) (rdb_attempts db)
    (rdb_observation db).
Definition with_stage (db : runtime_db) (r : stage_row) : runtime_db :=
  mkrdb (rdb_lease db) (rdb_cycles db) (<[(sg_cycle_ref r, sg_stage r) := r]> (rdb_stages db))
    (rdb_attempts db) (rdb_observation db).
Definition key_of (r : attempt_row) : attempt_key := (at_cycle_ref r, at_stage r, at_attempt_count r).
Definition with_attempt_at (db : runtime_db) (key : attempt_key) (r : attempt_row) : runtime_db :=
  mkrdb (rdb_lease db) (rdb_cycles db) (rdb_stages db) (<[key := r]> (rdb_attempts db))
    (rdb_observation db).
Definition with_attempt (db : runtime_db) (r : attempt_row) : runtime_db :=
  with_attempt_at db (key_of r) r.
Definition with_observation (db : runtime_db) (r : observation_row) : runtime_db :=
  mkrdb (rdb_lease db) (rdb_cycles db) (rdb_stages db) (rdb_attempts db) (Some r).

(** ** Check constraints *)

(** [persistence/schema.py:3012-3019 ck_acquisition_runtime_lease_lifecycle] *)
Definition lease_lifecycle (r : lease_row) : bool :=
  match ls_owner_ref r, ls_acquired_at r, ls_heartbeat_at r, ls_expires_at r with
  | None, None, None, None => true
  | Some _, Some a, Some h, Some e => dt_leb a h && dt_ltb h e
  | _, _, _, _ => false
  end.

Definition terminal (s : RuntimeCycleStatus) : bool := in_list s [CycleSUCCEEDED; CycleSUPPRESSED].

(** [persistence/schema.py:3055-3060 ck_acquisition_runtime_cycle_lifecycle] *)
Definition cycle_lifecycle (r : cycle_row) : bool :=
  if terminal (cy_status r) then truthy (cy_completed_at r) && negb (truthy (cy_next_stage r))
  else negb (truthy (cy_completed_at r)).

(** [persistence/schema.py:3239-3247 ck_acquisition_runtime_stage_lifecycle] *)
Definition stage_lifecycle (r : stage_row) : bool :=
  match sg_status r with
  | PENDING => (sg_attempt_count r =? 0) && negb (truthy (sg_started_at r))
               && negb (truthy (sg_completed_at r))
  | RUNNING => (1 <=? sg_attempt_count r) && truthy (sg_started_at r)
               && negb (truthy (sg_completed_at r))
  | _ => (1 <=? sg_attempt_count r) && truthy (sg_started_at r) && truthy (sg_completed_at r)
  end.

(** [persistence/schema.py:3300-3304 ck_acquisition_runtime_attempt_lifecycle] *)
Definition attempt_lifecycle (r : attempt_row) : bool :=
  Bool.eqb (bool_decide (at_status r = RUNNING)) (negb (truthy (at_completed_at r))).

(** [persistence/schema.py:3305-3312 ck_acquisition_runtime_attempt_retry] *)
Definition retry_columns (status : RuntimeStageStatus) (retry_at : option datetime) (replay : bool)
  : bool :=
  (negb (truthy retry_at) || bool_decide (status = WAITING))
  && (negb replay || (bool_decide (status = WAITING) && truthy retry_at)).

(** [persistence/schema.py:3095-3112 ck_acquisition_runtime_observation_boundary] *)
Definition observation_checks (r : observation_row) : bool :=
  let c := ob_capability r in
  (ce_native_tools c =? 0)
  && ((bool_decide (ce_environment c = "STAGING") && ce_qa_only c)
      || (bool_decide (ce_environment c = "PRODUCTION") && negb (ce_qa_only c)))
  && dt_leb (ob_observed_at r) (ob_heartbeat_at r)
  && dt_leb (ob_heartbeat_at r) (ob_updated_at r)
  && match ob_last_cycle_ref r, ob_last_cycle_status r, ob_last_cycle_at r with
     | None, None, None => true
     | Some _, Some _, Some t => dt_leb t (ob_heartbeat_at r)
     | _, _, _ => false
     end.

Section store.
Context `{Hash : HashLib} `{DB : Database}.

(** [acquisition_runtime/store.py:41-41 LEASE_NAME] *)
Definition LEASE_NAME : string := "acquisition-run-once".

(** [acquisition_runtime/store.py:94-97 _aware] *)
Definition _aware (value : datetime) : result datetime := astimezone_utc (assume_utc value).

(** [acquisition_runtime/store.py:100-102 _cycle_ref] *)
Definition _cycle_ref (config_fingerprint opportunity_key : string) : string :=
  sha256_hexdigest ("acquisition-runtime-cycle-v1" +:+ NUL +:+ config_fingerprint +:+ NUL
                    +:+ opportunity_key).

(** ** Writing the rows

    A written row: the columns it sets are given as they are read back. *)

Definition check_lease (r : lease_row) : result lease_row :=
  let! _ := opt_mapM (varchar "owner_ref" 256) (ls_owner_ref r) in
  let! _ := int4 "generation" (ls_generation r) in
  let! _ := check_constraint "ck_acquisition_runtime_lease_generation" (0 <=? ls_generation r) in
  let! _ := check_constraint "ck_acquisition_runtime_lease_lifecycle" (lease_lifecycle r) in
  Ok r.

Definition check_cycle (r : cycle_row) : result cycle_row :=
  let! _ := varchar "cycle_ref" 64 (cy_cycle_ref r) in
  let! _ := varchar "opportunity_key" 256 (cy_opportunity_key r) in
  let! _ := varchar "config_fingerprint" 64 (cy_config_fingerprint r) in
  let! _ := opt_mapM (varchar "last_reason_code" 100) (cy_last_reason_code r) in
  let! _ := check_constraint "ck_acquisition_runtime_cycle_cost" (dec_leb dec_zero (cy_spent_cost r)) in
  let! _ := check_constraint "ck_acquisition_runtime_cycle_lifecycle" (cycle_lifecycle r) in
  Ok r.

Definition check_stage (r : stage_row) : result stage_row :=
  let! _ := int4 "attempt_count" (sg_attempt_count r) in
  let! _ := opt_mapM (varchar "plan_ref" 256) (sg_plan_ref r) in
  let! _ := opt_mapM (varchar "command" 64) (sg_command r) in
  let! _ := opt_mapM (varchar "argument_fingerprint" 64) (sg_argument_fingerprint r) in
  let! _ := check_constraint "ck_acquisition_runtime_stage_cost"
              (dec_leb dec_zero (sg_reserved_cost r) && dec_leb dec_zero (sg_observed_cost r)) in
  let! _ := check_constraint "ck_acquisition_runtime_stage_lifecycle" (stage_lifecycle r) in
  let! _ := check_constraint "ck_acquisition_runtime_stage_retry"
              (retry_columns (sg_status r) (sg_retry_at r) (sg_replay_same_attempt r)) in
  Ok r.

Definition check_attempt (r : attempt_row) : result attempt_row :=
  let! _ := int4 "attempt_count" (at_attempt_count r) in
  let! _ := check_constraint "ck_acquisition_runtime_attempt_status"
              (negb (bool_decide (at_status r = PENDING))) in
  let! _ := check_constraint "ck_acquisition_runtime_attempt_count" (1 <=? at_attempt_count r) in
  let! _ := check_constraint "ck_acquisition_runtime_attempt_cost"
              (dec_leb dec_zero (at_reserved_cost r) && dec_leb dec_zero (at_observed_cost r)) in
  let! _ := check_constraint "ck_acquisition_runtime_attempt_lifecycle" (attempt_lifecycle r) in
  let! _ := check_constraint "ck_acquisition_runtime_attempt_retry"
              (retry_columns (at_status r) (at_retry_at r) (at_replay_same_attempt r)) in
  Ok r.

(** [UPDATE ... WHERE ... RETURNING ...]: the row after the update, when
    there is one that the condition selects. *)
Definition update_lease (db : runtime_db) (where_ : lease_row -> bool) (set_ : lease_row -> lease_row)
  : result (option lease_row * runtime_db) :=
  match rdb_lease db with
  | Some row =>
      if where_ row
      then let! row' := check_lease (set_ row) in Ok (Some row', with_lease db row')
      else Ok (None, db)
  | None => Ok (None, db)
  end.

Definition update_cycle (db : runtime_db) (cycle_ref : string)
    (set_ : cycle_row -> result cycle_row) : result runtime_db :=
  match rdb_cycles db !! cycle_ref with
  | Some row => let! row' := set_ row in let! row' := check_cycle row' in Ok (with_cycle db row')
  | None => Ok db
  end.

Definition update_stage (db : runtime_db) (cycle_ref : string) (stage : AcquisitionRuntimeStage)
    (set_ : stage_row -> result stage_row) : result (option stage_row * runtime_db) :=
  match rdb_stages db !! (cycle_ref, stage) with
  | Some row =>
      let! row' := set_ row in let! row' := check_stage row' in
      Ok (Some row', with_stage db row')
  | None => Ok (None, db)
  end.

Definition update_attempt (db : runtime_db) (key : attempt_key) (where_ : attempt_row -> bool)
    (set_ : attempt_row -> result attempt_row) : result runtime_db :=
  match rdb_attempts db !! key with
  | Some row =>
      if where_ row
      then let! row' := set_ row in let! row' := check_attempt row' in Ok (with_attempt_at db key row')
      else Ok db
  | None => Ok db
  end.

(** [insert_if_absent] on the primary key; the cycle of the row must exist. *)
Definition insert_attempt (db : runtime_db) (row : attempt_row) : result (bool * runtime_db) :=
  let! row := check_attempt row in
  if truthy (rdb_attempts db !! key_of row) then Ok (false, db)
  else
    let! _ := check_constraint "acquisition_runtime_stage_attempt_cycle_ref_fkey"
                (truthy (rdb_cycles db !! at_cycle_ref row)) in
    Ok (true, with_attempt db row).

Definition insert_stage (db : runtime_db) (row : stage_row) : result runtime_db :=
  let! row := check_stage row in
  if truthy (rdb_stages db !! (sg_cycle_ref row, sg_stage row)) then Ok db
  else
    let! _ := check_constraint "acquisition_runtime_stage_cycle_ref_fkey"
                (truthy (rdb_cycles db !! sg_cycle_ref row)) in
    Ok (with_stage db row).

(** ** The lease *)

(** [acquisition_runtime/store.py:1167-1180 AcquisitionRuntimeStore._lease_row] *)
Definition _lease_row (db : runtime_db) : result lease_row :=
  option_to_result (AcquisitionRuntimeConflict "runtime lease is unavailable") (rdb_lease db).

(** [acquisition_runtime/store.py:1182-1195 AcquisitionRuntimeStore._database_now] *)
Definition _database_now (clock fallback : option datetime) : result datetime :=
  match clock with
  | Some value => _aware value
  | None =>
      match fallback with
      | None => Raise (AcquisitionRuntimeConflict "runtime lease clock is unavailable")
      | Some fallback => require_aware fallback
      end
  end.

(** [acquisition_runtime/store.py:1159-1164 AcquisitionRuntimeStore._require_active_lease]: the
    lease is that of the owner and of the token, and has not expired. *)
Definition lease_held (row : lease_row) (owner_ref : string) (fencing_token : Z) (observed_at : datetime)
  : result bool :=
  if negb (bool_decide (ls_owner_ref row = Some owner_ref)) then Ok false
  else if negb (ls_generation row =? fencing_token) then Ok false
  else
    match ls_expires_at row with
    | None => Ok false
    | Some expires_at => let! expires_at := _aware expires_at in Ok (negb (dt_leb expires_at observed_at))
    end.

(** [acquisition_runtime/store.py:1146-1165 AcquisitionRuntimeStore._require_active_lease] *)
Definition _require_active_lease (db : runtime_db) (clock : option datetime) (owner_ref : string)
    (fencing_token : Z) (at_ : datetime) : result unit :=
  let! row := _lease_row db in
  let! observed_at := _database_now clock (Some at_) in
  let! held := lease_held row owner_ref fencing_token observed_at in
  require! held
  else AcquisitionRuntimeConflict "runtime observation requires the active lease owner" in
  Ok tt.

(** [acquisition_runtime/store.py:130-142 AcquisitionRuntimeStore.acquire_lease]: the row is there. *)
Definition ensure_lease (db : runtime_db) : runtime_db :=
  match rdb_lease db with Some _ => db | None => with_lease db (mkLease None None None None 0) end.

(** [acquisition_runtime/store.py:123-181 AcquisitionRuntimeStore.acquire_lease] *)
Definition acquire_lease (db : runtime_db) (clock : option datetime) (owner_ref : string)
    (acquired_at : datetime) (lease_seconds : Z) : result (RuntimeLeaseResult * runtime_db) :=
  let! acquired_at := require_aware acquired_at in
  let db := ensure_lease db in
  let! row := _lease_row db in
  let! observed_at := _database_now clock (Some acquired_at) in
  let! expires_at := dt_add observed_at (lease_seconds * US_SECOND) in
  let previous_owner := ls_owner_ref row in
  let! expired :=
    match ls_expires_at row with
    | None => Ok false
    | Some e => let! e := _aware e in Ok (dt_leb e observed_at)
    end in
  let eligible := bool_decide (previous_owner = None) || bool_decide (previous_owner = Some owner_ref)
                  || expired in
  if negb eligible then
    let! l := lease_result_validate (mkLeaseResult false false None) in Ok (l, db)
  else
    let generation := ls_generation row + 1 in
    let! (updated, db) :=
      update_lease db (fun r => ls_generation r =? ls_generation row)
        (fun _ => mkLease (Some owner_ref) (Some (timestamptz observed_at))
                    (Some (timestamptz observed_at)) (Some (timestamptz expires_at)) generation) in
    match updated with
    | None => let! l := lease_result_validate (mkLeaseResult false false None) in Ok (l, db)
    | Some _ =>
        let! l := lease_result_validate
          (mkLeaseResult true
             (truthy previous_owner && negb (bool_decide (previous_owner = Some owner_ref)) && expired)
             (Some generation)) in
        Ok (l, db)
    end.

(** The row with a later heartbeat and expiry. *)
Definition prolonged (observed_at expires_at : datetime) (r : lease_row) : lease_row :=
  mkLease (ls_owner_ref r) (ls_acquired_at r) (Some (timestamptz observed_at))
    (Some (timestamptz expires_at)) (ls_generation r).

Definition owned_by (owner_ref : string) (fencing_token : Z) (r : lease_row) : bool :=
  bool_decide (ls_owner_ref r = Some owner_ref) && (ls_generation r =? fencing_token).

(** [acquisition_runtime/store.py:183-217 AcquisitionRuntimeStore.heartbeat_lease] *)
Definition heartbeat_lease (db : runtime_db) (clock : option datetime) (owner_ref : string)
    (fencing_token : Z) (at_ : datetime) (lease_seconds : Z) : result runtime_db :=
  let! at_ := require_aware at_ in
  let! row := _lease_row db in
  let! observed_at := _database_now clock (Some at_) in
  let! held := lease_held row owner_ref fencing_token observed_at in
  require! held else AcquisitionRuntimeConflict "runtime lease ownership was lost" in
  let! expires_at := dt_add observed_at (lease_seconds * US_SECOND) in
  let! (updated, db) :=
    update_lease db
      (fun r => owned_by owner_ref fencing_token r
                && match ls_expires_at r with Some e => dt_ltb observed_at e | None => false end)
      (prolonged observed_at expires_at) in
  require! truthy updated else AcquisitionRuntimeConflict "runtime lease ownership was lost" in
  Ok db.

(** [acquisition_runtime/store.py:219-241 AcquisitionRuntimeStore.release_lease] *)
Definition release_lease (db : runtime_db) (owner_ref : string) (fencing_token : Z) (at_ : datetime)
  : result runtime_db :=
  let! _ := require_aware at_ in
  let! (_, db) := update_lease db (owned_by owner_ref fencing_token)
                    (fun r => mkLease None None None None (ls_generation r)) in
  Ok db.

(** [acquisition_runtime/store.py:54-91 AcquisitionRuntimeExecutionGuard]:
    the business action runs while the row of the lease is locked, and the
    prolonged lease is kept when the action does not raise. *)
Definition protect {A} (db : runtime_db) (clock : option datetime) (owner_ref : string)
    (fencing_token : Z) (lease_seconds : Z) (action : datetime -> result A) : result (A * runtime_db) :=
  let! row := _lease_row db in
  let! fallback := opt_mapM _aware (ls_heartbeat_at row) in
  let! observed_at := _database_now clock fallback in
  let! held := lease_held row owner_ref fencing_token observed_at in
  require! held
  else AcquisitionRuntimeConflict "runtime business action lost its fencing lease" in
  let! expires_at := dt_add observed_at (lease_seconds * US_SECOND) in
  let! (_, db) := update_lease db (owned_by owner_ref fencing_token) (prolonged observed_at expires_at) in
  let! value := action observed_at in
  Ok (value, db).

(** ** Reading rows *)

(** [acquisition_runtime/store.py:1096-1109 AcquisitionRuntimeStore._cycle] *)
Definition _cycle (db : runtime_db) (cycle_ref : string) : result cycle_row :=
  option_to_result (KeyError cycle_ref) (rdb_cycles db !! cycle_ref).

(** [acquisition_runtime/store.py:1111-1131 AcquisitionRuntimeStore._stage] *)
Definition _stage (db : runtime_db) (cycle_ref : string) (stage : AcquisitionRuntimeStage)
  : result stage_row :=
  option_to_result (KeyError cycle_ref) (rdb_stages db !! (cycle_ref, stage)).

(** [acquisition_runtime/store.py:1069-1082 AcquisitionRuntimeStore._snapshot] *)
Definition _snapshot (row : cycle_row) : result RuntimeCycleSnapshot :=
  let! started_at := _aware (cy_started_at row) in
  cycle_snapshot_validate
    (mkCycleSnapshot (cy_cycle_ref row) (cy_opportunity_key row) (cy_status row) (cy_next_stage row)
       (cy_spent_cost row) started_at).

(** [acquisition_runtime/store.py:1084-1094 AcquisitionRuntimeStore._stage_snapshot] *)
Definition _stage_snapshot (row : stage_row) : result RuntimeStageSnapshot :=
  let! retry_at := opt_mapM _aware (sg_retry_at row) in
  stage_snapshot_validate
    (mkStageSnapshot (sg_cycle_ref row) (sg_stage row) (sg_status row) (sg_attempt_count row)
       (sg_result_refs row) retry_at (sg_replay_same_attempt row)).

(** [max(a, b)] *)
Definition dec_max (a b : decimal) : decimal := if dec_ltb a b then b else a.

(** The attempts of a cycle. *)
Definition attempts_of (db : runtime_db) (cycle_ref : string) : list attempt_row :=
  List.filter (fun r => bool_decide (at_cycle_ref r = cycle_ref)) (map snd (map_to_list (rdb_attempts db))).

(** What an attempt is charged. *)
Definition charge (r : attempt_row) : decimal := dec_max (at_reserved_cost r) (at_observed_cost r).

(** [acquisition_runtime/store.py:1133-1144 AcquisitionRuntimeStore._spent_cost] *)
Definition _spent_cost (db : runtime_db) (cycle_ref : string) : decimal :=
  foldl dec_add dec_zero (map charge (attempts_of db cycle_ref)).

(** ** Cycles *)

(** The row of an opportunity under a configuration. *)
Definition cycle_for (db : runtime_db) (config_fingerprint opportunity_key : string) : option cycle_row :=
  first_match (fun r => bool_decide (cy_config_fingerprint r = config_fingerprint)
                        && bool_decide (cy_opportunity_key r = opportunity_key))
    (map snd (map_to_list (rdb_cycles db))).

(** A stage that has not begun. *)
Definition pending_stage (cycle_ref : string) (at_ : datetime) (stage : AcquisitionRuntimeStage)
  : stage_row :=
  mkStage cycle_ref stage PENDING 0 None None None [] dec_zero dec_zero [] None false None None
    (timestamptz at_).

Fixpoint insert_stages (db : runtime_db) (rows : list stage_row) : result runtime_db :=
  match rows with
  | [] => Ok db
  | row :: rows' => let! db := insert_stage db row in insert_stages db rows'
  end.

(** [acquisition_runtime/store.py:1002-1067 AcquisitionRuntimeStore._create_cycle] *)
Definition _create_cycle (db : runtime_db) (opportunity_key config_fingerprint : string)
    (at_ : datetime) : result (RuntimeCycleSnapshot * runtime_db) :=
  let cycle_ref := _cycle_ref config_fingerprint opportunity_key in
  let! zero := numeric 12 6 dec_zero in
  let! row := check_cycle
    (mkCycle cycle_ref opportunity_key config_fingerprint CyclePENDING (Some SIGNAL_SEED) zero None
       (timestamptz at_) (timestamptz at_) None) in
  let! db :=
    match cycle_for db config_fingerprint opportunity_key with
    | Some _ => Ok db
    | None =>
        let! _ := check_constraint "acquisition_runtime_cycle_pkey"
                    (negb (truthy (rdb_cycles db !! cycle_ref))) in
        Ok (with_cycle db row)
    end in
  let! db := insert_stages db (map (pending_stage cycle_ref at_) stages) in
  let! row := option_to_result NoResultFound (rdb_cycles db !! cycle_ref) in
  let! snapshot := _snapshot row in
  Ok (snapshot, db).

(** The first opportunity whose cycle is not over, and the first without a
    cycle. *)
Definition unfinished_cycle (db : runtime_db) (config_fingerprint : string) (keys : list string)
  : option cycle_row :=
  first_match (fun r => negb (terminal (cy_status r))) (omap (cycle_for db config_fingerprint) keys).
Definition unseen_opportunity (db : runtime_db) (config_fingerprint : string) (keys : list string)
  : option string :=
  first_match (fun k => negb (truthy (cycle_for db config_fingerprint k))) keys.

(** [acquisition_runtime/store.py:398-440 AcquisitionRuntimeStore.resume_or_create_cycle] *)
Definition resume_or_create_cycle (db : runtime_db) (clock : option datetime) (owner_ref : string)
    (fencing_token : Z) (opportunity_keys : list string) (config_fingerprint : string)
    (at_ : datetime) : result (RuntimeCycleSnapshot * runtime_db) :=
  let! at_ := require_aware at_ in
  require! list_truthy opportunity_keys
  else ValueError "at least one runtime opportunity is required" in
  let! _ := _require_active_lease db clock owner_ref fencing_token at_ in
  match unfinished_cycle db config_fingerprint opportunity_keys with
  | Some row => let! snapshot := _snapshot row in Ok (snapshot, db)
  | None =>
      match unseen_opportunity db config_fingerprint opportunity_keys with
      | Some key => _create_cycle db key config_fingerprint at_
      | None =>
          let! row := option_to_result (KeyError "opportunity_keys")
                        (head opportunity_keys ≫= cycle_for db config_fingerprint) in
          let! snapshot := _snapshot row in
          Ok (snapshot, db)
      end
  end.

(** A cycle with the columns of its progress replaced. *)
Definition cycle_progress (r : cycle_row) (status : RuntimeCycleStatus)
    (next_stage : option AcquisitionRuntimeStage) (spent : decimal) (reason : option string)
    (updated : datetime) (completed : option datetime) : cycle_row :=
  mkCycle (cy_cycle_ref r) (cy_opportunity_key r) (cy_config_fingerprint r) status next_stage spent
    reason (cy_started_at r) (timestamptz updated) (timestamptz <$> completed).

(** [acquisition_runtime/store.py:374-396 AcquisitionRuntimeStore.abandon_cycle] *)
Definition abandon_cycle (db : runtime_db) (cycle_ref reason : string) (at_ : datetime)
  : result (bool * runtime_db) :=
  let! at_ := require_aware at_ in
  let cleaned := strip reason in
  require! nonempty cleaned && (len cleaned <=? 200)
  else ValueError "abandon reason must contain 1-200 characters" in
  let! row := _cycle db cycle_ref in
  if terminal (cy_status row) then Ok (false, db)
  else
    let! db := update_cycle db cycle_ref (fun r =>
      Ok (cycle_progress r CycleSUPPRESSED None (cy_spent_cost r) (Some "OPERATOR_ABANDONED")
            at_ (Some at_))) in
    Ok (true, db).

(** [[A-Z][A-Z0-9_]{0,127}] *)
Definition is_machine_reason (s : string) : bool :=
  match s with
  | EmptyString => false
  | String c t =>
      is_upper c && (len t <=? 127)
      && all_chars (fun d => is_upper d || is_digit d || eqc d "_") t
  end.

(** [acquisition_runtime/store.py:359-372 AcquisitionRuntimeStore.read_cycle_reason_code] *)
Definition read_cycle_reason_code (db : runtime_db) (cycle_ref : string) : option string :=
  match rdb_cycles db !! cycle_ref ≫= cy_last_reason_code with
  | None => None
  | Some value => Some (if is_machine_reason value then value else "RUNTIME_CYCLE_REASON_INVALID")
  end.

(** [acquisition_runtime/store.py:964-1000 AcquisitionRuntimeStore.finish_cycle] *)
Definition finish_cycle (db : runtime_db) (clock : option datetime) (cycle_ref : string)
    (status : RuntimeCycleStatus) (owner_ref : string) (fencing_token : Z) (at_ : datetime)
    (reason_code : option string) : result runtime_db :=
  let! at_ := require_aware at_ in
  let! _ := _require_active_lease db clock owner_ref fencing_token at_ in
  let! cycle := _cycle db cycle_ref in
  let next_stage := cy_next_stage cycle in
  require! negb (bool_decide (status = CycleSUCCEEDED) && truthy next_stage)
  else AcquisitionRuntimeConflict "incomplete runtime cycle cannot succeed" in
  update_cycle db cycle_ref (fun r =>
    Ok (cycle_progress r status (if terminal status then None else next_stage) (cy_spent_cost r)
          reason_code at_ (if terminal status then Some at_ else None))).

(** ** Stages *)

(** [acquisition_runtime/store.py:471-536 AcquisitionRuntimeStore.begin_stage]: the same attempt
    goes on. *)
Definition replay_attempt (db : runtime_db) (row : stage_row) (at_ : datetime)
  : result (RuntimeStageSnapshot * runtime_db) :=
  let key := (sg_cycle_ref row, sg_stage row, sg_attempt_count row) in
  let! attempt := option_to_result NoResultFound (rdb_attempts db !! key) in
  require! bool_decide (at_status attempt = WAITING) && at_replay_same_attempt attempt
  else AcquisitionRuntimeConflict "runtime same-attempt replay checkpoint drifted" in
  let! db := update_attempt db key (fun _ => true) (fun r =>
    Ok (mkAttempt (at_cycle_ref r) (at_stage r) (at_attempt_count r) RUNNING (at_reserved_cost r)
          (at_observed_cost r) (at_proposal r) None false None)) in
  let! (updated, db) := update_stage db (sg_cycle_ref row) (sg_stage row) (fun r =>
    Ok (mkStage (sg_cycle_ref r) (sg_stage r) RUNNING (sg_attempt_count r) (sg_plan_ref r)
          (sg_command r) (sg_argument_fingerprint r) (sg_result_refs r) (sg_reserved_cost r)
          (sg_observed_cost r) [] None false (sg_started_at r) None (timestamptz at_))) in
  let! updated := option_to_result NoResultFound updated in
  let! db := update_cycle db (sg_cycle_ref row) (fun r =>
    Ok (mkCycle (cy_cycle_ref r) (cy_opportunity_key r) (cy_config_fingerprint r) CycleRUNNING
          (cy_next_stage r) (cy_spent_cost r) None (cy_started_at r) (timestamptz at_)
          (cy_completed_at r))) in
  let! snapshot := _stage_snapshot updated in
  Ok (snapshot, db).

(** [acquisition_runtime/store.py:537-578 AcquisitionRuntimeStore.begin_stage]: a new attempt. *)
Definition start_attempt (db : runtime_db) (row : stage_row) (at_ : datetime)
  : result (RuntimeStageSnapshot * runtime_db) :=
  let! (updated, db) := update_stage db (sg_cycle_ref row) (sg_stage row) (fun r =>
    let! zero := numeric 12 6 dec_zero in
    Ok (mkStage (sg_cycle_ref r) (sg_stage r) RUNNING (sg_attempt_count row + 1) None None None
          (sg_result_refs r) zero zero [] None false (Some (timestamptz at_)) None
          (timestamptz at_))) in
  let! updated := option_to_result NoResultFound updated in
  let! db := update_cycle db (sg_cycle_ref row) (fun r =>
    Ok (cycle_progress r CycleRUNNING (Some (sg_stage row)) (cy_spent_cost r) None at_ None)) in
  let! snapshot := _stage_snapshot updated in
  Ok (snapshot, db).

(** [acquisition_runtime/store.py:442-578 AcquisitionRuntimeStore.begin_stage] *)
Definition begin_stage (db : runtime_db) (clock : option datetime) (cycle_ref : string)
    (stage : AcquisitionRuntimeStage) (owner_ref : string) (fencing_token : Z) (at_ : datetime)
  : result (RuntimeStageSnapshot * runtime_db) :=
  let! at_ := require_aware at_ in
  let! _ := _require_active_lease db clock owner_ref fencing_token at_ in
  let! row := _stage db cycle_ref stage in
  let! not_due :=
    match sg_status row, sg_retry_at row with
    | WAITING, Some retry_at => let! retry_at := _aware retry_at in Ok (dt_ltb at_ retry_at)
    | _, _ => Ok false
    end in
  if not_due : bool then let! snapshot := _stage_snapshot row in Ok (snapshot, db)
  else if in_list (sg_status row) [SUCCEEDED; SUPPRESSED]
  then Raise (AcquisitionRuntimeConflict "terminal runtime stage cannot restart")
  else if bool_decide (sg_status row = RUNNING)
  then let! snapshot := _stage_snapshot row in Ok (snapshot, db)
  else if bool_decide (sg_status row = WAITING) && sg_replay_same_attempt row
  then replay_attempt db row at_
  else start_attempt db row at_.
End store.
