(* ===== verification/RuntimeAttempts.v ===== *)
(** RuntimeAttempts: the operations of [acquisition_runtime/store.py] on the
    attempts of a stage: the cost an attempt reserves before anything is
    asked of the supervisor or of a provider, the proposal bound to it, its
    result, and the observations of the runtime.  Then all the operations of
    the store as the steps of one transition system, and what each way of
    writing a row changes. *)

From S2P Require Import Prelude PyStr PyDatetime PyDecimal PyJson AcquisitionContracts.
From S2P Require Import Database RuntimeContracts RuntimeStore.
From Stdlib Require Import Ascii String.
From stdpp Require Import gmap.

Local Open Scope string_scope.
Local Open Scope Z_scope.
Local Open Scope list_scope.

(** [acquisition_runtime/store.py:1265-1276 AcquisitionRuntimeStore._next_stage_after] *)
Definition _next_stage_after (stage : AcquisitionRuntimeStage) (status : RuntimeStageStatus)
  : option AcquisitionRuntimeStage :=
  match status with
  | SUPPRESSED => None
  | SUCCEEDED =>
      match list_find (eq stage) stages with
      | Some (index, _) => stages !! S index
      | None => None
      end
  | _ => Some stage
  end.

(** The status of the cycle after a result: [RuntimeCycleStatus(result.status.value)]. *)
Definition cycle_status_of (status : RuntimeStageStatus) : result RuntimeCycleStatus :=
  if bool_decide (status = SUCCEEDED) then Ok CycleRUNNING
  else option_to_result (ValueError (stage_status_value status)) (se_parse (stage_status_value status)).

(** [acquisition_runtime/store.py:635-635 AcquisitionRuntimeStore.reserve_stage_cost]: the test
    of the budget. *)
Definition over_budget (total reserved maximum : decimal) : bool :=
  dec_ltb maximum (dec_add total reserved).

(** [acquisition_runtime/store.py:624-632 AcquisitionRuntimeStore.reserve_stage_cost]: the attempt
    was interrupted before its cost was reserved. *)
Definition unreserved_interruption (attempt : attempt_row) (reserved_cost : decimal) : bool :=
  bool_decide (at_status attempt = RUNNING) && dec_eqb (at_reserved_cost attempt) dec_zero
  && dec_ltb dec_zero reserved_cost && dec_eqb (at_observed_cost attempt) dec_zero
  && negb (truthy (at_proposal attempt)) && negb (truthy (at_retry_at attempt))
  && negb (truthy (at_completed_at attempt)).

(** [acquisition_runtime/store.py:677-683 AcquisitionRuntimeStore.reserve_stage_cost]: the
    reservation of the attempt cannot be given again. *)
Definition not_replay_safe (attempt : attempt_row) (reserved_cost : decimal) : bool :=
  negb (bool_decide (at_status attempt = RUNNING))
  || negb (dec_eqb (at_reserved_cost attempt) reserved_cost)
  || negb (dec_eqb (at_observed_cost attempt) dec_zero)
  || truthy (at_retry_at attempt) || truthy (at_completed_at attempt).

Section attempts.
Context `{Hash : HashLib} `{DB : Database}.

(** ** Reservations *)

(** [acquisition_runtime/store.py:655-670 AcquisitionRuntimeStore.reserve_stage_cost]: the
    reservation on the rows of the stage and of the cycle. *)
Definition charge_stage (db : runtime_db) (cycle_ref : string) (stage : AcquisitionRuntimeStage)
    (total_before reserved_cost : decimal) (at_ : datetime) : result runtime_db :=
  let! (_, db) := update_stage db cycle_ref stage (fun r =>
    let! reserved := numeric 12 6 reserved_cost in
    Ok (mkStage (sg_cycle_ref r) (sg_stage r) (sg_status r) (sg_attempt_count r) (sg_plan_ref r)
          (sg_command r) (sg_argument_fingerprint r) (sg_result_refs r) reserved
          (sg_observed_cost r) (sg_reason_codes r) (sg_retry_at r) (sg_replay_same_attempt r)
          (sg_started_at r) (sg_completed_at r) (timestamptz at_))) in
  update_cycle db cycle_ref (fun r =>
    let! spent := numeric 12 6 (dec_add total_before reserved_cost) in
    Ok (mkCycle (cy_cycle_ref r) (cy_opportunity_key r) (cy_config_fingerprint r) (cy_status r)
          (cy_next_stage r) spent (cy_last_reason_code r) (cy_started_at r) (timestamptz at_)
          (cy_completed_at r))).

(** What is returned with the tables. *)
Definition reservation (accepted created : bool) (reserved_cost total : decimal)
    (proposal : option RuntimeProposal) (db : runtime_db)
  : result (RuntimeStageReservation * runtime_db) :=
  let! r := reservation_validate (mkReservation accepted created reserved_cost total proposal) in
  Ok (r, db).

(** [acquisition_runtime/store.py:624-676 AcquisitionRuntimeStore.reserve_stage_cost]: the
    attempt has no reservation yet. *)
Definition reserve_interrupted (db : runtime_db) (attempt : attempt_row)
    (reserved_cost maximum_cycle_cost : decimal) (at_ : datetime)
  : result (RuntimeStageReservation * runtime_db) :=
  let total_before := _spent_cost db (at_cycle_ref attempt) in
  if over_budget total_before reserved_cost maximum_cycle_cost
  then reservation false false reserved_cost total_before None db
  else
    let! db := update_attempt db (key_of attempt)
      (fun r => bool_decide (at_status r = RUNNING) && dec_eqb (at_reserved_cost r) dec_zero)
      (fun r =>
        let! reserved := numeric 12 6 reserved_cost in
        Ok (mkAttempt (at_cycle_ref r) (at_stage r) (at_attempt_count r) (at_status r) reserved
              (at_observed_cost r) (at_proposal r) (at_retry_at r) (at_replay_same_attempt r)
              (at_completed_at r))) in
    let! db := charge_stage db (at_cycle_ref attempt) (at_stage attempt) total_before reserved_cost at_ in
    reservation true true reserved_cost (dec_add total_before reserved_cost) None db.

(** [acquisition_runtime/store.py:677-698 AcquisitionRuntimeStore.reserve_stage_cost]: the
    reservation of the attempt, with the proposal bound to it. *)
Definition reserve_again (db : runtime_db) (attempt : attempt_row) (reserved_cost : decimal)
  : result (RuntimeStageReservation * runtime_db) :=
  require! negb (not_replay_safe attempt reserved_cost)
  else AcquisitionRuntimeConflict "runtime attempt reservation is not replay safe" in
  let total := _spent_cost db (at_cycle_ref attempt) in
  let! proposal := opt_mapM proposal_validate (at_proposal attempt) in
  reservation true false reserved_cost total proposal db.

(** [acquisition_runtime/store.py:699-757 AcquisitionRuntimeStore.reserve_stage_cost]: a new
    attempt. *)
Definition reserve_new (db : runtime_db) (key : attempt_key)
    (reserved_cost maximum_cycle_cost : decimal) (at_ : datetime)
  : result (RuntimeStageReservation * runtime_db) :=
  let '(cycle_ref, stage, attempt_count) := key in
  let total_before := _spent_cost db cycle_ref in
  if over_budget total_before reserved_cost maximum_cycle_cost
  then reservation false false reserved_cost total_before None db
  else
    let! reserved := numeric 12 6 reserved_cost in
    let! zero := numeric 12 6 dec_zero in
    let! (inserted, db) := insert_attempt db
      (mkAttempt cycle_ref stage attempt_count RUNNING reserved zero None None false None) in
    require! inserted
    else AcquisitionRuntimeConflict "runtime attempt reservation raced its fencing transaction" in
    let! db := charge_stage db cycle_ref stage total_before reserved_cost at_ in
    reservation true true reserved_cost (dec_add total_before reserved_cost) None db.

(** [acquisition_runtime/store.py:580-757 AcquisitionRuntimeStore.reserve_stage_cost] *)
Definition reserve_stage_cost (db : runtime_db) (clock : option datetime) (cycle_ref : string)
    (stage : AcquisitionRuntimeStage) (stage_snapshot : RuntimeStageSnapshot)
    (reserved_cost maximum_cycle_cost : decimal) (owner_ref : string) (fencing_token : Z)
    (at_ : datetime) : result (RuntimeStageReservation * runtime_db) :=
  let! at_ := require_aware at_ in
  let! _ := _require_active_lease db clock owner_ref fencing_token at_ in
  let! row := _stage db cycle_ref stage in
  let! _ := _cycle db cycle_ref in
  require! bool_decide (sg_status row = RUNNING)
           && (sg_attempt_count row =? rs_attempt_count stage_snapshot)
  else AcquisitionRuntimeConflict "runtime attempt cannot reserve cost" in
  let key := (cycle_ref, stage, rs_attempt_count stage_snapshot) in
  match rdb_attempts db !! key with
  | Some attempt =>
      if unreserved_interruption attempt reserved_cost
      then reserve_interrupted db attempt reserved_cost maximum_cycle_cost at_
      else reserve_again db attempt reserved_cost
  | None => reserve_new db key reserved_cost maximum_cycle_cost at_
  end.

(** ** Proposals *)

(** [acquisition_runtime/store.py:759-832 AcquisitionRuntimeStore.bind_stage_proposal] *)
Definition bind_stage_proposal (db : runtime_db) (clock : option datetime) (cycle_ref : string)
    (stage : AcquisitionRuntimeStage) (stage_snapshot : RuntimeStageSnapshot)
    (proposal : RuntimeProposal) (owner_ref : string) (fencing_token : Z) (at_ : datetime)
  : result (RuntimeProposal * runtime_db) :=
  let! at_ := require_aware at_ in
  let! _ := _require_active_lease db clock owner_ref fencing_token at_ in
  let! row := _stage db cycle_ref stage in
  let key := (cycle_ref, stage, rs_attempt_count stage_snapshot) in
  let! attempt := option_to_result NoResultFound (rdb_attempts db !! key) in
  require! bool_decide (sg_status row = RUNNING)
           && (sg_attempt_count row =? rs_attempt_count stage_snapshot)
           && bool_decide (at_status attempt = RUNNING)
           && dec_eqb (at_reserved_cost attempt) (rp_estimated_cost proposal)
  else AcquisitionRuntimeConflict "runtime proposal does not match its reserved attempt" in
  match at_proposal attempt with
  | Some stored =>
      let! replay := proposal_validate stored in
      require! proposal_eqb replay proposal
      else AcquisitionRuntimeConflict "runtime proposal changed during replay" in
      Ok (replay, db)
  | None =>
      let! db := update_attempt db key (fun _ => true) (fun r =>
        Ok (mkAttempt (at_cycle_ref r) (at_stage r) (at_attempt_count r) (at_status r)
              (at_reserved_cost r) (at_observed_cost r) (Some proposal) (at_retry_at r)
              (at_replay_same_attempt r) (at_completed_at r))) in
      let! (_, db) := update_stage db cycle_ref stage (fun r =>
        Ok (mkStage (sg_cycle_ref r) (sg_stage r) (sg_status r) (sg_attempt_count r)
              (Some (rp_plan_ref proposal)) (Some (rp_command proposal))
              (Some (rp_argument_fingerprint proposal)) (sg_result_refs r) (sg_reserved_cost r)
              (sg_observed_cost r) (sg_reason_codes r) (sg_retry_at r)
              (sg_replay_same_attempt r) (sg_started_at r) (sg_completed_at r)
              (timestamptz at_))) in
      Ok (proposal, db)
  end.

(** ** Results *)

(** The attempt with its result. *)
Definition finalized (r : attempt_row) (action_result : RuntimeActionResult) (observed : decimal)
    (at_ : datetime) : attempt_row :=
  mkAttempt (at_cycle_ref r) (at_stage r) (at_attempt_count r) (ra_status action_result)
    (at_reserved_cost r) observed (at_proposal r) (timestamptz <$> ra_retry_at action_result)
    (ra_replay_same_attempt action_result) (Some (timestamptz at_)).

(** [acquisition_runtime/store.py:867-919 AcquisitionRuntimeStore.finish_stage]: the row of
    the attempt, and the cost it has reserved. *)
Definition finish_attempt (db : runtime_db) (key : attempt_key) (action_result : RuntimeActionResult)
    (proposal : option RuntimeProposal) (at_ : datetime) : result (decimal * runtime_db) :=
  let '(cycle_ref, stage, attempt_count) := key in
  match rdb_attempts db !! key with
  | None =>
      let! reserved := numeric 12 6 (ra_reserved_cost action_result) in
      let! observed := numeric 12 6 (ra_observed_cost action_result) in
      let! (_, db) := insert_attempt db
        (finalized (mkAttempt cycle_ref stage attempt_count RUNNING reserved observed proposal None
                      false None) action_result observed at_) in
      Ok (ra_reserved_cost action_result, db)
  | Some attempt =>
      require! bool_decide (at_status attempt = RUNNING)
      else AcquisitionRuntimeConflict "runtime attempt was already finalized" in
      let reserved_cost := at_reserved_cost attempt in
      require! dec_eqb (ra_reserved_cost action_result) dec_zero
               || dec_eqb (ra_reserved_cost action_result) reserved_cost
      else AcquisitionRuntimeConflict "runtime attempt reserved cost changed" in
      let! unchanged :=
        match proposal, at_proposal attempt with
        | None, _ => Ok true
        | Some _, None => Ok false
        | Some p, Some stored => let! stored := proposal_validate stored in Ok (proposal_eqb stored p)
        end in
      require! unchanged else AcquisitionRuntimeConflict "runtime attempt proposal changed" in
      let! db := update_attempt db key (fun r => bool_decide (at_status r = RUNNING)) (fun r =>
        let! observed := numeric 12 6 (ra_observed_cost action_result) in
        Ok (finalized r action_result observed at_)) in
      Ok (reserved_cost, db)
  end.

(** [acquisition_runtime/store.py:834-962 AcquisitionRuntimeStore.finish_stage] *)
Definition finish_stage (db : runtime_db) (clock : option datetime) (cycle_ref : string)
    (stage : AcquisitionRuntimeStage) (action_result : RuntimeActionResult) (owner_ref : string)
    (fencing_token : Z) (at_ : datetime) (proposal : option RuntimeProposal) : result runtime_db :=
  let! at_ := require_aware at_ in
  let! _ := _require_active_lease db clock owner_ref fencing_token at_ in
  let! row := _stage db cycle_ref stage in
  require! bool_decide (sg_status row = RUNNING)
  else AcquisitionRuntimeConflict "runtime stage is not owned for completion" in
  let! (reserved_cost, db) :=
    finish_attempt db (cycle_ref, stage, sg_attempt_count row) action_result proposal at_ in
  let! (_, db) := update_stage db cycle_ref stage (fun r =>
    let! reserved := numeric 12 6 reserved_cost in
    let! observed := numeric 12 6 (ra_observed_cost action_result) in
    Ok (mkStage (sg_cycle_ref r) (sg_stage r) (ra_status action_result) (sg_attempt_count r)
          (match proposal with Some p => Some (rp_plan_ref p) | None => sg_plan_ref row end)
          (match proposal with Some p => Some (rp_command p) | None => sg_command row end)
          (match proposal with Some p => Some (rp_argument_fingerprint p)
                             | None => sg_argument_fingerprint row end)
          (ra_result_refs action_result) reserved observed (ra_reason_codes action_result)
          (timestamptz <$> ra_retry_at action_result) (ra_replay_same_attempt action_result)
          (sg_started_at r) (Some (timestamptz at_)) (timestamptz at_))) in
  let next_stage := _next_stage_after stage (ra_status action_result) in
  let spent := _spent_cost db cycle_ref in
  let! cycle_status := cycle_status_of (ra_status action_result) in
  update_cycle db cycle_ref (fun r =>
    let! spent := numeric 12 6 spent in
    Ok (cycle_progress r cycle_status next_stage spent (head (ra_reason_codes action_result)) at_
          (if bool_decide (ra_status action_result = SUPPRESSED) then Some at_ else None))).

(** ** Observations *)

(** Writing the row: its columns fit and its constraints hold. *)
Definition check_observation (r : observation_row) : result observation_row :=
  let h := ce_hermes (ob_capability r) in
  let! _ := varchar "capability_fingerprint" 64 (ob_capability_fingerprint r) in
  let! _ := varchar "environment" 16 (ce_environment (ob_capability r)) in
  let! _ := varchar "hermes_repository" 256 (he_repository h) in
  let! _ := varchar "hermes_tag" 256 (he_tag h) in
  let! _ := varchar "hermes_commit" 40 (he_commit h) in
  let! _ := varchar "hermes_version" 256 (he_version h) in
  let! _ := varchar "hermes_python_contract" 256 (he_python_contract h) in
  let! _ := varchar "registry_identity" 64 (ce_registry_identity (ob_capability r)) in
  let! _ := opt_mapM (varchar "last_cycle_ref" 64) (ob_last_cycle_ref r) in
  let! _ := check_constraint "acquisition_runtime_observation" (observation_checks r) in
  Ok r.

(** [acquisition_runtime/store.py:1217-1230 AcquisitionRuntimeStore._runtime_observation_row] *)
Definition _runtime_observation_row (db : runtime_db) : result observation_row :=
  option_to_result (AcquisitionRuntimeConflict "runtime observation is unavailable")
    (rdb_observation db).

(** [acquisition_runtime/store.py:1232-1263 AcquisitionRuntimeStore._runtime_observation] *)
Definition _runtime_observation (row : observation_row) : result RuntimeHealthObservation :=
  let! capability := capability_validate (ob_capability row) in
  let! fingerprint := capability_fingerprint capability in
  require! bool_decide (fingerprint = ob_capability_fingerprint row)
  else AcquisitionRuntimeConflict "runtime capability fingerprint mismatch" in
  let! observed_at := _aware (ob_observed_at row) in
  let! heartbeat_at := _aware (ob_heartbeat_at row) in
  let! last_cycle_at := opt_mapM _aware (ob_last_cycle_at row) in
  observation_validate
    (mkObservation capability observed_at heartbeat_at (ob_last_cycle_ref row)
       (ob_last_cycle_status row) last_cycle_at).

(** [acquisition_runtime/store.py:243-298 AcquisitionRuntimeStore.record_runtime_observation] *)
Definition record_runtime_observation (db : runtime_db) (clock : option datetime)
    (owner_ref : string) (capability : RuntimeCapabilityEvidence) (fencing_token : Z)
    (at_ : datetime) : result (RuntimeHealthObservation * runtime_db) :=
  let! at_ := require_aware at_ in
  let! fingerprint := capability_fingerprint capability in
  let! _ := _require_active_lease db clock owner_ref fencing_token at_ in
  let! row := check_observation
    (mkObservationRow fingerprint capability (timestamptz at_) (timestamptz at_) None None None
       (timestamptz at_)) in
  let! db :=
    match rdb_observation db with
    | None => Ok (with_observation db row)
    | Some old =>
        require! dt_leb (ob_heartbeat_at old) at_
        else AcquisitionRuntimeConflict "runtime observation timestamp moved backwards" in
        Ok (with_observation db row)
    end in
  let! row := _runtime_observation_row db in
  let! observation := _runtime_observation row in
  Ok (observation, db).

(** [acquisition_runtime/store.py:300-344 AcquisitionRuntimeStore.record_cycle_observation] *)
Definition record_cycle_observation (db : runtime_db) (clock : option datetime)
    (owner_ref cycle_ref : string) (fencing_token : Z) (at_ : datetime)
  : result (RuntimeHealthObservation * runtime_db) :=
  let! at_ := require_aware at_ in
  let! _ := _require_active_lease db clock owner_ref fencing_token at_ in
  let! row := _runtime_observation_row db in
  let! cycle := _cycle db cycle_ref in
  let! cycle_at := _aware (cy_updated_at cycle) in
  require! negb (dt_ltb at_ cycle_at)
  else AcquisitionRuntimeConflict "runtime cycle observation follows its heartbeat" in
  require! dt_leb (ob_heartbeat_at row) at_
  else AcquisitionRuntimeConflict "runtime cycle observation timestamp moved backwards" in
  let! updated := check_observation
    (mkObservationRow (ob_capability_fingerprint row) (ob_capability row) (ob_observed_at row)
       (timestamptz at_) (Some cycle_ref) (Some (cy_status cycle)) (Some (timestamptz at_))
       (timestamptz at_)) in
  let! observation := _runtime_observation updated in
  Ok (observation, with_observation db updated).

(** [acquisition_runtime/store.py:346-357 AcquisitionRuntimeStore.read_runtime_observation] *)
Definition read_runtime_observation (db : runtime_db) : result (option RuntimeHealthObservation) :=
  opt_mapM _runtime_observation (rdb_observation db).
End attempts.

(** * Steps *)

(** The operations, with their arguments. *)
Inductive store_op : Type :=
| AcquireLease (owner_ref : string) (acquired_at : datetime) (lease_seconds : Z)
| HeartbeatLease (owner_ref : string) (fencing_token : Z) (at_ : datetime) (lease_seconds : Z)
| ReleaseLease (owner_ref : string) (fencing_token : Z) (at_ : datetime)
| Protect (owner_ref : string) (fencing_token lease_seconds : Z) (business : datetime -> result unit)
| RecordObservation (owner_ref : string) (capability : RuntimeCapabilityEvidence) (fencing_token : Z)
    (at_ : datetime)
| RecordCycleObservation (owner_ref cycle_ref : string) (fencing_token : Z) (at_ : datetime)
| ResumeOrCreateCycle (owner_ref : string) (fencing_token : Z) (opportunity_keys : list string)
    (config_fingerprint : string) (at_ : datetime)
| AbandonCycle (cycle_ref reason : string) (at_ : datetime)
| BeginStage (cycle_ref : string) (stage : AcquisitionRuntimeStage) (owner_ref : string)
    (fencing_token : Z) (at_ : datetime)
| ReserveStageCost (cycle_ref : string) (stage : AcquisitionRuntimeStage)
    (stage_snapshot : RuntimeStageSnapshot) (reserved_cost maximum_cycle_cost : decimal)
    (owner_ref : string) (fencing_token : Z) (at_ : datetime)
| BindStageProposal (cycle_ref : string) (stage : AcquisitionRuntimeStage)
    (stage_snapshot : RuntimeStageSnapshot) (proposal : RuntimeProposal) (owner_ref : string)
    (fencing_token : Z) (at_ : datetime)
| FinishStage (cycle_ref : string) (stage : AcquisitionRuntimeStage)
    (action_result : RuntimeActionResult) (owner_ref : string) (fencing_token : Z) (at_ : datetime)
    (proposal : option RuntimeProposal)
| FinishCycle (cycle_ref : string) (status : RuntimeCycleStatus) (owner_ref : string)
    (fencing_token : Z) (at_ : datetime) (reason_code : option string).

(** The token an operation shows. *)
Definition op_token (op : store_op) : option Z :=
  match op with
  | HeartbeatLease _ t _ _ | ReleaseLease _ t _ | Protect _ t _ _ | RecordObservation _ _ t _
  | RecordCycleObservation _ _ t _ | ResumeOrCreateCycle _ t _ _ _ | BeginStage _ _ _ t _
  | ReserveStageCost _ _ _ _ _ _ t _ | BindStageProposal _ _ _ _ _ t _
  | FinishStage _ _ _ _ t _ _ | FinishCycle _ _ _ t _ _ => Some t
  | AcquireLease _ _ _ | AbandonCycle _ _ _ => None
  end.

Section steps.
Context `{Hash : HashLib} `{DB : Database}.

(** The tables after an operation that does not raise. *)
Definition commit (clock : option datetime) (op : store_op) (db : runtime_db) : result runtime_db :=
  match op with
  | AcquireLease o a n => let! (_, db) := acquire_lease db clock o a n in Ok db
  | HeartbeatLease o t a n => heartbeat_lease db clock o t a n
  | ReleaseLease o t a => release_lease db o t a
  | Protect o t n f => let! (_, db) := protect db clock o t n f in Ok db
  | RecordObservation o c t a => let! (_, db) := record_runtime_observation db clock o c t a in Ok db
  | RecordCycleObservation o c t a => let! (_, db) := record_cycle_observation db clock o c t a in Ok db
  | ResumeOrCreateCycle o t ks f a =>
      let! (_, db) := resume_or_create_cycle db clock o t ks f a in Ok db
  | AbandonCycle c r a => let! (_, db) := abandon_cycle db c r a in Ok db
  | BeginStage c s o t a => let! (_, db) := begin_stage db clock c s o t a in Ok db
  | ReserveStageCost c s n r m o t a =>
      let! (_, db) := reserve_stage_cost db clock c s n r m o t a in Ok db
  | BindStageProposal c s n p o t a =>
      let! (_, db) := bind_stage_proposal db clock c s n p o t a in Ok db
  | FinishStage c s r o t a p => finish_stage db clock c s r o t a p
  | FinishCycle c s o t a r => finish_cycle db clock c s o t a r
  end.

(** The tables after an operation. *)
Definition apply_op (clock : option datetime) (op : store_op) (db : runtime_db) : runtime_db :=
  match commit clock op db with Ok db' => db' | Raise _ => db end.

(** The tables after operations, each with the reading of the database's
    clock. *)
Definition apply_ops (ops : list (option datetime * store_op)) (db : runtime_db) : runtime_db :=
  foldl (fun db '(clock, op) => apply_op clock op db) db ops.

(** Operations that do not raise lead to tables that have a property, when
    each of them keeps it. *)
Lemma apply_ops_keeps (P : runtime_db -> Prop) (Q : store_op -> Prop) :
  (forall clock op db db', Q op -> P db -> commit clock op db = Ok db' -> P db') ->
  forall ops db, Forall (fun e => Q e.2) ops -> P db -> P (apply_ops ops db).
Proof.
  intros Hstep ops. unfold apply_ops. induction ops as [|[clock op] ops IH]; intros db HQ Hdb; [done|].
  inversion_clear HQ. simpl. apply IH; [done|]. unfold apply_op.
  destruct (commit clock op db) eqn:E; [eauto | done].
Qed.

(** * Writing a row *)

(** A row that is written is the row that was checked. *)
Lemma check_lease_id r r' : check_lease r = Ok r' -> r' = r.
Proof. unfold check_lease. intros H. by inv_result. Qed.
Lemma check_cycle_id r r' : check_cycle r = Ok r' -> r' = r.
Proof. unfold check_cycle. intros H. by inv_result. Qed.
Lemma check_stage_id r r' : check_stage r = Ok r' -> r' = r.
Proof. unfold check_stage. intros H. by inv_result. Qed.
Lemma check_attempt_id r r' : check_attempt r = Ok r' -> r' = r.
Proof. unfold check_attempt. intros H. by inv_result. Qed.

(** Every way of writing a row leaves the tables, or sets one row to one
    that was checked. *)
Lemma update_lease_Ok db wh f o db' :
  update_lease db wh f = Ok (o, db') ->
  (o = None /\ db' = db /\ forall row, rdb_lease db = Some row -> wh row = false)
  \/ exists row, rdb_lease db = Some row /\ wh row = true /\ check_lease (f row) = Ok (f row)
     /\ o = Some (f row) /\ db' = with_lease db (f row).
Proof.
  unfold update_lease. destruct (rdb_lease db) as [row|]; [|intros H; left; inv_result; naive_solver].
  destruct (wh row) eqn:E; intros H; [right | left; inv_result; naive_solver].
  inv_result. pose proof (check_lease_id _ _ Hv) as ->. eauto 6.
Qed.

Lemma update_cycle_Ok db c f db' :
  update_cycle db c f = Ok db' ->
  (rdb_cycles db !! c = None /\ db' = db)
  \/ exists row row', rdb_cycles db !! c = Some row /\ f row = Ok row' /\ check_cycle row' = Ok row'
     /\ db' = with_cycle db row'.
Proof.
  unfold update_cycle. destruct (rdb_cycles db !! c) as [row|]; intros H; [|left; by simplify_eq].
  right. inv_result. pose proof (check_cycle_id _ _ Hv0) as ->. eauto 6.
Qed.

Lemma update_stage_Ok db c s f o db' :
  update_stage db c s f = Ok (o, db') ->
  (rdb_stages db !! (c, s) = None /\ o = None /\ db' = db)
  \/ exists row row', rdb_stages db !! (c, s) = Some row /\ f row = Ok row'
     /\ check_stage row' = Ok row' /\ o = Some row' /\ db' = with_stage db row'.
Proof.
  unfold update_stage. destruct (rdb_stages db !! (c, s)) as [row|]; intros H; [|left; by simplify_eq].
  right. inv_result. pose proof (check_stage_id _ _ Hv0) as ->. eauto 7.
Qed.

Lemma update_attempt_Ok db key wh f db' :
  update_attempt db key wh f = Ok db' ->
  (db' = db /\ forall row, rdb_attempts db !! key = Some row -> wh row = false)
  \/ exists row row', rdb_attempts db !! key = Some row /\ wh row = true /\ f row = Ok row'
     /\ check_attempt row' = Ok row' /\ db' = with_attempt_at db key row'.
Proof.
  unfold update_attempt. destruct (rdb_attempts db !! key) as [row|]; [|intros H; left; naive_solver].
  destruct (wh row) eqn:E; intros H; [right | left; naive_solver].
  inv_result. pose proof (check_attempt_id _ _ Hv0) as ->. eauto 7.
Qed.

Lemma insert_attempt_Ok db row b db' :
  insert_attempt db row = Ok (b, db') ->
  check_attempt row = Ok row
  /\ ((b = false /\ db' = db /\ is_Some (rdb_attempts db !! key_of row))
      \/ (b = true /\ rdb_attempts db !! key_of row = None /\ is_Some (rdb_cycles db !! at_cycle_ref row)
          /\ db' = with_attempt db row)).
Proof.
  unfold insert_attempt. intros H. inv_result. pose proof (check_attempt_id _ _ Hv) as ->.
  split; [done|]. destruct (rdb_attempts db !! key_of row) eqn:E; simpl in H; inv_result; [naive_solver|].
  unfold check_constraint in *. right. destruct (rdb_cycles db !! _); inv_result; [|done]. eauto.
Qed.

Lemma insert_stage_Ok db row db' :
  insert_stage db row = Ok db' ->
  check_stage row = Ok row
  /\ (db' = db \/ (rdb_stages db !! (sg_cycle_ref row, sg_stage row) = None
                   /\ is_Some (rdb_cycles db !! sg_cycle_ref row) /\ db' = with_stage db row)).
Proof.
  unfold insert_stage. intros H. inv_result. pose proof (check_stage_id _ _ Hv) as ->.
  split; [done|]. destruct (rdb_stages db !! _) eqn:E; simpl in H; inv_result; [naive_solver|].
  unfold check_constraint in *. right. destruct (rdb_cycles db !! _); inv_result; [|done]. eauto.
Qed.
End steps.

(** Opens the writes of an operation that did not raise. *)
Ltac writes_step :=
  match goal with
  | H : update_lease _ _ _ = Ok (_, _) |- _ => apply update_lease_Ok in H
  | H : update_cycle _ _ _ = Ok _ |- _ => apply update_cycle_Ok in H
  | H : update_stage _ _ _ _ = Ok (_, _) |- _ => apply update_stage_Ok in H
  | H : update_attempt _ _ _ _ = Ok _ |- _ => apply update_attempt_Ok in H
  | H : insert_attempt _ _ = Ok (_, _) |- _ => apply insert_attempt_Ok in H as [? H]
  | H : insert_stage _ _ = Ok _ |- _ => apply insert_stage_Ok in H as [? H]
  | x : (_ * _)%type |- _ => destruct x
  end.
