(* ===== verification/RuntimeLease.v ===== *)
(** RuntimeLease: what the operations of the acquisition runtime do to its
    lease: the generation of the row, which is the fencing token of the last
    acquisition, only grows, and an operation that shows another token
    changes nothing. *)

From S2P Require Import Prelude PyStr PyDatetime PyDecimal PyJson AcquisitionContracts.
From S2P Require Import Database RuntimeContracts RuntimeStore RuntimeAttempts.
From Stdlib Require Import Ascii String.
From stdpp Require Import gmap.

Local Open Scope string_scope.
Local Open Scope Z_scope.
Local Open Scope list_scope.

(** The fencing token of the last acquisition. *)
Definition generation (db : runtime_db) : Z := default 0 (ls_generation <$> rdb_lease db).

Section lease.
Context `{Hash : HashLib} `{DB : Database}.

(** * Operations that leave the lease *)

Lemma update_cycle_lease db c f db' : update_cycle db c f = Ok db' -> rdb_lease db' = rdb_lease db.
Proof. intros H. apply update_cycle_Ok in H as [[_ ->]|(? & ? & _ & _ & _ & ->)]; done. Qed.
Lemma update_stage_lease db c s f o db' :
  update_stage db c s f = Ok (o, db') -> rdb_lease db' = rdb_lease db.
Proof. intros H. apply update_stage_Ok in H as [(_ & _ & ->)|(? & ? & _ & _ & _ & _ & ->)]; done. Qed.
Lemma update_attempt_lease db k wh f db' :
  update_attempt db k wh f = Ok db' -> rdb_lease db' = rdb_lease db.
Proof. intros H. apply update_attempt_Ok in H as [[-> _]|(? & ? & _ & _ & _ & _ & ->)]; done. Qed.
Lemma insert_attempt_lease db r b db' :
  insert_attempt db r = Ok (b, db') -> rdb_lease db' = rdb_lease db.
Proof. intros H. apply insert_attempt_Ok in H as [_ [(_ & -> & _)|(_ & _ & _ & ->)]]; done. Qed.
Lemma insert_stages_lease db rows db' : insert_stages db rows = Ok db' -> rdb_lease db' = rdb_lease db.
Proof.
  revert db; induction rows as [|row rows IH]; intros db H; simpl in H; inv_result; [done|].
  rewrite (IH _ H). apply insert_stage_Ok in Hv as [_ [->|(_ & _ & ->)]]; done.
Qed.
End lease.

(** Chains the equations on the lease that the writes of an operation
    give. *)
Ltac lease_frame :=
  repeat match goal with
  | H : update_cycle _ _ _ = Ok _ |- _ => apply update_cycle_lease in H
  | H : update_stage _ _ _ _ = Ok (_, _) |- _ => apply update_stage_lease in H
  | H : update_attempt _ _ _ _ = Ok _ |- _ => apply update_attempt_lease in H
  | H : insert_attempt _ _ = Ok (_, _) |- _ => apply insert_attempt_lease in H
  | H : insert_stages _ _ = Ok _ |- _ => apply insert_stages_lease in H
  end;
  simpl in *; congruence.

(** Splits the pairs that the operations return. *)
Ltac split_pairs := repeat match goal with p : (_ * _)%type |- _ => destruct p end.
Ltac inv_ops := repeat progress (inv_result; split_pairs).

(** Case analysis on a conditional of a hypothesis. *)
Ltac case_hyp H :=
  match type of H with
  | context [match ?e with _ => _ end] =>
      lazymatch e with context [match _ with _ => _ end] => fail | _ => idtac end;
      let E := fresh "E" in destruct e eqn:E
  end.

Section frames.
Context `{Hash : HashLib} `{DB : Database}.

Ltac solve_frame := intros; inv_ops; lease_frame.

Lemma create_cycle_lease db k f a c db' :
  _create_cycle db k f a = Ok (c, db') -> rdb_lease db' = rdb_lease db.
Proof.
  unfold _create_cycle. intros H. inv_result. apply insert_stages_lease in Hv2. rewrite Hv2.
  destruct (cycle_for db f k); inv_result; done.
Qed.

Lemma charge_stage_lease db c s t r a db' :
  charge_stage db c s t r a = Ok db' -> rdb_lease db' = rdb_lease db.
Proof. unfold charge_stage. solve_frame. Qed.

Lemma finish_attempt_lease db k r p a c db' :
  finish_attempt db k r p a = Ok (c, db') -> rdb_lease db' = rdb_lease db.
Proof.
  unfold finish_attempt. destruct k as [[cy st] n]. intros H.
  case_hyp H; solve_frame.
Qed.

Lemma begin_stage_lease db clock c s o t a r db' :
  begin_stage db clock c s o t a = Ok (r, db') -> rdb_lease db' = rdb_lease db.
Proof.
  unfold begin_stage, replay_attempt, start_attempt. intros H. inv_result.
  repeat case_hyp H; solve_frame.
Qed.

Lemma reserve_lease db clock c s n r m o t a x db' :
  reserve_stage_cost db clock c s n r m o t a = Ok (x, db') -> rdb_lease db' = rdb_lease db.
Proof.
  unfold reserve_stage_cost, reserve_interrupted, reserve_again, reserve_new, reservation.
  intros H. inv_result.
  repeat case_hyp H; inv_ops; 
    repeat match goal with H : charge_stage _ _ _ _ _ _ = Ok _ |- _ => apply charge_stage_lease in H end;
    lease_frame.
Qed.

Lemma bind_lease db clock c s n p o t a x db' :
  bind_stage_proposal db clock c s n p o t a = Ok (x, db') -> rdb_lease db' = rdb_lease db.
Proof. unfold bind_stage_proposal. intros H. inv_result. case_hyp H; solve_frame. Qed.

Lemma finish_stage_lease db clock c s r o t a p db' :
  finish_stage db clock c s r o t a p = Ok db' -> rdb_lease db' = rdb_lease db.
Proof.
  unfold finish_stage. intros H. inv_ops.
  match goal with H : finish_attempt _ _ _ _ _ = Ok _ |- _ => apply finish_attempt_lease in H end.
  inv_ops. lease_frame.
Qed.

Lemma resume_lease db clock o t ks f a c db' :
  resume_or_create_cycle db clock o t ks f a = Ok (c, db') -> rdb_lease db' = rdb_lease db.
Proof.
  unfold resume_or_create_cycle. intros H. inv_result. repeat case_hyp H; inv_result; try done.
  by eapply create_cycle_lease.
Qed.

(** Only the operations of the lease write its row. *)
Definition writes_lease (op : store_op) : bool :=
  match op with
  | AcquireLease _ _ _ | HeartbeatLease _ _ _ _ | ReleaseLease _ _ _ | Protect _ _ _ _ => true
  | _ => false
  end.

Lemma commit_lease clock op db db' :
  commit clock op db = Ok db' -> writes_lease op = false -> rdb_lease db' = rdb_lease db.
Proof.
  intros H Hw. destruct op; try discriminate Hw; simpl in H; inv_ops.
  - unfold record_runtime_observation in Hv. inv_result. repeat case_hyp Hv4; by inv_result.
  - unfold record_cycle_observation in Hv. by inv_result.
  - by eapply resume_lease.
  - unfold abandon_cycle in Hv. inv_result. case_hyp Hv; inv_result; [done|].
    by eapply update_cycle_lease.
  - by eapply begin_stage_lease.
  - by eapply reserve_lease.
  - by eapply bind_lease.
  - by eapply finish_stage_lease.
  - unfold finish_cycle in H. inv_result. by eapply update_cycle_lease.
Qed.

(** * Acquisitions *)

Lemma lease_result_validate_id l l' : lease_result_validate l = Ok l' -> l' = l.
Proof. unfold lease_result_validate. intros H. by inv_result. Qed.

(** The lease is refused, or its row carries the next generation, which is
    the token. *)
Lemma acquire_lease_spec db clock o a n l db' :
  acquire_lease db clock o a n = Ok (l, db') ->
  (lr_owned l = false /\ lr_fencing_token l = None /\ generation db' = generation db)
  \/ (lr_owned l = true /\ generation db' = generation db + 1
      /\ lr_fencing_token l = Some (generation db')
      /\ exists h e, rdb_lease db' = Some (mkLease (Some o) (Some h) (Some h) (Some e) (generation db'))).
Proof.
  unfold acquire_lease. intros H. inv_result.
  assert (Hg : generation (ensure_lease db) = generation db)
    by (unfold ensure_lease, generation; by destruct (rdb_lease db) eqn:E; simpl; rewrite ?E).
  unfold _lease_row in Hv0. inv_result.
  assert (Hr : generation db = ls_generation v0) by (by rewrite <- Hg; unfold generation; rewrite Hv0).
  case_hyp H; inv_result.
  { left. apply lease_result_validate_id in Hv4 as ->. done. }
  inv_ops.
  apply update_lease_Ok in Hv4 as [(-> & -> & _)|(row & Hrow & _ & _ & -> & ->)]; inv_result;
    match goal with H : lease_result_validate _ = Ok _ |- _ => apply lease_result_validate_id in H as -> end.
  { by left. }
  right. rewrite Hr. simpl. unfold generation. simpl. eauto 6.
Qed.

(** * Stale tokens *)

Lemma lease_held_token row o t a : lease_held row o t a = Ok true -> ls_generation row = t.
Proof.
  unfold lease_held. destruct (negb _); [done|]. destruct (Z.eqb_spec (ls_generation row) t); [done|].
  simpl. intros H. by inv_result.
Qed.

(** A fenced operation goes on under the token of the last acquisition. *)
Lemma require_active_lease_token db clock o t a :
  _require_active_lease db clock o t a = Ok tt -> t = generation db.
Proof.
  unfold _require_active_lease, _lease_row, generation. intros H. inv_result. subst.
  rewrite Hv. symmetry. by eapply lease_held_token.
Qed.

(** The operations that show a token and do not raise show the last one;
    [release_lease] does nothing with another. *)
Lemma commit_token clock op db db' t :
  commit clock op db = Ok db' -> op_token op = Some t -> t = generation db \/ db' = db.
Proof.
  intros H Ht. destruct op; try discriminate Ht; injection Ht as ->; simpl in H; inv_ops.
  1: { left. unfold heartbeat_lease, _lease_row in H. inv_ops. unfold generation. rewrite Hv0.
       symmetry. subst. by eapply lease_held_token. }
  1: { unfold release_lease in H. inv_ops.
       apply update_lease_Ok in Hv0 as [(_ & -> & _)|(row & Hrow & How & _)]; [by right|].
       left. unfold owned_by, generation in *. inv_result. rewrite Hrow. simpl. lia. }
  1: { left. unfold protect, _lease_row in Hv. inv_ops. unfold generation. rewrite Hv0.
       symmetry. subst. by eapply lease_held_token. }
  all: left.
  all: repeat match goal with
    | H : _ = Ok _ |- _ =>
        progress unfold finish_cycle, finish_stage, bind_stage_proposal, reserve_stage_cost, begin_stage,
          resume_or_create_cycle, record_cycle_observation, record_runtime_observation in H
    end; inv_result;
    match goal with H : _require_active_lease _ _ _ _ _ = Ok ?u |- _ =>
      destruct u; by apply require_active_lease_token in H end.
Qed.

Lemma commit_generation clock op db db' :
  commit clock op db = Ok db' -> generation db <= generation db'.
Proof.
  intros H. destruct (writes_lease op) eqn:Hw.
  2: { apply commit_lease in H; [|done]. unfold generation. rewrite H. done. }
  destruct op; try discriminate Hw; simpl in H; inv_ops.
  - apply acquire_lease_spec in Hv as [(_ & _ & ->)|(_ & -> & _)]; lia.
  - unfold heartbeat_lease in H. inv_ops.
    apply update_lease_Ok in Hv4 as [(_ & -> & _)|(row & Hrow & _ & _ & _ & ->)]; [done|].
    unfold generation. simpl. by rewrite Hrow.
  - unfold release_lease in H. inv_ops.
    apply update_lease_Ok in Hv0 as [(_ & -> & _)|(row & Hrow & _ & _ & _ & ->)]; [done|].
    unfold generation. simpl. by rewrite Hrow.
  - unfold protect in Hv. inv_ops.
    apply update_lease_Ok in Hv5 as [(_ & -> & _)|(row & Hrow & _ & _ & _ & ->)]; [done|].
    unfold generation. simpl. by rewrite Hrow.
Qed.

Lemma apply_op_generation clock op db : generation db <= generation (apply_op clock op db).
Proof.
  unfold apply_op. destruct (commit clock op db) eqn:E; [by eapply commit_generation | done].
Qed.

Lemma apply_ops_generation ops db : generation db <= generation (apply_ops ops db).
Proof.
  unfold apply_ops. revert db; induction ops as [|[clock op] ops IH]; intros db; simpl; [done|].
  etrans; [apply apply_op_generation | apply IH].
Qed.

Lemma stale_op clock op db t :
  op_token op = Some t -> t < generation db -> apply_op clock op db = db.
Proof.
  intros Ht Hlt. unfold apply_op. destruct (commit clock op db) eqn:E; [|done].
  destruct (commit_token _ _ _ _ _ E Ht); [lia | done].
Qed.

(** * The row of the lease *)

(** The row passes the checks of its table. *)
Definition lease_valid (db : runtime_db) : Prop :=
  forall row, rdb_lease db = Some row -> check_lease row = Ok row.

Lemma update_lease_valid db wh f o db' :
  lease_valid db -> update_lease db wh f = Ok (o, db') -> lease_valid db'.
Proof.
  intros Hv H. apply update_lease_Ok in H as [(_ & -> & _)|(row & _ & _ & Hck & _ & ->)]; [done|].
  intros row' E. simpl in E. by injection E as <-.
Qed.

Lemma ensure_lease_valid db : lease_valid db -> lease_valid (ensure_lease db).
Proof.
  unfold ensure_lease. destruct (rdb_lease db) eqn:E; [done|]. intros _ row Hrow. simpl in Hrow.
  by injection Hrow as <-.
Qed.

Lemma commit_lease_valid clock op db db' :
  lease_valid db -> commit clock op db = Ok db' -> lease_valid db'.
Proof.
  intros Hv H. destruct (writes_lease op) eqn:Hw.
  2: { apply commit_lease in H; [|done]. unfold lease_valid. by rewrite H. }
  destruct op; try discriminate Hw; simpl in H; inv_ops.
  - unfold acquire_lease in Hv0. inv_ops. apply ensure_lease_valid in Hv.
    repeat (case_hyp Hv0; inv_ops); try done; by eapply update_lease_valid.
  - unfold heartbeat_lease in H. inv_ops. by eapply update_lease_valid.
  - unfold release_lease in H. inv_ops. by eapply update_lease_valid.
  - unfold protect in Hv0. inv_ops. by eapply update_lease_valid.
Qed.

Lemma apply_ops_lease_valid ops db : lease_valid db -> lease_valid (apply_ops ops db).
Proof.
  apply (apply_ops_keeps lease_valid (fun _ => True)); [|by apply Forall_true].
  intros clock op db1 db2 _. apply commit_lease_valid.
Qed.

(** Releasing does not raise, and the owner does not hold the lease under its
    token any more. *)
Lemma release_lease_spec db o t a :
  lease_valid db -> is_ok (require_aware a) = true ->
  exists db', release_lease db o t a = Ok db'
  /\ forall row, rdb_lease db' = Some row -> owned_by o t row = false.
Proof.
  intros Hv Ha. unfold release_lease. destruct (require_aware a); [|done]. simpl.
  unfold update_lease. destruct (rdb_lease db) as [row|] eqn:E; simpl.
  2: { exists db. split; [done|]. congruence. }
  destruct (owned_by o t row) eqn:Eo; simpl.
  2: { exists db. split; [done|]. intros row' E'. congruence. }
  specialize (Hv row E). unfold check_lease in *. simpl. inv_result.
  rewrite Hv1. simpl. rewrite Hv2. simpl.
  eexists. split; [done|]. intros row' E'. simpl in E'. by injection E' as <-.
Qed.
End frames.
