(* ===== verification/RuntimeLedger.v ===== *)
(** RuntimeLedger: what the cycles of the acquisition runtime have spent.

    The cost a cycle carries is the exact sum of what its attempts are
    charged, the larger of what each reserved and of what was observed; every
    operation of the store keeps it so. *)

From S2P Require Import Prelude PyStr PyDatetime PyDecimal PyJson AcquisitionContracts.
From S2P Require Import Database RuntimeContracts RuntimeStore RuntimeAttempts RuntimeLease.
From Stdlib Require Import Ascii String.
From stdpp Require Import gmap.

Local Open Scope string_scope.
Local Open Scope Z_scope.
Local Open Scope list_scope.

(** * Amounts *)

(** An amount that a [Numeric(12, 6)] column holds. *)
Definition amount (d : decimal) : Prop := -6 <= d_exp d /\ 0 <= micros d < 10 ^ 12.

Lemma dec_leb_micros a b :
  -6 <= d_exp a -> -6 <= d_exp b -> dec_leb a b = true <-> micros a <= micros b.
Proof.
  intros Ha Hb. unfold dec_leb, dec_compare. set (e := Z.min (d_exp a) (d_exp b)).
  unfold micros. rewrite (coef_at_shift (-6) e a), (coef_at_shift (-6) e b) by lia.
  assert (0 < 10 ^ (e - -6)) by (apply Z.pow_pos_nonneg; lia).
  destruct (Z.compare_spec (coef_at e a) (coef_at e b)); split; intros; try done; nia.
Qed.

Lemma dec_eqb_micros a b :
  -6 <= d_exp a -> -6 <= d_exp b -> dec_eqb a b = true <-> micros a = micros b.
Proof.
  intros Ha Hb. unfold dec_eqb, dec_compare. set (e := Z.min (d_exp a) (d_exp b)).
  unfold micros. rewrite (coef_at_shift (-6) e a), (coef_at_shift (-6) e b) by lia.
  assert (0 < 10 ^ (e - -6)) by (apply Z.pow_pos_nonneg; lia).
  destruct (Z.compare_spec (coef_at e a) (coef_at e b)); split; intros; try done; nia.
Qed.

Lemma micros_zero : micros dec_zero = 0.
Proof. done. Qed.

Lemma dec_max_micros a b :
  -6 <= d_exp a -> -6 <= d_exp b ->
  micros (dec_max a b) = Z.max (micros a) (micros b) /\ -6 <= d_exp (dec_max a b).
Proof.
  intros Ha Hb. unfold dec_max. pose proof (dec_ltb_micros a b Ha Hb) as Hlt.
  destruct (dec_ltb a b); [|destruct (Z.lt_ge_cases (micros a) (micros b)); [naive_solver|]]; split;
    try done; [assert (micros a < micros b) by naive_solver; lia | lia].
Qed.

Section amounts.
Context `{DB : Database}.

(** What is read back of a [Numeric(12, 6)] column that is not negative. *)
Lemma numeric_amount d d' :
  numeric 12 6 d = Ok d' -> dec_leb dec_zero d' = true -> amount d'.
Proof.
  intros H H0. pose proof (numeric_exp _ _ _ _ H) as He.
  destruct (numeric_scaled 12 6 d' d' He (numeric_stored _ _ _ _ H)) as (_ & _ & Hb).
  change (- (6)) with (-6) in *. change (coef_at (-6) d') with (micros d') in Hb.
  apply dec_leb_micros in H0; [|done..]. rewrite micros_zero in H0. split; [done|]. lia.
Qed.

(** An amount with at most six digits after the point is stored as it is. *)
Lemma numeric_micros d d' :
  -6 <= d_exp d -> numeric 12 6 d = Ok d' ->
  micros d' = micros d /\ -6 <= d_exp d' /\ Z.abs (micros d) < 10 ^ 12.
Proof. intros He H. destruct (numeric_scaled 12 6 d d' He H) as (H1 & H2 & H3). done. Qed.
End amounts.

(** * Sums over the attempts *)

Definition Zsum (l : list Z) : Z := foldr Z.add 0 l.

#[export] Instance Zsum_perm : Proper (Permutation ==> eq) Zsum.
Proof. intros l l' H. unfold Zsum. induction H; simpl; lia. Qed.

Definition total {A} (f : A -> Z) (m : gmap attempt_key A) : Z :=
  Zsum (map (fun p => f p.2) (map_to_list m)).

Lemma total_delete {A} (f : A -> Z) m k :
  total f m = from_option f 0 (m !! k) + total f (delete k m).
Proof.
  unfold total. destruct (m !! k) as [v|] eqn:E; simpl.
  - rewrite <- (map_to_list_delete m k v E). done.
  - by rewrite delete_id.
Qed.

Lemma total_insert {A} (f : A -> Z) m k v :
  total f (<[k := v]> m) = total f m - from_option f 0 (m !! k) + f v.
Proof.
  rewrite (total_delete f m k), (total_delete f (<[k := v]> m) k), lookup_insert_eq, delete_insert_eq.
  simpl. lia.
Qed.

(** What the attempts of a cycle are charged, in millionths. *)
Definition cycle_charge (cycle_ref : string) (r : attempt_row) : Z :=
  if bool_decide (at_cycle_ref r = cycle_ref) then micros (charge r) else 0.
Definition charged (db : runtime_db) (cycle_ref : string) : Z :=
  total (cycle_charge cycle_ref) (rdb_attempts db).

(** The amounts of an attempt. *)
Definition attempt_amounts (r : attempt_row) : Prop :=
  amount (at_reserved_cost r) /\ amount (at_observed_cost r).

Lemma charge_amount r : attempt_amounts r ->
  micros (charge r) = Z.max (micros (at_reserved_cost r)) (micros (at_observed_cost r))
  /\ amount (charge r).
Proof.
  intros [[H1 H2] [H3 H4]]. destruct (dec_max_micros _ _ H1 H3) as [Hm He].
  unfold charge, amount. split; [done|]. split; [done|]. lia.
Qed.

(** The decimal sum of the code is exact as long as it is small. *)
Lemma fold_exact (l : list attempt_row) acc :
  Forall attempt_amounts l -> -6 <= d_exp acc -> 0 <= micros acc ->
  micros acc + Zsum (map (micros ∘ charge) l) < 10 ^ 18 ->
  micros (foldl dec_add acc (map charge l)) = micros acc + Zsum (map (micros ∘ charge) l)
  /\ -6 <= d_exp (foldl dec_add acc (map charge l)).
Proof.
  intros Hl. revert acc; induction Hl as [|r l Hr Hl IH]; intros acc He H0 Hs; cbn [map foldl Zsum foldr] in *.
  { split; [lia | done]. }
  destruct (charge_amount r Hr) as [_ [Hre Hrm]]. fold (Zsum (map (micros ∘ charge) l)) in *.
  assert (Hpos : 0 <= Zsum (map (micros ∘ charge) l)).
  { clear -Hl. induction Hl as [|r l Hr Hl IH]; simpl; [lia|].
    destruct (charge_amount r Hr) as [_ [_ ?]]. unfold Zsum in *. lia. }
  unfold compose in Hs at 1.
  destruct (dec_add_micros acc (charge r)) as [Em Ee]; [done|done|lia|lia|].
  destruct (IH (dec_add acc (charge r)) Ee) as [E1 E2]; [lia|lia|].
  split; [|done]. rewrite E1. unfold compose at 2. lia.
Qed.

(** * The ledger *)

(** Rows are at their keys, belong to a cycle, and hold amounts. *)
Record ledger_wf (db : runtime_db) : Prop := {
  lw_cycle k r : rdb_cycles db !! k = Some r -> cy_cycle_ref r = k /\ amount (cy_spent_cost r);
  lw_stage k r : rdb_stages db !! k = Some r ->
    (sg_cycle_ref r, sg_stage r) = k /\ is_Some (rdb_cycles db !! sg_cycle_ref r);
  lw_attempt k r : rdb_attempts db !! k = Some r ->
    key_of r = k /\ is_Some (rdb_cycles db !! at_cycle_ref r) /\ attempt_amounts r;
}.

(** A cycle carries what its attempts are charged. *)
Definition balanced (db : runtime_db) (cycle_ref : string) : Prop :=
  forall row, rdb_cycles db !! cycle_ref = Some row -> micros (cy_spent_cost row) = charged db cycle_ref.

Definition ledger_ok (db : runtime_db) : Prop := ledger_wf db /\ forall c, balanced db c.

Lemma Zsum_filter c l :
  Zsum (map (micros ∘ charge) (List.filter (fun r => bool_decide (at_cycle_ref r = c)) l))
  = Zsum (map (cycle_charge c) l).
Proof.
  unfold Zsum. induction l as [|r l IH]; simpl; [done|]. unfold cycle_charge at 1.
  case_bool_decide; simpl; rewrite IH; done.
Qed.

Lemma spent_cost_exact db c :
  ledger_wf db -> charged db c < 10 ^ 18 ->
  micros (_spent_cost db c) = charged db c /\ -6 <= d_exp (_spent_cost db c).
Proof.
  intros Hwf Hs. unfold _spent_cost.
  assert (Hz : Zsum (map (micros ∘ charge) (attempts_of db c)) = charged db c).
  { unfold attempts_of. rewrite Zsum_filter. unfold charged, total. by rewrite map_map. }
  rewrite <- Hz in *.
  destruct (fold_exact (attempts_of db c) dec_zero) as [E1 E2]; [|done|done|by rewrite micros_zero|].
  { unfold attempts_of. apply Forall_forall. intros r Hr. apply list_elem_of_In, List.filter_In in Hr as [Hr _].
    apply in_map_iff in Hr as ([k r'] & <- & Hk). apply list_elem_of_In, elem_of_map_to_list in Hk.
    by eapply lw_attempt. }
  by rewrite E1.
Qed.

Lemma charged_nonneg db c : ledger_wf db -> 0 <= charged db c.
Proof.
  intros Hwf. unfold charged, total.
  assert (H : Forall (fun p => attempt_amounts p.2) (map_to_list (rdb_attempts db))).
  { apply Forall_forall. intros [k r] Hk. apply elem_of_map_to_list in Hk. by eapply lw_attempt. }
  unfold Zsum. induction H as [|[k r] l Hr Hl IH]; simpl in *; [lia|]. unfold cycle_charge at 1.
  destruct (charge_amount r Hr) as [_ [_ ?]]. simpl. case_bool_decide; lia.
Qed.

(** A row is set at its own key. *)
Lemma with_attempt_key db k r : key_of r = k -> with_attempt_at db k r = with_attempt db r.
Proof. by intros <-. Qed.

(** Setting an attempt moves the charges of its cycle by the difference. *)
Lemma charged_with_attempt db r c :
  charged (with_attempt db r) c
  = charged db c - from_option (cycle_charge c) 0 (rdb_attempts db !! key_of r) + cycle_charge c r.
Proof. unfold charged. apply total_insert. Qed.

Lemma ledger_wf_with_cycle db r :
  ledger_wf db -> amount (cy_spent_cost r) -> ledger_wf (with_cycle db r).
Proof.
  intros [H1 H2 H3] Hr. split; simpl.
  - intros k r'. rewrite lookup_insert_Some. intros [[<- <-]|[_ H]]; [done | eauto].
  - intros k r' H. split; [by apply H2|]. rewrite lookup_insert_is_Some'. right. by eapply H2.
  - intros k r' H. split_and!; [by apply H3 | |by eapply H3]. rewrite lookup_insert_is_Some'. right.
    by eapply H3.
Qed.

Lemma ledger_wf_with_stage db r :
  ledger_wf db -> is_Some (rdb_cycles db !! sg_cycle_ref r) -> ledger_wf (with_stage db r).
Proof.
  intros [H1 H2 H3] Hr. split; simpl; [done | |done].
  intros k r'. rewrite lookup_insert_Some. intros [[<- <-]|[_ H]]; [done | eauto].
Qed.

Lemma ledger_wf_with_attempt db r :
  ledger_wf db -> is_Some (rdb_cycles db !! at_cycle_ref r) -> attempt_amounts r ->
  ledger_wf (with_attempt db r).
Proof.
  intros [H1 H2 H3] Hc Hr. split; simpl; [done | done|].
  intros k r'. rewrite lookup_insert_Some. intros [[<- <-]|[_ H]]; [done | eauto].
Qed.

Lemma balanced_with_cycle db r c :
  balanced db c \/ c = cy_cycle_ref r ->
  (c = cy_cycle_ref r -> micros (cy_spent_cost r) = charged db c) -> balanced (with_cycle db r) c.
Proof.
  intros Hb Hr row. simpl. rewrite lookup_insert_Some. intros [[<- <-]|[Hn H]]; [by apply Hr|].
  destruct Hb as [Hb|Hb]; [by apply Hb | congruence].
Qed.

(** * Writes that charge nothing *)

Lemma ledger_with_lease db l : ledger_ok db -> ledger_ok (with_lease db l).
Proof. intros [[H1 H2 H3] Hb]. split; [split; done | exact Hb]. Qed.

Lemma ledger_with_observation db o : ledger_ok db -> ledger_ok (with_observation db o).
Proof. intros [[H1 H2 H3] Hb]. split; [split; done | exact Hb]. Qed.

Lemma ledger_with_stage db r :
  ledger_ok db -> is_Some (rdb_cycles db !! sg_cycle_ref r) -> ledger_ok (with_stage db r).
Proof. intros [Hwf Hb] Hr. split; [by apply ledger_wf_with_stage | exact Hb]. Qed.

Section writes.
Context `{Hash : HashLib} `{DB : Database}.

Lemma ledger_update_cycle db c f db' :
  ledger_ok db -> update_cycle db c f = Ok db' ->
  (forall r r', f r = Ok r' -> cy_cycle_ref r' = cy_cycle_ref r /\ cy_spent_cost r' = cy_spent_cost r) ->
  ledger_ok db'.
Proof.
  intros [Hwf Hb] H Hf. apply update_cycle_Ok in H as [[_ ->]|(r & r' & Hr & E & _ & ->)]; [done|].
  destruct (Hf _ _ E) as [E1 E2]. destruct (lw_cycle _ Hwf _ _ Hr) as [Hk Ha].
  split; [apply ledger_wf_with_cycle; [done | by rewrite E2]|].
  intros c'. apply balanced_with_cycle; [by left; apply Hb|]. intros ->. rewrite E1, E2, Hk. by apply Hb.
Qed.

Lemma ledger_wf_update_stage db c s f o db' :
  ledger_wf db -> update_stage db c s f = Ok (o, db') ->
  (forall r r', f r = Ok r' -> sg_cycle_ref r' = sg_cycle_ref r) ->
  ledger_wf db' /\ rdb_cycles db' = rdb_cycles db /\ rdb_attempts db' = rdb_attempts db.
Proof.
  intros Hwf H Hf. apply update_stage_Ok in H as [(_ & _ & ->)|(r & r' & Hr & E & _ & _ & ->)]; [done|].
  split; [|done]. apply ledger_wf_with_stage; [done|]. rewrite (Hf _ _ E). by eapply lw_stage.
Qed.

(** The equation of a cycle depends on the cycles and on the attempts
    alone. *)
Lemma balanced_same db db' c :
  rdb_cycles db' = rdb_cycles db -> rdb_attempts db' = rdb_attempts db -> balanced db c -> balanced db' c.
Proof. unfold balanced, charged. intros -> ->. done. Qed.

Lemma ledger_update_stage db c s f o db' :
  ledger_ok db -> update_stage db c s f = Ok (o, db') ->
  (forall r r', f r = Ok r' -> sg_cycle_ref r' = sg_cycle_ref r) -> ledger_ok db'.
Proof.
  intros [Hwf Hb] H Hf. destruct (ledger_wf_update_stage _ _ _ _ _ _ Hwf H Hf) as (Hwf' & E1 & E2).
  split; [done|]. intros c'. by eapply balanced_same.
Qed.

Lemma ledger_update_attempt db k wh f db' :
  ledger_ok db -> update_attempt db k wh f = Ok db' ->
  (forall r r', f r = Ok r' -> key_of r' = key_of r /\ at_reserved_cost r' = at_reserved_cost r
     /\ at_observed_cost r' = at_observed_cost r) -> ledger_ok db'.
Proof.
  intros [Hwf Hb] H Hf. apply update_attempt_Ok in H as [[-> _]|(r & r' & Hr & _ & E & _ & ->)]; [done|].
  destruct (Hf _ _ E) as (E1 & E2 & E3). destruct (lw_attempt _ Hwf _ _ Hr) as (Hk & Hc & Ha).
  assert (Hcy : at_cycle_ref r' = at_cycle_ref r) by (unfold key_of in E1; congruence).
  rewrite with_attempt_key by congruence.
  split.
  - apply ledger_wf_with_attempt; [done | by rewrite Hcy|]. unfold attempt_amounts. by rewrite E2, E3.
  - intros c row Hrow. simpl in Hrow. rewrite charged_with_attempt, E1, Hk, Hr. simpl.
    unfold cycle_charge, charge. rewrite Hcy, E2, E3. rewrite (Hb c row Hrow). lia.
Qed.
End writes.

(** * Writes that charge *)

(** An update that leaves some columns. *)
Ltac quiet := let r := fresh in let r' := fresh in let Hf := fresh in
  intros r r' Hf; cbn beta in Hf; inv_ops; done.

Section charges.
Context `{Hash : HashLib} `{DB : Database}.

Lemma check_cycle_cost r r' : check_cycle r = Ok r' -> dec_leb dec_zero (cy_spent_cost r') = true.
Proof. unfold check_cycle, check_constraint. intros H. by inv_result. Qed.

Lemma check_attempt_cost r r' :
  check_attempt r = Ok r' ->
  dec_leb dec_zero (at_reserved_cost r') = true /\ dec_leb dec_zero (at_observed_cost r') = true.
Proof. unfold check_attempt, check_constraint. intros H. by inv_result. Qed.

(** Cycles but one are balanced. *)
Definition balanced_but (db : runtime_db) (c : string) : Prop := forall c', c' <> c -> balanced db c'.

(** The update of a cycle that makes it balanced again. *)
Lemma rebalance db c f db' :
  ledger_wf db -> balanced_but db c -> update_cycle db c f = Ok db' ->
  (forall r r', rdb_cycles db !! c = Some r -> f r = Ok r' ->
     cy_cycle_ref r' = cy_cycle_ref r /\ micros (cy_spent_cost r') = charged db c
     /\ exists d, numeric 12 6 d = Ok (cy_spent_cost r')) ->
  ledger_ok db'.
Proof.
  intros Hwf Hb H Hf. apply update_cycle_Ok in H as [[Hn ->]|(r & r' & Hr & E & Hck & ->)].
  { split; [done|]. intros c'. destruct (decide (c' = c)) as [->|]; [|by apply Hb].
    intros row Hrow. congruence. }
  destruct (Hf r r' Hr E) as (E1 & E2 & d & Ed). destruct (lw_cycle _ Hwf _ _ Hr) as [Hk _].
  split.
  - apply ledger_wf_with_cycle; [done|]. eapply numeric_amount; [done|]. by eapply check_cycle_cost.
  - intros c'. apply balanced_with_cycle; rewrite E1, Hk; [|by intros ->].
    destruct (decide (c' = c)); [by right | left; by apply Hb].
Qed.

(** An attempt that is set unbalances its cycle only. *)
Lemma unbalance db r :
  ledger_ok db -> is_Some (rdb_cycles db !! at_cycle_ref r) -> attempt_amounts r ->
  (forall old, rdb_attempts db !! key_of r = Some old -> at_cycle_ref old = at_cycle_ref r) ->
  ledger_wf (with_attempt db r) /\ balanced_but (with_attempt db r) (at_cycle_ref r).
Proof.
  intros [Hwf Hb] Hc Ha Hold. split; [by apply ledger_wf_with_attempt|].
  intros c Hn row Hrow. simpl in Hrow. rewrite charged_with_attempt, (Hb c row Hrow).
  unfold cycle_charge at 2. rewrite bool_decide_eq_false_2 by done.
  destruct (rdb_attempts db !! key_of r) as [old|] eqn:E; simpl; [|lia].
  unfold cycle_charge. rewrite (Hold old eq_refl), bool_decide_eq_false_2 by done. lia.
Qed.

Lemma charge_stage_ledger db c s t r a db' :
  ledger_wf db -> balanced_but db c -> -6 <= d_exp t -> -6 <= d_exp r ->
  Z.abs (micros t) < 10 ^ 12 -> Z.abs (micros r) < 10 ^ 12 -> micros t + micros r = charged db c ->
  charge_stage db c s t r a = Ok db' -> ledger_ok db' /\ rdb_attempts db' = rdb_attempts db.
Proof.
  intros Hwf Hb Ht Hr Htm Hrm Hs H. unfold charge_stage in H. inv_ops.
  destruct (dec_add_micros t r) as [Em Ee]; [done|done|lia|lia|].
  match goal with H : update_stage _ _ _ _ = Ok (_, ?d) |- _ =>
    destruct (ledger_wf_update_stage _ _ _ _ _ _ Hwf H) as (Hwf1 & E1 & E2);
      [quiet|] end.
  split.
  - apply (rebalance _ c _ _ Hwf1) in H; [done| |].
    + intros c' Hn. by eapply balanced_same; [..|apply Hb].
    + intros ra rb _ Hf. inv_ops. simpl. split_and!; [done| |eauto].
      unfold charged. rewrite E2. fold (charged db c).
      match goal with H : numeric 12 6 _ = Ok _ |- _ => destruct (numeric_micros _ _ Ee H) as (-> & _) end.
      lia.
  - rewrite <- E2. by apply update_cycle_Ok in H as [[_ ->]|(? & ? & _ & _ & _ & ->)].
Qed.

(** * Reservations *)

Lemma spent_cost_ok db c :
  ledger_ok db -> is_Some (rdb_cycles db !! c) ->
  micros (_spent_cost db c) = charged db c /\ -6 <= d_exp (_spent_cost db c)
  /\ 0 <= charged db c < 10 ^ 12.
Proof.
  intros [Hwf Hb] [row Hrow]. destruct (lw_cycle _ Hwf _ _ Hrow) as [_ [_ Ha]].
  rewrite (Hb c row Hrow) in Ha. destruct (spent_cost_exact db c Hwf) as [E1 E2]; [lia | done].
Qed.

(** The cost of an attempt is charged to its cycle. *)
Lemma charge_attempt db row s r a db' :
  ledger_ok db -> is_Some (rdb_cycles db !! at_cycle_ref row) -> attempt_amounts row ->
  (forall old, rdb_attempts db !! key_of row = Some old ->
     at_cycle_ref old = at_cycle_ref row /\ micros (charge old) = 0) ->
  -6 <= d_exp r -> micros (charge row) = micros r ->
  charge_stage (with_attempt db row) (at_cycle_ref row) s (_spent_cost db (at_cycle_ref row)) r a = Ok db' ->
  ledger_ok db' /\ charged db' (at_cycle_ref row) = charged db (at_cycle_ref row) + micros r
  /\ rdb_attempts db' = <[key_of row := row]> (rdb_attempts db).
Proof.
  intros Hok Hc Ha Hold Hr Hm H. set (c := at_cycle_ref row) in *.
  destruct (spent_cost_ok db c Hok Hc) as (E1 & E2 & E3).
  destruct (unbalance db row Hok Hc Ha) as [Hwf1 Hb1]; [intros old Ho; by apply Hold|].
  assert (Hch : charged (with_attempt db row) c = charged db c + micros r).
  { rewrite charged_with_attempt. unfold cycle_charge at 2. rewrite bool_decide_eq_true_2 by done.
    destruct (rdb_attempts db !! key_of row) as [old|]; simpl; [|lia].
    destruct (Hold old eq_refl) as [Eo Ez]. unfold cycle_charge. rewrite Eo, bool_decide_eq_true_2 by done.
    lia. }
  destruct (charge_amount row Ha) as [_ [_ Hb]].
  apply charge_stage_ledger in H as [Hok' Hat]; try done; [|lia|lia|lia].
  split; [done|]. rewrite <- Hch. unfold charged. by rewrite Hat.
Qed.

Lemma cost_ok_micros d : -6 <= d_exp d -> cost_ok d = true -> 0 <= micros d <= 50000000.
Proof.
  intros He H. unfold cost_ok in H. inv_result.
  match goal with H1 : dec_leb dec_zero d = true, H2 : dec_leb d _ = true |- _ =>
    apply dec_leb_micros in H1; [|done..]; apply dec_leb_micros in H2; [|done..] end.
  rewrite micros_zero in *. change (micros (dec_of_Z 50)) with 50000000 in *. lia.
Qed.

(** The test of the budget is exact. *)
Lemma over_budget_exact db c r m :
  ledger_ok db -> is_Some (rdb_cycles db !! c) -> -6 <= d_exp r -> -6 <= d_exp m ->
  Z.abs (micros r) < 10 ^ 18 ->
  over_budget (_spent_cost db c) r m = true <-> micros m < charged db c + micros r.
Proof.
  intros Hok Hc Hr Hm Hb. destruct (spent_cost_ok db c Hok Hc) as (E1 & E2 & E3).
  destruct (dec_add_micros (_spent_cost db c) r) as [Em Ee]; [done|done|lia|lia|].
  unfold over_budget. rewrite dec_ltb_micros by done. rewrite Em, E1. done.
Qed.

Lemma reservation_Ok acc cr r t p db x db' :
  reservation acc cr r t p db = Ok (x, db') ->
  x = mkReservation acc cr r t p /\ db' = db /\ cost_ok r = true.
Proof.
  unfold reservation, reservation_validate, Cost. intros H. inv_result.
  match goal with H : checked "reserved_cost"%string _ _ = Ok _ |- _ => apply checked_Ok in H as [? _] end.
  case_hyp Hv; inv_result; done.
Qed.

Lemma reservation_proposal acc cr r t p db x db' :
  reservation acc cr r t (Some p) db = Ok (x, db') -> dec_eqb (rp_estimated_cost p) r = true.
Proof. unfold reservation, reservation_validate. simpl. intros H. inv_result. done. Qed.

(** What a reservation has done when it did not raise: it was refused, it
    was there, or its cost was charged. *)
Definition reserved (db db' : runtime_db) (key : attempt_key) (r m : decimal)
    (x : RuntimeStageReservation) : Prop :=
  let c := key.1.1 in
  match rr_accepted x, rr_created x with
  | false, _ => db' = db /\ micros m < charged db c + micros r
  | true, false =>
      db' = db /\ exists row, rdb_attempts db !! key = Some row /\ not_replay_safe row r = false
      /\ opt_mapM proposal_validate (at_proposal row) = Ok (rr_proposal x)
  | true, true =>
      charged db c + micros r <= micros m
      /\ charged db' c = charged db c + micros r
      /\ rr_proposal x = None
      /\ exists row, rdb_attempts db' = <[key := row]> (rdb_attempts db) /\ at_status row = RUNNING
         /\ micros (at_reserved_cost row) = micros r /\ micros (at_observed_cost row) = 0
         /\ at_proposal row = None
  end.

Lemma reserve_new_spec db k r m a x db' :
  ledger_ok db -> is_Some (rdb_cycles db !! k.1.1) -> rdb_attempts db !! k = None ->
  -6 <= d_exp r -> -6 <= d_exp m ->
  reserve_new db k r m a = Ok (x, db') -> ledger_ok db' /\ reserved db db' k r m x.
Proof.
  destruct k as [[c s] n]. simpl. intros Hok Hc Hn Hr Hm H. unfold reserve_new in H. cbn [fst snd] in *.
  case_hyp H.
  - apply reservation_Ok in H as (-> & -> & Hcost). split; [done|]. unfold reserved; simpl.
    split; [done|]. apply over_budget_exact; try done. pose proof (cost_ok_micros r Hr Hcost). lia.
  - inv_ops. apply insert_attempt_Ok in Hv1 as [Hck [(? & _)|(_ & _ & _ & ->)]]; [congruence|].
    apply reservation_Ok in H as (-> & -> & Hcost). pose proof (cost_ok_micros r Hr Hcost) as Hrb.
    destruct (check_attempt_cost _ _ Hck) as [Hr0 Ho0]. simpl in Hr0, Ho0.
    destruct (numeric_micros r v Hr Hv) as (Em & Ee & _).
    destruct (numeric_micros dec_zero v0 ltac:(done) Hv0) as (Zm & Ze & _). rewrite micros_zero in Zm.
    set (row := mkAttempt c s n RUNNING v v0 None None false None) in *.
    assert (Ha : attempt_amounts row) by (split; by eapply numeric_amount).
    destruct (charge_amount row Ha) as [Ech _].
    apply (charge_attempt db row) in Hv2 as (Hok' & Hch & Hat); try done.
    + split; [done|]. split_and!; try done.
      * cbn [fst]. destruct (Z.lt_ge_cases (micros m) (charged db c + micros r)) as [Hlt|]; [|done].
        apply (over_budget_exact db c r m) in Hlt; [congruence|done..|lia].
      * exists row. split_and!; try done; simpl; congruence.
    + unfold key_of. simpl. intros old Ho. rewrite Hn in Ho. done.
    + rewrite Ech. simpl. lia.
Qed.

(** A running attempt without a cost of its own, whose reservation is zero. *)
Lemma reserve_interrupted_spec db row r m a x db' :
  ledger_ok db -> rdb_attempts db !! key_of row = Some row ->
  unreserved_interruption row r = true -> -6 <= d_exp r -> -6 <= d_exp m ->
  reserve_interrupted db row r m a = Ok (x, db') -> ledger_ok db' /\ reserved db db' (key_of row) r m x.
Proof.
  intros Hok Hrow Hu Hr Hm H. pose proof Hok as [Hwf _].
  destruct (lw_attempt _ Hwf _ _ Hrow) as (_ & Hc & [Har Hao]).
  unfold unreserved_interruption in Hu. inv_result.
  match goal with H1 : dec_eqb (at_reserved_cost _) _ = true, H2 : dec_eqb (at_observed_cost _) _ = true |- _ =>
    apply dec_eqb_micros in H1 as Hz1; [|apply Har|done]; apply dec_eqb_micros in H2 as Hz2; [|apply Hao|done] end.
  rewrite micros_zero in Hz1, Hz2. unfold reserve_interrupted in H. case_hyp H.
  - apply reservation_Ok in H as (-> & -> & Hcost). split; [done|]. unfold reserved; simpl.
    split; [done|]. apply over_budget_exact; try done. pose proof (cost_ok_micros r Hr Hcost). lia.
  - inv_ops. apply reservation_Ok in H as (-> & -> & Hcost). pose proof (cost_ok_micros r Hr Hcost) as Hrb.
    apply update_attempt_Ok in Hv as [[_ Hwh]|(old & row' & Hold & _ & Hf & Hck & ->)].
    { specialize (Hwh row Hrow). simpl in Hwh. rewrite bool_decide_eq_true_2 in Hwh by done.
      simpl in Hwh. congruence. }
    rewrite Hrow in Hold. injection Hold as <-. inv_ops.
    destruct (check_attempt_cost _ _ Hck) as [Hr0 _]. simpl in Hr0.
    destruct (numeric_micros r v Hr Hv) as (Em & Ee & _).
    set (row' := mkAttempt _ _ _ _ _ _ _ _ _ _) in *.
    assert (Ha : attempt_amounts row') by (split; [by eapply numeric_amount | done]).
    destruct (charge_amount row' Ha) as [Ech _].
    change (with_attempt_at db (key_of row) row') with (with_attempt db row') in Hv0.
    apply (charge_attempt db row') in Hv0 as (Hok' & Hch & Hat); try done.
    + split; [done|]. split_and!; try done.
      * change ((key_of row).1.1) with (at_cycle_ref row).
        destruct (Z.lt_ge_cases (micros m) (charged db (at_cycle_ref row) + micros r)) as [Hlt|]; [|done].
        apply (over_budget_exact db (at_cycle_ref row) r m) in Hlt; [congruence|done..|lia].
      * exists row'. split_and!; try done. by destruct (at_proposal row).
    + change (key_of row') with (key_of row). intros old Ho. rewrite Hrow in Ho. injection Ho as <-.
      split; [done|]. destruct (charge_amount row) as [-> _]; [done|]. lia.
    + rewrite Ech. simpl. lia.
Qed.

Lemma reserve_stage_cost_spec db clock c s n r m o t a x db' :
  ledger_ok db -> -6 <= d_exp r -> -6 <= d_exp m ->
  reserve_stage_cost db clock c s n r m o t a = Ok (x, db') ->
  ledger_ok db' /\ reserved db db' (c, s, rs_attempt_count n) r m x.
Proof.
  intros Hok Hr Hm H. unfold reserve_stage_cost in H. inv_result. unfold _cycle in *. inv_result.
  pose proof Hok as [Hwf _].
  destruct (rdb_attempts db !! (c, s, rs_attempt_count n)) as [row|] eqn:E.
  2: { eapply reserve_new_spec; eauto. }
  destruct (lw_attempt _ Hwf _ _ E) as (Hk & _ & _). rewrite <- Hk in E.
  case_hyp H.
  - rewrite <- Hk. by eapply reserve_interrupted_spec.
  - unfold reserve_again in H. inv_ops.
    apply reservation_Ok in H as (-> & -> & _). split; [done|]. split; [done|]. exists row. rewrite <- Hk. done.
Qed.

(** * Results *)

(** A new attempt, or one whose reserved amount stays, at most adds what a
    column holds. *)
Lemma settle_attempt db row :
  ledger_ok db -> is_Some (rdb_cycles db !! at_cycle_ref row) -> attempt_amounts row ->
  (forall old, rdb_attempts db !! key_of row = Some old -> at_cycle_ref old = at_cycle_ref row) ->
  ledger_wf (with_attempt db row) /\ balanced_but (with_attempt db row) (at_cycle_ref row)
  /\ charged (with_attempt db row) (at_cycle_ref row) < 10 ^ 18.
Proof.
  intros Hok Hc Ha Hold. destruct (unbalance db row Hok Hc Ha Hold) as [H1 H2]. split_and!; [done|done|].
  destruct (spent_cost_ok db _ Hok Hc) as (_ & _ & Hs). destruct (charge_amount row Ha) as [_ [_ Hb]].
  rewrite charged_with_attempt. unfold cycle_charge at 2. rewrite bool_decide_eq_true_2 by done.
  destruct (rdb_attempts db !! key_of row) as [old|] eqn:E; simpl; [|lia].
  pose proof Hok as [Hwf _]. destruct (lw_attempt _ Hwf _ _ E) as (_ & _ & Ho).
  destruct (charge_amount old Ho) as [_ [_ ?]]. unfold cycle_charge. case_bool_decide; lia.
Qed.

Lemma finish_attempt_ledger db c s n r p a cost db' :
  ledger_ok db -> is_Some (rdb_cycles db !! c) ->
  finish_attempt db (c, s, n) r p a = Ok (cost, db') ->
  ledger_wf db' /\ balanced_but db' c /\ charged db' c < 10 ^ 18.
Proof.
  intros Hok Hc H. pose proof Hok as [Hwf _]. unfold finish_attempt in H.
  destruct (rdb_attempts db !! (c, s, n)) as [old|] eqn:E; inv_ops.
  - destruct (lw_attempt _ Hwf _ _ E) as (Hk & _ & [Hr Ho]).
    match goal with H : update_attempt _ _ _ _ = Ok _ |- _ => apply update_attempt_Ok in H as
      [[-> Hwh]|(old' & row & Hold & _ & Hf & Hck & ->)] end.
    { specialize (Hwh old E). simpl in Hwh. by rewrite bool_decide_eq_true_2 in Hwh. }
    rewrite E in Hold. injection Hold as <-. inv_ops.
    assert (Hco : at_cycle_ref old = c) by (unfold key_of in Hk; congruence).
    destruct (check_attempt_cost _ _ Hck) as [_ Ho0]. simpl in Ho0.
    rewrite with_attempt_key by exact Hk.
    match goal with |- ledger_wf (with_attempt _ ?row) /\ _ => pose proof (settle_attempt db row Hok) as Hs end.
    unfold finalized in Hs. simpl in Hs. rewrite Hco in Hs.
    unfold finalized. rewrite Hco. apply Hs; [done| |].
    + split; [done | simpl; by eapply numeric_amount].
    + unfold key_of. simpl. intros o Hin. destruct (lw_attempt _ Hwf _ _ Hin) as (Hk' & _).
      unfold key_of in Hk'. congruence.
  - match goal with H : insert_attempt _ _ = Ok _ |- _ => apply insert_attempt_Ok in H as
      [Hck [(_ & _ & Hin)|(_ & _ & _ & ->)]] end.
    { unfold key_of, finalized in Hin. simpl in Hin. rewrite E in Hin. by destruct Hin. }
    destruct (check_attempt_cost _ _ Hck) as [Hr0 Ho0]. simpl in Hr0, Ho0.
    apply settle_attempt; try done.
    + split; by eapply numeric_amount.
    + unfold key_of. simpl. intros o Hin. congruence.
Qed.

Lemma finish_stage_ledger db clock c s r o t a p db' :
  ledger_ok db -> finish_stage db clock c s r o t a p = Ok db' -> ledger_ok db'.
Proof.
  intros Hok H. pose proof Hok as [Hwf _]. unfold finish_stage, _stage in H. inv_ops.
  match goal with H : rdb_stages db !! _ = Some _ |- _ => apply (lw_stage _ Hwf) in H as [Hk Hcy] end.
  assert (Hco : sg_cycle_ref v1 = c) by congruence. rewrite Hco in Hcy. clear Hk Hco.
  match goal with H : finish_attempt _ _ _ _ _ = Ok (_, _) |- _ =>
    apply finish_attempt_ledger in H as (Hwf1 & Hb1 & Hs1); [|done..] end.
  match goal with H : update_stage _ _ _ _ = Ok (_, _) |- _ =>
    apply ledger_wf_update_stage in H as (Hwf2 & E1 & E2); [|done|quiet] end.
  match goal with H : update_cycle ?d _ _ = Ok _ |- _ => apply (rebalance d c _ _ Hwf2) in H; [done| |] end.
  - intros c' Hn. eapply balanced_same; [done|done|]. by apply Hb1.
  - intros ra rb _ Hf. inv_ops. simpl. split_and!; [done| |eauto].
    match goal with H : numeric 12 6 (_spent_cost ?d c) = Ok _ |- _ =>
      destruct (spent_cost_exact d c Hwf2) as [Es Ee];
        [unfold charged; rewrite E2; exact Hs1 | destruct (numeric_micros _ _ Ee H) as (-> & _); done] end.
Qed.

(** * Operations that charge nothing *)

Lemma begin_stage_ledger db clock c s o t a x db' :
  ledger_ok db -> begin_stage db clock c s o t a = Ok (x, db') -> ledger_ok db'.
Proof.
  intros Hok H. unfold begin_stage, replay_attempt, start_attempt in H. inv_result.
  repeat case_hyp H; inv_ops; try done;
    repeat match goal with
    | H : update_attempt _ _ _ _ = Ok _ |- _ => apply ledger_update_attempt in H; [|done|quiet]
    | H : update_stage _ _ _ _ = Ok (_, _) |- _ => apply ledger_update_stage in H; [|done|quiet]
    | H : update_cycle _ _ _ = Ok _ |- _ => apply ledger_update_cycle in H; [|done|quiet]
    end; done.
Qed.

Lemma bind_stage_proposal_ledger db clock c s n p o t a x db' :
  ledger_ok db -> bind_stage_proposal db clock c s n p o t a = Ok (x, db') -> ledger_ok db'.
Proof.
  intros Hok H. unfold bind_stage_proposal in H. inv_result.
  repeat case_hyp H; inv_ops; try done;
    repeat match goal with
    | H : update_attempt _ _ _ _ = Ok _ |- _ => apply ledger_update_attempt in H; [|done|quiet]
    | H : update_stage _ _ _ _ = Ok (_, _) |- _ => apply ledger_update_stage in H; [|done|quiet]
    end; done.
Qed.

Lemma insert_stages_ledger db rows db' :
  ledger_ok db -> insert_stages db rows = Ok db' -> ledger_ok db'.
Proof.
  revert db; induction rows as [|row rows IH]; intros db Hok H; simpl in H; inv_result; [done|].
  apply insert_stage_Ok in Hv as [_ [->|(_ & Hc & ->)]]; [by eapply IH|].
  eapply IH; [|done]. by apply ledger_with_stage.
Qed.

Lemma charged_absent db c : ledger_wf db -> rdb_cycles db !! c = None -> charged db c = 0.
Proof.
  intros Hwf Hn. unfold charged, total.
  assert (H : Forall (fun p => at_cycle_ref p.2 <> c) (map_to_list (rdb_attempts db))).
  { apply Forall_forall. intros [k r] Hk. apply elem_of_map_to_list in Hk. simpl.
    destruct (lw_attempt _ Hwf _ _ Hk) as (_ & [? Hc] & _). congruence. }
  unfold Zsum. induction H as [|p l Hp Hl IH]; simpl; [done|]. rewrite IH. unfold cycle_charge.
  by rewrite bool_decide_eq_false_2.
Qed.

(** A cycle that was not there has no attempts. *)
Lemma ledger_new_cycle db r :
  ledger_ok db -> rdb_cycles db !! cy_cycle_ref r = None -> amount (cy_spent_cost r) ->
  micros (cy_spent_cost r) = 0 -> ledger_ok (with_cycle db r).
Proof.
  intros [Hwf Hb] Hn Ha Hz. split; [by apply ledger_wf_with_cycle|].
  intros c. apply balanced_with_cycle; [by left; apply Hb|]. intros ->. rewrite Hz. by rewrite charged_absent.
Qed.

Lemma create_cycle_ledger db k f a c db' :
  ledger_ok db -> _create_cycle db k f a = Ok (c, db') -> ledger_ok db'.
Proof.
  intros Hok H. unfold _create_cycle in H. inv_result.
  eapply insert_stages_ledger; [|done].
  apply check_cycle_id in Hv0 as Hid. apply check_cycle_cost in Hv0. subst v0. simpl in Hv0.
  destruct (numeric_micros dec_zero v ltac:(done) Hv) as (Zm & _). rewrite micros_zero in Zm.
  destruct (cycle_for db f k) eqn:E; inv_result; [done|].
  apply ledger_new_cycle; try done; [|by eapply numeric_amount].
  unfold check_constraint in *. simpl. inv_result. by destruct (rdb_cycles db !! _).
Qed.

Lemma update_lease_ledger db wh f o db' :
  ledger_ok db -> update_lease db wh f = Ok (o, db') -> ledger_ok db'.
Proof.
  intros Hok H. apply update_lease_Ok in H as [(_ & -> & _)|(? & _ & _ & _ & _ & ->)]; [done|].
  by apply ledger_with_lease.
Qed.

(** Reserved costs and budgets have at most six digits after the point. *)
Definition op_scaled (op : store_op) : Prop :=
  match op with
  | ReserveStageCost _ _ _ r m _ _ _ => -6 <= d_exp r /\ -6 <= d_exp m
  | _ => True
  end.

Lemma ensure_lease_ledger db : ledger_ok db -> ledger_ok (ensure_lease db).
Proof. unfold ensure_lease. destruct (rdb_lease db); [done | apply ledger_with_lease]. Qed.

Lemma commit_ledger clock op db db' :
  op_scaled op -> ledger_ok db -> commit clock op db = Ok db' -> ledger_ok db'.
Proof.
  intros Hs Hok H. destruct op; simpl in H; inv_ops.
  - unfold acquire_lease in Hv. inv_ops. apply ensure_lease_ledger in Hok.
    repeat (case_hyp Hv; inv_ops); try done; by eapply update_lease_ledger.
  - unfold heartbeat_lease in H. inv_ops. by eapply update_lease_ledger.
  - unfold release_lease in H. inv_ops. by eapply update_lease_ledger.
  - unfold protect in Hv. inv_ops. by eapply update_lease_ledger.
  - unfold record_runtime_observation in Hv. inv_ops.
    destruct (rdb_observation db); inv_ops; by apply ledger_with_observation.
  - unfold record_cycle_observation in Hv. inv_ops. by apply ledger_with_observation.
  - unfold resume_or_create_cycle in Hv. inv_ops. repeat case_hyp Hv; inv_ops; try done.
    by eapply create_cycle_ledger.
  - unfold abandon_cycle in Hv. inv_ops. case_hyp Hv; inv_ops; [done|].
    eapply ledger_update_cycle; [done | done | quiet].
  - by eapply begin_stage_ledger.
  - destruct Hs. by eapply reserve_stage_cost_spec in Hv as [? _].
  - by eapply bind_stage_proposal_ledger.
  - by eapply finish_stage_ledger.
  - unfold finish_cycle in H. inv_ops. eapply ledger_update_cycle; [done | done | quiet].
Qed.
End charges.

Lemma empty_ledger : ledger_ok empty_runtime_db.
Proof. split; [split | intros c row]; simpl; intros *; rewrite lookup_empty; done. Qed.
