(* ===== verification/RuntimeHistory.v ===== *)
(** RuntimeHistory: what the operations of the acquisition runtime do to the
    attempts over time: a settled attempt is never written again, and an
    attempt interrupted with its replay asked for goes on as the same
    attempt, with the same proposal. *)

From S2P Require Import Prelude PyStr PyDatetime PyDecimal PyJson AcquisitionContracts.
From S2P Require Import Database RuntimeContracts RuntimeStore RuntimeAttempts RuntimeLease.
From S2P Require Import RuntimeLedger PyDatetimeFacts AcquisitionEquiv.
From Stdlib Require Import Ascii String.
From stdpp Require Import gmap.

Local Open Scope string_scope.
Local Open Scope Z_scope.
Local Open Scope list_scope.

(** * Settled attempts *)

(** An attempt that has a result, and is not to be replayed. *)
Definition settled (r : attempt_row) : Prop :=
  at_status r <> RUNNING /\ (at_status r = WAITING -> at_replay_same_attempt r = false).

Section history.
Context `{Hash : HashLib} `{DB : Database}.

(** The attempt at a key is left as it is. *)
Definition kept (k : attempt_key) (row : attempt_row) (db : runtime_db) : Prop :=
  rdb_attempts db !! k = Some row.

Lemma kept_update_cycle k row db c f db' : kept k row db -> update_cycle db c f = Ok db' -> kept k row db'.
Proof. intros Hk H. apply update_cycle_Ok in H as [[_ ->]|(? & ? & _ & _ & _ & ->)]; exact Hk. Qed.

Lemma kept_update_stage k row db c s f o db' :
  kept k row db -> update_stage db c s f = Ok (o, db') -> kept k row db'.
Proof. intros Hk H. apply update_stage_Ok in H as [(_ & _ & ->)|(? & ? & _ & _ & _ & _ & ->)]; exact Hk. Qed.

Lemma kept_insert_attempt k row db r b db' : kept k row db -> insert_attempt db r = Ok (b, db') -> kept k row db'.
Proof.
  intros Hk H. apply insert_attempt_Ok in H as [_ [(_ & -> & _)|(_ & Hn & _ & ->)]]; [done|].
  unfold kept in *. simpl. rewrite lookup_insert_ne; [done|]. congruence.
Qed.

Lemma kept_update_attempt k row db key wh f db' :
  ledger_wf db -> kept k row db -> update_attempt db key wh f = Ok db' ->
  (forall r r', f r = Ok r' -> key_of r' = key_of r) -> (key = k -> wh row = false) -> kept k row db'.
Proof.
  intros Hwf Hk H Hf Hw. apply update_attempt_Ok in H as [[-> _]|(r & r' & Hr & Hwh & E & _ & ->)]; [done|].
  unfold kept in *. simpl.
  destruct (decide (key = k)) as [->|Hn]; [|by rewrite lookup_insert_ne].
  rewrite Hk in Hr. injection Hr as <-. rewrite Hw in Hwh; done.
Qed.

Lemma kept_insert_stages k row db rows db' :
  kept k row db -> insert_stages db rows = Ok db' -> kept k row db'.
Proof.
  revert db; induction rows as [|r rows IH]; intros db Hk H; simpl in H; inv_result; [done|].
  eapply IH; [|done]. apply insert_stage_Ok in Hv as [_ [->|(_ & _ & ->)]]; exact Hk.
Qed.

Ltac chase :=
  repeat match goal with
  | Hk : kept _ _ ?db, H : update_cycle ?db _ _ = Ok _ |- _ => apply (kept_update_cycle _ _ _ _ _ _ Hk) in H
  | Hk : kept _ _ ?db, H : update_stage ?db _ _ _ = Ok (_, _) |- _ =>
      apply (kept_update_stage _ _ _ _ _ _ _ _ Hk) in H
  | Hk : kept _ _ ?db, H : insert_attempt ?db _ = Ok (_, _) |- _ => apply (kept_insert_attempt _ _ _ _ _ _ Hk) in H
  end; try assumption.

Lemma begin_stage_settled k row db clock c s o t a x db' :
  ledger_ok db -> kept k row db -> settled row ->
  begin_stage db clock c s o t a = Ok (x, db') -> kept k row db'.
Proof.
  intros [Hwf _] Hk [Hs1 Hs2] H. unfold begin_stage, replay_attempt, start_attempt in H. inv_result.
  repeat (case_hyp H; inv_ops); chase.
  match goal with H : update_attempt _ _ _ _ = Ok _ |- _ =>
    eapply kept_update_attempt in H as Hk1; [|done|exact Hk|quiet|] end; [chase|].
  intros Hkey. unfold kept in Hk. rewrite <- Hkey in Hk. exfalso. simplify_eq. rewrite Hs2 in *; done.
Qed.

Lemma reserve_settled k row db clock c s n r m o t a x db' :
  ledger_ok db -> kept k row db -> settled row ->
  reserve_stage_cost db clock c s n r m o t a = Ok (x, db') -> kept k row db'.
Proof.
  intros [Hwf _] Hk [Hs1 _] H.
  unfold reserve_stage_cost, reserve_interrupted, reserve_again, reserve_new, reservation, charge_stage in H.
  inv_result. repeat (case_hyp H; inv_ops); chase.
  match goal with H : update_attempt _ _ _ _ = Ok _ |- _ =>
    eapply kept_update_attempt in H as Hk1; [|done|exact Hk|quiet|] end; [chase|].
  intros _. simpl. by rewrite bool_decide_eq_false_2.
Qed.

Lemma bind_settled k row db clock c s n p o t a x db' :
  ledger_ok db -> kept k row db -> settled row ->
  bind_stage_proposal db clock c s n p o t a = Ok (x, db') -> kept k row db'.
Proof.
  intros [Hwf _] Hk [Hs1 _] H. unfold bind_stage_proposal in H. inv_result.
  repeat (case_hyp H; inv_ops); chase.
  match goal with H : update_attempt _ _ _ _ = Ok _ |- _ =>
    eapply kept_update_attempt in H as Hk1; [|done|exact Hk|quiet|] end; [chase|].
  intros Hkey. unfold kept in Hk. rewrite <- Hkey in Hk. simplify_eq.
Qed.

Lemma finish_settled k row db clock c s r o t a p db' :
  ledger_ok db -> kept k row db -> settled row ->
  finish_stage db clock c s r o t a p = Ok db' -> kept k row db'.
Proof.
  intros [Hwf _] Hk [Hs1 _] H. unfold finish_stage, finish_attempt in H. inv_ops.
  match goal with H : context [rdb_attempts db !! ?key] |- _ => destruct (rdb_attempts db !! key) eqn:E end;
    inv_ops; chase.
  match goal with H : update_attempt _ _ _ _ = Ok _ |- _ =>
    eapply kept_update_attempt in H as Hk1; [|done|exact Hk|quiet|] end; [chase|].
  intros _. by rewrite bool_decide_eq_false_2.
Qed.

(** No operation changes a settled attempt. *)
Lemma commit_settled k row clock op db db' :
  ledger_ok db -> kept k row db -> settled row -> commit clock op db = Ok db' -> kept k row db'.
Proof.
  intros Hok Hk Hs H.
  destruct op; simpl in H; inv_ops;
    eauto using begin_stage_settled, reserve_settled, bind_settled, finish_settled.
  - unfold acquire_lease in Hv. inv_ops.
    match type of Hk with kept ?k _ _ => assert (Hk' : kept k row (ensure_lease db)) end.
    { unfold ensure_lease. destruct (rdb_lease db); exact Hk. }
    repeat (case_hyp Hv; inv_ops); try done;
      match goal with H : update_lease _ _ _ = Ok _ |- _ =>
        apply update_lease_Ok in H as [(_ & -> & _)|(? & _ & _ & _ & _ & ->)] end; done.
  - unfold heartbeat_lease in H. inv_ops.
    apply update_lease_Ok in Hv4 as [(_ & -> & _)|(? & _ & _ & _ & _ & ->)]; done.
  - unfold release_lease in H. inv_ops.
    apply update_lease_Ok in Hv0 as [(_ & -> & _)|(? & _ & _ & _ & _ & ->)]; done.
  - unfold protect in Hv. inv_ops.
    apply update_lease_Ok in Hv5 as [(_ & -> & _)|(? & _ & _ & _ & _ & ->)]; done.
  - unfold record_runtime_observation in Hv. inv_ops. destruct (rdb_observation db); inv_ops; exact Hk.
  - unfold record_cycle_observation in Hv. inv_ops. exact Hk.
  - unfold resume_or_create_cycle, _create_cycle in Hv. inv_ops. repeat (case_hyp Hv; inv_ops); try done.
    eapply kept_insert_stages; [|done].
    match goal with H : match cycle_for ?d ?f ?k with _ => _ end = Ok _ |- _ => destruct (cycle_for d f k) end;
      inv_ops; exact Hk.
  - unfold abandon_cycle in Hv. inv_ops. repeat (case_hyp Hv; inv_ops); try done. chase.
  - unfold finish_cycle in H. inv_ops. chase.
Qed.

(** * An interruption *)

Lemma update_cycle_rest db c f db' :
  update_cycle db c f = Ok db' ->
  rdb_stages db' = rdb_stages db /\ rdb_attempts db' = rdb_attempts db.
Proof. intros H. apply update_cycle_Ok in H as [[_ ->]|(? & ? & _ & _ & _ & ->)]; done. Qed.

(** What a result leaves of the stage and of its attempt. *)
Lemma finish_stage_rows db clock c s r o t a p db' sg row :
  ledger_ok db -> rdb_stages db !! (c, s) = Some sg ->
  rdb_attempts db !! (c, s, sg_attempt_count sg) = Some row ->
  finish_stage db clock c s r o t a p = Ok db' ->
  exists observed v sg',
    numeric 12 6 (ra_observed_cost r) = Ok observed
    /\ rdb_attempts db' !! (c, s, sg_attempt_count sg) = Some (finalized row r observed v)
    /\ rdb_stages db' !! (c, s) = Some sg'
    /\ sg_cycle_ref sg' = c /\ sg_stage sg' = s /\ sg_attempt_count sg' = sg_attempt_count sg
    /\ sg_status sg' = ra_status r /\ sg_retry_at sg' = timestamptz <$> ra_retry_at r
    /\ sg_replay_same_attempt sg' = ra_replay_same_attempt r.
Proof.
  intros [Hwf _] Hsg Hrow H. unfold finish_stage, finish_attempt, _stage in H. inv_ops.
  rewrite Hsg in Hv1. injection Hv1 as <-. rewrite Hrow in *. inv_ops.
  destruct (lw_attempt _ Hwf _ _ Hrow) as [Hk _]. destruct (lw_stage _ Hwf _ _ Hsg) as [Hks _].
  repeat match goal with
  | H : update_attempt _ _ _ _ = Ok _ |- _ => apply update_attempt_Ok in H as
      [[_ Hwh]|(row1 & row' & Hrow1 & _ & Hf & _ & ->)];
      [specialize (Hwh _ Hrow); by rewrite bool_decide_eq_true_2 in Hwh|]
  | H : update_stage _ _ _ _ = Ok (_, _) |- _ => apply update_stage_Ok in H as
      [(Hn & _)|(sg1 & sg' & Hsg1 & Hfs & _ & _ & ->)]; [simpl in Hn; congruence|]
  end.
  rewrite Hrow in Hrow1. injection Hrow1 as <-. simpl in Hsg1. rewrite Hsg in Hsg1. injection Hsg1 as <-.
  inv_ops. apply update_cycle_rest in H as [-> ->]. simpl.
  match goal with |- context [finalized row r ?obs ?at_] => exists obs, at_ end.
  rewrite Hks, !lookup_insert_eq.
  injection Hks as Hks1 Hks2. eexists. split_and!; done.
Qed.

(** The time of a retry is the instant that was written. *)
Lemma retry_instant d t : aware d = true -> _aware (timestamptz d) = Ok t -> instant t = instant d.
Proof.
  intros Ha H. destruct (timestamptz_equiv d Ha) as [Hw Hi]. rewrite Ha in Hw.
  unfold _aware, assume_utc in H. unfold aware in Hw.
  destruct (utcoffset (timestamptz d)); [|done]. apply astimezone_utc_instant in H as [-> _]. done.
Qed.

Lemma stage_snapshot_fields row x :
  _stage_snapshot row = Ok x ->
  rs_status x = sg_status row /\ rs_attempt_count x = sg_attempt_count row
  /\ rs_stage x = sg_stage row /\ rs_replay_same_attempt x = sg_replay_same_attempt row.
Proof. unfold _stage_snapshot, stage_snapshot_validate. intros H. by inv_ops. Qed.

(** An attempt that waits for its replay goes on, as the same attempt, once
    the time of the retry has come. *)
Lemma begin_stage_replays db clock c s o t a x db' sg row retry :
  ledger_ok db -> rdb_stages db !! (c, s) = Some sg -> sg_status sg = WAITING ->
  sg_replay_same_attempt sg = true -> sg_retry_at sg = Some (timestamptz retry) ->
  aware retry = true -> dt_leb retry a = true ->
  rdb_attempts db !! (c, s, sg_attempt_count sg) = Some row ->
  begin_stage db clock c s o t a = Ok (x, db') ->
  rs_status x = RUNNING /\ rs_attempt_count x = sg_attempt_count sg
  /\ (exists sg', rdb_stages db' !! (c, s) = Some sg' /\ sg_status sg' = RUNNING
        /\ sg_attempt_count sg' = sg_attempt_count sg)
  /\ rdb_attempts db' !! (c, s, sg_attempt_count sg)
     = Some (mkAttempt (at_cycle_ref row) (at_stage row) (at_attempt_count row) RUNNING
               (at_reserved_cost row) (at_observed_cost row) (at_proposal row) None false None).
Proof.
  intros [Hwf _] Hsg Hst Hrp Hre Har Hle Hrow H. unfold begin_stage, _stage in H. inv_result.
  rewrite Hsg in Hv1. injection Hv1 as <-. rewrite Hst, Hre in Hv2. inv_result.
  unfold require_aware in Hv. inv_result. apply astimezone_utc_instant in Hv as [Hi _].
  apply retry_instant in Hv1; [|done]. unfold dt_leb, dt_ltb in *.
  destruct (Z.ltb_spec (instant v) (instant v1)); [apply Z.leb_le in Hle; lia|].
  rewrite Hst, Hrp in H. change (replay_attempt db sg v = Ok (x, db')) in H.
  destruct (lw_attempt _ Hwf _ _ Hrow) as [Hk _]. destruct (lw_stage _ Hwf _ _ Hsg) as [Hks _].
  injection Hks as Hc1 Hs1. unfold replay_attempt in H. rewrite Hc1, Hs1, Hrow in H. inv_ops.
  repeat match goal with
  | H : update_attempt _ _ _ _ = Ok _ |- _ => apply update_attempt_Ok in H as
      [[_ Hwh]|(row1 & row' & Hrow1 & _ & Hf & _ & ->)]; [by specialize (Hwh _ Hrow)|]
  | H : update_stage _ _ _ _ = Ok (_, _) |- _ => apply update_stage_Ok in H as
      [(_ & ? & _)|(sg1 & sg' & Hsg1 & Hfs & _ & ? & ->)]; [congruence|]
  | H : update_cycle _ _ _ = Ok _ |- _ => apply update_cycle_rest in H as [-> ->]
  end.
  rewrite Hrow in Hrow1. simpl in Hsg1. rewrite Hsg in Hsg1. inv_ops. simplify_eq.
  match goal with H : _stage_snapshot _ = Ok _ |- _ => apply stage_snapshot_fields in H as (Hx1 & Hx2 & _) end. simpl in Hx1, Hx2.
  split_and!; [done|done| |].
  - simpl. rewrite lookup_insert_eq. eauto.
  - simpl. by rewrite lookup_insert_eq.
Qed.

(** The reservation of a running attempt is given again with its proposal,
    and nothing is written. *)
Lemma reserve_again_proposal db clock c s x r m o t a sg row :
  rdb_stages db !! (c, s) = Some sg -> sg_status sg = RUNNING ->
  sg_attempt_count sg = rs_attempt_count x -> is_Some (rdb_cycles db !! c) ->
  rdb_attempts db !! (c, s, rs_attempt_count x) = Some row ->
  at_cycle_ref row = c -> is_Some (at_proposal row) -> not_replay_safe row r = false ->
  (forall p, at_proposal row = Some p ->
     proposal_validate p = Ok p /\ dec_eqb (rp_estimated_cost p) r = true) ->
  cost_ok r = true -> cost_ok (_spent_cost db c) = true ->
  is_ok (require_aware a) = true ->
  (forall v, require_aware a = Ok v -> _require_active_lease db clock o t v = Ok tt) ->
  reserve_stage_cost db clock c s x r m o t a
  = Ok (mkReservation true false r (_spent_cost db c) (at_proposal row), db).
Proof.
  intros Hsg Hst Hn [cy Hcy] Hrow Hc [p Hp] Hsafe Hpv Hr Hs Ha Hl. unfold reserve_stage_cost.
  destruct (require_aware a) as [v|]; [|done]. simpl. rewrite (Hl v eq_refl). simpl.
  unfold _stage, _cycle. rewrite Hsg, Hcy. simpl. rewrite bool_decide_eq_true_2, Hn, Z.eqb_refl by done. simpl.
  rewrite Hrow. unfold unreserved_interruption. rewrite Hp. simpl. rewrite andb_false_r. simpl.
  unfold reserve_again. rewrite Hsafe, Hp, Hc. simpl. destruct (Hpv p Hp) as [-> He]. simpl.
  unfold reservation, reservation_validate, Cost. simpl. rewrite !checked_id by done. simpl. by rewrite He.
Qed.
End history.
