(* ===== verification/RuntimeRunner.v ===== *)
(** RuntimeRunner: one bounded cycle of the acquisition runtime
    ([acquisition_runtime/runner.py]) and the registry of its actions
    ([acquisition_runtime/registry.py]).

    A run reads the application's clock, opens transactions of RuntimeStore
    and RuntimeAttempts one after the other, asks the supervisor for a
    proposal and executes actions.  Between two transactions of a run, other
    processes may commit theirs: [w_others] gives their operations.  An action
    touches the tables of the runtime through its guard only. *)

From S2P Require Import Prelude PyStr PyDatetime PyDecimal PyJson AcquisitionContracts.
From S2P Require Import Database RuntimeContracts RuntimeStore RuntimeAttempts.
From Stdlib Require Import Ascii String.
From stdpp Require Import gmap.

Local Open Scope string_scope.
Local Open Scope Z_scope.
Local Open Scope list_scope.

(** * Actions *)

(** [acquisition_runtime/registry.py:34-41 AcquisitionActionContext]: the
    guard is that of the owner and of the token of the run. *)
Record AcquisitionActionContext : Type := mkContext {
  ac_stage : AcquisitionRuntimeStage;
  ac_proposal : RuntimeProposal;
  ac_cycle : RuntimeCycleSnapshot;
  ac_stage_snapshot : RuntimeStageSnapshot;
  ac_allow_qa_provider_mutations : bool;
  ac_at : datetime;
}.

(** What a handler does: it returns or raises, or it protects a business
    action by the guard and goes on with the outcome. *)
Inductive action_run : Type :=
| Returns (outcome : result RuntimeActionResult)
| Protects (business : datetime -> result unit)
    (continue : result unit -> action_run).

(** [RuntimeActionResult(status=..., reason_codes=(...))] *)
Definition stopped (status : RuntimeStageStatus) (reason : string) : RuntimeActionResult :=
  mkActionResult status [] dec_zero dec_zero [reason] None false.

(** [acquisition_runtime/registry.py:84-103 AcquisitionActionRegistry.execute]: why no handler
    is called. *)
Definition refusal (stage : AcquisitionRuntimeStage) (proposal : RuntimeProposal)
    (cycle : RuntimeCycleSnapshot) (allow_qa_provider_mutations guarded : bool)
  : option RuntimeActionResult :=
  if negb (bool_decide (rp_command proposal = stage_command stage))
  then Some (stopped BLOCKED "REGISTRY_COMMAND_MISMATCH")
  else if negb (bool_decide (rp_target_ref proposal = rc_cycle_ref cycle))
  then Some (stopped BLOCKED "REGISTRY_TARGET_MISMATCH")
  else if bool_decide (stage = PROVIDER_HANDOFF) && negb allow_qa_provider_mutations
  then Some (stopped WAITING "QA_PROVIDER_MUTATION_NOT_AUTHORIZED")
  else if negb guarded
  then Some (stopped BLOCKED "RUNTIME_FENCE_MISSING")
  else None.

(** [acquisition_runtime/registry.py:68-110 AcquisitionActionRegistry.execute] *)
Definition execute (handlers : AcquisitionRuntimeStage -> AcquisitionActionContext -> action_run)
    (stage : AcquisitionRuntimeStage) (proposal : RuntimeProposal) (cycle : RuntimeCycleSnapshot)
    (stage_snapshot : RuntimeStageSnapshot) (allow_qa_provider_mutations guarded : bool)
    (at_ : datetime) : action_run :=
  match require_aware at_ with
  | Raise e => Returns (Raise e)
  | Ok observed_at =>
      match refusal stage proposal cycle allow_qa_provider_mutations guarded with
      | Some refused => Returns (Ok refused)
      | None =>
          handlers stage
            (mkContext stage proposal cycle stage_snapshot allow_qa_provider_mutations observed_at)
      end
  end.

(** * Runs *)

(** The arguments of [_event]. *)
Record runtime_event : Type := mkEvent {
  ev_action : string;
  ev_status : string;
  ev_code : string;
  ev_attempt : Z;
  ev_cycle_ref : option string;
  ev_stage : option string;
}.

(** [acquisition_runtime/contracts.py:485-487 RuntimeRunRequest] *)
Record RuntimeRunRequest : Type := mkRequest {
  rq_owner_ref : string;
  rq_allow_qa_provider_mutations : bool;
}.

(** [acquisition_runtime/runner.py:179-204 AcquisitionRuntimeRunner.__init__]: what the
    runner is made with, besides the store. *)
Record AcquisitionRuntimeRunner : Type := mkRunner {
  ru_supervisor : AcquisitionRuntimeStage -> RuntimeCycleSnapshot -> decimal -> datetime ->
                  result RuntimeProposal;
  ru_handlers : AcquisitionRuntimeStage -> AcquisitionActionContext -> action_run;
  ru_allowed_opportunity_keys : list string;
  ru_config_fingerprint : string;
  ru_maximum_cost : decimal;
  ru_maximum_wall : Z;
  ru_lease_seconds : Z;
  ru_runtime_capability : RuntimeCapabilityEvidence;
}.

(** What surrounds a run: the readings of the application's clock, those of
    the database's clock, one for a transaction, and the operations of other
    processes before each transaction of the run. *)
Record world : Type := mkWorld {
  w_clock : nat -> datetime;
  w_database_clock : nat -> option datetime;
  w_others : nat -> list (option datetime * store_op);
}.

(** A run in progress: the tables, the readings and transactions so far, the
    events, the actions executed with the tables they found, and the local
    variables that the handlers of exceptions read. *)
Record run_state : Type := mkRun {
  rt_db : runtime_db;
  rt_reads : nat;
  rt_transactions : nat;
  rt_events : list runtime_event;
  rt_calls : list (AcquisitionActionContext * runtime_db);
  rt_now : datetime;
  rt_cycle : option RuntimeCycleSnapshot;
  rt_stage : option AcquisitionRuntimeStage;
  rt_attempt : Z;
}.

(** A computation keeps what was committed when it raises. *)
Definition run (A : Type) : Type := run_state -> result A * run_state.

Definition ret {A} (a : A) : run A := fun s => (Ok a, s).
Definition throw {A} (e : exn) : run A := fun s => (Raise e, s).
Definition bind {A B} (m : run A) (k : A -> run B) : run B := fun s =>
  match m s with (Ok a, s) => k a s | (Raise e, s) => (Raise e, s) end.
Definition lift {A} (r : result A) : run A := fun s => (r, s).
(** [try: m except e: h(e)] *)
Definition catch {A} (m : run A) (h : exn -> run A) : run A := fun s =>
  match m s with (Ok a, s) => (Ok a, s) | (Raise e, s) => h e s end.
(** [try: m finally: f] *)
Definition finally {A} (m : run A) (f : run unit) : run A := fun s =>
  let '(r, s) := m s in
  match f s with (Ok _, s) => (r, s) | (Raise e, s) => (Raise e, s) end.

Declare Scope run_scope.
Notation "'do!' x ':=' m 'in' k" := (bind m (fun x => k))
  (at level 10, x pattern, m at level 100, k at level 200) : run_scope.
Local Open Scope run_scope.

Definition gets {A} (f : run_state -> A) : run A := fun s => (Ok (f s), s).

Definition log (e : runtime_event) : run unit := fun s =>
  (Ok tt, mkRun (rt_db s) (rt_reads s) (rt_transactions s) (rt_events s ++ [e]) (rt_calls s)
            (rt_now s) (rt_cycle s) (rt_stage s) (rt_attempt s)).
Definition called (c : AcquisitionActionContext) : run unit := fun s =>
  (Ok tt, mkRun (rt_db s) (rt_reads s) (rt_transactions s) (rt_events s)
            (rt_calls s ++ [(c, rt_db s)]) (rt_now s) (rt_cycle s) (rt_stage s) (rt_attempt s)).
Definition set_db (db : runtime_db) (s : run_state) : run_state :=
  mkRun db (rt_reads s) (rt_transactions s) (rt_events s) (rt_calls s) (rt_now s) (rt_cycle s)
    (rt_stage s) (rt_attempt s).
Definition set_now (now : datetime) : run unit := fun s =>
  (Ok tt, mkRun (rt_db s) (rt_reads s) (rt_transactions s) (rt_events s) (rt_calls s) now
            (rt_cycle s) (rt_stage s) (rt_attempt s)).
Definition set_cycle (c : RuntimeCycleSnapshot) : run unit := fun s =>
  (Ok tt, mkRun (rt_db s) (rt_reads s) (rt_transactions s) (rt_events s) (rt_calls s) (rt_now s)
            (Some c) (rt_stage s) (rt_attempt s)).
Definition set_stage (stage : AcquisitionRuntimeStage) (attempt : Z) : run unit := fun s =>
  (Ok tt, mkRun (rt_db s) (rt_reads s) (rt_transactions s) (rt_events s) (rt_calls s) (rt_now s)
            (rt_cycle s) (Some stage) attempt).

Section runner.
Context `{Hash : HashLib} `{DB : Database} (w : world) (self : AcquisitionRuntimeRunner).

(** A transaction: what the others did comes first; it commits, or raises and
    leaves the tables as they are. *)
Definition transact {A} (f : option datetime -> runtime_db -> result (A * runtime_db)) : run A :=
  fun s =>
    let n := rt_transactions s in
    let db := apply_ops (w_others w n) (rt_db s) in
    let next db := mkRun db (rt_reads s) (S n) (rt_events s) (rt_calls s) (rt_now s) (rt_cycle s)
                     (rt_stage s) (rt_attempt s) in
    match f (w_database_clock w n) db with
    | Ok (a, db') => (Ok a, next db')
    | Raise e => (Raise e, next db)
    end.

(** A transaction without a value. *)
Definition transact_ (f : option datetime -> runtime_db -> result runtime_db) : run unit :=
  transact (fun clock db => let! db := f clock db in Ok (tt, db)).

(** [acquisition_runtime/runner.py:767-768 AcquisitionRuntimeRunner._now] *)
Definition _now : run datetime := fun s =>
  (require_aware (w_clock w (rt_reads s)),
   mkRun (rt_db s) (S (rt_reads s)) (rt_transactions s) (rt_events s) (rt_calls s) (rt_now s)
     (rt_cycle s) (rt_stage s) (rt_attempt s)).

(** ** Events *)

(** [status.value.casefold()] *)
Definition stage_status_folded (s : RuntimeStageStatus) : string :=
  match s with
  | PENDING => "pending" | RUNNING => "running" | WAITING => "waiting"
  | SUCCEEDED => "succeeded" | BLOCKED => "blocked" | FAILED => "failed"
  | SUPPRESSED => "suppressed" | CANCELLED => "cancelled"
  end.
Definition run_status_folded (s : RuntimeRunStatus) : string :=
  match s with
  | RunALREADY_RUNNING => "already_running" | RunCOMPLETED => "completed"
  | RunWAITING => "waiting" | RunBLOCKED => "blocked" | RunFAILED => "failed"
  | RunSUPPRESSED => "suppressed" | RunCANCELLED => "cancelled"
  end.

(** [acquisition_runtime/runner.py:770-786 AcquisitionRuntimeRunner._emit_stage] *)
Definition _emit_stage (cycle_ref : string) (stage : AcquisitionRuntimeStage) (attempt : Z)
    (action_result : RuntimeActionResult) : run unit :=
  log (mkEvent "stage" (stage_status_folded (ra_status action_result))
         (default "STAGE_SUCCEEDED" (head (ra_reason_codes action_result))) attempt
         (Some cycle_ref) (Some (stage_value stage))).

(** [acquisition_runtime/runner.py:788-802 AcquisitionRuntimeRunner._emit_cycle] *)
Definition _emit_cycle (cycle_ref : string) (status : RuntimeRunStatus) (code : string) : run unit :=
  log (mkEvent "cycle"
         (if bool_decide (status = RunCOMPLETED) then "succeeded" else run_status_folded status)
         code 0 (Some cycle_ref) None).

Definition lease_event (status code : string) : run unit :=
  log (mkEvent "lease" status code 0 None None).

(** ** Actions under the guard *)

(** A business action that the guard protects; the prolonged lease is kept
    when it does not raise. *)
Fixpoint run_action (owner_ref : string) (fencing_token : Z) (a : action_run) : run RuntimeActionResult :=
  match a with
  | Returns outcome => lift (let! r := outcome in action_result_validate r)
  | Protects business continue => fun s =>
      let db := apply_ops (w_others w (rt_transactions s)) (rt_db s) in
      let next db := mkRun db (rt_reads s) (S (rt_transactions s)) (rt_events s) (rt_calls s)
                       (rt_now s) (rt_cycle s) (rt_stage s) (rt_attempt s) in
      match protect db (w_database_clock w (rt_transactions s)) owner_ref fencing_token (ru_lease_seconds self) business with
      | Ok (v, db') => run_action owner_ref fencing_token (continue (Ok v)) (next db')
      | Raise e => run_action owner_ref fencing_token (continue (Raise e)) (next db)
      end
  end.

(** The action of a stage, recorded when a handler is reached. *)
Definition run_execute (owner_ref : string) (fencing_token : Z) (stage : AcquisitionRuntimeStage)
    (proposal : RuntimeProposal) (cycle : RuntimeCycleSnapshot)
    (stage_snapshot : RuntimeStageSnapshot) (allow : bool) (at_ : datetime) : run RuntimeActionResult :=
  do! _ := match require_aware at_, refusal stage proposal cycle allow true with
           | Ok observed_at, None =>
               called (mkContext stage proposal cycle stage_snapshot allow observed_at)
           | _, _ => ret tt
           end in
  run_action owner_ref fencing_token
    (execute (ru_handlers self) stage proposal cycle stage_snapshot allow true at_).

(** ** A stage *)

(** [cycle.model_copy(update=...)]: not validated. *)
Definition cycle_copy (c : RuntimeCycleSnapshot) (status : RuntimeCycleStatus)
    (next_stage : option AcquisitionRuntimeStage) (spent : decimal) : RuntimeCycleSnapshot :=
  mkCycleSnapshot (rc_cycle_ref c) (rc_opportunity_key c) status next_stage spent (rc_started_at c).

Definition result_copy (r : RuntimeActionResult) (status : RuntimeStageStatus)
    (reserved_cost : decimal) (reasons : list string) : RuntimeActionResult :=
  mkActionResult status (ra_result_refs r) reserved_cost (ra_observed_cost r) reasons
    (ra_retry_at r) (ra_replay_same_attempt r).

(** [acquisition_runtime/runner.py:619-716 AcquisitionRuntimeRunner._execute_stage] *)
Definition _execute_stage (stage : AcquisitionRuntimeStage) (cycle : RuntimeCycleSnapshot)
    (stage_snapshot : RuntimeStageSnapshot) (request : RuntimeRunRequest) (fencing_token : Z)
    (at_ : datetime) : run (option RuntimeProposal * RuntimeActionResult * decimal) :=
  let envelope := KIVOU_STAGE_COSTS stage in
  let cycle_ref := rc_cycle_ref cycle in
  let owner_ref := rq_owner_ref request in
  do! reservation := transact (fun clock db =>
    reserve_stage_cost db clock cycle_ref stage stage_snapshot envelope (ru_maximum_cost self)
      owner_ref fencing_token at_) in
  let total := rr_total_cycle_cost reservation in
  if negb (rr_accepted reservation) then ret (None, stopped BLOCKED "CYCLE_BUDGET_EXCEEDED", total)
  else
    let remaining := dec_add (dec_sub (ru_maximum_cost self) total) (rr_reserved_cost reservation) in
    do! proposal :=
      match rr_proposal reservation with
      | Some proposal => ret proposal
      | None =>
          do! proposal := lift (let! p := ru_supervisor self stage
                                            (cycle_copy cycle (rc_status cycle) (rc_next_stage cycle) total)
                                            remaining at_ in
                                proposal_validate p) in
          transact (fun clock db =>
            bind_stage_proposal db clock cycle_ref stage stage_snapshot proposal owner_ref
              fencing_token at_)
      end in
    if negb (bool_decide (rp_command proposal = stage_command stage))
    then ret (Some proposal, stopped BLOCKED "SUPERVISOR_ACTION_MISMATCH", total)
    else if negb (dec_eqb (rp_estimated_cost proposal) envelope)
    then ret (Some proposal, stopped BLOCKED "CYCLE_BUDGET_EXCEEDED", total)
    else
      do! r := run_execute owner_ref fencing_token stage proposal cycle stage_snapshot
                 (rq_allow_qa_provider_mutations request) at_ in
      if dec_ltb remaining (ra_observed_cost r)
      then ret (Some proposal,
                result_copy r FAILED (rp_estimated_cost proposal) ["OBSERVED_CYCLE_COST_EXCEEDED"], total)
      else ret (Some proposal,
                result_copy r (ra_status r) (rp_estimated_cost proposal) (ra_reason_codes r),
                dec_max total (dec_add (dec_sub total (rr_reserved_cost reservation))
                                 (ra_observed_cost r))).

(** [acquisition_runtime/runner.py:728-750 AcquisitionRuntimeRunner._stop_result]: the table. *)
Definition stop_statuses (status : RuntimeStageStatus) : option (RuntimeCycleStatus * RuntimeRunStatus) :=
  match status with
  | WAITING => Some (CycleWAITING, RunWAITING)
  | BLOCKED => Some (CycleBLOCKED, RunBLOCKED)
  | FAILED => Some (CycleFAILED, RunFAILED)
  | SUPPRESSED => Some (CycleSUPPRESSED, RunSUPPRESSED)
  | CANCELLED => Some (CycleCANCELLED, RunCANCELLED)
  | _ => None
  end.

(** ** A run *)

Definition do_finish_cycle (request : RuntimeRunRequest) (fencing_token : Z) (cycle_ref : string)
    (status : RuntimeCycleStatus) (at_ : datetime) (reason : option string) : run unit :=
  transact_ (fun clock db =>
    finish_cycle db clock cycle_ref status (rq_owner_ref request) fencing_token at_ reason).

Definition do_finish_stage (request : RuntimeRunRequest) (fencing_token : Z) (cycle_ref : string)
    (stage : AcquisitionRuntimeStage) (action_result : RuntimeActionResult) (at_ : datetime)
    (proposal : option RuntimeProposal) : run unit :=
  transact_ (fun clock db =>
    finish_stage db clock cycle_ref stage action_result (rq_owner_ref request) fencing_token at_
      proposal).

Definition do_observe_cycle (request : RuntimeRunRequest) (fencing_token : Z) (cycle_ref : string)
    (at_ : datetime) : run unit :=
  do! _ := transact (fun clock db =>
    record_cycle_observation db clock (rq_owner_ref request) cycle_ref fencing_token at_) in
  ret tt.

(** [RuntimeRunResult(...)] *)
Definition run_result (status : RuntimeRunStatus) (cycle_ref : option string)
    (stage : option AcquisitionRuntimeStage) (reason : option string) : run RuntimeRunResult :=
  lift (run_result_validate (mkRunResult status cycle_ref stage reason)).

(** [acquisition_runtime/runner.py:718-765 AcquisitionRuntimeRunner._stop_result] *)
Definition _stop_result (cycle_ref : string) (stage : AcquisitionRuntimeStage)
    (action_result : RuntimeActionResult) (request : RuntimeRunRequest) (fencing_token : Z)
    (at_ : datetime) : run RuntimeRunResult :=
  do! (cycle_status, run_status) :=
    lift (option_to_result (KeyError (stage_status_value (ra_status action_result)))
            (stop_statuses (ra_status action_result))) in
  do! reason := lift (option_to_result (LookupError "tuple index out of range")
                        (head (ra_reason_codes action_result))) in
  do! _ := do_finish_cycle request fencing_token cycle_ref cycle_status at_ (Some reason) in
  run_result run_status (Some cycle_ref) (Some stage) (Some reason).

(** The cycle is over: it succeeds. *)
Definition succeed (request : RuntimeRunRequest) (fencing_token : Z) (cycle_ref : string) (at_ : datetime)
  : run RuntimeRunResult :=
  do! _ := do_finish_cycle request fencing_token cycle_ref CycleSUCCEEDED at_ None in
  do! _ := do_observe_cycle request fencing_token cycle_ref at_ in
  do! _ := _emit_cycle cycle_ref RunCOMPLETED "CYCLE_SUCCEEDED" in
  run_result RunCOMPLETED (Some cycle_ref) None None.

(** [acquisition_runtime/runner.py:328-495 AcquisitionRuntimeRunner.run_once]: the loop over the
    stages. *)
Fixpoint run_stages (request : RuntimeRunRequest) (fencing_token : Z) (started_at : datetime)
    (cycle : RuntimeCycleSnapshot) (spent : decimal) (remaining : list AcquisitionRuntimeStage)
  : run RuntimeRunResult :=
  let cycle_ref := rc_cycle_ref cycle in
  match remaining with
  | [] => do! now := gets rt_now in succeed request fencing_token cycle_ref now
  | stage :: remaining' =>
      do! _ := set_stage stage 0 in
      do! now := _now in
      do! _ := set_now now in
      if ru_maximum_wall self * US_SECOND <=? instant now - instant started_at then
        do! _ := do_finish_cycle request fencing_token cycle_ref CycleWAITING now
                   (Some "CYCLE_TIME_BUDGET_REACHED") in
        do! _ := do_observe_cycle request fencing_token cycle_ref now in
        do! _ := _emit_cycle cycle_ref RunWAITING "CYCLE_TIME_BUDGET_REACHED" in
        run_result RunWAITING (Some cycle_ref) (Some stage) (Some "CYCLE_TIME_BUDGET_REACHED")
      else
        do! stage_snapshot := transact (fun clock db =>
          begin_stage db clock cycle_ref stage (rq_owner_ref request) fencing_token now) in
        do! _ := set_stage stage (rs_attempt_count stage_snapshot) in
        if bool_decide (rs_status stage_snapshot = WAITING)
           && match rs_retry_at stage_snapshot with Some t => dt_ltb now t | None => false end then
          do! _ := do_observe_cycle request fencing_token cycle_ref now in
          do! _ := _emit_cycle cycle_ref RunWAITING "STAGE_RETRY_NOT_DUE" in
          run_result RunWAITING (Some cycle_ref) (Some stage) (Some "STAGE_RETRY_NOT_DUE")
        else
          do! _ := do_observe_cycle request fencing_token cycle_ref now in
          do! _ := log (mkEvent "stage" "started" "STAGE_STARTED" (rs_attempt_count stage_snapshot)
                          (Some cycle_ref) (Some (stage_value stage))) in
          do! (proposal, action_result, spent) :=
            (if bool_decide (stage = PROVIDER_HANDOFF) && negb (rq_allow_qa_provider_mutations request)
             then ret (None, stopped WAITING "QA_PROVIDER_MUTATION_NOT_AUTHORIZED", spent)
             else _execute_stage stage (cycle_copy cycle CycleRUNNING (Some stage) spent)
                    stage_snapshot request fencing_token now) in
          do! checkpoint_at := _now in
          do! _ := transact_ (fun clock db =>
            heartbeat_lease db clock (rq_owner_ref request) fencing_token checkpoint_at
              (ru_lease_seconds self)) in
          do! _ := do_finish_stage request fencing_token cycle_ref stage action_result checkpoint_at
                     proposal in
          do! _ := set_now checkpoint_at in
          do! _ := _emit_stage cycle_ref stage (rs_attempt_count stage_snapshot) action_result in
          if bool_decide (ra_status action_result = SUCCEEDED)
          then run_stages request fencing_token started_at cycle spent remaining'
          else
            do! stopped := _stop_result cycle_ref stage action_result request fencing_token
                             checkpoint_at in
            do! _ := do_observe_cycle request fencing_token cycle_ref checkpoint_at in
            do! _ := _emit_cycle cycle_ref (run_status stopped)
                       (match run_reason_code stopped with
                        | Some code => if nonempty code then code else "CYCLE_STOPPED"
                        | None => "CYCLE_STOPPED"
                        end) in
            ret stopped
  end.

(** The stages from one on. *)
Definition stages_from (stage : AcquisitionRuntimeStage) : list AcquisitionRuntimeStage :=
  match list_find (eq stage) stages with Some (start, _) => drop start stages | None => [] end.

(** [acquisition_runtime/runner.py:237-329 AcquisitionRuntimeRunner.run_once]: what the [try]
    holds, up to the loop. *)
Definition run_body (request : RuntimeRunRequest) (fencing_token : Z) (started_at : datetime)
  : run RuntimeRunResult :=
  let owner_ref := rq_owner_ref request in
  do! _ := transact (fun clock db =>
    record_runtime_observation db clock owner_ref (ru_runtime_capability self) fencing_token started_at) in
  match first_match (fun d => bool_decide (de_status d = NOT_READY))
          (ce_dependencies (ru_runtime_capability self)) with
  | Some unavailable =>
      do! reason := lift (option_to_result (LookupError "tuple index out of range")
                            (head (de_reason_codes unavailable))) in
      do! _ := log (mkEvent "cycle" "blocked" reason 0 None (Some (stage_value (de_stage unavailable)))) in
      run_result RunBLOCKED None (Some (de_stage unavailable)) (Some reason)
  | None =>
      do! cycle := transact (fun clock db =>
        resume_or_create_cycle db clock owner_ref fencing_token (ru_allowed_opportunity_keys self)
          (ru_config_fingerprint self) started_at) in
      do! _ := set_cycle cycle in
      let cycle_ref := rc_cycle_ref cycle in
      do! _ := do_observe_cycle request fencing_token cycle_ref started_at in
      do! _ := log (mkEvent "cycle" "started" "CYCLE_RESUMED" 0 (Some cycle_ref) None) in
      match rc_next_stage cycle with
      | None =>
          match rc_status cycle with
          | CycleSUPPRESSED =>
              do! _ := _emit_cycle cycle_ref RunSUPPRESSED "CYCLE_SUPPRESSED" in
              run_result RunSUPPRESSED (Some cycle_ref) None None
          | CycleSUCCEEDED =>
              do! _ := _emit_cycle cycle_ref RunCOMPLETED "CYCLE_SUCCEEDED" in
              run_result RunCOMPLETED (Some cycle_ref) None None
          | _ => succeed request fencing_token cycle_ref started_at
          end
      | Some next_stage =>
          run_stages request fencing_token started_at cycle (rc_spent_cost cycle)
            (stages_from next_stage)
      end
  end.

(** [acquisition_runtime/runner.py:496-544 AcquisitionRuntimeRunner.run_once]: [except
    InterruptedError]. *)
Definition on_interrupted (request : RuntimeRunRequest) (fencing_token : Z) : run RuntimeRunResult :=
  do! cycle := gets rt_cycle in
  do! stage := gets rt_stage in
  do! attempt := gets rt_attempt in
  match cycle, stage with
  | Some cycle, Some stage =>
      if attempt <=? 0 then throw InterruptedError
      else
        let cycle_ref := rc_cycle_ref cycle in
        do! checkpoint_at := _now in
        do! waiting := lift (let! retry_at := dt_add checkpoint_at (60 * US_SECOND) in
          action_result_validate
            (mkActionResult WAITING [] dec_zero dec_zero ["CURRENT_RUN_INTERRUPTED"] (Some retry_at)
               true)) in
        do! _ := do_finish_stage request fencing_token cycle_ref stage waiting checkpoint_at None in
        do! _ := do_finish_cycle request fencing_token cycle_ref CycleWAITING checkpoint_at
                   (Some "CURRENT_RUN_INTERRUPTED") in
        do! _ := do_observe_cycle request fencing_token cycle_ref checkpoint_at in
        do! _ := _emit_stage cycle_ref stage attempt waiting in
        do! _ := _emit_cycle cycle_ref RunCANCELLED "CURRENT_RUN_INTERRUPTED" in
        run_result RunCANCELLED (Some cycle_ref) (Some stage) (Some "CURRENT_RUN_INTERRUPTED")
  | _, _ => throw InterruptedError
  end.

(** [acquisition_runtime/runner.py:545-606 AcquisitionRuntimeRunner.run_once]: [except
    Exception]. *)
Definition on_failure (request : RuntimeRunRequest) (fencing_token : Z) : run RuntimeRunResult :=
  do! cycle := gets rt_cycle in
  do! stage := gets rt_stage in
  do! attempt := gets rt_attempt in
  do! now := gets rt_now in
  let failure := "CURRENT_RUN_TECHNICAL_FAILURE" in
  match cycle with
  | Some cycle =>
      let cycle_ref := rc_cycle_ref cycle in
      let failed := stopped FAILED failure in
      do! _ := match stage with
               | Some stage =>
                   if 0 <? attempt
                   then do_finish_stage request fencing_token cycle_ref stage failed now None
                   else ret tt
               | None => ret tt
               end in
      do! _ := do_finish_cycle request fencing_token cycle_ref CycleFAILED now (Some failure) in
      do! _ := do_observe_cycle request fencing_token cycle_ref now in
      do! _ := match stage with
               | Some stage =>
                   if 0 <? attempt then _emit_stage cycle_ref stage attempt failed else ret tt
               | None => ret tt
               end in
      do! _ := _emit_cycle cycle_ref RunFAILED failure in
      run_result RunFAILED (Some cycle_ref) stage (Some failure)
  | None =>
      do! _ := log (mkEvent "cycle" "failed" failure 0 None None) in
      run_result RunFAILED None None (Some failure)
  end.

(** [acquisition_runtime/runner.py:607-617 AcquisitionRuntimeRunner.run_once]: [finally]. *)
Definition release (request : RuntimeRunRequest) (fencing_token : Z) : run unit :=
  do! now := gets rt_now in
  do! _ := transact_ (fun _ db => release_lease db (rq_owner_ref request) fencing_token now) in
  lease_event "released" "LEASE_RELEASED".

(** The body with the handlers of its exceptions. *)
Definition guarded_body (request : RuntimeRunRequest) (fencing_token : Z) (started_at : datetime)
  : run RuntimeRunResult :=
  catch (run_body request fencing_token started_at)
    (fun e => match e with
              | InterruptedError => on_interrupted request fencing_token
              | _ => on_failure request fencing_token
              end).

(** [acquisition_runtime/runner.py:206-617 AcquisitionRuntimeRunner.run_once] *)
Definition run_once (request : RuntimeRunRequest) : run RuntimeRunResult :=
  do! now := _now in
  do! _ := set_now now in
  do! lease := transact (fun clock db =>
    acquire_lease db clock (rq_owner_ref request) now (ru_lease_seconds self)) in
  if negb (lr_owned lease) then
    do! _ := lease_event "already_running" "LEASE_HELD" in
    run_result RunALREADY_RUNNING None None None
  else
    do! fencing_token := lift (option_to_result AssertionError (lr_fencing_token lease)) in
    do! _ := lease_event "started" "LEASE_ACQUIRED" in
    finally (guarded_body request fencing_token now) (release request fencing_token).
End runner.

(** Where a run starts. *)
Definition fresh_run (db : runtime_db) (now : datetime) : run_state :=
  mkRun db 0 0 [] [] now None None 0.
