(* ===== verification/RuntimeRuns.v ===== *)
(** RuntimeRuns: a program logic for the runs of RuntimeRunner, what every
    run keeps, and the protocol its transactions follow: a machine over the
    operations of the store, which each step of the code is proved to drive.

    [spec P m Q R]: from a state where [P] holds, [m] returns a value and a
    state related by [Q], or raises in a state where [R] holds. *)

From S2P Require Import Prelude PyStr PyDatetime PyDatetimeFacts PyDecimal PyJson.
From S2P Require Import AcquisitionContracts Database RuntimeContracts RuntimeStore.
From S2P Require Import RuntimeAttempts RuntimeLease RuntimeLedger RuntimeRunner.
From Stdlib Require Import Ascii String.
From stdpp Require Import gmap.

Local Open Scope string_scope.
Local Open Scope Z_scope.
Local Open Scope list_scope.
Local Open Scope run_scope.

Definition spec {A} (P : run_state -> Prop) (m : run A) (Q : A -> run_state -> Prop)
    (R : run_state -> Prop) : Prop :=
  forall s, P s -> match m s with (Ok a, s') => Q a s' | (Raise _, s') => R s' end.

Section rules.
Context {A B : Type}.

Lemma spec_ret (P : run_state -> Prop) (a : A) (Q : A -> run_state -> Prop) R :
  (forall s, P s -> Q a s) -> spec P (ret a) Q R.
Proof. intros H s Hs. by apply H. Qed.

Lemma spec_throw (P R : run_state -> Prop) e (Q : A -> run_state -> Prop) :
  (forall s, P s -> R s) -> spec P (throw e) Q R.
Proof. intros H s Hs. by apply H. Qed.

Lemma spec_lift (P R : run_state -> Prop) (r : result A) (Q : A -> run_state -> Prop) :
  (forall a s, r = Ok a -> P s -> Q a s) -> (forall s, P s -> R s) -> spec P (lift r) Q R.
Proof. intros H1 H2 s Hs. unfold lift. destruct r; eauto. Qed.

Lemma spec_bind (P : run_state -> Prop) (m : run A) (k : A -> run B) Q Q' R :
  spec P m Q R -> (forall a, spec (Q a) (k a) Q' R) -> spec P (bind m k) Q' R.
Proof.
  intros Hm Hk s Hs. unfold bind. specialize (Hm s Hs). destruct (m s) as [[a|e] s']; [|done].
  by apply Hk.
Qed.

Lemma spec_catch (P : run_state -> Prop) (m : run A) (h : exn -> run A) Q R R' :
  spec P m Q R -> (forall e, spec R (h e) Q R') -> spec P (catch m h) Q R'.
Proof.
  intros Hm Hh s Hs. unfold catch. specialize (Hm s Hs). destruct (m s) as [[a|e] s']; [done|].
  by apply Hh.
Qed.

Lemma spec_finally (P : run_state -> Prop) (m : run A) (f : run unit) Q R I :
  spec P m (fun a s => I s) I -> spec I f (fun _ s => (forall a, Q a s) /\ R s) R ->
  spec P (finally m f) Q R.
Proof.
  intros Hm Hf s Hs. unfold finally. specialize (Hm s Hs). destruct (m s) as [r s1].
  assert (HI : I s1) by (by destruct r). specialize (Hf s1 HI).
  destruct (f s1) as [[u|e] s2]; [|done]. destruct r; naive_solver.
Qed.

Lemma spec_weaken (P P' : run_state -> Prop) (m : run A) (Q Q' : A -> run_state -> Prop)
    (R R' : run_state -> Prop) :
  spec P' m Q' R' -> (forall s, P s -> P' s) -> (forall a s, Q' a s -> Q a s) ->
  (forall s, R' s -> R s) -> spec P m Q R.
Proof.
  intros Hm HP HQ HR s Hs. specialize (Hm s (HP s Hs)). destruct (m s) as [[a|e] s']; eauto.
Qed.
End rules.

(** An invariant that a computation keeps, whatever it returns. *)
Definition keeps (I : run_state -> Prop) {A} (m : run A) : Prop := spec I m (fun _ => I) I.

Section keeps.
Context (I : run_state -> Prop) {A B : Type}.

Lemma keeps_ret (a : A) : keeps I (ret a).
Proof. by apply spec_ret. Qed.
Lemma keeps_throw e : keeps I (@throw A e).
Proof. by apply spec_throw. Qed.
Lemma keeps_lift (r : result A) : keeps I (lift r).
Proof. by apply spec_lift. Qed.
Lemma keeps_gets (f : run_state -> A) : keeps I (gets f).
Proof. intros s Hs. exact Hs. Qed.
Lemma keeps_bind (m : run A) (k : A -> run B) : keeps I m -> (forall a, keeps I (k a)) -> keeps I (bind m k).
Proof. intros Hm Hk. by eapply spec_bind. Qed.
Lemma keeps_catch (m : run A) h : keeps I m -> (forall e, keeps I (h e)) -> keeps I (catch m h).
Proof. intros Hm Hk. by eapply spec_catch. Qed.
End keeps.

Create HintDb runs discriminated.
#[export] Hint Resolve keeps_ret keeps_throw keeps_lift keeps_gets : runs.

(** * The tables of a run *)

(** A datetime as [_now] gives it. *)
Definition timely (d : datetime) : Prop := require_aware d = Ok d.

Lemma require_aware_idem d d' : require_aware d = Ok d' -> require_aware d' = Ok d'.
Proof.
  unfold require_aware. intros H. inv_result. destruct (astimezone_utc_instant _ _ H) as [Hi Ho].
  unfold aware. rewrite Ho. simpl. unfold astimezone_utc in *. by rewrite Hi.
Qed.

Section reach.
Context `{Hash : HashLib} `{DB : Database} (w : world) (self : AcquisitionRuntimeRunner).
Context (scaled_others : forall n, Forall (fun e => op_scaled e.2) (w_others w n)).
Context (scaled_maximum : -6 <= d_exp (ru_maximum_cost self)).
Context (db0 : runtime_db).

(** The tables are those that operations of the store give. *)
Definition reached (db : runtime_db) : Prop :=
  exists ops, Forall (fun e => op_scaled e.2) ops /\ db = apply_ops ops db0.

(** What a run keeps. *)
Definition in_run (s : run_state) : Prop := reached (rt_db s) /\ timely (rt_now s).

Lemma reached_apply ops db :
  Forall (fun e => op_scaled e.2) ops -> reached db -> reached (apply_ops ops db).
Proof.
  intros Ho (ops' & Hs & ->). exists (ops' ++ ops). split; [by apply Forall_app|].
  unfold apply_ops. by rewrite foldl_app.
Qed.

Lemma reached_commit clock op db db' :
  op_scaled op -> reached db -> commit clock op db = Ok db' -> reached db'.
Proof.
  intros Ho Hr E. replace db' with (apply_ops [(clock, op)] db).
  - apply reached_apply; [by repeat constructor | done].
  - unfold apply_ops, apply_op. simpl. by rewrite E.
Qed.

(** A transaction of the run is an operation of the store. *)
Lemma keeps_transact {A} (f : option datetime -> runtime_db -> result (A * runtime_db)) op :
  op_scaled op ->
  (forall clock db a db', f clock db = Ok (a, db') -> commit clock op db = Ok db') ->
  keeps in_run (transact w f).
Proof.
  intros Ho Hf s [Hr Ht]. unfold transact. set (db := apply_ops _ _).
  assert (Hdb : reached db) by by apply reached_apply.
  destruct (f _ db) as [[a db']|e] eqn:E; simpl; (split; [|done]); [|done]. simpl.
  eapply reached_commit; [exact Ho | exact Hdb | eauto].
Qed.

Lemma keeps_transact_ f op :
  op_scaled op -> (forall clock db, f clock db = commit clock op db) -> keeps in_run (transact_ w f).
Proof.
  intros Ho Hf. eapply keeps_transact; [exact Ho|]. intros clock db a db' H. simpl in H. inv_result.
  by rewrite <- Hf.
Qed.

Lemma keeps_log e : keeps in_run (log e).
Proof. by intros s Hs. Qed.
Lemma keeps_called c : keeps in_run (called c).
Proof. by intros s Hs. Qed.
Lemma keeps_set_cycle c : keeps in_run (set_cycle c).
Proof. by intros s Hs. Qed.
Lemma keeps_set_stage st n : keeps in_run (set_stage st n).
Proof. by intros s Hs. Qed.

(** Reading the clock gives a timely value. *)
Lemma now_spec : spec in_run (_now w) (fun now s => in_run s /\ timely now) in_run.
Proof.
  intros s Hs. unfold _now. destruct (require_aware _) eqn:E; [|exact Hs]. split; [exact Hs|].
  by eapply require_aware_idem.
Qed.

Lemma set_now_spec now : timely now -> keeps in_run (set_now now).
Proof. intros Hn s [H1 _]. by split. Qed.

Lemma keeps_action o t a : keeps in_run (run_action w self o t a).
Proof.
  induction a as [r|business k IH]; [apply keeps_lift|]. intros s [Hr Ht]. simpl.
  set (db := apply_ops _ _). assert (Hdb : reached db) by by apply reached_apply.
  destruct (protect db _ o t _ business) as [[v db']|e] eqn:E; apply IH; (split; [|done]); [|done].
  simpl. apply (reached_commit (w_database_clock w (rt_transactions s)) (Protect o t (ru_lease_seconds self) business) db); [done|done|].
  simpl. by rewrite E.
Qed.

Lemma keeps_now_bind {B} (k : datetime -> run B) :
  (forall now, timely now -> keeps in_run (k now)) -> keeps in_run (bind (_now w) k).
Proof.
  intros Hk. eapply spec_bind; [apply now_spec|]. intros now s [Hs Hn]. by apply Hk.
Qed.

(** ** The transactions of a run, each with its operation *)

Lemma keeps_finish_cycle rq t c st a r : keeps in_run (do_finish_cycle w rq t c st a r).
Proof. by apply (keeps_transact_ _ (FinishCycle c st (rq_owner_ref rq) t a r)). Qed.

Lemma keeps_finish_stage rq t c st r a p : keeps in_run (do_finish_stage w rq t c st r a p).
Proof. by apply (keeps_transact_ _ (FinishStage c st r (rq_owner_ref rq) t a p)). Qed.

Lemma keeps_heartbeat o t a n :
  keeps in_run (transact_ w (fun clock db => heartbeat_lease db clock o t a n)).
Proof. by apply (keeps_transact_ _ (HeartbeatLease o t a n)). Qed.

Lemma keeps_release o t a : keeps in_run (transact_ w (fun _ db => release_lease db o t a)).
Proof. by apply (keeps_transact_ _ (ReleaseLease o t a)). Qed.

Lemma keeps_observe_cycle rq t c a : keeps in_run (do_observe_cycle w rq t c a).
Proof.
  apply keeps_bind; [|auto with runs]. apply (keeps_transact _ (RecordCycleObservation (rq_owner_ref rq) c t a)); [done|].
  intros clock db x db' E. simpl. by rewrite E.
Qed.

Lemma keeps_observe o t a :
  keeps in_run (transact w (fun clock db =>
    record_runtime_observation db clock o (ru_runtime_capability self) t a)).
Proof.
  apply (keeps_transact _ (RecordObservation o (ru_runtime_capability self) t a)); [done|].
  intros clock db x db' E. simpl. by rewrite E.
Qed.

Lemma keeps_resume o t ks f a :
  keeps in_run (transact w (fun clock db => resume_or_create_cycle db clock o t ks f a)).
Proof.
  apply (keeps_transact _ (ResumeOrCreateCycle o t ks f a)); [done|].
  intros clock db x db' E. simpl. by rewrite E.
Qed.

Lemma keeps_begin c st o t a :
  keeps in_run (transact w (fun clock db => begin_stage db clock c st o t a)).
Proof.
  apply (keeps_transact _ (BeginStage c st o t a)); [done|].
  intros clock db x db' E. simpl. by rewrite E.
Qed.

Lemma stage_costs_scaled st : -6 <= d_exp (KIVOU_STAGE_COSTS st).
Proof. by destruct st. Qed.

Lemma keeps_reserve c st n o t a :
  keeps in_run (transact w (fun clock db =>
    reserve_stage_cost db clock c st n (KIVOU_STAGE_COSTS st) (ru_maximum_cost self) o t a)).
Proof.
  apply (keeps_transact _ (ReserveStageCost c st n (KIVOU_STAGE_COSTS st) (ru_maximum_cost self) o t a)).
  - split; [apply stage_costs_scaled | done].
  - intros clock db x db' E. simpl. by rewrite E.
Qed.

Lemma keeps_bind_proposal c st n p o t a :
  keeps in_run (transact w (fun clock db => bind_stage_proposal db clock c st n p o t a)).
Proof.
  apply (keeps_transact _ (BindStageProposal c st n p o t a)); [done|].
  intros clock db x db' E. simpl. by rewrite E.
Qed.

Lemma keeps_execute o t st p c n allow a : keeps in_run (run_execute w self o t st p c n allow a).
Proof.
  unfold run_execute. apply keeps_bind; [|intros _; apply keeps_action].
  destruct (require_aware a), (refusal st p c allow true); auto using keeps_called with runs.
Qed.

#[local] Hint Resolve keeps_log keeps_set_cycle keeps_set_stage set_now_spec keeps_finish_cycle
  keeps_finish_stage keeps_heartbeat keeps_release keeps_observe_cycle keeps_observe keeps_resume
  keeps_begin keeps_reserve keeps_bind_proposal keeps_execute : runs.

Ltac run_steps :=
  repeat match goal with
  | |- keeps _ (bind (_now _) _) => apply keeps_now_bind; intros ? ?
  | |- keeps _ _ => solve [eauto 2 with runs]
  | |- keeps _ (bind _ _) => apply keeps_bind
  | |- forall _, _ => intros ?
  | |- keeps _ (let '(_, _) := ?p in _) => destruct p
  | |- keeps _ (if ?b then _ else _) => destruct b
  | |- keeps _ (match ?x with _ => _ end) => destruct x
  end.

Lemma keeps_execute_stage st c n rq t a : keeps in_run (_execute_stage w self st c n rq t a).
Proof. unfold _execute_stage. run_steps. Qed.

Lemma keeps_stop_result c st r rq t a : keeps in_run (_stop_result w c st r rq t a).
Proof. unfold _stop_result, run_result. run_steps. Qed.

Lemma keeps_succeed rq t c a : keeps in_run (succeed w rq t c a).
Proof. unfold succeed, _emit_cycle, run_result. run_steps. Qed.

#[local] Hint Resolve keeps_execute_stage keeps_stop_result keeps_succeed : runs.

Lemma keeps_stages rq t started c spent l : keeps in_run (run_stages w self rq t started c spent l).
Proof.
  revert spent; induction l as [|st l IH]; intros spent; simpl;
    unfold _emit_cycle, _emit_stage, run_result; run_steps.
Qed.

#[local] Hint Resolve keeps_stages : runs.

Lemma keeps_body rq t started : keeps in_run (guarded_body w self rq t started).
Proof.
  unfold guarded_body. apply keeps_catch.
  - unfold run_body, _emit_cycle, run_result. run_steps.
  - unfold on_interrupted, on_failure, _emit_cycle, _emit_stage, run_result. run_steps.
Qed.

Lemma keeps_release_run rq t : keeps in_run (release w rq t).
Proof. unfold release, lease_event. run_steps. Qed.
End reach.

Section whole_run.
Context `{Hash : HashLib} `{DB : Database} (w : world) (self : AcquisitionRuntimeRunner).
Context (scaled_others : forall n, Forall (fun e => op_scaled e.2) (w_others w n)).
Context (scaled_maximum : -6 <= d_exp (ru_maximum_cost self)).

Lemma keeps_finally (I : run_state -> Prop) {A} (m : run A) f :
  keeps I m -> keeps I f -> keeps I (finally m f).
Proof.
  intros Hm Hf s Hs. unfold finally. specialize (Hm s Hs).
  destruct (m s) as [r s1]. assert (HI : I s1) by (by destruct r). specialize (Hf s1 HI).
  destruct (f s1) as [[u|e] s2]; [by destruct r | done].
Qed.

(** Once the clock was read, a run goes from tables to tables that
    operations of the store give. *)
Lemma run_once_reached request s r s' :
  run_once w self request s = (r, s') -> reached (rt_db s) (rt_db s').
Proof.
  intros H. unfold run_once, bind at 1, _now in H.
  destruct (require_aware _) as [now|e] eqn:E.
  2: { injection H as <- <-. by exists []. }
  unfold bind at 1, set_now in H. simpl in H.
  match type of H with ?m ?s1 = _ => assert (Hs1 : in_run (rt_db s) s1) end.
  { split; [by exists []|]. by eapply require_aware_idem. }
  match type of H with ?m ?s1 = _ => assert (Hk : keeps (in_run (rt_db s)) m) end.
  2: { specialize (Hk _ Hs1). rewrite H in Hk. by destruct r; apply Hk. }
  apply keeps_bind.
  - apply keeps_transact with (op := AcquireLease (rq_owner_ref request) now (ru_lease_seconds self));
      [done|done|]. intros clock db x db' Ex. simpl. by rewrite Ex.
  - intros l. destruct (negb (lr_owned l)).
    + apply keeps_bind; [apply keeps_log|]. intros _. apply keeps_lift.
    + apply keeps_bind; [apply keeps_lift|]. intros t. apply keeps_bind; [apply keeps_log|]. intros _.
      apply keeps_finally; [by apply keeps_body | by apply keeps_release_run].
Qed.
End whole_run.

(** * The actions of a run *)

(** An action is executed for the stage's own command and for its cycle, to
    providers with an authorization only; its attempt is running, with the
    proposal, and has reserved the cost of the stage. *)
Definition call_ok (e : AcquisitionActionContext * runtime_db) : Prop :=
  let '(c, db) := e in
  rp_command (ac_proposal c) = stage_command (ac_stage c)
  /\ rp_target_ref (ac_proposal c) = rc_cycle_ref (ac_cycle c)
  /\ (ac_stage c = PROVIDER_HANDOFF -> ac_allow_qa_provider_mutations c = true)
  /\ exists row stored,
       rdb_attempts db !! (rc_cycle_ref (ac_cycle c), ac_stage c, rs_attempt_count (ac_stage_snapshot c))
         = Some row
       /\ at_status row = RUNNING
       /\ dec_eqb (at_reserved_cost row) (KIVOU_STAGE_COSTS (ac_stage c)) = true
       /\ at_proposal row = Some stored
       /\ (stored = ac_proposal c \/ proposal_validate stored = Ok (ac_proposal c)).

(** Equality of amounts is an equivalence. *)
Lemma dec_eqb_at e a b :
  e <= d_exp a -> e <= d_exp b -> dec_eqb a b = true <-> coef_at e a = coef_at e b.
Proof.
  intros Ha Hb. unfold dec_eqb, dec_compare. set (m := Z.min (d_exp a) (d_exp b)).
  rewrite (coef_at_shift e m a), (coef_at_shift e m b) by lia.
  assert (0 < 10 ^ (m - e)) by (apply Z.pow_pos_nonneg; lia).
  destruct (Z.compare_spec (coef_at m a) (coef_at m b)); split; intros; try done; nia.
Qed.

Lemma dec_eqb_sym a b : dec_eqb a b = true -> dec_eqb b a = true.
Proof. rewrite !(dec_eqb_at (Z.min (d_exp a) (d_exp b))) by lia. done. Qed.

Lemma dec_eqb_trans a b c : dec_eqb a b = true -> dec_eqb b c = true -> dec_eqb a c = true.
Proof.
  rewrite !(dec_eqb_at (Z.min (d_exp a) (Z.min (d_exp b) (d_exp c)))) by lia. congruence.
Qed.

(** The calls added since are for some of these stages, in order, and are as
    they must be. *)
Definition added (cs : list (AcquisitionActionContext * runtime_db)) (L : list AcquisitionRuntimeStage)
    (s : run_state) : Prop :=
  exists l, rt_calls s = cs ++ l /\ sublist (map (fun e => ac_stage e.1) l) L /\ Forall call_ok l.

Definition adds (L : list AcquisitionRuntimeStage) {A} (m : run A) : Prop :=
  forall cs, spec (fun s => rt_calls s = cs) m (fun _ => added cs L) (added cs L).

Lemma added_nil cs L s : rt_calls s = cs -> added cs L s.
Proof. intros <-. exists []. rewrite app_nil_r. split_and!; [done | apply sublist_nil_l | done]. Qed.

Lemma added_app cs L1 L2 cs' s s' :
  added cs L1 s -> rt_calls s = cs' -> added cs' L2 s' -> added cs (L1 ++ L2) s'.
Proof.
  intros (l1 & E1 & S1 & F1) <- (l2 & E2 & S2 & F2). exists (l1 ++ l2).
  rewrite E2, E1, <- app_assoc, map_app. split_and!; [done | by apply sublist_app | by apply Forall_app].
Qed.

Section adds.
Context {A B : Type}.

Lemma adds_quiet L (m : run A) : (forall s, rt_calls (m s).2 = rt_calls s) -> adds L m.
Proof.
  intros Hm cs s Hs. specialize (Hm s). destruct (m s) as [[a|e] s']; simpl in Hm; apply added_nil; congruence.
Qed.

Lemma adds_bind L1 L2 (m : run A) (k : A -> run B) :
  adds L1 m -> (forall a, adds L2 (k a)) -> adds (L1 ++ L2) (bind m k).
Proof.
  intros Hm Hk cs s Hs. unfold bind. specialize (Hm cs s Hs). destruct (m s) as [[a|e] s1].
  - specialize (Hk a (rt_calls s1) s1 eq_refl). destruct (k a s1) as [[b|e] s2]; by eapply added_app.
  - destruct Hm as (l & E & S & F). exists l. split_and!; [done | by apply sublist_inserts_r | done].
Qed.

Lemma adds_first L (m : run A) (k : A -> run B) :
  adds [] m -> (forall a, adds L (k a)) -> adds L (bind m k).
Proof. intros Hm Hk. by apply (adds_bind [] L). Qed.
End adds.

Lemma adds_weaken L L' {A} (m : run A) : sublist L L' -> adds L m -> adds L' m.
Proof.
  intros HL Hm cs s Hs. specialize (Hm cs s Hs). destruct (m s) as [[a|e] s'];
    destruct Hm as (l & E & S & F); exists l; (split_and!; [done | by etrans | done]).
Qed.

Lemma adds_catch L {A} (m : run A) h : adds L m -> (forall e, adds [] (h e)) -> adds L (catch m h).
Proof.
  intros Hm Hh cs s Hs. unfold catch. specialize (Hm cs s Hs). destruct (m s) as [[a|e] s1]; [done|].
  specialize (Hh e (rt_calls s1) s1 eq_refl). rewrite <- (app_nil_r L).
  destruct (h e s1) as [[b|e'] s2]; by eapply added_app.
Qed.

Lemma adds_finally L {A} (m : run A) f : adds L m -> adds [] f -> adds L (finally m f).
Proof.
  intros Hm Hf cs s Hs. unfold finally. specialize (Hm cs s Hs). destruct (m s) as [r s1].
  assert (H1 : added cs L s1) by (by destruct r). specialize (Hf (rt_calls s1) s1 eq_refl).
  rewrite <- (app_nil_r L). destruct (f s1) as [[u|e] s2]; [destruct r|]; by eapply added_app.
Qed.

Section calls.
Context `{Hash : HashLib} `{DB : Database} (w : world) (self : AcquisitionRuntimeRunner).

Lemma quiet_transact {A} (f : option datetime -> runtime_db -> result (A * runtime_db)) s :
  rt_calls (transact w f s).2 = rt_calls s.
Proof. unfold transact. by destruct (f _ _) as [[a db]|e]. Qed.

Lemma quiet_action o t a s : rt_calls (run_action w self o t a s).2 = rt_calls s.
Proof.
  revert s; induction a as [r|business k IH]; intros s; [done|]. simpl.
  destruct (protect _ _ _ _ _ _) as [[v db]|e]; by rewrite IH.
Qed.

Lemma adds_ret {A} L (a : A) : adds L (ret a).
Proof. by apply adds_quiet. Qed.
Lemma adds_throw {A} L e : adds L (@throw A e).
Proof. by apply adds_quiet. Qed.
Lemma adds_lift {A} L (r : result A) : adds L (lift r).
Proof. by apply adds_quiet. Qed.
Lemma adds_gets {A} L (f : run_state -> A) : adds L (gets f).
Proof. by apply adds_quiet. Qed.
Lemma adds_log L e : adds L (log e).
Proof. by apply adds_quiet. Qed.
Lemma adds_set_now L n : adds L (set_now n).
Proof. by apply adds_quiet. Qed.
Lemma adds_set_cycle L c : adds L (set_cycle c).
Proof. by apply adds_quiet. Qed.
Lemma adds_set_stage L st n : adds L (set_stage st n).
Proof. by apply adds_quiet. Qed.
Lemma adds_now L : adds L (_now w).
Proof. by apply adds_quiet. Qed.
Lemma adds_transact L {A} (f : option datetime -> runtime_db -> result (A * runtime_db)) :
  adds L (transact w f).
Proof. apply adds_quiet, quiet_transact. Qed.
Lemma adds_transact_ L f : adds L (transact_ w f).
Proof. apply adds_transact. Qed.
#[local] Hint Resolve adds_ret adds_throw adds_lift adds_gets adds_log adds_set_now adds_set_cycle
  adds_set_stage adds_now adds_transact adds_transact_ : adds.

Ltac add_steps :=
  repeat match goal with
  | |- adds _ _ => solve [auto with adds]
  | |- adds _ (bind _ _) => apply adds_first
  | |- forall _, _ => intros ?
  | |- adds _ (let '(_, _) := ?p in _) => destruct p
  | |- adds _ (if ?b then _ else _) => destruct b
  | |- adds _ (match ?x with _ => _ end) => destruct x
  end.

(** The attempt of a stage is running and has reserved its cost for the
    proposal. *)
Definition bound (c : string) (st : AcquisitionRuntimeStage) (n : Z) (p : RuntimeProposal)
    (db : runtime_db) : Prop :=
  exists row stored, rdb_attempts db !! (c, st, n) = Some row /\ at_status row = RUNNING
  /\ dec_eqb (at_reserved_cost row) (rp_estimated_cost p) = true
  /\ at_proposal row = Some stored /\ (stored = p \/ proposal_validate stored = Ok p).

Lemma reserve_bound db clock c st n r m o t a x db' p :
  reserve_stage_cost db clock c st n r m o t a = Ok (x, db') -> rr_proposal x = Some p ->
  bound c st (rs_attempt_count n) p db'.
Proof.
  unfold reserve_stage_cost. intros H Hp. inv_result.
  destruct (rdb_attempts db !! _) as [row|] eqn:E; unfold reserve_interrupted, reserve_again, reserve_new in H;
    repeat (case_hyp H; inv_ops);
    try (apply reservation_Ok in H as (-> & _); done).
  match goal with H : not_replay_safe _ _ = false |- _ => unfold not_replay_safe in H; inv_result end.
  match goal with H : opt_mapM _ _ = Ok ?o |- _ => rename H into Hm; destruct o as [q|] end;
    [|by apply reservation_Ok in H as (-> & _)].
  pose proof (reservation_proposal _ _ _ _ _ _ _ _ H) as He.
  apply reservation_Ok in H as (-> & -> & _). simpl in Hp. injection Hp as ->.
  destruct (at_proposal row) as [stored|] eqn:Es; simpl in Hm; inv_ops; [|done].
  exists row, stored. split_and!; try done; [|by right]. eapply dec_eqb_trans; [done|]. by apply dec_eqb_sym.
Qed.

Lemma bind_bound db clock c st n p o t a q db' :
  bind_stage_proposal db clock c st n p o t a = Ok (q, db') -> bound c st (rs_attempt_count n) q db'.
Proof.
  unfold bind_stage_proposal. intros H. inv_ops.
  match goal with H : rdb_attempts db !! _ = Some ?r |- _ => rename H into Hrow; destruct (at_proposal r) as [stored|] eqn:Es end;
    inv_ops.
  - match goal with H : proposal_eqb _ _ = true |- _ => unfold proposal_eqb in H; inv_result end.
    eexists _, stored. split_and!; [exact Hrow|done| |done|by right].
    eapply dec_eqb_trans; [done|]. by apply dec_eqb_sym.
  - match goal with H : update_attempt _ _ _ _ = Ok _ |- _ => apply update_attempt_Ok in H as
      [[_ Hwh]|(row1 & row' & Hrow1 & _ & Hf & _ & ->)]; [by specialize (Hwh _ Hrow)|] end.
    rewrite Hrow in Hrow1. injection Hrow1 as <-. inv_ops.
    assert (E : rdb_attempts db' = rdb_attempts (with_attempt_at db (c, st, rs_attempt_count n) _))
      by (match goal with H : update_stage _ _ _ _ = Ok _ |- _ => apply update_stage_Ok in H as
           [(_ & _ & ->)|(? & ? & _ & _ & _ & _ & ->)]; reflexivity end).
    eexists _, q. rewrite E. simpl. rewrite lookup_insert_eq. split_and!; [done|done|done|done|by left].
Qed.

(** A transaction, with what its success says. *)
Lemma transact_calls {A} (f : option datetime -> runtime_db -> result (A * runtime_db)) cs
    (phi : A -> runtime_db -> Prop) :
  (forall clock db a db', f clock db = Ok (a, db') -> phi a db') ->
  spec (fun s => rt_calls s = cs) (transact w f) (fun a s => rt_calls s = cs /\ phi a (rt_db s))
    (added cs []).
Proof.
  intros Hf s Hs. unfold transact. destruct (f _ _) as [[a db']|e] eqn:E; simpl; [eauto|].
  by apply added_nil.
Qed.

(** The registry calls a handler for the stage's command and target only. *)
Lemma refusal_None st p cy allow :
  refusal st p cy allow true = None ->
  rp_command p = stage_command st /\ rp_target_ref p = rc_cycle_ref cy
  /\ (st = PROVIDER_HANDOFF -> allow = true).
Proof.
  unfold refusal. intros H. repeat (case_hyp H; try done). inv_result. split_and!; try done.
  intros ->. by destruct allow.
Qed.

Lemma execute_adds o t st p cy n allow a cs :
  spec (fun s => rt_calls s = cs /\ bound (rc_cycle_ref cy) st (rs_attempt_count n) p (rt_db s)
                 /\ dec_eqb (rp_estimated_cost p) (KIVOU_STAGE_COSTS st) = true)
    (run_execute w self o t st p cy n allow a) (fun _ => added cs [st]) (added cs [st]).
Proof.
  intros s (Hs & Hb & He). unfold run_execute, bind.
  destruct (require_aware a) as [v|e], (refusal st p cy allow true) eqn:Er; simpl.
  2: { destruct (refusal_None _ _ _ _ Er) as (H1 & H2 & H3).
       match goal with |- match run_action _ _ _ _ ?act ?s1 with _ => _ end =>
         pose proof (quiet_action o t act s1) as Hq; destruct (run_action w self o t act s1) as [[x|e] s'] end;
       simpl in Hq; exists [(mkContext st p cy n allow v, rt_db s)]; (split_and!; [by rewrite Hq, Hs | done |]);
       repeat constructor; simpl; try done;
       destruct Hb as (row & stored & ? & ? & ? & ? & ?); exists row, stored; split_and!; try done;
       by eapply dec_eqb_trans. }
  all: match goal with |- match run_action _ _ _ _ ?act ?s1 with _ => _ end =>
         pose proof (quiet_action o t act s1) as Hq; destruct (run_action w self o t act s1) as [[x|e'] s'] end;
       simpl in Hq; apply added_nil; congruence.
Qed.

(** A spec whose precondition bounds the calls, as one about the calls. *)
Lemma added_weaken cs L s : added cs [] s -> added cs L s.
Proof. intros (l & E & S & F). exists l. split_and!; [done | | done]. apply sublist_nil_r in S. rewrite S. apply sublist_nil_l. Qed.

Lemma execute_stage_adds st cy n rq t a : adds [st] (_execute_stage w self st cy n rq t a).
Proof.
  intros cs. unfold _execute_stage. set (env := KIVOU_STAGE_COSTS st).
  eapply spec_bind.
  { eapply spec_weaken; [eapply (transact_calls _ cs (fun x db => forall p, rr_proposal x = Some p ->
      bound (rc_cycle_ref cy) st (rs_attempt_count n) p db)) | done | eauto | apply added_weaken].
    intros clock db x db' E p Hp. by eapply reserve_bound. }
  intros x. destruct (negb (rr_accepted x)).
  { apply spec_ret. intros s [Hs _]. by apply added_nil. }
  eapply spec_bind with (Q := fun p s => rt_calls s = cs
    /\ bound (rc_cycle_ref cy) st (rs_attempt_count n) p (rt_db s)).
  { destruct (rr_proposal x) as [p|].
    - apply spec_ret. intros s [Hs Hb]. split; [done | by apply Hb].
    - eapply spec_bind with (Q := fun _ s => rt_calls s = cs).
      + apply spec_lift; [by intros p s _ [Hs _] | intros s [Hs _]; by apply added_nil].
      + intros p. eapply spec_weaken; [eapply (transact_calls _ cs (fun q db =>
          bound (rc_cycle_ref cy) st (rs_attempt_count n) q db)) | done | done | apply added_weaken].
        intros clock db q db' E. by eapply bind_bound. }
  intros p. case_match; [apply spec_ret; intros s [Hs _]; by apply added_nil|].
  destruct (dec_eqb (rp_estimated_cost p) env) eqn:Ee; simpl.
  2: { apply spec_ret. intros s [Hs _]. by apply added_nil. }
  eapply spec_bind; [eapply spec_weaken; [apply (execute_adds (rq_owner_ref rq) t st p cy n _ a cs) | | done | done]|].
  { intros s [Hs Hb]. done. }
  intros r. case_match; by apply spec_ret.
Qed.

Lemma finish_adds L rq t c st a r : adds L (do_finish_cycle w rq t c st a r).
Proof. apply adds_transact_. Qed.
Lemma finish_stage_adds L rq t c st r a p : adds L (do_finish_stage w rq t c st r a p).
Proof. apply adds_transact_. Qed.
Lemma observe_adds L rq t c a : adds L (do_observe_cycle w rq t c a).
Proof. apply adds_quiet. intros s. unfold do_observe_cycle, bind. 
  match goal with |- context [transact w ?f s] => pose proof (quiet_transact f s) as H; destruct (transact w f s) as [[x|e] s'] end; done. Qed.
#[local] Hint Resolve finish_adds finish_stage_adds observe_adds : adds.

Lemma stop_result_adds L c st r rq t a : adds L (_stop_result w c st r rq t a).
Proof. unfold _stop_result, run_result. add_steps. Qed.
Lemma succeed_adds L rq t c a : adds L (succeed w rq t c a).
Proof. unfold succeed, _emit_cycle, run_result. add_steps. Qed.
#[local] Hint Resolve stop_result_adds succeed_adds : adds.

Ltac cond := match goal with |- adds _ (if ?b then _ else _) => destruct b end.

(** The actions of the loop are for the stages that remain, each at most
    once and in order. *)
Lemma stages_adds rq t started cy spent l : adds l (run_stages w self rq t started cy spent l).
Proof.
  revert spent; induction l as [|st l IH]; intros spent.
  { cbn [run_stages]. add_steps. }
  cbn [run_stages]. do 3 (apply adds_first; [auto with adds | intros ?]).
  cond; [unfold _emit_cycle, run_result; add_steps|].
  do 2 (apply adds_first; [auto with adds | intros ?]).
  cond; [unfold _emit_cycle, run_result; add_steps|].
  do 2 (apply adds_first; [auto with adds | intros ?]).
  apply (adds_bind [st] l).
  { cond; [apply adds_ret | apply execute_stage_adds]. }
  intros [[p r] spent']. do 5 (apply adds_first; [unfold _emit_stage; auto with adds | intros ?]).
  cond; [apply IH | unfold _emit_cycle; add_steps].
Qed.
#[local] Hint Resolve stages_adds : adds.

Lemma stages_from_sublist st : sublist (stages_from st) stages.
Proof. unfold stages_from. destruct (list_find _ _) as [[n s]|]; [apply sublist_drop | apply sublist_nil_l]. Qed.

Lemma run_once_adds rq : adds stages (run_once w self rq).
Proof.
  unfold run_once. do 3 (apply adds_first; [auto with adds | intros ?]).
  case_match; [unfold lease_event, run_result; add_steps|].
  do 2 (apply adds_first; [unfold lease_event; auto with adds | intros ?]).
  apply adds_finally; [|unfold release, lease_event; add_steps].
  unfold guarded_body. apply adds_catch.
  - unfold run_body, _emit_cycle, run_result. 
    apply adds_first; [auto with adds | intros ?]. case_match; [add_steps|].
    do 4 (apply adds_first; [auto with adds | intros ?]).
    destruct (rc_next_stage _); [|add_steps].
    eapply adds_weaken; [apply stages_from_sublist | apply stages_adds].
  - unfold on_interrupted, on_failure, _emit_cycle, _emit_stage, run_result. add_steps.
Qed.
End calls.

(** * The protocol of a run *)

(** What a run does to the tables, its transactions in turn: what the others
    committed before each comes first. *)
Section protocol.
Context `{Hash : HashLib} `{DB : Database} (w : world).

Fixpoint play (n : nat) (own : list store_op) (db : runtime_db) : runtime_db :=
  match own with
  | [] => db
  | op :: own' =>
      play (S n) own' (apply_op (w_database_clock w n) op (apply_ops (w_others w n) db))
  end.

Lemma play_snoc n own op db :
  play n (own ++ [op]) db
  = apply_op (w_database_clock w (n + length own)) op (apply_ops (w_others w (n + length own)) (play n own db)).
Proof.
  revert n db. induction own as [|op' own IH]; intros n db; simpl; [by rewrite Nat.add_0_r|].
  rewrite IH. by replace (S n + length own)%nat with (n + S (length own))%nat by lia.
Qed.
End protocol.

(** How far a run is in the stage it began last, or in the end of its cycle. *)
Inductive progress : Type :=
| Ready
| StageBegun
| StageStarted
| CostReserved
| ProposalBound
| Prolonged
| StageStopped (status : RuntimeStageStatus)
| CycleFinished (status : RuntimeCycleStatus)
| CycleClosed (status : RuntimeCycleStatus).

#[export] Instance progress_eq_dec : EqDecision progress.
Proof. solve_decision. Defined.

(** How far a run is, from the lease it acquired on. *)
Inductive phase : Type :=
| Leased
| Observed
| Resumed
| InCycle (cycle_ref : string) (stage : option AcquisitionRuntimeStage) (at_ : progress).

(** The stage that comes after one. *)
Definition succ_stage (s : AcquisitionRuntimeStage) : option AcquisitionRuntimeStage :=
  head (tail (stages_from s)).

Definition is_cut_short (r : RuntimeActionResult) : bool :=
  bool_decide (ra_status r = WAITING /\ ra_reason_codes r = ["CURRENT_RUN_INTERRUPTED"])
  || bool_decide (ra_status r = FAILED /\ ra_reason_codes r = ["CURRENT_RUN_TECHNICAL_FAILURE"]).
Definition cuts_short (status : RuntimeCycleStatus) (reason : option string) : bool :=
  bool_decide (status = CycleWAITING /\ reason = Some "CURRENT_RUN_INTERRUPTED")
  || bool_decide (status = CycleFAILED /\ reason = Some "CURRENT_RUN_TECHNICAL_FAILURE").

(** The end of a cycle the run may ask for. *)
Definition may_finish (stage : option AcquisitionRuntimeStage) (at_ : progress)
    (status : RuntimeCycleStatus) (reason : option string) : bool :=
  cuts_short status reason
  || match at_ with
     | Ready =>
         bool_decide (status = CycleSUCCEEDED /\ stage ≫= succ_stage = None)
         || bool_decide (status = CycleWAITING /\ reason = Some "CYCLE_TIME_BUDGET_REACHED")
     | StageStopped stopped => bool_decide (fst <$> stop_statuses stopped = Some status)
     | _ => false
     end.

(** The operations of a run inside its cycle. *)
Definition next_in_cycle (cycle_ref : string) (stage : option AcquisitionRuntimeStage) (at_ : progress)
    (op : store_op) : option phase :=
  match op with
  | BeginStage c s _ _ _ =>
      if bool_decide (c = cycle_ref) && bool_decide (at_ = Ready)
         && match stage with Some last => bool_decide (succ_stage last = Some s) | None => true end
      then Some (InCycle cycle_ref (Some s) StageBegun) else None
  | RecordCycleObservation _ c _ _ =>
      if bool_decide (c = cycle_ref) then
        match at_ with
        | StageBegun => Some (InCycle cycle_ref stage StageStarted)
        | CycleFinished status => Some (InCycle cycle_ref stage (CycleClosed status))
        | _ => None
        end
      else None
  | ReserveStageCost c s _ cost _ _ _ _ =>
      if bool_decide (c = cycle_ref) && bool_decide (stage = Some s)
         && bool_decide (at_ = StageStarted) && bool_decide (cost = KIVOU_STAGE_COSTS s)
      then Some (InCycle cycle_ref stage CostReserved) else None
  | BindStageProposal c s _ _ _ _ _ =>
      if bool_decide (c = cycle_ref) && bool_decide (stage = Some s) && bool_decide (at_ = CostReserved)
      then Some (InCycle cycle_ref stage ProposalBound) else None
  | Protect _ _ _ _ =>
      match at_ with
      | CostReserved | ProposalBound => Some (InCycle cycle_ref stage ProposalBound)
      | _ => None
      end
  | HeartbeatLease _ _ _ _ =>
      if match at_ with
         | CostReserved | ProposalBound => true
         | StageStarted => bool_decide (stage = Some PROVIDER_HANDOFF)
         | _ => false
         end
      then Some (InCycle cycle_ref stage Prolonged) else None
  | FinishStage c s r _ _ _ _ =>
      if bool_decide (c = cycle_ref) && bool_decide (stage = Some s)
         && (bool_decide (at_ = Prolonged) || is_cut_short r)
      then Some (InCycle cycle_ref stage
                   (if bool_decide (ra_status r = SUCCEEDED) then Ready else StageStopped (ra_status r)))
      else None
  | FinishCycle c status _ _ _ reason =>
      if bool_decide (c = cycle_ref) && may_finish stage at_ status reason
      then Some (InCycle cycle_ref stage (CycleFinished status)) else None
  | _ => None
  end.

(** The owner an operation is for. *)
Definition op_owner (op : store_op) : option string :=
  match op with
  | AcquireLease o _ _ | HeartbeatLease o _ _ _ | ReleaseLease o _ _ | Protect o _ _ _
  | RecordObservation o _ _ _ | RecordCycleObservation o _ _ _ | ResumeOrCreateCycle o _ _ _ _
  | BeginStage _ _ o _ _ | ReserveStageCost _ _ _ _ _ o _ _ | BindStageProposal _ _ _ _ o _ _
  | FinishStage _ _ _ o _ _ _ | FinishCycle _ _ o _ _ _ => Some o
  | AbandonCycle _ _ _ => None
  end.

(** The operation a run may do next, under its owner and its token. *)
Definition next (owner_ref : string) (fencing_token : Z) (p : phase) (op : store_op) : option phase :=
  if bool_decide (op_owner op = Some owner_ref) && bool_decide (op_token op = Some fencing_token) then
    match p, op with
    | Leased, RecordObservation _ _ _ _ => Some Observed
    | Observed, ResumeOrCreateCycle _ _ _ _ _ => Some Resumed
    | Resumed, RecordCycleObservation _ c _ _ => Some (InCycle c None Ready)
    | Resumed, FinishCycle c status _ _ _ reason =>
        if cuts_short status reason then Some (InCycle c None (CycleFinished status)) else None
    | InCycle c stage at_, op => next_in_cycle c stage at_ op
    | _, _ => None
    end
  else None.

(** The phase a list of operations leads to, when the protocol allows each. *)
Definition drive (owner_ref : string) (fencing_token : Z) (own : list store_op) : option phase :=
  foldl (fun p op => p ≫= fun p => next owner_ref fencing_token p op) (Some Leased) own.

(** What a run answers for the phase it came to. *)
Definition fits (status : RuntimeRunStatus) (p : phase) : bool :=
  match p with
  | Leased | Resumed => bool_decide (status = RunFAILED)
  | Observed => in_list status [RunBLOCKED; RunFAILED]
  | InCycle _ stage Ready => bool_decide (stage = None) && in_list status [RunCOMPLETED; RunSUPPRESSED]
  | InCycle _ _ StageStarted => bool_decide (status = RunWAITING)
  | InCycle _ _ (CycleClosed CycleSUCCEEDED) => bool_decide (status = RunCOMPLETED)
  | InCycle _ _ (CycleClosed CycleWAITING) => in_list status [RunWAITING; RunCANCELLED]
  | InCycle _ _ (CycleClosed CycleBLOCKED) => bool_decide (status = RunBLOCKED)
  | InCycle _ _ (CycleClosed CycleFAILED) => bool_decide (status = RunFAILED)
  | InCycle _ _ (CycleClosed CycleSUPPRESSED) => bool_decide (status = RunSUPPRESSED)
  | InCycle _ _ (CycleClosed CycleCANCELLED) => bool_decide (status = RunCANCELLED)
  | _ => false
  end.

Section conformance.
Context `{Hash : HashLib} `{DB : Database} (w : world) (self : AcquisitionRuntimeRunner).
Context (rq : RuntimeRunRequest) (t : Z) (n0 : nat) (db0 : runtime_db).
#[local] Notation o := (rq_owner_ref rq).
#[local] Notation next_ := (next o t).

(** The transactions so far brought the run to a phase. *)
Definition at_phase (p : phase) (s : run_state) : Prop :=
  exists own, rt_db s = play w n0 own db0 /\ rt_transactions s = (n0 + length own)%nat
  /\ drive o t own = Some p.

(** The same, with the local variables. *)
Definition here (p : phase) (cy : option RuntimeCycleSnapshot) (st : option AcquisitionRuntimeStage)
    (att : Z) (s : run_state) : Prop :=
  at_phase p s /\ rt_cycle s = cy /\ rt_stage s = st /\ rt_attempt s = att.

(** What the handlers of exceptions can rely on. *)
Definition tracked (p : phase) (cy : option RuntimeCycleSnapshot)
    (st : option AcquisitionRuntimeStage) (att : Z) : Prop :=
  match cy with
  | None => p = Leased \/ p = Observed \/ p = Resumed
  | Some c => p = Resumed \/ exists s k, p = InCycle (rc_cycle_ref c) s k
  end
  /\ (0 < att -> exists c s k, p = InCycle c (Some s) k /\ st = Some s).
Definition lost (s : run_state) : Prop :=
  exists p, at_phase p s /\ tracked p (rt_cycle s) (rt_stage s) (rt_attempt s).

Lemma here_lost p cy st att s : tracked p cy st att -> here p cy st att s -> lost s.
Proof. intros Ht (H & <- & <- & <-). by exists p. Qed.

Lemma tracked_in_cycle cy k st att : tracked (InCycle (rc_cycle_ref cy) (Some st) k) (Some cy) (Some st) att.
Proof. split; [right; eauto | intros _; eauto]. Qed.
Lemma tracked_early p st att : p = Leased \/ p = Observed \/ p = Resumed -> att <= 0 -> tracked p None st att.
Proof. intros Hp Ha. split; [done | lia]. Qed.
Lemma tracked_zero cy st k s att : att <= 0 -> tracked (InCycle (rc_cycle_ref cy) s k) (Some cy) st att.
Proof. intros Ha. split; [right; eauto | lia]. Qed.

(** A transaction is the next operation, whether it commits or raises. *)
Lemma at_phase_step p p' op s db :
  next_ p op = Some p' -> at_phase p s ->
  db = apply_op (w_database_clock w (rt_transactions s)) op
         (apply_ops (w_others w (rt_transactions s)) (rt_db s)) ->
  exists own, db = play w n0 own db0 /\ S (rt_transactions s) = (n0 + length own)%nat
  /\ drive o t own = Some p'.
Proof.
  intros Hn (own & E1 & E2 & E3) ->. exists (own ++ [op]). rewrite play_snoc, length_app, E1, E2.
  split; [done|]. split; [simpl; lia|]. unfold drive in *. rewrite foldl_app, E3. exact Hn.
Qed.

Lemma here_transact {A} (f : option datetime -> runtime_db -> result (A * runtime_db)) op p p' cy st att :
  next_ p op = Some p' ->
  (forall clock db, commit clock op db = let! (_, db') := f clock db in Ok db') ->
  spec (here p cy st att) (transact w f) (fun _ => here p' cy st att) (here p' cy st att).
Proof.
  intros Hn Hf s (Hp & H1 & H2 & H3). unfold transact.
  pose proof (at_phase_step p p' op s _ Hn Hp eq_refl) as Hstep. unfold apply_op in Hstep.
  rewrite Hf in Hstep. destruct (f _ _) as [[a db']|e]; simpl in *; by split_and!.
Qed.

Lemma here_transact_ f op p p' cy st att :
  next_ p op = Some p' -> (forall clock db, commit clock op db = f clock db) ->
  spec (here p cy st att) (transact_ w f) (fun _ => here p' cy st att) (here p' cy st att).
Proof.
  intros Hn Hf. apply (here_transact _ op); [done|]. intros clock db. rewrite Hf. by destruct (f clock db).
Qed.

(** A step that raises is lost at a phase that the handlers know. *)
Lemma here_step {A B} (m : run A) (k : A -> run B) p p' cy st att Q :
  spec (here p cy st att) m (fun _ => here p' cy st att) (here p' cy st att) ->
  tracked p' cy st att -> (forall a, spec (here p' cy st att) (k a) Q lost) ->
  spec (here p cy st att) (bind m k) Q lost.
Proof.
  intros Hm Ht Hk. eapply spec_bind; [|exact Hk]. eapply spec_weaken; [exact Hm|done|done|].
  intros s. by apply here_lost.
Qed.

Lemma here_end {A} (m : run A) p p' cy st att :
  spec (here p cy st att) m (fun _ => here p' cy st att) (here p' cy st att) ->
  tracked p' cy st att -> spec (here p cy st att) m (fun _ => here p' cy st att) lost.
Proof. intros Hm Ht. eapply spec_weaken; [exact Hm|done|done|]. intros s. by apply here_lost. Qed.

(** What does not touch the tables nor the local variables. *)
Lemma here_quiet {A B} (m : run A) (k : A -> run B) p cy st att Q :
  keeps (here p cy st att) m -> tracked p cy st att ->
  (forall a, spec (here p cy st att) (k a) Q lost) -> spec (here p cy st att) (bind m k) Q lost.
Proof. intros Hm. by apply here_step. Qed.

Lemma here_lift {A B} (r : result A) (k : A -> run B) p cy st att Q :
  tracked p cy st att -> (forall a, r = Ok a -> spec (here p cy st att) (k a) Q lost) ->
  spec (here p cy st att) (bind (lift r) k) Q lost.
Proof.
  intros Ht Hk s Hs. unfold bind, lift. destruct r as [a|e]; [by apply Hk | by eapply here_lost].
Qed.

Lemma here_now p cy st att : keeps (here p cy st att) (_now w).
Proof. intros s Hs. unfold _now. by destruct (require_aware _). Qed.
Lemma here_set_now p cy st att d : keeps (here p cy st att) (set_now d).
Proof. by intros s Hs. Qed.
Lemma here_log p cy st att e : keeps (here p cy st att) (log e).
Proof. by intros s Hs. Qed.
Lemma here_called p cy st att c : keeps (here p cy st att) (called c).
Proof. by intros s Hs. Qed.

Lemma here_set_stage {B} (k : unit -> run B) p cy st att st' att' Q :
  (forall a, spec (here p cy (Some st') att') (k a) Q lost) ->
  spec (here p cy st att) (bind (set_stage st' att') k) Q lost.
Proof. intros Hk s (H1 & H2 & _ & _). unfold bind, set_stage. by apply Hk. Qed.
Lemma here_set_cycle {B} (k : unit -> run B) p cy st att cy' Q :
  (forall a, spec (here p (Some cy') st att) (k a) Q lost) ->
  spec (here p cy st att) (bind (set_cycle cy') k) Q lost.
Proof. intros Hk s (H1 & _ & H3 & H4). unfold bind, set_cycle. by apply Hk. Qed.

(** The answer of a run, at the phase it came to. *)
Definition answered (x : RuntimeRunResult) (s : run_state) : Prop :=
  exists p, at_phase p s /\ fits (run_status x) p = true.

Lemma here_answer p cy st att status c stage reason :
  tracked p cy st att -> fits status p = true ->
  spec (here p cy st att) (run_result status c stage reason) answered lost.
Proof.
  intros Ht Hs. apply spec_lift; [|intros s; by apply here_lost]. intros x s H (Hp & _).
  exists p. split; [done|]. unfold run_result_validate in H. by inv_result.
Qed.

(** The next phase, evaluated. *)
Ltac phase :=
  unfold next, next_in_cycle, may_finish; cbn [op_owner op_token];
  rewrite !(bool_decide_eq_true_2 (Some _ = Some _)) by reflexivity; cbn;
  rewrite ?bool_decide_eq_true_2 by (first [reflexivity | assumption | by split]); cbn; try reflexivity.

Lemma here_observe p p' c a cy st att :
  next_ p (RecordCycleObservation o c t a) = Some p' ->
  spec (here p cy st att) (do_observe_cycle w rq t c a) (fun _ => here p' cy st att) (here p' cy st att).
Proof.
  intros Hn. unfold do_observe_cycle. eapply spec_bind; [by apply (here_transact _ _ _ _ _ _ _ Hn)|].
  intros x. by apply spec_ret.
Qed.
Lemma here_finish_cycle p p' c status a reason cy st att :
  next_ p (FinishCycle c status o t a reason) = Some p' ->
  spec (here p cy st att) (do_finish_cycle w rq t c status a reason)
    (fun _ => here p' cy st att) (here p' cy st att).
Proof. intros Hn. by apply (here_transact_ _ _ _ _ _ _ _ Hn). Qed.
Lemma here_finish_stage p p' c s r a pr cy st att :
  next_ p (FinishStage c s r o t a pr) = Some p' ->
  spec (here p cy st att) (do_finish_stage w rq t c s r a pr)
    (fun _ => here p' cy st att) (here p' cy st att).
Proof. intros Hn. by apply (here_transact_ _ _ _ _ _ _ _ Hn). Qed.

(** ** A stage *)

(** The action of a stage is executed under the guard, if at all. *)
Definition working (st : AcquisitionRuntimeStage) (k : progress) : bool :=
  match k with
  | CostReserved | ProposalBound => true
  | StageStarted => bool_decide (st = PROVIDER_HANDOFF)
  | _ => false
  end.
Definition at_work (cy : RuntimeCycleSnapshot) (st : AcquisitionRuntimeStage) (att : Z)
    (s : run_state) : Prop :=
  exists k, working st k = true
  /\ here (InCycle (rc_cycle_ref cy) (Some st) k) (Some cy) (Some st) att s.

Lemma work_lost cy st att s : at_work cy st att s -> lost s.
Proof. intros (k & _ & H). eapply here_lost; [apply tracked_in_cycle | exact H]. Qed.

Lemma here_action cy st att a k :
  k = CostReserved \/ k = ProposalBound ->
  spec (here (InCycle (rc_cycle_ref cy) (Some st) k) (Some cy) (Some st) att)
    (run_action w self o t a) (fun _ => at_work cy st att) lost.
Proof.
  assert (Hwork : forall k s, k = CostReserved \/ k = ProposalBound ->
    here (InCycle (rc_cycle_ref cy) (Some st) k) (Some cy) (Some st) att s -> at_work cy st att s).
  { intros j s Hj H. exists j. by destruct Hj as [->| ->]. }
  revert k. induction a as [r|business k' IH]; intros k Hk.
  - apply spec_lift; [intros x s _; by apply Hwork|]. intros s H. eapply work_lost, Hwork; eauto.
  - intros s (Hp & H1 & H2 & H3). simpl.
    assert (Hn : next_ (InCycle (rc_cycle_ref cy) (Some st) k) (Protect o t (ru_lease_seconds self) business)
      = Some (InCycle (rc_cycle_ref cy) (Some st) ProposalBound)) by (destruct Hk as [->| ->]; phase).
    pose proof (at_phase_step _ _ _ s _ Hn Hp eq_refl) as Hstep. unfold apply_op in Hstep.
    cbn [commit] in Hstep.
    destruct (protect _ _ o t _ business) as [[v db']|e]; cbn [result_bind] in Hstep;
      apply (IH _ ProposalBound); auto; by split_and!.
Qed.

Lemma here_execute cy st p c n allow a att k :
  k = CostReserved \/ k = ProposalBound ->
  spec (here (InCycle (rc_cycle_ref cy) (Some st) k) (Some cy) (Some st) att)
    (run_execute w self o t st p c n allow a) (fun _ => at_work cy st att) lost.
Proof.
  intros Hk. unfold run_execute. apply here_quiet; [|apply tracked_in_cycle|intros _; by apply here_action].
  destruct (require_aware a), (refusal st p c allow true); auto using here_called with runs.
Qed.

Lemma here_execute_stage cy c st n a att :
  rc_cycle_ref c = rc_cycle_ref cy ->
  spec (here (InCycle (rc_cycle_ref cy) (Some st) StageStarted) (Some cy) (Some st) att)
    (_execute_stage w self st c n rq t a) (fun _ => at_work cy st att) lost.
Proof.
  intros Hc. unfold _execute_stage. rewrite Hc.
  assert (Hret : forall A k (x : A), k = CostReserved \/ k = ProposalBound ->
    spec (here (InCycle (rc_cycle_ref cy) (Some st) k) (Some cy) (Some st) att) (ret x)
      (fun _ => at_work cy st att) lost).
  { intros A k x Hk. apply spec_ret. intros s H. exists k. by destruct Hk as [->| ->]. }
  eapply here_step; [eapply (here_transact _ (ReserveStageCost (rc_cycle_ref cy) st n (KIVOU_STAGE_COSTS st)
    (ru_maximum_cost self) o t a)); [phase | done] | apply tracked_in_cycle|]. intros x.
  destruct (negb (rr_accepted x)); [apply Hret; by left|].
  set (k x := InCycle (rc_cycle_ref cy) (Some st) (if truthy (rr_proposal x) then CostReserved else ProposalBound)).
  eapply (spec_bind _ _ _ (fun _ => here (k x) (Some cy) (Some st) att)); unfold k.
  - destruct (rr_proposal x) as [p|]; [by apply spec_ret|]. simpl.
    apply here_quiet; [apply keeps_lift | apply tracked_in_cycle|]. intros p.
    apply here_end; [|apply tracked_in_cycle].
    by apply (here_transact _ (BindStageProposal (rc_cycle_ref cy) st n p o t a)); [phase|].
  - intros p. set (kp := if truthy (rr_proposal x) then CostReserved else ProposalBound).
    assert (Hk : kp = CostReserved \/ kp = ProposalBound) by (unfold kp; destruct (truthy _); auto).
    destruct (negb (bool_decide _)); [by apply Hret|]. destruct (negb (dec_eqb _ _)); [by apply Hret|].
    eapply spec_bind; [by apply here_execute|]. intros r. destruct (dec_ltb _ _); by apply spec_ret.
Qed.
(** ** The end of a cycle *)

Lemma tracked_step c s k k' cy st att :
  tracked (InCycle c s k) cy st att -> tracked (InCycle c s k') cy st att.
Proof.
  intros [H1 H2]. split.
  - destruct cy; [|by destruct H1 as [|[|]]]. destruct H1 as [|(s' & j & [= -> -> ->])]; [done|]. eauto.
  - intros Ha. destruct (H2 Ha) as (c' & s' & j & [= -> -> ->] & ->). eauto.
Qed.

Lemma next_finish c st k status a reason :
  may_finish st k status reason = true ->
  next_ (InCycle c st k) (FinishCycle c status o t a reason) = Some (InCycle c st (CycleFinished status)).
Proof.
  intros Hm. unfold next, next_in_cycle. cbn [op_owner op_token].
  rewrite !(bool_decide_eq_true_2 (Some _ = Some _)) by reflexivity. cbn [andb].
  rewrite bool_decide_eq_true_2 by done. by rewrite Hm.
Qed.

(** The end of a cycle, its observation and the answer. *)
Lemma here_closing c k cy last st att status a reason answer code c' stage reason' :
  may_finish last k status reason = true -> tracked (InCycle c last k) cy st att ->
  fits answer (InCycle c last (CycleClosed status)) = true ->
  spec (here (InCycle c last k) cy st att)
    (do! _ := do_finish_cycle w rq t c status a reason in
     do! _ := do_observe_cycle w rq t c a in
     do! _ := _emit_cycle c answer code in
     run_result answer c' stage reason') answered lost.
Proof.
  intros Hm Ht Hf. eapply here_step; [by apply here_finish_cycle, next_finish | by eapply tracked_step|].
  intros _. eapply here_step; [apply here_observe; phase | by eapply tracked_step|].
  intros _. apply here_quiet; [apply here_log | by eapply tracked_step|].
  intros _. apply here_answer; [by eapply tracked_step | done].
Qed.

Lemma here_succeed cy last st att a :
  last ≫= succ_stage = None -> tracked (InCycle (rc_cycle_ref cy) last Ready) (Some cy) st att ->
  spec (here (InCycle (rc_cycle_ref cy) last Ready) (Some cy) st att)
    (succeed w rq t (rc_cycle_ref cy) a) answered lost.
Proof.
  intros Hl Ht. apply here_closing; [|done..]. unfold may_finish.
  rewrite (bool_decide_eq_true_2 (CycleSUCCEEDED = CycleSUCCEEDED /\ _)) by done. apply orb_true_r.
Qed.

Lemma stop_fits status cs rs c st :
  stop_statuses status = Some (cs, rs) -> fits rs (InCycle c st (CycleClosed cs)) = true.
Proof. by destruct status; intros [= <- <-]. Qed.

(** The stop of a cycle after a stage that did not succeed. *)
Lemma here_stop {B} cy st r a att (k : RuntimeRunResult -> run B) Q :
  (forall x status, fits (run_status x) (InCycle (rc_cycle_ref cy) (Some st) (CycleClosed status)) = true ->
    spec (here (InCycle (rc_cycle_ref cy) (Some st) (CycleFinished status)) (Some cy) (Some st) att)
      (k x) Q lost) ->
  spec (here (InCycle (rc_cycle_ref cy) (Some st) (StageStopped (ra_status r))) (Some cy) (Some st) att)
    (bind (_stop_result w (rc_cycle_ref cy) st r rq t a) k) Q lost.
Proof.
  intros Hk. eapply spec_bind with (Q := fun x s => exists status,
    fits (run_status x) (InCycle (rc_cycle_ref cy) (Some st) (CycleClosed status)) = true
    /\ here (InCycle (rc_cycle_ref cy) (Some st) (CycleFinished status)) (Some cy) (Some st) att s).
  2: { intros x s (status & Hf & Hs). by apply (Hk x status Hf). }
  unfold _stop_result. apply here_lift; [apply tracked_in_cycle|]. intros [cs rs] Es%option_to_result_Ok.
  apply here_lift; [apply tracked_in_cycle|]. intros reason _.
  eapply here_step; [apply here_finish_cycle, next_finish | apply tracked_in_cycle|].
  { unfold may_finish. rewrite Es, (bool_decide_eq_true_2 (fst <$> _ = _)) by done. apply orb_true_r. }
  intros _. apply spec_lift; [|intros s; apply here_lost, tracked_in_cycle]. intros x s Hx Hs.
  exists cs. split; [|done]. unfold run_result_validate in Hx. inv_result. by eapply stop_fits.
Qed.
Lemma next_finish_stage c st k r a pr :
  k = Prolonged \/ is_cut_short r = true ->
  next_ (InCycle c (Some st) k) (FinishStage c st r o t a pr)
  = Some (InCycle c (Some st)
      (if bool_decide (ra_status r = SUCCEEDED) then Ready else StageStopped (ra_status r))).
Proof.
  intros Hk. unfold next, next_in_cycle. cbn [op_owner op_token].
  rewrite !(bool_decide_eq_true_2 (Some _ = Some _)) by reflexivity. cbn [andb].
  rewrite bool_decide_eq_true_2 by done. cbn [andb].
  destruct Hk as [->| ->]; [by rewrite bool_decide_eq_true_2 | by rewrite orb_true_r].
Qed.

(** ** The loop over the stages *)

(** Stages that follow each other. *)
Fixpoint chain (l : list AcquisitionRuntimeStage) : Prop :=
  match l with st :: l' => succ_stage st = head l' /\ chain l' | [] => True end.

Lemma stages_from_chain st : chain (stages_from st).
Proof. destruct st; vm_compute; repeat split. Qed.

Lemma here_heartbeat cy st a att :
  spec (at_work cy st att)
    (transact_ w (fun clock db => heartbeat_lease db clock o t a (ru_lease_seconds self)))
    (fun _ => here (InCycle (rc_cycle_ref cy) (Some st) Prolonged) (Some cy) (Some st) att) lost.
Proof.
  intros s (k & Hk & Hs). revert s Hs. apply here_end; [|apply tracked_in_cycle].
  apply (here_transact_ _ (HeartbeatLease o t a (ru_lease_seconds self))); [|done].
  destruct k; try discriminate; [|phase..]. unfold working in Hk. apply bool_decide_eq_true in Hk as ->. phase.
Qed.

(** What is done of a stage, until it is finished. *)
Lemma here_begin {B} cy last st a rst att (k : RuntimeStageSnapshot -> run B) Q :
  match last with Some s => succ_stage s = Some st | None => True end -> att <= 0 ->
  (forall n, spec (here (InCycle (rc_cycle_ref cy) (Some st) StageBegun) (Some cy) rst att) (k n) Q lost) ->
  spec (here (InCycle (rc_cycle_ref cy) last Ready) (Some cy) rst att)
    (bind (transact w (fun clock db => begin_stage db clock (rc_cycle_ref cy) st o t a)) k) Q lost.
Proof.
  intros Hl Ha Hk. eapply here_step; [|by apply tracked_zero|exact Hk].
  apply (here_transact _ (BeginStage (rc_cycle_ref cy) st o t a)); [|done].
  unfold next, next_in_cycle. cbn [op_owner op_token].
  rewrite !(bool_decide_eq_true_2 (Some _ = Some _)) by reflexivity. cbn [andb].
  rewrite !bool_decide_eq_true_2 by done. cbn [andb].
  destruct last; [by rewrite bool_decide_eq_true_2|done].
Qed.

Lemma here_stages started cy spent l last rst att :
  chain l -> match last with Some s => succ_stage s = head l | None => True end ->
  tracked (InCycle (rc_cycle_ref cy) last Ready) (Some cy) rst att ->
  spec (here (InCycle (rc_cycle_ref cy) last Ready) (Some cy) rst att)
    (run_stages w self rq t started cy spent l) answered lost.
Proof.
  revert spent last rst att. induction l as [|st l IH]; intros spent last rst att Hch Hl Ht.
  { cbn [run_stages]. apply here_quiet; [apply keeps_gets | done|]. intros now. apply here_succeed; [|done].
    by destruct last. }
  destruct Hch as [Hst Hch]. cbn [run_stages]. apply here_set_stage. intros _.
  apply here_quiet; [apply here_now | by apply tracked_zero|]. intros now.
  apply here_quiet; [apply here_set_now | by apply tracked_zero|]. intros _.
  destruct (_ <=? _).
  { apply here_closing; [|by apply tracked_zero|done]. unfold may_finish. by rewrite !orb_true_r. }
  apply here_begin; [by destruct last | done|]. intros n. apply here_set_stage. intros _.
  destruct (_ && _).
  { eapply here_step; [apply here_observe; phase | apply tracked_in_cycle|]. intros _.
    apply here_quiet; [apply here_log | apply tracked_in_cycle|]. intros _.
    apply here_answer; [apply tracked_in_cycle | done]. }
  eapply here_step; [apply here_observe; phase | apply tracked_in_cycle|]. intros _.
  apply here_quiet; [apply here_log | apply tracked_in_cycle|]. intros _.
  eapply spec_bind with (Q := fun _ => at_work cy st (rs_attempt_count n)).
  { destruct (_ && _) eqn:Eh; [|by apply here_execute_stage]. apply spec_ret. intros s Hs.
    apply andb_true_iff in Eh as [->%bool_decide_eq_true _]. exists StageStarted. by split. }
  intros [[pr r] spent'].
  eapply spec_bind with (Q := fun _ => at_work cy st (rs_attempt_count n)).
  { intros s Hs. unfold _now. destruct (require_aware _); [exact Hs | by apply (work_lost _ _ _ _ Hs)]. }
  intros at_. eapply spec_bind; [apply here_heartbeat|]. intros u. cbv beta. clear u.
  eapply here_step; [apply here_finish_stage, next_finish_stage; by left | apply tracked_in_cycle|]. intros _.
  apply here_quiet; [apply here_set_now | apply tracked_in_cycle|]. intros _.
  apply here_quiet; [apply here_log | apply tracked_in_cycle|]. intros _.
  destruct (bool_decide (ra_status r = SUCCEEDED)); [by apply IH; [..|apply tracked_in_cycle]|].
  apply here_stop. intros x status Hf.
  eapply here_step; [apply here_observe; phase | apply tracked_in_cycle|]. intros _.
  apply here_quiet; [apply here_log | apply tracked_in_cycle|]. intros _.
  apply spec_ret. intros s [Hp _]. by exists (InCycle (rc_cycle_ref cy) (Some st) (CycleClosed status)).
Qed.

(** ** A run under its lease *)

Lemma here_body started :
  spec (here Leased None None 0) (run_body w self rq t started) answered lost.
Proof.
  unfold run_body.
  eapply here_step; [apply (here_transact _ (RecordObservation o (ru_runtime_capability self) t started));
    [phase | done] | by apply tracked_early; auto|]. intros _.
  destruct (first_match _ _) as [d|].
  { apply here_quiet; [apply keeps_lift | by apply tracked_early; auto|]. intros reason.
    apply here_quiet; [apply here_log | by apply tracked_early; auto|]. intros _.
    apply here_answer; [by apply tracked_early; auto | done]. }
  eapply here_step; [apply (here_transact _ (ResumeOrCreateCycle o t (ru_allowed_opportunity_keys self)
    (ru_config_fingerprint self) started)); [phase | done] | by apply tracked_early; auto|]. intros cy.
  apply here_set_cycle. intros _.
  eapply here_step; [apply here_observe; phase | by apply tracked_zero|]. intros _.
  apply here_quiet; [apply here_log | by apply tracked_zero|]. intros _.
  destruct (rc_next_stage cy) as [st|]; [apply here_stages; [apply stages_from_chain|done|by apply tracked_zero]|].
  destruct (rc_status cy); try (apply here_succeed; [done | by apply tracked_zero]).
  all: apply here_quiet; [apply here_log | by apply tracked_zero|]; intros _;
    apply here_answer; [by apply tracked_zero | done].
Qed.
(** ** The handlers of exceptions *)

Lemma here_gets {A B} (f : run_state -> A) (k : A -> run B) p cy st att Q :
  (forall a, spec (fun s => here p cy st att s /\ f s = a) (k a) Q lost) ->
  spec (here p cy st att) (bind (gets f) k) Q lost.
Proof. intros Hk s Hs. exact (Hk (f s) s (conj Hs eq_refl)). Qed.

(** A handler starts from what is tracked. *)
Lemma lost_handler {A} (m : option RuntimeCycleSnapshot -> option AcquisitionRuntimeStage -> Z -> run A) Q :
  (forall p cy st att, tracked p cy st att -> spec (here p cy st att) (m cy st att) Q lost) ->
  spec lost (do! cy := gets rt_cycle in do! st := gets rt_stage in do! att := gets rt_attempt in
             m cy st att) Q lost.
Proof.
  intros Hm s (p & Hp & Ht). apply (Hm p (rt_cycle s) (rt_stage s) (rt_attempt s) Ht s). by split_and!.
Qed.

Lemma tracked_begun p cy st att :
  tracked p (Some cy) st att -> 0 < att ->
  exists s k, p = InCycle (rc_cycle_ref cy) (Some s) k /\ st = Some s.
Proof.
  intros [H1 H2] Ha. destruct (H2 Ha) as (c & s & k & -> & ->).
  destruct H1 as [|(s' & k' & E)]; [done|]. injection E as -> _ _. by exists s, k.
Qed.

(** A cycle cut short is finished from any phase the handlers know. *)
Lemma next_cut p cy st att status a reason :
  tracked p (Some cy) st att -> cuts_short status reason = true ->
  exists s, next_ p (FinishCycle (rc_cycle_ref cy) status o t a reason)
            = Some (InCycle (rc_cycle_ref cy) s (CycleFinished status))
    /\ forall k, tracked (InCycle (rc_cycle_ref cy) s k) (Some cy) st att.
Proof.
  intros Ht Hc. destruct Ht as [[->|(s & k & ->)] Hatt].
  - exists None. split; [|intros k; split; [right; eauto|]].
    + unfold next. cbn [op_owner op_token].
      rewrite !(bool_decide_eq_true_2 (Some _ = Some _)) by reflexivity. cbn [andb]. by rewrite Hc.
    + intros Ha. by destruct (Hatt Ha) as (c & s & k' & E & _).
  - exists s. split; [apply next_finish; unfold may_finish; by rewrite Hc|]. intros k'.
    apply (tracked_step _ s k). split; [right; eauto | exact Hatt].
Qed.

Lemma here_cut {A} p cy st att status a reason (k : run A) Q :
  tracked p (Some cy) st att -> cuts_short status reason = true ->
  (forall s, tracked (InCycle (rc_cycle_ref cy) s (CycleClosed status)) (Some cy) st att ->
     spec (here (InCycle (rc_cycle_ref cy) s (CycleClosed status)) (Some cy) st att) k Q lost) ->
  spec (here p (Some cy) st att)
    (do! _ := do_finish_cycle w rq t (rc_cycle_ref cy) status a reason in
     do! _ := do_observe_cycle w rq t (rc_cycle_ref cy) a in k) Q lost.
Proof.
  intros Ht Hc Hk. destruct (next_cut p cy st att status a reason Ht Hc) as (s & Hn & Hs).
  eapply here_step; [by apply here_finish_cycle | apply Hs|]. intros _.
  eapply here_step; [apply here_observe; phase | apply Hs|]. intros _. by apply Hk.
Qed.

Lemma waiting_validated retry r :
  action_result_validate (mkActionResult WAITING [] dec_zero dec_zero ["CURRENT_RUN_INTERRUPTED"]
    (Some retry) true) = Ok r ->
  is_cut_short r = true /\ ra_status r = WAITING.
Proof.
  unfold action_result_validate. intros H. inv_result.
  repeat match goal with H : items _ _ _ _ _ = Ok _ |- _ => vm_compute in H; injection H as <- end. done.
Qed.

Lemma here_interrupted : spec lost (on_interrupted w rq t) answered lost.
Proof.
  apply lost_handler. intros p cy st att Ht.
  assert (Hthrow : spec (here p cy st att) (@throw RuntimeRunResult InterruptedError) answered lost)
    by (apply spec_throw; intros s; by apply here_lost).
  destruct cy as [cy|], st as [st|]; try exact Hthrow. destruct (att <=? 0) eqn:Ea; [exact Hthrow|].
  apply Z.leb_gt in Ea. destruct (tracked_begun _ _ _ _ Ht Ea) as (s & k & -> & [= <-]).
  apply here_quiet; [apply here_now | done|]. intros at_.
  apply here_lift; [done|]. intros r Hr. apply result_bind_Ok in Hr as (retry & _ & Hr).
  destruct (waiting_validated _ _ Hr) as [Hcut Hst].
  eapply here_step; [apply here_finish_stage, next_finish_stage; by right | apply tracked_in_cycle|]. intros _.
  apply here_cut; [apply tracked_in_cycle | done|]. intros s' Ht'.
  apply here_quiet; [apply here_log | done|]. intros _. apply here_quiet; [apply here_log | done|]. intros _.
  by apply here_answer.
Qed.

Lemma here_failure : spec lost (on_failure w rq t) answered lost.
Proof.
  intros s0 Hs0. unfold on_failure. revert s0 Hs0.
  apply (lost_handler (fun cy st att => do! now := gets rt_now in _)). intros p cy st att Ht.
  apply here_quiet; [apply keeps_gets | done|]. intros now.
  destruct cy as [cy|].
  2: { apply here_quiet; [apply here_log | done|]. intros _. apply here_answer; [done|].
       destruct Ht as [[->|[->| ->]] _]; reflexivity. }
  assert (Hrest : forall p', tracked p' (Some cy) st att -> spec (here p' (Some cy) st att)
    (do! _ := do_finish_cycle w rq t (rc_cycle_ref cy) CycleFAILED now (Some "CURRENT_RUN_TECHNICAL_FAILURE") in
     do! _ := do_observe_cycle w rq t (rc_cycle_ref cy) now in
     do! _ := match st with
              | Some stage => if 0 <? att then _emit_stage (rc_cycle_ref cy) stage att
                                (stopped FAILED "CURRENT_RUN_TECHNICAL_FAILURE") else ret tt
              | None => ret tt
              end in
     do! _ := _emit_cycle (rc_cycle_ref cy) RunFAILED "CURRENT_RUN_TECHNICAL_FAILURE" in
     run_result RunFAILED (Some (rc_cycle_ref cy)) st (Some "CURRENT_RUN_TECHNICAL_FAILURE")) answered lost).
  { intros p' Ht'. apply here_cut; [done..|]. intros s Hs.
    apply here_quiet; [destruct st; [destruct (0 <? att)|]; [apply here_log|apply keeps_ret..]|done|]. intros _.
    apply here_quiet; [apply here_log | done|]. intros _. by apply here_answer. }
  destruct st as [st|]; [|apply here_quiet; [apply keeps_ret | done | intros _; by apply Hrest]].
  destruct (0 <? att) eqn:Ea; [|apply here_quiet; [apply keeps_ret | done | intros _; by apply Hrest]].
  pose proof Ea as Ea'. apply Z.ltb_lt in Ea'. destruct (tracked_begun _ _ _ _ Ht Ea') as (s & k & -> & [= <-]).
  eapply here_step; [apply here_finish_stage, next_finish_stage; by right | apply tracked_in_cycle|].
  intros _. apply Hrest, tracked_in_cycle.
Qed.

(** The run under its lease: it answers for the phase it came to, or raises. *)
Lemma here_guarded started :
  spec (here Leased None None 0) (guarded_body w self rq t started) answered lost.
Proof.
  unfold guarded_body. eapply spec_catch; [apply here_body|].
  intros []; apply here_interrupted || apply here_failure.
Qed.
End conformance.
