(* ===== verification/RuntimeTheorems.v ===== *)
(** RuntimeTheorems: the properties of the acquisition runtime.

    A fencing token that was overtaken changes nothing; a cycle carries the
    exact sum of what its attempts are charged, and reserves within its
    budget; results are never rewritten; an interrupted attempt goes on as
    the same one; a run is a sequence of operations of the store, executes
    only what was reserved and bound, in order, and releases its lease. *)

From S2P Require Import Prelude PyStr PyDatetime PyDatetimeFacts PyDecimal PyJson.
From S2P Require Import AcquisitionContracts AcquisitionEquiv Database RuntimeContracts.
From S2P Require Import RuntimeStore RuntimeAttempts RuntimeLease RuntimeLedger.
From S2P Require Import RuntimeHistory RuntimeRunner RuntimeRuns.
From Stdlib Require Import Ascii String.
From stdpp Require Import gmap.

Local Open Scope string_scope.
Local Open Scope Z_scope.
Local Open Scope list_scope.

Section theorems.
Context `{Hash : HashLib} `{DB : Database}.

(** C28 (safety).  Once the lease of the runtime was acquired again, by
    anyone, an operation that shows the token of an earlier acquisition
    changes nothing any more, whatever happened before, in between and
    since; the new token is greater. *)
Theorem stale_token_changes_nothing db0 clock1 o1 at1 n1 l1 db1 t1 between clock2 o2 at2 n2 l2 db2 t2
    since clock op :
  acquire_lease db0 clock1 o1 at1 n1 = Ok (l1, db1) -> lr_fencing_token l1 = Some t1 ->
  acquire_lease (apply_ops between db1) clock2 o2 at2 n2 = Ok (l2, db2) ->
  lr_fencing_token l2 = Some t2 -> op_token op = Some t1 ->
  t1 < t2 /\ apply_op clock op (apply_ops since db2) = apply_ops since db2.
Proof.
  intros H1 Ht1 H2 Ht2 Hop.
  apply acquire_lease_spec in H1 as [(_ & ? & _)|(_ & _ & E1 & _)]; [congruence|].
  apply acquire_lease_spec in H2 as [(_ & ? & _)|(_ & Hg & E2 & _)]; [congruence|].
  pose proof (apply_ops_generation between db1). pose proof (apply_ops_generation since db2).
  simplify_eq. split; [lia|]. eapply stale_op; [exact Hop|]. lia.
Qed.

(** C26 (invariant).  After any operations of the store, in any order and of
    any owners, the cost a cycle carries is exactly the sum, over its
    attempts, of the larger of what the attempt reserved and of what was
    observed; the costs reserved and the budgets have at most the six decimals
    of their columns, as those of the code, which are whole. *)
Theorem ledger_exact ops c row :
  Forall (fun e => op_scaled e.2) ops ->
  rdb_cycles (apply_ops ops empty_runtime_db) !! c = Some row ->
  micros (cy_spent_cost row) = charged (apply_ops ops empty_runtime_db) c.
Proof.
  intros Hops Hrow.
  assert (H : ledger_ok (apply_ops ops empty_runtime_db)).
  { apply (apply_ops_keeps ledger_ok op_scaled); [|done|apply empty_ledger].
    intros clock op db db'. apply commit_ledger. }
  by apply H.
Qed.

(** C35 (functional).  A reservation that does not raise is refused, without
    a write, exactly when the charges of the cycle and the cost exceed the
    maximum; it is given again, without a write, to a running attempt that
    has it, with the proposal bound to the attempt; or the attempt is
    written with its cost, which is added to the charges of the cycle, within
    the maximum. *)
Theorem reservation_within_budget db clock c s n r m o t a x db' :
  ledger_ok db -> -6 <= d_exp r -> -6 <= d_exp m ->
  reserve_stage_cost db clock c s n r m o t a = Ok (x, db') ->
  match rr_accepted x, rr_created x with
  | false, _ => db' = db /\ micros m < charged db c + micros r
  | true, false =>
      db' = db /\ exists row, rdb_attempts db !! (c, s, rs_attempt_count n) = Some row
      /\ at_status row = RUNNING /\ dec_eqb (at_reserved_cost row) r = true
      /\ opt_mapM proposal_validate (at_proposal row) = Ok (rr_proposal x)
  | true, true =>
      charged db c + micros r <= micros m /\ charged db' c = charged db c + micros r
      /\ rr_proposal x = None
      /\ exists row, rdb_attempts db' = <[(c, s, rs_attempt_count n) := row]> (rdb_attempts db)
         /\ at_status row = RUNNING /\ micros (at_reserved_cost row) = micros r
         /\ micros (at_observed_cost row) = 0 /\ at_proposal row = None
  end.
Proof.
  intros Hok Hr Hm H. apply reserve_stage_cost_spec in H as [_ H]; [|done..]. unfold reserved in H.
  destruct (rr_accepted x), (rr_created x); try exact H.
  destruct H as (E & row & Hrow & Hs & Hp). split; [done|]. exists row.
  unfold not_replay_safe in Hs. inv_result. done.
Qed.

(** C38 (safety).  The result of an attempt is never rewritten: once it has
    one that does not ask for its replay, no sequence of operations changes
    its row. *)
Theorem settled_attempt_kept db k row ops :
  ledger_ok db -> rdb_attempts db !! k = Some row -> settled row ->
  Forall (fun e => op_scaled e.2) ops -> rdb_attempts (apply_ops ops db) !! k = Some row.
Proof.
  intros Hok Hrow Hs Hops.
  apply (apply_ops_keeps (fun db => ledger_ok db /\ kept k row db) op_scaled); [|done|done].
  intros clock op db1 db2 Ho [H1 H2] H. split; [by eapply commit_ledger | by eapply commit_settled].
Qed.

(** C36 (roundtrip).  An attempt that is interrupted with its replay asked
    for, and begun again once the time of the retry has come, goes on under
    its number: its reservation is given again, with the proposal that was
    bound to it, and nothing is charged or written. *)
Theorem interrupted_attempt_replays db clock c s reason retry o t a db1 sg row p :
  ledger_ok db -> rdb_stages db !! (c, s) = Some sg ->
  rdb_attempts db !! (c, s, sg_attempt_count sg) = Some row -> at_proposal row = Some p ->
  proposal_validate p = Ok p -> dec_eqb (rp_estimated_cost p) (at_reserved_cost row) = true ->
  cost_ok (at_reserved_cost row) = true -> aware retry = true ->
  finish_stage db clock c s
    (mkActionResult WAITING [] dec_zero dec_zero [reason] (Some retry) true) o t a None = Ok db1 ->
  forall db2 clock2 o2 t2 a2 x db3 clock3 m,
  ledger_ok db2 -> rdb_stages db2 !! (c, s) = rdb_stages db1 !! (c, s) ->
  rdb_attempts db2 = rdb_attempts db1 -> dt_leb retry a2 = true ->
  begin_stage db2 clock2 c s o2 t2 a2 = Ok (x, db3) ->
  cost_ok (_spent_cost db3 c) = true ->
  (forall v, require_aware a2 = Ok v -> _require_active_lease db3 clock3 o2 t2 v = Ok tt) ->
  rs_attempt_count x = sg_attempt_count sg
  /\ reserve_stage_cost db3 clock3 c s x (at_reserved_cost row) m o2 t2 a2
     = Ok (mkReservation true false (at_reserved_cost row) (_spent_cost db3 c) (Some p), db3).
Proof.
  intros Hok Hsg Hrow Hp Hpv Hpe Hrc Hre H1 db2 clock2 o2 t2 a2 x db3 clock3 m Hok2 Es Ea Hle H2 Hs Hl.
  destruct (finish_stage_rows _ _ _ _ _ _ _ _ _ _ _ _ Hok Hsg Hrow H1)
    as (obs & v & sg1 & Hobs & Hrow1 & Hsg1 & Hc1 & Hs1 & Hn1 & Hst1 & Hre1 & Hrp1).
  simpl in Hobs, Hst1, Hre1, Hrp1. rewrite <- Es in Hsg1. rewrite <- Ea, <- Hn1 in Hrow1.
  destruct (begin_stage_replays db2 clock2 c s o2 t2 a2 x db3 sg1 _ retry Hok2 Hsg1 Hst1 Hrp1 Hre1 Hre Hle Hrow1 H2)
    as (Hx1 & Hx2 & (sg3 & Hsg3 & Hst3 & Hn3) & Hrow3).
  split; [congruence|]. rewrite <- Hx2 in Hrow3.
  assert (Hcy : is_Some (rdb_cycles db3 !! c)).
  { apply begin_stage_ledger in H2 as [Hwf3 _]; [|done].
    destruct (lw_stage _ Hwf3 _ _ Hsg3) as [Hk Hc]. congruence. }
  pose proof Hok as [Hwf _]. destruct (lw_attempt _ Hwf _ _ Hrow) as (Hk & _ & Ha & _).
  erewrite reserve_again_proposal; try done; try exact Hrow3; simpl; try congruence.
  - unfold key_of in Hk. congruence.
  - unfold not_replay_safe. simpl. destruct (numeric_micros dec_zero obs ltac:(done) Hobs) as (Zm & Ze & _).
    assert (E1 : dec_eqb (at_reserved_cost row) (at_reserved_cost row) = true) by (apply dec_eqb_micros; by destruct Ha).
    assert (E2 : dec_eqb obs dec_zero = true) by (by apply dec_eqb_micros). by rewrite E1, E2.
  - intros q Hq. by simplify_eq.
  - unfold begin_stage in H2. by destruct (require_aware a2).
Qed.

(** C38 (refinement).  A run follows the protocol of the store.  Whatever the
    supervisor answers, the handlers do, the clocks read and the other
    processes commit between its transactions, the tables are those that the
    run's own transactions give, one after the other, on top of the others':
    first the acquisition of the lease, and nothing else when it does not get
    it; else the operations that the protocol allows one after the other, under
    the owner and the token of the run, and the release last.  In the protocol
    the run is observed, a cycle is resumed, and each stage comes after its
    predecessor: it is begun, its cost reserved, its proposal bound, its actions
    protected, the lease prolonged, the stage finished, in this order; the
    cycle is finished with the status of its last stage, and a run that an
    exception cuts short finishes its stage and its cycle as interrupted or
    failed.  And what a run answers is the status for the place in the
    protocol where it stopped. *)
Theorem run_follows_protocol w self request db start :
  let '(r, s') := run_once w self request (fresh_run db start) in
  let owner := rq_owner_ref request in
  match require_aware (w_clock w 0) with
  | Raise e => r = Raise e /\ rt_db s' = db /\ rt_transactions s' = 0%nat
  | Ok now =>
      let acquire := AcquireLease owner now (ru_lease_seconds self) in
      match acquire_lease (apply_ops (w_others w 0) db) (w_database_clock w 0) owner now
              (ru_lease_seconds self) with
      | Ok (mkLeaseResult true _ (Some token), _) =>
          exists own released_at p,
            let trace := acquire :: own ++ [ReleaseLease owner token released_at] in
            rt_db s' = play w 0 trace db /\ rt_transactions s' = length trace
            /\ drive owner token own = Some p
            /\ forall x, r = Ok x -> fits (run_status x) p = true
      | _ =>
          rt_db s' = play w 0 [acquire] db /\ rt_transactions s' = 1%nat
          /\ forall x, r = Ok x -> run_status x = RunALREADY_RUNNING
      end
  end.
Proof.
  unfold run_once, bind at 1, _now. cbn [fresh_run rt_reads].
  destruct (require_aware (w_clock w 0)) as [now|e]; [|done].
  unfold bind at 1, set_now, bind at 1, transact.
  cbn [fresh_run rt_db rt_reads rt_transactions rt_events rt_calls rt_now rt_cycle rt_stage rt_attempt].
  cbv zeta. cbn [play].
  assert (Hop : apply_op (w_database_clock w 0) (AcquireLease (rq_owner_ref request) now (ru_lease_seconds self))
      (apply_ops (w_others w 0) db)
    = match acquire_lease (apply_ops (w_others w 0) db) (w_database_clock w 0) (rq_owner_ref request) now
              (ru_lease_seconds self) with
      | Ok (_, d) => d | Raise _ => apply_ops (w_others w 0) db end)
    by (unfold apply_op; cbn [commit]; by destruct (acquire_lease _ _ _ _ _) as [[? ?]|]).
  rewrite Hop. clear Hop. destruct (acquire_lease _ _ _ _ _) as [[l db1]|e]; [|by split_and!].
  destruct l as [owned reclaimed token]. cbn [lr_owned lr_fencing_token]. destruct owned; cbn [negb].
  2: { unfold bind, lease_event, log, run_result, lift. cbn. split_and!; [done..|].
       intros x Hx. unfold run_result_validate in Hx. by inv_result. }
  destruct token as [token|]; [|done].
  unfold bind at 1, lift at 1. cbn [option_to_result]. unfold bind at 1, lease_event at 1, log at 1.
  cbn [rt_db rt_reads rt_transactions rt_events rt_calls rt_now rt_cycle rt_stage rt_attempt].
  match goal with |- context [finally ?m ?f ?s1] =>
    pose proof (here_guarded w self request token 1 db1 now s1) as Hg;
    unfold finally; destruct (m s1) as [r s2] end.
  assert (Hs2 : exists own p, rt_db s2 = play w 1 own db1 /\ rt_transactions s2 = S (length own)
    /\ drive (rq_owner_ref request) token own = Some p /\ forall x, r = Ok x -> fits (run_status x) p = true).
  { specialize (Hg ltac:(split_and!; [by exists []|done..])).
    destruct r as [x|e]; destruct Hg as (p & (own & H1 & H2 & H3) & Hf); exists own, p;
      (split_and!; [done..|]); [by intros ? [= <-]|done]. }
  clear Hg. destruct Hs2 as (own & p & H1 & H2 & H3 & Hf).
  pose proof (play_snoc w 1 own (ReleaseLease (rq_owner_ref request) token (rt_now s2)) db1) as Hplay.
  change (1 + length own)%nat with (S (length own)) in Hplay.
  unfold apply_op at 1 in Hplay. cbn [commit] in Hplay. rewrite <- H1, <- H2 in Hplay.
  unfold release, bind, gets, transact_, transact.
  destruct (release_lease _ _ _ _) as [db2|e]; cbn [result_bind lease_event log rt_db rt_transactions];
    exists own, (rt_now s2), p; cbv zeta; cbn [play rt_db rt_transactions];
    (split_and!; [symmetry; exact Hplay|rewrite length_cons, length_app, H2; simpl; lia|done|]);
    [by destruct r|done].
Qed.

(** C27 (safety).  The actions a run executes are for stages in the order of
    the code, each at most once.  Each is for the command of its stage and
    the cycle of the run, to providers with the authorization only; when its
    handler is called, its attempt is running in the tables the run last left,
    with the proposal bound to it and the cost of the stage reserved. *)
Theorem run_calls_bound w self request db now :
  let calls := rt_calls (run_once w self request (fresh_run db now)).2 in
  sublist (map (fun e => ac_stage e.1) calls) stages /\ Forall call_ok calls.
Proof.
  pose proof (run_once_adds w self request [] (fresh_run db now) eq_refl) as Ha.
  destruct (run_once w self request (fresh_run db now)) as [r s'].
  assert (Hs : added [] stages s') by (by destruct r).
  destruct Hs as (l & E & S & F). simpl in *. by rewrite E.
Qed.

(** C37 (liveness).  A run that acquired the lease releases it, whether it
    returns or raises, and whatever the supervisor, the handlers, the clock
    and the other processes do: its owner does not hold the lease under the
    token of the run afterwards.  The lease is as the checks of its table
    require, and the costs the others reserve have six decimals at most. *)
Theorem run_releases_lease w self request db start now l db1 t r s' :
  (forall n, Forall (fun e => op_scaled e.2) (w_others w n)) -> -6 <= d_exp (ru_maximum_cost self) ->
  lease_valid db -> require_aware (w_clock w 0) = Ok now ->
  acquire_lease (apply_ops (w_others w 0) db) (w_database_clock w 0) (rq_owner_ref request) now
    (ru_lease_seconds self) = Ok (l, db1) ->
  lr_owned l = true -> lr_fencing_token l = Some t ->
  run_once w self request (fresh_run db start) = (r, s') ->
  forall row, rdb_lease (rt_db s') = Some row -> owned_by (rq_owner_ref request) t row = false.
Proof.
  intros Hw Hm Hv Hnow Hacq Hl Ht H. unfold run_once, bind at 1, _now in H. simpl in H.
  rewrite Hnow in H. unfold bind at 1, set_now, bind at 1, transact in H. simpl in H.
  rewrite Hacq in H. rewrite Hl, Ht in H. simpl in H. unfold bind, lift, lease_event, log in H. simpl in H.
  match type of H with finally _ _ ?s1 = _ => assert (Hs1 : in_run db1 s1) end.
  { split; [by exists [] | by eapply require_aware_idem]. }
  match type of H with finally ?m ?f ?s1 = _ =>
    pose proof (keeps_body w self Hw Hm db1 request t now s1 Hs1) as Hk; unfold finally in H;
    destruct (m s1) as [x s2] end.
  assert (Hs2 : in_run db1 s2) by (by destruct x). clear Hk. destruct Hs2 as [(ops & _ & E2) Ht2].
  assert (Hv2 : lease_valid (apply_ops (w_others w (rt_transactions s2)) (rt_db s2))).
  { rewrite E2. do 2 apply apply_ops_lease_valid.
    eapply (commit_lease_valid _ (AcquireLease _ _ _)); [by apply apply_ops_lease_valid|].
    simpl. by rewrite Hacq. }
  unfold release, bind, gets, transact_, transact in H.
  destruct (release_lease_spec _ (rq_owner_ref request) t (rt_now s2) Hv2) as (db' & Hrel & Hdone);
    [by rewrite Ht2|].
  rewrite Hrel in H. simpl in H. by injection H as <- <-.
Qed.
End theorems.

(** * A runtime *)

Module RuntimeSample.
#[export] Existing Instance LengthHash.
#[export] Existing Instance ScaledDatabase.

(** 1 March 2026, and the seconds after it. *)
Definition at_second (n : Z) : datetime := mkdt 2026 3 1 (n / 3600) (n / 60 mod 60) (n mod 60) 0 (Some 0).

Definition capability : RuntimeCapabilityEvidence :=
  mkCapability "STAGING" ModeASSISTED true
    (mkHermes "repo" "v1" (pad_digits 40 1) "1.0" "py312") (pad_digits 64 7) 0
    (map stage_command stages) (map (fun s => mkDependency s READY []) stages).

(** A supervisor that proposes the command of the stage at its cost. *)
Definition propose (s : AcquisitionRuntimeStage) (c : RuntimeCycleSnapshot) (_ : decimal) (_ : datetime)
  : result RuntimeProposal :=
  Ok (mkProposal "plan-1" 0 (stage_command s) (rc_cycle_ref c) (pad_digits 64 9) (KIVOU_STAGE_COSTS s)
        ["HERMES_CLOSED_PROPOSAL"] []).

(** Handlers that succeed at a cost, after one protected action. *)
Definition succeeds (cost : AcquisitionRuntimeStage -> decimal) (s : AcquisitionRuntimeStage)
    (_ : AcquisitionActionContext) : action_run :=
  Protects (fun _ => Ok tt) (fun r =>
    Returns (let! _ := r in Ok (mkActionResult SUCCEEDED [] dec_zero (cost s) [] None false))).

Definition runner (handlers : AcquisitionRuntimeStage -> AcquisitionActionContext -> action_run)
  : AcquisitionRuntimeRunner :=
  mkRunner propose handlers ["opportunity-1"; "opportunity-22"] (pad_digits 64 3) (dec_of_Z 50) 900 1000
    capability.

(** A clock that starts at a second, and nobody else. *)
Definition alone (start : Z) : world :=
  mkWorld (fun n => at_second (start + Z.of_nat n)) (fun _ => None) (fun _ => []).

Definition request : RuntimeRunRequest := mkRequest "owner-1" true.

Definition once (handlers : AcquisitionRuntimeStage -> AcquisitionActionContext -> action_run)
    (start : Z) (db : runtime_db) : result RuntimeRunResult * run_state :=
  run_once (alone start) (runner handlers) request (fresh_run db (at_second 0)).
End RuntimeSample.

Section witnesses.
Import RuntimeSample.

(** The operations are evaluated by [vm_compute] alone. *)
#[local] Opaque acquire_lease apply_ops apply_op reserve_stage_cost finish_stage begin_stage run_once.

Definition cycle_1 : string := _cycle_ref (pad_digits 64 3) "opportunity-1".
Definition start_ops : list (option datetime * store_op) :=
  [(None, AcquireLease "owner-1" (at_second 0) 1000);
   (None, ResumeOrCreateCycle "owner-1" 1 ["opportunity-1"] (pad_digits 64 3) (at_second 1));
   (None, BeginStage cycle_1 SUPPLIER_DISCOVERY "owner-1" 1 (at_second 2))].
Definition snapshot (n : Z) : RuntimeStageSnapshot :=
  mkStageSnapshot cycle_1 SUPPLIER_DISCOVERY RUNNING n [] None false.
Definition started : runtime_db := apply_ops start_ops empty_runtime_db.
Definition reserve_op : store_op :=
  ReserveStageCost cycle_1 SUPPLIER_DISCOVERY (snapshot 1) (dec_of_Z 2) (dec_of_Z 50) "owner-1" 1
    (at_second 3).
Definition proposal_1 : RuntimeProposal :=
  mkProposal "plan-1" 0 "discover_suppliers" cycle_1 (pad_digits 64 9) (dec_of_Z 2)
    ["HERMES_CLOSED_PROPOSAL"] [].
Definition bound_ops : list (option datetime * store_op) :=
  [(None, reserve_op);
   (None, BindStageProposal cycle_1 SUPPLIER_DISCOVERY (snapshot 1) proposal_1 "owner-1" 1 (at_second 4))].
Definition bound_db : runtime_db := apply_ops bound_ops started.

Lemma ops_ledger ops db :
  Forall (fun e => op_scaled e.2) ops -> ledger_ok db -> ledger_ok (apply_ops ops db).
Proof. apply apply_ops_keeps. intros clock op db1 db2. apply commit_ledger. Qed.

Lemma started_ledger : ledger_ok started.
Proof. apply ops_ledger; [by repeat constructor | apply empty_ledger]. Qed.
Lemma bound_ledger : ledger_ok bound_db.
Proof. apply ops_ledger; [repeat constructor; simpl; lia | apply started_ledger]. Qed.

(** The first acquisition, and that of another owner once it has expired. *)
Definition first_lease := acquire_lease empty_runtime_db None "owner-1" (at_second 0) 1000.
Definition tables {A} (r : result (A * runtime_db)) : runtime_db :=
  match r with Ok (_, db) => db | Raise _ => empty_runtime_db end.
Definition lease_of (r : result (RuntimeLeaseResult * runtime_db)) : RuntimeLeaseResult :=
  match r with Ok (l, _) => l | Raise _ => mkLeaseResult false false None end.
Definition second_lease :=
  acquire_lease (apply_ops (tail start_ops) (tables first_lease)) None "owner-2" (at_second 2000) 1000.

Lemma lease_eta r : is_ok r = true -> r = Ok (lease_of r, tables r).
Proof. by destruct r as [[l db]|]. Qed.

(** The other owner goes on, and the first one comes back. *)
Definition since_ops : list (option datetime * store_op) :=
  [(None, BeginStage cycle_1 SUPPLIER_DISCOVERY "owner-2" 2 (at_second 2001))].
Definition late_op : store_op := BeginStage cycle_1 SIGNAL_SEED "owner-1" 1 (at_second 2002).

Lemma stale_token_changes_nothing_witness :
  1 < 2
  /\ apply_op None late_op (apply_ops since_ops (tables second_lease))
     = apply_ops since_ops (tables second_lease).
Proof.
  apply (stale_token_changes_nothing empty_runtime_db None "owner-1" (at_second 0) 1000
    (lease_of first_lease) (tables first_lease) 1 (tail start_ops) None "owner-2" (at_second 2000) 1000
    (lease_of second_lease) (tables second_lease) 2 since_ops None late_op).
  - apply (lease_eta first_lease). vm_compute. reflexivity.
  - vm_compute. reflexivity.
  - apply (lease_eta second_lease). vm_compute. reflexivity.
  - vm_compute. reflexivity.
  - reflexivity.
Defined.

Lemma ledger_exact_witness :
  match rdb_cycles (apply_ops (start_ops ++ bound_ops) empty_runtime_db) !! cycle_1 with
  | Some row => micros (cy_spent_cost row) = charged (apply_ops (start_ops ++ bound_ops) empty_runtime_db) cycle_1
                /\ micros (cy_spent_cost row) = 2000000
  | None => False
  end.
Proof.
  destruct (rdb_cycles _ !! cycle_1) as [row|] eqn:E; [|vm_compute in E; discriminate].
  split; [|vm_compute in E; by injection E as <-].
  apply (ledger_exact (start_ops ++ bound_ops) cycle_1); [repeat constructor; simpl; lia | exact E].
Defined.

Definition reserved_now :=
  reserve_stage_cost started None cycle_1 SUPPLIER_DISCOVERY (snapshot 1) (dec_of_Z 2) (dec_of_Z 50)
    "owner-1" 1 (at_second 3).
Definition reservation_of (r : result (RuntimeStageReservation * runtime_db)) : RuntimeStageReservation :=
  match r with Ok (x, _) => x | Raise _ => mkReservation false false dec_zero dec_zero None end.

Lemma reservation_eta r : is_ok r = true -> r = Ok (reservation_of r, tables r).
Proof. by destruct r as [[x db]|]. Qed.

Lemma reservation_within_budget_witness :
  rr_accepted (reservation_of reserved_now) = true
  /\ charged (tables reserved_now) cycle_1 = charged started cycle_1 + 2000000.
Proof.
  pose proof (reservation_within_budget started None cycle_1 SUPPLIER_DISCOVERY (snapshot 1) (dec_of_Z 2)
    (dec_of_Z 50) "owner-1" 1 (at_second 3) (reservation_of reserved_now) (tables reserved_now)
    started_ledger ltac:(simpl; lia) ltac:(simpl; lia)
    (reservation_eta reserved_now ltac:(vm_compute; reflexivity))) as H.
  assert (E1 : rr_accepted (reservation_of reserved_now) = true) by (vm_compute; reflexivity).
  assert (E2 : rr_created (reservation_of reserved_now) = true) by (vm_compute; reflexivity).
  rewrite E1, E2 in H. destruct H as (_ & H & _). split; [exact E1 | exact H].
Defined.

(** The attempt fails. *)
Definition failed_ops : list (option datetime * store_op) :=
  [(None, FinishStage cycle_1 SUPPLIER_DISCOVERY (stopped FAILED "PROVIDER_REFUSED") "owner-1" 1
      (at_second 5) None)].
Definition failed_db : runtime_db := apply_ops failed_ops bound_db.
Definition key_1 : attempt_key := (cycle_1, SUPPLIER_DISCOVERY, 1).
Definition no_attempt : attempt_row :=
  mkAttempt "" SIGNAL_SEED 0 PENDING dec_zero dec_zero None None false None.
Definition attempt_1 (db : runtime_db) : attempt_row := default no_attempt (rdb_attempts db !! key_1).

Lemma attempt_eta db :
  match rdb_attempts db !! key_1 with Some _ => true | None => false end = true ->
  rdb_attempts db !! key_1 = Some (attempt_1 db).
Proof. unfold attempt_1. by destruct (rdb_attempts db !! key_1). Qed.

Definition later_ops : list (option datetime * store_op) :=
  [(None, AbandonCycle cycle_1 "given up" (at_second 6));
   (None, BeginStage cycle_1 SUPPLIER_DISCOVERY "owner-1" 1 (at_second 7))].

Lemma settled_attempt_kept_witness :
  rdb_attempts (apply_ops later_ops failed_db) !! key_1 = Some (attempt_1 failed_db)
  /\ at_status (attempt_1 failed_db) = FAILED.
Proof.
  split; [|vm_compute; reflexivity].
  apply (settled_attempt_kept failed_db key_1 (attempt_1 failed_db) later_ops).
  - apply ops_ledger; [by repeat constructor | apply bound_ledger].
  - apply attempt_eta. vm_compute. reflexivity.
  - split; [vm_compute; discriminate | vm_compute; discriminate].
  - by repeat constructor.
Defined.

(** The attempt is interrupted, and begun again a minute later. *)
Definition no_stage : stage_row := pending_stage "" (at_second 0) SIGNAL_SEED.
Definition stage_1 (db : runtime_db) : stage_row :=
  default no_stage (rdb_stages db !! (cycle_1, SUPPLIER_DISCOVERY)).
Definition interruption := finish_stage bound_db None cycle_1 SUPPLIER_DISCOVERY
  (mkActionResult WAITING [] dec_zero dec_zero ["CURRENT_RUN_INTERRUPTED"] (Some (at_second 65)) true)
  "owner-1" 1 (at_second 5) None.
Definition interrupted_db : runtime_db :=
  match interruption with Ok db => db | Raise _ => empty_runtime_db end.
Definition resumption := begin_stage interrupted_db None cycle_1 SUPPLIER_DISCOVERY "owner-1" 1 (at_second 70).
Definition snapshot_of (r : result (RuntimeStageSnapshot * runtime_db)) : RuntimeStageSnapshot :=
  match r with Ok (x, _) => x | Raise _ => snapshot 0 end.

Lemma interruption_eta : is_ok interruption = true -> interruption = Ok interrupted_db.
Proof. unfold interrupted_db. by destruct interruption. Qed.
Lemma snapshot_eta r : is_ok r = true -> r = Ok (snapshot_of r, tables r).
Proof. by destruct r as [[x db]|]. Qed.
Lemma stage_eta db :
  match rdb_stages db !! (cycle_1, SUPPLIER_DISCOVERY) with Some _ => true | None => false end = true ->
  rdb_stages db !! (cycle_1, SUPPLIER_DISCOVERY) = Some (stage_1 db).
Proof. unfold stage_1. by destruct (rdb_stages db !! _). Qed.

Lemma interrupted_ledger : ledger_ok interrupted_db.
Proof.
  eapply finish_stage_ledger; [apply bound_ledger|]. apply interruption_eta. vm_compute. reflexivity.
Qed.

Lemma interrupted_attempt_replays_witness :
  rs_attempt_count (snapshot_of resumption) = sg_attempt_count (stage_1 bound_db)
  /\ reserve_stage_cost (tables resumption) None cycle_1 SUPPLIER_DISCOVERY (snapshot_of resumption)
       (at_reserved_cost (attempt_1 bound_db)) (dec_of_Z 50) "owner-1" 1 (at_second 70)
     = Ok (mkReservation true false (at_reserved_cost (attempt_1 bound_db))
             (_spent_cost (tables resumption) cycle_1) (Some proposal_1), tables resumption).
Proof.
  assert (E : sg_attempt_count (stage_1 bound_db) = 1) by (vm_compute; reflexivity).
  apply (interrupted_attempt_replays bound_db None cycle_1 SUPPLIER_DISCOVERY "CURRENT_RUN_INTERRUPTED"
    (at_second 65) "owner-1" 1 (at_second 5) interrupted_db (stage_1 bound_db) (attempt_1 bound_db)
    proposal_1 bound_ledger) with (db2 := interrupted_db) (clock2 := None).
  - apply stage_eta. vm_compute. reflexivity.
  - rewrite E. apply (attempt_eta bound_db). vm_compute. reflexivity.
  - vm_compute. reflexivity.
  - vm_compute. reflexivity.
  - vm_compute. reflexivity.
  - vm_compute. reflexivity.
  - vm_compute. reflexivity.
  - apply interruption_eta. vm_compute. reflexivity.
  - apply interrupted_ledger.
  - exact eq_refl.
  - exact eq_refl.
  - vm_compute. reflexivity.
  - apply (snapshot_eta resumption). vm_compute. reflexivity.
  - vm_compute. reflexivity.
  - intros v Hv. vm_compute in Hv. injection Hv as <-. vm_compute. reflexivity.
Defined.

(** A run with another owner who comes in before its fourth transaction. *)
Definition disturbed : world :=
  mkWorld (fun n => at_second (Z.of_nat n)) (fun _ => None)
    (fun n => match n with 4%nat => [(None, AcquireLease "owner-2" (at_second 3000) 1000)] | _ => [] end).
Definition disturbed_run : result RuntimeRunResult * run_state :=
  run_once disturbed (runner (succeeds KIVOU_STAGE_COSTS)) request (fresh_run empty_runtime_db (at_second 0)).

Lemma others_scaled n : Forall (fun e => op_scaled e.2) (w_others disturbed n).
Proof. simpl. repeat case_match; repeat constructor. Qed.

Definition run_lease :=
  acquire_lease (apply_ops (w_others disturbed 0) empty_runtime_db) None "owner-1" (at_second 0) 1000.

Lemma run_follows_protocol_witness :
  exists own released_at p,
    rt_db disturbed_run.2
    = play disturbed 0 (AcquireLease "owner-1" (at_second 0) 1000
                          :: own ++ [ReleaseLease "owner-1" 1 released_at]) empty_runtime_db
    /\ drive "owner-1" 1 own = Some p.
Proof.
  pose proof (run_follows_protocol disturbed (runner (succeeds KIVOU_STAGE_COSTS)) request
    empty_runtime_db (at_second 0)) as H.
  fold disturbed_run in H. destruct disturbed_run as [r s']. cbn [snd].
  assert (En : require_aware (w_clock disturbed 0) = Ok (at_second 0)) by (vm_compute; reflexivity).
  assert (El : lease_of run_lease = mkLeaseResult true false (Some 1)) by (vm_compute; reflexivity).
  assert (Ea : run_lease = Ok (mkLeaseResult true false (Some 1), tables run_lease))
    by (rewrite <- El; apply lease_eta; vm_compute; reflexivity).
  cbv zeta in H. rewrite En in H. unfold run_lease in Ea. cbn [request runner rq_owner_ref ru_lease_seconds] in H.
  change (w_database_clock disturbed 0) with (@None datetime) in H. rewrite Ea in H.
  destruct H as (own & at_ & p & H1 & _ & H3 & _). exists own, at_, p. split; [exact H1 | exact H3].
Defined.

(** The protocol refuses a stage that is finished without its lease having
    been prolonged, and a cycle that succeeds before its last stage. *)
Definition until_bound : list store_op :=
  [RecordObservation "owner-1" capability 1 (at_second 0);
   ResumeOrCreateCycle "owner-1" 1 ["opportunity-1"] (pad_digits 64 3) (at_second 0);
   RecordCycleObservation "owner-1" cycle_1 1 (at_second 0);
   BeginStage cycle_1 SUPPLIER_DISCOVERY "owner-1" 1 (at_second 1);
   RecordCycleObservation "owner-1" cycle_1 1 (at_second 1);
   ReserveStageCost cycle_1 SUPPLIER_DISCOVERY (snapshot 1) (dec_of_Z 2) (dec_of_Z 50) "owner-1" 1
     (at_second 1);
   BindStageProposal cycle_1 SUPPLIER_DISCOVERY (snapshot 1) proposal_1 "owner-1" 1 (at_second 1)].
Definition stage_succeeds : store_op :=
  FinishStage cycle_1 SUPPLIER_DISCOVERY (mkActionResult SUCCEEDED [] dec_zero (dec_of_Z 2) [] None false)
    "owner-1" 1 (at_second 2) None.
Definition prolonged : store_op := HeartbeatLease "owner-1" 1 (at_second 2) 1000.
Example protocol_refuses :
  drive "owner-1" 1 (until_bound ++ [prolonged; stage_succeeds])
  = Some (InCycle cycle_1 (Some SUPPLIER_DISCOVERY) Ready)
  /\ drive "owner-1" 1 (until_bound ++ [stage_succeeds]) = None
  /\ drive "owner-1" 1 (until_bound ++ [prolonged; stage_succeeds;
       FinishCycle cycle_1 CycleSUCCEEDED "owner-1" 1 (at_second 2) None]) = None.
Proof. vm_compute. split_and!; reflexivity. Qed.

Lemma run_releases_lease_witness :
  match rdb_lease (rt_db disturbed_run.2) with
  | Some row => owned_by "owner-1" 1 row = false | None => True end.
Proof.
  destruct (rdb_lease (rt_db disturbed_run.2)) as [row|] eqn:E; [|exact I]. revert E.
  apply (run_releases_lease disturbed (runner (succeeds KIVOU_STAGE_COSTS)) request empty_runtime_db
    (at_second 0) (at_second 0) (lease_of run_lease) (tables run_lease) 1 disturbed_run.1 disturbed_run.2
    others_scaled).
  - simpl. lia.
  - intros r Hr. discriminate Hr.
  - vm_compute. reflexivity.
  - apply (lease_eta run_lease). vm_compute. reflexivity.
  - vm_compute. reflexivity.
  - vm_compute. reflexivity.
  - unfold disturbed_run. apply surjective_pairing.
Defined.

(** ** What the modelling showed *)

(** What a run returns, with the status and the cost of the cycle. *)
Definition outcome (p : result RuntimeRunResult * run_state)
  : option (RuntimeRunStatus * option string) * option (RuntimeCycleStatus * Z) :=
  (match p.1 with Ok x => Some (run_status x, run_reason_code x) | Raise _ => None end,
   match rdb_cycles (rt_db p.2) !! cycle_1 with
   | Some row => Some (cy_status row, micros (cy_spent_cost row)) | None => None end).

(** A cycle runs to its end, with an action for each stage. *)
Example run_completes :
  let p := once (succeeds KIVOU_STAGE_COSTS) 0 empty_runtime_db in
  outcome p = (Some (RunCOMPLETED, None), Some (CycleSUCCEEDED, 10000000))
  /\ map (fun e => ac_stage e.1) (rt_calls p.2) = stages.
Proof. vm_compute. split; reflexivity. Qed.

(** A cycle that the operator abandons while a stage runs is taken up again
    by the result of the stage, which does not read the status of the
    cycle. *)
Example abandoned_cycle_resumed :
  let abandoned := apply_ops [(None, AbandonCycle cycle_1 "stop" (at_second 5))] bound_db in
  let finished := apply_ops [(None, FinishStage cycle_1 SUPPLIER_DISCOVERY
      (mkActionResult SUCCEEDED [] dec_zero (dec_of_Z 2) [] None false) "owner-1" 1 (at_second 6) None)]
      abandoned in
  let status db := match rdb_cycles db !! cycle_1 with
                   | Some row => Some (cy_status row, cy_next_stage row) | None => None end in
  status abandoned = Some (CycleSUPPRESSED, None)
  /\ status finished = Some (CycleRUNNING, Some CONTACT_DISCOVERY).
Proof. vm_compute. split; reflexivity. Qed.

(** Observed costs may take a cycle above the 50 of its contract: then every
    run fails on it, and never comes to another opportunity. *)
Definition expensive (s : AcquisitionRuntimeStage) : decimal :=
  match s with SUPPLIER_DISCOVERY => dec_of_Z 30 | CONTACT_DISCOVERY => dec_of_Z 40 | _ => dec_zero end.
Example overspent_cycle_is_stuck :
  let first := once (succeeds expensive) 0 empty_runtime_db in
  let second := once (succeeds expensive) 300 (rt_db first.2) in
  outcome first = (Some (RunFAILED, Some "OBSERVED_CYCLE_COST_EXCEEDED"), Some (CycleFAILED, 70000000))
  /\ outcome second = (Some (RunFAILED, Some "CURRENT_RUN_TECHNICAL_FAILURE"), Some (CycleFAILED, 70000000))
  /\ rt_calls second.2 = [].
Proof. vm_compute. split_and!; reflexivity. Qed.

(** A cost above what remains, observed with a result that asks for a retry,
    is not recorded: the failed result keeps the time of the retry, which the
    table refuses. *)
Definition waits (s : AcquisitionRuntimeStage) (_ : AcquisitionActionContext) : action_run :=
  match s with
  | SUPPLIER_DISCOVERY => Returns (Ok (mkActionResult SUCCEEDED [] dec_zero (dec_of_Z 30) [] None false))
  | CONTACT_DISCOVERY =>
      Returns (Ok (mkActionResult WAITING [] dec_zero (dec_of_Z 40) ["RETRY_LATER"] (Some (at_second 600))
                     false))
  | _ => Returns (Ok (mkActionResult SUCCEEDED [] dec_zero dec_zero [] None false))
  end.
Example overrun_with_retry_is_lost :
  outcome (once waits 0 empty_runtime_db)
  = (Some (RunFAILED, Some "CURRENT_RUN_TECHNICAL_FAILURE"), Some (CycleFAILED, 36000000)).
Proof. vm_compute. reflexivity. Qed.
End witnesses.
