(* ===== verification/ComplianceContracts.v ===== *)
(** ComplianceContracts: the contracts of [compliance/contracts.py] - the
    closed vocabularies, the configurations with their derived fingerprints,
    the input and the proposal of an assessment and the row it is written as,
    each with the validation that building it runs. *)

From S2P Require Import Prelude PyStr PyDatetime PyJson PolicyContracts.
From Stdlib Require Import Ascii String.

Local Open Scope string_scope.
Local Open Scope Z_scope.
Local Open Scope list_scope.

(** * Fields *)

(** [compliance/contracts.py:29-29 INPUT_VERSION] *)
Definition INPUT_VERSION : string := "acquisition-compliance-input-v1".
(** [compliance/contracts.py:30-30 RULESET_VERSION] *)
Definition RULESET_VERSION : string := "acquisition-compliance-ruleset-v1".
(** [compliance/contracts.py:31-31 JURISDICTION_VERSION] *)
Definition JURISDICTION_VERSION : string := "compliance-jurisdiction-v1".
(** [compliance/contracts.py:32-32 SENDER_CONFIG_VERSION] *)
Definition SENDER_CONFIG_VERSION : string := "sender-compliance-v1".
(** [compliance/contracts.py:33-35 RULESET_LEGAL_REVIEW_REF] *)
Definition RULESET_LEGAL_REVIEW_REF : string :=
  "legal-review:spec025-r1:ff6a070c3d7a8ad95c002fc0ffc97b3b4f93c594".
(** [compliance/contracts.py:38-38 RULESET_EFFECTIVE_FROM] *)
Definition RULESET_EFFECTIVE_FROM : datetime := mkdt 2026 8 21 0 0 0 0 (Some 0).

(** [compliance/contracts.py:40-40 StableRef] *)
Definition CStableRef (field s : string) : result string := constr field 1 256 s.
(** [compliance/contracts.py:41-41 ShortCode] *)
Definition CShortCode (field s : string) : result string := constr field 1 100 s.
(** [compliance/contracts.py:42-42 Fingerprint] *)
Definition CFingerprint (field s : string) : result string := matching field is_fingerprint s.

(** [compliance/contracts.py:49-52 _aware] *)
Definition _aware (value : option datetime) : bool :=
  match value with Some v => aware v | None => true end.

(** A tuple of [lo] to [hi] items. *)
Definition tuple_of (field : string) (lo hi : Z) (f : string -> string -> result string)
    (l : list string) : result (list string) :=
  require! (lo <=? zlength l) && (zlength l <=? hi) else ValidationError field in
  mapM_result (f field) l.

(** A [Literal] field: one of the strings, as it is. *)
Definition literal (field : string) (l : list string) (s : string) : result string :=
  checked field (fun s => in_list s l) s.

(** * Enumerations *)

(** [compliance/contracts.py:55-60 ComplianceJurisdiction] *)
Inductive ComplianceJurisdiction : Type :=
| CH | FR | EU_MEMBER_STATE_UNCONFIGURED | OUT_OF_SCOPE | UNRESOLVED.

#[export] Instance ComplianceJurisdiction_eq_dec : EqDecision ComplianceJurisdiction.
Proof. solve_decision. Defined.

(** [compliance/contracts.py:55-60 ComplianceJurisdiction] *)
Definition jurisdiction_value (j : ComplianceJurisdiction) : string :=
  match j with
  | CH => "CH" | FR => "FR" | EU_MEMBER_STATE_UNCONFIGURED => "EU_MEMBER_STATE_UNCONFIGURED"
  | OUT_OF_SCOPE => "OUT_OF_SCOPE" | UNRESOLVED => "UNRESOLVED"
  end.

(** [compliance/contracts.py:63-66 SuppressionMatchState] *)
Inductive SuppressionMatchState : Type := CLEAR | MATCHED | COVERAGE_UNSAFE.

#[export] Instance SuppressionMatchState_eq_dec : EqDecision SuppressionMatchState.
Proof. solve_decision. Defined.

(** [compliance/contracts.py:63-66 SuppressionMatchState] *)
Definition match_state_value (s : SuppressionMatchState) : string :=
  match s with CLEAR => "CLEAR" | MATCHED => "MATCHED" | COVERAGE_UNSAFE => "COVERAGE_UNSAFE" end.

(** [compliance/contracts.py:69-71 BusinessContextState] *)
Inductive BusinessContextState : Type :=
| PROFESSIONAL_CONTEXT_VERIFIED | BUSINESS_CONTEXT_INSUFFICIENT.

#[export] Instance BusinessContextState_eq_dec : EqDecision BusinessContextState.
Proof. solve_decision. Defined.

(** [compliance/contracts.py:69-71 BusinessContextState] *)
Definition business_context_value (s : BusinessContextState) : string :=
  match s with
  | PROFESSIONAL_CONTEXT_VERIFIED => "PROFESSIONAL_CONTEXT_VERIFIED"
  | BUSINESS_CONTEXT_INSUFFICIENT => "BUSINESS_CONTEXT_INSUFFICIENT"
  end.

(** [compliance/contracts.py:74-76 EmailProvenance] *)
Inductive EmailProvenance : Type := PROVIDER_VERIFIED_BUSINESS_CONTACT | ProvenanceUNKNOWN.

#[export] Instance EmailProvenance_eq_dec : EqDecision EmailProvenance.
Proof. solve_decision. Defined.

(** [compliance/contracts.py:74-76 EmailProvenance] *)
Definition provenance_value (s : EmailProvenance) : string :=
  match s with
  | PROVIDER_VERIFIED_BUSINESS_CONTACT => "PROVIDER_VERIFIED_BUSINESS_CONTACT"
  | ProvenanceUNKNOWN => "UNKNOWN"
  end.

(** [compliance/contracts.py:79-82 CHLegalBasis] *)
Inductive CHLegalBasis : Type :=
| CONSENT_PROVEN | EXISTING_CUSTOMER_SIMILAR_PROVEN | UNPROVEN.

#[export] Instance CHLegalBasis_eq_dec : EqDecision CHLegalBasis.
Proof. solve_decision. Defined.

(** [compliance/contracts.py:79-82 CHLegalBasis] *)
Definition legal_basis_value (b : CHLegalBasis) : string :=
  match b with
  | CONSENT_PROVEN => "CONSENT_PROVEN"
  | EXISTING_CUSTOMER_SIMILAR_PROVEN => "EXISTING_CUSTOMER_SIMILAR_PROVEN"
  | UNPROVEN => "UNPROVEN"
  end.

(** [compliance/contracts.py:85-87 ComplianceDisposition] *)
Inductive ComplianceDisposition : Type := RECORDED | POLICY_BLOCKED.

#[export] Instance ComplianceDisposition_eq_dec : EqDecision ComplianceDisposition.
Proof. solve_decision. Defined.

(** [compliance/contracts.py:85-87 ComplianceDisposition] *)
Definition disposition_value (d : ComplianceDisposition) : string :=
  match d with RECORDED => "RECORDED" | POLICY_BLOCKED => "POLICY_BLOCKED" end.

(** [compliance/contracts.py:90-94 SuppressionSource] *)
Inductive SuppressionSource : Type :=
| UNSUBSCRIBE | RECIPIENT_OBJECTION | MANUAL_VERIFIED | SYSTEM_IMPORT.

#[export] Instance SuppressionSource_eq_dec : EqDecision SuppressionSource.
Proof. solve_decision. Defined.

(** [compliance/contracts.py:90-94 SuppressionSource] *)
Definition source_value (s : SuppressionSource) : string :=
  match s with
  | UNSUBSCRIBE => "UNSUBSCRIBE" | RECIPIENT_OBJECTION => "RECIPIENT_OBJECTION"
  | MANUAL_VERIFIED => "MANUAL_VERIFIED" | SYSTEM_IMPORT => "SYSTEM_IMPORT"
  end.

(** [compliance/contracts.py:97-102 SuppressionReasonCode] *)
Inductive SuppressionReasonCode : Type :=
| UNSUBSCRIBED | RECIPIENT_OBJECTED | MANUAL_DO_NOT_CONTACT | IMPORTED_SUPPRESSION
| IDENTITY_REKEY_PROOF.

#[export] Instance SuppressionReasonCode_eq_dec : EqDecision SuppressionReasonCode.
Proof. solve_decision. Defined.

(** [compliance/contracts.py:97-102 SuppressionReasonCode] *)
Definition suppression_reason_value (r : SuppressionReasonCode) : string :=
  match r with
  | UNSUBSCRIBED => "UNSUBSCRIBED" | RECIPIENT_OBJECTED => "RECIPIENT_OBJECTED"
  | MANUAL_DO_NOT_CONTACT => "MANUAL_DO_NOT_CONTACT"
  | IMPORTED_SUPPRESSION => "IMPORTED_SUPPRESSION"
  | IDENTITY_REKEY_PROOF => "IDENTITY_REKEY_PROOF"
  end.

(** * What an assessment reads *)

(** [compliance/contracts.py:105-108 SuppressionMatch] *)
Record SuppressionMatch : Type := mkMatch {
  sm_state : SuppressionMatchState;
  sm_key_versions_considered : list string;
  sm_suppression_refs : list string;
}.

(** [compliance/contracts.py:105-108 SuppressionMatch] *)
Definition match_validate (m : SuppressionMatch) : result SuppressionMatch :=
  let! versions := tuple_of "key_versions_considered" 1 8 CShortCode
                     (sm_key_versions_considered m) in
  let! refs := tuple_of "suppression_refs" 0 16 CStableRef (sm_suppression_refs m) in
  Ok (mkMatch (sm_state m) versions refs).

(** [compliance/contracts.py:111-116 JurisdictionResolution] *)
Record JurisdictionResolution : Type := mkResolution {
  jr_jurisdiction : ComplianceJurisdiction;
  jr_country_code : option string;
  jr_resolvable : bool;
  jr_evidence_refs : list string;
}.

(** [compliance/contracts.py:111-116 JurisdictionResolution] *)
Definition resolution_validate (r : JurisdictionResolution) : result JurisdictionResolution :=
  let! country := opt_mapM (matching "country_code" is_country) (jr_country_code r) in
  let! refs := tuple_of "evidence_refs" 1 8 CStableRef (jr_evidence_refs r) in
  Ok (mkResolution (jr_jurisdiction r) country (jr_resolvable r) refs).

(** [compliance/contracts.py:119-129 SenderComplianceConfig]; the
    fingerprint is the one derived when it is built. *)
Record SenderComplianceConfig : Type := mkSender {
  sd_config_version : string;
  sd_sender_profile_ref : string;
  sd_sender_identity_ready : bool;
  sd_opt_out_ready : bool;
  sd_privacy_notice_ready : bool;
  sd_source_notice_ready : bool;
  sd_valid_until : option datetime;
  sd_config_fingerprint : option string;
}.

(** [compliance/contracts.py:141-151 ComplianceRulesetConfig] *)
Record ComplianceRulesetConfig : Type := mkRuleset {
  rs_ruleset_version : string;
  rs_legal_review_ref : string;
  rs_effective_from : datetime;
  rs_valid_until : option datetime;
  rs_allowed_ttl_hours : Z;
  rs_configured_country_rulesets : list string;
  rs_reason_code_version : string;
  rs_config_fingerprint : option string;
}.

Section configurations.
Context `{Hash : HashLib}.

Definition sender_fields (s : SenderComplianceConfig) : PyJson.dict :=
  [("config_version", JStr (sd_config_version s));
   ("sender_profile_ref", JStr (sd_sender_profile_ref s));
   ("sender_identity_ready", JBool (sd_sender_identity_ready s));
   ("opt_out_ready", JBool (sd_opt_out_ready s));
   ("privacy_notice_ready", JBool (sd_privacy_notice_ready s));
   ("source_notice_ready", JBool (sd_source_notice_ready s));
   ("valid_until", opt_json (fun d => JStr (json_datetime d)) (sd_valid_until s))].

(** [compliance/contracts.py:119-138 SenderComplianceConfig] *)
Definition sender_validate (s : SenderComplianceConfig) : result SenderComplianceConfig :=
  let! version := CShortCode "config_version" (sd_config_version s) in
  let! profile := CStableRef "sender_profile_ref" (sd_sender_profile_ref s) in
  let! valid := checked "valid_until" _aware (sd_valid_until s) in
  let! fingerprint := opt_mapM (CFingerprint "config_fingerprint") (sd_config_fingerprint s) in
  let built := mkSender version profile (sd_sender_identity_ready s) (sd_opt_out_ready s)
                 (sd_privacy_notice_ready s) (sd_source_notice_ready s) valid None in
  let expected :=
    finite_sha256 (JObj (("kind", JStr "sender-compliance-config-v1") :: sender_fields built)) in
  require! bool_decide (fingerprint = None) || bool_decide (fingerprint = Some expected)
  else ValidationError "sender config fingerprint mismatch" in
  Ok (mkSender version profile (sd_sender_identity_ready s) (sd_opt_out_ready s)
        (sd_privacy_notice_ready s) (sd_source_notice_ready s) valid (Some expected)).

Definition ruleset_fields (c : ComplianceRulesetConfig) : PyJson.dict :=
  [("ruleset_version", JStr (rs_ruleset_version c));
   ("legal_review_ref", JStr (rs_legal_review_ref c));
   ("effective_from", JStr (json_datetime (rs_effective_from c)));
   ("valid_until", opt_json (fun d => JStr (json_datetime d)) (rs_valid_until c));
   ("allowed_ttl_hours", JInt (rs_allowed_ttl_hours c));
   ("configured_country_rulesets", JStrs (rs_configured_country_rulesets c));
   ("reason_code_version", JStr (rs_reason_code_version c))].

(** [compliance/contracts.py:141-164 ComplianceRulesetConfig] *)
Definition ruleset_validate (c : ComplianceRulesetConfig) : result ComplianceRulesetConfig :=
  let! version := literal "ruleset_version" [RULESET_VERSION] (rs_ruleset_version c) in
  let! review := CStableRef "legal_review_ref" (rs_legal_review_ref c) in
  let! effective := checked "effective_from" aware (rs_effective_from c) in
  let! valid := checked "valid_until" _aware (rs_valid_until c) in
  let! ttl := checked "allowed_ttl_hours" (Z.eqb 24) (rs_allowed_ttl_hours c) in
  let! configured := mapM_result (literal "configured_country_rulesets" ["CH"; "FR"])
                       (rs_configured_country_rulesets c) in
  let! reasons := literal "reason_code_version" ["compliance-reasons-v1"]
                    (rs_reason_code_version c) in
  let! fingerprint := opt_mapM (CFingerprint "config_fingerprint") (rs_config_fingerprint c) in
  require! negb (match valid with Some v => dt_leb v effective | None => false end)
  else ValidationError "ruleset valid_until must be after effective_from" in
  let configured := sorted_set configured in
  let built := mkRuleset version review effective valid ttl configured reasons None in
  let expected :=
    finite_sha256 (JObj (("kind", JStr "compliance-ruleset-config-v1") :: ruleset_fields built)) in
  require! bool_decide (fingerprint = None) || bool_decide (fingerprint = Some expected)
  else ValidationError "ruleset config fingerprint mismatch" in
  Ok (mkRuleset version review effective valid ttl configured reasons (Some expected)).
End configurations.

(** * The input and the proposal *)

(** [compliance/contracts.py:167-209 ComplianceInput] *)
Record ComplianceInput : Type := mkInput {
  ci_acquisition_opportunity_id : string;
  ci_supplier_ref : string;
  ci_contact_ref : string;
  ci_personalization_artifact_id : string;
  ci_personalization_artifact_fingerprint : string;
  ci_personalization_input_fingerprint : string;
  ci_personalization_proposal_fingerprint : string;
  ci_personalization_policy_action_fingerprint : string;
  ci_language : string;
  ci_supplier_identity_status : string;
  ci_contact_verification_state : string;
  ci_contact_verification_provider : string;
  ci_contact_provider_email_status : string;
  ci_contact_source_fingerprint : string;
  ci_contact_role_profile_version : string;
  ci_contact_role_tier : Z;
  ci_jurisdiction : JurisdictionResolution;
  ci_business_context_state : BusinessContextState;
  ci_email_provenance : EmailProvenance;
  ci_sender_config : SenderComplianceConfig;
  ci_acquisition_purpose : string;
  ci_ch_legal_basis : CHLegalBasis;
  ci_suppression_match_state : SuppressionMatchState;
  ci_suppression_key_versions_considered : list string;
  ci_evidence_refs : list string;
  ci_ruleset_version : string;
  ci_ruleset_config_fingerprint : string;
  ci_ruleset_legal_review_ref : string;
  ci_ruleset_effective_from : datetime;
  ci_ruleset_valid_until : option datetime;
  ci_assessed_at : datetime;
  ci_as_of_date : date;
  ci_input_version : string;
  ci_compliance_input_fingerprint : string;
}.

(** [compliance/contracts.py:167-209 ComplianceInput] *)
Definition input_validate (v : ComplianceInput) : result ComplianceInput :=
  let! opportunity := CStableRef "acquisition_opportunity_id" (ci_acquisition_opportunity_id v) in
  let! supplier := CStableRef "supplier_ref" (ci_supplier_ref v) in
  let! contact := CStableRef "contact_ref" (ci_contact_ref v) in
  let! artifact := CStableRef "personalization_artifact_id" (ci_personalization_artifact_id v) in
  let! artifact_fp := CFingerprint "personalization_artifact_fingerprint"
                        (ci_personalization_artifact_fingerprint v) in
  let! input_fp := CFingerprint "personalization_input_fingerprint"
                     (ci_personalization_input_fingerprint v) in
  let! proposal_fp := CFingerprint "personalization_proposal_fingerprint"
                        (ci_personalization_proposal_fingerprint v) in
  let! action_fp := CFingerprint "personalization_policy_action_fingerprint"
                      (ci_personalization_policy_action_fingerprint v) in
  let! language := literal "language" ["fr"; "en"] (ci_language v) in
  let! identity := literal "supplier_identity_status"
    ["PROVIDER_IDENTIFIED"; "SIRENE_IDENTIFIED"; "DOMAIN_CONFLICT"]
    (ci_supplier_identity_status v) in
  let! state := literal "contact_verification_state" ["PROVIDER_VERIFIED"]
                  (ci_contact_verification_state v) in
  let! provider := literal "contact_verification_provider" ["apollo"]
                     (ci_contact_verification_provider v) in
  let! status := literal "contact_provider_email_status" ["verified"]
                   (ci_contact_provider_email_status v) in
  let! source_fp := CFingerprint "contact_source_fingerprint" (ci_contact_source_fingerprint v) in
  let! profile := CShortCode "contact_role_profile_version" (ci_contact_role_profile_version v) in
  let! tier := checked "contact_role_tier" (fun n => (1 <=? n) && (n <=? 4))
                 (ci_contact_role_tier v) in
  let! purpose := literal "acquisition_purpose"
    ["KIVOU_ACQUISITION_SIGNAL_RELEVANCE"; "MILOMAIL_GMAIL_AUDIT_B2B"]
    (ci_acquisition_purpose v) in
  let! versions := tuple_of "suppression_key_versions_considered" 1 8 CShortCode
                     (ci_suppression_key_versions_considered v) in
  let! refs := tuple_of "evidence_refs" 1 16 CStableRef (ci_evidence_refs v) in
  let! ruleset := literal "ruleset_version" [RULESET_VERSION] (ci_ruleset_version v) in
  let! ruleset_fp := CFingerprint "ruleset_config_fingerprint" (ci_ruleset_config_fingerprint v) in
  let! review := CStableRef "ruleset_legal_review_ref" (ci_ruleset_legal_review_ref v) in
  let! effective := checked "ruleset_effective_from" aware (ci_ruleset_effective_from v) in
  let! until := checked "ruleset_valid_until" _aware (ci_ruleset_valid_until v) in
  let! assessed := checked "assessed_at" aware (ci_assessed_at v) in
  let! version := literal "input_version" [INPUT_VERSION] (ci_input_version v) in
  let! fingerprint := CFingerprint "compliance_input_fingerprint"
                        (ci_compliance_input_fingerprint v) in
  Ok (mkInput opportunity supplier contact artifact artifact_fp input_fp proposal_fp action_fp
        language identity state provider status source_fp profile tier (ci_jurisdiction v)
        (ci_business_context_state v) (ci_email_provenance v) (ci_sender_config v) purpose
        (ci_ch_legal_basis v) (ci_suppression_match_state v) versions refs ruleset ruleset_fp
        review effective until assessed (ci_as_of_date v) version fingerprint).

(** [resolution.model_dump(mode="json")] *)
Definition resolution_json (r : JurisdictionResolution) : json :=
  JObj [("jurisdiction", JStr (jurisdiction_value (jr_jurisdiction r)));
        ("country_code", JOptStr (jr_country_code r)); ("resolvable", JBool (jr_resolvable r));
        ("evidence_refs", JStrs (jr_evidence_refs r));
        ("resolver_version", JStr JURISDICTION_VERSION)].

(** [config.model_dump(mode="json")] *)
Definition sender_json (s : SenderComplianceConfig) : json :=
  JObj (sender_fields s ++ [("config_fingerprint", JOptStr (sd_config_fingerprint s))]).

(** The fields of an input in the order of the class, the datetimes written
    by [enc]. *)
Definition input_fields (enc : datetime -> string) (v : ComplianceInput) : PyJson.dict :=
  [("acquisition_opportunity_id", JStr (ci_acquisition_opportunity_id v));
   ("supplier_ref", JStr (ci_supplier_ref v)); ("contact_ref", JStr (ci_contact_ref v));
   ("personalization_artifact_id", JStr (ci_personalization_artifact_id v));
   ("personalization_artifact_fingerprint", JStr (ci_personalization_artifact_fingerprint v));
   ("personalization_input_fingerprint", JStr (ci_personalization_input_fingerprint v));
   ("personalization_proposal_fingerprint", JStr (ci_personalization_proposal_fingerprint v));
   ("personalization_policy_action_fingerprint",
      JStr (ci_personalization_policy_action_fingerprint v));
   ("language", JStr (ci_language v));
   ("supplier_identity_status", JStr (ci_supplier_identity_status v));
   ("contact_verification_state", JStr (ci_contact_verification_state v));
   ("contact_verification_provider", JStr (ci_contact_verification_provider v));
   ("contact_provider_email_status", JStr (ci_contact_provider_email_status v));
   ("contact_source_fingerprint", JStr (ci_contact_source_fingerprint v));
   ("contact_role_profile_version", JStr (ci_contact_role_profile_version v));
   ("contact_role_tier", JInt (ci_contact_role_tier v));
   ("jurisdiction", resolution_json (ci_jurisdiction v));
   ("business_context_state", JStr (business_context_value (ci_business_context_state v)));
   ("email_provenance", JStr (provenance_value (ci_email_provenance v)));
   ("sender_config", sender_json (ci_sender_config v));
   ("acquisition_purpose", JStr (ci_acquisition_purpose v));
   ("ch_legal_basis", JStr (legal_basis_value (ci_ch_legal_basis v)));
   ("suppression_match_state", JStr (match_state_value (ci_suppression_match_state v)));
   ("suppression_key_versions_considered", JStrs (ci_suppression_key_versions_considered v));
   ("evidence_refs", JStrs (ci_evidence_refs v));
   ("ruleset_config_fingerprint", JStr (ci_ruleset_config_fingerprint v));
   ("ruleset_legal_review_ref", JStr (ci_ruleset_legal_review_ref v));
   ("ruleset_effective_from", JStr (enc (ci_ruleset_effective_from v)));
   ("ruleset_valid_until", opt_json (fun d => JStr (enc d)) (ci_ruleset_valid_until v));
   ("assessed_at", JStr (enc (ci_assessed_at v)));
   ("as_of_date", JStr (date_isoformat (ci_as_of_date v)))].

(** [compliance_input.model_dump(mode="json")] *)
Definition input_snapshot_json (v : ComplianceInput) : json :=
  JObj (input_fields json_datetime v
        ++ [("ruleset_version", JStr (ci_ruleset_version v));
            ("input_version", JStr (ci_input_version v));
            ("compliance_input_fingerprint", JStr (ci_compliance_input_fingerprint v))]).

(** [compliance/contracts.py:212-223 ComplianceProposal] *)
Record ComplianceProposal : Type := mkProposal {
  cp_state : ComplianceState;
  cp_reason_codes : list string;
  cp_evidence_refs : list string;
  cp_next_action : option string;
  cp_valid_until : option datetime;
  cp_input_fingerprint : string;
  cp_ruleset_config_fingerprint : string;
  cp_proposal_fingerprint : string;
}.

(** [compliance/contracts.py:212-223 ComplianceProposal] *)
Definition proposal_validate (p : ComplianceProposal) : result ComplianceProposal :=
  let! reasons := tuple_of "reason_codes" 1 8 CShortCode (cp_reason_codes p) in
  let! refs := tuple_of "evidence_refs" 1 16 CStableRef (cp_evidence_refs p) in
  let! action := opt_mapM (literal "next_action" ["schedule_campaign"; "request_human_review"])
                   (cp_next_action p) in
  let! until := checked "valid_until" _aware (cp_valid_until p) in
  let! input := CFingerprint "input_fingerprint" (cp_input_fingerprint p) in
  let! ruleset := CFingerprint "ruleset_config_fingerprint" (cp_ruleset_config_fingerprint p) in
  let! fingerprint := CFingerprint "proposal_fingerprint" (cp_proposal_fingerprint p) in
  Ok (mkProposal (cp_state p) reasons refs action until input ruleset fingerprint).

(** * The authorization and the row of an assessment *)

(** [compliance/contracts.py:226-247 ComplianceAuthorizationInput] *)
Record ComplianceAuthorizationInput : Type := mkAuthorization {
  au_evaluation_id : string;
  au_request_id : string;
  au_actor_type : string;
  au_actor_ref : option string;
  au_qa_signal_ref : option string;
  au_scope : Scope;
  au_currency : string;
  au_evidence : EvidenceReadiness;
  au_operational : OperationalReadiness;
  au_expected_policy_version : string;
  au_approval_grants : list ApprovalGrant;
  au_supervisor_plan_id : option string;
  au_supervisor_action_index : option Z;
  au_supervisor_version : option string;
  au_skill_version : option string;
}.

(** [compliance/contracts.py:250-278 ComplianceAssessmentWrite] *)
Record ComplianceAssessmentWrite : Type := mkWrite {
  aw_compliance_assessment_id : string;
  aw_acquisition_opportunity_id : string;
  aw_personalization_artifact_id : string;
  aw_supplier_ref : string;
  aw_contact_ref : string;
  aw_policy_evaluation_id : string;
  aw_jurisdiction : ComplianceJurisdiction;
  aw_ruleset_config_fingerprint : string;
  aw_input_fingerprint : string;
  aw_proposal_fingerprint : string;
  aw_policy_action_fingerprint : string;
  aw_state : ComplianceState;
  aw_reason_codes : list string;
  aw_evidence_refs : list string;
  aw_input_snapshot : json;
  aw_valid_until : option datetime;
  aw_policy_status : string;
  aw_policy_counterfactual_status : option string;
  aw_expected_post_policy_version : Z;
  aw_disposition : ComplianceDisposition;
  aw_next_action : option string;
  aw_recorded_event_id : option string;
  aw_created_at : datetime;
}.

#[export] Instance ComplianceAssessmentWrite_eq_dec : EqDecision ComplianceAssessmentWrite.
Proof. solve_decision. Defined.

(** [compliance/contracts.py:280-298 coherent_result] *)
Definition coherent_result (w : ComplianceAssessmentWrite) : bool :=
  match aw_state w with
  | ComplianceALLOWED => bool_decide (aw_next_action w = Some "schedule_campaign")
  | ComplianceREVIEW_REQUIRED => bool_decide (aw_next_action w = Some "request_human_review")
  | ComplianceBLOCKED => bool_decide (aw_next_action w = None)
  | ComplianceUNKNOWN => true
  end
  && Bool.eqb (bool_decide (aw_state w = ComplianceALLOWED)) (truthy (aw_valid_until w))
  && Bool.eqb (bool_decide (aw_disposition w = RECORDED)) (truthy (aw_recorded_event_id w)).

(** [compliance/contracts.py:250-298 ComplianceAssessmentWrite] *)
Definition write_validate (w : ComplianceAssessmentWrite) : result ComplianceAssessmentWrite :=
  let! id := CStableRef "compliance_assessment_id" (aw_compliance_assessment_id w) in
  let! opportunity := CStableRef "acquisition_opportunity_id" (aw_acquisition_opportunity_id w) in
  let! artifact := CStableRef "personalization_artifact_id" (aw_personalization_artifact_id w) in
  let! supplier := CStableRef "supplier_ref" (aw_supplier_ref w) in
  let! contact := CStableRef "contact_ref" (aw_contact_ref w) in
  let! evaluation := CStableRef "policy_evaluation_id" (aw_policy_evaluation_id w) in
  let! ruleset := CFingerprint "ruleset_config_fingerprint" (aw_ruleset_config_fingerprint w) in
  let! input := CFingerprint "input_fingerprint" (aw_input_fingerprint w) in
  let! proposal := CFingerprint "proposal_fingerprint" (aw_proposal_fingerprint w) in
  let! action := CFingerprint "policy_action_fingerprint" (aw_policy_action_fingerprint w) in
  let! reasons := tuple_of "reason_codes" 1 8 CShortCode (aw_reason_codes w) in
  let! refs := tuple_of "evidence_refs" 1 16 CStableRef (aw_evidence_refs w) in
  let! until := checked "valid_until" _aware (aw_valid_until w) in
  let! status := CShortCode "policy_status" (aw_policy_status w) in
  let! counterfactual := opt_mapM (CShortCode "policy_counterfactual_status")
                           (aw_policy_counterfactual_status w) in
  let! version := checked "expected_post_policy_version" (Z.leb 2)
                    (aw_expected_post_policy_version w) in
  let! next := opt_mapM (literal "next_action" ["schedule_campaign"; "request_human_review"])
                 (aw_next_action w) in
  let! event := opt_mapM (CStableRef "recorded_event_id") (aw_recorded_event_id w) in
  let! created := checked "created_at" aware (aw_created_at w) in
  let built := mkWrite id opportunity artifact supplier contact evaluation (aw_jurisdiction w)
    ruleset input proposal action (aw_state w) reasons refs (aw_input_snapshot w) until status
    counterfactual version (aw_disposition w) next event created in
  require! coherent_result built else ValidationError "ComplianceAssessmentWrite" in
  Ok built.
