(* ===== verification/ComplianceRules.v ===== *)
(** ComplianceRules: the jurisdiction a prospect belongs to
    ([compliance/jurisdiction.py]) and the ordered matrix of rules that
    decides an assessment ([compliance/rules.py]), both pure. *)

From S2P Require Import Prelude PyStr PyText PyDatetime PyJson PolicyContracts.
From S2P Require Import ComplianceContracts.
From Stdlib Require Import Ascii String.

Local Open Scope string_scope.
Local Open Scope Z_scope.
Local Open Scope list_scope.

(** * Countries *)

(** [compliance/jurisdiction.py:11-41 EU_MEMBER_CODES] *)
Definition EU_MEMBER_CODES : list string :=
  ["AT"; "BE"; "BG"; "HR"; "CY"; "CZ"; "DK"; "EE"; "FI"; "FR"; "DE"; "GR"; "HU"; "IE"; "IT";
   "LV"; "LT"; "LU"; "MT"; "NL"; "PL"; "PT"; "RO"; "SK"; "SI"; "ES"; "SE"].

(** [compliance/jurisdiction.py:45-297 ISO_ALPHA2_CODES] *)
Definition ISO_ALPHA2_CODES : list string :=
  ["AD"; "AE"; "AF"; "AG"; "AI"; "AL"; "AM"; "AO"; "AQ"; "AR"; "AS"; "AT"; "AU"; "AW"; "AX";
   "AZ"; "BA"; "BB"; "BD"; "BE"; "BF"; "BG"; "BH"; "BI"; "BJ"; "BL"; "BM"; "BN"; "BO"; "BQ";
   "BR"; "BS"; "BT"; "BV"; "BW"; "BY"; "BZ"; "CA"; "CC"; "CD"; "CF"; "CG"; "CH"; "CI"; "CK";
   "CL"; "CM"; "CN"; "CO"; "CR"; "CU"; "CV"; "CW"; "CX"; "CY"; "CZ"; "DE"; "DJ"; "DK"; "DM";
   "DO"; "DZ"; "EC"; "EE"; "EG"; "EH"; "ER"; "ES"; "ET"; "FI"; "FJ"; "FK"; "FM"; "FO"; "FR";
   "GA"; "GB"; "GD"; "GE"; "GF"; "GG"; "GH"; "GI"; "GL"; "GM"; "GN"; "GP"; "GQ"; "GR"; "GS";
   "GT"; "GU"; "GW"; "GY"; "HK"; "HM"; "HN"; "HR"; "HT"; "HU"; "ID"; "IE"; "IL"; "IM"; "IN";
   "IO"; "IQ"; "IR"; "IS"; "IT"; "JE"; "JM"; "JO"; "JP"; "KE"; "KG"; "KH"; "KI"; "KM"; "KN";
   "KP"; "KR"; "KW"; "KY"; "KZ"; "LA"; "LB"; "LC"; "LI"; "LK"; "LR"; "LS"; "LT"; "LU"; "LV";
   "LY"; "MA"; "MC"; "MD"; "ME"; "MF"; "MG"; "MH"; "MK"; "ML"; "MM"; "MN"; "MO"; "MP"; "MQ";
   "MR"; "MS"; "MT"; "MU"; "MV"; "MW"; "MX"; "MY"; "MZ"; "NA"; "NC"; "NE"; "NF"; "NG"; "NI";
   "NL"; "NO"; "NP"; "NR"; "NU"; "NZ"; "OM"; "PA"; "PE"; "PF"; "PG"; "PH"; "PK"; "PL"; "PM";
   "PN"; "PR"; "PS"; "PT"; "PW"; "PY"; "QA"; "RE"; "RO"; "RS"; "RU"; "RW"; "SA"; "SB"; "SC";
   "SD"; "SE"; "SG"; "SH"; "SI"; "SJ"; "SK"; "SL"; "SM"; "SN"; "SO"; "SR"; "SS"; "ST"; "SV";
   "SX"; "SY"; "SZ"; "TC"; "TD"; "TF"; "TG"; "TH"; "TJ"; "TK"; "TL"; "TM"; "TN"; "TO"; "TR";
   "TT"; "TV"; "TW"; "TZ"; "UA"; "UG"; "UM"; "US"; "UY"; "UZ"; "VA"; "VC"; "VE"; "VG"; "VI";
   "VN"; "VU"; "WF"; "WS"; "YE"; "YT"; "ZA"; "ZM"; "ZW"].

(** [compliance/jurisdiction.py:299-333 _PROVIDER_COUNTRY_ALIASES] *)
Definition _PROVIDER_COUNTRY_ALIASES : list (string * string) :=
  [("austria", "AT"); ("belgium", "BE"); ("bulgaria", "BG"); ("croatia", "HR");
   ("cyprus", "CY"); ("czech republic", "CZ"); ("czechia", "CZ"); ("denmark", "DK");
   ("estonia", "EE"); ("finland", "FI"); ("france", "FR"); ("germany", "DE"); ("greece", "GR");
   ("hungary", "HU"); ("ireland", "IE"); ("italy", "IT"); ("latvia", "LV");
   ("lithuania", "LT"); ("luxembourg", "LU"); ("malta", "MT"); ("netherlands", "NL");
   ("poland", "PL"); ("portugal", "PT"); ("romania", "RO"); ("slovakia", "SK");
   ("slovenia", "SI"); ("spain", "ES"); ("sweden", "SE"); ("switzerland", "CH");
   ("united states", "US"); ("united states of america", "US"); ("united kingdom", "GB");
   ("uk", "GB")].

Definition iso_code (candidate : string) : option string :=
  if in_list candidate ISO_ALPHA2_CODES then Some candidate else None.

Section country.
Context `{Case : CaseData}.

(** [compliance/jurisdiction.py:336-344 normalize_provider_country] *)
Definition normalize_provider_country (value : option string) : option string :=
  match value with
  | None => None
  | Some value =>
      let normalized := join " " (usplit (casefold value)) in
      match first_match (fun p => bool_decide (p.1 = normalized)) _PROVIDER_COUNTRY_ALIASES with
      | Some (_, alias) => Some alias
      | None => iso_code (upper normalized)
      end
  end.

(** [compliance/jurisdiction.py:347-351 _normalize_supplier_country] *)
Definition _normalize_supplier_country (value : option string) : option string :=
  match value with
  | None => None
  | Some value => iso_code (upper (ustrip value))
  end.

(** [compliance/jurisdiction.py:381-388 resolve_jurisdiction]: what a known
    country is routed to. *)
Definition route (country : string) : ComplianceJurisdiction :=
  if bool_decide (country = "CH") then CH
  else if bool_decide (country = "FR") then FR
  else if in_list country EU_MEMBER_CODES then EU_MEMBER_STATE_UNCONFIGURED
  else OUT_OF_SCOPE.

(** [compliance/jurisdiction.py:354-394 resolve_jurisdiction] *)
Definition resolve_jurisdiction (supplier_country_code provider_country : option string)
    (supplier_ref profile_ref : string) : result JurisdictionResolution :=
  let supplier := _normalize_supplier_country supplier_country_code in
  let provider := normalize_provider_country provider_country in
  let refs :=
    (if truthy supplier then ["acquisition-supplier:" +:+ supplier_ref +:+ ":country"] else [])
    ++ (if truthy provider then [profile_ref +:+ ":provider-country"] else []) in
  if truthy supplier && truthy provider && negb (bool_decide (supplier = provider)) then
    resolution_validate (mkResolution UNRESOLVED None true refs)
  else
    match default_opt supplier provider with
    | None =>
        resolution_validate
          (mkResolution UNRESOLVED None true [profile_ref +:+ ":country-unresolved"])
    | Some country =>
        let jurisdiction := route country in
        resolution_validate
          (mkResolution jurisdiction (Some country)
             (negb (bool_decide (jurisdiction = OUT_OF_SCOPE))) refs)
    end.
End country.

(** * The rules *)

Section rules.
Context `{Hash : HashLib}.

(** The default values of the ruleset. *)
Definition default_ruleset : ComplianceRulesetConfig :=
  mkRuleset RULESET_VERSION RULESET_LEGAL_REVIEW_REF RULESET_EFFECTIVE_FROM None 24 ["CH"; "FR"]
    "compliance-reasons-v1" None.

(** [compliance/rules.py:20-20 RULESET_V1] *)
Definition RULESET_V1 : ComplianceRulesetConfig :=
  match ruleset_validate default_ruleset with Ok c => c | Raise _ => default_ruleset end.

(** [compliance/rules.py:27-28 _dedupe] *)
Definition _dedupe (values : list string) (limit : nat) : list string :=
  take limit (dict_fromkeys values).

(** [min(validity, other)] where the other may be missing. *)
Definition earlier (validity : datetime) (other : option datetime) : datetime :=
  match other with Some d => if dt_ltb d validity then d else validity | None => validity end.

(** [compliance/rules.py:39-45 _proposal]: the validity of an
    authorization. *)
Definition validity_of (value : ComplianceInput) (config : ComplianceRulesetConfig)
  : result datetime :=
  let! validity := dt_add (ci_assessed_at value)
                     (rs_allowed_ttl_hours config * 3600 * US_SECOND) in
  Ok (earlier (earlier validity (sd_valid_until (ci_sender_config value))) (rs_valid_until config)).

(** [compliance/rules.py:31-68 _proposal] *)
Definition _proposal (value : ComplianceInput) (config : ComplianceRulesetConfig)
    (state : ComplianceState) (reasons : list string) (next_action : option string)
  : result ComplianceProposal :=
  let! validity :=
    (if bool_decide (state = ComplianceALLOWED) then
       let! v := validity_of value config in Ok (Some v)
     else Ok None) in
  let evidence :=
    _dedupe (ci_evidence_refs value ++ jr_evidence_refs (ci_jurisdiction value)) 16 in
  let! fingerprint := option_to_result AssertionError (rs_config_fingerprint config) in
  let payload := JObj
    [("kind", JStr "acquisition-compliance-proposal-v1");
     ("input_fingerprint", JStr (ci_compliance_input_fingerprint value));
     ("state", JStr (compliance_value state)); ("reason_codes", JStrs reasons);
     ("evidence_refs", JStrs evidence); ("next_action", JOptStr next_action);
     ("valid_until", opt_json (fun d => JStr (isoformat d)) validity);
     ("ruleset_version", JStr (rs_ruleset_version config));
     ("ruleset_config_fingerprint", JStr fingerprint)] in
  proposal_validate
    (mkProposal state reasons evidence next_action validity
       (ci_compliance_input_fingerprint value) fingerprint (finite_sha256 payload)).

(** [compliance/rules.py:79-86 evaluate_compliance]: the input was built for
    this ruleset. *)
Definition ruleset_bound (value : ComplianceInput) (config : ComplianceRulesetConfig) : bool :=
  bool_decide (ci_ruleset_version value = rs_ruleset_version config)
  && bool_decide (Some (ci_ruleset_config_fingerprint value) = rs_config_fingerprint config)
  && bool_decide (ci_ruleset_legal_review_ref value = rs_legal_review_ref config)
  && dt_eqb (ci_ruleset_effective_from value) (rs_effective_from config)
  && opt_eqb dt_eqb (ci_ruleset_valid_until value) (rs_valid_until config).

(** [compliance/rules.py:105-107 evaluate_compliance]: the ruleset is in force. *)
Definition ruleset_effective (value : ComplianceInput) (config : ComplianceRulesetConfig) : bool :=
  negb (dt_ltb (ci_assessed_at value) (rs_effective_from config))
  && match rs_valid_until config with
     | Some until => dt_ltb (ci_assessed_at value) until
     | None => true
     end.

Definition sender_expired (value : ComplianceInput) : bool :=
  match sd_valid_until (ci_sender_config value) with
  | Some until => dt_leb until (ci_assessed_at value)
  | None => false
  end.

Definition when (b : bool) (reason : string) : list string := if b then [reason] else [].

(** [compliance/rules.py:150-180 evaluate_compliance]: the reasons for a review,
    in order. *)
Definition review_reasons (value : ComplianceInput) (jurisdiction : ComplianceJurisdiction)
  : list string :=
  let sender := ci_sender_config value in
  if bool_decide (jurisdiction = CH) then
    when (bool_decide (ci_ch_legal_basis value = UNPROVEN)) "LEGAL_BASIS_UNRESOLVED"
    ++ when (sender_expired value) "SENDER_CONFIG_EXPIRED"
    ++ when (negb (sd_sender_identity_ready sender)) "REQUIRED_SENDER_IDENTITY_MISSING"
    ++ when (negb (sd_opt_out_ready sender)) "REQUIRED_OPT_OUT_MECHANISM_MISSING"
  else
    when (sender_expired value) "SENDER_CONFIG_EXPIRED"
    ++ when (negb (sd_sender_identity_ready sender)) "REQUIRED_SENDER_IDENTITY_MISSING"
    ++ when (negb (sd_opt_out_ready sender)) "REQUIRED_OPT_OUT_MECHANISM_MISSING"
    ++ when (negb (sd_privacy_notice_ready sender)) "REQUIRED_PRIVACY_NOTICE_MISSING"
    ++ when (negb (sd_source_notice_ready sender)) "REQUIRED_SOURCE_NOTICE_MISSING"
    ++ when (negb (bool_decide
                     (ci_business_context_state value = PROFESSIONAL_CONTEXT_VERIFIED)))
         "BUSINESS_CONTEXT_INSUFFICIENT"
    ++ when (negb (bool_decide
                     (ci_email_provenance value = PROVIDER_VERIFIED_BUSINESS_CONTACT)))
         "EMAIL_PROVENANCE_UNRESOLVED".

(** [compliance/rules.py:190-201 evaluate_compliance]: [allowed_reasons]. *)
Definition allowed_reasons (jurisdiction : ComplianceJurisdiction) : list string :=
  if bool_decide (jurisdiction = CH) then
    ["CH_LEGAL_PREDICATE_VERIFIED"; "SENDER_AND_OBJECTION_MECHANISM_VERIFIED"]
  else
    ["JURISDICTION_RULESET_SATISFIED"; "BUSINESS_CONTEXT_VERIFIED";
     "SENDER_AND_OBJECTION_MECHANISM_VERIFIED"].

Definition REVIEW : option string := Some "request_human_review".

(** [compliance/rules.py:71-208 evaluate_compliance] *)
Definition evaluate_compliance (value : ComplianceInput) (config : ComplianceRulesetConfig)
  : result ComplianceProposal :=
  require! bool_decide (ci_acquisition_purpose value = "KIVOU_ACQUISITION_SIGNAL_RELEVANCE")
  else ComplianceRulesetMismatch "Kivou ruleset cannot assess another acquisition purpose" in
  require! ruleset_bound value config
  else ComplianceRulesetMismatch "compliance input ruleset binding mismatch" in
  let propose := _proposal value config in
  let jurisdiction := jr_jurisdiction (ci_jurisdiction value) in
  match ci_suppression_match_state value with
  | MATCHED => propose ComplianceBLOCKED ["SUPPRESSION_MATCH"] None
  | COVERAGE_UNSAFE => propose ComplianceUNKNOWN ["SUPPRESSION_KEY_COVERAGE_UNSAFE"] None
  | CLEAR =>
      if negb (ruleset_effective value config) then
        propose ComplianceREVIEW_REQUIRED ["RULESET_NOT_EFFECTIVE"] REVIEW
      else
        match jurisdiction with
        | UNRESOLVED =>
            propose ComplianceUNKNOWN ["JURISDICTION_UNRESOLVED"]
              (if jr_resolvable (ci_jurisdiction value) then REVIEW else None)
        | OUT_OF_SCOPE => propose ComplianceBLOCKED ["JURISDICTION_OUT_OF_SCOPE"] None
        | EU_MEMBER_STATE_UNCONFIGURED =>
            propose ComplianceREVIEW_REQUIRED ["COUNTRY_RULESET_UNCONFIGURED"] REVIEW
        | CH | FR =>
            if negb (in_list (jurisdiction_value jurisdiction)
                       (rs_configured_country_rulesets config)) then
              propose ComplianceREVIEW_REQUIRED ["COUNTRY_RULESET_UNCONFIGURED"] REVIEW
            else
              let reasons := review_reasons value jurisdiction in
              if list_truthy reasons then
                propose ComplianceREVIEW_REQUIRED (_dedupe reasons 8) REVIEW
              else
                propose ComplianceALLOWED (allowed_reasons jurisdiction)
                  (Some "schedule_campaign")
        end
  end.
End rules.
