(* ===== verification/ContactContracts.v ===== *)
(** ContactContracts: the contacts of [contact_discovery/contracts.py] and
    their identity ([contact_discovery/identity.py]): an observation of a
    provider, the record it is kept as, and the runs of a discovery. *)

From S2P Require Import Prelude PyStr PyText PyDatetime PyJson.
From Stdlib Require Import Ascii String.

Local Open Scope string_scope.
Local Open Scope Z_scope.
Local Open Scope list_scope.

(** * Fields *)

(** A string field with [strip_whitespace] and bounds on its length. *)
Definition uconstr (field : string) (lo hi : Z) (s : string) : result string :=
  let t := ustrip s in
  if (lo <=? ulen t) && (ulen t <=? hi) then Ok t else Raise (ValidationError field).

(** [contact_discovery/contracts.py:33-33 PROFILE_VERSION] *)
Definition PROFILE_VERSION : string := "decision-maker-search-v1".
(** [contact_discovery/contracts.py:34-34 PROVIDER] *)
Definition PROVIDER : string := "apollo".

(** [contact_discovery/contracts.py:41-41 StableRef] *)
Definition KStableRef (field s : string) : result string := uconstr field 1 256 s.
(** [contact_discovery/contracts.py:42-42 ProviderId] *)
Definition ProviderId (field s : string) : result string := uconstr field 1 128 s.
(** [contact_discovery/contracts.py:43-43 ShortText] *)
Definition ShortText (field s : string) : result string := uconstr field 1 512 s.
(** [contact_discovery/contracts.py:44-44 Fingerprint] *)
Definition KFingerprint (field s : string) : result string :=
  let t := ustrip s in if is_fingerprint t then Ok t else Raise (ValidationError field).

(** [contact_discovery/contracts.py:180-180 _EMAIL]:
    [^[^\s@]+@[^\s@]+\.[^\s@]+$] *)
Definition _EMAIL : re :=
  let part := Plus (Atom (fun c => negb (isspace c) && negb (bool_decide (c = "@")))) in
  Cat part (Cat (Atom (fun c => bool_decide (c = "@")))
    (Cat part (Cat (Atom (fun c => bool_decide (c = "."))) part))).

(** * Observations *)

(** [contact_discovery/contracts.py:183-203 ContactObservation] *)
Record ContactObservation : Type := mkContact {
  co_supplier_ref : string;
  co_provider : string;
  co_provider_person_id : string;
  co_provider_organization_id : string;
  co_first_name : option string;
  co_last_name : option string;
  co_display_name : option string;
  co_title : option string;
  co_normalized_title : string;
  co_role_profile_version : string;
  co_role_tier : Z;
  co_business_email : string;
  co_provider_email_status : string;
  co_verification_state : string;
  co_verification_provider : string;
  co_provider_observed_at : datetime;
  co_email_observed_at : datetime;
  co_source_fingerprint : string;
}.

(** [email.split("@", 1)[0]] *)
Definition local_part (email : string) : string :=
  match split_at_first (eqc "@") email with Some (a, _, _) => a | None => email end.

Section contacts.
Context `{Case : CaseData}.

(** [contact_discovery/contracts.py:219-243 verified_contact_contract] *)
Definition verified_contact_contract (c : ContactObservation) : bool :=
  if bool_decide (co_provider c = PROVIDER) then
    bool_decide (co_verification_provider c = PROVIDER)
    && bool_decide (co_provider_email_status c = "verified")
    && bool_decide (co_verification_state c = "PROVIDER_VERIFIED")
    && negb (in_list (casefold (local_part (co_business_email c)))
               ["contact"; "info"; "hello"; "office"; "admin"])
  else
    truthy (co_display_name c)
    && bool_decide (co_verification_provider c = "dns_mx")
    && bool_decide (co_provider_email_status c = "mx_accepted")
    && bool_decide (co_verification_state c = "DELIVERABILITY_VERIFIED").

(** [contact_discovery/contracts.py:183-243 ContactObservation] *)
Definition contact_validate (c : ContactObservation) : result ContactObservation :=
  let! supplier := KStableRef "supplier_ref" (co_supplier_ref c) in
  let! provider := checked "provider" (fun p => in_list p [PROVIDER; "company_website"])
                     (ustrip (co_provider c)) in
  let! person := ProviderId "provider_person_id" (co_provider_person_id c) in
  let! organization := ProviderId "provider_organization_id" (co_provider_organization_id c) in
  let! first := opt_mapM (ShortText "first_name") (co_first_name c) in
  let! last := opt_mapM (ShortText "last_name") (co_last_name c) in
  let! display := opt_mapM (ShortText "display_name") (co_display_name c) in
  let! title := opt_mapM (ShortText "title") (co_title c) in
  let! normalized := ShortText "normalized_title" (co_normalized_title c) in
  let! profile := ShortText "role_profile_version" (co_role_profile_version c) in
  let! tier := checked "role_tier" (fun n => (1 <=? n) && (n <=? 4)) (co_role_tier c) in
  let! email := uconstr "business_email" 0 320 (co_business_email c) in
  let! email := checked "business_email" (fullmatch _EMAIL) email in
  let! provider_at := checked "provider_observed_at" aware (co_provider_observed_at c) in
  let! email_at := checked "email_observed_at" aware (co_email_observed_at c) in
  let! fingerprint := KFingerprint "source_fingerprint" (co_source_fingerprint c) in
  let built := mkContact supplier provider person organization first last display title normalized
    profile tier email (ustrip (co_provider_email_status c)) (ustrip (co_verification_state c))
    (ustrip (co_verification_provider c)) provider_at email_at fingerprint in
  require! verified_contact_contract built else ValidationError "ContactObservation" in
  Ok built.

(** [contact_discovery/contracts.py:246-251 ContactRecord] *)
Record ContactRecord : Type := mkContactRecord {
  kr_observation : ContactObservation;
  kr_contact_ref : string;
  kr_created_at : datetime;
  kr_updated_at : datetime;
}.

(** [contact_discovery/contracts.py:246-251 ContactRecord] *)
Definition contact_record_validate (r : ContactRecord) : result ContactRecord :=
  let! observation := contact_validate (kr_observation r) in
  let! ref := KFingerprint "contact_ref" (kr_contact_ref r) in
  let! created := checked "created_at" aware (kr_created_at r) in
  let! updated := checked "updated_at" aware (kr_updated_at r) in
  Ok (mkContactRecord observation ref created updated).
End contacts.

(** [contact_discovery/contracts.py:254-273 is_attachable_contact] of a record. *)
Definition is_attachable_contact (c : ContactObservation) : bool :=
  let apollo := bool_decide (co_provider c = "apollo")
    && bool_decide (co_verification_state c = "PROVIDER_VERIFIED")
    && bool_decide (co_verification_provider c = "apollo")
    && bool_decide (co_provider_email_status c = "verified") in
  let website := bool_decide (co_provider c = "company_website")
    && bool_decide (co_verification_state c = "DELIVERABILITY_VERIFIED")
    && bool_decide (co_verification_provider c = "dns_mx")
    && bool_decide (co_provider_email_status c = "mx_accepted")
    && match co_display_name c with Some n => nonempty n | None => false end in
  nonempty (co_business_email c) && (apollo || website).

(** [contact_discovery/identity.py:7-19 contact_ref_for] *)
Definition contact_ref_for `{HashLib} (provider provider_person_id supplier_ref : string)
  : result string :=
  let provider := ustrip provider in
  let person := ustrip provider_person_id in
  let supplier := ustrip supplier_ref in
  require! nonempty provider && nonempty person && nonempty supplier
  else ValueError "contact identity fields must be non-empty" in
  json_sha256 (JObj [("identity_version", JStr "contact-identity-v1");
                     ("provider", JStr provider); ("provider_person_id", JStr person);
                     ("supplier_ref", JStr supplier)]).

(** * Runs *)

(** [contact_discovery/contracts.py:151-157 ContactRunStatus] *)
Inductive ContactRunStatus : Type :=
| RunSTARTED | RunSUCCESS | NO_CANDIDATE | NO_VERIFIED_CONTACT | CONTACT_SEARCH_TOO_BROAD
| RunFAILED.

#[export] Instance ContactRunStatus_eq_dec : EqDecision ContactRunStatus.
Proof. solve_decision. Defined.

(** [contact_discovery/contracts.py:57-81 DecisionMakerSearchProfile] *)
Record DecisionMakerSearchProfile : Type := mkSearchProfile {
  sp_profile_version : string;
  sp_acquisition_opportunity_id : string;
  sp_supplier_ref : string;
  sp_provider_organization_id : string;
  sp_supplier_siren : option string;
  sp_binding_resolution_method : option string;
  sp_organization_name : option string;
  sp_organization_city : option string;
  sp_organization_domain : option string;
  sp_person_titles : list string;
  sp_person_seniorities : list string;
  sp_contact_email_statuses : list string;
  sp_include_similar_titles : bool;
  sp_max_pages : Z;
  sp_per_page : Z;
  sp_max_enrichment_attempts : Z;
  sp_search_too_broad_threshold : Z;
  sp_profile_fingerprint : string;
}.

(** [profile.model_dump(mode="json")] *)
Definition search_profile_json (p : DecisionMakerSearchProfile) : json :=
  JObj [("profile_version", JStr (sp_profile_version p));
        ("acquisition_opportunity_id", JStr (sp_acquisition_opportunity_id p));
        ("supplier_ref", JStr (sp_supplier_ref p));
        ("provider_organization_id", JStr (sp_provider_organization_id p));
        ("supplier_siren", JOptStr (sp_supplier_siren p));
        ("binding_resolution_method", JOptStr (sp_binding_resolution_method p));
        ("organization_name", JOptStr (sp_organization_name p));
        ("organization_city", JOptStr (sp_organization_city p));
        ("organization_domain", JOptStr (sp_organization_domain p));
        ("person_titles", JStrs (sp_person_titles p));
        ("person_seniorities", JStrs (sp_person_seniorities p));
        ("contact_email_statuses", JStrs (sp_contact_email_statuses p));
        ("include_similar_titles", JBool (sp_include_similar_titles p));
        ("max_pages", JInt (sp_max_pages p)); ("per_page", JInt (sp_per_page p));
        ("max_enrichment_attempts", JInt (sp_max_enrichment_attempts p));
        ("search_too_broad_threshold", JInt (sp_search_too_broad_threshold p));
        ("profile_fingerprint", JStr (sp_profile_fingerprint p))].

(** [contact_discovery/contracts.py:276-293 ContactRunStart] *)
Record ContactRunStart : Type := mkRunStart {
  cs_contact_discovery_run_id : string;
  cs_acquisition_opportunity_id : string;
  cs_supplier_ref : string;
  cs_policy_evaluation_id : string;
  cs_profile : DecisionMakerSearchProfile;
  cs_provider_request_fingerprint : string;
  cs_expected_post_policy_version : Z;
  cs_started_at : datetime;
  cs_correlation_id : string;
}.

(** [contact_discovery/contracts.py:296-330 ContactRunRecord] *)
Record ContactRunRecord : Type := mkRun {
  cr_contact_discovery_run_id : string;
  cr_acquisition_opportunity_id : string;
  cr_supplier_ref : string;
  cr_policy_evaluation_id : string;
  cr_provider : string;
  cr_search_profile_version : string;
  cr_search_profile_fingerprint : string;
  cr_search_profile : json;
  cr_provider_request_fingerprint : string;
  cr_expected_post_policy_version : Z;
  cr_requested_max_pages : Z;
  cr_per_page : Z;
  cr_max_enrichment_attempts : Z;
  cr_people_search_requests : Z;
  cr_recovery_provider_calls : Z;
  cr_provider_total_entries : option Z;
  cr_search_results_returned : Z;
  cr_search_results_truncated : bool;
  cr_candidates_eligible : Z;
  cr_candidates_rejected : Z;
  cr_enrichment_attempts : Z;
  cr_planned_provider_credit_units : Z;
  cr_observed_provider_credit_units : option Z;
  cr_attempted_contact_refs : list string;
  cr_selected_contact_ref : option string;
  cr_started_at : datetime;
  cr_completed_at : option datetime;
  cr_status : ContactRunStatus;
  cr_error_category : option string;
  cr_error_detail : option string;
  cr_retry_after : option datetime;
  cr_correlation_id : string;
}.

Definition opt_aware (o : option datetime) : bool :=
  match o with Some d => aware d | None => true end.
Definition nonneg (o : option Z) : bool := match o with Some n => 0 <=? n | None => true end.

(** [contact_discovery/contracts.py:296-330 ContactRunRecord] *)
Definition run_record_validate (r : ContactRunRecord) : result ContactRunRecord :=
  let! opportunity := KStableRef "acquisition_opportunity_id" (cr_acquisition_opportunity_id r) in
  let! supplier := KStableRef "supplier_ref" (cr_supplier_ref r) in
  let! profile := KFingerprint "search_profile_fingerprint" (cr_search_profile_fingerprint r) in
  let! request := KFingerprint "provider_request_fingerprint"
                    (cr_provider_request_fingerprint r) in
  require! (2 <=? cr_expected_post_policy_version r)
  else ValidationError "expected_post_policy_version" in
  require! (0 <=? cr_people_search_requests r)
  else ValidationError "people_search_requests" in
  require! (0 <=? cr_recovery_provider_calls r) && (cr_recovery_provider_calls r <=? 1)
  else ValidationError "recovery_provider_calls" in
  require! nonneg (cr_provider_total_entries r)
  else ValidationError "provider_total_entries" in
  require! (0 <=? cr_search_results_returned r)
  else ValidationError "search_results_returned" in
  require! (0 <=? cr_candidates_eligible r) && (0 <=? cr_candidates_rejected r)
           && (0 <=? cr_enrichment_attempts r) && (0 <=? cr_planned_provider_credit_units r)
           && nonneg (cr_observed_provider_credit_units r)
  else ValidationError "ContactRunRecord" in
  require! zlength (cr_attempted_contact_refs r) <=? 3
  else ValidationError "attempted_contact_refs" in
  let! attempted := mapM_result (KFingerprint "attempted_contact_refs")
                      (cr_attempted_contact_refs r) in
  let! selected := opt_mapM (KFingerprint "selected_contact_ref") (cr_selected_contact_ref r) in
  require! aware (cr_started_at r) && opt_aware (cr_completed_at r)
           && opt_aware (cr_retry_after r)
  else ValidationError "datetime must be timezone-aware" in
  Ok (mkRun (ustrip (cr_contact_discovery_run_id r)) opportunity supplier
        (ustrip (cr_policy_evaluation_id r)) (ustrip (cr_provider r))
        (ustrip (cr_search_profile_version r)) profile (cr_search_profile r) request
        (cr_expected_post_policy_version r) (cr_requested_max_pages r) (cr_per_page r)
        (cr_max_enrichment_attempts r) (cr_people_search_requests r)
        (cr_recovery_provider_calls r) (cr_provider_total_entries r)
        (cr_search_results_returned r) (cr_search_results_truncated r)
        (cr_candidates_eligible r) (cr_candidates_rejected r) (cr_enrichment_attempts r)
        (cr_planned_provider_credit_units r) (cr_observed_provider_credit_units r) attempted
        selected (cr_started_at r) (cr_completed_at r) (cr_status r)
        (ustrip <$> cr_error_category r) (ustrip <$> cr_error_detail r) (cr_retry_after r)
        (ustrip (cr_correlation_id r))).
