(* ===== verification/ContactStore.v ===== *)
(** ContactStore: the contacts and the runs of a contact discovery, as
    [contact_discovery/store.py] keeps them: a contact per employment of a
    person with the newest observation of it, and one run per policy
    evaluation, finished once. *)

From S2P Require Import Prelude PyStr PyText PyDatetime PyJson Database.
From S2P Require Import ContactContracts.
From Stdlib Require Import Ascii String.

Local Open Scope string_scope.
Local Open Scope Z_scope.
Local Open Scope list_scope.

(** * Tables *)

(** [persistence/schema.py:1453-1515 acquisition_contact], by contact_ref,
    and [contact_discovery_run], by its identifier. *)
Record contact_db : Type := mkkdb {
  kdb_contacts : gmap string ContactRecord;
  kdb_runs : gmap string ContactRunRecord;
}.

Definition empty_contact_db : contact_db := mkkdb ∅ ∅.

(** The rows of other tables the foreign keys refer to. *)
Record references : Type := mkReferences {
  has_supplier : string -> bool;
  has_opportunity : string -> bool;
  has_evaluation : string -> bool;
}.

Definition rows {A} (m : gmap string A) : list A := map snd (map_to_list m).

Lemma elem_of_rows {A} (m : gmap string A) x : x ∈ rows m <-> exists k, m !! k = Some x.
Proof.
  unfold rows. rewrite list_elem_of_fmap. split.
  - intros ([k y] & -> & H). apply elem_of_map_to_list in H. eauto.
  - intros [k H]. exists (k, x). by rewrite elem_of_map_to_list.
Qed.

(** A [String(n)] column of text. *)
Definition uvarchar (column : string) (n : Z) (s : string) : result string :=
  if ulen s <=? n then Ok s else Raise (DataError column).

Lemma uvarchar_Ok column n s t : uvarchar column n s = Ok t -> t = s.
Proof. unfold uvarchar. by destruct (_ <=? _); intros [= <-]. Qed.

Lemma opt_uvarchar_Ok column n o o' : opt_mapM (uvarchar column n) o = Ok o' -> o' = o.
Proof. destruct o; simpl; intros H; inv_result; [|done]. by apply uvarchar_Ok in Hv as ->. Qed.

Definition opt_int4 (column : string) (o : option Z) : result (option Z) :=
  opt_mapM (int4 column) o.

Section store.
Context `{Hash : HashLib} `{DB : Database} `{Case : CaseData}.

(** ** Contacts *)

(** [persistence/schema.py:1453-1515 acquisition_contact]: the columns and
    the check constraints. *)
Definition contact_values (r : ContactRecord) : result ContactRecord :=
  let c := kr_observation r in
  let! ref := uvarchar "contact_ref" 64 (kr_contact_ref r) in
  let! supplier := uvarchar "supplier_ref" 64 (co_supplier_ref c) in
  let! provider := uvarchar "provider" 32 (co_provider c) in
  let! person := uvarchar "provider_person_id" 128 (co_provider_person_id c) in
  let! organization := uvarchar "provider_organization_id" 128 (co_provider_organization_id c) in
  let! profile := uvarchar "role_profile_version" 64 (co_role_profile_version c) in
  let! email := uvarchar "business_email" 320 (co_business_email c) in
  let! status := uvarchar "provider_email_status" 64 (co_provider_email_status c) in
  let! state := uvarchar "verification_state" 32 (co_verification_state c) in
  let! verifier := uvarchar "verification_provider" 32 (co_verification_provider c) in
  let! fingerprint := uvarchar "source_fingerprint" 64 (co_source_fingerprint c) in
  let! _ := check_constraint "ck_acquisition_contact_provider"
    (in_list provider ["apollo"; "company_website"]) in
  let! _ := check_constraint "ck_acquisition_contact_verification_state"
    (in_list state ["PROVIDER_VERIFIED"; "DELIVERABILITY_VERIFIED"]) in
  let! _ := check_constraint "ck_acquisition_contact_verification_source"
    (bool_decide ((provider, verifier, status, state)
                  = ("apollo", "apollo", "verified", "PROVIDER_VERIFIED"))
     || (bool_decide ((provider, verifier, status, state)
                      = ("company_website", "dns_mx", "mx_accepted", "DELIVERABILITY_VERIFIED"))
         && truthy (co_display_name c))) in
  let! _ := check_constraint "ck_acquisition_contact_role_tier"
    ((1 <=? co_role_tier c) && (co_role_tier c <=? 4)) in
  Ok (mkContactRecord
        (mkContact supplier provider person organization (co_first_name c) (co_last_name c)
           (co_display_name c) (co_title c) (co_normalized_title c) profile (co_role_tier c) email
           status state verifier (timestamptz (co_provider_observed_at c))
           (timestamptz (co_email_observed_at c)) fingerprint)
        ref (timestamptz (kr_created_at r)) (timestamptz (kr_updated_at r))).

(** [contact_discovery/store.py:35-44 _contact] *)
Definition _contact (row : ContactRecord) : result ContactRecord :=
  let c := kr_observation row in
  contact_record_validate
    (mkContactRecord
       (mkContact (co_supplier_ref c) (co_provider c) (co_provider_person_id c)
          (co_provider_organization_id c) (co_first_name c) (co_last_name c) (co_display_name c)
          (co_title c) (co_normalized_title c) (co_role_profile_version c) (co_role_tier c)
          (co_business_email c) (co_provider_email_status c) (co_verification_state c)
          (co_verification_provider c) (assume_utc (co_provider_observed_at c))
          (assume_utc (co_email_observed_at c)) (co_source_fingerprint c))
       (kr_contact_ref row) (assume_utc (kr_created_at row)) (assume_utc (kr_updated_at row))).

(** [contact_discovery/store.py:316-337 get_contact_in_transaction] *)
Definition get_contact_in_transaction (db : contact_db) (contact_ref : string)
  : result ContactRecord :=
  let! row := option_to_result NoResultFound (kdb_contacts db !! contact_ref) in
  _contact row.

(** [contact_discovery/store.py:312-314 get_contact] *)
Definition get_contact (db : contact_db) (contact_ref : string) : result ContactRecord :=
  get_contact_in_transaction db contact_ref.

(** One employment: the columns of the unique constraint. *)
Definition employment (c : ContactObservation) : string * string * string :=
  (co_provider c, co_provider_person_id c, co_supplier_ref c).

(** [contact_discovery/store.py:401-417 _insert_contact_if_absent]: [INSERT ...
    ON CONFLICT (provider, provider_person_id, supplier_ref) DO NOTHING
    RETURNING 1]. *)
Definition _insert_contact_if_absent (refs : references) (db : contact_db) (values : ContactRecord)
  : result (bool * contact_db) :=
  let! row := contact_values values in
  if existsb (fun r => bool_decide (employment (kr_observation r)
                                    = employment (kr_observation row)))
       (rows (kdb_contacts db)) then Ok (false, db)
  else
    let! _ := check_constraint "acquisition_contact_pkey"
      (negb (truthy (kdb_contacts db !! kr_contact_ref row))) in
    let! _ := check_constraint "acquisition_contact_supplier_ref_fkey"
      (has_supplier refs (co_supplier_ref (kr_observation row))) in
    Ok (true, mkkdb (<[kr_contact_ref row := row]> (kdb_contacts db)) (kdb_runs db)).

(** [contact_discovery/store.py:57-60 ContactUpsertResult] *)
Record ContactUpsertResult : Type := mkUpsert {
  up_contact : ContactRecord;
  up_created : bool;
  up_metadata_updated : bool;
}.

(** [contact_discovery/store.py:380-387 upsert_contact_in_transaction]: [UPDATE
    ... WHERE contact_ref = ... AND provider_observed_at < ...]. *)
Definition update_contact (refs : references) (db : contact_db) (contact_ref : string)
    (observation : ContactObservation) (now : datetime) : result (Z * contact_db) :=
  match kdb_contacts db !! contact_ref with
  | Some row =>
      if dt_ltb (co_provider_observed_at (kr_observation row))
           (co_provider_observed_at observation) then
        let! values := contact_values
          (mkContactRecord observation contact_ref (kr_created_at row) now) in
        let new := mkContactRecord (kr_observation values) contact_ref (kr_created_at row)
                     (kr_updated_at values) in
        let! _ := check_constraint "uq_acquisition_contact_provider_employment"
          (negb (existsb (fun p => negb (bool_decide (p.1 = contact_ref))
                    && bool_decide (employment (kr_observation p.2)
                                    = employment (kr_observation new)))
             (map_to_list (kdb_contacts db)))) in
        let! _ := check_constraint "acquisition_contact_supplier_ref_fkey"
          (has_supplier refs (co_supplier_ref (kr_observation new))) in
        Ok (1, mkkdb (<[contact_ref := new]> (kdb_contacts db)) (kdb_runs db))
      else Ok (0, db)
  | None => Ok (0, db)
  end.

(** [contact_discovery/store.py:343-399 upsert_contact_in_transaction] *)
Definition upsert_contact_in_transaction (refs : references) (now : datetime) (db : contact_db)
    (observation : ContactObservation) : result (ContactUpsertResult * contact_db) :=
  let! contact_ref := contact_ref_for (co_provider observation)
                        (co_provider_person_id observation) (co_supplier_ref observation) in
  let! (created, db1) :=
    _insert_contact_if_absent refs db (mkContactRecord observation contact_ref now now) in
  let! row := option_to_result NoResultFound (kdb_contacts db1 !! contact_ref) in
  if created then let! contact := _contact row in Ok (mkUpsert contact true true, db1)
  else
    require! bool_decide (co_provider_organization_id (kr_observation row)
                          = co_provider_organization_id observation)
    else ContactObservationConflict "provider organization changed" in
    let stored_at := assume_utc (co_provider_observed_at (kr_observation row)) in
    if dt_ltb (co_provider_observed_at observation) stored_at then
      let! contact := _contact row in Ok (mkUpsert contact false false, db1)
    else if dt_eqb (co_provider_observed_at observation) stored_at then
      require! bool_decide (co_source_fingerprint (kr_observation row)
                            = co_source_fingerprint observation)
      else ContactObservationConflict "equal timestamp has different payload" in
      let! contact := _contact row in Ok (mkUpsert contact false false, db1)
    else
      let! (rowcount, db2) := update_contact refs db1 contact_ref observation now in
      require! rowcount =? 1
      else ContactObservationConflict "contact observation changed concurrently" in
      let! updated := option_to_result NoResultFound (kdb_contacts db2 !! contact_ref) in
      let! contact := _contact updated in
      Ok (mkUpsert contact false true, db2).

(** [contact_discovery/store.py:339-341 upsert_contact] *)
Definition upsert_contact (refs : references) (now : datetime) (db : contact_db)
    (observation : ContactObservation) : result (ContactUpsertResult * contact_db) :=
  upsert_contact_in_transaction refs now db observation.

(** ** Runs *)

(** [persistence/schema.py:1518-1615 contact_discovery_run]: the columns and
    the check constraints. *)
Definition run_values (r : ContactRunRecord) : result ContactRunRecord :=
  let! id := uvarchar "contact_discovery_run_id" 64 (cr_contact_discovery_run_id r) in
  let! opportunity := uvarchar "acquisition_opportunity_id" 64 (cr_acquisition_opportunity_id r) in
  let! supplier := uvarchar "supplier_ref" 64 (cr_supplier_ref r) in
  let! evaluation := uvarchar "policy_evaluation_id" 64 (cr_policy_evaluation_id r) in
  let! provider := uvarchar "provider" 32 (cr_provider r) in
  let! version := uvarchar "search_profile_version" 64 (cr_search_profile_version r) in
  let! profile := uvarchar "search_profile_fingerprint" 64 (cr_search_profile_fingerprint r) in
  let! request := uvarchar "provider_request_fingerprint" 64 (cr_provider_request_fingerprint r) in
  let! expected := int4 "expected_post_policy_version" (cr_expected_post_policy_version r) in
  let! requests := int4 "people_search_requests" (cr_people_search_requests r) in
  let! total := opt_int4 "provider_total_entries" (cr_provider_total_entries r) in
  let! returned := int4 "search_results_returned" (cr_search_results_returned r) in
  let! eligible := int4 "candidates_eligible" (cr_candidates_eligible r) in
  let! rejected := int4 "candidates_rejected" (cr_candidates_rejected r) in
  let! attempts := int4 "enrichment_attempts" (cr_enrichment_attempts r) in
  let! planned := int4 "planned_provider_credit_units" (cr_planned_provider_credit_units r) in
  let! observed := opt_int4 "observed_provider_credit_units"
                     (cr_observed_provider_credit_units r) in
  let! selected := opt_mapM (uvarchar "selected_contact_ref" 64) (cr_selected_contact_ref r) in
  let! category := opt_mapM (uvarchar "error_category" 64) (cr_error_category r) in
  let! detail := opt_mapM (uvarchar "error_detail" 512) (cr_error_detail r) in
  let! correlation := uvarchar "correlation_id" 64 (cr_correlation_id r) in
  let! _ := check_constraint "ck_contact_run_provider" (bool_decide (provider = "apollo")) in
  let! _ := check_constraint "ck_contact_run_expected_version" (2 <=? expected) in
  let! _ := check_constraint "ck_contact_run_bounds"
    ((cr_requested_max_pages r =? 1) && (1 <=? cr_per_page r) && (cr_per_page r <=? 25)
     && (1 <=? cr_max_enrichment_attempts r) && (cr_max_enrichment_attempts r <=? 3)) in
  let! _ := check_constraint "ck_contact_run_counters"
    ((0 <=? requests) && (0 <=? returned) && (0 <=? eligible) && (0 <=? rejected)
     && (0 <=? attempts)) in
  let! _ := check_constraint "ck_contact_run_recovery_calls"
    ((0 <=? cr_recovery_provider_calls r) && (cr_recovery_provider_calls r <=? 1)) in
  let! _ := check_constraint "ck_contact_run_provider_total" (nonneg total) in
  let! _ := check_constraint "ck_contact_run_credits" ((0 <=? planned) && nonneg observed) in
  Ok (mkRun id opportunity supplier evaluation provider version profile (cr_search_profile r)
        request expected (cr_requested_max_pages r) (cr_per_page r) (cr_max_enrichment_attempts r)
        requests (cr_recovery_provider_calls r) total returned (cr_search_results_truncated r)
        eligible rejected attempts planned observed (cr_attempted_contact_refs r) selected
        (timestamptz (cr_started_at r)) (timestamptz <$> cr_completed_at r) (cr_status r) category
        detail (timestamptz <$> cr_retry_after r) correlation).

(** [contact_discovery/store.py:47-53 _run] *)
Definition _run (r : ContactRunRecord) : result ContactRunRecord :=
  run_record_validate
    (mkRun (cr_contact_discovery_run_id r) (cr_acquisition_opportunity_id r) (cr_supplier_ref r)
       (cr_policy_evaluation_id r) (cr_provider r) (cr_search_profile_version r)
       (cr_search_profile_fingerprint r) (cr_search_profile r) (cr_provider_request_fingerprint r)
       (cr_expected_post_policy_version r) (cr_requested_max_pages r) (cr_per_page r)
       (cr_max_enrichment_attempts r) (cr_people_search_requests r) (cr_recovery_provider_calls r)
       (cr_provider_total_entries r) (cr_search_results_returned r)
       (cr_search_results_truncated r) (cr_candidates_eligible r) (cr_candidates_rejected r)
       (cr_enrichment_attempts r) (cr_planned_provider_credit_units r)
       (cr_observed_provider_credit_units r) (cr_attempted_contact_refs r)
       (cr_selected_contact_ref r) (assume_utc (cr_started_at r)) (assume_utc <$> cr_completed_at r)
       (cr_status r) (cr_error_category r) (cr_error_detail r) (assume_utc <$> cr_retry_after r)
       (cr_correlation_id r)).

(** [SELECT ... WHERE policy_evaluation_id = ...], a unique column. *)
Definition select_by_policy (db : contact_db) (evaluation_id : string) : option ContactRunRecord :=
  first_match (fun r => bool_decide (cr_policy_evaluation_id r = evaluation_id)) (rows (kdb_runs db)).

(** [contact_discovery/store.py:74-85 get_run] *)
Definition get_run (db : contact_db) (run_id : string) : result ContactRunRecord :=
  let! row := option_to_result NoResultFound (kdb_runs db !! run_id) in _run row.

(** [contact_discovery/store.py:87-98 get_run_by_policy] *)
Definition get_run_by_policy (db : contact_db) (evaluation_id : string)
  : result (option ContactRunRecord) := opt_mapM _run (select_by_policy db evaluation_id).

(** Newest first, then by the greatest identifier. *)
Definition run_after (a b : ContactRunRecord) : bool :=
  dt_ltb (cr_started_at b) (cr_started_at a)
  || (dt_eqb (cr_started_at b) (cr_started_at a)
      && string_leb (cr_contact_discovery_run_id b) (cr_contact_discovery_run_id a)).

(** [contact_discovery/store.py:100-116 get_latest_run_for_opportunity_in_transaction] *)
Definition get_latest_run_for_opportunity_in_transaction (db : contact_db)
    (opportunity_id : string) : result (option ContactRunRecord) :=
  opt_mapM _run
    (head (sorted_by run_after
       (filter (fun r => cr_acquisition_opportunity_id r = opportunity_id)
          (rows (kdb_runs db))))).

(** [contact_discovery/store.py:299-310 _insert_run_if_absent]: [INSERT ... ON
    CONFLICT DO NOTHING RETURNING 1], the conflicts being those of the
    primary key and of the policy evaluation. *)
Definition _insert_run_if_absent (refs : references) (db : contact_db) (values : ContactRunRecord)
  : result (bool * contact_db) :=
  let! row := run_values values in
  if truthy (kdb_runs db !! cr_contact_discovery_run_id row)
     || truthy (select_by_policy db (cr_policy_evaluation_id row)) then Ok (false, db)
  else
    let! _ := check_constraint "contact_discovery_run_fkey"
      (has_supplier refs (cr_supplier_ref row)
       && has_opportunity refs (cr_acquisition_opportunity_id row)
       && has_evaluation refs (cr_policy_evaluation_id row)) in
    Ok (true, mkkdb (kdb_contacts db)
                (<[cr_contact_discovery_run_id row := row]> (kdb_runs db))).

(** [contact_discovery/store.py:119-153 start_run]: the values of the row. *)
Definition start_values (start : ContactRunStart) : ContactRunRecord :=
  let profile := cs_profile start in
  mkRun (cs_contact_discovery_run_id start) (cs_acquisition_opportunity_id start)
    (cs_supplier_ref start) (cs_policy_evaluation_id start) "apollo" (sp_profile_version profile)
    (sp_profile_fingerprint profile) (search_profile_json profile)
    (cs_provider_request_fingerprint start) (cs_expected_post_policy_version start)
    (sp_max_pages profile) (sp_per_page profile) (sp_max_enrichment_attempts profile) 0 0 None 0
    false 0 0 0 (sp_max_enrichment_attempts profile) None [] None (cs_started_at start) None
    RunSTARTED None None None (cs_correlation_id start).

(** [contact_discovery/store.py:64-66 ContactRunOwnership] *)
Record ContactRunOwnership : Type := mkOwnership { ow_run : ContactRunRecord; ow_owned : bool }.

(** The fields a repeated start must agree on. *)
Definition same_start (a b : ContactRunRecord) : bool :=
  bool_decide (cr_acquisition_opportunity_id a = cr_acquisition_opportunity_id b)
  && bool_decide (cr_supplier_ref a = cr_supplier_ref b)
  && bool_decide (cr_search_profile_fingerprint a = cr_search_profile_fingerprint b)
  && bool_decide (cr_provider_request_fingerprint a = cr_provider_request_fingerprint b)
  && (cr_expected_post_policy_version a =? cr_expected_post_policy_version b).

(** [contact_discovery/store.py:118-192 start_run] *)
Definition start_run (refs : references) (db : contact_db) (start : ContactRunStart)
  : result (ContactRunOwnership * contact_db) :=
  let values := start_values start in
  let! (owned, db1) := _insert_run_if_absent refs db values in
  let by_policy := select_by_policy db1 (cs_policy_evaluation_id start) in
  let by_id := kdb_runs db1 !! cs_contact_discovery_run_id start in
  match by_policy with
  | None =>
      if truthy by_id then Raise (ContactRunIdentityConflict (cs_contact_discovery_run_id start))
      else Raise (RuntimeError "contact run conflict could not be resolved")
  | Some by_policy =>
      require! match by_id with
               | Some r => bool_decide (cr_policy_evaluation_id r = cs_policy_evaluation_id start)
               | None => true
               end
      else ContactRunIdentityConflict (cs_contact_discovery_run_id start) in
      require! owned || same_start by_policy values
      else ContactRunAlreadyStarted (cr_contact_discovery_run_id by_policy) in
      let! run := _run by_policy in
      Ok (mkOwnership run owned, db1)
  end.

(** A row with its counter of recovery calls, and with its outcome. *)
Definition set_recovery (n : Z) (r : ContactRunRecord) : ContactRunRecord :=
  mkRun (cr_contact_discovery_run_id r) (cr_acquisition_opportunity_id r) (cr_supplier_ref r)
    (cr_policy_evaluation_id r) (cr_provider r) (cr_search_profile_version r)
    (cr_search_profile_fingerprint r) (cr_search_profile r) (cr_provider_request_fingerprint r)
    (cr_expected_post_policy_version r) (cr_requested_max_pages r) (cr_per_page r)
    (cr_max_enrichment_attempts r) (cr_people_search_requests r) n (cr_provider_total_entries r)
    (cr_search_results_returned r) (cr_search_results_truncated r) (cr_candidates_eligible r)
    (cr_candidates_rejected r) (cr_enrichment_attempts r) (cr_planned_provider_credit_units r)
    (cr_observed_provider_credit_units r) (cr_attempted_contact_refs r) (cr_selected_contact_ref r)
    (cr_started_at r) (cr_completed_at r) (cr_status r) (cr_error_category r) (cr_error_detail r)
    (cr_retry_after r) (cr_correlation_id r).

(** [contact_discovery/store.py:194-223 claim_recovery] *)
Definition claim_recovery (db : contact_db) (run_id : string)
  : result (ContactRunOwnership * contact_db) :=
  match kdb_runs db !! run_id with
  | Some row =>
      if bool_decide (cr_status row = RunSTARTED) && (cr_recovery_provider_calls row =? 0) then
        let new := set_recovery 1 row in
        let! run := _run new in
        Ok (mkOwnership run true, mkkdb (kdb_contacts db) (<[run_id := new]> (kdb_runs db)))
      else let! run := _run row in Ok (mkOwnership run false, db)
  | None => Raise NoResultFound
  end.

(** [contact_discovery/store.py:225-243 finish_run]: the keyword arguments. *)
Record run_outcome : Type := mkOutcome {
  ou_status : ContactRunStatus;
  ou_completed_at : datetime;
  ou_people_search_requests : Z;
  ou_provider_total_entries : option Z;
  ou_search_results_returned : Z;
  ou_search_results_truncated : bool;
  ou_candidates_eligible : Z;
  ou_candidates_rejected : Z;
  ou_enrichment_attempts : Z;
  ou_attempted_contact_refs : list string;
  ou_selected_contact_ref : option string;
  ou_observed_provider_credit_units : option Z;
  ou_error_category : option string;
  ou_error_detail : option string;
  ou_retry_after : option datetime;
}.

Definition with_outcome (o : run_outcome) (r : ContactRunRecord) : ContactRunRecord :=
  mkRun (cr_contact_discovery_run_id r) (cr_acquisition_opportunity_id r) (cr_supplier_ref r)
    (cr_policy_evaluation_id r) (cr_provider r) (cr_search_profile_version r)
    (cr_search_profile_fingerprint r) (cr_search_profile r) (cr_provider_request_fingerprint r)
    (cr_expected_post_policy_version r) (cr_requested_max_pages r) (cr_per_page r)
    (cr_max_enrichment_attempts r) (ou_people_search_requests o) (cr_recovery_provider_calls r)
    (ou_provider_total_entries o) (ou_search_results_returned o) (ou_search_results_truncated o)
    (ou_candidates_eligible o) (ou_candidates_rejected o) (ou_enrichment_attempts o)
    (cr_planned_provider_credit_units r) (ou_observed_provider_credit_units o)
    (ou_attempted_contact_refs o) (ou_selected_contact_ref o) (cr_started_at r)
    (Some (ou_completed_at o)) (ou_status o) (ou_error_category o) (ou_error_detail o)
    (ou_retry_after o) (cr_correlation_id r).

(** The outcome as the columns keep it. *)
Definition stored_outcome (completed_at : datetime) (v : ContactRunRecord) : run_outcome :=
  mkOutcome (cr_status v) (default completed_at (cr_completed_at v)) (cr_people_search_requests v)
    (cr_provider_total_entries v) (cr_search_results_returned v) (cr_search_results_truncated v)
    (cr_candidates_eligible v) (cr_candidates_rejected v) (cr_enrichment_attempts v)
    (cr_attempted_contact_refs v) (cr_selected_contact_ref v) (cr_observed_provider_credit_units v)
    (cr_error_category v) (cr_error_detail v) (cr_retry_after v).

(** [contact_discovery/store.py:266-297 finish_run_in_transaction] *)
Definition finish_run_in_transaction (db : contact_db) (run_id : string) (o : run_outcome)
  : result (ContactRunRecord * contact_db) :=
  match kdb_runs db !! run_id with
  | Some row =>
      require! bool_decide (cr_status row = RunSTARTED) else ContactRunAlreadyStarted run_id in
      let! values := run_values (with_outcome o row) in
      let new := with_outcome (stored_outcome (ou_completed_at o) values) row in
      let! _ := check_constraint "contact_discovery_run_selected_contact_ref_fkey"
        (match cr_selected_contact_ref new with
         | Some ref => truthy (kdb_contacts db !! ref)
         | None => true
         end) in
      let! run := _run new in
      Ok (run, mkkdb (kdb_contacts db) (<[run_id := new]> (kdb_runs db)))
  | None => Raise (ContactRunAlreadyStarted run_id)
  end.

(** [contact_discovery/store.py:225-264 finish_run] *)
Definition finish_run (db : contact_db) (run_id : string) (o : run_outcome)
  : result (ContactRunRecord * contact_db) := finish_run_in_transaction db run_id o.
End store.
