(* ===== verification/Suppression.v ===== *)
(** Suppression: the identity under which an address is suppressed
    ([compliance/suppression.py]) - the normal form of an email, its HMAC
    under each retained key, and how long a suppression is kept - and, at the
    end, concrete functions for the interfaces of the libraries, on which the
    witnesses evaluate the definitions. *)

From S2P Require Import Prelude PyStr PyText PyDatetime PyJson.
From Stdlib Require Import Ascii String.

Local Open Scope string_scope.
Local Open Scope Z_scope.
Local Open Scope list_scope.

(** [hmac.new(secret, message, hashlib.sha256).hexdigest()]: sixty-four
    lower-case hexadecimal digits. *)
Class HmacLib := {
  hmac_sha256_hexdigest : string -> string -> string;
  hmac_is_fingerprint : forall k m, is_fingerprint (hmac_sha256_hexdigest k m) = true;
}.

Definition NUL : string := String (chr 0) EmptyString.

(** [compliance/suppression.py:13-13 SUPPRESSION_SCOPE] *)
Definition SUPPRESSION_SCOPE : string := "KIVOU_ACQUISITION_EMAIL".
(** [compliance/suppression.py:14-14 MILOMAIL_SUPPRESSION_SCOPE] *)
Definition MILOMAIL_SUPPRESSION_SCOPE : string := "MILOMAIL_ACQUISITION_EMAIL".
(** [compliance/suppression.py:15-15 _DOMAIN] *)
Definition _DOMAIN : string := "kivou:acquisition-suppression:v1" +:+ NUL.
(** [compliance/suppression.py:16-16 _MILOMAIL_DOMAIN] *)
Definition _MILOMAIL_DOMAIN : string := "milomail:acquisition-suppression:v1" +:+ NUL.
(** [compliance/suppression.py:18-18 _EVIDENCE_DOMAIN] *)
Definition _EVIDENCE_DOMAIN : string := "kivou:acquisition-suppression-evidence:v1" +:+ NUL.

(** [compliance/suppression.py:17-17 _EMAIL]: [^[^\s@]+@[^\s@]+\.[^\s@]+$] *)
Definition _EMAIL : re :=
  let part := Plus (Atom (fun c => negb (isspace c) && negb (bool_decide (c = "@")))) in
  Cat part (Cat (Atom (fun c => bool_decide (c = "@")))
    (Cat part (Cat (Atom (fun c => bool_decide (c = "."))) part))).

(** [compliance/suppression.py:25-29 normalize_business_email] *)
Definition normalize_business_email `{CaseData} (value : string) : result string :=
  let normalized := casefold (ustrip value) in
  require! nonempty normalized && (ulen normalized <=? 320) && fullmatch _EMAIL normalized
  else SuppressionIdentityUnavailable "business email is unusable for suppression" in
  Ok normalized.

(** [compliance/suppression.py:32-46 suppression_evidence_ref] *)
Definition suppression_evidence_ref `{HashLib} (source_kind durable_identity : string)
  : result string :=
  require! nonempty (ustrip source_kind) && (ulen source_kind <=? 64)
           && nonempty (ustrip durable_identity) && (ulen durable_identity <=? 256)
  else ValueError "suppression evidence identity must be bounded" in
  Ok ("suppression-evidence:"
      +:+ sha256_hexdigest (_EVIDENCE_DOMAIN +:+ ustrip source_kind +:+ NUL
                            +:+ ustrip durable_identity)).

(** [compliance/suppression.py:50-52 SuppressionIdentityKeyring] *)
Record SuppressionIdentityKeyring : Type := mkKeyring {
  kg_current_key_version : string;
  kg_keys : gmap string string;
}.

Definition key_versions (k : SuppressionIdentityKeyring) : list string :=
  sorted_by string_leb (map fst (map_to_list (kg_keys k))).

(** [compliance/suppression.py:56-63 __post_init__]: the condition. *)
Definition keyring_ok (k : SuppressionIdentityKeyring) : bool :=
  nonempty (kg_current_key_version k)
  && truthy (kg_keys k !! kg_current_key_version k)
  && (zlength (map_to_list (kg_keys k)) <=? 8)
  && forallb (fun p => nonempty p.1 && (ulen p.1 <=? 64) && (8 <=? len p.2))
       (map_to_list (kg_keys k)).

(** [compliance/suppression.py:54-64 __post_init__] *)
Definition keyring_build (k : SuppressionIdentityKeyring) : result SuppressionIdentityKeyring :=
  require! keyring_ok k else ValueError "invalid suppression keyring" in Ok k.

Definition suppression_scopes : list string := [SUPPRESSION_SCOPE; MILOMAIL_SUPPRESSION_SCOPE].

(** What the HMAC is taken of. *)
Definition identity_message (scope normalized : string) : string :=
  (if bool_decide (scope = SUPPRESSION_SCOPE) then _DOMAIN else _MILOMAIL_DOMAIN) +:+ normalized.

Section keyring.
Context `{Hmac : HmacLib} `{Case : CaseData}.

(** [compliance/suppression.py:66-76 identities_for_email] *)
Definition identities_for_email (k : SuppressionIdentityKeyring) (email scope : string)
  : result (gmap string string) :=
  require! in_list scope suppression_scopes else ValueError "unknown suppression scope" in
  let! normalized := normalize_business_email email in
  Ok ((fun secret => hmac_sha256_hexdigest secret (identity_message scope normalized))
      <$> kg_keys k).
End keyring.

(** The versions of a list that the keyring holds no key for. *)
Definition missing_versions (k : SuppressionIdentityKeyring) (versions : list string)
  : list string :=
  filter (fun v => kg_keys k !! v = None) (sorted_set versions).

(** [compliance/suppression.py:78-83 require_versions_covered] *)
Definition require_versions_covered (k : SuppressionIdentityKeyring)
    (retained_versions : list string) : result unit :=
  let missing := missing_versions k retained_versions in
  require! negb (list_truthy missing)
  else SuppressionIdentityUnavailable
         ("suppression key coverage unavailable: " +:+ join "," missing) in
  Ok tt.

(** [x.replace(year=y, day=d)] *)
Definition replace_year_day (y d : Z) (x : datetime) : result datetime :=
  require! ymd_ok y (month x) d else ValueError "day is out of range for month" in
  Ok (mkdt y (month x) d (hour x) (minute x) (second x) (microsecond x) (utcoffset x)).

(** [compliance/suppression.py:86-92 minimum_retention_until] *)
Definition minimum_retention_until (received_at : datetime) : result datetime :=
  require! aware received_at else ValueError "received_at must be timezone-aware" in
  match replace_year_day (year received_at + 3) (day received_at) received_at with
  | Raise (ValueError _) => replace_year_day (year received_at + 3) 28 received_at
  | r => r
  end.

(** * Functions for the interfaces *)

Local Open Scope string_scope.
Local Open Scope Z_scope.
Local Open Scope list_scope.

Definition text_number (s : string) : Z :=
  fold_left (fun n c => (n * 256 + code c) mod 10 ^ 60) (list_ascii_of_string s) 0.

(** The characters weighted by their place. *)
Definition weight (s : string) : Z :=
  (fold_left (fun '(n, i) c => (n + i * code c, i + 1)) (list_ascii_of_string s) (0, 1)).1.

Program Definition WeightHash : HashLib := {| sha256_hexdigest s := pad_digits 64 (weight s) |}.
Next Obligation.
  intros s. unfold is_fingerprint, len. rewrite pad_digits_length, all_hex_pad_digits. done.
Qed.

Program Definition NumberHmac : HmacLib := {|
  hmac_sha256_hexdigest k m := pad_digits 64 (text_number k + text_number m);
|}.
Next Obligation.
  intros k m. unfold is_fingerprint, len. rewrite pad_digits_length, all_hex_pad_digits. done.
Qed.

Definition AsciiCase : CaseData := {| wide_casefold s := s; wide_upper s := s |}.
