(* ===== verification/ProspectRecords.v ===== *)
(** ProspectRecords: what compliance reads of a prospect besides its contact:
    the supplier ([supplier_discovery/contracts.py]), the company profile
    ([company_research/contracts.py]) and the personalized message, as rows
    of their tables with the validation a read runs. *)

From S2P Require Import Prelude PyStr PyText PyDatetime PyJson.
From S2P Require Import ContactContracts.
From Stdlib Require Import Ascii String.

Local Open Scope string_scope.
Local Open Scope Z_scope.
Local Open Scope list_scope.

(** A string field of a model with a largest length, or none. *)
Definition at_most (field : string) (hi : Z) (s : string) : result string := uconstr field 0 hi s.

(** * Suppliers *)

(** [supplier_discovery/contracts.py:51-55 SupplierIdentityStatus] *)
Inductive SupplierIdentityStatus : Type :=
| PROVIDER_IDENTIFIED | SIRENE_IDENTIFIED | LEGACY_APOLLO | DOMAIN_CONFLICT.

#[export] Instance SupplierIdentityStatus_eq_dec : EqDecision SupplierIdentityStatus.
Proof. solve_decision. Defined.

(** [supplier_discovery/contracts.py:51-55 SupplierIdentityStatus] *)
Definition identity_status_value (s : SupplierIdentityStatus) : string :=
  match s with
  | PROVIDER_IDENTIFIED => "PROVIDER_IDENTIFIED" | SIRENE_IDENTIFIED => "SIRENE_IDENTIFIED"
  | LEGACY_APOLLO => "LEGACY_APOLLO" | DOMAIN_CONFLICT => "DOMAIN_CONFLICT"
  end.

(** [supplier_discovery/contracts.py:204-223 SupplierRecord] *)
Record SupplierRecord : Type := mkSupplier {
  su_supplier_ref : string;
  su_provider : string;
  su_provider_organization_id : string;
  su_display_name : string;
  su_normalized_name : string;
  su_primary_domain : option string;
  su_website_url : option string;
  su_linkedin_company_url : option string;
  su_country_code : option string;
  su_location : option string;
  su_industry : option string;
  su_identity_status : SupplierIdentityStatus;
  su_identity_conflict_fingerprint : option string;
  su_provider_observed_at : datetime;
  su_source_fingerprint : string;
  su_created_at : datetime;
  su_updated_at : datetime;
}.

(** [supplier_discovery/contracts.py:204-223 SupplierRecord] *)
Definition supplier_validate (s : SupplierRecord) : result SupplierRecord :=
  let! ref := KStableRef "supplier_ref" (su_supplier_ref s) in
  let! provider := checked "provider" (fun p => in_list p ["apollo"; "sirene"]) (su_provider s) in
  let! organization := ProviderId "provider_organization_id" (su_provider_organization_id s) in
  let! display := ShortText "display_name" (su_display_name s) in
  let! normalized := ShortText "normalized_name" (su_normalized_name s) in
  let! domain := opt_mapM (at_most "primary_domain" 253) (su_primary_domain s) in
  let! website := opt_mapM (at_most "website_url" 2048) (su_website_url s) in
  let! linkedin := opt_mapM (at_most "linkedin_company_url" 2048) (su_linkedin_company_url s) in
  let! country := opt_mapM (fun c => checked "country_code" is_country (ustrip c))
                    (su_country_code s) in
  let! location := opt_mapM (at_most "location" 512) (su_location s) in
  let! industry := opt_mapM (at_most "industry" 256) (su_industry s) in
  let! conflict := opt_mapM (KFingerprint "identity_conflict_fingerprint")
                     (su_identity_conflict_fingerprint s) in
  let! observed := checked "provider_observed_at" aware (su_provider_observed_at s) in
  let! fingerprint := KFingerprint "source_fingerprint" (su_source_fingerprint s) in
  let! created := checked "created_at" aware (su_created_at s) in
  let! updated := checked "updated_at" aware (su_updated_at s) in
  Ok (mkSupplier ref provider organization display normalized domain website linkedin country
        location industry (su_identity_status s) conflict observed fingerprint created updated).

(** [supplier_discovery/store.py:43-47 _record] *)
Definition _record (row : SupplierRecord) : result SupplierRecord :=
  supplier_validate
    (mkSupplier (su_supplier_ref row) (su_provider row) (su_provider_organization_id row)
       (su_display_name row) (su_normalized_name row) (su_primary_domain row) (su_website_url row)
       (su_linkedin_company_url row) (su_country_code row) (su_location row) (su_industry row)
       (su_identity_status row) (su_identity_conflict_fingerprint row)
       (assume_utc (su_provider_observed_at row)) (su_source_fingerprint row)
       (assume_utc (su_created_at row)) (assume_utc (su_updated_at row))).

(** [supplier_discovery/store.py:275-284 get_supplier_in_transaction] *)
Definition get_supplier_in_transaction (suppliers : gmap string SupplierRecord)
    (supplier_ref : string) : result SupplierRecord :=
  let! row := option_to_result NoResultFound (suppliers !! supplier_ref) in _record row.

(** * Company profiles *)

(** [company_research/contracts.py:29-29 PREBUILD_VERSION] *)
Definition PREBUILD_VERSION : string := "acquisition-prospect-prebuild-v1".
(** [company_research/contracts.py:30-30 SIZE_BAND_VERSION] *)
Definition SIZE_BAND_VERSION : string := "company-size-v1".

(** [company_research/contracts.py:102-116 ResearchGap] *)
Definition RESEARCH_GAPS : list string :=
  ["MISSING_DOMAIN_OR_WEBSITE"; "MISSING_COUNTRY"; "MISSING_INDUSTRY"; "MISSING_EMPLOYEE_COUNT";
   "INVALID_PRIMARY_DOMAIN"; "INVALID_WEBSITE_URL"; "INVALID_COUNTRY"; "INVALID_INDUSTRY";
   "INVALID_EMPLOYEE_COUNT"; "INVALID_FOUNDED_YEAR"; "INVALID_DESCRIPTION";
   "TRUNCATED_DESCRIPTION"; "INVALID_KEYWORDS"; "TRUNCATED_KEYWORDS"].

(** [company_research/contracts.py:204-239 AcquisitionProspectPrebuild] with
    the two times of [AcquisitionCompanyProfile]; enumerations by their
    value. *)
Record AcquisitionCompanyProfile : Type := mkProfile {
  pf_acquisition_opportunity_id : string;
  pf_signal_ref : string;
  pf_supplier_ref : string;
  pf_contact_ref : string;
  pf_supplier_identity_status : SupplierIdentityStatus;
  pf_provider : string;
  pf_provider_organization_id : string;
  pf_provider_company_name : string;
  pf_provider_primary_domain : option string;
  pf_provider_website_url : option string;
  pf_provider_country : option string;
  pf_provider_industry : option string;
  pf_provider_employee_count : option Z;
  pf_provider_founded_year : option Z;
  pf_provider_short_description : option string;
  pf_provider_keywords : list string;
  pf_provider_observed_at : datetime;
  pf_provider_source_fingerprint : string;
  pf_contact_role_profile_version : string;
  pf_contact_role_tier : Z;
  pf_provider_research_status : string;
  pf_research_completeness : string;
  pf_research_gaps : list string;
  pf_size_band : string;
  pf_size_band_version : string;
  pf_prebuild_version : string;
  pf_prebuild_fingerprint : string;
  pf_created_at : datetime;
  pf_updated_at : datetime;
}.

Definition between (lo hi : Z) (o : option Z) : bool :=
  match o with Some n => (lo <=? n) && (n <=? hi) | None => true end.

(** [^[A-Za-z0-9][A-Za-z0-9_-]{0,127}$] *)
Definition is_provider_id (s : string) : bool :=
  let alnum c := is_upper c || is_lower c || is_digit c in
  match s with
  | EmptyString => false
  | String c t =>
      alnum c && (len t <=? 127) && all_chars (fun d => alnum d || eqc d "_" || eqc d "-") t
  end.

(** [company_research/contracts.py:204-239 AcquisitionProspectPrebuild] *)
Definition profile_validate (p : AcquisitionCompanyProfile) : result AcquisitionCompanyProfile :=
  let! opportunity := KStableRef "acquisition_opportunity_id" (pf_acquisition_opportunity_id p) in
  let! signal := KStableRef "signal_ref" (pf_signal_ref p) in
  let! supplier := KStableRef "supplier_ref" (pf_supplier_ref p) in
  let! contact := KStableRef "contact_ref" (pf_contact_ref p) in
  let! provider := checked "provider" (fun p => in_list p ["apollo"; "sirene"]) (pf_provider p) in
  let! organization := checked "provider_organization_id" is_provider_id
                         (ustrip (pf_provider_organization_id p)) in
  let! name := ShortText "provider_company_name" (pf_provider_company_name p) in
  let! domain := opt_mapM (at_most "provider_primary_domain" 253) (pf_provider_primary_domain p) in
  let! website := opt_mapM (at_most "provider_website_url" 2048) (pf_provider_website_url p) in
  let! country := opt_mapM (at_most "provider_country" 128) (pf_provider_country p) in
  let! industry := opt_mapM (at_most "provider_industry" 256) (pf_provider_industry p) in
  let! employees := checked "provider_employee_count" (between 0 10000000)
                      (pf_provider_employee_count p) in
  let! founded := checked "provider_founded_year" (between 1000 9999)
                    (pf_provider_founded_year p) in
  let! description := opt_mapM (at_most "provider_short_description" 2000)
                        (pf_provider_short_description p) in
  require! zlength (pf_provider_keywords p) <=? 32 else ValidationError "provider_keywords" in
  let! keywords := mapM_result (uconstr "provider_keywords" 1 128) (pf_provider_keywords p) in
  let! observed := checked "provider_observed_at" aware (pf_provider_observed_at p) in
  let! source := KFingerprint "provider_source_fingerprint" (pf_provider_source_fingerprint p) in
  let! version := ShortText "contact_role_profile_version" (pf_contact_role_profile_version p) in
  let! tier := checked "contact_role_tier" (fun n => (1 <=? n) && (n <=? 4))
                 (pf_contact_role_tier p) in
  let! status := checked "provider_research_status"
    (fun s => bool_decide (s = "CURRENT_PROVIDER_RECORD")) (pf_provider_research_status p) in
  let! completeness := checked "research_completeness"
    (fun s => in_list s ["COMPLETE"; "LIMITED"]) (pf_research_completeness p) in
  require! zlength (pf_research_gaps p) <=? 32 else ValidationError "research_gaps" in
  let! gaps := mapM_result (checked "research_gaps" (fun s => in_list s RESEARCH_GAPS))
                 (pf_research_gaps p) in
  let! band := checked "size_band"
    (fun s => in_list s ["UNKNOWN"; "MICRO"; "SMB"; "MID_MARKET"; "ENTERPRISE"])
    (pf_size_band p) in
  let! band_version := ShortText "size_band_version" (pf_size_band_version p) in
  let! prebuild := ShortText "prebuild_version" (pf_prebuild_version p) in
  let! fingerprint := KFingerprint "prebuild_fingerprint" (pf_prebuild_fingerprint p) in
  let! created := checked "created_at" aware (pf_created_at p) in
  let! updated := checked "updated_at" aware (pf_updated_at p) in
  Ok (mkProfile opportunity signal supplier contact (pf_supplier_identity_status p) provider
        organization name domain website country industry employees founded description keywords
        observed source version tier status completeness gaps band band_version prebuild
        fingerprint created updated).

(** [company_research/store.py:39-45 _profile] *)
Definition _profile (p : AcquisitionCompanyProfile) : result AcquisitionCompanyProfile :=
  profile_validate
    (mkProfile (pf_acquisition_opportunity_id p) (pf_signal_ref p) (pf_supplier_ref p)
       (pf_contact_ref p) (pf_supplier_identity_status p) (pf_provider p)
       (pf_provider_organization_id p) (pf_provider_company_name p) (pf_provider_primary_domain p)
       (pf_provider_website_url p) (pf_provider_country p) (pf_provider_industry p)
       (pf_provider_employee_count p) (pf_provider_founded_year p)
       (pf_provider_short_description p) (pf_provider_keywords p)
       (assume_utc (pf_provider_observed_at p)) (pf_provider_source_fingerprint p)
       (pf_contact_role_profile_version p) (pf_contact_role_tier p)
       (pf_provider_research_status p) (pf_research_completeness p) (pf_research_gaps p)
       (pf_size_band p) (pf_size_band_version p) (pf_prebuild_version p)
       (pf_prebuild_fingerprint p) (assume_utc (pf_created_at p)) (assume_utc (pf_updated_at p))).

(** [company_research/store.py:283-296 get_profile_in_transaction] *)
Definition get_profile_in_transaction (profiles : gmap string AcquisitionCompanyProfile)
    (opportunity_id : string) : result AcquisitionCompanyProfile :=
  let! row := option_to_result NoResultFound (profiles !! opportunity_id) in _profile row.

(** * Messages *)

(** The columns of [acquisition_personalization_artifact] compliance
    reads. *)
Record personalization_artifact : Type := mkArtifact {
  pa_personalization_artifact_id : string;
  pa_acquisition_opportunity_id : string;
  pa_supplier_ref : string;
  pa_contact_ref : string;
  pa_decision_evaluation_id : string;
  pa_language : string;
  pa_input_fingerprint : string;
  pa_proposal_fingerprint : string;
  pa_policy_action_fingerprint : string;
  pa_artifact_fingerprint : string;
  pa_input_snapshot : PyJson.dict;
  pa_disposition : string;
  pa_recorded_event_id : option string;
  pa_created_at : datetime;
}.
