(* ===== verification/ComplianceStore.v ===== *)
(** ComplianceStore: the suppressions and the assessments of
    [compliance/store.py], two tables that only grow.  A suppression is found
    by the HMAC of an address under one of the keys still held; when a row
    was written under a key no longer held, nothing is clear. *)

From S2P Require Import Prelude PyStr PyText PyDatetime PyJson Database PolicyContracts.
From S2P Require Import ComplianceContracts Suppression ContactContracts ContactStore.
From S2P Require Import ProspectRecords.
From Stdlib Require Import Ascii String.

Local Open Scope string_scope.
Local Open Scope Z_scope.
Local Open Scope list_scope.

(** * Tables *)

(** [persistence/schema.py:1991-2032 acquisition_contact_suppression] *)
Record suppression_row : Type := mkSuppression {
  sr_suppression_id : string;
  sr_identity_hmac : string;
  sr_identity_key_version : string;
  sr_scope : string;
  sr_source : SuppressionSource;
  sr_reason_code : SuppressionReasonCode;
  sr_evidence_ref : string;
  sr_contact_ref : option string;
  sr_supplier_ref : option string;
  sr_received_at : datetime;
  sr_effective_at : datetime;
  sr_minimum_retention_until : datetime;
  sr_supersedes_suppression_id : option string;
  sr_created_at : datetime;
}.

#[export] Instance suppression_row_eq_dec : EqDecision suppression_row.
Proof. solve_decision. Defined.

(** The tables: suppressions by identifier, assessments by the policy
    evaluation they answer, and those compliance reads. *)
Record compliance_db : Type := mkqdb {
  qdb_contacts : contact_db;
  qdb_suppliers : gmap string SupplierRecord;
  qdb_profiles : gmap string AcquisitionCompanyProfile;
  qdb_artifacts : list personalization_artifact;
  qdb_suppressions : gmap string suppression_row;
  qdb_assessments : gmap string ComplianceAssessmentWrite;
}.

Definition with_suppressions (s : gmap string suppression_row) (db : compliance_db)
  : compliance_db :=
  mkqdb (qdb_contacts db) (qdb_suppliers db) (qdb_profiles db) (qdb_artifacts db) s
    (qdb_assessments db).
Definition with_assessments (a : gmap string ComplianceAssessmentWrite) (db : compliance_db)
  : compliance_db :=
  mkqdb (qdb_contacts db) (qdb_suppliers db) (qdb_profiles db) (qdb_artifacts db)
    (qdb_suppressions db) a.
Definition with_contacts (c : contact_db) (db : compliance_db) : compliance_db :=
  mkqdb c (qdb_suppliers db) (qdb_profiles db) (qdb_artifacts db) (qdb_suppressions db)
    (qdb_assessments db).

Section store.
Context `{Hash : HashLib} `{Hmac : HmacLib} `{DB : Database} `{Case : CaseData}.

(** * Fingerprints *)

(** [compliance/store.py:45-55 _semantic] of a datetime. *)
Definition _semantic (value : datetime) : result string :=
  let! utc := astimezone_utc (assume_utc value) in Ok (isoformat utc).

(** [_semantic(dict(values))], without the identifier. *)
Definition suppression_values (r : suppression_row) : result json :=
  let! received := _semantic (sr_received_at r) in
  let! effective := _semantic (sr_effective_at r) in
  let! retention := _semantic (sr_minimum_retention_until r) in
  let! created := _semantic (sr_created_at r) in
  Ok (JObj [("identity_hmac", JStr (sr_identity_hmac r));
            ("identity_key_version", JStr (sr_identity_key_version r));
            ("scope", JStr (sr_scope r)); ("source", JStr (source_value (sr_source r)));
            ("reason_code", JStr (suppression_reason_value (sr_reason_code r)));
            ("evidence_ref", JStr (sr_evidence_ref r));
            ("contact_ref", JOptStr (sr_contact_ref r));
            ("supplier_ref", JOptStr (sr_supplier_ref r)); ("received_at", JStr received);
            ("effective_at", JStr effective); ("minimum_retention_until", JStr retention);
            ("supersedes_suppression_id", JOptStr (sr_supersedes_suppression_id r));
            ("created_at", JStr created)]).

(** [compliance/store.py:58-62 suppression_id] *)
Definition suppression_id (r : suppression_row) : result string :=
  let! values := suppression_values r in
  let! encoded := dumps values in
  Ok (sha256_hexdigest ("acquisition-suppression-v1" +:+ NUL +:+ encoded)).

(** [compliance/store.py:65-66 compliance_assessment_id] *)
Definition compliance_assessment_id (policy_evaluation_id : string) : string :=
  sha256_hexdigest ("compliance-assessment-v1" +:+ NUL +:+ policy_evaluation_id).

(** * Suppressions *)

(** [int(s, 16)] of hexadecimal digits. *)
Fixpoint hex_value (acc : Z) (s : string) : Z :=
  match s with
  | EmptyString => acc
  | String c s' =>
      hex_value (16 * acc + (if is_digit c then code c - 48 else code c - 87)) s'
  end.

(** [compliance/store.py:268-270 _lock_identities_in_transaction]: the key of
    an advisory lock, the first sixteen digits of an identity as a signed
    64-bit integer. *)
Definition lock_key (identity : string) : Z :=
  let key := hex_value 0 (stake 16 identity) in
  if 2 ^ 63 <=? key then key - 2 ^ 64 else key.

(** [compliance/store.py:252-276 _lock_identities_in_transaction] on
    PostgreSQL: the locks of the identities, in order. *)
Definition _lock_identities_in_transaction (identities : gmap string string) : list Z :=
  map lock_key (sorted_by string_leb (rows identities)).

(** The columns of the table and its check constraints. *)
Definition suppression_columns (r : suppression_row) : result suppression_row :=
  let! id := varchar "suppression_id" 64 (sr_suppression_id r) in
  let! hmac := varchar "identity_hmac" 64 (sr_identity_hmac r) in
  let! version := uvarchar "identity_key_version" 64 (sr_identity_key_version r) in
  let! scope := varchar "scope" 64 (sr_scope r) in
  let! evidence := uvarchar "evidence_ref" 256 (sr_evidence_ref r) in
  let! contact := opt_mapM (uvarchar "contact_ref" 64) (sr_contact_ref r) in
  let! supplier := opt_mapM (uvarchar "supplier_ref" 64) (sr_supplier_ref r) in
  let! _ := check_constraint "ck_suppression_scope" (in_list scope suppression_scopes) in
  let! _ := check_constraint "ck_suppression_retention_order"
    (dt_leb (sr_received_at r) (sr_minimum_retention_until r)) in
  Ok (mkSuppression id hmac version scope (sr_source r) (sr_reason_code r) evidence contact
        supplier (timestamptz (sr_received_at r)) (timestamptz (sr_effective_at r))
        (timestamptz (sr_minimum_retention_until r)) (sr_supersedes_suppression_id r)
        (timestamptz (sr_created_at r))).

Definition opt_holds {A} (f : A -> bool) (o : option A) : bool :=
  match o with Some x => f x | None => true end.

(** [compliance/store.py:284-289 _append_in_transaction]: [INSERT ... ON
    CONFLICT (suppression_id) DO NOTHING RETURNING 1]. *)
Definition insert_suppression (db : compliance_db) (r : suppression_row)
  : result (bool * compliance_db) :=
  let! row := suppression_columns r in
  match qdb_suppressions db !! sr_suppression_id row with
  | Some _ => Ok (false, db)
  | None =>
      let! _ := check_constraint "acquisition_contact_suppression_contact_ref_fkey"
        (opt_holds (fun c => truthy (kdb_contacts (qdb_contacts db) !! c)) (sr_contact_ref row)) in
      let! _ := check_constraint "acquisition_contact_suppression_supplier_ref_fkey"
        (opt_holds (fun s => truthy (qdb_suppliers db !! s)) (sr_supplier_ref row)) in
      let! _ := check_constraint "acquisition_contact_suppression_supersedes_fkey"
        (opt_holds (fun s => truthy (qdb_suppressions db !! s))
           (sr_supersedes_suppression_id row)) in
      Ok (true, with_suppressions (<[sr_suppression_id row := row]> (qdb_suppressions db)) db)
  end.

(** [compliance/store.py:278-305 _append_in_transaction] *)
Definition _append_in_transaction (db : compliance_db) (values : suppression_row)
  : result (suppression_row * compliance_db) :=
  let id := sr_suppression_id values in
  let! (inserted, db1) := insert_suppression db values in
  match qdb_suppressions db1 !! id with
  | None => Raise (SuppressionIdempotencyConflict id)
  | Some row =>
      if inserted then Ok (row, db1)
      else
        let! stored := suppression_values row in
        let! given := suppression_values values in
        require! bool_decide (stored = given) else SuppressionIdempotencyConflict id in
        Ok (row, db1)
  end.

(** [compliance/store.py:34-34 _EVIDENCE_PREFIX] *)
Definition _EVIDENCE_PREFIX : string := "suppression-evidence:".

(** [compliance/store.py:123-132 record_for_contact_in_transaction]: the
    reference is opaque. *)
Definition opaque_evidence (evidence_ref : string) : bool :=
  startswith evidence_ref _EVIDENCE_PREFIX
  && (len evidence_ref =? len _EVIDENCE_PREFIX + 64)
  && all_chars is_hex_lower (sdrop (String.length _EVIDENCE_PREFIX) evidence_ref).

(** The row a recording writes. *)
Definition new_suppression (scope : string) (source : SuppressionSource)
    (reason_code : SuppressionReasonCode) (evidence_ref : string) (hmac version : string)
    (contact_ref supplier_ref : option string) (received_at effective_at : datetime)
  : result suppression_row :=
  let! retention := minimum_retention_until received_at in
  let row id := mkSuppression id hmac version scope source reason_code evidence_ref contact_ref
    supplier_ref received_at effective_at retention None received_at in
  let! id := suppression_id (row EmptyString) in
  Ok (row id).

(** [compliance/store.py:69-78 SuppressionStore]: its scope and its keyring. *)
Record SuppressionStore : Type := mkStore {
  ss_keyring : SuppressionIdentityKeyring;
  ss_scope : string;
}.

(** [compliance/store.py:103-156 record_for_contact_in_transaction] *)
Definition record_for_contact_in_transaction (self : SuppressionStore) (db : compliance_db)
    (contact_ref : string) (source : SuppressionSource) (reason_code : SuppressionReasonCode)
    (evidence_ref : string) (received_at : datetime) (effective_at : option datetime)
    (key_version : option string) : result (suppression_row * compliance_db) :=
  require! aware received_at else ValueError "received_at must be timezone-aware" in
  require! ComplianceContracts._aware effective_at
  else ValueError "effective_at must be timezone-aware" in
  require! opaque_evidence evidence_ref else ValueError "suppression evidence_ref must be opaque" in
  let keyring := ss_keyring self in
  let version := match key_version with
                 | Some v => if nonempty v then v else kg_current_key_version keyring
                 | None => kg_current_key_version keyring
                 end in
  let! _ := require_versions_covered keyring [version] in
  let! contact := get_contact_in_transaction (qdb_contacts db) contact_ref in
  let! identities := identities_for_email keyring (co_business_email (kr_observation contact))
                       (ss_scope self) in
  let! hmac := option_to_result (KeyError version) (identities !! version) in
  let! values := new_suppression (ss_scope self) source reason_code evidence_ref hmac version
    (Some (kr_contact_ref contact)) (Some (co_supplier_ref (kr_observation contact))) received_at
    (default received_at effective_at) in
  _append_in_transaction db values.

(** [compliance/store.py:80-101 record_for_contact] *)
Definition record_for_contact (self : SuppressionStore) (db : compliance_db)
    (contact_ref : string) (source : SuppressionSource) (reason_code : SuppressionReasonCode)
    (evidence_ref : string) (received_at : datetime) (effective_at : option datetime)
    (key_version : option string) : result (suppression_row * compliance_db) :=
  record_for_contact_in_transaction self db contact_ref source reason_code evidence_ref
    received_at effective_at key_version.

(** [compliance/store.py:158-200 record_for_email_in_transaction] *)
Definition record_for_email_in_transaction (self : SuppressionStore) (db : compliance_db)
    (email : string) (source : SuppressionSource) (reason_code : SuppressionReasonCode)
    (evidence_ref : string) (received_at : datetime) : result (suppression_row * compliance_db) :=
  require! aware received_at else ValueError "received_at must be timezone-aware" in
  require! startswith evidence_ref _EVIDENCE_PREFIX
           && (ulen evidence_ref =? ulen _EVIDENCE_PREFIX + 64)
  else ValueError "suppression evidence_ref must be opaque" in
  let! identities := identities_for_email (ss_keyring self) email (ss_scope self) in
  let version := kg_current_key_version (ss_keyring self) in
  let! hmac := option_to_result (KeyError version) (identities !! version) in
  let! values := new_suppression (ss_scope self) source reason_code evidence_ref hmac version None
    None received_at received_at in
  _append_in_transaction db values.

(** [compliance/store.py:226-240 match_contact_in_transaction]: a row of
    the scope whose identity is that of the address under the key of its
    version. *)
Definition suppresses (scope : string) (identities : gmap string string) (at_ : option datetime)
    (r : suppression_row) : bool :=
  bool_decide (sr_scope r = scope)
  && bool_decide (identities !! sr_identity_key_version r = Some (sr_identity_hmac r))
  && match at_ with Some at_ => dt_leb (sr_effective_at r) at_ | None => true end.

(** [compliance/store.py:212-218 match_contact_in_transaction]: the versions
    in use in the scope. *)
Definition retained_versions (scope : string) (db : compliance_db) : list string :=
  dict_fromkeys (map sr_identity_key_version
    (filter (fun r => sr_scope r = scope) (rows (qdb_suppressions db)))).

(** [compliance/store.py:206-250 match_contact_in_transaction] *)
Definition match_contact_in_transaction (self : SuppressionStore) (db : compliance_db)
    (contact_ref : string) (at_ : option datetime) : result SuppressionMatch :=
  let keyring := ss_keyring self in
  let! contact := get_contact_in_transaction (qdb_contacts db) contact_ref in
  let! identities := identities_for_email keyring (co_business_email (kr_observation contact))
                       (ss_scope self) in
  let versions := key_versions keyring in
  if list_truthy (missing_versions keyring (retained_versions (ss_scope self) db)) then
    match_validate
      (mkMatch COVERAGE_UNSAFE versions ["suppression-keyring:coverage-unsafe"])
  else
    require! ComplianceContracts._aware at_
    else ValueError "suppression assessment time must be timezone-aware" in
    let matches := sorted_by string_leb
      (map sr_suppression_id
         (filter (fun r => suppresses (ss_scope self) identities at_ r = true)
            (rows (qdb_suppressions db)))) in
    match_validate
      (mkMatch (if list_truthy matches then MATCHED else CLEAR) versions
         (map (fun v => "acquisition-suppression:" +:+ v) matches)).

(** [compliance/store.py:202-204 match_contact] *)
Definition match_contact (self : SuppressionStore) (db : compliance_db) (contact_ref : string)
    (at_ : option datetime) : result SuppressionMatch :=
  match_contact_in_transaction self db contact_ref at_.

(** * Assessments *)

(** The rows of other tables the assessments refer to. *)
Record assessment_references : Type := mkAssessmentReferences {
  ar_has_opportunity : string -> bool;
  ar_has_evaluation : string -> bool;
  ar_has_event : string -> bool;
}.

(** [compliance/store.py:316-326 get_by_policy_in_transaction] *)
Definition get_by_policy_in_transaction (db : compliance_db) (policy_evaluation_id : string)
  : option ComplianceAssessmentWrite := qdb_assessments db !! policy_evaluation_id.

(** [compliance/store.py:312-314 get_by_policy] *)
Definition get_by_policy (db : compliance_db) (policy_evaluation_id : string)
  : option ComplianceAssessmentWrite := get_by_policy_in_transaction db policy_evaluation_id.

(** [persistence/schema.py:2037-2124 acquisition_compliance_assessment]: the
    columns and the check constraints. *)
Definition assessment_columns (w : ComplianceAssessmentWrite) : result ComplianceAssessmentWrite :=
  let! id := varchar "compliance_assessment_id" 64 (aw_compliance_assessment_id w) in
  let! opportunity := varchar "acquisition_opportunity_id" 64 (aw_acquisition_opportunity_id w) in
  let! artifact := varchar "personalization_artifact_id" 64 (aw_personalization_artifact_id w) in
  let! supplier := varchar "supplier_ref" 64 (aw_supplier_ref w) in
  let! contact := varchar "contact_ref" 64 (aw_contact_ref w) in
  let! evaluation := varchar "policy_evaluation_id" 64 (aw_policy_evaluation_id w) in
  let! status := varchar "policy_status" 32 (aw_policy_status w) in
  let! counterfactual := opt_mapM (varchar "policy_counterfactual_status" 32)
                           (aw_policy_counterfactual_status w) in
  let! version := int4 "expected_post_policy_version" (aw_expected_post_policy_version w) in
  let! event := opt_mapM (varchar "recorded_event_id" 64) (aw_recorded_event_id w) in
  let! _ := check_constraint "ck_compliance_assessment_recorded_event"
    (match aw_disposition w with RECORDED => truthy event | POLICY_BLOCKED => negb (truthy event) end) in
  let! _ := check_constraint "ck_compliance_assessment_next_action"
    (match aw_state w with
     | ComplianceALLOWED => bool_decide (aw_next_action w = Some "schedule_campaign")
     | ComplianceREVIEW_REQUIRED => bool_decide (aw_next_action w = Some "request_human_review")
     | ComplianceUNKNOWN => bool_decide (aw_next_action w = Some "request_human_review")
                            || bool_decide (aw_next_action w = None)
     | ComplianceBLOCKED => bool_decide (aw_next_action w = None)
     end) in
  let! _ := check_constraint "ck_compliance_assessment_validity"
    (Bool.eqb (bool_decide (aw_state w = ComplianceALLOWED)) (truthy (aw_valid_until w))) in
  let! _ := check_constraint "ck_compliance_assessment_expected_version" (2 <=? version) in
  Ok (mkWrite id opportunity artifact supplier contact evaluation (aw_jurisdiction w)
        (aw_ruleset_config_fingerprint w) (aw_input_fingerprint w) (aw_proposal_fingerprint w)
        (aw_policy_action_fingerprint w) (aw_state w) (aw_reason_codes w) (aw_evidence_refs w)
        (aw_input_snapshot w) (timestamptz <$> aw_valid_until w) status counterfactual version
        (aw_disposition w) (aw_next_action w) event (timestamptz (aw_created_at w))).

(** [INSERT ... ON CONFLICT (policy_evaluation_id) DO NOTHING RETURNING 1]. *)
Definition insert_assessment (refs : assessment_references) (db : compliance_db)
    (w : ComplianceAssessmentWrite) : result (bool * compliance_db) :=
  let! row := assessment_columns w in
  match qdb_assessments db !! aw_policy_evaluation_id row with
  | Some _ => Ok (false, db)
  | None =>
      let others := rows (qdb_assessments db) in
      let! _ := check_constraint "acquisition_compliance_assessment_pkey"
        (negb (existsb (fun r => bool_decide (aw_compliance_assessment_id r
                                              = aw_compliance_assessment_id row)) others)) in
      let! _ := check_constraint "acquisition_compliance_assessment_recorded_event_id_key"
        (opt_holds (fun e => negb (existsb (fun r =>
           bool_decide (aw_recorded_event_id r = Some e)) others)) (aw_recorded_event_id row)) in
      let! _ := check_constraint "acquisition_compliance_assessment_fkey"
        (ar_has_opportunity refs (aw_acquisition_opportunity_id row)
         && existsb (fun a => bool_decide (pa_personalization_artifact_id a
                                           = aw_personalization_artifact_id row))
              (qdb_artifacts db)
         && truthy (qdb_suppliers db !! aw_supplier_ref row)
         && truthy (kdb_contacts (qdb_contacts db) !! aw_contact_ref row)
         && ar_has_evaluation refs (aw_policy_evaluation_id row)
         && opt_holds (ar_has_event refs) (aw_recorded_event_id row)) in
      Ok (true, with_assessments
                  (<[aw_policy_evaluation_id row := row]> (qdb_assessments db)) db)
  end.

(** The fields of a row but its times. *)
Definition undated (w : ComplianceAssessmentWrite) : ComplianceAssessmentWrite :=
  mkWrite (aw_compliance_assessment_id w) (aw_acquisition_opportunity_id w)
    (aw_personalization_artifact_id w) (aw_supplier_ref w) (aw_contact_ref w)
    (aw_policy_evaluation_id w) (aw_jurisdiction w) (aw_ruleset_config_fingerprint w)
    (aw_input_fingerprint w) (aw_proposal_fingerprint w) (aw_policy_action_fingerprint w)
    (aw_state w) (aw_reason_codes w) (aw_evidence_refs w) (aw_input_snapshot w) None
    (aw_policy_status w) (aw_policy_counterfactual_status w) (aw_expected_post_policy_version w)
    (aw_disposition w) (aw_next_action w) (aw_recorded_event_id w) RULESET_EFFECTIVE_FROM.

(** [_semantic] of the fields of a row. *)
Definition assessment_values (w : ComplianceAssessmentWrite)
  : result (ComplianceAssessmentWrite * option string * string) :=
  let! until := opt_mapM _semantic (aw_valid_until w) in
  let! created := _semantic (aw_created_at w) in
  Ok (undated w, until, created).

(** [compliance/store.py:328-359 append_in_transaction] *)
Definition append_assessment (refs : assessment_references) (db : compliance_db)
    (write : ComplianceAssessmentWrite) : result (ComplianceAssessmentWrite * compliance_db) :=
  let id := aw_policy_evaluation_id write in
  let! (inserted, db1) := insert_assessment refs db write in
  match get_by_policy_in_transaction db1 id with
  | None => Raise (ComplianceAssessmentIdempotencyConflict id)
  | Some row =>
      if inserted then Ok (row, db1)
      else
        let! stored := assessment_values row in
        let! given := assessment_values write in
        require! bool_decide (stored = given) else ComplianceAssessmentIdempotencyConflict id in
        Ok (row, db1)
  end.
End store.
