(* ===== verification/ComplianceService.v ===== *)
(** ComplianceService: the assessment of one opportunity
    ([compliance/service.py]) - load what it stands on, decide by the rules,
    ask the policy gateway, and record the assessment with the event that
    moves the opportunity on, after loading and deciding again in the
    transaction that commits.

    A call opens transactions one after the other; what other processes
    commit before each of them is [se_others].  A call that raises keeps what
    its earlier transactions committed.

    First, the building of a request for the policy gateway
    ([policy/contracts.py], [PolicyRequest]): the validation of its fields
    and the guard on the arguments it carries. *)

From S2P Require Import Prelude PyStr PyDatetime PyDecimal PyJson PolicyContracts PyText.
From S2P Require Import Database AcquisitionContracts AcquisitionStateMachine.
From S2P Require Import AcquisitionStore PolicyStore PolicyGateway PolicyGatewayTheorems.
From S2P Require Import ContactContracts ContactStore ProspectRecords Suppression.
From S2P Require Import ComplianceContracts ComplianceRules ComplianceStore.
From Stdlib Require Import Ascii String.
From S2P Require AcquisitionContracts.

(** * Requests *)
Local Open Scope string_scope.
Local Open Scope Z_scope.
Local Open Scope list_scope.

(** [policy/contracts.py:26-26 MAX_ARGUMENT_BYTES] *)
Definition MAX_ARGUMENT_BYTES : Z := 16384.

Definition PROHIBITED_ARGUMENT_KEYS : list string :=
  ["password"; "secret"; "api_key"; "authorization"; "access_token"; "refresh_token";
   "session_token"; "private_key"; "chain_of_thought"; "reasoning_trace"; "scratchpad";
   "hidden_reasoning"].

(** [policy/contracts.py:125-139 _guard_structure]: [true] when it raises no
    ValueError. *)
Fixpoint _guard_structure (value : json) : bool :=
  match value with
  | JObj l =>
      (fix go (l : dict) : bool :=
         match l with
         | [] => true
         | (raw_key, nested) :: l' =>
             negb (in_list (AcquisitionContracts._normalized_key raw_key) PROHIBITED_ARGUMENT_KEYS)
             && _guard_structure nested && go l'
         end) l
  | JList l =>
      (fix go (l : list json) : bool :=
         match l with [] => true | nested :: l' => _guard_structure nested && go l' end) l
  | _ => true
  end.

(** [policy/contracts.py:142-150 _guard_text] of the text of a JSON value. *)
Definition _guard_text (arguments : json) (value : string) : bool :=
  (len value <=? MAX_ARGUMENT_BYTES) && _guard_structure arguments.

(** [policy/contracts.py:153-156 Scope]: its fields. *)
Definition scope_validate (s : Scope) : result Scope :=
  let! country := opt_mapM (matching "country" is_country) (sc_country s) in
  let! language := opt_mapM (matching "language" is_language) (sc_language s) in
  let! wedge := opt_mapM (PShortCode "wedge") (sc_wedge s) in
  Ok (mkScope country language wedge).

(** [policy/contracts.py:354-382 PolicyRequest], whose arguments are the
    canonical text of [arguments]. *)
Definition policy_request_validate (arguments : json) (r : PolicyRequest) : result PolicyRequest :=
  let! evaluation := EvaluationIdentifier "evaluation_id" (pr_evaluation_id r) in
  let! request := PIdentifier "request_id" (pr_request_id r) in
  let! command := CommandName "command" (pr_command r) in
  let! target := PStableRef "target_ref" (pr_target_ref r) in
  let! opportunity := opt_mapM (PIdentifier "acquisition_opportunity_id")
                        (pr_acquisition_opportunity_id r) in
  let! qa := opt_mapM (PStableRef "qa_signal_ref") (pr_qa_signal_ref r) in
  let! version := checked "expected_opportunity_version"
    (fun o => match o with Some v => 1 <=? v | None => true end)
    (pr_expected_opportunity_version r) in
  let! actor := matching "actor_type" (fun s => in_list s ["SYSTEM"; "HERMES"; "HUMAN"; "EXTERNAL"])
                  (pr_actor_type r) in
  let! actor_ref := opt_mapM (PStableRef "actor_ref") (pr_actor_ref r) in
  let! text := checked "canonical_arguments" (_guard_text arguments)
                 (strip (pr_canonical_arguments r)) in
  let! action := PFingerprint "action_fingerprint" (pr_action_fingerprint r) in
  let! cost := checked "proposed_cost" _finite_nonnegative (pr_proposed_cost r) in
  let! currency := Currency "currency" (pr_currency r) in
  let! volume := checked "proposed_volume" (Z.leb 0) (pr_proposed_volume r) in
  let! reasons := items "reason_codes" PShortCode MAX_POLICY_REASON_CODES (pr_reason_codes r) in
  let! refs := items "evidence_refs" PStableRef MAX_POLICY_EVIDENCE_REFS (pr_evidence_refs r) in
  let! policy := PShortCode "expected_policy_version" (pr_expected_policy_version r) in
  require! zlength (pr_approval_grants r) <=? MAX_APPROVAL_GRANTS
  else ValidationError "approval_grants" in
  let! plan := opt_mapM (PIdentifier "supervisor_plan_id") (pr_supervisor_plan_id r) in
  let! index := checked "supervisor_action_index"
    (fun o => match o with Some v => 0 <=? v | None => true end) (pr_supervisor_action_index r) in
  let! supervisor := opt_mapM (PShortCode "supervisor_version") (pr_supervisor_version r) in
  let! skill := opt_mapM (PShortCode "skill_version") (pr_skill_version r) in
  Ok (mkPolicyRequest evaluation request command target opportunity qa version actor actor_ref text
        action (pr_scope r) cost currency volume reasons refs (pr_evidence r) (pr_compliance r)
        (pr_operational r) policy (pr_approval_grants r) plan index supervisor skill).

(** * Tables and the others *)

(** All the tables an assessment touches. *)
Record service_db : Type := mksdb {
  sdb_gateway : gateway_db acq_db;
  sdb_compliance : compliance_db;
}.

Definition with_compliance (c : compliance_db) (db : service_db) : service_db :=
  mksdb (sdb_gateway db) c.
Definition acquisition_of (db : service_db) : acq_db := gdb_journal (sdb_gateway db).
Definition with_acquisition (a : acq_db) (db : service_db) : service_db :=
  mksdb (mkgdb (gdb_policy (sdb_gateway db)) a) (sdb_compliance db).

Definition assessment_refs (db : service_db) : assessment_references :=
  mkAssessmentReferences
    (fun id => truthy (db_opportunities (acquisition_of db) !! id))
    (fun id => truthy (find_evaluation (gdb_policy (sdb_gateway db)) id))
    (fun id => existsb (fun e => bool_decide (ev_event_id e = id)) (db_events (acquisition_of db))).

Definition contact_refs (db : service_db) : references :=
  mkReferences
    (fun id => truthy (qdb_suppliers (sdb_compliance db) !! id))
    (fun id => truthy (db_opportunities (acquisition_of db) !! id))
    (fun id => truthy (find_evaluation (gdb_policy (sdb_gateway db)) id)).

(** What another process commits: an operation of a modelled store, or any
    writing of the tables that compliance only reads. *)
Inductive service_op : Type :=
| RecordForContact (store : SuppressionStore) (contact_ref : string) (source : SuppressionSource)
    (reason : SuppressionReasonCode) (evidence_ref : string) (received_at : datetime)
    (effective_at : option datetime) (key_version : option string)
| RecordForEmail (store : SuppressionStore) (email : string) (source : SuppressionSource)
    (reason : SuppressionReasonCode) (evidence_ref : string) (received_at : datetime)
| AppendAssessment (write : ComplianceAssessmentWrite)
| UpsertContact (now : datetime) (observation : ContactObservation)
| StartRun (start : ContactRunStart)
| ClaimRecovery (run_id : string)
| FinishRun (run_id : string) (outcome : run_outcome)
| WriteSuppliers (suppliers : gmap string SupplierRecord)
| WriteProfiles (profiles : gmap string AcquisitionCompanyProfile)
| WriteArtifacts (artifacts : list personalization_artifact)
| WriteGateway (write : gateway_db acq_db -> gateway_db acq_db).

Section service.
Context `{Hash : HashLib} `{Hmac : HmacLib} `{DB : Database} `{Case : CaseData}.

(** A transaction that raises leaves the tables as they were. *)
Definition commit_compliance {A} (r : result (A * compliance_db)) (db : service_db) : service_db :=
  match r with Ok (_, c) => with_compliance c db | Raise _ => db end.
Definition commit_contacts {A} (r : result (A * contact_db)) (db : service_db) : service_db :=
  match r with
  | Ok (_, k) => with_compliance (with_contacts k (sdb_compliance db)) db
  | Raise _ => db
  end.

Definition apply_service_op (op : service_op) (db : service_db) : service_db :=
  let c := sdb_compliance db in
  let k := qdb_contacts c in
  match op with
  | RecordForContact store ref source reason evidence received effective version =>
      commit_compliance
        (record_for_contact store c ref source reason evidence received effective version) db
  | RecordForEmail store email source reason evidence received =>
      commit_compliance
        (record_for_email_in_transaction store c email source reason evidence received) db
  | AppendAssessment w => commit_compliance (append_assessment (assessment_refs db) c w) db
  | UpsertContact now observation =>
      commit_contacts (upsert_contact (contact_refs db) now k observation) db
  | StartRun start => commit_contacts (start_run (contact_refs db) k start) db
  | ClaimRecovery run_id => commit_contacts (claim_recovery k run_id) db
  | FinishRun run_id outcome => commit_contacts (finish_run k run_id outcome) db
  | WriteSuppliers s =>
      with_compliance (mkqdb (qdb_contacts c) s (qdb_profiles c) (qdb_artifacts c)
                         (qdb_suppressions c) (qdb_assessments c)) db
  | WriteProfiles p =>
      with_compliance (mkqdb (qdb_contacts c) (qdb_suppliers c) p (qdb_artifacts c)
                         (qdb_suppressions c) (qdb_assessments c)) db
  | WriteArtifacts a =>
      with_compliance (mkqdb (qdb_contacts c) (qdb_suppliers c) (qdb_profiles c) a
                         (qdb_suppressions c) (qdb_assessments c)) db
  | WriteGateway f => mksdb (f (sdb_gateway db)) c
  end.

Definition apply_service_ops (ops : list service_op) (db : service_db) : service_db :=
  fold_left (fun db op => apply_service_op op db) ops db.

(** * Loading *)

(** [compliance/service.py:66-73 _COMPLIANCE_EVIDENCE] *)
Definition _COMPLIANCE_EVIDENCE : list string :=
  ["ACQUISITION_DECISION"; "PUBLIC_EVIDENCE"; "VERIFIED_CONTACT";
   "ACQUISITION_PROSPECT_PREBUILD"; "PERSONALIZATION_ARTIFACT"; "COMPLIANCE_INPUT"].

(** [compliance/service.py:100-101 _canonical] *)
Definition _canonical (value : json) : result string := dumps value.

(** [compliance/service.py:104-116 _action_fingerprint] *)
Definition _action_fingerprint (opportunity_id supplier_ref contact_ref proposal_fingerprint : string)
  : string :=
  finite_sha256
    (JObj [("kind", JStr "compliance-policy-action-v1");
           ("command", JStr "assess_campaign_compliance");
           ("acquisition_opportunity_id", JStr opportunity_id);
           ("supplier_ref", JStr supplier_ref); ("contact_ref", JStr contact_ref);
           ("proposal_fingerprint", JStr proposal_fingerprint)]).

(** What the service is made with, and what surrounds a call: the reading of
    the clock, the identifiers of the two events it appends, and what the
    others commit before each transaction. *)
Record service_env : Type := mkServiceEnv {
  se_clock : datetime;
  se_keyring : SuppressionIdentityKeyring;
  se_sender_config : SenderComplianceConfig;
  se_expected_contact_profile_version : string;
  se_policy_env : store_env;
  se_event_env : store_env;
  se_others : nat -> list service_op;
}.

(** [compliance/service.py:262-271 _require_actionable] *)
Definition actionable (o : AcquisitionOpportunity) : bool :=
  bool_decide (op_state o = SEND) && bool_decide (op_decision o = Some D_SEND)
  && bool_decide (op_next_action o = Some "assess_campaign_compliance")
  && opt_holds nonempty (op_supplier_ref o) && truthy (op_supplier_ref o)
  && opt_holds nonempty (op_contact_ref o) && truthy (op_contact_ref o).

(** [compliance/service.py:273-300 _require_bindings] *)
Definition bindings (expected_profile : string) (o : AcquisitionOpportunity)
    (artifact : personalization_artifact) (supplier : SupplierRecord) (contact : ContactRecord)
    (profile : AcquisitionCompanyProfile) : bool :=
  let c := kr_observation contact in
  bool_decide (Some (pa_supplier_ref artifact) = op_supplier_ref o)
  && bool_decide (op_supplier_ref o = Some (su_supplier_ref supplier))
  && bool_decide (Some (pa_contact_ref artifact) = op_contact_ref o)
  && bool_decide (op_contact_ref o = Some (kr_contact_ref contact))
  && bool_decide (pf_acquisition_opportunity_id profile = op_acquisition_opportunity_id o)
  && bool_decide (pf_signal_ref profile = op_signal_ref o)
  && bool_decide (pf_supplier_ref profile = su_supplier_ref supplier)
  && bool_decide (pf_contact_ref profile = kr_contact_ref contact)
  && bool_decide (pf_prebuild_version profile = PREBUILD_VERSION)
  && bool_decide (pf_size_band_version profile = SIZE_BAND_VERSION)
  && bool_decide (dict_get "company_prebuild_fingerprint" (pa_input_snapshot artifact)
                  = JStr (pf_prebuild_fingerprint profile))
  && bool_decide (co_supplier_ref c = su_supplier_ref supplier)
  && bool_decide (co_verification_state c = "PROVIDER_VERIFIED")
  && bool_decide (co_verification_provider c = "apollo")
  && bool_decide (co_provider_email_status c = "verified")
  && bool_decide (co_role_profile_version c = expected_profile)
  && bool_decide (pf_contact_role_profile_version profile = expected_profile)
  && bool_decide (co_role_profile_version c = pf_contact_role_profile_version profile)
  && (co_role_tier c =? pf_contact_role_tier profile)
  && in_list (su_identity_status supplier) [PROVIDER_IDENTIFIED; SIRENE_IDENTIFIED]
  && bool_decide (pf_supplier_identity_status profile = su_identity_status supplier).

(** What [_load] returns. *)
Record loaded : Type := mkLoaded {
  ld_opportunity : AcquisitionOpportunity;
  ld_artifact : personalization_artifact;
  ld_supplier : SupplierRecord;
  ld_contact : ContactRecord;
  ld_profile : AcquisitionCompanyProfile;
  ld_suppression : SuppressionMatch;
}.

(** [except (NoResultFound, ValidationError)] *)
Definition bound {A} (opportunity_id : string) (r : result A) : result A :=
  match r with
  | Raise NoResultFound | Raise (ValidationError _) => Raise (ComplianceBindingConflict opportunity_id)
  | _ => r
  end.

(** [compliance/service.py:218-232 _load_in_transaction]: the newest message
    that is ready. *)
Definition ready_artifact (db : compliance_db) (opportunity_id : string)
  : option personalization_artifact :=
  head (sorted_by (fun a b => dt_leb (pa_created_at b) (pa_created_at a))
    (filter (fun a => pa_acquisition_opportunity_id a = opportunity_id
                      /\ pa_disposition a = "READY") (qdb_artifacts db))).

(** [compliance/service.py:233-244 _load_in_transaction]: its event asked for
    an assessment. *)
Definition asks_assessment (db : acq_db) (artifact : personalization_artifact) : bool :=
  match first_match (fun e => bool_decide (Some (ev_event_id e) = pa_recorded_event_id artifact)
                              && bool_decide (ev_event_type e = NEXT_ACTION_SET))
          (db_events db) with
  | Some e => bool_decide (dict_get "next_action" (ev_payload e)
                           = JStr "assess_campaign_compliance")
  | None => false
  end.

Section env.
Variable env : service_env.

Definition suppression_store : SuppressionStore := mkStore (se_keyring env) SUPPRESSION_SCOPE.

(** [compliance/service.py:206-260 _load_in_transaction] *)
Definition _load_in_transaction (db : service_db) (opportunity_id : string)
    (current : AcquisitionOpportunity) : result loaded :=
  require! actionable current
  else ComplianceNotActionable (op_acquisition_opportunity_id current) in
  let! supplier_ref := option_to_result AssertionError (op_supplier_ref current) in
  let! contact_ref := option_to_result AssertionError (op_contact_ref current) in
  let c := sdb_compliance db in
  let! artifact := option_to_result (CompliancePersonalizationNotReady opportunity_id)
                     (ready_artifact c opportunity_id) in
  require! asks_assessment (acquisition_of db) artifact
  else CompliancePersonalizationNotReady opportunity_id in
  let! supplier := bound opportunity_id (get_supplier_in_transaction (qdb_suppliers c) supplier_ref) in
  let! contact := bound opportunity_id (get_contact_in_transaction (qdb_contacts c) contact_ref) in
  let! profile := bound opportunity_id (get_profile_in_transaction (qdb_profiles c) opportunity_id) in
  require! bindings (se_expected_contact_profile_version env) current artifact supplier contact profile
  else ComplianceBindingConflict (op_acquisition_opportunity_id current) in
  let! suppression :=
    match_contact_in_transaction suppression_store c (kr_contact_ref contact) None in
  Ok (mkLoaded current artifact supplier contact profile suppression).

(** [compliance/service.py:194-204 _load] *)
Definition _load (db : service_db) (opportunity_id : string) : result loaded :=
  let! current := get_opportunity_in_transaction (acquisition_of db) opportunity_id in
  _load_in_transaction db opportunity_id current.

(** * Deciding *)

(** [tuple(snapshot.get("public_evidence_refs", ()))] *)
Definition public_refs (snapshot : PyJson.dict) : result (list string) :=
  match dict_find "public_evidence_refs" snapshot with
  | None => Ok []
  | Some (JList l) =>
      mapM_result (fun j => match j with
                            | JStr s => Ok s
                            | JList _ | JObj _ => Raise TypeError
                            | _ => Raise (ValidationError "evidence_refs")
                            end) l
  | Some (JStr s) => Ok (map (fun c => String c EmptyString) (list_ascii_of_string s))
  | Some (JObj d) => Ok (dict_keys d)
  | Some _ => Raise TypeError
  end.

(** What [_build_values] returns. *)
Record compliance_values : Type := mkValues {
  cv_loaded : loaded;
  cv_input : ComplianceInput;
  cv_input_snapshot : json;
  cv_proposal : ComplianceProposal;
  cv_action_fingerprint : string;
}.

Definition cv_input_fingerprint (v : compliance_values) : string :=
  ci_compliance_input_fingerprint (cv_input v).
Definition cv_proposal_fingerprint (v : compliance_values) : string :=
  cp_proposal_fingerprint (cv_proposal v).

(** [compliance/service.py:315-329 _build_values]: the references the assessment
    cites. *)
Definition cited_refs (l : loaded) (public : list string) (jurisdiction : JurisdictionResolution)
  : list string :=
  let artifact := ld_artifact l in
  take 16 (dict_fromkeys
    (sm_suppression_refs (ld_suppression l)
     ++ ["acquisition-personalization:" +:+ pa_personalization_artifact_id artifact;
         "acquisition-decision:" +:+ pa_decision_evaluation_id artifact]
     ++ public
     ++ ["acquisition-contact:" +:+ kr_contact_ref (ld_contact l);
         "acquisition-supplier:" +:+ su_supplier_ref (ld_supplier l);
         "acquisition-company-profile:" +:+ op_acquisition_opportunity_id (ld_opportunity l)]
     ++ jr_evidence_refs jurisdiction)).

(** [captured_at.date()] *)
Definition date_of (x : datetime) : date := mkdate (year x) (month x) (day x).

(** [compliance/service.py:310-365 _build_values]: the input, before its
    fingerprint. *)
Definition input_values (l : loaded) (public : list string) (jurisdiction : JurisdictionResolution)
    (ruleset_fingerprint fingerprint : string) (captured_at : datetime) : ComplianceInput :=
  let artifact := ld_artifact l in
  let contact := kr_observation (ld_contact l) in
  mkInput (op_acquisition_opportunity_id (ld_opportunity l)) (su_supplier_ref (ld_supplier l))
    (kr_contact_ref (ld_contact l)) (pa_personalization_artifact_id artifact)
    (pa_artifact_fingerprint artifact) (pa_input_fingerprint artifact)
    (pa_proposal_fingerprint artifact) (pa_policy_action_fingerprint artifact)
    (pa_language artifact) (identity_status_value (su_identity_status (ld_supplier l)))
    (co_verification_state contact) (co_verification_provider contact)
    (co_provider_email_status contact) (co_source_fingerprint contact)
    (co_role_profile_version contact) (co_role_tier contact) jurisdiction
    (if in_list (co_role_tier contact) [1; 2; 3] then PROFESSIONAL_CONTEXT_VERIFIED
     else BUSINESS_CONTEXT_INSUFFICIENT)
    PROVIDER_VERIFIED_BUSINESS_CONTACT (se_sender_config env) "KIVOU_ACQUISITION_SIGNAL_RELEVANCE"
    UNPROVEN (sm_state (ld_suppression l)) (sm_key_versions_considered (ld_suppression l))
    (cited_refs l public jurisdiction) RULESET_VERSION ruleset_fingerprint
    (rs_legal_review_ref RULESET_V1) (rs_effective_from RULESET_V1) (rs_valid_until RULESET_V1)
    captured_at (date_of captured_at) INPUT_VERSION fingerprint.

(** [compliance/service.py:302-398 _build_values] *)
Definition _build_values (l : loaded) (captured_at : datetime) : result compliance_values :=
  let opportunity := op_acquisition_opportunity_id (ld_opportunity l) in
  let! jurisdiction := resolve_jurisdiction (su_country_code (ld_supplier l))
    (pf_provider_country (ld_profile l)) (su_supplier_ref (ld_supplier l))
    ("acquisition-company-profile:" +:+ opportunity) in
  let! public := public_refs (pa_input_snapshot (ld_artifact l)) in
  let! ruleset_fp := option_to_result AssertionError (rs_config_fingerprint RULESET_V1) in
  let! _ := option_to_result AssertionError (sd_config_fingerprint (se_sender_config env)) in
  let input fingerprint := input_values l public jurisdiction ruleset_fp fingerprint captured_at in
  let fingerprint := finite_sha256
    (JObj (("kind", JStr "acquisition-compliance-input-v1")
           :: input_fields dt_str (input EmptyString))) in
  let! compliance_input := input_validate (input fingerprint) in
  let! proposal := evaluate_compliance compliance_input RULESET_V1 in
  Ok (mkValues l compliance_input (input_snapshot_json compliance_input) proposal
        (_action_fingerprint opportunity (su_supplier_ref (ld_supplier l))
           (kr_contact_ref (ld_contact l)) (cp_proposal_fingerprint proposal))).

(** * The request to the policy *)

(** [compliance/service.py:400-409 _internal_evidence] *)
Definition _internal_evidence (a : ComplianceAuthorizationInput) : EvidenceReadiness :=
  mkEvidence (ei_status (au_evidence a)) _COMPLIANCE_EVIDENCE
    (ei_assessment_version (au_evidence a)) (ei_observed_at (au_evidence a))
    (ei_valid_until (au_evidence a)).

(** [compliance/service.py:411-417 _pending_compliance] *)
Definition _pending_compliance (observed_at : datetime) : ComplianceAssessment :=
  mkCompliance ComplianceUNKNOWN "policy-compliance-pending-v1" observed_at None.

(** The request of an assessment, from what both a new one and a replayed
    one are made of. *)
Definition assessment_request (a : ComplianceAuthorizationInput)
    (opportunity_id artifact_id supplier_ref contact_ref input_fingerprint proposal_fingerprint
     action_fingerprint : string) (evidence_refs : list string) (expected_version : Z)
    (observed_at : datetime) : result PolicyRequest :=
  let arguments := JObj
    [("compliance_input_fingerprint", JStr input_fingerprint);
     ("compliance_proposal_fingerprint", JStr proposal_fingerprint);
     ("personalization_artifact_id", JStr artifact_id);
     ("supplier_ref", JStr supplier_ref); ("contact_ref", JStr contact_ref)] in
  let! text := _canonical arguments in
  policy_request_validate arguments
    (mkPolicyRequest (au_evaluation_id a) (au_request_id a) "assess_campaign_compliance"
       ("acquisition-opportunity:" +:+ opportunity_id) (Some opportunity_id) (au_qa_signal_ref a)
       (Some expected_version) (au_actor_type a) (au_actor_ref a) text action_fingerprint
       (au_scope a) dec_zero (au_currency a) 0 ["COMPLIANCE_PROPOSED"] evidence_refs
       (_internal_evidence a) (_pending_compliance observed_at) (au_operational a)
       (au_expected_policy_version a) (au_approval_grants a) (au_supervisor_plan_id a)
       (au_supervisor_action_index a) (au_supervisor_version a) (au_skill_version a)).

(** [compliance/service.py:419-471 _request] *)
Definition _request (a : ComplianceAuthorizationInput) (v : compliance_values)
    (expected_version : Z) : result PolicyRequest :=
  let i := cv_input v in
  require! bool_decide (sc_country (au_scope a) = jr_country_code (ci_jurisdiction i))
           && bool_decide (sc_language (au_scope a) = Some (ci_language i))
  else ComplianceBindingConflict (ci_acquisition_opportunity_id i) in
  assessment_request a (op_acquisition_opportunity_id (ld_opportunity (cv_loaded v)))
    (ci_personalization_artifact_id i) (su_supplier_ref (ld_supplier (cv_loaded v)))
    (kr_contact_ref (ld_contact (cv_loaded v))) (cv_input_fingerprint v)
    (cv_proposal_fingerprint v) (cv_action_fingerprint v) (cp_evidence_refs (cv_proposal v))
    expected_version (ci_assessed_at i).

(** [compliance/service.py:666-704 _replay_request] *)
Definition _replay_request (a : ComplianceAuthorizationInput) (existing : ComplianceAssessmentWrite)
    (expected_version : Z) (observed_at : datetime) : result PolicyRequest :=
  assessment_request a (aw_acquisition_opportunity_id existing)
    (aw_personalization_artifact_id existing) (aw_supplier_ref existing) (aw_contact_ref existing)
    (aw_input_fingerprint existing) (aw_proposal_fingerprint existing)
    (aw_policy_action_fingerprint existing) (aw_evidence_refs existing) expected_version
    observed_at.

(** [compliance/service.py:473-510 _write] *)
Definition _write (v : compliance_values) (d : PolicyDecision) (disposition : ComplianceDisposition)
    (created_at : datetime) (expected_post_policy_version : Z) (event_id : option string)
  : result ComplianceAssessmentWrite :=
  let i := cv_input v in
  let p := cv_proposal v in
  write_validate
    (mkWrite (compliance_assessment_id (pd_evaluation_id d)) (ci_acquisition_opportunity_id i)
       (ci_personalization_artifact_id i) (ci_supplier_ref i) (ci_contact_ref i)
       (pd_evaluation_id d) (jr_jurisdiction (ci_jurisdiction i))
       (ci_ruleset_config_fingerprint i) (cv_input_fingerprint v) (cv_proposal_fingerprint v)
       (cv_action_fingerprint v) (cp_state p) (cp_reason_codes p) (cp_evidence_refs p)
       (cv_input_snapshot v) (cp_valid_until p) (status_value (pd_status d))
       (status_value <$> pd_counterfactual_status d) expected_post_policy_version disposition
       (cp_next_action p) event_id created_at).

(** * Calls *)

(** A call in progress: the tables and the transactions so far. *)
Record service_state : Type := mkState { st_db : service_db; st_transactions : nat }.

Definition proc (A : Type) : Type := service_state -> result A * service_state.

Definition ret {A} (a : A) : proc A := fun s => (Ok a, s).
Definition throw {A} (e : exn) : proc A := fun s => (Raise e, s).
Definition lift {A} (r : result A) : proc A := fun s => (r, s).
Definition bind {A B} (m : proc A) (k : A -> proc B) : proc B := fun s =>
  match m s with (Ok a, s') => k a s' | (Raise e, s') => (Raise e, s') end.
(** [try: m except e: h(e)] *)
Definition catch {A} (m : proc A) (h : exn -> proc A) : proc A := fun s =>
  match m s with (Ok a, s') => (Ok a, s') | (Raise e, s') => h e s' end.

(** The tables a transaction finds. *)
Definition found (s : service_state) : service_db :=
  apply_service_ops (se_others env (st_transactions s)) (st_db s).

(** [with engine.begin() as connection]: rolled back when it raises. *)
Definition transaction {A} (f : service_db -> result (A * service_db)) : proc A := fun s =>
  match f (found s) with
  | Ok (a, db) => (Ok a, mkState db (S (st_transactions s)))
  | Raise e => (Raise e, mkState (found s) (S (st_transactions s)))
  end.
(** [with engine.connect() as connection] *)
Definition reading {A} (f : service_db -> result A) : proc A :=
  transaction (fun db => let! a := f db in Ok (a, db)).
End env.
End service.

Declare Scope proc_scope.
Notation "'do!' x ':=' m 'in' k" := (bind m (fun x => k))
  (at level 10, x pattern, m at level 100, k at level 200) : proc_scope.
Local Open Scope proc_scope.

Section calls.
Context `{Hash : HashLib} `{Hmac : HmacLib} `{DB : Database} `{Case : CaseData}.
Variable env : service_env.

Notation reading := (reading env).
Notation transaction := (transaction env).

(** ** Replaying an assessment *)

(** [decision_engine/service.py:97-113 _legacy_budget_usage_candidates]: the
    cost with [n] digits after the point, when it is the same cost.
    [quantize] raises on more digits than the context holds. *)
Definition quantized (cost : decimal) (n : Z) : result (option decimal) :=
  let c := mkdec (if - n <=? d_exp cost then coef_at (- n) cost
                  else div_half_even (d_coef cost) (10 ^ (- n - d_exp cost))) (- n) in
  require! ndigits (Z.abs (d_coef c)) <=? PREC else InvalidOperation in
  Ok (if dec_eqb c cost then Some c else None).

(** [decision_engine/service.py:97-113 _legacy_budget_usage_candidates] *)
Fixpoint legacy_candidates (places : list Z) (seen : list string) (cost_used : decimal)
    (volume_used : Z) : result (list BudgetUsage) :=
  match places with
  | [] => Ok []
  | n :: places' =>
      let! candidate := quantized cost_used n in
      match candidate with
      | Some c =>
          if in_list (dec_str c) seen then legacy_candidates places' seen cost_used volume_used
          else
            let! rest := legacy_candidates places' (dec_str c :: seen) cost_used volume_used in
            Ok (mkUsage c volume_used :: rest)
      | None => legacy_candidates places' seen cost_used volume_used
      end
  end.
Definition _legacy_budget_usage_candidates (cost_used : decimal) (volume_used : Z)
  : result (list BudgetUsage) := legacy_candidates [0; 1; 2; 3; 4; 5; 6] [] cost_used volume_used.

(** [any(row["semantic_fingerprint"] == ... for candidate in candidates)] *)
Fixpoint any_legacy (candidates : list BudgetUsage) (request : PolicyRequest)
    (historical : PolicyDecision) (fingerprint : string) : proc bool :=
  match candidates with
  | [] => ret false
  | candidate :: candidates' =>
      do! f := reading (fun db =>
        semantic_fingerprint (sdb_gateway db) request (pd_evaluated_at historical) candidate
          (Some (pd_policy_snapshot_id historical)) true) in
      if bool_decide (fingerprint = f) then ret true
      else any_legacy candidates' request historical fingerprint
  end.

(** [compliance/service.py:608-664 _require_existing] *)
Definition _require_existing (existing : ComplianceAssessmentWrite) (opportunity_id : string)
    (a : ComplianceAuthorizationInput) : proc unit :=
  let conflict := ComplianceAssessmentIdempotencyConflict (au_evaluation_id a) in
  if negb (bool_decide (aw_acquisition_opportunity_id existing = opportunity_id)) then throw conflict
  else if negb (bool_decide (aw_compliance_assessment_id existing
                             = compliance_assessment_id (au_evaluation_id a))) then throw conflict
  else
    do! (row, policy_event) := reading (fun db =>
      Ok (find_evaluation (gdb_policy (sdb_gateway db)) (au_evaluation_id a),
          select_by_key (acquisition_of db) opportunity_id (audit_key (au_evaluation_id a)))) in
    match row, policy_event with
    | Some row, Some event =>
        if negb (bool_decide (pd_request_id (er_decision row) = au_request_id a)) then throw conflict
        else
          do! historical := lift (decision_from_row row) in
          do! control := reading (fun db =>
            get_control (gdb_policy (sdb_gateway db)) (pd_policy_snapshot_id historical)) in
          let cost_used := dec_sub (pc_daily_cost_cap control) (pd_cost_remaining historical) in
          let volume_used := pc_daily_volume_cap control - pd_volume_remaining historical in
          if dec_ltb cost_used dec_zero || (volume_used <? 0) then throw conflict
          else
            do! request := lift (_replay_request a existing (ev_stream_sequence event - 1)
                                   (pd_evaluated_at historical)) in
            do! f := reading (fun db =>
              semantic_fingerprint (sdb_gateway db) request (pd_evaluated_at historical)
                (mkUsage cost_used volume_used) (Some (pd_policy_snapshot_id historical)) false) in
            if bool_decide (er_fingerprint row = f) then ret tt
            else
              do! candidates := lift (_legacy_budget_usage_candidates cost_used volume_used) in
              do! matches := any_legacy candidates request historical (er_fingerprint row) in
              if matches then ret tt else throw conflict
    | _, _ => throw conflict
    end.

(** [compliance/service.py:706-713 _await_concurrent_result] *)
Fixpoint await_loop (attempts : nat) (evaluation_id opportunity_id : string)
    (a : ComplianceAuthorizationInput) : proc (option ComplianceAssessmentWrite) :=
  match attempts with
  | O => ret None
  | S attempts' =>
      do! existing := reading (fun db => Ok (get_by_policy (sdb_compliance db) evaluation_id)) in
      match existing with
      | Some existing =>
          do! _ := _require_existing existing opportunity_id a in ret (Some existing)
      | None => await_loop attempts' evaluation_id opportunity_id a
      end
  end.
Definition _await_concurrent_result (evaluation_id opportunity_id : string)
    (a : ComplianceAuthorizationInput) : proc (option ComplianceAssessmentWrite) :=
  await_loop 100 evaluation_id opportunity_id a.

(** The answer of another call, or the input changed. *)
Definition concurrent_or_changed (evaluation_id opportunity_id : string)
    (a : ComplianceAuthorizationInput) : proc ComplianceAssessmentWrite :=
  do! existing := _await_concurrent_result evaluation_id opportunity_id a in
  match existing with
  | Some existing => ret existing
  | None => throw (ComplianceInputChanged opportunity_id)
  end.

(** ** Committing *)

(** [compliance/service.py:513-526 _commit_blocked]: the transaction. *)
Definition blocked_transaction (v : compliance_values) (d : PolicyDecision) (created_at : datetime)
    (expected : Z) (db : service_db) : result (ComplianceAssessmentWrite * service_db) :=
  require! match find_evaluation (gdb_policy (sdb_gateway db)) (pd_evaluation_id d) with
           | Some row => bool_decide (pd_action_fingerprint (er_decision row)
                                      = cv_action_fingerprint v)
           | None => false
           end
  else ComplianceAssessmentIdempotencyConflict (pd_evaluation_id d) in
  let! write := _write v d POLICY_BLOCKED created_at expected None in
  let! (row, c) := append_assessment (assessment_refs db) (sdb_compliance db) write in
  Ok (row, with_compliance c db).

(** [compliance/service.py:512-526 _commit_blocked] *)
Definition _commit_blocked (v : compliance_values) (d : PolicyDecision) (created_at : datetime)
    (expected : Z) : proc ComplianceAssessmentWrite :=
  transaction (blocked_transaction v d created_at expected).

(** [except (...) as error: raise ComplianceInputChanged] *)
Definition revalidated {A} (opportunity_id : string) (r : result A) : result A :=
  match r with
  | Raise (ComplianceBindingConflict _) | Raise (ComplianceNotActionable _)
  | Raise (CompliancePersonalizationNotReady _) | Raise (ValidationError _)
  | Raise NoResultFound => Raise (ComplianceInputChanged opportunity_id)
  | _ => r
  end.

(** The event that moves the opportunity on. *)
Definition next_action_request (p : ComplianceProposal) (d : PolicyDecision) (expected : Z)
    (captured_at : datetime) : append_request :=
  mkRequest NEXT_ACTION_SET expected ("compliance_next_action:" +:+ pd_evaluation_id d)
    [("next_action", JOptStr (cp_next_action p))] SYSTEM (Some "kivou-compliance")
    (cp_reason_codes p) (cp_evidence_refs p) (Some (pd_policy_version d)) None None None None None
    (Some (pd_evaluation_id d)) (Some captured_at).

(** [compliance/service.py:538-599 _commit_recorded]: the transaction. *)
Definition recorded_transaction (opportunity_id : string) (v : compliance_values)
    (d : PolicyDecision) (expected : Z) (captured_at : datetime) (db : service_db)
  : result (ComplianceAssessmentWrite * service_db) :=
  let! current := get_opportunity_in_transaction (acquisition_of db) opportunity_id in
  require! op_stream_version current =? expected else ComplianceInputChanged opportunity_id in
  let! rebuilt := revalidated opportunity_id
    (let! l := _load_in_transaction env db opportunity_id current in
     _build_values env l captured_at) in
  require! bool_decide (cv_input_fingerprint rebuilt = cv_input_fingerprint v)
           && bool_decide (cv_proposal_fingerprint rebuilt = cv_proposal_fingerprint v)
           && bool_decide (cv_action_fingerprint rebuilt = cv_action_fingerprint v)
  else ComplianceInputChanged opportunity_id in
  let! (mutation, acquisition) :=
    append_in_transaction (se_event_env env) (acquisition_of db) opportunity_id
      (next_action_request (cv_proposal rebuilt) d expected captured_at) in
  let db' := with_acquisition acquisition db in
  let! write := _write rebuilt d RECORDED captured_at expected
                  (Some (ev_event_id (mr_event mutation))) in
  let! (row, c) := append_assessment (assessment_refs db') (sdb_compliance db') write in
  Ok (row, with_compliance c db').

(** [compliance/service.py:528-606 _commit_recorded] *)
Definition _commit_recorded (opportunity_id : string) (v : compliance_values) (d : PolicyDecision)
    (expected : Z) (captured_at : datetime) (a : ComplianceAuthorizationInput)
  : proc ComplianceAssessmentWrite :=
  catch (transaction (recorded_transaction opportunity_id v d expected captured_at)) (fun e =>
    match e with
    | ComplianceInputChanged _ | OpportunityConcurrencyConflict _ =>
        concurrent_or_changed (pd_evaluation_id d) opportunity_id a
    | e => throw e
    end).

(** ** The call *)

(** [compliance/service.py:715-719 _now] *)
Definition _now : result datetime :=
  require! aware (se_clock env) else ValueError "compliance clock must be timezone-aware" in
  astimezone_utc (se_clock env).

(** [compliance/service.py:168-171 assess]: the policy is asked and its
    answer committed. *)
Definition authorize (request : PolicyRequest) (captured_at : datetime) (budget_usage : BudgetUsage)
  : proc PolicyDecision :=
  do! before := reading (fun db => Ok db) in
  transaction (fun db =>
    let! (d, gateway) := evaluate_and_record (se_policy_env env) (sdb_gateway before)
      (sdb_gateway db) request captured_at budget_usage None in
    Ok (d, mksdb gateway (sdb_compliance db))).

(** [compliance/service.py:148-192 assess] *)
Definition assess (opportunity_id : string) (a : ComplianceAuthorizationInput)
    (budget_usage : BudgetUsage) : proc ComplianceAssessmentWrite :=
  do! existing := reading (fun db => Ok (get_by_policy (sdb_compliance db) (au_evaluation_id a))) in
  match existing with
  | Some existing => do! _ := _require_existing existing opportunity_id a in ret existing
  | None =>
      do! row := reading (fun db =>
        Ok (find_evaluation (gdb_policy (sdb_gateway db)) (au_evaluation_id a))) in
      if truthy row then throw (ComplianceEvaluationRequiresFreshAttempt (au_evaluation_id a))
      else
        do! captured_at := lift _now in
        do! l := reading (fun db => _load env db opportunity_id) in
        do! v := lift (_build_values env l captured_at) in
        let version := op_stream_version (ld_opportunity l) in
        do! request := lift (_request a v version) in
        let expected := version + 1 in
        do! decided := catch
          (do! d := authorize request captured_at budget_usage in ret (inl d))
          (fun e => match e with
           | PolicyEvaluationIdempotencyConflict _ =>
               throw (ComplianceAssessmentIdempotencyConflict (au_evaluation_id a))
           | OpportunityConcurrencyConflict _ =>
               do! row := concurrent_or_changed (au_evaluation_id a) opportunity_id a in
               ret (inr row)
           | e => throw e
           end) in
        match decided with
        | inr row => ret row
        | inl d =>
            if negb (pd_executable d) then _commit_blocked v d captured_at expected
            else _commit_recorded opportunity_id v d expected captured_at a
        end
  end.
End calls.
