(* ===== verification/ComplianceFacts.v ===== *)
(** ComplianceFacts: lemmas on the compliance model - what a proposal keeps of
    its inputs, what a recording writes and a match reads, that suppressions
    only grow, and what a call of the service returns. *)

From S2P Require Import Prelude PyStr PyText PyDatetime PyDatetimeFacts PyDecimal PyJson Database.
From S2P Require Import AcquisitionContracts AcquisitionEquiv AcquisitionStore.
From S2P Require Import PolicyContracts PolicyStore PolicyGateway.
From S2P Require Import ContactContracts ContactStore ProspectRecords Suppression.
From S2P Require Import ComplianceContracts ComplianceRules ComplianceStore ComplianceService.
From Stdlib Require Import Ascii String.

Local Open Scope string_scope.
Local Open Scope Z_scope.
Local Open Scope list_scope.

(** * Rules *)

Section rules.
Context `{Hash : HashLib}.

Lemma ruleset_v1_eq : exists fp, is_fingerprint fp = true /\
  RULESET_V1 = mkRuleset RULESET_VERSION RULESET_LEGAL_REVIEW_REF RULESET_EFFECTIVE_FROM None 24
                 ["CH"; "FR"] "compliance-reasons-v1" (Some fp).
Proof.
  eexists (finite_sha256 _). split; [|reflexivity].
  apply finite_sha256_fingerprint. reflexivity.
Qed.

Lemma opt_literal_Ok field l o o' : opt_mapM (literal field l) o = Ok o' ->
  o' = o /\ opt_holds (fun s => in_list s l) o = true.
Proof.
  destruct o; simpl; intros H; inv_result; [|done]. unfold literal in Hv.
  by apply checked_Ok in Hv as [Hv ->].
Qed.

(** A proposal that was built keeps the values it was given. *)
Record proposal_rel (p q : ComplianceProposal) : Prop := {
  pq_state : cp_state q = cp_state p;
  pq_next : cp_next_action q = cp_next_action p;
  pq_action : opt_holds (fun s => in_list s ["schedule_campaign"; "request_human_review"])
                (cp_next_action p) = true;
  pq_until : cp_valid_until q = cp_valid_until p;
  pq_aware : ComplianceContracts._aware (cp_valid_until p) = true;
  pq_reasons : tuple_of "reason_codes" 1 8 CShortCode (cp_reason_codes p) = Ok (cp_reason_codes q);
  pq_refs : tuple_of "evidence_refs" 1 16 CStableRef (cp_evidence_refs p) = Ok (cp_evidence_refs q);
  pq_input : CFingerprint "input_fingerprint" (cp_input_fingerprint p)
             = Ok (cp_input_fingerprint q);
  pq_ruleset : CFingerprint "ruleset_config_fingerprint" (cp_ruleset_config_fingerprint p)
               = Ok (cp_ruleset_config_fingerprint q);
  pq_fingerprint : CFingerprint "proposal_fingerprint" (cp_proposal_fingerprint p)
                   = Ok (cp_proposal_fingerprint q);
}.

Lemma proposal_validate_Ok p q : proposal_validate p = Ok q -> proposal_rel p q.
Proof.
  unfold proposal_validate. intros H. inv_result.
  match goal with H : opt_mapM _ _ = Ok _ |- _ => apply opt_literal_Ok in H as [-> ?] end.
  match goal with H : checked _ _ _ = Ok _ |- _ => apply checked_Ok in H as [? ->] end.
  by constructor.
Qed.

Lemma proposal_Ok v c st reasons next p : _proposal v c st reasons next = Ok p ->
  exists validity fp,
    (if bool_decide (st = ComplianceALLOWED) then let! u := validity_of v c in Ok (Some u)
     else Ok None) = Ok validity
    /\ proposal_rel (mkProposal st reasons
         (_dedupe (ci_evidence_refs v ++ jr_evidence_refs (ci_jurisdiction v)) 16) next validity
         (ci_compliance_input_fingerprint v) fp (cp_proposal_fingerprint p)) p.
Proof.
  unfold _proposal. intros H. inv_result. apply proposal_validate_Ok in H.
  eexists _, _. split; [done|].
  destruct H; split; try done. simpl in *.
  match goal with H : CFingerprint _ _ = Ok ?x |- CFingerprint _ ?x = Ok _ =>
    eapply matching_idemp; exact H end.
Qed.

(** The proposal of a state that is not an authorization. *)
Lemma proposal_other v c st reasons next p : st <> ComplianceALLOWED ->
  _proposal v c st reasons next = Ok p ->
  cp_state p = st /\ cp_next_action p = next /\ cp_valid_until p = None.
Proof.
  intros Hst H. apply proposal_Ok in H as (u & fp & Hu & Hp).
  rewrite bool_decide_false in Hu by done. inv_result.
  destruct Hp. simpl in *. by rewrite pq_state0, pq_next0, pq_until0.
Qed.

Lemma proposal_allowed v c reasons next p : _proposal v c ComplianceALLOWED reasons next = Ok p ->
  cp_state p = ComplianceALLOWED /\ cp_next_action p = next
  /\ exists u, validity_of v c = Ok u /\ cp_valid_until p = Some u /\ aware u = true.
Proof.
  intros H. apply proposal_Ok in H as (u & fp & Hu & Hp).
  rewrite bool_decide_true in Hu by done. inv_result.
  destruct Hp. simpl in *. rewrite pq_state0, pq_next0, pq_until0.
  do 2 (split; [done|]). by eexists.
Qed.

(** ** When an outreach is allowed *)

(** The conditions of an authorization, field by field. *)
Record allowed_conditions (v : ComplianceInput) (c : ComplianceRulesetConfig) : Prop := {
  al_suppression : ci_suppression_match_state v = CLEAR;
  al_effective : ruleset_effective v c = true;
  al_configured : jurisdiction_value (jr_jurisdiction (ci_jurisdiction v))
                  ∈ rs_configured_country_rulesets c;
  al_sender : sender_expired v = false
              /\ sd_sender_identity_ready (ci_sender_config v) = true
              /\ sd_opt_out_ready (ci_sender_config v) = true;
  al_country :
    (jr_jurisdiction (ci_jurisdiction v) = CH /\ ci_ch_legal_basis v <> UNPROVEN)
    \/ (jr_jurisdiction (ci_jurisdiction v) = FR
        /\ sd_privacy_notice_ready (ci_sender_config v) = true
        /\ sd_source_notice_ready (ci_sender_config v) = true
        /\ ci_business_context_state v = PROFESSIONAL_CONTEXT_VERIFIED
        /\ ci_email_provenance v = PROVIDER_VERIFIED_BUSINESS_CONTACT);
}.

Lemma when_app_nil b reason l : when b reason ++ l = [] <-> b = false /\ l = [].
Proof. destruct b; simpl; naive_solver. Qed.
Lemma when_nil b reason : when b reason = [] <-> b = false.
Proof. by destruct b. Qed.

(** No reason for a review remains exactly under the conditions of the
    country. *)
Lemma review_reasons_nil v j : j = CH \/ j = FR -> review_reasons v j = [] <->
  sender_expired v = false /\ sd_sender_identity_ready (ci_sender_config v) = true
  /\ sd_opt_out_ready (ci_sender_config v) = true
  /\ ((j = CH /\ ci_ch_legal_basis v <> UNPROVEN)
      \/ (j = FR /\ sd_privacy_notice_ready (ci_sender_config v) = true
          /\ sd_source_notice_ready (ci_sender_config v) = true
          /\ ci_business_context_state v = PROFESSIONAL_CONTEXT_VERIFIED
          /\ ci_email_provenance v = PROVIDER_VERIFIED_BUSINESS_CONTACT)).
Proof.
  unfold review_reasons. intros [-> | ->]; simpl;
    rewrite !when_app_nil, when_nil, !negb_false_iff, ?bool_decide_eq_true, ?bool_decide_eq_false;
    naive_solver.
Qed.

Definition allows_exactly (v : ComplianceInput) (c : ComplianceRulesetConfig)
    (p : ComplianceProposal) : Prop :=
  (cp_state p = ComplianceALLOWED <-> allowed_conditions v c)
  /\ (cp_state p = ComplianceALLOWED ->
      cp_next_action p = Some "schedule_campaign"
      /\ exists u, validity_of v c = Ok u /\ cp_valid_until p = Some u /\ aware u = true).

Lemma allows_not v c p st reasons next : st <> ComplianceALLOWED ->
  _proposal v c st reasons next = Ok p -> ~ allowed_conditions v c -> allows_exactly v c p.
Proof.
  intros Hst Hp Hn. apply proposal_other in Hp as (Hs & _ & _); [|done].
  split; rewrite Hs; naive_solver.
Qed.

(** In a country the rules know. *)
Lemma allows_configured v c p j : jr_jurisdiction (ci_jurisdiction v) = j -> j = CH \/ j = FR ->
  ci_suppression_match_state v = CLEAR -> ruleset_effective v c = true ->
  (if negb (in_list (jurisdiction_value j) (rs_configured_country_rulesets c)) then
     _proposal v c ComplianceREVIEW_REQUIRED ["COUNTRY_RULESET_UNCONFIGURED"] REVIEW
   else if list_truthy (review_reasons v j) then
     _proposal v c ComplianceREVIEW_REQUIRED (_dedupe (review_reasons v j) 8) REVIEW
   else _proposal v c ComplianceALLOWED (allowed_reasons j) (Some "schedule_campaign")) = Ok p ->
  allows_exactly v c p.
Proof.
  intros Hj Hc Hs He. pose proof (review_reasons_nil v j Hc) as Hnil.
  destruct (in_list _ _) eqn:Ein; simpl.
  2:{ intros Hp. eapply allows_not; [|exact Hp|]; [done|]. intros [_ _ Hi _ _]. rewrite Hj in Hi.
      by apply in_list_false in Ein. }
  apply in_list_true in Ein. destruct (list_truthy _) eqn:El.
  - intros Hp. eapply allows_not; [|exact Hp|]; [done|]. intros [_ _ _ (?&?&?) Hl]. rewrite Hj in Hl.
    apply list_truthy_true in El. apply El, Hnil. done.
  - intros Hp. apply list_truthy_false, Hnil in El as (?&?&?&?).
    apply proposal_allowed in Hp as (Hst & ? & ?). split; [|done].
    split; [|done]. intros _. subst j. by split.
Qed.

Lemma evaluate_allowed v c p : evaluate_compliance v c = Ok p -> allows_exactly v c p.
Proof.
  unfold evaluate_compliance. intros H. inv_result_step. inv_result_step.
  destruct (ci_suppression_match_state v) eqn:Es.
  2,3: eapply allows_not; [|exact H|]; [done|]; intros []; congruence.
  destruct (ruleset_effective v c) eqn:Ee; simpl in H.
  2:{ eapply allows_not; [|exact H|]; [done|]. intros []; congruence. }
  destruct (jr_jurisdiction (ci_jurisdiction v)) eqn:Ej; simpl in H.
  1,2: eapply allows_configured; [reflexivity | rewrite Ej; by auto | done | done | rewrite Ej; exact H].
  all: eapply allows_not; [|exact H|]; [done|]; intros [_ _ _ _ Ha]; rewrite Ej in Ha; naive_solver.
Qed.

(** ** How long *)

Lemma earlier_instant d o :
  instant (earlier d o) <= instant d
  /\ (forall e, o = Some e -> instant (earlier d o) <= instant e)
  /\ (forall t, t < instant d -> (forall e, o = Some e -> t < instant e) ->
      t < instant (earlier d o)).
Proof.
  unfold earlier, dt_ltb. destruct o as [e|].
  - destruct (Z.ltb_spec (instant e) (instant d)).
    + split; [lia|]. split; [|naive_solver]. intros e' [= <-]. lia.
    + split; [lia|]. split; [|naive_solver]. intros e' [= <-]. lia.
  - split; [lia|]. split; [done|]. naive_solver.
Qed.

Lemma validity_bounds v c u : validity_of v c = Ok u ->
  instant u <= instant (ci_assessed_at v) + rs_allowed_ttl_hours c * 3600 * US_SECOND
  /\ (forall e, sd_valid_until (ci_sender_config v) = Some e -> instant u <= instant e)
  /\ (forall e, rs_valid_until c = Some e -> instant u <= instant e).
Proof.
  unfold validity_of. intros H. inv_result. apply dt_add_instant in Hv.
  pose proof (earlier_instant v0 (sd_valid_until (ci_sender_config v))) as (H1 & H2 & _).
  pose proof (earlier_instant (earlier v0 (sd_valid_until (ci_sender_config v)))
                (rs_valid_until c)) as (H3 & H4 & _).
  split; [lia|]. split; [|done]. intros e He. specialize (H2 e He). lia.
Qed.

Lemma validity_after v c u : validity_of v c = Ok u -> 0 < rs_allowed_ttl_hours c ->
  sender_expired v = false -> ruleset_effective v c = true ->
  instant (ci_assessed_at v) < instant u.
Proof.
  unfold validity_of, sender_expired, ruleset_effective, dt_leb, dt_ltb. intros H Ht Hs Hr.
  inv_result. apply dt_add_instant in Hv.
  apply earlier_instant; [apply earlier_instant|].
  - unfold US_SECOND in Hv. lia.
  - intros e He. rewrite He in Hs. by apply Z.leb_gt in Hs.
  - intros e He. destruct (rs_valid_until c) as [e'|]; [|done]. simplify_eq.
    by apply Z.ltb_lt.
Qed.
End rules.

(** * Suppressions *)

Section suppressions.
Context `{Hash : HashLib} `{Hmac : HmacLib} `{DB : Database} `{Case : CaseData}.

(** What identifies the person a row suppresses. *)
Definition row_key (r : suppression_row) : string * string * string :=
  (sr_scope r, sr_identity_key_version r, sr_identity_hmac r).

Lemma suppression_columns_Ok r row : suppression_columns r = Ok row ->
  row_key row = row_key r /\ sr_suppression_id row = sr_suppression_id r
  /\ sr_evidence_ref row = sr_evidence_ref r
  /\ sr_effective_at row = timestamptz (sr_effective_at r).
Proof.
  unfold suppression_columns. intros H. inv_result.
  repeat match goal with
  | H : varchar _ _ _ = Ok _ |- _ => apply varchar_Ok in H as [-> _]
  | H : uvarchar _ _ _ = Ok _ |- _ => apply uvarchar_Ok in H as ->
  | H : opt_mapM (uvarchar _ _) _ = Ok _ |- _ => apply opt_uvarchar_Ok in H as ->
  end. done.
Qed.

(** The tables after a step hold the suppressions of before it. *)
Definition grows (c c' : compliance_db) : Prop := qdb_suppressions c ⊆ qdb_suppressions c'.

#[global] Instance grows_PreOrder : PreOrder grows.
Proof. unfold grows. split; [intros c; reflexivity | intros a b c Ha Hb; by etrans]. Qed.

Lemma insert_suppression_Ok c r b c' : insert_suppression c r = Ok (b, c') ->
  exists row, suppression_columns r = Ok row
    /\ (if b then qdb_suppressions c !! sr_suppression_id r = None
                  /\ c' = with_suppressions (<[sr_suppression_id r := row]> (qdb_suppressions c)) c
        else is_Some (qdb_suppressions c !! sr_suppression_id r) /\ c' = c).
Proof.
  unfold insert_suppression. intros H. inv_result_step.
  pose proof (suppression_columns_Ok _ _ Hv) as (_ & Hid & _). exists v. split; [done|].
  rewrite Hid in H. destruct (qdb_suppressions c !! sr_suppression_id r) eqn:E.
  - inv_result. simplify_eq. eauto.
  - inv_result. simplify_eq. done.
Qed.

Lemma suppression_values_key r r' j : suppression_values r = Ok j -> suppression_values r' = Ok j ->
  row_key r = row_key r'.
Proof.
  unfold suppression_values. intros H H'. inv_result. simplify_eq.
  unfold row_key. congruence.
Qed.

(** A recording leaves a row with its identity, and every other row. *)
Lemma append_suppression_Ok c r row c' : _append_in_transaction c r = Ok (row, c') ->
  grows c c' /\ qdb_suppressions c' !! sr_suppression_id r = Some row /\ row_key row = row_key r
  /\ c' = with_suppressions (qdb_suppressions c') c.
Proof.
  unfold _append_in_transaction. intros H. inv_result_step. destruct v as [inserted c1].
  apply insert_suppression_Ok in Hv as (row1 & Hcols & Hins).
  destruct inserted.
  - destruct Hins as [Hnone ->]. simpl in H. rewrite lookup_insert_eq in H. simplify_eq. simpl.
    rewrite lookup_insert_eq. repeat split; [by apply insert_subseteq|].
    by apply suppression_columns_Ok in Hcols as [? _].
  - destruct Hins as [[row2 Hrow] ->]. rewrite Hrow in H. inv_result. simplify_eq.
    split; [done|]. split; [done|]. split; [by eapply suppression_values_key|]. by destruct c'.
Qed.

(** ** What a recording writes *)

(** The tables hold a row for a normal form under a key of a keyring. *)
Definition held (keyring : SuppressionIdentityKeyring) (scope n : string) (c : compliance_db)
  : Prop :=
  exists id row v secret, qdb_suppressions c !! id = Some row /\ kg_keys keyring !! v = Some secret
    /\ row_key row = (scope, v, hmac_sha256_hexdigest secret (identity_message scope n)).

Lemma held_grows keyring scope n c c' : grows c c' -> held keyring scope n c -> held keyring scope n c'.
Proof.
  intros Hg (id & row & v & secret & Hrow & Hk). exists id, row, v, secret.
  split; [by eapply lookup_weaken | done].
Qed.

Lemma identities_Ok keyring email scope ids : identities_for_email keyring email scope = Ok ids ->
  exists n, normalize_business_email email = Ok n
    /\ ids = (fun s => hmac_sha256_hexdigest s (identity_message scope n)) <$> kg_keys keyring.
Proof. unfold identities_for_email. intros H. inv_result. eauto. Qed.

Lemma new_suppression_Ok scope source reason evidence hmac version contact supplier received
    effective r :
  new_suppression scope source reason evidence hmac version contact supplier received effective
    = Ok r -> row_key r = (scope, version, hmac).
Proof. unfold new_suppression. intros H. by inv_result. Qed.

(** Appending a row with an identity taken from a keyring. *)
Lemma append_held keyring scope email ids version hmac c r row c' :
  identities_for_email keyring email scope = Ok ids -> ids !! version = Some hmac ->
  row_key r = (scope, version, hmac) -> _append_in_transaction c r = Ok (row, c') ->
  grows c c' /\ exists n, normalize_business_email email = Ok n /\ held keyring scope n c'.
Proof.
  intros Hids Hv Hr Ha. apply identities_Ok in Hids as (n & Hn & ->).
  apply append_suppression_Ok in Ha as (Hg & Hrow & Hkey & _). split; [done|].
  exists n. split; [done|]. rewrite lookup_fmap in Hv.
  destruct (kg_keys keyring !! version) as [secret|] eqn:Es; [|done]. injection Hv as <-.
  exists (sr_suppression_id r), row, version, secret. split_and!; [done|done|congruence].
Qed.

(** An address was suppressed: the email it was given as, or that of the
    contact. *)
Inductive suppressed (store : SuppressionStore) (c : compliance_db) (email : string)
    (c' : compliance_db) : Prop :=
| SuppressedEmail source reason evidence received row
    (H : record_for_email_in_transaction store c email source reason evidence received
         = Ok (row, c'))
| SuppressedContact ref source reason evidence received effective version row contact
    (Hc : get_contact_in_transaction (qdb_contacts c) ref = Ok contact)
    (He : co_business_email (kr_observation contact) = email)
    (H : record_for_contact_in_transaction store c ref source reason evidence received effective
           version = Ok (row, c')).

Lemma record_contact_Ok store c ref source reason evidence received effective version row c' :
  record_for_contact_in_transaction store c ref source reason evidence received effective version
    = Ok (row, c') ->
  exists contact, get_contact_in_transaction (qdb_contacts c) ref = Ok contact /\ grows c c'
    /\ exists n, normalize_business_email (co_business_email (kr_observation contact)) = Ok n
      /\ held (ss_keyring store) (ss_scope store) n c'.
Proof.
  unfold record_for_contact_in_transaction. intros H. inv_result. exists v0. split; [done|].
  match goal with H : new_suppression _ _ _ _ _ _ _ _ _ _ = Ok _ |- _ =>
    apply new_suppression_Ok in H end.
  by eapply append_held.
Qed.

Lemma record_email_Ok store c email source reason evidence received row c' :
  record_for_email_in_transaction store c email source reason evidence received = Ok (row, c') ->
  grows c c' /\ exists n, normalize_business_email email = Ok n
    /\ held (ss_keyring store) (ss_scope store) n c'.
Proof.
  unfold record_for_email_in_transaction. intros H. inv_result.
  match goal with H : new_suppression _ _ _ _ _ _ _ _ _ _ = Ok _ |- _ =>
    apply new_suppression_Ok in H end.
  by eapply append_held.
Qed.

Lemma suppressed_held store c email c' : suppressed store c email c' ->
  grows c c' /\ exists n, normalize_business_email email = Ok n
    /\ held (ss_keyring store) (ss_scope store) n c'.
Proof.
  intros [source reason evidence received row H | ref source reason evidence received effective
          version row contact Hc <- H].
  - by eapply record_email_Ok.
  - apply record_contact_Ok in H as (contact' & Hc' & ? & ?).
    rewrite Hc in Hc'. by injection Hc' as <-.
Qed.

(** ** Every operation keeps the suppressions *)

Lemma assessment_columns_Ok w row : assessment_columns w = Ok row ->
  row = mkWrite (aw_compliance_assessment_id w) (aw_acquisition_opportunity_id w)
    (aw_personalization_artifact_id w) (aw_supplier_ref w) (aw_contact_ref w)
    (aw_policy_evaluation_id w) (aw_jurisdiction w) (aw_ruleset_config_fingerprint w)
    (aw_input_fingerprint w) (aw_proposal_fingerprint w) (aw_policy_action_fingerprint w)
    (aw_state w) (aw_reason_codes w) (aw_evidence_refs w) (aw_input_snapshot w)
    (timestamptz <$> aw_valid_until w) (aw_policy_status w) (aw_policy_counterfactual_status w)
    (aw_expected_post_policy_version w) (aw_disposition w) (aw_next_action w)
    (aw_recorded_event_id w) (timestamptz (aw_created_at w)).
Proof.
  unfold assessment_columns, int4. intros H. inv_result.
  repeat match goal with
  | H : varchar _ _ _ = Ok _ |- _ => apply varchar_Ok in H as [-> _]
  | H : opt_mapM (varchar _ _) _ = Ok _ |- _ => apply opt_varchar_Ok in H as ->
  end. done.
Qed.

Lemma insert_assessment_Ok refs c w b c' : insert_assessment refs c w = Ok (b, c') ->
  exists row, assessment_columns w = Ok row
    /\ (if b then qdb_assessments c !! aw_policy_evaluation_id w = None
             /\ c' = with_assessments (<[aw_policy_evaluation_id w := row]> (qdb_assessments c)) c
        else is_Some (qdb_assessments c !! aw_policy_evaluation_id w) /\ c' = c).
Proof.
  unfold insert_assessment. intros H. inv_result_step. exists v. split; [done|].
  assert (aw_policy_evaluation_id v = aw_policy_evaluation_id w) as Hid
    by (by rewrite (assessment_columns_Ok _ _ Hv)).
  rewrite Hid in H. destruct (qdb_assessments c !! aw_policy_evaluation_id w) eqn:E.
  - injection H as <- <-. eauto.
  - inv_result. simplify_eq. done.
Qed.

(** An append answers the row of its evaluation: the one it wrote, or the
    same recorded before. *)
Lemma append_assessment_Ok refs c w row c' : append_assessment refs c w = Ok (row, c') ->
  c' = with_assessments (qdb_assessments c') c
  /\ qdb_assessments c' !! aw_policy_evaluation_id w = Some row
  /\ (qdb_assessments c !! aw_policy_evaluation_id w = None ->
      assessment_columns w = Ok row
      /\ qdb_assessments c' = <[aw_policy_evaluation_id w := row]> (qdb_assessments c)).
Proof.
  unfold append_assessment, get_by_policy_in_transaction. intros H.
  inv_result_step. destruct v as [b c1]. apply insert_assessment_Ok in Hv as (r & Hcols & Hins).
  destruct b.
  - destruct Hins as [Hnone ->]. simpl in H. rewrite lookup_insert_eq in H. simplify_eq. simpl.
    rewrite lookup_insert_eq. done.
  - destruct Hins as [[r' Hr] ->]. rewrite Hr in H. inv_result. simplify_eq.
    split; [by destruct c'|]. split; [done|]. congruence.
Qed.

Lemma commit_compliance_grows {A} (r : result (A * compliance_db)) db :
  (forall a c, r = Ok (a, c) -> grows (sdb_compliance db) c) ->
  grows (sdb_compliance db) (sdb_compliance (commit_compliance r db)).
Proof. destruct r as [[a c]|]; intros H; [by eapply H | reflexivity]. Qed.

Lemma commit_contacts_grows {A} (r : result (A * contact_db)) db :
  grows (sdb_compliance db) (sdb_compliance (commit_contacts r db)).
Proof. unfold grows. by destruct r as [[a k]|]. Qed.

Lemma apply_service_op_grows op db :
  grows (sdb_compliance db) (sdb_compliance (apply_service_op op db)).
Proof.
  destruct op; try (unfold grows; reflexivity); try apply commit_contacts_grows;
    apply commit_compliance_grows; intros row c E.
  - by apply record_contact_Ok in E as (? & _ & ? & _).
  - by apply record_email_Ok in E as [? _].
  - apply append_assessment_Ok in E as (-> & _). unfold grows. reflexivity.
Qed.

Lemma apply_service_ops_grows ops db :
  grows (sdb_compliance db) (sdb_compliance (apply_service_ops ops db)).
Proof.
  revert db. induction ops as [|op ops IH]; intros db; [reflexivity|].
  simpl. etrans; [apply (apply_service_op_grows op)|]. apply IH.
Qed.

(** ** What a match reads *)

Lemma match_validate_Ok m m' : match_validate m = Ok m' -> sm_state m' = sm_state m.
Proof. unfold match_validate. intros H. by inv_result. Qed.

Lemma missing_versions_nil keyring l :
  list_truthy (missing_versions keyring l) = false ->
  forall v, v ∈ l -> is_Some (kg_keys keyring !! v).
Proof.
  intros H v Hv. apply list_truthy_false in H. destruct (kg_keys keyring !! v) eqn:E; [eauto|].
  exfalso. assert (Hin : v ∈ missing_versions keyring l)
    by (apply list_elem_of_filter; by rewrite elem_of_sorted_set).
  rewrite H in Hin. by apply not_elem_of_nil in Hin.
Qed.

Lemma match_contact_Ok store c ref at_ m :
  match_contact_in_transaction store c ref at_ = Ok m ->
  exists contact n, get_contact_in_transaction (qdb_contacts c) ref = Ok contact
    /\ normalize_business_email (co_business_email (kr_observation contact)) = Ok n
    /\ (sm_state m = CLEAR -> at_ = None -> forall id row, qdb_suppressions c !! id = Some row ->
        sr_scope row = ss_scope store ->
        exists secret, kg_keys (ss_keyring store) !! sr_identity_key_version row = Some secret
          /\ sr_identity_hmac row
             <> hmac_sha256_hexdigest secret (identity_message (ss_scope store) n)).
Proof.
  unfold match_contact_in_transaction. intros H. inv_result_step. inv_result_step.
  match goal with H : identities_for_email _ _ _ = Ok _ |- _ =>
    apply identities_Ok in H as (n & Hn & ->) end.
  exists v, n. split; [done|]. split; [done|].
  destruct (list_truthy (missing_versions _ _)) eqn:Em.
  { intros Hc. apply match_validate_Ok in H. simpl in H. congruence. }
  inv_result. apply match_validate_Ok in H. simpl in H. intros Hclear -> id row Hrow Hscope.
  rewrite Hclear in H. destruct (list_truthy (sorted_by _ _)) eqn:El; [done|].
  apply list_truthy_false in El.
  assert (Hin : row ∈ rows (qdb_suppressions c)) by (apply elem_of_rows; eauto).
  destruct (missing_versions_nil _ _ Em (sr_identity_key_version row)) as [secret Hs].
  { apply elem_of_dict_fromkeys, list_elem_of_fmap. exists row. split; [done|].
    by apply list_elem_of_filter. }
  exists secret. split; [done|]. intros Heq.
  assert (Hid : sr_suppression_id row ∈ sorted_by string_leb (map sr_suppression_id
    (filter (fun r => suppresses (ss_scope store) ((fun s => hmac_sha256_hexdigest s
       (identity_message (ss_scope store) n)) <$> kg_keys (ss_keyring store)) None r = true)
       (rows (qdb_suppressions c))))).
  { apply elem_of_sorted_by, list_elem_of_fmap. exists row. split; [done|].
    apply list_elem_of_filter. split; [|done].
    unfold suppresses. rewrite lookup_fmap, Hs. simpl.
    rewrite bool_decide_eq_true_2 by done. by rewrite bool_decide_eq_true_2 by congruence. }
  rewrite El in Hid. by apply not_elem_of_nil in Hid.
Qed.

(** Two keyrings agree on the secrets of the versions they share. *)
Definition agree (k k' : SuppressionIdentityKeyring) : Prop :=
  forall v s s', kg_keys k !! v = Some s -> kg_keys k' !! v = Some s' -> s = s'.

(** No match of a held address is clear, under any keyring that agrees. *)
Lemma held_not_clear keyring store c ref m n contact :
  held keyring (ss_scope store) n c -> agree keyring (ss_keyring store) ->
  get_contact_in_transaction (qdb_contacts c) ref = Ok contact ->
  normalize_business_email (co_business_email (kr_observation contact)) = Ok n ->
  match_contact_in_transaction store c ref None = Ok m -> sm_state m <> CLEAR.
Proof.
  intros (id & row & v & secret & Hrow & Hk & Hkey) Hagree Hc Hn Hm Hclear.
  apply match_contact_Ok in Hm as (contact' & n' & Hc' & Hn' & Hall).
  rewrite Hc in Hc'. injection Hc' as <-. rewrite Hn in Hn'. injection Hn' as <-.
  unfold row_key in Hkey. injection Hkey as Hscope Hv Hh.
  destruct (Hall Hclear eq_refl id row Hrow Hscope) as (secret' & Hs' & Hne).
  subst v. rewrite (Hagree _ _ _ Hk Hs') in Hh. by rewrite Hh in Hne.
Qed.
End suppressions.
