(* ===== verification/ComplianceCalls.v ===== *)
(** ComplianceCalls: a call of the compliance service, transaction by
    transaction - what keeps a property of the tables until the commit, and
    what the commit writes. *)

From S2P Require Import Prelude PyStr PyText PyDatetime PyDatetimeFacts PyDecimal PyJson Database.
From S2P Require Import AcquisitionContracts AcquisitionEquiv AcquisitionStore.
From S2P Require Import PolicyContracts PolicyStore PolicyGateway PolicyGatewayTheorems.
From S2P Require Import ContactContracts ContactStore ProspectRecords Suppression.
From S2P Require Import ComplianceContracts ComplianceRules ComplianceStore ComplianceService.
From S2P Require Import ComplianceFacts.
From Stdlib Require Import Ascii String.

Local Open Scope string_scope.
Local Open Scope Z_scope.
Local Open Scope list_scope.

Section calls.
Context `{Hash : HashLib} `{Hmac : HmacLib} `{DB : Database} `{Case : CaseData}.
Variable env : service_env.

(** * A property kept until the commit *)

Section kept.
(** A property of the tables that the others keep, and that does not read
    those of the gateway. *)
Variable I : service_db -> Prop.
Hypothesis I_others : forall n db, I db -> I (apply_service_ops (se_others env n) db).
Hypothesis I_gateway : forall g db, I db -> I (mksdb g (sdb_compliance db)).

Definition safe {A} (m : proc A) : Prop := forall s, I (st_db s) -> I (st_db (m s).2).

Lemma safe_ret {A} (a : A) : safe (ret a).
Proof. by intros s. Qed.
Lemma safe_throw {A} e : safe (@throw A e).
Proof. by intros s. Qed.
Lemma safe_lift {A} (r : result A) : safe (lift r).
Proof. by intros s. Qed.

Lemma safe_bind {A B} (m : proc A) (k : A -> proc B) :
  safe m -> (forall a, safe (k a)) -> safe (bind m k).
Proof.
  intros Hm Hk s Hs. unfold bind. specialize (Hm s Hs). destruct (m s) as [[a|e] s'];
    [by apply Hk | done].
Qed.

Lemma safe_catch {A} (m : proc A) h : safe m -> (forall e, safe (h e)) -> safe (catch m h).
Proof.
  intros Hm Hh s Hs. unfold catch. specialize (Hm s Hs). destruct (m s) as [[a|e] s'];
    [done | by apply Hh].
Qed.

Lemma safe_transaction {A} (f : service_db -> result (A * service_db)) :
  (forall db a db', I db -> f db = Ok (a, db') -> I db') -> safe (transaction env f).
Proof.
  intros Hf s Hs. unfold transaction. apply (I_others (st_transactions s)) in Hs.
  fold (found env s) in Hs. destruct (f (found env s)) as [[a db]|e] eqn:E; simpl; [|done].
  by eapply Hf.
Qed.

Lemma safe_reading {A} (f : service_db -> result A) : safe (reading env f).
Proof. apply safe_transaction. intros db a db' Hdb H. by inv_result. Qed.

Ltac safe := intros; repeat first
  [ apply safe_ret | apply safe_throw | apply safe_lift | apply safe_reading
  | apply safe_bind; [|intros ?] | apply safe_catch; [|intros ?]
  | case_match ]; auto.

Lemma any_legacy_safe candidates request historical fingerprint :
  safe (any_legacy env candidates request historical fingerprint).
Proof. induction candidates as [|c l IH]; simpl; safe. Qed.

Lemma require_existing_safe existing opportunity_id a :
  safe (_require_existing env existing opportunity_id a).
Proof. unfold _require_existing. safe. apply any_legacy_safe. Qed.

Lemma concurrent_safe evaluation_id opportunity_id a :
  safe (concurrent_or_changed env evaluation_id opportunity_id a).
Proof.
  unfold concurrent_or_changed, _await_concurrent_result.
  assert (forall n, safe (await_loop env n evaluation_id opportunity_id a)) as Hl.
  { induction n as [|n IH]; simpl; safe. by apply require_existing_safe. }
  apply safe_bind; [apply Hl|]. intros [|]; safe.
Qed.

Lemma authorize_safe request captured_at budget_usage :
  safe (authorize env request captured_at budget_usage).
Proof.
  unfold authorize. apply safe_bind; [apply safe_reading|]. intros before.
  apply safe_transaction. intros db d db' Hdb H. inv_result_step. destruct v as [d' g].
  injection H as <- <-. by apply I_gateway.
Qed.

(** ** The commit *)

(** The last transaction of a call that answers anew. *)
Inductive commits (opportunity_id : string) (db : service_db) (row : ComplianceAssessmentWrite)
    (db' : service_db) : Prop :=
| CommitsRecorded v d expected captured_at
    (H : recorded_transaction env opportunity_id v d expected captured_at db = Ok (row, db'))
| CommitsBlocked v d expected captured_at
    (H : blocked_transaction v d captured_at expected db = Ok (row, db')).

(** A call leaves the property, or ends with a commit from tables that had
    it. *)
Definition ends {A} (opportunity_id : string) (m : proc A) : Prop := forall s, I (st_db s) ->
  I (st_db (m s).2)
  \/ exists db row, I db /\ commits opportunity_id db row (st_db (m s).2).

Lemma ends_safe {A} opportunity_id (m : proc A) : safe m -> ends opportunity_id m.
Proof. intros Hm s Hs. left. by apply Hm. Qed.

Lemma ends_bind {A B} opportunity_id (m : proc A) (k : A -> proc B) :
  safe m -> (forall a, ends opportunity_id (k a)) -> ends opportunity_id (bind m k).
Proof.
  intros Hm Hk s Hs. unfold bind. specialize (Hm s Hs).
  destruct (m s) as [[a|e] s']; [by apply Hk | by left].
Qed.

Lemma ends_transaction opportunity_id (f : service_db -> result (ComplianceAssessmentWrite * service_db)) h :
  (forall db row db', f db = Ok (row, db') -> commits opportunity_id db row db') ->
  (forall e, safe (h e)) -> ends opportunity_id (catch (transaction env f) h).
Proof.
  intros Hf Hh s Hs. unfold catch, transaction. apply (I_others (st_transactions s)) in Hs.
  fold (found env s) in Hs. destruct (f (found env s)) as [[row db]|e] eqn:E; simpl.
  - right. eauto.
  - left. by apply Hh.
Qed.

Lemma commit_ends opportunity_id v d expected captured_at a :
  ends opportunity_id (_commit_recorded env opportunity_id v d expected captured_at a)
  /\ ends opportunity_id (_commit_blocked env v d captured_at expected).
Proof.
  split.
  - apply ends_transaction; [intros; by econstructor|]. intros e.
    destruct e; try apply safe_throw; apply concurrent_safe.
  - intros s Hs. destruct (ends_transaction opportunity_id
      (blocked_transaction v d captured_at expected) throw
      (fun db row db' H => CommitsBlocked _ _ _ _ _ _ _ _ H) safe_throw s Hs) as [H|H];
      unfold catch in H; [left | right];
      unfold _commit_blocked; destruct (transaction _ _ _) as [[?|?] ?]; exact H.
Qed.

Lemma assess_ends opportunity_id a budget_usage :
  ends opportunity_id (assess env opportunity_id a budget_usage).
Proof.
  unfold assess. apply ends_bind; [apply safe_reading|]. intros [existing|].
  { apply ends_safe, safe_bind; [apply require_existing_safe | intros; apply safe_ret]. }
  apply ends_bind; [apply safe_reading|]. intros row. destruct (truthy row).
  { apply ends_safe, safe_throw. }
  do 4 (apply ends_bind; [first [apply safe_reading | apply safe_lift]|]; intros ?).
  apply ends_bind.
  - apply safe_catch; [apply safe_bind; [apply authorize_safe | intros; apply safe_ret]|].
    intros e. destruct e; try apply safe_throw.
    apply safe_bind; [apply concurrent_safe | intros; apply safe_ret].
  - intros [d|w]; [|apply ends_safe, safe_ret].
    destruct (negb (pd_executable d)); by apply (commit_ends _ _ _ _ _ a).
Qed.
End kept.

(** * What a commit stands on *)

Ltac destruct_prods := repeat match goal with x : prod _ _ |- _ => destruct x end.

Lemma uvalid_fingerprint field s t : KFingerprint field s = Ok t -> is_fingerprint t = true.
Proof. unfold KFingerprint. destruct (is_fingerprint (ustrip s)) eqn:E; by intros [= <-]. Qed.

Lemma get_contact_Ok k ref contact : get_contact_in_transaction k ref = Ok contact ->
  is_fingerprint (kr_contact_ref contact) = true.
Proof.
  unfold get_contact_in_transaction, _contact, contact_record_validate. intros H. inv_result. simpl.
  by eapply uvalid_fingerprint.
Qed.

Lemma bound_Ok {A} id (r : result A) a : bound id r = Ok a -> r = Ok a.
Proof. destruct r as [|[]]; simpl; congruence. Qed.

Lemma revalidated_Ok {A} id (r : result A) a : revalidated id r = Ok a -> r = Ok a.
Proof. destruct r as [|[]]; simpl; congruence. Qed.

(** What a load read: the contact is that of the opportunity, with the match
    of its address. *)
Record load_facts (db : service_db) (l : loaded) : Prop := {
  lf_contact : get_contact_in_transaction (qdb_contacts (sdb_compliance db))
                 (kr_contact_ref (ld_contact l)) = Ok (ld_contact l);
  lf_match : match_contact_in_transaction (suppression_store env) (sdb_compliance db)
               (kr_contact_ref (ld_contact l)) None = Ok (ld_suppression l);
  lf_actionable : actionable (ld_opportunity l) = true;
  lf_bindings : bindings (se_expected_contact_profile_version env) (ld_opportunity l)
    (ld_artifact l) (ld_supplier l) (ld_contact l) (ld_profile l) = true;
}.

Lemma bindings_contact expected o artifact supplier contact profile :
  bindings expected o artifact supplier contact profile = true ->
  op_contact_ref o = Some (kr_contact_ref contact).
Proof. unfold bindings. intros H. inv_result. done. Qed.

Lemma load_Ok db opportunity_id current l :
  _load_in_transaction env db opportunity_id current = Ok l ->
  load_facts db l /\ ld_opportunity l = current.
Proof.
  unfold _load_in_transaction. intros H. repeat inv_result_step.
  repeat match goal with H : bound _ _ = Ok _ |- _ => apply bound_Ok in H end.
  split; [|done].
  match goal with H : bindings _ _ _ _ _ _ = true |- _ =>
    pose proof (bindings_contact _ _ _ _ _ _ H) as Href end.
  split; simpl; try done.
  match goal with H : op_contact_ref _ = Some ?r, G : get_contact_in_transaction _ ?r = Ok _ |- _ =>
    rewrite Href in H; by injection H as -> end.
Qed.

(** What the input of a decision says of what was loaded. *)
Record input_facts (l : loaded) (captured_at : datetime) (i : ComplianceInput) : Prop := {
  if_contact : ci_contact_ref i = strip (kr_contact_ref (ld_contact l));
  if_suppression : ci_suppression_match_state i = sm_state (ld_suppression l);
  if_legal : ci_ch_legal_basis i = UNPROVEN;
  if_context : ci_business_context_state i =
    if in_list (co_role_tier (kr_observation (ld_contact l))) [1; 2; 3]
    then PROFESSIONAL_CONTEXT_VERIFIED else BUSINESS_CONTEXT_INSUFFICIENT;
  if_sender : ci_sender_config i = se_sender_config env;
  if_assessed : ci_assessed_at i = captured_at;
  if_opportunity : ci_acquisition_opportunity_id i
                   = strip (op_acquisition_opportunity_id (ld_opportunity l));
}.

(** An input that was built keeps the fields it was given. *)
Lemma input_validate_Ok i i' : input_validate i = Ok i' ->
  ci_contact_ref i' = strip (ci_contact_ref i)
  /\ ci_acquisition_opportunity_id i' = strip (ci_acquisition_opportunity_id i)
  /\ ci_suppression_match_state i' = ci_suppression_match_state i
  /\ ci_ch_legal_basis i' = ci_ch_legal_basis i
  /\ ci_business_context_state i' = ci_business_context_state i
  /\ ci_sender_config i' = ci_sender_config i
  /\ ci_assessed_at i' = ci_assessed_at i.
Proof.
  unfold input_validate. intros H. inv_result. simpl.
  repeat match goal with
  | H : CStableRef _ (ci_contact_ref i) = Ok _ |- _ => apply constr_Ok in H as [-> _]
  | H : CStableRef _ (ci_acquisition_opportunity_id i) = Ok _ |- _ => apply constr_Ok in H as [-> _]
  | H : checked "assessed_at" _ _ = Ok _ |- _ => apply checked_Ok in H as [_ ->]
  end. done.
Qed.

Lemma build_values_Ok l captured_at v : _build_values env l captured_at = Ok v ->
  cv_loaded v = l /\ evaluate_compliance (cv_input v) RULESET_V1 = Ok (cv_proposal v)
  /\ input_facts l captured_at (cv_input v).
Proof.
  unfold _build_values. intros H. inv_result. simpl. split; [done|]. split; [done|].
  match goal with H : input_validate _ = Ok _ |- _ =>
    apply input_validate_Ok in H as (? & ? & ? & ? & ? & ? & ?) end.
  by split.
Qed.

(** What the row of a decision keeps of it. *)
Record write_facts (v : compliance_values) (d : PolicyDecision) (disposition : ComplianceDisposition)
    (event_id : option string) (created_at : datetime) (w : ComplianceAssessmentWrite) : Prop := {
  wf_state : aw_state w = cp_state (cv_proposal v);
  wf_next : aw_next_action w = cp_next_action (cv_proposal v);
  wf_until : aw_valid_until w = cp_valid_until (cv_proposal v);
  wf_disposition : aw_disposition w = disposition;
  wf_evaluation : aw_policy_evaluation_id w = strip (pd_evaluation_id d);
  wf_contact : aw_contact_ref w = strip (ci_contact_ref (cv_input v));
  wf_opportunity : aw_acquisition_opportunity_id w
                   = strip (ci_acquisition_opportunity_id (cv_input v));
  wf_jurisdiction : aw_jurisdiction w = jr_jurisdiction (ci_jurisdiction (cv_input v));
  wf_event : aw_recorded_event_id w = strip <$> event_id;
  wf_created : aw_created_at w = created_at;
  wf_aware : aware created_at = true;
  wf_coherent : coherent_result w = true;
}.

Lemma opt_constr_Ok field lo hi o o' : opt_mapM (constr field lo hi) o = Ok o' -> o' = strip <$> o.
Proof. destruct o; simpl; intros H; inv_result; [|done]. by apply constr_Ok in Hv as [-> _]. Qed.

Lemma write_Ok v d disposition created_at expected event_id w :
  _write v d disposition created_at expected event_id = Ok w ->
  write_facts v d disposition event_id created_at w.
Proof.
  unfold _write, write_validate. intros H. simpl in H. repeat inv_result_step.
  unfold CStableRef in *.
  repeat match goal with
  | H : constr _ _ _ _ = Ok _ |- _ => apply constr_Ok in H as [-> _]
  | H : checked _ _ _ = Ok _ |- _ => apply checked_Ok in H as [? ->]
  | H : opt_mapM (literal _ _) _ = Ok _ |- _ => apply opt_literal_Ok in H as [-> _]
  | H : opt_mapM _ event_id = Ok _ |- _ => apply (opt_constr_Ok "recorded_event_id" 1 256) in H as ->
  end.
  by split.
Qed.
(** What the transaction that records an assessment stood on and wrote. *)
Record recorded_facts (opportunity_id : string) (v : compliance_values) (d : PolicyDecision)
    (expected : Z) (captured_at : datetime) (db : service_db) (row : ComplianceAssessmentWrite)
    (db' : service_db) (l : loaded) (rebuilt : compliance_values)
    (mutation : MutationResult) (w : ComplianceAssessmentWrite) : Prop := {
  rf_current : get_opportunity_in_transaction (acquisition_of db) opportunity_id
               = Ok (ld_opportunity l);
  rf_version : op_stream_version (ld_opportunity l) = expected;
  rf_load : load_facts db l;
  rf_input : input_facts l captured_at (cv_input rebuilt);
  rf_proposal : evaluate_compliance (cv_input rebuilt) RULESET_V1 = Ok (cv_proposal rebuilt);
  rf_input_same : cv_input_fingerprint rebuilt = cv_input_fingerprint v;
  rf_proposal_same : cv_proposal_fingerprint rebuilt = cv_proposal_fingerprint v;
  rf_append : append_in_transaction (se_event_env env) (acquisition_of db) opportunity_id
      (next_action_request (cv_proposal rebuilt) d expected captured_at)
    = Ok (mutation, acquisition_of db');
  rf_write : write_facts rebuilt d RECORDED (Some (ev_event_id (mr_event mutation))) captured_at w;
  rf_tables : sdb_compliance db'
    = with_assessments (qdb_assessments (sdb_compliance db')) (sdb_compliance db);
  rf_assessment : exists refs,
    append_assessment refs (sdb_compliance db) w = Ok (row, sdb_compliance db');
}.

Lemma recorded_transaction_Ok opportunity_id v d expected captured_at db row db' :
  recorded_transaction env opportunity_id v d expected captured_at db = Ok (row, db') ->
  exists l rebuilt mutation w,
    recorded_facts opportunity_id v d expected captured_at db row db' l rebuilt mutation w.
Proof.
  unfold recorded_transaction. intros H. repeat inv_result_step.
  repeat match goal with H : revalidated _ _ = Ok _ |- _ => apply revalidated_Ok in H end.
  inv_result.
  match goal with H : _load_in_transaction _ _ _ _ = Ok ?l |- _ =>
    apply load_Ok in H as [Hl Ho]; exists l end.
  match goal with H : _build_values _ _ _ = Ok ?b |- _ =>
    apply build_values_Ok in H as (_ & Hp & Hi); exists b end.
  do 2 (destruct_prods; simpl in *; inv_result).
  match goal with H : append_assessment ?refs _ ?w = Ok _ |- _ =>
    pose proof (append_assessment_Ok _ _ _ _ _ H) as (Ht & _);
    match goal with H : append_in_transaction _ _ _ _ = Ok (?m, _) |- _ => exists m, w end end.
  simplify_eq. split; simpl; try done; eauto using write_Ok. by apply Z.eqb_eq.
Qed.

(** A recording that is not allowed by the policy keeps no event. *)
Lemma blocked_Ok v d created_at expected db row db' :
  blocked_transaction v d created_at expected db = Ok (row, db') ->
  exists w c refs, write_facts v d POLICY_BLOCKED None created_at w
    /\ append_assessment refs (sdb_compliance db) w = Ok (row, c)
    /\ db' = with_compliance c db.
Proof.
  unfold blocked_transaction. intros H. repeat inv_result_step.
  destruct_prods. simplify_eq. eauto 10 using write_Ok.
Qed.
End calls.
