(* ===== verification/ComplianceTheorems.v ===== *)
(** ComplianceTheorems: what the assessment of an outreach guarantees - when
    the rules allow it, that a suppressed address is never allowed whatever
    the others do meanwhile, what an authorization stands on, and that it is
    recorded with the event that moves the opportunity on. *)

From S2P Require Import Prelude PyStr PyText PyDatetime PyDatetimeFacts PyDecimal PyJson.
From S2P Require Import Database AcquisitionContracts AcquisitionEquiv.
From S2P Require Import AcquisitionStateMachine AcquisitionStateFacts AcquisitionStore.
From S2P Require Import AcquisitionStoreFacts PolicyContracts PolicyStore PolicyGateway.
From S2P Require Import PolicyGatewayTheorems ContactContracts ContactStore ProspectRecords.
From S2P Require Import Suppression ComplianceContracts ComplianceRules ComplianceStore.
From S2P Require Import ComplianceService ComplianceFacts ComplianceCalls.
From S2P Require AcquisitionTheorems PolicyTheorems.
From Stdlib Require Import Ascii String.

Local Open Scope string_scope.
Local Open Scope Z_scope.
Local Open Scope list_scope.

(** * Lemmas *)

Section lemmas.
Context `{Hash : HashLib} `{Hmac : HmacLib} `{DB : Database} `{Case : CaseData}.

(** ** The assessments of an evaluation *)

(** An operation that does not record an assessment of the evaluation. *)
Definition leaves (id : string) (op : service_op) : Prop :=
  match op with AppendAssessment w => aw_policy_evaluation_id w <> id | _ => True end.

Definition unassessed (id : string) (db : service_db) : Prop :=
  qdb_assessments (sdb_compliance db) !! id = None.

Lemma append_suppression_assessments c r row c' :
  _append_in_transaction c r = Ok (row, c') -> qdb_assessments c' = qdb_assessments c.
Proof. intros H. by apply append_suppression_Ok in H as (_ & _ & _ & ->). Qed.

Lemma record_contact_assessments store c ref source reason evidence received effective version row c' :
  record_for_contact store c ref source reason evidence received effective version = Ok (row, c') ->
  qdb_assessments c' = qdb_assessments c.
Proof.
  unfold record_for_contact, record_for_contact_in_transaction. intros H. inv_result.
  by eapply append_suppression_assessments.
Qed.

Lemma record_email_assessments store c email source reason evidence received row c' :
  record_for_email_in_transaction store c email source reason evidence received = Ok (row, c') ->
  qdb_assessments c' = qdb_assessments c.
Proof.
  unfold record_for_email_in_transaction. intros H. inv_result.
  by eapply append_suppression_assessments.
Qed.

Lemma append_assessment_other refs c w row c' id :
  append_assessment refs c w = Ok (row, c') -> aw_policy_evaluation_id w <> id ->
  qdb_assessments c' !! id = qdb_assessments c !! id.
Proof.
  unfold append_assessment. intros H Hid. inv_result_step. destruct v as [b c1].
  apply insert_assessment_Ok in Hv as (r & _ & Hins).
  assert (qdb_assessments c1 !! id = qdb_assessments c !! id) as <-.
  { destruct b; destruct Hins as [_ ->]; [|done]. by apply lookup_insert_ne. }
  destruct b; inv_result; simplify_eq; done.
Qed.

Lemma commit_compliance_unassessed {A} id (r : result (A * compliance_db)) db :
  unassessed id db ->
  (forall a c, r = Ok (a, c) ->
    qdb_assessments c !! id = qdb_assessments (sdb_compliance db) !! id) ->
  unassessed id (commit_compliance r db).
Proof. destruct r as [[a c]|]; intros Hdb H; [|done]. unfold unassessed. simpl. by erewrite H. Qed.

Lemma apply_service_op_unassessed id op db :
  leaves id op -> unassessed id db -> unassessed id (apply_service_op op db).
Proof.
  intros Hop Hdb. destruct op; try exact Hdb; simpl in Hop |- *.
  - apply commit_compliance_unassessed; [done|]. intros a c E. by erewrite record_contact_assessments.
  - apply commit_compliance_unassessed; [done|]. intros a c E. by erewrite record_email_assessments.
  - apply commit_compliance_unassessed; [done|]. intros a c E. by eapply append_assessment_other.
  - by destruct (upsert_contact _ _ _ _) as [[? ?]|].
  - by destruct (start_run _ _ _) as [[? ?]|].
  - by destruct (claim_recovery _ _) as [[? ?]|].
  - by destruct (finish_run _ _ _) as [[? ?]|].
Qed.

Lemma apply_service_ops_unassessed id ops db :
  Forall (leaves id) ops -> unassessed id db -> unassessed id (apply_service_ops ops db).
Proof.
  intros H. revert db. induction H as [|op ops Hop _ IH]; intros db Hdb; [done|].
  simpl. by apply IH, apply_service_op_unassessed.
Qed.

(** ** The assessment a call records *)

(** What an assessment found at an evaluation after a call, and not before,
    was recorded from: a property of the tables the others keep holds of
    those the recording found. *)
Lemma fresh_assessment env opportunity_id a usage id s row (J : compliance_db -> Prop) :
  (forall ops db, J (sdb_compliance db) -> J (sdb_compliance (apply_service_ops ops db))) ->
  (forall n, Forall (leaves id) (se_others env n)) ->
  J (sdb_compliance (st_db s)) -> unassessed id (st_db s) ->
  let s' := (assess env opportunity_id a usage s).2 in
  qdb_assessments (sdb_compliance (st_db s')) !! id = Some row -> aw_disposition row = RECORDED ->
  exists db v d expected captured_at l rebuilt mutation w,
    J (sdb_compliance db)
    /\ recorded_facts env opportunity_id v d expected captured_at db row (st_db s') l rebuilt
         mutation w
    /\ assessment_columns w = Ok row.
Proof.
  intros HJ Hleaves Hs Hnone s' Hrow Hdis.
  destruct (assess_ends env (fun db => J (sdb_compliance db) /\ unassessed id db)
    ltac:(intros n db [? ?]; split; [by apply HJ | by apply apply_service_ops_unassessed])
    ltac:(intros g db [? ?]; by split) opportunity_id a usage s (conj Hs Hnone))
    as [[_ Hn]|(db & row' & [Hdb Hun] & Hc)].
  { unfold unassessed in Hn. fold s' in Hn. by rewrite Hn in Hrow. }
  fold s' in Hc. destruct Hc as [v d expected captured_at H|v d expected captured_at H].
  - pose proof (recorded_transaction_Ok _ _ _ _ _ _ _ _ _ H) as (l & rebuilt & m & w & F).
    destruct (rf_assessment _ _ _ _ _ _ _ _ _ _ _ _ _ F) as [refs Ha].
    destruct (decide (aw_policy_evaluation_id w = id)) as [<-|Hid].
    2:{ rewrite (append_assessment_other _ _ _ _ _ _ Ha Hid), Hun in Hrow. done. }
    apply append_assessment_Ok in Ha as (_ & Hr & Hcols). rewrite Hr in Hrow. injection Hrow as <-.
    exists db, v, d, expected, captured_at, l, rebuilt, m, w. split; [done|]. split; [done|].
    by apply Hcols.
  - apply blocked_Ok in H as (w & c & refs & F & Ha & E). rewrite E in Hrow. simpl in Hrow.
    destruct (decide (aw_policy_evaluation_id w = id)) as [<-|Hid].
    2:{ rewrite (append_assessment_other _ _ _ _ _ _ Ha Hid), Hun in Hrow. done. }
    apply append_assessment_Ok in Ha as (_ & Hr & Hcols). rewrite Hr in Hrow. injection Hrow as <-.
    destruct (Hcols Hun) as [Hcols' _]. rewrite (assessment_columns_Ok _ _ Hcols') in Hdis. simpl in Hdis.
    rewrite (wf_disposition _ _ _ _ _ _ F) in Hdis. done.
Qed.

(** The contact of a recorded assessment is the one it was loaded with. *)
Lemma recorded_contact env opportunity_id v d expected captured_at db row db' l rebuilt m w :
  recorded_facts env opportunity_id v d expected captured_at db row db' l rebuilt m w ->
  assessment_columns w = Ok row ->
  aw_contact_ref row = kr_contact_ref (ld_contact l)
  /\ get_contact_in_transaction (qdb_contacts (sdb_compliance db')) (aw_contact_ref row)
     = Ok (ld_contact l)
  /\ aw_state row = cp_state (cv_proposal rebuilt).
Proof.
  intros [] Hcols. destruct rf_load, rf_write, rf_input.
  rewrite (assessment_columns_Ok _ _ Hcols), rf_tables. simpl.
  pose proof (is_fingerprint_strip _ (get_contact_Ok _ _ _ lf_contact)) as Hs.
  rewrite wf_contact, if_contact, !Hs. done.
Qed.

Lemma bindings_verified expected o artifact supplier contact profile :
  bindings expected o artifact supplier contact profile = true ->
  co_verification_state (kr_observation contact) = "PROVIDER_VERIFIED"
  /\ co_verification_provider (kr_observation contact) = "apollo"
  /\ co_provider_email_status (kr_observation contact) = "verified".
Proof. unfold bindings. intros H. inv_result. done. Qed.

(** The validity of an authorization, as its row keeps it. *)
Lemma recorded_validity env opportunity_id v d expected captured_at db row db' l rebuilt m w :
  recorded_facts env opportunity_id v d expected captured_at db row db' l rebuilt m w ->
  assessment_columns w = Ok row -> cp_state (cv_proposal rebuilt) = ComplianceALLOWED ->
  exists until, aw_valid_until row = Some until
    /\ instant (aw_created_at row) < instant until
       <= instant (aw_created_at row) + 24 * 3600 * US_SECOND.
Proof.
  intros [] Hcols Ha. destruct rf_write, rf_input.
  rewrite (assessment_columns_Ok _ _ Hcols). simpl. rewrite wf_until, wf_created.
  pose proof (evaluate_allowed _ _ _ rf_proposal) as [Hiff Hv].
  destruct (Hv Ha) as (_ & u & Hu & -> & Haw). exists (timestamptz u). split; [done|].
  pose proof (timestamptz_equiv u Haw) as [_ <-].
  pose proof (timestamptz_equiv captured_at wf_aware) as [_ <-].
  pose proof (proj1 Hiff Ha) as [_ He _ (Hs & _) _].
  pose proof (validity_bounds _ _ _ Hu) as (Hb & _ & _).
  assert (rs_allowed_ttl_hours RULESET_V1 = 24) as Ht by (destruct ruleset_v1_eq as (fp & _ & ->); done).
  pose proof (validity_after _ _ _ Hu ltac:(rewrite Ht; lia) Hs He).
  rewrite Ht, if_assessed in *. lia.
Qed.

(** What an append under a new key leaves in the journal. *)
Lemma append_new env db id r m db' :
  db_inv db -> canonical_request r -> select_by_key db id (rq_idempotency_key r) = None ->
  append_in_transaction env db id r = Ok (m, db') ->
  exists f new, stream db' id = stream db id ++ [f] /\ db_opportunities db' !! id = Some new
    /\ ev_event_id f = ev_event_id (mr_event m) /\ strip (ev_event_id f) = ev_event_id f
    /\ ev_event_type f = rq_event_type r /\ ev_payload f = rq_payload r
    /\ ev_stream_sequence f = rq_expected_version r + 1
    /\ op_stream_version new = rq_expected_version r + 1
    /\ exists row next, db_opportunities db !! id = Some row
       /\ reduce_event (Some row) (mr_event m) = Ok next /\ op_next_action new = op_next_action next
       /\ ev_event_type (mr_event m) = rq_event_type r /\ ev_payload (mr_event m) = rq_payload r.
Proof.
  intros Hdb Hcan Hkey H. unfold append_in_transaction in H. inv_result_step.
  destruct v as [m0|next e].
  { unfold append_read in Hv. do 2 inv_result_step. rewrite Hkey in Hv. by inv_result. }
  apply append_read_write_Ok in Hv as (row & fp & Hrow & Hver & Hfp & Hb & Hred & _); [|done].
  apply append_write_Ok in H as (row' & new & f & Hrow' & _ & Hnew & Hf & _ & _ & _ & -> & ->).
  rewrite Hrow in Hrow'. injection Hrow' as <-.
  apply build_event_Ok in Hb as (He & Ht & Hp & Hseq & _ & _ & _).
  pose proof (event_values_rel e f He Hf) as (Her & Hfok & _).
  pose proof (inv_rows _ Hdb _ _ Hrow) as Hri. pose proof (ri_id _ _ _ Hri) as Hid.
  assert (Hcat : ev_event_type e = RETRY_SCHEDULED -> canonical_error_category (ev_payload e) = true)
    by (rewrite Ht, Hp; exact Hcan).
  assert (Hnok : opp_ok next)
    by (apply (reduce_event_ok (Some row) e); [intros ? [= <-]; apply Hri|exact He|exact Hcat|exact Hred]).
  pose proof (projection_values_rel next new Hnok Hnew) as [Hrel _].
  exists f, new. rewrite stream_insert, decide_True.
  2:{ rewrite (er_opportunity _ _ _ Her). by apply reduce_event_Some in Hred as (_ & -> & _). }
  simpl. rewrite lookup_insert_eq. split; [done|]. split; [done|].
  split; [apply (er_event_id _ _ _ Her)|].
  split. { pose proof (eok_id _ Hfok) as Hi. unfold Identifier in Hi. by apply constr_Ok in Hi as [? _]. }
  split; [by rewrite (er_type _ _ _ Her)|]. split; [by rewrite (er_payload _ _ _ Her)|].
  split; [by rewrite (er_sequence _ _ _ Her)|].
  split; [rewrite (or_version _ _ _ Hrel), (cs_version _ _ _ (reduce_event_common _ _ _ Hred)); lia|].
  exists row, next. rewrite (or_action _ _ _ Hrel). done.
Qed.

Lemma next_action_reduced o e o' next : ev_event_type e = NEXT_ACTION_SET ->
  ev_payload e = [("next_action", JOptStr next)] -> reduce_event (Some o) e = Ok o' ->
  op_next_action o' = next.
Proof.
  intros Ht Hp H. apply reduce_event_Some in H as (_ & _ & _ & H).
  rewrite Ht in H. simpl in H. unfold _next_action_set in H. rewrite Hp in H.
  destruct next; simpl in H; inv_result; done.
Qed.
End lemmas.

(** * Claims *)

Section claims.
Context `{Hash : HashLib} `{Hmac : HmacLib} `{DB : Database} `{Case : CaseData}.

(** C11 (functional).  The version-1 rules allow an outreach exactly when no
    suppression matches under complete key coverage, the ruleset is in force,
    the country is configured, the sender is identified, offers an opt-out
    and is not expired, and the country's own predicate holds (Switzerland: a
    proven legal basis; France: both notices, a verified professional context
    and a provider-verified business address).  An authorization asks for
    the campaign to be scheduled and lasts more than nothing, at most
    twenty-four hours, and not past the configuration of the sender. *)
Theorem allowed_exactly (v : ComplianceInput) (p : ComplianceProposal) :
  evaluate_compliance v RULESET_V1 = Ok p ->
  (cp_state p = ComplianceALLOWED <-> allowed_conditions v RULESET_V1)
  /\ (cp_state p = ComplianceALLOWED ->
      cp_next_action p = Some "schedule_campaign"
      /\ exists until, cp_valid_until p = Some until
         /\ instant (ci_assessed_at v) < instant until
            <= instant (ci_assessed_at v) + 24 * 3600 * US_SECOND
         /\ forall e, sd_valid_until (ci_sender_config v) = Some e -> instant until <= instant e).
Proof.
  intros H. apply evaluate_allowed in H as [Hiff Hv]. split; [done|]. intros Ha.
  pose proof (proj1 Hiff Ha) as [_ He _ (Hs & _) _]. destruct (Hv Ha) as (Hn & u & Hu & Hp & _).
  split; [done|]. exists u. split; [done|].
  pose proof (validity_bounds _ _ _ Hu) as (Hb & Hsd & _).
  assert (rs_allowed_ttl_hours RULESET_V1 = 24) as Ht by (destruct ruleset_v1_eq as (fp & _ & ->); done).
  rewrite Ht in Hb.
  pose proof (validity_after _ _ _ Hu ltac:(rewrite Ht; lia) Hs He). split; [lia | done].
Qed.

(** C10 (safety).  A suppression is never overruled.  Once an address has been
    suppressed (as an email, or as the address of a contact), then whatever
    other processes did since and do before each transaction of a call -
    recording other suppressions, rewriting contacts, suppliers, profiles,
    messages and the whole of the policy and journal tables - an assessment
    the call records as allowed is of a contact whose normalized address is
    another one, under any keyring that has not changed the secret of a
    version. *)
Theorem suppressed_never_allowed (env : service_env) (store : SuppressionStore) (db : service_db)
    (email : string) (c1 : compliance_db) (ops : list service_op) (s : service_state)
    (opportunity_id : string) (a : ComplianceAuthorizationInput) (usage : BudgetUsage)
    (id : string) (row : ComplianceAssessmentWrite) (contact : ContactRecord) :
  suppressed store (sdb_compliance db) email c1 -> ss_scope store = SUPPRESSION_SCOPE ->
  agree (ss_keyring store) (se_keyring env) ->
  st_db s = apply_service_ops ops (with_compliance c1 db) -> unassessed id (st_db s) ->
  (forall n, Forall (leaves id) (se_others env n)) ->
  let s' := (assess env opportunity_id a usage s).2 in
  qdb_assessments (sdb_compliance (st_db s')) !! id = Some row ->
  aw_state row = ComplianceALLOWED -> aw_disposition row = RECORDED ->
  get_contact_in_transaction (qdb_contacts (sdb_compliance (st_db s'))) (aw_contact_ref row)
    = Ok contact ->
  normalize_business_email (co_business_email (kr_observation contact))
  <> normalize_business_email email.
Proof.
  intros Hsup Hscope Hagree Hs Hnone Hleaves s' Hrow Hstate Hdis Hcontact Heq.
  apply suppressed_held in Hsup as (_ & n & Hn & Hheld). rewrite Hscope in Hheld.
  assert (Hops : forall ops db, held (ss_keyring store) SUPPRESSION_SCOPE n (sdb_compliance db) ->
    held (ss_keyring store) SUPPRESSION_SCOPE n (sdb_compliance (apply_service_ops ops db)))
    by (intros; eapply held_grows; [apply apply_service_ops_grows | done]).
  destruct (fresh_assessment env opportunity_id a usage id s row
    (held (ss_keyring store) SUPPRESSION_SCOPE n) Hops Hleaves ltac:(rewrite Hs; by apply Hops)
    Hnone Hrow Hdis) as (db0 & v & d & expected & at_ & l & rebuilt & m & w & Hdb & F & Hcols).
  pose proof (recorded_contact _ _ _ _ _ _ _ _ _ _ _ _ _ F Hcols) as (Href & Hc & Hst).
  fold s' in Hc. rewrite Hcontact in Hc. injection Hc as ->. rewrite Hn in Heq.
  pose proof (rf_load _ _ _ _ _ _ _ _ _ _ _ _ _ F) as [Hlc Hlm _ _].
  apply (held_not_clear _ (suppression_store env) _ _ _ _ _ Hdb Hagree Hlc Heq Hlm).
  rewrite <- (if_suppression _ _ _ _ (rf_input _ _ _ _ _ _ _ _ _ _ _ _ _ F)).
  pose proof (evaluate_allowed _ _ _ (rf_proposal _ _ _ _ _ _ _ _ _ _ _ _ _ F)) as [Hiff _].
  apply al_suppression with RULESET_V1, Hiff. congruence.
Qed.

(** C13 (safety).  What the service may allow.  An assessment that a call
    records as allowed, whatever the others do meanwhile, is of a prospect in
    France - the service knows no legal basis for Switzerland - whose contact
    is provider-verified with a decision-making role, under a sender whose
    configuration says all four readiness conditions, and its row expires
    after the assessment and within a day of it. *)
Theorem allowed_only_verified_french (env : service_env) (s : service_state)
    (opportunity_id : string) (a : ComplianceAuthorizationInput) (usage : BudgetUsage)
    (id : string) (row : ComplianceAssessmentWrite) :
  unassessed id (st_db s) -> (forall n, Forall (leaves id) (se_others env n)) ->
  let s' := (assess env opportunity_id a usage s).2 in
  qdb_assessments (sdb_compliance (st_db s')) !! id = Some row ->
  aw_state row = ComplianceALLOWED -> aw_disposition row = RECORDED ->
  aw_jurisdiction row = FR
  /\ (exists contact,
       get_contact_in_transaction (qdb_contacts (sdb_compliance (st_db s'))) (aw_contact_ref row)
         = Ok contact
       /\ co_role_tier (kr_observation contact) ∈ [1; 2; 3]
       /\ co_verification_state (kr_observation contact) = "PROVIDER_VERIFIED"
       /\ co_verification_provider (kr_observation contact) = "apollo"
       /\ co_provider_email_status (kr_observation contact) = "verified")
  /\ (let sender := se_sender_config env in
      sd_sender_identity_ready sender && sd_opt_out_ready sender && sd_privacy_notice_ready sender
      && sd_source_notice_ready sender = true)
  /\ exists until, aw_valid_until row = Some until
      /\ instant (aw_created_at row) < instant until
         <= instant (aw_created_at row) + 24 * 3600 * US_SECOND.
Proof.
  intros Hnone Hleaves s' Hrow Hstate Hdis.
  destruct (fresh_assessment env opportunity_id a usage id s row (fun _ => True)
    ltac:(done) Hleaves I Hnone Hrow Hdis)
    as (db & v & d & expected & at_ & l & rebuilt & m & w & _ & F & Hcols).
  pose proof (recorded_contact _ _ _ _ _ _ _ _ _ _ _ _ _ F Hcols) as (_ & Hc & Hst).
  rewrite Hstate in Hst. symmetry in Hst.
  pose proof (recorded_validity _ _ _ _ _ _ _ _ _ _ _ _ _ F Hcols Hst) as Hvalid.
  destruct F. destruct rf_write, rf_input, rf_load.
  pose proof (proj1 (proj1 (evaluate_allowed _ _ _ rf_proposal)) Hst) as [_ _ _ (_ & Hi & Ho) Hcountry].
  rewrite if_sender, if_legal, if_context in *.
  destruct Hcountry as [[_ ?]|(Hfr & Hp & Hn & Hctx & _)]; [done|].
  split. { rewrite (assessment_columns_Ok _ _ Hcols). simpl. congruence. }
  split.
  - exists (ld_contact l). split; [done|]. split; [|by eapply bindings_verified].
    apply in_list_true. by destruct (in_list _ _).
  - split; [|done]. simpl. by rewrite Hi, Ho, Hp, Hn.
Qed.

(** C12 (functional).  An assessment and the move of its opportunity are one
    write.  When the transaction that records an assessment succeeds, from a
    journal that satisfies its invariant and has no event of the evaluation,
    the stream of the opportunity has exactly one more event, of the type
    NEXT_ACTION_SET with the next action of the row, the row names that
    event, the opportunity has that next action at the following version,
    and no contact, supplier, profile, message or suppression has changed. *)
Theorem recorded_with_event (env : service_env) (opportunity_id : string) (v : compliance_values)
    (d : PolicyDecision) (expected : Z) (captured_at : datetime) (db db' : service_db)
    (row : ComplianceAssessmentWrite) :
  db_inv (acquisition_of db) ->
  select_by_key (acquisition_of db) opportunity_id
    ("compliance_next_action:" +:+ pd_evaluation_id d) = None ->
  unassessed (strip (pd_evaluation_id d)) db ->
  recorded_transaction env opportunity_id v d expected captured_at db = Ok (row, db') ->
  db_inv (acquisition_of db')
  /\ (exists e o, stream (acquisition_of db') opportunity_id
                  = stream (acquisition_of db) opportunity_id ++ [e]
      /\ db_opportunities (acquisition_of db') !! opportunity_id = Some o
      /\ ev_event_type e = NEXT_ACTION_SET
      /\ ev_payload e = [("next_action", JOptStr (aw_next_action row))]
      /\ aw_recorded_event_id row = Some (ev_event_id e)
      /\ op_next_action o = aw_next_action row
      /\ op_stream_version o = expected + 1)
  /\ aw_disposition row = RECORDED
  /\ sdb_compliance db' = with_assessments
       (<[strip (pd_evaluation_id d) := row]> (qdb_assessments (sdb_compliance db)))
       (sdb_compliance db).
Proof.
  intros Hinv Hkey Hnone H.
  apply recorded_transaction_Ok in H as (l & rebuilt & m & w & []). destruct rf_assessment as [refs Ha].
  destruct rf_write. unfold unassessed in Hnone. rewrite <- wf_evaluation in *.
  apply append_assessment_Ok in Ha as (_ & _ & Hnew). destruct (Hnew Hnone) as [Hcols Hins].
  assert (Hcan : canonical_request (next_action_request (cv_proposal rebuilt) d expected captured_at))
    by done.
  split; [by eapply append_inv|].
  destruct (append_new _ _ _ _ _ _ Hinv Hcan Hkey rf_append)
    as (f & o & Hstream & Ho & Hid & Hstrip & Ht & Hp & _ & Hv & o0 & next & _ & Hred & Ha & Ht' & Hp').
  rewrite (assessment_columns_Ok _ _ Hcols). simpl. split; [|split; [done|]].
  - exists f, o. rewrite wf_next, wf_event, Ha. simpl. rewrite <- Hid, Hstrip.
    split_and!; try done. by eapply next_action_reduced.
  - rewrite (assessment_columns_Ok _ _ Hcols) in Hins. congruence.
Qed.
End claims.

(** * A concrete assessment *)

Module ComplianceSample.
#[export] Existing Instance WeightHash.
#[export] Existing Instance ExactDatabase.
#[export] Existing Instance NumberHmac.
#[export] Existing Instance AsciiCase.

Definition t0 : datetime := mkdt 2026 9 1 8 0 0 0 (Some 0).
Definition now : datetime := mkdt 2026 9 1 9 0 0 0 (Some 0).
Definition later : datetime := mkdt 2026 9 1 18 0 0 0 (Some 0).

Definition contact_ref : string := pad_digits 64 5.
Definition event_env (n : Z) : store_env := mkenv t0 ("evt-" +:+ str_int n) "opp-1".
Definition request := AcquisitionTheorems.Sample.request.

Definition journal : acq_db :=
  run empty_db
    [(event_env 1, CallCreate (mkCreate "identity-1" "signal-1" (Some "supplier-1") None None
                                 (request OPPORTUNITY_CREATED 0 "create-1" [] [] [])));
     (event_env 2, CallAppend "opp-1" (request CONTACT_SELECTED 1 "k-2"
        [("contact_ref", JStr contact_ref); ("supplier_ref", JStr "supplier-1")] [] []));
     (event_env 3, CallAppend "opp-1"
        (request STATE_TRANSITIONED 2 "k-3" [("target_state", JStr "ENRICHING")] [] []));
     (event_env 4, CallAppend "opp-1"
        (request STATE_TRANSITIONED 3 "k-4" [("target_state", JStr "READY_FOR_DECISION")] [] []));
     (event_env 5, CallAppend "opp-1" (request DECISION_RECORDED 4 "k-5"
        [("decision", JStr "SEND"); ("next_action", JStr "prepare_campaign");
         ("next_review_at", JNull)] ["FIT"] ["ev-1"]));
     (event_env 6, CallAppend "opp-1" (request NEXT_ACTION_SET 5 "k-6"
        [("next_action", JStr "assess_campaign_compliance")] [] []))].

Definition control : PolicyControlSnapshot :=
  mkControl "snap-1" 1 POLICY_VERSION ASSISTED None false false None
    ["assess_campaign_compliance"] ["FR"] ["fr"] [] "EUR" (mkdec 100 0) 50 t0 (Some later)
    (pad_digits 64 1) t0 "HUMAN" "human:alice" ["setup"].

Definition observation : ContactObservation :=
  mkContact "supplier-1" "apollo" "person-1" "org-1" (Some "Jeanne") None None (Some "CEO") "ceo"
    PROFILE_VERSION 1 "jeanne@batir.fr" "verified" "PROVIDER_VERIFIED" "apollo" t0 t0
    (pad_digits 64 2).
Definition contact : ContactRecord := mkContactRecord observation contact_ref t0 t0.

Definition supplier : SupplierRecord :=
  mkSupplier "supplier-1" "apollo" "org-1" "Batir" "batir" None None None (Some "FR") None None
    PROVIDER_IDENTIFIED None t0 (pad_digits 64 3) t0 t0.

Definition profile : AcquisitionCompanyProfile :=
  mkProfile "opp-1" "signal-1" "supplier-1" contact_ref PROVIDER_IDENTIFIED "apollo" "org-1" "Batir"
    None None (Some "France") None None None None [] t0 (pad_digits 64 3) PROFILE_VERSION 1
    "CURRENT_PROVIDER_RECORD" "LIMITED" [] "UNKNOWN" SIZE_BAND_VERSION PREBUILD_VERSION
    (pad_digits 64 4) t0 t0.

Definition artifact : personalization_artifact :=
  mkArtifact "artifact-1" "opp-1" "supplier-1" contact_ref "decision-1" "fr" (pad_digits 64 6)
    (pad_digits 64 7) (pad_digits 64 8) (pad_digits 64 9)
    [("company_prebuild_fingerprint", JStr (pad_digits 64 4));
     ("public_evidence_refs", JStrs ["ev-1"])] "READY" (Some "evt-6") t0.

Definition compliance : compliance_db :=
  mkqdb (mkkdb {[contact_ref := contact]} ∅) {["supplier-1" := supplier]} {["opp-1" := profile]}
    [artifact] ∅ ∅.

Definition start : service_db :=
  mksdb (mkgdb (mkpdb [control] ∅) journal) compliance.

Definition keyring : SuppressionIdentityKeyring := mkKeyring "k1" {["k1" := "0123456789"]}.
Definition sender : SenderComplianceConfig :=
  mkSender "sender-v1" "sender-1" true true true true None (Some (pad_digits 64 10)).

Definition env : service_env :=
  mkServiceEnv now keyring sender PROFILE_VERSION (mkenv now "evt-policy" "opp-1")
    (mkenv now "evt-action" "opp-1") (fun _ => []).

Definition authorization : ComplianceAuthorizationInput :=
  mkAuthorization "eval-1" "req-1" "HERMES" None None (mkScope (Some "FR") (Some "fr") None) "EUR"
    (mkEvidence EvidenceREADY [] "v1" t0 (Some later))
    (mkOperational "rt-1" QuotaREADY QuotaREADY WindowOPEN AVAILABLE None None) POLICY_VERSION [] None
    None None None.

Definition usage : BudgetUsage := mkUsage dec_zero 0.

(** Someone else's address is suppressed first. *)
Definition store : SuppressionStore := suppression_store env.
Definition suppressing : result (suppression_row * compliance_db) :=
  record_for_email_in_transaction store compliance "Paul@Batir.fr" RECIPIENT_OBJECTION
    RECIPIENT_OBJECTED (_EVIDENCE_PREFIX +:+ pad_digits 64 11) t0.
End ComplianceSample.

Section witnesses.
Local Open Scope proc_scope.
Import ComplianceSample.

Definition suppressed_tables : compliance_db :=
  match suppressing with Ok (_, c) => c | Raise _ => compliance end.
Definition begun : service_state := mkState (with_compliance suppressed_tables start) 0.
Definition ended : service_state := (assess env "opp-1" authorization usage begun).2.
Definition answer : option ComplianceAssessmentWrite :=
  qdb_assessments (sdb_compliance (st_db ended)) !! "eval-1".

Lemma answer_allowed : exists row, answer = Some row /\ aw_state row = ComplianceALLOWED
  /\ aw_disposition row = RECORDED /\ aw_contact_ref row = contact_ref.
Proof.
  assert ((fun r => (aw_state r, aw_disposition r, aw_contact_ref r)) <$> answer
          = Some (ComplianceALLOWED, RECORDED, contact_ref)) as H by (vm_compute; reflexivity).
  destruct answer as [row|]; [|done]. injection H as ? ? ?. eauto.
Qed.

Lemma suppressing_Ok : suppressed store compliance "Paul@Batir.fr" suppressed_tables.
Proof.
  unfold suppressed_tables. destruct suppressing as [[row c]|e] eqn:E.
  - by eapply SuppressedEmail.
  - exfalso. assert (is_ok suppressing = true) as H by (vm_compute; reflexivity). by rewrite E in H.
Qed.

Lemma allowed_exactly_witness :
  exists v p, evaluate_compliance v RULESET_V1 = Ok p /\ cp_next_action p = Some "schedule_campaign".
Proof.
  destruct (_load env start "opp-1") as [l|] eqn:El; [|exfalso; revert El; vm_compute; discriminate].
  destruct (_build_values env l now) as [v|] eqn:Ev.
  2:{ exfalso. assert (is_ok (let! l := _load env start "opp-1" in _build_values env l now) = true) as H
        by (vm_compute; reflexivity). rewrite El in H. simpl in H. by rewrite Ev in H. }
  pose proof (build_values_Ok env l now v Ev) as (_ & Hp & _).
  exists (cv_input v), (cv_proposal v). split; [exact Hp|].
  apply (proj2 (allowed_exactly (cv_input v) (cv_proposal v) Hp)).
  assert ((fun v => cp_state (cv_proposal v)) <$> (match (let! l := _load env start "opp-1" in
    _build_values env l now) with Ok v => Some v | _ => None end) = Some ComplianceALLOWED) as H
    by (vm_compute; reflexivity).
  rewrite El in H. simpl in H. rewrite Ev in H. by injection H.
Defined.

Lemma suppressed_never_allowed_witness :
  normalize_business_email "jeanne@batir.fr" <> normalize_business_email "Paul@Batir.fr".
Proof.
  destruct answer_allowed as (row & Hrow & Hst & Hdis & Href).
  apply (suppressed_never_allowed env store start "Paul@Batir.fr" suppressed_tables [] begun "opp-1"
    authorization usage "eval-1" row contact suppressing_Ok eq_refl).
  - intros v s s' H H'. change (kg_keys (ss_keyring store)) with (kg_keys (se_keyring env)) in H.
    congruence.
  - reflexivity.
  - vm_compute. reflexivity.
  - intros n. constructor.
  - exact Hrow.
  - exact Hst.
  - exact Hdis.
  - rewrite Href. vm_compute. reflexivity.
Defined.

Lemma allowed_only_verified_french_witness :
  exists row, answer = Some row /\ aw_jurisdiction row = FR.
Proof.
  destruct answer_allowed as (row & Hrow & Hst & Hdis & _). exists row. split; [exact Hrow|].
  apply (allowed_only_verified_french env begun "opp-1" authorization usage "eval-1" row);
    [vm_compute; reflexivity | intros n; constructor | exact Hrow | exact Hst | exact Hdis].
Defined.

(** The values of the assessment, the answer of the policy, and the tables
    with that answer. *)
Definition values : result compliance_values :=
  let! l := _load env start "opp-1" in _build_values env l now.
Definition authorized : result PolicyDecision * service_state :=
  (do! v := lift values in
   do! r := lift (_request authorization v 6) in
   authorize env r now usage) (mkState start 0).
Definition answered_db : service_db :=
  mksdb (mkgdb (gdb_policy (sdb_gateway (st_db authorized.2))) journal) compliance.
Definition recording : result (ComplianceAssessmentWrite * service_db) :=
  let! v := values in
  let! d := authorized.1 in
  recorded_transaction env "opp-1" v d 6 now answered_db.

Lemma journal_inv : db_inv journal.
Proof. apply run_inv; [apply db_inv_empty | repeat constructor; done]. Qed.

Lemma recorded_with_event_witness :
  exists row db', recording = Ok (row, db') /\ db_inv (acquisition_of db').
Proof.
  destruct recording as [[row db']|e] eqn:E.
  2:{ exfalso. assert (is_ok recording = true) as H by (vm_compute; reflexivity). by rewrite E in H. }
  exists row, db'. split; [reflexivity|].
  assert (Hid : match authorized.1 with Ok d => pd_evaluation_id d = "eval-1" | Raise _ => False end)
    by (vm_compute; reflexivity).
  unfold recording in E. apply result_bind_Ok in E as (v & _ & E).
  apply result_bind_Ok in E as (d & Hd & E). rewrite Hd in Hid.
  refine (proj1 (recorded_with_event env "opp-1" v d 6 now answered_db db' row journal_inv _ _ E));
    rewrite Hid; vm_compute; reflexivity.
Defined.

(** Seventeen objections of one contact. *)
Definition objections (n : nat) : compliance_db :=
  fold_left (fun c i =>
    match record_for_contact store c contact_ref RECIPIENT_OBJECTION RECIPIENT_OBJECTED
            (_EVIDENCE_PREFIX +:+ pad_digits 64 (Z.of_nat i)) t0 None None with
    | Ok (_, c') => c' | Raise _ => c end) (seq 0 n) compliance.

(** A contact with more suppressions than a match may cite is not assessed
    as blocked any more: the match is refused by its own validation, and the
    call raises. *)
Example many_suppressions_raise :
  (exists m, match_contact store (objections 3) contact_ref None = Ok m /\ sm_state m = MATCHED)
  /\ match_contact store (objections 17) contact_ref None = Raise (ValidationError "suppression_refs").
Proof.
  split; [|vm_compute; reflexivity].
  destruct (match_contact store (objections 3) contact_ref None) as [m|] eqn:E;
    [|exfalso; revert E; vm_compute; discriminate].
  exists m. split; [done|]. revert E. vm_compute. by intros [= <-].
Qed.
End witnesses.
