(* ===== verification/ContactTheorems.v ===== *)
(** ContactTheorems: what the contact store guarantees while the others
    write: a contact only moves to newer observations of the same employment
    and reads back as it was observed, and a discovery is started, and
    recovered, by one owner. *)

From S2P Require Import Prelude PyStr PyText PyTextFacts PyDatetime PyDatetimeFacts PyJson Database.
From S2P Require Import AcquisitionEquiv AcquisitionStore AcquisitionStoreFacts.
From S2P Require Import ContactContracts ContactStore ProspectRecords Suppression.
From S2P Require Import ComplianceContracts ComplianceStore ComplianceService ComplianceFacts.
From S2P Require ComplianceTheorems.
From Stdlib Require Import Ascii String.

Local Open Scope string_scope.
Local Open Scope Z_scope.
Local Open Scope list_scope.

Section contacts.
Context `{Hash : HashLib} `{Hmac : HmacLib} `{DB : Database} `{Case : CaseData}.

(** The contacts of the tables of a service. *)
Definition contacts_of (db : service_db) : contact_db := qdb_contacts (sdb_compliance db).

(** * Operations on the tables of contacts *)

Lemma contact_values_Ok r row : contact_values r = Ok row ->
  let c := kr_observation r in
  row = mkContactRecord
    (mkContact (co_supplier_ref c) (co_provider c) (co_provider_person_id c)
       (co_provider_organization_id c) (co_first_name c) (co_last_name c) (co_display_name c)
       (co_title c) (co_normalized_title c) (co_role_profile_version c) (co_role_tier c)
       (co_business_email c) (co_provider_email_status c) (co_verification_state c)
       (co_verification_provider c) (timestamptz (co_provider_observed_at c))
       (timestamptz (co_email_observed_at c)) (co_source_fingerprint c))
    (kr_contact_ref r) (timestamptz (kr_created_at r)) (timestamptz (kr_updated_at r)).
Proof.
  unfold contact_values. intros H. inv_result.
  repeat match goal with H : uvarchar _ _ _ = Ok _ |- _ => apply uvarchar_Ok in H as -> end. done.
Qed.

(** Every contact is kept under the identity of its employment, and as a
    built observation. *)
Record contact_ok (ref : string) (r : ContactRecord) : Prop := {
  ck_ref : kr_contact_ref r = ref;
  ck_identity : contact_ref_for (co_provider (kr_observation r))
    (co_provider_person_id (kr_observation r)) (co_supplier_ref (kr_observation r)) = Ok ref;
  ck_observation : contact_validate (kr_observation r) = Ok (kr_observation r);
  ck_created : aware (kr_created_at r) = true;
  ck_updated : aware (kr_updated_at r) = true;
}.
Definition contacts_ok (k : contact_db) : Prop :=
  forall ref r, kdb_contacts k !! ref = Some r -> contact_ok ref r.

Lemma contacts_ok_empty : contacts_ok empty_contact_db.
Proof. intros ref r H. simpl in H. by rewrite lookup_empty in H. Qed.

(** A built observation has aware times and keeps its provider's contract. *)
Lemma built_observation c : contact_validate c = Ok c ->
  aware (co_provider_observed_at c) = true /\ aware (co_email_observed_at c) = true
  /\ verified_contact_contract c = true.
Proof.
  unfold contact_validate. intros H. destruct c; simpl in *. inv_result. simpl in *.
  repeat match goal with H : checked _ aware _ = Ok _ |- _ => apply checked_Ok in H as [? _] end.
  split; [done|]. split; [done|].
  repeat match goal with H : ustrip _ = _ |- _ => rewrite H in *; clear H end. done.
Qed.

Lemma contact_ref_fingerprint provider person supplier ref :
  contact_ref_for provider person supplier = Ok ref -> is_fingerprint ref = true.
Proof.
  unfold contact_ref_for, json_sha256. intros H. inv_result. apply sha256_is_fingerprint.
Qed.

(** A contact that was stored reads back as it is. *)
Lemma contact_read ref r : contact_ok ref r -> _contact r = Ok r.
Proof.
  intros [<- Hid Hobs Hc Hu]. pose proof (contact_ref_fingerprint _ _ _ _ Hid) as Hf.
  pose proof (built_observation _ Hobs) as (H1 & H2 & _).
  unfold _contact, contact_record_validate. simpl.
  rewrite !assume_utc_aware by done. destruct r as [c ref created updated]. simpl in *.
  destruct c. simpl in *. rewrite Hobs. simpl.
  unfold KFingerprint. rewrite ustrip_fingerprint, Hf by done. simpl.
  unfold checked. by rewrite Hc, Hu.
Qed.

(** A later record of the same contact: the same, or a newer observation. *)
Record later_contact (r r' : ContactRecord) : Prop := {
  lc_employment : employment (kr_observation r') = employment (kr_observation r);
  lc_organization : co_provider_organization_id (kr_observation r')
                    = co_provider_organization_id (kr_observation r);
  lc_created : kr_created_at r' = kr_created_at r;
  lc_newer : r' = r \/ instant (co_provider_observed_at (kr_observation r))
                       < instant (co_provider_observed_at (kr_observation r'));
}.

#[global] Instance later_contact_PreOrder : PreOrder later_contact.
Proof.
  split.
  - intros r. split; auto.
  - intros r1 r2 r3 [? ? ? H1] [? ? ? H2]. split; try congruence.
    destruct H1 as [->|?], H2 as [->|?]; auto; right; lia.
Qed.

(** A step keeps the invariant and moves every contact forward. *)
Definition forward (k k' : contact_db) : Prop :=
  contacts_ok k' /\ forall ref r, kdb_contacts k !! ref = Some r ->
    exists r', kdb_contacts k' !! ref = Some r' /\ later_contact r r'.

Lemma forward_refl k : contacts_ok k -> forward k k.
Proof. intros H. split; [done|]. intros ref r Hr. exists r. by split. Qed.

Lemma forward_same k k' : kdb_contacts k' = kdb_contacts k -> contacts_ok k -> forward k k'.
Proof.
  intros E H. unfold forward, contacts_ok in *. rewrite E. split; [done|]. intros ref r Hr.
  exists r. by split.
Qed.

Lemma forward_insert k runs ref new :
  contacts_ok k -> contact_ok ref new ->
  (forall r, kdb_contacts k !! ref = Some r -> later_contact r new) ->
  forward k (mkkdb (<[ref := new]> (kdb_contacts k)) runs).
Proof.
  intros Hk Hnew Hlater. split.
  - intros ref' r'. simpl. destruct (decide (ref = ref')) as [->|?].
    + rewrite lookup_insert_eq. by intros [= <-].
    + rewrite lookup_insert_ne by done. apply Hk.
  - intros ref' r Hr. simpl. destruct (decide (ref = ref')) as [->|?].
    + rewrite lookup_insert_eq. eauto.
    + rewrite lookup_insert_ne by done. exists r. by split.
Qed.

Lemma timestamptz_aware d : aware d = true -> aware (timestamptz d) = true.
Proof. intros H. by destruct (timestamptz_equiv d H) as [<- _]. Qed.

(** An observation with other aware times is a built one as well. *)
Lemma contact_validate_times c observed email_at : contact_validate c = Ok c ->
  aware observed = true -> aware email_at = true ->
  let c' := mkContact (co_supplier_ref c) (co_provider c) (co_provider_person_id c)
    (co_provider_organization_id c) (co_first_name c) (co_last_name c) (co_display_name c)
    (co_title c) (co_normalized_title c) (co_role_profile_version c) (co_role_tier c)
    (co_business_email c) (co_provider_email_status c) (co_verification_state c)
    (co_verification_provider c) observed email_at (co_source_fingerprint c) in
  contact_validate c' = Ok c'.
Proof.
  intros H Ho He. unfold contact_validate in *. destruct c; simpl in *. inv_result.
  match goal with H : checked "business_email" _ _ = Ok _ |- _ =>
    pose proof (proj1 (checked_Ok _ _ _ _) H) as [_ ?] end. subst.
  repeat match goal with H : ?x = Ok _ |- context [?x] => rewrite H; cbn [result_bind] end.
  unfold checked. rewrite Ho, He. cbn [result_bind].
  unfold verified_contact_contract in *. simpl in *.
  repeat match goal with H : ustrip _ = _ |- _ => rewrite H in *; clear H end.
  by match goal with H : _ = true |- _ => rewrite H end.
Qed.

(** What the columns keep of a built observation. *)
Lemma stored_contact_ok o ref created updated row :
  contact_validate o = Ok o ->
  contact_ref_for (co_provider o) (co_provider_person_id o) (co_supplier_ref o) = Ok ref ->
  aware created = true -> aware updated = true ->
  contact_values (mkContactRecord o ref created updated) = Ok row ->
  contact_ok ref row /\ employment (kr_observation row) = employment o
  /\ co_provider_organization_id (kr_observation row) = co_provider_organization_id o
  /\ instant (co_provider_observed_at (kr_observation row)) = instant (co_provider_observed_at o).
Proof.
  intros Ho Href Hc Hu H. apply contact_values_Ok in H. simpl in H. subst row.
  pose proof (built_observation _ Ho) as (H1 & H2 & _).
  split; [|split; [done|]; split; [done|]; simpl; by destruct (timestamptz_equiv _ H1) as [_ <-]].
  split; simpl; try done; try by apply timestamptz_aware.
  apply contact_validate_times; [done|by apply timestamptz_aware..].
Qed.

Lemma insert_contact_Ok refs k values b k' :
  _insert_contact_if_absent refs k values = Ok (b, k') ->
  exists row, contact_values values = Ok row
  /\ if b then kdb_contacts k !! kr_contact_ref row = None
               /\ k' = mkkdb (<[kr_contact_ref row := row]> (kdb_contacts k)) (kdb_runs k)
     else k' = k /\ exists ref r, kdb_contacts k !! ref = Some r
            /\ employment (kr_observation r) = employment (kr_observation row).
Proof.
  unfold _insert_contact_if_absent. intros H. inv_result_step. exists v. split; [done|].
  destruct (existsb _ _) eqn:E.
  - inv_result. simplify_eq. split; [done|]. apply existsb_exists in E as (r & Hr & E).
    apply bool_decide_eq_true in E. apply list_elem_of_In, elem_of_rows in Hr as [ref Hr]. eauto.
  - inv_result. simplify_eq. split; [|done].
    repeat match goal with H : check_constraint _ _ = Ok _ |- _ =>
      apply check_constraint_Ok in H end.
    by destruct (kdb_contacts k !! kr_contact_ref v).
Qed.

Lemma update_contact_Ok refs k ref o now k' r :
  kdb_contacts k !! ref = Some r -> update_contact refs k ref o now = Ok (1, k') ->
  instant (co_provider_observed_at (kr_observation r)) < instant (co_provider_observed_at o)
  /\ exists values, contact_values (mkContactRecord o ref (kr_created_at r) now) = Ok values
     /\ k' = mkkdb (<[ref := mkContactRecord (kr_observation values) ref (kr_created_at r)
                               (kr_updated_at values)]> (kdb_contacts k)) (kdb_runs k).
Proof.
  unfold update_contact, dt_ltb. intros -> H. destruct (Z.ltb_spec
    (instant (co_provider_observed_at (kr_observation r))) (instant (co_provider_observed_at o)));
    [|done].
  inv_result. simplify_eq. eauto.
Qed.

(** An upsert moves its contact forward, and leaves an observation of the
    same employment that is no older than the one it was given. *)
Lemma upsert_forward refs now k o up k' :
  contacts_ok k -> contact_validate o = Ok o -> aware now = true ->
  upsert_contact refs now k o = Ok (up, k') ->
  forward k k' /\ exists ref r,
    contact_ref_for (co_provider o) (co_provider_person_id o) (co_supplier_ref o) = Ok ref
    /\ kdb_contacts k' !! ref = Some r /\ employment (kr_observation r) = employment o
    /\ instant (co_provider_observed_at o) <= instant (co_provider_observed_at (kr_observation r)).
Proof.
  intros Hk Ho Hnow H. unfold upsert_contact, upsert_contact_in_transaction in H.
  apply result_bind_Ok in H as (ref & Href & H). apply result_bind_Ok in H as ([b k1] & Hi & H).
  apply insert_contact_Ok in Hi as (row & Hrow & Hb).
  destruct (stored_contact_ok _ _ _ _ _ Ho Href Hnow Hnow Hrow) as (Hok & He & Horg & Ht).
  pose proof (ck_ref _ _ Hok) as Hrr. destruct b.
  - destruct Hb as [Hnone ->]. subst ref. inv_result. simplify_eq.
    split; [apply forward_insert; [done..|]; intros r Hr; by rewrite Hr in Hnone|].
    exists (kr_contact_ref row), row. simpl. rewrite lookup_insert_eq. split_and!; [done|done|unfold employment; congruence|lia].
  - clear Hrr. destruct Hb as (-> & ref' & r & Hr & Her).
    assert (ref' = ref) as ->.
    { pose proof (ck_identity _ _ (Hk _ _ Hr)) as Hid. rewrite He in Her.
      unfold employment in Her. simplify_eq. congruence. }
    inv_result_step. rewrite Hr in Hv. injection Hv as <-. rewrite He in Her.
    pose proof (Hk _ _ Hr) as [_ _ Hobs Hcr _].
    pose proof (built_observation _ Hobs) as (Haw & _).
    rewrite (assume_utc_aware _ Haw) in H. unfold dt_ltb, dt_eqb in H.
    inv_result_step. apply bool_decide_eq_true in Hc.
    destruct (Z.ltb_spec (instant (co_provider_observed_at o))
      (instant (co_provider_observed_at (kr_observation r)))).
    { apply result_bind_Ok in H as (rec & _ & [= <- <-]). split; [by apply forward_refl|]. exists ref, r.
      split_and!; [done..|lia]. }
    destruct (Z.eqb_spec (instant (co_provider_observed_at o))
      (instant (co_provider_observed_at (kr_observation r)))).
    { inv_result_step. apply result_bind_Ok in H as (rec & _ & [= <- <-]). split; [by apply forward_refl|]. exists ref, r.
      split_and!; [done..|lia]. }
    apply result_bind_Ok in H as ([rowcount k2] & Hu & H). inv_result_step. apply Z.eqb_eq in Hc0 as ->.
    destruct (update_contact_Ok _ _ _ _ _ _ _ Hr Hu) as (Hlt & values & Hvalues & ->).
    do 2 apply result_bind_Ok in H as (? & _ & H). injection H as <- <-.
    destruct (stored_contact_ok _ _ _ _ _ Ho Href Hcr Hnow Hvalues) as ([] & He' & Horg' & Ht').
    split.
    + apply forward_insert; [done|by split|]. intros r' Hr'. rewrite Hr in Hr'. injection Hr' as <-.
      split; simpl; [congruence..|right; lia].
    + exists ref, (mkContactRecord (kr_observation values) ref (kr_created_at r) (kr_updated_at values)).
      simpl. rewrite lookup_insert_eq. split_and!; [done..|lia].
Qed.

(** * Operations of the service *)

(** An operation whose observation, if it is one, was built, under an aware
    clock. *)
Definition built (op : service_op) : Prop :=
  match op with
  | UpsertContact now o => contact_validate o = Ok o /\ aware now = true
  | _ => True
  end.

Lemma start_run_contacts refs k start o k' :
  start_run refs k start = Ok (o, k') -> kdb_contacts k' = kdb_contacts k.
Proof.
  unfold start_run, _insert_run_if_absent. intros H.
  apply result_bind_Ok in H as ([owned k1] & Hi & H).
  assert (kdb_contacts k1 = kdb_contacts k) as <-
    by (inv_result_step; destruct (_ || _); inv_result; by simplify_eq).
  destruct (select_by_policy _ _); [|by destruct (truthy _)].
  destruct (match kdb_runs k1 !! _ with Some _ => _ | None => _ end); [|done].
  destruct (owned || _); [|done]. by apply result_bind_Ok in H as (? & _ & [= _ <-]).
Qed.

Lemma claim_recovery_contacts k run_id o k' :
  claim_recovery k run_id = Ok (o, k') -> kdb_contacts k' = kdb_contacts k.
Proof. unfold claim_recovery. intros H. repeat case_match; inv_result; by simplify_eq. Qed.

Lemma finish_run_contacts k run_id o r k' :
  finish_run k run_id o = Ok (r, k') -> kdb_contacts k' = kdb_contacts k.
Proof.
  unfold finish_run, finish_run_in_transaction. intros H. case_match; inv_result; by simplify_eq.
Qed.

Lemma commit_compliance_contacts {A} (r : result (A * compliance_db)) db :
  (forall a c, r = Ok (a, c) -> qdb_contacts c = contacts_of db) ->
  contacts_of (commit_compliance r db) = contacts_of db.
Proof. destruct r as [[a c]|]; intros H; [by eapply H | done]. Qed.

Lemma append_suppression_contacts c r row c' :
  _append_in_transaction c r = Ok (row, c') -> qdb_contacts c' = qdb_contacts c.
Proof. intros H. by apply append_suppression_Ok in H as (_ & _ & _ & ->). Qed.

Lemma record_contact_contacts store c ref source reason evidence received effective version row c' :
  record_for_contact store c ref source reason evidence received effective version = Ok (row, c') ->
  qdb_contacts c' = qdb_contacts c.
Proof.
  unfold record_for_contact, record_for_contact_in_transaction. intros H. inv_result.
  by eapply append_suppression_contacts.
Qed.

Lemma record_email_contacts store c email source reason evidence received row c' :
  record_for_email_in_transaction store c email source reason evidence received = Ok (row, c') ->
  qdb_contacts c' = qdb_contacts c.
Proof.
  unfold record_for_email_in_transaction. intros H. inv_result.
  by eapply append_suppression_contacts.
Qed.

Lemma append_assessment_contacts refs c w row c' :
  append_assessment refs c w = Ok (row, c') -> qdb_contacts c' = qdb_contacts c.
Proof. intros H. by apply append_assessment_Ok in H as (-> & _). Qed.

(** The contacts move only by an upsert. *)
Lemma apply_service_op_contacts op db :
  match op with UpsertContact _ _ => False | _ => True end ->
  kdb_contacts (contacts_of (apply_service_op op db)) = kdb_contacts (contacts_of db).
Proof.
  destruct op; intros Hop; try done; simpl.
  1-3: by rewrite commit_compliance_contacts by eauto using record_contact_contacts,
    record_email_contacts, append_assessment_contacts.
  - destruct (start_run _ _ _) as [[? ?]|] eqn:E; [by eapply start_run_contacts in E | done].
  - destruct (claim_recovery _ _) as [[? ?]|] eqn:E; [by eapply claim_recovery_contacts in E | done].
  - destruct (finish_run _ _ _) as [[? ?]|] eqn:E; [by eapply finish_run_contacts in E | done].
Qed.

Lemma apply_service_op_forward op db : built op -> contacts_ok (contacts_of db) ->
  forward (contacts_of db) (contacts_of (apply_service_op op db)).
Proof.
  intros Hop Hdb. destruct op;
    try (apply forward_same; [by apply apply_service_op_contacts | done]).
  simpl. destruct Hop as [Ho Hnow]. destruct (upsert_contact _ _ _ _) as [[up k']|] eqn:E;
    [by eapply upsert_forward in E as [? _] | by apply forward_refl].
Qed.

Lemma apply_service_ops_forward ops db : Forall built ops -> contacts_ok (contacts_of db) ->
  forward (contacts_of db) (contacts_of (apply_service_ops ops db)).
Proof.
  intros Hops. revert db. induction Hops as [|op ops Hop _ IH]; intros db Hdb;
    [by apply forward_refl|]. simpl.
  destruct (apply_service_op_forward op db Hop Hdb) as [Hdb' H1].
  destruct (IH _ Hdb') as [Hdb'' H2]. split; [exact Hdb''|]. intros ref r Hr.
  destruct (H1 _ _ Hr) as (r1 & Hr1 & L1). destruct (H2 _ _ Hr1) as (r2 & Hr2 & L2).
  exists r2. split; [exact Hr2 | by etrans].
Qed.

(** * Runs *)

(** What an operation does to the runs: nothing, a new run of an evaluation
    that has none, the claim of a recovery, or the end of a started run. *)
Inductive run_change (k : contact_db) : contact_db -> Prop :=
| run_same k' (H : kdb_runs k' = kdb_runs k) : run_change k k'
| run_started k' id r (Hid : kdb_runs k !! id = None) (Hr : cr_recovery_provider_calls r = 0)
    (He : select_by_policy k (cr_policy_evaluation_id r) = None)
    (H : kdb_runs k' = <[id := r]> (kdb_runs k)) : run_change k k'
| run_moved k' id r r' (Hid : kdb_runs k !! id = Some r) (Hs : cr_status r = RunSTARTED)
    (Hr : cr_recovery_provider_calls r <= cr_recovery_provider_calls r')
    (He : cr_policy_evaluation_id r' = cr_policy_evaluation_id r)
    (H : kdb_runs k' = <[id := r']> (kdb_runs k)) : run_change k k'.

Lemma run_values_Ok r row : run_values r = Ok row ->
  cr_contact_discovery_run_id row = cr_contact_discovery_run_id r
  /\ cr_policy_evaluation_id row = cr_policy_evaluation_id r
  /\ cr_recovery_provider_calls row = cr_recovery_provider_calls r.
Proof.
  unfold run_values. intros H. inv_result.
  repeat match goal with H : uvarchar _ _ _ = Ok _ |- _ => apply uvarchar_Ok in H as -> end. done.
Qed.

(** A start answers its owner exactly when it inserts the run. *)
Lemma start_run_Ok refs k start o k' : start_run refs k start = Ok (o, k') ->
  if ow_owned o then
    select_by_policy k (cs_policy_evaluation_id start) = None /\ run_change k k'
    /\ is_Some (select_by_policy k' (cs_policy_evaluation_id start))
  else k' = k.
Proof.
  unfold start_run. intros H. apply result_bind_Ok in H as ([owned k1] & Hi & H).
  destruct (select_by_policy k1 _) as [r|] eqn:Hsel; [|by destruct (truthy _)].
  destruct (match kdb_runs k1 !! _ with Some _ => _ | None => _ end); [|done].
  destruct (owned || _); [|done]. apply result_bind_Ok in H as (run & _ & [= <- <-]). simpl.
  unfold _insert_run_if_absent in Hi. apply result_bind_Ok in Hi as (row & Hrow & Hi).
  apply run_values_Ok in Hrow as (Hid & He & Hr). simpl in Hid, He, Hr.
  destruct (_ || _) eqn:E in Hi; [by simplify_eq|]. apply result_bind_Ok in Hi as (? & _ & [= <- <-]).
  apply orb_false_iff in E as [E1 E2]. rewrite He in E2.
  destruct (kdb_runs k !! _) eqn:E3 in E1; [done|].
  destruct (select_by_policy k _) eqn:E4 in E2; [done|].
  split; [done|]. split; [|done]. by eapply run_started; [done..|congruence|].
Qed.

Lemma claim_recovery_Ok k run_id o k' : claim_recovery k run_id = Ok (o, k') ->
  if ow_owned o then exists r, kdb_runs k !! run_id = Some r /\ cr_status r = RunSTARTED
    /\ cr_recovery_provider_calls r = 0
    /\ kdb_runs k' = <[run_id := set_recovery 1 r]> (kdb_runs k)
  else k' = k.
Proof.
  unfold claim_recovery. intros H. destruct (kdb_runs k !! run_id) as [r|] eqn:E; [|done].
  destruct (bool_decide _ && _) eqn:Ec; apply result_bind_Ok in H as (run & _ & [= <- <-]); [|done].
  apply andb_true_iff in Ec as [Es Er]. apply bool_decide_eq_true in Es. apply Z.eqb_eq in Er.
  simpl. eauto.
Qed.

Lemma finish_run_Ok k run_id o r k' : finish_run k run_id o = Ok (r, k') -> run_change k k'.
Proof.
  unfold finish_run, finish_run_in_transaction. intros H.
  destruct (kdb_runs k !! run_id) as [row|] eqn:E; [|done]. inv_result. simplify_eq.
  eapply run_moved; [exact E|done| | |reflexivity]; [simpl; lia|done].
Qed.

Lemma upsert_runs refs now k o up k' :
  upsert_contact refs now k o = Ok (up, k') -> kdb_runs k' = kdb_runs k.
Proof.
  unfold upsert_contact, upsert_contact_in_transaction. intros H.
  apply result_bind_Ok in H as (ref & _ & H). apply result_bind_Ok in H as ([b k1] & Hi & H).
  apply insert_contact_Ok in Hi as (row & _ & Hb).
  assert (kdb_runs k1 = kdb_runs k) as <- by (destruct b; [by destruct Hb as [_ ->] | by destruct Hb as [-> _]]).
  apply result_bind_Ok in H as (r & _ & H). destruct b; [inv_result; by simplify_eq|].
  destruct (bool_decide _); [|done].
  repeat (destruct (dt_ltb _ _) || destruct (dt_eqb _ _));
    try (inv_result; by simplify_eq).
  apply result_bind_Ok in H as ([n k2] & Hu & H).
  assert (kdb_runs k2 = kdb_runs k1) as <-.
  { unfold update_contact in Hu. repeat case_match; inv_result; by simplify_eq. }
  inv_result; by simplify_eq.
Qed.

Lemma apply_service_op_runs op db :
  run_change (contacts_of db) (contacts_of (apply_service_op op db)).
Proof.
  destruct op; try (by apply run_same); simpl.
  1-3: rewrite commit_compliance_contacts by eauto using record_contact_contacts,
    record_email_contacts, append_assessment_contacts; by apply run_same.
  - destruct (upsert_contact _ _ _ _) as [[? ?]|] eqn:E; [|by apply run_same].
    apply run_same. by eapply upsert_runs.
  - destruct (start_run _ _ _) as [[o k']|] eqn:E; [|by apply run_same].
    apply start_run_Ok in E. destruct (ow_owned o); [apply E | by subst; apply run_same].
  - destruct (claim_recovery _ _) as [[o k']|] eqn:E; [|by apply run_same].
    apply claim_recovery_Ok in E. destruct (ow_owned o); [|by subst; apply run_same].
    destruct E as (r & Hr & Hs & H0 & H). eapply run_moved; [exact Hr|done| | |exact H]; [simpl; lia|done].
  - destruct (finish_run _ _ _) as [[? ?]|] eqn:E; [by eapply finish_run_Ok | by apply run_same].
Qed.

(** ** Owners *)

(** Whether an operation is answered that it owns the discovery of an
    evaluation, or the recovery of a run. *)
Definition owns_discovery (evaluation_id : string) (op : service_op) (db : service_db) : Z :=
  match op with
  | StartRun start =>
      if bool_decide (cs_policy_evaluation_id start = evaluation_id)
         && match start_run (contact_refs db) (contacts_of db) start with
            | Ok (o, _) => ow_owned o | Raise _ => false end then 1 else 0
  | _ => 0
  end.
Definition owns_recovery (run_id : string) (op : service_op) (db : service_db) : Z :=
  match op with
  | ClaimRecovery id =>
      if bool_decide (id = run_id)
         && match claim_recovery (contacts_of db) id with
            | Ok (o, _) => ow_owned o | Raise _ => false end then 1 else 0
  | _ => 0
  end.

(** How many of the operations are. *)
Fixpoint total (owns : service_op -> service_db -> Z) (ops : list service_op) (db : service_db) : Z :=
  match ops with
  | [] => 0
  | op :: ops => owns op db + total owns ops (apply_service_op op db)
  end.

Lemma total_bounded (owns : service_op -> service_db -> Z) (left : service_db -> Z) ops db :
  (forall op db, owns op db + left (apply_service_op op db) <= left db) ->
  (forall db, 0 <= left db) -> total owns ops db <= left db.
Proof.
  intros Hstep Hpos. revert db. induction ops as [|op ops IH]; intros db; simpl; [done|].
  specialize (IH (apply_service_op op db)). specialize (Hstep op db). lia.
Qed.

(** The owners still to come. *)
Definition discoveries_left (evaluation_id : string) (db : service_db) : Z :=
  if truthy (select_by_policy (contacts_of db) evaluation_id) then 0 else 1.
Definition recoveries_left (run_id : string) (db : service_db) : Z :=
  match kdb_runs (contacts_of db) !! run_id with
  | Some r => if cr_recovery_provider_calls r <=? 0 then 1 else 0
  | None => 1
  end.

Lemma select_by_policy_spec k e : is_Some (select_by_policy k e) <->
  exists id r, kdb_runs k !! id = Some r /\ cr_policy_evaluation_id r = e.
Proof.
  unfold select_by_policy. split.
  - intros [r H]. apply first_match_Some in H as [Hin He]. apply elem_of_rows in Hin as [id Hid].
    apply bool_decide_eq_true in He. eauto.
  - intros (id & r & Hid & He). destruct (first_match _ _) eqn:E; [eauto|].
    apply (first_match_None _ _ r) in E; [by apply bool_decide_eq_false in E|].
    apply elem_of_rows. eauto.
Qed.

Lemma run_change_select k k' e : run_change k k' ->
  is_Some (select_by_policy k e) -> is_Some (select_by_policy k' e).
Proof.
  intros Hk. rewrite !select_by_policy_spec. intros (id & r & Hid & He).
  destruct Hk as [k' H|k' id0 r0 Hid0 _ _ H|k' id0 r0 r' Hid0 _ _ He0 H]; rewrite H.
  - eauto.
  - exists id, r. rewrite lookup_insert_ne by (intros ->; congruence). done.
  - destruct (decide (id0 = id)) as [->|?].
    + exists id, r'. rewrite lookup_insert_eq. split; [done|]. congruence.
    + exists id, r. by rewrite lookup_insert_ne.
Qed.

Lemma discoveries_step e op db :
  owns_discovery e op db + discoveries_left e (apply_service_op op db) <= discoveries_left e db.
Proof.
  pose proof (run_change_select _ _ e (apply_service_op_runs op db)) as Hsel.
  assert (discoveries_left e (apply_service_op op db) <= discoveries_left e db) as Hle.
  { unfold discoveries_left. destruct (select_by_policy (contacts_of db) e) eqn:E; simpl.
    - destruct Hsel as [r ->]; [by eexists | done].
    - by destruct (truthy _). }
  destruct op; simpl; try exact Hle. case_bool_decide as He; [subst e|exact Hle].
  simpl in Hsel. unfold discoveries_left in *. simpl in Hle |- *.
  destruct (start_run _ _ _) as [[o k']|] eqn:E; simpl in *; [|exact Hle].
  apply start_run_Ok in E. destruct (ow_owned o); [|exact Hle].
  destruct E as (E & _ & [r Hr]). unfold contacts_of in *. simpl. by rewrite E, Hr.
Qed.

Lemma recoveries_step id op db :
  owns_recovery id op db + recoveries_left id (apply_service_op op db) <= recoveries_left id db.
Proof.
  assert (recoveries_left id (apply_service_op op db) <= recoveries_left id db) as Hle.
  { unfold recoveries_left.
    destruct (apply_service_op_runs op db) as [k' H|k' id0 r0 H0 Hr _ H|k' id0 r0 r' H0 _ Hr _ H];
      rewrite H; [done|..].
    all: destruct (decide (id0 = id)) as [->|?]; [|by rewrite lookup_insert_ne].
    all: rewrite lookup_insert_eq, H0; try rewrite Hr; simpl; repeat case_match; lia. }
  destruct op; simpl; try exact Hle. case_bool_decide as He; [subst id|exact Hle].
  unfold recoveries_left in *. simpl in Hle |- *.
  destruct (claim_recovery _ _) as [[o k']|] eqn:E; simpl in *; [|exact Hle].
  apply claim_recovery_Ok in E. destruct (ow_owned o); [|exact Hle].
  destruct E as (r & Hr & _ & H0 & H). unfold contacts_of. simpl. rewrite H, lookup_insert_eq.
  unfold contacts_of in Hr. rewrite Hr, H0. simpl. lia.
Qed.

Lemma settled_step id r op db : kdb_runs (contacts_of db) !! id = Some r ->
  cr_status r <> RunSTARTED -> kdb_runs (contacts_of (apply_service_op op db)) !! id = Some r.
Proof.
  intros Hr Hs.
  destruct (apply_service_op_runs op db) as [k' H|k' id0 r0 H0 _ _ H|k' id0 r0 r' H0 Hs0 _ _ H];
    rewrite H; [done|..]; (rewrite lookup_insert_ne; [done|]); intros ->; congruence.
Qed.

(** * Claims *)

(** C39 (invariant).  A contact only moves to newer observations.  Whatever
    operations the service and the others run, on contacts that started
    empty and were observed by built observations, a contact that is stored
    stays, with the same employment, organization and time of creation, and
    is the same record or a strictly newer observation; and after an upsert
    answers, whatever follows, the contact of that employment is no older
    than the observation it was given. *)
Theorem contact_moves_forward (db : service_db) (ops ops' : list service_op) :
  contacts_of db = empty_contact_db -> Forall built ops -> Forall built ops' ->
  let before := apply_service_ops ops db in
  (forall ref r, kdb_contacts (contacts_of before) !! ref = Some r ->
     exists r', kdb_contacts (contacts_of (apply_service_ops ops' before)) !! ref = Some r'
       /\ later_contact r r')
  /\ (forall now o up k, built (UpsertContact now o) ->
       upsert_contact (contact_refs before) now (contacts_of before) o = Ok (up, k) ->
       exists ref r,
         kdb_contacts (contacts_of
           (apply_service_ops ops' (apply_service_op (UpsertContact now o) before))) !! ref = Some r
         /\ employment (kr_observation r) = employment o
         /\ instant (co_provider_observed_at o)
            <= instant (co_provider_observed_at (kr_observation r))).
Proof.
  intros Hdb Hops Hops' before.
  assert (Hok : contacts_ok (contacts_of before)).
  { apply (apply_service_ops_forward ops db Hops). rewrite Hdb. apply contacts_ok_empty. }
  split.
  - apply (apply_service_ops_forward ops' before Hops' Hok).
  - intros now o up k Hb E. pose proof (apply_service_op_forward _ before Hb Hok) as [Hok' _].
    destruct Hb as [Ho Hnow].
    destruct (upsert_forward _ _ _ _ _ _ Hok Ho Hnow E) as (_ & ref & r & _ & Hr & He & Hle).
    destruct (apply_service_ops_forward ops' _ Hops' Hok') as [_ Hf].
    destruct (Hf ref r) as (r' & Hr' & [Hemp _ _ Hnew]).
    { simpl. unfold contacts_of in E |- *. by rewrite E. }
    exists ref, r'. split; [done|]. split; [congruence|]. destruct Hnew as [->|?]; lia.
Qed.

(** C40 (type).  Every contact in the table is a well-formed record: it reads
    back without a validation error as it is stored, under the identity of
    its employment, and its address passed the contract of its provider (a
    person's address verified by Apollo, or an address of a company's site
    whose mail server accepts). *)
Theorem contacts_read_back (db : service_db) (ops : list service_op) (ref : string)
    (r : ContactRecord) :
  contacts_of db = empty_contact_db -> Forall built ops ->
  kdb_contacts (contacts_of (apply_service_ops ops db)) !! ref = Some r ->
  get_contact (contacts_of (apply_service_ops ops db)) ref = Ok r
  /\ kr_contact_ref r = ref
  /\ contact_ref_for (co_provider (kr_observation r)) (co_provider_person_id (kr_observation r))
       (co_supplier_ref (kr_observation r)) = Ok ref
  /\ verified_contact_contract (kr_observation r) = true.
Proof.
  intros Hdb Hops Hr.
  assert (Hok : contact_ok ref r).
  { refine (proj1 (apply_service_ops_forward ops db Hops _) ref r Hr). rewrite Hdb.
    apply contacts_ok_empty. }
  unfold get_contact, get_contact_in_transaction. rewrite Hr. simpl.
  split; [by eapply contact_read|]. destruct Hok as [Href Hid Hobs _ _].
  split; [done|]. split; [done|]. by apply built_observation.
Qed.

(** C40 (safety).  A discovery has one owner.  Over any sequence of
    operations, from any tables, at most one start of a policy evaluation and
    at most one claim of the recovery of a run are answered that they own
    it, and a run that is no longer started never changes. *)
Theorem discovery_has_one_owner (db : service_db) (ops : list service_op)
    (evaluation_id run_id : string) :
  total (owns_discovery evaluation_id) ops db <= 1
  /\ total (owns_recovery run_id) ops db <= 1
  /\ forall r, kdb_runs (contacts_of db) !! run_id = Some r -> cr_status r <> RunSTARTED ->
       kdb_runs (contacts_of (apply_service_ops ops db)) !! run_id = Some r.
Proof.
  split; [|split].
  - transitivity (discoveries_left evaluation_id db).
    + apply total_bounded; [apply discoveries_step|]. intros x. unfold discoveries_left. by case_match.
    + unfold discoveries_left. by case_match.
  - transitivity (recoveries_left run_id db).
    + apply total_bounded; [apply recoveries_step|]. intros x. unfold recoveries_left.
      repeat case_match; done.
    + unfold recoveries_left. repeat case_match; done.
  - revert db. induction ops as [|op ops IH]; intros db r Hr Hs; [done|]. simpl.
    apply IH; [by apply settled_step | done].
Qed.
End contacts.

(** * Concrete operations *)

Section witnesses.
Import ComplianceTheorems.ComplianceSample.

(** The observation of the example an hour later. *)
Definition newer : ContactObservation :=
  mkContact "supplier-1" "apollo" "person-1" "org-1" (Some "Jeanne") None None (Some "CEO") "ceo"
    PROFILE_VERSION 1 "j.martin@batir.fr" "verified" "PROVIDER_VERIFIED" "apollo" now now
    (pad_digits 64 12).

Definition no_contacts : service_db :=
  mksdb (sdb_gateway start)
    (mkqdb empty_contact_db {["supplier-1" := supplier]} ∅ [] ∅ ∅).
Definition first_ops : list service_op := [UpsertContact t0 observation].
Definition later_ops : list service_op :=
  [UpsertContact now newer; UpsertContact now observation].

Lemma first_built : Forall built first_ops.
Proof. apply Forall_singleton. split; vm_compute; reflexivity. Qed.
Lemma later_built : Forall built later_ops.
Proof. apply Forall_cons; split; [|apply Forall_singleton]; split; vm_compute; reflexivity. Qed.

Definition stored_ref : string :=
  match contact_ref_for "apollo" "person-1" "supplier-1" with Ok r => r | Raise _ => "" end.
Definition stored_email (db : service_db) : option string :=
  (fun r => co_business_email (kr_observation r)) <$> kdb_contacts (contacts_of db) !! stored_ref.

Lemma first_stored : stored_email (apply_service_ops first_ops no_contacts) = Some "jeanne@batir.fr".
Proof. vm_compute. reflexivity. Qed.

Lemma contact_moves_forward_witness :
  exists r r', co_business_email (kr_observation r) = "jeanne@batir.fr" /\ later_contact r r'
  /\ stored_email (apply_service_ops later_ops (apply_service_ops first_ops no_contacts))
     = Some (co_business_email (kr_observation r')).
Proof.
  destruct (contact_moves_forward no_contacts first_ops later_ops eq_refl first_built later_built)
    as [H _].
  pose proof first_stored as E. unfold stored_email in E |- *.
  destruct (kdb_contacts (contacts_of (apply_service_ops first_ops no_contacts)) !! stored_ref)
    as [r|] eqn:Er; [|discriminate E]. simpl in E. injection E as Ee.
  destruct (H stored_ref r Er) as (r' & Hr' & Hl). exists r, r'.
  split; [exact Ee|]. split; [exact Hl|].
  exact (f_equal (fmap (fun r => co_business_email (kr_observation r))) Hr').
Defined.

Lemma contacts_read_back_witness :
  exists r, get_contact (contacts_of (apply_service_ops first_ops no_contacts)) stored_ref = Ok r
  /\ verified_contact_contract (kr_observation r) = true.
Proof.
  pose proof first_stored as E. unfold stored_email in E.
  destruct (kdb_contacts (contacts_of (apply_service_ops first_ops no_contacts)) !! stored_ref)
    as [r|] eqn:Er; [|discriminate E].
  destruct (contacts_read_back no_contacts first_ops stored_ref r eq_refl first_built Er)
    as (H & _ & _ & Hv). exists r. split; [exact H | exact Hv].
Defined.

(** Two starts of one evaluation: the first is its owner. *)
Definition search_profile : DecisionMakerSearchProfile :=
  mkSearchProfile "decision-maker-search-v1" "opp-1" "supplier-1" "org-1" None None None None None
    ["CEO"] ["owner"] ["verified"] true 1 25 3 100 (pad_digits 64 13).
Definition discovery (id : string) : service_op :=
  StartRun (mkRunStart id "opp-1" "supplier-1" "eval-1" search_profile (pad_digits 64 14) 2 t0 "c-1").
Definition after_policy : service_db :=
  mksdb (sdb_gateway (st_db ComplianceTheorems.authorized.2)) (sdb_compliance no_contacts).
Definition discovery_ops : list service_op :=
  [discovery "run-1"; discovery "run-2"; ClaimRecovery "run-1"; ClaimRecovery "run-1"].

Lemma discovery_has_one_owner_witness :
  total (owns_discovery "eval-1") discovery_ops after_policy = 1
  /\ total (owns_recovery "run-1") discovery_ops after_policy = 1.
Proof.
  pose proof (discovery_has_one_owner after_policy discovery_ops "eval-1" "run-1") as (H1 & H2 & _).
  split; [apply Z.le_antisymm; [exact H1|] | apply Z.le_antisymm; [exact H2|]];
    vm_compute; discriminate.
Defined.
End witnesses.
