(* ===== verification/PyZoneInfo.v ===== *)
(** PyZoneInfo: days of the calendar and the time zones of Python's
    [zoneinfo], as the campaigns use them.

    A datetime in a zone carries the offset the zone gives it, so that its
    instant is the one of PyDatetime.  The tables of the zones are the system's:
    the class [ZoneInfo] holds the two offsets the module reads of them and
    what is documented of Zurich and Paris since 2000.  Their clocks change
    between one and three in the morning on a Sunday, on the same dates, so
    that midnight and the working day are never skipped or repeated. *)

From S2P Require Import Prelude PyStr PyDatetime PyDatetimeFacts.

Local Open Scope string_scope.
Local Open Scope Z_scope.

(** * Days *)

(** [d.weekday()]: Monday is 0. *)
Definition weekday (d : date) : Z := (toordinal d + 6) mod 7.

(** [dt.date.fromordinal(n)] *)
Definition of_ordinal (n : Z) : date := let '(y, m, d) := ord2ymd n in mkdate y m d.

(** [d + timedelta(days=n)], OverflowError outside the years 1 to 9999. *)
Definition date_add (d : date) (n : Z) : result date :=
  let o := toordinal d + n in
  if (1 <=? o) && (o <=? MAXORDINAL) then Ok (of_ordinal o) else Raise OverflowError.

(** [x.date()] *)
Definition dt_date (x : datetime) : date := mkdate (year x) (month x) (day x).

Lemma toordinal_of_ordinal n : 1 <= n -> toordinal (of_ordinal n) = n.
Proof.
  intros Hn. unfold of_ordinal, toordinal.
  destruct (ord2ymd_spec n Hn) as (y & m & d & -> & Ho & _). done.
Qed.

Lemma date_add_Ok d n e : date_add d n = Ok e -> toordinal e = toordinal d + n.
Proof.
  unfold date_add. intros H. inv_result. apply toordinal_of_ordinal. lia.
Qed.

Lemma weekday_bound d : 0 <= weekday d < 7.
Proof. apply Z.mod_pos_bound. lia. Qed.

Lemma weekday_later d n e : toordinal e = toordinal d + n -> weekday e = (weekday d + n) mod 7.
Proof. intros H. unfold weekday. rewrite H, Z.add_mod_idemp_l by lia. f_equal. lia. Qed.

(** A day is determined by its ordinal. *)
Lemma local_us_date x : local_us x = toordinal (dt_date x) * US_DAY + time_us x.
Proof. done. Qed.

Lemma local_day x : datetime_ok x = true -> local_us x / US_DAY = toordinal (dt_date x).
Proof.
  intros H. apply datetime_ok_time in H. rewrite local_us_date, Z.div_add_l by done.
  rewrite Z.div_small; lia.
Qed.

(** * Zones *)

Definition ZURICH : string := "Europe/Zurich".
Definition PARIS : string := "Europe/Paris".
(** The ordinal of 1 January 2000. *)
Definition DAY_2000 : Z := 730120.
Definition US_HOUR : Z := 3600 * US_SECOND.
(** From nine to five. *)
Definition working (t : Z) : Prop := 9 * US_HOUR <= t <= 17 * US_HOUR.

Class ZoneInfo := {
  (** The offset of a zone at an instant, and for a wall time (with [fold]
      0), both in microseconds. *)
  zone_offset : string -> Z -> Z;
  wall_offset : string -> Z -> Z;
  zone_offset_bound : forall z t, Z.abs (zone_offset z t) < US_DAY;
  wall_offset_bound : forall z l, Z.abs (wall_offset z l) < US_DAY;
  (** A day starts at its midnight, which is a time of it. *)
  midnight_starts_day : forall z n t, z ∈ [ZURICH; PARIS] -> DAY_2000 <= n ->
    n * US_DAY - wall_offset z (n * US_DAY) <= t <-> n * US_DAY <= t + zone_offset z t;
  midnight_exists : forall z n, z ∈ [ZURICH; PARIS] -> DAY_2000 <= n ->
    zone_offset z (n * US_DAY - wall_offset z (n * US_DAY)) = wall_offset z (n * US_DAY);
  (** The offset does not change while people work. *)
  working_offset : forall z n a t, z ∈ [ZURICH; PARIS] -> DAY_2000 <= n ->
    working a -> working (t + zone_offset z t - n * US_DAY) ->
    wall_offset z (n * US_DAY + a) = zone_offset z t;
  working_constant : forall z n a b, z ∈ [ZURICH; PARIS] -> DAY_2000 <= n ->
    working a -> working b ->
    wall_offset z (n * US_DAY + a) = wall_offset z (n * US_DAY + b);
  (** Both cities keep the same time. *)
  same_midnight : forall n, DAY_2000 <= n ->
    wall_offset ZURICH (n * US_DAY) = wall_offset PARIS (n * US_DAY);
}.

(** A zone an hour ahead of UTC all year satisfies the laws. *)
Program Definition FixedZones : ZoneInfo := {|
  zone_offset _ _ := US_HOUR;
  wall_offset _ _ := US_HOUR;
|}.
Solve All Obligations with (intros; unfold US_HOUR, US_DAY, US_SECOND in *; done || lia).

Section zones.
Context `{Zone : ZoneInfo}.

(** [dt.datetime.combine(d, t, ZoneInfo(z))], the time in microseconds. *)
Definition combine (d : date) (t : Z) (z : string) : datetime :=
  mkdt (d_year d) (d_month d) (d_day d) (t / US_HOUR) (t / (60 * US_SECOND) mod 60)
    (t / US_SECOND mod 60) (t mod US_SECOND) (Some (wall_offset z (toordinal d * US_DAY + t))).

(** [x.astimezone(ZoneInfo(z))] of an aware datetime. *)
Definition astimezone (x : datetime) (z : string) : result datetime :=
  let o := zone_offset z (instant x) in of_local_us (instant x + o) (Some o).

(** [x + timedelta(microseconds=delta)] of a datetime in a zone: the wall
    time moves, and takes the offset it has there. *)
Definition zoned_add (x : datetime) (delta : Z) (z : string) : result datetime :=
  let l := local_us x + delta in of_local_us l (Some (wall_offset z l)).

Lemma time_us_combine d t z : 0 <= t < US_DAY -> time_us (combine d t z) = t.
Proof.
  intros Ht. unfold time_us, combine; simpl. unfold US_HOUR, US_DAY, US_SECOND in *.
  replace (t / (3600 * 1000000)) with (t / 1000000 / 60 / 60) by (rewrite !Z.div_div by lia; f_equal; lia).
  replace (t / (60 * 1000000)) with (t / 1000000 / 60) by (rewrite Z.div_div by lia; f_equal; lia).
  pose proof (Z.div_mod t 1000000 ltac:(done)).
  pose proof (Z.div_mod (t / 1000000) 60 ltac:(done)).
  pose proof (Z.div_mod (t / 1000000 / 60) 60 ltac:(done)).
  lia.
Qed.

Lemma local_us_combine d t z :
  0 <= t < US_DAY -> local_us (combine d t z) = toordinal d * US_DAY + t.
Proof. intros Ht. rewrite local_us_date, time_us_combine by done. done. Qed.

Lemma instant_combine d t z :
  0 <= t < US_DAY ->
  instant (combine d t z)
  = toordinal d * US_DAY + t - wall_offset z (toordinal d * US_DAY + t).
Proof. intros Ht. unfold instant. rewrite local_us_combine by done. done. Qed.

Lemma dt_date_combine d t z : dt_date (combine d t z) = d.
Proof. by destruct d. Qed.

Lemma aware_combine d t z : aware (combine d t z) = true.
Proof. done. Qed.

Lemma astimezone_Ok x z y :
  astimezone x z = Ok y ->
  instant y = instant x /\ local_us y = instant x + zone_offset z (instant x)
  /\ datetime_ok y = true.
Proof.
  intros H. pose proof (of_local_us_ok _ _ _ H) as Hok. apply of_local_us_spec in H as [H1 H2].
  split; [unfold instant at 1; rewrite H1, H2; simpl; lia|]. split; [done|].
  apply Hok. pose proof (zone_offset_bound z (instant x)). lia.
Qed.

Lemma zoned_add_Ok x delta z y :
  zoned_add x delta z = Ok y ->
  local_us y = local_us x + delta
  /\ instant y = local_us x + delta - wall_offset z (local_us x + delta).
Proof.
  intros H. apply of_local_us_spec in H as [H1 H2]. split; [done|].
  unfold instant. rewrite H1, H2. done.
Qed.

(** The day of an instant in a zone. *)
Definition day_of (z : string) (t : Z) : Z := (t + zone_offset z t) / US_DAY.

Lemma day_of_astimezone x z y :
  astimezone x z = Ok y -> toordinal (dt_date y) = day_of z (instant x).
Proof. intros H. apply astimezone_Ok in H as (_ & Hl & Hok). by rewrite <- local_day, Hl. Qed.

Lemma day_of_bounds z n t :
  z ∈ [ZURICH; PARIS] -> DAY_2000 <= n ->
  day_of z t = n <->
  n * US_DAY - wall_offset z (n * US_DAY) <= t
  < (n + 1) * US_DAY - wall_offset z ((n + 1) * US_DAY).
Proof.
  intros Hz Hn. unfold day_of.
  pose proof (midnight_starts_day z n t Hz Hn) as H1.
  pose proof (midnight_starts_day z (n + 1) t Hz ltac:(lia)) as H2.
  set (l := t + zone_offset z t) in *.
  pose proof (Z.div_mod l US_DAY ltac:(done)) as Hd.
  pose proof (Z.mod_pos_bound l US_DAY ltac:(done)) as Hm.
  unfold US_DAY in *. lia.
Qed.
End zones.
