(* ===== verification/CampaignContracts.v ===== *)
(** CampaignContracts: the contracts of [campaigns/contracts.py] - the
    vocabularies of a campaign, its frozen policies, the catalogues of a
    deployment, and what the factory and the store exchange, each with the
    validation that building it runs. *)

From S2P Require Import Prelude PyStr PyText PyDatetime PyJson ContactContracts.
From Stdlib Require Import Ascii String.

Local Open Scope string_scope.
Local Open Scope Z_scope.
Local Open Scope list_scope.

(** * Versions and fields *)

(** [campaigns/contracts.py:28-28 CAMPAIGN_FACTORY_VERSION] *)
Definition CAMPAIGN_FACTORY_VERSION : string := "campaign-factory-v1".
(** [campaigns/contracts.py:30-30 CAMPAIGN_SEQUENCE_POLICY_VERSION] *)
Definition CAMPAIGN_SEQUENCE_POLICY_VERSION : string := "campaign-sequence-policy-v1".
(** [campaigns/contracts.py:31-31 BATCH_SEAL_POLICY_VERSION] *)
Definition BATCH_SEAL_POLICY_VERSION : string := "batch-seal-policy-v1".
(** [campaigns/contracts.py:32-32 SEND_WINDOW_POLICY_VERSION] *)
Definition SEND_WINDOW_POLICY_VERSION : string := "send-window-policy-v1".
(** [campaigns/contracts.py:33-33 SEQUENCE_WINDOW_POLICY_VERSION] *)
Definition SEQUENCE_WINDOW_POLICY_VERSION : string := "sequence-window-policy-v1".
(** [campaigns/contracts.py:34-34 TRACKING_POLICY_VERSION] *)
Definition TRACKING_POLICY_VERSION : string := "tracking-policy-v1".
(** [campaigns/contracts.py:35-35 PACING_POLICY_VERSION] *)
Definition PACING_POLICY_VERSION : string := "pacing-policy-v1".
(** [campaigns/contracts.py:37-37 PROVIDER_OPERATION_VERSION] *)
Definition PROVIDER_OPERATION_VERSION : string := "provider-operation-v1".
(** [campaigns/contracts.py:38-38 PROVIDER_EVENT_FINGERPRINT_VERSION] *)
Definition PROVIDER_EVENT_FINGERPRINT_VERSION : string := "provider-event-fingerprint-v2".
(** [campaigns/contracts.py:39-39 PROVIDER_OPERATION_MAX_ATTEMPTS] *)
Definition PROVIDER_OPERATION_MAX_ATTEMPTS : Z := 3.

(** [campaigns/contracts.py:41-41 StableRef] *)
Definition GStableRef (field s : string) : result string := uconstr field 1 256 s.
(** [campaigns/contracts.py:42-42 ShortCode] *)
Definition GShortCode (field s : string) : result string := uconstr field 1 100 s.
(** [campaigns/contracts.py:43-43 Fingerprint] *)
Definition GFingerprint (field s : string) : result string :=
  let t := ustrip s in if is_fingerprint t then Ok t else Raise (ValidationError field).

(** [decision_engine/policy.py:23-24 semantic_fingerprint], after
    [_canonical]: the values hold strings, integers and [None]. *)
Definition semantic_fingerprint `{HashLib} (value : json) : string := finite_sha256 value.

(** * Vocabularies *)

(** [campaigns/contracts.py:56-62 CampaignLifecycle] *)
Inductive CampaignLifecycle : Type :=
| BUILDING | SEALED | ACTIVE | PAUSED | LifecycleCOMPLETED | LifecycleFAILED.
#[export] Instance CampaignLifecycle_eq_dec : EqDecision CampaignLifecycle.
Proof. solve_decision. Defined.

(** [campaigns/contracts.py:65-71 MemberExecutionState] *)
Inductive MemberExecutionState : Type :=
| MemberRESERVED | ENROLLED | MemberQUEUED | MemberSTOPPED | MemberSENT | MemberFAILED.
#[export] Instance MemberExecutionState_eq_dec : EqDecision MemberExecutionState.
Proof. solve_decision. Defined.

(** [campaigns/contracts.py:74-79 MemberSequenceState] *)
Inductive MemberSequenceState : Type :=
| PENDING_STEP1 | WAITING_STEP2 | SequenceCOMPLETED | SequenceSTOPPED | SequenceFAILED.
#[export] Instance MemberSequenceState_eq_dec : EqDecision MemberSequenceState.
Proof. solve_decision. Defined.

(** [campaigns/contracts.py:82-88 ProviderOperationKind] *)
Inductive ProviderOperationKind : Type :=
| CREATE_CAMPAIGN | CONFIGURE_CAMPAIGN | ADD_LEAD | ACTIVATE_CAMPAIGN | PAUSE_CAMPAIGN | PAUSE_LEAD.
#[export] Instance ProviderOperationKind_eq_dec : EqDecision ProviderOperationKind.
Proof. solve_decision. Defined.

(** [campaigns/contracts.py:82-88 ProviderOperationKind] *)
Definition operation_kind_value (k : ProviderOperationKind) : string :=
  match k with
  | CREATE_CAMPAIGN => "CREATE_CAMPAIGN" | CONFIGURE_CAMPAIGN => "CONFIGURE_CAMPAIGN"
  | ADD_LEAD => "ADD_LEAD" | ACTIVATE_CAMPAIGN => "ACTIVATE_CAMPAIGN"
  | PAUSE_CAMPAIGN => "PAUSE_CAMPAIGN" | PAUSE_LEAD => "PAUSE_LEAD"
  end.

(** [campaigns/contracts.py:91-97 ProviderOperationState] *)
Inductive ProviderOperationState : Type :=
| PLANNED | IN_FLIGHT | CONFIRMED | RECONCILE_REQUIRED | RETRYABLE_FAILED | TERMINAL_FAILED.
#[export] Instance ProviderOperationState_eq_dec : EqDecision ProviderOperationState.
Proof. solve_decision. Defined.

(** [campaigns/contracts.py:100-104 MailboxReadinessState] *)
Inductive MailboxReadinessState : Type :=
| READY | TEMPORARILY_UNAVAILABLE | UNHEALTHY | ReadinessUNKNOWN.

(** [campaigns/contracts.py:100-104 MailboxReadinessState] *)
Definition readiness_state_value (s : MailboxReadinessState) : string :=
  match s with
  | READY => "READY" | TEMPORARILY_UNAVAILABLE => "TEMPORARILY_UNAVAILABLE"
  | UNHEALTHY => "UNHEALTHY" | ReadinessUNKNOWN => "UNKNOWN"
  end.

(** [campaigns/contracts.py:107-109 TransportContractProof]; the two proofs
    after it have the same members. *)
Inductive Proof_ : Type := UNVERIFIED | VERIFIED.
#[export] Instance Proof_eq_dec : EqDecision Proof_.
Proof. solve_decision. Defined.

(** [campaigns/contracts.py:122-124 ResponseIngressCapability] *)
Inductive ResponseIngressCapability : Type := NONE | SPEC027_V1.

(** A field [Literal["CH", "FR"]], a country or a jurisdiction. *)
Inductive country : Type := InCH | InFR.
#[export] Instance country_eq_dec : EqDecision country.
Proof. solve_decision. Defined.
Definition country_value (c : country) : string := match c with InCH => "CH" | InFR => "FR" end.

(** A field [Literal["fr", "en"]]. *)
Inductive language : Type := French | English.
#[export] Instance language_eq_dec : EqDecision language.
Proof. solve_decision. Defined.
Definition language_value (l : language) : string :=
  match l with French => "fr" | English => "en" end.

(** * Frozen policies *)

(** [campaigns/contracts.py:127-130 BatchSealPolicy]: the members and the
    seconds a batch may take. *)
Definition maximum_members : Z := 10.
(** [campaigns/contracts.py:127-130 BatchSealPolicy] *)
Definition maximum_assembly_seconds : Z := 900.

(** [campaigns/contracts.py:155-163 PacingPolicy] *)
Record PacingPolicy : Type := mkPacing {
  autonomous_live_cap : Z;
  global_daily_cap : Z;
  country_daily_cap : Z;
  wedge_daily_cap : Z;
  mailbox_daily_cap : Z;
  micro_campaign_member_cap : Z;
  company_rolling_30d_cap : Z;
}.

(** [campaigns/contracts.py:155-163 PacingPolicy]: the only value of the type. *)
Definition pacing_policy : PacingPolicy := mkPacing 0 5 5 3 3 10 1.

(** * Catalogues *)

(** Whether a text holds a token. *)
Fixpoint contains (token s : string) : bool :=
  String.prefix token s
  || match s with EmptyString => false | String _ s' => contains token s' end.

(** [campaigns/contracts.py:177-177 forbid_template_syntax]: the tokens. *)
Definition TEMPLATE_TOKENS : list string := ["{{"; "}}"; "{%"; "%}"; "[["; "]]"].

(** [campaigns/contracts.py:174-179 forbid_template_syntax] *)
Definition forbid_template_syntax (field value : string) : result string :=
  require! negb (existsb (fun token => contains token value) TEMPLATE_TOKENS)
  else ValidationError field in
  Ok value.

(** [campaigns/contracts.py:166-172 FooterCatalogEntry] *)
Record FooterCatalogEntry : Type := mkFooterEntry {
  fe_language : language;
  fe_sender_profile_ref : string;
  fe_sender_identity : string;
  fe_source_notice : string;
  fe_privacy_route : string;
  fe_visible_opt_out : string;
}.

(** [campaigns/contracts.py:166-179 FooterCatalogEntry] *)
Definition footer_entry_validate (e : FooterCatalogEntry) : result FooterCatalogEntry :=
  let text field s := let! t := GStableRef field s in forbid_template_syntax field t in
  let! profile := GStableRef "sender_profile_ref" (fe_sender_profile_ref e) in
  let! identity := text "sender_identity" (fe_sender_identity e) in
  let! notice := text "source_notice" (fe_source_notice e) in
  let! route := text "privacy_route" (fe_privacy_route e) in
  let! opt_out := text "visible_opt_out" (fe_visible_opt_out e) in
  Ok (mkFooterEntry (fe_language e) profile identity notice route opt_out).

Definition footer_entry_json (e : FooterCatalogEntry) : json :=
  JObj [("language", JStr (language_value (fe_language e)));
        ("sender_profile_ref", JStr (fe_sender_profile_ref e));
        ("sender_identity", JStr (fe_sender_identity e));
        ("source_notice", JStr (fe_source_notice e));
        ("privacy_route", JStr (fe_privacy_route e));
        ("visible_opt_out", JStr (fe_visible_opt_out e))].

(** [campaigns/contracts.py:182-185 FooterCatalog] *)
Record FooterCatalog : Type := mkFooterCatalog {
  fc_catalog_version : string;
  fc_entries : list FooterCatalogEntry;
  fc_catalog_fingerprint : option string;
}.

(** What an entry is found by. *)
Definition footer_binding (e : FooterCatalogEntry) : language * string :=
  (fe_language e, fe_sender_profile_ref e).

(** A declared fingerprint is absent or the expected one. *)
Definition declared (field expected : string) (o : option string) : result unit :=
  let! given := opt_mapM (GFingerprint field) o in
  require! match given with Some f => bool_decide (f = expected) | None => true end
  else ValidationError field in
  Ok tt.

Section catalogues.
Context `{Hash : HashLib}.

(** [campaigns/contracts.py:187-198 fingerprint_catalog] *)
Definition footer_catalog_validate (c : FooterCatalog) : result FooterCatalog :=
  let! version := GShortCode "catalog_version" (fc_catalog_version c) in
  let! entries := mapM_result footer_entry_validate (fc_entries c) in
  let identities := map footer_binding entries in
  require! zlength identities =? zlength (dict_fromkeys identities)
  else ValidationError "duplicate footer catalog binding" in
  let expected := semantic_fingerprint
    (JObj [("kind", JStr "campaign-footer-catalog-v1"); ("catalog_version", JStr version);
           ("entries", JList (map footer_entry_json entries))]) in
  let! _ := declared "catalog_fingerprint" expected (fc_catalog_fingerprint c) in
  Ok (mkFooterCatalog version entries (Some expected)).

(** [campaigns/contracts.py:226-234 MailboxReadiness] *)
Record MailboxReadiness : Type := mkReadiness {
  mr_state : MailboxReadinessState;
  mr_provider_daily_limit : Z;
  mr_sending_gap_seconds : Z;
  mr_observed_at : datetime;
  mr_valid_until : option datetime;
  mr_readiness_fingerprint : option string;
}.

(** [campaigns/contracts.py:236-247 fingerprint_readiness] *)
Definition readiness_validate (r : MailboxReadiness) : result MailboxReadiness :=
  require! (0 <=? mr_provider_daily_limit r) && (mr_provider_daily_limit r <=? 100000)
  else ValidationError "provider_daily_limit" in
  require! (0 <=? mr_sending_gap_seconds r) && (mr_sending_gap_seconds r <=? 86400)
  else ValidationError "sending_gap_seconds" in
  require! aware (mr_observed_at r) && opt_aware (mr_valid_until r)
  else ValidationError "datetime must be timezone-aware" in
  let expected := semantic_fingerprint
    (JObj [("kind", JStr "mailbox-readiness-v1");
           ("state", JStr (readiness_state_value (mr_state r)));
           ("provider_daily_limit", JInt (mr_provider_daily_limit r));
           ("sending_gap_seconds", JInt (mr_sending_gap_seconds r));
           ("observed_at", JStr (json_datetime (mr_observed_at r)));
           ("valid_until", JOptStr (json_datetime <$> mr_valid_until r))]) in
  let! _ := declared "readiness_fingerprint" expected (mr_readiness_fingerprint r) in
  Ok (mkReadiness (mr_state r) (mr_provider_daily_limit r) (mr_sending_gap_seconds r)
        (mr_observed_at r) (mr_valid_until r) (Some expected)).
End catalogues.

(** [campaigns/contracts.py:201-214 MailboxCatalogEntry] *)
Record MailboxCatalogEntry : Type := mkMailboxEntry {
  me_mailbox_ref : string;
  me_provider_account_id : string;
  me_sender_profile_ref : string;
  me_eligible_countries : list country;
  me_eligible_languages : list language;
  me_eligible_wedges : list string;
  me_domain_ref : string;
  me_timezone : string;
  me_kivou_daily_cap : Z;
  me_kivou_campaign_cap : Z;
  me_config_version : string;
  me_config_fingerprint : string;
  me_enabled : bool;
}.

Definition length_in {A} (field : string) (lo hi : Z) (l : list A) : result unit :=
  require! (lo <=? zlength l) && (zlength l <=? hi) else ValidationError field in Ok tt.

(** [campaigns/contracts.py:201-214 MailboxCatalogEntry] *)
Definition mailbox_entry_validate (e : MailboxCatalogEntry) : result MailboxCatalogEntry :=
  let! mailbox := GStableRef "mailbox_ref" (me_mailbox_ref e) in
  let! account := GStableRef "provider_account_id" (me_provider_account_id e) in
  let! profile := GStableRef "sender_profile_ref" (me_sender_profile_ref e) in
  let! _ := length_in "eligible_countries" 1 2 (me_eligible_countries e) in
  let! _ := length_in "eligible_languages" 1 2 (me_eligible_languages e) in
  let! _ := length_in "eligible_wedges" 1 16 (me_eligible_wedges e) in
  let! wedges := mapM_result (GShortCode "eligible_wedges") (me_eligible_wedges e) in
  let! domain := GStableRef "domain_ref" (me_domain_ref e) in
  let! timezone := checked "timezone" (fun z => in_list z ["Europe/Zurich"; "Europe/Paris"])
                     (me_timezone e) in
  let! daily := checked "kivou_daily_cap" (fun n => (0 <=? n) && (n <=? 5))
                  (me_kivou_daily_cap e) in
  let! campaign := checked "kivou_campaign_cap" (fun n => (0 <=? n) && (n <=? 10))
                     (me_kivou_campaign_cap e) in
  let! version := GShortCode "config_version" (me_config_version e) in
  let! fingerprint := GFingerprint "config_fingerprint" (me_config_fingerprint e) in
  Ok (mkMailboxEntry mailbox account profile (me_eligible_countries e) (me_eligible_languages e)
        wedges domain timezone daily campaign version fingerprint (me_enabled e)).

(** [campaigns/contracts.py:217-219 MailboxCatalog] *)
Record MailboxCatalog : Type := mkMailboxCatalog {
  mc_catalog_version : string;
  mc_entries : list MailboxCatalogEntry;
}.

(** [campaigns/contracts.py:217-223 MailboxCatalog] *)
Definition mailbox_catalog_validate (c : MailboxCatalog) : result MailboxCatalog :=
  let! version := GShortCode "catalog_version" (mc_catalog_version c) in
  let! entries := mapM_result mailbox_entry_validate (mc_entries c) in
  Ok (mkMailboxCatalog version entries).

(** [campaigns/contracts.py:221-223 usable_entries] *)
Definition usable_entries (c : MailboxCatalog) : list MailboxCatalogEntry :=
  List.filter me_enabled (mc_entries c).

(** [campaigns/contracts.py:250-262 CampaignDeploymentConfig] *)
Record CampaignDeploymentConfig : Type := mkDeployment {
  dc_provider_workspace_ref : option string;
  dc_wedge : option string;
  dc_wedge_version : string;
  dc_mailbox_pool_version : string;
  dc_mailbox_catalog : MailboxCatalog;
  dc_footer_catalog : FooterCatalog;
  dc_transport_contract_proof : Proof_;
  dc_lead_risk_reduction_contract_proof : Proof_;
  dc_webhook_entitlement : Proof_;
  dc_response_ingress_capability : ResponseIngressCapability;
}.

(** [campaigns/contracts.py:264-275 require_risk_reduction_for_transport_proof] *)
Definition require_risk_reduction_for_transport_proof (c : CampaignDeploymentConfig)
  : result CampaignDeploymentConfig :=
  require! negb (bool_decide (dc_transport_contract_proof c = VERIFIED)
                 && negb (bool_decide (dc_lead_risk_reduction_contract_proof c = VERIFIED)))
  else ValidationError "CampaignDeploymentConfig" in
  Ok c.

(** [campaigns/contracts.py:250-275 CampaignDeploymentConfig] *)
Definition deployment_validate `{HashLib} (c : CampaignDeploymentConfig)
  : result CampaignDeploymentConfig :=
  let! workspace := opt_mapM (GStableRef "provider_workspace_ref") (dc_provider_workspace_ref c) in
  let! wedge := opt_mapM (GShortCode "wedge") (dc_wedge c) in
  let! wedge_version := GShortCode "wedge_version" (dc_wedge_version c) in
  let! pool := GShortCode "mailbox_pool_version" (dc_mailbox_pool_version c) in
  let! mailboxes := mailbox_catalog_validate (dc_mailbox_catalog c) in
  let! footers := footer_catalog_validate (dc_footer_catalog c) in
  require_risk_reduction_for_transport_proof
    (mkDeployment workspace wedge wedge_version pool mailboxes footers
       (dc_transport_contract_proof c) (dc_lead_risk_reduction_contract_proof c)
       (dc_webhook_entitlement c) (dc_response_ingress_capability c)).

(** * The plan of a campaign *)

(** [campaigns/contracts.py:300-311 SequenceWindow] *)
Record SequenceWindow : Type := mkWindow {
  sw_timezone : string;
  sw_step_1_execution_date : date;
  sw_step_1_authorization_deadline : datetime;
  sw_step_2_execution_date : date;
  sw_step_2_authorization_deadline : datetime;
}.
#[export] Instance SequenceWindow_eq_dec : EqDecision SequenceWindow.
Proof. solve_decision. Defined.

(** [campaigns/contracts.py:300-311 SequenceWindow] *)
Definition window_validate (w : SequenceWindow) : result SequenceWindow :=
  require! in_list (sw_timezone w) ["Europe/Zurich"; "Europe/Paris"]
  else ValidationError "timezone" in
  require! aware (sw_step_1_authorization_deadline w) && aware (sw_step_2_authorization_deadline w)
  else ValidationError "datetime must be timezone-aware" in
  Ok w.

(** [campaigns/contracts.py:314-329 CampaignFactoryInput] *)
Record CampaignFactoryInput : Type := mkFactoryInput {
  fi_wedge : string;
  fi_wedge_version : string;
  fi_jurisdiction : country;
  fi_country : country;
  fi_language : language;
  fi_selected_need_category : string;
  fi_selected_need_version : string;
  fi_personalization_catalog_version : string;
  fi_personalization_template_version : string;
  fi_language_policy_version : string;
  fi_envelope_catalog_version : string;
  fi_sender_profile_ref : string;
  fi_mailbox_pool_version : string;
  fi_compliance_ruleset_fingerprint : string;
  fi_step_1_execution_date : date;
}.
#[export] Instance CampaignFactoryInput_eq_dec : EqDecision CampaignFactoryInput.
Proof. solve_decision. Defined.

(** [campaigns/contracts.py:314-329 CampaignFactoryInput] *)
Definition factory_input_validate (v : CampaignFactoryInput) : result CampaignFactoryInput :=
  let! wedge := GShortCode "wedge" (fi_wedge v) in
  let! wedge_version := GShortCode "wedge_version" (fi_wedge_version v) in
  let! category := GShortCode "selected_need_category" (fi_selected_need_category v) in
  let! need_version := GShortCode "selected_need_version" (fi_selected_need_version v) in
  let! catalog := GShortCode "personalization_catalog_version"
                    (fi_personalization_catalog_version v) in
  let! template := GShortCode "personalization_template_version"
                     (fi_personalization_template_version v) in
  let! policy := GShortCode "language_policy_version" (fi_language_policy_version v) in
  let! envelope := GShortCode "envelope_catalog_version" (fi_envelope_catalog_version v) in
  let! sender := GStableRef "sender_profile_ref" (fi_sender_profile_ref v) in
  let! pool := GShortCode "mailbox_pool_version" (fi_mailbox_pool_version v) in
  let! ruleset := GFingerprint "compliance_ruleset_fingerprint"
                    (fi_compliance_ruleset_fingerprint v) in
  Ok (mkFactoryInput wedge wedge_version (fi_jurisdiction v) (fi_country v) (fi_language v)
        category need_version catalog template policy envelope sender pool ruleset
        (fi_step_1_execution_date v)).

(** [campaigns/contracts.py:332-352 CampaignPlan]; the versions of the
    policies are constants. *)
Record CampaignPlan : Type := mkPlan {
  pl_campaign_group_key : string;
  pl_campaign_ref : string;
  pl_plan_fingerprint : string;
  pl_batch_generation : Z;
  pl_provider_campaign_name : string;
  pl_country : country;
  pl_jurisdiction : country;
  pl_language : language;
  pl_wedge : string;
  pl_selected_need_category : string;
  pl_sender_profile_ref : string;
  pl_compliance_ruleset_fingerprint : string;
  pl_sequence_window : SequenceWindow;
}.

(** [[A-Za-z0-9_-]] *)
Definition is_name_char (c : ascii) : bool :=
  is_upper c || is_lower c || is_digit c || eqc c "_" || eqc c "-".

(** [campaigns/contracts.py:338-338 provider_campaign_name] *)
Definition ProviderCampaignName (s : string) : result string :=
  let t := ustrip s in
  if (1 <=? len t) && (len t <=? 100) && all_chars is_name_char t then Ok t
  else Raise (ValidationError "provider_campaign_name").

(** [campaigns/contracts.py:332-352 CampaignPlan] *)
Definition plan_validate (p : CampaignPlan) : result CampaignPlan :=
  let! group := GFingerprint "campaign_group_key" (pl_campaign_group_key p) in
  let! ref := GFingerprint "campaign_ref" (pl_campaign_ref p) in
  let! fingerprint := GFingerprint "plan_fingerprint" (pl_plan_fingerprint p) in
  let! generation := checked "batch_generation" (fun n => 1 <=? n) (pl_batch_generation p) in
  let! name := ProviderCampaignName (pl_provider_campaign_name p) in
  let! wedge := GShortCode "wedge" (pl_wedge p) in
  let! category := GShortCode "selected_need_category" (pl_selected_need_category p) in
  let! sender := GStableRef "sender_profile_ref" (pl_sender_profile_ref p) in
  let! ruleset := GFingerprint "compliance_ruleset_fingerprint"
                    (pl_compliance_ruleset_fingerprint p) in
  Ok (mkPlan group ref fingerprint generation name (pl_country p) (pl_jurisdiction p)
        (pl_language p) wedge category sender ruleset (pl_sequence_window p)).

(** * Members *)

(** [campaigns/contracts.py:355-373 CampaignMemberReservation] *)
Record CampaignMemberReservation : Type := mkReservation {
  rv_acquisition_opportunity_id : string;
  rv_supplier_ref : string;
  rv_contact_ref : string;
  rv_personalization_artifact_id : string;
  rv_personalization_artifact_fingerprint : string;
  rv_compliance_assessment_id : string;
  rv_compliance_assessment_fingerprint : string;
  rv_policy_evaluation_id : string;
  rv_policy_provenance : dict;
  rv_input_fingerprint : string;
  rv_contact_provider_identity_binding : string;
  rv_envelope_fingerprint : string;
  rv_policy_action_fingerprint : string;
  rv_ruleset_fingerprint : string;
  rv_sender_config_fingerprint : string;
  rv_mailbox_ref : string;
  rv_mailbox_readiness_fingerprint : string;
  rv_sequence_authorization_fingerprint : string;
}.
#[export] Instance CampaignMemberReservation_eq_dec : EqDecision CampaignMemberReservation.
Proof. solve_decision. Defined.

(** [campaigns/contracts.py:355-373 CampaignMemberReservation] *)
Definition reservation_validate (m : CampaignMemberReservation)
  : result CampaignMemberReservation :=
  let! opportunity := GStableRef "acquisition_opportunity_id" (rv_acquisition_opportunity_id m) in
  let! supplier := GStableRef "supplier_ref" (rv_supplier_ref m) in
  let! contact := GStableRef "contact_ref" (rv_contact_ref m) in
  let! artifact := GStableRef "personalization_artifact_id" (rv_personalization_artifact_id m) in
  let! artifact_fp := GFingerprint "personalization_artifact_fingerprint"
                        (rv_personalization_artifact_fingerprint m) in
  let! assessment := GStableRef "compliance_assessment_id" (rv_compliance_assessment_id m) in
  let! assessment_fp := GFingerprint "compliance_assessment_fingerprint"
                          (rv_compliance_assessment_fingerprint m) in
  let! evaluation := GStableRef "policy_evaluation_id" (rv_policy_evaluation_id m) in
  let! input := GFingerprint "input_fingerprint" (rv_input_fingerprint m) in
  let! binding := GFingerprint "contact_provider_identity_binding"
                    (rv_contact_provider_identity_binding m) in
  let! envelope := GFingerprint "envelope_fingerprint" (rv_envelope_fingerprint m) in
  let! action := GFingerprint "policy_action_fingerprint" (rv_policy_action_fingerprint m) in
  let! ruleset := GFingerprint "ruleset_fingerprint" (rv_ruleset_fingerprint m) in
  let! sender := GFingerprint "sender_config_fingerprint" (rv_sender_config_fingerprint m) in
  let! mailbox := GStableRef "mailbox_ref" (rv_mailbox_ref m) in
  let! readiness := GFingerprint "mailbox_readiness_fingerprint"
                      (rv_mailbox_readiness_fingerprint m) in
  let! sequence := GFingerprint "sequence_authorization_fingerprint"
                     (rv_sequence_authorization_fingerprint m) in
  Ok (mkReservation opportunity supplier contact artifact artifact_fp assessment assessment_fp
        evaluation (rv_policy_provenance m) input binding envelope action ruleset sender mailbox
        readiness sequence).

(** [campaigns/contracts.py:376-380 CampaignReservationResult] *)
Record CampaignReservationResult : Type := mkReserved {
  rs_campaign_ref : string;
  rs_member_ref : string;
  rs_batch_generation : Z;
  rs_replayed : bool;
}.

(** [campaigns/contracts.py:376-380 CampaignReservationResult] *)
Definition reserved_validate (r : CampaignReservationResult) : result CampaignReservationResult :=
  let! campaign := GFingerprint "campaign_ref" (rs_campaign_ref r) in
  let! member := GFingerprint "member_ref" (rs_member_ref r) in
  let! generation := checked "batch_generation" (fun n => 1 <=? n) (rs_batch_generation r) in
  Ok (mkReserved campaign member generation (rs_replayed r)).

(** [campaigns/contracts.py:383-395 ProviderOperationRecord] *)
Record ProviderOperationRecord : Type := mkOperationRecord {
  po_operation_ref : string;
  po_operation_key : string;
  po_kind : ProviderOperationKind;
  po_state : ProviderOperationState;
  po_campaign_ref : string;
  po_member_ref : option string;
  po_desired_request_fingerprint : string;
  po_attempt : Z;
  po_lease_owner : option string;
  po_lease_expires_at : option datetime;
}.
#[export] Instance ProviderOperationRecord_eq_dec : EqDecision ProviderOperationRecord.
Proof. solve_decision. Defined.

(** [campaigns/contracts.py:383-395 ProviderOperationRecord] *)
Definition operation_record_validate (r : ProviderOperationRecord)
  : result ProviderOperationRecord :=
  let! ref := GFingerprint "operation_ref" (po_operation_ref r) in
  let! key := GFingerprint "operation_key" (po_operation_key r) in
  let! campaign := GFingerprint "campaign_ref" (po_campaign_ref r) in
  let! member := opt_mapM (GFingerprint "member_ref") (po_member_ref r) in
  let! desired := GFingerprint "desired_request_fingerprint" (po_desired_request_fingerprint r) in
  let! attempt := checked "attempt" (fun n => 0 <=? n) (po_attempt r) in
  let! owner := opt_mapM (GStableRef "lease_owner") (po_lease_owner r) in
  require! opt_aware (po_lease_expires_at r)
  else ValidationError "datetime must be timezone-aware" in
  Ok (mkOperationRecord ref key (po_kind r) (po_state r) campaign member desired attempt owner
        (po_lease_expires_at r)).
