(* ===== verification/CampaignFactory.v ===== *)
(** CampaignFactory: the pure planning of a campaign - its identity and its
    two-step calendar ([campaigns/factory.py]), the capacity of a day
    ([campaigns/pacing.py]) and the judgement of a message the provider
    reports as sent ([campaigns/worker.py]). *)

From S2P Require Import Prelude PyStr PyText PyDatetime PyDatetimeFacts PyJson PyZoneInfo.
From S2P Require Import CampaignContracts.
From Stdlib Require Import Ascii String.
From Equations Require Import Equations.

Local Open Scope string_scope.
Local Open Scope Z_scope.
Local Open Scope list_scope.

(** * The calendar *)

(** [campaigns/factory.py:17-17 _TIMEZONES] *)
Definition _TIMEZONES : list (string * string) := [("CH", ZURICH); ("FR", PARIS)].

Definition timezone_of (jurisdiction : string) : option string :=
  snd <$> first_match (fun p => bool_decide (p.1 = jurisdiction)) _TIMEZONES.

(** The days left of a week that ends on a Sunday. *)
Definition weekend_left (d : date) : nat :=
  if 5 <=? weekday d then Z.to_nat (7 - weekday d) else 0.

Definition inspect {A} (a : A) : { b : A | a = b } := exist _ a eq_refl.

Definition tomorrow (d : date) : result { e : date | toordinal e = toordinal d + 1 } :=
  match date_add d 1 as r return (date_add d 1 = r -> _) with
  | Ok e => fun H => Ok (exist _ e (date_add_Ok d 1 e H))
  | Raise x => fun _ => Raise x
  end eq_refl.

(** The loop of [_next_weekday], on the days left of a week-end. *)
Equations? next_weekday_loop (value : date) : result date by wf (weekend_left value) lt :=
  next_weekday_loop value with inspect (5 <=? weekday value) := {
    | exist _ true H => match tomorrow value with
                        | Ok (exist _ e He) => next_weekday_loop e
                        | Raise x => Raise x
                        end
    | exist _ false _ => Ok value
  }.
Proof.
  unfold weekend_left. rewrite H. pose proof (weekday_later value 1 e He) as Hw.
  pose proof (weekday_bound value).
  assert (weekday value = 5 \/ weekday value = 6) as [E|E] by lia; rewrite E in *; rewrite Hw; vm_compute; lia.
Defined.

(** [campaigns/factory.py:20-23 _next_weekday] *)
Definition _next_weekday (value : date) : result date := next_weekday_loop value.

Definition NINE : Z := 9 * US_HOUR.
Definition SEVENTEEN : Z := 17 * US_HOUR.

Section factory.
Context `{Hash : HashLib} `{Case : CaseData} `{Zone : ZoneInfo}.

(** [campaigns/factory.py:26-44 sequence_window] *)
Definition sequence_window (jurisdiction : string) (step_1_execution_date : date)
  : result SequenceWindow :=
  let! timezone := option_to_result (ValueError "campaign jurisdiction must be CH or FR")
                     (timezone_of jurisdiction) in
  require! weekday step_1_execution_date <? 5
  else ValueError "step_1_execution_date must be a weekday" in
  let! raw := date_add step_1_execution_date 4 in
  let! step_2_execution_date := _next_weekday raw in
  window_validate
    (mkWindow timezone step_1_execution_date (combine step_1_execution_date SEVENTEEN timezone)
       step_2_execution_date (combine step_2_execution_date SEVENTEEN timezone)).

(** * Identity *)

(** [campaigns/factory.py:53-53 build]: the dimensions, which are the
    input without its date. *)
Definition dimensions (v : CampaignFactoryInput) : dict :=
  [("wedge", JStr (fi_wedge v)); ("wedge_version", JStr (fi_wedge_version v));
   ("jurisdiction", JStr (country_value (fi_jurisdiction v)));
   ("country", JStr (country_value (fi_country v)));
   ("language", JStr (language_value (fi_language v)));
   ("selected_need_category", JStr (fi_selected_need_category v));
   ("selected_need_version", JStr (fi_selected_need_version v));
   ("personalization_catalog_version", JStr (fi_personalization_catalog_version v));
   ("personalization_template_version", JStr (fi_personalization_template_version v));
   ("language_policy_version", JStr (fi_language_policy_version v));
   ("envelope_catalog_version", JStr (fi_envelope_catalog_version v));
   ("sender_profile_ref", JStr (fi_sender_profile_ref v));
   ("mailbox_pool_version", JStr (fi_mailbox_pool_version v));
   ("compliance_ruleset_fingerprint", JStr (fi_compliance_ruleset_fingerprint v))].

Definition group_key_of (v : CampaignFactoryInput) : string :=
  semantic_fingerprint (JObj (("kind", JStr "campaign-group-key-v1") :: dimensions v)).

Definition campaign_ref_of (group_key : string) (batch_generation : Z) : string :=
  semantic_fingerprint
    (JObj [("kind", JStr "campaign-ref-v1"); ("campaign_group_key", JStr group_key);
           ("batch_generation", JInt batch_generation)]).

(** [[a-z0-9]] *)
Definition is_slug (c : string) : bool :=
  match c with String a EmptyString => is_lower a || is_digit a | _ => false end.

(** [re.sub(r"[^a-z0-9]+", "-", s)]: a run of other characters is one dash. *)
Fixpoint dashed (in_run : bool) (l : list string) : list string :=
  match l with
  | [] => []
  | c :: l' =>
      if is_slug c then c :: dashed false l'
      else if in_run then dashed true l' else "-" :: dashed true l'
  end.

(** [s.strip("-")] *)
Fixpoint drop_dashes (l : list string) : list string :=
  match l with c :: l' => if bool_decide (c = "-") then drop_dashes l' else l | [] => [] end.
Definition strip_dashes (l : list string) : list string :=
  reverse (drop_dashes (reverse (drop_dashes l))).

(** [campaigns/factory.py:65-65 build]: [safe_wedge]. *)
Definition safe_wedge (wedge : string) : string :=
  of_chars (take 24 (strip_dashes (dashed false (chars (casefold wedge))))).

(** [campaigns/factory.py:66-68 build]: [provider_name]. *)
Definition provider_name (campaign_ref : string) (v : CampaignFactoryInput) : string :=
  "KIVOU-" +:+ stake 12 campaign_ref +:+ "-" +:+ country_value (fi_country v) +:+ "-"
  +:+ language_value (fi_language v) +:+ "-" +:+ safe_wedge (fi_wedge v).

Definition window_json (w : SequenceWindow) : json :=
  JObj [("policy_version", JStr SEQUENCE_WINDOW_POLICY_VERSION);
        ("send_window_policy_version", JStr SEND_WINDOW_POLICY_VERSION);
        ("timezone", JStr (sw_timezone w));
        ("step_1_execution_date", JStr (date_isoformat (sw_step_1_execution_date w)));
        ("step_1_authorization_deadline",
           JStr (json_datetime (sw_step_1_authorization_deadline w)));
        ("step_2_execution_date", JStr (date_isoformat (sw_step_2_execution_date w)));
        ("step_2_authorization_deadline",
           JStr (json_datetime (sw_step_2_authorization_deadline w)))].

(** [campaigns/factory.py:83-87 build]: what the fingerprint of a plan is
    taken of. *)
Definition plan_fingerprint (p : CampaignPlan) : string :=
  semantic_fingerprint
    (JObj [("kind", JStr "campaign-plan-v1"); ("factory_version", JStr CAMPAIGN_FACTORY_VERSION);
           ("campaign_group_key", JStr (pl_campaign_group_key p));
           ("campaign_ref", JStr (pl_campaign_ref p));
           ("batch_generation", JInt (pl_batch_generation p));
           ("provider_campaign_name", JStr (pl_provider_campaign_name p));
           ("country", JStr (country_value (pl_country p)));
           ("jurisdiction", JStr (country_value (pl_jurisdiction p)));
           ("language", JStr (language_value (pl_language p))); ("wedge", JStr (pl_wedge p));
           ("selected_need_category", JStr (pl_selected_need_category p));
           ("sender_profile_ref", JStr (pl_sender_profile_ref p));
           ("compliance_ruleset_fingerprint", JStr (pl_compliance_ruleset_fingerprint p));
           ("batch_policy_version", JStr BATCH_SEAL_POLICY_VERSION);
           ("sequence_policy_version", JStr CAMPAIGN_SEQUENCE_POLICY_VERSION);
           ("send_window_policy_version", JStr SEND_WINDOW_POLICY_VERSION);
           ("sequence_window_policy_version", JStr SEQUENCE_WINDOW_POLICY_VERSION);
           ("tracking_policy_version", JStr TRACKING_POLICY_VERSION);
           ("pacing_policy_version", JStr PACING_POLICY_VERSION);
           ("sequence_window", window_json (pl_sequence_window p))]).

(** ["0" * 64] *)
Definition ZEROS : string := pad_digits 64 0.

(** [campaigns/factory.py:50-88 build] *)
Definition build (value : CampaignFactoryInput) (batch_generation : Z) : result CampaignPlan :=
  require! 1 <=? batch_generation else ValueError "batch_generation must be positive" in
  let campaign_group_key := group_key_of value in
  let campaign_ref := campaign_ref_of campaign_group_key batch_generation in
  let! window := sequence_window (country_value (fi_jurisdiction value))
                   (fi_step_1_execution_date value) in
  let plan fingerprint :=
    plan_validate
      (mkPlan campaign_group_key campaign_ref fingerprint batch_generation
         (provider_name campaign_ref value) (fi_country value) (fi_jurisdiction value)
         (fi_language value) (fi_wedge value) (fi_selected_need_category value)
         (fi_sender_profile_ref value) (fi_compliance_ruleset_fingerprint value) window) in
  let! probe := plan ZEROS in
  plan (plan_fingerprint probe).

(** * Timing *)

(** [campaigns/factory.py:91-113 materialize_step_2_timing].  The deadline
    of its callers is read from a column, so that it is compared as an
    instant. *)
Definition materialize_step_2_timing (window : SequenceWindow) (step_1_sent_at : datetime)
  : result datetime :=
  require! aware step_1_sent_at
  else SequenceTimingInvariantViolation "step_1_sent_at must be timezone-aware" in
  let zone := sw_timezone window in
  let! local_sent := astimezone step_1_sent_at zone in
  require! bool_decide (dt_date local_sent = sw_step_1_execution_date window)
  else SequenceTimingInvariantViolation "Step 1 was not sent on its authorized date" in
  let local_time := time_us local_sent in
  require! (NINE <=? local_time) && (local_time <? SEVENTEEN)
  else SequenceTimingInvariantViolation "Step 1 was not sent inside its authorized window" in
  let! raw_date := date_add (dt_date local_sent) 4 in
  let due := combine (sw_step_2_execution_date window)
               (if 5 <=? weekday raw_date then NINE else local_time) zone in
  require! bool_decide (dt_date due = sw_step_2_execution_date window)
           && dt_ltb due (sw_step_2_authorization_deadline window)
  else SequenceTimingInvariantViolation "materialized Step 2 timing escaped authorization" in
  Ok due.

(** [campaigns/factory.py:116-133 sequence_timing_fingerprint] *)
Definition sequence_timing_fingerprint (sequence_authorization_fingerprint : string)
    (step_1_sent_at step_2_due_at step_2_authorization_deadline : datetime) : result string :=
  let! sent := astimezone_utc step_1_sent_at in
  let! due := astimezone_utc step_2_due_at in
  let! deadline := astimezone_utc step_2_authorization_deadline in
  Ok (semantic_fingerprint
        (JObj [("kind", JStr "sequence-timing-v1");
               ("sequence_authorization_fingerprint", JStr sequence_authorization_fingerprint);
               ("step_1_sent_at", JStr (isoformat sent)); ("step_2_due_at", JStr (isoformat due));
               ("step_2_authorization_deadline", JStr (isoformat deadline))])).
End factory.

(** * Pacing and authorisation *)

(** [campaigns/pacing.py:6-15 effective_capacity] *)
Definition effective_capacity (policy : PacingPolicy) (provider_daily_limit : Z) : result Z :=
  require! 0 <=? provider_daily_limit
  else ValueError "provider_daily_limit cannot be negative" in
  Ok (Z.min (global_daily_cap policy) (Z.min (country_daily_cap policy)
       (Z.min (wedge_daily_cap policy) (Z.min (mailbox_daily_cap policy) provider_daily_limit)))).

(** [campaigns/worker.py:41-43 SendAuthorization] *)
Inductive SendAuthorization : Type := AUTHORIZED | UNAUTHORIZED.

(** [campaigns/worker.py:55-76 classify_email_sent] *)
Definition classify_email_sent (step : Z) (occurred_at : datetime) (due_at : option datetime)
    (deadline : datetime) : SendAuthorization * option string :=
  if step =? 1 then
    if match due_at with Some due => dt_ltb occurred_at due | None => false end
       || dt_leb deadline occurred_at
    then (UNAUTHORIZED, Some "STEP1_SENT_OUTSIDE_AUTHORIZED_WINDOW")
    else (AUTHORIZED, None)
  else
    match due_at with
    | None => (UNAUTHORIZED, Some "PROVIDER_STEP_UNRESOLVED")
    | Some due =>
        if negb (step =? 2) then (UNAUTHORIZED, Some "PROVIDER_STEP_UNRESOLVED")
        else if dt_ltb occurred_at due then
          (UNAUTHORIZED, Some "STEP2_SENT_BEFORE_AUTHORIZED_WINDOW")
        else if dt_leb deadline occurred_at then
          (UNAUTHORIZED, Some "STEP2_SENT_OUTSIDE_AUTHORIZED_WINDOW")
        else (AUTHORIZED, None)
    end.
