(* ===== verification/CampaignStore.v ===== *)
(** CampaignStore: the batches of a campaign, their members and the ledger of
    the provider's operations, as [campaigns/store.py] keeps them.  Every
    operation runs alone, under one lock of the database ([_serialized]): it
    takes the tables and returns the tables after it. *)

From S2P Require Import Prelude PyStr PyText PyDatetime PyJson PyZoneInfo Database.
From S2P Require Import ContactContracts ContactStore CampaignContracts CampaignFactory.
From Stdlib Require Import Ascii String.

Local Open Scope string_scope.
Local Open Scope Z_scope.
Local Open Scope list_scope.

(** * Tables *)

(** The columns of a campaign written once.  Those that repeat the input of
    the factory are the input, and those of the calendar the window. *)
Record campaign_identity : Type := mkCampaignIdentity {
  ci_campaign_ref : string;
  ci_campaign_group_key : string;
  ci_batch_generation : Z;
  ci_factory_version : string;
  ci_plan_fingerprint : string;
  ci_input : CampaignFactoryInput;
  ci_policy_versions : list string;
  ci_provider_workspace_ref : string;
  ci_provider_campaign_name : string;
  ci_desired_provider_config_fingerprint : string;
  ci_window : SequenceWindow;
  ci_member_capacity : Z;
  ci_created_at : datetime;
}.

(** [persistence/schema.py:2128-2205 acquisition_campaign] *)
Record campaign_row : Type := mkCampaign {
  ca_identity : campaign_identity;
  ca_provider_campaign_id : option string;
  ca_current_provider_config_fingerprint : option string;
  ca_lifecycle : CampaignLifecycle;
  ca_reserved_member_count : Z;
  ca_first_member_reserved_at : option datetime;
  ca_membership_close_at : option datetime;
  ca_membership_closed_at : option datetime;
  ca_updated_at : datetime;
}.

Definition ca_ref (r : campaign_row) : string := ci_campaign_ref (ca_identity r).
Definition ca_group (r : campaign_row) : string := ci_campaign_group_key (ca_identity r).
Definition ca_generation (r : campaign_row) : Z := ci_batch_generation (ca_identity r).
Definition ca_window (r : campaign_row) : SequenceWindow := ci_window (ca_identity r).

(** The columns of a member written once: the reservation, and the calendar
    of its campaign. *)
Record member_identity : Type := mkMemberIdentity {
  mi_member_ref : string;
  mi_campaign_ref : string;
  mi_reservation : CampaignMemberReservation;
  mi_plan_fingerprint : string;
  mi_step_1_execution_date : date;
  mi_step_1_authorization_deadline : datetime;
  mi_step_2_execution_date : date;
  mi_step_2_authorization_deadline : datetime;
  mi_created_at : datetime;
}.

(** [persistence/schema.py:2209-2328 acquisition_campaign_member] *)
Record member_row : Type := mkMember {
  mb_identity : member_identity;
  mb_provider_lead_id : option string;
  mb_provider_binding_fingerprint : option string;
  mb_transport_recipient_identity : option string;
  mb_transport_recipient_key_version : option string;
  mb_step_1_sent_at : option datetime;
  mb_step_2_due_at : option datetime;
  mb_sequence_timing_fingerprint : option string;
  mb_execution_state : MemberExecutionState;
  mb_sequence_state : MemberSequenceState;
  mb_reason_code : option string;
  mb_incident_code : option string;
  mb_queue_event_id : option string;
  mb_action_clear_event_id : option string;
  mb_sent_event_id : option string;
  mb_step_1_provider_event_ref : option string;
  mb_step_2_provider_event_ref : option string;
  mb_updated_at : datetime;
}.

Definition mb_ref (r : member_row) : string := mi_member_ref (mb_identity r).
Definition mb_campaign (r : member_row) : string := mi_campaign_ref (mb_identity r).
Definition mb_created_at (r : member_row) : datetime := mi_created_at (mb_identity r).
Definition mb_reservation (r : member_row) : CampaignMemberReservation :=
  mi_reservation (mb_identity r).
Definition mb_opportunity (r : member_row) : string :=
  rv_acquisition_opportunity_id (mb_reservation r).
Definition mb_supplier (r : member_row) : string := rv_supplier_ref (mb_reservation r).

(** The columns of an operation written once. *)
Record operation_identity : Type := mkOperationIdentity {
  oi_operation_ref : string;
  oi_operation_key : string;
  oi_operation_version : string;
  oi_kind : ProviderOperationKind;
  oi_campaign_ref : string;
  oi_member_ref : option string;
  oi_desired_request_fingerprint : string;
  oi_correlation_id : string;
  oi_created_at : datetime;
}.

(** [persistence/schema.py:2332-2382 acquisition_provider_operation] *)
Record operation_row : Type := mkOperation {
  oq_identity : operation_identity;
  oq_state : ProviderOperationState;
  oq_attempt : Z;
  oq_provider_identity : option string;
  oq_provider_result_fingerprint : option string;
  oq_lease_owner : option string;
  oq_lease_expires_at : option datetime;
  oq_started_at : option datetime;
  oq_confirmed_at : option datetime;
  oq_failed_at : option datetime;
  oq_retry_after : option datetime;
  oq_error_code : option string;
  oq_updated_at : datetime;
}.

Definition oq_ref (r : operation_row) : string := oi_operation_ref (oq_identity r).
Definition oq_key (r : operation_row) : string := oi_operation_key (oq_identity r).
Definition oq_kind (r : operation_row) : ProviderOperationKind := oi_kind (oq_identity r).

(** [resolution_state] of a provider event. *)
Inductive resolution : Type := ACCEPTED | PROCESSED | QUARANTINED | ResolutionFAILED.
#[export] Instance resolution_eq_dec : EqDecision resolution.
Proof. solve_decision. Defined.

(** [persistence/schema.py:2386-2430 acquisition_provider_event] *)
Record provider_event_row : Type := mkProviderEvent {
  pe_provider_event_ref : string;
  pe_canonical_event_fingerprint : string;
  pe_fingerprint_version : string;
  pe_fingerprint_key_version : string;
  pe_provider_event_type : string;
  pe_provider_workspace_ref : string;
  pe_provider_campaign_id : string;
  pe_provider_lead_id : option string;
  pe_provider_email_event_id : option string;
  pe_campaign_ref : string;
  pe_member_ref : option string;
  pe_acquisition_opportunity_id : option string;
  pe_contact_ref : option string;
  pe_step : option Z;
  pe_variant : option string;
  pe_occurred_at : datetime;
  pe_received_at : datetime;
  pe_mailbox_ref : option string;
  pe_transport_status : option string;
  pe_resolution_state : resolution;
  pe_incident_code : option string;
  pe_recorded_acquisition_event_id : option string;
}.

(** Each table by its primary key. *)
Record campaign_db : Type := mkgdb {
  gdb_campaigns : gmap string campaign_row;
  gdb_members : gmap string member_row;
  gdb_operations : gmap string operation_row;
  gdb_events : gmap string provider_event_row;
}.

Definition empty_campaign_db : campaign_db := mkgdb ∅ ∅ ∅ ∅.

Definition with_campaigns (c : gmap string campaign_row) (db : campaign_db) : campaign_db :=
  mkgdb c (gdb_members db) (gdb_operations db) (gdb_events db).
Definition with_members (m : gmap string member_row) (db : campaign_db) : campaign_db :=
  mkgdb (gdb_campaigns db) m (gdb_operations db) (gdb_events db).
Definition with_operations (o : gmap string operation_row) (db : campaign_db) : campaign_db :=
  mkgdb (gdb_campaigns db) (gdb_members db) o (gdb_events db).
Definition with_provider_events (e : gmap string provider_event_row) (db : campaign_db)
  : campaign_db :=
  mkgdb (gdb_campaigns db) (gdb_members db) (gdb_operations db) e.

(** The rows of other tables the foreign keys of a member refer to. *)
Record campaign_references : Type := mkCampaignReferences {
  gr_opportunity : string -> bool;
  gr_supplier : string -> bool;
  gr_contact : string -> bool;
  gr_artifact : string -> bool;
  gr_assessment : string -> bool;
  gr_evaluation : string -> bool;
}.

(** [a <= b] and [a < b] of two datetimes: TypeError when one is naive. *)
Definition same_kind (a b : datetime) : result unit :=
  if Bool.eqb (aware a) (aware b) then Ok tt else Raise TypeError.
Definition py_leb (a b : datetime) : result bool :=
  let! _ := same_kind a b in Ok (dt_leb a b).
Definition py_ltb (a b : datetime) : result bool :=
  let! _ := same_kind a b in Ok (dt_ltb a b).

(** [x.replace(tzinfo=dt.UTC)], whatever the zone of [x]. *)
Definition replace_utc (x : datetime) : datetime :=
  mkdt (year x) (month x) (day x) (hour x) (minute x) (second x) (microsecond x) (Some 0).

(** * Constraints *)

(** [persistence/schema.py:2187-2203 acquisition_campaign]: the check constraints on
    the membership of a batch. *)
Definition campaign_checks (r : campaign_row) : result unit :=
  let n := ca_reserved_member_count r in
  let! _ := check_constraint "ck_campaign_capacity"
    ((ci_member_capacity (ca_identity r) =? 10) && (0 <=? n)
     && (n <=? ci_member_capacity (ca_identity r))) in
  let! _ := check_constraint "ck_campaign_membership_clock"
    ((negb (truthy (ca_first_member_reserved_at r)) && negb (truthy (ca_membership_close_at r))
      && (n =? 0))
     || (truthy (ca_first_member_reserved_at r) && truthy (ca_membership_close_at r)
         && (1 <=? n))) in
  check_constraint "ck_campaign_membership_closed"
    (negb (truthy (ca_membership_closed_at r)) || truthy (ca_membership_close_at r)).

(** [persistence/schema.py:2306-2320 acquisition_campaign_member]: the check
    constraints on its timing and on its recipient. *)
Definition member_checks (r : member_row) : result unit :=
  let! _ := check_constraint "ck_campaign_member_timing_write"
    (Bool.eqb (truthy (mb_sequence_timing_fingerprint r)) (truthy (mb_step_1_sent_at r))
     && Bool.eqb (truthy (mb_sequence_timing_fingerprint r)) (truthy (mb_step_2_due_at r))) in
  check_constraint "ck_campaign_member_transport_identity"
    (Bool.eqb (truthy (mb_transport_recipient_identity r))
       (truthy (mb_transport_recipient_key_version r))).

(** [persistence/schema.py:2375-2379 acquisition_provider_operation]: which
    operations concern a member. *)
Definition of_member (k : ProviderOperationKind) : bool :=
  match k with ADD_LEAD | PAUSE_LEAD => true | _ => false end.

Section store.
Context `{Hash : HashLib} `{DB : Database} `{Case : CaseData} `{Zone : ZoneInfo}.

(** The columns of the input of the factory. *)
Definition input_columns (v : CampaignFactoryInput) : result CampaignFactoryInput :=
  let! wedge := uvarchar "wedge" 100 (fi_wedge v) in
  let! wedge_version := uvarchar "wedge_version" 64 (fi_wedge_version v) in
  let! category := uvarchar "selected_need_category" 100 (fi_selected_need_category v) in
  let! need := uvarchar "selected_need_version" 64 (fi_selected_need_version v) in
  let! catalog := uvarchar "personalization_catalog_version" 64
                    (fi_personalization_catalog_version v) in
  let! template := uvarchar "personalization_template_version" 64
                     (fi_personalization_template_version v) in
  let! policy := uvarchar "language_policy_version" 64 (fi_language_policy_version v) in
  let! envelope := uvarchar "envelope_catalog_version" 64 (fi_envelope_catalog_version v) in
  let! sender := uvarchar "sender_profile_ref" 256 (fi_sender_profile_ref v) in
  let! pool := uvarchar "mailbox_pool_version" 64 (fi_mailbox_pool_version v) in
  let! ruleset := uvarchar "compliance_ruleset_fingerprint" 64
                    (fi_compliance_ruleset_fingerprint v) in
  Ok (mkFactoryInput wedge wedge_version (fi_jurisdiction v) (fi_country v) (fi_language v)
        category need catalog template policy envelope sender pool ruleset
        (fi_step_1_execution_date v)).

(** The window as its columns give it back: the deadlines as instants. *)
Definition stored_window (w : SequenceWindow) : SequenceWindow :=
  mkWindow (sw_timezone w) (sw_step_1_execution_date w)
    (timestamptz (sw_step_1_authorization_deadline w)) (sw_step_2_execution_date w)
    (timestamptz (sw_step_2_authorization_deadline w)).

(** [persistence/schema.py:2131-2178 acquisition_campaign]: the columns of a new
    row. *)
Definition campaign_columns (r : campaign_row) : result campaign_row :=
  let i := ca_identity r in
  let! ref := uvarchar "campaign_ref" 64 (ci_campaign_ref i) in
  let! group := uvarchar "campaign_group_key" 64 (ci_campaign_group_key i) in
  let! generation := int4 "batch_generation" (ci_batch_generation i) in
  let! version := uvarchar "factory_version" 64 (ci_factory_version i) in
  let! plan := uvarchar "plan_fingerprint" 64 (ci_plan_fingerprint i) in
  let! input := input_columns (ci_input i) in
  let! versions := mapM_result (uvarchar "policy_version" 64) (ci_policy_versions i) in
  let! workspace := uvarchar "provider_workspace_ref" 128 (ci_provider_workspace_ref i) in
  let! name := uvarchar "provider_campaign_name" 100 (ci_provider_campaign_name i) in
  let! desired := uvarchar "desired_provider_config_fingerprint" 64
                    (ci_desired_provider_config_fingerprint i) in
  let! count := int4 "reserved_member_count" (ca_reserved_member_count r) in
  let! _ := check_constraint "ck_campaign_batch_generation" (1 <=? generation) in
  let row :=
    mkCampaign
      (mkCampaignIdentity ref group generation version plan input versions workspace name desired
         (stored_window (ci_window i)) (ci_member_capacity i) (timestamptz (ci_created_at i)))
      (ca_provider_campaign_id r) (ca_current_provider_config_fingerprint r) (ca_lifecycle r)
      count (timestamptz <$> ca_first_member_reserved_at r)
      (timestamptz <$> ca_membership_close_at r) (timestamptz <$> ca_membership_closed_at r)
      (timestamptz (ca_updated_at r)) in
  let! _ := campaign_checks row in
  Ok row.

(** [INSERT INTO acquisition_campaign]: the primary key and the unique
    constraints, the identifier of the provider being NULL. *)
Definition insert_campaign (db : campaign_db) (values : campaign_row)
  : result campaign_db :=
  let! row := campaign_columns values in
  let! _ := check_constraint "acquisition_campaign_pkey"
    (negb (truthy (gdb_campaigns db !! ca_ref row))) in
  let! _ := check_constraint "uq_campaign_group_generation"
    (negb (existsb (fun r => bool_decide (ca_group r = ca_group row)
                             && (ca_generation r =? ca_generation row))
             (rows (gdb_campaigns db)))) in
  Ok (with_campaigns (<[ca_ref row := row]> (gdb_campaigns db)) db).

(** [persistence/schema.py:2212-2295 acquisition_campaign_member]: the columns of a
    new row. *)
Definition member_columns (r : member_row) : result member_row :=
  let i := mb_identity r in
  let v := mi_reservation i in
  let! ref := uvarchar "member_ref" 64 (mi_member_ref i) in
  let! campaign := uvarchar "campaign_ref" 64 (mi_campaign_ref i) in
  let! opportunity := uvarchar "acquisition_opportunity_id" 64 (rv_acquisition_opportunity_id v) in
  let! supplier := uvarchar "supplier_ref" 64 (rv_supplier_ref v) in
  let! contact := uvarchar "contact_ref" 64 (rv_contact_ref v) in
  let! artifact := uvarchar "personalization_artifact_id" 64 (rv_personalization_artifact_id v) in
  let! artifact_fp := uvarchar "personalization_artifact_fingerprint" 64
                        (rv_personalization_artifact_fingerprint v) in
  let! assessment := uvarchar "compliance_assessment_id" 64 (rv_compliance_assessment_id v) in
  let! assessment_fp := uvarchar "compliance_assessment_fingerprint" 64
                          (rv_compliance_assessment_fingerprint v) in
  let! evaluation := uvarchar "policy_evaluation_id" 64 (rv_policy_evaluation_id v) in
  let! input := uvarchar "input_fingerprint" 64 (rv_input_fingerprint v) in
  let! binding := uvarchar "contact_provider_identity_binding" 64
                    (rv_contact_provider_identity_binding v) in
  let! plan := uvarchar "plan_fingerprint" 64 (mi_plan_fingerprint i) in
  let! envelope := uvarchar "envelope_fingerprint" 64 (rv_envelope_fingerprint v) in
  let! action := uvarchar "policy_action_fingerprint" 64 (rv_policy_action_fingerprint v) in
  let! ruleset := uvarchar "ruleset_fingerprint" 64 (rv_ruleset_fingerprint v) in
  let! sender := uvarchar "sender_config_fingerprint" 64 (rv_sender_config_fingerprint v) in
  let! mailbox := uvarchar "mailbox_ref" 256 (rv_mailbox_ref v) in
  let! readiness := uvarchar "mailbox_readiness_fingerprint" 64
                      (rv_mailbox_readiness_fingerprint v) in
  let! sequence := uvarchar "sequence_authorization_fingerprint" 64
                     (rv_sequence_authorization_fingerprint v) in
  let row :=
    mkMember
      (mkMemberIdentity ref campaign
         (mkReservation opportunity supplier contact artifact artifact_fp assessment assessment_fp
            evaluation (rv_policy_provenance v) input binding envelope action ruleset sender
            mailbox readiness sequence)
         plan (mi_step_1_execution_date i) (timestamptz (mi_step_1_authorization_deadline i))
         (mi_step_2_execution_date i) (timestamptz (mi_step_2_authorization_deadline i))
         (timestamptz (mi_created_at i)))
      (mb_provider_lead_id r) (mb_provider_binding_fingerprint r)
      (mb_transport_recipient_identity r) (mb_transport_recipient_key_version r)
      (timestamptz <$> mb_step_1_sent_at r) (timestamptz <$> mb_step_2_due_at r)
      (mb_sequence_timing_fingerprint r) (mb_execution_state r) (mb_sequence_state r)
      (mb_reason_code r) (mb_incident_code r) (mb_queue_event_id r) (mb_action_clear_event_id r)
      (mb_sent_event_id r) (mb_step_1_provider_event_ref r) (mb_step_2_provider_event_ref r)
      (timestamptz (mb_updated_at r)) in
  let! _ := member_checks row in
  Ok row.

(** [INSERT INTO acquisition_campaign_member]: the primary key, the unique
    constraints and the foreign keys; the lead of the provider is NULL. *)
Definition insert_member (refs : campaign_references) (db : campaign_db) (values : member_row)
  : result campaign_db :=
  let! row := member_columns values in
  let! _ := check_constraint "acquisition_campaign_member_pkey"
    (negb (truthy (gdb_members db !! mb_ref row))) in
  let! _ := check_constraint "uq_campaign_member_opportunity"
    (negb (existsb (fun r => bool_decide (mb_opportunity r = mb_opportunity row))
             (rows (gdb_members db)))) in
  let! _ := check_constraint "uq_campaign_member_policy"
    (negb (existsb (fun r => bool_decide (rv_policy_evaluation_id (mb_reservation r)
                                          = rv_policy_evaluation_id (mb_reservation row)))
             (rows (gdb_members db)))) in
  let v := mb_reservation row in
  let! _ := check_constraint "acquisition_campaign_member_fkey"
    (truthy (gdb_campaigns db !! mb_campaign row)
     && gr_opportunity refs (rv_acquisition_opportunity_id v)
     && gr_supplier refs (rv_supplier_ref v) && gr_contact refs (rv_contact_ref v)
     && gr_artifact refs (rv_personalization_artifact_id v)
     && gr_assessment refs (rv_compliance_assessment_id v)
     && gr_evaluation refs (rv_policy_evaluation_id v)) in
  Ok (with_members (<[mb_ref row := row]> (gdb_members db)) db).

(** [persistence/schema.py:2335-2380 acquisition_provider_operation]: the columns of
    a new row. *)
Definition operation_columns (r : operation_row) : result operation_row :=
  let i := oq_identity r in
  let! ref := uvarchar "operation_ref" 64 (oi_operation_ref i) in
  let! key := uvarchar "operation_key" 64 (oi_operation_key i) in
  let! version := uvarchar "operation_version" 64 (oi_operation_version i) in
  let! campaign := uvarchar "campaign_ref" 64 (oi_campaign_ref i) in
  let! member := opt_mapM (uvarchar "member_ref" 64) (oi_member_ref i) in
  let! desired := uvarchar "desired_request_fingerprint" 64 (oi_desired_request_fingerprint i) in
  let! correlation := uvarchar "correlation_id" 64 (oi_correlation_id i) in
  let! attempt := int4 "attempt" (oq_attempt r) in
  let! _ := check_constraint "ck_provider_operation_member_scope"
    (Bool.eqb (of_member (oi_kind i)) (truthy member)) in
  let! _ := check_constraint "ck_provider_operation_attempt" (0 <=? attempt) in
  Ok (mkOperation
        (mkOperationIdentity ref key version (oi_kind i) campaign member desired correlation
           (timestamptz (oi_created_at i)))
        (oq_state r) attempt (oq_provider_identity r) (oq_provider_result_fingerprint r)
        (oq_lease_owner r) (timestamptz <$> oq_lease_expires_at r)
        (timestamptz <$> oq_started_at r) (timestamptz <$> oq_confirmed_at r)
        (timestamptz <$> oq_failed_at r) (timestamptz <$> oq_retry_after r) (oq_error_code r)
        (timestamptz (oq_updated_at r))).

(** [SELECT ... WHERE operation_key = ...], a unique column. *)
Definition select_by_operation_key (db : campaign_db) (key : string) : option operation_row :=
  first_match (fun r => bool_decide (oq_key r = key)) (rows (gdb_operations db)).

(** [INSERT INTO acquisition_provider_operation]: the primary key, the unique
    key and the foreign keys. *)
Definition insert_operation (db : campaign_db) (values : operation_row) : result campaign_db :=
  let! row := operation_columns values in
  let! _ := check_constraint "acquisition_provider_operation_pkey"
    (negb (truthy (gdb_operations db !! oq_ref row))) in
  let! _ := check_constraint "acquisition_provider_operation_operation_key_key"
    (negb (truthy (select_by_operation_key db (oq_key row)))) in
  let! _ := check_constraint "acquisition_provider_operation_fkey"
    (truthy (gdb_campaigns db !! oi_campaign_ref (oq_identity row))
     && match oi_member_ref (oq_identity row) with
        | Some m => truthy (gdb_members db !! m)
        | None => true
        end) in
  Ok (with_operations (<[oq_ref row := row]> (gdb_operations db)) db).

(** An operation planned and not yet tried. *)
Definition planned_operation (kind : ProviderOperationKind) (key campaign_ref : string)
    (member_ref : option string) (desired_request_fingerprint correlation_id : string)
    (now : datetime) : operation_row :=
  mkOperation
    (mkOperationIdentity key key PROVIDER_OPERATION_VERSION kind campaign_ref member_ref
       desired_request_fingerprint correlation_id now)
    PLANNED 0 None None None None None None None None None now.

(** The key of an operation: what it asks of the provider, for whom. *)
Definition operation_key_of (kind : ProviderOperationKind) (campaign_ref : string)
    (member_ref : option string) (desired_request_fingerprint : string) : string :=
  semantic_fingerprint
    (JObj [("kind", JStr "provider-operation-key-v1");
           ("operation_kind", JStr (operation_kind_value kind));
           ("campaign_ref", JStr campaign_ref); ("member_ref", JOptStr member_ref);
           ("desired_request_fingerprint", JStr desired_request_fingerprint)]).

(** * Reads *)

(** [campaigns/store.py:52-71 bounded_connectivity_counts] *)
Definition bounded_connectivity_counts (db : campaign_db) : list (string * Z) :=
  [("campaigns", zlength (rows (gdb_campaigns db))); ("members", zlength (rows (gdb_members db)));
   ("provider_operations", zlength (rows (gdb_operations db)));
   ("provider_events", zlength (rows (gdb_events db)))].

(** An operation that adds to what the provider sends, whose outcome there
    may be unknown. *)
Definition ambiguous_positive (r : operation_row) : bool :=
  in_list (oq_kind r) [CREATE_CAMPAIGN; CONFIGURE_CAMPAIGN; ADD_LEAD; ACTIVATE_CAMPAIGN]
  && in_list (oq_state r) [IN_FLIGHT; RECONCILE_REQUIRED].

(** [campaigns/store.py:73-93 has_ambiguous_positive_provider_operations] *)
Definition has_ambiguous_positive_provider_operations (db : campaign_db) : bool :=
  negb (zlength (List.filter ambiguous_positive (rows (gdb_operations db))) =? 0).

(** [campaigns/store.py:563-570 get_campaign] *)
Definition get_campaign (db : campaign_db) (campaign_ref : string) : result campaign_row :=
  option_to_result NoResultFound (gdb_campaigns db !! campaign_ref).

(** [campaigns/store.py:852-870 _operation_record] *)
Definition _operation_record (r : operation_row) : result ProviderOperationRecord :=
  let i := oq_identity r in
  operation_record_validate
    (mkOperationRecord (oi_operation_ref i) (oi_operation_key i) (oi_kind i) (oq_state r)
       (oi_campaign_ref i) (oi_member_ref i) (oi_desired_request_fingerprint i) (oq_attempt r)
       (oq_lease_owner r) (assume_utc <$> oq_lease_expires_at r)).

(** [SELECT ... WHERE operation_ref = ...], [.one()]. *)
Definition one_operation (db : campaign_db) (operation_ref : string) : result operation_row :=
  option_to_result NoResultFound (gdb_operations db !! operation_ref).

(** [campaigns/store.py:739-746 get_operation] *)
Definition get_operation (db : campaign_db) (operation_ref : string)
  : result ProviderOperationRecord :=
  let! row := one_operation db operation_ref in _operation_record row.

(** * Batches *)

(** A batch of the group that still takes members. *)
Definition is_open (group : string) (at_ : datetime) (r : campaign_row) : bool :=
  bool_decide (ca_group r = group) && bool_decide (ca_lifecycle r = BUILDING)
  && negb (truthy (ca_membership_closed_at r))
  && (ca_reserved_member_count r <? ci_member_capacity (ca_identity r))
  && match ca_membership_close_at r with None => true | Some close => dt_ltb at_ close end.

Definition generation_leb (a b : campaign_row) : bool := ca_generation a <=? ca_generation b.

(** The open batch of the lowest generation. *)
Definition open_batch (db : campaign_db) (group : string) (at_ : datetime)
  : option campaign_row :=
  head (sorted_by generation_leb (List.filter (is_open group at_) (rows (gdb_campaigns db)))).

(** [SELECT max(batch_generation) WHERE campaign_group_key = ...] *)
Definition max_generation (db : campaign_db) (group : string) : option Z :=
  match map ca_generation
          (List.filter (fun r => bool_decide (ca_group r = group)) (rows (gdb_campaigns db))) with
  | [] => None
  | g :: l => Some (fold_right Z.max g l)
  end.

Definition next_generation (db : campaign_db) (group : string) : Z :=
  match max_generation db group with None => 1 | Some g => g + 1 end.

(** [campaigns/store.py:95-124 propose_plan] *)
Definition propose_plan (db : campaign_db) (factory_input : CampaignFactoryInput) (at_ : datetime)
  : result CampaignPlan :=
  require! aware at_ else ValueError "plan time must be timezone-aware" in
  let! probe := build factory_input 1 in
  let group := pl_campaign_group_key probe in
  build factory_input
    match open_batch db group at_ with
    | Some r => ca_generation r
    | None => next_generation db group
    end.

(** [campaigns/store.py:541-561 close_due_batches] *)
Definition close_due_batches (db : campaign_db) (now : datetime)
  : result (list string * campaign_db) :=
  let due (r : campaign_row) :=
    bool_decide (ca_lifecycle r = BUILDING) && negb (truthy (ca_membership_closed_at r))
    && match ca_membership_close_at r with Some close => dt_leb close now | None => false end in
  let close (r : campaign_row) :=
    if due r then
      mkCampaign (ca_identity r) (ca_provider_campaign_id r)
        (ca_current_provider_config_fingerprint r) (ca_lifecycle r) (ca_reserved_member_count r)
        (ca_first_member_reserved_at r) (ca_membership_close_at r) (ca_membership_close_at r)
        (timestamptz now)
    else r in
  Ok (map ca_ref (List.filter due (rows (gdb_campaigns db))),
      with_campaigns (close <$> gdb_campaigns db) db).

(** * Pacing *)

(** The members created within a day, each with its campaign. *)
Definition members_between (db : campaign_db) (from until : datetime)
  : list (member_row * campaign_row) :=
  omap (fun m =>
      if dt_leb from (mb_created_at m) && dt_ltb (mb_created_at m) until
      then c ← gdb_campaigns db !! mb_campaign m; Some (m, c)
      else None)
    (rows (gdb_members db)).

Definition count_of {A} (f : A -> bool) (l : list A) : Z := zlength (List.filter f l).

(** The loop over the caps: label, limit and count. *)
Fixpoint require_caps (checks : list (string * Z * Z)) : result unit :=
  match checks with
  | [] => Ok tt
  | (label, limit, count) :: checks' =>
      require! negb ((limit <=? 0) || (limit <=? count))
      else CampaignPacingExceeded (label +:+ " daily campaign cap reached") in
      require_caps checks'
  end.

(** [campaigns/store.py:416-483 _require_pacing_capacity] *)
Definition _require_pacing_capacity (db : campaign_db) (factory_input : CampaignFactoryInput)
    (member : CampaignMemberReservation) (reserved_at : datetime)
    (effective_mailbox_daily_cap : Z) : result unit :=
  let timezone := if bool_decide (fi_jurisdiction factory_input = InCH) then ZURICH else PARIS in
  let! local := astimezone reserved_at timezone in
  let! day_start := astimezone_utc (combine (dt_date local) 0 timezone) in
  let! start_local := astimezone day_start timezone in
  let! end_local := zoned_add start_local US_DAY timezone in
  let! day_end := astimezone_utc end_local in
  let base := members_between db day_start day_end in
  let! _ := require_caps
    [("global", 5, zlength base);
     ("country", 5, count_of (fun p => bool_decide (fi_country (ci_input (ca_identity p.2))
                                                    = fi_country factory_input)) base);
     ("wedge", 3, count_of (fun p => bool_decide (fi_wedge (ci_input (ca_identity p.2))
                                                  = fi_wedge factory_input)) base);
     ("mailbox", Z.min 3 effective_mailbox_daily_cap,
        count_of (fun p => bool_decide (rv_mailbox_ref (mb_reservation p.1)
                                        = rv_mailbox_ref member)) base)] in
  let! since := dt_add reserved_at (- 30 * US_DAY) in
  require! count_of (fun m => bool_decide (mb_supplier m = rv_supplier_ref member)
                              && dt_leb since (mb_created_at m)) (rows (gdb_members db)) <? 1
  else CampaignPacingExceeded "company rolling 30-day contact cap reached" in
  Ok tt.

(** * Reservations *)

(** [INSERT INTO acquisition_provider_operation] unless the key is known. *)
Definition plan_if_absent (db : campaign_db) (kind : ProviderOperationKind) (campaign_ref : string)
    (member_ref : option string) (fingerprint correlation_id : string) (now : datetime)
  : result campaign_db :=
  let key := operation_key_of kind campaign_ref member_ref fingerprint in
  if truthy (select_by_operation_key db key) then Ok db
  else insert_operation db
         (planned_operation kind key campaign_ref member_ref fingerprint correlation_id now).

(** [campaigns/store.py:485-539 _plan_initial_operations] *)
Definition _plan_initial_operations (db : campaign_db) (campaign_ref member_ref : string)
    (provider_config_fingerprint member_input_fingerprint correlation_id : string)
    (now : datetime) : result campaign_db :=
  let! db := plan_if_absent db CREATE_CAMPAIGN campaign_ref None provider_config_fingerprint
               correlation_id now in
  let! db := plan_if_absent db CONFIGURE_CAMPAIGN campaign_ref None provider_config_fingerprint
               correlation_id now in
  plan_if_absent db ADD_LEAD campaign_ref (Some member_ref) member_input_fingerprint
    correlation_id now.

(** [campaigns/store.py:154-166 reserve_member]: the keyword arguments. *)
Record reserve_request : Type := mkReserveRequest {
  rr_provider_workspace_ref : string;
  rr_desired_provider_config_fingerprint : string;
  rr_reserved_at : datetime;
  rr_expected_campaign_ref : option string;
  rr_operation_correlation_id : option string;
  rr_effective_mailbox_daily_cap : option Z;
}.

(** The reference of the member of an opportunity. *)
Definition member_ref_of (acquisition_opportunity_id : string) : string :=
  semantic_fingerprint
    (JObj [("kind", JStr "campaign-member-v1");
           ("acquisition_opportunity_id", JStr acquisition_opportunity_id)]).

(** The versions of the policies a campaign is created under. *)
Definition policy_versions : list string :=
  [CAMPAIGN_SEQUENCE_POLICY_VERSION; TRACKING_POLICY_VERSION; SEND_WINDOW_POLICY_VERSION;
   SEQUENCE_WINDOW_POLICY_VERSION; BATCH_SEAL_POLICY_VERSION; PACING_POLICY_VERSION].

(** A window with its deadlines in UTC. *)
Definition window_in_utc (w : SequenceWindow) : result SequenceWindow :=
  let! first := astimezone_utc (sw_step_1_authorization_deadline w) in
  let! second := astimezone_utc (sw_step_2_authorization_deadline w) in
  Ok (mkWindow (sw_timezone w) (sw_step_1_execution_date w) first (sw_step_2_execution_date w)
        second).

(** [campaigns/store.py:250-306 reserve_member]: the row of a new batch. *)
Definition new_campaign (factory_input : CampaignFactoryInput) (plan : CampaignPlan)
    (window : SequenceWindow) (rq : reserve_request) : campaign_row :=
  mkCampaign
    (mkCampaignIdentity (pl_campaign_ref plan) (pl_campaign_group_key plan)
       (pl_batch_generation plan) CAMPAIGN_FACTORY_VERSION (pl_plan_fingerprint plan)
       factory_input policy_versions (rr_provider_workspace_ref rq)
       (pl_provider_campaign_name plan) (rr_desired_provider_config_fingerprint rq) window 10
       (rr_reserved_at rq))
    None None BUILDING 0 None None None (rr_reserved_at rq).

(** [campaigns/store.py:329-372 reserve_member]: the row of a new member, with
    what the batch gives it. *)
Definition new_member (member_ref : string) (member : CampaignMemberReservation)
    (campaign_ref plan_fingerprint : string) (window : SequenceWindow) (reserved_at : datetime)
  : member_row :=
  mkMember
    (mkMemberIdentity member_ref campaign_ref member plan_fingerprint
       (sw_step_1_execution_date window) (sw_step_1_authorization_deadline window)
       (sw_step_2_execution_date window) (sw_step_2_authorization_deadline window) reserved_at)
    None None None None None None None MemberRESERVED PENDING_STEP1 None None None None None None
    None reserved_at.

(** [campaigns/store.py:223-321 reserve_member]: the batch that takes the
    member, found open or created, with its reference, generation, plan and
    window. *)
Definition find_batch (db : campaign_db) (factory_input : CampaignFactoryInput)
    (rq : reserve_request) : result (string * Z * string * SequenceWindow * campaign_db) :=
  let! probe := build factory_input 1 in
  let group := pl_campaign_group_key probe in
  match open_batch db group (rr_reserved_at rq) with
  | Some r =>
      Ok (ca_ref r, ca_generation r, ci_plan_fingerprint (ca_identity r), ca_window r, db)
  | None =>
      let! plan := build factory_input (next_generation db group) in
      let! window := window_in_utc (pl_sequence_window plan) in
      let! db1 := insert_campaign db (new_campaign factory_input plan window rq) in
      Ok (pl_campaign_ref plan, pl_batch_generation plan, pl_plan_fingerprint plan, window, db1)
  end.

(** [campaigns/store.py:383-409 reserve_member]: the batch with one member more;
    the first starts its clock and the tenth closes it. *)
Definition count_member (db : campaign_db) (campaign_ref : string) (reserved_at : datetime)
  : result campaign_db :=
  match gdb_campaigns db !! campaign_ref with
  | None => Ok db
  | Some r =>
      let! next_count := int4 "reserved_member_count" (ca_reserved_member_count r + 1) in
      let first := next_count =? 1 in
      let! close_at :=
        if first then
          let! close := dt_add reserved_at (15 * 60 * US_SECOND) in Ok (Some (timestamptz close))
        else Ok (ca_membership_close_at r) in
      let row :=
        mkCampaign (ca_identity r) (ca_provider_campaign_id r)
          (ca_current_provider_config_fingerprint r) (ca_lifecycle r) next_count
          (if first then Some (timestamptz reserved_at) else ca_first_member_reserved_at r)
          close_at
          (if next_count =? 10 then Some (timestamptz reserved_at) else ca_membership_closed_at r)
          (timestamptz reserved_at) in
      let! _ := campaign_checks row in
      Ok (with_campaigns (<[campaign_ref := row]> (gdb_campaigns db)) db)
  end.

(** Whether a member was reserved with the same semantics. *)
Definition same_member (existing : member_row) (member_ref : string)
    (member : CampaignMemberReservation) : bool :=
  let v := mb_reservation existing in
  bool_decide (mb_ref existing = member_ref)
  && bool_decide (rv_input_fingerprint v = rv_input_fingerprint member)
  && bool_decide (rv_envelope_fingerprint v = rv_envelope_fingerprint member)
  && bool_decide (rv_policy_action_fingerprint v = rv_policy_action_fingerprint member).

(** [SELECT ... WHERE acquisition_opportunity_id = ...], a unique column. *)
Definition member_of (db : campaign_db) (opportunity_id : string) : option member_row :=
  first_match (fun r => bool_decide (mb_opportunity r = opportunity_id)) (rows (gdb_members db)).

(** The operations of a member, when the caller wants them planned. *)
Definition plan_for_member (db : campaign_db) (rq : reserve_request) (campaign_ref member_ref : string)
    (member : CampaignMemberReservation) : result campaign_db :=
  match rr_operation_correlation_id rq with
  | Some correlation =>
      _plan_initial_operations db campaign_ref member_ref
        (rr_desired_provider_config_fingerprint rq) (rv_input_fingerprint member) correlation
        (rr_reserved_at rq)
  | None => Ok db
  end.

(** [campaigns/store.py:154-414 reserve_member] *)
Definition reserve_member (refs : campaign_references) (db : campaign_db)
    (factory_input : CampaignFactoryInput) (member : CampaignMemberReservation)
    (rq : reserve_request) : result (CampaignReservationResult * campaign_db) :=
  require! aware (rr_reserved_at rq) else ValueError "reserved_at must be timezone-aware" in
  let member_ref := member_ref_of (rv_acquisition_opportunity_id member) in
  match member_of db (rv_acquisition_opportunity_id member) with
  | Some existing =>
      require! same_member existing member_ref member
      else CampaignIdempotencyConflict "opportunity already has different campaign semantics" in
      let! campaign := get_campaign db (mb_campaign existing) in
      let! db1 := plan_for_member db rq (mb_campaign existing) member_ref member in
      let! r := reserved_validate
                  (mkReserved (mb_campaign existing) member_ref (ca_generation campaign) true) in
      Ok (r, db1)
  | None =>
      let! _ := match rr_effective_mailbox_daily_cap rq with
                | Some cap => _require_pacing_capacity db factory_input member (rr_reserved_at rq) cap
                | None => Ok tt
                end in
      let! (campaign_ref, generation, plan_fingerprint, window, db1) :=
        find_batch db factory_input rq in
      require! match rr_expected_campaign_ref rq with
               | Some expected => bool_decide (campaign_ref = expected)
               | None => true
               end
      else CampaignInputChanged "campaign batch generation changed before reservation" in
      let! db2 := insert_member refs db1
        (new_member member_ref member campaign_ref plan_fingerprint window (rr_reserved_at rq)) in
      let! db3 := plan_for_member db2 rq campaign_ref member_ref member in
      let! db4 := count_member db3 campaign_ref (rr_reserved_at rq) in
      let! r := reserved_validate (mkReserved campaign_ref member_ref generation false) in
      Ok (r, db4)
  end.

(** * The ledger of operations *)

(** [campaigns/store.py:593-653 plan_operation_in_transaction] *)
Definition plan_operation_in_transaction (db : campaign_db) (kind : ProviderOperationKind)
    (campaign_ref : string) (member_ref : option string)
    (desired_request_fingerprint correlation_id : string) (now : datetime)
  : result (ProviderOperationRecord * campaign_db) :=
  let key := operation_key_of kind campaign_ref member_ref desired_request_fingerprint in
  match select_by_operation_key db key with
  | Some existing => let! r := _operation_record existing in Ok (r, db)
  | None =>
      let! _ :=
        if bool_decide (kind = ADD_LEAD) then
          let! campaign := get_campaign db campaign_ref in
          require! bool_decide (ca_lifecycle campaign = BUILDING)
                   && negb (truthy (ca_membership_closed_at campaign))
          else CampaignInputChanged "campaign membership is closed" in
          Ok tt
        else Ok tt in
      let! db1 := insert_operation db
        (planned_operation kind key campaign_ref member_ref desired_request_fingerprint
           correlation_id now) in
      let! row := one_operation db1 key in
      let! r := _operation_record row in
      Ok (r, db1)
  end.

(** [campaigns/store.py:572-591 plan_operation] *)
Definition plan_operation (db : campaign_db) (kind : ProviderOperationKind) (campaign_ref : string)
    (member_ref : option string) (desired_request_fingerprint correlation_id : string)
    (now : datetime) : result (ProviderOperationRecord * campaign_db) :=
  plan_operation_in_transaction db kind campaign_ref member_ref desired_request_fingerprint
    correlation_id now.

(** The row an operation is updated to. *)
Definition put_operation (db : campaign_db) (row : operation_row) : campaign_db :=
  with_operations (<[oq_ref row := row]> (gdb_operations db)) db.

(** [campaigns/store.py:669-680 claim_operation]: the outcome of an expired lease
    is unknown. *)
Definition expire_lease (r : operation_row) (now : datetime) : operation_row :=
  mkOperation (oq_identity r) RECONCILE_REQUIRED (oq_attempt r) (oq_provider_identity r)
    (oq_provider_result_fingerprint r) (oq_lease_owner r) (oq_lease_expires_at r)
    (oq_started_at r) (oq_confirmed_at r) (oq_failed_at r) (oq_retry_after r)
    (Some "LEASE_EXPIRED_REMOTE_OUTCOME_UNKNOWN") (timestamptz now).

(** [campaigns/store.py:691-705 claim_operation]: no attempt is left. *)
Definition exhaust_retries (r : operation_row) (now : datetime) : operation_row :=
  mkOperation (oq_identity r) TERMINAL_FAILED (oq_attempt r) (oq_provider_identity r)
    (oq_provider_result_fingerprint r) None None (oq_started_at r) (oq_confirmed_at r)
    (oq_failed_at r) None (Some "RETRY_BUDGET_EXHAUSTED") (timestamptz now).

(** [campaigns/store.py:719-731 claim_operation]: one attempt more, under a
    lease. *)
Definition take_lease (r : operation_row) (worker_ref : string) (now expires_at : datetime)
  : operation_row :=
  mkOperation (oq_identity r) IN_FLIGHT (oq_attempt r + 1) (oq_provider_identity r)
    (oq_provider_result_fingerprint r) (Some worker_ref) (Some (timestamptz expires_at))
    (Some (timestamptz now)) (oq_confirmed_at r) (oq_failed_at r) None (oq_error_code r)
    (timestamptz now).

(** The answer of an update: the row read back. *)
Definition updated_operation (db : campaign_db) (row : operation_row)
  : result (ProviderOperationRecord * campaign_db) :=
  let! r := _operation_record row in Ok (r, put_operation db row).

(** [campaigns/store.py:713-731 claim_operation]: the lease of an operation
    planned or to be retried. *)
Definition start_attempt (db : campaign_db) (row : operation_row) (worker_ref : string)
    (now : datetime) (lease_seconds : Z) : result (ProviderOperationRecord * campaign_db) :=
  let! waiting := match oq_retry_after row with
                  | Some retry_after => py_ltb now (assume_utc retry_after)
                  | None => Ok false
                  end in
  if (waiting : bool) then let! r := _operation_record row in Ok (r, db)
  else
    let! _ := int4 "attempt" (oq_attempt row + 1) in
    let! owner := uvarchar "lease_owner" 64 worker_ref in
    let! expires_at := dt_add now (lease_seconds * US_SECOND) in
    updated_operation db (take_lease row owner now expires_at).

(** [campaigns/store.py:655-737 claim_operation] *)
Definition claim_operation (db : campaign_db) (operation_ref worker_ref : string) (now : datetime)
    (lease_seconds : Z) : result (ProviderOperationRecord * campaign_db) :=
  let! row := one_operation db operation_ref in
  match oq_state row with
  | IN_FLIGHT =>
      let! expired := match oq_lease_expires_at row with
                      | Some lease => py_leb (replace_utc lease) now
                      | None => Ok false
                      end in
      if (expired : bool) then updated_operation db (expire_lease row now)
      else let! r := _operation_record row in Ok (r, db)
  | RETRYABLE_FAILED =>
      if PROVIDER_OPERATION_MAX_ATTEMPTS <=? oq_attempt row
      then updated_operation db (exhaust_retries row now)
      else start_attempt db row worker_ref now lease_seconds
  | PLANNED => start_attempt db row worker_ref now lease_seconds
  | _ => let! r := _operation_record row in Ok (r, db)
  end.

(** [campaigns/store.py:748-758 set_operation_state]: the keyword arguments. *)
Record operation_outcome : Type := mkOperationOutcome {
  oo_state : ProviderOperationState;
  oo_now : datetime;
  oo_provider_identity : option string;
  oo_provider_result_fingerprint : option string;
  oo_error_code : option string;
  oo_retry_after : option datetime;
}.

(** [campaigns/store.py:760-775 set_operation_state]: the values written. *)
Definition with_operation_outcome (o : operation_outcome) (r : operation_row) : operation_row :=
  let now := timestamptz (oo_now o) in
  mkOperation (oq_identity r) (oo_state o) (oq_attempt r)
    (default_opt (oo_provider_identity o) (oq_provider_identity r))
    (default_opt (oo_provider_result_fingerprint o) (oq_provider_result_fingerprint r))
    (oq_lease_owner r) (oq_lease_expires_at r) (oq_started_at r)
    (if bool_decide (oo_state o = CONFIRMED) then Some now else oq_confirmed_at r)
    (if in_list (oo_state o) [RETRYABLE_FAILED; TERMINAL_FAILED] then Some now else oq_failed_at r)
    (timestamptz <$> oo_retry_after o) (oo_error_code o) now.

(** [campaigns/store.py:748-787 set_operation_state] *)
Definition set_operation_state (db : campaign_db) (operation_ref : string) (o : operation_outcome)
  : result (ProviderOperationRecord * campaign_db) :=
  let! row := one_operation db operation_ref in
  let! _ := opt_mapM (uvarchar "error_code" 64) (oo_error_code o) in
  let! _ := opt_mapM (uvarchar "provider_identity" 128) (oo_provider_identity o) in
  let! _ := opt_mapM (uvarchar "provider_result_fingerprint" 64)
              (oo_provider_result_fingerprint o) in
  updated_operation db (with_operation_outcome o row).

(** * Identities of the provider *)

(** [campaigns/store.py:789-817 bind_provider_campaign] *)
Definition bind_provider_campaign (db : campaign_db) (campaign_ref provider_campaign_id : string)
    (current_config_fingerprint : option string) (now : datetime) : result campaign_db :=
  let! r := get_campaign db campaign_ref in
  require! match ca_provider_campaign_id r with
           | Some id => bool_decide (id = provider_campaign_id)
           | None => true
           end
  else CampaignInputChanged "provider campaign identity conflict" in
  let! id := uvarchar "provider_campaign_id" 128 provider_campaign_id in
  let! current := opt_mapM (uvarchar "current_provider_config_fingerprint" 64)
                    current_config_fingerprint in
  let! _ := check_constraint "uq_campaign_provider_id"
    (negb (existsb (fun c => bool_decide (ca_ref c <> campaign_ref)
                             && bool_decide (ca_provider_campaign_id c = Some id))
             (rows (gdb_campaigns db)))) in
  Ok (with_campaigns
        (<[campaign_ref :=
             mkCampaign (ca_identity r) (Some id)
               (default_opt current (ca_current_provider_config_fingerprint r)) (ca_lifecycle r)
               (ca_reserved_member_count r) (ca_first_member_reserved_at r)
               (ca_membership_close_at r) (ca_membership_closed_at r) (timestamptz now)]>
           (gdb_campaigns db)) db).

(** A member with its execution, its sequence and their reasons. *)
Definition enrolled (lead binding : string) (now : datetime) (r : member_row) : member_row :=
  mkMember (mb_identity r) (Some lead) (Some binding) (mb_transport_recipient_identity r)
    (mb_transport_recipient_key_version r) (mb_step_1_sent_at r) (mb_step_2_due_at r)
    (mb_sequence_timing_fingerprint r) ENROLLED (mb_sequence_state r) (mb_reason_code r)
    (mb_incident_code r) (mb_queue_event_id r) (mb_action_clear_event_id r) (mb_sent_event_id r)
    (mb_step_1_provider_event_ref r) (mb_step_2_provider_event_ref r) (timestamptz now).

(** [campaigns/store.py:819-850 bind_provider_lead] *)
Definition bind_provider_lead (db : campaign_db)
    (member_ref provider_lead_id binding_fingerprint : string) (now : datetime)
  : result campaign_db :=
  let! r := option_to_result NoResultFound (gdb_members db !! member_ref) in
  require! in_list (mb_execution_state r) [MemberRESERVED; ENROLLED]
  else CampaignInputChanged "member is no longer enrollable" in
  require! match mb_provider_lead_id r with
           | Some id => bool_decide (id = provider_lead_id)
           | None => true
           end
  else CampaignInputChanged "provider lead identity conflict" in
  let! lead := uvarchar "provider_lead_id" 128 provider_lead_id in
  let! binding := uvarchar "provider_binding_fingerprint" 64 binding_fingerprint in
  let! _ := check_constraint "uq_campaign_member_provider_lead"
    (negb (existsb (fun m => bool_decide (mb_ref m <> member_ref)
                             && bool_decide (mb_provider_lead_id m = Some lead))
             (rows (gdb_members db)))) in
  Ok (with_members (<[member_ref := enrolled lead binding now r]> (gdb_members db)) db).
End store.
