(* ===== verification/CampaignFacts.v ===== *)
(** CampaignFacts: what an operation of the campaign store does to the
    batches, the members and the ledger, and the invariants every operation
    keeps: a batch counts its members and stays within its bounds, the
    generations of a group are numbered without a gap, and reservations given
    the capacity of their mailbox keep the caps of a day and of a company. *)

From S2P Require Import Prelude PyStr PyText PyTextFacts PyDatetime PyDatetimeFacts PyJson.
From S2P Require Import PyZoneInfo Database AcquisitionEquiv AcquisitionStoreFacts.
From S2P Require Import ContactContracts ContactStore CampaignContracts CampaignFactory.
From S2P Require Import CampaignStore.
From Stdlib Require Import Ascii String.

Local Open Scope string_scope.
Local Open Scope Z_scope.
Local Open Scope list_scope.

(** * Counting rows *)

Section counting.
Context {A : Type}.
Implicit Types (f g : A -> bool) (l : list A) (m : gmap string A).

Definition b2z (b : bool) : Z := if b then 1 else 0.

Lemma count_of_cons f x l : count_of f (x :: l) = b2z (f x) + count_of f l.
Proof. unfold count_of, zlength. simpl. destruct (f x); simpl; lia. Qed.

Lemma count_of_nonneg f l : 0 <= count_of f l.
Proof. unfold count_of, zlength. lia. Qed.

Lemma count_of_Permutation f l l' : l ≡ₚ l' -> count_of f l = count_of f l'.
Proof. induction 1; rewrite ?count_of_cons; lia. Qed.

Lemma count_of_ext f g l : (forall x, x ∈ l -> f x = g x) -> count_of f l = count_of g l.
Proof.
  induction l as [|x l IH]; intros H; [done|]. rewrite !count_of_cons, H, IH; [done|..]; set_solver.
Qed.

Lemma count_of_le f g l : (forall x, x ∈ l -> f x = true -> g x = true) -> count_of f l <= count_of g l.
Proof.
  induction l as [|x l IH]; intros H; [done|]. rewrite !count_of_cons.
  specialize (IH ltac:(set_solver)). specialize (H x ltac:(set_solver)).
  destruct (f x), (g x); simpl; lia.
Qed.

Lemma count_of_zero f l : count_of f l <= 0 -> forall x, x ∈ l -> f x = false.
Proof.
  induction l as [|y l IH]; intros H x Hx; [set_solver|]. rewrite count_of_cons in H.
  pose proof (count_of_nonneg f l). apply elem_of_cons in Hx as [->|Hx].
  - destruct (f y); [simpl in H; lia | done].
  - apply IH; [|done]. destruct (f y); simpl in H; lia.
Qed.

Lemma rows_insert m k x : m !! k = None -> rows (<[k:=x]> m) ≡ₚ x :: rows m.
Proof. intros H. unfold rows. by rewrite map_to_list_insert. Qed.

Lemma count_rows_insert f m k x :
  m !! k = None -> count_of f (rows (<[k:=x]> m)) = b2z (f x) + count_of f (rows m).
Proof. intros H. rewrite <- count_of_cons. by apply count_of_Permutation, rows_insert. Qed.

(** A row that is written over counts as before. *)
Lemma count_rows_update f m k x y :
  m !! k = Some x -> f y = f x -> count_of f (rows (<[k:=y]> m)) = count_of f (rows m).
Proof.
  intros H E. rewrite <- (insert_delete_id m k x H) at 2. rewrite <- insert_delete_eq.
  rewrite !count_rows_insert by apply lookup_delete_eq. by rewrite E.
Qed.

(** Tables with the same keys, whose rows count alike. *)
Lemma count_rows_related f m m' :
  (forall k, option_Forall2 (fun x y => f y = f x) (m !! k) (m' !! k)) ->
  count_of f (rows m') = count_of f (rows m).
Proof.
  revert m'. induction m as [|i x m Hi IH] using map_ind; intros m' H.
  - assert (m' = ∅) as ->; [|done]. apply map_empty. intros k. specialize (H k).
    rewrite lookup_empty in H. by inversion H.
  - pose proof (H i) as Hx. rewrite lookup_insert_eq in Hx. inversion Hx as [? y Hxy E1 E2|]; subst.
    symmetry in E2. rewrite <- (insert_delete_id m' i y E2).
    rewrite !count_rows_insert; [|done | apply lookup_delete_eq].
    rewrite Hxy. f_equal. apply IH. intros k. destruct (decide (i = k)) as [<-|Hne].
    + rewrite lookup_delete_eq, Hi. constructor.
    + rewrite lookup_delete_ne by done. specialize (H k). by rewrite lookup_insert_ne in H.
Qed.

Lemma rows_fmap (h : A -> A) m : rows (h <$> m) = h <$> rows m.
Proof. unfold rows. rewrite map_to_list_fmap, <- !list_fmap_compose. apply list_fmap_ext. by intros ? []. Qed.
End counting.

Lemma count_of_map {A B} (h : A -> B) f l : count_of f (map h l) = count_of (fun x => f (h x)) l.
Proof. induction l as [|x l IH]; [done|]. simpl. rewrite !count_of_cons. by rewrite IH. Qed.

(** Counting what a partial function keeps. *)
Lemma count_of_omap {A B} (h : A -> option B) f l :
  count_of f (omap h l) = count_of (fun x => match h x with Some y => f y | None => false end) l.
Proof.
  induction l as [|x l IH]; [done|]. rewrite count_of_cons, <- IH. simpl.
  destruct (h x); [apply count_of_cons|]. symmetry. apply Z.add_0_l.
Qed.

Lemma zlength_count {A} (l : list A) : zlength l = count_of (fun _ => true) l.
Proof. induction l as [|x l IH]; [done|]. rewrite count_of_cons, <- IH. unfold zlength. simpl. lia. Qed.

(** * Rows as they are stored *)

Lemma int4_id column n m : int4 column n = Ok m -> m = n.
Proof. unfold int4. destruct (_ && _); congruence. Qed.

Lemma mapM_uvarchar_id column n l l' : mapM_result (uvarchar column n) l = Ok l' -> l' = l.
Proof.
  intros H. apply mapM_result_Ok in H. induction H as [|x y l l' Hx _ ->]; [done|].
  by apply uvarchar_Ok in Hx as ->.
Qed.

Lemma GFingerprint_Ok field s t : GFingerprint field s = Ok t -> t = ustrip s /\ is_fingerprint t = true.
Proof. unfold GFingerprint. destruct (is_fingerprint _) eqn:E; intros [= <-]. done. Qed.

Lemma GFingerprint_id field s : is_fingerprint s = true -> GFingerprint field s = Ok s.
Proof. intros H. unfold GFingerprint. by rewrite ustrip_fingerprint, H. Qed.

(** Replaces a column by the value it was given. *)
Ltac stored_columns :=
  repeat match goal with
  | H : uvarchar _ _ _ = Ok _ |- _ => apply uvarchar_Ok in H; subst
  | H : opt_mapM (uvarchar _ _) _ = Ok _ |- _ => apply opt_uvarchar_Ok in H; subst
  | H : mapM_result (uvarchar _ _) _ = Ok _ |- _ => apply mapM_uvarchar_id in H; subst
  | H : int4 _ _ = Ok _ |- _ => apply int4_id in H; subst
  | H : check_constraint _ _ = Ok _ |- _ => apply check_constraint_Ok in H
  end.

Section facts.
Context `{Hash : HashLib} `{DB : Database} `{Case : CaseData} `{Zone : ZoneInfo}.

Lemma semantic_fingerprint_ok j :
  finite_json j = true -> is_fingerprint (semantic_fingerprint j) = true.
Proof. apply finite_sha256_fingerprint. Qed.

Lemma input_columns_Ok v v' : input_columns v = Ok v' -> v' = v.
Proof. unfold input_columns. intros H. inv_result. stored_columns. by destruct v. Qed.

Definition stored_identity (i : campaign_identity) : campaign_identity :=
  mkCampaignIdentity (ci_campaign_ref i) (ci_campaign_group_key i) (ci_batch_generation i)
    (ci_factory_version i) (ci_plan_fingerprint i) (ci_input i) (ci_policy_versions i)
    (ci_provider_workspace_ref i) (ci_provider_campaign_name i)
    (ci_desired_provider_config_fingerprint i) (stored_window (ci_window i))
    (ci_member_capacity i) (timestamptz (ci_created_at i)).

Definition stored_campaign (r : campaign_row) : campaign_row :=
  mkCampaign (stored_identity (ca_identity r)) (ca_provider_campaign_id r)
    (ca_current_provider_config_fingerprint r) (ca_lifecycle r) (ca_reserved_member_count r)
    (timestamptz <$> ca_first_member_reserved_at r) (timestamptz <$> ca_membership_close_at r)
    (timestamptz <$> ca_membership_closed_at r) (timestamptz (ca_updated_at r)).

Lemma campaign_columns_Ok r row :
  campaign_columns r = Ok row ->
  row = stored_campaign r /\ campaign_checks row = Ok tt /\ 1 <= ca_generation row.
Proof.
  unfold campaign_columns. intros H. inv_result. stored_columns.
  apply input_columns_Ok in Hv4 as ->. split; [done|].
  split; [match goal with H : campaign_checks _ = Ok ?u |- _ => destruct u; exact H end|].
  unfold ca_generation. simpl. lia.
Qed.

Definition stored_member (r : member_row) : member_row :=
  let i := mb_identity r in
  mkMember
    (mkMemberIdentity (mi_member_ref i) (mi_campaign_ref i) (mi_reservation i)
       (mi_plan_fingerprint i) (mi_step_1_execution_date i)
       (timestamptz (mi_step_1_authorization_deadline i)) (mi_step_2_execution_date i)
       (timestamptz (mi_step_2_authorization_deadline i)) (timestamptz (mi_created_at i)))
    (mb_provider_lead_id r) (mb_provider_binding_fingerprint r)
    (mb_transport_recipient_identity r) (mb_transport_recipient_key_version r)
    (timestamptz <$> mb_step_1_sent_at r) (timestamptz <$> mb_step_2_due_at r)
    (mb_sequence_timing_fingerprint r) (mb_execution_state r) (mb_sequence_state r)
    (mb_reason_code r) (mb_incident_code r) (mb_queue_event_id r) (mb_action_clear_event_id r)
    (mb_sent_event_id r) (mb_step_1_provider_event_ref r) (mb_step_2_provider_event_ref r)
    (timestamptz (mb_updated_at r)).

Lemma member_columns_Ok r row : member_columns r = Ok row -> row = stored_member r.
Proof.
  unfold member_columns. intros H. inv_result. stored_columns. unfold stored_member.
  by destruct (mi_reservation (mb_identity r)).
Qed.

Definition stored_operation (r : operation_row) : operation_row :=
  let i := oq_identity r in
  mkOperation
    (mkOperationIdentity (oi_operation_ref i) (oi_operation_key i) (oi_operation_version i)
       (oi_kind i) (oi_campaign_ref i) (oi_member_ref i) (oi_desired_request_fingerprint i)
       (oi_correlation_id i) (timestamptz (oi_created_at i)))
    (oq_state r) (oq_attempt r) (oq_provider_identity r) (oq_provider_result_fingerprint r)
    (oq_lease_owner r) (timestamptz <$> oq_lease_expires_at r) (timestamptz <$> oq_started_at r)
    (timestamptz <$> oq_confirmed_at r) (timestamptz <$> oq_failed_at r)
    (timestamptz <$> oq_retry_after r) (oq_error_code r) (timestamptz (oq_updated_at r)).

Lemma operation_columns_Ok r row :
  operation_columns r = Ok row ->
  row = stored_operation r /\ of_member (oq_kind r) = truthy (oi_member_ref (oq_identity r))
  /\ ulen (oi_correlation_id (oq_identity r)) <= 64.
Proof.
  unfold operation_columns. intros H. apply result_bind_Ok in H as (ref & H1 & H).
  inv_result. assert (ulen (oi_correlation_id (oq_identity r)) <= 64).
  { match goal with H : uvarchar "correlation_id" 64 _ = Ok _ |- _ => unfold uvarchar in H end.
    destruct (ulen (oi_correlation_id (oq_identity r)) <=? 64) eqn:E; [lia | done]. }
  stored_columns. split; [done|]. split; [|done]. by apply Bool.eqb_prop in Hv6.
Qed.

(** * Plans *)

Lemma plan_validate_Ok p p' :
  plan_validate p = Ok p' ->
  is_fingerprint (pl_campaign_group_key p) = true -> is_fingerprint (pl_campaign_ref p) = true ->
  pl_campaign_group_key p' = pl_campaign_group_key p /\ pl_campaign_ref p' = pl_campaign_ref p
  /\ pl_batch_generation p' = pl_batch_generation p /\ 1 <= pl_batch_generation p
  /\ pl_sequence_window p' = pl_sequence_window p.
Proof.
  unfold plan_validate. intros H Hg Hr. inv_result. rewrite GFingerprint_id in Hv, Hv0 by done.
  injection Hv as <-. injection Hv0 as <-. apply checked_Ok in Hv2 as [Hg1 ->]. simpl.
  repeat split; lia.
Qed.

Lemma group_key_fingerprint v : is_fingerprint (group_key_of v) = true.
Proof. by apply semantic_fingerprint_ok. Qed.

Lemma campaign_ref_fingerprint g n : is_fingerprint (campaign_ref_of g n) = true.
Proof. by apply semantic_fingerprint_ok. Qed.

Lemma build_Ok v g p :
  build v g = Ok p ->
  pl_campaign_group_key p = group_key_of v
  /\ pl_campaign_ref p = campaign_ref_of (group_key_of v) g
  /\ pl_batch_generation p = g /\ 1 <= g
  /\ sequence_window (country_value (fi_jurisdiction v)) (fi_step_1_execution_date v)
     = Ok (pl_sequence_window p).
Proof.
  unfold build. intros H. inv_result. rename Hv into Hw. clear Hv0.
  apply plan_validate_Ok in H as (H1 & H2 & H3 & H4 & H5);
    [|apply group_key_fingerprint | apply campaign_ref_fingerprint].
  simpl in *. rewrite H5. auto.
Qed.

(** * The invariant of the batches *)

(** Of a group, in the order of their creation. *)
Definition numbered (db : campaign_db) : Prop :=
  (forall k k' r r', gdb_campaigns db !! k = Some r -> gdb_campaigns db !! k' = Some r' ->
     ca_group r = ca_group r' -> ca_generation r = ca_generation r' -> k = k')
  /\ (forall k r, gdb_campaigns db !! k = Some r -> 1 <= ca_generation r
      /\ (1 < ca_generation r -> exists k' r', gdb_campaigns db !! k' = Some r'
          /\ ca_group r' = ca_group r /\ ca_generation r' = ca_generation r - 1)).

Definition in_batch (ref : string) (m : member_row) : bool := bool_decide (mb_campaign m = ref).
Definition batch_size (db : campaign_db) (ref : string) : Z :=
  count_of (in_batch ref) (rows (gdb_members db)).

Definition FIFTEEN_MINUTES : Z := 15 * 60 * US_SECOND.

(** The same calendar, the deadlines as instants. *)
Definition same_calendar (w w' : SequenceWindow) : Prop :=
  sw_timezone w' = sw_timezone w
  /\ sw_step_1_execution_date w' = sw_step_1_execution_date w
  /\ sw_step_2_execution_date w' = sw_step_2_execution_date w
  /\ dt_equiv (sw_step_1_authorization_deadline w) (sw_step_1_authorization_deadline w')
  /\ dt_equiv (sw_step_2_authorization_deadline w) (sw_step_2_authorization_deadline w').

(** A campaign keeps the calendar of the input it was planned with. *)
Definition calendar_kept (i : campaign_identity) : Prop :=
  exists w, sequence_window (country_value (fi_jurisdiction (ci_input i)))
              (fi_step_1_execution_date (ci_input i)) = Ok w
    /\ same_calendar w (ci_window i).

(** What holds of one batch and its members. *)
Record batch_ok (members : gmap string member_row) (ref : string) (r : campaign_row) : Prop := {
  bk_ref : ca_ref r = ref;
  bk_group : ca_group r = group_key_of (ci_input (ca_identity r));
  bk_count : ca_reserved_member_count r = count_of (in_batch ref) (rows members);
  bk_checks : campaign_checks r = Ok tt;
  bk_clock : forall first close, ca_first_member_reserved_at r = Some first ->
    ca_membership_close_at r = Some close -> instant close = instant first + FIFTEEN_MINUTES;
  bk_in_time : forall k m close, members !! k = Some m -> mb_campaign m = ref ->
    ca_membership_close_at r = Some close -> instant (mb_created_at m) < instant close;
  bk_calendar : calendar_kept (ca_identity r);
}.

Record campaigns_ok (db : campaign_db) : Prop := {
  gk_batch : forall k r, gdb_campaigns db !! k = Some r -> batch_ok (gdb_members db) k r;
  gk_numbered : numbered db;
  gk_member_ref : forall k m, gdb_members db !! k = Some m -> mb_ref m = k;
  gk_member_campaign : forall k m, gdb_members db !! k = Some m ->
    is_Some (gdb_campaigns db !! mb_campaign m);
  gk_opportunity : forall k k' m m', gdb_members db !! k = Some m -> gdb_members db !! k' = Some m' ->
    mb_opportunity m = mb_opportunity m' -> k = k';
  gk_operation_ref : forall k r, gdb_operations db !! k = Some r -> oq_ref r = k /\ oq_key r = k;
}.

Lemma campaigns_ok_empty : campaigns_ok empty_campaign_db.
Proof. split; try split; intros; simpl in *; by rewrite lookup_empty in *. Qed.

(** Two states with the same batches and members. *)
Definition same_batches (db db' : campaign_db) : Prop :=
  gdb_campaigns db' = gdb_campaigns db /\ gdb_members db' = gdb_members db.

#[global] Instance same_batches_PreOrder : PreOrder same_batches.
Proof.
  split; [by intros db|]. intros a b c [H1 H2] [H3 H4]. split; congruence.
Qed.

(** * Batches *)

Lemma max_generation_None db g :
  max_generation db g = None -> forall k r, gdb_campaigns db !! k = Some r -> ca_group r <> g.
Proof.
  unfold max_generation. intros H k r Hr Hg.
  assert (Hin : r ∈ List.filter (fun r => bool_decide (ca_group r = g)) (rows (gdb_campaigns db))).
  { apply list_elem_of_In, List.filter_In. rewrite <- list_elem_of_In. split.
    - apply elem_of_rows. eauto.
    - by apply bool_decide_eq_true. }
  destruct (List.filter _ _); [by apply not_elem_of_nil in Hin | done].
Qed.

Lemma fold_max_ge g l : g <= fold_right Z.max g l /\ (forall x, x ∈ l -> x <= fold_right Z.max g l)
  /\ (fold_right Z.max g l = g \/ fold_right Z.max g l ∈ l).
Proof.
  induction l as [|y l (H1 & H2 & H3)]; simpl; [split; [lia|]; split; [set_solver | by left]|].
  split; [lia|]. split.
  - intros x Hx. apply elem_of_cons in Hx as [->|Hx]; [lia|]. specialize (H2 x Hx). lia.
  - destruct (Z.max_spec y (fold_right Z.max g l)) as [[_ ->]|[_ ->]].
    + destruct H3 as [->|H3]; [by left|]. right. set_solver.
    + right. set_solver.
Qed.

Lemma max_generation_Some db g n :
  max_generation db g = Some n ->
  (exists k r, gdb_campaigns db !! k = Some r /\ ca_group r = g /\ ca_generation r = n)
  /\ (forall k r, gdb_campaigns db !! k = Some r -> ca_group r = g -> ca_generation r <= n).
Proof.
  unfold max_generation. intros H.
  set (l := List.filter (fun r => bool_decide (ca_group r = g)) (rows (gdb_campaigns db))) in *.
  assert (Hl : forall r, r ∈ l <-> (exists k, gdb_campaigns db !! k = Some r) /\ ca_group r = g).
  { intros r. unfold l. rewrite list_elem_of_In, List.filter_In, <- list_elem_of_In, elem_of_rows.
    by rewrite bool_decide_eq_true. }
  destruct (map ca_generation l) as [|x t] eqn:E; [done|]. injection H as H.
  destruct (fold_max_ge x t) as (H1 & H2 & H3). rewrite H in *.
  assert (Hn : n ∈ map ca_generation l) by (rewrite E; destruct H3 as [->|]; set_solver).
  split.
  - apply list_elem_of_fmap in Hn as (r & -> & Hr). apply Hl in Hr as [[k Hk] Hg]. eauto.
  - intros k r Hr Hg. assert (Hx : ca_generation r ∈ map ca_generation l).
    { apply list_elem_of_fmap. exists r. split; [done|]. apply Hl. eauto. }
    rewrite E in Hx. apply elem_of_cons in Hx as [->|Hx]; [lia | auto].
Qed.

Lemma next_generation_new db g :
  (forall k r, gdb_campaigns db !! k = Some r -> 1 <= ca_generation r) ->
  1 <= next_generation db g
  /\ (forall k r, gdb_campaigns db !! k = Some r -> ca_group r = g ->
      ca_generation r < next_generation db g)
  /\ (1 < next_generation db g -> exists k r, gdb_campaigns db !! k = Some r /\ ca_group r = g
      /\ ca_generation r = next_generation db g - 1).
Proof.
  intros Hpos. unfold next_generation. destruct (max_generation db g) as [n|] eqn:E.
  - apply max_generation_Some in E as ((k & r & H1 & H2 & H3) & H4). split.
    + specialize (Hpos k r H1). lia.
    + split; [intros k' r' Hk' Hg; specialize (H4 k' r' Hk' Hg); lia|].
      intros _. exists k, r. repeat split; [done.. | lia].
  - pose proof (max_generation_None db g E) as Hn. split; [lia|]. split; [|lia].
    intros k r Hr Hg. by destruct (Hn k r Hr).
Qed.

Lemma open_batch_Some db g at_ r :
  open_batch db g at_ = Some r ->
  (exists k, gdb_campaigns db !! k = Some r) /\ is_open g at_ r = true.
Proof.
  unfold open_batch. intros H.
  assert (Hin : r ∈ sorted_by generation_leb (List.filter (is_open g at_) (rows (gdb_campaigns db)))).
  { destruct (sorted_by _ _); [done|]. injection H as ->. set_solver. }
  rewrite elem_of_sorted_by, list_elem_of_In, List.filter_In, <- list_elem_of_In, elem_of_rows in Hin.
  done.
Qed.

Lemma is_open_spec g at_ r :
  is_open g at_ r = true ->
  ca_group r = g /\ ca_lifecycle r = BUILDING /\ ca_membership_closed_at r = None
  /\ ca_reserved_member_count r < ci_member_capacity (ca_identity r)
  /\ (forall close, ca_membership_close_at r = Some close -> instant at_ < instant close).
Proof.
  unfold is_open. intros H. inv_result. apply truthy_None in H2. repeat split; try done; [lia|].
  intros close Hc.
  match goal with H : match ca_membership_close_at r with _ => _ end = true |- _ =>
    rewrite Hc in H; unfold dt_ltb in H; lia end.
Qed.

Lemma insert_campaign_Ok db values db' :
  insert_campaign db values = Ok db' ->
  let row := stored_campaign values in
  db' = with_campaigns (<[ca_ref row := row]> (gdb_campaigns db)) db
  /\ gdb_campaigns db !! ca_ref row = None /\ campaign_checks row = Ok tt
  /\ (forall k r, gdb_campaigns db !! k = Some r -> ca_group r = ca_group row ->
      ca_generation r <> ca_generation row).
Proof.
  unfold insert_campaign. intros H. apply result_bind_Ok in H as (row & Hrow & H).
  apply campaign_columns_Ok in Hrow as (-> & Hc & _). inv_result.
  apply check_constraint_Ok in Hv, Hv0. apply negb_true_iff, truthy_None in Hv.
  cbn zeta. repeat split; try done. intros k r Hr Hg Hgen. apply negb_true_iff in Hv0.
  apply not_true_iff_false in Hv0. apply Hv0, existsb_exists. exists r. split.
  - apply list_elem_of_In, elem_of_rows. eauto.
  - apply andb_true_iff. split; [by apply bool_decide_eq_true | lia].
Qed.

(** A new batch, empty and of the next generation of its group. *)
Lemma new_batch_ok db values db' :
  campaigns_ok db -> insert_campaign db values = Ok db' ->
  ca_group values = group_key_of (ci_input (ca_identity values)) ->
  ca_generation values = next_generation db (ca_group values) ->
  ca_reserved_member_count values = 0 -> ca_first_member_reserved_at values = None ->
  ca_membership_close_at values = None -> calendar_kept (ca_identity (stored_campaign values)) ->
  campaigns_ok db'.
Proof.
  intros [Hb [Hu Hn] Hr Hm Ho Hop] H Hg Hgen Hc Hf Hclose Hcal.
  apply insert_campaign_Ok in H as (-> & Hnew & Hchk & Huniq).
  set (row := stored_campaign values) in *.
  assert (Hpos : forall k r, gdb_campaigns db !! k = Some r -> 1 <= ca_generation r)
    by (intros k r Hk; by destruct (Hn k r Hk)).
  destruct (next_generation_new db (ca_group values) Hpos) as (Hn1 & Hn2 & Hn3).
  assert (Hrg : ca_group row = ca_group values) by done.
  assert (Hrn : ca_generation row = next_generation db (ca_group values)) by done.
  assert (Hold : forall k r, gdb_campaigns db !! k = Some r -> k <> ca_ref row) by congruence.
  split; cbn [with_campaigns gdb_campaigns gdb_members gdb_operations]; try done.
  - intros k r Hk. apply lookup_insert_Some in Hk as [[<- <-]|[_ Hk]]; [|by apply Hb].
    split; try done.
    + change (ca_reserved_member_count row) with (ca_reserved_member_count values). rewrite Hc.
      symmetry. apply Z.le_antisymm; [|apply count_of_nonneg].
      rewrite (count_of_ext _ (fun _ => false)); [by induction (rows (gdb_members db))|].
      intros m Hin. apply elem_of_rows in Hin as [k Hk]. apply bool_decide_eq_false. intros E.
      destruct (Hm k m Hk) as [c Hcm]. congruence.
    + intros first close Hfirst. unfold row in Hfirst. simpl in Hfirst. by rewrite Hf in Hfirst.
    + intros k m close _ _ Hcl. unfold row in Hcl. simpl in Hcl. by rewrite Hclose in Hcl.
  - unfold numbered. cbn [with_campaigns gdb_campaigns]. split.
    + intros k k' r r' Hk Hk' Eg En.
      apply lookup_insert_Some in Hk as [[<- <-]|[Hne Hk]];
        apply lookup_insert_Some in Hk' as [[<- <-]|[Hne' Hk']]; [done| | |by eapply Hu].
      * by destruct (Huniq k' r' Hk').
      * by destruct (Huniq k r Hk).
    + intros k r Hk. apply lookup_insert_Some in Hk as [[<- <-]|[Hne Hk]].
      * rewrite Hrn, Hrg. split; [done|]. intros Hlt. destruct (Hn3 Hlt) as (k & r & H1 & H2 & H3).
        exists k, r. split; [|done]. rewrite lookup_insert_ne; [done|]. by apply not_eq_sym, (Hold k r).
      * destruct (Hn k r Hk) as [H1 H2]. split; [done|]. intros Hlt.
        destruct (H2 Hlt) as (k' & r' & H3 & H4). exists k', r'. split; [|done].
        rewrite lookup_insert_ne; [done|]. by apply not_eq_sym, (Hold k' r').
  - intros k m Hk. destruct (Hm k m Hk) as [c Hcm]. rewrite lookup_insert_ne; [eauto|].
    by apply not_eq_sym, (Hold _ c).
Qed.

(** The window of a calendar that could be planned. *)
Lemma sequence_window_Ok j d w :
  sequence_window j d = Ok w ->
  exists z raw d2, timezone_of j = Some z /\ weekday d < 5 /\ date_add d 4 = Ok raw
    /\ _next_weekday raw = Ok d2
    /\ w = mkWindow z d (combine d SEVENTEEN z) d2 (combine d2 SEVENTEEN z).
Proof.
  unfold sequence_window, window_validate. intros H. inv_result.
  do 3 eexists. repeat split; eauto. lia.
Qed.

(** A window keeps its calendar in UTC and in its columns. *)
Lemma window_stored j d w w' :
  sequence_window j d = Ok w -> window_in_utc w = Ok w' -> same_calendar w (stored_window w').
Proof.
  intros (z & raw & d2 & _ & _ & _ & _ & ->)%sequence_window_Ok. unfold window_in_utc. intros H.
  assert (Heq : forall x y, astimezone_utc x = Ok y -> aware x = true -> dt_equiv x (timestamptz y)).
  { intros x y Hxy Hx. apply astimezone_utc_instant in Hxy as [Hi Hu].
    assert (Hy : aware y = true) by (unfold aware; by rewrite Hu).
    transitivity y; [split; congruence | by apply timestamptz_equiv]. }
  inv_result. repeat (split; [done|]). split; by apply Heq.
Qed.

(** A batch takes the member: it is open at that time. *)
Lemma find_batch_Ok db v rq ref g plan w db1 :
  campaigns_ok db -> find_batch db v rq = Ok (ref, g, plan, w, db1) ->
  campaigns_ok db1 /\ gdb_members db1 = gdb_members db
  /\ gdb_operations db1 = gdb_operations db /\ gdb_events db1 = gdb_events db
  /\ gdb_campaigns db ⊆ gdb_campaigns db1
  /\ (forall k r, gdb_campaigns db1 !! k = Some r ->
      gdb_campaigns db !! k = Some r \/ ci_input (ca_identity r) = v)
  /\ exists c, gdb_campaigns db1 !! ref = Some c
      /\ is_open (group_key_of v) (rr_reserved_at rq) c = true /\ ca_generation c = g.
Proof.
  intros Hok H. unfold find_batch in H. apply result_bind_Ok in H as (probe & Hp & H).
  apply build_Ok in Hp as (Hg & _). cbv zeta in H. rewrite Hg in H.
  destruct (open_batch db (group_key_of v) (rr_reserved_at rq)) as [r|] eqn:E.
  - injection H as <- <- <- <- <-. apply open_batch_Some in E as [[k Hk] Ho].
    split; [exact Hok|]. do 3 (split; [done|]). split; [reflexivity|]. split; [by left|]. exists r.
    by rewrite (bk_ref _ _ _ (gk_batch _ Hok k r Hk)).
  - inv_result. apply build_Ok in Hv as (H1 & H2 & H3 & H4 & H5).
    match goal with H : insert_campaign db ?x = Ok _ |- _ => set (values := x) in *; rename H into Hins end.
    assert (Hcall : campaigns_ok db1).
    { eapply new_batch_ok; [exact Hok | exact Hins | exact H1 | | reflexivity.. |].
      - cbn. by rewrite H1, H3.
      - exists (pl_sequence_window v0). split; [exact H5|]. by eapply window_stored. }
    apply insert_campaign_Ok in Hins as (-> & Hnew & _). split; [exact Hcall|].
    do 3 (split; [done|]). split; [by apply insert_subseteq|]. split.
    + intros k r Hk. cbn [with_campaigns gdb_campaigns] in Hk.
      apply lookup_insert_Some in Hk as [[_ <-]|[_ Hk]]; [by right | by left].
    + exists (stored_campaign values). split; [apply lookup_insert_eq|]. split; [|done].
      unfold is_open, ca_group. cbn. rewrite H1, bool_decide_eq_true_2 by done. done.
Qed.

(** * Members *)

Lemma insert_member_Ok refs db values db' :
  insert_member refs db values = Ok db' ->
  let row := stored_member values in
  db' = with_members (<[mb_ref row := row]> (gdb_members db)) db
  /\ gdb_members db !! mb_ref row = None /\ is_Some (gdb_campaigns db !! mb_campaign row)
  /\ (forall k m, gdb_members db !! k = Some m -> mb_opportunity m <> mb_opportunity row).
Proof.
  unfold insert_member. intros H. apply result_bind_Ok in H as (row & Hrow & H).
  apply member_columns_Ok in Hrow as ->.
  apply result_bind_Ok in H as (u1 & Hkey & H). apply result_bind_Ok in H as (u2 & Hopp & H).
  apply result_bind_Ok in H as (u3 & _ & H). cbv zeta in H.
  apply result_bind_Ok in H as (u4 & Hfk & [= <-]).
  apply check_constraint_Ok in Hkey, Hopp, Hfk. apply negb_true_iff, truthy_None in Hkey.
  rewrite !andb_true_iff in Hfk. destruct Hfk as [[[[[[Hfk _] _] _] _] _] _].
  cbn zeta. split; [done|]. split; [done|]. split; [by apply truthy_Some|].
  intros k m Hm E. apply negb_true_iff, not_true_iff_false in Hopp.
  apply Hopp, existsb_exists. exists m. split.
  - apply list_elem_of_In, elem_of_rows. eauto.
  - by apply bool_decide_eq_true.
Qed.

Lemma insert_operation_Ok db values db' :
  insert_operation db values = Ok db' ->
  let row := stored_operation values in
  db' = with_operations (<[oq_ref row := row]> (gdb_operations db)) db
  /\ gdb_operations db !! oq_ref row = None /\ select_by_operation_key db (oq_key row) = None
  /\ ulen (oi_correlation_id (oq_identity values)) <= 64.
Proof.
  unfold insert_operation. intros H. apply result_bind_Ok in H as (row & Hrow & H).
  apply operation_columns_Ok in Hrow as (-> & _ & Hlen). inv_result.
  apply check_constraint_Ok in Hv, Hv0. apply negb_true_iff, truthy_None in Hv, Hv0.
  cbn zeta. done.
Qed.

Lemma insert_operation_same db values db' :
  insert_operation db values = Ok db' -> same_batches db db'.
Proof. intros H. by apply insert_operation_Ok in H as (-> & _). Qed.

Lemma plan_if_absent_same db kind ref m fp corr now db' :
  plan_if_absent db kind ref m fp corr now = Ok db' -> same_batches db db'.
Proof.
  unfold plan_if_absent. destruct (truthy _); [by intros [= <-]|]. apply insert_operation_same.
Qed.

Lemma plan_for_member_same db rq ref m member db' :
  plan_for_member db rq ref m member = Ok db' -> same_batches db db'.
Proof.
  unfold plan_for_member, _plan_initial_operations. destruct (rr_operation_correlation_id rq);
    [|by intros [= <-]]. intros H. inv_result. apply plan_if_absent_same in Hv, Hv0, H.
  etrans; [exact Hv|]. by etrans.
Qed.

(** Every row of the ledger is kept under its reference, its key. *)
Definition operations_keyed (db : campaign_db) : Prop :=
  forall k r, gdb_operations db !! k = Some r -> oq_ref r = k /\ oq_key r = k.

(** Operations are added to the ledger, each under its key. *)
Definition ledger_grows (db db' : campaign_db) : Prop :=
  (operations_keyed db -> operations_keyed db') /\ gdb_operations db ⊆ gdb_operations db'.

#[global] Instance ledger_grows_PreOrder : PreOrder ledger_grows.
Proof. split; [by intros db|]. intros a b c [H1 H2] [H3 H4]. split; [auto | by etrans]. Qed.

(** The other tables do not matter. *)
Lemma same_ledger_grows db db' : gdb_operations db' = gdb_operations db -> ledger_grows db db'.
Proof. intros E. unfold ledger_grows, operations_keyed. by rewrite E. Qed.

Lemma planned_grows db kind key ref m fp corr now db' :
  insert_operation db (planned_operation kind key ref m fp corr now) = Ok db' -> ledger_grows db db'.
Proof.
  intros H. apply insert_operation_Ok in H as (-> & Hnew & _). split; [|by apply insert_subseteq].
  intros Hk k r. cbn [with_operations gdb_operations].
  intros [[<- <-]|[_ Hr]]%lookup_insert_Some; [done | by apply Hk].
Qed.

Lemma plan_if_absent_grows db kind ref m fp corr now db' :
  plan_if_absent db kind ref m fp corr now = Ok db' -> ledger_grows db db'.
Proof.
  unfold plan_if_absent. destruct (truthy _); [by intros [= <-]|]. apply planned_grows.
Qed.

Lemma plan_for_member_grows db rq ref m member db' :
  plan_for_member db rq ref m member = Ok db' -> ledger_grows db db'.
Proof.
  unfold plan_for_member, _plan_initial_operations. destruct (rr_operation_correlation_id rq);
    [|by intros [= <-]]. intros H. inv_result. apply plan_if_absent_grows in Hv, Hv0, H.
  etrans; [exact Hv|]. by etrans.
Qed.

(** The batch [c] with one member more. *)
Record one_more (at_ : datetime) (c c' : campaign_row) : Prop := {
  om_identity : ca_identity c' = ca_identity c;
  om_lifecycle : ca_lifecycle c' = ca_lifecycle c;
  om_count : ca_reserved_member_count c' = ca_reserved_member_count c + 1;
  om_checks : campaign_checks c' = Ok tt;
  om_first : ca_first_member_reserved_at c'
    = if ca_reserved_member_count c' =? 1 then Some (timestamptz at_)
      else ca_first_member_reserved_at c;
  om_close : if ca_reserved_member_count c' =? 1
    then exists close, dt_add at_ FIFTEEN_MINUTES = Ok close
         /\ ca_membership_close_at c' = Some (timestamptz close)
    else ca_membership_close_at c' = ca_membership_close_at c;
  om_closed : ca_membership_closed_at c'
    = if ca_reserved_member_count c' =? 10 then Some (timestamptz at_)
      else ca_membership_closed_at c;
}.

Lemma count_member_Ok db ref at_ db' c :
  gdb_campaigns db !! ref = Some c -> count_member db ref at_ = Ok db' ->
  exists c', db' = with_campaigns (<[ref := c']> (gdb_campaigns db)) db /\ one_more at_ c c'.
Proof.
  unfold count_member. intros -> H. apply result_bind_Ok in H as (n & Hn & H).
  apply int4_id in Hn as ->. apply result_bind_Ok in H as (close & Hclose & H).
  apply result_bind_Ok in H as ([] & Hchk & [= <-]). eexists. split; [reflexivity|].
  split; cbn [ca_identity ca_lifecycle ca_reserved_member_count ca_first_member_reserved_at
    ca_membership_close_at ca_membership_closed_at]; try done.
  destruct (ca_reserved_member_count c + 1 =? 1); [|by injection Hclose].
  inv_result. by exists v.
Qed.

(** The state after a batch took a member. *)
Lemma add_member_ok db ref c c' at_ row ops events :
  campaigns_ok db -> gdb_campaigns db !! ref = Some c -> one_more at_ c c' ->
  is_open (group_key_of (ci_input (ca_identity c))) at_ c = true -> aware at_ = true ->
  gdb_members db !! mb_ref row = None -> mb_campaign row = ref ->
  dt_equiv at_ (mb_created_at row) ->
  (forall k m, gdb_members db !! k = Some m -> mb_opportunity m <> mb_opportunity row) ->
  (forall k r, ops !! k = Some r -> oq_ref r = k /\ oq_key r = k) ->
  campaigns_ok (mkgdb (<[ref := c']> (gdb_campaigns db)) (<[mb_ref row := row]> (gdb_members db))
                  ops events).
Proof.
  intros [Hb [Hu Hn] Hr Hm Ho Hop] Hc [O1 O2 O3 O4 O5 O6 O7] Hopen Haware Hnew Href Hat Hopp Hops.
  assert (Hid : forall r, ca_group r = ci_campaign_group_key (ca_identity r)) by done.
  assert (Hg : ca_group c' = ca_group c) by (unfold ca_group; by rewrite O1).
  assert (Hgen : ca_generation c' = ca_generation c) by (unfold ca_generation; by rewrite O1).
  apply is_open_spec in Hopen as (_ & _ & _ & _ & Hbefore).
  destruct (Hb ref c Hc) as [B1 B2 B3 B4 B5 B6 B7].
  assert (Hnonneg : 0 <= ca_reserved_member_count c) by (rewrite B3; apply count_of_nonneg).
  assert (Hold : forall k r, <[ref:=c']> (gdb_campaigns db) !! k = Some r -> exists r0,
    gdb_campaigns db !! k = Some r0 /\ ca_group r = ca_group r0 /\ ca_generation r = ca_generation r0).
  { intros k r [[<- <-]|[_ Hk]]%lookup_insert_Some; eauto. }
  split; cbn [gdb_campaigns gdb_members gdb_operations]; try done.
  - intros k r [[<- <-]|[Hne Hk]]%lookup_insert_Some.
    + split.
      * unfold ca_ref. rewrite O1. exact B1.
      * rewrite Hg, O1. exact B2.
      * rewrite O3, B3, count_rows_insert by done. unfold in_batch at 2.
        rewrite bool_decide_eq_true_2 by done. simpl. lia.
      * done.
      * intros first close. rewrite O5. rewrite O3 in O5, O6 |- *.
        destruct (ca_reserved_member_count c + 1 =? 1) eqn:E1.
        -- destruct O6 as (cl & Hcl & ->). intros [= <-] [= <-].
           apply dt_add_instant in Hcl as [Hi Ha].
           assert (Hacl : aware cl = true) by (unfold aware in *; by rewrite Ha).
           destruct (timestamptz_equiv _ Haware) as [_ <-].
           destruct (timestamptz_equiv _ Hacl) as [_ <-]. done.
        -- rewrite O6. apply B5.
      * intros k m close Hk Hmc Hcl. rewrite O3 in O6.
        destruct (ca_reserved_member_count c + 1 =? 1) eqn:E1.
        -- destruct O6 as (cl & Hadd & Hcl'). rewrite Hcl' in Hcl. injection Hcl as <-.
           apply dt_add_instant in Hadd as [Hi Ha].
           assert (Hacl : aware cl = true) by (unfold aware in *; by rewrite Ha).
           destruct (timestamptz_equiv _ Hacl) as [_ <-].
           apply lookup_insert_Some in Hk as [[<- <-]|[Hne Hk]].
           { destruct Hat as [_ <-]. rewrite Hi. unfold FIFTEEN_MINUTES, US_SECOND. lia. }
           exfalso. assert (Hin : in_batch ref m = false).
           { apply (count_of_zero _ (rows (gdb_members db))); [lia|]. apply elem_of_rows. eauto. }
           by apply bool_decide_eq_false in Hin.
        -- rewrite O6 in Hcl. apply lookup_insert_Some in Hk as [[<- <-]|[Hne Hk]];
             [destruct Hat as [_ <-]; by apply Hbefore | by eapply B6].
      * by rewrite O1.
    + destruct (Hb k r Hk) as [C1 C2 C3 C4 C5 C6 C7]. split; try done.
      * rewrite C3, count_rows_insert by done. unfold in_batch at 2.
        rewrite bool_decide_eq_false_2 by congruence. done.
      * intros k' m close [[<- <-]|[_ Hk']]%lookup_insert_Some Hmc Hcl; [congruence | by eapply C6].
  - unfold numbered. cbn [gdb_campaigns]. split.
    + intros k k' r r' Hk Hk' Eg En. destruct (Hold k r Hk) as (r0 & H0 & H1 & H2).
      destruct (Hold k' r' Hk') as (r1 & H3 & H4 & H5). eapply Hu; [exact H0 | exact H3|..]; congruence.
    + intros k r Hk. destruct (Hold k r Hk) as (r0 & H0 & H1 & H2).
      destruct (Hn k r0 H0) as [H3 H4]. rewrite H2. split; [done|]. intros Hlt.
      destruct (H4 Hlt) as (k' & r' & H5 & H6 & H7). destruct (decide (k' = ref)) as [->|Hne].
      * exists ref, c'. rewrite lookup_insert_eq. rewrite Hc in H5. injection H5 as ->. split; [done|].
        split; congruence.
      * exists k', r'. rewrite lookup_insert_ne by done. split; [done|]. split; congruence.
  - intros k m [[<- <-]|[_ Hk]]%lookup_insert_Some; [done | by apply Hr].
  - intros k m [[<- <-]|[_ Hk]]%lookup_insert_Some.
    + rewrite Href, lookup_insert_eq. eauto.
    + destruct (Hm k m Hk) as [r Hkr]. destruct (decide (mb_campaign m = ref)) as [->|Hne].
      * rewrite lookup_insert_eq. eauto.
      * rewrite lookup_insert_ne; eauto.
  - intros k k' m m' [[<- <-]|[_ Hk]]%lookup_insert_Some [[<- <-]|[_ Hk']]%lookup_insert_Some E;
      [done | | | by eapply Ho].
    + by destruct (Hopp _ _ Hk').
    + by destruct (Hopp _ _ Hk).
Qed.

(** * Reservations *)

Lemma member_of_Some db opp m :
  member_of db opp = Some m -> (exists k, gdb_members db !! k = Some m) /\ mb_opportunity m = opp.
Proof.
  intros H. apply first_match_Some in H as [Hin He]. apply elem_of_rows in Hin.
  by apply bool_decide_eq_true in He.
Qed.

Lemma member_of_None db opp k m :
  member_of db opp = None -> gdb_members db !! k = Some m -> mb_opportunity m <> opp.
Proof.
  intros H Hm. apply (first_match_None _ _ m) in H; [|apply elem_of_rows; eauto].
  by apply bool_decide_eq_false in H.
Qed.

(** What a reservation of a new member did: the batch [c] took it. *)
Record reserved_new (db : campaign_db) (v : CampaignFactoryInput) (m : CampaignMemberReservation)
    (rq : reserve_request) (r : CampaignReservationResult) (db' : campaign_db)
    (campaigns : gmap string campaign_row) (c c' : campaign_row) (row : member_row) : Prop := {
  rn_absent : member_of db (rv_acquisition_opportunity_id m) = None;
  rn_aware : aware (rr_reserved_at rq) = true;
  rn_pacing : forall cap, rr_effective_mailbox_daily_cap rq = Some cap ->
    _require_pacing_capacity db v m (rr_reserved_at rq) cap = Ok tt;
  rn_kept : gdb_campaigns db ⊆ campaigns;
  rn_added : forall k x, campaigns !! k = Some x ->
    gdb_campaigns db !! k = Some x \/ ci_input (ca_identity x) = v;
  rn_batch : campaigns !! rs_campaign_ref r = Some c;
  rn_open : is_open (group_key_of v) (rr_reserved_at rq) c = true;
  rn_one_more : one_more (rr_reserved_at rq) c c';
  rn_campaigns : gdb_campaigns db' = <[rs_campaign_ref r := c']> campaigns;
  rn_fresh : gdb_members db !! mb_ref row = None;
  rn_members : gdb_members db' = <[mb_ref row := row]> (gdb_members db);
  rn_member_ref : rs_member_ref r = mb_ref row
    /\ mb_ref row = member_ref_of (rv_acquisition_opportunity_id m);
  rn_reservation : mb_reservation row = m;
  rn_campaign : mb_campaign row = rs_campaign_ref r;
  rn_created : dt_equiv (rr_reserved_at rq) (mb_created_at row);
  rn_generation : rs_batch_generation r = ca_generation c;
  rn_replayed : rs_replayed r = false;
}.

Lemma reserved_validate_Ok campaign member generation replayed r :
  reserved_validate (mkReserved campaign member generation replayed) = Ok r ->
  is_fingerprint campaign = true -> is_fingerprint member = true ->
  r = mkReserved campaign member generation replayed.
Proof.
  unfold reserved_validate. intros H Hc Hm. simpl in H.
  rewrite !GFingerprint_id in H by done. simpl in H. inv_result.
  apply checked_Ok in Hv as [_ ->]. done.
Qed.

Lemma member_ref_fingerprint opp : is_fingerprint (member_ref_of opp) = true.
Proof. by apply semantic_fingerprint_ok. Qed.

(** References of batches are fingerprints. *)
Definition refs_fingerprints (db : campaign_db) : Prop :=
  forall k r, gdb_campaigns db !! k = Some r -> is_fingerprint k = true.

Lemma find_batch_fingerprint db v rq ref g plan w db1 :
  find_batch db v rq = Ok (ref, g, plan, w, db1) -> campaigns_ok db -> refs_fingerprints db ->
  refs_fingerprints db1 /\ is_fingerprint ref = true.
Proof.
  intros H Hok Hf. unfold find_batch in H. apply result_bind_Ok in H as (probe & Hp & H).
  cbv zeta in H. destruct (open_batch _ _ _) as [r|] eqn:E.
  - injection H as <- <- <- <- <-. split; [done|]. apply open_batch_Some in E as [[k Hk] _].
    rewrite (bk_ref _ _ _ (gk_batch _ Hok k r Hk)). by eapply Hf.
  - inv_result. apply build_Ok in Hv as (_ & H2 & _).
    assert (Href : is_fingerprint (pl_campaign_ref v0) = true)
      by (rewrite H2; apply campaign_ref_fingerprint).
    split; [|exact Href].
    match goal with H : insert_campaign _ _ = Ok _ |- _ => apply insert_campaign_Ok in H as (-> & _) end.
    intros k r Hk. cbn [with_campaigns gdb_campaigns] in Hk.
    apply lookup_insert_Some in Hk as [[<- <-]|[_ Hk]]; [exact Href | by eapply Hf].
Qed.

Lemma reserve_member_Ok refs db v m rq r db' :
  campaigns_ok db -> refs_fingerprints db -> reserve_member refs db v m rq = Ok (r, db') ->
  (exists e c, member_of db (rv_acquisition_opportunity_id m) = Some e
     /\ same_member e (member_ref_of (rv_acquisition_opportunity_id m)) m = true
     /\ gdb_campaigns db !! mb_campaign e = Some c
     /\ r = mkReserved (mb_campaign e) (mb_ref e) (ca_generation c) true /\ same_batches db db')
  \/ exists campaigns c c' row, reserved_new db v m rq r db' campaigns c c' row
       /\ refs_fingerprints (mkgdb campaigns (gdb_members db') (gdb_operations db') (gdb_events db'))
       /\ campaigns_ok (mkgdb campaigns (gdb_members db) (gdb_operations db) (gdb_events db)).
Proof.
  intros Hok Hfp H. unfold reserve_member in H.
  destruct (aware (rr_reserved_at rq)) eqn:Haw; [|discriminate].
  destruct (member_of db (rv_acquisition_opportunity_id m)) as [e|] eqn:Em.
  - left. inv_result. unfold get_campaign in Hv. inv_result.
    apply reserved_validate_Ok in Hv1 as ->;
      [|by eapply Hfp | apply member_ref_fingerprint].
    exists e, v0. assert (Href : mb_ref e = member_ref_of (rv_acquisition_opportunity_id m)).
    { unfold same_member in Hc. inv_result. done. }
    rewrite Href. repeat (split; [done|]). by eapply plan_for_member_same.
  - right. apply result_bind_Ok in H as ([] & Hpace & H).
    apply result_bind_Ok in H as ([[[[ref g] plan] w] db1] & Hfind & H).
    destruct (match rr_expected_campaign_ref rq with Some _ => _ | None => true end); [|discriminate].
    apply result_bind_Ok in H as (db2 & Hins & H). apply result_bind_Ok in H as (db3 & Hplan & H).
    apply result_bind_Ok in H as (db4 & Hcount & H). apply result_bind_Ok in H as (r' & Hr & [= -> ->]).
    destruct (find_batch_fingerprint _ _ _ _ _ _ _ _ Hfind Hok Hfp) as [Hfp1 Href].
    apply find_batch_Ok in Hfind as (Hok1 & M1 & O1 & E1 & Hsub & Hadd & c & Hc & Hopen & Hg); [|done].
    apply insert_member_Ok in Hins as (-> & Hfresh & _ & _).
    set (row := stored_member _) in *.
    apply plan_for_member_same in Hplan as [C3 M3]. simpl in C3, M3. rewrite <- C3 in Hc.
    apply (count_member_Ok _ _ _ _ _ Hc) in Hcount as (c' & -> & Hmore).
    apply reserved_validate_Ok in Hr as ->; [|done | apply member_ref_fingerprint].
    exists (gdb_campaigns db1), c, c', row. split; [|split].
    + split; cbn [with_campaigns gdb_campaigns gdb_members rs_campaign_ref rs_member_ref
        rs_batch_generation rs_replayed]; try done.
      * intros cap Hcap. by rewrite Hcap in Hpace.
      * by rewrite <- C3.
      * by rewrite C3.
      * by rewrite <- M1.
      * by rewrite M3, M1.
      * by apply timestamptz_equiv.
    + intros k x Hx. by eapply (Hfp1 k x).
    + rewrite <- M1, <- O1, <- E1. by destruct db1.
Qed.

Lemma reserve_member_grows refs db v m rq r db' :
  reserve_member refs db v m rq = Ok (r, db') -> ledger_grows db db'.
Proof.
  intros H. unfold reserve_member in H. destruct (aware _); [|discriminate].
  destruct (member_of _ _).
  - inv_result. eauto using plan_for_member_grows.
  - apply result_bind_Ok in H as (u & _ & H).
    apply result_bind_Ok in H as ([[[[ref g] plan] w] db1] & Hfind & H).
    destruct (match rr_expected_campaign_ref rq with Some _ => _ | None => true end); [|discriminate].
    apply result_bind_Ok in H as (db2 & Hins & H). apply result_bind_Ok in H as (db3 & Hplan & H).
    apply result_bind_Ok in H as (db4 & Hcount & H). apply result_bind_Ok in H as (r' & _ & [= _ ->]).
    transitivity db1; [|transitivity db2; [|transitivity db3; [by eapply plan_for_member_grows|]]].
    + apply same_ledger_grows. unfold find_batch in Hfind. inv_result.
      destruct (open_batch _ _ _); inv_result; [done|].
      match goal with H : insert_campaign _ _ = Ok _ |- _ => by apply insert_campaign_Ok in H as (-> & _) end.
    + apply same_ledger_grows. by apply insert_member_Ok in Hins as (-> & _).
    + apply same_ledger_grows. unfold count_member in Hcount.
      destruct (gdb_campaigns db3 !! ref); by inv_result.
Qed.

Lemma reserve_member_keeps refs db v m rq r db' :
  reserve_member refs db v m rq = Ok (r, db') -> campaigns_ok db -> refs_fingerprints db ->
  campaigns_ok db' /\ refs_fingerprints db'.
Proof.
  intros H Hok Hfp. pose proof (proj1 (reserve_member_grows _ _ _ _ _ _ _ H) (gk_operation_ref _ Hok)) as Hops.
  apply reserve_member_Ok in H as [(e & c & _ & _ & _ & _ & Hc & Hm)|(cs & c & c' & row & R & Hfp1 & Hok1)];
    [| |done..].
  - split; [|intros k r' Hk; rewrite Hc in Hk; by eapply Hfp].
    destruct Hok as [B N M1 M2 M3 _]. split; rewrite ?Hc, ?Hm; try done.
    unfold numbered. by rewrite Hc.
  - destruct R. split.
    + replace db' with (mkgdb (gdb_campaigns db') (gdb_members db') (gdb_operations db')
        (gdb_events db')) by (by destruct db').
      rewrite rn_campaigns0, rn_members0.
      eapply (add_member_ok (mkgdb cs (gdb_members db) (gdb_operations db) (gdb_events db)));
        try done.
      * destruct (gk_batch _ Hok1 _ _ rn_batch0) as [_ Hg _ _ _ _ _].
        apply is_open_spec in rn_open0 as Hs. destruct Hs as (Hg' & _). congruence.
      * intros k x Hx. change (mb_opportunity row) with (rv_acquisition_opportunity_id (mb_reservation row)).
        rewrite rn_reservation0. by eapply member_of_None.
    + intros k x. rewrite rn_campaigns0. intros [[<- <-]|[_ Hx]]%lookup_insert_Some; eapply Hfp1; done.
Qed.

(** * The operations on the tables *)

(** The operations of the store, and the updates of other processes: the
    lifecycle of a batch, and the columns of a member not written once. *)
Inductive campaign_op : Type :=
| OpReserve (refs : campaign_references) (v : CampaignFactoryInput)
    (m : CampaignMemberReservation) (rq : reserve_request)
| OpCloseDue (now : datetime)
| OpPlan (kind : ProviderOperationKind) (ref : string) (member : option string)
    (fingerprint correlation : string) (now : datetime)
| OpClaim (ref worker : string) (now : datetime) (seconds : Z)
| OpSetState (ref : string) (o : operation_outcome)
| OpBindCampaign (ref id : string) (config : option string) (now : datetime)
| OpBindLead (ref id binding : string) (now : datetime)
| OpLifecycle (ref : string) (lifecycle : CampaignLifecycle)
| OpMember (ref : string) (row : member_row).

#[global] Instance member_identity_eq_dec : EqDecision member_identity.
Proof. solve_decision. Defined.

Definition commit {A} (r : result (A * campaign_db)) (db : campaign_db) : campaign_db :=
  match r with Ok (_, db') => db' | Raise _ => db end.
Definition commit_ (r : result campaign_db) (db : campaign_db) : campaign_db :=
  match r with Ok db' => db' | Raise _ => db end.

Definition with_lifecycle (l : CampaignLifecycle) (r : campaign_row) : campaign_row :=
  mkCampaign (ca_identity r) (ca_provider_campaign_id r) (ca_current_provider_config_fingerprint r)
    l (ca_reserved_member_count r) (ca_first_member_reserved_at r) (ca_membership_close_at r)
    (ca_membership_closed_at r) (ca_updated_at r).

Definition apply_campaign_op (op : campaign_op) (db : campaign_db) : campaign_db :=
  match op with
  | OpReserve refs v m rq => commit (reserve_member refs db v m rq) db
  | OpCloseDue now => commit (close_due_batches db now) db
  | OpPlan kind ref member fp corr now => commit (plan_operation db kind ref member fp corr now) db
  | OpClaim ref worker now seconds => commit (claim_operation db ref worker now seconds) db
  | OpSetState ref o => commit (set_operation_state db ref o) db
  | OpBindCampaign ref id config now => commit_ (bind_provider_campaign db ref id config now) db
  | OpBindLead ref id binding now => commit_ (bind_provider_lead db ref id binding now) db
  | OpLifecycle ref l => with_campaigns (alter (with_lifecycle l) ref (gdb_campaigns db)) db
  | OpMember ref row =>
      match gdb_members db !! ref with
      | Some m => if decide (mb_identity row = mb_identity m)
                  then with_members (<[ref := row]> (gdb_members db)) db else db
      | None => db
      end
  end.
Definition apply_campaign_ops (ops : list campaign_op) (db : campaign_db) : campaign_db :=
  fold_left (fun d op => apply_campaign_op op d) ops db.

(** What an operation other than a reservation leaves of the batches and of
    the members: no more than the lifecycle, the provider's identifiers and
    the end of the membership change. *)
Record batch_kept (c c' : campaign_row) : Prop := {
  bt_identity : ca_identity c' = ca_identity c;
  bt_count : ca_reserved_member_count c' = ca_reserved_member_count c;
  bt_first : ca_first_member_reserved_at c' = ca_first_member_reserved_at c;
  bt_close : ca_membership_close_at c' = ca_membership_close_at c;
  bt_closed : truthy (ca_membership_closed_at c') = true -> truthy (ca_membership_close_at c') = true
    \/ truthy (ca_membership_closed_at c) = true;
  bt_still : truthy (ca_membership_closed_at c) = true -> truthy (ca_membership_closed_at c') = true;
}.

Definition batches_kept (db db' : campaign_db) : Prop :=
  (forall k, option_Forall2 batch_kept (gdb_campaigns db !! k) (gdb_campaigns db' !! k))
  /\ (forall k, option_Forall2 (fun m m' => mb_identity m' = mb_identity m)
                 (gdb_members db !! k) (gdb_members db' !! k)).

Lemma batch_kept_refl c : batch_kept c c.
Proof. split; auto. Qed.

Lemma same_batches_kept db db' : same_batches db db' -> batches_kept db db'.
Proof.
  unfold batches_kept. intros [-> ->]. split; intros k; [destruct (gdb_campaigns db !! k) | destruct (gdb_members db !! k)];
    constructor; [apply batch_kept_refl | done].
Qed.

Lemma batches_kept_campaign db db' k c' :
  batches_kept db db' -> gdb_campaigns db' !! k = Some c' ->
  exists c, gdb_campaigns db !! k = Some c /\ batch_kept c c'.
Proof. intros [H _] Hk. specialize (H k). rewrite Hk in H. inversion H; subst. eauto. Qed.

Lemma batches_kept_member db db' k m' :
  batches_kept db db' -> gdb_members db' !! k = Some m' ->
  exists m, gdb_members db !! k = Some m /\ mb_identity m' = mb_identity m.
Proof. intros [_ H] Hk. specialize (H k). rewrite Hk in H. inversion H; subst. eauto. Qed.

Lemma batches_kept_ok db db' :
  batches_kept db db' -> operations_keyed db' -> campaigns_ok db -> refs_fingerprints db ->
  campaigns_ok db' /\ refs_fingerprints db'.
Proof.
  intros Hk Hops [Hb [Hu Hn] Hr Hm Ho _] Hfp.
  split; [|intros k c' Hc'; destruct (batches_kept_campaign _ _ _ _ Hk Hc') as (c & Hc & _);
    by eapply Hfp].
  assert (Hsame : forall c c', batch_kept c c' ->
    ca_ref c' = ca_ref c /\ ca_group c' = ca_group c /\ ca_generation c' = ca_generation c).
  { intros c c' [E _ _ _ _]. unfold ca_ref, ca_group, ca_generation. by rewrite E. }
  split; try done.
  - intros k c' Hc'. destruct (batches_kept_campaign _ _ _ _ Hk Hc') as (c & Hc & K).
    destruct (Hsame _ _ K) as (E1 & E2 & E3). destruct (Hb k c Hc) as [B1 B2 B3 B4 B5 B6 B7].
    destruct K as [K1 K2 K3 K4 K5]. split.
    + congruence.
    + by rewrite E2, K1.
    + rewrite K2, B3. symmetry. apply count_rows_related. intros i. destruct Hk as [_ Hk].
      specialize (Hk i). inversion Hk as [m m' E|]; constructor. unfold in_batch, mb_campaign.
      by rewrite E.
    + unfold campaign_checks in *. rewrite K1, K2, K3, K4.
      apply result_bind_Ok in B4 as (u & Hu1 & B4). rewrite Hu1. simpl.
      apply result_bind_Ok in B4 as (u2 & Hu2 & B4). rewrite Hu2. simpl.
      apply check_constraint_Ok in B4. apply check_constraint_Ok.
      destruct (truthy (ca_membership_closed_at c')); [|done]. simpl.
      destruct (K5 eq_refl) as [K|K]; [by rewrite <- K4|]. rewrite K in B4. exact B4.
    + rewrite K3, K4. exact B5.
    + intros i m' close Hi Hmc Hcl. rewrite K4 in Hcl.
      destruct (batches_kept_member _ _ _ _ Hk Hi) as (m & Hm' & E).
      unfold mb_created_at, mb_campaign in *. rewrite E in *. by eapply B6.
    + by rewrite K1.
  - split.
    + intros k k' r r' Hk1 Hk2 Eg En.
      destruct (batches_kept_campaign _ _ _ _ Hk Hk1) as (c1 & Hc1 & K1).
      destruct (batches_kept_campaign _ _ _ _ Hk Hk2) as (c2 & Hc2 & K2).
      apply Hsame in K1 as (_ & G1 & N1), K2 as (_ & G2 & N2).
      eapply Hu; [exact Hc1 | exact Hc2|..]; congruence.
    + intros k r Hk1. destruct (batches_kept_campaign _ _ _ _ Hk Hk1) as (c1 & Hc1 & K1).
      apply Hsame in K1 as (_ & G1 & N1). destruct (Hn k c1 Hc1) as [H1 H2]. rewrite N1.
      split; [done|]. intros Hlt. destruct (H2 Hlt) as (k' & r' & H3 & H4 & H5).
      pose proof (proj1 Hk k') as Hk'. rewrite H3 in Hk'. inversion Hk' as [? r2 K2 E|]; subst.
      apply Hsame in K2 as (_ & G2 & N2). exists k', r2. split; [done|]. split; congruence.
  - intros k m' Hm'. destruct (batches_kept_member _ _ _ _ Hk Hm') as (m & H & E).
    unfold mb_ref. rewrite E. by apply Hr.
  - intros k m' Hm'. destruct (batches_kept_member _ _ _ _ Hk Hm') as (m & H & E).
    unfold mb_campaign. rewrite E. destruct (Hm k m H) as [c Hc]. unfold mb_campaign in Hc.
    pose proof (proj1 Hk (mi_campaign_ref (mb_identity m))) as Hk'. rewrite Hc in Hk'.
    inversion Hk'; subst. eauto.
  - intros k k' m1 m2 H1 H2. destruct (batches_kept_member _ _ _ _ Hk H1) as (n1 & N1 & E1).
    destruct (batches_kept_member _ _ _ _ Hk H2) as (n2 & N2 & E2).
    unfold mb_opportunity, mb_reservation. rewrite E1, E2. by eapply Ho.
Qed.

(** ** Each operation *)

Lemma plan_operation_Ok db kind ref m fp corr now r db' :
  plan_operation db kind ref m fp corr now = Ok (r, db') ->
  db' = db \/ insert_operation db
    (planned_operation kind (operation_key_of kind ref m fp) ref m fp corr now) = Ok db'.
Proof.
  unfold plan_operation, plan_operation_in_transaction. intros H.
  destruct (select_by_operation_key _ _); inv_result; auto.
Qed.

Lemma updated_operation_Ok db row r db' :
  updated_operation db row = Ok (r, db') -> db' = put_operation db row /\ _operation_record row = Ok r.
Proof. unfold updated_operation. intros H. inv_result. auto. Qed.

Lemma one_operation_Ok db ref row : one_operation db ref = Ok row -> gdb_operations db !! ref = Some row.
Proof. apply option_to_result_Ok. Qed.

(** An update of an operation leaves what it is. *)
Lemma put_operation_keyed db k row row' :
  gdb_operations db !! k = Some row -> oq_identity row' = oq_identity row ->
  operations_keyed db -> operations_keyed (put_operation db row').
Proof.
  intros Hk E H j r. unfold put_operation. cbn [with_operations gdb_operations].
  destruct (H k row Hk) as [H1 H2].
  intros [[<- <-]|[_ Hj]]%lookup_insert_Some; [|by apply H].
  split; [done|]. unfold oq_ref, oq_key in *. rewrite E. congruence.
Qed.

Lemma start_attempt_Ok db row worker now seconds r db' :
  start_attempt db row worker now seconds = Ok (r, db') ->
  (db' = db /\ _operation_record row = Ok r)
  \/ exists expires, dt_add now (seconds * US_SECOND) = Ok expires
      /\ db' = put_operation db (take_lease row worker now expires)
      /\ _operation_record (take_lease row worker now expires) = Ok r
      /\ (forall d, oq_retry_after row = Some d -> dt_leb (assume_utc d) now = true).
Proof.
  unfold start_attempt. intros H. apply result_bind_Ok in H as (waiting & Hw & H).
  destruct waiting; [inv_result; auto|]. right.
  apply result_bind_Ok in H as (n & _ & H). apply result_bind_Ok in H as (owner & Ho & H).
  apply uvarchar_Ok in Ho as ->. apply result_bind_Ok in H as (expires & He & H).
  apply updated_operation_Ok in H as [-> H]. exists expires. repeat split; try done.
  intros d Hd. rewrite Hd in Hw. unfold py_ltb in Hw. inv_result.
  unfold dt_ltb, dt_leb in *. lia.
Qed.

(** The outcomes of a claim. *)
Inductive claimed (db : campaign_db) (row : operation_row) (worker : string) (now : datetime)
    (seconds : Z) : operation_row -> Prop :=
| ClaimRefused : claimed db row worker now seconds row
| ClaimExpired lease : oq_state row = IN_FLIGHT -> oq_lease_expires_at row = Some lease ->
    dt_leb (replace_utc lease) now = true ->
    claimed db row worker now seconds (expire_lease row now)
| ClaimExhausted : oq_state row = RETRYABLE_FAILED ->
    PROVIDER_OPERATION_MAX_ATTEMPTS <= oq_attempt row ->
    claimed db row worker now seconds (exhaust_retries row now)
| ClaimTaken expires : oq_state row = PLANNED \/
      oq_state row = RETRYABLE_FAILED /\ oq_attempt row < PROVIDER_OPERATION_MAX_ATTEMPTS ->
    (forall d, oq_retry_after row = Some d -> dt_leb (assume_utc d) now = true) ->
    dt_add now (seconds * US_SECOND) = Ok expires ->
    claimed db row worker now seconds (take_lease row worker now expires).

Lemma claim_operation_Ok db ref worker now seconds r db' :
  operations_keyed db -> claim_operation db ref worker now seconds = Ok (r, db') ->
  exists row row', gdb_operations db !! ref = Some row /\ claimed db row worker now seconds row'
    /\ db' = put_operation db row' /\ _operation_record row' = Ok r
    /\ oq_identity row' = oq_identity row.
Proof.
  intros Hkeyed H. unfold claim_operation in H. apply result_bind_Ok in H as (row & Hrow & H).
  apply one_operation_Ok in Hrow. exists row. destruct (Hkeyed ref row Hrow) as [Href _].
  assert (Hsame : put_operation db row = db).
  { unfold put_operation. rewrite Href, insert_id by done. by destruct db. }
  assert (Hrefused : forall r0 d, (let! r := _operation_record row in Ok (r, db)) = Ok (r0, d) ->
    exists row', gdb_operations db !! ref = Some row /\ claimed db row worker now seconds row'
    /\ d = put_operation db row' /\ _operation_record row' = Ok r0
    /\ oq_identity row' = oq_identity row).
  { intros r0 d Hd. inv_result. exists row. rewrite Hsame. repeat split; try done. constructor. }
  assert (Hstart : forall r0 d, oq_state row = PLANNED
      \/ oq_state row = RETRYABLE_FAILED /\ oq_attempt row < PROVIDER_OPERATION_MAX_ATTEMPTS ->
    start_attempt db row worker now seconds = Ok (r0, d) ->
    exists row', gdb_operations db !! ref = Some row /\ claimed db row worker now seconds row'
    /\ d = put_operation db row' /\ _operation_record row' = Ok r0
    /\ oq_identity row' = oq_identity row).
  { intros r0 d Hst Hd. apply start_attempt_Ok in Hd as [[-> Hr]|(expires & He & -> & Hr & Hretry)].
    - exists row. rewrite Hsame. repeat split; try done. constructor.
    - eexists. split; [done|]. split; [by apply ClaimTaken|]. done. }
  destruct (oq_state row) eqn:Es; try by apply Hrefused.
  - apply Hstart; auto.
  - apply result_bind_Ok in H as ([] & He & H); [|by apply Hrefused].
    apply updated_operation_Ok in H as [-> H].
    destruct (oq_lease_expires_at row) as [lease|] eqn:El; [|discriminate]. unfold py_leb in He.
    inv_result. eexists. split; [done|]. split; [eapply ClaimExpired; eauto|]. done.
  - destruct (PROVIDER_OPERATION_MAX_ATTEMPTS <=? oq_attempt row) eqn:Ea.
    + apply updated_operation_Ok in H as [-> H]. eexists. split; [done|].
      split; [apply ClaimExhausted; [done | lia]|]. done.
    + apply Hstart; [|done]. right. split; [done | lia].
Qed.

Lemma set_operation_state_Ok db ref o r db' :
  set_operation_state db ref o = Ok (r, db') ->
  exists row, gdb_operations db !! ref = Some row
    /\ db' = put_operation db (with_operation_outcome o row)
    /\ _operation_record (with_operation_outcome o row) = Ok r.
Proof.
  unfold set_operation_state. intros H. apply result_bind_Ok in H as (row & Hrow & H).
  apply one_operation_Ok in Hrow. inv_result. apply updated_operation_Ok in H as [-> H]. eauto.
Qed.

Lemma put_operation_same db row : same_batches db (put_operation db row).
Proof. done. Qed.

(** One batch or member written over. *)
Lemma batch_written db k c c' :
  gdb_campaigns db !! k = Some c -> batch_kept c c' ->
  batches_kept db (with_campaigns (<[k := c']> (gdb_campaigns db)) db).
Proof.
  intros Hk K. split; intros j; cbn [with_campaigns gdb_campaigns gdb_members].
  - destruct (decide (k = j)) as [<-|Hne].
    + rewrite Hk, lookup_insert_eq. by constructor.
    + rewrite lookup_insert_ne by done. destruct (gdb_campaigns db !! j); constructor.
      apply batch_kept_refl.
  - by destruct (gdb_members db !! j); constructor.
Qed.

Lemma member_written db k m m' :
  gdb_members db !! k = Some m -> mb_identity m' = mb_identity m ->
  batches_kept db (with_members (<[k := m']> (gdb_members db)) db).
Proof.
  intros Hk K. split; intros j; cbn [with_members gdb_campaigns gdb_members].
  - destruct (gdb_campaigns db !! j); constructor. apply batch_kept_refl.
  - destruct (decide (k = j)) as [<-|Hne].
    + rewrite Hk, lookup_insert_eq. by constructor.
    + rewrite lookup_insert_ne by done. by destruct (gdb_members db !! j); constructor.
Qed.

Lemma close_due_kept db now refs db' :
  close_due_batches db now = Ok (refs, db') -> batches_kept db db'.
Proof.
  unfold close_due_batches. intros [= _ <-]. split; intros k.
  - cbn [with_campaigns gdb_campaigns]. rewrite lookup_fmap.
    destruct (gdb_campaigns db !! k) as [c|]; constructor.
    destruct (_ && _) eqn:E; [|apply batch_kept_refl]. split; try done; [by left|].
    intros Hc. rewrite Hc, andb_false_r in E. done.
  - cbn [with_campaigns gdb_members]. by destruct (gdb_members db !! k); constructor.
Qed.

Lemma apply_campaign_op_kept op db :
  operations_keyed db ->
  (exists refs v m rq, op = OpReserve refs v m rq)
  \/ batches_kept db (apply_campaign_op op db) /\ operations_keyed (apply_campaign_op op db).
Proof.
  intros Hk. assert (Hid : batches_kept db db) by (apply same_batches_kept; reflexivity).
  destruct op; simpl; [left; eauto 10|right..].
  - destruct (close_due_batches db now) as [[refs d]|] eqn:E; simpl; [|done].
    split; [by eapply close_due_kept|]. unfold close_due_batches in E. by injection E as _ <-.
  - destruct (plan_operation _ _ _ _ _ _ _) as [[r d]|] eqn:E; simpl; [|done].
    apply plan_operation_Ok in E as [->|E]; [done|].
    split; [by eapply same_batches_kept, insert_operation_same | by eapply planned_grows].
  - destruct (claim_operation _ _ _ _ _) as [[r d]|] eqn:E; simpl; [|done].
    apply claim_operation_Ok in E as (row & row' & Hrow & _ & -> & _ & Ei); [|done].
    split; [by apply same_batches_kept | by eapply put_operation_keyed].
  - destruct (set_operation_state _ _ _) as [[r d]|] eqn:E; simpl; [|done].
    apply set_operation_state_Ok in E as (row & Hrow & -> & _).
    split; [by apply same_batches_kept | by eapply put_operation_keyed].
  - destruct (bind_provider_campaign _ _ _ _ _) as [d|] eqn:E; simpl; [|done].
    unfold bind_provider_campaign in E. apply result_bind_Ok in E as (c & Hc & E).
    apply option_to_result_Ok in Hc. inv_result. split; [|done].
    eapply batch_written; [exact Hc|]. split; auto.
  - destruct (bind_provider_lead _ _ _ _ _) as [d|] eqn:E; simpl; [|done].
    unfold bind_provider_lead in E. apply result_bind_Ok in E as (m & Hm & E).
    apply option_to_result_Ok in Hm. inv_result. split; [|done]. by eapply member_written.
  - split; [|done]. split; intros k.
    + cbn [with_campaigns gdb_campaigns]. destruct (decide (ref = k)) as [<-|Hne].
      * rewrite lookup_alter_eq. destruct (gdb_campaigns db !! ref); constructor. split; auto.
      * rewrite lookup_alter_ne by done. destruct (gdb_campaigns db !! k); constructor.
        apply batch_kept_refl.
    + cbn [with_campaigns gdb_members]. by destruct (gdb_members db !! k); constructor.
  - destruct (gdb_members db !! ref) as [m|] eqn:E; [|done]. destruct (decide _); [|done].
    split; [|done]. by eapply member_written.
Qed.

(** What an operation of the store does to one row of the ledger. *)
Inductive ledger_step (k : string) (row : operation_row) : campaign_op -> operation_row -> Prop :=
| LedgerKept op : ledger_step k row op row
| LedgerClaimed db worker now seconds row' :
    claimed db row worker now seconds row' -> oq_identity row' = oq_identity row ->
    ledger_step k row (OpClaim k worker now seconds) row'
| LedgerReported o : ledger_step k row (OpSetState k o) (with_operation_outcome o row).

Lemma put_operation_step db k j row row' op :
  operations_keyed db -> gdb_operations db !! k = Some row -> gdb_operations db !! j = Some row' ->
  forall row1, oq_identity row1 = oq_identity row' ->
  (k = j -> row = row' -> ledger_step k row op row1) ->
  exists row2, gdb_operations (put_operation db row1) !! k = Some row2 /\ ledger_step k row op row2.
Proof.
  intros Hkeyed Hk Hj row1 Ei Hstep. unfold put_operation. cbn [with_operations gdb_operations].
  assert (Ej : oq_ref row1 = j) by (unfold oq_ref; rewrite Ei; by apply Hkeyed in Hj as [? _]).
  rewrite Ej. destruct (decide (j = k)) as [->|Hne].
  - rewrite lookup_insert_eq. exists row1. split; [done|]. apply Hstep; congruence.
  - rewrite lookup_insert_ne by done. exists row. split; [done | constructor].
Qed.

Lemma apply_campaign_op_ledger op db k row :
  operations_keyed db -> gdb_operations db !! k = Some row ->
  exists row', gdb_operations (apply_campaign_op op db) !! k = Some row' /\ ledger_step k row op row'.
Proof.
  intros Hkeyed Hk.
  assert (Hgrows : forall db', ledger_grows db db' ->
    exists row', gdb_operations db' !! k = Some row' /\ ledger_step k row op row').
  { intros db' [_ Hg]. exists row. split; [by eapply lookup_weaken | constructor]. }
  destruct op; simpl; try by apply Hgrows.
  - destruct (reserve_member _ _ _ _ _) as [[r d]|] eqn:E; [|by apply Hgrows].
    by eapply Hgrows, reserve_member_grows.
  - destruct (plan_operation _ _ _ _ _ _ _) as [[r d]|] eqn:E; [|by apply Hgrows].
    apply Hgrows. apply plan_operation_Ok in E as [->|E]; [done | by eapply planned_grows].
  - destruct (claim_operation _ _ _ _ _) as [[r d]|] eqn:E; [|by apply Hgrows].
    apply claim_operation_Ok in E as (row0 & row' & Hj & Hc & -> & _ & Ei); [|done].
    eapply put_operation_step; try done. intros <- <-. by eapply LedgerClaimed.
  - destruct (set_operation_state _ _ _) as [[r d]|] eqn:E; [|by apply Hgrows].
    apply set_operation_state_Ok in E as (row0 & Hj & -> & _).
    eapply put_operation_step; try done. intros <- <-. constructor.
  - destruct (bind_provider_campaign _ _ _ _ _) eqn:E; [|by apply Hgrows]. apply Hgrows, same_ledger_grows.
    unfold bind_provider_campaign in E. by inv_result.
  - destruct (bind_provider_lead _ _ _ _ _) eqn:E; [|by apply Hgrows]. apply Hgrows, same_ledger_grows.
    unfold bind_provider_lead in E. by inv_result.
  - apply Hgrows, same_ledger_grows. destruct (gdb_members db !! ref); [|done]. by destruct (decide _).
Qed.

Lemma apply_campaign_op_ok op db :
  campaigns_ok db -> refs_fingerprints db ->
  campaigns_ok (apply_campaign_op op db) /\ refs_fingerprints (apply_campaign_op op db).
Proof.
  intros Hok Hfp.
  destruct (apply_campaign_op_kept op db (gk_operation_ref _ Hok)) as [(refs & v & m & rq & ->)|[Hk Hops]].
  - simpl. destruct (reserve_member refs db v m rq) as [[r d]|] eqn:E; simpl; [|done].
    by eapply reserve_member_keeps.
  - by eapply batches_kept_ok.
Qed.

Lemma apply_campaign_ops_ok ops db :
  campaigns_ok db -> refs_fingerprints db ->
  campaigns_ok (apply_campaign_ops ops db) /\ refs_fingerprints (apply_campaign_ops ops db).
Proof.
  revert db. induction ops as [|op ops IH]; intros db Hok Hfp; [done|]. simpl.
  destruct (apply_campaign_op_ok op db Hok Hfp). by apply IH.
Qed.

Lemma runs_ok ops :
  campaigns_ok (apply_campaign_ops ops empty_campaign_db)
  /\ refs_fingerprints (apply_campaign_ops ops empty_campaign_db).
Proof.
  apply apply_campaign_ops_ok; [apply campaigns_ok_empty|]. intros k r H.
  simpl in H. by rewrite lookup_empty in H.
Qed.
End facts.

(** * Pacing *)

Section pacing.
Context `{Hash : HashLib} `{DB : Database} `{Case : CaseData} `{Zone : ZoneInfo}.

(** A day since 2000 is the same in both zones. *)
Lemma same_day z n t : z ∈ [ZURICH; PARIS] -> DAY_2000 <= n ->
  day_of z t = n <-> day_of ZURICH t = n.
Proof.
  intros Hz Hn. rewrite !day_of_bounds by (done || set_solver).
  apply elem_of_cons in Hz as [->|Hz]; [done|]. apply list_elem_of_singleton in Hz as ->.
  rewrite <- !same_midnight by lia. done.
Qed.

(** The local day of a member's reservation, and the wedge of its batch. *)
Definition created_on (n : Z) (m : member_row) : bool :=
  bool_decide (day_of ZURICH (instant (mb_created_at m)) = n).
Definition wedge_of (db : campaign_db) (m : member_row) : option string :=
  (fun c => fi_wedge (ci_input (ca_identity c))) <$> gdb_campaigns db !! mb_campaign m.
Definition from_mailbox (mailbox : string) (m : member_row) : bool :=
  bool_decide (rv_mailbox_ref (mb_reservation m) = mailbox).
Definition in_wedge (db : campaign_db) (w : string) (m : member_row) : bool :=
  bool_decide (wedge_of db m = Some w).

Definition THIRTY_DAYS : Z := 30 * US_DAY.

Lemma day_bounds_of at_ z local day_start start_local end_local day_end n x :
  z ∈ [ZURICH; PARIS] -> DAY_2000 <= n -> day_of ZURICH (instant at_) = n ->
  astimezone at_ z = Ok local -> astimezone_utc (combine (dt_date local) 0 z) = Ok day_start ->
  astimezone day_start z = Ok start_local -> zoned_add start_local US_DAY z = Ok end_local ->
  astimezone_utc end_local = Ok day_end ->
  dt_leb day_start x && dt_ltb x day_end = bool_decide (day_of ZURICH (instant x) = n).
Proof.
  intros Hz Hn Hday H1 H2 H3 H4 H5. apply day_of_astimezone in H1.
  apply (same_day z) in Hday; [|done..].
  apply astimezone_utc_instant in H2 as [H2 _]. rewrite instant_combine, H1, Hday in H2 by done.
  apply astimezone_Ok in H3 as (_ & H3 & _). rewrite Z.add_0_r in H2.
  rewrite H2, midnight_exists in H3 by done.
  apply zoned_add_Ok in H4 as [_ H4]. apply astimezone_utc_instant in H5 as [H5 _].
  rewrite H4, H3 in H5.
  replace (n * US_DAY - wall_offset z (n * US_DAY) + wall_offset z (n * US_DAY) + US_DAY)
    with ((n + 1) * US_DAY) in H5 by lia.
  apply eq_bool_prop_intro. rewrite !Is_true_true, andb_true_iff, bool_decide_eq_true.
  rewrite <- (same_day z n), day_of_bounds by done. unfold dt_leb, dt_ltb. lia.
Qed.

Lemma require_caps_Ok checks u label limit count :
  require_caps checks = Ok u -> (label, limit, count) ∈ checks -> count < limit.
Proof.
  induction checks as [|[[l k] c] checks IH]; intros H Hin; [by apply not_elem_of_nil in Hin|].
  simpl in H. inv_result. apply elem_of_cons in Hin as [[= -> -> ->]|Hin]; [lia | auto].
Qed.

(** What a reservation finds when there is room for it. *)
Lemma require_pacing_Ok db v m at_ cap u n :
  campaigns_ok db -> _require_pacing_capacity db v m at_ cap = Ok u ->
  (DAY_2000 <= n -> day_of ZURICH (instant at_) = n ->
   count_of (created_on n) (rows (gdb_members db)) < 5
   /\ count_of (fun x => created_on n x && from_mailbox (rv_mailbox_ref m) x)
        (rows (gdb_members db)) < Z.min 3 cap
   /\ count_of (fun x => created_on n x && in_wedge db (fi_wedge v) x)
        (rows (gdb_members db)) < 3)
  /\ (forall k x, gdb_members db !! k = Some x -> mb_supplier x = rv_supplier_ref m ->
      instant (mb_created_at x) < instant at_ - THIRTY_DAYS).
Proof.
  intros Hok H. unfold _require_pacing_capacity in H.
  set (z := if bool_decide _ then ZURICH else PARIS) in *.
  assert (Hz : z ∈ [ZURICH; PARIS]) by (subst z; destruct (bool_decide _); repeat constructor).
  apply result_bind_Ok in H as (local & H1 & H). apply result_bind_Ok in H as (day_start & H2 & H).
  apply result_bind_Ok in H as (start_local & H3 & H). apply result_bind_Ok in H as (end_local & H4 & H).
  apply result_bind_Ok in H as (day_end & H5 & H). cbv zeta in H.
  apply result_bind_Ok in H as (u1 & Hcaps & H). apply result_bind_Ok in H as (since & Hs & H).
  apply dt_add_instant in Hs as [Hs _]. inv_result. split.
  - intros Hn Hday.
    assert (Hbase : forall f, count_of f (members_between db day_start day_end)
      = count_of (fun x => created_on n x
          && match gdb_campaigns db !! mb_campaign x with Some c => f (x, c) | None => false end)
          (rows (gdb_members db))).
    { intros f. unfold members_between. rewrite count_of_omap. apply count_of_ext. intros x _.
      rewrite (day_bounds_of at_ z local day_start start_local end_local day_end n) by done.
      fold (created_on n x). destruct (created_on n x); [|done].
      by destruct (gdb_campaigns db !! mb_campaign x). }
    assert (Hcamp : forall x, x ∈ rows (gdb_members db) -> is_Some (gdb_campaigns db !! mb_campaign x))
      by (intros x [k Hx]%elem_of_rows; by eapply gk_member_campaign).
    assert (Hcount : forall label limit f g, (label, limit, count_of f (members_between db day_start day_end))
        ∈ [("global", 5, zlength (members_between db day_start day_end));
           ("country", 5, count_of (fun p => bool_decide (fi_country (ci_input (ca_identity p.2))
               = fi_country v)) (members_between db day_start day_end));
           ("wedge", 3, count_of (fun p => bool_decide (fi_wedge (ci_input (ca_identity p.2))
               = fi_wedge v)) (members_between db day_start day_end));
           ("mailbox", Z.min 3 cap, count_of (fun p => bool_decide
               (rv_mailbox_ref (mb_reservation p.1) = rv_mailbox_ref m))
               (members_between db day_start day_end))] ->
        (forall x c, gdb_campaigns db !! mb_campaign x = Some c -> f (x, c) = g x) ->
        count_of (fun x => created_on n x && g x) (rows (gdb_members db)) < limit).
    { intros label limit f g Hin Hfg. pose proof (require_caps_Ok _ _ _ _ _ Hcaps Hin) as Hlt.
      rewrite Hbase in Hlt. rewrite (count_of_ext _ (fun x => created_on n x &&
        match gdb_campaigns db !! mb_campaign x with Some c => f (x, c) | None => false end)); [done|].
      intros x Hx. destruct (Hcamp x Hx) as [c Hxc]. by rewrite Hxc, (Hfg x c Hxc). }
    repeat split.
    + rewrite (count_of_ext _ (fun x => created_on n x && true)) by (intros; by rewrite andb_true_r).
      apply (Hcount "global" 5 (fun _ => true)); [|done]. rewrite <- zlength_count. apply list_elem_of_here.
    + eapply (Hcount "mailbox"); [do 3 apply list_elem_of_further; apply list_elem_of_here | done].
    + eapply (Hcount "wedge"); [do 2 apply list_elem_of_further; apply list_elem_of_here|]. intros x c Hxc. unfold in_wedge, wedge_of.
      rewrite Hxc. simpl. apply eq_bool_prop_intro. rewrite !bool_decide_spec. split; [by intros -> | by intros [= ->]].
  - intros k x Hx Hsup. unfold THIRTY_DAYS.
    destruct (decide (instant (mb_created_at x) < instant at_ - 30 * US_DAY)) as [|Hnot]; [done|].
    exfalso. assert (Hnone : count_of (fun y => bool_decide (mb_supplier y = rv_supplier_ref m)
                          && dt_leb since (mb_created_at y)) (rows (gdb_members db)) <= 0) by lia.
    pose proof (count_of_zero _ _ Hnone x ltac:(apply elem_of_rows; eauto)) as Hf. simpl in Hf.
    rewrite bool_decide_eq_true_2 in Hf by done. simpl in Hf. unfold dt_leb in Hf. lia.
Qed.

(** * The caps over a run *)

(** Every reservation of a run is given a capacity, and what they plan. *)
Definition capped (op : campaign_op) : Prop :=
  match op with OpReserve _ _ _ rq => is_Some (rr_effective_mailbox_daily_cap rq) | _ => True end.
Definition inputs (ops : list campaign_op) : list CampaignFactoryInput :=
  omap (fun op => match op with OpReserve _ v _ _ => Some v | _ => None end) ops.

(** The digests of the groups tell the wedges of a run apart. *)
Definition wedges_told_apart (vs : list CampaignFactoryInput) : Prop :=
  forall v v', v ∈ vs -> v' ∈ vs -> group_key_of v = group_key_of v' -> fi_wedge v = fi_wedge v'.

Record paced (vs : list CampaignFactoryInput) (db : campaign_db) : Prop := {
  pd_day : forall n, DAY_2000 <= n -> count_of (created_on n) (rows (gdb_members db)) <= 5;
  pd_mailbox : forall n mailbox, DAY_2000 <= n ->
    count_of (fun x => created_on n x && from_mailbox mailbox x) (rows (gdb_members db)) <= 3;
  pd_wedge : forall n w, DAY_2000 <= n ->
    count_of (fun x => created_on n x && in_wedge db w x) (rows (gdb_members db)) <= 3;
  pd_supplier : forall k k' x y, gdb_members db !! k = Some x -> gdb_members db !! k' = Some y ->
    k <> k' -> mb_supplier x = mb_supplier y ->
    THIRTY_DAYS < Z.abs (instant (mb_created_at x) - instant (mb_created_at y));
  pd_inputs : forall k c, gdb_campaigns db !! k = Some c -> ci_input (ca_identity c) ∈ vs;
}.

Lemma paced_empty vs : paced vs empty_campaign_db.
Proof.
  split; cbn [empty_campaign_db gdb_members gdb_campaigns].
  - intros n _. change (0 <= 5). lia.
  - intros n mailbox _. change (0 <= 3). lia.
  - intros n w _. change (0 <= 3). lia.
  - intros k k' x y H. by rewrite lookup_empty in H.
  - intros k c H. by rewrite lookup_empty in H.
Qed.

(** A member looks the same after an update of it or of its batch. *)
Lemma wedge_of_kept db db' x : batches_kept db db' -> wedge_of db' x = wedge_of db x.
Proof.
  intros [Hb _]. unfold wedge_of. specialize (Hb (mb_campaign x)).
  inversion Hb as [c c' K|]; [|done]. simpl. by rewrite (bt_identity _ _ K).
Qed.

Lemma count_kept db db' f f' : batches_kept db db' ->
  (forall x x', mb_identity x' = mb_identity x -> f' x' = f x) ->
  count_of f' (rows (gdb_members db')) = count_of f (rows (gdb_members db)).
Proof.
  intros [_ Hm] Hf. rewrite (count_of_ext f' f) by (intros x _; by apply Hf).
  apply count_rows_related. intros k. specialize (Hm k). inversion Hm as [x x' E|]; constructor.
  transitivity (f' x); [symmetry; transitivity (f' x'); [|by apply Hf] | by apply Hf].
  rewrite (Hf x' x) by done. by rewrite (Hf x' x').
Qed.

Lemma paced_kept vs db db' : batches_kept db db' -> paced vs db -> paced vs db'.
Proof.
  intros Hk [P1 P2 P3 P4 P5].
  assert (Hc : forall n x x', mb_identity x' = mb_identity x -> created_on n x' = created_on n x)
    by (intros n x x' E; unfold created_on, mb_created_at; by rewrite E).
  split.
  - intros n Hn. rewrite (count_kept _ _ (created_on n) _ Hk) by apply Hc. by apply P1.
  - intros n mailbox Hn.
    rewrite (count_kept _ _ (fun x => created_on n x && from_mailbox mailbox x) _ Hk); [by apply P2|].
    intros x x' E. rewrite (Hc n x x' E). unfold from_mailbox, mb_reservation. by rewrite E.
  - intros n w Hn.
    rewrite (count_kept _ _ (fun x => created_on n x && in_wedge db w x) _ Hk); [by apply P3|].
    intros x x' E. rewrite (Hc n x x' E). unfold in_wedge. rewrite (wedge_of_kept _ _ _ Hk).
    unfold wedge_of, mb_campaign. by rewrite E.
  - intros k k' x y Hx Hy Hne Hs. destruct (batches_kept_member _ _ _ _ Hk Hx) as (x0 & Hx0 & Ex).
    destruct (batches_kept_member _ _ _ _ Hk Hy) as (y0 & Hy0 & Ey).
    unfold mb_supplier, mb_reservation, mb_created_at in *. rewrite Ex, Ey in *. by eapply P4.
  - intros k c Hc'. destruct (batches_kept_campaign _ _ _ _ Hk Hc') as (c0 & Hc0 & K).
    rewrite (bt_identity _ _ K). by eapply P5.
Qed.

(** One member more. *)
Lemma paced_reserved vs db v m rq r db' cs c c' row :
  campaigns_ok db -> campaigns_ok (mkgdb cs (gdb_members db) (gdb_operations db) (gdb_events db)) ->
  wedges_told_apart vs -> v ∈ vs -> is_Some (rr_effective_mailbox_daily_cap rq) ->
  reserved_new db v m rq r db' cs c c' row -> paced vs db -> paced vs db'.
Proof.
  intros Hok Hok1 Htold Hv [cap Hcap] R [P1 P2 P3 P4 P5].
  pose proof (rn_pacing _ _ _ _ _ _ _ _ _ _ R cap Hcap) as Hpace. destruct R.
  destruct rn_created0 as [_ Hat].
  assert (Hday : forall n, created_on n row = bool_decide (day_of ZURICH (instant (rr_reserved_at rq)) = n))
    by (intros n; unfold created_on; by rewrite <- Hat).
  assert (Hinputs : forall k x, cs !! k = Some x -> ci_input (ca_identity x) ∈ vs).
  { intros k x Hx. destruct (rn_added0 k x Hx) as [H|H]; [by eapply P5 | by rewrite H]. }
  assert (Hwedge : fi_wedge (ci_input (ca_identity c)) = fi_wedge v).
  { apply Htold; [by eapply Hinputs | done|].
    destruct (gk_batch _ Hok1 _ _ rn_batch0) as [_ Hg _ _ _ _ _].
    apply is_open_spec in rn_open0 as (Hg' & _). congruence. }
  assert (Hid : forall k, (fun x => ca_identity x) <$> gdb_campaigns db' !! k = ca_identity <$> cs !! k).
  { intros k. rewrite rn_campaigns0. destruct (decide (rs_campaign_ref r = k)) as [<-|Hne].
    - rewrite lookup_insert_eq, rn_batch0. simpl. by rewrite (om_identity _ _ _ rn_one_more0).
    - by rewrite lookup_insert_ne. }
  assert (Hwold : forall x, x ∈ rows (gdb_members db) -> wedge_of db' x = wedge_of db x).
  { intros x [k Hk]%elem_of_rows. destruct (gk_member_campaign _ Hok k x Hk) as [b Hb].
    pose proof (Hid (mb_campaign x)) as Hi. rewrite (lookup_weaken _ _ _ _ Hb rn_kept0) in Hi.
    unfold wedge_of. rewrite Hb. destruct (gdb_campaigns db' !! mb_campaign x); [|done].
    simpl in *. by injection Hi as ->. }
  assert (Hwnew : wedge_of db' row = Some (fi_wedge v)).
  { pose proof (Hid (mb_campaign row)) as Hi. rewrite rn_campaign0, rn_batch0 in Hi.
    unfold wedge_of. rewrite rn_campaign0. destruct (gdb_campaigns db' !! rs_campaign_ref r); [|done].
    simpl in *. injection Hi as ->. by rewrite Hwedge. }
  assert (Hsup : mb_supplier row = rv_supplier_ref m) by (unfold mb_supplier; by rewrite rn_reservation0).
  split.
  - intros n Hn. rewrite rn_members0, count_rows_insert, Hday by done. case_bool_decide as E; simpl;
      [|by apply P1].
    destruct (require_pacing_Ok _ _ _ _ _ _ n Hok Hpace) as [H _]. destruct (H Hn E) as (H1 & _). lia.
  - intros n mailbox Hn. rewrite rn_members0, count_rows_insert, Hday by done. unfold from_mailbox at 1.
    rewrite rn_reservation0. case_bool_decide as E; simpl; [|by apply P2].
    case_bool_decide as Em; simpl; [|by apply P2]. subst mailbox.
    destruct (require_pacing_Ok _ _ _ _ _ _ n Hok Hpace) as [H _]. destruct (H Hn E) as (_ & H2 & _). lia.
  - intros n w Hn. rewrite rn_members0, count_rows_insert, Hday by done.
    rewrite (count_of_ext (fun x => created_on n x && in_wedge db' w x)
               (fun x => created_on n x && in_wedge db w x))
      by (intros x Hx; unfold in_wedge; by rewrite Hwold).
    unfold in_wedge at 1. rewrite Hwnew. case_bool_decide as E; simpl; [|by apply P3].
    case_bool_decide as Ew; simpl; [|by apply P3]. injection Ew as <-.
    destruct (require_pacing_Ok _ _ _ _ _ _ n Hok Hpace) as [H _]. destruct (H Hn E) as (_ & _ & H3). lia.
  - intros k k' x y. rewrite rn_members0. unfold THIRTY_DAYS.
    destruct (require_pacing_Ok _ _ _ _ _ _ 0 Hok Hpace) as [_ H].
    intros [[<- <-]|[Hk Hx]]%lookup_insert_Some [[<- <-]|[Hk' Hy]]%lookup_insert_Some Hne Hs; [done| | |].
    + specialize (H k' y Hy ltac:(congruence)). unfold THIRTY_DAYS in H. rewrite <- Hat. lia.
    + specialize (H k x Hx ltac:(congruence)). unfold THIRTY_DAYS in H. rewrite <- Hat. lia.
    + by eapply P4.
  - intros k x Hx. pose proof (Hid k) as Hi. rewrite Hx in Hi. simpl in Hi.
    destruct (cs !! k) as [y|] eqn:Ey; [|done]. injection Hi as ->. by eapply Hinputs.
Qed.

Lemma paced_run vs ops db :
  wedges_told_apart vs -> Forall capped ops -> inputs ops ⊆ vs ->
  campaigns_ok db -> refs_fingerprints db -> paced vs db -> paced vs (apply_campaign_ops ops db).
Proof.
  intros Htold. revert db. induction ops as [|op ops IH]; intros db Hcap Hin Hok Hfp Hp; [done|].
  apply Forall_cons in Hcap as [Hc Hcap].
  destruct (apply_campaign_op_ok op db Hok Hfp) as [Hok' Hfp'].
  apply IH; [done | | done | done |].
  - intros v Hv. apply Hin. destruct op; simpl; set_solver.
  - destruct (apply_campaign_op_kept op db (gk_operation_ref _ Hok)) as [(refs & v & m & rq & ->)|[Hk _]];
      [|by eapply paced_kept].
    simpl. destruct (reserve_member refs db v m rq) as [[r d]|] eqn:E; simpl; [|done].
    apply reserve_member_Ok in E as [(e & b & _ & _ & _ & _ & Hs)|(cs & c & c' & row & R & _ & Hok1)];
      [by eapply paced_kept, Hp; apply same_batches_kept| |done..].
    eapply (paced_reserved vs db v m rq); try done. apply Hin. simpl. set_solver.
Qed.
End pacing.
