(* ===== verification/CampaignWebhooks.v ===== *)
(** CampaignWebhooks: the events of the provider, as [campaigns/webhooks.py]
    takes them in - the documented fields and their normal form, the keyed
    fingerprints under which an event is known, the campaign and the member
    it concerns, and what it changes of them, of the suppressions and of the
    journal.  An event is one transaction, which an exception rolls back. *)

From S2P Require Import Prelude PyStr PyText PyDatetime PyJson PyZoneInfo Database.
From S2P Require Import AcquisitionContracts AcquisitionStateMachine AcquisitionStore.
From S2P Require Import ComplianceContracts Suppression ContactContracts ContactStore.
From S2P Require Import ComplianceStore CampaignContracts CampaignFactory CampaignStore.
From Stdlib Require Import Ascii String.

Local Open Scope string_scope.
Local Open Scope Z_scope.
Local Open Scope list_scope.

(** * Events *)

(** [campaigns/webhooks.py:45-55 ProviderEventType] *)
Inductive ProviderEventType : Type :=
| EMAIL_SENT | EMAIL_BOUNCED | EMAIL_OPENED | EMAIL_LINK_CLICKED | LINK_CLICKED | REPLY_RECEIVED
| AUTO_REPLY_RECEIVED | LEAD_UNSUBSCRIBED | CAMPAIGN_COMPLETED | ACCOUNT_ERROR.
#[export] Instance ProviderEventType_eq_dec : EqDecision ProviderEventType.
Proof. solve_decision. Defined.

Definition event_types : list ProviderEventType :=
  [EMAIL_SENT; EMAIL_BOUNCED; EMAIL_OPENED; EMAIL_LINK_CLICKED; LINK_CLICKED; REPLY_RECEIVED;
   AUTO_REPLY_RECEIVED; LEAD_UNSUBSCRIBED; CAMPAIGN_COMPLETED; ACCOUNT_ERROR].

(** [campaigns/webhooks.py:45-55 ProviderEventType] *)
Definition provider_event_value (t : ProviderEventType) : string :=
  match t with
  | EMAIL_SENT => "email_sent" | EMAIL_BOUNCED => "email_bounced" | EMAIL_OPENED => "email_opened"
  | EMAIL_LINK_CLICKED => "email_link_clicked" | LINK_CLICKED => "link_clicked"
  | REPLY_RECEIVED => "reply_received" | AUTO_REPLY_RECEIVED => "auto_reply_received"
  | LEAD_UNSUBSCRIBED => "lead_unsubscribed" | CAMPAIGN_COMPLETED => "campaign_completed"
  | ACCOUNT_ERROR => "account_error"
  end.

(** [ProviderEventType(value)], [None] where it raises. *)
Definition provider_event_of (value : string) : option ProviderEventType :=
  first_match (fun t => bool_decide (provider_event_value t = value)) event_types.

(** [campaigns/webhooks.py:66-78 validate_webhook_subscription]; the message does
    not list the unknown events. *)
Definition validate_webhook_subscription (types : list string)
    (capability : ResponseIngressCapability) : result unit :=
  require! forallb (fun t => truthy (provider_event_of t)) types
  else ValueError "unknown Instantly webhook events" in
  require! negb (match capability with NONE => true | SPEC027_V1 => false end
                 && in_list "reply_received" types)
  else ValueError "reply_received requires response_ingress_capability SPEC027_V1" in
  Ok tt.

(** [campaigns/webhooks.py:82-84 WebhookFingerprintKeyring] *)
Record WebhookFingerprintKeyring : Type := mkWebhookKeyring {
  wk_current_key_version : string;
  wk_keys : gmap string string;
}.

(** [campaigns/webhooks.py:86-90 __post_init__] *)
Definition webhook_keyring_build (k : WebhookFingerprintKeyring)
  : result WebhookFingerprintKeyring :=
  require! match wk_keys k !! wk_current_key_version k with
           | Some key => nonempty key
           | None => false
           end
  else ValueError "current webhook fingerprint key must be available" in
  require! zlength (rows (wk_keys k)) <=? 8
  else ValueError "webhook fingerprint keyring is too large" in
  Ok k.

(** [campaigns/webhooks.py:123-142 _InstantlyWebhookDocumentedFields]: the
    documented fields of a body, the others being discarded. *)
Record documented_fields : Type := mkDocumented {
  df_event_type : string;
  df_timestamp : datetime;
  df_workspace : string;
  df_campaign_id : string;
  df_campaign_name : string;
  df_lead_email : option string;
  df_email_account : option string;
  df_unibox_url : option string;
  df_reply_subject : option string;
  df_reply_text_snippet : option string;
  df_reply_text : option string;
  df_reply_html : option string;
  df_step : option Z;
  df_variant : option Z;
  df_email_id : option string;
}.

(** [int | None], from 1 to 100. *)
Definition GOrdinal (field : string) (o : option Z) : result (option Z) :=
  opt_mapM (checked field (fun n => (1 <=? n) && (n <=? 100))) o.

(** [campaigns/webhooks.py:123-149 _InstantlyWebhookDocumentedFields] *)
Definition documented_validate (d : documented_fields) : result documented_fields :=
  let! type := uconstr "event_type" 1 100 (df_event_type d) in
  require! aware (df_timestamp d) else ValidationError "webhook timestamp must be timezone-aware" in
  let! workspace := uconstr "workspace" 1 128 (df_workspace d) in
  let! campaign := uconstr "campaign_id" 1 128 (df_campaign_id d) in
  let! name := uconstr "campaign_name" 1 256 (df_campaign_name d) in
  let! lead := opt_mapM (uconstr "lead_email" 0 320) (df_lead_email d) in
  let! account := opt_mapM (uconstr "email_account" 0 320) (df_email_account d) in
  let! unibox := opt_mapM (uconstr "unibox_url" 0 2048) (df_unibox_url d) in
  let! subject := opt_mapM (uconstr "reply_subject" 0 998) (df_reply_subject d) in
  let! snippet := opt_mapM (uconstr "reply_text_snippet" 0 4096) (df_reply_text_snippet d) in
  let! text := opt_mapM (uconstr "reply_text" 0 65536) (df_reply_text d) in
  let! html := opt_mapM (uconstr "reply_html" 0 65536) (df_reply_html d) in
  let! step := GOrdinal "step" (df_step d) in
  let! variant := GOrdinal "variant" (df_variant d) in
  let! email := opt_mapM (uconstr "email_id" 1 128) (df_email_id d) in
  Ok (mkDocumented type (df_timestamp d) workspace campaign name lead account unibox subject snippet
        text html step variant email).

(** [campaigns/webhooks.py:93-113 InstantlyWebhookPayload] *)
Record InstantlyWebhookPayload : Type := mkPayload {
  wp_event_type : option ProviderEventType;
  wp_event_type_transport_only : string;
  wp_timestamp : datetime;
  wp_provider_workspace_ref : string;
  wp_provider_campaign_id : string;
  wp_campaign_name_transport_only : string;
  wp_lead_email_transient : option string;
  wp_email_account_transient : option string;
  wp_unibox_url_transient : option string;
  wp_reply_subject_transient : option string;
  wp_reply_text_snippet_transient : option string;
  wp_reply_text_transient : option string;
  wp_reply_html_transient : option string;
  wp_step_if_present : option Z;
  wp_variant_if_present : option Z;
  wp_provider_email_event_id : option string;
}.

(** [campaigns/webhooks.py:93-120 InstantlyWebhookPayload] *)
Definition payload_validate (p : InstantlyWebhookPayload) : result InstantlyWebhookPayload :=
  let! type := uconstr "event_type_transport_only" 1 100 (wp_event_type_transport_only p) in
  require! aware (wp_timestamp p) else ValidationError "webhook timestamp must be timezone-aware" in
  let! workspace := uconstr "provider_workspace_ref" 1 128 (wp_provider_workspace_ref p) in
  let! campaign := uconstr "provider_campaign_id" 1 128 (wp_provider_campaign_id p) in
  let! name := uconstr "campaign_name_transport_only" 1 256 (wp_campaign_name_transport_only p) in
  let! lead := opt_mapM (uconstr "lead_email_transient" 0 320) (wp_lead_email_transient p) in
  let! account := opt_mapM (uconstr "email_account_transient" 0 320)
                    (wp_email_account_transient p) in
  let! unibox := opt_mapM (uconstr "unibox_url_transient" 0 2048) (wp_unibox_url_transient p) in
  let! subject := opt_mapM (uconstr "reply_subject_transient" 0 998)
                    (wp_reply_subject_transient p) in
  let! snippet := opt_mapM (uconstr "reply_text_snippet_transient" 0 4096)
                    (wp_reply_text_snippet_transient p) in
  let! text := opt_mapM (uconstr "reply_text_transient" 0 65536) (wp_reply_text_transient p) in
  let! html := opt_mapM (uconstr "reply_html_transient" 0 65536) (wp_reply_html_transient p) in
  let! step := GOrdinal "step_if_present" (wp_step_if_present p) in
  let! variant := GOrdinal "variant_if_present" (wp_variant_if_present p) in
  let! email := opt_mapM (uconstr "provider_email_event_id" 1 128)
                  (wp_provider_email_event_id p) in
  Ok (mkPayload (wp_event_type p) type (wp_timestamp p) workspace campaign name lead account unibox
        subject snippet text html step variant email).

(** [campaigns/webhooks.py:204-208 WebhookIngestResult] *)
Record WebhookIngestResult : Type := mkIngested {
  wr_event_fingerprint : string;
  wr_replayed : bool;
  wr_incident_code : option string;
  wr_response_ref : option string;
}.

(** * The service *)

(** The tables an event touches. *)
Record webhook_db : Type := mkwdb {
  wdb_campaigns : campaign_db;
  wdb_compliance : compliance_db;
  wdb_journal : acq_db;
}.

Definition on_campaigns (c : campaign_db) (db : webhook_db) : webhook_db :=
  mkwdb c (wdb_compliance db) (wdb_journal db).
Definition on_compliance (c : compliance_db) (db : webhook_db) : webhook_db :=
  mkwdb (wdb_campaigns db) c (wdb_journal db).
Definition on_journal (j : acq_db) (db : webhook_db) : webhook_db :=
  mkwdb (wdb_campaigns db) (wdb_compliance db) j.

(** [campaigns/webhooks.py:236-260 __init__]: its arguments.  The ingress of the responses
    and that of assisted prospects are other components, which keep tables
    of their own; [lower_trim] is what the database computes of an address,
    and the identifier is the one the journal draws for an event. *)
Record InstantlyWebhookService : Type := mkWebhookService {
  ws_workspace : string;
  ws_fingerprint_keyring : WebhookFingerprintKeyring;
  ws_suppression_keyring : SuppressionIdentityKeyring;
  ws_response_capability : ResponseIngressCapability;
  ws_response_ingress : option (string -> campaign_row -> member_row -> InstantlyWebhookPayload ->
                                datetime -> result string);
  ws_assisted : option (InstantlyWebhookPayload -> option (result WebhookIngestResult));
  ws_lower_trim : string -> string;
  ws_event_id : string;
}.

(** [campaigns/webhooks.py:247-251 __init__]: the check *)
Definition service_build (s : InstantlyWebhookService) : result InstantlyWebhookService :=
  require! negb (match ws_response_capability s with SPEC027_V1 => true | NONE => false end)
           || truthy (ws_response_ingress s)
  else ValueError "SPEC027_V1 requires a transactional response ingress" in
  Ok s.

Section webhooks.
Context `{Hash : HashLib} `{Hmac : HmacLib} `{DB : Database} `{Case : CaseData} `{Zone : ZoneInfo}.

(** [campaigns/webhooks.py:157-200 normalize_instantly_webhook_payload] *)
Definition normalize_instantly_webhook_payload (raw : documented_fields)
  : result InstantlyWebhookPayload :=
  let! d := documented_validate raw in
  let! lead := match df_lead_email d with
               | None => Ok None
               | Some email =>
                   match normalize_business_email email with
                   | Ok normalized => Ok (Some normalized)
                   | Raise (SuppressionIdentityUnavailable _) =>
                       Raise (ValueError "provider lead identity is unusable")
                   | Raise e => Raise e
                   end
               end in
  payload_validate
    (mkPayload (provider_event_of (df_event_type d)) (df_event_type d) (df_timestamp d)
       (df_workspace d) (df_campaign_id d) (df_campaign_name d) lead
       ((fun a => casefold (ustrip a)) <$> df_email_account d) (df_unibox_url d)
       (df_reply_subject d) (df_reply_text_snippet d) (df_reply_text d) (df_reply_html d)
       (df_step d) (df_variant d) (df_email_id d)).

(** * Fingerprints *)

Definition is_reply (p : InstantlyWebhookPayload) : bool :=
  match wp_event_type p with Some REPLY_RECEIVED | Some AUTO_REPLY_RECEIVED => true | _ => false end.

(** [campaigns/webhooks.py:532-558 _fingerprints]: what an event is known by,
    its content included when it is a reply that has one. *)
Definition stable_content (p : InstantlyWebhookPayload) (timestamp : datetime) : json :=
  let opt_int := opt_json JInt in
  let reply := [("reply_subject", wp_reply_subject_transient p);
                ("reply_text_snippet", wp_reply_text_snippet_transient p);
                ("reply_text", wp_reply_text_transient p);
                ("reply_html", wp_reply_html_transient p)] in
  JObj ([("version", JStr PROVIDER_EVENT_FINGERPRINT_VERSION);
         ("event_type", JStr (wp_event_type_transport_only p));
         ("workspace", JStr (wp_provider_workspace_ref p));
         ("campaign_id", JStr (wp_provider_campaign_id p));
         ("email_id", JOptStr (wp_provider_email_event_id p));
         ("step", opt_int (wp_step_if_present p)); ("variant", opt_int (wp_variant_if_present p));
         ("timestamp", JStr (isoformat timestamp));
         ("transient_identity",
            JObj [("lead_email", JOptStr (wp_lead_email_transient p));
                  ("email_account", JOptStr (wp_email_account_transient p));
                  ("unibox_url", JOptStr (wp_unibox_url_transient p))])]
        ++ (if is_reply p && existsb (fun f => truthy f.2) reply
            then [("transient_reply_content", JObj (map (fun f => (f.1, JOptStr f.2)) reply))]
            else [])).

Definition _EVENT_DOMAIN : string := "kivou:instantly-provider-event:v2" +:+ NUL.

(** [campaigns/webhooks.py:531-567 _fingerprints] *)
Definition _fingerprints (self : InstantlyWebhookService) (p : InstantlyWebhookPayload)
  : result (gmap string string) :=
  let! timestamp := astimezone_utc (wp_timestamp p) in
  let! encoded := dumps (stable_content p timestamp) in
  Ok ((fun key => hmac_sha256_hexdigest key (_EVENT_DOMAIN +:+ encoded))
      <$> wk_keys (ws_fingerprint_keyring self)).

Definition event_ref_of (fingerprint : string) : string :=
  semantic_fingerprint
    (JObj [("kind", JStr "provider-event-ref-v1"); ("fingerprint", JStr fingerprint)]).

(** * The campaign and the member of an event *)

(** [campaigns/webhooks.py:282-291 ingest]: the identifier of the provider is
    unique. *)
Definition bound_campaign (db : campaign_db) (p : InstantlyWebhookPayload) : result campaign_row :=
  option_to_result (WebhookBindingError "unknown provider campaign binding")
    (first_match (fun r => bool_decide (ca_provider_campaign_id r = Some (wp_provider_campaign_id p))
                           && bool_decide (ci_provider_workspace_ref (ca_identity r)
                                           = wp_provider_workspace_ref p))
       (rows (gdb_campaigns db))).

(** [campaigns/webhooks.py:298-314 ingest]: a member bound to the address under one
    of the keys. *)
Definition transport_bound (campaign_ref : string) (identities : gmap string string)
    (r : member_row) : bool :=
  bool_decide (mb_campaign r = campaign_ref)
  && match mb_transport_recipient_key_version r, mb_transport_recipient_identity r with
     | Some version, Some identity => bool_decide (identities !! version = Some identity)
     | _, _ => false
     end.

(** [campaigns/webhooks.py:317-344 ingest]: a member whose contact has the
    address, bound to none of its own. *)
Definition contact_bound (self : InstantlyWebhookService) (contacts : contact_db)
    (campaign_ref normalized : string) (r : member_row) : bool :=
  bool_decide (mb_campaign r = campaign_ref)
  && negb (truthy (mb_transport_recipient_identity r))
  && negb (truthy (mb_transport_recipient_key_version r))
  && match kdb_contacts contacts !! rv_contact_ref (mb_reservation r) with
     | Some c => bool_decide (ws_lower_trim self (co_business_email (kr_observation c)) = normalized)
     | None => false
     end.

(** [campaigns/webhooks.py:510-529 _matches_transport_identity]; the address of
    the contact is read only for a member bound to none. *)
Definition _matches_transport_identity (contacts : contact_db) (candidate : member_row)
    (normalized_email : string) (identities : gmap string string) : result bool :=
  match mb_transport_recipient_identity candidate, mb_transport_recipient_key_version candidate with
  | None, None =>
      let! contact := option_to_result (KeyError "discovered_business_email")
                        (kdb_contacts contacts !! rv_contact_ref (mb_reservation candidate)) in
      let! email := normalize_business_email (co_business_email (kr_observation contact)) in
      Ok (bool_decide (email = normalized_email))
  | Some stored_identity, Some stored_version =>
      let! observed := option_to_result
                         (WebhookBindingError "transport recipient key is unavailable")
                         (identities !! stored_version) in
      Ok (bool_decide (observed = stored_identity))
  | _, _ => Raise (WebhookBindingError "transport recipient binding is incomplete")
  end.

(** The list comprehension, whose condition may raise. *)
Fixpoint filter_result {A} (f : A -> result bool) (l : list A) : result (list A) :=
  match l with
  | [] => Ok []
  | x :: l' =>
      let! b := f x in
      let! rest := filter_result f l' in
      Ok (if (b : bool) then x :: rest else rest)
  end.

(** [campaigns/webhooks.py:293-357 ingest]: the member of the address.  Of more than
    two candidates the database returns any two. *)
Definition bound_member (self : InstantlyWebhookService) (db : webhook_db) (campaign_ref : string)
    (normalized : string) : result (option member_row) :=
  let! identities := identities_for_email (ws_suppression_keyring self) normalized
                       SUPPRESSION_SCOPE in
  let members := rows (gdb_members (wdb_campaigns db)) in
  let contacts := qdb_contacts (wdb_compliance db) in
  let bound := take 2 (List.filter (transport_bound campaign_ref identities) members) in
  let candidates :=
    if list_truthy bound then bound
    else take 2 (List.filter (contact_bound self contacts campaign_ref normalized) members) in
  let! matching := filter_result
    (fun c => _matches_transport_identity contacts c normalized identities) candidates in
  match matching with
  | [] => Ok None
  | [m] => Ok (Some m)
  | _ => Raise (WebhookBindingError "provider lead identity is ambiguous")
  end.

(** [campaigns/webhooks.py:358-361 ingest]: the types of events that need one. *)
Definition member_required (p : InstantlyWebhookPayload) : bool :=
  match wp_event_type p with
  | None | Some CAMPAIGN_COMPLETED | Some ACCOUNT_ERROR => false
  | Some _ => true
  end.

(** [campaigns/webhooks.py:292-363 ingest]: the member, and that it is known. *)
Definition find_member (self : InstantlyWebhookService) (db : webhook_db) (campaign : campaign_row)
    (p : InstantlyWebhookPayload) : result (option member_row) :=
  let! member := match wp_lead_email_transient p with
                 | Some normalized => bound_member self db (ca_ref campaign) normalized
                 | None => Ok None
                 end in
  require! negb (member_required p && negb (truthy member))
  else WebhookBindingError "unknown provider lead binding" in
  Ok member.

(** * The record of an event *)

(** [campaigns/webhooks.py:584-619 _insert_event]: the values. *)
Definition new_event (fingerprint key_version : string) (p : InstantlyWebhookPayload)
    (campaign : campaign_row) (member : option member_row) (received_at : datetime)
  : provider_event_row :=
  mkProviderEvent (event_ref_of fingerprint) fingerprint PROVIDER_EVENT_FINGERPRINT_VERSION
    key_version
    match wp_event_type p with Some t => provider_event_value t | None => "unknown" end
    (wp_provider_workspace_ref p) (wp_provider_campaign_id p) (member ≫= mb_provider_lead_id)
    (wp_provider_email_event_id p) (ca_ref campaign) (mb_ref <$> member) (mb_opportunity <$> member)
    (rv_contact_ref ∘ mb_reservation <$> member)
    match wp_step_if_present p with Some n => if in_list n [1; 2] then Some n else None | None => None end
    (str_int <$> wp_variant_if_present p) (wp_timestamp p) received_at
    (rv_mailbox_ref ∘ mb_reservation <$> member) None ACCEPTED None None.

(** [persistence/schema.py:2389-2428 acquisition_provider_event]: the columns that
    can be too long, and the times. *)
Definition event_columns (r : provider_event_row) : result provider_event_row :=
  let! _ := uvarchar "provider_event_ref" 64 (pe_provider_event_ref r) in
  let! _ := uvarchar "canonical_event_fingerprint" 64 (pe_canonical_event_fingerprint r) in
  let! _ := uvarchar "fingerprint_key_version" 64 (pe_fingerprint_key_version r) in
  let! _ := uvarchar "provider_workspace_ref" 128 (pe_provider_workspace_ref r) in
  let! _ := uvarchar "provider_campaign_id" 128 (pe_provider_campaign_id r) in
  let! _ := opt_mapM (uvarchar "provider_lead_id" 128) (pe_provider_lead_id r) in
  let! _ := opt_mapM (uvarchar "provider_email_event_id" 128) (pe_provider_email_event_id r) in
  let! _ := opt_mapM (uvarchar "variant" 32) (pe_variant r) in
  let! _ := opt_mapM (uvarchar "mailbox_ref" 256) (pe_mailbox_ref r) in
  Ok (mkProviderEvent (pe_provider_event_ref r) (pe_canonical_event_fingerprint r)
        (pe_fingerprint_version r) (pe_fingerprint_key_version r) (pe_provider_event_type r)
        (pe_provider_workspace_ref r) (pe_provider_campaign_id r) (pe_provider_lead_id r)
        (pe_provider_email_event_id r) (pe_campaign_ref r) (pe_member_ref r)
        (pe_acquisition_opportunity_id r) (pe_contact_ref r) (pe_step r) (pe_variant r)
        (timestamptz (pe_occurred_at r)) (timestamptz (pe_received_at r)) (pe_mailbox_ref r)
        (pe_transport_status r) (pe_resolution_state r) (pe_incident_code r)
        (pe_recorded_acquisition_event_id r)).

Definition known_event (db : campaign_db) (fingerprint : string) : bool :=
  existsb (fun e => bool_decide (pe_canonical_event_fingerprint e = fingerprint))
    (rows (gdb_events db)).

(** [campaigns/webhooks.py:569-625 _insert_event], with [insert_if_absent]: the
    fingerprint is unique, and the other constraints hold or raise. *)
Definition _insert_event (db : webhook_db) (values : provider_event_row)
  : result (bool * webhook_db) :=
  let! row := event_columns values in
  let tables := wdb_campaigns db in
  if known_event tables (pe_canonical_event_fingerprint row) then Ok (false, db)
  else
    let! _ := check_constraint "acquisition_provider_event_pkey"
      (negb (truthy (gdb_events tables !! pe_provider_event_ref row))) in
    let! _ := check_constraint "acquisition_provider_event_fkey"
      (truthy (gdb_campaigns tables !! pe_campaign_ref row)
       && match pe_member_ref row with
          | Some m => truthy (gdb_members tables !! m)
          | None => true
          end
       && match pe_acquisition_opportunity_id row with
          | Some o => truthy (db_opportunities (wdb_journal db) !! o)
          | None => true
          end) in
    Ok (true, on_campaigns
                (with_provider_events (<[pe_provider_event_ref row := row]> (gdb_events tables)) tables)
                db).

(** * What an event changes *)

(** [UPDATE acquisition_campaign_member SET ... WHERE member_ref = ...] *)
Definition set_member (db : campaign_db) (member_ref : string) (f : member_row -> member_row)
  : result campaign_db :=
  match gdb_members db !! member_ref with
  | None => Ok db
  | Some r => let! _ := member_checks (f r) in
              Ok (with_members (<[member_ref := f r]> (gdb_members db)) db)
  end.

(** [campaigns/webhooks.py:804-814 _stop_member]: its values. *)
Definition stopped_member (reason : string) (now : datetime) (r : member_row) : member_row :=
  mkMember (mb_identity r) (mb_provider_lead_id r) (mb_provider_binding_fingerprint r)
    (mb_transport_recipient_identity r) (mb_transport_recipient_key_version r)
    (mb_step_1_sent_at r) (mb_step_2_due_at r) (mb_sequence_timing_fingerprint r)
    (if bool_decide (mb_execution_state r = MemberSENT) then MemberSENT else MemberSTOPPED)
    SequenceSTOPPED (Some reason) (mb_incident_code r) (mb_queue_event_id r)
    (mb_action_clear_event_id r) (mb_sent_event_id r) (mb_step_1_provider_event_ref r)
    (mb_step_2_provider_event_ref r) (timestamptz now).

(** [campaigns/webhooks.py:644-655 _email_sent]: another truth of the first
    message. *)
Definition conflicting_member (incident : string) (now : datetime) (r : member_row) : member_row :=
  mkMember (mb_identity r) (mb_provider_lead_id r) (mb_provider_binding_fingerprint r)
    (mb_transport_recipient_identity r) (mb_transport_recipient_key_version r)
    (mb_step_1_sent_at r) (mb_step_2_due_at r) (mb_sequence_timing_fingerprint r)
    (mb_execution_state r) SequenceSTOPPED (mb_reason_code r) (Some incident) (mb_queue_event_id r)
    (mb_action_clear_event_id r) (mb_sent_event_id r) (mb_step_1_provider_event_ref r)
    (mb_step_2_provider_event_ref r) (timestamptz now).

(** What is known of the timing of a sequence: the sending, the due time of
    the second message and their fingerprint. *)
Definition timing : Type := (datetime * datetime * string)%type.

(** [campaigns/webhooks.py:732-746 _email_sent]: the first message was sent.  The
    timing is written when it is known. *)
Definition sent_member (sequence : MemberSequenceState) (incident event_id : option string)
    (known : option timing) (event_ref : string) (now : datetime) (r : member_row) : member_row :=
  let '(sent_at, due_at, fingerprint) :=
    match known with
    | Some (sent, due, fp) => (Some (timestamptz sent), Some (timestamptz due), Some fp)
    | None => (mb_step_1_sent_at r, mb_step_2_due_at r, mb_sequence_timing_fingerprint r)
    end in
  mkMember (mb_identity r) (mb_provider_lead_id r) (mb_provider_binding_fingerprint r)
    (mb_transport_recipient_identity r) (mb_transport_recipient_key_version r) sent_at due_at
    fingerprint MemberSENT sequence (mb_reason_code r) incident (mb_queue_event_id r)
    (mb_action_clear_event_id r) event_id (Some event_ref) (mb_step_2_provider_event_ref r)
    (timestamptz now).

(** [campaigns/webhooks.py:788-799 _email_sent]: the second message was sent. *)
Definition completed_member (incident : option string) (event_ref : string) (now : datetime)
    (r : member_row) : member_row :=
  mkMember (mb_identity r) (mb_provider_lead_id r) (mb_provider_binding_fingerprint r)
    (mb_transport_recipient_identity r) (mb_transport_recipient_key_version r)
    (mb_step_1_sent_at r) (mb_step_2_due_at r) (mb_sequence_timing_fingerprint r)
    (mb_execution_state r) SequenceCOMPLETED (mb_reason_code r) incident (mb_queue_event_id r)
    (mb_action_clear_event_id r) (mb_sent_event_id r) (mb_step_1_provider_event_ref r)
    (Some event_ref) (timestamptz now).

(** A pause of the campaign is planned. *)
Definition plan_pause (db : campaign_db) (campaign_ref fingerprint correlation_id : string)
    (now : datetime) : result campaign_db :=
  let! (_, db1) := plan_operation_in_transaction db PAUSE_CAMPAIGN campaign_ref None fingerprint
                     correlation_id now in
  Ok db1.

Definition hard_stop_fingerprint (campaign_ref reason : string) : string :=
  semantic_fingerprint
    (JObj [("kind", JStr "transport-hard-stop-v1"); ("campaign_ref", JStr campaign_ref);
           ("reason", JStr reason)]).

(** [campaigns/webhooks.py:803-842 _stop_member] *)
Definition _stop_member (db : campaign_db) (campaign : campaign_row) (member : member_row)
    (now : datetime) (reason : string) : result campaign_db :=
  let! db1 := set_member db (mb_ref member) (stopped_member reason now) in
  let! db2 :=
    match mb_provider_lead_id member with
    | Some lead =>
        if nonempty lead then
          let! (_, db2) := plan_operation_in_transaction db1 PAUSE_LEAD (ca_ref campaign)
            (Some (mb_ref member))
            match mb_provider_binding_fingerprint member with
            | Some binding =>
                if nonempty binding then binding
                else rv_sequence_authorization_fingerprint (mb_reservation member)
            | None => rv_sequence_authorization_fingerprint (mb_reservation member)
            end
            ("transport-stop:" +:+ reason +:+ ":" +:+ mb_ref member) now in
          Ok db2
        else Ok db1
    | None => Ok db1
    end in
  plan_pause db2 (ca_ref campaign) (hard_stop_fingerprint (ca_ref campaign) reason)
    ("transport-stop:" +:+ reason +:+ ":" +:+ ca_ref campaign) now.

(** [campaigns/webhooks.py:657-678 _email_sent]: what is wrong with a first
    message, by the state of its member, then by its time. *)
Definition step_1_incident (campaign : campaign_row) (member : member_row)
    (occurred_at : datetime) : result (option string) :=
  let w := ca_window campaign in
  let! start := astimezone_utc (combine (sw_step_1_execution_date w) NINE (sw_timezone w)) in
  match mb_execution_state member with
  | MemberSTOPPED | MemberFAILED => Ok (Some "UNEXPECTED_EMAIL_SENT_AFTER_STOP")
  | MemberQUEUED =>
      Ok (classify_email_sent 1 occurred_at (Some start)
            (assume_utc (sw_step_1_authorization_deadline w))).2
  | _ => Ok (Some "STEP1_SENT_WITHOUT_QUEUE_AUTHORIZATION")
  end.

(** [campaigns/webhooks.py:684-694 _email_sent]: the window as it is read back. *)
Definition read_window (w : SequenceWindow) : SequenceWindow :=
  mkWindow (sw_timezone w) (sw_step_1_execution_date w)
    (assume_utc (sw_step_1_authorization_deadline w)) (sw_step_2_execution_date w)
    (assume_utc (sw_step_2_authorization_deadline w)).

(** [campaigns/webhooks.py:679-712 _email_sent]: the incident, the state of the
    sequence and its timing. *)
Definition step_1_timing (campaign : campaign_row) (member : member_row) (occurred_at : datetime)
    (incident : option string)
  : result (option string * MemberSequenceState * option timing) :=
  match incident with
  | Some _ => Ok (incident, SequenceSTOPPED, None)
  | None =>
      let! window := window_validate (read_window (ca_window campaign)) in
      match materialize_step_2_timing window occurred_at with
      | Raise (SequenceTimingInvariantViolation _) =>
          Ok (Some "SEQUENCE_TIMING_INVARIANT_VIOLATION", SequenceSTOPPED, None)
      | Raise e => Raise e
      | Ok due =>
          let! due_utc := astimezone_utc due in
          let! fingerprint := sequence_timing_fingerprint
            (rv_sequence_authorization_fingerprint (mb_reservation member)) occurred_at due
            (sw_step_2_authorization_deadline window) in
          Ok (None, WAITING_STEP2, Some (occurred_at, due_utc, fingerprint))
      end
  end.

(** [campaigns/webhooks.py:718-730 _email_sent]: the event of the journal. *)
Definition sent_request (current : AcquisitionOpportunity) (fingerprint : string)
    (occurred_at : datetime) : append_request :=
  mkRequest STATE_TRANSITIONED (op_stream_version current)
    ("instantly_email_sent_step1:" +:+ fingerprint) [("target_state", JStr "SENT")] EXTERNAL
    (Some "instantly") ["INSTANTLY_EMAIL_SENT"] ["provider-event:" +:+ fingerprint] None None None
    None None None None (Some occurred_at).

(** [campaigns/webhooks.py:713-731 _email_sent]: an opportunity in the queue is
    sent, in the journal. *)
Definition record_sent (self : InstantlyWebhookService) (journal : acq_db)
    (opportunity_id fingerprint : string) (occurred_at received_at : datetime)
  : result (option string * acq_db) :=
  let! current := get_opportunity_in_transaction journal opportunity_id in
  if bool_decide (op_state current = QUEUED) then
    let! (m, journal1) := append_in_transaction
      (mkenv received_at (ws_event_id self) EmptyString) journal
      (op_acquisition_opportunity_id current) (sent_request current fingerprint occurred_at) in
    Ok (Some (ev_event_id (AcquisitionStore.mr_event m)), journal1)
  else Ok (None, journal).

Definition live_safety_fingerprint (campaign : campaign_row) : string :=
  semantic_fingerprint
    (JObj [("kind", JStr "step2-live-safety-hold-v1"); ("campaign_ref", JStr (ca_ref campaign));
           ("step_2_execution_date",
              JStr (date_isoformat (sw_step_2_execution_date (ca_window campaign))))]).

Definition waits_for_step_1 (campaign_ref : string) (r : member_row) : bool :=
  bool_decide (mb_campaign r = campaign_ref) && bool_decide (mb_sequence_state r = PENDING_STEP1).

(** [campaigns/webhooks.py:747-773 _email_sent]: with the first message of the last
    member, the campaign is held. *)
Definition hold_when_last (db : campaign_db) (campaign : campaign_row) (now : datetime)
  : result campaign_db :=
  if count_of (waits_for_step_1 (ca_ref campaign)) (rows (gdb_members db)) =? 0 then
    plan_pause db (ca_ref campaign) (live_safety_fingerprint campaign)
      ("step2-safety-hold:" +:+ ca_ref campaign) now
  else Ok db.

(** [campaigns/webhooks.py:637-774 _email_sent]: the first message. *)
Definition step_1_sent (self : InstantlyWebhookService) (db : webhook_db)
    (p : InstantlyWebhookPayload) (campaign : campaign_row) (member : member_row)
    (fingerprint : string) (received_at : datetime)
  : result (option string * option string * webhook_db) :=
  match mb_step_1_sent_at member with
  | Some recorded =>
      if dt_eqb (assume_utc recorded) (wp_timestamp p) then Ok (None, mb_sent_event_id member, db)
      else
        let incident := "CONFLICTING_STEP1_TRANSPORT_TRUTH" in
        let! c := set_member (wdb_campaigns db) (mb_ref member)
                    (conflicting_member incident received_at) in
        Ok (Some incident, mb_sent_event_id member, on_campaigns c db)
  | None =>
      let! incident := step_1_incident campaign member (wp_timestamp p) in
      let! (incident, sequence_state, known) :=
        step_1_timing campaign member (wp_timestamp p) incident in
      let! (event_id, journal) := record_sent self (wdb_journal db) (mb_opportunity member)
                                    fingerprint (wp_timestamp p) received_at in
      let! c1 := set_member (wdb_campaigns db) (mb_ref member)
        (sent_member sequence_state incident event_id known (event_ref_of fingerprint)
           received_at) in
      let! c2 := hold_when_last c1 campaign received_at in
      Ok (incident, event_id, on_journal journal (on_campaigns c2 db))
  end.

(** [campaigns/webhooks.py:627-801 _email_sent] *)
Definition _email_sent (self : InstantlyWebhookService) (db : webhook_db)
    (p : InstantlyWebhookPayload) (campaign : campaign_row) (member : member_row)
    (fingerprint : string) (received_at : datetime)
  : result (option string * option string * webhook_db) :=
  match wp_step_if_present p with
  | Some 1 => step_1_sent self db p campaign member fingerprint received_at
  | Some 2 =>
      let incident :=
        (classify_email_sent 2 (wp_timestamp p) (assume_utc <$> mb_step_2_due_at member)
           (assume_utc (mi_step_2_authorization_deadline (mb_identity member)))).2 in
      let! c := set_member (wdb_campaigns db) (mb_ref member)
        (completed_member incident (event_ref_of fingerprint) received_at) in
      Ok (incident, None, on_campaigns c db)
  | _ => Ok (Some "PROVIDER_STEP_UNRESOLVED", None, db)
  end.

(** [campaigns/webhooks.py:405-418 ingest]: an unsubscription is a suppression of
    the contact, unless the address was another one. *)
Definition unsubscribe (self : InstantlyWebhookService) (db : webhook_db)
    (p : InstantlyWebhookPayload) (member : member_row) (fingerprint : string)
  : result (option string * webhook_db) :=
  match mb_transport_recipient_identity member with
  | Some _ => Ok (Some "QA_TRANSPORT_SUPPRESSION_NOT_PROPAGATED", db)
  | None =>
      let! (_, compliance) := record_for_contact_in_transaction
        (mkStore (ws_suppression_keyring self) SUPPRESSION_SCOPE) (wdb_compliance db)
        (rv_contact_ref (mb_reservation member)) UNSUBSCRIBE UNSUBSCRIBED
        ("suppression-evidence:" +:+ fingerprint) (wp_timestamp p) None None in
      Ok (None, on_compliance compliance db)
  end.

Definition account_error_fingerprint (campaign_ref : string) : string :=
  semantic_fingerprint
    (JObj [("kind", JStr "provider-account-error-stop-v1"); ("campaign_ref", JStr campaign_ref)]).

(** The reason a member is stopped for, by the type of the event; an error of
    the account stops no member: it pauses the whole campaign. *)
Definition stop_reason (t : ProviderEventType) : option string :=
  match t with
  | LEAD_UNSUBSCRIBED => Some "RECIPIENT_UNSUBSCRIBED"
  | REPLY_RECEIVED => Some "REPLY_RECEIVED"
  | AUTO_REPLY_RECEIVED => Some "AUTO_REPLY_RECEIVED"
  | EMAIL_BOUNCED => Some "PROVIDER_TRANSPORT_UNSAFE"
  | _ => None
  end.

Definition stop (db : webhook_db) (campaign : campaign_row) (member : member_row) (now : datetime)
    (reason : string) : result webhook_db :=
  let! c := _stop_member (wdb_campaigns db) campaign member now reason in Ok (on_campaigns c db).

(** [reserve_in_transaction] of the ingress of responses. *)
Definition reserve_response (self : InstantlyWebhookService) (fingerprint : string)
    (p : InstantlyWebhookPayload) (campaign : campaign_row) (member : member_row)
    (received_at : datetime) : result string :=
  match ws_response_ingress self with
  | Some reserve => reserve (event_ref_of fingerprint) campaign member p received_at
  | None => Raise AssertionError
  end.

(** What handling an event answers: its incident, its event in the journal
    and its response. *)
Record handled : Type := mkHandled {
  hd_incident : option string;
  hd_event_id : option string;
  hd_response : option string;
}.

(** [campaigns/webhooks.py:386-489 ingest]: by the type of the event. *)
Definition handle (self : InstantlyWebhookService) (db : webhook_db) (p : InstantlyWebhookPayload)
    (campaign : campaign_row) (member : option member_row) (fingerprint : string)
    (received_at : datetime) : result (handled * webhook_db) :=
  let with_member (k : member_row -> result (handled * webhook_db)) :=
    match member with Some m => k m | None => Raise AssertionError end in
  match wp_event_type p with
  | None => Ok (mkHandled (Some "UNKNOWN_PROVIDER_EVENT_TYPE") None None, db)
  | Some EMAIL_SENT =>
      with_member (fun m =>
        let! (incident, event_id, db1) := _email_sent self db p campaign m fingerprint received_at in
        Ok (mkHandled incident event_id None, db1))
  | Some LEAD_UNSUBSCRIBED =>
      with_member (fun m =>
        let! (incident, db1) := unsubscribe self db p m fingerprint in
        let! db2 := stop db1 campaign m received_at "RECIPIENT_UNSUBSCRIBED" in
        Ok (mkHandled incident None None, db2))
  | Some REPLY_RECEIVED =>
      with_member (fun m =>
        let! db1 := stop db campaign m received_at "REPLY_RECEIVED" in
        match ws_response_capability self with
        | NONE => Ok (mkHandled (Some "UNEXPECTED_REPLY_WITHOUT_RESPONSE_INGRESS") None None, db1)
        | SPEC027_V1 =>
            let! response := reserve_response self fingerprint p campaign m received_at in
            Ok (mkHandled None None (Some response), db1)
        end)
  | Some AUTO_REPLY_RECEIVED =>
      with_member (fun m =>
        let! db1 := stop db campaign m received_at "AUTO_REPLY_RECEIVED" in
        match ws_response_capability self with
        | NONE => Ok (mkHandled None None None, db1)
        | SPEC027_V1 =>
            let! response := reserve_response self fingerprint p campaign m received_at in
            Ok (mkHandled None None (Some response), db1)
        end)
  | Some EMAIL_BOUNCED =>
      with_member (fun m =>
        let! db1 := stop db campaign m received_at "PROVIDER_TRANSPORT_UNSAFE" in
        Ok (mkHandled None None None, db1))
  | Some ACCOUNT_ERROR =>
      let! c := plan_pause (wdb_campaigns db) (ca_ref campaign)
        (account_error_fingerprint (ca_ref campaign))
        ("provider-account-error:" +:+ ca_ref campaign) received_at in
      Ok (mkHandled None None None, on_campaigns c db)
  | Some CAMPAIGN_COMPLETED =>
      let tables := wdb_campaigns db in
      Ok (mkHandled None None None,
          on_campaigns
            (with_campaigns
               (alter (fun r =>
                    mkCampaign (ca_identity r) (ca_provider_campaign_id r)
                      (ca_current_provider_config_fingerprint r) LifecycleCOMPLETED
                      (ca_reserved_member_count r) (ca_first_member_reserved_at r)
                      (ca_membership_close_at r) (ca_membership_closed_at r)
                      (timestamptz received_at))
                  (ca_ref campaign) (gdb_campaigns tables)) tables) db)
  | Some _ => Ok (mkHandled None None None, db)
  end.

(** [campaigns/webhooks.py:490-502 ingest]: the record of the event, once it is
    handled. *)
Definition resolve_event (db : campaign_db) (p : InstantlyWebhookPayload) (fingerprint : string)
    (h : handled) : campaign_db :=
  with_provider_events
    ((fun e =>
        if bool_decide (pe_canonical_event_fingerprint e = fingerprint) then
          mkProviderEvent (pe_provider_event_ref e) (pe_canonical_event_fingerprint e)
            (pe_fingerprint_version e) (pe_fingerprint_key_version e) (pe_provider_event_type e)
            (pe_provider_workspace_ref e) (pe_provider_campaign_id e) (pe_provider_lead_id e)
            (pe_provider_email_event_id e) (pe_campaign_ref e) (pe_member_ref e)
            (pe_acquisition_opportunity_id e) (pe_contact_ref e) (pe_step e) (pe_variant e)
            (pe_occurred_at e) (pe_received_at e) (pe_mailbox_ref e) (pe_transport_status e)
            (if truthy (wp_event_type p) then PROCESSED else QUARANTINED) (hd_incident h)
            (hd_event_id h)
        else e) <$> gdb_events db) db.

(** [campaigns/webhooks.py:364-371 ingest]: the fingerprint under which the event
    is known. *)
Definition recorded_fingerprint (db : campaign_db) (fingerprints : gmap string string)
  : option string :=
  pe_canonical_event_fingerprint
    <$> first_match (fun e => in_list (pe_canonical_event_fingerprint e) (rows fingerprints))
          (rows (gdb_events db)).

(** [campaigns/webhooks.py:281-508 ingest]: the transaction. *)
Definition ingest_transaction (self : InstantlyWebhookService) (db : webhook_db)
    (p : InstantlyWebhookPayload) (fingerprints : gmap string string) (fingerprint : string)
    (received_at : datetime) : result (WebhookIngestResult * webhook_db) :=
  let! campaign := bound_campaign (wdb_campaigns db) p in
  let! member := find_member self db campaign p in
  match recorded_fingerprint (wdb_campaigns db) fingerprints with
  | Some existing => Ok (mkIngested existing true None None, db)
  | None =>
      let! (inserted, db1) := _insert_event db
        (new_event fingerprint (wk_current_key_version (ws_fingerprint_keyring self)) p campaign
           member received_at) in
      if (inserted : bool) then
        let! (h, db2) := handle self db1 p campaign member fingerprint received_at in
        Ok (mkIngested fingerprint false (hd_incident h) (hd_response h),
            on_campaigns (resolve_event (wdb_campaigns db2) p fingerprint h) db2)
      else Ok (mkIngested fingerprint true None None, db1)
  end.

Definition SEVEN_DAYS : Z := 7 * US_DAY.

(** [campaigns/webhooks.py:276-279 ingest]: an event of this workspace, received
    within a week, with the fingerprints it may be known under. *)
Definition ingest_payload (self : InstantlyWebhookService) (db : webhook_db)
    (p : InstantlyWebhookPayload) (received_at : datetime)
  : result (WebhookIngestResult * webhook_db) :=
  let! occurred_at := astimezone_utc (wp_timestamp p) in
  require! Z.abs (instant received_at - instant occurred_at) <=? SEVEN_DAYS
  else WebhookBindingError "Instantly event timestamp is outside the accepted bound" in
  let! fingerprints := _fingerprints self p in
  let version := wk_current_key_version (ws_fingerprint_keyring self) in
  let! fingerprint := option_to_result (KeyError version) (fingerprints !! version) in
  ingest_transaction self db p fingerprints fingerprint received_at.

(** [campaigns/webhooks.py:262-508 ingest] *)
Definition ingest (self : InstantlyWebhookService) (db : webhook_db) (raw : documented_fields)
    (received_at : datetime) : result (WebhookIngestResult * webhook_db) :=
  let! p := normalize_instantly_webhook_payload raw in
  require! bool_decide (wp_provider_workspace_ref p = ws_workspace self)
  else WebhookBindingError "Instantly workspace mismatch" in
  require! aware received_at else ValueError "webhook received_at must be timezone-aware" in
  match ws_assisted self ≫= (fun ingress => ingress p) with
  | Some answer => let! r := answer in Ok (r, db)
  | None => ingest_payload self db p received_at
  end.
End webhooks.
