(* ===== verification/CampaignTheorems.v ===== *)
(** CampaignTheorems: what the campaigns guarantee - batches that count their
    members and close, caps no run of reservations exceeds, one member per
    opportunity for good, one worker per attempt, and a second message only
    inside its authorised window. *)

From S2P Require Import Prelude PyStr PyText PyTextFacts PyDatetime PyDatetimeFacts PyJson.
From S2P Require Import PyZoneInfo Database AcquisitionEquiv AcquisitionStoreFacts.
From S2P Require Import ContactContracts ContactStore Suppression CampaignContracts.
From S2P Require Import CampaignFactory CampaignStore CampaignFacts.
From Stdlib Require Import Ascii String.
From Equations Require Import Equations.

Local Open Scope string_scope.
Local Open Scope Z_scope.
Local Open Scope list_scope.

Section theorems.
Context `{Hash : HashLib} `{DB : Database} `{Case : CaseData} `{Zone : ZoneInfo}.

Definition run_campaigns (ops : list campaign_op) : campaign_db :=
  apply_campaign_ops ops empty_campaign_db.

(** * Batches *)

(** Counting back from a generation, every one is there. *)
Lemma generations_below db n d : numbered db -> 1 <= n ->
  forall ref r, gdb_campaigns db !! ref = Some r -> ca_generation r = n + Z.of_nat d ->
  exists k b, gdb_campaigns db !! k = Some b /\ ca_group b = ca_group r /\ ca_generation b = n.
Proof.
  intros [_ Hn] Hn1. induction d as [|d IH]; intros ref r Hr Hd.
  - exists ref, r. repeat split; [done | lia].
  - destruct (Hn ref r Hr) as [_ H]. destruct (H ltac:(lia)) as (k & b & Hk & Eg & En).
    destruct (IH k b Hk ltac:(lia)) as (k' & b' & H1 & H2 & H3).
    exists k', b'. repeat split; [done | congruence | done].
Qed.

(** C15 (invariant).  After every sequence of operations of the store, and of
    updates of other processes between them, a batch counts exactly its
    members, at most ten of them; each was reserved before the end of the
    membership, fifteen minutes after the first; and the batches of a group
    are numbered from one on without a gap or a repetition. *)
Theorem batches_stay_bounded ops ref r :
  gdb_campaigns (run_campaigns ops) !! ref = Some r ->
  ca_reserved_member_count r = batch_size (run_campaigns ops) ref
  /\ batch_size (run_campaigns ops) ref <= maximum_members
  /\ (forall k m, gdb_members (run_campaigns ops) !! k = Some m -> mb_campaign m = ref ->
      exists first close, ca_first_member_reserved_at r = Some first
        /\ ca_membership_close_at r = Some close
        /\ instant close = instant first + maximum_assembly_seconds * US_SECOND
        /\ instant (mb_created_at m) < instant close)
  /\ (forall n, 1 <= n <= ca_generation r -> exists! k, exists b,
      gdb_campaigns (run_campaigns ops) !! k = Some b
      /\ ca_group b = ca_group r /\ ca_generation b = n).
Proof.
  intros Hr. destruct (runs_ok ops) as [[Hb [Hu Hn] _ _ _ _] _]. fold (run_campaigns ops) in *.
  destruct (Hb ref r Hr) as [B1 B2 B3 B4 B5 B6 _]. unfold campaign_checks in B4.
  apply result_bind_Ok in B4 as (u1 & C1 & B4). apply result_bind_Ok in B4 as (u2 & C2 & _).
  apply check_constraint_Ok in C1, C2. inv_result.
  split; [done|]. split; [fold (batch_size (run_campaigns ops) ref) in B3; unfold maximum_members; lia|].
  split.
  - intros k m Hm Hc. assert (Hsome : 1 <= ca_reserved_member_count r).
    { rewrite B3. destruct (decide (1 <= count_of (in_batch ref) (rows (gdb_members (run_campaigns ops)))))
        as [|Hnot]; [done|]. exfalso.
      assert (Hf : in_batch ref m = false)
        by (apply (count_of_zero _ (rows (gdb_members (run_campaigns ops)))); [lia | apply elem_of_rows; eauto]).
      by apply bool_decide_eq_false in Hf. }
    apply orb_true_iff in C2 as [C2|C2]; inv_result; [lia|].
    destruct (ca_first_member_reserved_at r) as [first|] eqn:Ef; [|done].
    destruct (ca_membership_close_at r) as [close|] eqn:Ec; [|done].
    exists first, close. repeat split; try done; [by apply B5 | by eapply B6].
  - intros n [Hn1 Hn2].
    destruct (generations_below (run_campaigns ops) n (Z.to_nat (ca_generation r - n)) (conj Hu Hn)
                Hn1 ref r Hr ltac:(lia)) as (k & b & Hk & Eg & En).
    exists k. split; [eauto|].
    intros k' (b' & Hk' & Eg' & En'). eapply Hu; [exact Hk | exact Hk'|..]; congruence.
Qed.

(** A batch that takes no more members. *)
Definition finished (r : campaign_row) : Prop :=
  truthy (ca_membership_closed_at r) = true \/ ca_reserved_member_count r = maximum_members.

(** A finished batch stays finished, with the members it has. *)
Definition same_size (ref : string) (db db' : campaign_db) : Prop :=
  (exists r', gdb_campaigns db' !! ref = Some r' /\ finished r')
  /\ batch_size db' ref = batch_size db ref.

Lemma finished_step op db ref r :
  campaigns_ok db -> refs_fingerprints db -> gdb_campaigns db !! ref = Some r -> finished r ->
  same_size ref db (apply_campaign_op op db).
Proof.
  intros Hok Hfp Hr Hfin. unfold same_size, batch_size.
  destruct (apply_campaign_op_kept op db (gk_operation_ref _ Hok)) as [(refs & v & m & rq & ->)|[Hk _]].
  - simpl. destruct (reserve_member refs db v m rq) as [[a d]|] eqn:E; simpl; [|eauto].
    apply reserve_member_Ok in E as [(e & b & _ & _ & _ & _ & [Hc Hm])|(cs & c & c' & row & R & _ & Hok1)];
      [rewrite Hc, Hm; eauto| |done..].
    destruct R. pose proof (lookup_weaken _ _ _ _ Hr rn_kept) as Hcs.
    destruct (decide (rs_campaign_ref a = ref)) as [<-|Hne].
    + exfalso. rewrite Hcs in rn_batch. injection rn_batch as ->.
      apply is_open_spec in rn_open as (_ & _ & H1 & H2 & _). destruct Hfin as [Hfin|Hfin].
      * by rewrite H1 in Hfin.
      * destruct (gk_batch _ Hok _ _ Hr) as [_ _ _ Hchk _ _ _]. unfold campaign_checks in Hchk.
        apply result_bind_Ok in Hchk as (u & Hu & _). apply check_constraint_Ok in Hu. inv_result.
        unfold maximum_members in Hfin. lia.
    + rewrite rn_campaigns, lookup_insert_ne, rn_members, count_rows_insert by done.
      split; [eauto|]. unfold in_batch at 1. rewrite bool_decide_eq_false_2; [done|]. congruence.
  - destruct Hk as [Hc Hm]. split.
    + specialize (Hc ref). rewrite Hr in Hc. inversion Hc as [? r' K E|]; subst. exists r'.
      split; [done|]. destruct Hfin as [Hfin|Hfin]; [left; by apply (bt_still _ _ K)|].
      right. by rewrite (bt_count _ _ K).
    + apply count_rows_related. intros k. specialize (Hm k). inversion Hm as [x x' E|]; constructor.
      unfold in_batch, mb_campaign. by rewrite E.
Qed.

(** C22 (safety).  A batch that was closed, by its tenth member, by its clock or
    otherwise, and a batch that counts ten members, never takes another one,
    whatever operations follow. *)
Theorem finished_batch_is_sealed ops later ref r :
  gdb_campaigns (run_campaigns ops) !! ref = Some r -> finished r ->
  batch_size (run_campaigns (ops ++ later)) ref = batch_size (run_campaigns ops) ref.
Proof.
  unfold run_campaigns, apply_campaign_ops. rewrite fold_left_app.
  fold (apply_campaign_ops ops empty_campaign_db). fold (run_campaigns ops).
  destruct (runs_ok ops) as [Hok Hfp]. fold (run_campaigns ops) in Hok, Hfp. intros Hr Hfin.
  revert Hok Hfp r Hr Hfin. generalize (run_campaigns ops) as db.
  induction later as [|op later IH]; intros db Hok Hfp r Hr Hfin; [done|]. simpl.
  destruct (finished_step op db ref r Hok Hfp Hr Hfin) as [(r' & Hr' & Hfin') Hsize].
  destruct (apply_campaign_op_ok op db Hok Hfp) as [Hok' Hfp'].
  by rewrite (IH _ Hok' Hfp' r' Hr' Hfin').
Qed.

(** * Pacing *)

(** C14 (bounds).  Over every sequence of operations whose reservations are
    given the capacity of their mailbox, on any day at most five members are
    reserved in all, three of one mailbox and three of one wedge, the days
    being those of the campaigns' cities, from the year 2000 on; and two
    members of one company are reserved more than thirty days apart, in
    whatever order.  It is assumed that the digest of a group of campaigns
    tells its wedge. *)
Theorem pacing_caps_hold ops n :
  Forall capped ops -> wedges_told_apart (inputs ops) -> DAY_2000 <= n ->
  let db := run_campaigns ops in
  let reserved f := count_of (fun m => created_on n m && f m) (rows (gdb_members db)) in
  reserved (fun _ => true) <= global_daily_cap pacing_policy
  /\ (forall mailbox, reserved (from_mailbox mailbox) <= mailbox_daily_cap pacing_policy)
  /\ (forall w, reserved (in_wedge db w) <= wedge_daily_cap pacing_policy)
  /\ (forall k k' m m', gdb_members db !! k = Some m -> gdb_members db !! k' = Some m' -> k <> k' ->
      mb_supplier m = mb_supplier m' ->
      30 * US_DAY < Z.abs (instant (mb_created_at m) - instant (mb_created_at m'))).
Proof.
  intros Hcap Htold Hn db reserved. destruct (runs_ok []) as [Hok Hfp].
  destruct (paced_run (inputs ops) ops empty_campaign_db) as [P1 P2 P3 P4 P5];
    [done.. | apply paced_empty |].
  fold db in P1, P2, P3, P4. unfold reserved. simpl global_daily_cap. repeat split.
  - rewrite (count_of_ext _ (created_on n)) by (intros; by rewrite andb_true_r). by apply P1.
  - intros mailbox. by apply P2.
  - intros w. by apply P3.
  - exact P4.
Qed.

(** * One member per opportunity *)

(** What was written once stays. *)
Definition persists (db db' : campaign_db) : Prop :=
  (forall k m, gdb_members db !! k = Some m ->
     exists m', gdb_members db' !! k = Some m' /\ mb_identity m' = mb_identity m)
  /\ (forall k c, gdb_campaigns db !! k = Some c ->
     exists c', gdb_campaigns db' !! k = Some c' /\ ca_identity c' = ca_identity c).

#[global] Instance persists_PreOrder : PreOrder persists.
Proof.
  split; [by intros db; split; eauto|]. intros a b c [M1 C1] [M2 C2]. split.
  - intros k m Hm. destruct (M1 k m Hm) as (m1 & H1 & E1). destruct (M2 k m1 H1) as (m2 & H2 & E2).
    exists m2. split; [done | congruence].
  - intros k m Hm. destruct (C1 k m Hm) as (m1 & H1 & E1). destruct (C2 k m1 H1) as (m2 & H2 & E2).
    exists m2. split; [done | congruence].
Qed.

Lemma batches_kept_persists db db' : batches_kept db db' -> persists db db'.
Proof.
  intros [Hc Hm]. split.
  - intros k m Hk. specialize (Hm k). rewrite Hk in Hm. inversion Hm; subst; eauto.
  - intros k c Hk. specialize (Hc k). rewrite Hk in Hc. inversion Hc as [x c' K E1 E2|].
    exists c'. split; [done | apply (bt_identity _ _ K)].
Qed.

Lemma reserved_new_persists db v m rq r db' cs c c' row :
  reserved_new db v m rq r db' cs c c' row -> persists db db'.
Proof.
  intros []. split.
  - intros k x Hk. exists x. rewrite rn_members, lookup_insert_ne; [done|]. congruence.
  - intros k x Hk. pose proof (lookup_weaken _ _ _ _ Hk rn_kept) as Hcs. rewrite rn_campaigns.
    destruct (decide (rs_campaign_ref r = k)) as [<-|Hne].
    + exists c'. rewrite lookup_insert_eq. split; [done|]. rewrite Hcs in rn_batch.
      injection rn_batch as ->. by apply om_identity in rn_one_more.
    + exists x. by rewrite lookup_insert_ne.
Qed.

Lemma reserve_member_persists refs db v m rq r db' :
  campaigns_ok db -> refs_fingerprints db -> reserve_member refs db v m rq = Ok (r, db') ->
  persists db db'.
Proof.
  intros Hok Hfp H.
  apply reserve_member_Ok in H as [(e & b & _ & _ & _ & _ & Hs)|(cs & c & c' & row & R & _)]; try done.
  - by apply batches_kept_persists, same_batches_kept.
  - by eapply reserved_new_persists.
Qed.

Lemma apply_campaign_ops_persists ops db :
  campaigns_ok db -> refs_fingerprints db -> persists db (apply_campaign_ops ops db).
Proof.
  revert db. induction ops as [|op ops IH]; intros db Hok Hfp; [reflexivity|]. simpl.
  destruct (apply_campaign_op_ok op db Hok Hfp) as [Hok' Hfp']. etrans; [|by apply IH].
  destruct (apply_campaign_op_kept op db (gk_operation_ref _ Hok)) as [(refs & v & m & rq & ->)|[Hk _]];
    [|by apply batches_kept_persists].
  simpl. destruct (reserve_member refs db v m rq) as [[r d]|] eqn:E; simpl; [|reflexivity].
  by eapply reserve_member_persists.
Qed.

(** The member an opportunity has. *)
Lemma member_of_unique db k m :
  campaigns_ok db -> gdb_members db !! k = Some m -> member_of db (mb_opportunity m) = Some m.
Proof.
  intros Hok Hk. destruct (member_of db (mb_opportunity m)) as [e|] eqn:E.
  - apply member_of_Some in E as [[k' Hk'] He].
    pose proof (gk_opportunity _ Hok _ _ _ _ Hk Hk' (eq_sym He)) as <-. congruence.
  - by destruct (member_of_None _ _ _ _ E Hk).
Qed.

(** The fields a repeated reservation must agree on. *)
Definition same_semantics (m m' : CampaignMemberReservation) : bool :=
  bool_decide (rv_input_fingerprint m = rv_input_fingerprint m')
  && bool_decide (rv_envelope_fingerprint m = rv_envelope_fingerprint m')
  && bool_decide (rv_policy_action_fingerprint m = rv_policy_action_fingerprint m').

Lemma same_semantics_input m m' :
  same_semantics m m' = true -> rv_input_fingerprint m = rv_input_fingerprint m'.
Proof. unfold same_semantics. rewrite !andb_true_iff, !bool_decide_eq_true. tauto. Qed.

Lemma same_member_semantics e ref m :
  same_member e ref m = true ->
  mb_ref e = ref /\ forall m', same_semantics (mb_reservation e) m' = same_semantics m m'.
Proof.
  unfold same_member. rewrite !andb_true_iff, !bool_decide_eq_true. intros [[[H1 H2] H3] H4].
  split; [done|]. intros m'. unfold same_semantics. by rewrite H2, H3, H4.
Qed.

(** A reservation leaves a member of its opportunity, with its semantics. *)
Lemma reserve_member_recorded refs db v m rq r db' :
  campaigns_ok db -> refs_fingerprints db -> reserve_member refs db v m rq = Ok (r, db') ->
  exists e c, gdb_members db' !! rs_member_ref r = Some e /\ mb_ref e = rs_member_ref r
    /\ mb_opportunity e = rv_acquisition_opportunity_id m
    /\ rs_member_ref r = member_ref_of (rv_acquisition_opportunity_id m)
    /\ (forall m', same_semantics (mb_reservation e) m' = same_semantics m m')
    /\ mb_campaign e = rs_campaign_ref r /\ gdb_campaigns db' !! rs_campaign_ref r = Some c
    /\ ca_generation c = rs_batch_generation r.
Proof.
  intros Hok Hfp H.
  apply reserve_member_Ok in H as [(e & c & He & Hs & Hc & -> & [Sc Sm])|(cs & c & c' & row & [] & _)];
    try done.
  - apply member_of_Some in He as [[k Hk] Hopp]. exists e, c. rewrite Sc, Sm. simpl.
    apply same_member_semantics in Hs as [Hr Hs]. rewrite (gk_member_ref _ Hok k e Hk) in *.
    by subst k.
  - destruct rn_member_ref as [Hr1 Hr2]. exists row, c'.
    rewrite rn_members, rn_campaigns, Hr1, !lookup_insert_eq, rn_generation.
    repeat split; try done.
    + unfold mb_opportunity. by rewrite rn_reservation.
    + by rewrite rn_reservation.
    + unfold ca_generation. by rewrite (om_identity _ _ _ rn_one_more).
Qed.

(** The operations a reservation plans for its member and its batch. *)
Definition initial_keys (config campaign_ref member_ref input : string) : list string :=
  [operation_key_of CREATE_CAMPAIGN campaign_ref None config;
   operation_key_of CONFIGURE_CAMPAIGN campaign_ref None config;
   operation_key_of ADD_LEAD campaign_ref (Some member_ref) input].

(** Nothing but the ledger changed, and it got at most operations not yet
    tried, under some of [keys]. *)
Definition plans_only (keys : list string) (db db' : campaign_db) : Prop :=
  exists operations, db' = with_operations operations db /\ gdb_operations db ⊆ operations
    /\ forall k row, operations !! k = Some row ->
         gdb_operations db !! k = Some row \/ (k ∈ keys /\ oq_state row = PLANNED).

#[export] Instance plans_only_preorder keys : PreOrder (plans_only keys).
Proof.
  split.
  - intros db. exists (gdb_operations db). split; [by destruct db|]. auto.
  - intros a b c (ops & -> & S1 & N1) (ops' & -> & S2 & N2). cbn [with_operations gdb_operations] in *.
    exists ops'. split; [done|]. split; [by etrans|].
    intros k row [Hk|Hk]%N2; [by apply N1 | by right].
Qed.

Lemma plan_if_absent_only keys db kind ref m fp corr now db' :
  operation_key_of kind ref m fp ∈ keys -> plan_if_absent db kind ref m fp corr now = Ok db' ->
  plans_only keys db db'.
Proof.
  unfold plan_if_absent. intros Hin. destruct (truthy _); [by intros [= <-]|].
  intros (-> & Hnew & _)%insert_operation_Ok. eexists. split; [reflexivity|].
  split; [by apply insert_subseteq|]. intros k row [[<- <-]|[_ Hk]]%lookup_insert_Some; auto.
Qed.

Lemma plan_for_member_only db rq ref member_ref m db' :
  plan_for_member db rq ref member_ref m = Ok db' ->
  plans_only (initial_keys (rr_desired_provider_config_fingerprint rq) ref member_ref
    (rv_input_fingerprint m)) db db'.
Proof.
  unfold plan_for_member, _plan_initial_operations. destruct (rr_operation_correlation_id rq);
    [|by intros [= <-]]. intros H. inv_result.
  etrans; [eapply plan_if_absent_only; [|exact Hv]; apply list_elem_of_In; simpl; auto|].
  etrans; [eapply plan_if_absent_only; [|exact Hv0]; apply list_elem_of_In; simpl; auto|].
  eapply plan_if_absent_only; [|exact H]; apply list_elem_of_In; simpl; auto.
Qed.

(** An operation is in the ledger once it was planned, and is then not planned
    again. *)
Lemma select_keyed db key :
  operations_keyed db ->
  truthy (select_by_operation_key db key) = true <-> is_Some (gdb_operations db !! key).
Proof.
  intros Hkeyed. unfold select_by_operation_key. split.
  - destruct (first_match _ _) as [row|] eqn:E; [|done]. intros _.
    apply first_match_Some in E as [Hin Ek]. apply elem_of_rows in Hin as [k Hk].
    apply bool_decide_eq_true in Ek. destruct (Hkeyed k row Hk) as [_ E]. exists row. congruence.
  - intros [row Hk]. destruct (first_match _ _) eqn:E; [done|].
    assert (Hin : row ∈ rows (gdb_operations db)) by (apply elem_of_rows; eauto).
    pose proof (first_match_None _ _ _ E Hin) as Hf. apply bool_decide_eq_false in Hf.
    by destruct Hf, (Hkeyed key row Hk).
Qed.

Lemma plan_if_absent_planned db kind ref m fp corr now db' :
  operations_keyed db -> plan_if_absent db kind ref m fp corr now = Ok db' ->
  is_Some (gdb_operations db' !! operation_key_of kind ref m fp).
Proof.
  unfold plan_if_absent. intros Hkeyed. destruct (truthy _) eqn:E.
  - intros [= <-]. by apply select_keyed in E.
  - intros (-> & _)%insert_operation_Ok. cbn [with_operations gdb_operations].
    change (oq_ref _) with (operation_key_of kind ref m fp). rewrite lookup_insert_eq. eauto.
Qed.

Definition planned (db : campaign_db) (keys : list string) : Prop :=
  Forall (fun key => is_Some (gdb_operations db !! key)) keys.

Lemma planned_kept db db' keys :
  gdb_operations db ⊆ gdb_operations db' -> planned db keys -> planned db' keys.
Proof.
  intros Hs H. eapply Forall_impl; [exact H|]. intros key [row Hk]. exists row. by eapply lookup_weaken.
Qed.

Lemma plan_for_member_planned db rq ref member_ref m db' :
  operations_keyed db -> is_Some (rr_operation_correlation_id rq) ->
  plan_for_member db rq ref member_ref m = Ok db' ->
  planned db' (initial_keys (rr_desired_provider_config_fingerprint rq) ref member_ref
    (rv_input_fingerprint m)).
Proof.
  intros K0 [corr Ec]. unfold plan_for_member, _plan_initial_operations. rewrite Ec. intros H. inv_result.
  pose proof (plan_if_absent_grows _ _ _ _ _ _ _ _ Hv) as [K1 _].
  pose proof (plan_if_absent_grows _ _ _ _ _ _ _ _ Hv0) as [K2 G2].
  pose proof (plan_if_absent_grows _ _ _ _ _ _ _ _ H) as [_ G3].
  apply plan_if_absent_planned in Hv, Hv0, H; auto.
  repeat constructor; [destruct Hv as [x Hx] | destruct Hv0 as [x Hx] | done]; exists x;
    (eapply lookup_weaken; [exact Hx|]); [by etrans | done].
Qed.

Lemma plan_for_member_again db rq ref member_ref m :
  operations_keyed db ->
  (is_Some (rr_operation_correlation_id rq) -> planned db
    (initial_keys (rr_desired_provider_config_fingerprint rq) ref member_ref (rv_input_fingerprint m))) ->
  plan_for_member db rq ref member_ref m = Ok db.
Proof.
  intros K. unfold plan_for_member, _plan_initial_operations, plan_if_absent.
  destruct (rr_operation_correlation_id rq); [|done]. intros H. specialize (H ltac:(eauto)).
  apply Forall_cons in H as [H1 H]. apply Forall_cons in H as [H2 H]. apply Forall_cons in H as [H _].
  apply select_keyed in H1, H2, H; [|done..]. rewrite H1. simpl. rewrite H2. simpl. by rewrite H.
Qed.

(** A reservation with a correlation leaves the operations of its member planned. *)
Lemma reserve_member_planned refs db v m rq r db' :
  campaigns_ok db -> refs_fingerprints db -> is_Some (rr_operation_correlation_id rq) ->
  reserve_member refs db v m rq = Ok (r, db') ->
  planned db' (initial_keys (rr_desired_provider_config_fingerprint rq) (rs_campaign_ref r)
    (rs_member_ref r) (rv_input_fingerprint m)).
Proof.
  intros Hok Hfp Hcorr H. unfold reserve_member in H. destruct (aware _); [|discriminate].
  destruct (member_of _ _) as [e|].
  - inv_result. unfold get_campaign in Hv. inv_result.
    apply reserved_validate_Ok in Hv1 as ->; [|by eapply Hfp | apply member_ref_fingerprint].
    eapply plan_for_member_planned; [exact (gk_operation_ref _ Hok) | done..].
  - apply result_bind_Ok in H as (u & _ & H).
    apply result_bind_Ok in H as ([[[[ref g] plan] w] db1] & Hfind & H).
    destruct (match rr_expected_campaign_ref rq with Some _ => _ | None => true end); [|discriminate].
    apply result_bind_Ok in H as (db2 & Hins & H). apply result_bind_Ok in H as (db3 & Hplan & H).
    apply result_bind_Ok in H as (db4 & Hcount & H). apply result_bind_Ok in H as (r' & Hr & [= -> ->]).
    destruct (find_batch_fingerprint _ _ _ _ _ _ _ _ Hfind Hok Hfp) as [_ Href].
    apply find_batch_Ok in Hfind as (Hok1 & _); [|done].
    apply reserved_validate_Ok in Hr as ->; [|done | apply member_ref_fingerprint].
    apply insert_member_Ok in Hins as (-> & _).
    apply (planned_kept db3).
    + unfold count_member in Hcount. destruct (gdb_campaigns db3 !! ref); by inv_result.
    + eapply plan_for_member_planned; [|done|exact Hplan]. exact (gk_operation_ref _ Hok1).
Qed.

(** What is in the ledger stays. *)
Lemma apply_campaign_ops_planned ops db keys :
  campaigns_ok db -> refs_fingerprints db -> planned db keys -> planned (apply_campaign_ops ops db) keys.
Proof.
  revert db. induction ops as [|op ops IH]; intros db Hok Hfp H; [done|]. simpl.
  destruct (apply_campaign_op_ok op db Hok Hfp) as [Hok' Hfp']. apply IH; [done..|].
  eapply Forall_impl; [exact H|]. intros key [row Hk].
  destruct (apply_campaign_op_ledger op db key row (gk_operation_ref _ Hok) Hk) as (row' & Hk' & _). eauto.
Qed.

(** What a repeated reservation comes to. *)
Lemma reserve_member_again ops later refs refs' v v' m m' rq rq' r db :
  reserve_member refs (run_campaigns ops) v m rq = Ok (r, db) ->
  rv_acquisition_opportunity_id m' = rv_acquisition_opportunity_id m ->
  aware (rr_reserved_at rq') = true ->
  reserve_member refs' (apply_campaign_ops later db) v' m' rq'
  = if same_semantics m m'
    then let! db1 := plan_for_member (apply_campaign_ops later db) rq' (rs_campaign_ref r)
                       (rs_member_ref r) m' in
         Ok (mkReserved (rs_campaign_ref r) (rs_member_ref r) (rs_batch_generation r) true, db1)
    else Raise (CampaignIdempotencyConflict "opportunity already has different campaign semantics").
Proof.
  intros H Hopp Haware. destruct (runs_ok ops) as [Hok Hfp].
  destruct (reserve_member_keeps _ _ _ _ _ _ _ H Hok Hfp) as [Hok1 Hfp1].
  destruct (reserve_member_recorded _ _ _ _ _ _ _ Hok Hfp H)
    as (e & c & He & Href & He1 & Hmr & Hsem & Hcamp & Hc & Hgen).
  destruct (apply_campaign_ops_persists later db Hok1 Hfp1) as [Pm Pc].
  destruct (apply_campaign_ops_ok later db Hok1 Hfp1) as [Hok2 Hfp2].
  destruct (Pm _ _ He) as (e' & He' & Ee). destruct (Pc _ _ Hc) as (c' & Hc' & Ec).
  assert (Hopp' : mb_opportunity e' = rv_acquisition_opportunity_id m')
    by (unfold mb_opportunity, mb_reservation in *; rewrite Ee; congruence).
  unfold reserve_member. rewrite Haware, <- Hopp', (member_of_unique _ _ _ Hok2 He').
  assert (Hsame : same_member e' (member_ref_of (mb_opportunity e')) m' = same_semantics m m').
  { rewrite <- Hsem. unfold same_member, same_semantics, mb_reservation.
    rewrite bool_decide_eq_true_2; [by rewrite Ee|].
    rewrite Hopp', Hopp, <- Hmr, <- Href. unfold mb_ref. by rewrite Ee. }
  rewrite Hsame. destruct (same_semantics m m'); [|done].
  assert (Hmc : mb_campaign e' = rs_campaign_ref r) by (unfold mb_campaign in *; congruence).
  unfold get_campaign. rewrite Hmc, Hc', Hopp', Hopp, <- Hmr. cbn [option_to_result result_bind].
  destruct (plan_for_member _ _ _ _ _) as [d|]; [|done]. cbn [result_bind]. unfold ca_generation at 1. rewrite Ec. fold (ca_generation c). rewrite Hgen.
  unfold reserved_validate. simpl.
  rewrite !GFingerprint_id by (first [by eapply Hfp1 | rewrite Hmr; apply member_ref_fingerprint]).
  simpl. assert (1 <= rs_batch_generation r) as Hge.
  { rewrite <- Hgen. destruct (gk_numbered _ Hok1) as [_ Hn]. by destruct (Hn _ _ Hc). }
  unfold checked. apply Z.leb_le in Hge. by rewrite Hge.
Qed.

(** C21 (roundtrip).  A reservation is for good: whatever operations follow it,
    a new reservation for the same opportunity is a conflict when its input,
    envelope or authorised action are others.  Otherwise every answer to it is
    the same member, batch and generation, as a replay, and changes nothing but
    the ledger, which gets at most the operations of that member and batch,
    not yet tried.  And when it asks for no operation, or when the first
    reservation already planned its operations for the same configuration of
    the provider, it is answered so and writes nothing at all. *)
Theorem reservation_is_permanent ops later refs refs' v v' m m' rq rq' r db :
  reserve_member refs (run_campaigns ops) v m rq = Ok (r, db) ->
  rv_acquisition_opportunity_id m' = rv_acquisition_opportunity_id m ->
  aware (rr_reserved_at rq') = true ->
  let after := apply_campaign_ops later db in
  let replay := mkReserved (rs_campaign_ref r) (rs_member_ref r) (rs_batch_generation r) true in
  let answer := reserve_member refs' after v' m' rq' in
  if same_semantics m m' then
    (forall r' db', answer = Ok (r', db') ->
       r' = replay
       /\ plans_only (initial_keys (rr_desired_provider_config_fingerprint rq') (rs_campaign_ref r)
                       (rs_member_ref r) (rv_input_fingerprint m')) after db')
    /\ (rr_operation_correlation_id rq' = None
        \/ (is_Some (rr_operation_correlation_id rq)
            /\ rr_desired_provider_config_fingerprint rq' = rr_desired_provider_config_fingerprint rq) ->
        answer = Ok (replay, after))
  else answer = Raise (CampaignIdempotencyConflict "opportunity already has different campaign semantics").
Proof.
  intros H Hopp Haware. cbv zeta.
  rewrite (reserve_member_again ops later refs refs' v v' m m' rq rq' r db H Hopp Haware).
  destruct (same_semantics m m') eqn:Hs; [|done]. destruct (runs_ok ops) as [Hok Hfp]. split.
  - intros r' db' Ha. apply result_bind_Ok in Ha as (d & Hplan & [= <- <-]).
    split; [done | by apply plan_for_member_only].
  - intros Hcase. destruct (reserve_member_keeps _ _ _ _ _ _ _ H Hok Hfp) as [Hok1 Hfp1].
    destruct (apply_campaign_ops_ok later db Hok1 Hfp1) as [Hok2 _].
    rewrite plan_for_member_again; [done | exact (gk_operation_ref _ Hok2)|].
    intros Hcorr. destruct Hcase as [Hnone|[Hfirst Hcfg]]; [rewrite Hnone in Hcorr; by destruct Hcorr|].
    rewrite Hcfg, <- (same_semantics_input m m' Hs). apply apply_campaign_ops_planned; [done..|].
    by apply (reserve_member_planned refs (run_campaigns ops) v m rq r db Hok Hfp).
Qed.

(** * One worker per attempt *)

(** A new operation whose correlation exceeds its column is not planned. *)
Lemma long_correlation_refused db kind ref m fp corr now r db' :
  select_by_operation_key db (operation_key_of kind ref m fp) = None -> 64 < ulen corr ->
  plan_operation_in_transaction db kind ref m fp corr now <> Ok (r, db').
Proof.
  intros E Hlong H. unfold plan_operation_in_transaction in H. rewrite E in H.
  apply result_bind_Ok in H as (u & _ & H). apply result_bind_Ok in H as (d & Hi & _).
  apply insert_operation_Ok in Hi as (_ & _ & _ & Hlen). simpl in Hlen. lia.
Qed.

(** No outcome is reported for the operation. *)
Definition unreported (ref : string) (op : campaign_op) : Prop :=
  forall o, op <> OpSetState ref o.

(** The attempt under its lease, or ended because the lease had run out:
    somebody claimed it when its time, taken as UTC, was over. *)
Definition held (ref : string) (taken : operation_row) (ops : list campaign_op) (row : operation_row)
  : Prop :=
  row = taken
  \/ oq_state row = RECONCILE_REQUIRED /\ oq_attempt row = oq_attempt taken
     /\ oq_lease_owner row = oq_lease_owner taken
     /\ exists worker now seconds lease, OpClaim ref worker now seconds ∈ ops
        /\ oq_lease_expires_at taken = Some lease /\ dt_leb (replace_utc lease) now = true.

Lemma held_step ref taken ops op row row' :
  oq_state taken = IN_FLIGHT -> unreported ref op -> held ref taken ops row ->
  ledger_step ref row op row' -> held ref taken (ops ++ [op]) row'.
Proof.
  intros Hfl Hop Hheld Hstep.
  assert (Hkept : held ref taken (ops ++ [op]) row).
  { destruct Hheld as [->|(E1 & E2 & E3 & w & t & n & lease & Hin & H)]; [by left|]. right.
    do 3 (split; [done|]). exists w, t, n, lease. split; [|done]. apply elem_of_app. by left. }
  destruct Hstep as [op|db w t n row' Hc|o]; [done| |by destruct (Hop o)].
  inversion Hc as [|lease Es El Ex|Es _|e Es]; subst; [done| | |];
    destruct Hheld as [->|(E1 & _)]; try (destruct Es as [Es|[Es _]]); try congruence.
  right. do 3 (split; [done|]). exists w, t, n, lease. split; [|done]. apply elem_of_app. right.
  by apply list_elem_of_singleton.
Qed.

Lemma held_run ref taken later : Forall (unreported ref) later ->
  forall db ops row, campaigns_ok db -> refs_fingerprints db ->
  oq_state taken = IN_FLIGHT -> gdb_operations db !! ref = Some row -> held ref taken ops row ->
  exists row', gdb_operations (apply_campaign_ops later db) !! ref = Some row'
    /\ held ref taken (ops ++ later) row'.
Proof.
  induction 1 as [|op later Hop _ IH]; intros db ops row Hok Hfp Hfl Hrow Hheld.
  - exists row. by rewrite app_nil_r.
  - destruct (apply_campaign_op_ledger op db ref row (gk_operation_ref _ Hok) Hrow) as (row' & H1 & H2).
    destruct (apply_campaign_op_ok op db Hok Hfp) as [Hok' Hfp'].
    simpl. rewrite cons_middle, app_assoc. eapply IH; try done. by eapply held_step.
Qed.

Lemma replace_utc_id d : utcoffset d = Some 0 -> replace_utc d = d.
Proof. destruct d. simpl. by intros ->. Qed.

Lemma operation_record_state row r : _operation_record row = Ok r -> po_state r = oq_state row.
Proof. unfold _operation_record, operation_record_validate. intros H. by inv_result. Qed.

(** A row written over, for an operation that stays what it is. *)
Lemma put_operation_lookup db k row row' :
  operations_keyed db -> gdb_operations db !! k = Some row -> oq_identity row' = oq_identity row ->
  gdb_operations (put_operation db row') !! k = Some row' /\ operations_keyed (put_operation db row').
Proof.
  intros Hkeyed Hk E. split; [|by eapply put_operation_keyed]. unfold put_operation.
  cbn [with_operations gdb_operations]. destruct (Hkeyed k row Hk) as [<- _].
  unfold oq_ref. rewrite E. apply lookup_insert_eq.
Qed.

Lemma put_operation_ok db row :
  campaigns_ok db -> refs_fingerprints db -> operations_keyed (put_operation db row) ->
  campaigns_ok (put_operation db row).
Proof.
  intros Hok Hfp Hk. by apply (batches_kept_ok db (put_operation db row)
                              (same_batches_kept _ _ (put_operation_same db row)) Hk).
Qed.

(** C18 (safety).  An attempt belongs to the worker that claimed it: until an
    outcome is reported, no other operation takes it or counts another
    attempt.  All that can happen is that a claim at or after the end of its
    lease gives it up, its outcome unknown, and then nobody claims it again;
    a claim before that, when the database returns times in UTC, changes
    nothing. *)
Theorem lease_is_exclusive ops later ref worker now seconds row r db :
  gdb_operations (run_campaigns ops) !! ref = Some row -> oq_state row <> IN_FLIGHT ->
  aware now = true ->
  claim_operation (run_campaigns ops) ref worker now seconds = Ok (r, db) -> po_state r = IN_FLIGHT ->
  Forall (unreported ref) later ->
  exists expires taken row',
    dt_add now (seconds * US_SECOND) = Ok expires
    /\ gdb_operations db !! ref = Some taken /\ oq_lease_owner taken = Some worker
    /\ oq_lease_expires_at taken = Some (timestamptz expires)
    /\ oq_attempt taken = oq_attempt row + 1
    /\ (oq_state row = RETRYABLE_FAILED -> oq_attempt taken <= PROVIDER_OPERATION_MAX_ATTEMPTS)
    /\ gdb_operations (apply_campaign_ops later db) !! ref = Some row' /\ held ref taken later row'
    /\ (utcoffset (timestamptz expires) = Some 0 ->
        (forall w t n, OpClaim ref w t n ∈ later -> instant t < instant expires) -> row' = taken).
Proof.
  intros Hrow Hnot Haware Hclaim Hstate Hlater. destruct (runs_ok ops) as [Hok Hfp].
  fold (run_campaigns ops) in Hok, Hfp. pose proof (gk_operation_ref _ Hok) as Hkeyed.
  apply claim_operation_Ok in Hclaim as (row0 & taken & Hrow0 & Hc & -> & Hr & Ei); [|done].
  rewrite Hrow in Hrow0. injection Hrow0 as <-. apply operation_record_state in Hr.
  assert (Htaken : oq_state taken = IN_FLIGHT) by congruence.
  inversion Hc as [| | |expires Es Hretry He]; subst; try (by destruct Hnot); try discriminate.
  destruct (put_operation_lookup (run_campaigns ops) ref row (take_lease row worker now expires))
    as [Hput Hput_ok]; [done..|].
  destruct (held_run ref (take_lease row worker now expires) later Hlater
              (put_operation (run_campaigns ops) (take_lease row worker now expires)) []
              (take_lease row worker now expires)) as (row' & H1 & H2);
    [by apply put_operation_ok | done | done | done | by left|].
  exists expires, (take_lease row worker now expires), row'.
  repeat (split; [done|]). split; [intros Hf; destruct Es as [Es|[_ Es]]; [congruence | simpl; lia]|].
  repeat (split; [done|]). intros Hutc Hbefore.
  destruct H2 as [->|(_ & _ & _ & w & t & n & lease & Hin & [= <-] & Hle)]; [done|]. exfalso.
  apply Hbefore in Hin. apply dt_add_instant in He as [_ Ha].
  assert (Hae : aware expires = true) by (unfold aware in *; by rewrite Ha).
  destruct (timestamptz_equiv _ Hae) as [_ Hi]. unfold dt_leb in Hle. rewrite replace_utc_id in Hle by done.
  rewrite <- Hi in Hle. lia.
Qed.

(** * The second message *)

(** The next weekday: the day itself, or the Monday after the week-end. *)
Lemma next_weekday_spec raw d :
  _next_weekday raw = Ok d ->
  weekday d < 5
  /\ toordinal d = toordinal raw + (if 5 <=? weekday raw then 7 - weekday raw else 0)
  /\ (weekday raw < 5 -> d = raw).
Proof.
  unfold _next_weekday. revert d.
  funelim (next_weekday_loop raw); intros d0 Hd0; clear Heqcall; pose proof (weekday_bound value).
  - destruct (tomorrow value) as [[e He]|]; [|discriminate].
    destruct (H0 (exist _ e He) e He _ Hd0) as (Hw & Ho & _).
    split; [done|]. rewrite H. pose proof (weekday_later value 1 e He) as He1. split; [|lia].
    assert (weekday value = 5 \/ weekday value = 6) as [E|E] by lia; rewrite E in *;
      rewrite He1 in Ho; vm_compute Z.modulo in Ho; simpl in Ho; lia.
  - injection Hd0 as <-. rewrite e. split; [lia|]. split; [lia | done].
Qed.

Lemma timezone_of_cities j z : timezone_of j = Some z -> z ∈ [ZURICH; PARIS].
Proof.
  unfold timezone_of. simpl. repeat case_bool_decide; intros [= <-]; set_solver.
Qed.

(** An instant of the working day is what the wall says. *)
Lemma working_wall z d t x :
  z ∈ [ZURICH; PARIS] -> DAY_2000 <= toordinal d -> astimezone x z = Ok t -> dt_date t = d ->
  NINE <= time_us t < SEVENTEEN ->
  instant x < instant (combine d SEVENTEEN z).
Proof.
  intros Hz Hd Ht Hdate Hw. apply astimezone_Ok in Ht as (_ & Hl & _).
  rewrite local_us_date, Hdate in Hl. rewrite instant_combine by done.
  rewrite (working_offset z (toordinal d) SEVENTEEN (instant x)); unfold working, NINE, SEVENTEEN in *;
    [lia | done | done | unfold US_HOUR, US_SECOND in *; lia | lia].
Qed.

Lemma working_order z d a b :
  z ∈ [ZURICH; PARIS] -> DAY_2000 <= toordinal d -> NINE <= a <= SEVENTEEN -> NINE <= b <= SEVENTEEN ->
  a < b -> instant (combine d a z) < instant (combine d b z).
Proof.
  intros Hz Hd Ha Hb Hlt. unfold NINE, SEVENTEEN in *.
  rewrite !instant_combine by (unfold US_HOUR, US_DAY, US_SECOND in *; lia).
  rewrite (working_constant z (toordinal d) a b) by done. lia.
Qed.

(** When the first message was sent in its window, the timing of the second
    is known, and only then. *)
Lemma materialize_spec w raw sent local :
  sw_timezone w ∈ [ZURICH; PARIS] -> DAY_2000 <= toordinal (sw_step_2_execution_date w) ->
  date_add (sw_step_1_execution_date w) 4 = Ok raw ->
  instant (sw_step_2_authorization_deadline w)
  = instant (combine (sw_step_2_execution_date w) SEVENTEEN (sw_timezone w)) ->
  aware sent = true -> astimezone sent (sw_timezone w) = Ok local ->
  let good := dt_date local = sw_step_1_execution_date w /\ NINE <= time_us local < SEVENTEEN in
  let t := if 5 <=? weekday raw then NINE else time_us local in
  let due := combine (sw_step_2_execution_date w) t (sw_timezone w) in
  (good -> materialize_step_2_timing w sent = Ok due
    /\ dt_ltb due (sw_step_2_authorization_deadline w) = true /\ time_us due = t)
  /\ (forall due', materialize_step_2_timing w sent = Ok due' -> good).
Proof.
  intros Hz Hd Hraw Hdl Haware Hlocal good t due. unfold materialize_step_2_timing.
  rewrite Haware, Hlocal. cbn [result_bind]. split.
  - intros [Hdate Htime]. assert (Ht : NINE <= t < SEVENTEEN).
    { unfold t, NINE, SEVENTEEN in *. destruct (5 <=? weekday raw); [unfold US_HOUR, US_SECOND in *|]; lia. }
    assert (Hlt : dt_ltb due (sw_step_2_authorization_deadline w) = true).
    { unfold dt_ltb. rewrite Hdl. apply Z.ltb_lt, working_order; lia || done. }
    assert (Hin : (NINE <=? time_us local) && (time_us local <? SEVENTEEN) = true) by lia.
    rewrite bool_decide_eq_true_2, Hin, Hdate, Hraw by done. cbn [result_bind].
    fold t. fold due. rewrite Hlt, bool_decide_eq_true_2 by apply dt_date_combine.
    split; [done|]. split; [done|]. apply time_us_combine.
    unfold NINE, SEVENTEEN, US_HOUR, US_DAY, US_SECOND in *. lia.
  - intros due' H. inv_result. split; [done | lia].
Qed.

(** C20 (functional).  The second message of a member is due on the day its
    batch was authorised for, a weekday four to six days after the first, in
    the city of the jurisdiction.  The timing is given exactly when the first
    was sent on its day between nine and five, and then it is at the same
    time of the day, or at nine when four days later is a week-end; both
    sendings are authorised. *)
Theorem step_2_exact ops ref c sent local :
  gdb_campaigns (run_campaigns ops) !! ref = Some c ->
  let w := ca_window c in
  let first := sw_step_1_execution_date w in
  let second := sw_step_2_execution_date w in
  DAY_2000 <= toordinal first -> aware sent = true -> astimezone sent (sw_timezone w) = Ok local ->
  weekday second < 5
  /\ toordinal first + 4 <= toordinal second <= toordinal first + 6
  /\ ((exists due, materialize_step_2_timing w sent = Ok due)
      <-> dt_date local = first /\ NINE <= time_us local < SEVENTEEN)
  /\ (forall due, materialize_step_2_timing w sent = Ok due ->
      dt_date due = second
      /\ time_us due = (if toordinal second =? toordinal first + 4 then time_us local else NINE)
      /\ classify_email_sent 1 sent None (sw_step_1_authorization_deadline w) = (AUTHORIZED, None)
      /\ classify_email_sent 2 due (Some due) (sw_step_2_authorization_deadline w)
         = (AUTHORIZED, None)).
Proof.
  intros Hc w first second Hfirst Haware Hlocal. destruct (runs_ok ops) as [Hok _].
  destruct (bk_calendar _ _ _ (gk_batch _ Hok ref c Hc)) as (w0 & Hw0 & Hsame).
  change (ci_window (ca_identity c)) with w in Hsame.
  apply sequence_window_Ok in Hw0 as (z & raw & d2 & Hz & Hwd & Hraw & Hnext & ->).
  destruct Hsame as (Ez & E1 & E2 & [_ D1] & [_ D2]).
  cbn [sw_timezone sw_step_1_execution_date sw_step_2_execution_date
    sw_step_1_authorization_deadline sw_step_2_authorization_deadline] in Ez, E1, E2, D1, D2.
  apply timezone_of_cities in Hz. fold first in E1. fold second in E2. rewrite <- Ez in Hz, D1, D2.
  rewrite <- E1 in Hraw, Hwd, D1. rewrite <- E2 in Hnext, D2.
  destruct (next_weekday_spec _ _ Hnext) as (N1 & N2 & N3). apply date_add_Ok in Hraw as Hraw'.
  assert (Hr : toordinal first + 4 <= toordinal second <= toordinal first + 6)
    by (pose proof (weekday_bound raw); clear - N2 Hraw' H; revert N2;
        destruct (5 <=? weekday raw) eqn:E; lia).
  assert (Hsecond : DAY_2000 <= toordinal second) by lia.
  destruct (materialize_spec w raw sent local Hz Hsecond Hraw (eq_sym D2) Haware Hlocal) as [M1 M2].
  split; [done|]. split; [done|]. split.
  - split; [intros [due Hdue]; by eapply M2|]. intros Hgood. eexists. by apply M1.
  - intros due Hdue. pose proof (M2 due Hdue) as Hgood. destruct (M1 Hgood) as (M & Hlt & Ht).
    rewrite M in Hdue. injection Hdue as <-. split; [apply dt_date_combine|]. split.
    + rewrite Ht. pose proof (weekday_bound raw). clear - N2 Hraw' H. revert N2.
      destruct (5 <=? weekday raw) eqn:E; destruct (toordinal second =? _) eqn:E'; lia || done.
    + unfold classify_email_sent. simpl. destruct Hgood as [G1 G2].
      pose proof (working_wall _ _ _ _ Hz Hfirst Hlocal G1 G2) as Hb.
      assert (B1 : dt_leb (sw_step_1_authorization_deadline w) sent = false)
        by (unfold dt_leb; rewrite <- D1; lia).
      unfold dt_ltb, dt_leb in *. rewrite B1, Z.ltb_irrefl.
      assert (B2 : forall a b, (a <? b) = true -> (b <=? a) = false) by (intros; lia).
      by rewrite (B2 _ _ Hlt).
Qed.
End theorems.

(** * Concrete operations *)

Module CampaignSample.
#[global] Existing Instance WeightHash.
#[global] Existing Instance ExactDatabase.
#[global] Existing Instance AsciiCase.
#[global] Existing Instance FixedZones.

(** Monday 2 March 2026. *)
Definition monday : date := mkdate 2026 3 2.
Definition at_ (hours minutes : Z) : datetime := mkdt 2026 3 2 hours minutes 0 0 (Some 0).

Definition factory_input : CampaignFactoryInput :=
  mkFactoryInput "masonry" "1" InFR InFR French "supply" "1" "1" "1" "1" "1" "sender" "1" ZEROS monday.

Definition any_reference : campaign_references :=
  mkCampaignReferences (fun _ => true) (fun _ => true) (fun _ => true) (fun _ => true)
    (fun _ => true) (fun _ => true).

Definition reservation (opportunity supplier : string) : CampaignMemberReservation :=
  mkReservation opportunity supplier "contact" "artifact" ZEROS "assessment" ZEROS
    ("evaluation-" +:+ opportunity) [] ZEROS ZEROS ZEROS ZEROS ZEROS ZEROS "mailbox" ZEROS ZEROS.

Definition request (now : datetime) (correlation : option string) : reserve_request :=
  mkReserveRequest "workspace" ZEROS now None correlation (Some 3).

(** Two members of a batch, its operations planned with the first. *)
Definition sample_ops : list campaign_op :=
  [OpReserve any_reference factory_input (reservation "o1" "s1") (request (at_ 8 0) (Some "c1"));
   OpReserve any_reference factory_input (reservation "o2" "s2") (request (at_ 8 10) None)].

Definition batch_ref : string := campaign_ref_of (group_key_of factory_input) 1.
Definition create_ref : string := operation_key_of CREATE_CAMPAIGN batch_ref None ZEROS.

Lemma reserved_twice :
  (ca_reserved_member_count <$> gdb_campaigns (run_campaigns sample_ops) !! batch_ref) = Some 2.
Proof. vm_compute. reflexivity. Qed.

(** A batch that is there, by what is known of a column. *)
Ltac the_batch H r E :=
  pose proof H as E;
  match type of E with fmap _ (?m !! ?k) = _ => destruct (m !! k) as [r|] eqn:?; [|discriminate E] end.

Lemma batches_stay_bounded_witness :
  batch_size (run_campaigns sample_ops) batch_ref = 2
  /\ exists! k, exists b, gdb_campaigns (run_campaigns sample_ops) !! k = Some b
      /\ ca_group b = group_key_of factory_input /\ ca_generation b = 1.
Proof.
  the_batch reserved_twice r E. injection E as E.
  destruct (batches_stay_bounded sample_ops batch_ref r Heqo) as (H1 & _ & _ & H4).
  split; [rewrite <- H1; exact E|].
  assert (Hg : (fun r => (ca_group r, ca_generation r)) <$>
    gdb_campaigns (run_campaigns sample_ops) !! batch_ref = Some (group_key_of factory_input, 1))
    by (vm_compute; reflexivity).
  rewrite Heqo in Hg. injection Hg as <- Hn. apply H4. rewrite Hn. split; discriminate.
Defined.

(** Its clock is over. *)
Definition closing_ops : list campaign_op := sample_ops ++ [OpCloseDue (at_ 8 20)].
Definition third : campaign_op :=
  OpReserve any_reference factory_input (reservation "o3" "s3") (request (at_ 8 12) None).

Lemma closed_batch :
  (truthy ∘ ca_membership_closed_at) <$> gdb_campaigns (run_campaigns closing_ops) !! batch_ref
  = Some true.
Proof. vm_compute. reflexivity. Qed.

Lemma finished_batch_is_sealed_witness :
  batch_size (run_campaigns (closing_ops ++ [third])) batch_ref = 2
  /\ zlength (rows (gdb_members (run_campaigns (closing_ops ++ [third])))) = 3.
Proof.
  the_batch closed_batch r E. injection E as E.
  rewrite (finished_batch_is_sealed closing_ops [third] batch_ref r Heqo (or_introl E)).
  split; vm_compute; reflexivity.
Defined.

Lemma pacing_caps_hold_witness :
  count_of (fun m => created_on (toordinal monday) m && from_mailbox "mailbox" m)
    (rows (gdb_members (run_campaigns sample_ops))) <= 3
  /\ zlength (rows (gdb_members (run_campaigns sample_ops))) = 2.
Proof.
  split; [|vm_compute; reflexivity].
  refine (proj1 (proj2 (pacing_caps_hold sample_ops (toordinal monday) _ _ _)) "mailbox").
  - apply Forall_cons; split; [by eexists|]. apply Forall_singleton. by eexists.
  - intros v v' Hv Hv' _. apply elem_of_cons in Hv as [->|Hv%list_elem_of_singleton];
      apply elem_of_cons in Hv' as [->|Hv'%list_elem_of_singleton]; subst; reflexivity.
  - discriminate.
Defined.

Definition first_request : reserve_request := request (at_ 8 0) (Some "c1").
Definition is_ok {A} (r : result A) : bool := match r with Ok _ => true | Raise _ => false end.

Lemma first_reserved :
  is_ok (reserve_member any_reference (run_campaigns []) factory_input (reservation "o1" "s1")
           first_request) = true.
Proof. vm_compute. reflexivity. Qed.

(** The same reservation again, with its correlation, after others. *)
Lemma reservation_is_permanent_witness :
  exists r db, reserve_member any_reference (run_campaigns []) factory_input (reservation "o1" "s1")
    first_request = Ok (r, db)
  /\ reserve_member any_reference (apply_campaign_ops [OpCloseDue (at_ 8 20); third] db) factory_input
       (reservation "o1" "another") (request (at_ 9 0) (Some "c2"))
     = Ok (mkReserved (rs_campaign_ref r) (rs_member_ref r) (rs_batch_generation r) true,
           apply_campaign_ops [OpCloseDue (at_ 8 20); third] db).
Proof.
  pose proof first_reserved as E.
  destruct (reserve_member any_reference (run_campaigns []) factory_input (reservation "o1" "s1")
    first_request) as [[r db]|] eqn:Er; [|discriminate E].
  exists r, db. split; [reflexivity|].
  assert (Hs : same_semantics (reservation "o1" "s1") (reservation "o1" "another") = true)
    by (vm_compute; reflexivity).
  assert (Ho : rv_acquisition_opportunity_id (reservation "o1" "another")
               = rv_acquisition_opportunity_id (reservation "o1" "s1")) by reflexivity.
  assert (Ha : aware (rr_reserved_at (request (at_ 9 0) (Some "c2"))) = true) by reflexivity.
  pose proof (reservation_is_permanent [] [OpCloseDue (at_ 8 20); third] any_reference any_reference
    factory_input factory_input _ _ first_request (request (at_ 9 0) (Some "c2")) r db Er Ho Ha) as H.
  cbv zeta in H. rewrite Hs in H. apply (proj2 H). right. split; [by eexists | reflexivity].
Defined.

Definition claim_of (worker : string) (now : datetime)
  : result (ProviderOperationRecord * campaign_db) :=
  claim_operation (run_campaigns sample_ops) create_ref worker now 600.

Lemma planned_row :
  oq_state <$> gdb_operations (run_campaigns sample_ops) !! create_ref = Some PLANNED.
Proof. vm_compute. reflexivity. Qed.
Lemma first_claim :
  match claim_of "w1" (at_ 9 0) with Ok (r, _) => po_state r | Raise _ => PLANNED end = IN_FLIGHT.
Proof. vm_compute. reflexivity. Qed.

Lemma claim_time ref w w' t t' n n' : OpClaim ref w t n ∈ [OpClaim ref w' t' n'] -> t = t'.
Proof. intros H%list_elem_of_singleton. by injection H. Qed.

(** A second worker comes before the lease is over. *)
Lemma lease_is_exclusive_witness :
  exists r db taken, claim_of "w1" (at_ 9 0) = Ok (r, db)
  /\ oq_lease_owner taken = Some "w1"
  /\ gdb_operations (apply_campaign_ops [OpClaim create_ref "w2" (at_ 9 9) 600] db) !! create_ref
     = Some taken.
Proof.
  the_batch planned_row row E. injection E as E. pose proof first_claim as F.
  destruct (claim_of "w1" (at_ 9 0)) as [[r db]|] eqn:Er; [|discriminate F].
  assert (Hlater : Forall (unreported create_ref) [OpClaim create_ref "w2" (at_ 9 9) 600])
    by (apply Forall_singleton; intros o; discriminate).
  assert (Hnot : oq_state row <> IN_FLIGHT) by (rewrite E; discriminate).
  destruct (lease_is_exclusive sample_ops [OpClaim create_ref "w2" (at_ 9 9) 600] create_ref "w1"
    (at_ 9 0) 600 row r db Heqo Hnot eq_refl Er F Hlater)
    as (expires & taken & row' & He & _ & Ho & _ & _ & _ & Hrow & _ & Hkept).
  exists r, db, taken. split; [reflexivity|]. split; [exact Ho|]. rewrite <- Hkept; [exact Hrow|..].
  - apply dt_add_instant in He as [_ He]. exact He.
  - intros w t n ->%claim_time.
    apply dt_add_instant in He as [He _]. rewrite He. vm_compute. reflexivity.
Defined.

(** Sent at eleven in Paris, the second is due at eleven on Friday. *)
Lemma batch_window :
  (sw_step_1_execution_date ∘ ca_window) <$> gdb_campaigns (run_campaigns sample_ops) !! batch_ref
  = Some monday
  /\ (sw_timezone ∘ ca_window) <$> gdb_campaigns (run_campaigns sample_ops) !! batch_ref = Some PARIS
  /\ (sw_step_2_execution_date ∘ ca_window) <$> gdb_campaigns (run_campaigns sample_ops) !! batch_ref
  = Some (mkdate 2026 3 6).
Proof. repeat split; vm_compute; reflexivity. Qed.

Lemma step_2_exact_witness :
  exists c due, gdb_campaigns (run_campaigns sample_ops) !! batch_ref = Some c
  /\ materialize_step_2_timing (ca_window c) (at_ 10 0) = Ok due
  /\ dt_date due = mkdate 2026 3 6 /\ time_us due = 11 * US_HOUR.
Proof.
  destruct batch_window as (E1 & E2 & E3).
  destruct (gdb_campaigns (run_campaigns sample_ops) !! batch_ref) as [c|] eqn:Ec; [|discriminate E1].
  injection E1 as E1. injection E2 as E2. injection E3 as E3.
  destruct (astimezone (at_ 10 0) PARIS) as [local|] eqn:El; [|discriminate El].
  rewrite <- E2 in El.
  assert (Hn : DAY_2000 <= toordinal (sw_step_1_execution_date (ca_window c)))
    by (rewrite E1; vm_compute; discriminate).
  destruct (step_2_exact sample_ops batch_ref c (at_ 10 0) local Ec Hn eq_refl El)
    as (_ & _ & [_ Hex] & Hdue).
  rewrite E2 in El. vm_compute in El. injection El as <-.
  destruct Hex as [due Hd]; [rewrite E1; split; [reflexivity | split; [discriminate | reflexivity]]|].
  exists c, due. split; [reflexivity|]. split; [exact Hd|].
  destruct (Hdue due Hd) as (H1 & H2 & _). rewrite E3 in H1, H2. rewrite E1 in H2.
  split; [exact H1 | exact H2].
Defined.
End CampaignSample.
