(* ===== verification/WebhookTheorems.v ===== *)
(** WebhookTheorems: what the events of the provider may do - one effect per
    event, a second message only after a first one sent in its window - and
    which of them the ledger of operations cannot take. *)

From S2P Require Import Prelude PyStr PyText PyTextFacts PyDatetime PyDatetimeFacts PyJson.
From S2P Require Import PyZoneInfo Database AcquisitionContracts AcquisitionEquiv.
From S2P Require Import AcquisitionStore AcquisitionStoreFacts ComplianceContracts.
From S2P Require Import Suppression ContactContracts ContactStore ComplianceStore.
From S2P Require Import CampaignContracts CampaignFactory CampaignStore CampaignFacts.
From S2P Require Import CampaignWebhooks ComplianceTheorems.
From Stdlib Require Import Ascii String.

Local Open Scope string_scope.
Local Open Scope Z_scope.
Local Open Scope list_scope.

(** * Lengths *)



Section theorems.
Context `{Hash : HashLib} `{Hmac : HmacLib} `{DB : Database} `{Case : CaseData} `{Zone : ZoneInfo}.

(** * What an event may change *)

(** The batches and the members are kept, their progress apart, and no
    operation is added or changed. *)
Definition ledger_kept (db db' : campaign_db) : Prop :=
  batches_kept db db' /\ gdb_operations db' = gdb_operations db.

Lemma batches_kept_trans a b c : batches_kept a b -> batches_kept b c -> batches_kept a c.
Proof.
  intros [C1 M1] [C2 M2]. split; intros k.
  - specialize (C1 k). specialize (C2 k).
    inversion C1 as [x y K1 E1 E2|E1 E2]; rewrite <- E2 in C2; inversion C2 as [y' z K2|]; subst; constructor.
    destruct K1, K2. split; try congruence; intuition congruence.
  - specialize (M1 k). specialize (M2 k).
    inversion M1 as [x y K1 E1 E2|E1 E2]; rewrite <- E2 in M2; inversion M2 as [y' z K2|]; subst; constructor.
    congruence.
Qed.

#[global] Instance ledger_kept_PreOrder : PreOrder ledger_kept.
Proof.
  split.
  - intros db. split; [|done]. apply same_batches_kept. reflexivity.
  - intros a b c [H1 H2] [H3 H4]. split; [by eapply batches_kept_trans | congruence].
Qed.




(** * Operations whose correlation is too long *)






(** The events that ask for a pause of their campaign: those that stop a member
    and the errors of the account. *)
Definition asks_pause (t : ProviderEventType) : bool :=
  truthy (stop_reason t) || bool_decide (t = ACCOUNT_ERROR).






(** * One event *)




(** The event of a body: its payload, when it is not an assisted prospect's. *)
Definition event_of (self : InstantlyWebhookService) (raw : documented_fields)
    (p : InstantlyWebhookPayload) : Prop :=
  normalize_instantly_webhook_payload raw = Ok p
  /\ (ws_assisted self ≫= (fun ingress => ingress p)) = None.

(** An event taken in for the first time. *)
Record taken_in (self : InstantlyWebhookService) (db : webhook_db) (p : InstantlyWebhookPayload)
    (now : datetime) (r : WebhookIngestResult) (db' : webhook_db) (campaign : campaign_row)
    (member : option member_row) (db1 : webhook_db) (h : handled) (db2 : webhook_db) : Prop := {
  ti_fingerprint : exists t encoded key,
    astimezone_utc (wp_timestamp p) = Ok t /\ dumps (stable_content p t) = Ok encoded
    /\ wk_keys (ws_fingerprint_keyring self) !! wk_current_key_version (ws_fingerprint_keyring self)
       = Some key
    /\ wr_event_fingerprint r = hmac_sha256_hexdigest key (_EVENT_DOMAIN +:+ encoded);
  ti_new : forall fps, _fingerprints self p = Ok fps ->
    recorded_fingerprint (wdb_campaigns db) fps = None;
  ti_campaign : bound_campaign (wdb_campaigns db) p = Ok campaign;
  ti_member : find_member self db campaign p = Ok member;
  ti_insert : _insert_event db
    (new_event (wr_event_fingerprint r) (wk_current_key_version (ws_fingerprint_keyring self)) p
       campaign member now) = Ok (true, db1);
  ti_handle : handle self db1 p campaign member (wr_event_fingerprint r) now = Ok (h, db2);
  ti_result : r = mkIngested (wr_event_fingerprint r) false (hd_incident h) (hd_response h);
  ti_after : db' = on_campaigns
    (resolve_event (wdb_campaigns db2) p (wr_event_fingerprint r) h) db2;
}.

Lemma event_columns_Ok r row :
  event_columns r = Ok row ->
  pe_provider_event_ref row = pe_provider_event_ref r
  /\ pe_canonical_event_fingerprint row = pe_canonical_event_fingerprint r
  /\ pe_provider_event_type row = pe_provider_event_type r.
Proof. unfold event_columns. intros H. by inv_result. Qed.

Lemma known_event_spec db fp :
  known_event db fp = true
  <-> exists k e, gdb_events db !! k = Some e /\ pe_canonical_event_fingerprint e = fp.
Proof.
  unfold known_event. rewrite existsb_exists. split.
  - intros (e & Hin & E). apply bool_decide_eq_true in E.
    apply list_elem_of_In, elem_of_rows in Hin as [k Hk]. eauto.
  - intros (k & e & Hk & E). exists e. split; [|by apply bool_decide_eq_true].
    apply list_elem_of_In, elem_of_rows. eauto.
Qed.

(** An event whose fingerprint is in a record is known. *)
Lemma known_recorded db fps version fp :
  fps !! version = Some fp -> known_event db fp = true -> recorded_fingerprint db fps <> None.
Proof.
  intros Hfp (k & e & Hk & <-)%known_event_spec Hnone. unfold recorded_fingerprint in Hnone.
  apply fmap_None in Hnone.
  assert (Hin : e ∈ rows (gdb_events db)) by (apply elem_of_rows; eauto).
  pose proof (first_match_None _ _ _ Hnone Hin) as Hf. apply not_true_iff_false in Hf. apply Hf.
  apply in_list_true, elem_of_rows. eauto.
Qed.

Lemma ingest_Ok self db raw now r db' p :
  event_of self raw p -> ingest self db raw now = Ok (r, db') ->
  (wr_replayed r = true /\ db' = db
   /\ forall fps, _fingerprints self p = Ok fps -> recorded_fingerprint (wdb_campaigns db) fps <> None)
  \/ exists campaign member db1 h db2, taken_in self db p now r db' campaign member db1 h db2.
Proof.
  intros [Hp Ha] H. unfold ingest in H. rewrite Hp in H. cbn [result_bind] in H.
  destruct (bool_decide _); [|discriminate]. destruct (aware now); [|discriminate].
  rewrite Ha in H. unfold ingest_payload in H. apply result_bind_Ok in H as (utc & Hutc & H).
  destruct (_ <=? _); [|discriminate]. apply result_bind_Ok in H as (fps & Hfps & H).
  apply result_bind_Ok in H as (fp & Hfp & H). apply option_to_result_Ok in Hfp.
  unfold ingest_transaction in H. apply result_bind_Ok in H as (campaign & Hc & H).
  apply result_bind_Ok in H as (member & Hm & H).
  destruct (recorded_fingerprint _ _) as [e|] eqn:Hnew.
  { left. injection H as <- <-. split; [done|]. split; [done|]. intros ? [= <-]%(eq_trans (eq_sym Hfps)).
    by rewrite Hnew. }
  apply result_bind_Ok in H as ([inserted db1] & Hi & H).
  destruct inserted.
  - right. apply result_bind_Ok in H as ([h db2] & Hh & [= <- <-]).
    exists campaign, member, db1, h, db2. split; try done; [|intros ? [= ->]%(eq_trans (eq_sym Hfps)); done].
    cbn [wr_event_fingerprint]. unfold _fingerprints in Hfps. apply result_bind_Ok in Hfps as (t & Ht & Hfps).
    apply result_bind_Ok in Hfps as (encoded & Hd & [= <-]). rewrite lookup_fmap in Hfp.
    destruct (wk_keys _ !! _) as [key|] eqn:Ek; [|discriminate]. injection Hfp as <-.
    by exists t, encoded, key.
  - left. injection H as <- <-. unfold _insert_event in Hi. apply result_bind_Ok in Hi as (row & Hrow & Hi).
    destruct (known_event _ _) eqn:Hknown; [|cbv zeta in Hi; by inv_result]. injection Hi as <-.
    split; [done|]. split; [done|]. intros ? [= <-]%(eq_trans (eq_sym Hfps)).
    apply event_columns_Ok in Hrow as (_ & Efp & _). rewrite Efp in Hknown.
    by eapply known_recorded.
Qed.


Lemma bound_campaign_Ok db p c : bound_campaign db p = Ok c -> exists k, gdb_campaigns db !! k = Some c.
Proof.
  unfold bound_campaign. intros H%option_to_result_Ok%first_match_Some. destruct H as [H _].
  by apply elem_of_rows in H.
Qed.

Lemma filter_result_subset {A} (f : A -> result bool) l l' :
  filter_result f l = Ok l' -> forall x, x ∈ l' -> x ∈ l.
Proof.
  revert l'. induction l as [|y l IH]; simpl; intros l' H x Hx; [injection H as <-; done|].
  apply result_bind_Ok in H as (b & _ & H). apply result_bind_Ok in H as (rest & Hr & [= <-]).
  specialize (IH rest Hr x). destruct b; [|right; auto].
  apply elem_of_cons in Hx as [->|Hx]; [left | right; auto].
Qed.

Lemma take_filter_subset {A} (f : A -> bool) n l x : x ∈ take n (List.filter f l) -> x ∈ l.
Proof.
  intros H. assert (Hx : x ∈ take n (List.filter f l) ++ drop n (List.filter f l))
    by (apply elem_of_app; by left).
  rewrite take_drop in Hx. apply list_elem_of_In, List.filter_In in Hx as [Hx _].
  by apply list_elem_of_In.
Qed.

Lemma find_member_Ok self db c p m :
  find_member self db c p = Ok (Some m) -> exists k, gdb_members (wdb_campaigns db) !! k = Some m.
Proof.
  unfold find_member. intros H. apply result_bind_Ok in H as (om & Hm & H).
  destruct (negb _); [|discriminate]. injection H as ->.
  destruct (wp_lead_email_transient p) as [email|]; [|discriminate].
  unfold bound_member in Hm. apply result_bind_Ok in Hm as (ids & _ & Hm). cbv zeta in Hm.
  apply result_bind_Ok in Hm as (l & Hl & Hm).
  destruct l as [|m' [|]]; try discriminate. injection Hm as ->.
  pose proof (filter_result_subset _ _ _ Hl m (list_elem_of_here _ _)) as Hin.
  apply elem_of_rows. destruct (list_truthy _); by apply take_filter_subset in Hin.
Qed.

Lemma ingest_cases self db raw now r db' :
  ingest self db raw now = Ok (r, db') ->
  db' = db
  \/ exists p campaign member db1 h db2, event_of self raw p
     /\ taken_in self db p now r db' campaign member db1 h db2.
Proof.
  intros H. destruct (normalize_instantly_webhook_payload raw) as [p|] eqn:Hp;
    [|unfold ingest in H; by rewrite Hp in H].
  destruct (ws_assisted self ≫= (fun ingress => ingress p)) as [answer|] eqn:Ha.
  - left. unfold ingest in H. rewrite Hp in H. cbn [result_bind] in H.
    destruct (bool_decide _); [|discriminate]. destruct (aware now); [|discriminate].
    rewrite Ha in H. by inv_result.
  - destruct (ingest_Ok self db raw now r db' p (conj Hp Ha) H) as [(_ & -> & _)|(c & m & d1 & h & d2 & T)];
      [by left|]. right. by exists p, c, m, d1, h, d2.
Qed.

(** The record of a new event, and nothing else. *)
Lemma recorded_event_Ok db values db' :
  _insert_event db values = Ok (true, db') ->
  exists row, event_columns values = Ok row
    /\ db' = on_campaigns (with_provider_events
               (<[pe_provider_event_ref row := row]> (gdb_events (wdb_campaigns db))) (wdb_campaigns db)) db
    /\ gdb_events (wdb_campaigns db) !! pe_provider_event_ref row = None
    /\ known_event (wdb_campaigns db) (pe_canonical_event_fingerprint row) = false.
Proof.
  unfold _insert_event. intros H. apply result_bind_Ok in H as (row & Hrow & H). cbv zeta in H.
  destruct (known_event _ _) eqn:?; [discriminate|]. apply result_bind_Ok in H as (u & Hkey & H).
  apply check_constraint_Ok, negb_true_iff, truthy_None in Hkey.
  apply result_bind_Ok in H as (u' & _ & [= <-]). by exists row.
Qed.


(** * The records of the events *)

Lemma plan_operation_events db kind ref m fp corr now r db' :
  plan_operation_in_transaction db kind ref m fp corr now = Ok (r, db') ->
  gdb_events db' = gdb_events db.
Proof.
  intros H. destruct (plan_operation_Ok _ _ _ _ _ _ _ _ _ H) as [->|Hi]; [done|].
  by apply insert_operation_Ok in Hi as (-> & _).
Qed.

Lemma plan_pause_events db ref fp corr now db' :
  plan_pause db ref fp corr now = Ok db' -> gdb_events db' = gdb_events db.
Proof.
  unfold plan_pause. intros H. apply result_bind_Ok in H as ([r d] & H & [= <-]).
  by eapply plan_operation_events.
Qed.

Lemma set_member_events db ref f db' :
  set_member db ref f = Ok db' -> gdb_events db' = gdb_events db.
Proof. unfold set_member. intros H. destruct (gdb_members db !! ref); by inv_result. Qed.

Lemma stop_events db campaign member now reason db' :
  stop db campaign member now reason = Ok db' ->
  gdb_events (wdb_campaigns db') = gdb_events (wdb_campaigns db).
Proof.
  unfold stop, _stop_member. intros H. apply result_bind_Ok in H as (c & H & [= <-]). simpl.
  apply result_bind_Ok in H as (d1 & <-%set_member_events & H).
  apply result_bind_Ok in H as (d2 & H2 & ->%plan_pause_events).
  destruct (mb_provider_lead_id member) as [lead|]; [|congruence].
  destruct (nonempty lead); [|congruence]. apply result_bind_Ok in H2 as ([r d] & H2 & [= <-]).
  by eapply plan_operation_events.
Qed.

Lemma email_sent_events self db p campaign member fingerprint now incident event_id db' :
  _email_sent self db p campaign member fingerprint now = Ok (incident, event_id, db') ->
  gdb_events (wdb_campaigns db') = gdb_events (wdb_campaigns db).
Proof.
  intros H. unfold _email_sent in H.
  destruct (wp_step_if_present p) as [[|[q|[q|q|]|]|q]|]; try by inv_result.
  - inv_result. by eapply set_member_events.
  - unfold step_1_sent in H. destruct (mb_step_1_sent_at member) as [recorded|].
    + destruct (dt_eqb _ _); inv_result; [done | by eapply set_member_events].
    + apply result_bind_Ok in H as (inc & _ & H). apply result_bind_Ok in H as ([[i st] known] & _ & H).
      apply result_bind_Ok in H as ([eid j] & _ & H).
      apply result_bind_Ok in H as (c1 & H1%set_member_events & H).
      apply result_bind_Ok in H as (c2 & H2 & [= <- <- <-]). simpl. unfold hold_when_last in H2.
      destruct (_ =? 0); [apply plan_pause_events in H2|]; congruence.
Qed.

Lemma handle_events self db p campaign member fingerprint now h db' :
  handle self db p campaign member fingerprint now = Ok (h, db') ->
  gdb_events (wdb_campaigns db') = gdb_events (wdb_campaigns db).
Proof.
  intros H. unfold handle in H. destruct (wp_event_type p) as [t|]; [|by inv_result].
  destruct t; (try destruct member as [m|]); try discriminate; try by inv_result.
  - apply result_bind_Ok in H as ([[i e] d] & H & [= <- <-]). by eapply email_sent_events.
  - apply result_bind_Ok in H as (d & H & [= <- <-]). by eapply stop_events.
  - apply result_bind_Ok in H as (d & H & H'). apply stop_events in H as <-.
    destruct (ws_response_capability self); by inv_result.
  - apply result_bind_Ok in H as (d & H & H'). apply stop_events in H as <-.
    destruct (ws_response_capability self); by inv_result.
  - apply result_bind_Ok in H as ([i d] & Hu & H). apply result_bind_Ok in H as (d' & H & [= <- <-]).
    apply stop_events in H as ->. unfold unsubscribe in Hu.
    destruct (mb_transport_recipient_identity m); [by injection Hu as <- <-|].
    by apply result_bind_Ok in Hu as ([? ?] & _ & [= <- <-]).
  - apply result_bind_Ok in H as (c & H & [= <- <-]). by eapply plan_pause_events.
  - apply result_bind_Ok in H as (c & H & [= <- <-]). by eapply plan_pause_events.
Qed.

(** The events that ask for a pause have no other record than those there were. *)
Definition no_new_pause_event (db db' : campaign_db) : Prop :=
  forall k e t, gdb_events db' !! k = Some e -> pe_provider_event_type e = provider_event_value t ->
  asks_pause t = true -> gdb_events db !! k = Some e.

#[export] Instance no_new_pause_event_preorder : PreOrder no_new_pause_event.
Proof. split; [by intros db k e t|]. intros a b c H1 H2 k e t H Ht Hp. eauto. Qed.



(** * Deliveries *)

(** An event delivered to a service at a time. *)
Record delivery : Type := mkDelivery {
  de_service : InstantlyWebhookService;
  de_raw : documented_fields;
  de_received_at : datetime;
}.

Definition deliver (d : delivery) (db : webhook_db) : webhook_db :=
  match ingest (de_service d) db (de_raw d) (de_received_at d) with
  | Ok (_, db') => db'
  | Raise _ => db
  end.
Definition deliver_all (ds : list delivery) (db : webhook_db) : webhook_db :=
  fold_left (fun db d => deliver d db) ds db.




(** * Events once *)

(** What is known after an event: what was, and the event. *)
Lemma taken_in_known self db p now r db' campaign member db1 h db2 :
  taken_in self db p now r db' campaign member db1 h db2 ->
  known_event (wdb_campaigns db') (wr_event_fingerprint r) = true
  /\ forall fp, known_event (wdb_campaigns db) fp = true -> known_event (wdb_campaigns db') fp = true.
Proof.
  intros []. apply recorded_event_Ok in ti_insert0 as (row & Hrow & -> & Hnew & _).
  apply event_columns_Ok in Hrow as (_ & Hfp & _). apply handle_events in ti_handle0. subst db'.
  assert (Hafter : forall k e, gdb_events (wdb_campaigns db2) !! k = Some e ->
    known_event (wdb_campaigns (on_campaigns (resolve_event (wdb_campaigns db2) p
      (wr_event_fingerprint r) h) db2)) (pe_canonical_event_fingerprint e) = true).
  { intros k e Hk. apply known_event_spec. eexists k, _. split.
    - cbn [on_campaigns wdb_campaigns resolve_event with_provider_events gdb_events].
      rewrite lookup_fmap, Hk. reflexivity.
    - by case_bool_decide. }
  cbn [on_campaigns wdb_campaigns with_provider_events gdb_events] in ti_handle0.
  rewrite ti_handle0 in Hafter. split.
  - assert (Er : wr_event_fingerprint r = pe_canonical_event_fingerprint row) by (by rewrite Hfp).
    rewrite Er at 2. eapply Hafter. apply lookup_insert_eq.
  - intros fp (k & e & Hk & <-)%known_event_spec. eapply (Hafter k). rewrite lookup_insert_ne; congruence.
Qed.

Lemma deliver_all_known ds db fp :
  known_event (wdb_campaigns db) fp = true -> known_event (wdb_campaigns (deliver_all ds db)) fp = true.
Proof.
  revert db. induction ds as [|d ds IH]; intros db H; [done|]. simpl. apply IH. unfold deliver.
  destruct (ingest _ _ _ _) as [[r db']|] eqn:E; [|done].
  apply ingest_cases in E as [->|(p & c & m & d1 & h & d2 & _ & T)]; [done|].
  by apply (taken_in_known _ _ _ _ _ _ _ _ _ _ _ T).
Qed.

(** What an event is known by. *)
Definition identity_of (p : InstantlyWebhookPayload) : result json :=
  let! t := astimezone_utc (wp_timestamp p) in Ok (stable_content p t).

(** C19 (safety).  An event has its effects once.  After it was taken in,
    and whatever is delivered in between, the same event, whatever else its
    body holds, to the same service or to another that still holds the key,
    changes nothing: when it is answered at all, it is answered as a replay
    (once it is too old, it raises). *)
Theorem provider_event_once self raw p now db r after ds self' raw' p' now' r' db' :
  event_of self raw p -> ingest self db raw now = Ok (r, after) -> wr_replayed r = false ->
  event_of self' raw' p' -> identity_of p' = identity_of p ->
  (let version := wk_current_key_version (ws_fingerprint_keyring self) in
   wk_keys (ws_fingerprint_keyring self') !! version = wk_keys (ws_fingerprint_keyring self) !! version) ->
  ingest self' (deliver_all ds after) raw' now' = Ok (r', db') ->
  wr_replayed r' = true /\ db' = deliver_all ds after.
Proof.
  cbv zeta. intros He H Hnew He' Hid Hkey H'.
  destruct (ingest_Ok _ _ _ _ _ _ _ He H) as [(Hr & _)|(c & m & d1 & h & d2 & T)]; [congruence|].
  destruct (ingest_Ok _ _ _ _ _ _ _ He' H') as [(H1 & H2 & _)|(c' & m' & d1' & h' & d2' & T')]; [done|].
  exfalso. destruct (taken_in_known _ _ _ _ _ _ _ _ _ _ _ T) as [Hknown _].
  apply (deliver_all_known ds) in Hknown.
  destruct T as [(t & enc & key & Ht & Henc & Hk & Hfp) _ _ _ _ _ _ _].
  pose proof (ti_fingerprint _ _ _ _ _ _ _ _ _ _ _ T') as (t' & enc' & key' & Ht' & Henc' & _).
  unfold identity_of in Hid. rewrite Ht, Ht' in Hid. cbn [result_bind] in Hid.
  apply (f_equal (fun r => match r with Ok j => j | Raise _ => JNull end)) in Hid. cbv beta iota in Hid.
  rewrite Hid, Henc in Henc'. injection Henc' as <-.
  set (fps := (fun key => hmac_sha256_hexdigest key (_EVENT_DOMAIN +:+ enc))
      <$> wk_keys (ws_fingerprint_keyring self')).
  assert (Hfps : _fingerprints self' p' = Ok fps)
    by (unfold _fingerprints; rewrite Ht'; cbn [result_bind]; by rewrite Hid, Henc).
  pose proof (ti_new _ _ _ _ _ _ _ _ _ _ _ T' fps Hfps) as Hnone.
  apply (known_recorded (wdb_campaigns (deliver_all ds after)) fps
    (wk_current_key_version (ws_fingerprint_keyring self)) (wr_event_fingerprint r)); [|done|done].
  unfold fps. by rewrite lookup_fmap, Hkey, Hk, Hfp.
Qed.

(** * The second message *)

(** A member written over. *)
Definition changed (ref : string) (f : member_row -> member_row) (members : gmap string member_row)
  : gmap string member_row :=
  match members !! ref with Some r => <[ref := f r]> members | None => members end.

Lemma set_member_members db ref f db' :
  set_member db ref f = Ok db' -> gdb_members db' = changed ref f (gdb_members db).
Proof.
  unfold set_member, changed. intros H. destruct (gdb_members db !! ref); by inv_result.
Qed.

Lemma plan_pause_members db ref fp corr now db' :
  plan_pause db ref fp corr now = Ok db' -> gdb_members db' = gdb_members db.
Proof.
  unfold plan_pause. intros H. apply result_bind_Ok in H as ([r d] & H & [= <-]).
  destruct (plan_operation_Ok _ _ _ _ _ _ _ _ _ H) as [->|Hi]; [done|].
  by apply insert_operation_same in Hi as [_ Hm].
Qed.

Lemma stop_members db campaign member now reason db' :
  stop db campaign member now reason = Ok db' ->
  gdb_members (wdb_campaigns db')
  = changed (mb_ref member) (stopped_member reason now) (gdb_members (wdb_campaigns db)).
Proof.
  unfold stop, _stop_member. intros H. apply result_bind_Ok in H as (c & H & [= <-]). simpl.
  apply result_bind_Ok in H as (d1 & <-%set_member_members & H).
  apply result_bind_Ok in H as (d2 & H2 & ->%plan_pause_members).
  destruct (mb_provider_lead_id member) as [lead|]; [|congruence].
  destruct (nonempty lead); [|congruence]. apply result_bind_Ok in H2 as ([r d] & H2 & [= <-]).
  destruct (plan_operation_Ok _ _ _ _ _ _ _ _ _ H2) as [->|Hi]; [done|].
  by apply insert_operation_same in Hi as [_ Hm].
Qed.

(** What an event writes to a member: it waits for a second message only
    when the first was sent in its window. *)
Inductive member_change (p : InstantlyWebhookPayload) (c : campaign_row) (m : member_row)
  : (member_row -> member_row) -> Prop :=
| ChangeEnds f : (forall r, mb_sequence_state (f r) <> WAITING_STEP2) -> member_change p c m f
| ChangeWaits start due due_utc fp event_id event_ref now :
    wp_event_type p = Some EMAIL_SENT -> wp_step_if_present p = Some 1 ->
    mb_execution_state m = MemberQUEUED -> mb_step_1_sent_at m = None ->
    astimezone_utc (combine (sw_step_1_execution_date (ca_window c)) NINE (sw_timezone (ca_window c)))
    = Ok start -> instant start <= instant (wp_timestamp p) ->
    instant (wp_timestamp p) < instant (assume_utc (sw_step_1_authorization_deadline (ca_window c))) ->
    materialize_step_2_timing (read_window (ca_window c)) (wp_timestamp p) = Ok due ->
    astimezone_utc due = Ok due_utc ->
    member_change p c m
      (sent_member WAITING_STEP2 None event_id (Some (wp_timestamp p, due_utc, fp)) event_ref now).

Lemma sent_member_sequence s i e k ref now r : mb_sequence_state (sent_member s i e k ref now r) = s.
Proof. unfold sent_member. by repeat case_match. Qed.

Lemma step_1_timing_Ok p c m inc i st known event_id event_ref now :
  wp_event_type p = Some EMAIL_SENT -> wp_step_if_present p = Some 1 -> mb_step_1_sent_at m = None ->
  step_1_incident c m (wp_timestamp p) = Ok inc ->
  step_1_timing c m (wp_timestamp p) inc = Ok (i, st, known) ->
  member_change p c m (sent_member st i event_id known event_ref now).
Proof.
  intros Ht Hs1 Hsent Hinc Htiming.
  assert (Hstopped : st = SequenceSTOPPED ->
    member_change p c m (sent_member st i event_id known event_ref now)).
  { intros ->. constructor. intros r. by rewrite sent_member_sequence. }
  unfold step_1_timing in Htiming. destruct inc as [s|]; [apply Hstopped; congruence|].
  apply result_bind_Ok in Htiming as (w & Hw & Htiming).
  unfold window_validate in Hw. destruct (in_list _ _); [|discriminate].
  destruct (_ && _); [|discriminate]. injection Hw as <-.
  destruct (materialize_step_2_timing _ _) as [due|x] eqn:Hm;
    [|destruct x; try discriminate; apply Hstopped; congruence].
  apply result_bind_Ok in Htiming as (due_utc & Hdue & Htiming).
  apply result_bind_Ok in Htiming as (fp & Hfp & [= <- <- <-]).
  unfold step_1_incident in Hinc. apply result_bind_Ok in Hinc as (start & Hstart & Hinc).
  destruct (mb_execution_state m) eqn:Ex; try discriminate. injection Hinc as Hinc.
  unfold classify_email_sent in Hinc. cbn in Hinc.
  destruct (dt_ltb (wp_timestamp p) start || dt_leb _ _) eqn:Hb; [discriminate|].
  apply orb_false_iff in Hb as [B1 B2]. unfold dt_ltb, dt_leb in B1, B2.
  eapply (ChangeWaits p c m start due); try done; lia.
Qed.

Lemma email_sent_members self db p campaign m fingerprint now incident event_id db' :
  wp_event_type p = Some EMAIL_SENT ->
  _email_sent self db p campaign m fingerprint now = Ok (incident, event_id, db') ->
  gdb_members (wdb_campaigns db') = gdb_members (wdb_campaigns db)
  \/ exists f, member_change p campaign m f
     /\ gdb_members (wdb_campaigns db') = changed (mb_ref m) f (gdb_members (wdb_campaigns db)).
Proof.
  intros Ht H. unfold _email_sent in H.
  destruct (wp_step_if_present p) as [[|[q|[q|q|]|]|q]|] eqn:Hstep; try (left; by inv_result).
  - right. inv_result. eexists. split; [|by eapply set_member_members]. by constructor.
  - unfold step_1_sent in H. destruct (mb_step_1_sent_at m) as [recorded|] eqn:Hsent.
    + destruct (dt_eqb _ _); [left; by inv_result|]. right. inv_result.
      eexists. split; [|by eapply set_member_members]. by constructor.
    + apply result_bind_Ok in H as (inc & Hi & H).
      apply result_bind_Ok in H as ([[i st] known] & Htm & H).
      apply result_bind_Ok in H as ([eid j] & _ & H).
      apply result_bind_Ok in H as (c1 & H1%set_member_members & H).
      apply result_bind_Ok in H as (c2 & H2 & [= <- <- <-]). right. eexists.
      split; [by eapply step_1_timing_Ok|]. simpl. rewrite <- H1. unfold hold_when_last in H2.
      destruct (_ =? 0); [by apply plan_pause_members in H2 | congruence].
Qed.

Lemma handle_members self db p campaign member fingerprint now h db' :
  handle self db p campaign member fingerprint now = Ok (h, db') ->
  gdb_members (wdb_campaigns db') = gdb_members (wdb_campaigns db)
  \/ exists m f, member = Some m /\ member_change p campaign m f
     /\ gdb_members (wdb_campaigns db') = changed (mb_ref m) f (gdb_members (wdb_campaigns db)).
Proof.
  intros H. unfold handle in H. destruct (wp_event_type p) as [t|] eqn:Et; [|left; by inv_result].
  assert (Hstop : forall d m reason d', wdb_campaigns d = wdb_campaigns db -> member = Some m ->
    stop d campaign m now reason = Ok d' -> exists m f, member = Some m /\ member_change p campaign m f
     /\ gdb_members (wdb_campaigns d') = changed (mb_ref m) f (gdb_members (wdb_campaigns db))).
  { intros d m reason d' E -> Hs%stop_members. exists m, (stopped_member reason now). rewrite <- E.
    split; [done|]. split; [by apply ChangeEnds | exact Hs]. }
  destruct t; (destruct member as [m|]); try discriminate; try (left; by inv_result).
  - apply result_bind_Ok in H as ([[i e] d] & H & [= <- <-]).
    apply email_sent_members in H as [H|(f & H1 & H2)]; [by left | right; by exists m, f | done].
  - apply result_bind_Ok in H as (d & H & [= <- <-]). right. by eapply Hstop.
  - apply result_bind_Ok in H as (d & H & H'). right. eapply Hstop in H; [|done..].
    destruct (ws_response_capability self); by inv_result.
  - apply result_bind_Ok in H as (d & H & H'). right. eapply Hstop in H; [|done..].
    destruct (ws_response_capability self); by inv_result.
  - apply result_bind_Ok in H as ([i d] & Hu & H). apply result_bind_Ok in H as (d' & H & [= <- <-]).
    right. eapply Hstop; [|done | exact H]. unfold unsubscribe in Hu.
    destruct (mb_transport_recipient_identity m); [by injection Hu as <- <-|].
    by apply result_bind_Ok in Hu as ([? ?] & _ & [= <- <-]).
  - apply result_bind_Ok in H as (c & H & [= <- <-]). left. by eapply plan_pause_members.
  - apply result_bind_Ok in H as (c & H & [= <- <-]). left. by eapply plan_pause_members.
Qed.

Lemma bound_member_campaign self db ref email m :
  bound_member self db ref email = Ok (Some m) -> mb_campaign m = ref.
Proof.
  unfold bound_member. intros H. apply result_bind_Ok in H as (ids & _ & H). cbv zeta in H.
  apply result_bind_Ok in H as (l & Hl & H). destruct l as [|m' [|]]; try discriminate. injection H as ->.
  pose proof (filter_result_subset _ _ _ Hl m (list_elem_of_here _ _)) as Hin.
  assert (Hf : forall f n ms, m ∈ take n (List.filter f ms) -> f m = true).
  { intros f n ms Hx. assert (Hx' : m ∈ take n (List.filter f ms) ++ drop n (List.filter f ms))
      by (apply elem_of_app; by left).
    rewrite take_drop in Hx'. by apply list_elem_of_In, List.filter_In in Hx' as [_ Hx']. }
  destruct (list_truthy _); apply Hf in Hin; unfold transport_bound, contact_bound in Hin;
    rewrite !andb_true_iff, bool_decide_eq_true in Hin; tauto.
Qed.

(** C17 (safety).  An event lets a member wait for a second message only when
    it is the sending of the first, of a member queued with its
    authorisation and not sent before, between nine o'clock of its day and
    the deadline of its campaign.  The member is then sent, its sending is
    recorded, and the second message is due when the calendar says. *)
Theorem second_message_needs_first ops db self raw now r after k m m' :
  same_batches (apply_campaign_ops ops empty_campaign_db) (wdb_campaigns db) ->
  ingest self db raw now = Ok (r, after) ->
  gdb_members (wdb_campaigns db) !! k = Some m -> gdb_members (wdb_campaigns after) !! k = Some m' ->
  mb_sequence_state m <> WAITING_STEP2 -> mb_sequence_state m' = WAITING_STEP2 ->
  exists p c start due due_utc,
    normalize_instantly_webhook_payload raw = Ok p
    /\ wp_event_type p = Some EMAIL_SENT /\ wp_step_if_present p = Some 1
    /\ gdb_campaigns (wdb_campaigns db) !! mb_campaign m = Some c
    /\ mb_execution_state m = MemberQUEUED /\ mb_step_1_sent_at m = None
    /\ astimezone_utc (combine (sw_step_1_execution_date (ca_window c)) NINE
                         (sw_timezone (ca_window c))) = Ok start
    /\ instant start <= instant (wp_timestamp p)
       < instant (assume_utc (sw_step_1_authorization_deadline (ca_window c)))
    /\ materialize_step_2_timing (read_window (ca_window c)) (wp_timestamp p) = Ok due
    /\ astimezone_utc due = Ok due_utc
    /\ mb_execution_state m' = MemberSENT
    /\ mb_step_1_sent_at m' = Some (timestamptz (wp_timestamp p))
    /\ mb_step_2_due_at m' = Some (timestamptz due_utc).
Proof.
  intros [Ec Em] H Hm Hm' Hbefore Hafter. destruct (runs_ok ops) as [Hok Hfp].
  apply ingest_cases in H as [->|(p & c & member & d1 & h & d2 & [Hp _] & [])]; [congruence|].
  apply recorded_event_Ok in ti_insert0 as (row & _ & -> & _). subst after.
  change (gdb_members (wdb_campaigns d2) !! k = Some m') in Hm'.
  apply handle_members in ti_handle0 as [E|(m0 & f & -> & Hchange & E)].
  { rewrite E in Hm'. change (gdb_members (wdb_campaigns db) !! k = Some m') in Hm'. congruence. }
  destruct (find_member_Ok _ _ _ _ _ ti_member0) as [k0 Hk0].
  assert (Href : mb_ref m0 = k0) by (apply (gk_member_ref _ Hok); by rewrite <- Em).
  rewrite E in Hm'. change (gdb_members (wdb_campaigns (on_campaigns _ db)))
    with (gdb_members (wdb_campaigns db)) in Hm'.
  unfold changed in Hm'. rewrite Href, Hk0 in Hm'.
  apply lookup_insert_Some in Hm' as [[<- <-]|[_ Hm']]; [|congruence].
  assert (m0 = m) as -> by congruence.
  destruct Hchange as [f Hends|start due due_utc fp eid eref t H1 H2 H3 H4 H5 H6 H7 H8 H9];
    [by destruct (Hends m)|].
  destruct (bound_campaign_Ok _ _ _ ti_campaign0) as [kc Hkc].
  exists p, c, start, due, due_utc. repeat (split; [done|]).
  split.
  { unfold find_member in ti_member0. apply result_bind_Ok in ti_member0 as (om & Hom & Hreq).
    destruct (negb _); [|discriminate]. injection Hreq as ->.
    destruct (wp_lead_email_transient p) as [email|]; [|discriminate].
    rewrite (bound_member_campaign _ _ _ _ _ Hom).
    assert (Hc : ca_ref c = kc) by (apply (bk_ref _ _ _ (gk_batch _ Hok kc c ltac:(by rewrite <- Ec)))).
    by rewrite Hc. }
  by repeat (split; [done|]).
Qed.
End theorems.

(** * Concrete events *)

Module WebhookSample.
Import ComplianceTheorems.ComplianceSample.
#[export] Existing Instance FixedZones.

(** Tuesday 1 September 2026. *)
Definition tuesday : date := mkdate 2026 9 1.
Definition at_ (hours minutes : Z) : datetime := mkdt 2026 9 1 hours minutes 0 0 (Some 0).

Definition input : CampaignFactoryInput :=
  mkFactoryInput "masonry" "1" InFR InFR French "supply" "1" "1" "1" "1" "1" "sender" "1" ZEROS tuesday.
Definition any_reference : campaign_references :=
  mkCampaignReferences (fun _ => true) (fun _ => true) (fun _ => true) (fun _ => true)
    (fun _ => true) (fun _ => true).
Definition reservation (opportunity contact : string) : CampaignMemberReservation :=
  mkReservation opportunity "supplier-1" contact "artifact" ZEROS "assessment" ZEROS
    ("evaluation-" +:+ opportunity) [] ZEROS ZEROS ZEROS ZEROS ZEROS ZEROS "mailbox" ZEROS ZEROS.
Definition reserve (opportunity contact : string) : campaign_op :=
  OpReserve any_reference input (reservation opportunity contact)
    (mkReserveRequest "workspace" ZEROS (at_ 7 0) None None None).

Definition batch_ref : string := campaign_ref_of (group_key_of input) 1.
Definition first_ref : string := member_ref_of "opp-1".
Definition reserved_ops : list campaign_op :=
  [reserve "opp-1" contact_ref; reserve "opp-2" "another"; OpBindCampaign batch_ref "campaign" None (at_ 7 0)].

(** The first member is put in the queue. *)
Definition queued (m : member_row) : member_row :=
  mkMember (mb_identity m) None None None None None None None MemberQUEUED PENDING_STEP1 None None None
    None None None None (at_ 7 30).
Definition queue_ops : list campaign_op :=
  match gdb_members (apply_campaign_ops reserved_ops empty_campaign_db) !! first_ref with
  | Some m => [OpMember first_ref (queued m)]
  | None => []
  end.
Definition store_ops : list campaign_op := reserved_ops ++ queue_ops.
Definition tables : campaign_db := apply_campaign_ops store_ops empty_campaign_db.
Definition database : webhook_db := mkwdb tables compliance journal.

Definition service : InstantlyWebhookService :=
  mkWebhookService "workspace" (mkWebhookKeyring "w1" {["w1" := "secret"]}) keyring NONE None None
    (fun s => s) "evt-sent".
Definition body (type : string) (step : option Z) : documented_fields :=
  mkDocumented type (at_ 9 0) "workspace" "campaign" "KIVOU" (Some " Jeanne@batir.fr ") None None None
    None None None step None (Some "email-1").

Definition outcome (r : result (WebhookIngestResult * webhook_db)) : option exn * option bool :=
  match r with Ok (r, _) => (None, Some (wr_replayed r)) | Raise e => (Some e, None) end.

Lemma sending_taken_in :
  outcome (ingest service database (body "email_sent" (Some 1)) (at_ 9 5)) = (None, Some false).
Proof. vm_compute. reflexivity. Qed.

Lemma same_tables :
  same_batches (apply_campaign_ops store_ops empty_campaign_db) (wdb_campaigns database).
Proof. done. Qed.





Lemma sending_is_event : exists p, event_of service (body "email_sent" (Some 1)) p.
Proof.
  destruct (normalize_instantly_webhook_payload (body "email_sent" (Some 1))) as [p|] eqn:E;
    [|vm_compute in E; discriminate E].
  exists p. split; [exact E | reflexivity].
Defined.

(** The sending again, after an opening. *)
Lemma provider_event_once_witness :
  outcome (ingest service
    (deliver_all [mkDelivery service (body "email_opened" None) (at_ 9 6)]
       (deliver (mkDelivery service (body "email_sent" (Some 1)) (at_ 9 5)) database))
    (body "email_sent" (Some 1)) (at_ 9 30)) = (None, Some true).
Proof.
  destruct sending_is_event as [p Hp]. pose proof sending_taken_in as E. unfold deliver. cbn [de_service de_raw de_received_at].
  destruct (ingest service database (body "email_sent" (Some 1)) (at_ 9 5)) as [[r after]|] eqn:Er;
    [|discriminate E].
  injection E as E.
  assert (F : fst (outcome (ingest service
    (deliver_all [mkDelivery service (body "email_opened" None) (at_ 9 6)]
       (deliver (mkDelivery service (body "email_sent" (Some 1)) (at_ 9 5)) database))
    (body "email_sent" (Some 1)) (at_ 9 30))) = None) by (vm_compute; reflexivity).
  unfold deliver in F. cbn [de_service de_raw de_received_at] in F. rewrite Er in F.
  destruct (ingest service (deliver_all _ after) (body "email_sent" (Some 1)) (at_ 9 30))
    as [[r' db']|e] eqn:Er'; [|discriminate F].
  destruct (provider_event_once service _ p _ database r after _ service _ p _ r' db' Hp Er E Hp eq_refl
    eq_refl Er') as [Hr _].
  unfold outcome. rewrite Hr. reflexivity.
Defined.

Lemma waiting_after :
  match ingest service database (body "email_sent" (Some 1)) (at_ 9 5) with
  | Ok (_, after) => mb_sequence_state <$> gdb_members (wdb_campaigns after) !! first_ref
  | Raise _ => None
  end = Some WAITING_STEP2.
Proof. vm_compute. reflexivity. Qed.
Lemma queued_before :
  (fun m => (mb_sequence_state m, mb_execution_state m)) <$> gdb_members tables !! first_ref
  = Some (PENDING_STEP1, MemberQUEUED).
Proof. vm_compute. reflexivity. Qed.

Lemma second_message_needs_first_witness :
  exists m m' due, gdb_members tables !! first_ref = Some m /\ mb_execution_state m' = MemberSENT
  /\ mb_step_1_sent_at m' = Some (at_ 9 0) /\ mb_step_2_due_at m' = Some due.
Proof.
  pose proof queued_before as B. pose proof waiting_after as E.
  destruct (gdb_members tables !! first_ref) as [m|] eqn:Em; [|discriminate B].
  destruct (ingest service database (body "email_sent" (Some 1)) (at_ 9 5)) as [[r after]|] eqn:Er;
    [|discriminate E].
  destruct (gdb_members (wdb_campaigns after) !! first_ref) as [m'|] eqn:Em'; [|discriminate E].
  injection B as B _. injection E as E.
  assert (Hb : mb_sequence_state m <> WAITING_STEP2) by (rewrite B; discriminate).
  destruct (second_message_needs_first store_ops database service _ _ r after first_ref m m'
    same_tables Er Em Em' Hb E)
    as (p & c & st & d & due & Hp & _ & _ & _ & _ & _ & _ & _ & _ & _ & H1 & H2 & H3).
  exists m, m', (timestamptz due). split; [reflexivity|]. split; [exact H1|]. split; [|exact H3].
  rewrite H2. f_equal. vm_compute in Hp. injection Hp as <-. reflexivity.
Defined.
End WebhookSample.
